(* ===== verification/_CoqProject ===== *)
-Q . S2P
Prelude.v
Util.v
Mem.v
Pool.v
Buf.v
Dict.v
Item.v
BaseProps.v
Conf.v
Svr.v
Req.v
Parse.v
Store.v
CmdStr.v
CmdHash.v
CmdList.v
CmdDb.v
CmdProps.v
Kdb.v
KdbProps.v
Blog.v
Proto.v
ProtoProps.v
Stream.v
Serve.v
Effects.v
Conn.v
Load.v
LoadLong.v
Replay.v
Heap.v
RawList.v
Cache.v
Ev.v
EvProps.v
EvView.v
Select.v
Epoll.v
Poll.v
Kqueue.v
Lua.v
LuaProps.v
Cron.v
Life.v
LifeProps.v
LifeSafe.v
Main.v
Server.v
Stop.v
Recover.v
Linux.v
Bsd.v
Proc.v
Log.v
Boot.v
