(* ===== verification/Prelude.v ===== *)
(** * A model of freekick, a key-value server in C

    freekick speaks the protocol of Redis. A client's bytes go through an event loop
    (fk_ev.c over select, poll, epoll or kqueue) to the read callback of its connection
    (fk_svr_conn.c), which receives into a growable buffer (fk_buf.c), parses complete
    requests into an argument vector (fk_vtr.c), looks the command up in a table
    (fk_svr_proto.c) and runs its handler (fk_svr_str.c, fk_svr_hash.c, fk_svr_zset.c,
    fk_svr_list.c, fk_svr_db.c, fk_svr_lua.c) on the dictionaries of the databases
    (fk_dict.c), whose elements are reference-counted items (fk_item.c). Replies go to the
    write buffer of the connection. Commands that change the store are appended to a
    binary log (fk_svr_blog.c), and the store can be dumped to a file and restored from it
    (fk_svr_kdb.c).

    ** The files, from the bottom up

    - Prelude: machine integers, lists indexed by [Z], the monad [ST] of programs that
      change a state and may be undefined ([None]: the C program has no defined
      behaviour), its rule [wp], tactics and hints.
    - Util (fk_util.c, fk_str.c), Buf (fk_buf.c, fk_vtr.c), Dict (fk_dict.c), Item
      (fk_item.c, the callbacks of fk_svr.c), BaseProps: the data structures.  Heap
      (fk_heap.c) and RawList (fk_list.c) model the two that link nodes in memory, with
      their pointers.  Pool (fk_pool.c) and Cache (fk_cache.c) keep memory for reuse; the
      server only initialises the second.  Mem (fk_mem.c, fk_num.c): the wrappers of the
      allocator with their count.
    - Conf (fk_conf.c): the settings and the parser of the configuration file.
    - Svr: [fk_conn] and [fk_svr], the records of fk_svr.h, with the functions that
      write replies.  A [world] is the server with the connection being served, the
      argument of every handler.
    - Req: the request parser as a function of bytes; Parse: [fk_conn_parse_req] on the
      connection's buffer, vector and items, which computes it.
    - Store: the abstract store [astate], finite maps from keys to values and expiry
      times for each database, and the view [abs] of a world; CmdStr, CmdHash, CmdList,
      CmdDb: the handlers, each with its specification in a module [Spec] as a function
      on the store; CmdProps: sequences of commands.
    - Kdb, KdbProps (fk_svr_kdb.c): dump and restore; Blog, Load (fk_svr_blog.c): writing
      and replaying the log; LoadLong: a long command in the log; Replay: what the entries
      that serving logged restore.
    - Proto, ProtoProps: the command table and [fk_conn_proc_cmd]; Lua, LuaProps
      (fk_svr_lua.c): EVAL and [redis.pcall].
    - Stream, Serve, Conn: the requests in a stream of bytes, the loop that serves them,
      and receiving from a socket in packets.  Effects: what requests leave alone.
    - Ev, EvProps (fk_ev.c): the event manager over an interface of backends ([Mpx], with
      the laws [MpxLaws]); EvView: what its users see of it, with a rule for each call;
      Select, Epoll, Poll, Kqueue: the backends (fk_ev_select.c and so on);
      all but Poll keep the laws (Kqueue accepts an event that is there already, which the
      laws leave open).
    - Cron (fk_svr.c, fk_svr_kdb.c, fk_svr_blog.c): the work of the server's timer
      (expired keys, the child processes of the background save and of the log rewrite).
    - Life (fk_svr_conn.c, fk_svr.c): connections as objects with events, in the table of
      connections; accepting, the callbacks, sending, closing.  LifeProps: the history of
      what the server executed, and the invariant [life_inv] that ties it to the store, the
      buffers, the events and the table; LifeSafe: every callback keeps it.
    - Main (fk_svr.c, freekick.c): start, main loop and end; Server: the states that the
      whole program reaches, and what holds of them; Stop: signals, the end, and the next
      start with the dump; Recover: the next start with the log; Linux and Bsd: the
      same program over epoll and kqueue, the backends of the Makefile.
    - Proc: the process (descriptors, files, sockets, session, what it wrote) and the
      monad [PR] of programs that may end it; Log (fk_log.c, the backtrace of fk_util.c);
      Boot (freekick.c, fk_sock.c): the whole program from [main] on, with the server of
      Main in its middle.

    ** What is shown

    The properties are numbered in the order of their importance. The first group follows
    a request: the parser accepts exactly the encodings of requests and does not depend on
    how bytes are cut into packets; a request is answered as the specification of its
    command says, the store changes accordingly, and the log gets its encoding; one run of
    the read callback serves the stream of requests in order. For the whole server
    (Server.v), over every behaviour of the kernel and of its clients: its state, its log
    and all replies are those of one sequence of requests, each client's in its order and
    in the database that it has selected; it never gets stuck, no reply is forgotten, and
    a signal ends it; and the start of the program (Boot.v), in the foreground or as a
    daemon, makes the process in which such a server starts. The second group is about
    persistence: a dump restores, the log replays, and a server that is started after
    another, with its dump or with its log, holds the data of the first. The third shows
    that the data structures refine finite maps, queues, sequences and priority queues,
    that the pool never hands out memory in use, that the count of allocated bytes is
    exact, that the log file holds a line for each call, and that the event manager keeps
    its invariant under any calls its callbacks may make. Sequences of commands (SETEX
    then GET, MSET then GET, and so on) are stated on their replies. The last group shows
    where the program does not do what it means to: each is a theorem about every state
    in which it does so, with an instance.

    ** Conventions, bounds and fuel

    The theorems about the whole server assume ([server_ok]) what the kernel promises
    ([os_ok]: a new descriptor is the lowest that is free, a child that is waited for was
    forked, [rand] is not negative, and [accept] fails only for want of connections or by
    a signal; with another error the behaviour is undefined, which is a theorem too); that
    no client sends a command that is undefined behaviour or forks or reads files by
    itself ([calm]: no EVAL, SAVE or ZADD), nor, to a server that logs, an argument longer
    than the log can hold, nor, to a server with several databases, SETEX (the timer may
    then loop for ever, which is a theorem too); and a start ([start_ok]) with a log that
    is empty if the server logs, and with no dump or one that a server has saved. Signals
    are handled between two turns of the main loop, since a handler only sets a flag or
    counts. A child process that saves or rewrites the log is a copy of the server, whose
    files are not those that the model keeps: only the parent's calls change them.

    [fk_ev_init] leaves [read_ev] and [write_ev] as [malloc] does: the model starts from
    any arrays in which no cell was written ([unwritten]), and reading such a cell has no
    result. A turn of the main loop is therefore shown to return for the answers of the
    backend that make it read none ([wrote]); every answer that names only types that are
    watched is one ([reports_watched]), and so is every answer of select or kqueue, but a
    hang-up, over epoll, on a descriptor that never had an event for writing is not
    ([Epoll.epoll_hup_reads_uninitialised]).

    A dump is written through the buffer of a stream (4096 bytes): [fwrite] fails when
    what the buffer passes on does not fit on the disk, and what is left in it at the end
    may be lost without a sign ([full_disk_cuts_dump]), since [fk_kdb_save] ignores the
    results of [fflush], [fsync] and [fclose]. [kdb_save_load] and [restart_restores]
    assume that the disk has room for the dump, and data that a dump can hold: no empty
    key or field, no skiplist, numbers and lengths of 64 bits.

    The replay of the log: [blog_load_replays] assumes complete, described requests of at
    most four arguments in less than 4 MB, and shows that the replay executes them up to
    the one whose reply has no room in its write buffer, or all of them, to the end of the
    log. A longer first command is not replayed at all (LoadLong). A key that one
    connection sets after another has selected a database is replayed into that database
    ([blog_mixes_databases]).

    The heap of the timers is shown to be a priority queue under pushes and pops in any
    order, a leaf being pushed again after it was popped, as the timers do, with any rank
    ([pq_step]); removing another leaf than the root breaks the order
    ([heap_remove_breaks_order]).

    [log_restores] assumes in addition that the clients sent no SETEX, whose time would
    count from the replay, no request of more than four arguments, which the replay cannot
    take, and with several databases no SELECT, which the log does not hold
    ([plain_request]), and that they are still connected, since the model keeps what a
    client sent and not when it left. The replay puts its replies in a buffer that nobody
    empties: the theorem says what holds if that buffer is not full.

    Integers are [Z] with the wrap-around of their C type written out (u8, i32, i64).
    Reading a cell that was never written, an index out of range, following NULL or a
    freed address has no result, except in Item: a change of the count of a freed item is
    recorded in the flag [im_bad] of the items and the program goes on. The request parser
    is shown not to set it; that the commands never do is not shown. Loops are structural
    where the code's counter is, and otherwise take fuel: the bytes left to parse, the
    packets left to read, the timers in the heap, the events in a list, one turn for each
    database. Every such loop has a theorem that the fuel given suffices. Buffers follow
    FK_BUF_HIGHWAT (4 MB), arguments are at most FK_ARG_HIGHWAT (1 MB) and 128. What the
    kernel and the C library answer (packets, [send], the clock, the disk's room,
    [epoll_ctl], [rand]) is an argument.

    ** Not modelled

    Allocation does not fail in the models of the other components, which have no
    addresses of their own where the code's behaviour does not depend on them. The log
    calls of the server are only modelled where they are all that a function does (the
    start of the program): they change no other state. FK_DEBUG is not defined. The modes
    of files, and what two processes do to the same file. The Lua library and jemalloc
    under src/3rd (the first is a parameter of Lua.v, the second of Mem.v). *)
From Stdlib Require Export ZArith Lia Ascii.
From stdpp Require Export base tactics numbers list gmap strings option.
Export list_basics.list list_relations.list list_monad.list list_misc.list list_tactics.list.

#[global] Open Scope Z_scope.

(** ** Machine integers (LP64): wrap-around of the C integer types *)

Definition u8 (z : Z) : Z := z mod 2 ^ 8.
Definition u16 (z : Z) : Z := z mod 2 ^ 16.
Definition u32 (z : Z) : Z := z mod 2 ^ 32.
Definition u64 (z : Z) : Z := z mod 2 ^ 64.
Definition i32 (z : Z) : Z := (z + 2 ^ 31) mod 2 ^ 32 - 2 ^ 31.
Definition i64 (z : Z) : Z := (z + 2 ^ 63) mod 2 ^ 64 - 2 ^ 63.

Definition INT_MAX : Z := 2 ^ 31 - 1.

(** ** Characters and byte strings *)

Abbreviation bytes := (list ascii).

(** A C [char] read as [unsigned char] and, the x86 default, as [signed char]. *)
Definition uchar (c : ascii) : Z := Z.of_N (N_of_ascii c).
Definition schar (c : ascii) : Z :=
  if uchar c <? 128 then uchar c else uchar c - 256.

Definition char_of (z : Z) : ascii := ascii_of_N (Z.to_N (u8 z)).

Definition NUL : ascii := "000"%char.
Definition LF : ascii := "010"%char.
Definition CR : ascii := "013"%char.
Definition CRLF : bytes := [CR; LF].

(** String literals of the source as byte strings. *)
Definition lit (s : string) : bytes := String.list_ascii_of_string s.

(** ** Sizes, slices and updates with [Z] offsets *)

Definition zlen {A} (l : list A) : Z := Z.of_nat (length l).
Definition ztake {A} (n : Z) (l : list A) : list A := take (Z.to_nat n) l.
Definition zdrop {A} (n : Z) (l : list A) : list A := drop (Z.to_nat n) l.
Definition znth {A} (l : list A) (i : Z) : option A :=
  if i <? 0 then None else l !! Z.to_nat i.
Definition zupd {A} (l : list A) (i : Z) (x : A) : list A :=
  if i <? 0 then l else <[Z.to_nat i := x]> l.

(** [memcpy] of [cs] at offset [off] of a block of memory. *)
Definition splice {A} (off : Z) (cs l : list A) : list A :=
  ztake off l ++ cs ++ zdrop (off + zlen cs) l.

(** [memchr]: the offset of the first [c]. *)
Fixpoint memchr (c : ascii) (l : bytes) : option Z :=
  match l with
  | [] => None
  | x :: l' => if Ascii.eqb x c then Some 0 else Z.succ <$> memchr c l'
  end.

(** The part of a block before its first NUL: what [%s] prints. *)
Fixpoint cstr (l : bytes) : bytes :=
  match l with
  | [] => []
  | x :: l' => if Ascii.eqb x NUL then [] else x :: cstr l'
  end.

Definition nul_free (l : bytes) : Prop := NUL ∉ l.

(** ** Decimal numerals: [%d]/[%zu] and [atoi] *)

Definition digit (d : Z) : ascii := char_of (48 + d).
Definition is_digit (c : ascii) : bool := (48 <=? uchar c) && (uchar c <=? 57).
Definition digit_val (c : ascii) : Z := uchar c - 48.

(** Digits of a non-negative number, most significant first; 20 digits are
    enough for every 64-bit value. *)
Fixpoint dec_fuel (fuel : nat) (n : Z) : bytes :=
  match fuel with
  | O => []
  | S f => if n <? 10 then [digit n] else dec_fuel f (n / 10) ++ [digit (n mod 10)]
  end.

Definition dec (n : Z) : bytes := dec_fuel 20 n.

(** [%d] *)
Definition fmt_d (n : Z) : bytes := if n <? 0 then "-"%char :: dec (- n) else dec n.

Definition is_space (c : ascii) : bool :=
  (uchar c =? 32) || ((9 <=? uchar c) && (uchar c <=? 13)).

Fixpoint skip_space (l : bytes) : bytes :=
  match l with
  | c :: l' => if is_space c then skip_space l' else l
  | [] => []
  end.

Fixpoint digits_val (acc : Z) (l : bytes) : Z :=
  match l with
  | c :: l' => if is_digit c then digits_val (10 * acc + digit_val c) l' else acc
  | [] => acc
  end.

(** [strtol(s, NULL, 10)] of glibc: saturates at the bounds of [long]. *)
Definition strtol (s : bytes) : Z :=
  let clamp z := Z.max (- 2 ^ 63) (Z.min (2 ^ 63 - 1) z) in
  match skip_space s with
  | c :: l =>
      if Ascii.eqb c "-"%char then clamp (- digits_val 0 l)
      else if Ascii.eqb c "+"%char then clamp (digits_val 0 l)
      else clamp (digits_val 0 (c :: l))
  | [] => 0
  end.

(** glibc's [atoi] is [(int) strtol]. *)
Definition atoi (s : bytes) : Z := i32 (strtol s).
Definition atol (s : bytes) : Z := strtol s.

(** ** The state-and-failure monad of the handlers

    [None] stands for undefined behaviour of the C program (an access outside
    an array, a NULL dereference). *)

Definition ST (W A : Type) : Type := W -> option (A * W).

#[export] Instance ST_ret (W : Type) : MRet (ST W) := fun A a w => Some (a, w).
#[export] Instance ST_bind (W : Type) : MBind (ST W) :=
  fun A B k m w => match m w with Some (a, w') => k a w' | None => None end.

Definition st_get {W} : ST W W := fun w => Some (w, w).
Definition st_put {W} (w : W) : ST W unit := fun _ => Some (tt, w).
Definition st_mod {W} (f : W -> W) : ST W unit := fun w => Some (tt, f w).
Definition st_gets {W A} (f : W -> A) : ST W A := fun w => Some (f w, w).
Definition st_lift {W A} (o : option A) : ST W A :=
  fun w => match o with Some a => Some (a, w) | None => None end.

(** ** Tactics *)

(** Case analysis on the innermost boolean or option the goal matches on. *)
Ltac cases_if :=
  match goal with
  | |- context [if ?b then _ else _] =>
      lazymatch b with
      | context [if _ then _ else _] => fail
      | _ => let E := fresh "E" in destruct b eqn:E
      end
  end.

Ltac bool_lia :=
  repeat match goal with
  | H : (_ && _) = true |- _ => apply andb_true_iff in H as [? ?]
  | H : (_ && _) = false |- _ => apply andb_false_iff in H
  | H : (_ || _) = true |- _ => apply orb_true_iff in H
  | H : (_ || _) = false |- _ => apply orb_false_iff in H as [? ?]
  | H : negb _ = true |- _ => apply negb_true_iff in H
  | H : negb _ = false |- _ => apply negb_false_iff in H
  end; lia.

Create HintDb fk.
Create Rewrite HintDb fk.

(** ** Integers *)

Lemma i32_small z : - 2 ^ 31 <= z < 2 ^ 31 -> i32 z = z.
Proof. intros H. unfold i32. rewrite Z.mod_small; lia. Qed.

Lemma i32_le z : 0 <= z -> i32 z <= z.
Proof. intros H. unfold i32. pose proof (Z.mod_le (z + 2 ^ 31) (2 ^ 32) ltac:(lia) eq_refl). lia. Qed.

Lemma i32_range z : - 2 ^ 31 <= i32 z < 2 ^ 31.
Proof.
  unfold i32. pose proof (Z.mod_pos_bound (z + 2 ^ 31) (2 ^ 32) eq_refl). lia.
Qed.

Lemma u32_range z : 0 <= u32 z < 2 ^ 32.
Proof. apply Z.mod_pos_bound. reflexivity. Qed.

Lemma u32_small z : 0 <= z < 2 ^ 32 -> u32 z = z.
Proof. intros H. apply Z.mod_small; lia. Qed.

(** Zero of a difference of two lengths cast to [int]. *)
Lemma i32_eq0_sub a b :
  0 <= a < 2 ^ 31 -> 0 <= b < 2 ^ 31 -> i32 (a - b) = 0 -> a = b.
Proof. intros Ha Hb. rewrite i32_small by lia. lia. Qed.

(** ** Characters *)

Lemma uchar_range c : 0 <= uchar c < 256.
Proof.
  unfold uchar. pose proof (N_ascii_bounded c) as H. lia.
Qed.

Lemma uchar_char_of z : 0 <= z < 256 -> uchar (char_of z) = z.
Proof.
  intros H. unfold uchar, char_of, u8.
  rewrite Z.mod_small by lia. rewrite N_ascii_embedding by lia. lia.
Qed.

Lemma uchar_inj a b : uchar a = uchar b -> a = b.
Proof.
  unfold uchar. intros H%N2Z.inj.
  rewrite <- (ascii_N_embedding a), <- (ascii_N_embedding b). by f_equal.
Qed.

Lemma uchar_digit d : 0 <= d <= 9 -> uchar (digit d) = 48 + d.
Proof. intros H. unfold digit. apply uchar_char_of. lia. Qed.

(** On a decimal digit or below, [signed char] and [unsigned char] agree. *)
Lemma schar_le_57 c : schar c <= 57 -> 48 <= schar c -> uchar c = schar c.
Proof.
  unfold schar. pose proof (uchar_range c). case_match; bool_lia.
Qed.

Lemma ascii_eqb_refl c : Ascii.eqb c c = true.
Proof. by apply Ascii.eqb_eq. Qed.

Lemma ascii_eqb_false a b : a <> b -> Ascii.eqb a b = false.
Proof. intros H. by apply Ascii.eqb_neq. Qed.

Lemma digit_not d c : 0 <= d <= 9 -> uchar c < 48 \/ 57 < uchar c -> digit d <> c.
Proof. intros Hd Hc <-. rewrite uchar_digit in Hc; lia. Qed.

Lemma is_digit_digit d : 0 <= d <= 9 -> is_digit (digit d) = true.
Proof.
  intros H. unfold is_digit. rewrite uchar_digit by lia.
  apply andb_true_iff. lia.
Qed.

Lemma digit_val_digit d : 0 <= d <= 9 -> digit_val (digit d) = d.
Proof. intros H. unfold digit_val. rewrite uchar_digit; lia. Qed.

Lemma digit_of_val c : is_digit c = true -> digit (digit_val c) = c.
Proof.
  intros H. unfold is_digit in H. apply uchar_inj.
  rewrite uchar_digit; unfold digit_val; bool_lia.
Qed.

(** ** Slices *)

Lemma zlen_nonneg {A} (l : list A) : 0 <= zlen l.
Proof. unfold zlen. lia. Qed.

Lemma zlen_app {A} (l k : list A) : zlen (l ++ k) = zlen l + zlen k.
Proof. unfold zlen. rewrite length_app. lia. Qed.

Lemma zlen_cons {A} (x : A) l : zlen (x :: l) = 1 + zlen l.
Proof. unfold zlen. cbn [length]. lia. Qed.

Lemma zlen_nil {A} : zlen (@nil A) = 0.
Proof. reflexivity. Qed.

Lemma zlen_map {A B} (f : A -> B) l : zlen (f <$> l) = zlen l.
Proof. unfold zlen. by rewrite length_fmap. Qed.

Lemma zlen_0 {A} (l : list A) : zlen l = 0 -> l = [].
Proof. unfold zlen. destruct l; cbn [length]; [done|lia]. Qed.

#[export] Hint Rewrite @zlen_app @zlen_cons @zlen_nil @zlen_map : fk.

Lemma zlen_ztake {A} n (l : list A) : 0 <= n <= zlen l -> zlen (ztake n l) = n.
Proof. unfold zlen, ztake. intros H. rewrite length_take. lia. Qed.

Lemma zlen_zdrop {A} n (l : list A) : 0 <= n <= zlen l -> zlen (zdrop n l) = zlen l - n.
Proof. unfold zlen, zdrop. intros H. rewrite length_drop. lia. Qed.

Lemma zlen_replicate {A} n (x : A) : 0 <= n -> zlen (replicate (Z.to_nat n) x) = n.
Proof. unfold zlen. intros H. rewrite length_replicate. lia. Qed.

Lemma ztake_app_l {A} n (l k : list A) : n = zlen l -> ztake n (l ++ k) = l.
Proof.
  intros ->. unfold ztake, zlen. rewrite Nat2Z.id. apply take_app_length.
Qed.

Lemma zdrop_app_l {A} n (l k : list A) : n = zlen l -> zdrop n (l ++ k) = k.
Proof.
  intros ->. unfold zdrop, zlen. rewrite Nat2Z.id. apply drop_app_length.
Qed.

Lemma ztake_app_le {A} n (l k : list A) : n <= zlen l -> ztake n (l ++ k) = ztake n l.
Proof.
  intros H. unfold ztake, zlen in *. rewrite take_app_le; [done|lia].
Qed.

Lemma zdrop_app_le {A} n (l k : list A) :
  0 <= n <= zlen l -> zdrop n (l ++ k) = zdrop n l ++ k.
Proof.
  intros H. unfold zdrop, zlen in *. rewrite drop_app_le; [done|lia].
Qed.

Lemma ztake_all {A} n (l : list A) : zlen l <= n -> ztake n l = l.
Proof. intros H. unfold ztake, zlen in *. apply take_ge. lia. Qed.

Lemma zdrop_0 {A} (l : list A) : zdrop 0 l = l.
Proof. reflexivity. Qed.

Lemma ztake_0 {A} (l : list A) : ztake 0 l = [].
Proof. reflexivity. Qed.

Lemma ztake_zdrop {A} n (l : list A) : ztake n l ++ zdrop n l = l.
Proof. apply take_drop. Qed.

Lemma zdrop_zdrop {A} a b (l : list A) :
  0 <= a -> 0 <= b -> zdrop a (zdrop b l) = zdrop (a + b) l.
Proof.
  intros Ha Hb. unfold zdrop. rewrite drop_drop. f_equal. lia.
Qed.

Lemma zlen_splice {A} off (cs l : list A) :
  0 <= off -> off + zlen cs <= zlen l -> zlen (splice off cs l) = zlen l.
Proof.
  intros H1 H2. pose proof (zlen_nonneg cs). unfold splice. autorewrite with fk.
  rewrite zlen_ztake, zlen_zdrop; lia.
Qed.

Lemma znth_app_l {A} (l k : list A) i : 0 <= i < zlen l -> znth (l ++ k) i = znth l i.
Proof.
  intros H. unfold znth, zlen in *. case_match; [done|].
  apply lookup_app_l. lia.
Qed.

Lemma znth_app_r {A} (l k : list A) i :
  zlen l <= i -> znth (l ++ k) i = znth k (i - zlen l).
Proof.
  intros H. unfold znth, zlen in *.
  destruct (i <? 0) eqn:E1; destruct (i - Z.of_nat (length l) <? 0) eqn:E2; try lia.
  - rewrite lookup_app_r by lia. f_equal. lia.
Qed.

Lemma znth_is_Some {A} (l : list A) i : 0 <= i < zlen l -> is_Some (znth l i).
Proof.
  intros H. unfold znth, zlen in *. case_match; [lia|].
  apply lookup_lt_is_Some. lia.
Qed.

(** ** [memchr] and [cstr] *)

Lemma memchr_app_notin c l k :
  c ∉ l -> memchr c (l ++ c :: k) = Some (zlen l).
Proof.
  induction l as [|x l IH]; intros H; cbn [memchr app].
  - by rewrite ascii_eqb_refl.
  - apply not_elem_of_cons in H as [Hx Hl].
    rewrite ascii_eqb_false by done. rewrite IH by done.
    rewrite zlen_cons. cbn. f_equal. lia.
Qed.

Lemma memchr_Some c l i :
  memchr c l = Some i -> exists a b, l = a ++ c :: b /\ zlen a = i /\ c ∉ a.
Proof.
  revert i. induction l as [|x l IH]; intros i H; cbn [memchr] in H; [done|].
  destruct (Ascii.eqb x c) eqn:E.
  - apply Ascii.eqb_eq in E as ->. injection H as <-.
    exists [], l. repeat split. apply not_elem_of_nil.
  - destruct (memchr c l) as [j|] eqn:Ej; cbn in H; [|done].
    injection H as <-. destruct (IH j eq_refl) as (a & b & -> & <- & Hn).
    exists (x :: a), b. repeat split; [rewrite zlen_cons; lia|].
    apply not_elem_of_cons. split; [|done].
    intros ->. by rewrite ascii_eqb_refl in E.
Qed.

Lemma memchr_None c l : memchr c l = None <-> c ∉ l.
Proof.
  induction l as [|x l IH]; cbn [memchr].
  - split; [intros _; apply not_elem_of_nil|done].
  - rewrite not_elem_of_cons. destruct (Ascii.eqb x c) eqn:E.
    + apply Ascii.eqb_eq in E as ->. split; [done|]. intros [H _]. done.
    + apply Ascii.eqb_neq in E. destruct (memchr c l); cbn; split.
      * done.
      * intros [_ H]. apply IH in H. done.
      * intros _. split; [congruence|]. by apply IH.
      * done.
Qed.

Lemma cstr_nul_free l : nul_free l -> cstr l = l.
Proof.
  unfold nul_free. induction l as [|x l IH]; intros H; [done|].
  apply not_elem_of_cons in H as [Hx Hl]. cbn [cstr].
  rewrite ascii_eqb_false by done. by rewrite IH.
Qed.

Lemma cstr_length l : zlen (cstr l) <= zlen l.
Proof.
  induction l as [|x l IH]; [done|]. cbn [cstr].
  case_match; rewrite ?zlen_cons, ?zlen_nil; pose proof (zlen_nonneg l); lia.
Qed.

(** ** Decimal numerals *)

Lemma dec_fuel_step f n :
  10 <= n -> dec_fuel (S f) n = dec_fuel f (n / 10) ++ [digit (n mod 10)].
Proof. intros H. cbn [dec_fuel]. by rewrite (proj2 (Z.ltb_ge _ _)). Qed.

(** Induction over the digits of a bounded number. *)
Lemma dec_fuel_ind (P : nat -> Z -> Prop) :
  (forall f n, 0 <= n < 10 -> P (S f) n) ->
  (forall f n, 10 <= n < 10 ^ Z.of_nat (S (S f)) -> P (S f) (n / 10) -> P (S (S f)) n) ->
  forall f n, 0 <= n < 10 ^ Z.of_nat (S f) -> P (S f) n.
Proof.
  intros H0 HS f. induction f as [|f IH]; intros n Hn.
  { apply H0. cbn in Hn. lia. }
  destruct (decide (n < 10)); [apply H0; lia|].
  apply HS; [lia|]. apply IH.
  rewrite (Nat2Z.inj_succ (S f)), Z.pow_succ_r in Hn by lia.
  split; [apply Z.div_pos; lia|apply Z.div_lt_upper_bound; lia].
Qed.

Lemma dec_ind (P : bytes -> Z -> Prop) :
  (forall n, 0 <= n < 10 -> P [digit n] n) ->
  (forall l n, 10 <= n -> P l (n / 10) -> P (l ++ [digit (n mod 10)]) n) ->
  forall n, 0 <= n < 10 ^ 20 -> P (dec n) n.
Proof.
  intros H0 HS n Hn. unfold dec.
  apply (dec_fuel_ind (fun f n => P (dec_fuel f n) n)); [| |exact Hn].
  - intros f m Hm. cbn [dec_fuel]. rewrite (proj2 (Z.ltb_lt _ _)) by lia. by apply H0.
  - intros f m Hm IH. rewrite dec_fuel_step by lia. apply HS; [lia|done].
Qed.

Definition all_digits (l : bytes) : Prop := Forall (fun c => is_digit c = true) l.

Lemma dec_all_digits n : 0 <= n < 10 ^ 20 -> all_digits (dec n).
Proof.
  revert n. apply (dec_ind (fun l _ => all_digits l)).
  - intros n Hn. repeat constructor. apply is_digit_digit. lia.
  - intros l n Hn IH. apply Forall_app. split; [done|]. repeat constructor.
    apply is_digit_digit. pose proof (Z.mod_pos_bound n 10). lia.
Qed.

Lemma digits_val_app acc l k :
  all_digits l -> digits_val acc (l ++ k) = digits_val (digits_val acc l) k.
Proof.
  intros H. revert acc. induction H as [|c l Hc Hl IH]; intros acc; cbn; [done|].
  by rewrite Hc.
Qed.

Lemma digits_val_stop acc l : (forall c l', l = c :: l' -> is_digit c = false) -> digits_val acc l = acc.
Proof. destruct l; [done|]. intros H. cbn. by rewrite (H _ _ eq_refl). Qed.

Lemma digits_val_dec n : 0 <= n < 10 ^ 20 -> digits_val 0 (dec n) = n.
Proof.
  intros Hn. cut (all_digits (dec n) /\ digits_val 0 (dec n) = n); [tauto|].
  revert n Hn. apply (dec_ind (fun l n => all_digits l /\ digits_val 0 l = n)).
  - intros n Hn. split.
    + repeat constructor. apply is_digit_digit; lia.
    + cbn [digits_val]. rewrite is_digit_digit, digit_val_digit by lia. lia.
  - intros l n Hn [Hd IH]. pose proof (Z.mod_pos_bound n 10 eq_refl).
    split.
    + apply Forall_app. split; [done|]. repeat constructor. apply is_digit_digit. lia.
    + rewrite digits_val_app by done. cbn [digits_val].
      rewrite is_digit_digit, digit_val_digit, IH by lia.
      pose proof (Z.div_mod n 10). lia.
Qed.

(** The first digit of a positive numeral is not [0], of zero it is [0]. *)
Lemma dec_head n :
  0 <= n < 10 ^ 20 ->
  exists d l, dec n = digit d :: l /\ 0 <= d <= 9 /\ (0 < n -> 0 < d) /\ (n = 0 -> d = 0 /\ l = []).
Proof.
  revert n. apply (dec_ind (fun l n => exists d l', l = digit d :: l' /\ 0 <= d <= 9
    /\ (0 < n -> 0 < d) /\ (n = 0 -> d = 0 /\ l' = []))).
  - intros n Hn. exists n, []. repeat split; try lia.
  - intros l n Hn (d & l' & -> & Hd & Hp & _).
    exists d, (l' ++ [digit (n mod 10)]). repeat split; try lia.
    intros _. apply Hp. pose proof (Z.div_le_lower_bound n 10 1). lia.
Qed.

Lemma dec_length_pos n : 0 <= n < 10 ^ 20 -> 1 <= zlen (dec n).
Proof.
  intros H. destruct (dec_head n H) as (d & l & -> & _).
  rewrite zlen_cons. pose proof (zlen_nonneg l). lia.
Qed.

Lemma dec_notin n c :
  0 <= n < 10 ^ 20 -> is_digit c = false -> c ∉ dec n.
Proof.
  intros Hn Hc Hin. pose proof (dec_all_digits n Hn) as H.
  unfold all_digits in H. rewrite Forall_forall in H.
  apply H in Hin. congruence.
Qed.

Lemma dec_nul_free n : 0 <= n < 10 ^ 20 -> nul_free (dec n).
Proof. intros H. apply dec_notin; [done|reflexivity]. Qed.

Lemma skip_space_digit c l : is_digit c = true -> skip_space (c :: l) = c :: l.
Proof.
  intros H. cbn. unfold is_space, is_digit in *.
  destruct ((uchar c =? 32) || _) eqn:E; [|done].
  apply andb_true_iff in H as [? ?]. apply orb_true_iff in E as [E|E]; bool_lia.
Qed.

(** [atoi] reads back what [%d] printed, up to the first non-digit. *)
Lemma atoi_dec n rest :
  0 <= n <= INT_MAX -> (forall c l, rest = c :: l -> is_digit c = false) ->
  atoi (dec n ++ rest) = n.
Proof.
  intros Hn Hrest. unfold INT_MAX in Hn. unfold atoi, strtol.
  destruct (dec_head n) as (d & l & Hd & Hr & _); [lia|].
  assert (Hdig : is_digit (digit d) = true) by (apply is_digit_digit; lia).
  pose proof (digits_val_app 0 (dec n) rest (dec_all_digits n ltac:(lia))) as Hval.
  rewrite digits_val_dec, (digits_val_stop n rest) in Hval by (done || lia).
  rewrite Hd in *. cbn [app] in *. rewrite skip_space_digit by done.
  rewrite !ascii_eqb_false by (apply digit_not; [lia|vm_compute; auto]).
  rewrite Hval. rewrite i32_small; lia.
Qed.

(** [atoi] looks no further than the first character that is not a digit. *)
Lemma atoi_stop ds c tl tl' :
  all_digits ds -> ds <> [] -> is_digit c = false -> atoi (ds ++ c :: tl) = atoi (ds ++ c :: tl').
Proof.
  intros Hd Hne Hc.
  assert (forall t, digits_val 0 (ds ++ c :: t) = digits_val 0 ds) as Hv.
  { intros t. rewrite digits_val_app by done. cbn [digits_val]. by rewrite Hc. }
  unfold atoi, strtol. destruct ds as [|d ds]; [done|]. cbn [app] in *.
  apply Forall_cons in Hd as [Hd _]. rewrite !skip_space_digit by done.
  rewrite !(ascii_eqb_false d) by (intros ->; by vm_compute in Hd). by rewrite !Hv.
Qed.

Lemma memchr_app_Some c l k e : memchr c l = Some e -> memchr c (l ++ k) = Some e.
Proof.
  intros H. apply memchr_Some in H as (a & b & -> & <- & Hn).
  rewrite <- app_assoc. cbn [app]. by apply memchr_app_notin.
Qed.

Lemma memchr_bound c l e : memchr c l = Some e -> 0 <= e < zlen l.
Proof.
  intros H. apply memchr_Some in H as (a & b & -> & <- & _).
  rewrite zlen_app, zlen_cons. pose proof (zlen_nonneg a). pose proof (zlen_nonneg b). lia.
Qed.

Lemma ztake_app_ge {A} n (l k : list A) :
  zlen l <= n -> ztake n (l ++ k) = l ++ ztake (n - zlen l) k.
Proof.
  intros H. unfold ztake, zlen in *. rewrite take_app_ge by lia. f_equal. f_equal. lia.
Qed.

Lemma znth_cons {A} (x : A) l i : 0 < i -> znth (x :: l) i = znth l (i - 1).
Proof.
  intros H. change (x :: l) with ([x] ++ l). rewrite znth_app_r; change (zlen [x]) with 1; [done|lia].
Qed.

(** A list read up to a known position. *)
Lemma znth_split {A} (l : list A) i x :
  znth l i = Some x -> l = ztake i l ++ x :: zdrop (i + 1) l.
Proof.
  unfold znth, ztake, zdrop. case_match; [done|]. intros Hx.
  replace (Z.to_nat (i + 1)) with (S (Z.to_nat i)) by bool_lia. by rewrite take_drop_middle.
Qed.

(** How many digits a number has. *)
Lemma dec_fuel_short k : forall f n,
  0 <= n < 10 ^ Z.of_nat (S k) -> (k < f)%nat -> zlen (dec_fuel f n) <= Z.of_nat (S k).
Proof.
  induction k as [|k IH]; intros [|f] n Hn Hf; try lia; cbn [dec_fuel];
    destruct (n <? 10) eqn:E; try (change (zlen [digit n]) with 1; lia).
  rewrite zlen_app. change (zlen [_]) with 1.
  rewrite (Nat2Z.inj_succ (S k)), Z.pow_succ_r in Hn by lia.
  specialize (IH f (n / 10)). rewrite (Nat2Z.inj_succ (S k)).
  pose proof (Z.div_lt_upper_bound n 10 (10 ^ Z.of_nat (S k)) eq_refl ltac:(lia)).
  pose proof (Z.div_pos n 10). lia.
Qed.

Lemma dec_short k n : 1 <= k <= 20 -> 0 <= n < 10 ^ k -> zlen (dec n) <= k.
Proof.
  intros Hk Hn. replace k with (Z.of_nat (S (Z.to_nat (k - 1)))) in * by lia.
  apply dec_fuel_short; [done|lia].
Qed.

(** A digit sequence without leading zeros is the numeral of its value. *)
Lemma dec_fuel_digits_val f : forall ds,
  all_digits ds -> ds <> [] -> (length ds <= f)%nat ->
  (forall d ds', ds = d :: ds' -> ds' <> [] -> d <> digit 0) ->
  dec_fuel f (digits_val 0 ds) = ds.
Proof.
  induction f as [|f IH]; intros ds Hd Hne Hl Hz; [destruct ds; [done|cbn in Hl; lia]|].
  induction ds as [|c ds _] using rev_ind; [done|].
  apply Forall_app in Hd as [Hd Hc]. apply (proj1 (Forall_singleton _ _)) in Hc.
  rewrite digits_val_app by done. cbn [digits_val]. rewrite Hc.
  assert (0 <= digit_val c <= 9) as Hr by (unfold digit_val, is_digit in *; bool_lia).
  destruct ds as [|d ds].
  { cbn [digits_val app dec_fuel]. rewrite (proj2 (Z.ltb_lt _ _)) by lia. f_equal.
    replace (10 * 0 + digit_val c) with (digit_val c) by lia. by apply digit_of_val. }
  assert (d <> digit 0) as Hd0 by (apply (Hz d (ds ++ [c])); [done|by destruct ds]).
  assert (1 <= digits_val 0 (d :: ds)) as Hpos.
  { apply Forall_cons in Hd as [Hd1 Hd]. cbn [digits_val]. rewrite Hd1.
    assert (digit_val d <> 0) by (intros E; apply Hd0; rewrite <- E; symmetry; by apply digit_of_val).
    assert (0 <= digit_val d) by (unfold digit_val, is_digit in *; bool_lia).
    assert (forall l a, 1 <= a -> 1 <= digits_val a l) as Hm; [|apply Hm; lia].
    clear. intros l. induction l as [|x l IH]; intros a Ha; cbn [digits_val]; [done|].
    destruct (is_digit x) eqn:Ex; [|done]. apply IH. unfold digit_val, is_digit in *. bool_lia. }
  set (v := digits_val 0 (d :: ds)) in *.
  rewrite dec_fuel_step by lia.
  replace ((10 * v + digit_val c) / 10) with v by (symmetry; rewrite Z.mul_comm, Z.div_add_l, Z.div_small; lia).
  replace ((10 * v + digit_val c) mod 10) with (digit_val c)
    by (rewrite Z.add_comm, Z.mul_comm, Z.mod_add, Z.mod_small; lia).
  rewrite digit_of_val by done. f_equal. subst v. apply IH; try done.
  - rewrite length_app in Hl; cbn in *; lia.
  - intros d' ds' [= <- <-] _. done.
Qed.

(** ** Total correctness of handlers

    [wp m Q w]: run on [w], [m] has no undefined behaviour, and its answer and
    final state satisfy [Q]. *)
Definition wp {W A} (m : ST W A) (Q : A -> W -> Prop) (w : W) : Prop :=
  match m w with Some (a, w') => Q a w' | None => False end.

Section wp.
Context {W A B : Type}.
Implicit Type (m : ST W A) (k : A -> ST W B) (w : W).

Lemma wp_bind m k Q w : wp m (fun a w' => wp (k a) Q w') w -> wp (m ≫= k) Q w.
Proof. unfold wp, mbind, ST_bind. by destruct (m w) as [[a w']|]. Qed.

Lemma wp_seq m k (R : A -> W -> Prop) Q w :
  wp m R w -> (forall a w', R a w' -> wp (k a) Q w') -> wp (m ≫= k) Q w.
Proof. unfold wp, mbind, ST_bind. destruct (m w) as [[a w']|]; naive_solver. Qed.

Lemma wp_mono m (R Q : A -> W -> Prop) w :
  wp m R w -> (forall a w', R a w' -> Q a w') -> wp m Q w.
Proof. unfold wp. destruct (m w) as [[a w']|]; [|done]. auto. Qed.

Lemma wp_ret (a : A) (Q : A -> W -> Prop) w : Q a w -> wp (mret a) Q w.
Proof. done. Qed.

Lemma wp_eq m Q w a w' : m w = Some (a, w') -> wp m Q w <-> Q a w'.
Proof. unfold wp. by intros ->. Qed.

Lemma wp_elim m Q w : wp m Q w -> exists a w', m w = Some (a, w') /\ Q a w'.
Proof. unfold wp. destruct (m w) as [[a w']|]; [|done]. intros H. by exists a, w'. Qed.

(** A known step. *)
Lemma wp_step m k Q w a w' : m w = Some (a, w') -> wp (k a) Q w' -> wp (m ≫= k) Q w.
Proof. unfold wp, mbind, ST_bind. by intros ->. Qed.
End wp.

Lemma zdrop_cons {A} i (l : list A) x r :
  0 <= i -> zdrop i l = x :: r -> znth l i = Some x /\ zdrop (i + 1) l = r /\ i < zlen l.
Proof.
  intros Hi H. unfold zdrop, znth, zlen in *. rewrite (proj2 (Z.ltb_ge _ _)) by lia.
  assert (l !! Z.to_nat i = Some x) as Hl.
  { rewrite <- (Nat.add_0_r (Z.to_nat i)), <- lookup_drop, H. done. }
  split_and!; [done| |apply lookup_lt_Some in Hl; lia].
  replace (Z.to_nat (i + 1)) with (Z.to_nat i + 1)%nat by lia.
  rewrite <- drop_drop, H. done.
Qed.

Lemma zdrop_nil {A} i (l : list A) : zdrop i l = [] -> zlen l <= Z.max 0 i.
Proof.
  intros H. apply (f_equal length) in H. unfold zdrop, zlen in *. rewrite length_drop in H.
  cbn in H. lia.
Qed.

Lemma rem2_even n : (Z.rem (Z.of_nat n) 2 =? 0) = Nat.even n.
Proof.
  induction n as [n IH] using lt_wf_ind. destruct n as [|[|n]]; [done..|].
  cbn [Nat.even]. rewrite <- IH by lia. rewrite !Z.rem_mod_nonneg by lia.
  replace (Z.of_nat (S (S n))) with (Z.of_nat n + 1 * 2) by lia. by rewrite Z.mod_add.
Qed.

(** ** Lists updated by index *)

Lemma zlen_zupd {A} (l : list A) i x : zlen (zupd l i x) = zlen l.
Proof. unfold zupd, zlen. case_match; [done|]. by rewrite length_insert. Qed.

Lemma znth_zupd_eq {A} (l : list A) i x : 0 <= i < zlen l -> znth (zupd l i x) i = Some x.
Proof.
  intros Hi. unfold znth, zupd, zlen in *. destruct (i <? 0) eqn:E; [lia|].
  apply list_lookup_insert_eq. lia.
Qed.

Lemma znth_zupd_ne {A} (l : list A) i j x : 0 <= i -> j <> i -> znth (zupd l i x) j = znth l j.
Proof.
  intros Hi Hj. unfold znth, zupd. destruct (i <? 0) eqn:E; [lia|].
  destruct (j <? 0) eqn:E2; [done|]. apply list_lookup_insert_ne. lia.
Qed.

Lemma zupd_zupd {A} (l : list A) i x y : zupd (zupd l i x) i y = zupd l i y.
Proof. unfold zupd. case_match; [done|]. apply list_insert_insert_eq. Qed.

Lemma zupd_fmap {A B} (f : A -> B) l i x : f <$> zupd l i x = zupd (f <$> l) i (f x).
Proof. unfold zupd. case_match; [done|]. apply list_fmap_insert. Qed.

Lemma znth_fmap {A B} (f : A -> B) l i : znth (f <$> l) i = f <$> znth l i.
Proof. unfold znth. case_match; [done|]. apply list_lookup_fmap. Qed.

Lemma Forall_zupd {A} (P : A -> Prop) l i x : Forall P l -> P x -> Forall P (zupd l i x).
Proof. unfold zupd. intros. case_match; [done|]. by apply Forall_insert. Qed.

Lemma Forall_znth {A} (P : A -> Prop) l i x : Forall P l -> znth l i = Some x -> P x.
Proof. unfold znth. intros H. case_match; [done|]. by apply Forall_lookup_1. Qed.

Lemma list_eq_znth {A} (l k : list A) :
  zlen l = zlen k -> (forall i, 0 <= i < zlen l -> znth l i = znth k i) -> l = k.
Proof.
  intros Hl H. apply list_eq_same_length with (length l); [unfold zlen in Hl; lia|done|].
  intros i x y Hi Hx Hy. specialize (H (Z.of_nat i)). unfold znth, zlen in *.
  rewrite (proj2 (Z.ltb_ge _ _)), Nat2Z.id in H by lia. rewrite Hx, Hy in H.
  assert (Some x = Some y) as [=] by (apply H; lia). done.
Qed.

(** ** Lists without duplicates *)

(** A list from which an element that must be in it is taken. *)
Definition list_drop (x : Z) (l : list Z) : option (list Z) :=
  if bool_decide (x ∈ l) then Some (filter (fun y => y <> x) l) else None.

Lemma filter_notin (x : Z) (l : list Z) : x ∉ l -> filter (fun y => y <> x) l = l.
Proof.
  induction l as [|y l IH]; [done|]. intros [Hy Hl]%not_elem_of_cons. rewrite filter_cons_True by done. by rewrite IH.
Qed.

Lemma list_drop_split x l l' : NoDup l -> list_drop x l = Some l' ->
  exists l1 l2, l = l1 ++ x :: l2 /\ l' = l1 ++ l2.
Proof.
  unfold list_drop. case_bool_decide as Hx; [|done]. intros Nd [= <-].
  apply list_elem_of_split in Hx as (l1 & l2 & ->). exists l1, l2. split; [done|].
  apply NoDup_app in Nd as (_ & N1 & [N2 _]%NoDup_cons).
  rewrite filter_app, filter_cons_False by tauto.
  f_equal; apply filter_notin; [|done]. intros Hy. apply (N1 x Hy). by left.
Qed.

Lemma list_drop_ok x l : NoDup l -> x ∈ l ->
  exists l', list_drop x l = Some l' /\ NoDup l' /\ (forall i, i ∈ l' <-> i <> x /\ i ∈ l) /\ length l = S (length l').
Proof.
  intros Hn Hi. destruct (list_drop x l) as [l'|] eqn:E.
  2: { unfold list_drop in E. by rewrite bool_decide_eq_true_2 in E. }
  exists l'. split; [done|]. split_and!.
  - unfold list_drop in E. case_bool_decide; simplify_eq. by apply NoDup_filter.
  - unfold list_drop in E. case_bool_decide; simplify_eq. intros i. by rewrite list_elem_of_filter.
  - destruct (list_drop_split x l l' Hn E) as (l1 & l2 & -> & ->). rewrite !length_app. cbn. lia.
Qed.
