(* ===== verification/Util.v ===== *)
(** Models src/src/fk_util.c and src/src/fk_util.h: digit-sequence tests, power
    of two and decimal width helpers, [struct timeval] arithmetic; and
    src/src/fk_str.c: the immutable counted strings. *)
From S2P Require Import Prelude.

(** ** Digit sequences *)

(** The scan of [fk_util_is_positive_seq]; [first] is the test [p == start]. *)
Fixpoint positive_scan (first : bool) (s : bytes) : Z :=
  match s with
  | [] => 1
  | c :: s' =>
      if first then
        if (schar c <=? 48) || (57 <? schar c) then 0 else positive_scan false s'
      else
        if (schar c <? 48) || (57 <? schar c) then 0 else positive_scan false s'
  end.

Definition fk_util_is_positive_seq (s : bytes) : Z :=
  if zlen s <=? 0 then 0 else positive_scan true s.

Fixpoint nonminus_scan (first : bool) (len : Z) (s : bytes) : Z :=
  match s with
  | [] => 1
  | c :: s' =>
      if first then
        if (schar c <? 48) || (57 <? schar c) then 0
        else if schar c =? 48 then (if len =? 1 then 1 else 0)
        else nonminus_scan false len s'
      else
        if (schar c <? 48) || (57 <? schar c) then 0 else nonminus_scan false len s'
  end.

Definition fk_util_is_nonminus_seq (s : bytes) : Z :=
  if zlen s <=? 0 then 0 else nonminus_scan true (zlen s) s.

Fixpoint digit_scan (i len : Z) (s : bytes) : Z :=
  match s with
  | [] => 1
  | c :: s' =>
      if i =? 0 then
        if negb (schar c =? 45) && negb (schar c =? 43)
           && ((schar c <=? 48) || (57 <? schar c)) then 0
        else if ((schar c =? 45) || (schar c =? 43)) && (len <=? 1) then 0
        else digit_scan (i + 1) len s'
      else
        if (schar c <? 48) || (57 <? schar c) then 0 else digit_scan (i + 1) len s'
  end.

Definition fk_util_is_digit_seq (s : bytes) : Z :=
  if zlen s <=? 0 then 0 else digit_scan 0 (zlen s) s.

(** ** Widths *)

(** [while (n > 0) { q++; n >>= 1; }]; 32 iterations exhaust an [int]. *)
Fixpoint min_power_loop (fuel : nat) (q n : Z) : Z :=
  match fuel with
  | O => q
  | S f => if 0 <? n then min_power_loop f (q + 1) (Z.shiftr n 1) else q
  end.

Definition fk_util_min_power (n : Z) : Z :=
  i32 (Z.shiftl 1 (min_power_loop 32 0 n)).

(** [do { len++; num /= 10; } while (num != 0)]; an [int] has at most 10 digits. *)
Fixpoint decimal_digit_loop (fuel : nat) (len num : Z) : Z :=
  match fuel with
  | O => len
  | S f =>
      let len := len + 1 in
      let num := Z.quot num 10 in
      if negb (num =? 0) then decimal_digit_loop f len num else len
  end.

Definition fk_util_decimal_digit (num : Z) : Z :=
  decimal_digit_loop 20 (if num <? 0 then 1 else 0) num.

(** ** Time values *)

Record timeval := Timeval { tv_sec : Z; tv_usec : Z }.

Definition fk_util_tv2millis (tv : timeval) : Z := tv_sec tv * 1000 + Z.quot (tv_usec tv) 1000.

Definition fk_util_millis2tv (ms : Z) : timeval :=
  Timeval (ms / 1000) ((ms mod 1000) * 1000).

(** A [long] difference; its callers store it in an [int]. *)
Definition fk_util_tmval_cmp (t1 t2 : timeval) : Z :=
  if tv_sec t1 =? tv_sec t2 then tv_usec t1 - tv_usec t2 else tv_sec t1 - tv_sec t2.

Definition fk_util_tmval_add (a b : timeval) : timeval :=
  let sec := tv_sec a + tv_sec b in
  let usec := tv_usec a + tv_usec b in
  if 1000000 <=? usec then Timeval (sec + 1) (usec - 1000000) else Timeval sec usec.

Definition fk_util_tmval_sub (a b : timeval) : timeval :=
  let sec := tv_sec a - tv_sec b in
  let usec := tv_usec a - tv_usec b in
  if usec <? 0 then Timeval (sec - 1) (usec + 1000000) else Timeval sec usec.

(** [fk_util_cal_expire]: [now] is what [fk_util_get_time] returned. *)
Definition fk_util_cal_expire (now : timeval) (interval : Z) : timeval :=
  fk_util_tmval_add now (fk_util_millis2tv interval).

Definition fk_util_smaller (a b : Z) : Z := if a <=? b then a else b.
Definition fk_util_conns_to_files (max_conns : Z) : Z := max_conns + 1 + 16.
Definition fk_util_files_to_conns (max_files : Z) : Z := max_files - 1 - 16.

(** ** Strings (fk_str.c): [len] is the length of the byte list *)

Definition fk_str_create (src : bytes) (len : Z) : bytes := ztake len src.
Definition fk_str_clone (old_one : bytes) : bytes := old_one.

(** [memcmp]: the difference of the first two bytes that differ. *)
Fixpoint memcmp (a b : bytes) : Z :=
  match a, b with
  | x :: a', y :: b' => if uchar x =? uchar y then memcmp a' b' else uchar x - uchar y
  | _, _ => 0
  end.

(** The difference of two [size_t] lengths is returned as an [int]. *)
Definition fk_str_cmp (s1 s2 : bytes) : Z :=
  if negb (zlen s1 =? zlen s2) then i32 (zlen s1 - zlen s2) else memcmp s1 s2.

Definition fk_str_is_positive (s : bytes) : Z :=
  if zlen s <? 1 then 0 else if fk_util_is_positive_seq s =? 1 then 1 else 0.
Definition fk_str_is_nonminus (s : bytes) : Z :=
  if zlen s <? 1 then 0 else if fk_util_is_nonminus_seq s =? 1 then 1 else 0.
Definition fk_str_is_digit (s : bytes) : Z :=
  if zlen s <? 1 then 0 else if fk_util_is_digit_seq s =? 1 then 1 else 0.

Definition upper_char (c : ascii) : ascii :=
  if (97 <=? schar c) && (schar c <=? 122) then char_of (schar c - 32) else c.
Definition lower_char (c : ascii) : ascii :=
  if (65 <=? schar c) && (schar c <=? 90) then char_of (schar c + 32) else c.

Definition fk_str_2upper (s : bytes) : bytes := upper_char <$> s.
Definition fk_str_2lower (s : bytes) : bytes := lower_char <$> s.

(** djb2 over signed chars, in [uint32_t]. *)
Fixpoint hash_loop (hash : Z) (s : bytes) : Z :=
  match s with
  | [] => hash
  | c :: s' => hash_loop (u32 (u32 (Z.shiftl hash 5) + hash + schar c)) s'
  end.

Definition fk_str_hash (s : bytes) : Z := hash_loop 5381 s.

(** ** Properties *)

(** Normalised time values and their total order, in microseconds. *)
Definition tv_norm (t : timeval) : Prop := 0 <= tv_usec t < 1000000.
Definition tv_micros (t : timeval) : Z := tv_sec t * 1000000 + tv_usec t.

Lemma tmval_add_norm a b :
  tv_norm a -> tv_norm b -> tv_norm (fk_util_tmval_add a b).
Proof. unfold tv_norm, fk_util_tmval_add. intros. case_match; cbn; bool_lia. Qed.

Lemma tmval_add_micros a b :
  tv_micros (fk_util_tmval_add a b) = tv_micros a + tv_micros b.
Proof. unfold tv_micros, fk_util_tmval_add. case_match; cbn; lia. Qed.

Lemma tmval_sub_micros a b :
  tv_micros (fk_util_tmval_sub a b) = tv_micros a - tv_micros b.
Proof. unfold tv_micros, fk_util_tmval_sub. case_match; cbn; lia. Qed.

Lemma tmval_sub_norm a b :
  tv_norm a -> tv_norm b -> tv_norm (fk_util_tmval_sub a b).
Proof. unfold tv_norm, fk_util_tmval_sub. intros. case_match; cbn; bool_lia. Qed.

Lemma millis2tv_micros ms : 0 <= ms ->
  tv_norm (fk_util_millis2tv ms) /\ tv_micros (fk_util_millis2tv ms) = ms * 1000.
Proof.
  intros H. unfold tv_norm, tv_micros, fk_util_millis2tv; cbn.
  pose proof (Z.mod_pos_bound ms 1000 eq_refl). pose proof (Z.div_mod ms 1000). lia.
Qed.

Lemma tmval_cmp_sign a b :
  tv_norm a -> tv_norm b ->
  (fk_util_tmval_cmp a b < 0 <-> tv_micros a < tv_micros b) /\
  (fk_util_tmval_cmp a b = 0 <-> tv_micros a = tv_micros b).
Proof. unfold tv_norm, fk_util_tmval_cmp, tv_micros. intros. case_match; bool_lia. Qed.

Lemma cal_expire_micros now itv :
  tv_norm now -> 0 <= itv ->
  tv_norm (fk_util_cal_expire now itv) /\
  tv_micros (fk_util_cal_expire now itv) = tv_micros now + itv * 1000.
Proof.
  intros Hn Hi. destruct (millis2tv_micros itv Hi) as [H1 H2].
  unfold fk_util_cal_expire. rewrite tmval_add_micros, H2.
  split; [by apply tmval_add_norm|done].
Qed.

(** *** The digit-sequence tests accept exactly the numerals [%d] prints *)

Lemma digit_test c :
  ((schar c <? 48) || (57 <? schar c)) = negb (is_digit c).
Proof.
  unfold is_digit, schar. pose proof (uchar_range c).
  destruct (uchar c <? 128) eqn:E; destruct (48 <=? uchar c) eqn:E1;
    destruct (uchar c <=? 57) eqn:E2; cbn;
    repeat match goal with |- context [?a <? ?b] => destruct (a <? b) eqn:?; cbn end;
    lia.
Qed.

Lemma positive_scan_tail s : positive_scan false s = 1 <-> all_digits s.
Proof.
  unfold all_digits. induction s as [|c s IH]; cbn [positive_scan].
  - split; [constructor|done].
  - rewrite digit_test, Forall_cons. destruct (is_digit c); cbn [negb].
    + rewrite IH. tauto.
    + split; [done|]. intros [? _]. done.
Qed.

Lemma nonminus_scan_tail len s : nonminus_scan false len s = 1 <-> all_digits s.
Proof.
  unfold all_digits. induction s as [|c s IH]; cbn [nonminus_scan].
  - split; [constructor|done].
  - rewrite digit_test, Forall_cons. destruct (is_digit c); cbn [negb].
    + rewrite IH. tauto.
    + split; [done|]. intros [? _]. done.
Qed.

Lemma schar_digit d : 0 <= d <= 9 -> schar (digit d) = 48 + d.
Proof.
  intros H. unfold schar. rewrite uchar_digit by lia.
  rewrite (proj2 (Z.ltb_lt _ _)); lia.
Qed.

Lemma positive_dec n : 0 < n < 10 ^ 20 -> fk_util_is_positive_seq (dec n) = 1.
Proof.
  intros Hn. unfold fk_util_is_positive_seq.
  pose proof (dec_length_pos n ltac:(lia)).
  rewrite (proj2 (Z.leb_gt _ _)) by lia.
  pose proof (dec_all_digits n ltac:(lia)) as Hall.
  destruct (dec_head n ltac:(lia)) as (d & l & E & Hd & Hp & _). rewrite E in *.
  cbn [positive_scan]. rewrite schar_digit by lia.
  rewrite (proj2 (Z.leb_gt _ _)), (proj2 (Z.ltb_ge _ _)) by lia. cbn.
  apply positive_scan_tail. by inversion Hall.
Qed.

Lemma nonminus_dec n : 0 <= n < 10 ^ 20 -> fk_util_is_nonminus_seq (dec n) = 1.
Proof.
  intros Hn. unfold fk_util_is_nonminus_seq.
  pose proof (dec_length_pos n ltac:(lia)).
  rewrite (proj2 (Z.leb_gt _ _)) by lia.
  pose proof (dec_all_digits n ltac:(lia)) as Hall.
  destruct (dec_head n ltac:(lia)) as (d & l & E & Hd & Hp & Hz). rewrite E in *.
  cbn [nonminus_scan]. rewrite schar_digit by lia.
  rewrite (proj2 (Z.ltb_ge (48 + d) 48)), (proj2 (Z.ltb_ge _ _)) by lia. cbn.
  destruct (48 + d =? 48) eqn:E0.
  - assert (n = 0) as Hn0 by (destruct (decide (n = 0)); lia).
    destruct (Hz Hn0) as [_ ->]. done.
  - apply nonminus_scan_tail. by inversion Hall.
Qed.

(** The value of a digit sequence is bounded by its length. *)
Lemma digits_val_bound l : all_digits l ->
  forall acc, 0 <= acc ->
  acc * 10 ^ zlen l <= digits_val acc l < (acc + 1) * 10 ^ zlen l.
Proof.
  induction 1 as [|c l Hc Hl IH]; intros acc Ha; cbn [digits_val].
  - rewrite zlen_nil. lia.
  - rewrite Hc. assert (0 <= digit_val c <= 9)
      by (unfold digit_val, is_digit in *; bool_lia).
    specialize (IH (10 * acc + digit_val c) ltac:(lia)).
    rewrite zlen_cons, Z.pow_add_r by (pose proof (zlen_nonneg l); lia).
    pose proof (Z.pow_pos_nonneg 10 (zlen l) ltac:(lia) (zlen_nonneg l)). nia.
Qed.

(** *** Widths *)

Lemma min_power_loop_spec fuel q n :
  0 <= q -> 0 <= n < 2 ^ Z.of_nat fuel ->
  exists k, min_power_loop fuel q n = q + k /\ 0 <= k <= Z.of_nat fuel /\
    n < 2 ^ k /\ (0 < n -> 2 ^ k <= 2 * n) /\ (n = 0 -> k = 0).
Proof.
  revert q n. induction fuel as [|f IH]; intros q n Hq Hn.
  - exists 0. cbn in *. repeat split; lia.
  - cbn [min_power_loop]. destruct (0 <? n) eqn:E.
    + rewrite Nat2Z.inj_succ, Z.pow_succ_r in Hn by lia.
      rewrite Z.shiftr_div_pow2 by lia. change (2 ^ 1) with 2.
      pose proof (Z.div_mod n 2). pose proof (Z.mod_pos_bound n 2 eq_refl).
      destruct (IH (q + 1) (n / 2)) as (k & Ek & Hk & Hlt & Hle & Hz);
        [lia|split; [apply Z.div_pos; lia|apply Z.div_lt_upper_bound; lia]|].
      exists (k + 1). rewrite Ek. rewrite Z.pow_add_r by lia. change (2 ^ 1) with 2.
      repeat split; try lia. intros _.
      destruct (decide (n / 2 = 0)) as [Hq0|Hq0]; [rewrite (Hz Hq0); change (2 ^ 0) with 1|]; lia.
    + exists 0. change (2 ^ 0) with 1. assert (n = 0) by bool_lia. subst. repeat split; lia.
Qed.

Lemma fk_util_min_power_spec n :
  0 <= n < 2 ^ 30 ->
  exists k, 0 <= k <= 30 /\ fk_util_min_power n = 2 ^ k /\
    n < 2 ^ k /\ (0 < n -> 2 ^ k <= 2 * n).
Proof.
  intros Hn. unfold fk_util_min_power.
  destruct (min_power_loop_spec 32 0 n) as (k & -> & Hk & Hlt & Hle & Hz);
    [lia|lia|].
  assert (k <= 30) as Hk30.
  { destruct (decide (k <= 30)); [done|]. exfalso.
    assert (0 < n) by (destruct (decide (n = 0)); lia).
    pose proof (Z.pow_le_mono_r 2 31 k ltac:(lia) ltac:(lia)). lia. }
  exists k. rewrite Z.add_0_l, Z.shiftl_mul_pow2, Z.mul_1_l by lia.
  pose proof (Z.pow_le_mono_r 2 k 30 ltac:(lia) ltac:(lia)).
  rewrite i32_small by (pose proof (Z.pow_pos_nonneg 2 k ltac:(lia) ltac:(lia)); lia).
  repeat split; (done || lia).
Qed.

Lemma decimal_digit_loop_dec fuel len n :
  0 <= n < 10 ^ Z.of_nat (S fuel) ->
  decimal_digit_loop (S fuel) len n = len + zlen (dec_fuel (S fuel) n).
Proof.
  intros Hn. revert len.
  refine (dec_fuel_ind (fun f n => forall len,
    decimal_digit_loop f len n = len + zlen (dec_fuel f n)) _ _ fuel n Hn).
  - intros f m Hm len. cbn [decimal_digit_loop dec_fuel].
    rewrite Z.quot_small by lia. cbn. rewrite (proj2 (Z.ltb_lt _ _)) by lia. done.
  - intros f m Hm IH len. rewrite dec_fuel_step by lia.
    remember (S f) as g. cbn [decimal_digit_loop].
    rewrite Z.quot_div_nonneg by lia.
    pose proof (Z.div_le_lower_bound m 10 1).
    replace (m / 10 =? 0) with false by (symmetry; apply Z.eqb_neq; lia). cbn.
    rewrite IH, zlen_app. change (zlen [digit (m mod 10)]) with 1. lia.
Qed.

Lemma decimal_digit_dec n : 0 <= n < 10 ^ 20 -> fk_util_decimal_digit n = zlen (dec n).
Proof.
  intros Hn. unfold fk_util_decimal_digit, dec.
  rewrite (proj2 (Z.ltb_ge _ _)) by lia. rewrite decimal_digit_loop_dec; [lia|done].
Qed.

Lemma decimal_digit_loop_opp fuel len n :
  decimal_digit_loop fuel len (- n) = decimal_digit_loop fuel len n.
Proof.
  revert len n. induction fuel as [|f IH]; intros len n; [done|]. cbn [decimal_digit_loop].
  rewrite Z.quot_opp_l by lia. replace (- Z.quot n 10 =? 0) with (Z.quot n 10 =? 0).
  - case_match; [apply IH|done].
  - destruct (Z.quot n 10 =? 0) eqn:E; symmetry; [apply Z.eqb_eq|apply Z.eqb_neq]; bool_lia.
Qed.

Lemma decimal_digit_loop_len fuel len n :
  decimal_digit_loop fuel len n = len + decimal_digit_loop fuel 0 n.
Proof.
  revert len n. induction fuel as [|f IH]; intros len n; [cbn; lia|].
  cbn [decimal_digit_loop]. case_match; [|lia]. rewrite IH, (IH (0 + 1)). lia.
Qed.

(** [fk_util_decimal_digit] is the width of what [%d] prints. *)
Lemma decimal_digit_fmt n : - 2 ^ 31 <= n < 2 ^ 31 -> fk_util_decimal_digit n = zlen (fmt_d n).
Proof.
  intros Hn. unfold fmt_d. destruct (n <? 0) eqn:E.
  - unfold fk_util_decimal_digit. rewrite E, zlen_cons.
    rewrite decimal_digit_loop_len, <- decimal_digit_loop_opp.
    rewrite <- decimal_digit_dec by lia. unfold fk_util_decimal_digit.
    rewrite (proj2 (Z.ltb_ge _ _)) by bool_lia. lia.
  - apply decimal_digit_dec. bool_lia.
Qed.

(** *** Strings *)

Lemma memcmp_eq0 a b : length a = length b -> memcmp a b = 0 <-> a = b.
Proof.
  revert b. induction a as [|x a IH]; intros [|y b] Hl; try done.
  cbn [memcmp]. injection Hl as Hl. destruct (uchar x =? uchar y) eqn:E.
  - apply Z.eqb_eq, uchar_inj in E as ->. rewrite IH by done. split; congruence.
  - apply Z.eqb_neq in E. split; [lia|]. intros [= -> ->]. lia.
Qed.

(** Strings the server stores are far below the [int] range. *)
Definition str_ok (s : bytes) : Prop := zlen s < 2 ^ 31.

Lemma fk_str_cmp_eq0 a b : str_ok a -> str_ok b -> fk_str_cmp a b = 0 <-> a = b.
Proof.
  intros Ha Hb. unfold fk_str_cmp, str_ok in *.
  pose proof (zlen_nonneg a). pose proof (zlen_nonneg b).
  destruct (zlen a =? zlen b) eqn:E; cbn [negb].
  - apply memcmp_eq0. unfold zlen in *. bool_lia.
  - split.
    + intros H1%i32_eq0_sub; bool_lia.
    + intros ->. bool_lia.
Qed.

Lemma fk_str_hash_range s : 0 <= fk_str_hash s < 2 ^ 32.
Proof.
  unfold fk_str_hash. cut (forall h, 0 <= h < 2 ^ 32 -> 0 <= hash_loop h s < 2 ^ 32).
  { intros H. apply H. lia. }
  induction s as [|c s IH]; intros h Hh; [done|].
  cbn [hash_loop]. apply IH, u32_range.
Qed.

Lemma upper_char_idem c : upper_char (upper_char c) = upper_char c.
Proof. destruct c as [[] [] [] [] [] [] [] []]; reflexivity. Qed.

Lemma fk_str_2upper_idem s : fk_str_2upper (fk_str_2upper s) = fk_str_2upper s.
Proof.
  unfold fk_str_2upper. rewrite <- list_fmap_compose. apply list_fmap_ext.
  intros i c _. apply upper_char_idem.
Qed.

Lemma digit_scan_schar c : (schar c <? 48) || (57 <? schar c) = false -> is_digit c = true.
Proof. rewrite digit_test. apply negb_false_iff. Qed.

Lemma positive_seq_digits s : fk_util_is_positive_seq s = 1 -> all_digits s /\ s <> [].
Proof.
  unfold fk_util_is_positive_seq. destruct s as [|c s]; [done|]. destruct (zlen (c :: s) <=? 0); [done|].
  cbn [positive_scan]. destruct ((schar c <=? 48) || (57 <? schar c)) eqn:E; [done|].
  intros H%positive_scan_tail. split; [|done]. apply Forall_cons. split; [|done].
  apply digit_scan_schar, orb_false_iff. bool_lia.
Qed.

Lemma nonminus_seq_digits s : fk_util_is_nonminus_seq s = 1 -> all_digits s /\ s <> [].
Proof.
  unfold fk_util_is_nonminus_seq. destruct s as [|c s]; [done|]. destruct (zlen (c :: s) <=? 0); [done|].
  cbn [nonminus_scan]. destruct ((schar c <? 48) || (57 <? schar c)) eqn:E; [done|].
  intros H. split; [|done]. apply Forall_cons. split; [by apply digit_scan_schar|].
  destruct (schar c =? 48); [|by apply nonminus_scan_tail in H].
  destruct (zlen (c :: s) =? 1) eqn:El; [|done]. rewrite zlen_cons in El.
  rewrite (zlen_0 s) by lia. constructor.
Qed.
