(* ===== verification/Mem.v ===== *)
(** Models the wrappers of the allocator (src/src/fk_mem.c) with their count of allocated
    bytes, and the numbers of src/src/fk_num.c.

    The allocator of the C library is an argument: what [malloc], [calloc] and [realloc]
    answer, an address with the usable size of its block, or NULL.  It promises
    ([answer_ok]) a block of at least the size asked for that overlaps no live block. *)
From S2P Require Import Prelude.

(** The live blocks with their usable sizes, and the numbers stored in blocks. *)
Record mem := Mem { m_live : gmap Z Z; m_nums : gmap Z Z; total_alloc : Z }.

(** [Panicked]: the process has aborted in [fk_mem_panic]. *)
Inductive mres (A : Type) : Type := Done (x : A) (m : mem) | Panicked | Undefined.
Arguments Done {A} x m.
Arguments Panicked {A}.
Arguments Undefined {A}.

Definition NULL : Z := 0.

(** [malloc_usable_size]: undefined for an address that is not that of a live block. *)
Definition fk_mem_malloc_size (ptr : Z) (m : mem) : option Z :=
  if ptr =? NULL then Some 0 else m_live m !! ptr.

Definition fk_mem_panic {A} : mres A := Panicked.

(** The block that the allocator answers is live; what is in it is not defined. *)
Definition new_block (a u : Z) (m : mem) : mem := Mem (<[a := u]> (m_live m)) (delete a (m_nums m)) (total_alloc m).
Definition end_block (a : Z) (m : mem) : mem := Mem (delete a (m_live m)) (delete a (m_nums m)) (total_alloc m).
Definition set_total (n : Z) (m : mem) : mem := Mem (m_live m) (m_nums m) n.

Definition fk_mem_alloc (size : Z) (ans : option (Z * Z)) (m : mem) : mres Z :=
  match ans with
  | None => fk_mem_panic
  | Some (ptr, u) =>
      let m := new_block ptr u m in
      match fk_mem_malloc_size ptr m with
      | None => Undefined
      | Some real_size => Done ptr (set_total (u64 (total_alloc m + real_size)) m)
      end
  end.

(** [calloc] of a product that overflows answers NULL. *)
Definition fk_mem_calloc (count size : Z) (ans : option (Z * Z)) (m : mem) : mres Z :=
  fk_mem_alloc (count * size) (if 2 ^ 64 <=? count * size then None else ans) m.

(** [realloc] keeps the block, or moves its contents (of which only numbers are kept
    here, and none is ever moved). *)
Definition fk_mem_realloc (ptr size : Z) (ans : option (Z * Z)) (m : mem) : mres Z :=
  match fk_mem_malloc_size ptr m with
  | None => Undefined
  | Some old_size =>
      match ans with
      | None => fk_mem_panic
      | Some (new_ptr, u) =>
          let m := new_block new_ptr u (if ptr =? NULL then m else end_block ptr m) in
          match fk_mem_malloc_size new_ptr m with
          | None => Undefined
          | Some new_size => Done new_ptr (set_total (u64 (u64 (total_alloc m - old_size) + new_size)) m)
          end
      end
  end.

Definition fk_mem_free (ptr : Z) (m : mem) : mres unit :=
  match fk_mem_malloc_size ptr m with
  | None => Undefined
  | Some real_size =>
      let m := set_total (u64 (total_alloc m - real_size)) m in
      Done tt (if ptr =? NULL then m else end_block ptr m)
  end.

Definition fk_mem_get_alloc (m : mem) : Z := total_alloc m.

(** ** Numbers: a block of eight bytes *)

Definition fk_num_create (v : Z) (ans : option (Z * Z)) (m : mem) : mres Z :=
  match fk_mem_alloc 8 ans m with
  | Done n m => Done n (Mem (m_live m) (<[n := v]> (m_nums m)) (total_alloc m))
  | r => r
  end.
Definition fk_num_destroy (n : Z) (m : mem) : mres unit := fk_mem_free n m.
Definition fk_num_raw (n : Z) (m : mem) : option Z := m_nums m !! n.

(** ** The count *)

(** What the allocator promises of an answer, [live] being the live blocks that stay. *)
Definition answer_ok (size : Z) (live : gmap Z Z) (a u : Z) : Prop :=
  0 < a /\ 0 <= size <= u /\ 0 < u /\ a + u <= 2 ^ 64 /\
  forall b v, live !! b = Some v -> a + u <= b \/ b + v <= a.

Definition sum_live (live : gmap Z Z) : Z := map_fold (fun _ u n => u + n) 0 live.

(** Legal calls: the allocator keeps its promise, and what is freed is live. *)
Inductive mem_step (m m' : mem) : Prop :=
  | step_alloc size a u : answer_ok size (m_live m) a u -> fk_mem_alloc size (Some (a, u)) m = Done a m' -> mem_step m m'
  | step_calloc count size a u : answer_ok (count * size) (m_live m) a u ->
      fk_mem_calloc count size (Some (a, u)) m = Done a m' -> mem_step m m'
  | step_realloc ptr size a u : answer_ok size (delete ptr (m_live m)) a u -> (ptr = NULL \/ is_Some (m_live m !! ptr)) ->
      fk_mem_realloc ptr size (Some (a, u)) m = Done a m' -> mem_step m m'
  | step_free ptr : (ptr = NULL \/ is_Some (m_live m !! ptr)) -> fk_mem_free ptr m = Done tt m' -> mem_step m m'
  | step_num v a u : answer_ok 8 (m_live m) a u -> fk_num_create v (Some (a, u)) m = Done a m' -> mem_step m m'.

(** Blocks below an address that do not overlap. *)
Definition spread (n : Z) (live : gmap Z Z) : Prop :=
  (forall a u, live !! a = Some u -> 0 < a /\ 0 < u /\ a + u <= n) /\
  forall a u b v, live !! a = Some u -> live !! b = Some v -> a <> b -> a + u <= b \/ b + v <= a.

(** The blocks lie in the address space and do not overlap, and their sizes are counted. *)
Record mem_inv (m : mem) : Prop := {
  mi_spread : spread (2 ^ 64) (m_live m);
  mi_count : total_alloc m = u64 (sum_live (m_live m))
}.

Lemma sum_live_insert a u live : live !! a = None -> sum_live (<[a := u]> live) = u + sum_live live.
Proof. intros H. unfold sum_live. rewrite map_fold_insert_L; [done|intros; lia|done]. Qed.

Lemma sum_live_delete a u live : live !! a = Some u -> sum_live live = u + sum_live (delete a live).
Proof. intros H. unfold sum_live. rewrite (map_fold_delete_L _ _ a u); [done|intros; lia|done]. Qed.

(** The addresses of the blocks. *)
Definition cells (live : gmap Z Z) : gset Z := map_fold (fun a u s => list_to_set (seqZ a u) ∪ s) ∅ live.

Lemma cells_spec live c : c ∈ cells live <-> exists a u, live !! a = Some u /\ a <= c < a + u.
Proof.
  unfold cells. revert c. induction live as [|a u live Ha IH] using map_ind; intros c.
  - rewrite map_fold_empty. split; [set_solver|]. by intros (a & u & H & _).
  - rewrite map_fold_insert_L by (done || intros; set_solver). rewrite elem_of_union, elem_of_list_to_set, elem_of_seqZ, IH. split.
    + intros [H|(b & v & H & Hc)]; [by exists a, u; rewrite lookup_insert_eq|]. exists b, v. rewrite lookup_insert_ne; [done|].
      intros ->. congruence.
    + intros (b & v & H & Hc). destruct (decide (a = b)) as [->|Hn]; [rewrite lookup_insert_eq in H; simplify_eq; by left|].
      rewrite lookup_insert_ne in H by done. right. by exists b, v.
Qed.

Lemma spread_delete n a live : spread n live -> spread n (delete a live).
Proof. intros [H1 H2]. split; [intros b u [_ H]%lookup_delete_Some|intros b u c v [_ H]%lookup_delete_Some [_ H']%lookup_delete_Some]; eauto. Qed.

Lemma spread_insert n a u live : spread n live -> 0 < a /\ 0 < u /\ a + u <= n ->
  (forall b v, live !! b = Some v -> a + u <= b \/ b + v <= a) -> spread n (<[a := u]> live).
Proof.
  intros [H1 H2] Ha Hd. split.
  - intros b v [[<- <-]|[_ H]]%lookup_insert_Some; eauto.
  - intros b v c w [[<- <-]|[_ H]]%lookup_insert_Some [[<- <-]|[_ H']]%lookup_insert_Some Hn; eauto; [done|].
    destruct (Hd _ _ H); auto.
Qed.

Lemma cells_size n live : spread n live -> Z.of_nat (size (cells live)) = sum_live live.
Proof.
  induction live as [|a u live Ha IH] using map_ind; intros Hs; [by unfold cells, sum_live; rewrite !map_fold_empty|].
  rewrite sum_live_insert by done. rewrite <- IH by (rewrite <- (delete_insert_id live a u) by done; by apply spread_delete).
  unfold cells at 1. rewrite map_fold_insert_L by (done || intros; set_solver). fold (cells live). destruct Hs as [H1 H2].
  pose proof (H1 a u (lookup_insert_eq _ _ _)). rewrite size_union.
  - rewrite size_list_to_set, length_seqZ by apply NoDup_seqZ. lia.
  - intros c H3%elem_of_list_to_set H4. apply elem_of_seqZ in H3. apply cells_spec in H4 as (b & v & H4 & H5).
    assert (a <> b) by congruence. destruct (H2 a u b v); rewrite ?lookup_insert_eq, ?lookup_insert_ne by done; [done..|lia|lia].
Qed.

(** Blocks that do not overlap are smaller than the address space together. *)
Lemma sum_live_bound n live : 0 < n -> spread n live -> 0 <= sum_live live < n.
Proof.
  intros Hn H. rewrite <- (cells_size n) by done. split; [lia|].
  assert (cells live ⊆ list_to_set (seqZ 1 (n - 1))) as Hs.
  { intros c (a & u & Ha & Hc)%cells_spec. apply elem_of_list_to_set, elem_of_seqZ. pose proof (proj1 H a u Ha). lia. }
  apply subseteq_size in Hs. rewrite size_list_to_set, length_seqZ in Hs by apply NoDup_seqZ. lia.
Qed.

Lemma new_block_count m a u : mem_inv m -> answer_ok 0 (m_live m) a u -> m_live m !! a = None /\
  mem_inv (set_total (u64 (total_alloc m + u)) (new_block a u m)).
Proof.
  intros [S C] (H1 & H2 & H3 & H4 & H5).
  assert (m_live m !! a = None) as Ha.
  { destruct (m_live m !! a) as [v|] eqn:E; [|done]. pose proof (proj1 S a v E). destruct (H5 a v E); lia. }
  split; [done|]. split; cbn; [by apply spread_insert|]. rewrite C, sum_live_insert by done.
  unfold u64. rewrite Zplus_mod_idemp_l. f_equal. lia.
Qed.

Lemma end_block_count m a u : mem_inv m -> m_live m !! a = Some u ->
  mem_inv (set_total (u64 (total_alloc m - u)) (end_block a m)).
Proof.
  intros [S C] Ha. split; cbn; [by apply spread_delete|]. rewrite C, (sum_live_delete a u) by done.
  unfold u64. rewrite Zminus_mod_idemp_l. f_equal. lia.
Qed.

Lemma answer_zero size live a u : answer_ok size live a u -> answer_ok 0 live a u.
Proof. intros (H1 & H2 & H3 & H4 & H5). repeat split; try done; lia. Qed.

Lemma alloc_step m size a u m' : mem_inv m -> answer_ok size (m_live m) a u -> fk_mem_alloc size (Some (a, u)) m = Done a m' ->
  m' = set_total (u64 (total_alloc m + u)) (new_block a u m) /\ mem_inv m'.
Proof.
  intros I Ha E. destruct (new_block_count m a u I (answer_zero _ _ _ _ Ha)) as [Hn I'].
  unfold fk_mem_alloc, fk_mem_malloc_size, new_block in E. cbn in E. rewrite (proj2 (Z.eqb_neq a NULL)), lookup_insert_eq in E
    by (unfold NULL; destruct Ha; lia). by simplify_eq.
Qed.

Lemma malloc_size_live m ptr : mem_inv m -> ptr = NULL \/ is_Some (m_live m !! ptr) ->
  exists n, fk_mem_malloc_size ptr m = Some n /\
    mem_inv (set_total (u64 (total_alloc m - n)) (if ptr =? NULL then m else end_block ptr m)).
Proof.
  intros I Hp. unfold fk_mem_malloc_size. destruct (Z.eqb_spec ptr NULL) as [->|Hn].
  - exists 0. split; [done|]. destruct I as [S C]. split; [done|]. cbn. rewrite C, Z.sub_0_r. apply Z.mod_mod. lia.
  - destruct Hp as [?|[n Hp]]; [done|]. exists n. split; [done|]. by apply end_block_count.
Qed.

Lemma mem_step_inv m m' : mem_inv m -> mem_step m m' -> mem_inv m'.
Proof.
  intros I [size a u Ha E|count size a u Ha E|ptr size a u Ha Hp E|ptr Hp E|v a u Ha E].
  - by eapply alloc_step.
  - unfold fk_mem_calloc in E. case_match; [done|]. by eapply alloc_step.
  - unfold fk_mem_realloc in E. destruct (malloc_size_live m ptr I Hp) as (n & En & I1). rewrite En in E.
    set (m1 := if ptr =? NULL then m else end_block ptr m) in *.
    assert (m_live m1 = delete ptr (m_live m)) as El.
    { subst m1. destruct (Z.eqb_spec ptr NULL) as [->|]; [|done]. rewrite delete_id; [done|].
      destruct (m_live m !! NULL) as [x|] eqn:E0; [|done]. pose proof (proj1 (mi_spread m I) _ _ E0). unfold NULL in *. lia. }
    destruct (new_block_count _ a u I1) as [_ I2]; [cbn; rewrite El; by eapply answer_zero|].
    unfold fk_mem_malloc_size, new_block in E. cbn in E.
    rewrite (proj2 (Z.eqb_neq a NULL)), lookup_insert_eq in E by (unfold NULL; destruct Ha; lia).
    assert (total_alloc m1 = total_alloc m) as Et by (subst m1; by destruct (ptr =? NULL)). simplify_eq. rewrite Et. exact I2.
  - unfold fk_mem_free in E. destruct (malloc_size_live m ptr I Hp) as (n & En & I1). rewrite En in E. simplify_eq.
    by destruct (ptr =? NULL).
  - unfold fk_num_create in E. destruct (fk_mem_alloc 8 _ m) as [n m1| |] eqn:E1; simplify_eq.
    destruct (alloc_step m 8 a u m1 I Ha E1) as [_ [S C]]. by split.
Qed.

Lemma mem_steps_inv m m' : mem_inv m -> rtc mem_step m m' -> mem_inv m'.
Proof. intros I H. induction H; [done|]. eauto using mem_step_inv. Qed.

Lemma empty_inv : mem_inv (Mem ∅ ∅ 0).
Proof. split; [split; by intros|done]. Qed.

(** C29. After any legal calls of the wrappers the count is exactly the number of bytes in
    the live blocks, and less than 2^64, so that it never wraps; freeing or growing a
    live block, or NULL, is defined, and anything else is not. *)
Theorem mem_accounts m : rtc mem_step (Mem ∅ ∅ 0) m ->
  fk_mem_get_alloc m = sum_live (m_live m) /\ 0 <= fk_mem_get_alloc m < 2 ^ 64 /\
  forall ptr, (exists m', fk_mem_free ptr m = Done tt m' /\ mem_step m m' /\
      fk_mem_get_alloc m' = fk_mem_get_alloc m - default 0 (fk_mem_malloc_size ptr m)) <-> ptr = NULL \/ is_Some (m_live m !! ptr).
Proof.
  intros H. pose proof (mem_steps_inv _ _ empty_inv H) as I.
  assert (forall m, mem_inv m -> fk_mem_get_alloc m = sum_live (m_live m) /\ 0 <= fk_mem_get_alloc m < 2 ^ 64) as HC.
  { intros q [S C]. unfold fk_mem_get_alloc. pose proof (sum_live_bound (2 ^ 64) _ eq_refl S). rewrite C. unfold u64. rewrite Z.mod_small by done. done. }
  destruct (HC m I) as [H1 H2]. split; [done|]. split; [done|]. intros ptr. split.
  - intros (m' & E & _). unfold fk_mem_free, fk_mem_malloc_size in E. destruct (Z.eqb_spec ptr NULL); [by left|right].
    destruct (m_live m !! ptr); [done|discriminate].
  - intros Hp. destruct (malloc_size_live m ptr I Hp) as (n & En & I1). unfold fk_mem_free. rewrite En.
    eexists. split; [reflexivity|]. assert (mem_step m (set_total (u64 (total_alloc m - n)) (if ptr =? NULL then m else end_block ptr m))) as Hs.
    { apply (step_free _ _ ptr Hp). unfold fk_mem_free. rewrite En. by destruct (ptr =? NULL). }
    destruct (HC _ I1) as [H3 _]. rewrite H1. unfold fk_mem_malloc_size in En. destruct (Z.eqb_spec ptr NULL).
    + injection En as <-. split; [exact Hs|]. cbn in *. lia.
    + rewrite (sum_live_delete ptr n) by done. split; [exact Hs|]. cbn in *. lia.
Qed.

(** A number is read back until its block is freed. *)
Lemma num_roundtrip v ans m n m' : fk_num_create v ans m = Done n m' -> fk_num_raw n m' = Some v.
Proof. unfold fk_num_create. destruct (fk_mem_alloc 8 ans m); intros [= <- <-]. apply lookup_insert_eq. Qed.

(** A block that is freed twice is undefined behaviour. *)
Lemma double_free_undefined ptr m m' : ptr <> NULL -> fk_mem_free ptr m = Done tt m' -> fk_mem_free ptr m' = Undefined.
Proof.
  intros Hn. unfold fk_mem_free at 1, fk_mem_malloc_size. rewrite (proj2 (Z.eqb_neq _ _) Hn). case_match; [|done]. intros [= <-].
  unfold fk_mem_free, fk_mem_malloc_size. rewrite (proj2 (Z.eqb_neq _ _) Hn). cbn. by rewrite lookup_delete_eq.
Qed.

(** ** Example: two blocks, one grows and moves, the other is freed. *)
Definition ex_mem (n : Z) (m : mres Z) : mem := match m with Done _ m => m | _ => Mem ∅ ∅ n end.
Definition ex_mem1 : mem := ex_mem 0 (fk_mem_alloc 10 (Some (4096, 24)) (Mem ∅ ∅ 0)).
Definition ex_mem2 : mem := ex_mem 0 (fk_mem_calloc 4 8 (Some (8192, 40)) ex_mem1).
Definition ex_mem3 : mem := ex_mem 0 (fk_mem_realloc 4096 100 (Some (12288, 104)) ex_mem2).

Lemma answer_disjoint size live a u : (0 <? a) && (0 <=? size) && (size <=? u) && (0 <? u) && (a + u <=? 2 ^ 64) = true ->
  Forall (fun b => a + u <= b.1 \/ b.1 + b.2 <= a) (map_to_list live) -> answer_ok size live a u.
Proof.
  intros H Hd. repeat split; [bool_lia..|]. intros b v Hb. rewrite Forall_forall in Hd.
  by apply (Hd (b, v)), elem_of_map_to_list.
Qed.

Lemma ex_mem_steps : rtc mem_step (Mem ∅ ∅ 0) ex_mem3.
Proof.
  eapply (rtc_l _ _ ex_mem1); [|eapply (rtc_l _ _ ex_mem2); [|eapply (rtc_l _ _ ex_mem3); [|apply rtc_refl]]].
  - apply (step_alloc _ _ 10 4096 24); [|reflexivity]. apply answer_disjoint; [reflexivity|constructor].
  - apply (step_calloc _ _ 4 8 8192 40); [|reflexivity]. apply answer_disjoint; [reflexivity|]. repeat constructor; cbn; lia.
  - apply (step_realloc _ _ 4096 100 12288 104); [|right; by eexists|reflexivity]. apply answer_disjoint; [reflexivity|].
    repeat constructor; cbn; lia.
Qed.

Lemma mem_accounts_witness : fk_mem_get_alloc ex_mem3 = 144 /\ fk_mem_get_alloc ex_mem3 = sum_live (m_live ex_mem3).
Proof. split; [reflexivity|exact (proj1 (mem_accounts ex_mem3 ex_mem_steps))]. Defined.
