(* ===== verification/Pool.v ===== *)
(** Models the pool of units of one size, src/src/fk_pool.c and src/src/fk_pool.h, and
    shows that it never hands out memory in use: the units that are free are linked by
    indices kept in the units themselves, which the user overwrites.

    Memory is a map from addresses to 16-bit cells.  The address that [malloc] gives for a
    block is an argument. *)
From S2P Require Import Prelude Util.

Definition fk_pool_align : Z := 2.
Definition FK_POOL_MAX_EMPTY_BLOCKS : Z := 1.

(** A block with the address of its [data]; [next] is the order in the list of the pool. *)
Record fk_block := Block {
  bk_first : Z;
  bk_free_cnt : Z;
  bk_unit_cnt : Z;
  bk_unit_size : Z;
  bk_data : Z
}.

(** The bytes in front of [data]: four numbers and a pointer. *)
Definition block_header : Z := 16.

Record fk_pool := Pool {
  po_head : list fk_block;
  po_unit_size : Z;
  po_init_cnt : Z;
  po_empty_blks : Z
}.

Abbreviation cells := (gmap Z Z).

Definition fk_pool_block_nocontain (blk : fk_block) (ptr : Z) : bool :=
  (ptr <? bk_data blk) || (bk_data blk + bk_unit_size blk * bk_unit_cnt blk <? ptr).
Definition fk_pool_block_isfull (blk : fk_block) : bool := bk_free_cnt blk =? 0.
Definition fk_pool_block_isempty (blk : fk_block) : bool := bk_free_cnt blk =? bk_unit_cnt blk.

(** The first free unit is taken, and its cell tells the next one. *)
Definition fk_pool_block_alloc (m : cells) (blk : fk_block) : option (Z * fk_block) :=
  let ptr := bk_data blk + bk_unit_size blk * bk_first blk in
  next ← m !! ptr;
  Some (ptr, Block next (u16 (bk_free_cnt blk - 1)) (bk_unit_cnt blk) (bk_unit_size blk) (bk_data blk)).

Definition fk_pool_block_free (m : cells) (blk : fk_block) (ptr : Z) : option (fk_block * cells) :=
  if bk_unit_size blk =? 0 then None
  else Some (Block (u16 (Z.quot (ptr - bk_data blk) (bk_unit_size blk))) (u16 (bk_free_cnt blk + 1)) (bk_unit_cnt blk)
               (bk_unit_size blk) (bk_data blk), <[ptr := bk_first blk]> m).

Definition fk_pool_align_cal (unit_size : Z) : Z :=
  Z.land (unit_size + fk_pool_align - 1) (Z.lnot (fk_pool_align - 1)).

Definition fk_pool_create (unit_size init_cnt : Z) : fk_pool :=
  Pool [] (if 4 <? unit_size then u16 (fk_pool_align_cal unit_size) else if unit_size <=? 2 then 2 else 4) init_cnt 0.

(** The links of the first [n] units from the unit at [ptr] with index [i]. *)
Fixpoint block_links (n : nat) (i ptr unit_size : Z) (m : cells) : Z * cells :=
  match n with
  | O => (ptr, m)
  | S n' => block_links n' (i + 1) (ptr + unit_size) unit_size (<[ptr := i + 1]> m)
  end.

(** A block without room for a cell is written outside, and the size of [data] is a
    product of type [int]. *)
Definition fk_block_create (data unit_size unit_cnt : Z) (m : cells) : option (fk_block * cells) :=
  if (unit_size <? 2) || (unit_cnt <? 1) || (2 ^ 31 <=? unit_size * unit_cnt) then None
  else
    let '(ptr, m) := block_links (Z.to_nat (unit_cnt - 1)) 0 data unit_size m in
    Some (Block 0 unit_cnt unit_cnt unit_size data, <[ptr := u16 (-1)]> m).

Definition block_end (blk : fk_block) : Z := bk_data blk + bk_unit_size blk * bk_unit_cnt blk.

(** What is left of memory when a block is returned. *)
Definition fk_block_destroy (blk : fk_block) (m : cells) : cells :=
  filter (fun p => ~ (bk_data blk <= p.1 < block_end blk)) m.

Definition set_head (p : fk_pool) (l : list fk_block) : fk_pool := Pool l (po_unit_size p) (po_init_cnt p) (po_empty_blks p).
Definition set_empty (p : fk_pool) (n : Z) : fk_pool := Pool (po_head p) (po_unit_size p) (po_init_cnt p) n.

(** The first block that is not full gives a unit. *)
Fixpoint alloc_in (m : cells) (l : list fk_block) : option (option (Z * list fk_block)) :=
  match l with
  | [] => Some None
  | blk :: l =>
      if fk_pool_block_isfull blk then
        match alloc_in m l with
        | Some (Some (ptr, l)) => Some (Some (ptr, blk :: l))
        | r => r
        end
      else
        '(ptr, blk) ← fk_pool_block_alloc m blk;
        Some (Some (ptr, blk :: l))
  end.

(** [data]: where a new block would be. *)
Definition fk_pool_malloc (data : Z) : ST (fk_pool * cells) Z := fun '(pool, m) =>
  match alloc_in m (po_head pool) with
  | None => None
  | Some (Some (ptr, l)) => Some (ptr, (set_head pool l, m))
  | Some None =>
      '(blk, m) ← fk_block_create data (po_unit_size pool) (po_init_cnt pool) m;
      '(ptr, blk) ← fk_pool_block_alloc m blk;
      Some (ptr, (set_head pool (blk :: po_head pool), m))
  end.

(** The first block that contains the pointer, with the blocks around it. *)
Fixpoint block_of (ptr : Z) (l : list fk_block) : option (list fk_block * fk_block * list fk_block) :=
  match l with
  | [] => None
  | blk :: l =>
      if fk_pool_block_nocontain blk ptr then
        '(pre, b, post) ← block_of ptr l;
        Some (blk :: pre, b, post)
      else Some ([], blk, l)
  end.

(** The block becomes the head of the list, or is returned if it is empty and the pool
    has an empty block already. *)
Definition fk_pool_free (ptr : Z) : ST (fk_pool * cells) unit := fun '(pool, m) =>
  match block_of ptr (po_head pool) with
  | None => Some (tt, (pool, m))
  | Some (pre, blk, post) =>
      '(blk, m) ← fk_pool_block_free m blk ptr;
      if fk_pool_block_isempty blk then
        if po_empty_blks pool =? FK_POOL_MAX_EMPTY_BLOCKS then Some (tt, (set_head pool (pre ++ post), fk_block_destroy blk m))
        else Some (tt, (set_empty (set_head pool (blk :: pre ++ post)) (u32 (po_empty_blks pool + 1)), m))
      else Some (tt, (set_head pool (blk :: pre ++ post), m))
  end.

(** ** What the pool keeps *)

Section pool.
(** Of every block: the size of a unit and their number. *)
Context (us cnt : Z).
Hypothesis us_pos : 2 <= us.
Hypothesis cnt_range : 0 < cnt < 2 ^ 16.
Hypothesis size_fits : us * cnt < 2 ^ 31.

(** The free units of the block with data at [d], in the order of their links. *)
Fixpoint chain (m : cells) (d first : Z) (l : list Z) : Prop :=
  match l with
  | [] => True
  | i :: l => first = i /\ exists next, m !! (d + us * i) = Some next /\ chain m d next l
  end.

Record block_ok (m : cells) (b : fk_block) (l : list Z) : Prop := {
  bo_size : bk_unit_size b = us;
  bo_cnt : bk_unit_cnt b = cnt;
  bo_nodup : NoDup l;
  bo_range : Forall (fun i => 0 <= i < cnt) l;
  bo_free : bk_free_cnt b = zlen l;
  bo_chain : chain m (bk_data b) (bk_first b) l
}.

(** Blocks that do not overlap. *)
Definition apart (d e : Z) : Prop := d + us * cnt + block_header <= e \/ e + us * cnt + block_header <= d.

(** The units that are not free, of the blocks with data at [D]. *)
Definition used (free : Z -> list Z) (D : list Z) (p : Z) : Prop :=
  exists d i, d ∈ D /\ 0 <= i < cnt /\ (i ∉ free d) /\ p = d + us * i.

(** The places of the blocks. *)
Definition placed (D : list Z) : Prop := NoDup D /\ forall d e, d ∈ D -> e ∈ D -> d <> e -> apart d e.

Definition blocks_ok (m : cells) (l : list fk_block) (free : Z -> list Z) : Prop :=
  Forall (fun b => block_ok m b (free (bk_data b))) l /\ placed (bk_data <$> l).

Record pool_inv (s : fk_pool * cells) (live : gset Z) (free : Z -> list Z) : Prop := {
  pi_size : po_unit_size s.1 = us;
  pi_cnt : po_init_cnt s.1 = cnt;
  pi_blocks : blocks_ok s.2 (po_head s.1) free;
  pi_live : forall p, p ∈ live <-> used free (bk_data <$> po_head s.1) p
}.

(** Units are equal or do not overlap. *)
Lemma units_apart d e i j : (d <> e -> apart d e) -> 0 <= i < cnt -> 0 <= j < cnt -> (d, i) <> (e, j) ->
  d + us * i + us <= e + us * j \/ e + us * j + us <= d + us * i.
Proof.
  intros Ha Hi Hj Hne. destruct (decide (d = e)) as [->|Hde].
  - assert (i <> j) as Hij by congruence. destruct (Z.lt_total i j) as [?|[?|?]]; [left|done|right]; nia.
  - destruct (Ha Hde) as [?|?]; unfold block_header in *; [left|right]; nia.
Qed.

Lemma units_inj d e i j : (d <> e -> apart d e) -> 0 <= i < cnt -> 0 <= j < cnt -> d + us * i = e + us * j -> d = e /\ i = j.
Proof.
  intros Ha Hi Hj E. destruct (decide ((d, i) = (e, j))) as [[= -> ->]|Hne]; [done|].
  destruct (units_apart d e i j Ha Hi Hj Hne); lia.
Qed.

Lemma chain_ext m m' d first l : (forall i, i ∈ l -> m' !! (d + us * i) = m !! (d + us * i)) -> chain m d first l -> chain m' d first l.
Proof.
  revert first. induction l as [|i l IH]; intros first Hm; [done|]. cbn. intros (-> & next & E & H). split; [done|].
  exists next. split; [rewrite Hm; [done|apply list_elem_of_here]|]. apply IH; [|done]. intros j Hj. apply Hm. by apply list_elem_of_further.
Qed.

Lemma block_ok_ext m m' b l : (forall i, i ∈ l -> m' !! (bk_data b + us * i) = m !! (bk_data b + us * i)) ->
  block_ok m b l -> block_ok m' b l.
Proof. intros Hm [? ? ? ? ? Hc]. split; try done. by eapply chain_ext. Qed.

(** Different indices are at most [cnt], and then all of them. *)
Lemma indices_le l : NoDup l -> Forall (fun i => 0 <= i < cnt) l -> zlen l <= cnt /\ (zlen l = cnt -> forall i, 0 <= i < cnt -> i ∈ l).
Proof.
  intros Hn Hr. assert (l ⊆+ seqZ 0 cnt) as Hs.
  { apply NoDup_submseteq; [done|]. intros i Hi. apply elem_of_seqZ. rewrite Forall_forall in Hr. specialize (Hr i Hi). lia. }
  pose proof (submseteq_length _ _ Hs) as Hl. rewrite length_seqZ in Hl. unfold zlen. split; [lia|]. intros E i Hi.
  rewrite (submseteq_length_Permutation _ _ Hs) by (rewrite length_seqZ; lia). apply elem_of_seqZ. lia.
Qed.

(** A unit is taken, a unit is returned. *)
Lemma block_alloc_ok m b l : block_ok m b l -> fk_pool_block_isfull b = false ->
  exists i l' b', l = i :: l' /\ fk_pool_block_alloc m b = Some (bk_data b + us * i, b') /\ bk_data b' = bk_data b /\ block_ok m b' l'.
Proof.
  intros [Hs Hc Hn Hr Hf Hch] Hfull. unfold fk_pool_block_isfull in Hfull. apply Z.eqb_neq in Hfull.
  destruct l as [|i l]; [by rewrite Hf in Hfull|]. destruct Hch as [Ei (next & E & Hch)].
  exists i, l, (Block next (u16 (bk_free_cnt b - 1)) (bk_unit_cnt b) (bk_unit_size b) (bk_data b)).
  split; [done|]. split; [unfold fk_pool_block_alloc; by rewrite Hs, Ei, E|]. split; [done|].
  apply NoDup_cons in Hn as [Hi Hn]. apply Forall_cons in Hr as [_ Hr].
  split; cbn; try done. destruct (indices_le l Hn Hr) as [Hl _]. unfold u16. rewrite Hf, zlen_cons in *.
  pose proof (zlen_nonneg l). rewrite Z.mod_small; lia.
Qed.

Lemma block_free_ok m b l i : block_ok m b l -> 0 <= i < cnt -> i ∉ l ->
  let ptr := bk_data b + us * i in
  exists b', fk_pool_block_free m b ptr = Some (b', <[ptr := bk_first b]> m) /\ bk_data b' = bk_data b /\
    block_ok (<[ptr := bk_first b]> m) b' (i :: l).
Proof.
  intros [Hs Hc Hn Hr Hf Hch] Hi Hil ptr. unfold fk_pool_block_free. rewrite (proj2 (Z.eqb_neq _ _)) by lia.
  assert (u16 (Z.quot (ptr - bk_data b) (bk_unit_size b)) = i) as ->.
  { unfold ptr. rewrite Hs. replace (bk_data b + us * i - bk_data b) with (i * us) by lia. rewrite Z.quot_mul by lia.
    unfold u16. apply Z.mod_small. lia. }
  eexists. split; [done|]. split; [done|]. assert (NoDup (i :: l)) as Hn' by by apply NoDup_cons.
  assert (Forall (fun i => 0 <= i < cnt) (i :: l)) as Hr' by by apply Forall_cons.
  split; cbn; try done.
  - destruct (indices_le _ Hn' Hr') as [Hl _]. rewrite zlen_cons in *. rewrite Hf. pose proof (zlen_nonneg l).
    unfold u16. rewrite Z.mod_small; lia.
  - split; [done|]. exists (bk_first b). split; [apply lookup_insert_eq|]. eapply chain_ext; [|exact Hch].
    intros j Hj. apply lookup_insert_ne. unfold ptr. rewrite Forall_forall in Hr. specialize (Hr j Hj).
    intros E. assert (i = j) by nia. by subst.
Qed.

Lemma block_links_spec n : forall i ptr m ptr' m', block_links n i ptr us m = (ptr', m') ->
  ptr' = ptr + us * Z.of_nat n /\
  (forall k, 0 <= k < Z.of_nat n -> m' !! (ptr + us * k) = Some (i + k + 1)) /\
  (forall a, ~ (ptr <= a < ptr + us * Z.of_nat n) -> m' !! a = m !! a).
Proof.
  induction n as [|n IH]; intros i ptr m ptr' m' E; cbn [block_links] in E.
  - injection E as <- <-. split; [lia|]. split; [lia|done].
  - apply IH in E as (-> & Hin & Hout). split; [lia|]. split.
    + intros k Hk. destruct (decide (k = 0)) as [->|Hk0].
      * rewrite Hout by lia. replace (ptr + us * 0) with ptr by lia. rewrite lookup_insert_eq. f_equal. lia.
      * replace (ptr + us * k) with (ptr + us + us * (k - 1)) by lia. rewrite Hin by lia. f_equal. lia.
    + intros a Ha. rewrite Hout by nia. apply lookup_insert_ne. nia.
Qed.

(** A new block has all its units free, in order. *)
Lemma block_create_ok d m : exists b m', fk_block_create d us cnt m = Some (b, m') /\ bk_data b = d /\
  bk_free_cnt b = cnt /\ block_ok m' b (seqZ 0 cnt) /\ forall a, ~ (d <= a < d + us * cnt) -> m' !! a = m !! a.
Proof.
  unfold fk_block_create. rewrite (proj2 (Z.ltb_ge us 2)), (proj2 (Z.ltb_ge cnt 1)), (proj2 (Z.leb_gt _ _)) by lia. cbn [orb].
  destruct (block_links _ _ _ _ _) as [ptr m'] eqn:E. apply block_links_spec in E as (-> & Hin & Hout).
  rewrite Z2Nat.id in * by lia. eexists _, _. split; [done|]. split; [done|]. split; [done|].
  set (m'' := <[_ := _]> m'). assert (forall i, 0 <= i < cnt -> exists v, m'' !! (d + us * i) = Some v /\ (i < cnt - 1 -> v = i + 1)) as Hl.
  { intros i Hi. unfold m''. destruct (decide (i = cnt - 1)) as [->|Hne].
    - eexists. split; [apply lookup_insert_eq|lia].
    - exists (i + 1). rewrite lookup_insert_ne by nia. rewrite Hin by lia. split; [f_equal; lia|done]. }
  split; [|intros a Ha; unfold m''; rewrite lookup_insert_ne by nia; apply Hout; nia]. split; cbn; try done.
  - apply NoDup_seqZ.
  - apply Forall_forall. intros i. rewrite elem_of_seqZ. lia.
  - unfold zlen. rewrite length_seqZ. lia.
  - assert (forall k i v, 0 <= i -> i + Z.of_nat k = cnt -> (k <> 0%nat -> v = i) -> chain m'' d v (seqZ i (Z.of_nat k))) as H.
    { induction k as [|k IH]; intros i v Hi Hk Hv; [done|]. rewrite seqZ_cons by lia. cbn [chain].
      replace (Z.pred (Z.of_nat (S k))) with (Z.of_nat k) by lia. split; [by apply Hv|]. destruct (Hl i) as (w & Hw & Hn); [lia|].
      exists w. split; [done|]. apply IH; [lia|lia|]. intros Hk0. rewrite Hn by lia. lia. }
    rewrite <- (Z2Nat.id cnt) by lia. apply H; lia.
Qed.

#[local] Instance placed_perm : Proper (Permutation ==> iff) placed.
Proof. intros D E HP. unfold placed. by setoid_rewrite HP. Qed.

Lemma placed_cons d D : placed (d :: D) <-> (d ∉ D) /\ (forall e, e ∈ D -> apart d e) /\ placed D.
Proof.
  unfold placed. rewrite NoDup_cons. split.
  - intros [[Hd Hn] Ha]. split; [done|]. split; [intros e He|split; [done|]].
    + apply Ha; [apply list_elem_of_here|by apply list_elem_of_further|]. intros ->. done.
    + intros e f He Hf. apply Ha; by apply list_elem_of_further.
  - intros (Hd & Hp & Hn & Ha). split; [done|]. intros e f [->|He]%elem_of_cons [->|Hf]%elem_of_cons Hne; [done|by apply Hp| |by apply Ha].
    destruct (Hp e He); [by right|by left].
Qed.

(** The free units of one block change. *)
Definition upd (free : Z -> list Z) (d : Z) (l : list Z) : Z -> list Z := fun e => if decide (e = d) then l else free e.

Lemma upd_eq free d l : upd free d l d = l.
Proof. unfold upd. by rewrite decide_True. Qed.

Lemma upd_ne free d l e : e <> d -> upd free d l e = free e.
Proof. intros H. unfold upd. by rewrite decide_False. Qed.

Lemma used_perm free D E p : D ≡ₚ E -> used free D p <-> used free E p.
Proof. intros HP. unfold used. by setoid_rewrite HP. Qed.

Lemma used_take free D d i l p : d ∈ D -> free d = i :: l -> NoDup (i :: l) -> 0 <= i < cnt ->
  used (upd free d l) D p <-> p = d + us * i \/ used free D p.
Proof.
  intros Hd Hf [Hi Hn]%NoDup_cons Hr. split.
  - intros (e & j & He & Hj & Hjf & ->). destruct (decide (e = d)) as [->|Hne].
    + rewrite upd_eq in Hjf. destruct (decide (j = i)) as [->|Hji]; [by left|]. right. exists d, j. rewrite Hf, elem_of_cons. naive_solver.
    + rewrite upd_ne in Hjf by done. right. by exists e, j.
  - intros [->|(e & j & He & Hj & Hjf & ->)]; [exists d, i; by rewrite upd_eq|]. exists e, j. split; [done|]. split; [done|]. split; [|done].
    destruct (decide (e = d)) as [->|Hne]; [rewrite upd_eq; rewrite Hf, elem_of_cons in Hjf; naive_solver|by rewrite upd_ne].
Qed.

Lemma used_give free D d i p : placed D -> d ∈ D -> 0 <= i < cnt ->
  used (upd free d (i :: free d)) D p <-> used free D p /\ p <> d + us * i.
Proof.
  intros [_ Ha] Hd Hi. split.
  - intros (e & j & He & Hj & Hjf & ->). destruct (decide (e = d)) as [->|Hne].
    + rewrite upd_eq, elem_of_cons in Hjf. split; [exists d, j; naive_solver|]. intros E. assert (j = i) by nia. naive_solver.
    + rewrite upd_ne in Hjf by done. split; [by exists e, j|]. intros E. destruct (units_inj e d j i) as [? _]; auto.
  - intros [(e & j & He & Hj & Hjf & ->) Hne]. exists e, j. split; [done|]. split; [done|]. split; [|done].
    destruct (decide (e = d)) as [->|Hed]; [rewrite upd_eq, elem_of_cons; naive_solver|by rewrite upd_ne].
Qed.

Lemma used_new free d D p : d ∉ D -> used (upd free d (seqZ 0 cnt)) (d :: D) p <-> used free D p.
Proof.
  intros Hd. split.
  - intros (e & j & [->|He]%elem_of_cons & Hj & Hjf & ->).
    + rewrite upd_eq, elem_of_seqZ in Hjf. lia.
    + rewrite upd_ne in Hjf by (by intros ->). by exists e, j.
  - intros (e & j & He & Hj & Hjf & ->). exists e, j. rewrite elem_of_cons, upd_ne by (by intros ->). auto.
Qed.

Lemma used_all free d D p : (forall i, 0 <= i < cnt -> i ∈ free d) -> used free (d :: D) p <-> used free D p.
Proof.
  intros Hall. split; [|intros (e & j & He & H); exists e, j; rewrite elem_of_cons; auto].
  intros (e & j & [->|He]%elem_of_cons & Hj & Hjf & ->); [by destruct (Hjf (Hall j Hj))|by exists e, j].
Qed.

(** One block changes, and no free unit of another one. *)
Lemma blocks_ok_change m m' pre b b' post free l : blocks_ok m (pre ++ b :: post) free ->
  bk_data b' = bk_data b -> block_ok m' b' l ->
  (forall c i, c ∈ pre ++ post -> i ∈ free (bk_data c) -> m' !! (bk_data c + us * i) = m !! (bk_data c + us * i)) ->
  blocks_ok m' (pre ++ b' :: post) (upd free (bk_data b) l).
Proof.
  intros [Hb Hp] Hd Hb' Hm. split; [|by rewrite fmap_app, fmap_cons, Hd, <- fmap_cons, <- fmap_app].
  assert (bk_data b ∉ bk_data <$> pre ++ post) as Hnot.
  { rewrite <- Permutation_middle, fmap_cons in Hp. by apply placed_cons in Hp as [? _]. }
  rewrite <- Permutation_middle in Hb |- *. apply Forall_cons in Hb as [_ Hb]. apply Forall_cons. rewrite Hd, upd_eq. split; [done|].
  apply Forall_forall. intros c Hc. rewrite upd_ne by (intros E; apply Hnot; rewrite <- E; by apply list_elem_of_fmap_2).
  rewrite Forall_forall in Hb. apply (block_ok_ext m); [|by apply Hb]. intros i. by apply Hm.
Qed.

(** ** The operations *)

Lemma free_not_used free D d i : placed D -> d ∈ D -> i ∈ free d -> 0 <= i < cnt -> ~ used free D (d + us * i).
Proof.
  intros [_ Ha] Hd Hf Hi (e & j & He & Hj & Hjf & E). destruct (units_inj d e i j) as [-> ->]; auto.
Qed.

Lemma alloc_in_spec m l : Forall (fun b => exists k, block_ok m b k) l ->
  alloc_in m l = Some None \/
  exists pre b post ptr b', l = pre ++ b :: post /\ fk_pool_block_isfull b = false /\
    fk_pool_block_alloc m b = Some (ptr, b') /\ alloc_in m l = Some (Some (ptr, pre ++ b' :: post)).
Proof.
  induction l as [|b l IH]; [by left|]. intros [[k Hb] Hl]%Forall_cons. cbn [alloc_in].
  destruct (fk_pool_block_isfull b) eqn:Ef.
  - destruct (IH Hl) as [->|(pre & c & post & ptr & c' & -> & H1 & H2 & ->)]; [by left|right].
    by exists (b :: pre), c, post, ptr, c'.
  - right. destruct (block_alloc_ok m b k Hb Ef) as (i & k' & b' & -> & E & _). rewrite E. by exists [], b, l, (bk_data b + us * i), b'.
Qed.

(** A unit of a block that is not full. *)
Lemma take_keeps m pre b post free (live : gset Z) : blocks_ok m (pre ++ b :: post) free ->
  (forall p, p ∈ live <-> used free (bk_data <$> pre ++ b :: post) p) -> fk_pool_block_isfull b = false ->
  exists ptr b' free', fk_pool_block_alloc m b = Some (ptr, b') /\ blocks_ok m (pre ++ b' :: post) free' /\
    (forall p, p ∈ {[ptr]} ∪ live <-> used free' (bk_data <$> pre ++ b' :: post) p) /\ (ptr ∉ live) /\
    bk_data b' <= ptr /\ ptr + us <= block_end b'.
Proof.
  intros Hb Hl Hf. pose proof Hb as [Hall Hp]. assert (b ∈ pre ++ b :: post) as Hin by set_solver.
  rewrite Forall_forall in Hall. pose proof (Hall b Hin) as Hbo.
  destruct (block_alloc_ok m b _ Hbo Hf) as (i & k & b' & Ek & E & Hd & Hbo'). rewrite Ek in Hbo.
  pose proof (bo_nodup _ _ _ Hbo) as Hn. pose proof (bo_range _ _ _ Hbo) as Hr. apply Forall_cons in Hr as [Hi _].
  assert (bk_data b ∈ bk_data <$> pre ++ b :: post) as HD by by apply list_elem_of_fmap_2.
  exists (bk_data b + us * i), b', (upd free (bk_data b) k). split; [exact E|].
  split; [by apply (blocks_ok_change m m pre b b' post free k)|].
  replace (bk_data <$> pre ++ b' :: post) with (bk_data <$> pre ++ b :: post) by (by rewrite !fmap_app, !fmap_cons, Hd).
  split; [|split].
  - intros p. rewrite (used_take free _ _ i k p HD Ek Hn Hi), <- Hl. set_solver.
  - rewrite Hl. apply free_not_used; [done|done|rewrite Ek; apply list_elem_of_here|done].
  - unfold block_end. rewrite (bo_size _ _ _ Hbo'), (bo_cnt _ _ _ Hbo'), Hd. nia.
Qed.

(** Where [malloc] may put a block. *)
Definition fresh (d : Z) (s : fk_pool * cells) : Prop := forall b, b ∈ po_head s.1 -> apart d (bk_data b).

(** Nothing in the units [live] changes. *)
Definition untouched (live : gset Z) (m m' : cells) : Prop := forall q a, q ∈ live -> q <= a < q + us -> m' !! a = m !! a.

Lemma malloc_keeps s live free d : pool_inv s live free -> fresh d s ->
  exists p s' free', fk_pool_malloc d s = Some (p, s') /\ pool_inv s' ({[p]} ∪ live) free' /\ (p ∉ live) /\
    (exists b, b ∈ po_head s'.1 /\ bk_data b <= p /\ p + us <= block_end b) /\ untouched live s.2 s'.2.
Proof.
  destruct s as [pool m]. intros [Hs Hc Hb Hl] Hfr. cbn [fst snd] in *. unfold fk_pool_malloc.
  destruct (alloc_in_spec m (po_head pool)) as [E|(pre & b & post & ptr & b' & El & Hf & Ea & E)].
  { eapply Forall_impl; [apply Hb|]. intros b H. exists (free (bk_data b)). exact H. }
  - rewrite E, Hs, Hc. destruct (block_create_ok d m) as (b & m' & -> & Hd & Hfc & Hbo & Hout). cbn [mbind option_bind].
    assert (d ∉ bk_data <$> po_head pool) as Hnot.
    { intros (c & Ec & Hin)%list_elem_of_fmap. destruct (Hfr c Hin) as [H|H]; rewrite <- Ec in H; unfold block_header in H; nia. }
    assert (forall e i a, e ∈ bk_data <$> po_head pool -> 0 <= i < cnt -> e + us * i <= a < e + us * i + us -> m' !! a = m !! a) as Hm.
    { intros e i a (c & -> & Hin)%list_elem_of_fmap Hi Ha. apply Hout. destruct (Hfr c Hin) as [H|H]; unfold block_header in H; nia. }
    destruct (take_keeps m' [] b (po_head pool) (upd free d (seqZ 0 cnt)) live) as (ptr & b' & free' & -> & Hb' & Hl' & Hp & Hpb).
    + split.
      * cbn [app]. apply Forall_cons. rewrite Hd, upd_eq. split; [done|]. apply Forall_forall. intros c Hin.
        rewrite upd_ne by (intros Ec; apply Hnot; rewrite <- Ec; by apply list_elem_of_fmap_2).
        destruct Hb as [Hb _]. rewrite Forall_forall in Hb. pose proof (bo_range _ _ _ (Hb c Hin)) as Hr. rewrite Forall_forall in Hr.
        apply (block_ok_ext m); [|by apply Hb]. intros i Hi. eapply Hm; [by apply list_elem_of_fmap_2|by apply Hr|lia].
      * cbn [app]. rewrite fmap_cons, Hd. apply placed_cons. split; [done|]. split; [|apply Hb].
        intros e (c & -> & Hin)%list_elem_of_fmap. by apply Hfr.
    + intros p. cbn [app]. rewrite fmap_cons, Hd, used_new by done. apply Hl.
    + unfold fk_pool_block_isfull. rewrite Hfc. apply Z.eqb_neq. lia.
    + eexists _, _, free'. split; [reflexivity|]. split; [by split|]. split; [done|].
      split; [exists b'; split; [apply list_elem_of_here|done]|]. intros q a Hq Ha. apply Hl in Hq as (e & i & He & Hi & _ & ->). by eapply Hm.
  - rewrite E. rewrite El in Hb, Hl. destruct (take_keeps m pre b post free live Hb Hl Hf) as (ptr' & b'' & free' & Ea' & Hb' & Hl' & Hp & Hpb).
    rewrite Ea in Ea'. injection Ea' as <- <-. eexists _, _, free'. split; [reflexivity|]. split; [by split|]. split; [done|].
    split; [exists b'; split; [cbn; set_solver|done]|by intros q a].
Qed.

(** The block of a unit. *)
Lemma block_of_spec m l free b i : blocks_ok m l free -> b ∈ l -> 0 <= i < cnt ->
  exists pre post, l = pre ++ b :: post /\ block_of (bk_data b + us * i) l = Some (pre, b, post).
Proof.
  induction l as [|c l IH]; [by intros _ ?%elem_of_nil|]. intros [Hb Hp] Hin Hi.
  apply Forall_cons in Hb as [Hc Hb]. rewrite fmap_cons in Hp. apply placed_cons in Hp as (Hnot & Hap & Hp). cbn [block_of].
  unfold fk_pool_block_nocontain. rewrite (bo_size _ _ _ Hc), (bo_cnt _ _ _ Hc). apply elem_of_cons in Hin as [->|Hin].
  - rewrite (proj2 (Z.ltb_ge _ _)), (proj2 (Z.ltb_ge _ _)) by nia. by exists [], l.
  - destruct (IH (conj Hb Hp) Hin Hi) as (pre & post & -> & E). rewrite E.
    assert ((bk_data b + us * i <? bk_data c) || (bk_data c + us * cnt <? bk_data b + us * i) = true) as ->.
    { apply orb_true_iff. destruct (Hap (bk_data b)) as [H|H]; [by apply list_elem_of_fmap_2| |]; unfold block_header in H;
        [right|left]; apply Z.ltb_lt; nia. }
    by exists (c :: pre), post.
Qed.

(** The changes of a block that becomes the head, and of a block that is returned. *)
Lemma blocks_ok_front m pre b post free : blocks_ok m (pre ++ b :: post) free -> blocks_ok m (b :: pre ++ post) free.
Proof. unfold blocks_ok. by rewrite <- Permutation_middle. Qed.

Lemma destroy_apart m b d j a : bk_unit_size b = us -> bk_unit_cnt b = cnt -> apart (bk_data b) d -> 0 <= j < cnt ->
  d + us * j <= a < d + us * j + us -> fk_block_destroy b m !! a = m !! a.
Proof.
  intros Hs Hc Hap Hj Ha. unfold fk_block_destroy, block_end. rewrite Hs, Hc. apply option_eq. intros v.
  rewrite map_lookup_filter_Some. split; [by intros [? _]|]. intros Hv. split; [done|]. cbn.
  destruct Hap as [H|H]; unfold block_header in H; nia.
Qed.

Lemma blocks_ok_destroy m b l free : blocks_ok m (b :: l) free -> blocks_ok (fk_block_destroy b m) l free.
Proof.
  intros [[Hb Hl]%Forall_cons Hp]. rewrite fmap_cons in Hp. apply placed_cons in Hp as (_ & Hap & Hp). split; [|done].
  rewrite Forall_forall in *. intros c Hc. pose proof (Hl c Hc) as Hco. apply (block_ok_ext m); [|done]. intros i Hi.
  pose proof (bo_range _ _ _ Hco) as Hr. rewrite Forall_forall in Hr.
  apply (destroy_apart m b (bk_data c) i); [apply Hb|apply Hb| |by apply Hr|lia]. apply Hap. by apply list_elem_of_fmap_2.
Qed.

Lemma free_keeps s live free p : pool_inv s live free -> p ∈ live ->
  exists s' free', fk_pool_free p s = Some (tt, s') /\ pool_inv s' (live ∖ {[p]}) free' /\ untouched (live ∖ {[p]}) s.2 s'.2.
Proof.
  destruct s as [pool m]. intros [Hs Hc Hb Hl] Hp. cbn [fst snd] in *.
  destruct (proj1 (Hl p) Hp) as (d & i & (b & -> & Hin)%list_elem_of_fmap & Hi & Hif & ->).
  destruct (block_of_spec m _ free b i Hb Hin Hi) as (pre & post & El & E). unfold fk_pool_free. rewrite E. rewrite El in Hb, Hl, Hin. clear E El.
  pose proof Hb as [Hall Hpl]. rewrite Forall_forall in Hall.
  destruct (block_free_ok m b _ i (Hall b Hin) Hi Hif) as (b' & -> & Hd & Hbo). cbn [mbind option_bind].
  assert (bk_data b ∈ bk_data <$> pre ++ b :: post) as HD by by apply list_elem_of_fmap_2.
  set (m' := <[bk_data b + us * i := bk_first b]> m) in *. set (free' := upd free (bk_data b) (i :: free (bk_data b))).
  assert (forall q, q ∈ live ∖ {[bk_data b + us * i]} <-> used free' (bk_data <$> b' :: pre ++ post) q) as Hl'.
  { intros q. rewrite (used_perm _ _ (bk_data <$> pre ++ b :: post)) by (by rewrite fmap_cons, Hd, <- fmap_cons, Permutation_middle).
    unfold free'. rewrite used_give by done. rewrite <- Hl. set_solver. }
  assert (blocks_ok m' (b' :: pre ++ post) free') as Hb'.
  { apply blocks_ok_front. apply (blocks_ok_change m); [done|done|done|]. intros c j Hcin Hj. apply lookup_insert_ne. intros Eq.
    assert (c ∈ pre ++ b :: post) as Hcin' by set_solver. pose proof (bo_range _ _ _ (Hall c Hcin')) as Hr. rewrite Forall_forall in Hr.
    eapply (free_not_used free _ (bk_data c) j); [exact Hpl|by apply list_elem_of_fmap_2|exact Hj|by apply Hr|].
    by exists (bk_data b), i. }
  assert (untouched (live ∖ {[bk_data b + us * i]}) m m') as Hu.
  { intros q a [Hq Hne]%elem_of_difference Ha. apply lookup_insert_ne. intros <-. apply Hl in Hq as (e & j & He & Hj & _ & ->).
    destruct Hpl as [_ Hap]. destruct (units_apart e (bk_data b) j i) as [?|?]; [by apply Hap|done|done| |lia|lia].
    intros [= -> ->]. by apply Hne, elem_of_singleton. }
  destruct (fk_pool_block_isempty b') eqn:Ee; [destruct (_ =? _)|]; eexists _, free'; (split; [reflexivity|]).
  2,3: by split; [split|].
  unfold fk_pool_block_isempty in Ee. apply Z.eqb_eq in Ee. rewrite (bo_cnt _ _ _ Hbo), (bo_free _ _ _ Hbo) in Ee.
  assert (forall q, used free' (bk_data <$> b' :: pre ++ post) q <-> used free' (bk_data <$> pre ++ post) q) as Hall'.
  { intros q. rewrite fmap_cons, Hd. apply used_all. unfold free'. rewrite upd_eq. by apply (indices_le _ (bo_nodup _ _ _ Hbo) (bo_range _ _ _ Hbo)). }
  split.
  - split; [done|done|by apply blocks_ok_destroy|]. intros q. rewrite Hl', Hall'. done.
  - intros q a Hq Ha. rewrite <- (Hu q a Hq Ha). pose proof Hq as Hq'. rewrite Hl', Hall' in Hq'.
    destruct Hq' as (e & j & (c & -> & Hcin)%list_elem_of_fmap & Hj & _ & ->).
    destruct Hb' as [_ Hp']. rewrite fmap_cons in Hp'. apply placed_cons in Hp' as (_ & Hap & _).
    apply (destroy_apart m' b' (bk_data c) j); [apply Hbo|apply Hbo| |done|done]. apply Hap. by apply list_elem_of_fmap_2.
Qed.

Lemma write_keeps pool m live free p a v : pool_inv (pool, m) live free -> p ∈ live -> p <= a < p + us ->
  pool_inv (pool, <[a := v]> m) live free.
Proof.
  intros [Hs Hc [Hb Hpl] Hl] Hp Ha. cbn [fst snd] in *. split; [done|done| |done]. split; [|done]. cbn [fst snd].
  rewrite Forall_forall in *. intros b Hin. apply (block_ok_ext m); [|by apply Hb]. intros i Hi. apply lookup_insert_ne. intros ->.
  pose proof (bo_range _ _ _ (Hb b Hin)) as Hr. rewrite Forall_forall in Hr. specialize (Hr i Hi).
  apply Hl in Hp as (e & j & He & Hj & Hjf & ->). destruct Hpl as [_ Hap].
  destruct (units_apart e (bk_data b) j i) as [?|?]; [intros; apply Hap; [done|by apply list_elem_of_fmap_2|done]|done|done| |lia|lia].
  intros [= -> ->]. done.
Qed.

Lemma live_apart s live free p q : pool_inv s live free -> p ∈ live -> q ∈ live -> p <> q -> p + us <= q \/ q + us <= p.
Proof.
  intros [_ _ [_ [_ Hap]] Hl] (d & i & Hd & Hi & _ & ->)%Hl (e & j & He & Hj & _ & ->)%Hl Hne.
  apply units_apart; [by apply Hap|done|done|]. intros [= -> ->]. done.
Qed.

Lemma create_inv pool : po_head pool = [] -> po_unit_size pool = us -> po_init_cnt pool = cnt -> pool_inv (pool, ∅) ∅ (fun _ => []).
Proof.
  intros Eh Es Ec. split; cbn [fst snd]; [done|done| |]; rewrite Eh.
  - split; [constructor|]. split; [apply NoDup_nil_2|]. by intros d e ?%elem_of_nil.
  - intros p. split; [by intros ?%elem_of_empty|]. by intros (d & i & ?%elem_of_nil & _).
Qed.
End pool.

(** ** Properties *)

(** What the users of a pool do with the units they hold: they take and return units, and
    write the cells of those they have. *)
Inductive pool_step : (fk_pool * cells) * gset Z -> (fk_pool * cells) * gset Z -> Prop :=
  | step_malloc s live d p s' : fresh (po_unit_size s.1) (po_init_cnt s.1) d s ->
      fk_pool_malloc d s = Some (p, s') -> pool_step (s, live) (s', {[p]} ∪ live)
  | step_free s live p s' : p ∈ live -> fk_pool_free p s = Some (tt, s') -> pool_step (s, live) (s', live ∖ {[p]})
  | step_write pool m live p a v : p ∈ live -> p <= a -> a + 2 <= p + po_unit_size pool -> (a - p) mod 2 = 0 ->
      pool_step ((pool, m), live) ((pool, <[a := v]> m), live).

Lemma align_even n : 0 <= n -> n <= fk_pool_align_cal n <= n + 1 /\ fk_pool_align_cal n mod 2 = 0.
Proof.
  intros Hn. unfold fk_pool_align_cal, fk_pool_align. change (Z.lnot (2 - 1)) with (Z.lnot (Z.ones 1)).
  rewrite <- Z.ldiff_land, Z.ldiff_ones_r, Z.shiftl_mul_pow2, Z.shiftr_div_pow2 by lia. change (2 ^ 1) with 2.
  split; [|by rewrite Z.mod_mul]. pose proof (Z.div_mod (n + 2 - 1) 2). pose proof (Z.mod_pos_bound (n + 2 - 1) 2). lia.
Qed.

Lemma create_size n cnt : 0 <= n < 2 ^ 16 - 1 -> let p := fk_pool_create n cnt in
  n <= po_unit_size p /\ 2 <= po_unit_size p.
Proof.
  intros Hn. cbn. destruct (Z.ltb_spec 4 n).
  - destruct (align_even n) as [Ha He]; [lia|]. unfold u16. change (2 ^ 16) with 65536 in *.
    assert (fk_pool_align_cal n < 65536) as Hlt.
    { destruct (decide (fk_pool_align_cal n = 65536)); [|lia]. lia. }
    rewrite Z.mod_small by lia. lia.
  - destruct (Z.leb_spec n 2); lia.
Qed.

Lemma steps_inv us cnt s live s' live' : 2 <= us -> 0 < cnt < 2 ^ 16 -> us * cnt < 2 ^ 31 ->
  rtc pool_step (s, live) (s', live') -> (exists free, pool_inv us cnt s live free) -> exists free, pool_inv us cnt s' live' free.
Proof.
  intros H1 H2 H3 Hr. remember (s, live) as x. remember (s', live') as y. revert s live s' live' Heqx Heqy.
  induction Hr as [x|x [s1 live1] z Hstep Hr IH]; intros s live s' live' -> Hy; [by injection Hy as -> ->|].
  intros [free I]. apply (IH s1 live1 s' live' eq_refl Hy). clear IH Hr Hy.
  inversion Hstep as [? ? d p ? Hf E|? ? p ? Hp E|pool m ? p a v Hp Ha Ha2]; subst.
  - rewrite (pi_size _ _ _ _ _ I), (pi_cnt _ _ _ _ _ I) in Hf.
    destruct (malloc_keeps us cnt H1 H2 H3 s live free d I Hf) as (p' & s'' & free' & E' & I' & _). rewrite E in E'.
    injection E' as <- <-. by exists free'.
  - destruct (free_keeps us cnt H1 H2 H3 s live free p I Hp) as (s'' & free' & E' & I' & _). rewrite E in E'. injection E' as <-. by exists free'.
  - exists free. pose proof (pi_size _ _ _ _ _ I) as Es. cbn in Es. apply (write_keeps us cnt H1 H2 H3 _ _ _ _ p); [done|done|lia].
Qed.

(** C26. A pool never hands out memory in use.  Whatever its users take, return and write
    in the units they hold: these units do not overlap; the next call of
    [fk_pool_malloc], wherever a new block would be, gives another unit, inside a block,
    of at least the size asked for; returning any of them succeeds; and neither call
    changes what the users wrote. *)
Theorem pool_is_safe unit_size init_cnt s live : let pool := fk_pool_create unit_size init_cnt in
  let us := po_unit_size pool in
  0 <= unit_size < 2 ^ 16 - 1 -> 0 < init_cnt < 2 ^ 16 -> us * init_cnt < 2 ^ 31 ->
  rtc pool_step ((pool, ∅), ∅) (s, live) ->
  unit_size <= us /\
  (forall p q, p ∈ live -> q ∈ live -> p <> q -> p + us <= q \/ q + us <= p) /\
  (forall d, fresh us init_cnt d s -> exists p s', fk_pool_malloc d s = Some (p, s') /\
    (forall q, q ∈ live -> p + us <= q \/ q + us <= p) /\ (exists b, b ∈ po_head s'.1 /\ bk_data b <= p /\ p + us <= block_end b) /\
    untouched us live s.2 s'.2) /\
  (forall p, p ∈ live -> exists s', fk_pool_free p s = Some (tt, s') /\ untouched us (live ∖ {[p]}) s.2 s'.2).
Proof.
  intros pool us Hn Hc Hs Hr. destruct (create_size unit_size init_cnt Hn) as [H1 H2]. split; [exact H1|].
  destruct (steps_inv us init_cnt _ _ _ _ H2 Hc Hs Hr) as [free I]; [by eexists; apply create_inv|].
  split; [intros p q; by apply (live_apart us init_cnt H2 Hc Hs s live free)|]. split.
  - intros d Hf. destruct (malloc_keeps us init_cnt H2 Hc Hs s live free d I Hf) as (p & s' & free' & E & I' & Hp & Hb & Hu).
    exists p, s'. split; [exact E|]. split; [|by split]. intros q Hq. apply (live_apart us init_cnt H2 Hc Hs s' _ free' p q I'); set_solver.
  - intros p Hp. destruct (free_keeps us init_cnt H2 Hc Hs s live free p I Hp) as (s' & free' & E & _ & Hu). by exists s'.
Qed.

(** A run: two units are taken and the second is written over, a third is taken and the
    first is returned. *)
Definition ex_pool : fk_pool * cells := (fk_pool_create 5 2, ∅).
Definition ex_malloc (d : Z) (s : fk_pool * cells) : fk_pool * cells := default s (snd <$> fk_pool_malloc d s).
Definition ex_two : fk_pool * cells := ex_malloc 4096 (ex_malloc 4096 ex_pool).
Definition ex_three : fk_pool * cells := ex_malloc 8192 (ex_two.1, <[4102 := 77]> ex_two.2).
Definition ex_end : fk_pool * cells := default ex_three (snd <$> fk_pool_free 4096 ex_three).
Definition ex_live : gset Z := ({[8192]} ∪ ({[4102]} ∪ ({[4096]} ∪ ∅))) ∖ {[4096]}.

Lemma ex_pool_steps : rtc pool_step (ex_pool, ∅) (ex_end, ex_live).
Proof.
  eapply rtc_l; [apply (step_malloc _ _ 4096 4096 (ex_malloc 4096 ex_pool)); [by intros b ?%elem_of_nil|vm_compute; reflexivity]|].
  eapply rtc_l; [apply (step_malloc _ _ 8192 4102 ex_two); [|vm_compute; reflexivity]|].
  { intros b Hb. apply list_elem_of_singleton in Hb as ->. right. vm_compute. congruence. }
  eapply rtc_l; [apply (step_write ex_two.1 ex_two.2 _ 4102 4102 77); [set_solver|lia|vm_compute; congruence|reflexivity]|].
  eapply rtc_l; [apply (step_malloc _ _ 8192 8192 ex_three); [|vm_compute; reflexivity]|].
  { intros b Hb. apply list_elem_of_singleton in Hb as ->. right. vm_compute. congruence. }
  eapply rtc_l; [apply (step_free _ _ 4096 ex_end); [set_solver|vm_compute; reflexivity]|].
  apply rtc_refl.
Qed.

Lemma pool_is_safe_witness : ex_end.2 !! 4102 = Some 77 /\
  (forall d, fresh 6 2 d ex_end -> exists p s', fk_pool_malloc d ex_end = Some (p, s') /\
    (forall q, q ∈ ex_live -> p + 6 <= q \/ q + 6 <= p) /\ s'.2 !! 4102 = Some 77).
Proof.
  split; [vm_compute; reflexivity|].
  destruct (pool_is_safe 5 2 ex_end ex_live) as (_ & _ & H & _); [lia|lia|vm_compute; reflexivity|exact ex_pool_steps|].
  intros d Hd. destruct (H d Hd) as (p & s' & E & Hq & _ & Hu). exists p, s'. split; [exact E|]. split; [exact Hq|].
  rewrite (Hu 4102 4102); [vm_compute; reflexivity|set_solver|vm_compute; split; congruence].
Defined.

(** The counter of empty blocks only grows: once a block has become empty, every block
    that becomes empty is returned, also when the pool has no other. *)
Example empty_block_returned : let s1 := ex_malloc 4096 ex_pool in
  let s2 := default s1 (snd <$> fk_pool_free 4096 s1) in
  let s3 := ex_malloc 4096 s2 in
  let s4 := default s3 (snd <$> fk_pool_free 4096 s3) in
  bk_free_cnt <$> po_head s2.1 = [2] /\ bk_free_cnt <$> po_head s3.1 = [1] /\ po_empty_blks s3.1 = 1 /\ po_head s4.1 = [].
Proof. vm_compute. done. Qed.
