(* ===== verification/Buf.v ===== *)
(** Models src/src/fk_buf.h and fk_buf.c (the growable read/write buffer with its
    [low]/[high] cursors) and src/src/fk_vtr.h and fk_vtr.c (the argument
    vector).  A byte of a buffer is a [cell]: [None] is a byte that [malloc] or
    [realloc] returned and nobody wrote. *)
From S2P Require Import Prelude Util.

Abbreviation cell := (option ascii).

Record fk_buf := FkBuf {
  highwat : Z;
  init_len : Z;
  blen : Z;
  low : Z;
  high : Z;
  bdata : list cell
}.

Definition set_data (b : fk_buf) (d : list cell) : fk_buf :=
  FkBuf (highwat b) (init_len b) (blen b) (low b) (high b) d.
Definition set_high (b : fk_buf) (h : Z) : fk_buf :=
  FkBuf (highwat b) (init_len b) (blen b) (low b) h (bdata b).
Definition set_low (b : fk_buf) (l : Z) : fk_buf :=
  FkBuf (highwat b) (init_len b) (blen b) l (high b) (bdata b).
Definition set_blen (b : fk_buf) (n : Z) : fk_buf :=
  FkBuf (highwat b) (init_len b) n (low b) (high b) (bdata b).

(** [realloc] to [n] bytes: the common prefix is kept. *)
Definition resize (n : Z) (d : list cell) : list cell :=
  ztake n d ++ replicate (Z.to_nat (n - zlen d)) None.

Definition fk_buf_create (init hw : Z) : fk_buf :=
  FkBuf hw init init 0 0 (replicate (Z.to_nat init) None).

Definition fk_buf_free_len (b : fk_buf) : Z := blen b - high b.
Definition fk_buf_payload_len (b : fk_buf) : Z := high b - low b.
Definition fk_buf_reach_highwat (b : fk_buf) : bool := blen b =? highwat b.

(** The bytes from [fk_buf_payload_start] on. *)
Definition payload (b : fk_buf) : list cell := ztake (high b - low b) (zdrop (low b) (bdata b)).

Definition fk_buf_high_inc (b : fk_buf) (offset : Z) : fk_buf :=
  let h := high b + offset in
  set_high b (if blen b <? h then blen b else h).

Definition fk_buf_low_inc (b : fk_buf) (offset : Z) : fk_buf :=
  let l := low b + offset in
  set_low b (if high b <? l then high b else l).

Definition fk_buf_stretch (b : fk_buf) : fk_buf :=
  if blen b <? highwat b then
    let n := Z.shiftl (blen b) 1 in
    set_data (set_blen b n) (resize n (bdata b))
  else b.

Definition fk_buf_shift (b : fk_buf) : fk_buf :=
  if 0 <? low b then
    let d := splice 0 (payload b) (bdata b) in
    set_low (set_high (set_data b d) (high b - low b)) 0
  else b.

Definition fk_buf_shrink (b : fk_buf) : fk_buf :=
  if (init_len b <=? blen b) && (fk_buf_payload_len b <? init_len b) then
    let b := fk_buf_shift b in
    set_blen (set_data b (resize (init_len b) (bdata b))) (init_len b)
  else b.

Definition fk_buf_alloc (b : fk_buf) (length : Z) : fk_buf :=
  let b := if fk_buf_free_len b <? length then fk_buf_shift b else b in
  if (fk_buf_free_len b <? length) && (blen b <? highwat b) then
    let n := u64 (fk_util_min_power (i32 (blen b + length - fk_buf_free_len b))) in
    set_data (set_blen b n) (resize n (bdata b))
  else b.

(** [memcpy(fk_buf_free_start(buf), cs, len)]. *)
Definition fk_buf_memcpy (b : fk_buf) (cs : list cell) : fk_buf :=
  set_data b (splice (high b) cs (bdata b)).

(** ** The argument vector *)

Record fk_vtr (A : Type) := FkVtr { v_init_len : Z; v_array : list (option A) }.
Arguments FkVtr {A}.
Arguments v_init_len {A}.
Arguments v_array {A}.

Section vtr.
Context {A : Type}.
Implicit Type v : fk_vtr A.

Definition fk_vtr_create (n : Z) : fk_vtr A := FkVtr n (replicate (Z.to_nat n) None).
Definition fk_vtr_len v : Z := zlen (v_array v).

(** An access outside the array is undefined behaviour: [None]. *)
Definition fk_vtr_get v (i : Z) : option (option A) := znth (v_array v) i.
Definition fk_vtr_set v (i : Z) (x : option A) : option (fk_vtr A) :=
  if (0 <=? i) && (i <? fk_vtr_len v)
  then Some (FkVtr (v_init_len v) (zupd (v_array v) i x)) else None.

Definition fk_vtr_stretch v (length : Z) : fk_vtr A :=
  if fk_vtr_len v <? length then
    FkVtr (v_init_len v)
      (v_array v ++ replicate (Z.to_nat (length - fk_vtr_len v)) None)
  else v.

Definition fk_vtr_shrink v : fk_vtr A :=
  if v_init_len v <? fk_vtr_len v
  then FkVtr (v_init_len v) (ztake (v_init_len v) (v_array v)) else v.
End vtr.

(** ** Properties of the buffer *)

Record buf_wf (b : fk_buf) : Prop := {
  wf_data : zlen (bdata b) = blen b;
  wf_low : 0 <= low b;
  wf_low_high : low b <= high b;
  wf_high : high b <= blen b;
  wf_init : 0 <= init_len b
}.

#[export] Hint Resolve wf_data wf_low wf_low_high wf_high wf_init : fk.

(** Unfold the invariant into linear facts. *)
Ltac buf_lia H :=
  let h1 := fresh in let h2 := fresh in let h3 := fresh in
  let h4 := fresh in let h5 := fresh in
  pose proof (wf_data _ H) as h1; pose proof (wf_low _ H) as h2;
  pose proof (wf_low_high _ H) as h3; pose proof (wf_high _ H) as h4;
  pose proof (wf_init _ H) as h5; cbn in *; bool_lia.

Lemma zlen_resize n d : 0 <= n -> zlen (resize n d) = n.
Proof.
  intros H. unfold resize. rewrite zlen_app.
  pose proof (zlen_nonneg d). unfold zlen, ztake in *.
  rewrite length_take, length_replicate. lia.
Qed.

Lemma fk_buf_create_wf init hw : 0 <= init -> buf_wf (fk_buf_create init hw).
Proof. intros H. split; cbn; try lia. by apply zlen_replicate. Qed.

Lemma payload_create init hw : payload (fk_buf_create init hw) = [].
Proof. reflexivity. Qed.

Lemma zlen_payload b : buf_wf b -> zlen (payload b) = fk_buf_payload_len b.
Proof.
  intros H. unfold payload, fk_buf_payload_len.
  rewrite zlen_ztake; [done|]. rewrite zlen_zdrop by buf_lia H. buf_lia H.
Qed.

Lemma high_inc_wf b n : buf_wf b -> 0 <= n -> buf_wf (fk_buf_high_inc b n).
Proof.
  intros H Hn. unfold fk_buf_high_inc. destruct (blen b <? high b + n) eqn:E;
    split; cbn; auto with fk; buf_lia H.
Qed.

Lemma low_inc_wf b n : buf_wf b -> 0 <= n -> buf_wf (fk_buf_low_inc b n).
Proof.
  intros H Hn. unfold fk_buf_low_inc. destruct (high b <? low b + n) eqn:E;
    split; cbn; auto with fk; buf_lia H.
Qed.

Lemma shift_wf b : buf_wf b -> buf_wf (fk_buf_shift b).
Proof.
  intros H. unfold fk_buf_shift. destruct (0 <? low b) eqn:E; [|done].
  split; cbn; auto with fk; try buf_lia H.
  rewrite zlen_splice; [auto with fk|lia|].
  rewrite zlen_payload by done. unfold fk_buf_payload_len. buf_lia H.
Qed.

Lemma stretch_wf b : buf_wf b -> buf_wf (fk_buf_stretch b).
Proof.
  intros H. unfold fk_buf_stretch. case_match; [|done].
  rewrite Z.shiftl_mul_pow2 by lia. change (2 ^ 1) with 2.
  split; cbn; auto with fk; [apply zlen_resize|]; buf_lia H.
Qed.

Lemma shrink_wf b : buf_wf b -> buf_wf (fk_buf_shrink b).
Proof.
  intros H. unfold fk_buf_shrink, fk_buf_payload_len. case_match eqn:E; [|done].
  pose proof (shift_wf b H) as H'.
  assert (init_len (fk_buf_shift b) = init_len b) as Ei
    by (unfold fk_buf_shift; by case_match).
  assert (high (fk_buf_shift b) = low (fk_buf_shift b) + (high b - low b)) as Eh
    by (unfold fk_buf_shift; case_match; cbn; lia).
  assert (low (fk_buf_shift b) = 0) as El
    by (unfold fk_buf_shift; case_match eqn:E0; cbn; [done|]; buf_lia H).
  split; cbn; rewrite ?Ei, ?El; try apply zlen_resize; auto with fk; buf_lia H.
Qed.

(** *** The payload is what the operations preserve *)

Lemma payload_high_0 b : low b = 0 -> payload b = ztake (high b) (bdata b).
Proof. intros H. unfold payload. by rewrite H, Z.sub_0_r, zdrop_0. Qed.

Lemma payload_shift b : buf_wf b -> payload (fk_buf_shift b) = payload b.
Proof.
  intros H. unfold fk_buf_shift. destruct (0 <? low b); [|done].
  rewrite payload_high_0 by done. cbn. unfold splice. rewrite ztake_0. cbn [app].
  rewrite ztake_app_l; [done|]. by rewrite zlen_payload.
Qed.

(** Reallocating beyond [high] keeps the payload. *)
Lemma payload_resize b n :
  buf_wf b -> high b <= n ->
  payload (set_data (set_blen b n) (resize n (bdata b))) = payload b.
Proof.
  intros H Hn. unfold payload; cbn. unfold resize.
  pose proof (wf_data _ H) as Hd. pose proof (zlen_nonneg (bdata b)).
  destruct (decide (n <= zlen (bdata b))) as [Hle|Hgt].
  - rewrite <- (ztake_zdrop n (bdata b)) at 3.
    rewrite (Z2Nat.nonpos (n - _)) by lia. rewrite app_nil_r.
    rewrite zdrop_app_le by (rewrite zlen_ztake; buf_lia H).
    rewrite ztake_app_le; [done|].
    rewrite zlen_zdrop; rewrite zlen_ztake; buf_lia H.
  - rewrite (ztake_all n) by lia. rewrite zdrop_app_le by buf_lia H.
    rewrite ztake_app_le; [done|]. rewrite zlen_zdrop; buf_lia H.
Qed.

Lemma payload_stretch b : buf_wf b -> payload (fk_buf_stretch b) = payload b.
Proof.
  intros H. unfold fk_buf_stretch. case_match; [|done].
  apply payload_resize; [done|]. rewrite Z.shiftl_mul_pow2 by lia. buf_lia H.
Qed.

Lemma payload_shrink b : buf_wf b -> payload (fk_buf_shrink b) = payload b.
Proof.
  intros H. unfold fk_buf_shrink, fk_buf_payload_len. case_match eqn:E; [|done].
  rewrite <- (payload_shift b H). pose proof (shift_wf b H) as Hs.
  assert (high (fk_buf_shift b) <= init_len (fk_buf_shift b)) as Hh
    by (unfold fk_buf_shift; destruct (0 <? low b) eqn:E0; cbn; buf_lia H).
  exact (payload_resize _ _ Hs Hh).
Qed.

Lemma payload_low_inc b n :
  buf_wf b -> 0 <= n <= fk_buf_payload_len b ->
  payload (fk_buf_low_inc b n) = zdrop n (payload b).
Proof.
  intros H Hn. unfold fk_buf_payload_len in Hn. unfold fk_buf_low_inc.
  rewrite (proj2 (Z.ltb_ge _ _)) by lia. unfold payload; cbn.
  replace (zdrop (low b + n) (bdata b)) with (zdrop n (zdrop (low b) (bdata b)))
    by (rewrite zdrop_zdrop by buf_lia H; f_equal; lia).
  unfold ztake, zdrop. rewrite skipn_firstn_comm. f_equal. buf_lia H.
Qed.

(** Appending: copy behind [high], then advance it. *)
Definition fk_buf_append (b : fk_buf) (cs : list cell) : fk_buf :=
  fk_buf_high_inc (fk_buf_memcpy b cs) (zlen cs).

Lemma append_wf b cs :
  buf_wf b -> zlen cs <= fk_buf_free_len b -> buf_wf (fk_buf_append b cs).
Proof.
  intros H Hl. unfold fk_buf_free_len in Hl. apply high_inc_wf; [|apply zlen_nonneg].
  split; cbn; auto with fk. rewrite zlen_splice; auto with fk; buf_lia H.
Qed.

Lemma payload_append b cs :
  buf_wf b -> zlen cs <= fk_buf_free_len b ->
  payload (fk_buf_append b cs) = payload b ++ cs.
Proof.
  intros H Hl. unfold fk_buf_free_len in Hl. unfold fk_buf_append, fk_buf_high_inc.
  cbn [fk_buf_memcpy set_data high blen]. rewrite (proj2 (Z.ltb_ge _ _)) by lia.
  pose proof (zlen_payload b H) as Hpl. unfold fk_buf_payload_len in Hpl.
  assert (payload b = zdrop (low b) (ztake (high b) (bdata b))) as Ep.
  { unfold payload, ztake, zdrop. rewrite skipn_firstn_comm. f_equal. buf_lia H. }
  assert (zlen (ztake (high b) (bdata b)) = high b) as Eh by (apply zlen_ztake; buf_lia H).
  unfold payload at 1; cbn. unfold splice.
  rewrite zdrop_app_le by (rewrite Eh; buf_lia H).
  rewrite <- Ep, app_assoc. apply ztake_app_l. rewrite zlen_app, Hpl. lia.
Qed.

(** *** [fk_buf_alloc] *)

(** What [fk_buf_alloc] leaves in its first step. *)
Definition alloc_shifted (b : fk_buf) (n : Z) : fk_buf :=
  if fk_buf_free_len b <? n then fk_buf_shift b else b.

Lemma alloc_shifted_wf b n : buf_wf b -> buf_wf (alloc_shifted b n).
Proof. intros H. unfold alloc_shifted. case_match; [by apply shift_wf|done]. Qed.

Lemma alloc_shifted_payload b n : buf_wf b -> payload (alloc_shifted b n) = payload b.
Proof. intros H. unfold alloc_shifted. case_match; [by apply payload_shift|done]. Qed.

Lemma alloc_shifted_fields b n :
  blen (alloc_shifted b n) = blen b /\ highwat (alloc_shifted b n) = highwat b /\
  init_len (alloc_shifted b n) = init_len b.
Proof. unfold alloc_shifted, fk_buf_shift. by repeat case_match. Qed.

(** The new length chosen by the second step. *)
Lemma alloc_new_len b n :
  buf_wf b -> 0 <= n -> blen b + n < 2 ^ 30 -> fk_buf_free_len b < n ->
  let m := u64 (fk_util_min_power (i32 (blen b + n - fk_buf_free_len b))) in
  high b + n < m /\ 0 <= m <= 2 * (high b + n).
Proof.
  intros H Hn Hs Hf. cbn. unfold fk_buf_free_len in *.
  replace (blen b + n - (blen b - high b)) with (high b + n) by lia.
  rewrite i32_small by buf_lia H.
  destruct (fk_util_min_power_spec (high b + n)) as (k & Hk & -> & Hlt & Hle);
    [buf_lia H|].
  pose proof (Z.pow_le_mono_r 2 k 30 ltac:(lia) ltac:(lia)).
  pose proof (Z.pow_pos_nonneg 2 k ltac:(lia) ltac:(lia)).
  unfold u64. rewrite Z.mod_small by lia. split; [lia|]. split; [lia|].
  destruct (decide (0 < high b + n)); [by apply Hle|buf_lia H].
Qed.

Lemma alloc_unfold b n :
  fk_buf_alloc b n =
    let b := alloc_shifted b n in
    if (fk_buf_free_len b <? n) && (blen b <? highwat b) then
      let m := u64 (fk_util_min_power (i32 (blen b + n - fk_buf_free_len b))) in
      set_data (set_blen b m) (resize m (bdata b))
    else b.
Proof. reflexivity. Qed.

Lemma alloc_spec b n :
  buf_wf b -> 0 <= n -> blen b + n < 2 ^ 30 ->
  let b' := fk_buf_alloc b n in
  buf_wf b' /\ payload b' = payload b /\ highwat b' = highwat b /\
  (blen b < highwat b -> n <= fk_buf_free_len b') /\
  (highwat b <= blen b -> blen b' = blen b) /\
  blen b <= blen b' /\ (blen b' = blen b \/ blen b' <= 2 * (highwat b + n)).
Proof.
  intros H Hn Hs. rewrite alloc_unfold. cbv zeta.
  pose proof (alloc_shifted_wf b n H) as Hw.
  pose proof (alloc_shifted_payload b n H) as Hp.
  destruct (alloc_shifted_fields b n) as (Eb & Eh & Ei).
  set (c := alloc_shifted b n) in *. clearbody c.
  destruct (fk_buf_free_len c <? n) eqn:E1; cbn [andb].
  2: { split_and!; auto with fk; try lia. }
  destruct (blen c <? highwat c) eqn:E2.
  2: { split_and!; auto with fk; bool_lia. }
  destruct (alloc_new_len c n Hw Hn ltac:(lia) ltac:(lia)) as [Hm1 Hm2].
  set (m := u64 _) in *. clearbody m.
  unfold fk_buf_free_len in *. split_and!; cbn; auto with fk.
  - split; cbn; auto with fk; [apply zlen_resize; lia|buf_lia Hw].
  - rewrite payload_resize; [done|done|lia].
  - lia.
  - bool_lia.
  - buf_lia Hw.
  - right. buf_lia Hw.
Qed.

(** *** The vector *)

Section vtr_props.
Context {A : Type}.
Implicit Type v : fk_vtr A.

Lemma fk_vtr_get_set v i x v' :
  fk_vtr_set v i x = Some v' -> fk_vtr_get v' i = Some x /\ fk_vtr_len v' = fk_vtr_len v.
Proof.
  unfold fk_vtr_set, fk_vtr_get, fk_vtr_len. case_match eqn:E; [|done]. intros [= <-]. cbn.
  unfold znth, zupd, zlen in *. destruct (i <? 0) eqn:E0; [bool_lia|].
  split; [apply list_lookup_insert_eq; bool_lia|by rewrite length_insert].
Qed.

Lemma fk_vtr_get_set_ne v i j x v' :
  fk_vtr_set v i x = Some v' -> i <> j -> fk_vtr_get v' j = fk_vtr_get v j.
Proof.
  unfold fk_vtr_set, fk_vtr_get, fk_vtr_len. case_match eqn:E; [|done]. intros [= <-] Hij.
  unfold znth, zupd in *; cbn. destruct (i <? 0) eqn:E0; [done|].
  destruct (j <? 0) eqn:E1; [done|]. apply list_lookup_insert_ne. bool_lia.
Qed.

Lemma fk_vtr_set_init v i x v' : fk_vtr_set v i x = Some v' -> v_init_len v' = v_init_len v.
Proof. unfold fk_vtr_set. case_match; [|done]. by intros [= <-]. Qed.

Lemma fk_vtr_stretch_init v n : v_init_len (fk_vtr_stretch v n) = v_init_len v.
Proof. unfold fk_vtr_stretch. by case_match. Qed.

Lemma fk_vtr_shrink_init v : v_init_len (fk_vtr_shrink v) = v_init_len v.
Proof. unfold fk_vtr_shrink. by case_match. Qed.

(** Shrinking keeps the entries below the initial length. *)
Lemma fk_vtr_shrink_get v i n :
  n <= v_init_len v -> n <= fk_vtr_len v ->
  n <= fk_vtr_len (fk_vtr_shrink v) /\
  (i < n -> fk_vtr_get (fk_vtr_shrink v) i = fk_vtr_get v i).
Proof.
  intros Hi Hl. unfold fk_vtr_shrink, fk_vtr_get, fk_vtr_len in *. case_match; cbn; [|done].
  unfold znth, ztake, zlen in *. rewrite length_take. split; [bool_lia|]. intros Hin.
  destruct (i <? 0) eqn:E; [done|]. rewrite lookup_take_lt by bool_lia. done.
Qed.

Lemma fk_vtr_stretch_len v n : n <= fk_vtr_len (fk_vtr_stretch v n) /\
  fk_vtr_len v <= fk_vtr_len (fk_vtr_stretch v n).
Proof.
  unfold fk_vtr_stretch, fk_vtr_len. case_match; cbn; [|bool_lia].
  rewrite zlen_app. unfold zlen in *. rewrite length_replicate. bool_lia.
Qed.

Lemma fk_vtr_stretch_get v n i :
  0 <= i < fk_vtr_len v -> fk_vtr_get (fk_vtr_stretch v n) i = fk_vtr_get v i.
Proof.
  intros Hi. unfold fk_vtr_stretch, fk_vtr_get. case_match; [|done]. cbn.
  by apply znth_app_l.
Qed.
End vtr_props.
