(* ===== verification/Dict.v ===== *)
(** Models src/src/fk_dict.c and fk_dict.h: the chained hash table.  A bucket is
    [None] (NULL) or the list of its elements from [head] to [tail].  The copy and
    free callbacks of [fk_elt_op_t] act on a store of type [S] (for the database
    dictionaries: the reference counts of the items), which every operation
    threads.  The interface [DictKey] states what the theory needs of the
    [key_hash] and [key_cmp] callbacks. *)
From S2P Require Import Prelude Util.

Definition FK_DICT_OK : Z := 0.
Definition FK_DICT_ERR : Z := -1.
Definition FK_DICT_INIT_SIZE : Z := 4.

Record fk_elt_op (S K V : Type) := EltOp {
  key_hash : K -> Z;
  key_cmp : K -> K -> Z;
  key_copy : option (K -> S -> K * S);
  key_free : option (K -> S -> S);
  val_copy : option (V -> S -> V * S);
  val_free : option (V -> S -> S)
}.
Arguments EltOp {S K V}.
Arguments key_hash {S K V}.
Arguments key_cmp {S K V}.
Arguments key_copy {S K V}.
Arguments key_free {S K V}.
Arguments val_copy {S K V}.
Arguments val_free {S K V}.

Record fk_dict (K V : Type) := FkDict {
  d_size : Z;
  d_size_mask : Z;
  d_used : Z;
  d_limit : Z;
  d_buckets : list (option (list (K * V)))
}.
Arguments FkDict {K V}.
Arguments d_size {K V}.
Arguments d_size_mask {K V}.
Arguments d_used {K V}.
Arguments d_limit {K V}.
Arguments d_buckets {K V}.

(** An iterator: [cur] and [next] are pointers into a bucket, represented by the
    elements from the pointed one to the tail ([[]] is NULL). *)
Record fk_dict_iter (K V : Type) := DictIter {
  it_idx : Z;
  it_cur : list (K * V);
  it_next : list (K * V)
}.
Arguments DictIter {K V}.
Arguments it_idx {K V}.
Arguments it_cur {K V}.
Arguments it_next {K V}.

Section ops.
Context {S K V : Type} (e : fk_elt_op S K V).
Implicit Type d : fk_dict K V.
Implicit Type s : S.

Definition fk_elt_set_key (k : K) s : K * S :=
  match key_copy e with Some f => f k s | None => (k, s) end.
Definition fk_elt_set_value (v : V) s : V * S :=
  match val_copy e with Some f => f v s | None => (v, s) end.
Definition fk_elt_key_free (k : K) s : S :=
  match key_free e with Some f => f k s | None => s end.
Definition fk_elt_value_free (v : V) s : S :=
  match val_free e with Some f => f v s | None => s end.

Definition fk_dict_init : fk_dict K V :=
  FkDict FK_DICT_INIT_SIZE (FK_DICT_INIT_SIZE - 1) 0 (Z.shiftr FK_DICT_INIT_SIZE 1)
    (replicate (Z.to_nat FK_DICT_INIT_SIZE) None).

Definition fk_dict_create : fk_dict K V := fk_dict_init.

Definition fk_dict_free_elt s (kv : K * V) : S :=
  fk_elt_value_free kv.2 (fk_elt_key_free kv.1 s).

(** Every element of every bucket is freed, head first. *)
Definition fk_dict_clear d s : S :=
  fold_left (fun s b => fold_left fk_dict_free_elt (default [] b) s) (d_buckets d) s.

Definition fk_dict_empty d s : fk_dict K V * S := (fk_dict_init, fk_dict_clear d s).
Definition fk_dict_destroy d s : S := fk_dict_clear d s.

Definition dict_idx (mask : Z) (k : K) : Z := Z.land (key_hash e k) mask.

(** [dct->buckets[idx]]: the bucket, NULL read as the empty list. *)
Definition bucket_at d (idx : Z) : list (K * V) :=
  default [] (mjoin (znth (d_buckets d) idx)).

Fixpoint bucket_search (key : K) (l : list (K * V)) : option (K * V) :=
  match l with
  | [] => None
  | kv :: l' => if key_cmp e kv.1 key =? 0 then Some kv else bucket_search key l'
  end.

Definition fk_dict_search d (key : K) : Z * option (K * V) :=
  let idx := dict_idx (d_size_mask d) key in
  (idx, bucket_search key (bucket_at d idx)).

Definition fk_dict_get d (key : K) : option V :=
  match (fk_dict_search d key).2 with
  | None => None
  | Some kv => Some kv.2
  end.

(** One step of the rehash loop: move [nd] to the head of its new bucket. *)
Definition rehash_insert (new_size : Z) (bks : list (option (list (K * V)))) (nd : K * V) :
    list (option (list (K * V))) :=
  let idx := dict_idx (new_size - 1) nd.1 in
  zupd bks idx (Some (nd :: default [] (mjoin (znth bks idx)))).

Definition fk_dict_stretch d : fk_dict K V :=
  if d_used d <? d_limit d then d
  else
    let new_size := Z.shiftl (d_size d) 1 in
    let bks :=
      fold_left (fun bks b => fold_left (rehash_insert new_size) (default [] b) bks)
        (d_buckets d) (replicate (Z.to_nat new_size) None) in
    FkDict new_size (new_size - 1) (d_used d) (Z.shiftr new_size 1) bks.

Definition set_bucket d (idx : Z) (l : list (K * V)) (used : Z) : fk_dict K V :=
  FkDict (d_size d) (d_size_mask d) used (d_limit d) (zupd (d_buckets d) idx (Some l)).

Definition fk_dict_add d (key : K) (value : V) s : Z * fk_dict K V * S :=
  let d := if d_used d =? d_limit d then fk_dict_stretch d else d in
  match fk_dict_search d key with
  | (_, Some _) => (FK_DICT_ERR, d, s)
  | (idx, None) =>
      let '(k, s) := fk_elt_set_key key s in
      let '(v, s) := fk_elt_set_value value s in
      (FK_DICT_OK, set_bucket d idx ((k, v) :: bucket_at d idx) (d_used d + 1), s)
  end.

(** Overwrite the value of the element [fk_dict_search] finds. *)
Fixpoint bucket_set_value (key : K) (v : V) (l : list (K * V)) : list (K * V) :=
  match l with
  | [] => []
  | kv :: l' =>
      if key_cmp e kv.1 key =? 0 then (kv.1, v) :: l' else kv :: bucket_set_value key v l'
  end.

Definition fk_dict_replace d (key : K) (value : V) s : Z * fk_dict K V * S :=
  let '(rt, d, s) := fk_dict_add d key value s in
  if rt =? FK_DICT_OK then (0, d, s)
  else
    match fk_dict_search d key with
    | (idx, Some elt) =>
        let s := fk_elt_value_free elt.2 s in
        let '(v, s) := fk_elt_set_value value s in
        (1, set_bucket d idx (bucket_set_value key v (bucket_at d idx)) (d_used d), s)
    | (_, None) => (1, d, s)
    end.

(** Unlink the element [fk_dict_search] finds. *)
Fixpoint bucket_remove (key : K) (l : list (K * V)) : list (K * V) :=
  match l with
  | [] => []
  | kv :: l' => if key_cmp e kv.1 key =? 0 then l' else kv :: bucket_remove key l'
  end.

Definition fk_dict_remove d (key : K) s : Z * fk_dict K V * S :=
  match fk_dict_search d key with
  | (_, None) => (FK_DICT_ERR, d, s)
  | (idx, Some elt) =>
      let s := fk_elt_value_free elt.2 (fk_elt_key_free elt.1 s) in
      (FK_DICT_OK, set_bucket d idx (bucket_remove key (bucket_at d idx)) (d_used d - 1), s)
  end.
End ops.

Section iteration.
Context {K V : Type}.
Implicit Type d : fk_dict K V.
Implicit Type it : fk_dict_iter K V.

Definition fk_dict_len d : Z := d_used d.

Definition fk_dict_iter_begin : fk_dict_iter K V := DictIter (-1) [] [].

(** The [while (1)] of [fk_dict_iter_next]: at most one turn per bucket. *)
Fixpoint iter_next_loop (fuel : nat) d it : option (K * V) * fk_dict_iter K V :=
  match fuel with
  | O => (None, it)
  | Datatypes.S f =>
      let at_start := match it_cur it with [] => true | _ => false end in
      let idx := if at_start then it_idx it + 1 else it_idx it in
      if at_start && (idx =? d_size d) then (None, DictIter idx [] (it_next it))
      else
        let cur := if at_start then bucket_at d idx else it_next it in
        match cur with
        | [] => iter_next_loop f d (DictIter idx [] (it_next it))
        | x :: l => (Some x, DictIter idx cur l)
        end
  end.

Definition fk_dict_iter_next d it : option (K * V) * fk_dict_iter K V :=
  iter_next_loop (Z.to_nat (d_size d) + 2) d it.

(** [while ((elt = fk_dict_iter_next(iter)) != NULL) ...]: the elements visited. *)
Fixpoint iter_all (fuel : nat) d it : list (K * V) :=
  match fuel with
  | O => []
  | Datatypes.S f =>
      match fk_dict_iter_next d it with
      | (None, _) => []
      | (Some x, it) => x :: iter_all f d it
      end
  end.

Definition fk_dict_elements d : list (K * V) :=
  iter_all (Z.to_nat (d_used d) + 1) d fk_dict_iter_begin.

Fixpoint iter_times (n : nat) d it (elt : option (K * V)) : option (K * V) :=
  match n with
  | O => elt
  | Datatypes.S m => let '(x, it) := fk_dict_iter_next d it in iter_times m d it x
  end.

(** [rand_val] is what [rand()] returned; [rand() % 0] is undefined behaviour. *)
Definition fk_dict_random d (rand_val : Z) : option (option (K * V)) :=
  if fk_dict_len d =? 0 then None
  else Some (iter_times (Z.to_nat (rand_val mod fk_dict_len d + 1)) d fk_dict_iter_begin None).
End iteration.

(** ** The interface of keys *)

(** [kview] is what a key denotes, [kok] the keys the callbacks are right on. *)
Class DictKey {S K V X : Type} (e : fk_elt_op S K V) (kview : K -> X) (kok : K -> Prop) : Prop := {
  dk_cmp : forall a b, kok a -> kok b -> key_cmp e a b = 0 <-> kview a = kview b;
  dk_hash : forall a b, kview a = kview b -> key_hash e a = key_hash e b;
  dk_hash_nonneg : forall a, 0 <= key_hash e a;
  dk_key_copy : forall k s, (fk_elt_set_key e k s).1 = k;
  dk_val_copy : forall v s, (fk_elt_set_value e v s).1 = v
}.

(** ** Abstraction and invariant *)

Definition elems {K V} (d : fk_dict K V) : list (K * V) :=
  concat (default [] <$> d_buckets d).

(** Replacing one member of a list of lists. *)
Lemma concat_insert {A} (L : list (list A)) i b :
  L !! i = Some b ->
  exists P Q, concat L = P ++ b ++ Q /\ forall b', concat (<[i := b']> L) = P ++ b' ++ Q.
Proof.
  intros Hi. exists (concat (take i L)), (concat (drop (Datatypes.S i) L)).
  assert (forall M : list (list A), M = take i L ++ (match M !! i with Some x => x | None => [] end)
    :: drop (Datatypes.S i) L -> concat M = concat (take i L) ++
    (match M !! i with Some x => x | None => [] end) ++ concat (drop (Datatypes.S i) L)) as Hc.
  { intros M HM. rewrite HM at 1. rewrite concat_app. done. }
  split.
  - rewrite (Hc L); rewrite Hi; [done|]. symmetry. by apply take_drop_middle.
  - intros b'. assert (i < length L)%nat by (by eapply lookup_lt_Some).
    rewrite (Hc (<[i:=b']> L)); rewrite list_lookup_insert_eq by done; [done|].
    by rewrite insert_take_drop.
Qed.

Section theory.
Context {S K V X : Type} `{Countable X}.
Context (e : fk_elt_op S K V) (kview : K -> X) (kok : K -> Prop).
Context `{DK : !DictKey e kview kok}.
Implicit Type d : fk_dict K V.
Implicit Type bks : list (option (list (K * V))).

Definition kvs (l : list (K * V)) : list (X * V) := (fun kv => (kview kv.1, kv.2)) <$> l.

(** The finite map a dictionary denotes. *)
Definition dmap d : gmap X V := list_to_map (kvs (elems d)).

(** Every element sits in the bucket its hash selects. *)
Definition placed (mask : Z) bks : Prop :=
  forall i l, znth bks i = Some (Some l) ->
  Forall (fun kv => kok kv.1 /\ dict_idx e mask kv.1 = i) l.

Record dict_wf d : Prop := {
  dwf_size : exists n, 2 <= n /\ d_size d = 2 ^ n;
  dwf_mask : d_size_mask d = d_size d - 1;
  dwf_limit : d_limit d = Z.shiftr (d_size d) 1;
  dwf_length : zlen (d_buckets d) = d_size d;
  dwf_used : d_used d = zlen (elems d);
  dwf_load : d_used d <= d_limit d;
  dwf_placed : placed (d_size_mask d) (d_buckets d);
  dwf_nodup : NoDup (kview ∘ fst <$> elems d)
  }.

Lemma dict_idx_range mask n k : mask = 2 ^ n - 1 -> 0 <= n -> 0 <= dict_idx e mask k < 2 ^ n.
Proof.
  intros -> Hn. unfold dict_idx. replace (2 ^ n - 1) with (Z.ones n) by (rewrite Z.ones_equiv; lia).
  rewrite Z.land_ones by done. apply Z.mod_pos_bound, Z.pow_pos_nonneg; lia.
Qed.

(** The bucket index never leaves the bucket array. *)
Lemma dict_idx_in d k : dict_wf d -> 0 <= dict_idx e (d_size_mask d) k < zlen (d_buckets d).
Proof.
  intros W. destruct (dwf_size _ W) as (n & Hn & Hs).
  rewrite (dwf_length _ W), Hs. apply dict_idx_range; [|lia].
  rewrite (dwf_mask _ W). lia.
Qed.

Lemma bucket_at_spec d i :
  0 <= i < zlen (d_buckets d) ->
  (default [] <$> d_buckets d) !! Z.to_nat i = Some (bucket_at d i).
Proof.
  intros Hi. unfold bucket_at. destruct (znth_is_Some _ _ Hi) as [b Hb].
  rewrite Hb. unfold znth in Hb. rewrite (proj2 (Z.ltb_ge _ _)) in Hb by lia.
  by rewrite list_lookup_fmap, Hb.
Qed.

(** Writing a bucket changes the elements only there. *)
Lemma elems_set_bucket d i l u :
  0 <= i < zlen (d_buckets d) ->
  exists P Q, elems d = P ++ bucket_at d i ++ Q /\
  elems (set_bucket d i l u) = P ++ l ++ Q.
Proof.
  intros Hi. destruct (concat_insert _ _ _ (bucket_at_spec d i Hi)) as (P & Q & E1 & E2).
  exists P, Q. split; [done|]. unfold elems, set_bucket, zupd; cbn.
  rewrite (proj2 (Z.ltb_ge _ _)) by lia. rewrite list_fmap_insert. apply E2.
Qed.

Lemma bucket_at_placed d i :
  dict_wf d -> Forall (fun kv => kok kv.1 /\ dict_idx e (d_size_mask d) kv.1 = i) (bucket_at d i).
Proof.
  intros W. unfold bucket_at. destruct (znth (d_buckets d) i) as [[l|]|] eqn:E; cbn.
  - by apply (dwf_placed _ W).
  - constructor.
  - constructor.
Qed.

Lemma elem_of_elems d kv :
  dict_wf d -> kv ∈ elems d ->
  kok kv.1 /\ kv ∈ bucket_at d (dict_idx e (d_size_mask d) kv.1).
Proof.
  intros W Hin. unfold elems in Hin. apply list_elem_of_In, in_concat in Hin as (l & Hl & Hkv).
  apply list_elem_of_In in Hl, Hkv. apply list_elem_of_lookup in Hl as [i Hi].
  rewrite list_lookup_fmap in Hi. destruct (d_buckets d !! i) as [b|] eqn:Eb; [|done].
  cbn in Hi. injection Hi as <-.
  assert (znth (d_buckets d) (Z.of_nat i) = Some b) as Hz.
  { unfold znth. rewrite (proj2 (Z.ltb_ge _ _)) by lia. by rewrite Nat2Z.id. }
  destruct b as [l|]; cbn in Hkv; [|by apply not_elem_of_nil in Hkv].
  pose proof (dwf_placed _ W _ _ Hz) as Hp. rewrite Forall_forall in Hp.
  destruct (Hp _ Hkv) as [Hok Hidx]. split; [done|].
  rewrite Hidx. unfold bucket_at. by rewrite Hz.
Qed.

(** *** Searching a bucket *)

Lemma bucket_search_Some k l kv :
  bucket_search e k l = Some kv -> kv ∈ l /\ key_cmp e kv.1 k = 0.
Proof.
  induction l as [|x l IH]; cbn [bucket_search]; [done|].
  destruct (key_cmp e x.1 k =? 0) eqn:E.
  - intros [= <-]. split; [apply list_elem_of_here|by apply Z.eqb_eq].
  - intros [??]%IH. split; [by apply list_elem_of_further|done].
Qed.

Lemma bucket_search_None k l :
  bucket_search e k l = None -> Forall (fun kv => key_cmp e kv.1 k <> 0) l.
Proof.
  induction l as [|x l IH]; cbn [bucket_search]; [constructor|].
  destruct (key_cmp e x.1 k =? 0) eqn:E; [done|].
  intros Hs. constructor; [by apply Z.eqb_neq|by apply IH].
Qed.

Lemma kvs_NoDup l : NoDup (kview ∘ fst <$> l) -> NoDup (kvs l).*1.
Proof. unfold kvs. rewrite <- list_fmap_compose. done. Qed.

Lemma dmap_elem d kv :
  dict_wf d -> kv ∈ elems d -> dmap d !! kview kv.1 = Some kv.2.
Proof.
  intros W Hin. unfold dmap. apply elem_of_list_to_map_1.
  - apply kvs_NoDup, W.
  - unfold kvs. apply list_elem_of_fmap. by exists kv.
Qed.

Lemma dmap_elem_inv d x v :
  dmap d !! x = Some v -> exists kv, kv ∈ elems d /\ kview kv.1 = x /\ kv.2 = v.
Proof.
  unfold dmap. intros Hl%elem_of_list_to_map_2. unfold kvs in Hl.
  apply list_elem_of_fmap in Hl as (kv & [= -> ->] & Hin). eauto.
Qed.

Lemma search_elem d k :
  dict_wf d -> kok k ->
  match bucket_search e k (bucket_at d (dict_idx e (d_size_mask d) k)) with
  | Some kv => kv ∈ elems d /\ kview kv.1 = kview k /\ kok kv.1
  | None => dmap d !! kview k = None
  end.
Proof.
  intros W Hk. set (i := dict_idx e (d_size_mask d) k).
  pose proof (bucket_at_placed d i W) as Hp. rewrite Forall_forall in Hp.
  destruct (bucket_search e k (bucket_at d i)) as [kv|] eqn:E.
  - apply bucket_search_Some in E as [Hin Hc]. destruct (Hp _ Hin) as [Hok _].
    split; [|by rewrite (dk_cmp kv.1 k Hok Hk) in Hc].
    destruct (elems_set_bucket d i [] 0 (dict_idx_in d k W)) as (P & Q & -> & _).
    apply elem_of_app. right. apply elem_of_app. by left.
  - apply bucket_search_None in E. rewrite Forall_forall in E.
    destruct (dmap d !! kview k) as [v|] eqn:Em; [|done]. exfalso.
    apply dmap_elem_inv in Em as (kv & Hin & Hv & _).
    destruct (elem_of_elems d kv W Hin) as [Hok Hb].
    assert (dict_idx e (d_size_mask d) kv.1 = i) as Hi
      by (unfold i, dict_idx; by rewrite (dk_hash kv.1 k Hv)).
    rewrite Hi in Hb. apply (E _ Hb). by apply dk_cmp.
Qed.

(** [fk_dict_get] looks the key up in the map. *)
Lemma fk_dict_get_spec d k : dict_wf d -> kok k -> fk_dict_get e d k = dmap d !! kview k.
Proof.
  intros W Hk. unfold fk_dict_get, fk_dict_search. cbn.
  pose proof (search_elem d k W Hk) as Hs. case_match; [|done].
  destruct Hs as (Hin & Hv & _). rewrite <- Hv. symmetry. by apply dmap_elem.
Qed.
End theory.

Arguments dict_wf {S K V X} e kview kok d.
Arguments dmap {K V X _ _} kview d.

Section updates.
Context {S K V X : Type} `{Countable X}.
Context (e : fk_elt_op S K V) (kview : K -> X) (kok : K -> Prop).
Context `{DK : !DictKey e kview kok}.
Implicit Type d : fk_dict K V.
Implicit Type bks : list (option (list (K * V))).

Abbreviation wf := (dict_wf e kview kok).
Abbreviation dm := (dmap (K := K) (V := V) kview).

Lemma elems_init : elems (@fk_dict_init K V) = [].
Proof. reflexivity. Qed.

Lemma fk_dict_init_wf : wf fk_dict_init.
Proof.
  split; try done.
  - exists 2. by vm_compute.
  - intros i l Hl. exfalso. unfold znth in Hl. case_match; [done|]. cbn in Hl.
    apply lookup_replicate in Hl as [? _]. done.
  - constructor.
Qed.

Lemma fk_dict_init_dmap : dm fk_dict_init = ∅.
Proof. reflexivity. Qed.

(** Equal elements up to order denote equal maps. *)
Lemma dmap_perm d d' :
  NoDup (kview ∘ fst <$> elems d) -> elems d ≡ₚ elems d' -> dm d = dm d'.
Proof.
  intros Hn Hp. unfold dmap. apply list_to_map_proper.
  - by apply kvs_NoDup.
  - unfold kvs. by rewrite Hp.
Qed.

Lemma dmap_cons d d' kv :
  elems d' ≡ₚ kv :: elems d -> NoDup (kview ∘ fst <$> elems d') ->
  dm d' = <[kview kv.1 := kv.2]> (dm d).
Proof.
  intros Hp Hn. unfold dmap. rewrite (list_to_map_proper (kvs kview (elems d')) (kvs kview (kv :: elems d))).
  - reflexivity.
  - by apply kvs_NoDup.
  - unfold kvs. by rewrite Hp.
Qed.

Lemma dmap_None d x : dm d !! x = None -> x ∉ (kview ∘ fst <$> elems d).
Proof.
  unfold dmap. intros Hx. apply not_elem_of_list_to_map in Hx.
  unfold kvs in Hx. by rewrite <- list_fmap_compose in Hx.
Qed.

(** *** Writing a bucket *)

Lemma znth_zupd {A} (l : list A) i j x :
  0 <= i < zlen l -> znth (zupd l i x) j = if decide (i = j) then Some x else znth l j.
Proof.
  intros Hi. unfold znth, zupd, zlen in *. rewrite (proj2 (Z.ltb_ge i 0)) by lia.
  destruct (j <? 0) eqn:Ej; case_decide; subst; try bool_lia; try done.
  - apply list_lookup_insert_eq. lia.
  - apply list_lookup_insert_ne. bool_lia.
Qed.

Lemma placed_zupd mask bks i l :
  0 <= i < zlen bks -> placed e kok mask bks ->
  Forall (fun kv => kok kv.1 /\ dict_idx e mask kv.1 = i) l ->
  placed e kok mask (zupd bks i (Some l)).
Proof.
  intros Hi Hp Hl j l'. rewrite znth_zupd by done. case_decide; [|by apply Hp].
  intros [= <-]. by subst.
Qed.

Lemma set_bucket_wf d i l u :
  wf d -> 0 <= i < zlen (d_buckets d) ->
  Forall (fun kv => kok kv.1 /\ dict_idx e (d_size_mask d) kv.1 = i) l ->
  u = zlen (elems (set_bucket d i l u)) -> u <= d_limit d ->
  NoDup (kview ∘ fst <$> elems (set_bucket d i l u)) ->
  wf (set_bucket d i l u).
Proof.
  intros W Hi Hl Hu Hlim Hn. split; cbn; try apply W; try done.
  - unfold zlen, zupd. case_match; [apply W|]. rewrite length_insert. apply W.
  - apply placed_zupd; [done|apply W|done].
Qed.

(** *** [fk_dict_stretch] *)

Lemma fold_concat {A B} (f : B -> A -> B) (L : list (option (list A))) b :
  fold_left (fun b o => fold_left f (default [] o) b) L b =
  fold_left f (concat (default [] <$> L)) b.
Proof.
  revert b. induction L as [|o L IH]; intros b; [done|].
  cbn [fold_left fmap list_fmap concat]. by rewrite IH, fold_left_app.
Qed.

Lemma rehash_insert_spec n bks kv :
  0 <= n -> zlen bks = 2 ^ n -> placed e kok (2 ^ n - 1) bks -> kok kv.1 ->
  let bks' := rehash_insert e (2 ^ n) bks kv in
  zlen bks' = 2 ^ n /\ placed e kok (2 ^ n - 1) bks' /\
  concat (default [] <$> bks') ≡ₚ kv :: concat (default [] <$> bks).
Proof.
  intros Hn Hlen Hp Hk. unfold rehash_insert. cbn.
  pose proof (dict_idx_range e (2 ^ n - 1) n kv.1 eq_refl Hn) as Hi.
  set (i := dict_idx e (2 ^ n - 1) kv.1) in *.
  assert (0 <= i < zlen bks) as Hi' by (by rewrite Hlen).
  set (d := FkDict 0 0 0 0 bks).
  destruct (elems_set_bucket d i (kv :: default [] (mjoin (znth bks i))) 0 Hi')
    as (P & Q & E1 & E2).
  assert (concat (default [] <$> bks) = elems d) as -> by done.
  assert (concat (default [] <$> zupd bks i (Some (kv :: default [] (mjoin (znth bks i)))))
    = elems (set_bucket d i (kv :: default [] (mjoin (znth bks i))) 0)) as -> by done.
  split_and!.
  - unfold zlen, zupd in *. case_match; [done|]. by rewrite length_insert.
  - apply placed_zupd; [done|done|]. constructor; [done|].
    destruct (znth bks i) as [[l|]|] eqn:E; cbn; [|constructor..]. by apply Hp.
  - rewrite E2, E1. unfold bucket_at. cbn. by rewrite <- Permutation_middle.
Qed.

Lemma rehash_all n l bks :
  0 <= n -> zlen bks = 2 ^ n -> placed e kok (2 ^ n - 1) bks ->
  Forall (fun kv => kok kv.1) l ->
  let bks' := fold_left (rehash_insert e (2 ^ n)) l bks in
  zlen bks' = 2 ^ n /\ placed e kok (2 ^ n - 1) bks' /\
  concat (default [] <$> bks') ≡ₚ l ++ concat (default [] <$> bks).
Proof.
  intros Hn. revert bks. induction l as [|kv l IH]; intros bks Hlen Hp Hl; cbn; [done|].
  apply Forall_cons in Hl as [Hkv Hl].
  destruct (rehash_insert_spec n bks kv Hn Hlen Hp Hkv) as (H1 & H2 & H3).
  destruct (IH _ H1 H2 Hl) as (I1 & I2 & I3). split_and!; [done..|].
  rewrite I3, H3. by rewrite Permutation_middle.
Qed.

Lemma placed_replicate mask m : placed e kok mask (replicate m None).
Proof.
  intros i l Hl. exfalso. unfold znth in Hl. case_match; [done|].
  apply lookup_replicate in Hl as [? _]. done.
Qed.

Lemma concat_replicate_None m :
  concat (default [] <$> replicate m (@None (list (K * V)))) = [].
Proof. induction m; [done|]. by cbn. Qed.

Lemma elems_kok d : wf d -> Forall (fun kv => kok kv.1) (elems d).
Proof.
  intros W. apply Forall_forall. intros kv Hin.
  by destruct (elem_of_elems e kview kok d kv W Hin).
Qed.

(** Rehashing keeps the elements, and makes room when the table was full. *)
Lemma fk_dict_stretch_spec d :
  wf d -> d_used d = d_limit d ->
  wf (fk_dict_stretch e d) /\ elems (fk_dict_stretch e d) ≡ₚ elems d /\
  d_used (fk_dict_stretch e d) < d_limit (fk_dict_stretch e d).
Proof.
  intros W Hfull. unfold fk_dict_stretch. rewrite Hfull, Z.ltb_irrefl.
  destruct (dwf_size _ _ _ _ W) as (n & Hn & Hs).
  assert (Z.shiftl (d_size d) 1 = 2 ^ (n + 1)) as ->.
  { rewrite Z.shiftl_mul_pow2 by lia. by rewrite Hs, Z.pow_add_r by lia. }
  rewrite fold_concat. fold (elems d).
  destruct (rehash_all (n + 1) (elems d) (replicate (Z.to_nat (2 ^ (n + 1))) None))
    as (R1 & R2 & R3).
  { lia. } { apply zlen_replicate. apply Z.pow_nonneg; lia. }
  { apply placed_replicate. } { by apply elems_kok. }
  rewrite concat_replicate_None, app_nil_r in R3.
  set (bks := fold_left _ _ _) in *. clearbody bks.
  assert (Z.shiftr (2 ^ (n + 1)) 1 = 2 ^ n) as Hlim.
  { rewrite Z.shiftr_div_pow2, Z.pow_add_r by lia. change (2 ^ 1) with 2.
    by rewrite Z.div_mul. }
  assert (d_limit d = 2 ^ n / 2) as Hl.
  { rewrite (dwf_limit _ _ _ _ W), Hs, Z.shiftr_div_pow2 by lia. done. }
  assert (2 ^ n / 2 < 2 ^ n) as Hlt
    by (apply Z.div_lt; [apply Z.pow_pos_nonneg|]; lia).
  split_and!; cbn; [split; cbn; try done|done|rewrite Hlim; lia].
  - exists (n + 1). split; [lia|done].
  - rewrite <- Hfull, (dwf_used _ _ _ _ W). unfold zlen. by rewrite R3.
  - rewrite Hlim. lia.
  - eapply NoDup_Permutation_proper; [|apply W]. by rewrite R3.
Qed.

(** *** [fk_dict_add] *)

Lemma add_room d :
  wf d ->
  let d1 := if d_used d =? d_limit d then fk_dict_stretch e d else d in
  wf d1 /\ dm d1 = dm d /\ elems d1 ≡ₚ elems d /\ d_used d1 < d_limit d1.
Proof.
  intros W. cbn. destruct (d_used d =? d_limit d) eqn:E.
  - destruct (fk_dict_stretch_spec d W) as (W1 & Hp & Hr); [bool_lia|].
    split_and!; [done| |done|done]. apply dmap_perm; [apply W1|done].
  - split_and!; [done..|]. pose proof (dwf_load _ _ _ _ W). bool_lia.
Qed.

Lemma fk_dict_add_spec d k v s :
  wf d -> kok k ->
  let '(rt, d', _) := fk_dict_add e d k v s in
  wf d' /\
  match dm d !! kview k with
  | Some _ => rt = FK_DICT_ERR /\ dm d' = dm d /\ elems d' ≡ₚ elems d
  | None => rt = FK_DICT_OK /\ dm d' = <[kview k := v]> (dm d) /\ elems d' ≡ₚ (k, v) :: elems d
  end.
Proof.
  intros W Hk. unfold fk_dict_add.
  destruct (add_room d W) as (W1 & Hdm & Hel & Hroom).
  set (d1 := if d_used d =? d_limit d then _ else d) in *. clearbody d1.
  unfold fk_dict_search. set (i := dict_idx e (d_size_mask d1) k).
  pose proof (search_elem e kview kok d1 k W1 Hk) as Hs. fold i in Hs. rewrite <- Hdm.
  destruct (bucket_search e k (bucket_at d1 i)) as [kv|].
  { destruct Hs as (Hin & Hv & _). rewrite <- Hv.
    rewrite (dmap_elem e kview kok d1 kv W1 Hin). done. }
  rewrite Hs. pose proof (dk_key_copy (e:=e) k s) as Hkc.
  destruct (fk_elt_set_key e k s) as [k' s1]. cbn in Hkc. subst k'.
  pose proof (dk_val_copy (e:=e) v s1) as Hvc.
  destruct (fk_elt_set_value e v s1) as [v' s2]. cbn in Hvc. subst v'.
  pose proof (dict_idx_in e kview kok d1 k W1) as Hi.
  destruct (elems_set_bucket d1 i ((k, v) :: bucket_at d1 i) (d_used d1 + 1) Hi)
    as (P & Q & E1 & E2).
  assert (elems (set_bucket d1 i ((k, v) :: bucket_at d1 i) (d_used d1 + 1))
          ≡ₚ (k, v) :: elems d1) as Hp.
  { rewrite E2, E1. cbn. by rewrite <- Permutation_middle. }
  assert (NoDup (kview ∘ fst <$> (k, v) :: elems d1)) as Hn.
  { cbn. constructor; [by apply dmap_None|apply W1]. }
  assert (NoDup (kview ∘ fst <$>
    elems (set_bucket d1 i ((k, v) :: bucket_at d1 i) (d_used d1 + 1)))) as Hn'
    by (eapply NoDup_Permutation_proper; [by rewrite Hp|done]).
  split_and!; [|done|exact (dmap_cons _ _ (k, v) Hp Hn')|by rewrite Hp, Hel].
  apply set_bucket_wf; [done|done| | |lia|done].
  - constructor; [done|]. apply (bucket_at_placed e kview kok); done.
  - rewrite (dwf_used _ _ _ _ W1) at 1. unfold zlen. rewrite Hp. cbn. lia.
Qed.

(** *** [fk_dict_replace] and [fk_dict_remove] *)

Lemma bucket_split k l kv :
  bucket_search e k l = Some kv ->
  exists l1 l2, l = l1 ++ kv :: l2 /\ bucket_remove e k l = l1 ++ l2 /\
  forall v, bucket_set_value e k v l = l1 ++ (kv.1, v) :: l2.
Proof.
  induction l as [|x l IH]; cbn [bucket_search bucket_remove bucket_set_value]; [done|].
  destruct (key_cmp e x.1 k =? 0).
  - intros [= <-]. by exists [], l.
  - intros (l1 & l2 & -> & Hr & Hv)%IH. exists (x :: l1), l2. cbn. rewrite Hr.
    split_and!; [done..|]. intros v. by rewrite Hv.
Qed.

Lemma search_split d k :
  wf d -> kok k -> is_Some (dm d !! kview k) ->
  let i := dict_idx e (d_size_mask d) k in
  exists kv l1 l2, bucket_search e k (bucket_at d i) = Some kv /\
    bucket_at d i = l1 ++ kv :: l2 /\ bucket_remove e k (bucket_at d i) = l1 ++ l2 /\
    (forall v, bucket_set_value e k v (bucket_at d i) = l1 ++ (kv.1, v) :: l2) /\
    kview kv.1 = kview k /\ dm d !! kview k = Some kv.2.
Proof.
  intros W Hk [v0 Hv0]. cbn. pose proof (search_elem e kview kok d k W Hk) as Hs.
  destruct (bucket_search _ _ _) as [kv|] eqn:E; [|congruence].
  destruct Hs as (Hin & Hv & _). destruct (bucket_split _ _ _ E) as (l1 & l2 & E1 & E2 & E3).
  exists kv, l1, l2. split_and!; try done. rewrite <- Hv. by apply (dmap_elem e kview kok).
Qed.

(** Overwriting the value of an element in place. *)
Lemma overwrite_spec d1 k v :
  wf d1 -> kok k -> is_Some (dm d1 !! kview k) ->
  let i := dict_idx e (d_size_mask d1) k in
  let d2 := set_bucket d1 i (bucket_set_value e k v (bucket_at d1 i)) (d_used d1) in
  wf d2 /\ dm d2 = <[kview k := v]> (dm d1).
Proof.
  intros W1 Hk Hs. cbv zeta.
  destruct (search_split d1 k W1 Hk Hs) as (kv & l1 & l2 & Es & Eb & _ & Ev & Hkv & Hval).
  rewrite Ev. pose proof (dict_idx_in e kview kok d1 k W1) as Hi.
  set (i := dict_idx e (d_size_mask d1) k) in *.
  destruct (elems_set_bucket d1 i (l1 ++ (kv.1, v) :: l2) (d_used d1) Hi) as (P & Q & E1 & E2).
  set (d2 := set_bucket _ _ _ _) in *.
  assert (elems d2 ≡ₚ (kv.1, v) :: P ++ l1 ++ l2 ++ Q) as Hp2
    by (rewrite E2; solve_Permutation).
  assert (elems d1 ≡ₚ kv :: P ++ l1 ++ l2 ++ Q) as Hp1 by (rewrite E1, Eb; solve_Permutation).
  assert (NoDup (kview ∘ fst <$> kv :: P ++ l1 ++ l2 ++ Q)) as Hn1
    by (eapply NoDup_Permutation_proper; [by rewrite <- Hp1|apply W1]).
  assert (NoDup (kview ∘ fst <$> elems d2)) as Hn2
    by (eapply NoDup_Permutation_proper; [by rewrite Hp2|done]).
  split; [|apply map_eq; intros x].
  - apply set_bucket_wf; [done|done| | |apply W1|done].
    + pose proof (bucket_at_placed e kview kok d1 i W1) as Hb. rewrite Eb in Hb.
      apply Forall_app in Hb as [Hb1 Hb2]. apply Forall_cons in Hb2 as [Hb2 Hb3].
      apply Forall_app. split; [done|]. by constructor.
    + rewrite (dwf_used _ _ _ _ W1) at 1. unfold zlen. fold d2. by rewrite Hp2, Hp1.
  - unfold dmap.
    rewrite (list_to_map_proper (kvs kview (elems d2))
      (kvs kview ((kv.1, v) :: P ++ l1 ++ l2 ++ Q)));
      [|by apply kvs_NoDup|unfold kvs; by rewrite Hp2].
    rewrite (list_to_map_proper (kvs kview (elems d1)) (kvs kview (kv :: P ++ l1 ++ l2 ++ Q)));
      [|apply kvs_NoDup, W1|unfold kvs; by rewrite Hp1].
    cbn. rewrite Hkv, insert_insert_eq. done.
Qed.

(** What [fk_dict_search] returns for a key that is there. *)
Lemma fk_dict_search_spec d k :
  wf d -> kok k ->
  match dm d !! kview k with
  | Some v => exists kv, fk_dict_search e d k = (dict_idx e (d_size_mask d) k, Some kv) /\
      kview kv.1 = kview k /\ kv.2 = v
  | None => snd (fk_dict_search e d k) = None
  end.
Proof.
  intros W Hk. unfold fk_dict_search. destruct (dm d !! kview k) as [v|] eqn:E.
  - destruct (search_split d k W Hk) as (kv & l1 & l2 & -> & _ & _ & _ & Hkv & Hval);
      [by rewrite E|]. exists kv. split_and!; [done|done|congruence].
  - cbn. pose proof (search_elem e kview kok d k W Hk) as Hs.
    destruct (bucket_search _ _ _) as [kv|]; [|done]. destruct Hs as (Hin & Hv & _).
    rewrite <- Hv, (dmap_elem e kview kok d kv W Hin) in E. done.
Qed.

Lemma fk_dict_replace_spec d k v s :
  wf d -> kok k ->
  let '(rt, d', _) := fk_dict_replace e d k v s in
  wf d' /\ dm d' = <[kview k := v]> (dm d) /\
  rt = match dm d !! kview k with Some _ => 1 | None => 0 end.
Proof.
  intros W Hk. unfold fk_dict_replace.
  pose proof (fk_dict_add_spec d k v s W Hk) as Ha.
  destruct (fk_dict_add e d k v s) as [[rt d1] s1]. destruct Ha as [W1 Ha].
  destruct (dm d !! kview k) as [v0|] eqn:Em.
  2: { destruct Ha as (-> & Hdm & _). cbn. by rewrite Hdm. }
  destruct Ha as (-> & Hdm & _). cbn [FK_DICT_ERR FK_DICT_OK Z.eqb].
  pose proof (fk_dict_search_spec d1 k W1 Hk) as Hs. rewrite Hdm, Em in Hs.
  destruct Hs as (kv & -> & _).
  pose proof (dk_val_copy (e:=e) v (fk_elt_value_free e kv.2 s1)) as Hvc.
  destruct (fk_elt_set_value _ _ _) as [v' s2]. cbn in Hvc. subst v'.
  destruct (overwrite_spec d1 k v W1 Hk) as [Hw Hm]; [by rewrite Hdm, Em|].
  split_and!; [done|by rewrite Hm, Hdm|done].
Qed.

Lemma fk_dict_remove_spec d k s :
  wf d -> kok k ->
  let '(rt, d', _) := fk_dict_remove e d k s in
  wf d' /\ dm d' = delete (kview k) (dm d) /\
  rt = match dm d !! kview k with Some _ => FK_DICT_OK | None => FK_DICT_ERR end.
Proof.
  intros W Hk. unfold fk_dict_remove, fk_dict_search.
  destruct (dm d !! kview k) as [v0|] eqn:Em.
  2: { pose proof (search_elem e kview kok d k W Hk) as Hs.
    destruct (bucket_search _ _ _) as [kv|].
    - destruct Hs as (Hin & Hv & _). rewrite <- Hv in Em.
      rewrite (dmap_elem e kview kok d kv W Hin) in Em. done.
    - split_and!; [done| |done]. by rewrite delete_id. }
  destruct (search_split d k W Hk) as (kv & l1 & l2 & Es & Eb & Er & _ & Hkv & Hval);
    [by rewrite Em|].
  rewrite Es, Er. pose proof (dict_idx_in e kview kok d k W) as Hi.
  set (i := dict_idx e (d_size_mask d) k) in *.
  destruct (elems_set_bucket d i (l1 ++ l2) (d_used d - 1) Hi) as (P & Q & E1 & E2).
  set (d2 := set_bucket _ _ _ _) in *.
  assert (elems d ≡ₚ kv :: elems d2) as Hp by (rewrite E1, E2, Eb; solve_Permutation).
  assert (NoDup (kview ∘ fst <$> kv :: elems d2)) as Hn
    by (eapply NoDup_Permutation_proper; [by rewrite <- Hp|apply W]).
  cbn in Hn. apply NoDup_cons in Hn as [Hni Hn].
  split_and!; [| |done].
  - apply set_bucket_wf; [done|done| | | |done].
    + pose proof (bucket_at_placed e kview kok d i W) as Hb. rewrite Eb in Hb.
      apply Forall_app in Hb as [Hb1 Hb2]. apply Forall_cons in Hb2 as [Hb2 Hb3].
      by apply Forall_app.
    + rewrite (dwf_used _ _ _ _ W) at 1. unfold zlen. fold d2. rewrite Hp. cbn. lia.
    + pose proof (dwf_load _ _ _ _ W). lia.
  - rewrite (dmap_cons d2 d kv Hp (dwf_nodup _ _ _ _ W)).
    rewrite Hkv, delete_insert_id; [done|]. rewrite <- Hkv.
    unfold dmap. apply not_elem_of_list_to_map. unfold kvs. by rewrite <- list_fmap_compose.
Qed.
End updates.

(** ** The iterator visits every element once, in bucket order *)

Section iteration_theory.
Context {K V : Type}.
Implicit Type d : fk_dict K V.
Implicit Type it : fk_dict_iter K V.

(** What an iterator has still to visit. *)
Definition iter_rest d it : list (K * V) :=
  match it_cur it with [] => [] | _ => it_next it end
  ++ concat (default [] <$> drop (Z.to_nat (it_idx it + 1)) (d_buckets d)).

Definition iter_ok d it : Prop := -1 <= it_idx it < d_size d.

Lemma drop_bucket d i :
  0 <= i < zlen (d_buckets d) ->
  concat (default [] <$> drop (Z.to_nat i) (d_buckets d)) =
  bucket_at d i ++ concat (default [] <$> drop (Z.to_nat (i + 1)) (d_buckets d)).
Proof.
  intros Hi. pose proof (bucket_at_spec d i Hi) as Hb.
  rewrite list_lookup_fmap in Hb. destruct (d_buckets d !! Z.to_nat i) as [b|] eqn:E; [|done].
  cbn in Hb. injection Hb as <-. rewrite (drop_S _ _ _ E). cbn.
  by replace (Z.to_nat (i + 1)) with (Datatypes.S (Z.to_nat i)) by lia.
Qed.

Lemma iter_next_loop_spec d fuel it :
  zlen (d_buckets d) = d_size d -> iter_ok d it ->
  (match it_cur it with [] => 0 | _ => 1 end) + (d_size d - it_idx it) <= Z.of_nat fuel ->
  match iter_rest d it with
  | [] => (iter_next_loop fuel d it).1 = None
  | x :: r => exists it', iter_next_loop fuel d it = (Some x, it') /\
      iter_ok d it' /\ iter_rest d it' = r
  end.
Proof.
  intros Hlen. revert it. induction fuel as [|f IH]; intros it Hok Hf.
  { exfalso. unfold iter_ok in Hok. destruct (it_cur it); cbn in Hf; lia. }
  cbn [iter_next_loop]. unfold iter_ok in *. destruct it as [idx cur nxt]; cbn in *.
  unfold iter_rest; cbn. destruct cur as [|c cur]; cbn [andb].
  - destruct (idx + 1 =? d_size d) eqn:E.
    + rewrite drop_ge; [done|]. unfold zlen in Hlen. bool_lia.
    + rewrite drop_bucket by bool_lia. destruct (bucket_at d (idx + 1)) as [|x l]; cbn.
      * specialize (IH (DictIter (idx + 1) [] nxt)). unfold iter_rest in IH; cbn in IH.
        apply IH; bool_lia.
      * exists (DictIter (idx + 1) (x :: l) l). split_and!; (done || cbn; bool_lia).
  - destruct nxt as [|x l]; cbn.
    + specialize (IH (DictIter idx [] [])). unfold iter_rest in IH; cbn in IH. apply IH; lia.
    + exists (DictIter idx (x :: l) l). split_and!; (done || cbn; lia).
Qed.

Lemma fk_dict_iter_next_spec d it :
  zlen (d_buckets d) = d_size d -> iter_ok d it ->
  match iter_rest d it with
  | [] => (fk_dict_iter_next d it).1 = None
  | x :: r => exists it', fk_dict_iter_next d it = (Some x, it') /\
      iter_ok d it' /\ iter_rest d it' = r
  end.
Proof.
  intros Hlen Hok. apply iter_next_loop_spec; [done..|].
  unfold iter_ok in Hok. pose proof (zlen_nonneg (d_buckets d)).
  destruct (it_cur it); lia.
Qed.

Lemma iter_all_spec d fuel it :
  zlen (d_buckets d) = d_size d -> iter_ok d it ->
  (length (iter_rest d it) < fuel)%nat -> iter_all fuel d it = iter_rest d it.
Proof.
  intros Hlen. revert it. induction fuel as [|f IH]; intros it Hok Hf; [lia|].
  cbn [iter_all]. pose proof (fk_dict_iter_next_spec d it Hlen Hok) as Hn.
  destruct (iter_rest d it) as [|x r] eqn:E.
  - destruct (fk_dict_iter_next d it) as [o it']. cbn in Hn. by subst.
  - destruct Hn as (it' & -> & Hok' & <-). rewrite IH; [done|done|]. cbn in Hf. lia.
Qed.

Lemma iter_begin_rest d : 0 < d_size d ->
  iter_ok d fk_dict_iter_begin /\ iter_rest d fk_dict_iter_begin = elems d.
Proof. unfold iter_ok, iter_rest, elems. cbn. intros H. split; [lia|done]. Qed.

Lemma fk_dict_elements_eq d :
  zlen (d_buckets d) = d_size d -> 0 < d_size d -> d_used d = zlen (elems d) ->
  fk_dict_elements d = elems d.
Proof.
  intros Hlen Hs Hu. destruct (iter_begin_rest d Hs) as [Hok Hr].
  unfold fk_dict_elements. rewrite iter_all_spec; [done..|].
  rewrite Hr, Hu. unfold zlen. lia.
Qed.

Lemma iter_times_spec d n it o :
  zlen (d_buckets d) = d_size d -> iter_ok d it ->
  (0 < n <= length (iter_rest d it))%nat ->
  iter_times n d it o = iter_rest d it !! (n - 1)%nat.
Proof.
  intros Hlen. revert it o. induction n as [|n IH]; intros it o Hok Hn; [lia|].
  cbn [iter_times]. pose proof (fk_dict_iter_next_spec d it Hlen Hok) as Hx.
  destruct (iter_rest d it) as [|x r] eqn:E; [cbn in Hn; lia|].
  destruct Hx as (it' & -> & Hok' & Hr'). cbn in Hn. destruct n as [|n].
  - done.
  - rewrite IH by (rewrite ?Hr'; (done || lia)). rewrite Hr'.
    by replace (Datatypes.S (Datatypes.S n) - 1)%nat with
      (Datatypes.S (Datatypes.S n - 1)) by lia.
Qed.
End iteration_theory.

(** ** Packaged facts for clients *)

Section clients.
Context {S K V X : Type} `{Countable X}.
Context (e : fk_elt_op S K V) (kview : K -> X) (kok : K -> Prop).
Context `{DK : !DictKey e kview kok}.

Lemma dict_wf_size_pos (d : fk_dict K V) : dict_wf e kview kok d -> 0 < d_size d.
Proof.
  intros W. destruct (dwf_size _ _ _ _ W) as (n & Hn & ->). apply Z.pow_pos_nonneg; lia.
Qed.

Lemma fk_dict_elements_spec (d : fk_dict K V) :
  dict_wf e kview kok d -> fk_dict_elements d = elems d.
Proof.
  intros W. apply fk_dict_elements_eq; [apply W| |apply W]. by apply dict_wf_size_pos.
Qed.

Lemma fk_dict_random_spec (d : fk_dict K V) r :
  dict_wf e kview kok d -> 0 < d_used d -> 0 <= r ->
  exists kv, fk_dict_random d r = Some (Some kv) /\ kv ∈ elems d.
Proof.
  intros W Hu Hr. unfold fk_dict_random, fk_dict_len.
  rewrite (proj2 (Z.eqb_neq _ _)) by lia.
  pose proof (dict_wf_size_pos d W) as Hs.
  destruct (iter_begin_rest d Hs) as [Hok Hrest].
  pose proof (Z.mod_pos_bound r (d_used d) Hu) as Hm.
  pose proof (dwf_used _ _ _ _ W) as Hl. unfold zlen in Hl.
  rewrite iter_times_spec; [|apply W|done|rewrite Hrest; lia]. rewrite Hrest.
  destruct (lookup_lt_is_Some_2 (elems d) (Z.to_nat (r mod d_used d + 1) - 1)) as [kv Hkv];
    [lia|].
  rewrite Hkv. exists kv. split; [done|]. by eapply list_elem_of_lookup_2.
Qed.
End clients.
