(* ===== verification/Item.v ===== *)
(** Models src/src/fk_item.c and fk_item.h: the reference-counted items and the
    two global lists [items_used] and [items_free], together with the callbacks of
    src/src/fk_svr.c that dictionaries and lists use on items.

    A pointer to an item is its address ([s_id], [i_id]) together with the
    entity it owns.  String entities are never written after the item is shared;
    the list or dictionary of a container item is reachable only through the one
    dictionary element that holds the item, so it is updated there.  The
    reference count, which every holder shares, lives in [item_mgr]. *)
From S2P Require Import Prelude Util Dict.

Definition FK_ITEM_NIL : Z := 0.
Definition FK_ITEM_STR : Z := 1.
Definition FK_ITEM_LIST : Z := 2.
Definition FK_ITEM_DICT : Z := 3.
Definition FK_ITEM_SKLIST : Z := 4.
Definition FK_ITEM_NUM : Z := 5.

Definition FK_FREE_ITEM_MAX : Z := 1024.

(** An item of type [FK_ITEM_STR]. *)
Record sitem := SItem { s_id : Z; s_str : bytes }.

Inductive entity :=
  | EntStr (s : bytes)
  | EntList (l : list sitem)
  | EntDict (d : fk_dict sitem sitem)
  | EntSklist
  | EntNum (n : Z).

Record item := Item { i_id : Z; i_ent : entity }.

Definition fk_item_type (i : item) : Z :=
  match i_ent i with
  | EntStr _ => FK_ITEM_STR
  | EntList _ => FK_ITEM_LIST
  | EntDict _ => FK_ITEM_DICT
  | EntSklist => FK_ITEM_SKLIST
  | EntNum _ => FK_ITEM_NUM
  end.

Definition item_of_s (s : sitem) : item := Item (s_id s) (EntStr (s_str s)).

(** The item structs: [im_ref] is the [ref] field of every struct ever handed
    out, [im_next] the next address [malloc] returns, [im_bad] records that a
    struct outside [items_used] was dereferenced. *)
Record item_mgr := ItemMgr {
  im_used : list Z;
  im_free : list Z;
  im_ref : gmap Z Z;
  im_next : Z;
  im_bad : bool
}.

Definition fk_item_init : item_mgr := ItemMgr [] [] ∅ 0 false.

Definition im_set_ref (m : item_mgr) (i r : Z) : item_mgr :=
  ItemMgr (im_used m) (im_free m) (<[i := r]> (im_ref m)) (im_next m) (im_bad m).
Definition im_set_bad (m : item_mgr) : item_mgr :=
  ItemMgr (im_used m) (im_free m) (im_ref m) (im_next m) true.
Definition im_getref (m : item_mgr) (i : Z) : Z := default 0 (im_ref m !! i).
Definition im_live (m : item_mgr) (i : Z) : bool := bool_decide (i ∈ im_used m).

(** The address of the new item; its entity is given by the caller. *)
Definition fk_item_create (m : item_mgr) : Z * item_mgr :=
  match im_free m with
  | i :: free => (i, ItemMgr (i :: im_used m) free (<[i := 0]> (im_ref m)) (im_next m) (im_bad m))
  | [] =>
      let i := im_next m in
      (i, ItemMgr (i :: im_used m) [] (<[i := 0]> (im_ref m)) (i + 1) (im_bad m))
  end.

Definition fk_item_inc_ref (i : Z) (m : item_mgr) : item_mgr :=
  if im_live m i then im_set_ref m i (u32 (im_getref m i + 1)) else im_set_bad m.

Definition remove_id (i : Z) (l : list Z) : list Z := filter (fun j => j <> i) l.

(** The tail of [fk_item_dec_ref], once the entity is destroyed. *)
Definition item_release (i : Z) (m : item_mgr) : item_mgr :=
  let used := remove_id i (im_used m) in
  let ref := <[i := 0]> (im_ref m) in
  if zlen (im_free m) =? FK_FREE_ITEM_MAX
  then ItemMgr used (im_free m) (delete i ref) (im_next m) (im_bad m)
  else ItemMgr used (im_free m ++ [i]) ref (im_next m) (im_bad m).

Definition item_dec_ref (destroy : item_mgr -> item_mgr) (i : Z) (m : item_mgr) : item_mgr :=
  if im_live m i then
    let r := im_getref m i in
    let r := if 0 <? r then r - 1 else r in
    let m := im_set_ref m i r in
    if 0 <? r then m else item_release i (destroy m)
  else im_set_bad m.

(** [fk_item_dec_ref] of a string item: [fk_str_destroy] frees the string. *)
Definition sitem_dec_ref (s : sitem) (m : item_mgr) : item_mgr :=
  item_dec_ref (fun m => m) (s_id s) m.
Definition sitem_inc_ref (s : sitem) (m : item_mgr) : item_mgr := fk_item_inc_ref (s_id s) m.

(** ** The callbacks on items (fk_svr.c) *)

Definition fk_db_dict_key_hash (k : sitem) : Z := fk_str_hash (s_str k).
Definition fk_db_dict_key_cmp (k1 k2 : sitem) : Z := fk_str_cmp (s_str k1) (s_str k2).
Definition fk_db_dict_key_copy (k : sitem) (m : item_mgr) : sitem * item_mgr :=
  (k, sitem_inc_ref k m).
Definition fk_db_dict_key_free (k : sitem) (m : item_mgr) : item_mgr := sitem_dec_ref k m.

(** [db_dict_eop] on dictionaries whose values are strings (hashes). *)
Definition db_sdict_eop : fk_elt_op item_mgr sitem sitem :=
  EltOp fk_db_dict_key_hash fk_db_dict_key_cmp
    (Some fk_db_dict_key_copy) (Some fk_db_dict_key_free)
    (Some fk_db_dict_key_copy) (Some fk_db_dict_key_free).

(** [db_list_op]: [data_copy] and [data_free] of the lists. *)
Definition fk_db_list_val_copy (x : sitem) (m : item_mgr) : sitem * item_mgr :=
  (x, sitem_inc_ref x m).
Definition fk_db_list_val_free (x : sitem) (m : item_mgr) : item_mgr := sitem_dec_ref x m.

(** [fk_list_insert_head], [fk_list_insert_tail] and [fk_list_destroy] on such a list. *)
Definition item_list_insert_head (l : list sitem) (x : sitem) (m : item_mgr) :
    list sitem * item_mgr :=
  let '(x, m) := fk_db_list_val_copy x m in (x :: l, m).
Definition item_list_insert_tail (l : list sitem) (x : sitem) (m : item_mgr) :
    list sitem * item_mgr :=
  let '(x, m) := fk_db_list_val_copy x m in (l ++ [x], m).
Definition item_list_destroy (l : list sitem) (m : item_mgr) : item_mgr :=
  fold_left (fun m x => fk_db_list_val_free x m) l m.

(** The [switch] of [fk_item_dec_ref]; skiplists are not destroyed there. *)
Definition entity_destroy (t : entity) (m : item_mgr) : item_mgr :=
  match t with
  | EntStr _ => m
  | EntList l => item_list_destroy l m
  | EntDict d => fk_dict_destroy db_sdict_eop d m
  | EntNum _ => m
  | EntSklist => m
  end.

Definition fk_item_dec_ref (x : item) (m : item_mgr) : item_mgr :=
  item_dec_ref (entity_destroy (i_ent x)) (i_id x) m.

Definition fk_db_dict_val_copy (v : item) (m : item_mgr) : item * item_mgr :=
  (v, fk_item_inc_ref (i_id v) m).
Definition fk_db_dict_val_free (v : item) (m : item_mgr) : item_mgr := fk_item_dec_ref v m.

Definition db_dict_eop : fk_elt_op item_mgr sitem item :=
  EltOp fk_db_dict_key_hash fk_db_dict_key_cmp
    (Some fk_db_dict_key_copy) (Some fk_db_dict_key_free)
    (Some fk_db_dict_val_copy) (Some fk_db_dict_val_free).

(** ** The item callbacks implement the dictionary interface *)

Definition key_ok (k : sitem) : Prop := str_ok (s_str k).

#[export] Instance db_sdict_key : DictKey db_sdict_eop s_str key_ok.
Proof.
  split; cbn; intros.
  - by apply fk_str_cmp_eq0.
  - unfold fk_db_dict_key_hash. by f_equal.
  - apply fk_str_hash_range.
  - done.
  - done.
Qed.

#[export] Instance db_dict_key : DictKey db_dict_eop s_str key_ok.
Proof.
  split; cbn; intros.
  - by apply fk_str_cmp_eq0.
  - unfold fk_db_dict_key_hash. by f_equal.
  - apply fk_str_hash_range.
  - done.
  - done.
Qed.

Abbreviation db_wf := (dict_wf db_dict_eop s_str key_ok).
Abbreviation hash_wf := (dict_wf db_sdict_eop s_str key_ok).

(** ** Invariant of the item manager *)

Record im_wf (m : item_mgr) : Prop := {
  imw_nodup : NoDup (im_used m ++ im_free m);
  imw_range : Forall (fun i => 0 <= i < im_next m) (im_used m ++ im_free m);
  imw_next : 0 <= im_next m;
  imw_free : zlen (im_free m) <= FK_FREE_ITEM_MAX
}.

Lemma fk_item_init_wf : im_wf fk_item_init.
Proof. split; cbn; [constructor|constructor|lia|]. unfold FK_FREE_ITEM_MAX, zlen. cbn. lia. Qed.

(** A created item is fresh: nobody holds it, its count is 0. *)
Lemma fk_item_create_spec m :
  im_wf m ->
  let '(i, m') := fk_item_create m in
  im_wf m' /\ (i ∉ im_used m) /\ im_used m' = (i :: im_used m) /\
  im_getref m' i = 0 /\ (forall j, j <> i -> im_getref m' j = im_getref m j) /\
  im_bad m' = im_bad m.
Proof.
  intros [Hn Hr Hx Hf]. unfold fk_item_create. destruct (im_free m) as [|i free] eqn:E.
  - rewrite app_nil_r in *.
    assert (im_next m ∉ im_used m) as Hfresh.
    { intros Hin. rewrite Forall_forall in Hr. apply Hr in Hin. lia. }
    split_and!; try done.
    + split; cbn; rewrite ?app_nil_r; [by constructor| |lia|done].
      constructor; [lia|]. eapply Forall_impl; [exact Hr|]. cbn. lia.
    + unfold im_getref; cbn. by rewrite lookup_insert_eq.
    + intros j Hj. unfold im_getref; cbn. by rewrite lookup_insert_ne.
  - assert ((i :: im_used m ++ free) ≡ₚ im_used m ++ (i :: free)) as Hp by apply Permutation_middle.
    split_and!; try done.
    + split; cbn; [|by rewrite Hp|done|rewrite zlen_cons in Hf; lia].
      by rewrite Hp.
    + intros Hin. rewrite <- Hp in Hn. apply NoDup_cons in Hn as [Hn _].
      apply Hn, elem_of_app. by left.
    + unfold im_getref; cbn. by rewrite lookup_insert_eq.
    + intros j Hj. unfold im_getref; cbn. by rewrite lookup_insert_ne.
Qed.

Lemma fk_item_inc_ref_wf i m : im_wf m -> im_wf (fk_item_inc_ref i m).
Proof. intros [????]. unfold fk_item_inc_ref. case_match; by split. Qed.

Lemma remove_id_perm i l : NoDup l -> i ∈ l -> l ≡ₚ i :: remove_id i l.
Proof.
  unfold remove_id. induction l as [|x l IH]; intros Hn Hin; [by apply not_elem_of_nil in Hin|].
  apply NoDup_cons in Hn as [Hx Hn]. destruct (decide (x = i)) as [->|Hne].
  - rewrite filter_cons_False by naive_solver. clear IH. f_equiv.
    induction l as [|y l IHl]; [done|].
    apply not_elem_of_cons in Hx as [Hxy Hx]. apply NoDup_cons in Hn as [_ Hn].
    rewrite filter_cons_True by done. rewrite <- IHl by (done || apply list_elem_of_here). done.
  - rewrite filter_cons_True by done. apply elem_of_cons in Hin as [->|Hin]; [done|].
    rewrite (IH Hn Hin) at 1. apply perm_swap.
Qed.

Lemma item_release_wf i m : im_wf m -> i ∈ im_used m -> im_wf (item_release i m).
Proof.
  intros [Hn Hr Hx Hf] Hin. apply NoDup_app in Hn as (Hu & Hd & Hfr).
  pose proof (remove_id_perm i _ Hu Hin) as Hp.
  assert (NoDup (i :: remove_id i (im_used m))) as Hu' by by rewrite <- Hp.
  assert (im_used m ++ im_free m ≡ₚ i :: remove_id i (im_used m) ++ im_free m) as Hpa
    by (rewrite Hp at 1; done).
  rewrite Hpa in Hr. apply Forall_cons in Hr as [Hi Hr].
  assert (NoDup (i :: remove_id i (im_used m) ++ im_free m)) as Hn'.
  { rewrite <- Hpa. by apply NoDup_app. }
  unfold item_release. destruct (zlen (im_free m) =? FK_FREE_ITEM_MAX) eqn:E; split; cbn; try done.
  - by apply NoDup_cons in Hn' as [_ ?].
  - by rewrite app_assoc, Permutation_app_comm.
  - rewrite app_assoc, Permutation_app_comm. by constructor.
  - rewrite zlen_app. change (zlen [i]) with 1. bool_lia.
Qed.

Lemma sitem_dec_ref_wf x m : im_wf m -> im_wf (sitem_dec_ref x m).
Proof.
  intros W. unfold sitem_dec_ref, item_dec_ref. case_match eqn:E; [|by destruct W; split].
  apply bool_decide_eq_true in E.
  assert (forall r, im_wf (im_set_ref m (s_id x) r)) as Hs by (intros r; by destruct W; split).
  repeat case_match; first [apply Hs|apply item_release_wf; [apply Hs|done]].
Qed.

(** Taking and dropping a reference to an item somebody holds changes nothing. *)
Lemma inc_dec_ref x m :
  im_live m (s_id x) = true -> 0 < im_getref m (s_id x) < 2 ^ 32 - 1 ->
  sitem_dec_ref x (sitem_inc_ref x m) = m.
Proof.
  intros Hl Hr. unfold sitem_dec_ref, sitem_inc_ref, fk_item_inc_ref, item_dec_ref.
  rewrite Hl. unfold im_live, im_set_ref in *; cbn. rewrite Hl.
  unfold im_getref in *; cbn in *. rewrite lookup_insert_eq. cbn.
  destruct (im_ref m !! s_id x) as [r|] eqn:E; cbn in *; [|lia].
  rewrite u32_small by lia. rewrite (proj2 (Z.ltb_lt 0 (r + 1))) by lia.
  rewrite Z.add_simpl_r, (proj2 (Z.ltb_lt 0 r)) by lia. rewrite insert_insert_eq.
  destruct m as [u f rf n b]; cbn in *. by rewrite insert_id.
Qed.
