(* ===== verification/BaseProps.v ===== *)
(** Properties of the data structures under the server: the dictionary is a finite
    map, the buffer is a queue of bytes, and the helpers of fk_util.c are exact. *)
From S2P Require Import Prelude Util Buf Dict Item.

(** ** Runs of dictionary operations *)

Inductive dict_op (K V : Type) :=
  | DAdd (k : K) (v : V)
  | DReplace (k : K) (v : V)
  | DRemove (k : K)
  | DEmpty.
Arguments DAdd {K V}.
Arguments DReplace {K V}.
Arguments DRemove {K V}.
Arguments DEmpty {K V}.

Section dict_runs.
Context {S K V X : Type} `{Countable X}.
Context (e : fk_elt_op S K V) (kview : K -> X) (kok : K -> Prop).
Context `{DK : !DictKey e kview kok}.
Abbreviation dmap := (dmap kview).
Abbreviation wf := (dict_wf e kview kok).

Definition op_ok (o : dict_op K V) : Prop :=
  match o with DAdd k _ | DReplace k _ | DRemove k => kok k | DEmpty => True end.

Definition dict_do (o : dict_op K V) (d : fk_dict K V) (s : S) : Z * fk_dict K V * S :=
  match o with
  | DAdd k v => fk_dict_add e d k v s
  | DReplace k v => fk_dict_replace e d k v s
  | DRemove k => fk_dict_remove e d k s
  | DEmpty => let '(d, s) := fk_dict_empty e d s in (FK_DICT_OK, d, s)
  end.

Fixpoint dict_run (ops : list (dict_op K V)) (d : fk_dict K V) (s : S) :
    list Z * fk_dict K V * S :=
  match ops with
  | [] => ([], d, s)
  | o :: ops =>
      let '(rt, d, s) := dict_do o d s in
      let '(rts, d, s) := dict_run ops d s in (rt :: rts, d, s)
  end.

(** The same operation on a finite map. *)
Definition map_do (o : dict_op K V) (m : gmap X V) : Z * gmap X V :=
  match o with
  | DAdd k v =>
      match m !! kview k with
      | Some _ => (FK_DICT_ERR, m)
      | None => (FK_DICT_OK, <[kview k := v]> m)
      end
  | DReplace k v => (match m !! kview k with Some _ => 1 | None => 0 end, <[kview k := v]> m)
  | DRemove k =>
      (match m !! kview k with Some _ => FK_DICT_OK | None => FK_DICT_ERR end, delete (kview k) m)
  | DEmpty => (FK_DICT_OK, ∅)
  end.

Fixpoint map_run (ops : list (dict_op K V)) (m : gmap X V) : list Z * gmap X V :=
  match ops with
  | [] => ([], m)
  | o :: ops => let '(rt, m) := map_do o m in let '(rts, m) := map_run ops m in (rt :: rts, m)
  end.

Lemma dict_do_ok o d s : wf d -> op_ok o ->
  let '(rt, d', _) := dict_do o d s in wf d' /\ (rt, dmap d') = map_do o (dmap d).
Proof.
  intros W Ho. destruct o as [k v|k v|k|]; cbn [dict_do map_do op_ok] in *.
  - pose proof (fk_dict_add_spec e kview kok d k v s W Ho) as Hs.
    destruct (fk_dict_add _ _ _ _ _) as [[rt d'] s']. destruct Hs as [W' Hs]. split; [done|].
    destruct (dmap d !! kview k); by destruct Hs as (-> & -> & _).
  - pose proof (fk_dict_replace_spec e kview kok d k v s W Ho) as Hs.
    destruct (fk_dict_replace _ _ _ _ _) as [[rt d'] s']. by destruct Hs as (W' & -> & ->).
  - pose proof (fk_dict_remove_spec e kview kok d k s W Ho) as Hs.
    destruct (fk_dict_remove _ _ _ _) as [[rt d'] s']. by destruct Hs as (W' & -> & ->).
  - unfold fk_dict_empty. split; [apply fk_dict_init_wf|]. by rewrite fk_dict_init_dmap.
Qed.

Lemma dict_run_ok ops : forall d s, wf d -> Forall op_ok ops ->
  let '(rts, d', _) := dict_run ops d s in wf d' /\ (rts, dmap d') = map_run ops (dmap d).
Proof.
  induction ops as [|o ops IH]; intros d s W Ho; cbn [dict_run map_run]; [done|].
  apply Forall_cons in Ho as [Ho Hops]. pose proof (dict_do_ok o d s W Ho) as H1.
  destruct (dict_do o d s) as [[rt d1] s1]. destruct H1 as [W1 E1].
  specialize (IH d1 s1 W1 Hops). destruct (dict_run ops d1 s1) as [[rts d2] s2].
  destruct IH as [W2 E2]. split; [done|]. destruct (map_do o (dmap d)) as [rt' m1].
  injection E1 as -> Em. rewrite Em in E2. destruct (map_run ops m1) as [rts' m2].
  by injection E2 as -> ->.
Qed.

(** C23. The dictionary refines a finite map: from the empty dictionary, any
    sequence of add, replace, remove and empty returns the codes the map
    operations return, and afterwards every search finds what the map holds,
    the iterator visits the pairs of the map, each once, and the length is
    their number.  The table is never more than half full. *)
Theorem dict_refines_map ops s :
  Forall op_ok ops ->
  let '(rts, d, _) := dict_run ops fk_dict_init s in
  let '(rts', m) := map_run ops ∅ in
  rts = rts' /\
  (forall k, kok k -> fk_dict_get e d k = m !! kview k) /\
  (fun kv => (kview kv.1, kv.2)) <$> fk_dict_elements d ≡ₚ map_to_list m /\
  fk_dict_len d = Z.of_nat (size m) /\
  2 * fk_dict_len d <= d_size d.
Proof.
  intros Ho. pose proof (dict_run_ok ops fk_dict_init s (fk_dict_init_wf e kview kok) Ho) as Hr.
  rewrite fk_dict_init_dmap in Hr. destruct (dict_run ops fk_dict_init s) as [[rts d] s'].
  destruct Hr as [W E]. destruct (map_run ops ∅) as [rts' m]. injection E as -> <-.
  assert ((fun kv => (kview kv.1, kv.2)) <$> fk_dict_elements d ≡ₚ map_to_list (dmap d)) as Hp.
  { rewrite (fk_dict_elements_spec e kview kok) by done. unfold Dict.dmap.
    symmetry. apply map_to_list_to_map. apply kvs_NoDup. apply W. }
  split_and!; [done|intros k Hk; by rewrite (fk_dict_get_spec e kview kok)|exact Hp| |].
  - apply Permutation_length in Hp. rewrite length_fmap in Hp.
    rewrite (fk_dict_elements_spec e kview kok) in Hp by done.
    unfold fk_dict_len. rewrite (dwf_used _ _ _ _ W). unfold zlen. by rewrite Hp, length_map_to_list.
  - pose proof (dwf_load _ _ _ _ W) as Hl. rewrite (dwf_limit _ _ _ _ W) in Hl.
    rewrite Z.shiftr_div_pow2 in Hl by lia. change (2 ^ 1) with 2 in Hl. unfold fk_dict_len.
    pose proof (Z.mul_div_le (d_size d) 2 eq_refl). lia.
Qed.

(** [fk_dict_random] returns an element of the dictionary, whatever [rand]
    returns; of an empty dictionary it is a division by zero. *)
Theorem dict_random_member ops s r :
  Forall op_ok ops -> 0 <= r ->
  let '(_, d, _) := dict_run ops fk_dict_init s in
  let '(_, m) := map_run ops ∅ in
  if decide (m = ∅) then fk_dict_random d r = None
  else exists kv, fk_dict_random d r = Some (Some kv) /\ m !! kview kv.1 = Some kv.2.
Proof.
  intros Ho Hr. pose proof (dict_run_ok ops fk_dict_init s (fk_dict_init_wf e kview kok) Ho) as Hrun.
  rewrite fk_dict_init_dmap in Hrun. destruct (dict_run ops fk_dict_init s) as [[rts d] s'].
  destruct Hrun as [W E]. destruct (map_run ops ∅) as [rts' m]. injection E as _ <-.
  pose proof (dwf_used _ _ _ _ W) as Hu. destruct (decide (dmap d = ∅)) as [Em|Em].
  - assert (elems d = []) as El.
    { destruct (elems d) as [|kv l] eqn:El; [done|exfalso].
      unfold Dict.dmap in Em. rewrite El in Em. cbn in Em. by apply insert_non_empty in Em. }
    unfold fk_dict_random, fk_dict_len. by rewrite Hu, El.
  - destruct (fk_dict_random_spec e kview kok d r W) as (kv & Hk & Hin); [|done|].
    + rewrite Hu. destruct (elems d) eqn:El; [|rewrite zlen_cons; pose proof (zlen_nonneg l); lia].
      exfalso. apply Em. unfold Dict.dmap. by rewrite El.
    + exists kv. split; [done|]. by apply (dmap_elem e kview kok).
Qed.
End dict_runs.

(** ** The buffer as a queue *)

Inductive buf_op := BAppend (cs : list cell) | BConsume (n : Z) | BShift | BShrink | BAlloc (n : Z).

(** Appending needs room; consuming more than there is empties the buffer. *)
Definition buf_do (o : buf_op) (b : fk_buf) : option fk_buf :=
  match o with
  | BAppend cs =>
      if zlen cs <=? fk_buf_free_len b
      then Some (fk_buf_high_inc (fk_buf_memcpy b cs) (zlen cs)) else None
  | BConsume n => Some (fk_buf_low_inc b n)
  | BShift => Some (fk_buf_shift b)
  | BShrink => Some (fk_buf_shrink b)
  | BAlloc n => Some (fk_buf_alloc b n)
  end.

Definition queue_do (o : buf_op) (q : list cell) : list cell :=
  match o with
  | BAppend cs => q ++ cs
  | BConsume n => zdrop n q
  | _ => q
  end.

Definition buf_op_ok (b : fk_buf) (o : buf_op) : Prop :=
  match o with
  | BConsume n => 0 <= n
  | BAlloc n => 0 <= n /\ blen b + n < 2 ^ 30
  | _ => True
  end.

(** C24. The buffer is a queue of bytes: each operation of fk_buf.h keeps the cursors
    in order and inside the block, and does to the payload what the queue does; an
    allocation of [n] below the limit leaves room for [n] bytes, so that the next
    append succeeds; at the limit the length does not change. *)
Theorem buf_is_queue b o :
  buf_wf b -> buf_op_ok b o ->
  match buf_do o b with
  | Some b' => buf_wf b' /\ payload b' = queue_do o (payload b) /\ highwat b' = highwat b
  | None => exists cs, o = BAppend cs /\ fk_buf_free_len b < zlen cs
  end /\
  (forall n cs, o = BAlloc n -> zlen cs = n ->
     if blen b <? highwat b then is_Some (buf_do (BAppend cs) (fk_buf_alloc b n))
     else blen (fk_buf_alloc b n) = blen b).
Proof.
  intros W Ho. destruct o as [cs|n| | |n]; cbn [buf_do queue_do buf_op_ok] in *; (split; [|done || idtac]).
  - destruct (zlen cs <=? fk_buf_free_len b) eqn:E; [|exists cs; split; [done|bool_lia]].
    fold (fk_buf_append b cs). split_and!; [by apply append_wf; [|bool_lia]|by apply payload_append; [|bool_lia]|done].
  - split_and!; [by apply low_inc_wf| |done]. destruct (decide (n <= zlen (payload b))) as [Hn|Hn].
    + rewrite zlen_payload in Hn by done. by apply payload_low_inc.
    + rewrite zlen_payload in Hn by done. unfold zdrop. rewrite drop_ge.
      * unfold payload, fk_buf_low_inc, set_low; cbn. unfold fk_buf_payload_len in Hn.
        rewrite (proj2 (Z.ltb_lt _ _)) by lia. rewrite Z.sub_diag. done.
      * rewrite <- (zlen_payload b W) in Hn. unfold zlen in *. lia.
  - split_and!; [by apply shift_wf|by apply payload_shift|unfold fk_buf_shift; by case_match].
  - split_and!; [by apply shrink_wf|by apply payload_shrink|].
    unfold fk_buf_shrink. case_match; [|done]. unfold fk_buf_shift. by case_match.
  - destruct Ho as [Hn Hs]. by destruct (alloc_spec b n W Hn Hs) as (? & ? & ? & _).
  - intros m cs [= <-] Hc. destruct Ho as [Hn Hs].
    destruct (alloc_spec b n W Hn Hs) as (_ & _ & _ & Hroom & Hsame & _).
    destruct (blen b <? highwat b) eqn:E; [|apply Hsame; bool_lia].
    cbn [buf_do]. rewrite (proj2 (Z.leb_le _ _)); [by eexists|]. rewrite Hc. apply Hroom. bool_lia.
Qed.

(** ** Helpers *)

(** [fk_util_min_power] of a non-negative [int] below 2^30 is a power of two that
    is greater than its argument, and at most twice a positive argument; for
    2^30 and more the shift leaves the [int] and the answer is not greater. *)
Theorem min_power_bounds n :
  0 <= n < 2 ^ 31 ->
  if n <? 2 ^ 30 then
    exists k, 0 <= k <= 30 /\ fk_util_min_power n = 2 ^ k /\ n < 2 ^ k /\ (0 < n -> 2 ^ k <= 2 * n)
  else fk_util_min_power n < 0.
Proof.
  intros Hn. destruct (n <? 2 ^ 30) eqn:E; [apply fk_util_min_power_spec; bool_lia|].
  apply Z.ltb_ge in E. unfold fk_util_min_power.
  destruct (min_power_loop_spec 32 0 n) as (k & -> & Hk & Hlt & Hle & Hz); [lia|lia|].
  assert (k = 31) as ->.
  { assert (30 < k) by (apply (Z.pow_lt_mono_r_iff 2); lia).
    assert (k < 32); [|lia]. apply (Z.pow_lt_mono_r_iff 2); lia. }
  vm_compute. reflexivity.
Qed.

(** The number of characters [fk_util_decimal_digit] counts for an [int] is the
    length of what [snprintf] prints for it, sign included, so that the replies
    with numbers fill exactly the bytes they reserve. *)
Theorem decimal_digit_width n :
  - 2 ^ 31 <= n < 2 ^ 31 ->
  fk_util_decimal_digit n = zlen (fmt_d n) /\ 1 <= fk_util_decimal_digit n <= 11.
Proof.
  intros Hn. split; [by apply decimal_digit_fmt|]. rewrite decimal_digit_fmt by done.
  unfold fmt_d. destruct (n <? 0) eqn:E.
  - rewrite zlen_cons. pose proof (dec_short 10 (- n) ltac:(lia) ltac:(lia)).
    pose proof (dec_length_pos (- n) ltac:(lia)). lia.
  - pose proof (dec_short 10 n ltac:(lia) ltac:(lia)). pose proof (dec_length_pos n ltac:(lia)). lia.
Qed.

(** The macros on time values compute exactly in microseconds, keep the values
    normalised, and their comparison has the sign of the difference; the expiry
    of a timer is the clock plus its interval in milliseconds. *)
Theorem time_values_exact a b ms :
  tv_norm a -> tv_norm b -> 0 <= ms ->
  (tv_norm (fk_util_tmval_add a b) /\ tv_micros (fk_util_tmval_add a b) = tv_micros a + tv_micros b) /\
  (tv_norm (fk_util_tmval_sub a b) /\ tv_micros (fk_util_tmval_sub a b) = tv_micros a - tv_micros b) /\
  (fk_util_tmval_cmp a b < 0 <-> tv_micros a < tv_micros b) /\
  (tv_norm (fk_util_cal_expire a ms) /\ tv_micros (fk_util_cal_expire a ms) = tv_micros a + ms * 1000).
Proof.
  intros Ha Hb Hms. pose proof (tmval_cmp_sign a b Ha Hb) as [Hc _].
  pose proof (cal_expire_micros a ms Ha Hms). split; [|split; [|split]]; [|..|done].
  - split; [by apply tmval_add_norm|apply tmval_add_micros].
  - split; [by apply tmval_sub_norm|apply tmval_sub_micros].
  - exact Hc.
Qed.

(** ** The theorems on examples *)

Abbreviation ex_ops := [DAdd (SItem 0 (lit "a")) (SItem 1 (lit "x"));
  DAdd (SItem 0 (lit "a")) (SItem 2 (lit "y")); DRemove (SItem 0 (lit "b"))].

Lemma ex_ops_ok : Forall (op_ok (V := sitem) key_ok) ex_ops.
Proof. repeat constructor; vm_compute; congruence. Qed.

Lemma dict_refines_map_witness :
  Forall (op_ok (V := sitem) key_ok) ex_ops /\
  let '(rts, d, _) := dict_run db_sdict_eop ex_ops fk_dict_init fk_item_init in
  rts = [FK_DICT_OK; FK_DICT_ERR; FK_DICT_ERR] /\
  fk_dict_get db_sdict_eop d (SItem 7 (lit "a")) = Some (SItem 1 (lit "x")).
Proof.
  split; [apply ex_ops_ok|].
  pose proof (dict_refines_map db_sdict_eop s_str key_ok ex_ops fk_item_init ex_ops_ok) as H.
  destruct (dict_run _ _ _ _) as [[rts d] m].
  destruct H as (Hr & Hg & _). split; [rewrite Hr; vm_compute; reflexivity|].
  rewrite (Hg (SItem 7 (lit "a"))) by (vm_compute; congruence). vm_compute. reflexivity.
Defined.

Lemma dict_random_member_witness :
  let '(_, d, _) := dict_run db_sdict_eop ex_ops fk_dict_init fk_item_init in
  exists kv, fk_dict_random d 5 = Some (Some kv) /\
    (map_run s_str ex_ops ∅).2 !! s_str kv.1 = Some kv.2.
Proof.
  pose proof (dict_random_member db_sdict_eop s_str key_ok ex_ops fk_item_init 5 ex_ops_ok
    ltac:(lia)) as H.
  destruct (dict_run _ _ _ _) as [[rts d] m]. destruct (map_run s_str ex_ops ∅) as [rts' mm] eqn:E.
  destruct (decide (mm = ∅)) as [Em|_]; [|exact H].
  exfalso. apply (f_equal (fun p => p.2 !! lit "a")) in E. cbn [snd] in E. rewrite Em in E.
  vm_compute in E. discriminate E.
Defined.

Lemma buf_is_queue_witness :
  let b := fk_buf_create 4 8 in
  buf_wf b /\ is_Some (buf_do (BAppend [None; None; None; None; None]) (fk_buf_alloc b 5)).
Proof.
  assert (buf_wf (fk_buf_create 4 8)) as W by (apply fk_buf_create_wf; lia).
  split; [exact W|].
  assert (buf_op_ok (fk_buf_create 4 8) (BAlloc 5)) as Ho by (vm_compute; split; congruence).
  destruct (buf_is_queue (fk_buf_create 4 8) (BAlloc 5) W Ho) as [_ H].
  exact (H 5 [None; None; None; None; None] eq_refl eq_refl).
Defined.

Lemma min_power_bounds_witness : fk_util_min_power (2 ^ 30) < 0.
Proof. exact (min_power_bounds (2 ^ 30) ltac:(lia)). Defined.

Lemma decimal_digit_width_witness : fk_util_decimal_digit (-15) = zlen (fmt_d (-15)).
Proof. exact (proj1 (decimal_digit_width (-15) ltac:(lia))). Defined.

Lemma time_values_exact_witness :
  tv_micros (fk_util_tmval_sub (Timeval 5 0) (Timeval 1 1)) = 3999999.
Proof.
  assert (tv_norm (Timeval 5 0)) as Ha by (vm_compute; split; congruence).
  assert (tv_norm (Timeval 1 1)) as Hb by (vm_compute; split; congruence).
  destruct (time_values_exact (Timeval 5 0) (Timeval 1 1) 0 Ha Hb ltac:(lia)) as (_ & [_ H] & _).
  exact H.
Defined.
