(* ===== verification/Conf.v ===== *)
(** Models src/src/fk_conf.c and fk_conf.h: the global [setting], the tokenizer of
    a configuration line, the table of directives and their handlers.  The text
    of error messages ([line->err]) is not modelled. *)
From S2P Require Import Prelude Util.

Definition FK_CONF_OK : Z := 0.
Definition FK_CONF_ERR : Z := -1.
Definition FK_CONF_MAX_FIELDS : Z := 5.

Definition FK_LOG_ERROR : Z := 0.
Definition FK_LOG_WARN : Z := 1.
Definition FK_LOG_INFO : Z := 2.
Definition FK_LOG_DEBUG : Z := 3.

Record fk_conf := FkConf {
  cf_port : Z;
  cf_addr : bytes;
  cf_daemon : Z;
  cf_max_conns : Z;
  cf_timeout : Z;
  cf_log_level : Z;
  cf_log_path : bytes;
  cf_pid_path : bytes;
  cf_dump : Z;
  cf_db_file : bytes;
  cf_dir : bytes;
  cf_dbcnt : Z;
  cf_max_wbuf : Z;
  cf_blog_on : Z;
  cf_blog_file : bytes
}.

(** [fk_str_create(s, sizeof(s) - 1)] of a string literal. *)
Definition str_const (s : string) : bytes := fk_str_create (lit s) (zlen (lit s)).

(** Step 1 of [fk_conf_init].  The blog path is created with the length of the
    default database path. *)
Definition fk_conf_default : fk_conf := {|
  cf_port := 6379;
  cf_addr := str_const "0.0.0.0";
  cf_daemon := 0;
  cf_max_conns := 10240;
  cf_timeout := 300;
  cf_log_level := FK_LOG_DEBUG;
  cf_log_path := str_const "/tmp/freekick.log";
  cf_pid_path := str_const "/tmp/freekick.pid";
  cf_dump := 0;
  cf_db_file := str_const "/tmp/freekick.db";
  cf_dir := str_const "/tmp/";
  cf_dbcnt := 1;
  cf_max_wbuf := 4096;
  cf_blog_on := 0;
  cf_blog_file := fk_str_create (lit "/tmp/freekick.blog") (zlen (lit "/tmp/freekick.db"))
|}.

(** ** Setters *)

Definition set_port (c : fk_conf) (v : Z) : fk_conf :=
  FkConf v (cf_addr c) (cf_daemon c) (cf_max_conns c) (cf_timeout c) (cf_log_level c)
    (cf_log_path c) (cf_pid_path c) (cf_dump c) (cf_db_file c) (cf_dir c) (cf_dbcnt c)
    (cf_max_wbuf c) (cf_blog_on c) (cf_blog_file c).
Definition set_addr (c : fk_conf) (v : bytes) : fk_conf :=
  FkConf (cf_port c) v (cf_daemon c) (cf_max_conns c) (cf_timeout c) (cf_log_level c)
    (cf_log_path c) (cf_pid_path c) (cf_dump c) (cf_db_file c) (cf_dir c) (cf_dbcnt c)
    (cf_max_wbuf c) (cf_blog_on c) (cf_blog_file c).
Definition set_daemon (c : fk_conf) (v : Z) : fk_conf :=
  FkConf (cf_port c) (cf_addr c) v (cf_max_conns c) (cf_timeout c) (cf_log_level c)
    (cf_log_path c) (cf_pid_path c) (cf_dump c) (cf_db_file c) (cf_dir c) (cf_dbcnt c)
    (cf_max_wbuf c) (cf_blog_on c) (cf_blog_file c).
Definition set_max_conns (c : fk_conf) (v : Z) : fk_conf :=
  FkConf (cf_port c) (cf_addr c) (cf_daemon c) v (cf_timeout c) (cf_log_level c)
    (cf_log_path c) (cf_pid_path c) (cf_dump c) (cf_db_file c) (cf_dir c) (cf_dbcnt c)
    (cf_max_wbuf c) (cf_blog_on c) (cf_blog_file c).
Definition set_timeout (c : fk_conf) (v : Z) : fk_conf :=
  FkConf (cf_port c) (cf_addr c) (cf_daemon c) (cf_max_conns c) v (cf_log_level c)
    (cf_log_path c) (cf_pid_path c) (cf_dump c) (cf_db_file c) (cf_dir c) (cf_dbcnt c)
    (cf_max_wbuf c) (cf_blog_on c) (cf_blog_file c).
Definition set_log_level (c : fk_conf) (v : Z) : fk_conf :=
  FkConf (cf_port c) (cf_addr c) (cf_daemon c) (cf_max_conns c) (cf_timeout c) v
    (cf_log_path c) (cf_pid_path c) (cf_dump c) (cf_db_file c) (cf_dir c) (cf_dbcnt c)
    (cf_max_wbuf c) (cf_blog_on c) (cf_blog_file c).
Definition set_log_path (c : fk_conf) (v : bytes) : fk_conf :=
  FkConf (cf_port c) (cf_addr c) (cf_daemon c) (cf_max_conns c) (cf_timeout c) (cf_log_level c)
    v (cf_pid_path c) (cf_dump c) (cf_db_file c) (cf_dir c) (cf_dbcnt c)
    (cf_max_wbuf c) (cf_blog_on c) (cf_blog_file c).
Definition set_pid_path (c : fk_conf) (v : bytes) : fk_conf :=
  FkConf (cf_port c) (cf_addr c) (cf_daemon c) (cf_max_conns c) (cf_timeout c) (cf_log_level c)
    (cf_log_path c) v (cf_dump c) (cf_db_file c) (cf_dir c) (cf_dbcnt c)
    (cf_max_wbuf c) (cf_blog_on c) (cf_blog_file c).
Definition set_dump (c : fk_conf) (v : Z) : fk_conf :=
  FkConf (cf_port c) (cf_addr c) (cf_daemon c) (cf_max_conns c) (cf_timeout c) (cf_log_level c)
    (cf_log_path c) (cf_pid_path c) v (cf_db_file c) (cf_dir c) (cf_dbcnt c)
    (cf_max_wbuf c) (cf_blog_on c) (cf_blog_file c).
Definition set_db_file (c : fk_conf) (v : bytes) : fk_conf :=
  FkConf (cf_port c) (cf_addr c) (cf_daemon c) (cf_max_conns c) (cf_timeout c) (cf_log_level c)
    (cf_log_path c) (cf_pid_path c) (cf_dump c) v (cf_dir c) (cf_dbcnt c)
    (cf_max_wbuf c) (cf_blog_on c) (cf_blog_file c).
Definition set_dir (c : fk_conf) (v : bytes) : fk_conf :=
  FkConf (cf_port c) (cf_addr c) (cf_daemon c) (cf_max_conns c) (cf_timeout c) (cf_log_level c)
    (cf_log_path c) (cf_pid_path c) (cf_dump c) (cf_db_file c) v (cf_dbcnt c)
    (cf_max_wbuf c) (cf_blog_on c) (cf_blog_file c).
Definition set_dbcnt (c : fk_conf) (v : Z) : fk_conf :=
  FkConf (cf_port c) (cf_addr c) (cf_daemon c) (cf_max_conns c) (cf_timeout c) (cf_log_level c)
    (cf_log_path c) (cf_pid_path c) (cf_dump c) (cf_db_file c) (cf_dir c) v
    (cf_max_wbuf c) (cf_blog_on c) (cf_blog_file c).
Definition set_max_wbuf (c : fk_conf) (v : Z) : fk_conf :=
  FkConf (cf_port c) (cf_addr c) (cf_daemon c) (cf_max_conns c) (cf_timeout c) (cf_log_level c)
    (cf_log_path c) (cf_pid_path c) (cf_dump c) (cf_db_file c) (cf_dir c) (cf_dbcnt c)
    v (cf_blog_on c) (cf_blog_file c).
Definition set_blog_on (c : fk_conf) (v : Z) : fk_conf :=
  FkConf (cf_port c) (cf_addr c) (cf_daemon c) (cf_max_conns c) (cf_timeout c) (cf_log_level c)
    (cf_log_path c) (cf_pid_path c) (cf_dump c) (cf_db_file c) (cf_dir c) (cf_dbcnt c)
    (cf_max_wbuf c) v (cf_blog_file c).
Definition set_blog_file (c : fk_conf) (v : bytes) : fk_conf :=
  FkConf (cf_port c) (cf_addr c) (cf_daemon c) (cf_max_conns c) (cf_timeout c) (cf_log_level c)
    (cf_log_path c) (cf_pid_path c) (cf_dump c) (cf_db_file c) (cf_dir c) (cf_dbcnt c)
    (cf_max_wbuf c) (cf_blog_on c) v.

(** ** Tokenizing a line

    [buf] is what [getline] stored, its final NUL included; reading past it is
    undefined behaviour. *)

Definition is_blank (c : ascii) : bool := Ascii.eqb c " " || Ascii.eqb c "009".
Definition is_end (c : ascii) : bool := Ascii.eqb c "#" || Ascii.eqb c LF.

Fixpoint conf_skip (l : bytes) : option bytes :=
  match l with
  | [] => None
  | c :: l' => if is_blank c then conf_skip l' else Some l
  end.

Fixpoint conf_token (l : bytes) : option (bytes * bytes) :=
  match l with
  | [] => None
  | c :: l' =>
      if is_blank c || is_end c then Some ([], l)
      else
        match conf_token l' with
        | Some (t, r) => Some (c :: t, r)
        | None => None
        end
  end.

(** The outer [while (buf[i] != '\n')]; every turn but the last consumes a token. *)
Fixpoint conf_parse_loop (fuel : nat) (fields : list bytes) (l : bytes) :
    option (Z * list bytes) :=
  match fuel with
  | O => None
  | S f =>
      match l with
      | [] => None
      | c :: _ =>
          if Ascii.eqb c LF then Some (FK_CONF_OK, fields)
          else if zlen fields =? FK_CONF_MAX_FIELDS then Some (FK_CONF_ERR, fields)
          else
            match conf_skip l with
            | None => None
            | Some l1 =>
                match l1 with
                | [] => None
                | c1 :: _ =>
                    if is_end c1 then Some (FK_CONF_OK, fields)
                    else
                      match conf_token l1 with
                      | None => None
                      | Some (tok, l2) =>
                          conf_parse_loop f
                            (fields ++ [fk_str_create tok (zlen tok)]) l2
                      end
                end
            end
      end
  end.

Definition fk_conf_parse_line (buf : bytes) : option (Z * list bytes) :=
  conf_parse_loop (S (length buf)) [] buf.

(** ** The directives *)

(** A handler sees the fields of the line and the current setting. *)
Definition handler : Type := list bytes -> fk_conf -> Z * fk_conf.

Definition field1 (fields : list bytes) : bytes := default [] (fields !! 1%nat).

Definition fk_conf_parse_port : handler := fun fs c =>
  if fk_str_is_positive (field1 fs) =? 0 then (FK_CONF_ERR, c)
  else
    let port := atoi (field1 fs) in
    if (port <=? 0) || (65535 <? port) then (FK_CONF_ERR, c)
    else (FK_CONF_OK, set_port c (u16 port)).
Definition fk_conf_parse_daemon : handler := fun fs c => (FK_CONF_OK, set_daemon c 1).
Definition fk_conf_parse_dump : handler := fun fs c => (FK_CONF_OK, set_dump c 1).
Definition fk_conf_parse_pidpath : handler := fun fs c =>
  (FK_CONF_OK, set_pid_path c (fk_str_clone (field1 fs))).
Definition fk_conf_parse_logpath : handler := fun fs c =>
  (FK_CONF_OK, set_log_path c (fk_str_clone (field1 fs))).
Definition fk_conf_parse_dbfile : handler := fun fs c =>
  (FK_CONF_OK, set_db_file c (fk_str_clone (field1 fs))).
Definition fk_conf_parse_maxconn : handler := fun fs c =>
  if fk_str_is_positive (field1 fs) =? 0 then (FK_CONF_ERR, c)
  else (FK_CONF_OK, set_max_conns c (atoi (field1 fs))).
Definition fk_conf_parse_dbcnt : handler := fun fs c =>
  if fk_str_is_positive (field1 fs) =? 0 then (FK_CONF_ERR, c)
  else (FK_CONF_OK, set_dbcnt c (u32 (atoi (field1 fs)))).
Definition fk_conf_parse_addr : handler := fun fs c =>
  (FK_CONF_OK, set_addr c (fk_str_clone (field1 fs))).

(** [strcasecmp(a, b) == 0] on C strings. *)
Definition strcasecmp_eq (a b : bytes) : bool :=
  bool_decide (lower_char <$> cstr a = lower_char <$> cstr b).

Definition fk_conf_parse_loglevel : handler := fun fs c =>
  let level := field1 fs in
  if strcasecmp_eq level (lit "debug") then (FK_CONF_OK, set_log_level c FK_LOG_DEBUG)
  else if strcasecmp_eq level (lit "info") then (FK_CONF_OK, set_log_level c FK_LOG_INFO)
  else if strcasecmp_eq level (lit "warnning") then (FK_CONF_OK, set_log_level c FK_LOG_WARN)
  else if strcasecmp_eq level (lit "error") then (FK_CONF_OK, set_log_level c FK_LOG_ERROR)
  else (FK_CONF_ERR, c).
Definition fk_conf_parse_timeout : handler := fun fs c =>
  if fk_str_is_positive (field1 fs) =? 0 then (FK_CONF_ERR, c)
  else (FK_CONF_OK, set_timeout c (atoi (field1 fs))).
Definition fk_conf_parse_dir : handler := fun fs c =>
  (FK_CONF_OK, set_dir c (fk_str_clone (field1 fs))).
Definition fk_conf_parse_maxwbuf : handler := fun fs c =>
  if fk_str_is_positive (field1 fs) =? 0 then (FK_CONF_ERR, c)
  else (FK_CONF_OK, set_max_wbuf c (u64 (atoi (field1 fs)))).
Definition fk_conf_parse_blogfile : handler := fun fs c =>
  (FK_CONF_OK, set_blog_file c (fk_str_clone (field1 fs))).
Definition fk_conf_parse_blogon : handler := fun fs c => (FK_CONF_OK, set_blog_on c 1).

Record fk_dtv := FkDtv { dtv_name : bytes; dtv_field_cnt : Z; dtv_handler : handler }.

Definition dtv_map : list fk_dtv := [
  FkDtv (lit "port") 2 fk_conf_parse_port;
  FkDtv (lit "daemon") 1 fk_conf_parse_daemon;
  FkDtv (lit "pidpath") 2 fk_conf_parse_pidpath;
  FkDtv (lit "logpath") 2 fk_conf_parse_logpath;
  FkDtv (lit "dump") 1 fk_conf_parse_dump;
  FkDtv (lit "dbfile") 2 fk_conf_parse_dbfile;
  FkDtv (lit "dir") 2 fk_conf_parse_dir;
  FkDtv (lit "loglevel") 2 fk_conf_parse_loglevel;
  FkDtv (lit "maxconn") 2 fk_conf_parse_maxconn;
  FkDtv (lit "dbcnt") 2 fk_conf_parse_dbcnt;
  FkDtv (lit "timeout") 2 fk_conf_parse_timeout;
  FkDtv (lit "addr") 2 fk_conf_parse_addr;
  FkDtv (lit "maxwbuf") 2 fk_conf_parse_maxwbuf;
  FkDtv (lit "blogfile") 2 fk_conf_parse_blogfile;
  FkDtv (lit "blogon") 1 fk_conf_parse_blogon
].

Fixpoint dtv_search (name : bytes) (l : list fk_dtv) : option fk_dtv :=
  match l with
  | [] => None
  | d :: l' => if strcasecmp_eq name (dtv_name d) then Some d else dtv_search name l'
  end.

Definition fk_conf_search (name : bytes) : option fk_dtv := dtv_search name dtv_map.

Definition fk_conf_proc_line (fields : list bytes) (c : fk_conf) : Z * fk_conf :=
  match fields with
  | [] => (FK_CONF_OK, c)
  | cmd :: _ =>
      match fk_conf_search cmd with
      | None => (FK_CONF_ERR, c)
      | Some dtv =>
          if negb (dtv_field_cnt dtv =? zlen fields) then (FK_CONF_ERR, c)
          else
            let '(rt, c) := dtv_handler dtv fields c in
            if rt <? 0 then (FK_CONF_ERR, c) else (FK_CONF_OK, c)
      end
  end.

(** The body of [fk_conf_parse_file]: [lines] are the successive results of
    [getline], which appends a NUL. *)
Fixpoint fk_conf_parse_file (lines : list bytes) (c : fk_conf) : option (Z * fk_conf) :=
  match lines with
  | [] => Some (FK_CONF_OK, c)
  | l :: rest =>
      match fk_conf_parse_line (l ++ [NUL]) with
      | None => None
      | Some (rt, fields) =>
          if rt <? 0 then Some (FK_CONF_ERR, c)
          else
            let '(rt, c) := fk_conf_proc_line fields c in
            if rt <? 0 then Some (FK_CONF_ERR, c) else fk_conf_parse_file rest c
      end
  end.

(** [None] is undefined behaviour, [Some None] the process exits. *)
Definition fk_conf_init (conf : option (list bytes)) : option (option fk_conf) :=
  match conf with
  | None => Some (Some fk_conf_default)
  | Some lines =>
      match fk_conf_parse_file lines fk_conf_default with
      | None => None
      | Some (rt, c) => Some (if rt <? 0 then None else Some c)
      end
  end.

(** ** Properties *)

(** A token as the tokenizer delimits it. *)
Definition token_ok (t : bytes) : Prop :=
  t <> [] /\ Forall (fun c => is_blank c || is_end c = false) t.

(** Tokens separated by one blank, then the end of the line. *)
Fixpoint render_line (toks : list bytes) (k : bytes) : bytes :=
  match toks with
  | [] => LF :: k
  | [t] => t ++ LF :: k
  | t :: rest => t ++ " "%char :: render_line rest k
  end.

Lemma str_create_all (t : bytes) : fk_str_create t (zlen t) = t.
Proof. unfold fk_str_create. by rewrite ztake_all by lia. Qed.

Lemma conf_token_app t c r :
  Forall (fun c => is_blank c || is_end c = false) t -> is_blank c || is_end c = true ->
  conf_token (t ++ c :: r) = Some (t, c :: r).
Proof.
  intros Ht Hc. induction Ht as [|x t Hx Ht IH]; cbn [app conf_token].
  - by rewrite Hc.
  - by rewrite Hx, IH.
Qed.

Lemma token_head t : token_ok t -> exists c t', t = c :: t' /\ is_blank c || is_end c = false.
Proof. intros [Hne Ht]. destruct Ht as [|c t' Hc _]; [done|eauto]. Qed.

(** One turn of the loop over a token. *)
Lemma conf_parse_step f fields t c r :
  token_ok t -> zlen fields < FK_CONF_MAX_FIELDS -> is_blank c || is_end c = true ->
  conf_parse_loop (S f) fields (t ++ c :: r) = conf_parse_loop f (fields ++ [t]) (c :: r) /\
  conf_parse_loop (S f) fields (" "%char :: t ++ c :: r) =
    conf_parse_loop f (fields ++ [t]) (c :: r).
Proof.
  intros Hok Hlen Hc. destruct (token_head t Hok) as (x & t' & E & Hx).
  apply orb_false_iff in Hx as [Hx1 Hx2]. pose proof Hx2 as Hx3.
  apply orb_false_iff in Hx3 as [_ Hx3].
  pose proof (conf_token_app t c r (proj2 Hok) Hc) as Htok.
  rewrite E in *. cbn [app] in *.
  assert (forall l, conf_skip (x :: l) = Some (x :: l)) as Hsk by (intros l; cbn; by rewrite Hx1).
  split; cbn [conf_parse_loop].
  - rewrite Hx3, (proj2 (Z.eqb_neq _ _)) by lia. rewrite Hsk, Hx2, Htok.
    by rewrite str_create_all.
  - change (Ascii.eqb " " LF) with false. cbn iota.
    rewrite (proj2 (Z.eqb_neq _ _)) by lia.
    assert (forall l, conf_skip (" "%char :: x :: l) = Some (x :: l)) as Hsk2
      by (intros l; cbn; by rewrite Hx1).
    rewrite Hsk2, Hx2, Htok. by rewrite str_create_all.
Qed.

(** The tokens the loop collects from a rendered line. *)
Lemma conf_parse_render k toks : forall f fields pre,
  Forall token_ok toks -> zlen fields + zlen toks <= FK_CONF_MAX_FIELDS ->
  (length toks < f)%nat -> (pre = [] \/ pre = [" "%char] /\ toks <> []) ->
  conf_parse_loop f fields (pre ++ render_line toks k) = Some (FK_CONF_OK, fields ++ toks).
Proof.
  induction toks as [|t rest IH]; intros f fields pre Hok Hlen Hf Hpre.
  - destruct Hpre as [->|[_ ?]]; [|done]. destruct f as [|f]; [cbn in Hf; lia|].
    cbn. by rewrite app_nil_r.
  - apply Forall_cons in Hok as [Ht Hok]. destruct f as [|f]; [cbn in Hf; lia|].
    rewrite zlen_cons in Hlen. pose proof (zlen_nonneg rest). cbn in Hf.
    assert (zlen (fields ++ [t]) + zlen rest <= FK_CONF_MAX_FIELDS) as Hl'
      by (rewrite zlen_app; change (zlen [t]) with 1; lia).
    assert (exists c r, render_line (t :: rest) k = t ++ c :: r /\ is_blank c || is_end c = true /\
      conf_parse_loop f (fields ++ [t]) (c :: r) = Some (FK_CONF_OK, fields ++ t :: rest))
      as (c & r & -> & Hc & Hrec).
    { destruct rest as [|t2 rest].
      - exists LF, k. split_and!; [done..|]. destruct f as [|f]; [lia|]. done.
      - exists " "%char, (render_line (t2 :: rest) k). split_and!; [done..|].
        specialize (IH f (fields ++ [t]) [" "%char] Hok Hl' ltac:(cbn in *; lia)).
        cbn [app] in IH. rewrite IH by (by right). by rewrite <- app_assoc. }
    destruct (conf_parse_step f fields t c r Ht ltac:(lia) Hc) as [S1 S2].
    destruct Hpre as [->|[-> _]]; cbn [app]; [by rewrite S1|by rewrite S2].
Qed.

(** A positive decimal text is read back by the integer directives. *)
Lemma str_is_positive_dec n : 0 < n < 10 ^ 20 -> fk_str_is_positive (dec n) = 1.
Proof.
  intros Hn. unfold fk_str_is_positive.
  pose proof (dec_length_pos n ltac:(lia)). rewrite (proj2 (Z.ltb_ge _ _)) by lia.
  by rewrite positive_dec.
Qed.

Lemma atoi_dec_all n : 0 <= n <= INT_MAX -> atoi (dec n) = n.
Proof. intros H. rewrite <- (app_nil_r (dec n)). by apply atoi_dec. Qed.

Lemma render_line_length toks k :
  Forall token_ok toks -> (length toks <= length (render_line toks k))%nat.
Proof.
  intros Hok. induction Hok as [|t rest [Hne _] Hok IH]; [cbn; lia|].
  assert (1 <= length t)%nat by (destruct t; [done|cbn; lia]).
  destruct rest as [|t2 rest].
  - cbn [render_line]. rewrite length_app. cbn [length]. lia.
  - change (render_line (t :: t2 :: rest) k) with (t ++ " "%char :: render_line (t2 :: rest) k).
    rewrite length_app. cbn [length] in *. lia.
Qed.

(** ** Claims *)

(** Tokenizing is the inverse of writing a line: for at most five tokens
    without blanks, [#] or newline, written with single blanks and ended by a
    newline, [fk_conf_parse_line] succeeds and yields exactly these tokens. *)
Theorem conf_parse_line_render (toks : list bytes) (k : bytes) :
  Forall token_ok toks -> zlen toks <= FK_CONF_MAX_FIELDS ->
  fk_conf_parse_line (render_line toks k) = Some (FK_CONF_OK, toks).
Proof.
  intros Hok Hlen. unfold fk_conf_parse_line. apply (conf_parse_render k toks _ [] []); [done|done| |].
  - pose proof (render_line_length toks k Hok). lia.
  - by left.
Qed.

Lemma conf_parse_line_render_witness :
  fk_conf_parse_line (render_line [lit "port"; lit "6379"] [NUL])
  = Some (FK_CONF_OK, [lit "port"; lit "6379"]).
Proof.
  apply (conf_parse_line_render [lit "port"; lit "6379"] [NUL]); [|vm_compute; discriminate].
  repeat constructor; discriminate.
Defined.

(** A line whose last token runs to the end of the file without a newline is
    scanned past the end of the buffer [getline] returned: undefined behaviour. *)
Theorem conf_parse_line_no_newline (t : bytes) :
  token_ok t -> fk_conf_parse_line (t ++ [NUL]) = None.
Proof.
  intros Ht. destruct (token_head t Ht) as (x & t' & E & Hx).
  assert (forall l, Forall (fun c => is_blank c || is_end c = false) l -> conf_token l = None) as Hn.
  { intros l Hl. induction Hl as [|c l Hc Hl IH]; [done|]. cbn. by rewrite Hc, IH. }
  pose proof (Hn (t ++ [NUL])) as Htok. destruct Ht as [_ Ht].
  specialize (Htok ltac:(apply Forall_app; split; [done|by repeat constructor])).
  apply orb_false_iff in Hx as [Hx1 Hx2]. pose proof Hx2 as Hx3.
  apply orb_false_iff in Hx3 as [_ Hx3].
  unfold fk_conf_parse_line. rewrite E in *. cbn [app] in *. cbn [conf_parse_loop].
  assert (forall l, conf_skip (x :: l) = Some (x :: l)) as Hsk by (intros l; cbn; by rewrite Hx1).
  rewrite Hx3. change (zlen [] =? FK_CONF_MAX_FIELDS) with false. cbn iota.
  by rewrite Hsk, Hx2, Htok.
Qed.

Lemma conf_parse_line_no_newline_witness : fk_conf_parse_line (lit "dump" ++ [NUL]) = None.
Proof. apply conf_parse_line_no_newline. split; [discriminate|repeat constructor]. Defined.

(** The port directive accepts exactly the ports: on the line [port n] with
    [0 < n < 10^18], the setting becomes [n] when [n <= 65535], and the line is
    rejected with the setting unchanged when [65535 < n <= INT_MAX]; beyond
    [INT_MAX] the text is reduced modulo 2^32 before the check. *)
Theorem conf_port_spec (n : Z) (c : fk_conf) :
  0 < n < 10 ^ 18 ->
  fk_conf_proc_line [lit "port"; dec n] c =
    if (0 <? i32 n) && (i32 n <=? 65535)
    then (FK_CONF_OK, set_port c (i32 n)) else (FK_CONF_ERR, c).
Proof.
  intros Hn. unfold fk_conf_proc_line.
  change (fk_conf_search (lit "port")) with (Some (FkDtv (lit "port") 2 fk_conf_parse_port)).
  cbn [dtv_field_cnt dtv_handler]. change (2 =? zlen [lit "port"; dec n]) with true. cbn [negb].
  unfold fk_conf_parse_port. change (field1 [lit "port"; dec n]) with (dec n).
  rewrite str_is_positive_dec by lia. cbn [Z.eqb].
  assert (atoi (dec n) = i32 n) as ->.
  { unfold atoi, strtol. destruct (dec_head n ltac:(lia)) as (d & l & Hd & Hr & _).
    pose proof (digits_val_dec n ltac:(lia)) as Hv. rewrite Hd in *.
    rewrite skip_space_digit by (apply is_digit_digit; lia).
    rewrite !ascii_eqb_false by (apply digit_not; [lia|vm_compute; auto]).
    rewrite Hv. f_equal. lia. }
  destruct (0 <? i32 n) eqn:E1; destruct (i32 n <=? 65535) eqn:E2; cbn [andb].
  - replace (i32 n <=? 0) with false by (symmetry; apply Z.leb_gt; bool_lia).
    replace (65535 <? i32 n) with false by (symmetry; apply Z.ltb_ge; bool_lia). cbn.
    unfold u16. rewrite Z.mod_small by bool_lia. done.
  - replace (65535 <? i32 n) with true by (symmetry; apply Z.ltb_lt; bool_lia).
    rewrite orb_true_r. done.
  - replace (i32 n <=? 0) with true by (symmetry; apply Z.leb_le; bool_lia). done.
  - replace (i32 n <=? 0) with true by (symmetry; apply Z.leb_le; bool_lia). done.
Qed.

Lemma conf_port_spec_witness :
  fk_conf_proc_line [lit "port"; dec 4294967376] fk_conf_default
  = (FK_CONF_OK, set_port fk_conf_default 80).
Proof. rewrite (conf_port_spec 4294967376 fk_conf_default); [reflexivity|lia]. Defined.

(** Without a configuration file the blog file name is cut short: the
    default path is copied with the length of the default database path. *)
Theorem conf_default_blog_file_truncated :
  cf_blog_file fk_conf_default = lit "/tmp/freekick.bl" /\
  cf_blog_file fk_conf_default <> lit "/tmp/freekick.blog" /\
  cf_db_file fk_conf_default = lit "/tmp/freekick.db".
Proof. split_and!; [reflexivity|discriminate|reflexivity]. Qed.
