(* ===== verification/Svr.v ===== *)
(** Models the data of src/src/fk_svr.h ([fk_conn_t], [fk_svr_t]) and the six
    reply functions [fk_conn_add_*_rsp] of src/src/fk_svr_conn.c. *)
From S2P Require Import Prelude Util Buf Dict Item Conf.

(** Status codes *)
Definition FK_SVR_OK : Z := 0.
Definition FK_SVR_ERR : Z := -1.
Definition FK_SVR_AGAIN : Z := -2.
Definition FK_SVR_DONE : Z := -4.

(** Limits *)
Definition FK_BUF_HIGHWAT : Z := 4 * 1024 * 1024.
Definition FK_BUF_INIT_LEN : Z := 16.
Definition FK_ARG_HIGHWAT : Z := 1024 * 1024.
Definition FK_ARG_CNT_HIGHWAT : Z := 128.
Definition FK_ARG_CNT_LINE_HIGHWAT : Z := 5.
Definition FK_ARG_LEN_LINE_HIGHWAT : Z := 9.
Definition FK_VTR_INIT_LEN : Z := 4.

Definition FK_CONN_REAL : Z := 0.
Definition FK_CONN_FAKE : Z := 1.
Definition FK_CONN_FAKE_FD : Z := -1.

(** Replies *)
Definition FK_RSP_OK : bytes := lit "OK".
Definition FK_RSP_ERR : bytes := lit "ERROR".
Definition FK_RSP_TYPE_ERR : bytes := lit "Type Error".
Definition FK_RSP_ARGC_ERR : bytes := lit "Argument Number Error".
Definition FK_RSP_NIL : Z := -1.

Record fk_conn := FkConn {
  c_fd : Z;
  c_type : Z;
  c_write_added : Z;
  c_rbuf : fk_buf;
  c_wbuf : fk_buf;
  c_last_recv : Z;
  c_arg_vtr : fk_vtr sitem;
  c_arg_parsed : Z;
  c_arg_cnt : Z;
  c_cur_arglen : Z;
  c_parse_done : Z;
  c_db_idx : Z
}.

(** The binary log: its bytes and the file offset, which reads and writes share. *)
Record blog_file := BlogFile { bf_data : list cell; bf_off : Z }.

(** The k-th call of [fk_util_get_time] returns [sv_clock k]; [sv_ticks] counts the
    calls. *)
Record fk_svr := FkSvr {
  sv_setting : fk_conf;
  sv_conn_cnt : Z;
  sv_db : list (fk_dict sitem item);
  sv_expdb : list (fk_dict sitem item);
  sv_items : item_mgr;
  sv_save_pid : Z;
  sv_rewrite_pid : Z;
  sv_last_save : Z;
  sv_timer_cnt : Z;
  sv_blog : blog_file;
  sv_kdb : option (list ascii);
  sv_clock : nat -> timeval;
  sv_ticks : nat;
  sv_lua_conn : fk_conn
}.

Definition sv_dbcnt (s : fk_svr) : Z := cf_dbcnt (sv_setting s).

Record world := World { w_svr : fk_svr; w_conn : fk_conn }.

(** ** Field updates *)

Definition cn_rbuf (c : fk_conn) (b : fk_buf) : fk_conn :=
  FkConn (c_fd c) (c_type c) (c_write_added c) b (c_wbuf c) (c_last_recv c) (c_arg_vtr c)
    (c_arg_parsed c) (c_arg_cnt c) (c_cur_arglen c) (c_parse_done c) (c_db_idx c).
Definition cn_wbuf (c : fk_conn) (b : fk_buf) : fk_conn :=
  FkConn (c_fd c) (c_type c) (c_write_added c) (c_rbuf c) b (c_last_recv c) (c_arg_vtr c)
    (c_arg_parsed c) (c_arg_cnt c) (c_cur_arglen c) (c_parse_done c) (c_db_idx c).
Definition cn_write_added (c : fk_conn) (n : Z) : fk_conn :=
  FkConn (c_fd c) (c_type c) n (c_rbuf c) (c_wbuf c) (c_last_recv c) (c_arg_vtr c)
    (c_arg_parsed c) (c_arg_cnt c) (c_cur_arglen c) (c_parse_done c) (c_db_idx c).
Definition cn_last_recv (c : fk_conn) (n : Z) : fk_conn :=
  FkConn (c_fd c) (c_type c) (c_write_added c) (c_rbuf c) (c_wbuf c) n (c_arg_vtr c)
    (c_arg_parsed c) (c_arg_cnt c) (c_cur_arglen c) (c_parse_done c) (c_db_idx c).
Definition cn_arg_vtr (c : fk_conn) (v : fk_vtr sitem) : fk_conn :=
  FkConn (c_fd c) (c_type c) (c_write_added c) (c_rbuf c) (c_wbuf c) (c_last_recv c) v
    (c_arg_parsed c) (c_arg_cnt c) (c_cur_arglen c) (c_parse_done c) (c_db_idx c).
Definition cn_arg_parsed (c : fk_conn) (n : Z) : fk_conn :=
  FkConn (c_fd c) (c_type c) (c_write_added c) (c_rbuf c) (c_wbuf c) (c_last_recv c) (c_arg_vtr c)
    n (c_arg_cnt c) (c_cur_arglen c) (c_parse_done c) (c_db_idx c).
Definition cn_arg_cnt (c : fk_conn) (n : Z) : fk_conn :=
  FkConn (c_fd c) (c_type c) (c_write_added c) (c_rbuf c) (c_wbuf c) (c_last_recv c) (c_arg_vtr c)
    (c_arg_parsed c) n (c_cur_arglen c) (c_parse_done c) (c_db_idx c).
Definition cn_cur_arglen (c : fk_conn) (n : Z) : fk_conn :=
  FkConn (c_fd c) (c_type c) (c_write_added c) (c_rbuf c) (c_wbuf c) (c_last_recv c) (c_arg_vtr c)
    (c_arg_parsed c) (c_arg_cnt c) n (c_parse_done c) (c_db_idx c).
Definition cn_parse_done (c : fk_conn) (n : Z) : fk_conn :=
  FkConn (c_fd c) (c_type c) (c_write_added c) (c_rbuf c) (c_wbuf c) (c_last_recv c) (c_arg_vtr c)
    (c_arg_parsed c) (c_arg_cnt c) (c_cur_arglen c) n (c_db_idx c).
Definition cn_db_idx (c : fk_conn) (n : Z) : fk_conn :=
  FkConn (c_fd c) (c_type c) (c_write_added c) (c_rbuf c) (c_wbuf c) (c_last_recv c) (c_arg_vtr c)
    (c_arg_parsed c) (c_arg_cnt c) (c_cur_arglen c) (c_parse_done c) n.

Definition sv_set_db (s : fk_svr) (l : list (fk_dict sitem item)) : fk_svr :=
  FkSvr (sv_setting s) (sv_conn_cnt s) l (sv_expdb s) (sv_items s) (sv_save_pid s)
    (sv_rewrite_pid s) (sv_last_save s) (sv_timer_cnt s) (sv_blog s) (sv_kdb s) (sv_clock s)
    (sv_ticks s) (sv_lua_conn s).
Definition sv_set_expdb (s : fk_svr) (l : list (fk_dict sitem item)) : fk_svr :=
  FkSvr (sv_setting s) (sv_conn_cnt s) (sv_db s) l (sv_items s) (sv_save_pid s)
    (sv_rewrite_pid s) (sv_last_save s) (sv_timer_cnt s) (sv_blog s) (sv_kdb s) (sv_clock s)
    (sv_ticks s) (sv_lua_conn s).
Definition sv_set_items (s : fk_svr) (m : item_mgr) : fk_svr :=
  FkSvr (sv_setting s) (sv_conn_cnt s) (sv_db s) (sv_expdb s) m (sv_save_pid s)
    (sv_rewrite_pid s) (sv_last_save s) (sv_timer_cnt s) (sv_blog s) (sv_kdb s) (sv_clock s)
    (sv_ticks s) (sv_lua_conn s).
Definition sv_set_blog (s : fk_svr) (b : blog_file) : fk_svr :=
  FkSvr (sv_setting s) (sv_conn_cnt s) (sv_db s) (sv_expdb s) (sv_items s) (sv_save_pid s)
    (sv_rewrite_pid s) (sv_last_save s) (sv_timer_cnt s) b (sv_kdb s) (sv_clock s)
    (sv_ticks s) (sv_lua_conn s).
Definition sv_set_kdb (s : fk_svr) (k : option bytes) : fk_svr :=
  FkSvr (sv_setting s) (sv_conn_cnt s) (sv_db s) (sv_expdb s) (sv_items s) (sv_save_pid s)
    (sv_rewrite_pid s) (sv_last_save s) (sv_timer_cnt s) (sv_blog s) k (sv_clock s)
    (sv_ticks s) (sv_lua_conn s).
Definition sv_set_ticks (s : fk_svr) (n : nat) : fk_svr :=
  FkSvr (sv_setting s) (sv_conn_cnt s) (sv_db s) (sv_expdb s) (sv_items s) (sv_save_pid s)
    (sv_rewrite_pid s) (sv_last_save s) (sv_timer_cnt s) (sv_blog s) (sv_kdb s) (sv_clock s) n (sv_lua_conn s).
Definition sv_set_conn_cnt (s : fk_svr) (n : Z) : fk_svr :=
  FkSvr (sv_setting s) n (sv_db s) (sv_expdb s) (sv_items s) (sv_save_pid s)
    (sv_rewrite_pid s) (sv_last_save s) (sv_timer_cnt s) (sv_blog s) (sv_kdb s) (sv_clock s)
    (sv_ticks s) (sv_lua_conn s).
Definition sv_set_pids (s : fk_svr) (save rewrite : Z) : fk_svr :=
  FkSvr (sv_setting s) (sv_conn_cnt s) (sv_db s) (sv_expdb s) (sv_items s) save
    rewrite (sv_last_save s) (sv_timer_cnt s) (sv_blog s) (sv_kdb s) (sv_clock s)
    (sv_ticks s) (sv_lua_conn s).
Definition sv_set_last_save (s : fk_svr) (t : Z) : fk_svr :=
  FkSvr (sv_setting s) (sv_conn_cnt s) (sv_db s) (sv_expdb s) (sv_items s) (sv_save_pid s)
    (sv_rewrite_pid s) t (sv_timer_cnt s) (sv_blog s) (sv_kdb s) (sv_clock s)
    (sv_ticks s) (sv_lua_conn s).
Definition sv_set_timer_cnt (s : fk_svr) (n : Z) : fk_svr :=
  FkSvr (sv_setting s) (sv_conn_cnt s) (sv_db s) (sv_expdb s) (sv_items s) (sv_save_pid s)
    (sv_rewrite_pid s) (sv_last_save s) n (sv_blog s) (sv_kdb s) (sv_clock s)
    (sv_ticks s) (sv_lua_conn s).
Definition sv_set_lua_conn (s : fk_svr) (c : fk_conn) : fk_svr :=
  FkSvr (sv_setting s) (sv_conn_cnt s) (sv_db s) (sv_expdb s) (sv_items s) (sv_save_pid s)
    (sv_rewrite_pid s) (sv_last_save s) (sv_timer_cnt s) (sv_blog s) (sv_kdb s) (sv_clock s)
    (sv_ticks s) c.

Definition w_set_svr (w : world) (s : fk_svr) : world := World s (w_conn w).
Definition w_set_conn (w : world) (c : fk_conn) : world := World (w_svr w) c.
Definition mod_svr (f : fk_svr -> fk_svr) : ST world unit :=
  st_mod (fun w => w_set_svr w (f (w_svr w))).
Definition mod_conn (f : fk_conn -> fk_conn) : ST world unit :=
  st_mod (fun w => w_set_conn w (f (w_conn w))).

(** [if (rt == FK_SVR_ERR) return FK_SVR_ERR; return FK_SVR_OK;] *)
Definition ret_rsp (rt : Z) : Z := if rt =? FK_SVR_ERR then FK_SVR_ERR else FK_SVR_OK.

(** The arguments of a request: a NULL argument is dereferenced by every caller. *)
Definition fk_conn_get_arg (idx : Z) : ST world sitem := fun w =>
  match fk_vtr_get (c_arg_vtr (w_conn w)) idx with
  | Some (Some a) => Some (a, w)
  | _ => None
  end.

Definition get_arg_cnt : ST world Z := st_gets (fun w => c_arg_cnt (w_conn w)).
Definition get_db_idx : ST world Z := st_gets (fun w => c_db_idx (w_conn w)).

(** [fk_util_get_time]. *)
Definition fk_util_get_time : ST world timeval := fun w =>
  let s := w_svr w in
  Some (sv_clock s (sv_ticks s), w_set_svr w (sv_set_ticks s (S (sv_ticks s)))).

(** ** Operations on the databases

    [server.db[idx]]: an index outside the array is undefined behaviour. *)

Definition db_get (i : Z) (key : sitem) : ST world (option item) := fun w =>
  match znth (sv_db (w_svr w)) i with
  | Some d => Some (fk_dict_get db_dict_eop d key, w)
  | None => None
  end.

Definition expdb_get (i : Z) (key : sitem) : ST world (option item) := fun w =>
  match znth (sv_expdb (w_svr w)) i with
  | Some d => Some (fk_dict_get db_dict_eop d key, w)
  | None => None
  end.

(** Run a dictionary operation on [server.db[i]] or [server.expdb[i]]. *)
Definition on_db (op : fk_dict sitem item -> item_mgr -> Z * fk_dict sitem item * item_mgr)
    (i : Z) : ST world Z := fun w =>
  let s := w_svr w in
  match znth (sv_db s) i with
  | Some d =>
      let '(rt, d, m) := op d (sv_items s) in
      Some (rt, w_set_svr w (sv_set_items (sv_set_db s (zupd (sv_db s) i d)) m))
  | None => None
  end.

Definition on_expdb (op : fk_dict sitem item -> item_mgr -> Z * fk_dict sitem item * item_mgr)
    (i : Z) : ST world Z := fun w =>
  let s := w_svr w in
  match znth (sv_expdb s) i with
  | Some d =>
      let '(rt, d, m) := op d (sv_items s) in
      Some (rt, w_set_svr w (sv_set_items (sv_set_expdb s (zupd (sv_expdb s) i d)) m))
  | None => None
  end.

Definition dict_add (k : sitem) (v : item) d m := fk_dict_add db_dict_eop d k v m.
Definition dict_replace (k : sitem) (v : item) d m := fk_dict_replace db_dict_eop d k v m.
Definition dict_remove (k : sitem) d m := fk_dict_remove db_dict_eop d k m.
Definition dict_empty d m : Z * fk_dict sitem item * item_mgr :=
  let '(d, m) := fk_dict_empty db_dict_eop d m in (FK_DICT_OK, d, m).

(** The container a dictionary element points to is updated in place. *)
Definition dict_set_entity (k : sitem) (t : entity) (d : fk_dict sitem item) (m : item_mgr) :
    Z * fk_dict sitem item * item_mgr :=
  match fk_dict_search db_dict_eop d k with
  | (idx, Some elt) =>
      (FK_DICT_OK,
       set_bucket d idx
         (bucket_set_value db_dict_eop k (Item (i_id elt.2) t) (bucket_at d idx)) (d_used d), m)
  | (_, None) => (FK_DICT_ERR, d, m)
  end.

Definition item_create : ST world Z := fun w =>
  let '(i, m) := fk_item_create (sv_items (w_svr w)) in
  Some (i, w_set_svr w (sv_set_items (w_svr w) m)).

Definition on_items (f : item_mgr -> item_mgr) : ST world unit :=
  mod_svr (fun s => sv_set_items s (f (sv_items s))).

(** ** Replies

    [snprintf(buf, size, ...)] into a fresh block of [size] bytes: the formatted
    text is cut to the block, a NUL follows it, the rest stays indeterminate. *)

Definition snprintf_block (size : Z) (text : bytes) : list cell :=
  let t := ztake (size - 1) text in
  map Some (t ++ [NUL]) ++ replicate (Z.to_nat (size - zlen t - 1)) None.

(** The common body: allocate, format into a temporary block, copy [len] bytes. *)
Definition conn_add_rsp (len : Z) (text : bytes) : ST world Z := fun w =>
  let b := fk_buf_alloc (c_wbuf (w_conn w)) len in
  if fk_buf_free_len b <? len then Some (FK_SVR_ERR, w_set_conn w (cn_wbuf (w_conn w) b))
  else
    let b := fk_buf_memcpy b (ztake len (snprintf_block (len + 1) text)) in
    let b := fk_buf_high_inc b len in
    Some (FK_SVR_OK, w_set_conn w (cn_wbuf (w_conn w) b)).

Definition fk_conn_add_status_rsp (stat : bytes) (stat_len : Z) : ST world Z :=
  conn_add_rsp (stat_len + 3) ("+"%char :: cstr stat ++ CRLF).

Definition fk_conn_add_error_rsp (error : bytes) (error_len : Z) : ST world Z :=
  conn_add_rsp (error_len + 3) ("-"%char :: cstr error ++ CRLF).

Definition fk_conn_add_content_rsp (content : bytes) (content_len : Z) : ST world Z :=
  conn_add_rsp (content_len + 2) (cstr content ++ CRLF).

Definition fk_conn_add_int_rsp (num : Z) : ST world Z :=
  conn_add_rsp (fk_util_decimal_digit num + 3) (":"%char :: fmt_d num ++ CRLF).

Definition fk_conn_add_bulk_rsp (bulk_len : Z) : ST world Z :=
  conn_add_rsp (fk_util_decimal_digit bulk_len + 3) ("$"%char :: fmt_d bulk_len ++ CRLF).

Definition fk_conn_add_mbulk_rsp (bulk_cnt : Z) : ST world Z :=
  conn_add_rsp (fk_util_decimal_digit bulk_cnt + 3) ("*"%char :: fmt_d bulk_cnt ++ CRLF).

(** ** What a reply function does *)

(** The write buffer: [max_wbuf] is only compared with the length before the
    buffer grows, so a buffer can end up at twice [max_wbuf] and one reply. *)
Definition WBUF_HIGHWAT_MAX : Z := 2 ^ 27.
Definition RSP_MAX : Z := 2 ^ 21.

Record wbuf_inv (b : fk_buf) : Prop := {
  wb_wf : buf_wf b;
  wb_hw : 0 <= highwat b <= WBUF_HIGHWAT_MAX;
  wb_len : blen b <= 2 * (highwat b + RSP_MAX)
}.

(** Either the text [s] was appended to the unsent replies, or the buffer is at
    its limit and the connection fails with a part of [s]. *)
Definition answered (b b' : fk_buf) (rt : Z) (s : list cell) : Prop :=
  wbuf_inv b' /\ highwat b' = highwat b /\ blen b <= blen b' /\
  (rt = FK_SVR_OK /\ payload b' = payload b ++ s \/
   rt = FK_SVR_ERR /\ (exists p, p `prefix_of` s /\ payload b' = payload b ++ p) /\
     highwat b' <= blen b').

Definition rsp_post (w : world) (s : list cell) (rt : Z) (w' : world) : Prop :=
  exists b, w' = w_set_conn w (cn_wbuf (w_conn w) b) /\ answered (c_wbuf (w_conn w)) b rt s.

Lemma zlen_snprintf_block (size : Z) (text : bytes) :
  0 < size -> zlen (snprintf_block size text) = size.
Proof.
  intros Hs. unfold snprintf_block. set (t := ztake (size - 1) text).
  assert (zlen t <= size - 1) by (unfold t, ztake, zlen; rewrite length_take; lia).
  change (map Some (t ++ [NUL])) with (Some <$> (t ++ [NUL])).
  rewrite zlen_app, zlen_map, zlen_app, zlen_replicate by lia. change (zlen [NUL]) with 1. lia.
Qed.

Lemma snprintf_block_exact (text : bytes) :
  ztake (zlen text) (snprintf_block (zlen text + 1) text) = Some <$> text.
Proof.
  unfold snprintf_block. rewrite (ztake_all (zlen text + 1 - 1) text) by lia.
  change (map Some (text ++ [NUL])) with (Some <$> (text ++ [NUL])).
  rewrite fmap_app, <- app_assoc. apply ztake_app_l. by rewrite zlen_map.
Qed.

(** The bytes a reply function copies. *)
Definition rsp_cells (len : Z) (text : bytes) : list cell := ztake len (snprintf_block (len + 1) text).

Lemma wp_conn_add_rsp len text w :
  wbuf_inv (c_wbuf (w_conn w)) -> 0 <= len <= RSP_MAX ->
  wp (conn_add_rsp len text) (rsp_post w (rsp_cells len text)) w.
Proof.
  intros [W Hh Hl] Hn. unfold wp, conn_add_rsp, RSP_MAX, WBUF_HIGHWAT_MAX in *.
  destruct (alloc_spec (c_wbuf (w_conn w)) len W ltac:(lia) ltac:(lia))
    as (W' & Hp & Hh' & Hroom & Hsame & Hb & Hup).
  set (b := fk_buf_alloc _ _) in *. clearbody b.
  assert (wbuf_inv b) as Hinv by (split; unfold RSP_MAX, WBUF_HIGHWAT_MAX; [done|lia|lia]).
  destruct (fk_buf_free_len b <? len) eqn:E.
  - exists b. split; [done|]. split_and!; [done|done|done|]. right. split_and!; [done| |].
    + exists []. split; [apply prefix_nil|]. by rewrite app_nil_r.
    + destruct (decide (blen (c_wbuf (w_conn w)) < highwat (c_wbuf (w_conn w)))) as [Hlt|];
        [|lia]. specialize (Hroom Hlt). lia.
  - fold (rsp_cells len text).
    assert (zlen (rsp_cells len text) = len) as Hc
      by (apply zlen_ztake; rewrite zlen_snprintf_block; lia).
    exists (fk_buf_append b (rsp_cells len text)).
    split; [unfold fk_buf_append; by rewrite Hc|].
    assert (zlen (rsp_cells len text) <= fk_buf_free_len b) as Hroom' by lia.
    split_and!; [|done|done|left; split; [done|by rewrite payload_append, Hp]].
    destruct Hinv as [_ H1 H2]. split; [by apply append_wf|done|done].
Qed.

(** The texts of the replies. *)
Definition status_text (s : bytes) : bytes := "+"%char :: s ++ CRLF.
Definition error_text (s : bytes) : bytes := "-"%char :: s ++ CRLF.
Definition int_text (n : Z) : bytes := ":"%char :: fmt_d n ++ CRLF.
Definition bulk_text (n : Z) : bytes := "$"%char :: fmt_d n ++ CRLF.
Definition mbulk_text (n : Z) : bytes := "*"%char :: fmt_d n ++ CRLF.

Definition status_rsp (s : bytes) : list cell := Some <$> status_text s.
Definition error_rsp (s : bytes) : list cell := Some <$> error_text s.
Definition int_rsp (n : Z) : list cell := Some <$> int_text n.
Definition bulk_rsp (n : Z) : list cell := Some <$> bulk_text n.
Definition mbulk_rsp (n : Z) : list cell := Some <$> mbulk_text n.

(** The text behind a bulk header; of a string with a NUL only the part before it
    is written. *)
Definition content_rsp (s : bytes) : list cell := rsp_cells (zlen s + 2) (cstr s ++ CRLF).

Lemma rsp_cells_exact len text : len = zlen text -> rsp_cells len text = Some <$> text.
Proof. intros ->. apply snprintf_block_exact. Qed.

Lemma content_rsp_nul_free s : nul_free s -> content_rsp s = Some <$> (s ++ CRLF).
Proof.
  intros Hs. unfold content_rsp. rewrite cstr_nul_free by done. apply rsp_cells_exact.
  rewrite zlen_app. done.
Qed.

Lemma fmt_d_len n : - 2 ^ 31 <= n < 2 ^ 31 -> 0 <= zlen (fmt_d n) <= 12.
Proof.
  intros Hn. unfold fmt_d. destruct (n <? 0) eqn:E.
  - rewrite zlen_cons. pose proof (dec_short 10 (- n)). pose proof (zlen_nonneg (dec (- n))). lia.
  - pose proof (dec_short 10 n). pose proof (zlen_nonneg (dec n)). lia.
Qed.

(** [wp_rsp]: a reply function answers with its text. *)
Section replies.
Context (w : world) (W : wbuf_inv (c_wbuf (w_conn w))).

Lemma wp_status s : nul_free s -> zlen s <= 2 ^ 20 ->
  wp (fk_conn_add_status_rsp s (zlen s)) (rsp_post w (status_rsp s)) w.
Proof.
  intros Hs Hl. unfold status_rsp. rewrite <- (rsp_cells_exact (zlen s + 3)).
  - unfold fk_conn_add_status_rsp. rewrite cstr_nul_free by done.
    apply wp_conn_add_rsp; [done|]. unfold RSP_MAX. pose proof (zlen_nonneg s). lia.
  - unfold status_text. rewrite zlen_cons, zlen_app. change (zlen CRLF) with 2. lia.
Qed.

Lemma wp_error s : nul_free s -> zlen s <= 2 ^ 20 ->
  wp (fk_conn_add_error_rsp s (zlen s)) (rsp_post w (error_rsp s)) w.
Proof.
  intros Hs Hl. unfold error_rsp. rewrite <- (rsp_cells_exact (zlen s + 3)).
  - unfold fk_conn_add_error_rsp. rewrite cstr_nul_free by done.
    apply wp_conn_add_rsp; [done|]. unfold RSP_MAX. pose proof (zlen_nonneg s). lia.
  - unfold error_text. rewrite zlen_cons, zlen_app. change (zlen CRLF) with 2. lia.
Qed.

Lemma wp_content s : zlen s <= 2 ^ 20 ->
  wp (fk_conn_add_content_rsp s (zlen s)) (rsp_post w (content_rsp s)) w.
Proof.
  intros Hl. apply wp_conn_add_rsp; [done|]. unfold RSP_MAX. pose proof (zlen_nonneg s). lia.
Qed.

(** The three replies with a number. *)
Lemma wp_num_rsp c n :
  - 2 ^ 31 <= n < 2 ^ 31 ->
  wp (conn_add_rsp (fk_util_decimal_digit n + 3) (c :: fmt_d n ++ CRLF))
    (rsp_post w (Some <$> (c :: fmt_d n ++ CRLF))) w.
Proof.
  intros Hn. rewrite decimal_digit_fmt by done. rewrite <- (rsp_cells_exact (zlen (fmt_d n) + 3)).
  - apply wp_conn_add_rsp; [done|]. unfold RSP_MAX. pose proof (fmt_d_len n Hn). lia.
  - rewrite zlen_cons, zlen_app. change (zlen CRLF) with 2. lia.
Qed.

Lemma wp_int n : - 2 ^ 31 <= n < 2 ^ 31 -> wp (fk_conn_add_int_rsp n) (rsp_post w (int_rsp n)) w.
Proof. apply wp_num_rsp. Qed.
Lemma wp_bulk n : - 2 ^ 31 <= n < 2 ^ 31 -> wp (fk_conn_add_bulk_rsp n) (rsp_post w (bulk_rsp n)) w.
Proof. apply wp_num_rsp. Qed.
Lemma wp_mbulk n : - 2 ^ 31 <= n < 2 ^ 31 -> wp (fk_conn_add_mbulk_rsp n) (rsp_post w (mbulk_rsp n)) w.
Proof. apply wp_num_rsp. Qed.
End replies.

(** ** A small server and a connection, for the examples *)

Definition ex_clock (n : nat) : timeval := Timeval (1000 + Z.of_nat n) 0.
Definition ex_lua_conn : fk_conn :=
  FkConn FK_CONN_FAKE_FD FK_CONN_FAKE 0 (fk_buf_create FK_BUF_INIT_LEN FK_BUF_HIGHWAT)
    (fk_buf_create FK_BUF_INIT_LEN 4096) 0 (fk_vtr_create FK_VTR_INIT_LEN) 0 0 (-1) 0 0.
Definition ex_svr : fk_svr :=
  FkSvr (set_dbcnt fk_conf_default 2) 1 [fk_dict_init; fk_dict_init] [fk_dict_init; fk_dict_init]
    fk_item_init (-1) (-1) 0 0 (BlogFile [] 0) None ex_clock 0 ex_lua_conn.
Definition ex_conn (unread : bytes) : fk_conn :=
  FkConn 5 FK_CONN_REAL 0
    (fk_buf_append (fk_buf_create 64 FK_BUF_HIGHWAT) (Some <$> unread))
    (fk_buf_create FK_BUF_INIT_LEN 4096) 0 (fk_vtr_create FK_VTR_INIT_LEN) 0 0 (-1) 0 0.
Definition ex_world (unread : bytes) : world := World ex_svr (ex_conn unread).
