(* ===== verification/Req.v ===== *)
(** The abstract parser of requests: the header lines of [fk_conn_parse_req]
    (src/src/fk_svr_conn.c), the parser as a function of the unread bytes and the
    arguments read so far, and what makes it correct: the way the bytes are cut
    into packets does not matter, and it inverts the encoding of clients. *)
From S2P Require Import Prelude Util Svr.

(** ** A header line: the argument count or the length of an argument *)

Inductive line_res := LineErr | LineAgain | LineOk (n consumed : Z).

(** The two blocks of [fk_conn_parse_req] that read a header line: [mark] is its
    first character, [highwat] the longest text behind it, [test] the check of the
    digits and [lo], [hi] the accepted range. [end - start] is [e + 1]. *)
Definition req_line (mark : ascii) (highwat : Z) (test : bytes -> Z) (lo hi : Z)
    (pl : bytes) : line_res :=
  match pl with
  | [] => LineErr
  | c :: rest =>
      if negb (Ascii.eqb c mark) then LineErr
      else
        let search_len := fk_util_smaller (zlen pl - 1) highwat in
        match memchr LF (ztake search_len rest) with
        | None => if search_len =? highwat then LineErr else LineAgain
        | Some e =>
            if negb (bool_decide (znth pl e = Some CR)) then LineErr
            else if e <? 2 then LineErr
            else if negb (test (ztake (e - 1) rest) =? 1) then LineErr
            else
              let n := atoi rest in
              if (n <? lo) || (hi <? n) then LineErr else LineOk n (e + 2)
        end
  end.

(** The argument count line, [*<argc>\r\n]. *)
Definition argcnt_line : bytes -> line_res :=
  req_line "*" FK_ARG_CNT_LINE_HIGHWAT fk_util_is_positive_seq 1 FK_ARG_CNT_HIGHWAT.

(** The argument length line, [$<argl>\r\n]. *)
Definition arglen_line : bytes -> line_res :=
  req_line "$" FK_ARG_LEN_LINE_HIGHWAT fk_util_is_nonminus_seq 0 FK_ARG_HIGHWAT.

(** ** The abstract parser *)

Module Req.
(** Unread bytes, declared number of arguments (0 before the count line), length
    of the argument being read (-1 before its length line), arguments read. *)
Record t := Mk { pl : bytes; parsed : Z; cur : Z; args : list bytes }.

Definition init (l : bytes) : t := Mk l 0 (-1) [].
Definition feed (q : t) (more : bytes) : t := Mk (pl q ++ more) (parsed q) (cur q) (args q).
Definition skip (k : Z) (q : t) : t := Mk (zdrop k (pl q)) (parsed q) (cur q) (args q).

(** The current argument, once its length is known. *)
Definition take_arg (q : t) : Z * t :=
  if cur q + 2 <=? zlen (pl q) then
    if negb (bool_decide (znth (pl q) (cur q) = Some CR))
       || negb (bool_decide (znth (pl q) (cur q + 1) = Some LF))
    then (FK_SVR_ERR, q)
    else (FK_SVR_OK,
          Mk (zdrop (cur q + 2) (pl q)) (parsed q) (-1)
            (args q ++ [fk_str_create (pl q) (cur q)]))
  else (FK_SVR_AGAIN, q).

(** Its length line, when it was not read yet. *)
Definition take_len (q : t) : Z * t :=
  if cur q =? -1 then
    match arglen_line (pl q) with
    | LineErr => (FK_SVR_ERR, q)
    | LineAgain => (FK_SVR_AGAIN, q)
    | LineOk n k => (FK_SVR_OK, Mk (zdrop k (pl q)) (parsed q) n (args q))
    end
  else (FK_SVR_OK, q).

Fixpoint loop (fuel : nat) (q : t) : Z * t :=
  match fuel with
  | O => (FK_SVR_AGAIN, q)
  | S f =>
      if zlen (pl q) <=? 0 then (FK_SVR_AGAIN, q)
      else
        let '(rt, q) := take_len q in
        if negb (rt =? FK_SVR_OK) then (rt, q)
        else
          let '(rt, q) := take_arg q in
          if negb (rt =? FK_SVR_OK) then (rt, q)
          else if parsed q =? zlen (args q) then (FK_SVR_OK, q) else loop f q
  end.

Definition take_cnt (q : t) : Z * t :=
  if (parsed q =? 0) && (0 <? zlen (pl q)) then
    match argcnt_line (pl q) with
    | LineErr => (FK_SVR_ERR, q)
    | LineAgain => (FK_SVR_AGAIN, q)
    | LineOk n k => (FK_SVR_OK, Mk (zdrop k (pl q)) n (cur q) (args q))
    end
  else (FK_SVR_OK, q).

Definition parse (q : t) : Z * t :=
  let '(rt, q) := take_cnt q in
  if negb (rt =? FK_SVR_OK) then (rt, q) else loop (S (length (pl q))) q.

(** What a client sends for a list of arguments. *)
Definition encode_arg (a : bytes) : bytes :=
  "$"%char :: dec (zlen a) ++ CRLF ++ a ++ CRLF.
Definition encode (l : list bytes) : bytes :=
  "*"%char :: dec (zlen l) ++ CRLF ++ concat (encode_arg <$> l).
End Req.

(** ** Header lines *)

(** A test of the digits of a header line. *)
Class DigitTest (test : bytes -> Z) : Prop :=
  digit_test_ok : forall s, test s = 1 -> all_digits s /\ s <> [].

#[export] Instance positive_digit_test : DigitTest fk_util_is_positive_seq := positive_seq_digits.
#[export] Instance nonminus_digit_test : DigitTest fk_util_is_nonminus_seq := nonminus_seq_digits.

Section req_line.
Context (mark : ascii) (hw : Z) (test : bytes -> Z) `{!DigitTest test} (lo hi : Z).
Context (Hhw : 0 <= hw).
Abbreviation line := (req_line mark hw test lo hi).

Lemma search_len_take (rest : bytes) :
  ztake (fk_util_smaller (zlen (mark :: rest) - 1) hw) rest = ztake hw rest.
Proof.
  rewrite zlen_cons. unfold fk_util_smaller.
  destruct (1 + zlen rest - 1 <=? hw) eqn:E; [|done]. rewrite !ztake_all; [done|lia|lia].
Qed.

Lemma search_len_full (rest : bytes) :
  (fk_util_smaller (zlen (mark :: rest) - 1) hw =? hw) = (hw <=? zlen rest).
Proof.
  rewrite zlen_cons. unfold fk_util_smaller.
  destruct (1 + zlen rest - 1 <=? hw) eqn:E; destruct (hw <=? zlen rest) eqn:E2;
    try apply Z.eqb_eq; try apply Z.eqb_neq; lia.
Qed.

(** An accepted line: its digits, CR, LF. *)
Lemma req_line_Ok pl n k :
  line pl = LineOk n k ->
  exists ds tl, pl = mark :: ds ++ CR :: LF :: tl /\ all_digits ds /\ ds <> [] /\
    test ds = 1 /\ k = zlen ds + 3 /\ n = atoi (ds ++ CR :: LF :: tl) /\ lo <= n <= hi /\
    zlen ds + 2 <= hw.
Proof.
  destruct pl as [|c rest]; [done|]. cbn [req_line].
  destruct (Ascii.eqb c mark) eqn:Ec; cbn [negb]; [|done]. apply Ascii.eqb_eq in Ec as ->.
  rewrite search_len_take, search_len_full.
  destruct (memchr LF (ztake hw rest)) as [e|] eqn:Em; [|by case_match].
  destruct (bool_decide _) eqn:Er; cbn [negb]; [|done]. apply bool_decide_eq_true in Er.
  destruct (e <? 2) eqn:E2; [done|].
  destruct (test (ztake (e - 1) rest) =? 1) eqn:Et; cbn [negb]; [|done].
  destruct ((atoi rest <? lo) || (hi <? atoi rest)) eqn:En; [done|]. intros [= <- <-].
  pose proof (memchr_bound _ _ _ Em) as Hb.
  apply memchr_Some in Em as (a & b & Hab & <- & Hn).
  assert (zlen (ztake hw rest) <= hw) as Hhw' by (unfold ztake, zlen; rewrite length_take; lia).
  assert (exists tl, rest = a ++ LF :: tl) as [tl ->].
  { exists (b ++ zdrop hw rest). rewrite <- (ztake_zdrop hw rest) at 1. by rewrite Hab, <- app_assoc. }
  rewrite Hab, zlen_app, zlen_cons in *.
  assert (exists ds, a = ds ++ [CR]) as [ds ->].
  { rewrite znth_cons, znth_app_l in Er by lia. exists (ztake (zlen a - 1) a).
    rewrite (znth_split a (zlen a - 1) CR Er) at 1. f_equal. f_equal.
    apply zlen_0. rewrite zlen_zdrop; lia. }
  rewrite zlen_app in *. change (zlen [CR]) with 1 in *.
  rewrite <- !app_assoc in *. cbn [app] in *.
  rewrite ztake_app_l in Et by lia.
  apply Z.eqb_eq in Et. destruct (digit_test_ok _ Et) as [Hd Hne].
  pose proof (zlen_nonneg b). exists ds, tl. split_and!; try done; bool_lia.
Qed.

(** A line that is accepted or refused stays so whatever follows. *)
Lemma req_line_app pl m :
  pl <> [] -> line pl <> LineAgain -> line (pl ++ m) = line pl.
Proof.
  destruct pl as [|c rest]; [done|]. intros _. cbn [req_line app].
  destruct (Ascii.eqb c mark) eqn:Ec; cbn [negb]; [|done]. apply Ascii.eqb_eq in Ec as ->.
  rewrite !search_len_take, !search_len_full.
  destruct (memchr LF (ztake hw rest)) as [e|] eqn:Em.
  - assert (memchr LF (ztake hw (rest ++ m)) = Some e) as ->.
    { destruct (decide (hw <= zlen rest)); [by rewrite ztake_app_le|].
      rewrite ztake_all in Em by lia. rewrite ztake_app_ge by lia. by apply memchr_app_Some. }
    pose proof (memchr_bound _ _ _ Em) as Hb.
    assert (zlen (ztake hw rest) <= zlen rest)
      by (unfold ztake, zlen; rewrite length_take; lia).
    change (mark :: rest ++ m) with ((mark :: rest) ++ m).
    rewrite znth_app_l by (rewrite zlen_cons; lia).
    destruct (bool_decide _) eqn:Er; cbn [negb]; [|done].
    destruct (e <? 2) eqn:E2; [done|]. rewrite ztake_app_le by lia.
    destruct (test (ztake (e - 1) rest) =? 1) eqn:Et; cbn [negb]; [|done].
    apply Z.eqb_eq, digit_test_ok in Et as [Hd Hne]. intros _.
    apply bool_decide_eq_true in Er. rewrite znth_cons in Er by lia.
    rewrite (znth_split rest (e - 1) CR Er), <- app_assoc. cbn [app].
    by rewrite (atoi_stop _ CR _ (zdrop (e - 1 + 1) rest)).
  - destruct (hw <=? zlen rest) eqn:Eh; [|done]. intros _.
    rewrite ztake_app_le by lia. rewrite Em. autorewrite with fk.
    pose proof (zlen_nonneg m). rewrite (proj2 (Z.leb_le _ _)); [done|lia].
Qed.

(** The line a client sends. *)
Lemma req_line_render n tl :
  0 <= n <= INT_MAX -> lo <= n <= hi -> test (dec n) = 1 -> zlen (dec n) + 2 <= hw ->
  line (mark :: dec n ++ CR :: LF :: tl) = LineOk n (zlen (dec n) + 3).
Proof.
  intros Hn Hr Ht Hl. cbn [req_line]. rewrite ascii_eqb_refl. cbn [negb].
  rewrite search_len_take, search_len_full. unfold INT_MAX in Hn.
  pose proof (dec_length_pos n ltac:(lia)).
  assert (memchr LF (ztake hw (dec n ++ CR :: LF :: tl)) = Some (zlen (dec n) + 1)) as ->.
  { replace (dec n ++ CR :: LF :: tl) with ((dec n ++ [CR; LF]) ++ tl)
      by by rewrite <- app_assoc.
    rewrite ztake_app_ge by (rewrite zlen_app; exact Hl). rewrite <- app_assoc.
    change (dec n ++ [CR; LF] ++ ztake _ tl) with (dec n ++ [CR] ++ [LF] ++ ztake (hw - zlen (dec n ++ [CR; LF])) tl).
    rewrite app_assoc. cbn [app]. rewrite memchr_app_notin; [by rewrite zlen_app|].
    rewrite not_elem_of_app, list_elem_of_singleton. split; [|done].
    apply dec_notin; [lia|reflexivity]. }
  rewrite znth_cons by lia. rewrite znth_app_r by lia.
  replace (zlen (dec n) + 1 - 1 - zlen (dec n)) with 0 by lia.
  rewrite bool_decide_eq_true_2 by done. cbn [negb].
  rewrite (proj2 (Z.ltb_ge _ _)) by lia. rewrite ztake_app_l by lia. rewrite Ht, Z.eqb_refl. cbn [negb]. cbv zeta.
  rewrite atoi_dec by (unfold INT_MAX; first [lia|intros ? ? [= <- _]; reflexivity]).
  rewrite (proj2 (orb_false_iff _ _)); [f_equal; lia|].
  split; apply Z.ltb_ge; lia.
Qed.
End req_line.

(** ** The parser *)

Import Req.

(** What the parser relies on: declared lengths and counts are in range. *)
Record req_ok (q : Req.t) : Prop := {
  ro_cur : -1 <= cur q <= FK_ARG_HIGHWAT;
  ro_parsed : 0 <= parsed q <= FK_ARG_CNT_HIGHWAT;
  ro_args : zlen (args q) < parsed q \/ parsed q = 0 /\ args q = [] /\ cur q = -1
}.

(** A request is under way: its count line was read. *)
Definition counted (q : Req.t) : Prop := zlen (args q) < parsed q.

Ltac unfold_lims :=
  unfold FK_ARG_HIGHWAT, FK_ARG_CNT_HIGHWAT, FK_ARG_LEN_LINE_HIGHWAT, FK_ARG_CNT_LINE_HIGHWAT,
    FK_SVR_OK, FK_SVR_ERR, FK_SVR_AGAIN in *.

Lemma init_ok l : req_ok (init l).
Proof. split; cbn; unfold_lims; lia || auto. Qed.

Lemma feed_ok q m : req_ok q -> req_ok (feed q m).
Proof. intros [???]. by split. Qed.

Lemma arglen_line_Ok pl n k :
  arglen_line pl = LineOk n k -> 0 <= n <= FK_ARG_HIGHWAT /\ 4 <= k <= zlen pl.
Proof.
  intros (ds & tl & -> & _ & Hne & _ & -> & _ & Hn & _)%req_line_Ok; try apply _;
    [|by unfold_lims].
  split; [done|]. rewrite zlen_cons, zlen_app, !zlen_cons.
  pose proof (zlen_nonneg tl). destruct ds; [done|]. rewrite zlen_cons.
  pose proof (zlen_nonneg ds). lia.
Qed.

Lemma argcnt_line_Ok pl n k :
  argcnt_line pl = LineOk n k -> 1 <= n <= FK_ARG_CNT_HIGHWAT /\ 4 <= k <= zlen pl.
Proof.
  intros (ds & tl & -> & _ & Hne & _ & -> & _ & Hn & _)%req_line_Ok; try apply _;
    [|by unfold_lims].
  split; [done|]. rewrite zlen_cons, zlen_app, !zlen_cons.
  pose proof (zlen_nonneg tl). destruct ds; [done|]. rewrite zlen_cons.
  pose proof (zlen_nonneg ds). lia.
Qed.

Lemma arglen_line_app pl m :
  pl <> [] -> arglen_line pl <> LineAgain -> arglen_line (pl ++ m) = arglen_line pl.
Proof. apply req_line_app, _. Qed.

Lemma argcnt_line_app pl m :
  pl <> [] -> argcnt_line pl <> LineAgain -> argcnt_line (pl ++ m) = argcnt_line pl.
Proof. apply req_line_app, _. Qed.

(** *** One turn of the loop *)

(** How a stage of the parser behaves when more bytes arrive: an answer other
    than AGAIN is final, AGAIN consumed nothing that matters. *)
Definition stable (stage : Req.t -> Z * Req.t) (q : Req.t) : Prop :=
  let '(rt, q') := stage q in
  (rt = FK_SVR_OK /\ forall m, stage (feed q m) = (FK_SVR_OK, feed q' m)) \/
  (rt = FK_SVR_ERR /\ forall m, stage (feed q m) = (FK_SVR_ERR, feed q' m)) \/
  (rt = FK_SVR_AGAIN /\ q' = q).

Lemma pl_nonempty q : (zlen (pl q) <=? 0) = false -> pl q <> [].
Proof. intros H E. by rewrite E in H. Qed.

Lemma take_len_stable q : req_ok q -> pl q <> [] -> stable take_len q.
Proof.
  intros Hq Hne. unfold stable, take_len. cbn [feed pl cur parsed args].
  destruct (cur q =? -1) eqn:Ec; [|left; split; [done|]; intros m; by destruct q].
  destruct (arglen_line (pl q)) as [| |n k] eqn:El.
  - right; left. split; [done|]. intros m. by rewrite arglen_line_app, El by congruence.
  - right; right. done.
  - left. split; [done|]. intros m. rewrite arglen_line_app, El by congruence.
    apply arglen_line_Ok in El as [_ Hk]. unfold feed; cbn. by rewrite zdrop_app_le by lia.
Qed.

Lemma take_cnt_stable q : req_ok q -> pl q <> [] -> stable take_cnt q.
Proof.
  intros Hq Hne. unfold stable, take_cnt. cbn [feed pl cur parsed args].
  assert (forall m, (0 <? zlen (pl q ++ m)) = (0 <? zlen (pl q))) as Hz.
  { intros m. rewrite zlen_app. destruct (pl q) as [|c l]; [done|].
    rewrite zlen_cons. pose proof (zlen_nonneg l). pose proof (zlen_nonneg m).
    rewrite !(proj2 (Z.ltb_lt _ _)) by lia. done. }
  destruct ((parsed q =? 0) && (0 <? zlen (pl q))) eqn:Ec.
  2: { left; split; [done|]; intros m. by rewrite Hz, Ec. }
  destruct (argcnt_line (pl q)) as [| |n k] eqn:El.
  - right; left. split; [done|]. intros m. by rewrite Hz, Ec, argcnt_line_app, El by congruence.
  - right; right. done.
  - left. split; [done|]. intros m. rewrite Hz, Ec, argcnt_line_app, El by congruence.
    apply argcnt_line_Ok in El as [_ Hk]. unfold feed; cbn. by rewrite zdrop_app_le by lia.
Qed.

Lemma fk_str_create_app (l m : bytes) n :
  0 <= n <= zlen l -> fk_str_create (l ++ m) n = fk_str_create l n.
Proof. intros H. unfold fk_str_create. by rewrite ztake_app_le by lia. Qed.

Lemma take_arg_stable q : req_ok q -> cur q <> -1 -> stable take_arg q.
Proof.
  intros Hq Hc. pose proof (ro_cur q Hq). unfold stable, take_arg.
  cbn [feed pl cur parsed args].
  destruct (cur q + 2 <=? zlen (pl q)) eqn:E; [|right; right; done].
  assert (forall m, (cur q + 2 <=? zlen (pl q ++ m)) = true) as Hz.
  { intros m. rewrite zlen_app. pose proof (zlen_nonneg m). apply Z.leb_le. lia. }
  destruct (_ || _) eqn:Eb.
  - right; left. split; [done|]. intros m. by rewrite Hz, !znth_app_l, Eb by lia.
  - left. split; [done|]. intros m. rewrite Hz, !znth_app_l, Eb by lia.
    rewrite fk_str_create_app by lia. unfold feed; cbn. by rewrite zdrop_app_le by lia.
Qed.

Lemma take_len_ok q q' :
  req_ok q -> counted q -> take_len q = (FK_SVR_OK, q') ->
  req_ok q' /\ counted q' /\ cur q' <> -1 /\ zlen (pl q') <= zlen (pl q) /\ parsed q' = parsed q /\
  args q' = args q.
Proof.
  intros [Hc Hp Ha] Hcnt. unfold take_len. destruct (cur q =? -1) eqn:Ec.
  - destruct (arglen_line (pl q)) as [| |n k] eqn:El; [done|done|]. intros [= <-].
    apply arglen_line_Ok in El as [Hn Hk]. unfold counted in *.
    split_and!; cbn; auto; [split; cbn; auto; lia|lia|rewrite zlen_zdrop; lia].
  - intros [= <-]. split_and!; auto; [by split|lia|lia].
Qed.

Lemma take_arg_ok q q' :
  req_ok q -> counted q -> cur q <> -1 -> take_arg q = (FK_SVR_OK, q') ->
  cur q' = -1 /\ parsed q' = parsed q /\ zlen (args q') = zlen (args q) + 1 /\
  zlen (pl q') = zlen (pl q) - (cur q + 2) /\ (2 <= zlen (pl q) - zlen (pl q')) /\
  (parsed q' <> zlen (args q') -> req_ok q' /\ counted q').
Proof.
  intros [Hc Hp Ha] Hcnt Hne. unfold take_arg.
  destruct (cur q + 2 <=? zlen (pl q)) eqn:E; [|done]. destruct (_ || _); [done|].
  intros [= <-]. cbn. rewrite zlen_app, zlen_zdrop by lia. change (zlen [_]) with 1.
  unfold counted in *; cbn. split_and!; try done; try lia. intros Hd.
  split; [|rewrite zlen_app; change (zlen [_]) with 1; lia].
  split; cbn; unfold_lims; try lia. left. rewrite zlen_app. change (zlen [_]) with 1. lia.
Qed.

(** One turn of the loop: [inl] is what it returns, [inr] where it goes on. *)
Definition turn (q : Req.t) : Z * Req.t + Req.t :=
  if zlen (pl q) <=? 0 then inl (FK_SVR_AGAIN, q)
  else
    match take_len q with
    | (0, q1) =>
        match take_arg q1 with
        | (0, q2) => if parsed q2 =? zlen (args q2) then inl (FK_SVR_OK, q2) else inr q2
        | other => inl other
        end
    | other => inl other
    end.

Lemma loop_S f q :
  loop (S f) q = match turn q with inl r => r | inr q' => loop f q' end.
Proof.
  unfold turn. cbn [loop]. destruct (zlen (pl q) <=? 0); [done|].
  destruct (take_len q) as [[| |] q1]; cbn; [|done|done].
  destruct (take_arg q1) as [[| |] q2]; cbn; [|done|done]. by destruct (_ =? _).
Qed.

(** Every turn that goes on consumed bytes. *)
Lemma turn_inr q q' :
  req_ok q -> counted q -> turn q = inr q' ->
  req_ok q' /\ counted q' /\ (length (pl q') < length (pl q))%nat.
Proof.
  intros Hq Hc. unfold turn. destruct (zlen (pl q) <=? 0); [done|].
  destruct (take_len q) as [[| |] q1] eqn:E1; [|done|done].
  destruct (take_len_ok q q1 Hq Hc E1) as (Hq1 & Hc1 & Hn1 & Hl1 & _).
  destruct (take_arg q1) as [[| |] q2] eqn:E2; [|done|done].
  destruct (take_arg_ok q1 q2 Hq1 Hc1 Hn1 E2) as (_ & _ & _ & _ & Hl2 & Hok).
  destruct (parsed q2 =? zlen (args q2)) eqn:E3; [done|]. intros [= <-].
  destruct Hok as [??]; [lia|]. split_and!; try done. unfold zlen in *. lia.
Qed.

(** Enough fuel is enough: the loop returns. *)
Lemma loop_fuel f g q :
  req_ok q -> counted q -> (length (pl q) < f)%nat -> (length (pl q) < g)%nat ->
  loop f q = loop g q.
Proof.
  revert g q. induction f as [|f IH]; intros g q Hq Hc Hf Hg; [lia|].
  destruct g as [|g]; [lia|]. rewrite !loop_S. destruct (turn q) as [r|q'] eqn:E; [done|].
  apply turn_inr in E as (Hq' & Hc' & Hl); try done. apply IH; try done; lia.
Qed.

Definition run (q : Req.t) : Z * Req.t := loop (S (length (pl q))) q.

Lemma run_unfold q :
  req_ok q -> counted q -> run q = match turn q with inl r => r | inr q' => run q' end.
Proof.
  intros Hq Hc. unfold run at 1. rewrite loop_S. destruct (turn q) as [r|q'] eqn:E; [done|].
  apply turn_inr in E as (Hq' & Hc' & Hl); try done. apply loop_fuel; try done; lia.
Qed.

(** Induction over the turns of the loop. *)
Lemma run_ind (P : Req.t -> Prop) :
  (forall q, req_ok q -> counted q -> (forall q', turn q = inr q' -> P q') -> P q) ->
  forall q, req_ok q -> counted q -> P q.
Proof.
  intros H q. remember (length (pl q)) as n eqn:En. revert q En.
  induction n as [n IH] using lt_wf_ind. intros q -> Hq Hc. apply H; try done.
  intros q' E. apply turn_inr in E as (Hq' & Hc' & Hl); try done. by eapply IH.
Qed.

Definition tfeed (r : Z * Req.t + Req.t) (m : bytes) : Z * Req.t + Req.t :=
  match r with inl (rt, q) => inl (rt, feed q m) | inr q => inr (feed q m) end.

(** A turn and the bytes that arrive afterwards. *)
Lemma turn_feed q m :
  req_ok q -> counted q ->
  match turn q with
  | inl (-2, q') => req_ok q' /\ counted q' /\ run (feed q m) = run (feed q' m)
  | r => turn (feed q m) = tfeed r m
  end.
Proof.
  intros Hq Hc. unfold turn at 1 2.
  destruct (zlen (pl q) <=? 0) eqn:E0; [done|]. pose proof (pl_nonempty q E0) as Hne.
  assert ((zlen (pl (feed q m)) <=? 0) = false) as E0'.
  { cbn. rewrite zlen_app. pose proof (zlen_nonneg m). lia. }
  pose proof (take_len_stable q Hq Hne) as Hs. unfold stable in Hs.
  destruct (take_len q) as [rt q1] eqn:E1.
  destruct Hs as [[-> Hs]|[[-> Hs]|[-> ->]]]; cbn [FK_SVR_OK FK_SVR_ERR FK_SVR_AGAIN].
  2: { unfold turn. by rewrite E0', Hs. }
  2: { done. }
  destruct (take_len_ok q q1 Hq Hc E1) as (Hq1 & Hc1 & Hn1 & _).
  pose proof (take_arg_stable q1 Hq1 Hn1) as Hs2. unfold stable in Hs2.
  destruct (take_arg q1) as [rt q2] eqn:E2.
  destruct Hs2 as [[-> Hs2]|[[-> Hs2]|[-> ->]]]; cbn [FK_SVR_OK FK_SVR_ERR FK_SVR_AGAIN].
  - destruct (parsed q2 =? zlen (args q2)) eqn:E3;
      unfold turn; rewrite E0', Hs, Hs2; cbn; by rewrite E3.
  - unfold turn. by rewrite E0', Hs, Hs2.
  - split_and!; [done|done|]. rewrite !run_unfold by (done || by apply feed_ok).
    unfold turn. rewrite E0', Hs. cbn [FK_SVR_OK].
    assert (take_len (feed q1 m) = (FK_SVR_OK, feed q1 m)) as ->.
    { unfold take_len. cbn. by rewrite (proj2 (Z.eqb_neq _ _) Hn1). }
    destruct (zlen (pl (feed q1 m)) <=? 0) eqn:E3; [|done].
    assert (take_arg (feed q1 m) = (FK_SVR_AGAIN, feed q1 m)) as ->; [|done].
    unfold take_arg. pose proof (ro_cur q1 Hq1). rewrite (proj2 (Z.leb_gt _ _)); [done|].
    cbn in *. lia.
Qed.

(** *** Bytes that arrive later *)

Lemma take_len_code q :
  (take_len q).1 = FK_SVR_OK \/ (take_len q).1 = FK_SVR_ERR \/ (take_len q).1 = FK_SVR_AGAIN.
Proof. unfold take_len. destruct (_ =? _); [destruct (arglen_line _)|]; auto. Qed.

Lemma take_arg_code q :
  (take_arg q).1 = FK_SVR_OK \/ (take_arg q).1 = FK_SVR_ERR \/ (take_arg q).1 = FK_SVR_AGAIN.
Proof. unfold take_arg. destruct (_ <=? _); [destruct (_ || _)|]; auto. Qed.

Lemma turn_code q r :
  turn q = inl r -> r.1 = FK_SVR_OK \/ r.1 = FK_SVR_ERR \/ r.1 = FK_SVR_AGAIN.
Proof.
  unfold turn. destruct (_ <=? _); [intros [= <-]; auto|].
  pose proof (take_len_code q) as H1. destruct (take_len q) as [[| |] q1];
    [|intros [= <-]; exact H1..].
  pose proof (take_arg_code q1) as H2. destruct (take_arg q1) as [[| |] q2];
    [|intros [= <-]; exact H2..].
  destruct (_ =? _); [intros [= <-]; auto|done].
Qed.

Lemma run_feed q :
  req_ok q -> counted q -> forall m,
  let '(rt, q') := run q in
  (rt = FK_SVR_OK /\ run (feed q m) = (FK_SVR_OK, feed q' m)) \/
  (rt = FK_SVR_ERR /\ exists q2, run (feed q m) = (FK_SVR_ERR, q2)) \/
  (rt = FK_SVR_AGAIN /\ req_ok q' /\ counted q' /\ run (feed q m) = run (feed q' m)).
Proof.
  intros Hq Hc m. revert q Hq Hc. apply (run_ind (fun q => let '(rt, q') := run q in _)).
  intros q Hq Hc IH. pose proof (turn_feed q m Hq Hc) as Ht.
  pose proof (run_unfold q Hq Hc) as Hr. pose proof (feed_ok q m Hq) as Hq'.
  pose proof (run_unfold (feed q m) Hq' Hc) as Hr'.
  destruct (turn q) as [[rt q1]|q1] eqn:E; rewrite Hr.
  - destruct (turn_code q (rt, q1) E) as [Hrt|[Hrt|Hrt]]; cbn in Hrt; subst rt;
      cbn [FK_SVR_OK FK_SVR_ERR FK_SVR_AGAIN tfeed] in *.
    + left. by rewrite Hr', Ht.
    + right; left. split; [done|]. exists (feed q1 m). by rewrite Hr', Ht.
    + right; right. tauto.
  - rewrite Hr', Ht. cbn [tfeed]. by apply IH.
Qed.

Lemma take_cnt_skip q : req_ok q -> counted q -> take_cnt q = (FK_SVR_OK, q).
Proof.
  intros Hq Hc. unfold take_cnt, counted in *. pose proof (zlen_nonneg (args q)).
  by rewrite (proj2 (Z.eqb_neq (parsed q) 0)) by lia.
Qed.

Lemma parse_counted q : req_ok q -> counted q -> parse q = run q.
Proof. intros Hq Hc. unfold parse. by rewrite take_cnt_skip. Qed.

Lemma take_cnt_ok q q' :
  req_ok q -> ~ counted q -> pl q <> [] -> take_cnt q = (FK_SVR_OK, q') -> req_ok q' /\ counted q'.
Proof.
  intros [Hc Hp Ha] Hn Hne. unfold counted in Hn. destruct Ha as [|(Ep & Ea & Ec)]; [done|].
  unfold take_cnt. rewrite Ep. cbn [Z.eqb andb].
  destruct (0 <? zlen (pl q)) eqn:El.
  2: { destruct (pl q) as [|c l]; [done|]. rewrite zlen_cons in El. pose proof (zlen_nonneg l). lia. }
  destruct (argcnt_line (pl q)) as [| |n k] eqn:E; [done|done|]. intros [= <-].
  apply argcnt_line_Ok in E as [Hn' _]. unfold counted. cbn. rewrite Ea, zlen_nil.
  split; [|lia]. split; cbn; rewrite ?Ea, ?zlen_nil; unfold_lims; lia.
Qed.

(** What the parser does with bytes that arrive after it returned: an accepted or
    refused request stays so, an incomplete one goes on as if all bytes had been
    there from the start. *)
Lemma parse_feed q m :
  req_ok q ->
  let '(rt, q') := parse q in
  (rt = FK_SVR_OK /\ parse (feed q m) = (FK_SVR_OK, feed q' m)) \/
  (rt = FK_SVR_ERR /\ exists q2, parse (feed q m) = (FK_SVR_ERR, q2)) \/
  (rt = FK_SVR_AGAIN /\ req_ok q' /\ parse (feed q m) = parse (feed q' m)).
Proof.
  intros Hq. destruct (decide (counted q)) as [Hc|Hc].
  { pose proof (run_feed q Hq Hc m) as H. rewrite parse_counted by done.
    rewrite (parse_counted (feed q m)) by (done || by apply feed_ok). destruct (run q) as [rt q'].
    destruct H as [H|[H|(-> & Hq' & Hc' & H)]]; [by left|right; by left|].
    right; right. rewrite H, (parse_counted (feed q' m)) by (done || by apply feed_ok). done. }
  unfold parse. destruct (decide (pl q = [])) as [En|Hne].
  { assert (take_cnt q = (FK_SVR_OK, q)) as ->.
    { unfold take_cnt. rewrite En. cbn. by rewrite andb_false_r. }
    cbn [FK_SVR_OK Z.eqb negb loop]. rewrite En. cbn [zlen]. right; right. done. }
  pose proof (take_cnt_stable q Hq Hne) as Hs. unfold stable in Hs.
  destruct (take_cnt q) as [rt q1] eqn:E1.
  destruct Hs as [[-> Hs]|[[-> Hs]|[-> ->]]]; cbn [FK_SVR_OK FK_SVR_ERR FK_SVR_AGAIN Z.eqb negb].
  - destruct (take_cnt_ok q q1 Hq Hc Hne E1) as [Hq1 Hc1].
    pose proof (run_feed q1 Hq1 Hc1 m) as H. fold (run q1). rewrite Hs.
    destruct (run q1) as [rt q']. cbn [FK_SVR_OK Z.eqb negb]. fold (run (feed q1 m)).
    destruct H as [H|[H|(-> & Hq' & Hc' & H)]]; [by left|right; by left|].
    right; right. split_and!; [done|done|]. rewrite H, take_cnt_skip by (done || by apply feed_ok).
    done.
  - right; left. split; [done|]. exists (feed q1 m). by rewrite Hs.
  - right; right. done.
Qed.

(** The parser called on every packet, until it does not ask for more. *)
Fixpoint parse_chunks (q : Req.t) (cs : list bytes) : Z * Req.t :=
  match cs with
  | [] => (FK_SVR_AGAIN, q)
  | c :: cs' =>
      let '(rt, q') := parse (feed q c) in
      if rt =? FK_SVR_AGAIN then parse_chunks q' cs' else (rt, feed q' (concat cs'))
  end.

Lemma feed_feed q a b : feed (feed q a) b = feed q (a ++ b).
Proof. unfold feed; cbn. by rewrite app_assoc. Qed.

Lemma feed_nil q : feed q [] = q.
Proof. destruct q; unfold feed; cbn. by rewrite app_nil_r. Qed.

Lemma parse_chunks_whole c cs q :
  req_ok q ->
  (parse_chunks q (c :: cs)).1 = (parse (feed q (c ++ concat cs))).1 /\
  ((parse (feed q (c ++ concat cs))).1 = FK_SVR_OK ->
   parse_chunks q (c :: cs) = parse (feed q (c ++ concat cs))).
Proof.
  revert c q. induction cs as [|c' cs IH]; intros c q Hq; cbn [parse_chunks concat].
  - rewrite app_nil_r. destruct (parse (feed q c)) as [rt q']. rewrite feed_nil.
    destruct (rt =? FK_SVR_AGAIN) eqn:E; [|done]. apply Z.eqb_eq in E as ->. done.
  - rewrite <- feed_feed.
    pose proof (parse_feed (feed q c) (c' ++ concat cs) (feed_ok q c Hq)) as H.
    destruct (parse (feed q c)) as [rt q'].
    destruct H as [[-> ->]|[(-> & q2 & ->)|(-> & Hq' & ->)]]; [done|done|].
    cbn [Z.eqb FK_SVR_AGAIN]. by apply IH.
Qed.

(** *** The encoding of clients *)

(** *** The encoding of clients *)

Lemma arglen_line_encode n tl :
  0 <= n <= FK_ARG_HIGHWAT ->
  arglen_line ("$"%char :: dec n ++ CR :: LF :: tl) = LineOk n (zlen (dec n) + 3).
Proof.
  intros Hn. unfold_lims. apply req_line_render; unfold INT_MAX; try lia.
  - by unfold_lims.
  - apply nonminus_dec. lia.
  - pose proof (dec_short 7 n ltac:(lia) ltac:(lia)). unfold_lims. lia.
Qed.

Lemma argcnt_line_encode n tl :
  1 <= n <= FK_ARG_CNT_HIGHWAT ->
  argcnt_line ("*"%char :: dec n ++ CR :: LF :: tl) = LineOk n (zlen (dec n) + 3).
Proof.
  intros Hn. unfold_lims. apply req_line_render; unfold INT_MAX; unfold_lims; try lia.
  - apply positive_dec. lia.
  - pose proof (dec_short 3 n ltac:(lia) ltac:(lia)). lia.
Qed.

Lemma zdrop_header c (ds tl : bytes) : zdrop (zlen ds + 3) (c :: ds ++ CR :: LF :: tl) = tl.
Proof.
  replace (c :: ds ++ CR :: LF :: tl) with (((c :: ds) ++ [CR; LF]) ++ tl)
    by (cbn; by rewrite <- app_assoc).
  apply zdrop_app_l. rewrite zlen_app, zlen_cons. change (zlen [CR; LF]) with 2. lia.
Qed.

(** An argument is at most 1 MB long. *)
Definition arg_ok (a : bytes) : Prop := zlen a <= FK_ARG_HIGHWAT.

(** A turn reads one encoded argument. *)
Lemma turn_encode_arg a m p l :
  arg_ok a -> turn (Mk (encode_arg a ++ m) p (-1) l) =
    if p =? zlen (l ++ [a]) then inl (FK_SVR_OK, Mk m p (-1) (l ++ [a]))
    else inr (Mk m p (-1) (l ++ [a])).
Proof.
  intros Ha. unfold arg_ok in Ha. pose proof (zlen_nonneg a). unfold encode_arg, CRLF.
  assert (("$"%char :: dec (zlen a) ++ [CR; LF] ++ a ++ [CR; LF]) ++ m =
    "$"%char :: dec (zlen a) ++ CR :: LF :: a ++ [CR; LF] ++ m) as ->.
  { cbn. rewrite <- !app_assoc. cbn. by rewrite <- app_assoc. }
  unfold turn. cbn [pl]. rewrite (proj2 (Z.leb_gt _ _))
    by (rewrite zlen_cons; pose proof (zlen_nonneg (dec (zlen a) ++ CR :: LF :: a ++ [CR; LF] ++ m)); lia).
  unfold take_len. cbn [cur pl Z.eqb Pos.eqb]. rewrite arglen_line_encode by lia.
  rewrite zdrop_header.
  cbn [FK_SVR_OK parsed args]. unfold take_arg. cbn [pl cur parsed args].
  rewrite !zlen_app. change (zlen [CR; LF]) with 2. pose proof (zlen_nonneg m).
  rewrite (proj2 (Z.leb_le _ _)) by lia.
  rewrite (znth_app_r a _ (zlen a)), (znth_app_r a _ (zlen a + 1)) by lia.
  replace (zlen a - zlen a) with 0 by lia. replace (zlen a + 1 - zlen a) with 1 by lia. cbn [orb negb].
  change (znth ([CR; LF] ++ m) 0) with (Some CR). change (znth ([CR; LF] ++ m) 1) with (Some LF).
  rewrite !bool_decide_eq_true_2 by done. cbn [negb orb FK_SVR_OK parsed args].
  assert (zdrop (zlen a + 2) (a ++ [CR; LF] ++ m) = m) as ->.
  { rewrite app_assoc. apply zdrop_app_l. rewrite zlen_app. done. }
  unfold fk_str_create. rewrite ztake_app_l by done. cbn [parsed args]. by rewrite zlen_app.
Qed.

Lemma run_encode l : forall l0 p m,
  l <> [] -> Forall arg_ok l -> p = zlen l0 + zlen l -> p <= FK_ARG_CNT_HIGHWAT ->
  run (Mk (concat (encode_arg <$> l) ++ m) p (-1) l0) = (FK_SVR_OK, Mk m p (-1) (l0 ++ l)).
Proof.
  induction l as [|a l IH]; intros l0 p m Hne Hok Hp Hmax; [done|].
  apply Forall_cons in Hok as [Ha Hok]. rewrite zlen_cons in Hp.
  pose proof (zlen_nonneg l). pose proof (zlen_nonneg l0).
  rewrite run_unfold by (first [split; cbn; unfold_lims; lia|unfold counted; cbn; lia]).
  cbn [fmap list_fmap concat]. rewrite <- app_assoc, turn_encode_arg by done.
  rewrite zlen_app. change (zlen [a]) with 1. destruct l as [|b l].
  - rewrite (proj2 (Z.eqb_eq _ _)) by (rewrite zlen_nil in Hp; lia). done.
  - rewrite zlen_cons in *. pose proof (zlen_nonneg l).
    rewrite (proj2 (Z.eqb_neq _ _)) by lia. rewrite (IH (l0 ++ [a]) p m); try done.
    + by rewrite <- app_assoc.
    + rewrite zlen_app. change (zlen [a]) with 1. lia.
Qed.

Lemma parse_encode_args l m :
  1 <= zlen l <= FK_ARG_CNT_HIGHWAT -> Forall arg_ok l ->
  parse (init (encode l ++ m)) = (FK_SVR_OK, Mk m (zlen l) (-1) l).
Proof.
  intros Hl Hok. unfold encode, CRLF, init.
  assert (("*"%char :: dec (zlen l) ++ [CR; LF] ++ concat (encode_arg <$> l)) ++ m =
    "*"%char :: dec (zlen l) ++ CR :: LF :: concat (encode_arg <$> l) ++ m) as ->.
  { cbn. rewrite <- !app_assoc. done. }
  unfold parse, take_cnt. cbn [parsed pl Z.eqb andb].
  rewrite (proj2 (Z.ltb_lt _ _)) by (rewrite zlen_cons;
    pose proof (zlen_nonneg (dec (zlen l) ++ CR :: LF :: concat (encode_arg <$> l) ++ m)); lia).
  rewrite argcnt_line_encode by done. cbn [FK_SVR_OK Z.eqb negb cur args].
  rewrite zdrop_header.
  apply (run_encode l [] (zlen l) m); try done; [intros ->; rewrite zlen_nil in Hl; lia|lia].
Qed.

(** *** The parser accepts nothing else *)

(** A header line whose digits passed the test is the one a client sends. *)
Lemma digits_canonical ds :
  all_digits ds -> ds <> [] -> (forall d ds', ds = d :: ds' -> ds' <> [] -> d <> digit 0) ->
  zlen ds <= 9 -> forall t, ds = dec (atoi (ds ++ CR :: t)).
Proof.
  intros Hd Hne Hz Hl t. pose proof (digits_val_bound ds Hd 0 ltac:(lia)) as Hb.
  pose proof (Z.pow_le_mono_r 10 (zlen ds) 9 ltac:(lia) Hl).
  assert (dec (digits_val 0 ds) = ds) as Hdec.
  { apply dec_fuel_digits_val; try done. unfold zlen in Hl. lia. }
  rewrite <- Hdec at 2. rewrite atoi_dec; [done|unfold INT_MAX; lia|].
  by intros c l [= <- _].
Qed.

Lemma positive_canonical ds d ds' : fk_util_is_positive_seq ds = 1 -> ds = d :: ds' -> d <> digit 0.
Proof. intros H -> ->. unfold fk_util_is_positive_seq in H. by case_match. Qed.

Lemma nonminus_canonical ds d ds' :
  fk_util_is_nonminus_seq ds = 1 -> ds = d :: ds' -> ds' <> [] -> d <> digit 0.
Proof.
  intros H -> Hne ->. unfold fk_util_is_nonminus_seq in H.
  destruct (zlen _ <=? 0); [done|]. cbn [nonminus_scan] in H.
  change (schar (digit 0)) with 48 in H. cbn [Z.ltb Z.compare Pos.compare Pos.compare_cont orb Z.eqb Pos.eqb] in H.
  destruct (zlen (digit 0 :: ds') =? 1) eqn:E; [|done].
  rewrite zlen_cons in E. apply Hne, zlen_0. lia.
Qed.

Lemma arglen_line_canonical pl n k :
  arglen_line pl = LineOk n k -> pl = "$"%char :: dec n ++ CR :: LF :: zdrop k pl.
Proof.
  intros (ds & tl & -> & Hd & Hne & Ht & -> & -> & _ & Hl)%req_line_Ok; try apply _;
    [|by unfold_lims].
  rewrite zdrop_header. rewrite <- digits_canonical; try done; [|unfold_lims; lia].
  intros d ds'. by apply nonminus_canonical.
Qed.

Lemma argcnt_line_canonical pl n k :
  argcnt_line pl = LineOk n k -> pl = "*"%char :: dec n ++ CR :: LF :: zdrop k pl.
Proof.
  intros (ds & tl & -> & Hd & Hne & Ht & -> & -> & _ & Hl)%req_line_Ok; try apply _;
    [|by unfold_lims].
  rewrite zdrop_header. rewrite <- digits_canonical; try done; [|unfold_lims; lia].
  intros d ds' ? _. by eapply positive_canonical.
Qed.

Lemma take_arg_sound q q' :
  0 <= cur q -> take_arg q = (FK_SVR_OK, q') ->
  exists a, zlen a = cur q /\ pl q = a ++ CRLF ++ pl q' /\ args q' = args q ++ [a] /\
    cur q' = -1 /\ parsed q' = parsed q.
Proof.
  intros Hc. unfold take_arg. destruct (cur q + 2 <=? zlen (pl q)) eqn:E; [|done].
  destruct (_ || _) eqn:Eb; [done|]. intros [= <-].
  apply orb_false_iff in Eb as [Ea Eb]. apply negb_false_iff, bool_decide_eq_true in Ea, Eb.
  exists (ztake (cur q) (pl q)). split_and!; [apply zlen_ztake; lia| |done..]. cbn [pl].
  rewrite (znth_split (pl q) (cur q) CR Ea) at 1. f_equal. cbn [app]. f_equal.
  assert (znth (zdrop (cur q + 1) (pl q)) 0 = Some LF) as Eb'.
  { unfold znth, zdrop in *. cbn. rewrite lookup_drop. destruct (cur q + 1 <? 0) eqn:?; [lia|].
    by rewrite Nat.add_0_r. }
  rewrite (znth_split _ 0 LF Eb'). change (ztake 0 (zdrop (cur q + 1) (pl q))) with (@nil ascii).
  cbn [app]. rewrite zdrop_zdrop by lia. by replace (0 + 1 + (cur q + 1)) with (cur q + 2) by lia.
Qed.

(** What a turn that read a whole argument consumed. *)
Lemma turn_sound q q' :
  req_ok q -> counted q -> cur q = -1 ->
  turn q = inl (FK_SVR_OK, q') \/ turn q = inr q' ->
  exists a, arg_ok a /\ pl q = encode_arg a ++ pl q' /\ args q' = args q ++ [a] /\
    cur q' = -1 /\ parsed q' = parsed q /\
    (turn q = inl (FK_SVR_OK, q') -> parsed q = zlen (args q ++ [a])).
Proof.
  intros Hq Hc Hcur. unfold turn. destruct (zlen (pl q) <=? 0); [by intros [?|?]|].
  unfold take_len. rewrite Hcur. cbn [Z.eqb Pos.eqb].
  destruct (arglen_line (pl q)) as [| |n k] eqn:El; [by intros [?|?]..|].
  pose proof (arglen_line_canonical _ _ _ El) as Hpl. apply arglen_line_Ok in El as [Hn Hk].
  cbn [FK_SVR_OK]. set (q1 := Mk _ _ _ _) in *.
  pose proof (take_arg_sound q1) as Hs. destruct (take_arg q1) as [[| |] q2] eqn:E2; [|by intros [?|?]..].
  destruct (Hs q2 ltac:(cbn; lia) eq_refl) as (a & Ha & Hp2 & Hargs & Hc2 & Hd2).
  cbn in Ha, Hp2, Hargs, Hd2.
  assert (q2 = q' -> exists a, arg_ok a /\ pl q = encode_arg a ++ pl q' /\ args q' = args q ++ [a] /\
    cur q' = -1 /\ parsed q' = parsed q) as Hgen.
  { intros <-. exists a. split_and!; [unfold arg_ok; lia| |done| |].
    - rewrite Hpl, Hp2. unfold encode_arg. rewrite Ha. unfold CRLF. cbn [app]. rewrite <- !app_assoc. cbn [app]. by rewrite <- !app_assoc.
    - done.
    - done. }
  destruct (parsed q2 =? zlen (args q2)) eqn:E3; intros [H|H]; try done; injection H as Hqq;
    destruct (Hgen Hqq) as (b & Hb & Hbp & Hba & Hbc & Hbd); exists b; split_and!; try done.
  intros _. rewrite <- Hba, <- Hbd, <- Hqq. lia.
Qed.

Lemma run_sound q :
  req_ok q -> counted q -> cur q = -1 -> forall q', run q = (FK_SVR_OK, q') ->
  exists l, Forall arg_ok l /\ pl q = concat (encode_arg <$> l) ++ pl q' /\
    args q' = args q ++ l /\ parsed q' = parsed q /\ cur q' = -1 /\ parsed q = zlen (args q').
Proof.
  intros Hq Hc. revert q Hq Hc. refine (run_ind (fun q => _) _).
  intros q Hq Hc IH Hcur q'. rewrite run_unfold by done.
  destruct (turn q) as [r|q1] eqn:E.
  - intros ->. destruct (turn_sound q q' Hq Hc Hcur (or_introl E)) as (a & Ha & Hp & Hl & Hcq & Hpq & Hz).
    exists [a]. split_and!; [by repeat constructor| |done|done|done|].
    + cbn. by rewrite app_nil_r.
    + rewrite Hl. by apply Hz.
  - intros Hr. destruct (turn_sound q q1 Hq Hc Hcur (or_intror E)) as (a & Ha & Hp & Hl & Hcq & Hpq & _).
    destruct (IH q1 eq_refl Hcq q' Hr) as (l & Hok & Hpl & Hal & Hpar & Hcq' & Hz).
    exists (a :: l). split_and!; [by constructor| | |congruence|done|congruence].
    + cbn. by rewrite Hp, Hpl, <- app_assoc.
    + by rewrite Hal, Hl, <- app_assoc.
Qed.

Lemma parse_sound b q' :
  parse (init b) = (FK_SVR_OK, q') ->
  b = encode (args q') ++ pl q' /\ 1 <= zlen (args q') <= FK_ARG_CNT_HIGHWAT /\
  Forall arg_ok (args q') /\ q' = Mk (pl q') (zlen (args q')) (-1) (args q').
Proof.
  unfold parse, take_cnt. cbn [init parsed pl Z.eqb andb].
  destruct (0 <? zlen b) eqn:El.
  2: { cbn. destruct b; [done|]. rewrite zlen_cons in El. pose proof (zlen_nonneg b). lia. }
  destruct (argcnt_line b) as [| |n k] eqn:E; [done|done|]. cbn [FK_SVR_OK Z.eqb negb cur args init].
  pose proof (argcnt_line_canonical _ _ _ E) as Hb. apply argcnt_line_Ok in E as [Hn Hk].
  set (q1 := Mk _ _ _ _) in *. fold (run q1). intros Hr.
  destruct (run_sound q1) with (q' := q') as (l & Hok & Hpl & Hal & Hpar & Hcq & Hz); try done.
  { split; [cbn; unfold_lims; lia..|left; cbn [args parsed q1]; rewrite zlen_nil; lia]. }
  { unfold counted. cbn [args parsed q1]. rewrite zlen_nil. lia. }
  cbn in *. subst l. split_and!; try done; try lia.
  - rewrite Hb, Hpl. unfold encode. rewrite <- Hz. cbn. by rewrite <- !app_assoc.
  - destruct q'; cbn in *. congruence.
Qed.
