(* ===== verification/Parse.v ===== *)
(** Models [fk_conn_parse_req] and [fk_conn_free_args] of src/src/fk_svr_conn.c:
    the incremental parser of requests on the connection's read buffer, argument
    vector and items, and the proof that it computes the abstract parser. *)
From S2P Require Import Prelude Util Buf Dict Item Conf Svr Req.

(** ** The parser on the connection *)

(** Reading a byte nobody wrote is undefined behaviour. *)
Definition payload_bytes (b : fk_buf) : option bytes := mapM (M := option) id (payload b).

Definition low_inc (n : Z) (c : fk_conn) : fk_conn := cn_rbuf c (fk_buf_low_inc (c_rbuf c) n).

(** The [while (fk_buf_payload_len(rbuf) > 0)] loop; every turn that does not
    return consumes at least the two bytes that end an argument. *)
Fixpoint parse_args_loop (fuel : nat) (w : world) : option (Z * world) :=
  match fuel with
  | O => None
  | S f =>
      let c := w_conn w in
      if fk_buf_payload_len (c_rbuf c) <=? 0 then Some (FK_SVR_AGAIN, w)
      else
        match payload_bytes (c_rbuf c) with
        | None => None
        | Some pl =>
            let hdr :=
              if c_cur_arglen c =? -1 then
                match arglen_line pl with
                | LineErr => inl FK_SVR_ERR
                | LineAgain => inl FK_SVR_AGAIN
                | LineOk argl k => inr (low_inc k (cn_cur_arglen c argl))
                end
              else inr c in
            match hdr with
            | inl rt => Some (rt, w)
            | inr c =>
                match payload_bytes (c_rbuf c) with
                | None => None
                | Some start =>
                    let arg_len := c_cur_arglen c in
                    if arg_len + 2 <=? fk_buf_payload_len (c_rbuf c) then
                      if negb (bool_decide (znth start arg_len = Some CR))
                         || negb (bool_decide (znth start (arg_len + 1) = Some LF))
                      then Some (FK_SVR_ERR, w_set_conn w c)
                      else
                        let str := fk_str_create start arg_len in
                        let '(i, m) := fk_item_create (sv_items (w_svr w)) in
                        match fk_vtr_set (c_arg_vtr c) (c_arg_cnt c) (Some (SItem i str)) with
                        | None => None
                        | Some v =>
                            let m := fk_item_inc_ref i m in
                            let c := cn_cur_arglen
                                       (cn_arg_cnt (cn_arg_vtr c v) (c_arg_cnt c + 1)) (-1) in
                            let c := low_inc (arg_len + 2) c in
                            let s := sv_set_items (w_svr w) m in
                            if c_arg_parsed c =? c_arg_cnt c
                            then Some (FK_SVR_OK, World s (cn_parse_done c 1))
                            else parse_args_loop f (World s c)
                        end
                    else Some (FK_SVR_AGAIN, w_set_conn w c)
                end
            end
        end
  end.

Definition fk_conn_parse_req : ST world Z := fun w =>
  let c := w_conn w in
  let first :=
    if (c_arg_parsed c =? 0) && (0 <? fk_buf_payload_len (c_rbuf c)) then
      match payload_bytes (c_rbuf c) with
      | None => None
      | Some pl =>
          match argcnt_line pl with
          | LineErr => Some (inl FK_SVR_ERR)
          | LineAgain => Some (inl FK_SVR_AGAIN)
          | LineOk argc k =>
              Some (inr (low_inc k (cn_arg_vtr (cn_arg_parsed c argc)
                                      (fk_vtr_stretch (c_arg_vtr c) argc))))
          end
      end
    else Some (inr c) in
  match first with
  | None => None
  | Some (inl rt) => Some (rt, w)
  | Some (inr c) =>
      parse_args_loop (S (Z.to_nat (fk_buf_payload_len (c_rbuf c)))) (w_set_conn w c)
  end.

(** [fk_conn_free_args]: the loop over the parsed arguments, then the reset. *)
Fixpoint free_args_loop (n : nat) (i : Z) (v : fk_vtr sitem) (m : item_mgr) :
    option (fk_vtr sitem * item_mgr) :=
  match n with
  | O => Some (v, m)
  | S n' =>
      match fk_vtr_get v i with
      | None => None
      | Some None => free_args_loop n' (i + 1) v m
      | Some (Some a) =>
          match fk_vtr_set v i None with
          | None => None
          | Some v => free_args_loop n' (i + 1) v (sitem_dec_ref a m)
          end
      end
  end.

Definition fk_conn_free_args : ST world unit := fun w =>
  let c := w_conn w in
  match free_args_loop (Z.to_nat (c_arg_cnt c)) 0 (c_arg_vtr c) (sv_items (w_svr w)) with
  | None => None
  | Some (v, m) =>
      let c := cn_arg_cnt (cn_parse_done (cn_arg_parsed (cn_cur_arglen c (-1)) 0) 0) 0 in
      Some (tt, World (sv_set_items (w_svr w) m) (cn_arg_vtr c (fk_vtr_shrink v)))
  end.

(** ** The connection computes the abstract parser *)

Import Req.

Lemma payload_bytes_Some b pl : payload_bytes b = Some pl <-> payload b = Some <$> pl.
Proof.
  unfold payload_bytes. rewrite mapM_Some. split.
  - induction 1 as [|x y l k Hx H IH]; cbn; [done|]. cbn in Hx. by rewrite IH, Hx.
  - intros ->. apply Forall2_fmap_l, Forall_Forall2_diag, Forall_true. done.
Qed.

(** The arguments read so far are the first items of the vector. *)
Definition args_at (v : fk_vtr sitem) (l : list bytes) : Prop :=
  forall i a, znth l i = Some a -> exists id, fk_vtr_get v i = Some (Some (SItem id a)).

(** The state of a connection as the abstract parser sees it. *)
Record conn_req (c : fk_conn) (q : Req.t) : Prop := {
  cr_wf : buf_wf (c_rbuf c);
  cr_pl : payload (c_rbuf c) = Some <$> pl q;
  cr_parsed : c_arg_parsed c = parsed q;
  cr_cur : c_cur_arglen c = cur q;
  cr_cnt : c_arg_cnt c = zlen (args q);
  cr_args : args_at (c_arg_vtr c) (args q);
  cr_vtr : parsed q <= fk_vtr_len (c_arg_vtr c)
}.

(** What the parser leaves of a buffer: it only moves [low]. *)
Definition buf_dims (b : fk_buf) : Z * Z * Z * Z := (highwat b, init_len b, blen b, high b).

(** Parsing changes only the read buffer and the argument fields. *)
Definition conn_frame (c c' : fk_conn) : Prop :=
  c_fd c' = c_fd c /\ c_type c' = c_type c /\ c_write_added c' = c_write_added c /\
  c_wbuf c' = c_wbuf c /\ c_last_recv c' = c_last_recv c /\ c_db_idx c' = c_db_idx c /\
  buf_dims (c_rbuf c') = buf_dims (c_rbuf c) /\
  v_init_len (c_arg_vtr c') = v_init_len (c_arg_vtr c).

Record parse_frame (w w' : world) : Prop := {
  pf_conn : conn_frame (w_conn w) (w_conn w');
  pf_svr : w_svr w' = sv_set_items (w_svr w) (sv_items (w_svr w'));
  pf_items : im_wf (sv_items (w_svr w)) ->
    im_wf (sv_items (w_svr w')) /\ im_bad (sv_items (w_svr w')) = im_bad (sv_items (w_svr w))
}.

Lemma parse_frame_refl w : parse_frame w w.
Proof. split; [done|by destruct w as [[] ?]|done]. Qed.

Lemma parse_frame_trans w1 w2 w3 : parse_frame w1 w2 -> parse_frame w2 w3 -> parse_frame w1 w3.
Proof.
  intros [C1 S1 I1] [C2 S2 I2]. split.
  - unfold conn_frame in *. intuition congruence.
  - rewrite S2. by rewrite S1.
  - intros H. destruct (I1 H) as [H2 E2]. destruct (I2 H2) as [H3 E3]. split; [done|congruence].
Qed.

#[export] Hint Resolve parse_frame_refl : fk.

Lemma zlen_payload_bytes c q : conn_req c q -> fk_buf_payload_len (c_rbuf c) = zlen (pl q).
Proof. intros H. rewrite <- zlen_payload, (cr_pl _ _ H) by apply H. apply zlen_map. Qed.

Lemma low_inc_req c q k :
  conn_req c q -> 0 <= k <= zlen (pl q) ->
  buf_wf (fk_buf_low_inc (c_rbuf c) k) /\
  payload (fk_buf_low_inc (c_rbuf c) k) = Some <$> zdrop k (pl q).
Proof.
  intros H Hk. split; [apply low_inc_wf; [apply H|lia]|].
  rewrite payload_low_inc; [|apply H|by rewrite (zlen_payload_bytes c q)].
  rewrite (cr_pl _ _ H). unfold zdrop. by rewrite fmap_drop.
Qed.

(** The length line. *)
Lemma take_len_req c q :
  conn_req c q -> counted q -> req_ok q -> pl q <> [] ->
  match take_len q with
  | (0, q1) =>
      exists c', conn_req c' q1 /\ conn_frame c c' /\ c_parse_done c' = c_parse_done c /\
        (if c_cur_arglen c =? -1 then
          match arglen_line (pl q) with
          | LineErr => inl FK_SVR_ERR
          | LineAgain => inl FK_SVR_AGAIN
          | LineOk argl k => inr (low_inc k (cn_cur_arglen c argl))
          end
        else inr c) = inr c'
  | (rt, q1) => q1 = q /\
        (if c_cur_arglen c =? -1 then
          match arglen_line (pl q) with
          | LineErr => inl FK_SVR_ERR
          | LineAgain => inl FK_SVR_AGAIN
          | LineOk argl k => inr (low_inc k (cn_cur_arglen c argl))
          end
        else inr c) = inl rt
  end.
Proof.
  intros H Hc Hq Hne. unfold take_len. rewrite (cr_cur _ _ H).
  destruct (cur q =? -1) eqn:Ec; [|by exists c].
  destruct (arglen_line (pl q)) as [| |n k] eqn:El; [done|done|]. cbn [FK_SVR_OK].
  exists (low_inc k (cn_cur_arglen c n)). split_and!; [|done|done|done].
  apply arglen_line_Ok in El as [Hn Hk].
  destruct (low_inc_req c q k H ltac:(lia)) as [Hw Hp]. by destruct H; split.
Qed.

(** Storing a new argument item. *)
Lemma args_at_snoc v v' l a i :
  args_at v l -> fk_vtr_set v (zlen l) (Some (SItem i a)) = Some v' -> args_at v' (l ++ [a]).
Proof.
  intros H Hset j b Hj. destruct (fk_vtr_get_set _ _ _ _ Hset) as [Hg _].
  destruct (decide (j = zlen l)) as [->|Hne].
  - rewrite znth_app_r, Z.sub_diag in Hj by lia. injection Hj as <-. by exists i.
  - assert (0 <= j < zlen l) as Hr.
    { unfold znth, zlen in *. destruct (j <? 0) eqn:E; [done|].
      apply lookup_lt_Some in Hj. rewrite length_app in Hj. cbn in Hj. lia. }
    rewrite znth_app_l in Hj by done.
    rewrite (fk_vtr_get_set_ne _ _ _ _ _ Hset) by done. by apply H.
Qed.

Lemma new_item_frame m :
  im_wf m -> let '(i, m') := fk_item_create m in
  im_wf (fk_item_inc_ref i m') /\ im_bad (fk_item_inc_ref i m') = im_bad m.
Proof.
  intros H. pose proof (fk_item_create_spec m H) as Hs. destruct (fk_item_create m) as [i m'].
  destruct Hs as (Hw & _ & Hu & _ & _ & Hb). split; [by apply fk_item_inc_ref_wf|].
  unfold fk_item_inc_ref. assert (im_live m' i = true) as ->; [|done].
  apply bool_decide_eq_true. rewrite Hu. apply list_elem_of_here.
Qed.

(** The argument is stored and its bytes are consumed. *)
Lemma snoc_req c c' q i v : conn_req c q -> 0 <= cur q -> cur q + 2 <= zlen (pl q) ->
  fk_vtr_set (c_arg_vtr c) (zlen (args q)) (Some (SItem i (fk_str_create (pl q) (cur q)))) = Some v ->
  c_rbuf c' = fk_buf_low_inc (c_rbuf c) (cur q + 2) -> c_arg_vtr c' = v ->
  c_arg_parsed c' = c_arg_parsed c -> c_arg_cnt c' = zlen (args q) + 1 -> c_cur_arglen c' = -1 ->
  conn_req c' (Mk (zdrop (cur q + 2) (pl q)) (parsed q) (-1) (args q ++ [fk_str_create (pl q) (cur q)])).
Proof.
  intros H H0 Hl Hv Hrb Hvt Hpa Hcn Hcu. destruct (low_inc_req c q (cur q + 2) H ltac:(lia)) as [Hw Hp].
  pose proof (args_at_snoc _ _ _ _ _ (cr_args _ _ H) Hv) as Hat. destruct (fk_vtr_get_set _ _ _ _ Hv) as [_ Hvl].
  split; rewrite ?Hrb, ?Hvt, ?Hpa, ?Hcn, ?Hcu; try done.
  - apply (cr_parsed _ _ H).
  - cbn. rewrite zlen_app. done.
  - rewrite Hvl. apply (cr_vtr _ _ H).
Qed.

(** One turn of the loop. *)
Lemma turn_req f w q :
  conn_req (w_conn w) q -> req_ok q -> counted q ->
  match turn q with
  | inl (rt, q') => exists w', parse_args_loop (S f) w = Some (rt, w') /\
      conn_req (w_conn w') q' /\ parse_frame w w' /\
      c_parse_done (w_conn w') = (if rt =? FK_SVR_OK then 1 else c_parse_done (w_conn w))
  | inr q' => exists w', parse_args_loop (S f) w = parse_args_loop f w' /\
      conn_req (w_conn w') q' /\ parse_frame w w' /\
      c_parse_done (w_conn w') = c_parse_done (w_conn w)
  end.
Proof.
  intros H Hq Hc. unfold turn. cbn [parse_args_loop].
  rewrite (zlen_payload_bytes _ _ H), (proj2 (payload_bytes_Some _ _) (cr_pl _ _ H)).
  destruct (zlen (pl q) <=? 0) eqn:E0; [exists w; auto with fk|].
  pose proof (take_len_req _ _ H Hc Hq (pl_nonempty _ E0)) as Hl.
  pose proof (take_len_code q) as Hcd. pose proof (take_len_ok q) as Hok.
  destruct (take_len q) as [rt q1]. cbn in Hcd.
  destruct Hcd as [->|[->| ->]]; cbn [FK_SVR_OK FK_SVR_ERR FK_SVR_AGAIN] in *.
  2,3: destruct Hl as [-> ->]; exists w; auto with fk.
  destruct Hl as (c & H1 & Hf & Hpd & ->). destruct (Hok q1 Hq Hc eq_refl) as (Hq1 & Hc1 & Hn1 & _).
  clear Hok. rewrite (proj2 (payload_bytes_Some _ _) (cr_pl _ _ H1)).
  rewrite (zlen_payload_bytes _ _ H1), (cr_cur _ _ H1). pose proof (ro_cur q1 Hq1).
  unfold take_arg. destruct (cur q1 + 2 <=? zlen (pl q1)) eqn:E1.
  2: { exists (w_set_conn w c). cbn. split_and!; try done. split; [done|by destruct w as [[] ?]|done]. }
  destruct (_ || _) eqn:E2.
  { exists (w_set_conn w c). cbn. split_and!; try done. split; [done|by destruct w as [[] ?]|done]. }
  pose proof (new_item_frame (sv_items (w_svr w))) as Hi.
  destruct (fk_item_create (sv_items (w_svr w))) as [i m].
  rewrite (cr_cnt _ _ H1).
  pose proof (cr_vtr _ _ H1). pose proof (zlen_nonneg (args q1)). unfold counted in Hc1.
  assert (exists v, fk_vtr_set (c_arg_vtr c) (zlen (args q1))
    (Some (SItem i (fk_str_create (pl q1) (cur q1)))) = Some v) as [v Hv].
  { unfold fk_vtr_set. rewrite (proj2 (Z.leb_le _ _)), (proj2 (Z.ltb_lt _ _)) by lia. by eexists. }
  rewrite Hv. pose proof (fk_vtr_set_init _ _ _ _ Hv) as Hvi.
  set (q2 := Mk _ _ _ _). set (s' := sv_set_items _ _).
  assert (forall c', c_rbuf c' = fk_buf_low_inc (c_rbuf c) (cur q1 + 2) -> c_arg_vtr c' = v ->
    c_arg_parsed c' = c_arg_parsed c -> c_arg_cnt c' = zlen (args q1) + 1 -> c_cur_arglen c' = -1 ->
    conn_req c' q2) as Hreq by (intros c'; apply (snoc_req c c' q1 i v H1); (done || lia)).
  assert (forall c', conn_frame c c' -> parse_frame w (World s' c')) as Hpf.
  { intros c' Hc'. split; [|by destruct w as [[] ?]|exact Hi]. unfold conn_frame in *. cbn. intuition congruence. }
  cbn [FK_SVR_OK]. change (args q2) with (args q1 ++ [fk_str_create (pl q1) (cur q1)]).
  change (parsed q2) with (parsed q1). rewrite zlen_app. change (zlen [_]) with 1.
  cbn [c_arg_parsed c_arg_cnt low_inc cn_rbuf cn_cur_arglen cn_arg_cnt cn_arg_vtr].
  rewrite (cr_parsed _ _ H1). destruct (parsed q1 =? zlen (args q1) + 1) eqn:E3.
  - eexists. split; [reflexivity|].
    split_and!; [by apply Hreq|apply Hpf; split_and!; (done || exact Hvi)|done].
  - eexists. split; [reflexivity|].
    split_and!; [by apply Hreq|apply Hpf; split_and!; (done || exact Hvi)|done].
Qed.

Lemma loop_req f : forall w q,
  conn_req (w_conn w) q -> req_ok q -> counted q -> (length (pl q) < f)%nat ->
  exists w', parse_args_loop f w = Some ((loop f q).1, w') /\
    conn_req (w_conn w') (loop f q).2 /\ parse_frame w w' /\
    c_parse_done (w_conn w') =
      (if (loop f q).1 =? FK_SVR_OK then 1 else c_parse_done (w_conn w)).
Proof.
  induction f as [|f IH]; intros w q H Hq Hc Hf; [lia|].
  pose proof (turn_req f w q H Hq Hc) as Ht. rewrite loop_S.
  pose proof (turn_inr q) as Hi. destruct (turn q) as [[rt q']|q']; [done|].
  destruct Ht as (w1 & -> & H1 & Hf1 & Hp1). destruct (Hi q' Hq Hc eq_refl) as (Hq' & Hc' & Hl).
  destruct (IH w1 q') as (w' & -> & H' & Hf' & Hp'); try done; [lia|].
  exists w'. split_and!; [done|done|by eapply parse_frame_trans|by rewrite Hp', Hp1].
Qed.

Lemma parse_req_unfold w q :
  conn_req (w_conn w) q -> req_ok q ->
  exists w', fk_conn_parse_req w = Some ((parse q).1, w') /\
    conn_req (w_conn w') (parse q).2 /\ parse_frame w w' /\
    c_parse_done (w_conn w') = (if (parse q).1 =? FK_SVR_OK then 1 else c_parse_done (w_conn w)).
Proof.
  intros H Hq. unfold fk_conn_parse_req, parse.
  rewrite (cr_parsed _ _ H), (zlen_payload_bytes _ _ H),
    (proj2 (payload_bytes_Some _ _) (cr_pl _ _ H)).
  destruct (decide (counted q)) as [Hc|Hc].
  { rewrite take_cnt_skip by done. unfold counted in Hc. pose proof (zlen_nonneg (args q)).
    rewrite (proj2 (Z.eqb_neq _ _)) by lia. cbn [andb FK_SVR_OK Z.eqb negb].
    rewrite (zlen_payload_bytes _ _ H).
    replace (Z.to_nat (zlen (pl q))) with (length (pl q)) by (unfold zlen; lia).
    replace (w_set_conn w (w_conn w)) with w by by destruct w. apply loop_req; try done. lia. }
  assert (parsed q = 0) as Hp0 by (unfold counted in Hc; destruct (ro_args q Hq); [lia|tauto]).
  pose proof (take_cnt_ok q) as Hok. unfold take_cnt in *. rewrite Hp0 in *. cbn [Z.eqb andb] in *.
  destruct (0 <? zlen (pl q)) eqn:E0; cbn [FK_SVR_OK Z.eqb negb] in *.
  2: { assert (pl q = []) as En by (apply zlen_0; pose proof (zlen_nonneg (pl q)); lia).
       cbn [loop parse_args_loop]. rewrite En. cbn. exists w.
       rewrite (zlen_payload_bytes _ _ H), En. cbn. destruct w; auto with fk. }
  destruct (argcnt_line (pl q)) as [| |n k] eqn:El; cbn [FK_SVR_OK FK_SVR_ERR FK_SVR_AGAIN Z.eqb negb fst snd].
  1,2: exists w; auto with fk.
  destruct (Hok _ Hq Hc ltac:(intros En; by rewrite En in E0) eq_refl) as [Hq1 Hc1].
  set (q1 := Mk _ _ _ _) in *. set (c1 := low_inc _ _).
  apply argcnt_line_Ok in El as [Hn Hk]. destruct (low_inc_req _ _ k H ltac:(lia)) as [Hw Hp].
  assert (conn_req c1 q1) as H1.
  { pose proof (fk_vtr_stretch_len (c_arg_vtr (w_conn w)) n) as [Hs1 Hs2].
    destruct (ro_args q Hq) as [?|(_ & Ea & _)]; [by unfold counted in Hc|].
    destruct H; split; try done. cbn [args q1]. rewrite Ea. intros i a Hi.
    unfold znth in Hi. case_match; [done|]. by rewrite lookup_nil in Hi. }
  rewrite (zlen_payload_bytes c1 q1 H1).
  replace (Z.to_nat (zlen (pl q1))) with (length (pl q1)) by (unfold zlen; lia).
  destruct (loop_req (S (length (pl q1))) (w_set_conn w c1) q1) as (w' & Hw' & Hr & Hf & Hd);
    try done; [lia|]. exists w'. split_and!; try done.
  eapply parse_frame_trans; [|done]. split; [|by destruct w as [[] ?]|done].
  split_and!; (done || apply fk_vtr_stretch_init).
Qed.

(** ** Properties *)

(** A connection that waits for a request, with the unread bytes [pl]. *)
Record conn_idle (c : fk_conn) (pl : bytes) : Prop := {
  ci_wf : buf_wf (c_rbuf c);
  ci_pl : payload (c_rbuf c) = Some <$> pl;
  ci_parsed : c_arg_parsed c = 0;
  ci_cnt : c_arg_cnt c = 0;
  ci_cur : c_cur_arglen c = -1
}.

(** A connection whose request was parsed: the arguments [l], the unread bytes [pl]. *)
Record conn_ready (c : fk_conn) (l : list bytes) (pl : bytes) : Prop := {
  cy_wf : buf_wf (c_rbuf c);
  cy_pl : payload (c_rbuf c) = Some <$> pl;
  cy_args : args_at (c_arg_vtr c) l;
  cy_cnt : c_arg_cnt c = zlen l;
  cy_done : c_parse_done c = 1
}.

Lemma conn_idle_req c pl : conn_idle c pl -> conn_req c (init pl).
Proof.
  intros [????]. split; try done; cbn.
  - intros i a H. unfold znth in H. case_match; [done|]. by rewrite lookup_nil in H.
  - unfold fk_vtr_len. apply zlen_nonneg.
Qed.

Lemma args_at_inj v l l' : args_at v l -> args_at v l' -> zlen l = zlen l' -> l = l'.
Proof.
  intros H H' Hl. apply list_eq_same_length with (length l); [unfold zlen in Hl; lia|done|].
  intros i a b _ Ha Hb.
  assert (forall (k : list bytes) x, k !! i = Some x -> znth k (Z.of_nat i) = Some x) as Hz.
  { intros k x Hk. unfold znth. rewrite (proj2 (Z.ltb_ge _ _)) by lia. by rewrite Nat2Z.id. }
  destruct (H _ _ (Hz _ _ Ha)) as [id1 E1]. destruct (H' _ _ (Hz _ _ Hb)) as [id2 E2]. congruence.
Qed.

(** The bytes that arrive are appended to the read buffer. *)
Definition conn_recv (w : world) (m : bytes) : world :=
  w_set_conn w (cn_rbuf (w_conn w) (fk_buf_append (c_rbuf (w_conn w)) (Some <$> m))).

Lemma conn_recv_req w q m :
  conn_req (w_conn w) q -> zlen m <= fk_buf_free_len (c_rbuf (w_conn w)) ->
  conn_req (w_conn (conn_recv w m)) (feed q m).
Proof.
  intros [] Hm. split; try done; cbn.
  - apply append_wf; [done|]. by rewrite zlen_map.
  - rewrite payload_append by (done || by rewrite zlen_map). rewrite fmap_app. congruence.
Qed.

(** C1. The request parser of a connection computes the abstract parser on the
    bytes of the read buffer: from every state between two packets it returns (no
    access outside the buffer or the argument vector, no endless loop), its
    answer, the remaining bytes and the arguments are those of the abstract
    parser, and it changes nothing but the read buffer, the argument fields and
    the items. *)
Theorem parse_req_refines w q :
  conn_req (w_conn w) q -> req_ok q ->
  exists rt w' q', fk_conn_parse_req w = Some (rt, w') /\ parse q = (rt, q') /\
    conn_req (w_conn w') q' /\ parse_frame w w' /\
    c_parse_done (w_conn w') = (if rt =? FK_SVR_OK then 1 else c_parse_done (w_conn w)).
Proof.
  intros H Hq. destruct (parse_req_unfold w q H Hq) as (w' & ? & ? & ? & ?).
  exists (parse q).1, w', (parse q).2. split_and!; try done. by destruct (parse q).
Qed.

(** C2. A waiting connection accepts exactly the encodings of requests: the parser
    answers OK with the arguments [l] and the unread bytes [m] if and only if the
    buffer holds [*<n>\r\n], the [n] arguments as [$<len>\r\n<arg>\r\n], and [m],
    with 1 to 128 arguments of at most 1 MB each. *)
Theorem parse_req_accepts w b l m :
  conn_idle (w_conn w) b ->
  (exists w', fk_conn_parse_req w = Some (FK_SVR_OK, w') /\ conn_ready (w_conn w') l m) <->
  b = encode l ++ m /\ 1 <= zlen l <= FK_ARG_CNT_HIGHWAT /\ Forall arg_ok l.
Proof.
  intros H%conn_idle_req.
  destruct (parse_req_unfold w (init b) H (init_ok b)) as (w' & Hw & Hr & _ & Hd). split.
  - intros (w2 & Hw2 & [Hwf Hpl Hat Hcnt _]).
    destruct (parse (init b)) as [rt q'] eqn:E. cbn [fst snd] in *.
    rewrite Hw in Hw2. injection Hw2 as -> <-.
    destruct (parse_sound b q' E) as (Hb & Hn & Hok & _).
    assert (l = args q') as -> by (eapply args_at_inj; [done|apply Hr|by rewrite <- Hcnt, (cr_cnt _ _ Hr)]).
    assert (m = pl q') as -> by (apply (inj (fmap Some)); by rewrite <- Hpl, (cr_pl _ _ Hr)).
    done.
  - intros (-> & Hn & Hok). pose proof (parse_encode_args l m Hn Hok) as E. rewrite E in *.
    exists w'. split; [done|]. by destruct Hr; split.
Qed.

(** C3. Where the packets are cut does not matter: parsing what has arrived,
    getting AGAIN, receiving the bytes [m] and parsing again gives the answer,
    arguments and unread bytes of parsing once when all bytes are there. *)
Theorem parse_req_resumes w w1 q m :
  conn_req (w_conn w) q -> req_ok q ->
  fk_conn_parse_req w = Some (FK_SVR_AGAIN, w1) ->
  zlen m <= fk_buf_free_len (c_rbuf (w_conn w)) ->
  zlen m <= fk_buf_free_len (c_rbuf (w_conn w1)) ->
  exists rt w2 w2' q2,
    fk_conn_parse_req (conn_recv w1 m) = Some (rt, w2) /\
    fk_conn_parse_req (conn_recv w m) = Some (rt, w2') /\
    conn_req (w_conn w2) q2 /\ conn_req (w_conn w2') q2.
Proof.
  intros H Hq E Hm Hm1. destruct (parse_req_unfold w q H Hq) as (w' & Hw & Hr & _).
  rewrite Hw in E. injection E as Hrt ->. pose proof (parse_feed q m Hq) as Hf.
  destruct (parse q) as [rt q1]. cbn in Hrt. subst rt.
  destruct Hf as [[? _]|[[? _]|(_ & Hq1 & Hf)]]; [done|done|]. cbn in Hr.
  destruct (parse_req_unfold (conn_recv w1 m) (feed q1 m)) as (w2 & Hw2 & Hr2 & _);
    [by apply conn_recv_req|by apply feed_ok|].
  destruct (parse_req_unfold (conn_recv w m) (feed q m)) as (w2' & Hw2' & Hr2' & _);
    [by apply conn_recv_req|by apply feed_ok|].
  rewrite Hf in Hw2', Hr2'. by exists (parse (feed q1 m)).1, w2, w2', (parse (feed q1 m)).2.
Qed.

(** ** The theorems on an example connection *)

Lemma ex_conn_idle b : zlen b <= 64 -> conn_idle (ex_conn b) b.
Proof.
  intros Hb. pose proof (fk_buf_create_wf 64 FK_BUF_HIGHWAT ltac:(lia)) as Hw.
  assert (zlen (Some <$> b) <= fk_buf_free_len (fk_buf_create 64 FK_BUF_HIGHWAT)) as Hl
    by (rewrite zlen_map; exact Hb).
  split; try done; cbn [ex_conn c_rbuf].
  - by apply append_wf.
  - by rewrite payload_append, payload_create by done.
Qed.

Definition ex_get : bytes := encode [lit "GET"; lit "k"].

Lemma parse_req_refines_witness :
  conn_req (w_conn (ex_world ex_get)) (init ex_get) /\ req_ok (init ex_get) /\
  exists rt w' q', fk_conn_parse_req (ex_world ex_get) = Some (rt, w') /\
    parse (init ex_get) = (rt, q') /\ conn_req (w_conn w') q' /\ parse_frame (ex_world ex_get) w' /\
    c_parse_done (w_conn w') = (if rt =? FK_SVR_OK then 1 else 0).
Proof.
  assert (conn_req (w_conn (ex_world ex_get)) (init ex_get)) as H
    by (apply conn_idle_req, ex_conn_idle; vm_compute; congruence).
  split_and!; [exact H|apply init_ok|].
  exact (parse_req_refines (ex_world ex_get) (init ex_get) H (init_ok ex_get)).
Defined.

Lemma parse_req_accepts_witness :
  conn_idle (w_conn (ex_world ex_get)) ex_get /\
  exists w', fk_conn_parse_req (ex_world ex_get) = Some (FK_SVR_OK, w') /\
    conn_ready (w_conn w') [lit "GET"; lit "k"] [].
Proof.
  assert (conn_idle (w_conn (ex_world ex_get)) ex_get) as H
    by (apply ex_conn_idle; vm_compute; congruence).
  split; [exact H|].
  apply (parse_req_accepts (ex_world ex_get) ex_get [lit "GET"; lit "k"] [] H).
  split_and!; [reflexivity|vm_compute; congruence|vm_compute; congruence|].
  repeat constructor; vm_compute; congruence.
Defined.

(** The first 7 bytes of the request, then the others. *)
Definition ex_half : world := ex_world (ztake 7 ex_get).
Definition ex_waiting : world :=
  match fk_conn_parse_req ex_half with Some (_, w) => w | None => ex_half end.

Lemma parse_req_resumes_witness :
  fk_conn_parse_req ex_half = Some (FK_SVR_AGAIN, ex_waiting) /\
  exists rt w2 w2' q2,
    fk_conn_parse_req (conn_recv ex_waiting (zdrop 7 ex_get)) = Some (rt, w2) /\
    fk_conn_parse_req (conn_recv ex_half (zdrop 7 ex_get)) = Some (rt, w2') /\
    conn_req (w_conn w2) q2 /\ conn_req (w_conn w2') q2.
Proof.
  assert (fk_conn_parse_req ex_half = Some (FK_SVR_AGAIN, ex_waiting)) as E by (vm_compute; reflexivity).
  split; [exact E|].
  apply (parse_req_resumes ex_half ex_waiting (init (ztake 7 ex_get)) (zdrop 7 ex_get)).
  - apply conn_idle_req, ex_conn_idle. vm_compute. congruence.
  - apply init_ok.
  - exact E.
  - vm_compute. congruence.
  - vm_compute. congruence.
Defined.
