(* ===== verification/Store.v ===== *)
(** The abstract state of the server and the laws of the operations on it.

    [abs] maps the dictionaries of [server.db] and [server.expdb]
    (src/src/fk_svr.h) to finite maps from keys to values; the lemmas [wp_*] state
    what the dictionary operations and the replies of a handler do to it. *)
From S2P Require Import Prelude Util Buf Dict Item Conf Svr Req Parse.

(** ** Abstract values *)

Inductive val :=
  | VStr (s : bytes)
  | VList (l : list bytes)
  | VHash (m : gmap bytes bytes)
  | VSklist
  | VNum (n : Z).

Definition hview (d : fk_dict sitem sitem) : gmap bytes bytes := s_str <$> dmap s_str d.

Definition ent_val (t : entity) : val :=
  match t with
  | EntStr s => VStr s
  | EntList l => VList (s_str <$> l)
  | EntDict d => VHash (hview d)
  | EntSklist => VSklist
  | EntNum n => VNum n
  end.

Definition item_val (x : item) : val := ent_val (i_ent x).
Definition item_num (x : item) : Z := match i_ent x with EntNum n => n | _ => 0 end.

Definition dview (d : fk_dict sitem item) : gmap bytes val := item_val <$> dmap s_str d.
Definition eview (d : fk_dict sitem item) : gmap bytes Z := item_num <$> dmap s_str d.

(** ** Invariant *)

(** Every string of the store came in as an argument. *)
Definition ent_ok (t : entity) : Prop :=
  match t with
  | EntStr s => arg_ok s
  | EntList l => Forall (fun x => arg_ok (s_str x)) l
  | EntDict d => hash_wf d /\ map_Forall (fun _ x => arg_ok (s_str x)) (dmap s_str d)
  | EntSklist => True
  | EntNum _ => True
  end.

Record db_inv (d : fk_dict sitem item) : Prop := {
  di_wf : db_wf d;
  di_ent : map_Forall (fun _ x => ent_ok (i_ent x)) (dmap s_str d)
}.

Record exp_inv (d : fk_dict sitem item) : Prop := {
  ei_wf : db_wf d;
  ei_num : map_Forall (fun _ x => exists n, i_ent x = EntNum n) (dmap s_str d)
}.

Record svr_inv (s : fk_svr) : Prop := {
  si_dbcnt : 1 <= sv_dbcnt s < 2 ^ 31;
  si_db_len : zlen (sv_db s) = sv_dbcnt s;
  si_exp_len : zlen (sv_expdb s) = sv_dbcnt s;
  si_db : Forall db_inv (sv_db s);
  si_exp : Forall exp_inv (sv_expdb s)
}.

Record world_ok (w : world) : Prop := {
  wo_svr : svr_inv (w_svr w);
  wo_idx : 0 <= c_db_idx (w_conn w) < sv_dbcnt (w_svr w);
  wo_wbuf : wbuf_inv (c_wbuf (w_conn w))
}.

(** A request of the arguments [l] is ready. *)
Record args_ok (c : fk_conn) (l : list bytes) : Prop := {
  ao_at : args_at (c_arg_vtr c) l;
  ao_cnt : c_arg_cnt c = zlen l;
  ao_ok : Forall arg_ok l;
  ao_max : zlen l <= FK_ARG_CNT_HIGHWAT
}.

(** ** The abstract state: databases, expiry times, selected database, clock ticks *)

Record astate := AState {
  a_db : list (gmap bytes val);
  a_exp : list (gmap bytes Z);
  a_idx : Z;
  a_ticks : nat
}.

Definition abs (w : world) : astate :=
  AState (dview <$> sv_db (w_svr w)) (eview <$> sv_expdb (w_svr w)) (c_db_idx (w_conn w))
    (sv_ticks (w_svr w)).

Definition adb (a : astate) (i : Z) : gmap bytes val := default ∅ (znth (a_db a) i).
Definition aexp (a : astate) (i : Z) : gmap bytes Z := default ∅ (znth (a_exp a) i).
Definition put_db (i : Z) (m : gmap bytes val) (a : astate) : astate :=
  AState (zupd (a_db a) i m) (a_exp a) (a_idx a) (a_ticks a).
Definition put_exp (i : Z) (m : gmap bytes Z) (a : astate) : astate :=
  AState (a_db a) (zupd (a_exp a) i m) (a_idx a) (a_ticks a).
Definition put_idx (i : Z) (a : astate) : astate :=
  AState (a_db a) (a_exp a) i (a_ticks a).
Definition tick (a : astate) : astate :=
  AState (a_db a) (a_exp a) (a_idx a) (S (a_ticks a)).

(** The database a connection has selected. *)
Definition cur_db (a : astate) : gmap bytes val := adb a (a_idx a).
Definition cur_exp (a : astate) : gmap bytes Z := aexp a (a_idx a).
Definition put_cur (m : gmap bytes val) (a : astate) : astate := put_db (a_idx a) m a.
Definition put_cur_exp (m : gmap bytes Z) (a : astate) : astate := put_exp (a_idx a) m a.

(** ** Frames *)

(** Handlers change only the databases, the items and the clock. *)
Definition svr_frame (s s' : fk_svr) : Prop :=
  s' = sv_set_ticks (sv_set_items (sv_set_expdb (sv_set_db s (sv_db s')) (sv_expdb s'))
         (sv_items s')) (sv_ticks s').

Ltac unfold_frame :=
  unfold svr_frame, sv_set_ticks, sv_set_items, sv_set_expdb, sv_set_db, sv_set_blog in *; cbn in *.

Lemma svr_frame_refl s : svr_frame s s.
Proof. by destruct s. Qed.

Lemma svr_frame_trans s1 s2 s3 : svr_frame s1 s2 -> svr_frame s2 s3 -> svr_frame s1 s3.
Proof. unfold svr_frame. intros H1 H2. rewrite H2. rewrite H1. done. Qed.

Lemma svr_frame_dbcnt s s' : svr_frame s s' -> sv_dbcnt s' = sv_dbcnt s.
Proof. by intros ->. Qed.

Lemma svr_frame_clock s s' : svr_frame s s' -> sv_clock s' = sv_clock s.
Proof. by intros ->. Qed.

(** An operation on the store: the connection stays, the store becomes [a']. *)
Record db_step (w w' : world) (a' : astate) : Prop := {
  ds_ok : world_ok w';
  ds_conn : w_conn w' = w_conn w;
  ds_frame : svr_frame (w_svr w) (w_svr w');
  ds_abs : abs w' = a'
}.

Lemma db_step_refl w : world_ok w -> db_step w w (abs w).
Proof. intros H. split; [done|done|apply svr_frame_refl|done]. Qed.

Lemma db_step_trans w1 w2 w3 a2 a3 : db_step w1 w2 a2 -> db_step w2 w3 a3 -> db_step w1 w3 a3.
Proof.
  intros [_ C1 F1 _] [O2 C2 F2 A2]. split; [done|congruence| |done]. by eapply svr_frame_trans.
Qed.

(** ** Lists indexed by [Z] *)

(** ** Dictionary operations on a database *)

Abbreviation db_op := (fk_dict sitem item -> item_mgr -> Z * fk_dict sitem item * item_mgr).

Lemma arg_ok_key id k : arg_ok k -> key_ok (SItem id k).
Proof. unfold arg_ok, FK_ARG_HIGHWAT, key_ok, str_ok. cbn. lia. Qed.

#[export] Hint Resolve arg_ok_key : fk.

Lemma arg_ok_str k : arg_ok k -> str_ok k.
Proof. apply (arg_ok_key 0). Qed.

#[export] Hint Extern 0 (str_ok _) => apply arg_ok_str; assumption : core fk.

Lemma dview_lookup d k : dview d !! k = item_val <$> dmap s_str d !! k.
Proof. apply lookup_fmap. Qed.

Lemma eview_lookup d k : eview d !! k = item_num <$> dmap s_str d !! k.
Proof. apply lookup_fmap. Qed.

Section databases.
Context (w : world) (W : world_ok w).

Lemma db_lookup i : 0 <= i < sv_dbcnt (w_svr w) ->
  exists d, znth (sv_db (w_svr w)) i = Some d /\ db_inv d /\ adb (abs w) i = dview d.
Proof.
  intros Hi. destruct W as [[] ? ?]. destruct (znth_is_Some (sv_db (w_svr w)) i) as [d Hd]; [lia|].
  exists d. split_and!; [done|by eapply Forall_znth|].
  unfold adb, abs; cbn. by rewrite znth_fmap, Hd.
Qed.

Lemma expdb_lookup i : 0 <= i < sv_dbcnt (w_svr w) ->
  exists d, znth (sv_expdb (w_svr w)) i = Some d /\ exp_inv d /\ aexp (abs w) i = eview d.
Proof.
  intros Hi. destruct W as [[] ? ?].
  destruct (znth_is_Some (sv_expdb (w_svr w)) i) as [d Hd]; [lia|].
  exists d. split_and!; [done|by eapply Forall_znth|].
  unfold aexp, abs; cbn. by rewrite znth_fmap, Hd.
Qed.

(** Reading. *)
Lemma db_get_ok i id k : 0 <= i < sv_dbcnt (w_svr w) -> str_ok k ->
  exists o, db_get i (SItem id k) w = Some (o, w) /\ adb (abs w) i !! k = item_val <$> o /\
    (forall x, o = Some x -> ent_ok (i_ent x)).
Proof.
  intros Hi Hk. destruct (db_lookup i Hi) as (d & Hd & [Hw He] & ->).
  exists (dmap s_str d !! k). unfold db_get. rewrite Hd.
  rewrite (fk_dict_get_spec db_dict_eop s_str key_ok) by (exact Hk || exact Hw).
  split_and!; [done|apply dview_lookup|]. intros x Hx. by apply (He k).
Qed.

Lemma expdb_get_ok i id k : 0 <= i < sv_dbcnt (w_svr w) -> str_ok k ->
  exists o, expdb_get i (SItem id k) w = Some (o, w) /\ aexp (abs w) i !! k = item_num <$> o /\
    (forall x, o = Some x -> exists n, i_ent x = EntNum n).
Proof.
  intros Hi Hk. destruct (expdb_lookup i Hi) as (d & Hd & [Hw He] & ->).
  exists (dmap s_str d !! k). unfold expdb_get. rewrite Hd.
  rewrite (fk_dict_get_spec db_dict_eop s_str key_ok) by (exact Hk || exact Hw).
  split_and!; [done|apply eview_lookup|]. intros x Hx. by apply (He k).
Qed.

(** Updating. *)
Lemma on_db_ok (op : db_op) (i : Z)
    (F : gmap bytes val -> gmap bytes val) (R : gmap bytes val -> Z) :
  0 <= i < sv_dbcnt (w_svr w) ->
  (forall d m, db_inv d -> dview d = adb (abs w) i -> let '(rt, d', _) := op d m in
    db_inv d' /\ dview d' = F (dview d) /\ rt = R (dview d)) ->
  wp (on_db op i) (fun rt w' =>
    db_step w w' (put_db i (F (adb (abs w) i)) (abs w)) /\ rt = R (adb (abs w) i)) w.
Proof.
  intros Hi Hop. destruct (db_lookup i Hi) as (d & Hd & Hinv & Ha).
  unfold wp, on_db. rewrite Hd, Ha. specialize (Hop d (sv_items (w_svr w)) Hinv (eq_sym Ha)).
  destruct (op d _) as [[rt d'] m]. destruct Hop as (Hi' & Hv & ->). split; [|done].
  destruct W as [[] ? ?]. split; [|done|by destruct w as [[] ?]|].
  - split; [|done|done]. split; try done; cbn; [by rewrite zlen_zupd|by apply Forall_zupd].
  - unfold abs, put_db; cbn. by rewrite zupd_fmap, Hv.
Qed.

Lemma on_expdb_ok (op : db_op) (i : Z)
    (F : gmap bytes Z -> gmap bytes Z) (R : gmap bytes Z -> Z) :
  0 <= i < sv_dbcnt (w_svr w) ->
  (forall d m, exp_inv d -> let '(rt, d', _) := op d m in
    exp_inv d' /\ eview d' = F (eview d) /\ rt = R (eview d)) ->
  wp (on_expdb op i) (fun rt w' =>
    db_step w w' (put_exp i (F (aexp (abs w) i)) (abs w)) /\ rt = R (aexp (abs w) i)) w.
Proof.
  intros Hi Hop. destruct (expdb_lookup i Hi) as (d & Hd & Hinv & Ha).
  unfold wp, on_expdb. rewrite Hd, Ha. specialize (Hop d (sv_items (w_svr w)) Hinv).
  destruct (op d _) as [[rt d'] m]. destruct Hop as (Hi' & Hv & ->). split; [|done].
  destruct W as [[] ? ?]. split; [|done|by destruct w as [[] ?]|].
  - split; [|done|done]. split; try done; cbn; [by rewrite zlen_zupd|by apply Forall_zupd].
  - unfold abs, put_exp; cbn. by rewrite zupd_fmap, Hv.
Qed.

Lemma get_time_ok :
  wp fk_util_get_time (fun tv w' =>
    db_step w w' (tick (abs w)) /\ tv = sv_clock (w_svr w) (sv_ticks (w_svr w))) w.
Proof.
  unfold wp, fk_util_get_time. cbn. split; [|done].
  destruct W as [[] ? ?]. split; [by split|done|by destruct w as [[] ?]|done].
Qed.

Lemma item_create_ok : wp item_create (fun _ w' => db_step w w' (abs w)) w.
Proof.
  unfold wp, item_create. destruct (fk_item_create _) as [i m].
  destruct W as [[] ? ?]. split; [by split|done|by destruct w as [[] ?]|done].
Qed.

Lemma on_items_ok f : wp (on_items f) (fun _ w' => db_step w w' (abs w)) w.
Proof.
  unfold wp, on_items, mod_svr, st_mod. destruct W as [[] ? ?].
  split; [by split|done|by destruct w as [[] ?]|done].
Qed.
End databases.

(** *** What each operation does to a dictionary of the store *)

Section dict_ops.
Implicit Type d : fk_dict sitem item.

Lemma dict_replace_db id k x d m : arg_ok k -> ent_ok (i_ent x) -> db_inv d ->
  let '(rt, d', _) := dict_replace (SItem id k) x d m in
  db_inv d' /\ dview d' = <[k := item_val x]> (dview d) /\
  rt = match dview d !! k with Some _ => 1 | None => 0 end.
Proof.
  intros Hk Hx [Hw He]. unfold dict_replace.
  pose proof (fk_dict_replace_spec db_dict_eop s_str key_ok d (SItem id k) x m Hw
    (arg_ok_key id k Hk)) as Hs.
  destruct (fk_dict_replace _ _ _ _ _) as [[rt d'] m']. destruct Hs as (Hw' & Hm & ->). split_and!.
  - split; [done|]. rewrite Hm. by apply map_Forall_insert_2.
  - unfold dview. by rewrite Hm, fmap_insert.
  - rewrite dview_lookup. cbn [s_str]. by destruct (_ !! k).
Qed.

Lemma dict_add_db id k x d m : arg_ok k -> ent_ok (i_ent x) -> db_inv d ->
  let '(rt, d', _) := dict_add (SItem id k) x d m in
  db_inv d' /\
  dview d' = match dview d !! k with Some _ => dview d | None => <[k := item_val x]> (dview d) end /\
  rt = match dview d !! k with Some _ => FK_DICT_ERR | None => FK_DICT_OK end.
Proof.
  intros Hk Hx [Hw He]. unfold dict_add.
  pose proof (fk_dict_add_spec db_dict_eop s_str key_ok d (SItem id k) x m Hw
    (arg_ok_key id k Hk)) as Hs.
  destruct (fk_dict_add _ _ _ _ _) as [[rt d'] m']. destruct Hs as [Hw' Hs].
  rewrite dview_lookup. cbn [s_str] in Hs. destruct (dmap s_str d !! k) eqn:E; cbn.
  - destruct Hs as (-> & Hm & _). split_and!; [split; [done|by rewrite Hm]| |done].
    unfold dview. by rewrite Hm.
  - destruct Hs as (-> & Hm & _). split_and!; [split; [done|]| |done].
    + rewrite Hm. by apply map_Forall_insert_2.
    + unfold dview. by rewrite Hm, fmap_insert.
Qed.

Lemma dict_remove_db id k d m : str_ok k -> db_inv d ->
  let '(rt, d', _) := dict_remove (SItem id k) d m in
  db_inv d' /\ dview d' = delete k (dview d) /\
  rt = match dview d !! k with Some _ => FK_DICT_OK | None => FK_DICT_ERR end.
Proof.
  intros Hk [Hw He]. unfold dict_remove.
  pose proof (fk_dict_remove_spec db_dict_eop s_str key_ok d (SItem id k) m Hw
    Hk) as Hs.
  destruct (fk_dict_remove _ _ _ _) as [[rt d'] m']. destruct Hs as (Hw' & Hm & ->). split_and!.
  - split; [done|]. rewrite Hm. by apply map_Forall_delete.
  - unfold dview. by rewrite Hm, fmap_delete.
  - rewrite dview_lookup. cbn [s_str]. by destruct (_ !! k).
Qed.

Lemma dict_empty_db d m : db_inv d ->
  let '(rt, d', _) := dict_empty d m in db_inv d' /\ dview d' = ∅ /\ rt = FK_DICT_OK.
Proof.
  intros _. cbn. split_and!; [|done|done]. split; [apply fk_dict_init_wf|].
  rewrite fk_dict_init_dmap. apply map_Forall_empty.
Qed.

Lemma dict_set_entity_db id k t d m : arg_ok k -> ent_ok t -> db_inv d ->
  is_Some (dview d !! k) ->
  let '(rt, d', _) := dict_set_entity (SItem id k) t d m in
  db_inv d' /\ dview d' = <[k := ent_val t]> (dview d) /\ rt = FK_DICT_OK.
Proof.
  intros Hk Ht [Hw He] Hs. rewrite dview_lookup, fmap_is_Some in Hs.
  unfold dict_set_entity. pose proof (arg_ok_key id k Hk) as Hko.
  pose proof (fk_dict_search_spec db_dict_eop s_str key_ok d (SItem id k) Hw Hko) as Hf.
  cbn [s_str] in Hf. destruct Hs as [x Hx]. rewrite Hx in Hf. destruct Hf as (kv & -> & _ & Hkv).
  destruct (overwrite_spec db_dict_eop s_str key_ok d (SItem id k) (Item (i_id kv.2) t) Hw Hko)
    as [Hw' Hm]; [cbn [s_str]; by rewrite Hx|]. split_and!; [|by unfold dview; rewrite Hm, fmap_insert|done].
  split; [done|]. rewrite Hm. by apply map_Forall_insert_2.
Qed.

Lemma dict_replace_exp id k x d m n : arg_ok k -> i_ent x = EntNum n -> exp_inv d ->
  let '(rt, d', _) := dict_replace (SItem id k) x d m in
  exp_inv d' /\ eview d' = <[k := n]> (eview d) /\
  rt = match eview d !! k with Some _ => 1 | None => 0 end.
Proof.
  intros Hk Hx [Hw He]. unfold dict_replace.
  pose proof (fk_dict_replace_spec db_dict_eop s_str key_ok d (SItem id k) x m Hw
    (arg_ok_key id k Hk)) as Hs.
  destruct (fk_dict_replace _ _ _ _ _) as [[rt d'] m']. destruct Hs as (Hw' & Hm & ->). split_and!.
  - split; [done|]. rewrite Hm. apply map_Forall_insert_2; [by exists n|done].
  - unfold eview. rewrite Hm, fmap_insert. unfold item_num. by rewrite Hx.
  - rewrite eview_lookup. cbn [s_str]. by destruct (_ !! k).
Qed.

Lemma dict_remove_exp id k d m : str_ok k -> exp_inv d ->
  let '(rt, d', _) := dict_remove (SItem id k) d m in
  exp_inv d' /\ eview d' = delete k (eview d) /\
  rt = match eview d !! k with Some _ => FK_DICT_OK | None => FK_DICT_ERR end.
Proof.
  intros Hk [Hw He]. unfold dict_remove.
  pose proof (fk_dict_remove_spec db_dict_eop s_str key_ok d (SItem id k) m Hw
    Hk) as Hs.
  destruct (fk_dict_remove _ _ _ _) as [[rt d'] m']. destruct Hs as (Hw' & Hm & ->). split_and!.
  - split; [done|]. rewrite Hm. by apply map_Forall_delete.
  - unfold eview. by rewrite Hm, fmap_delete.
  - rewrite eview_lookup. cbn [s_str]. by destruct (_ !! k).
Qed.

Lemma dict_empty_exp d m : exp_inv d ->
  let '(rt, d', _) := dict_empty d m in exp_inv d' /\ eview d' = ∅ /\ rt = FK_DICT_OK.
Proof.
  intros _. cbn. split_and!; [|done|done]. split; [apply fk_dict_init_wf|].
  rewrite fk_dict_init_dmap. apply map_Forall_empty.
Qed.
End dict_ops.

(** ** Handlers *)

(** What a handler did: [A rt a'] says to which store it leads, [s] is its reply. *)
Record handled (w : world) (A : Z -> astate -> Prop) (s : list cell) (rt : Z) (w' : world) : Prop := {
  hd_ok : world_ok w';
  hd_frame : svr_frame (w_svr w) (w_svr w');
  hd_conn : w_conn w' = cn_db_idx (cn_wbuf (w_conn w) (c_wbuf (w_conn w'))) (c_db_idx (w_conn w'));
  hd_rsp : answered (c_wbuf (w_conn w)) (c_wbuf (w_conn w')) rt s;
  hd_abs : A rt (abs w')
}.

(** The store does not depend on whether the reply fits. *)
Definition to (a : astate) : Z -> astate -> Prop := fun _ a' => a' = a.

(** [rt] is OK or ERR; the store is [a] in the first case. *)
Definition to_ok (a : astate) (E : astate -> Prop) : Z -> astate -> Prop := fun rt a' =>
  if rt =? FK_SVR_OK then a' = a else E a'.

Lemma answered_ret b b' rt s : answered b b' rt s -> ret_rsp rt = rt.
Proof. by intros (_ & _ & _ & [[-> _]|[-> _]]). Qed.

Lemma answered_trans b b1 b2 rt s1 s2 :
  answered b b1 FK_SVR_OK s1 -> answered b1 b2 rt s2 -> answered b b2 rt (s1 ++ s2).
Proof.
  intros (W1 & H1 & L1 & [[_ P1]|[? _]]) (W2 & H2 & L2 & Hc); [|done].
  split_and!; [done|congruence|lia|].
  destruct Hc as [[-> P2]|(-> & (p & Hp & P2) & Hw)]; [left|right].
  - split; [done|]. by rewrite P2, P1, app_assoc.
  - split_and!; [done| |done]. exists (s1 ++ p). split; [by apply prefix_app|].
    by rewrite P2, P1, app_assoc.
Qed.

(** A failed first part is a failed whole. *)
Lemma answered_err b b1 s1 s2 : answered b b1 FK_SVR_ERR s1 -> answered b b1 FK_SVR_ERR (s1 ++ s2).
Proof.
  intros (W1 & H1 & L1 & [[? _]|(_ & (p & Hp & P) & Hw)]); [done|].
  split_and!; [done|done|done|]. right. split_and!; [done| |done].
  exists p. split; [by apply prefix_app_r|done].
Qed.

Lemma answered_codes b b' rt s : answered b b' rt s -> rt = FK_SVR_OK \/ rt = FK_SVR_ERR.
Proof. intros (_ & _ & _ & [[-> _]|[-> _]]); auto. Qed.

Lemma world_ok_wbuf w b :
  world_ok w -> wbuf_inv b -> world_ok (w_set_conn w (cn_wbuf (w_conn w) b)).
Proof. intros [] Hb. by split. Qed.

(** A reply after a store step ends the handler. *)
Lemma handled_reply w w1 a1 s rt w2 :
  db_step w w1 a1 -> rsp_post w1 s rt w2 -> handled w (to a1) s rt w2.
Proof.
  intros [O1 C1 F1 A1] (b & -> & Hb). split; cbn.
  - apply world_ok_wbuf; [done|apply Hb].
  - done.
  - by rewrite C1; destruct (w_conn w).
  - by rewrite <- C1.
  - by rewrite <- A1.
Qed.

(** The common end of the handlers: [rt = reply; return ...]. *)
Lemma wp_reply_end w w1 a1 s (reply : ST world Z) :
  db_step w w1 a1 -> wp reply (rsp_post w1 s) w1 ->
  wp (rt ← reply; mret (ret_rsp rt)) (handled w (to a1) s) w1.
Proof.
  intros Hs Hr. apply (wp_seq _ _ (rsp_post w1 s)); [done|]. intros rt w2 Hp. apply wp_ret.
  destruct Hp as (b & -> & Hb). rewrite (answered_ret _ _ _ _ Hb).
  eapply handled_reply; [done|]. by exists b.
Qed.

(** A bulk reply: the header, then the text. *)
Definition bulk_reply (len : Z) (s : bytes) : ST world Z :=
  rt ← fk_conn_add_bulk_rsp (i32 len);
  if rt =? FK_SVR_ERR then mret FK_SVR_ERR
  else rt ← fk_conn_add_content_rsp s len; mret (ret_rsp rt).

Definition string_rsp (s : bytes) : list cell := bulk_rsp (zlen s) ++ content_rsp s.

Lemma arg_len s : arg_ok s -> 0 <= zlen s <= 2 ^ 20.
Proof. unfold arg_ok, FK_ARG_HIGHWAT. pose proof (zlen_nonneg s). lia. Qed.

Lemma wp_bulk_reply w s :
  world_ok w -> arg_ok s -> wp (bulk_reply (zlen s) s) (rsp_post w (string_rsp s)) w.
Proof.
  intros W Hs%arg_len. unfold bulk_reply. rewrite i32_small by lia.
  apply (wp_seq _ _ (rsp_post w (bulk_rsp (zlen s)))); [apply wp_bulk; [apply W|lia]|].
  intros rt w1 (b & -> & Hb). destruct (answered_codes _ _ _ _ Hb) as [->| ->]; cbn [Z.eqb FK_SVR_OK FK_SVR_ERR Pos.eqb].
  - set (w1 := w_set_conn _ _). apply (wp_seq _ _ (rsp_post w1 (content_rsp s))).
    + apply wp_content; [apply Hb|lia].
    + intros rt w2 (b2 & -> & Hb2). apply wp_ret. rewrite (answered_ret _ _ _ _ Hb2).
      exists b2. split; [by destruct w as [? []]|]. by eapply answered_trans.
  - apply wp_ret. exists b. split; [done|]. by apply answered_err.
Qed.

(** Reading the request. *)
Section request.
Context (w : world) (l : list bytes) (A : args_ok (w_conn w) l).

Lemma get_arg_ok i a : znth l i = Some a ->
  exists id, fk_conn_get_arg i w = Some (SItem id a, w) /\ arg_ok a.
Proof.
  intros Hi. destruct (ao_at _ _ A i a Hi) as [id Hid]. exists id.
  unfold fk_conn_get_arg. rewrite Hid. split; [done|].
  by eapply Forall_znth; [apply A|].
Qed.

Lemma wp_get_arg {B} i a (k : sitem -> ST world B) Q : znth l i = Some a ->
  (forall id, arg_ok a -> wp (k (SItem id a)) Q w) -> wp (x ← fk_conn_get_arg i; k x) Q w.
Proof. intros Hi Hk. destruct (get_arg_ok i a Hi) as (id & He & Ho). eapply wp_step; [done|]. auto. Qed.
End request.

Lemma args_ok_conn c c' l : args_ok c l -> c_arg_vtr c' = c_arg_vtr c -> c_arg_cnt c' = c_arg_cnt c ->
  args_ok c' l.
Proof. intros [] E1 E2. split; rewrite ?E1, ?E2; done. Qed.

(** ** The selected database *)

Section current.
Context (w : world) (W : world_ok w).
Abbreviation idx := (c_db_idx (w_conn w)).

Lemma wp_on_db (op : db_op) (F : gmap bytes val -> gmap bytes val) (R : gmap bytes val -> Z)
    {B} (k : Z -> ST world B) Q :
  (forall d m, db_inv d -> dview d = cur_db (abs w) -> let '(rt, d', _) := op d m in
    db_inv d' /\ dview d' = F (dview d) /\ rt = R (dview d)) ->
  (forall w', db_step w w' (put_cur (F (cur_db (abs w))) (abs w)) ->
    wp (k (R (cur_db (abs w)))) Q w') ->
  wp (rt ← on_db op idx; k rt) Q w.
Proof.
  intros Hop Hk. eapply wp_seq; [apply (on_db_ok w W op idx F R); [apply W|done]|].
  intros rt w' [Hs ->]. by apply Hk.
Qed.

Lemma wp_on_expdb (op : db_op) (F : gmap bytes Z -> gmap bytes Z) (R : gmap bytes Z -> Z)
    {B} (k : Z -> ST world B) Q :
  (forall d m, exp_inv d -> let '(rt, d', _) := op d m in
    exp_inv d' /\ eview d' = F (eview d) /\ rt = R (eview d)) ->
  (forall w', db_step w w' (put_cur_exp (F (cur_exp (abs w))) (abs w)) ->
    wp (k (R (cur_exp (abs w)))) Q w') ->
  wp (rt ← on_expdb op idx; k rt) Q w.
Proof.
  intros Hop Hk. eapply wp_seq; [apply (on_expdb_ok w W op idx F R); [apply W|done]|].
  intros rt w' [Hs ->]. by apply Hk.
Qed.

(** The operations on the selected database. *)
Lemma wp_db_replace id k x {B} (kont : Z -> ST world B) Q :
  arg_ok k -> ent_ok (i_ent x) ->
  (forall rt w', db_step w w' (put_cur (<[k := item_val x]> (cur_db (abs w))) (abs w)) ->
    wp (kont rt) Q w') ->
  wp (rt ← on_db (dict_replace (SItem id k) x) idx; kont rt) Q w.
Proof.
  intros Hk Hx H. apply (wp_on_db _ (fun m => <[k := item_val x]> m)
    (fun m => match m !! k with Some _ => 1 | None => 0 end)); [|auto].
  intros d m Hd _. by apply dict_replace_db.
Qed.

Lemma wp_db_add id k x {B} (kont : Z -> ST world B) Q :
  arg_ok k -> ent_ok (i_ent x) -> cur_db (abs w) !! k = None ->
  (forall w', db_step w w' (put_cur (<[k := item_val x]> (cur_db (abs w))) (abs w)) ->
    wp (kont FK_DICT_OK) Q w') ->
  wp (rt ← on_db (dict_add (SItem id k) x) idx; kont rt) Q w.
Proof.
  intros Hk Hx Hn H. apply (wp_on_db _ (fun m => <[k := item_val x]> m) (fun _ => FK_DICT_OK));
    [|done].
  intros d m Hd Hm. pose proof (dict_add_db id k x d m Hk Hx Hd) as Ha.
  destruct (dict_add _ _ _ _) as [[rt d'] m']. by rewrite Hm, Hn in *.
Qed.

Lemma wp_db_remove id k {B} (kont : Z -> ST world B) Q :
  str_ok k ->
  (forall w', db_step w w' (put_cur (delete k (cur_db (abs w))) (abs w)) ->
    wp (kont (match cur_db (abs w) !! k with Some _ => FK_DICT_OK | None => FK_DICT_ERR end)) Q w') ->
  wp (rt ← on_db (dict_remove (SItem id k)) idx; kont rt) Q w.
Proof.
  intros Hk H. apply (wp_on_db _ (fun m => delete k m)
    (fun m => match m !! k with Some _ => FK_DICT_OK | None => FK_DICT_ERR end)); [|done].
  intros d m Hd _. by apply dict_remove_db.
Qed.

Lemma wp_db_empty {B} (kont : Z -> ST world B) Q :
  (forall rt w', db_step w w' (put_cur ∅ (abs w)) -> wp (kont rt) Q w') ->
  wp (rt ← on_db dict_empty idx; kont rt) Q w.
Proof.
  intros H. apply (wp_on_db _ (fun _ => ∅) (fun _ => FK_DICT_OK)); [|auto].
  intros d m Hd _. by apply dict_empty_db.
Qed.

Lemma wp_db_set_entity id k t {B} (kont : Z -> ST world B) Q :
  arg_ok k -> ent_ok t -> is_Some (cur_db (abs w) !! k) ->
  (forall rt w', db_step w w' (put_cur (<[k := ent_val t]> (cur_db (abs w))) (abs w)) ->
    wp (kont rt) Q w') ->
  wp (rt ← on_db (dict_set_entity (SItem id k) t) idx; kont rt) Q w.
Proof.
  intros Hk Ht Hs H. apply (wp_on_db _ (fun m => <[k := ent_val t]> m) (fun _ => FK_DICT_OK));
    [|auto].
  intros d m Hd Hm. apply dict_set_entity_db; try done. by rewrite Hm.
Qed.

Lemma wp_exp_replace id k x n {B} (kont : Z -> ST world B) Q :
  arg_ok k -> i_ent x = EntNum n ->
  (forall rt w', db_step w w' (put_cur_exp (<[k := n]> (cur_exp (abs w))) (abs w)) ->
    wp (kont rt) Q w') ->
  wp (rt ← on_expdb (dict_replace (SItem id k) x) idx; kont rt) Q w.
Proof.
  intros Hk Hx H. apply (wp_on_expdb _ (fun m => <[k := n]> m)
    (fun m => match m !! k with Some _ => 1 | None => 0 end)); [|auto].
  intros d m Hd. by apply dict_replace_exp.
Qed.

Lemma wp_exp_remove id k {B} (kont : Z -> ST world B) Q :
  str_ok k ->
  (forall rt w', db_step w w' (put_cur_exp (delete k (cur_exp (abs w))) (abs w)) ->
    wp (kont rt) Q w') ->
  wp (rt ← on_expdb (dict_remove (SItem id k)) idx; kont rt) Q w.
Proof.
  intros Hk H. apply (wp_on_expdb _ (fun m => delete k m)
    (fun m => match m !! k with Some _ => FK_DICT_OK | None => FK_DICT_ERR end)); [|auto].
  intros d m Hd. by apply dict_remove_exp.
Qed.

Lemma wp_exp_empty {B} (kont : Z -> ST world B) Q :
  (forall rt w', db_step w w' (put_cur_exp ∅ (abs w)) -> wp (kont rt) Q w') ->
  wp (rt ← on_expdb dict_empty idx; kont rt) Q w.
Proof.
  intros H. apply (wp_on_expdb _ (fun _ => ∅) (fun _ => FK_DICT_OK)); [|auto].
  intros d m Hd. by apply dict_empty_exp.
Qed.

Lemma wp_db_get id key {B} (k : option item -> ST world B) Q :
  str_ok key ->
  (forall o, cur_db (abs w) !! key = item_val <$> o -> (forall x, o = Some x -> ent_ok (i_ent x)) ->
    wp (k o) Q w) ->
  wp (o ← db_get idx (SItem id key); k o) Q w.
Proof.
  intros Hkey Hk. destruct (db_get_ok w W idx id key) as (o & Ho & Hv & He); [apply W|done|].
  eapply wp_step; [done|]. by apply Hk.
Qed.

Lemma wp_expdb_get id key {B} (k : option item -> ST world B) Q :
  str_ok key ->
  (forall o, cur_exp (abs w) !! key = item_num <$> o ->
    (forall x, o = Some x -> exists n, i_ent x = EntNum n) -> wp (k o) Q w) ->
  wp (o ← expdb_get idx (SItem id key); k o) Q w.
Proof.
  intros Hkey Hk. destruct (expdb_get_ok w W idx id key) as (o & Ho & Hv & He); [apply W|done|].
  eapply wp_step; [done|]. by apply Hk.
Qed.

Lemma wp_get_time {B} (k : timeval -> ST world B) Q :
  (forall w', db_step w w' (tick (abs w)) ->
    wp (k (sv_clock (w_svr w) (a_ticks (abs w)))) Q w') ->
  wp (tv ← fk_util_get_time; k tv) Q w.
Proof.
  intros Hk. eapply wp_seq; [by apply get_time_ok|]. intros tv w' [Hs ->]. by apply Hk.
Qed.

Lemma wp_item_create {B} (k : Z -> ST world B) Q :
  (forall i w', db_step w w' (abs w) -> wp (k i) Q w') -> wp (i ← item_create; k i) Q w.
Proof. intros Hk. eapply wp_seq; [by apply item_create_ok|]. auto. Qed.
End current.

Lemma wp_get_idx {B} (k : Z -> ST world B) Q w :
  wp (k (c_db_idx (w_conn w))) Q w -> wp (i ← get_db_idx; k i) Q w.
Proof. done. Qed.

Lemma wp_get_cnt l {B} (k : Z -> ST world B) Q w :
  args_ok (w_conn w) l -> wp (k (zlen l)) Q w -> wp (n ← get_arg_cnt; k n) Q w.
Proof. intros A H. eapply wp_step; [done|]. by rewrite (ao_cnt _ _ A). Qed.

(** The arguments stay while the store changes. *)
Lemma args_ok_step w w' a l : args_ok (w_conn w) l -> db_step w w' a -> args_ok (w_conn w') l.
Proof. intros A [_ -> _ _]. done. Qed.

Lemma ent_ok_str id s : arg_ok s -> ent_ok (i_ent (item_of_s (SItem id s))).
Proof. done. Qed.

Lemma nul_free_dec (s : bytes) : forallb (fun c => negb (Ascii.eqb c NUL)) s = true -> nul_free s.
Proof.
  intros H Hin. rewrite forallb_forall in H. apply list_elem_of_In in Hin.
  apply H in Hin. by rewrite ascii_eqb_refl in Hin.
Qed.

(** Replies with a constant text. *)
Lemma wp_status_const w s :
  world_ok w -> forallb (fun c => negb (Ascii.eqb c NUL)) s && (zlen s <=? 2 ^ 20) = true ->
  wp (fk_conn_add_status_rsp s (zlen s)) (rsp_post w (status_rsp s)) w.
Proof.
  intros W [Hn Hl]%andb_true_iff. apply wp_status; [apply W|by apply nul_free_dec|lia].
Qed.

Lemma wp_error_const w s :
  world_ok w -> forallb (fun c => negb (Ascii.eqb c NUL)) s && (zlen s <=? 2 ^ 20) = true ->
  wp (fk_conn_add_error_rsp s (zlen s)) (rsp_post w (error_rsp s)) w.
Proof.
  intros W [Hn Hl]%andb_true_iff. apply wp_error; [apply W|by apply nul_free_dec|lia].
Qed.

Lemma wp_int_ok w n : world_ok w -> - 2 ^ 31 <= n < 2 ^ 31 ->
  wp (fk_conn_add_int_rsp n) (rsp_post w (int_rsp n)) w.
Proof. intros W Hn. apply wp_int; [apply W|done]. Qed.

Lemma wp_bulk_ok w n : world_ok w -> - 2 ^ 31 <= n < 2 ^ 31 ->
  wp (fk_conn_add_bulk_rsp n) (rsp_post w (bulk_rsp n)) w.
Proof. intros W Hn. apply wp_bulk; [apply W|done]. Qed.

Lemma wp_nil_ok w : world_ok w -> wp (fk_conn_add_bulk_rsp FK_RSP_NIL) (rsp_post w (bulk_rsp FK_RSP_NIL)) w.
Proof. intros W. by apply wp_bulk_ok. Qed.

#[export] Hint Resolve ds_ok args_ok_step ent_ok_str db_step_refl : fk.
#[export] Hint Resolve wp_nil_ok wp_int_ok wp_bulk_reply : fk.
#[export] Hint Extern 1 (wp (fk_conn_add_status_rsp _ _) _ _) =>
  apply wp_status_const; [|vm_compute; reflexivity] : fk.
#[export] Hint Extern 1 (wp (fk_conn_add_error_rsp _ _) _ _) =>
  apply wp_error_const; [|vm_compute; reflexivity] : fk.

(** Read the [i]-th argument of the request [A]. *)
Ltac wp_arg A id Hok := eapply (wp_get_arg _ _ A); [reflexivity|]; intros id Hok.

(** Compose the steps [H1 : db_step w w1 a1] and [H2 : db_step w1 w2 a2] into [H1];
    the goal speaks of the connection of [w1] afterwards. *)
Ltac step_trans H1 H2 :=
  rewrite (ds_abs _ _ _ H1) in H2;
  let H := fresh in pose proof (db_step_trans _ _ _ _ _ H1 H2) as H;
  clear H1 H2; rename H into H1.
Ltac step_conn H := rewrite <- (ds_conn _ _ _ H).

(** *** Handlers with several replies *)

Lemma handled_start w w1 a1 s rt w2 :
  db_step w w1 a1 -> rsp_post w1 s rt w2 -> handled w (to a1) s rt w2.
Proof. apply handled_reply. Qed.

Lemma handled_snoc w w1 w2 w3 a1 a2 s1 s2 rt :
  handled w (to a1) s1 FK_SVR_OK w1 -> db_step w1 w2 a2 -> rsp_post w2 s2 rt w3 ->
  handled w (to a2) (s1 ++ s2) rt w3.
Proof.
  intros [O1 F1 C1 R1 A1] H2 Hr. destruct (handled_reply _ _ _ _ _ _ H2 Hr) as [O F C R A].
  split; [done|by eapply svr_frame_trans| |by eapply answered_trans|done].
  rewrite C, C1. by destruct (w_conn w).
Qed.

Lemma handled_fail w a a' s s' w1 (E : astate -> Prop) :
  E a -> handled w (to a) s FK_SVR_ERR w1 -> handled w (to_ok a' E) (s ++ s') FK_SVR_ERR w1.
Proof. intros He [O F C R A]. split; try done; [by apply answered_err|]. cbn. by rewrite A. Qed.

Lemma handled_done w a s w1 E :
  handled w (to a) s FK_SVR_OK w1 -> handled w (to_ok a E) s FK_SVR_OK w1.
Proof. intros [O F C R A]. by split. Qed.

Lemma handled_weaken w (A A' : Z -> astate -> Prop) s rt w1 :
  (forall x, A rt x -> A' rt x) -> handled w A s rt w1 -> handled w A' s rt w1.
Proof. intros H [O F C R HA]. split; try done. by apply H. Qed.

Lemma handled_args w A s rt w1 l : handled w A s rt w1 -> args_ok (w_conn w) l -> args_ok (w_conn w1) l.
Proof. intros [_ _ C _ _] HA. eapply args_ok_conn; [done|by rewrite C..]. Qed.

Lemma handled_codes w A s rt w1 : handled w A s rt w1 -> rt = FK_SVR_OK \/ rt = FK_SVR_ERR.
Proof. intros [_ _ _ R _]. by eapply answered_codes. Qed.

(** ** A small server with a request, for the examples *)

Definition ex_args (l : list bytes) : fk_vtr sitem :=
  FkVtr FK_VTR_INIT_LEN ((fun a => Some (SItem 0 a)) <$> l).

Definition ex_with (s : fk_svr) (l : list bytes) : world :=
  World s (cn_parse_done (cn_arg_parsed (cn_arg_cnt (cn_arg_vtr (ex_conn []) (ex_args l)) (zlen l))
    (zlen l)) 1).
Definition ex_req (l : list bytes) : world := ex_with ex_svr l.

Lemma ex_args_ok s l :
  forallb (fun a => zlen a <=? FK_ARG_HIGHWAT) l && (zlen l <=? FK_ARG_CNT_HIGHWAT) = true ->
  args_ok (w_conn (ex_with s l)) l.
Proof.
  intros [H1 H2]%andb_true_iff. split; [|done| |bool_lia].
  - intros i a Ha. exists 0. cbn. unfold fk_vtr_get, ex_args. cbn. by rewrite znth_fmap, Ha.
  - apply Forall_forall. intros a Ha. rewrite forallb_forall in H1.
    apply list_elem_of_In, H1 in Ha. unfold arg_ok. bool_lia.
Qed.

Lemma empty_db_inv : db_inv fk_dict_init.
Proof. split; [apply fk_dict_init_wf|]. rewrite fk_dict_init_dmap. apply map_Forall_empty. Qed.

Lemma empty_exp_inv : exp_inv fk_dict_init.
Proof. split; [apply fk_dict_init_wf|]. rewrite fk_dict_init_dmap. apply map_Forall_empty. Qed.

Lemma ex_svr_inv : svr_inv ex_svr.
Proof.
  split; [vm_compute; split; congruence|done|done| |];
    repeat constructor; (apply empty_db_inv || apply empty_exp_inv).
Qed.

Lemma ex_with_ok s l : svr_inv s -> world_ok (ex_with s l).
Proof.
  intros H. pose proof (si_dbcnt _ H). split; [done|cbn; lia|].
  split; [apply fk_buf_create_wf; unfold FK_BUF_INIT_LEN; lia|vm_compute; split; congruence|].
  vm_compute. congruence.
Qed.

Lemma ex_req_ok l : world_ok (ex_req l).
Proof. apply ex_with_ok, ex_svr_inv. Qed.

#[export] Hint Resolve ex_req_ok : fk.
#[export] Hint Extern 1 (args_ok (w_conn (ex_req _)) _) =>
  apply ex_args_ok; vm_compute; reflexivity : fk.
