(* ===== verification/CmdStr.v ===== *)
(** Models src/src/fk_svr_str.c: SET, SETNX, SETEX, MSET, MGET, GET and the removal
    of expired keys.  [Spec] states each command on the abstract store. *)
From S2P Require Import Prelude Util Buf Dict Item Conf Svr Req Parse Store.

(** ** The handlers *)

Definition fk_cmd_set : ST world Z :=
  idx ← get_db_idx;
  key ← fk_conn_get_arg 1;
  value ← fk_conn_get_arg 2;
  _ ← on_db (dict_replace key (item_of_s value)) idx;
  rt ← fk_conn_add_status_rsp FK_RSP_OK (zlen FK_RSP_OK);
  mret (ret_rsp rt).

Definition fk_cmd_setnx : ST world Z :=
  idx ← get_db_idx;
  key ← fk_conn_get_arg 1;
  value ← db_get idx key;
  match value with
  | Some _ =>
      rt ← fk_conn_add_int_rsp 0;
      mret (ret_rsp rt)
  | None =>
      value ← fk_conn_get_arg 2;
      _ ← on_db (dict_add key (item_of_s value)) idx;
      rt ← fk_conn_add_int_rsp 1;
      mret (ret_rsp rt)
  end.

(** Signed overflow of [exp_secs * 1000 + ...] is taken to wrap around. *)
Definition fk_cmd_setex : ST world Z :=
  idx ← get_db_idx;
  key ← fk_conn_get_arg 1;
  exp ← fk_conn_get_arg 2;
  value ← fk_conn_get_arg 3;
  let exp_secs := atol (s_str exp) in
  now ← fk_util_get_time;
  let exp_millis := i64 (exp_secs * 1000 + fk_util_tv2millis now) in
  i ← item_create;
  let exp_item := Item i (EntNum exp_millis) in
  _ ← on_db (dict_replace key (item_of_s value)) idx;
  _ ← on_expdb (dict_replace key exp_item) idx;
  rt ← fk_conn_add_status_rsp FK_RSP_OK (zlen FK_RSP_OK);
  mret (ret_rsp rt).

(** [for (i = 1; i < conn->arg_cnt; i += 2)]; [n] bounds the number of turns. *)
Fixpoint mset_loop (n : nat) (idx i : Z) : ST world unit :=
  match n with
  | O => mret tt
  | S n' =>
      cnt ← get_arg_cnt;
      if i <? cnt then
        key ← fk_conn_get_arg i;
        value ← fk_conn_get_arg (i + 1);
        _ ← on_db (dict_replace key (item_of_s value)) idx;
        mset_loop n' idx (i + 2)
      else mret tt
  end.

Definition fk_cmd_mset : ST world Z :=
  idx ← get_db_idx;
  cnt ← get_arg_cnt;
  if negb (Z.rem (cnt - 1) 2 =? 0) then
    rt ← fk_conn_add_error_rsp FK_RSP_ARGC_ERR (zlen FK_RSP_ARGC_ERR);
    mret (ret_rsp rt)
  else
    _ ← mset_loop (Z.to_nat cnt) idx 1;
    rt ← fk_conn_add_status_rsp FK_RSP_OK (zlen FK_RSP_OK);
    mret (ret_rsp rt).

(** The number behind an expiry item; another type is read as garbage. *)
Definition exp_raw (x : item) : option Z :=
  match i_ent x with EntNum n => Some n | _ => None end.

Definition fk_handle_expired_key (idx : Z) (key : sitem) : ST world Z :=
  exp ← expdb_get idx key;
  expired ← match exp with
            | Some x =>
                exp_millis ← st_lift (exp_raw x);
                now ← fk_util_get_time;
                let now_millis := fk_util_tv2millis now in
                mret (if exp_millis <? now_millis then 1 else 0)
            | None => mret 0
            end;
  if expired =? 1 then
    _ ← on_db (dict_remove key) idx;
    _ ← on_expdb (dict_remove key) idx;
    mret expired
  else mret expired.

Fixpoint mget_loop (n : nat) (idx i : Z) : ST world Z :=
  match n with
  | O => mret FK_SVR_OK
  | S n' =>
      cnt ← get_arg_cnt;
      if i <? cnt then
        key ← fk_conn_get_arg i;
        expired ← fk_handle_expired_key idx key;
        value ← (if expired =? 0 then db_get idx key else mret None);
        rt ← match value with
             | None => rt ← fk_conn_add_bulk_rsp FK_RSP_NIL; mret (ret_rsp rt)
             | Some v =>
                 match i_ent v with
                 | EntStr ss => bulk_reply (zlen ss) ss
                 | _ => rt ← fk_conn_add_bulk_rsp FK_RSP_NIL; mret (ret_rsp rt)
                 end
             end;
        if rt =? FK_SVR_ERR then mret FK_SVR_ERR else mget_loop n' idx (i + 1)
      else mret FK_SVR_OK
  end.

Definition fk_cmd_mget : ST world Z :=
  idx ← get_db_idx;
  cnt ← get_arg_cnt;
  rt ← fk_conn_add_mbulk_rsp (cnt - 1);
  if rt =? FK_SVR_ERR then mret FK_SVR_ERR else mget_loop (Z.to_nat cnt) idx 1.

Definition fk_cmd_get : ST world Z :=
  idx ← get_db_idx;
  key ← fk_conn_get_arg 1;
  expired ← fk_handle_expired_key idx key;
  value ← (if expired =? 0 then db_get idx key else mret None);
  match value with
  | None => rt ← fk_conn_add_bulk_rsp FK_RSP_NIL; mret (ret_rsp rt)
  | Some v =>
      match i_ent v with
      | EntStr ss => bulk_reply (zlen ss) ss
      | _ =>
          rt ← fk_conn_add_error_rsp FK_RSP_TYPE_ERR (zlen FK_RSP_TYPE_ERR);
          mret (ret_rsp rt)
      end
  end.

(** ** What the commands promise *)

Module Spec.
Section spec.
(** The clock in milliseconds. *)
Context (now : nat -> Z).

Definition set (k v : bytes) (a : astate) : astate := put_cur (<[k := VStr v]> (cur_db a)) a.

Definition setex (k v : bytes) (secs : Z) (a : astate) : astate :=
  let t := now (a_ticks a) in
  put_cur_exp (<[k := i64 (secs * 1000 + t)]> (cur_exp a)) (set k v (tick a)).

(** Bindings in the order of the request; a later one wins. *)
Fixpoint mset (kvs : list bytes) (a : astate) : astate :=
  match kvs with
  | k :: v :: kvs' => mset kvs' (set k v a)
  | _ => a
  end.

(** A key whose expiry time has passed is removed when it is read. *)
Definition expire (k : bytes) (a : astate) : bool * astate :=
  match cur_exp a !! k with
  | None => (false, a)
  | Some e =>
      let t := now (a_ticks a) in
      let a := tick a in
      if e <? t then
        let a := put_cur (delete k (cur_db a)) a in
        (true, put_cur_exp (delete k (cur_exp a)) a)
      else (false, a)
  end.

Definition lookup (k : bytes) (a : astate) : option val * astate :=
  let '(gone, a) := expire k a in (if gone then None else cur_db a !! k, a).

Definition get (k : bytes) (a : astate) : list cell * astate :=
  let '(v, a) := lookup k a in
  (match v with
   | None => bulk_rsp FK_RSP_NIL
   | Some (VStr s) => string_rsp s
   | Some _ => error_rsp FK_RSP_TYPE_ERR
   end, a).

Fixpoint mget (ks : list bytes) (a : astate) : list cell * astate :=
  match ks with
  | [] => ([], a)
  | k :: ks' =>
      let '(v, a) := lookup k a in
      let r := match v with Some (VStr s) => string_rsp s | _ => bulk_rsp FK_RSP_NIL end in
      let '(rs, a) := mget ks' a in (r ++ rs, a)
  end.

(** The store when the replies no longer fitted: the first keys were read. *)
Definition mget_part (ks : list bytes) (a a' : astate) : Prop := exists ks', ks' `prefix_of` ks /\ a' = (mget ks' a).2.
End spec.
End Spec.

(** ** The handlers keep the promises *)

Section str_props.
Context (w : world) (W : world_ok w).

Lemma set_ok l c k v : args_ok (w_conn w) l -> l = [c; k; v] ->
  wp fk_cmd_set (handled w (to (Spec.set k v (abs w))) (status_rsp FK_RSP_OK)) w.
Proof.
  intros A ->. unfold fk_cmd_set. apply wp_get_idx. wp_arg A id1 Hk. wp_arg A id2 Hv.
  apply (wp_db_replace w W); [done|done|]. intros rt w1 H1. eapply wp_reply_end; [done|]. eauto with fk.
Qed.

Lemma setnx_ok l c k v : args_ok (w_conn w) l -> l = [c; k; v] ->
  wp fk_cmd_setnx
    (match cur_db (abs w) !! k with
     | Some _ => handled w (to (abs w)) (int_rsp 0)
     | None => handled w (to (Spec.set k v (abs w))) (int_rsp 1)
     end) w.
Proof.
  intros A ->. unfold fk_cmd_setnx. apply wp_get_idx. wp_arg A id1 Hk.
  apply (wp_db_get w W); [done|]. intros [x|] Hx _; rewrite Hx; cbn.
  - apply wp_reply_end; auto with fk. by apply wp_int_ok.
  - wp_arg A id2 Hv.
    apply (wp_db_add w W); [done|done|done|]. intros w1 H1.
    eapply wp_reply_end; [done|]. apply wp_int_ok; eauto with fk. lia.
Qed.

Abbreviation now := (fun n => fk_util_tv2millis (sv_clock (w_svr w) n)).

Lemma setex_ok l c k secs v : args_ok (w_conn w) l -> l = [c; k; secs; v] ->
  wp fk_cmd_setex
    (handled w (to (Spec.setex now k v (atol secs) (abs w))) (status_rsp FK_RSP_OK)) w.
Proof.
  intros A ->. unfold fk_cmd_setex. apply wp_get_idx.
  wp_arg A id1 Hk. wp_arg A id2 Hs. wp_arg A id3 Hv.
  apply (wp_get_time w W). intros w1 H1. step_conn H1.
  apply wp_item_create; [eauto with fk|]. intros i w2 H2. step_conn H2. step_trans H1 H2.
  apply wp_db_replace; [eauto with fk|done|done|]. intros rt w3 H3. step_conn H3. step_trans H1 H3.
  eapply wp_exp_replace; [eauto with fk|done|reflexivity|]. intros rt' w4 H4. step_trans H1 H4.
  eapply wp_reply_end; [exact H1|]. eauto with fk.
Qed.

(** The turns of the loop of MSET. *)
Lemma mset_loop_ok l : args_ok (w_conn w) l -> forall n i kvs w1 a1,
  db_step w w1 a1 -> 0 <= i -> zdrop i l = kvs -> Nat.Even (length kvs) -> (length kvs < n)%nat ->
  wp (mset_loop n (c_db_idx (w_conn w)) i) (fun _ w2 => db_step w w2 (Spec.mset kvs a1)) w1.
Proof.
  intros A. induction n as [|n IH]; intros i kvs w1 a1 H1 Hi Hkvs Hev Hn; [lia|].
  cbn [mset_loop]. pose proof (args_ok_step _ _ _ _ A H1) as A1. apply (wp_get_cnt l); [done|].
  destruct kvs as [|k [|v kvs]].
  - apply zdrop_nil in Hkvs. rewrite (proj2 (Z.ltb_ge _ _)) by lia. by apply wp_ret.
  - by apply Nat.even_spec in Hev.
  - destruct (zdrop_cons _ _ _ _ Hi Hkvs) as (Hk & Hkvs1 & Hil).
    destruct (zdrop_cons (i + 1) _ _ _ ltac:(lia) Hkvs1) as (Hv & Hkvs2 & _).
    rewrite (proj2 (Z.ltb_lt _ _)) by lia.
    eapply (wp_get_arg _ _ A1); [exact Hk|]. intros id1 Ho1.
    eapply (wp_get_arg _ _ A1); [exact Hv|]. intros id2 Ho2. step_conn H1.
    apply wp_db_replace; [eauto with fk|done|done|]. intros rt w2 H2. step_conn H2. step_trans H1 H2.
    rewrite (ds_conn _ _ _ H1). cbn [Spec.mset].
    apply IH; [done|lia|by replace (i + 2) with (i + 1 + 1) by lia| |cbn in Hn; lia].
    apply Nat.even_spec in Hev. by apply Nat.even_spec.
Qed.

Lemma mset_ok l c kvs : args_ok (w_conn w) l -> l = c :: kvs ->
  wp fk_cmd_mset
    (if Nat.even (length kvs) then handled w (to (Spec.mset kvs (abs w))) (status_rsp FK_RSP_OK)
     else handled w (to (abs w)) (error_rsp FK_RSP_ARGC_ERR)) w.
Proof.
  intros A ->. unfold fk_cmd_mset. apply wp_get_idx. apply (wp_get_cnt (c :: kvs)); [done|].
  rewrite zlen_cons. replace (1 + zlen kvs - 1) with (Z.of_nat (length kvs)) by (unfold zlen; lia).
  rewrite rem2_even.
  destruct (Nat.even (length kvs)) eqn:E; cbn [negb].
  - eapply wp_seq; [apply (mset_loop_ok (c :: kvs) A _ 1 kvs w (abs w))|].
    + by apply db_step_refl.
    + lia.
    + done.
    + by apply Nat.even_spec.
    + unfold zlen. lia.
    + intros [] w1 H1. eapply wp_reply_end; [done|]. eauto with fk.
  - apply wp_reply_end; auto with fk.
Qed.

(** Removal of an expired key. *)
Lemma expire_ok w1 a1 k id : db_step w w1 a1 -> str_ok k ->
  wp (fk_handle_expired_key (c_db_idx (w_conn w)) (SItem id k)) (fun rt w2 =>
    db_step w w2 (Spec.expire now k a1).2 /\
    rt = if (Spec.expire now k a1).1 then 1 else 0) w1.
Proof.
  intros H1 Hk. unfold fk_handle_expired_key, Spec.expire. step_conn H1.
  apply wp_expdb_get; [eauto with fk|done|]. rewrite (ds_abs _ _ _ H1).
  intros [x|] Hx Hn; rewrite Hx; cbn [fmap option_fmap option_map].
  - destruct (Hn x eq_refl) as [n Hxn]. unfold item_num, exp_raw. rewrite Hxn.
    apply wp_bind. eapply wp_step; [reflexivity|].
    apply wp_get_time; [eauto with fk|]. intros w2 H2. rewrite (ds_abs _ _ _ H1) in H2 |- *.
    rewrite (svr_frame_clock _ _ (ds_frame _ _ _ H1)). step_conn H2.
    pose proof (db_step_trans _ _ _ _ _ H1 H2) as H3. clear H1 H2.
    apply wp_ret. destruct (n <? _); [|by apply wp_ret]. cbn [Z.eqb Pos.eqb].
    apply wp_db_remove; [eauto with fk|done|]. intros w4 H4. step_conn H4. step_trans H3 H4.
    apply wp_exp_remove; [eauto with fk|done|]. intros rt w5 H5. step_trans H3 H5.
    by apply wp_ret.
  - by apply wp_bind, wp_ret, wp_ret.
Qed.

(** The value a reading command sees. *)
Lemma lookup_ok w1 a1 k id {B} (kont : option item -> ST world B) Q :
  db_step w w1 a1 -> arg_ok k ->
  (forall o w2, db_step w w2 (Spec.lookup now k a1).2 ->
    (Spec.lookup now k a1).1 = item_val <$> o -> (forall x, o = Some x -> ent_ok (i_ent x)) ->
    wp (kont o) Q w2) ->
  wp (expired ← fk_handle_expired_key (c_db_idx (w_conn w)) (SItem id k);
      value ← (if expired =? 0 then db_get (c_db_idx (w_conn w)) (SItem id k) else mret None);
      kont value) Q w1.
Proof.
  intros H1 Hk Hkont. eapply wp_seq; [by apply expire_ok|]. intros rt w2 [H2 ->].
  unfold Spec.lookup in Hkont. destruct (Spec.expire now k a1) as [[|] a2]; cbn in *.
  - apply wp_bind, wp_ret. by apply (Hkont None).
  - step_conn H2. apply wp_db_get; [eauto with fk|done|]. rewrite (ds_abs _ _ _ H2).
    intros o Ho Hok. by apply Hkont.
Qed.

Lemma get_ok l c k : args_ok (w_conn w) l -> l = [c; k] ->
  wp fk_cmd_get (handled w (to (Spec.get now k (abs w)).2) (Spec.get now k (abs w)).1) w.
Proof.
  intros A ->. unfold fk_cmd_get. apply wp_get_idx. wp_arg A id1 Hk.
  eapply lookup_ok; [by apply db_step_refl|done|]. intros o w1 H1 Ho Hok.
  unfold Spec.get. destruct (Spec.lookup now k (abs w)) as [v a1]; cbn [fst snd] in *. subst v.
  destruct o as [x|]; cbn; [|eapply wp_reply_end; eauto with fk].
  specialize (Hok x eq_refl). unfold item_val.
  destruct (i_ent x); cbn; try (eapply wp_reply_end; [done|]; eauto with fk; fail).
  eapply wp_mono; [apply wp_bulk_reply; eauto with fk|]. intros rt w2 Hr.
  by eapply handled_reply.
Qed.
End str_props.

Section mget_props.
Context (w : world) (W : world_ok w).
Abbreviation now := (fun n => fk_util_tv2millis (sv_clock (w_svr w) n)).

Definition mget_value (v : option item) : ST world Z :=
  match v with
  | None => rt ← fk_conn_add_bulk_rsp FK_RSP_NIL; mret (ret_rsp rt)
  | Some v =>
      match i_ent v with
      | EntStr ss => bulk_reply (zlen ss) ss
      | _ => rt ← fk_conn_add_bulk_rsp FK_RSP_NIL; mret (ret_rsp rt)
      end
  end.

Lemma wp_ret_rsp w1 s (reply : ST world Z) :
  wp reply (rsp_post w1 s) w1 -> wp (rt ← reply; mret (ret_rsp rt)) (rsp_post w1 s) w1.
Proof.
  intros H. apply (wp_seq _ _ (rsp_post w1 s)); [done|]. intros rt w2 Hp. apply wp_ret.
  pose proof Hp as (b & _ & Hb). by rewrite (answered_ret _ _ _ _ Hb).
Qed.

Lemma mget_value_ok w1 o :
  world_ok w1 -> (forall x, o = Some x -> ent_ok (i_ent x)) ->
  wp (mget_value o) (rsp_post w1 (match item_val <$> o with
    Some (VStr s) => string_rsp s | _ => bulk_rsp FK_RSP_NIL end)) w1.
Proof.
  intros W1 Ho. unfold mget_value. destruct o as [x|]; cbn; [|by apply wp_ret_rsp, wp_nil_ok].
  specialize (Ho x eq_refl). unfold item_val.
  destruct (i_ent x); cbn; try (by apply wp_ret_rsp, wp_nil_ok). by apply wp_bulk_reply.
Qed.

Lemma mget_loop_ok l : args_ok (w_conn w) l -> forall n i ks w1 a1 s,
  handled w (to a1) s FK_SVR_OK w1 -> c_db_idx (w_conn w1) = c_db_idx (w_conn w) ->
  0 <= i -> zdrop i l = ks -> (length ks < n)%nat ->
  wp (mget_loop n (c_db_idx (w_conn w)) i)
    (handled w (to_ok (Spec.mget now ks a1).2 (Spec.mget_part now ks a1)) (s ++ (Spec.mget now ks a1).1)) w1.
Proof.
  intros A. induction n as [|n IH]; intros i ks w1 a1 s H1 Hidx Hi Hks Hn; [lia|].
  cbn [mget_loop]. pose proof (handled_args _ _ _ _ _ _ H1 A) as A1.
  apply (wp_get_cnt l); [done|]. destruct ks as [|k ks].
  { apply zdrop_nil in Hks. rewrite (proj2 (Z.ltb_ge _ _)) by lia. apply wp_ret.
    cbn. rewrite app_nil_r. by apply handled_done. }
  destruct (zdrop_cons _ _ _ _ Hi Hks) as (Hk & Hks1 & Hil).
  rewrite (proj2 (Z.ltb_lt _ _)) by lia.
  eapply (wp_get_arg _ _ A1); [exact Hk|]. intros id1 Ho1. rewrite <- Hidx.
  eapply (lookup_ok w1); [by apply db_step_refl, H1|done|]. intros o w2 H2 Hv Hok.
  rewrite (svr_frame_clock _ _ (hd_frame _ _ _ _ _ H1)), (hd_abs _ _ _ _ _ H1) in H2, Hv.
  assert (forall ks' x, x = (Spec.mget now ks' (Spec.lookup now k a1).2).2 -> x = (Spec.mget now (k :: ks') a1).2) as Hpart.
  { intros ks' x ->. cbn [Spec.mget]. destruct (Spec.lookup now k a1) as [v a2]. cbn. by destruct (Spec.mget now ks' a2). }
  cbn [Spec.mget]. destruct (Spec.lookup now k a1) as [v a2]. cbn [fst snd] in *. subst v.
  eapply wp_seq; [apply (mget_value_ok w2); [apply H2|done]|]. intros rt w3 H3.
  pose proof (handled_snoc _ _ _ _ _ _ _ _ _ H1 H2 H3) as H4.
  destruct (Spec.mget now ks a2) as [rs a3] eqn:E. cbn [fst snd]. rewrite app_assoc.
  destruct (handled_codes _ _ _ _ _ H4) as [->| ->]; cbn [Z.eqb FK_SVR_OK FK_SVR_ERR Pos.eqb].
  - rewrite Hidx. specialize (IH (i + 1) ks w3 a2). rewrite E in IH. eapply wp_mono; [apply IH; try done; [|lia|]|].
    + destruct H3 as (b & -> & _). cbn. by rewrite (ds_conn _ _ _ H2).
    + cbn in Hn. lia.
    + intros rt w4. apply handled_weaken. intros x. unfold to_ok. destruct (rt =? FK_SVR_OK); [done|].
      intros (ks' & Hks' & Hx). exists (k :: ks'). split; [by apply prefix_cons|by apply Hpart].
  - apply wp_ret. eapply handled_fail; [|done]. exists [k]. split; [apply prefix_cons, prefix_nil|by apply Hpart].
Qed.

Lemma mget_ok l c ks : args_ok (w_conn w) l -> l = c :: ks ->
  wp fk_cmd_mget
    (handled w (to_ok (Spec.mget now ks (abs w)).2 (Spec.mget_part now ks (abs w)))
      (mbulk_rsp (zlen ks) ++ (Spec.mget now ks (abs w)).1)) w.
Proof.
  intros A ->. unfold fk_cmd_mget. apply wp_get_idx. apply (wp_get_cnt (c :: ks)); [done|].
  pose proof (ao_max _ _ A) as Hmax. unfold FK_ARG_CNT_HIGHWAT in Hmax. rewrite zlen_cons in *.
  replace (1 + zlen ks - 1) with (zlen ks) by lia. pose proof (zlen_nonneg ks).
  eapply wp_seq; [apply wp_mbulk; [apply W|lia]|]. intros rt w1 H1.
  pose proof (handled_reply _ _ _ _ _ _ (db_step_refl _ W) H1) as H2.
  destruct (handled_codes _ _ _ _ _ H2) as [->| ->]; cbn [Z.eqb FK_SVR_OK FK_SVR_ERR Pos.eqb].
  - eapply (mget_loop_ok (c :: ks)); try done.
    + by destruct H1 as (b & -> & _).
    + unfold zlen. change (zdrop 1 (c :: ks)) with ks. lia.
  - apply wp_ret. eapply handled_fail; [|done]. exists []. split; [apply prefix_nil|done].
Qed.
End mget_props.
