(* ===== verification/CmdHash.v ===== *)
(** Models src/src/fk_svr_hash.c (HSET, HGET) and src/src/fk_svr_zset.c (ZADD, with
    the skiplist stubs of fk_skiplist.c). *)
From S2P Require Import Prelude Util Buf Dict Item Conf Svr Req Parse Store.

(** ** The handlers *)

(** [fk_dict_add] on the dictionary of a hash, with the server's items. *)
Definition hash_add (key itm : sitem) (dct : fk_dict sitem sitem) :
    ST world (fk_dict sitem sitem) := fun w =>
  let '(_, dct, m) := fk_dict_add db_sdict_eop dct key itm (sv_items (w_svr w)) in
  Some (dct, w_set_svr w (sv_set_items (w_svr w) m)).

Definition fk_cmd_hset : ST world Z :=
  idx ← get_db_idx;
  hkey ← fk_conn_get_arg 1;
  key ← fk_conn_get_arg 2;
  hitm ← db_get idx hkey;
  match hitm with
  | None =>
      let dct := fk_dict_create in
      itm ← fk_conn_get_arg 3;
      dct ← hash_add key itm dct;
      i ← item_create;
      _ ← on_db (dict_add hkey (Item i (EntDict dct))) idx;
      rt ← fk_conn_add_int_rsp 1;
      mret (ret_rsp rt)
  | Some h =>
      match i_ent h with
      | EntDict dct =>
          itm ← fk_conn_get_arg 3;
          dct ← hash_add key itm dct;
          _ ← on_db (dict_set_entity hkey (EntDict dct)) idx;
          rt ← fk_conn_add_int_rsp 1;
          mret (ret_rsp rt)
      | _ =>
          rt ← fk_conn_add_error_rsp FK_RSP_TYPE_ERR (zlen FK_RSP_TYPE_ERR);
          mret (ret_rsp rt)
      end
  end.

(** The values of a hash are string items, so the second type test is not here. *)
Definition fk_cmd_hget : ST world Z :=
  idx ← get_db_idx;
  hkey ← fk_conn_get_arg 1;
  key ← fk_conn_get_arg 2;
  hitm ← db_get idx hkey;
  match hitm with
  | None => rt ← fk_conn_add_bulk_rsp FK_RSP_NIL; mret (ret_rsp rt)
  | Some h =>
      match i_ent h with
      | EntDict dct =>
          match fk_dict_get db_sdict_eop dct key with
          | None => rt ← fk_conn_add_bulk_rsp FK_RSP_NIL; mret (ret_rsp rt)
          | Some value => bulk_reply (zlen (s_str value)) (s_str value)
          end
      | _ =>
          rt ← fk_conn_add_error_rsp FK_RSP_TYPE_ERR (zlen FK_RSP_TYPE_ERR);
          mret (ret_rsp rt)
      end
  end.

(** [fk_db_skiplist_val_copy]: a NULL pointer is dereferenced. *)
Definition fk_db_skiplist_val_copy (ptr : option sitem) : ST world unit :=
  match ptr with
  | Some x => on_items (sitem_inc_ref x)
  | None => fun _ => None
  end.

(** [fk_skiplist_create]: the header node copies the data NULL. *)
Definition fk_skiplist_create : ST world entity :=
  _ ← fk_db_skiplist_val_copy None;
  mret EntSklist.

(** [fk_skiplist_insert] is an empty function. *)
Definition fk_skiplist_insert (score : Z) (x : sitem) : ST world unit := mret tt.

Fixpoint zadd_loop (n : nat) (i : Z) : ST world unit :=
  match n with
  | O => mret tt
  | S n' =>
      cnt ← get_arg_cnt;
      if i <? cnt then
        itm_score ← fk_conn_get_arg i;
        itm_str ← fk_conn_get_arg (i + 1);
        let score := atoi (s_str itm_score) in
        _ ← fk_skiplist_insert score itm_str;
        zadd_loop n' (i + 2)
      else mret tt
  end.

Definition fk_cmd_zadd : ST world Z :=
  idx ← get_db_idx;
  itm_key ← fk_conn_get_arg 1;
  itm_sl ← db_get idx itm_key;
  _ ← match itm_sl with
      | Some _ => mret tt
      | None =>
          sl ← fk_skiplist_create;
          i ← item_create;
          _ ← on_db (dict_add itm_key (Item i sl)) idx;
          mret tt
      end;
  cnt ← get_arg_cnt;
  if negb (Z.rem (cnt - 2) 2 =? 0) then
    rt ← fk_conn_add_error_rsp FK_RSP_ARGC_ERR (zlen FK_RSP_ARGC_ERR);
    mret (ret_rsp rt)
  else
    _ ← zadd_loop (Z.to_nat cnt) 2;
    rt ← fk_conn_add_int_rsp (Z.quot (cnt - 2) 2);
    mret (ret_rsp rt).

(** ** What the commands promise *)

Module HashSpec.
(** A new field is added; an existing one keeps its value. *)
Definition hash_put (f v : bytes) (m : gmap bytes bytes) : gmap bytes bytes :=
  match m !! f with Some _ => m | None => <[f := v]> m end.

Definition hset (k f v : bytes) (a : astate) : list cell * astate :=
  match cur_db a !! k with
  | None => (int_rsp 1, put_cur (<[k := VHash {[f := v]}]> (cur_db a)) a)
  | Some (VHash m) => (int_rsp 1, put_cur (<[k := VHash (hash_put f v m)]> (cur_db a)) a)
  | Some _ => (error_rsp FK_RSP_TYPE_ERR, a)
  end.

Definition hget (k f : bytes) (a : astate) : list cell :=
  match cur_db a !! k with
  | None => bulk_rsp FK_RSP_NIL
  | Some (VHash m) =>
      match m !! f with Some v => string_rsp v | None => bulk_rsp FK_RSP_NIL end
  | Some _ => error_rsp FK_RSP_TYPE_ERR
  end.
End HashSpec.

(** ** The handlers keep the promises *)

Section hash_props.
Context (w : world) (W : world_ok w).

(** Adding a field to a hash. *)
Lemma wp_hash_add w1 a1 idk k idv v dct {B} (kont : fk_dict sitem sitem -> ST world B) Q :
  db_step w w1 a1 -> arg_ok k -> arg_ok v -> ent_ok (EntDict dct) ->
  (forall dct' w2, db_step w w2 a1 -> ent_ok (EntDict dct') ->
    hview dct' = HashSpec.hash_put k v (hview dct) -> wp (kont dct') Q w2) ->
  wp (d ← hash_add (SItem idk k) (SItem idv v) dct; kont d) Q w1.
Proof.
  intros H1 Hk Hv [Hw He] Hkont.
  pose proof (fk_dict_add_spec db_sdict_eop s_str key_ok dct (SItem idk k) (SItem idv v)
    (sv_items (w_svr w1)) Hw (arg_ok_key idk k Hk)) as Hs.
  destruct (fk_dict_add db_sdict_eop dct (SItem idk k) (SItem idv v) (sv_items (w_svr w1)))
    as [[rt d'] m] eqn:E.
  eapply wp_step; [unfold hash_add; rewrite E; reflexivity|].
  destruct Hs as [Hw' Hs]. cbn [s_str] in Hs. apply Hkont.
  - eapply db_step_trans; [exact H1|]. destruct H1 as [[[] ? ?] _ _ A1].
    split; [by split|done|by destruct w1 as [[] ?]|by rewrite <- A1].
  - destruct (dmap s_str dct !! k) eqn:Em; destruct Hs as (_ & Hm & _); split; rewrite ?Hm; try done.
    by apply map_Forall_insert_2.
  - unfold HashSpec.hash_put, hview. rewrite lookup_fmap.
    destruct (dmap s_str dct !! k) eqn:Em; destruct Hs as (_ & Hm & _); cbn; rewrite Hm; [done|].
    by rewrite fmap_insert.
Qed.

Lemma hset_ok l c k f v : args_ok (w_conn w) l -> l = [c; k; f; v] ->
  wp fk_cmd_hset
    (handled w (to (HashSpec.hset k f v (abs w)).2) (HashSpec.hset k f v (abs w)).1) w.
Proof.
  intros A ->. unfold fk_cmd_hset, HashSpec.hset. apply wp_get_idx.
  wp_arg A id1 Hk. wp_arg A id2 Hf. apply (wp_db_get w W); [done|].
  intros [x|] Hx Hok; rewrite Hx; cbn [fmap option_fmap option_map].
  - specialize (Hok x eq_refl). unfold item_val in *.
    destruct (i_ent x) as [| |dct| |] eqn:Ex; cbn [ent_val] in *;
      try (apply wp_reply_end; auto with fk; fail).
    wp_arg A id3 Hv. eapply wp_hash_add; [by apply db_step_refl|done|done|exact Hok|].
    intros d' w1 H1 Hd' Hvw. step_conn H1.
    apply wp_db_set_entity; [eauto with fk|done|done| |].
    + rewrite (ds_abs _ _ _ H1), Hx. by eexists.
    + intros rt w2 H2. step_trans H1 H2. cbn [ent_val] in H1. rewrite Hvw in H1.
      eapply wp_reply_end; [exact H1|]. apply wp_int_ok; [eauto with fk|lia].
  - wp_arg A id3 Hv.
    eapply (wp_hash_add w (abs w)); [by apply db_step_refl|done|done| |].
    { split; [apply fk_dict_init_wf|]. rewrite fk_dict_init_dmap. apply map_Forall_empty. }
    intros d' w1 H1 Hd' Hvw. step_conn H1. apply wp_item_create; [eauto with fk|].
    intros i w2 H2. step_conn H2. step_trans H1 H2.
    apply wp_db_add; [eauto with fk|done|done| |].
    + by rewrite (ds_abs _ _ _ H1).
    + intros w3 H3. step_trans H1 H3. unfold item_val in H1. cbn [ent_val i_ent] in H1.
      rewrite Hvw in H1. eapply wp_reply_end; [exact H1|]. apply wp_int_ok; [eauto with fk|lia].
Qed.

Lemma hget_ok l c k f : args_ok (w_conn w) l -> l = [c; k; f] ->
  wp fk_cmd_hget (handled w (to (abs w)) (HashSpec.hget k f (abs w))) w.
Proof.
  intros A ->. unfold fk_cmd_hget, HashSpec.hget. apply wp_get_idx.
  wp_arg A id1 Hk. wp_arg A id2 Hf. apply (wp_db_get w W); [done|].
  intros [x|] Hx Hok; rewrite Hx; cbn [fmap option_fmap option_map];
    [|apply wp_reply_end; auto with fk].
  specialize (Hok x eq_refl). unfold item_val.
  destruct (i_ent x) as [| |dct| |] eqn:Ex; cbn [ent_val];
    try (apply wp_reply_end; auto with fk; fail).
  destruct Hok as [Hw He]. unfold hview. rewrite lookup_fmap.
  rewrite (fk_dict_get_spec db_sdict_eop s_str key_ok) by auto with fk. cbn [s_str].
  destruct (dmap s_str dct !! f) as [v|] eqn:Ev; cbn; [|apply wp_reply_end; auto with fk].
  eapply wp_mono; [apply wp_bulk_reply; [done|by apply (He f)]|].
  intros rt w2 Hr. by apply (handled_reply w w (abs w)); [apply db_step_refl|].
Qed.
End hash_props.
