(* ===== verification/CmdList.v ===== *)
(** Models src/src/fk_svr_list.c: LPUSH, RPUSH, LPOP, RPOP, LLEN. *)
From S2P Require Import Prelude Util Buf Dict Item Conf Svr Req Parse Store.

(** ** The handlers *)

Definition list_insert_head (lst : list sitem) (x : sitem) : ST world (list sitem) := fun w =>
  let '(lst, m) := item_list_insert_head lst x (sv_items (w_svr w)) in
  Some (lst, w_set_svr w (sv_set_items (w_svr w) m)).

Definition list_insert_tail (lst : list sitem) (x : sitem) : ST world (list sitem) := fun w =>
  let '(lst, m) := item_list_insert_tail lst x (sv_items (w_svr w)) in
  Some (lst, w_set_svr w (sv_set_items (w_svr w) m)).

(** [for (i = 2; i < conn->arg_cnt; i++)] *)
Fixpoint push_loop (n : nat) (pos i : Z) (lst : list sitem) : ST world (list sitem) :=
  match n with
  | O => mret lst
  | S n' =>
      cnt ← get_arg_cnt;
      if i <? cnt then
        str_itm ← fk_conn_get_arg i;
        lst ← (if pos =? 0 then list_insert_head lst str_itm else list_insert_tail lst str_itm);
        push_loop n' pos (i + 1) lst
      else mret lst
  end.

Definition fk_cmd_generic_push (pos : Z) : ST world Z :=
  idx ← get_db_idx;
  cnt ← get_arg_cnt;
  key ← fk_conn_get_arg 1;
  lst_itm ← db_get idx key;
  match lst_itm with
  | None =>
      lst ← push_loop (Z.to_nat cnt) pos 2 [];
      i ← item_create;
      _ ← on_db (dict_add key (Item i (EntList lst))) idx;
      rt ← fk_conn_add_int_rsp (cnt - 2);
      mret (ret_rsp rt)
  | Some x =>
      match i_ent x with
      | EntList lst =>
          lst ← push_loop (Z.to_nat cnt) pos 2 lst;
          _ ← on_db (dict_set_entity key (EntList lst)) idx;
          rt ← fk_conn_add_int_rsp (cnt - 2);
          mret (ret_rsp rt)
      | _ =>
          rt ← fk_conn_add_error_rsp FK_RSP_TYPE_ERR (zlen FK_RSP_TYPE_ERR);
          mret (ret_rsp rt)
      end
  end.

Definition fk_cmd_lpush : ST world Z := fk_cmd_generic_push 0.
Definition fk_cmd_rpush : ST world Z := fk_cmd_generic_push 1.

(** [fk_list_remove_anyone] of the head or the tail. *)
Definition list_end (pos : Z) (lst : list sitem) : option (sitem * list sitem) :=
  if pos =? 0 then
    match lst with x :: l => Some (x, l) | [] => None end
  else
    match reverse lst with x :: l => Some (x, reverse l) | [] => None end.

Definition fk_cmd_generic_pop (pos : Z) : ST world Z :=
  idx ← get_db_idx;
  key ← fk_conn_get_arg 1;
  lst_itm ← db_get idx key;
  match lst_itm with
  | None => rt ← fk_conn_add_bulk_rsp FK_RSP_NIL; mret (ret_rsp rt)
  | Some x =>
      match i_ent x with
      | EntList lst =>
          if zlen lst =? 0 then rt ← fk_conn_add_bulk_rsp FK_RSP_NIL; mret (ret_rsp rt)
          else
            '(itm, rest) ← st_lift (list_end pos lst);
            rt ← bulk_reply (zlen (s_str itm)) (s_str itm);
            if rt =? FK_SVR_ERR then mret FK_SVR_ERR
            else
              _ ← on_items (fk_db_list_val_free itm);
              _ ← on_db (dict_set_entity key (EntList rest)) idx;
              mret FK_SVR_OK
      | _ =>
          rt ← fk_conn_add_error_rsp FK_RSP_TYPE_ERR (zlen FK_RSP_TYPE_ERR);
          mret (ret_rsp rt)
      end
  end.

Definition fk_cmd_lpop : ST world Z := fk_cmd_generic_pop 0.
Definition fk_cmd_rpop : ST world Z := fk_cmd_generic_pop 1.

Definition fk_cmd_llen : ST world Z :=
  idx ← get_db_idx;
  key ← fk_conn_get_arg 1;
  value ← db_get idx key;
  match value with
  | None => rt ← fk_conn_add_int_rsp 0; mret (ret_rsp rt)
  | Some x =>
      match i_ent x with
      | EntList lst => rt ← fk_conn_add_int_rsp (i32 (zlen lst)); mret (ret_rsp rt)
      | _ =>
          rt ← fk_conn_add_error_rsp FK_RSP_TYPE_ERR (zlen FK_RSP_TYPE_ERR);
          mret (ret_rsp rt)
      end
  end.

(** ** What the commands promise *)

Module ListSpec.
Definition pushed (pos : Z) (vs l : list bytes) : list bytes :=
  if pos =? 0 then reverse vs ++ l else l ++ vs.

Definition push (pos : Z) (k : bytes) (vs : list bytes) (a : astate) : list cell * astate :=
  match cur_db a !! k with
  | None => (int_rsp (zlen vs), put_cur (<[k := VList (pushed pos vs [])]> (cur_db a)) a)
  | Some (VList l) =>
      (int_rsp (zlen vs), put_cur (<[k := VList (pushed pos vs l)]> (cur_db a)) a)
  | Some _ => (error_rsp FK_RSP_TYPE_ERR, a)
  end.

Definition popped (pos : Z) (l : list bytes) : option (bytes * list bytes) :=
  if pos =? 0 then
    match l with x :: l => Some (x, l) | [] => None end
  else
    match reverse l with x :: l => Some (x, reverse l) | [] => None end.

(** An emptied list stays in the database. *)
Definition pop (pos : Z) (k : bytes) (a : astate) : list cell * astate :=
  match cur_db a !! k with
  | None => (bulk_rsp FK_RSP_NIL, a)
  | Some (VList l) =>
      match popped pos l with
      | Some (x, l') => (string_rsp x, put_cur (<[k := VList l']> (cur_db a)) a)
      | None => (bulk_rsp FK_RSP_NIL, a)
      end
  | Some _ => (error_rsp FK_RSP_TYPE_ERR, a)
  end.

Definition llen (k : bytes) (a : astate) : list cell :=
  match cur_db a !! k with
  | None => int_rsp 0
  | Some (VList l) => int_rsp (i32 (zlen l))
  | Some _ => error_rsp FK_RSP_TYPE_ERR
  end.
End ListSpec.

(** ** The handlers keep the promises *)

Lemma list_end_map pos (l : list sitem) :
  ListSpec.popped pos (s_str <$> l) =
    (fun p : sitem * list sitem => (s_str p.1, s_str <$> p.2)) <$> list_end pos l.
Proof.
  unfold ListSpec.popped, list_end. destruct (pos =? 0); [by destruct l|].
  rewrite <- fmap_reverse. destruct (reverse l) as [|x r]; [done|]. cbn. by rewrite fmap_reverse.
Qed.

Lemma list_end_ok pos l x r :
  list_end pos l = Some (x, r) -> ent_ok (EntList l) -> arg_ok (s_str x) /\ ent_ok (EntList r).
Proof.
  unfold list_end, ent_ok. destruct (pos =? 0).
  - destruct l; [done|]. intros [= -> ->]. by rewrite Forall_cons.
  - intros He Hl. apply Forall_reverse in Hl. destruct (reverse l) as [|y k]; [done|].
    injection He as -> <-. apply Forall_cons in Hl as [? ?]. split; [done|]. by apply Forall_reverse.
Qed.

Section list_props.
Context (w : world) (W : world_ok w).

Lemma list_insert_ok w1 a1 pos lst x {B} (kont : list sitem -> ST world B) Q :
  db_step w w1 a1 ->
  (forall w2, db_step w w2 a1 -> wp (kont (if pos =? 0 then x :: lst else lst ++ [x])) Q w2) ->
  wp (l ← (if pos =? 0 then list_insert_head lst x else list_insert_tail lst x); kont l) Q w1.
Proof.
  intros H1 Hk. assert (forall m, db_step w (w_set_svr w1 (sv_set_items (w_svr w1) m)) a1) as Hs.
  { intros m. eapply db_step_trans; [exact H1|]. destruct H1 as [[[] ? ?] _ _ A1].
    split; [by split|done|by destruct w1 as [[] ?]|by rewrite <- A1]. }
  destruct (pos =? 0); (eapply wp_step; [reflexivity|]); apply Hk, Hs.
Qed.

Lemma push_loop_ok l pos : args_ok (w_conn w) l -> forall n i vs lst w1 a1,
  db_step w w1 a1 -> 0 <= i -> zdrop i l = vs -> (length vs < n)%nat -> ent_ok (EntList lst) ->
  wp (push_loop n pos i lst) (fun lst' w2 => db_step w w2 a1 /\ ent_ok (EntList lst') /\
    s_str <$> lst' = ListSpec.pushed pos vs (s_str <$> lst)) w1.
Proof.
  intros A. induction n as [|n IH]; intros i vs lst w1 a1 H1 Hi Hvs Hn Hok; [lia|].
  cbn [push_loop]. pose proof (args_ok_step _ _ _ _ A H1) as A1. apply (wp_get_cnt l); [done|].
  destruct vs as [|v vs].
  { apply zdrop_nil in Hvs. rewrite (proj2 (Z.ltb_ge _ _)) by lia. apply wp_ret.
    split_and!; [done|done|]. unfold ListSpec.pushed. destruct (pos =? 0); [done|]. by rewrite app_nil_r. }
  destruct (zdrop_cons _ _ _ _ Hi Hvs) as (Hv & Hvs1 & Hil). rewrite (proj2 (Z.ltb_lt _ _)) by lia.
  eapply (wp_get_arg _ _ A1); [exact Hv|]. intros id1 Ho1.
  eapply list_insert_ok; [done|]. intros w2 H2.
  eapply wp_mono; [eapply (IH (i + 1) vs); [exact H2|lia|done|cbn in Hn; lia|]|].
  - unfold ent_ok in *. destruct (pos =? 0); [by constructor|]. apply Forall_app. by repeat constructor.
  - intros lst' w3 (H3 & Hok' & E). split_and!; [done|done|]. rewrite E. unfold ListSpec.pushed.
    destruct (pos =? 0); cbn [fmap list_fmap s_str].
    + by rewrite reverse_cons, <- app_assoc.
    + by rewrite fmap_app, <- app_assoc.
Qed.

Lemma push_ok pos l c k vs : args_ok (w_conn w) l -> l = c :: k :: vs ->
  wp (fk_cmd_generic_push pos)
    (handled w (to (ListSpec.push pos k vs (abs w)).2) (ListSpec.push pos k vs (abs w)).1) w.
Proof.
  intros A El. pose proof A as A'. rewrite El in A'. unfold fk_cmd_generic_push, ListSpec.push.
  apply wp_get_idx. apply (wp_get_cnt l); [done|]. wp_arg A' id1 Hk.
  pose proof (ao_max _ _ A) as Hmax. unfold FK_ARG_CNT_HIGHWAT in Hmax.
  assert (zlen l - 2 = zlen vs) as Hl by (rewrite El, !zlen_cons; lia). rewrite Hl.
  pose proof (zlen_nonneg vs).
  assert (zdrop 2 l = vs) as Hd by (by rewrite El).
  assert ((length vs < Z.to_nat (zlen l))%nat) as Hn by (unfold zlen in *; lia).
  apply (wp_db_get w W); [done|]. intros [x|] Hx Hok; rewrite Hx; cbn [fmap option_fmap option_map].
  - specialize (Hok x eq_refl). unfold item_val in *.
    destruct (i_ent x) as [|lst| | |] eqn:Ex; cbn [ent_val] in *;
      try (apply wp_reply_end; auto with fk; fail).
    eapply wp_seq; [apply (push_loop_ok l pos A _ 2 vs lst w (abs w)); auto with fk; lia|].
    intros lst' w1 (H1 & Hok' & E). step_conn H1.
    apply wp_db_set_entity; [eauto with fk|done|done| |].
    + rewrite (ds_abs _ _ _ H1), Hx. by eexists.
    + intros rt w2 H2. step_trans H1 H2. cbn [ent_val] in H1. rewrite E in H1.
      eapply wp_reply_end; [exact H1|]. apply wp_int_ok; [eauto with fk|lia].
  - eapply wp_seq; [apply (push_loop_ok l pos A _ 2 vs [] w (abs w)); auto with fk; try lia; constructor|].
    intros lst' w1 (H1 & Hok' & E). step_conn H1. apply wp_item_create; [eauto with fk|].
    intros i w2 H2. step_conn H2. step_trans H1 H2.
    apply wp_db_add; [eauto with fk|done|done| |].
    + by rewrite (ds_abs _ _ _ H1).
    + intros w3 H3. step_trans H1 H3. unfold item_val in H1. cbn [ent_val i_ent] in H1.
      rewrite E in H1. eapply wp_reply_end; [exact H1|]. apply wp_int_ok; [eauto with fk|lia].
Qed.

(** The reply comes first: when it does not fit, the list keeps its element. *)
Lemma pop_ok pos l c k : args_ok (w_conn w) l -> l = [c; k] ->
  wp (fk_cmd_generic_pop pos)
    (handled w (to_ok (ListSpec.pop pos k (abs w)).2 (fun a => a = abs w))
      (ListSpec.pop pos k (abs w)).1) w.
Proof.
  intros A ->. unfold fk_cmd_generic_pop, ListSpec.pop.
  assert (forall (m : ST world Z) s, wp m (handled w (to (abs w)) s) w ->
    wp m (handled w (to_ok (abs w) (fun a => a = abs w)) s) w) as Hto.
  { intros m s Hm. eapply wp_mono; [exact Hm|]. intros rt w' [O F C R H]. split; try done.
    unfold to_ok. by destruct (rt =? FK_SVR_OK). }
  apply wp_get_idx. wp_arg A id1 Hk. apply (wp_db_get w W); [done|].
  intros [x|] Hx Hok; rewrite Hx; cbn [fmap option_fmap option_map];
    [|apply Hto, wp_reply_end; auto with fk].
  specialize (Hok x eq_refl). unfold item_val in *.
  destruct (i_ent x) as [|lst| | |] eqn:Ex; cbn [ent_val] in *;
    try (apply Hto, wp_reply_end; auto with fk; fail).
  rewrite list_end_map. destruct (zlen lst =? 0) eqn:El.
  { assert (lst = []) as -> by (apply zlen_0; lia). unfold list_end.
    destruct (pos =? 0); cbn; apply Hto, wp_reply_end; auto with fk. }
  assert (is_Some (list_end pos lst)) as [[y r] Hr].
  { unfold list_end. destruct (pos =? 0); [destruct lst; [done|by eexists]|].
    destruct (reverse lst) eqn:Er; [|by eexists]. apply (f_equal reverse) in Er.
    rewrite reverse_involutive in Er. by subst. }
  destruct (list_end_ok _ _ _ _ Hr Hok) as [Hy Hrok]. rewrite Hr. cbn [fmap option_fmap option_map fst snd].
  eapply wp_step; [reflexivity|]. cbv beta iota.
  eapply wp_seq; [by apply wp_bulk_reply|]. intros rt w1 H1.
  pose proof (handled_reply _ _ _ _ _ _ (db_step_refl _ W) H1) as H2.
  destruct (handled_codes _ _ _ _ _ H2) as [->| ->]; cbn [Z.eqb FK_SVR_OK FK_SVR_ERR Pos.eqb].
  2: { apply wp_ret. by destruct H2 as [O F C R H]. }
  eapply wp_seq; [apply on_items_ok, H2|]. intros [] w2 H3. cbv beta in H3.
  pose proof (hd_abs _ _ _ _ _ H2) as Ha. unfold to in Ha. rewrite Ha in H3.
  assert (c_db_idx (w_conn w) = c_db_idx (w_conn w2)) as ->.
  { rewrite (ds_conn _ _ _ H3). by destruct H1 as (b & -> & _). }
  apply wp_db_set_entity; [eauto with fk|done|done| |].
  { rewrite (ds_abs _ _ _ H3), Hx. by eexists. }
  intros rt w4 H4. apply wp_ret. step_trans H3 H4. destruct H2 as [O F C R H]. destruct H3 as [O3 C3 F3 A3].
  split; try done.
  - by eapply svr_frame_trans.
  - by rewrite C3.
  - by rewrite C3.
Qed.

Lemma llen_ok l c k : args_ok (w_conn w) l -> l = [c; k] ->
  wp fk_cmd_llen (handled w (to (abs w)) (ListSpec.llen k (abs w))) w.
Proof.
  intros A ->. unfold fk_cmd_llen, ListSpec.llen. apply wp_get_idx. wp_arg A id1 Hk.
  apply (wp_db_get w W); [done|].
  intros [x|] Hx Hok; rewrite Hx; cbn [fmap option_fmap option_map];
    [|apply wp_reply_end; [auto with fk|]; apply wp_int_ok; [done|lia]].
  unfold item_val. destruct (i_ent x) as [|lst| | |]; cbn [ent_val];
    try (apply wp_reply_end; auto with fk; fail).
  rewrite zlen_map. apply wp_reply_end; [auto with fk|]. apply wp_int_ok; [done|apply i32_range].
Qed.
End list_props.
