(* ===== verification/CmdDb.v ===== *)
(** Models src/src/fk_svr_db.c: DEL, FLUSHDB, FLUSHALL, EXISTS, SELECT (SAVE is in
    Kdb.v, beside the function it calls). *)
From S2P Require Import Prelude Util Buf Dict Item Conf Svr Req Parse Store.

(** ** The handlers *)

Fixpoint del_loop (n : nat) (idx i deleted : Z) : ST world Z :=
  match n with
  | O => mret deleted
  | S n' =>
      cnt ← get_arg_cnt;
      if i <? cnt then
        key ← fk_conn_get_arg i;
        rt ← on_db (dict_remove key) idx;
        del_loop n' idx (i + 1) (if rt =? FK_DICT_OK then deleted + 1 else deleted)
      else mret deleted
  end.

Definition fk_cmd_del : ST world Z :=
  idx ← get_db_idx;
  cnt ← get_arg_cnt;
  deleted ← del_loop (Z.to_nat cnt) idx 1 0;
  rt ← fk_conn_add_int_rsp deleted;
  mret (ret_rsp rt).

Definition fk_cmd_flushdb : ST world Z :=
  idx ← get_db_idx;
  _ ← on_db dict_empty idx;
  _ ← on_expdb dict_empty idx;
  rt ← fk_conn_add_status_rsp FK_RSP_OK (zlen FK_RSP_OK);
  mret (ret_rsp rt).

(** [for (i = 0; i < server.dbcnt; i++)] *)
Fixpoint flushall_loop (n : nat) (i : Z) : ST world unit :=
  match n with
  | O => mret tt
  | S n' =>
      dbcnt ← st_gets (fun w => sv_dbcnt (w_svr w));
      if i <? dbcnt then
        _ ← on_db dict_empty i;
        _ ← on_expdb dict_empty i;
        flushall_loop n' (i + 1)
      else mret tt
  end.

Definition fk_cmd_flushall : ST world Z :=
  dbcnt ← st_gets (fun w => sv_dbcnt (w_svr w));
  _ ← flushall_loop (Z.to_nat dbcnt) 0;
  rt ← fk_conn_add_status_rsp FK_RSP_OK (zlen FK_RSP_OK);
  mret (ret_rsp rt).

Definition fk_cmd_exists : ST world Z :=
  idx ← get_db_idx;
  key ← fk_conn_get_arg 1;
  value ← db_get idx key;
  let n := match value with Some _ => 1 | None => 0 end in
  rt ← fk_conn_add_int_rsp n;
  mret (ret_rsp rt).

(** [db_idx >= server.dbcnt] compares as unsigned, after the test for [< 0]. *)
Definition fk_cmd_select : ST world Z :=
  itm ← fk_conn_get_arg 1;
  dbcnt ← st_gets (fun w => sv_dbcnt (w_svr w));
  let db_idx := atoi (s_str itm) in
  if (db_idx <? 0) || (dbcnt <=? db_idx) then
    rt ← fk_conn_add_error_rsp FK_RSP_ERR (zlen FK_RSP_ERR);
    mret (ret_rsp rt)
  else
    _ ← mod_conn (fun c => cn_db_idx c db_idx);
    rt ← fk_conn_add_status_rsp FK_RSP_OK (zlen FK_RSP_OK);
    mret (ret_rsp rt).

(** ** What the commands promise *)

Module DbSpec.
(** The number of keys that were there; the expiry times stay. *)
Fixpoint del (ks : list bytes) (a : astate) : Z * astate :=
  match ks with
  | [] => (0, a)
  | k :: ks' =>
      let n := match cur_db a !! k with Some _ => 1 | None => 0 end in
      let '(n', a) := del ks' (put_cur (delete k (cur_db a)) a) in (n + n', a)
  end.

Definition flushdb (a : astate) : astate := put_cur_exp ∅ (put_cur ∅ a).

Definition flushall (a : astate) : astate :=
  AState ((fun _ => ∅) <$> a_db a) ((fun _ => ∅) <$> a_exp a) (a_idx a) (a_ticks a).
End DbSpec.

(** ** The handlers keep the promises *)

Lemma del_bound ks a : 0 <= (DbSpec.del ks a).1 <= zlen ks.
Proof.
  revert a. induction ks as [|k ks IH]; intros a; cbn; [by split|].
  specialize (IH (put_cur (delete k (cur_db a)) a)). destruct (DbSpec.del ks _) as [n a'].
  cbn in *. rewrite zlen_cons. destruct (cur_db a !! k); lia.
Qed.

Section db_props.
Context (w : world) (W : world_ok w).

Lemma del_loop_ok l : args_ok (w_conn w) l -> forall n i ks w1 a1 d,
  db_step w w1 a1 -> 0 <= i -> zdrop i l = ks -> (length ks < n)%nat ->
  wp (del_loop n (c_db_idx (w_conn w)) i d)
    (fun rt w2 => db_step w w2 (DbSpec.del ks a1).2 /\ rt = d + (DbSpec.del ks a1).1) w1.
Proof.
  intros A. induction n as [|n IH]; intros i ks w1 a1 d H1 Hi Hks Hn; [lia|].
  cbn [del_loop]. pose proof (args_ok_step _ _ _ _ A H1) as A1. apply (wp_get_cnt l); [done|].
  destruct ks as [|k ks].
  { apply zdrop_nil in Hks. rewrite (proj2 (Z.ltb_ge _ _)) by lia. apply wp_ret. cbn.
    split; [done|lia]. }
  destruct (zdrop_cons _ _ _ _ Hi Hks) as (Hk & Hks1 & Hil). rewrite (proj2 (Z.ltb_lt _ _)) by lia.
  eapply (wp_get_arg _ _ A1); [exact Hk|]. intros id1 Ho1. step_conn H1.
  apply wp_db_remove; [eauto with fk|done|]. intros w2 H2. rewrite (ds_conn _ _ _ H1).
  rewrite (ds_abs _ _ _ H1). step_trans H1 H2.
  eapply wp_mono; [eapply IH; [exact H1|lia|exact Hks1|cbn in Hn; lia]|].
  intros rt w3 [H3 ->]. cbn [DbSpec.del].
  destruct (DbSpec.del ks _) as [n' a']. cbn [fst snd] in *. split; [done|].
  destruct (cur_db a1 !! k); cbn; lia.
Qed.

Lemma del_ok l c ks : args_ok (w_conn w) l -> l = c :: ks ->
  wp fk_cmd_del
    (handled w (to (DbSpec.del ks (abs w)).2) (int_rsp (DbSpec.del ks (abs w)).1)) w.
Proof.
  intros A El. unfold fk_cmd_del. apply wp_get_idx. apply (wp_get_cnt l); [done|].
  eapply wp_seq.
  { apply (del_loop_ok l A _ 1 ks w (abs w) 0); [by apply db_step_refl|lia|by rewrite El|].
    rewrite El. unfold zlen. cbn [length]. lia. }
  intros d w1 [H1 ->]. eapply wp_reply_end; [exact H1|]. pose proof (del_bound ks (abs w)).
  pose proof (ao_max _ _ A) as Hmax. unfold FK_ARG_CNT_HIGHWAT in Hmax. rewrite El, zlen_cons in Hmax.
  rewrite Z.add_0_l. apply wp_int_ok; [eauto with fk|lia].
Qed.

Lemma flushdb_ok :
  wp fk_cmd_flushdb (handled w (to (DbSpec.flushdb (abs w))) (status_rsp FK_RSP_OK)) w.
Proof.
  unfold fk_cmd_flushdb. apply wp_get_idx. apply (wp_db_empty w W). intros rt w1 H1. step_conn H1.
  apply wp_exp_empty; [eauto with fk|]. intros rt' w2 H2. step_trans H1 H2.
  eapply wp_reply_end; [exact H1|]. eauto with fk.
Qed.

Lemma exists_ok l c k : args_ok (w_conn w) l -> l = [c; k] ->
  wp fk_cmd_exists
    (handled w (to (abs w)) (int_rsp (if decide (is_Some (cur_db (abs w) !! k)) then 1 else 0))) w.
Proof.
  intros A ->. unfold fk_cmd_exists. apply wp_get_idx. wp_arg A id1 Hk.
  apply (wp_db_get w W); [done|]. intros o Ho _. rewrite Ho.
  destruct o; cbn; (destruct (decide _) as [Hs|Hs]; [|try (destruct Hs; by eexists)]);
    try (by destruct Hs); (apply wp_reply_end; [auto with fk|]; apply wp_int_ok; [done|lia]).
Qed.

Lemma select_ok l c n : args_ok (w_conn w) l -> l = [c; n] ->
  wp fk_cmd_select
    (if decide (0 <= atoi n < sv_dbcnt (w_svr w))
     then handled w (to (put_idx (atoi n) (abs w))) (status_rsp FK_RSP_OK)
     else handled w (to (abs w)) (error_rsp FK_RSP_ERR)) w.
Proof.
  intros A ->. unfold fk_cmd_select. wp_arg A id1 Hk. eapply wp_step; [reflexivity|].
  cbn [s_str]. destruct ((atoi n <? 0) || (sv_dbcnt (w_svr w) <=? atoi n)) eqn:E.
  - destruct (decide _) as [Hd|_]; [apply orb_true_iff in E as [E|E]; lia|].
    apply wp_reply_end; auto with fk.
  - apply orb_false_iff in E as [E1 E2]. destruct (decide _) as [_|Hd]; [|lia].
    eapply wp_step; [reflexivity|].
    set (w1 := w_set_conn w (cn_db_idx (w_conn w) (atoi n))).
    assert (world_ok w1) as W1 by (destruct W; split; [done|cbn; lia|done]).
    eapply wp_mono; [apply (wp_reply_end w1 w1 (abs w1) (status_rsp FK_RSP_OK)); auto with fk|].
    intros rt w2 [O F C R Ha]. split; try done.
Qed.

(** One turn of FLUSHALL and all of them. *)
Lemma flushall_loop_ok n : forall i w1 a1,
  db_step w w1 a1 -> 0 <= i -> i + Z.of_nat n = sv_dbcnt (w_svr w) ->
  (forall j, 0 <= j < i -> znth (a_db a1) j = Some ∅ /\ znth (a_exp a1) j = Some ∅) ->
  wp (flushall_loop n i) (fun _ w2 => exists a2, db_step w w2 a2 /\
    zlen (a_db a2) = zlen (a_db a1) /\ zlen (a_exp a2) = zlen (a_exp a1) /\
    a_idx a2 = a_idx a1 /\ a_ticks a2 = a_ticks a1 /\
    forall j, 0 <= j < sv_dbcnt (w_svr w) ->
      znth (a_db a2) j = Some ∅ /\ znth (a_exp a2) j = Some ∅) w1.
Proof.
  induction n as [|n IH]; intros i w1 a1 H1 Hi Hn Hj; cbn [flushall_loop].
  { apply wp_ret. exists a1. split_and!; try done. intros j Hj'. apply Hj. lia. }
  eapply wp_step; [reflexivity|]. cbv beta.
  pose proof (svr_frame_dbcnt _ _ (ds_frame _ _ _ H1)) as Hcnt. rewrite Hcnt.
  rewrite (proj2 (Z.ltb_lt _ _)) by lia.
  eapply wp_seq; [apply (on_db_ok w1 ltac:(eauto with fk) _ i (fun _ => ∅) (fun _ => FK_DICT_OK));
    [lia|intros d m Hd _; by apply dict_empty_db]|].
  intros rt w2 [H2 _]. step_trans H1 H2.
  pose proof (svr_frame_dbcnt _ _ (ds_frame _ _ _ H1)) as Hcnt2.
  eapply wp_seq; [apply (on_expdb_ok w2 ltac:(eauto with fk) _ i (fun _ => ∅) (fun _ => FK_DICT_OK));
    [lia|intros d m Hd; by apply dict_empty_exp]|].
  intros rt' w3 [H3 _]. step_trans H1 H3.
  assert (zlen (a_db a1) = sv_dbcnt (w_svr w) /\ zlen (a_exp a1) = sv_dbcnt (w_svr w)) as [Hl1 Hl2].
  { pose proof (ds_ok _ _ _ H1) as [[? L1 L2 _ _] _ _].
    pose proof (svr_frame_dbcnt _ _ (ds_frame _ _ _ H1)) as Hc.
    pose proof (ds_abs _ _ _ H1) as Ha. unfold abs, put_db, put_exp in Ha.
    injection Ha as Ha1 Ha2 _ _. apply (f_equal zlen) in Ha1, Ha2.
    rewrite zlen_map, zlen_zupd in Ha1. rewrite zlen_map, zlen_zupd in Ha2. lia. }
  eapply wp_mono; [apply (IH (i + 1)); [exact H1|lia|lia|]|].
  - intros j Hj'. cbn. destruct (decide (j = i)) as [->|Hne].
    + rewrite !znth_zupd_eq by lia. done.
    + rewrite !znth_zupd_ne by lia. apply Hj. lia.
  - intros [] w4 (a2 & H4 & E1 & E2 & E3 & E4 & E5). exists a2. cbn in *.
    rewrite zlen_zupd in E1. rewrite zlen_zupd in E2.
    done.
Qed.

Lemma flushall_ok :
  wp fk_cmd_flushall (handled w (to (DbSpec.flushall (abs w))) (status_rsp FK_RSP_OK)) w.
Proof.
  unfold fk_cmd_flushall. eapply wp_step; [reflexivity|]. cbv beta.
  pose proof (wo_svr _ W) as [Hc L1 L2 _ _].
  eapply wp_seq; [apply (flushall_loop_ok _ 0 w (abs w)); [by apply db_step_refl|lia|lia|]|].
  { intros j Hj. lia. }
  intros [] w1 (a2 & H1 & E1 & E2 & E3 & E4 & E5). cbn in E1, E2, E3, E4. rewrite zlen_map in E1. rewrite zlen_map in E2.
  assert (a2 = DbSpec.flushall (abs w)) as ->.
  { destruct a2 as [D X I T]. unfold DbSpec.flushall; cbn in *. subst I T. f_equal.
    - apply list_eq_znth; [by rewrite !zlen_map, E1|]. intros j Hj.
      destruct (E5 j ltac:(lia)) as [-> _]. rewrite !znth_fmap.
      destruct (znth_is_Some (sv_db (w_svr w)) j ltac:(lia)) as [d ->]. done.
    - apply list_eq_znth; [by rewrite !zlen_map, E2|]. intros j Hj.
      destruct (E5 j ltac:(lia)) as [_ ->]. rewrite !znth_fmap.
      destruct (znth_is_Some (sv_expdb (w_svr w)) j ltac:(lia)) as [d ->]. done. }
  eapply wp_reply_end; [exact H1|]. eauto with fk.
Qed.
End db_props.
