(* ===== verification/CmdProps.v ===== *)
(** Sequences of commands: what one command leaves is what the next one finds.

    Each theorem runs two or three handlers one after the other on the server, and
    states the reply of the last one. *)
From S2P Require Import Prelude Util Buf Dict Item Conf Svr Req Parse Store.
From S2P Require Import CmdStr CmdHash CmdList CmdDb.

(** The request [l] reaches the server in the state [w1] leaves: any connection
    that has selected the same database, with any reply buffer. *)
Record arrives (w1 : world) (l : list bytes) (w2 : world) : Prop := {
  rq_ok : world_ok w2;
  rq_args : args_ok (w_conn w2) l;
  rq_abs : abs w2 = abs w1;
  rq_clock : sv_clock (w_svr w2) = sv_clock (w_svr w1)
}.

(** [m] answers the request [l] with [s] in every world where [l] arrives, if the
    reply fits; [P] holds of the store then. *)
Definition answers (m : ST world Z) (s : list cell) (P : astate -> Prop) (w : world) : Prop :=
  wp m (fun rt w' => answered (c_wbuf (w_conn w)) (c_wbuf (w_conn w')) rt s /\
    (rt = FK_SVR_OK -> P (abs w'))) w.

Definition now_of (w : world) (n : nat) : Z := fk_util_tv2millis (sv_clock (w_svr w) n).

Lemma handled_answers (m : ST world Z) A s w (P : astate -> Prop) :
  wp m (handled w A s) w -> (forall a, A FK_SVR_OK a -> P a) -> answers m s P w.
Proof.
  intros H HP. eapply wp_mono; [exact H|]. intros rt w' [O F C R HA]. split; [done|].
  intros ->. by apply HP.
Qed.

(** ** Laws of the abstract store *)

Section store_laws.
Context (a : astate) (Hi : 0 <= a_idx a < zlen (a_db a)) (He : 0 <= a_idx a < zlen (a_exp a)).

Lemma cur_db_put m : cur_db (put_cur m a) = m.
Proof using Hi. unfold cur_db, put_cur, adb, put_db; cbn. by rewrite znth_zupd_eq. Qed.
Lemma cur_exp_put m : cur_exp (put_cur_exp m a) = m.
Proof using He. unfold cur_exp, put_cur_exp, aexp, put_exp; cbn. by rewrite znth_zupd_eq. Qed.
Lemma cur_db_put_exp m : cur_db (put_cur_exp m a) = cur_db a.
Proof. done. Qed.
Lemma cur_exp_put_db m : cur_exp (put_cur m a) = cur_exp a.
Proof. done. Qed.
End store_laws.

(** The selected database exists. *)
Definition astate_ok (a : astate) : Prop :=
  0 <= a_idx a < zlen (a_db a) /\ 0 <= a_idx a < zlen (a_exp a).

Lemma abs_ok w : world_ok w -> astate_ok (abs w).
Proof. intros [[] ? ?]. unfold astate_ok; cbn. rewrite !zlen_map. lia. Qed.

Lemma put_cur_ok m a : astate_ok a -> astate_ok (put_cur m a).
Proof. unfold astate_ok, put_cur, put_db; cbn. by rewrite zlen_zupd. Qed.
Lemma put_cur_exp_ok m a : astate_ok a -> astate_ok (put_cur_exp m a).
Proof. unfold astate_ok, put_cur_exp, put_exp; cbn. by rewrite zlen_zupd. Qed.
Lemma tick_ok a : astate_ok a -> astate_ok (tick a).
Proof. done. Qed.
#[export] Hint Resolve abs_ok put_cur_ok put_cur_exp_ok tick_ok : fk.

Lemma cur_db_put_ok m a : astate_ok a -> cur_db (put_cur m a) = m.
Proof. intros []. by apply cur_db_put. Qed.
Lemma cur_exp_put_ok m a : astate_ok a -> cur_exp (put_cur_exp m a) = m.
Proof. intros []. by apply cur_exp_put. Qed.

(** Simplify the selected database of an updated store. *)
Ltac store_simpl :=
  repeat first
    [ rewrite cur_db_put_ok by auto with fk
    | rewrite cur_exp_put_ok by auto with fk
    | rewrite cur_exp_put_db
    | rewrite cur_db_put_exp
    | rewrite lookup_insert_eq
    | rewrite lookup_delete_eq ].

(** ** Two requests *)

(** The first handler, then a request that finds its store. *)
Lemma two_requests (m1 : ST world Z) w A s l (m2 : ST world Z) (s2 : list cell)
    (P : astate -> Prop) :
  wp m1 (handled w A s) w ->
  (forall rt w2, A rt (abs w2) -> world_ok w2 -> args_ok (w_conn w2) l ->
     sv_clock (w_svr w2) = sv_clock (w_svr w) -> answers m2 s2 P w2) ->
  wp m1 (fun _ w1 => forall w2, arrives w1 l w2 -> answers m2 s2 P w2) w.
Proof.
  intros H1 H2. eapply wp_mono; [exact H1|]. intros rt w1 [O F C R HA] w2 [O2 A2 E2 K2].
  apply (H2 rt); try done; [by rewrite E2|]. by rewrite K2, (svr_frame_clock _ _ F).
Qed.

(** What GET replies for a value. *)
Definition value_rsp (v : option val) : list cell :=
  match v with
  | None => bulk_rsp FK_RSP_NIL
  | Some (VStr s) => string_rsp s
  | Some _ => error_rsp FK_RSP_TYPE_ERR
  end.

Lemma get_fresh w c k :
  world_ok w -> args_ok (w_conn w) [c; k] -> cur_exp (abs w) !! k = None ->
  answers fk_cmd_get (value_rsp (cur_db (abs w) !! k)) (fun a => a = abs w) w.
Proof.
  intros W A He. pose proof (get_ok w W _ c k A eq_refl) as H. unfold Spec.get, Spec.lookup, Spec.expire in H.
  rewrite He in H. cbn [fst snd] in H. eapply handled_answers; [exact H|]. by unfold to.
Qed.

(** GET of a key with the expiry time [e]. *)
Lemma get_expiring w c k e :
  world_ok w -> args_ok (w_conn w) [c; k] -> cur_exp (abs w) !! k = Some e ->
  let gone := e <? now_of w (a_ticks (abs w)) in
  answers fk_cmd_get (value_rsp (if gone then None else cur_db (abs w) !! k))
    (fun a => cur_db a = (if gone then delete k (cur_db (abs w)) else cur_db (abs w)) /\
      cur_exp a = (if gone then delete k (cur_exp (abs w)) else cur_exp (abs w))) w.
Proof.
  intros W A He gone. pose proof (get_ok w W _ c k A eq_refl) as H.
  unfold Spec.get, Spec.lookup, Spec.expire in H. rewrite He in H. fold (now_of w) in H.
  change (fk_util_tv2millis (sv_clock (w_svr w) (a_ticks (abs w)))) with (now_of w (a_ticks (abs w))) in H.
  fold gone in H. pose proof (abs_ok w W) as Hok.
  destruct gone; (eapply handled_answers; [exact H|]); cbn [fst snd]; unfold to; intros a ->.
  - split; store_simpl; done.
  - done.
Qed.

(** ** Strings and expiry times *)

(** C17. SETEX then GET: the value is there until the clock has passed the time of
    the SETEX plus its seconds; from then on GET answers nil and the key is gone
    from the database and from the expiry times. *)
Theorem setex_then_get w c c' k x v :
  world_ok w -> args_ok (w_conn w) [c; k; x; v] ->
  let deadline := i64 (atol x * 1000 + now_of w (a_ticks (abs w))) in
  wp fk_cmd_setex (fun _ w1 => forall w2, arrives w1 [c'; k] w2 ->
    let gone := deadline <? now_of w (S (a_ticks (abs w))) in
    answers fk_cmd_get (if gone then bulk_rsp FK_RSP_NIL else string_rsp v)
      (fun a => cur_db a !! k = (if gone then None else Some (VStr v)) /\
        cur_exp a !! k = (if gone then None else Some deadline)) w2) w.
Proof.
  intros W A deadline. eapply two_requests; [eapply setex_ok; [exact W|exact A|reflexivity]|].
  intros rt w2 HA W2 A2 K. unfold to in HA. pose proof (abs_ok w W) as Hok.
  assert (cur_exp (abs w2) !! k = Some deadline) as He.
  { rewrite HA. unfold Spec.setex, Spec.set. store_simpl. done. }
  assert (cur_db (abs w2) !! k = Some (VStr v)) as Hv.
  { rewrite HA. unfold Spec.setex, Spec.set. store_simpl. done. }
  assert (a_ticks (abs w2) = S (a_ticks (abs w))) as Ht by by rewrite HA.
  pose proof (get_expiring w2 c' k deadline W2 A2 He) as Hg. rewrite Ht, Hv in Hg.
  assert (now_of w2 = now_of w) as Hnow by (unfold now_of; by rewrite K).
  cbv zeta in Hg. rewrite Hnow in Hg.
  eapply wp_mono; [exact Hg|]. cbv beta. intros rt' w' [Hr HP]. split.
  - destruct (deadline <? now_of w (S (a_ticks (abs w)))); exact Hr.
  - intros E. destruct (HP E) as [-> ->].
    destruct (deadline <? now_of w (S (a_ticks (abs w)))); [by rewrite !lookup_delete_eq|done].
Qed.

(** SET does not take the expiry time of an earlier SETEX away: a key that is
    set anew after its old expiry time is gone at the first GET. *)
Theorem set_keeps_expiry w c c' k v e :
  world_ok w -> args_ok (w_conn w) [c; k; v] ->
  cur_exp (abs w) !! k = Some e -> e < now_of w (a_ticks (abs w)) ->
  wp fk_cmd_set (fun _ w1 => forall w2, arrives w1 [c'; k] w2 ->
    answers fk_cmd_get (bulk_rsp FK_RSP_NIL) (fun a => cur_db a !! k = None) w2) w.
Proof.
  intros W A He Hlt. eapply two_requests; [eapply set_ok; [exact W|exact A|reflexivity]|].
  intros rt w2 HA W2 A2 K. unfold to, Spec.set in HA. pose proof (abs_ok w W) as Hok.
  assert (cur_exp (abs w2) !! k = Some e) as He2 by by rewrite HA.
  pose proof (get_expiring w2 c' k e W2 A2 He2) as Hg. cbv zeta in Hg.
  assert ((e <? now_of w2 (a_ticks (abs w2))) = true) as Hgone.
  { unfold now_of in *. rewrite K, HA. apply Z.ltb_lt. exact Hlt. }
  rewrite Hgone in Hg. eapply wp_mono; [exact Hg|]. cbv beta. intros rt' w' [Hr HP]. split; [exact Hr|].
  intros E. destruct (HP E) as [-> _]. apply lookup_delete_eq.
Qed.

(** The value the last pair with the key [k] gives. *)
Fixpoint last_binding (kvs : list bytes) (k : bytes) (d : option bytes) : option bytes :=
  match kvs with
  | k' :: v :: kvs' => last_binding kvs' k (if bool_decide (k' = k) then Some v else d)
  | _ => d
  end.

Lemma mset_lookup k : forall n kvs a, (length kvs <= n)%nat -> astate_ok a ->
  cur_exp (Spec.mset kvs a) = cur_exp a /\
  forall d, (forall v, d = Some v -> cur_db a !! k = Some (VStr v)) ->
    (d = None -> cur_db (Spec.mset kvs a) !! k =
      match last_binding kvs k d with Some v => Some (VStr v) | None => cur_db a !! k end) /\
    (forall v, last_binding kvs k d = Some v -> cur_db (Spec.mset kvs a) !! k = Some (VStr v)).
Proof.
  induction n as [|n IH]; intros kvs a Hn Ha.
  { destruct kvs; [|cbn in Hn; lia]. cbn. split; [done|]. intros d Hd. split; [by intros ->|apply Hd]. }
  destruct kvs as [|k' [|v' kvs]]; cbn [Spec.mset last_binding length] in *.
  1,2: split; [done|]; intros d Hd; split; [by intros ->|apply Hd].
  destruct (IH kvs (Spec.set k' v' a) ltac:(lia) (put_cur_ok _ _ Ha)) as [He Hl].
  split; [by rewrite He|]. intros d Hd.
  assert (cur_db (Spec.set k' v' a) = <[k' := VStr v']> (cur_db a)) as Es
    by (unfold Spec.set; by store_simpl).
  destruct (bool_decide (k' = k)) eqn:Ek.
  - apply bool_decide_eq_true in Ek as ->.
    destruct (Hl (Some v')) as [_ H2]; [intros v [= <-]; rewrite Es; apply lookup_insert_eq|].
    assert (forall kvs x, exists y, last_binding kvs k (Some x) = Some y) as Hsome.
    { clear. intros kvs. remember (length kvs) as m eqn:Em. revert kvs Em.
      induction (lt_wf m) as [m _ IH]. intros kvs -> x.
      destruct kvs as [|k' [|v' kvs]]; cbn; [by eexists..|].
      destruct (bool_decide _); (eapply IH; [|reflexivity]); cbn; lia. }
    destruct (Hsome kvs v') as [y Hy]. split; [intros _; rewrite Hy; by apply H2|exact H2].
  - apply bool_decide_eq_false in Ek. destruct (Hl d) as [H1 H2].
    { intros v Hv. rewrite Es, lookup_insert_ne by done. by apply Hd. }
    split; [|exact H2]. intros Hnone. rewrite (H1 Hnone), Es, lookup_insert_ne by done. done.
Qed.

(** MSET then GET: with an even number of arguments every key has the value
    of its last pair and other keys keep theirs; with an odd number MSET answers
    the argument error and sets nothing. *)
Theorem mset_then_get w c c' kvs k :
  world_ok w -> args_ok (w_conn w) (c :: kvs) -> cur_exp (abs w) !! k = None ->
  wp fk_cmd_mset (fun rt w1 =>
    answered (c_wbuf (w_conn w)) (c_wbuf (w_conn w1)) rt
      (if Nat.even (length kvs) then status_rsp FK_RSP_OK else error_rsp FK_RSP_ARGC_ERR) /\
    forall w2, arrives w1 [c'; k] w2 ->
    answers fk_cmd_get
      (match (if Nat.even (length kvs) then last_binding kvs k None else None) with
       | Some v => string_rsp v
       | None => value_rsp (cur_db (abs w) !! k)
       end) (fun a => a = abs w1) w2) w.
Proof.
  intros W A He. pose proof (mset_ok w W _ c kvs A eq_refl) as H. pose proof (abs_ok w W) as Hok.
  destruct (mset_lookup k (length kvs) kvs (abs w) ltac:(lia) Hok) as [Hex Hl].
  destruct (Hl None ltac:(done)) as [Hl' _]. specialize (Hl' eq_refl).
  destruct (Nat.even (length kvs)); (eapply wp_mono; [exact H|]);
    intros rt w1 [O F C R HA]; (split; [exact R|]); unfold to in HA;
    intros w2 [O2 A2 E2 K2]; rewrite <- E2; rewrite HA in E2.
  - pose proof (get_fresh w2 c' k O2 A2) as Hg. rewrite E2, Hex, Hl' in Hg. specialize (Hg He).
    rewrite E2. destruct (last_binding kvs k None); exact Hg.
  - pose proof (get_fresh w2 c' k O2 A2) as Hg. rewrite E2 in *. by apply Hg.
Qed.

(** ** Hashes and lists *)

(** HSET then HGET: a new field has the value that was set; a field that
    exists keeps its first value, though HSET answers 1 in both cases. *)
Theorem hset_then_hget (w : world) (c c' k f v : bytes) (m : gmap bytes bytes) :
  world_ok w -> args_ok (w_conn w) [c; k; f; v] ->
  cur_db (abs w) !! k = Some (VHash m) \/ (cur_db (abs w) !! k = None /\ m = ∅) ->
  wp fk_cmd_hset (fun rt w1 =>
    answered (c_wbuf (w_conn w)) (c_wbuf (w_conn w1)) rt (int_rsp 1) /\
    forall w2, arrives w1 [c'; k; f] w2 ->
    answers fk_cmd_hget (string_rsp (default v (m !! f))) (fun a => a = abs w1) w2) w.
Proof.
  intros W A Hk. pose proof (hset_ok w W _ c k f v A eq_refl) as H. pose proof (abs_ok w W) as Hok.
  assert (exists m', HashSpec.hset k f v (abs w) =
      (int_rsp 1, put_cur (<[k := VHash m']> (cur_db (abs w))) (abs w)) /\
      m' !! f = Some (default v (m !! f))) as (m' & Em & Ef).
  { unfold HashSpec.hset. destruct Hk as [->|[-> ->]].
    - exists (HashSpec.hash_put f v m). split; [done|]. unfold HashSpec.hash_put.
      destruct (m !! f) eqn:E; [done|]. apply lookup_insert_eq.
    - exists {[f := v]}. split; [done|]. by rewrite lookup_empty, lookup_singleton_eq. }
  rewrite Em in H. eapply wp_mono; [exact H|]. intros rt w1 [O F C R HA]. split; [exact R|].
  intros w2 [O2 A2 E2 K2]. unfold to in HA. cbn [snd] in HA.
  pose proof (hget_ok w2 O2 _ c' k f A2 eq_refl) as Hg.
  assert (cur_db (abs w2) !! k = Some (VHash m')) as Hv by (rewrite E2, HA; by store_simpl).
  unfold HashSpec.hget in Hg. rewrite Hv, Ef in Hg.
  eapply handled_answers; [exact Hg|]. unfold to. by rewrite E2.
Qed.

(** C34. A push (at the head or the tail) then a pop (at either end): the pop
    answers the element at its end of the list with the new elements, which LPUSH
    puts before the old ones in reverse order and RPUSH after them in order, and
    the rest stays.  When the answer does not fit into the write buffer the
    handler fails and the list keeps the element. *)
Theorem push_then_pop (w : world) (c c' k : bytes) vs l pos pos' :
  world_ok w -> args_ok (w_conn w) (c :: k :: vs) -> vs <> [] ->
  cur_db (abs w) !! k = Some (VList l) \/ (cur_db (abs w) !! k = None /\ l = []) ->
  wp (fk_cmd_generic_push pos) (fun rt w1 =>
    answered (c_wbuf (w_conn w)) (c_wbuf (w_conn w1)) rt (int_rsp (zlen vs)) /\
    exists x rest,
      (if pos =? 0 then reverse vs ++ l else l ++ vs) =
        (if pos' =? 0 then x :: rest else rest ++ [x]) /\
      forall w2, arrives w1 [c'; k] w2 ->
      wp (fk_cmd_generic_pop pos') (fun rt w3 =>
        answered (c_wbuf (w_conn w2)) (c_wbuf (w_conn w3)) rt (string_rsp x) /\
        cur_db (abs w3) !! k = Some (VList
          (if rt =? FK_SVR_OK then rest else if pos =? 0 then reverse vs ++ l else l ++ vs))) w2) w.
Proof.
  intros W A Hvs Hk. pose proof (push_ok w W pos _ c k vs A eq_refl) as H. pose proof (abs_ok w W) as Hok.
  set (l' := if pos =? 0 then reverse vs ++ l else l ++ vs).
  assert (ListSpec.push pos k vs (abs w) =
      (int_rsp (zlen vs), put_cur (<[k := VList l']> (cur_db (abs w))) (abs w))) as Ep.
  { unfold ListSpec.push, ListSpec.pushed. by destruct Hk as [->|[-> ->]]. }
  rewrite Ep in H. eapply wp_mono; [exact H|]. intros rt w1 [O F C R HA]. split; [exact R|].
  assert (l' <> []) as Hne.
  { unfold l'. intros E. destruct (pos =? 0); apply app_eq_nil in E as [E1 E2]; [|done].
    apply (f_equal reverse) in E1. rewrite reverse_involutive in E1. done. }
  assert (exists x rest, l' = (if pos' =? 0 then x :: rest else rest ++ [x]) /\
      ListSpec.popped pos' l' = Some (x, rest)) as (x & rest & El & Epop).
  { unfold ListSpec.popped. destruct (pos' =? 0).
    - destruct l' as [|x rest]; [done|]. by exists x, rest.
    - destruct (reverse l') as [|x rest] eqn:Er.
      + apply (f_equal reverse) in Er. by rewrite reverse_involutive in Er.
      + exists x, (reverse rest). split; [|done]. apply (f_equal reverse) in Er.
        by rewrite reverse_involutive, reverse_cons in Er. }
  exists x, rest. split; [exact El|]. intros w2 [O2 A2 E2 K2]. unfold to in HA. cbn [snd] in HA.
  pose proof (pop_ok w2 O2 pos' _ c' k A2 eq_refl) as Hp.
  assert (cur_db (abs w2) !! k = Some (VList l')) as Hv by (rewrite E2, HA; by store_simpl).
  unfold ListSpec.pop in Hp. rewrite Hv, Epop in Hp. cbn [fst snd] in Hp.
  eapply wp_mono; [exact Hp|]. intros rt' w3 [O3 F3 C3 R3 H3]. split; [exact R3|].
  unfold to_ok in H3. pose proof (abs_ok w2 O2) as Hok2. destruct (rt' =? FK_SVR_OK).
  - rewrite H3. by store_simpl.
  - by rewrite H3.
Qed.

(** ** Keys and databases *)

Lemma del_lookup : forall ks a k, astate_ok a ->
  cur_db (DbSpec.del ks a).2 !! k = (if bool_decide (k ∈ ks) then None else cur_db a !! k) /\
  cur_exp (DbSpec.del ks a).2 = cur_exp a.
Proof.
  induction ks as [|x ks IH]; intros a k Ha; cbn [DbSpec.del]; [done|].
  destruct (IH (put_cur (delete x (cur_db a)) a) k (put_cur_ok _ _ Ha)) as [H1 H2].
  destruct (DbSpec.del ks _) as [n a']. cbn [snd] in *. rewrite H1, H2. split; [|done].
  destruct (decide (k ∈ ks)) as [Hk|Hk].
  - rewrite !bool_decide_eq_true_2; [done| |done]. apply elem_of_cons. by right.
  - rewrite (bool_decide_eq_false_2 (k ∈ ks)) by done. rewrite cur_db_put_ok by done.
    destruct (decide (k = x)) as [->|Hne].
    + rewrite bool_decide_eq_true_2 by apply list_elem_of_here. apply lookup_delete_eq.
    + rewrite bool_decide_eq_false_2 by (rewrite elem_of_cons; naive_solver).
      by rewrite lookup_delete_ne.
Qed.

Lemma del_count : forall ks a, astate_ok a ->
  (DbSpec.del ks a).1 = Z.of_nat (size (dom (cur_db a) ∩ list_to_set ks)).
Proof.
  induction ks as [|x ks IH]; intros a Ha; cbn [DbSpec.del list_to_set].
  { rewrite (right_absorb_L ∅ (∩)). done. }
  specialize (IH (put_cur (delete x (cur_db a)) a) (put_cur_ok _ _ Ha)).
  destruct (DbSpec.del ks _) as [n a']. cbn [fst] in *. rewrite IH, cur_db_put_ok, dom_delete_L by done.
  destruct (cur_db a !! x) as [v|] eqn:E.
  - assert (dom (cur_db a) ∩ ({[x]} ∪ list_to_set ks) =
      {[x]} ∪ (dom (cur_db a) ∖ {[x]}) ∩ list_to_set ks) as ->.
    { apply elem_of_dom_2 in E. apply set_eq. intros y.
      destruct (decide (y = x)) as [->|]; set_solver. }
    pose proof (size_union (A:=bytes) (C := gset bytes) {[x]} ((dom (cur_db a) ∖ {[x]}) ∩ list_to_set ks)) as Hs.
    rewrite Hs by set_solver. rewrite size_singleton. lia.
  - apply not_elem_of_dom in E. rewrite Z.add_0_l. do 2 f_equal. set_solver.
Qed.

(** DEL answers how many of the keys it names were there (a key named twice
    counts once) and removes them; then EXISTS answers 0 for them and is not
    changed for other keys.  Expiry times are not touched. *)
Theorem del_then_exists w c c' ks k :
  world_ok w -> args_ok (w_conn w) (c :: ks) ->
  wp fk_cmd_del (fun rt w1 =>
    answered (c_wbuf (w_conn w)) (c_wbuf (w_conn w1)) rt
      (int_rsp (Z.of_nat (size (dom (cur_db (abs w)) ∩ list_to_set ks)))) /\
    cur_exp (abs w1) = cur_exp (abs w) /\
    forall w2, arrives w1 [c'; k] w2 ->
    answers fk_cmd_exists
      (int_rsp (if bool_decide (k ∈ ks) then 0
                else if decide (is_Some (cur_db (abs w) !! k)) then 1 else 0))
      (fun a => a = abs w1) w2) w.
Proof.
  intros W A. pose proof (del_ok w W _ c ks A eq_refl) as H. pose proof (abs_ok w W) as Hok.
  rewrite del_count in H by done. destruct (del_lookup ks (abs w) k Hok) as [Hl He].
  eapply wp_mono; [exact H|]. intros rt w1 [O F C R HA]. unfold to in HA.
  split_and!; [exact R|by rewrite HA|]. intros w2 [O2 A2 E2 K2].
  pose proof (exists_ok w2 O2 _ c' k A2 eq_refl) as Hx. rewrite E2, HA, Hl in Hx.
  eapply handled_answers.
  - destruct (bool_decide (k ∈ ks)); [|exact Hx]. destruct (decide (is_Some None)) as [Hs|]; [|exact Hx].
    by destruct Hs.
  - unfold to. by rewrite HA.
Qed.

(** FLUSHALL leaves every database and all expiry times empty. *)
Theorem flushall_empties w c i :
  world_ok w -> args_ok (w_conn w) [c] -> 0 <= i < sv_dbcnt (w_svr w) ->
  answers fk_cmd_flushall (status_rsp FK_RSP_OK)
    (fun a => adb a i = ∅ /\ aexp a i = ∅ /\ a_idx a = c_db_idx (w_conn w)) w.
Proof.
  intros W A Hi. eapply handled_answers; [by apply flushall_ok|]. unfold to. intros a ->.
  unfold adb, aexp; cbn. pose proof (wo_svr _ W) as [? L1 L2 _ _].
  rewrite !znth_fmap.
  destruct (znth_is_Some (sv_db (w_svr w)) i ltac:(lia)) as [d ->].
  destruct (znth_is_Some (sv_expdb (w_svr w)) i ltac:(lia)) as [e ->]. done.
Qed.

(** SELECT then SET: with a valid index the key is set in the selected
    database and in no other; with any other index SELECT answers an error and
    the connection stays where it was. *)
Theorem select_then_set w c c' n k v i :
  world_ok w -> args_ok (w_conn w) [c; n] -> 0 <= i < sv_dbcnt (w_svr w) ->
  let sel := if decide (0 <= atoi n < sv_dbcnt (w_svr w)) then atoi n else c_db_idx (w_conn w) in
  wp fk_cmd_select (fun rt w1 =>
    answered (c_wbuf (w_conn w)) (c_wbuf (w_conn w1)) rt
      (if decide (0 <= atoi n < sv_dbcnt (w_svr w)) then status_rsp FK_RSP_OK
       else error_rsp FK_RSP_ERR) /\
    forall w2, arrives w1 [c'; k; v] w2 ->
    answers fk_cmd_set (status_rsp FK_RSP_OK)
      (fun a => adb a i = if decide (i = sel) then <[k := VStr v]> (adb (abs w) i)
                          else adb (abs w) i) w2) w.
Proof.
  intros W A Hi sel. pose proof (select_ok w W _ c n A eq_refl) as H.
  assert (wp fk_cmd_select (fun rt w1 => answered (c_wbuf (w_conn w)) (c_wbuf (w_conn w1)) rt
      (if decide (0 <= atoi n < sv_dbcnt (w_svr w)) then status_rsp FK_RSP_OK
       else error_rsp FK_RSP_ERR) /\ abs w1 = put_idx sel (abs w)) w) as H'.
  { unfold sel. destruct (decide _); (eapply wp_mono; [exact H|]); intros rt w1 [O F C R HA];
      (split; [exact R|]); by rewrite HA. }
  eapply wp_mono; [exact H'|]. intros rt w1 [R HA]. split; [exact R|].
  intros w2 [O2 A2 E2 K2]. eapply handled_answers; [by eapply (set_ok w2 O2); [exact A2|]|].
  unfold to. intros a ->. rewrite E2, HA. unfold Spec.set, put_cur, cur_db, adb, put_db, put_idx; cbn.
  pose proof (wo_svr _ W) as [? L1 L2 _ _]. destruct (decide (i = sel)) as [->|Hne].
  - rewrite znth_zupd_eq by (rewrite zlen_map; lia). done.
  - rewrite znth_zupd_ne; [done| |done]. unfold sel.
    pose proof (wo_idx _ W). destruct (decide _); lia.
Qed.

(** ** ZADD *)

Lemma zadd_loop_nop l : forall n i w, args_ok (w_conn w) l -> 0 <= i -> i + 2 * Z.of_nat n >= zlen l ->
  Z.even (zlen l - i) = true -> zadd_loop n i w = Some (tt, w).
Proof.
  induction n as [|n IH]; intros i w A Hi Hn Hev; cbn [zadd_loop]; [done|].
  unfold get_arg_cnt, st_gets, mbind, ST_bind. rewrite (ao_cnt _ _ A).
  destruct (i <? zlen l) eqn:E; [|done].
  assert (i + 1 < zlen l) as Hi1.
  { destruct (decide (i + 1 = zlen l)) as [Heq|]; [|lia].
    replace (zlen l - i) with 1 in Hev by lia. done. }
  destruct (znth_is_Some l i ltac:(lia)) as [x Hx].
  destruct (znth_is_Some l (i + 1) ltac:(lia)) as [y Hy].
  destruct (get_arg_ok w l A i x Hx) as (id1 & -> & _).
  destruct (get_arg_ok w l A (i + 1) y Hy) as (id2 & -> & _).
  unfold fk_skiplist_insert, mret, ST_ret. apply IH; [done|lia|lia|].
  replace (zlen l - i) with (zlen l - (i + 2) + 2) in Hev by lia.
  rewrite Z.even_add in Hev. by destruct (Z.even (zlen l - (i + 2))).
Qed.

(** ZADD of a key that is not in the database is undefined behaviour: the
    creation of the skiplist copies the NULL datum of its header node.  Of a key
    that is there (of any type) it stores nothing, and answers the number of
    pairs, or the argument error when they are not pairs. *)
Theorem zadd_missing_key w (c k : bytes) vs :
  world_ok w -> args_ok (w_conn w) (c :: k :: vs) ->
  match cur_db (abs w) !! k with
  | None => fk_cmd_zadd w = None
  | Some _ =>
      wp fk_cmd_zadd (handled w (to (abs w))
        (if Nat.even (length vs) then int_rsp (Z.of_nat (length vs) / 2)
         else error_rsp FK_RSP_ARGC_ERR)) w
  end.
Proof.
  intros W A. set (l := c :: k :: vs) in *.
  destruct (get_arg_ok w l A 1 k eq_refl) as (id & Hid & Hk).
  destruct (db_get_ok w W (c_db_idx (w_conn w)) id k) as (o & Ho & Hv & _); [apply W|done|].
  unfold cur_db. change (a_idx (abs w)) with (c_db_idx (w_conn w)). rewrite Hv.
  assert (zlen l - 2 = Z.of_nat (length vs)) as Hl by (unfold l; rewrite !zlen_cons; unfold zlen; lia).
  destruct o as [x|]; cbn [fmap option_fmap option_map].
  - unfold fk_cmd_zadd. apply wp_get_idx. eapply wp_step; [exact Hid|]. eapply wp_step; [exact Ho|].
    eapply wp_step; [reflexivity|]. apply (wp_get_cnt l); [done|]. rewrite Hl, rem2_even.
    pose proof (ao_max _ _ A) as Hmax. unfold FK_ARG_CNT_HIGHWAT in Hmax.
    destruct (Nat.even (length vs)) eqn:Ev; cbn [negb].
    + eapply wp_step.
      { apply (zadd_loop_nop l); [done|lia|lia|]. rewrite Hl.
        apply Nat.even_spec in Ev as [m ->]. rewrite Nat2Z.inj_mul. by rewrite Z.even_mul. }
      rewrite Z.quot_div_nonneg by lia. apply wp_reply_end; [auto with fk|]. apply wp_int_ok; [done|].
      assert (0 <= Z.of_nat (length vs) / 2 <= Z.of_nat (length vs)); [|lia].
      split; [apply Z.div_pos; lia|]. apply Z.div_le_upper_bound; lia.
    + apply wp_reply_end; auto with fk.
  - unfold fk_cmd_zadd, get_db_idx, st_gets, mbind, ST_bind. cbn beta iota. rewrite Hid, Ho. done.
Qed.

(** ** The theorems on the example server *)

Abbreviation req1 := [lit "SETEX"; lit "key"; lit "1"; lit "v"].

Lemma setex_then_get_witness :
  world_ok (ex_req req1) /\ args_ok (w_conn (ex_req req1)) req1 /\
  wp fk_cmd_setex (fun _ w1 => forall w2, arrives w1 [lit "GET"; lit "key"] w2 ->
    answers fk_cmd_get (string_rsp (lit "v"))
      (fun a => cur_db a !! lit "key" = Some (VStr (lit "v")) /\
        cur_exp a !! lit "key" = Some 1001000) w2) (ex_req req1).
Proof.
  split_and!; [auto with fk|auto with fk|].
  assert (args_ok (w_conn (ex_req req1)) req1) as A by auto with fk.
  pose proof (setex_then_get (ex_req req1) (lit "SETEX") (lit "GET") (lit "key") (lit "1") (lit "v")
    (ex_req_ok _) A) as H. cbv zeta in H.
  assert (i64 (atol (lit "1") * 1000 + now_of (ex_req req1) (a_ticks (abs (ex_req req1)))) = 1001000) as E
    by (vm_compute; reflexivity). rewrite E in H.
  assert ((1001000 <? now_of (ex_req req1) (S (a_ticks (abs (ex_req req1))))) = false) as E2
    by (vm_compute; reflexivity). rewrite E2 in H. exact H.
Defined.

(** A server whose key "key" expires at the time 0. *)
Definition ex_expired (l : list bytes) : world :=
  ex_with (sv_set_expdb ex_svr
    [snd (fst (dict_replace (SItem 1 (lit "key")) (Item 2 (EntNum 0)) fk_dict_init fk_item_init));
     fk_dict_init]) l.

Lemma ex_expired_ok l : world_ok (ex_expired l).
Proof.
  apply ex_with_ok. split; [vm_compute; split; congruence|done|done|by repeat constructor; apply empty_db_inv|].
  constructor; [|repeat constructor; apply empty_exp_inv].
  pose proof (dict_replace_exp 1 (lit "key") (Item 2 (EntNum 0)) fk_dict_init fk_item_init 0
    ltac:(vm_compute; congruence) eq_refl empty_exp_inv) as H.
  destruct (dict_replace _ _ _ _) as [[rt d] m]. apply H.
Qed.

Lemma set_keeps_expiry_witness :
  cur_exp (abs (ex_expired [lit "SET"; lit "key"; lit "v"])) !! lit "key" = Some 0 /\
  wp fk_cmd_set (fun _ w1 => forall w2, arrives w1 [lit "GET"; lit "key"] w2 ->
    answers fk_cmd_get (bulk_rsp FK_RSP_NIL) (fun a => cur_db a !! lit "key" = None) w2)
    (ex_expired [lit "SET"; lit "key"; lit "v"]).
Proof.
  assert (cur_exp (abs (ex_expired [lit "SET"; lit "key"; lit "v"])) !! lit "key" = Some 0) as H
    by (vm_compute; reflexivity).
  split; [exact H|].
  apply (set_keeps_expiry _ (lit "SET") (lit "GET") (lit "key") (lit "v") 0); [apply ex_expired_ok| |exact H|].
  - apply ex_args_ok. reflexivity.
  - vm_compute. reflexivity.
Defined.

Lemma mset_then_get_witness :
  world_ok (ex_req [lit "MSET"; lit "k"; lit "v1"; lit "k"; lit "v2"]) /\
  wp fk_cmd_mset (fun rt w1 =>
    answered (fk_buf_create FK_BUF_INIT_LEN 4096) (c_wbuf (w_conn w1)) rt (status_rsp FK_RSP_OK) /\
    forall w2, arrives w1 [lit "GET"; lit "k"] w2 ->
    answers fk_cmd_get (string_rsp (lit "v2")) (fun a => a = abs w1) w2)
    (ex_req [lit "MSET"; lit "k"; lit "v1"; lit "k"; lit "v2"]).
Proof.
  split; [apply ex_req_ok|].
  apply (mset_then_get (ex_req [lit "MSET"; lit "k"; lit "v1"; lit "k"; lit "v2"]) (lit "MSET")
    (lit "GET") [lit "k"; lit "v1"; lit "k"; lit "v2"] (lit "k")); [apply ex_req_ok|auto with fk|].
  vm_compute. reflexivity.
Defined.

Lemma hset_then_hget_witness :
  cur_db (abs (ex_req [lit "HSET"; lit "h"; lit "f"; lit "v"])) !! lit "h" = None /\
  wp fk_cmd_hset (fun rt w1 =>
    answered (fk_buf_create FK_BUF_INIT_LEN 4096) (c_wbuf (w_conn w1)) rt (int_rsp 1) /\
    forall w2, arrives w1 [lit "HGET"; lit "h"; lit "f"] w2 ->
    answers fk_cmd_hget (string_rsp (lit "v")) (fun a => a = abs w1) w2)
    (ex_req [lit "HSET"; lit "h"; lit "f"; lit "v"]).
Proof.
  assert (cur_db (abs (ex_req [lit "HSET"; lit "h"; lit "f"; lit "v"])) !! lit "h" = None) as H
    by (vm_compute; reflexivity).
  split; [exact H|].
  assert (args_ok (w_conn (ex_req [lit "HSET"; lit "h"; lit "f"; lit "v"]))
    [lit "HSET"; lit "h"; lit "f"; lit "v"]) as A by auto with fk.
  pose proof (hset_then_hget (ex_req [lit "HSET"; lit "h"; lit "f"; lit "v"]) (lit "HSET") (lit "HGET")
    (lit "h") (lit "f") (lit "v") ∅ (ex_req_ok _) A (or_intror (conj H eq_refl))) as Hw.
  rewrite lookup_empty in Hw. exact Hw.
Defined.

Lemma push_then_pop_witness :
  let w := ex_req [lit "RPUSH"; lit "l"; lit "a"; lit "b"] in
  cur_db (abs w) !! lit "l" = None /\
  wp (fk_cmd_generic_push 1) (fun rt w1 =>
    answered (c_wbuf (w_conn w)) (c_wbuf (w_conn w1)) rt (int_rsp 2) /\
    exists x rest, [lit "a"; lit "b"] = x :: rest /\
      forall w2, arrives w1 [lit "LPOP"; lit "l"] w2 ->
      wp (fk_cmd_generic_pop 0) (fun rt w3 =>
        answered (c_wbuf (w_conn w2)) (c_wbuf (w_conn w3)) rt (string_rsp x) /\
        cur_db (abs w3) !! lit "l" =
          Some (VList (if rt =? FK_SVR_OK then rest else [lit "a"; lit "b"]))) w2) w.
Proof.
  assert (cur_db (abs (ex_req [lit "RPUSH"; lit "l"; lit "a"; lit "b"])) !! lit "l" = None) as H
    by (vm_compute; reflexivity).
  split; [exact H|].
  apply (push_then_pop (ex_req [lit "RPUSH"; lit "l"; lit "a"; lit "b"]) (lit "RPUSH") (lit "LPOP")
    (lit "l") [lit "a"; lit "b"] [] 1 0); [apply ex_req_ok|auto with fk|done|by right].
Defined.

Lemma del_then_exists_witness :
  world_ok (ex_req [lit "DEL"; lit "a"; lit "a"]) /\
  wp fk_cmd_del (fun rt w1 =>
    answered (c_wbuf (w_conn (ex_req [lit "DEL"; lit "a"; lit "a"]))) (c_wbuf (w_conn w1)) rt
      (int_rsp (Z.of_nat (size (dom (cur_db (abs (ex_req [lit "DEL"; lit "a"; lit "a"])))
        ∩ list_to_set [lit "a"; lit "a"])))) /\
    cur_exp (abs w1) = cur_exp (abs (ex_req [lit "DEL"; lit "a"; lit "a"])) /\
    forall w2, arrives w1 [lit "EXISTS"; lit "a"] w2 ->
    answers fk_cmd_exists (int_rsp 0) (fun a => a = abs w1) w2)
    (ex_req [lit "DEL"; lit "a"; lit "a"]).
Proof.
  split; [apply ex_req_ok|].
  apply (del_then_exists (ex_req [lit "DEL"; lit "a"; lit "a"]) (lit "DEL") (lit "EXISTS")
    [lit "a"; lit "a"] (lit "a")); [apply ex_req_ok|auto with fk].
Defined.

Lemma flushall_empties_witness :
  world_ok (ex_expired [lit "FLUSHALL"]) /\
  answers fk_cmd_flushall (status_rsp FK_RSP_OK)
    (fun a => adb a 1 = ∅ /\ aexp a 1 = ∅ /\ a_idx a = 0) (ex_expired [lit "FLUSHALL"]).
Proof.
  split; [apply ex_expired_ok|].
  apply (flushall_empties (ex_expired [lit "FLUSHALL"]) (lit "FLUSHALL") 1);
    [apply ex_expired_ok|apply ex_args_ok; reflexivity|vm_compute; split; congruence].
Defined.

Lemma select_then_set_witness :
  let w := ex_req [lit "SELECT"; lit "1"] in
  world_ok w /\
  wp fk_cmd_select (fun rt w1 =>
    answered (c_wbuf (w_conn w)) (c_wbuf (w_conn w1)) rt (status_rsp FK_RSP_OK) /\
    forall w2, arrives w1 [lit "SET"; lit "k"; lit "v"] w2 ->
    answers fk_cmd_set (status_rsp FK_RSP_OK)
      (fun a => adb a 1 = <[lit "k" := VStr (lit "v")]> (adb (abs w) 1)) w2) w.
Proof.
  split; [apply ex_req_ok|].
  apply (select_then_set (ex_req [lit "SELECT"; lit "1"]) (lit "SELECT") (lit "SET") (lit "1")
    (lit "k") (lit "v") 1); [apply ex_req_ok|auto with fk|vm_compute; split; congruence].
Defined.

Lemma zadd_missing_key_witness :
  world_ok (ex_req [lit "ZADD"; lit "z"; lit "1"; lit "a"]) /\
  fk_cmd_zadd (ex_req [lit "ZADD"; lit "z"; lit "1"; lit "a"]) = None.
Proof.
  split; [apply ex_req_ok|].
  exact (zadd_missing_key (ex_req [lit "ZADD"; lit "z"; lit "1"; lit "a"]) (lit "ZADD") (lit "z")
    [lit "1"; lit "a"] (ex_req_ok _) ltac:(auto with fk)).
Defined.
