(* ===== verification/Kdb.v ===== *)
(** Models src/src/fk_svr_kdb.c: the dump of the databases to a file and the
    restore from it, and SAVE (src/src/fk_svr_db.c).

    The file is a list of bytes.  Numbers are stored in the byte order of the
    machine (little endian, LP64).  It is written through the buffer of a stream, so that a
    full disk shows in a later [fwrite], or only in [fflush], [fsync] or [fclose], whose results
    [fk_kdb_save] ignores. *)
From S2P Require Import Prelude Util Buf Dict Item Conf Svr Req Parse Store.

(** ** Numbers as bytes *)

Fixpoint le (n : nat) (z : Z) : bytes :=
  match n with
  | O => []
  | S n' => char_of (z mod 256) :: le n' (z / 256)
  end.

Fixpoint unle (l : bytes) : Z :=
  match l with
  | [] => 0
  | c :: l' => uchar c + 256 * unle l'
  end.

(** ** Dump *)

(** The disk behind a stream: how many bytes of the file it takes, and how many of [n] bytes
    written to the stream have been passed on to it; the others are in the buffer of the
    stream. *)
Record stdio := Stdio { io_room : Z; io_sent : Z -> Z }.

(** A stream with a buffer of 4096 bytes on a disk that takes [n] bytes. *)
Definition disk_of (n : Z) : stdio := Stdio n (fun k => 4096 * (k / 4096)).

Section dump.
Context (room : stdio).

(** [fwrite(p, size, 1, fp)]: 0 when the size is 0, or when the disk does not take what is
    passed on to it. *)
Definition fwrite (bs : bytes) : ST bytes Z := fun out =>
  let n := zlen out + zlen bs in
  if zlen bs =? 0 then Some (0, out)
  else if Z.min (io_sent room n) n <=? io_room room then Some (1, out ++ bs) else Some (0, out).

(** [fflush], [fsync] and [fclose]: the rest of the buffer is passed on; what the disk does not
    take is lost, and nobody looks. *)
Definition fclose (out : bytes) : bytes := ztake (io_room room) out.

(** The length and the text of a key; an empty key is an error. *)
Definition dump_key (key : bytes) : ST bytes Z :=
  wz ← fwrite (le 8 (zlen key));
  if wz =? 0 then mret FK_SVR_ERR
  else
    wz ← fwrite key;
    if wz =? 0 then mret FK_SVR_ERR else mret FK_SVR_OK.

(** The length and the text of a value. *)
Definition dump_value (value : bytes) : ST bytes Z :=
  wz ← fwrite (le 8 (zlen value));
  if wz =? 0 then mret FK_SVR_ERR
  else
    wz ← fwrite value;
    if (0 <? zlen value) && (wz =? 0) then mret FK_SVR_ERR else mret FK_SVR_OK.

Definition fk_kdb_dump_str_elt (key value : bytes) : ST bytes Z :=
  rt ← dump_key key;
  if rt =? FK_SVR_ERR then mret FK_SVR_ERR else dump_value value.

Definition fk_kdb_dump_num_elt (key : bytes) (value : Z) : ST bytes Z :=
  rt ← dump_key key;
  if rt =? FK_SVR_ERR then mret FK_SVR_ERR
  else
    wz ← fwrite (le 8 8);
    if wz =? 0 then mret FK_SVR_ERR
    else
      wz ← fwrite (le 8 value);
      if wz =? 0 then mret FK_SVR_ERR else mret FK_SVR_OK.

Fixpoint dump_list_loop (l : list sitem) : ST bytes Z :=
  match l with
  | [] => mret FK_SVR_OK
  | x :: l' =>
      rt ← dump_value (s_str x);
      if rt =? FK_SVR_ERR then mret FK_SVR_ERR else dump_list_loop l'
  end.

Definition fk_kdb_dump_list_elt (key : bytes) (lst : list sitem) : ST bytes Z :=
  rt ← dump_key key;
  if rt =? FK_SVR_ERR then mret FK_SVR_ERR
  else
    wz ← fwrite (le 8 (zlen lst));
    if wz =? 0 then mret FK_SVR_ERR else dump_list_loop lst.

Fixpoint dump_dict_loop (l : list (sitem * sitem)) : ST bytes Z :=
  match l with
  | [] => mret FK_SVR_OK
  | kv :: l' =>
      rt ← dump_key (s_str kv.1);
      if rt =? FK_SVR_ERR then mret FK_SVR_ERR
      else
        rt ← dump_value (s_str kv.2);
        if rt =? FK_SVR_ERR then mret FK_SVR_ERR else dump_dict_loop l'
  end.

Definition fk_kdb_dump_dict_elt (key : bytes) (dct : fk_dict sitem sitem) : ST bytes Z :=
  rt ← dump_key key;
  if rt =? FK_SVR_ERR then mret FK_SVR_ERR
  else
    wz ← fwrite (le 8 (fk_dict_len dct));
    if wz =? 0 then mret FK_SVR_ERR else dump_dict_loop (fk_dict_elements dct).

(** The body of a dictionary.  [rt] is the variable of [fk_kdb_dump], which no
    case of the [switch] assigns for a skiplist; reading it before the first
    assignment is undefined. *)
Fixpoint dump_elts (rt : option Z) (l : list (sitem * item)) : ST bytes Z :=
  match l with
  | [] => mret FK_SVR_OK
  | kv :: l' =>
      wz ← fwrite (le 4 (fk_item_type kv.2));
      if wz =? 0 then mret FK_SVR_ERR
      else
        let key := s_str kv.1 in
        rt ← match i_ent kv.2 with
             | EntStr s => rt ← fk_kdb_dump_str_elt key s; mret (Some rt)
             | EntList lst => rt ← fk_kdb_dump_list_elt key lst; mret (Some rt)
             | EntDict dct => rt ← fk_kdb_dump_dict_elt key dct; mret (Some rt)
             | EntNum n => rt ← fk_kdb_dump_num_elt key n; mret (Some rt)
             | EntSklist => mret rt
             end;
        rt' ← st_lift rt;
        if rt' =? FK_SVR_ERR then mret FK_SVR_ERR else dump_elts rt l'
  end.

Definition fk_kdb_dump (s : fk_svr) (db_idx isexp : Z) : ST bytes Z :=
  dct ← st_lift (znth (if isexp =? 1 then sv_expdb s else sv_db s) db_idx);
  wz ← fwrite (le 4 db_idx);
  if wz =? 0 then mret FK_SVR_ERR
  else
    wz ← fwrite (le 4 isexp);
    if wz =? 0 then mret FK_SVR_ERR
    else
      wz ← fwrite (le 8 (fk_dict_len dct));
      if wz =? 0 then mret FK_SVR_ERR else dump_elts None (fk_dict_elements dct).

(** The loop of [fk_kdb_save] over the databases from [i] on. *)
Fixpoint save_loop (n : nat) (s : fk_svr) (i : Z) : ST bytes Z :=
  match n with
  | O => mret FK_SVR_OK
  | S n' =>
      rt ← fk_kdb_dump s i 0;
      if rt =? FK_SVR_ERR then mret FK_SVR_ERR
      else
        rt ← fk_kdb_dump s i 1;
        if rt =? FK_SVR_ERR then mret FK_SVR_ERR else save_loop n' s (i + 1)
  end.

(** [fopen_ok] and [rename_ok] are the outcomes of the two system calls. *)
Definition fk_kdb_save (fopen_ok rename_ok : bool) : ST fk_svr Z := fun s =>
  if negb fopen_ok then Some (FK_SVR_ERR, s)
  else
    match save_loop (Z.to_nat (sv_dbcnt s)) s 0 [] with
    | None => None
    | Some (rt, out) =>
        if rt =? FK_SVR_ERR then Some (FK_SVR_ERR, s)
        else if negb rename_ok then Some (FK_SVR_ERR, s)
        else Some (FK_SVR_OK, sv_set_kdb s (Some (fclose out)))
    end.

(** SAVE: both outcomes of [fk_kdb_save] are answered with OK. *)
Definition fk_cmd_save (fopen_ok rename_ok : bool) : ST world Z :=
  s ← st_gets w_svr;
  err ← (if sv_save_pid s =? -1 then
           rs ← st_lift (fk_kdb_save fopen_ok rename_ok s);
           _ ← mod_svr (fun _ => rs.2);
           mret (if rs.1 =? FK_SVR_OK then 0 else 1)
         else mret 1);
  rt ← (if err =? 1 then fk_conn_add_status_rsp FK_RSP_OK (zlen FK_RSP_OK)
        else fk_conn_add_status_rsp FK_RSP_OK (zlen FK_RSP_OK));
  mret (ret_rsp rt).
End dump.

(** ** Restore *)

(** The unread part of the file, the length of the line buffer, the server. *)
Record rstate := RState { rs_in : bytes; rs_line : Z; rs_svr : fk_svr }.

(** [fread(p, size, 1, fp)]: 0 when the size is 0 or the file ends before. *)
Definition fread (size : Z) : ST rstate (Z * bytes) := fun r =>
  if size =? 0 then Some ((0, []), r)
  else if size <=? zlen (rs_in r)
  then Some ((1, ztake size (rs_in r)), RState (zdrop size (rs_in r)) (rs_line r) (rs_svr r))
  else Some ((0, rs_in r), RState [] (rs_line r) (rs_svr r)).

Definition fk_zline_create (len : Z) : Z := len.
Definition fk_zline_alloc (len : Z) : ST rstate unit :=
  st_mod (fun r =>
    RState (rs_in r) (if rs_line r <? len then u64 (fk_util_min_power (i32 len)) else rs_line r)
      (rs_svr r)).

(** [fread(buf->line, size, 1, fp)]: the buffer must hold [size] bytes. *)
Definition fread_line (size : Z) : ST rstate (Z * bytes) := fun r =>
  if rs_line r <? size then None else fread size r.

Definition rs_create_item : ST rstate Z := fun r =>
  let '(i, m) := fk_item_create (sv_items (rs_svr r)) in
  Some (i, RState (rs_in r) (rs_line r) (sv_set_items (rs_svr r) m)).

(** The key of an element: its length, which must not be 0 here, and its text. *)
Definition restore_key : ST rstate (option sitem) :=
  '(rz, l) ← fread 8;
  if rz =? 0 then mret None
  else
    let klen := unle l in
    if FK_ARG_HIGHWAT <? klen then mret None
    else
      _ ← fk_zline_alloc klen;
      '(rz, line) ← fread_line klen;
      if rz =? 0 then mret None
      else
        i ← rs_create_item;
        mret (Some (SItem i (fk_str_create line klen))).

(** A value: a string of any length up to the limit. *)
Definition restore_value : ST rstate (option sitem) :=
  '(rz, l) ← fread 8;
  if rz =? 0 then mret None
  else
    let vlen := unle l in
    if FK_ARG_HIGHWAT <? vlen then mret None
    else
      _ ← fk_zline_alloc vlen;
      '(rz, line) ← fread_line vlen;
      if (0 <? vlen) && (rz =? 0) then mret None
      else
        i ← rs_create_item;
        mret (Some (SItem i (fk_str_create line vlen))).

(** [fk_dict_add(db, kitm, vitm)]; [isexp] and [idx] select [db]. *)
Definition rs_dict_add (isexp idx : Z) (k : sitem) (v : item) : ST rstate unit := fun r =>
  let s := rs_svr r in
  match znth (if isexp =? 1 then sv_expdb s else sv_db s) idx with
  | None => None
  | Some d =>
      let '(_, d, m) := fk_dict_add db_dict_eop d k v (sv_items s) in
      let s := sv_set_items s m in
      let s := if isexp =? 1 then sv_set_expdb s (zupd (sv_expdb s) idx d)
               else sv_set_db s (zupd (sv_db s) idx d) in
      Some (tt, RState (rs_in r) (rs_line r) s)
  end.

Definition fk_kdb_restore_str_elt (isexp idx : Z) : ST rstate Z :=
  k ← restore_key;
  match k with
  | None => mret FK_SVR_ERR
  | Some kitm =>
      v ← restore_value;
      match v with
      | None => mret FK_SVR_ERR
      | Some vitm => _ ← rs_dict_add isexp idx kitm (item_of_s vitm); mret FK_SVR_OK
      end
  end.

(** The number is read into an 8-byte variable: more bytes overflow it, fewer
    leave a part of it indeterminate. *)
Definition fk_kdb_restore_num_elt (isexp idx : Z) : ST rstate Z :=
  k ← restore_key;
  match k with
  | None => mret FK_SVR_ERR
  | Some kitm =>
      '(rz, l) ← fread 8;
      if rz =? 0 then mret FK_SVR_ERR
      else
        let vlen := unle l in
        if FK_ARG_HIGHWAT <? vlen then mret FK_SVR_ERR
        else
          '(rz, num) ← (if 8 <? vlen then fun _ => None else fread vlen);
          if (0 <? vlen) && (rz =? 0) then mret FK_SVR_ERR
          else
            num ← st_lift (if vlen =? 8 then Some (i64 (unle num)) else None);
            i ← rs_create_item;
            _ ← rs_dict_add isexp idx kitm (Item i (EntNum num));
            mret FK_SVR_OK
  end.

(** [for (i = 0; i < llen; i++)]; every turn that goes on consumes eight bytes, so
    the length of the file bounds the number of turns. *)
Fixpoint restore_list_loop (fuel : nat) (llen i : Z) (lst : list sitem) :
    ST rstate (option (list sitem)) :=
  match fuel with
  | O => fun _ => None
  | S f =>
      if i <? llen then
        x ← restore_value;
        match x with
        | None => mret None
        | Some nitm =>
            lst ← (fun r =>
              let '(lst, m) := item_list_insert_tail lst nitm (sv_items (rs_svr r)) in
              Some (lst, RState (rs_in r) (rs_line r) (sv_set_items (rs_svr r) m)));
            restore_list_loop f llen (i + 1) lst
        end
      else mret (Some lst)
  end.

Definition fk_kdb_restore_list_elt (isexp idx : Z) : ST rstate Z :=
  k ← restore_key;
  match k with
  | None => mret FK_SVR_ERR
  | Some kitm =>
      '(rz, l) ← fread 8;
      if rz =? 0 then mret FK_SVR_ERR
      else
        left ← st_gets rs_in;
        lst ← restore_list_loop (S (length left)) (unle l) 0 [];
        match lst with
        | None => mret FK_SVR_ERR
        | Some lst =>
            i ← rs_create_item;
            _ ← rs_dict_add isexp idx kitm (Item i (EntList lst));
            mret FK_SVR_OK
        end
  end.

Fixpoint restore_dict_loop (fuel : nat) (dlen i : Z) (sdct : fk_dict sitem sitem) :
    ST rstate (option (fk_dict sitem sitem)) :=
  match fuel with
  | O => fun _ => None
  | S f =>
      if i <? dlen then
        k ← restore_key;
        match k with
        | None => mret None
        | Some skitm =>
            v ← restore_value;
            match v with
            | None => mret None
            | Some svitm =>
                sdct ← (fun r =>
                  let '(_, sdct, m) := fk_dict_add db_sdict_eop sdct skitm svitm
                                         (sv_items (rs_svr r)) in
                  Some (sdct, RState (rs_in r) (rs_line r) (sv_set_items (rs_svr r) m)));
                restore_dict_loop f dlen (i + 1) sdct
            end
        end
      else mret (Some sdct)
  end.

Definition fk_kdb_restore_dict_elt (isexp idx : Z) : ST rstate Z :=
  k ← restore_key;
  match k with
  | None => mret FK_SVR_ERR
  | Some kitm =>
      '(rz, l) ← fread 8;
      if rz =? 0 then mret FK_SVR_ERR
      else
        left ← st_gets rs_in;
        sdct ← restore_dict_loop (S (length left)) (unle l) 0 fk_dict_create;
        match sdct with
        | None => mret FK_SVR_ERR
        | Some sdct =>
            i ← rs_create_item;
            _ ← rs_dict_add isexp idx kitm (Item i (EntDict sdct));
            mret FK_SVR_OK
        end
  end.

Fixpoint restore_loop (fuel : nat) (isexp idx cnt i : Z) : ST rstate Z :=
  match fuel with
  | O => fun _ => None
  | S f =>
      if i <? cnt then
        '(rz, l) ← fread 4;
        if rz =? 0 then mret FK_SVR_ERR
        else
          let type := unle l in
          rt ← (if type =? FK_ITEM_STR then fk_kdb_restore_str_elt isexp idx
                else if type =? FK_ITEM_LIST then fk_kdb_restore_list_elt isexp idx
                else if type =? FK_ITEM_DICT then fk_kdb_restore_dict_elt isexp idx
                else if type =? FK_ITEM_NUM then fk_kdb_restore_num_elt isexp idx
                else mret FK_SVR_ERR);
          if rt =? FK_SVR_ERR then mret FK_SVR_ERR else restore_loop f isexp idx cnt (i + 1)
      else mret FK_SVR_OK
  end.

(** [isexp] is read without a check: when the file ends there, the next read
    fails whatever its value. *)
Definition fk_kdb_restore : ST rstate Z :=
  '(rz, l) ← fread 4;
  if rz =? 0 then mret FK_SVR_ERR
  else
    let idx := unle l in
    dbcnt ← st_gets (fun r => sv_dbcnt (rs_svr r));
    if dbcnt <=? idx then mret FK_SVR_ERR
    else
      '(_, l) ← fread 4;
      let isexp := i32 (unle l) in
      '(rz, l) ← fread 8;
      if rz =? 0 then mret FK_SVR_ERR
      else
        left ← st_gets rs_in;
        restore_loop (S (length left)) isexp idx (unle l) 0.

Inductive load_res := Loaded (s : fk_svr) | LoadExit.

Fixpoint load_loop (fuel : nat) (r : rstate) : option load_res :=
  match fuel with
  | O => None
  | S f =>
      if zlen (rs_in r) =? 0 then Some (Loaded (rs_svr r))
      else
        match fk_kdb_restore r with
        | None => None
        | Some (rt, r) => if rt =? FK_SVR_ERR then Some LoadExit else load_loop f r
        end
  end.

(** The server at start, when [setting.db_file] holds [file]. *)
Definition fk_kdb_load (file : option bytes) (s : fk_svr) : option load_res :=
  match file with
  | None => Some (Loaded s)
  | Some file => load_loop (S (length file)) (RState file (fk_zline_create 4096) s)
  end.
