(* ===== verification/KdbProps.v ===== *)
(** Properties of the dump and the restore: what a dump writes, what a restore
    reads, and that restoring a dump gives the same store. *)
From S2P Require Import Prelude Util Buf Dict Item Conf Svr Req Parse Store Kdb.

(** ** Numbers *)

Lemma zlen_le n z : zlen (le n z) = Z.of_nat n.
Proof. revert z. induction n as [|n IH]; intros z; cbn [le]; [done|]. rewrite zlen_cons, IH. lia. Qed.

Lemma unle_le n z : unle (le n z) = z mod 256 ^ Z.of_nat n.
Proof.
  revert z. induction n as [|n IH]; intros z; cbn [le unle]; [by rewrite Z.mod_1_r|].
  pose proof (Z.mod_pos_bound z 256 eq_refl). rewrite uchar_char_of by lia. rewrite IH.
  rewrite Nat2Z.inj_succ, Z.pow_succ_r by lia.
  rewrite Z.rem_mul_r by (pose proof (Z.pow_pos_nonneg 256 (Z.of_nat n)); lia). done.
Qed.

Lemma unle_le_small n z : 0 <= z < 256 ^ Z.of_nat n -> unle (le n z) = z.
Proof. intros H. rewrite unle_le. by apply Z.mod_small. Qed.

Lemma i64_unle_le z : - 2 ^ 63 <= z < 2 ^ 63 -> i64 (unle (le 8 z)) = z.
Proof.
  intros H. rewrite unle_le. change (256 ^ Z.of_nat 8) with (2 ^ 64). unfold i64.
  rewrite Zplus_mod_idemp_l, Z.mod_small by lia. lia.
Qed.

#[local] Arguments le n z : simpl never.
#[local] Opaque le.

(** ** The format *)

Definition r_str (s : bytes) : bytes := le 8 (zlen s) ++ s.

Definition r_ent (t : entity) : bytes :=
  match t with
  | EntStr s => r_str s
  | EntNum n => le 8 8 ++ le 8 n
  | EntList l => le 8 (zlen l) ++ concat ((fun x => r_str (s_str x)) <$> l)
  | EntDict d => le 8 (zlen (elems d)) ++
      concat ((fun kv => r_str (s_str kv.1) ++ r_str (s_str kv.2)) <$> elems d)
  | EntSklist => []
  end.

Definition r_elt (kv : sitem * item) : bytes :=
  le 4 (fk_item_type kv.2) ++ r_str (s_str kv.1) ++ r_ent (i_ent kv.2).

Definition r_dict (idx isexp : Z) (d : fk_dict sitem item) : bytes :=
  le 4 idx ++ le 4 isexp ++ le 8 (zlen (elems d)) ++ concat (r_elt <$> elems d).

(** What the format can hold: keys and fields are not empty, there is no skiplist,
    lengths and numbers fit 64 bits. *)
Definition key_dumpable (k : bytes) : Prop := k <> [] /\ arg_ok k.

Definition ent_dumpable (t : entity) : Prop :=
  match t with
  | EntStr s => arg_ok s
  | EntNum n => - 2 ^ 63 <= n < 2 ^ 63
  | EntList l => zlen l < 2 ^ 64 /\ Forall (fun x => arg_ok (s_str x)) l
  | EntDict d => hash_wf d /\ zlen (elems d) < 2 ^ 64 /\
      Forall (fun kv => key_dumpable (s_str kv.1) /\ arg_ok (s_str kv.2)) (elems d)
  | EntSklist => False
  end.

Record dict_dumpable (d : fk_dict sitem item) : Prop := {
  dd_wf : db_wf d;
  dd_len : zlen (elems d) < 2 ^ 64;
  dd_elt : Forall (fun kv => key_dumpable (s_str kv.1) /\ ent_dumpable (i_ent kv.2)) (elems d)
}.

(** ** What a dump writes *)

(** [n] bytes can be written without that the disk refuses what is passed on to it. *)
Definition passes (room : stdio) (n : Z) : Prop := forall m, 0 <= m <= n -> Z.min (io_sent room m) m <= io_room room.

(** So it is if the disk has room for all. *)
Lemma room_passes room n : n <= io_room room -> passes room n.
Proof. intros H m Hm. lia. Qed.

Section dump_props.
Context (room : stdio).

(** [m] writes [bs] when that passes, and succeeds. *)
Definition dumps (m : ST bytes Z) (bs : bytes) : Prop := forall out,
  passes room (zlen out + zlen bs) -> m out = Some (FK_SVR_OK, out ++ bs).

Lemma dumps_fwrite b (m : ST bytes Z) bs :
  b <> [] -> dumps m bs ->
  dumps (wz ← fwrite room b; if wz =? 0 then mret FK_SVR_ERR else m) (b ++ bs).
Proof.
  intros Hb Hm out Ho. rewrite zlen_app in Ho. pose proof (zlen_nonneg b). pose proof (zlen_nonneg bs). pose proof (zlen_nonneg out).
  unfold mbind, ST_bind, fwrite.
  destruct (zlen b =? 0) eqn:E; [by apply Z.eqb_eq, zlen_0 in E|].
  rewrite (proj2 (Z.leb_le _ _)) by (apply Ho; lia). cbn [Z.eqb].
  rewrite Hm by (by rewrite zlen_app, <- Z.add_assoc). by rewrite app_assoc.
Qed.

Lemma dumps_seq (m1 m2 : ST bytes Z) b1 b2 :
  dumps m1 b1 -> dumps m2 b2 ->
  dumps (rt ← m1; if rt =? FK_SVR_ERR then mret FK_SVR_ERR else m2) (b1 ++ b2).
Proof.
  intros H1 H2 out Ho. rewrite zlen_app in Ho. pose proof (zlen_nonneg b1). pose proof (zlen_nonneg b2).
  unfold mbind, ST_bind. rewrite H1 by (intros n Hn; apply Ho; lia). cbn [FK_SVR_OK FK_SVR_ERR Z.eqb].
  rewrite H2 by (by rewrite zlen_app, <- Z.add_assoc). by rewrite app_assoc.
Qed.

Lemma dumps_ret : dumps (mret FK_SVR_OK) [].
Proof. intros out _. by rewrite app_nil_r. Qed.

Lemma le_nonempty n z : le (S n) z <> [].
Proof. intros H. pose proof (zlen_le (S n) z) as Hl. rewrite H in Hl. done. Qed.

Lemma dump_key_ok k : key_dumpable k -> dumps (dump_key room k) (r_str k).
Proof.
  intros [Hk _]. unfold dump_key, r_str. apply dumps_fwrite; [apply le_nonempty|].
  rewrite <- (app_nil_r k) at 2. apply dumps_fwrite; [done|apply dumps_ret].
Qed.

Lemma dump_value_ok s : dumps (dump_value room s) (r_str s).
Proof.
  unfold dump_value, r_str. apply dumps_fwrite; [apply le_nonempty|].
  intros out Ho. unfold mbind, ST_bind, fwrite. destruct (zlen s =? 0) eqn:E.
  - apply Z.eqb_eq, zlen_0 in E as ->. by rewrite app_nil_r.
  - pose proof (zlen_nonneg out). pose proof (zlen_nonneg s).
    rewrite (proj2 (Z.leb_le _ _)) by (apply Ho; lia). cbn [Z.eqb]. by rewrite andb_false_r.
Qed.

Lemma dump_list_loop_ok l :
  dumps (dump_list_loop room l) (concat ((fun x => r_str (s_str x)) <$> l)).
Proof.
  induction l as [|x l IH]; cbn; [apply dumps_ret|]. apply dumps_seq; [apply dump_value_ok|done].
Qed.

Lemma dump_dict_loop_ok (l : list (sitem * sitem)) :
  Forall (fun kv => key_dumpable (s_str kv.1) /\ arg_ok (s_str kv.2)) l ->
  dumps (dump_dict_loop room l)
    (concat ((fun kv : sitem * sitem => r_str (s_str kv.1) ++ r_str (s_str kv.2)) <$> l)).
Proof.
  induction 1 as [|x l [Hk _] Hl IH]; cbn; [apply dumps_ret|]. rewrite <- app_assoc.
  apply dumps_seq; [by apply dump_key_ok|]. apply dumps_seq; [apply dump_value_ok|done].
Qed.

(** One case of the [switch]. *)
Lemma dump_ent_ok k t : key_dumpable k -> ent_dumpable t ->
  dumps (match t with
         | EntStr s => fk_kdb_dump_str_elt room k s
         | EntList lst => fk_kdb_dump_list_elt room k lst
         | EntDict dct => fk_kdb_dump_dict_elt room k dct
         | EntNum n => fk_kdb_dump_num_elt room k n
         | EntSklist => mret FK_SVR_OK
         end) (r_str k ++ r_ent t).
Proof.
  intros Hk Ht. destruct t as [s|l|d| |n]; cbn [r_ent ent_dumpable] in *.
  - apply dumps_seq; [by apply dump_key_ok|apply dump_value_ok].
  - apply dumps_seq; [by apply dump_key_ok|].
    apply dumps_fwrite; [apply le_nonempty|apply dump_list_loop_ok].
  - destruct Ht as (Hw & _ & Hf). apply dumps_seq; [by apply dump_key_ok|].
    rewrite <- (dwf_used _ _ _ _ Hw). apply dumps_fwrite; [apply le_nonempty|].
    rewrite (fk_dict_elements_spec db_sdict_eop s_str key_ok) by done. by apply dump_dict_loop_ok.
  - done.
  - apply dumps_seq; [by apply dump_key_ok|]. apply dumps_fwrite; [apply le_nonempty|].
    rewrite <- (app_nil_r (le 8 n)). apply dumps_fwrite; [apply le_nonempty|apply dumps_ret].
Qed.

Lemma dump_elts_ok l : forall rt,
  Forall (fun kv => key_dumpable (s_str kv.1) /\ ent_dumpable (i_ent kv.2)) l ->
  dumps (dump_elts room rt l) (concat (r_elt <$> l)).
Proof.
  induction l as [|kv l IH]; intros rt Hl; cbn [dump_elts fmap list_fmap concat]; [apply dumps_ret|].
  apply Forall_cons in Hl as [[Hk Ht] Hl]. unfold r_elt at 1. rewrite <- app_assoc.
  apply dumps_fwrite; [apply le_nonempty|]. pose proof (dump_ent_ok _ _ Hk Ht) as He.
  set (e := r_str (s_str kv.1) ++ r_ent (i_ent kv.2)) in *. clearbody e.
  intros out Ho. rewrite zlen_app in Ho. pose proof (zlen_nonneg e).
  pose proof (zlen_nonneg (concat (r_elt <$> l))).
  specialize (He out ltac:(intros n Hn; apply Ho; lia)). specialize (IH (Some FK_SVR_OK) Hl (out ++ e)).
  rewrite zlen_app, <- Z.add_assoc in IH. specialize (IH Ho). unfold mbind, ST_bind in *.
  destruct (i_ent kv.2); try done; rewrite He; cbn -[dump_elts]; rewrite IH;
    by rewrite <- app_assoc.
Qed.

Lemma dump_ok s idx isexp d :
  znth (if isexp =? 1 then sv_expdb s else sv_db s) idx = Some d -> dict_dumpable d ->
  dumps (fk_kdb_dump room s idx isexp) (r_dict idx isexp d).
Proof.
  intros Hd [Hw _ He] out Ho. unfold fk_kdb_dump. rewrite Hd. unfold r_dict in *.
  change ((st_lift (Some d) ≫= ?k) out) with (k d out).
  revert out Ho. change (dumps (wz ← fwrite room (le 4 idx); if wz =? 0 then mret FK_SVR_ERR else
    wz ← fwrite room (le 4 isexp); if wz =? 0 then mret FK_SVR_ERR else
    wz ← fwrite room (le 8 (fk_dict_len d)); if wz =? 0 then mret FK_SVR_ERR
    else dump_elts room None (fk_dict_elements d))
    (le 4 idx ++ le 4 isexp ++ le 8 (zlen (elems d)) ++ concat (r_elt <$> elems d))).
  apply dumps_fwrite; [apply le_nonempty|]. apply dumps_fwrite; [apply le_nonempty|].
  rewrite <- (dwf_used _ _ _ _ Hw). apply dumps_fwrite; [apply le_nonempty|].
  rewrite (fk_dict_elements_spec db_dict_eop s_str key_ok) by done. by apply dump_elts_ok.
Qed.
End dump_props.

(** ** What a restore reads *)

(** Reading leaves [rest]; of the server only the items changed. *)
Definition rkeep (r r' : rstate) (rest : bytes) : Prop :=
  rs_in r' = rest /\ rs_svr r' = sv_set_items (rs_svr r) (sv_items (rs_svr r')).

Lemma sv_set_items_twice s m m' : sv_set_items (sv_set_items s m) m' = sv_set_items s m'.
Proof. done. Qed.

Lemma rkeep_trans r1 r2 r3 a b : rkeep r1 r2 a -> rkeep r2 r3 b -> rkeep r1 r3 b.
Proof. intros [_ H1] [H2 H3]. split; [done|]. rewrite H3. by rewrite H1. Qed.

Lemma wp_fread n bs rest r {B} (k : Z * bytes -> ST rstate B) Q :
  rs_in r = bs ++ rest -> zlen bs = n -> 0 < n ->
  (forall r', rkeep r r' rest -> wp (k (1, bs)) Q r') -> wp (x ← fread n; k x) Q r.
Proof.
  intros Hin Hn Hpos Hk. eapply wp_step.
  - unfold fread. rewrite (proj2 (Z.eqb_neq _ _)) by lia. rewrite Hin.
    rewrite (proj2 (Z.leb_le _ _)) by (rewrite zlen_app; pose proof (zlen_nonneg rest); lia).
    rewrite ztake_app_l, zdrop_app_l by done. reflexivity.
  - apply Hk. split; [done|]. by destruct (rs_svr r).
Qed.

(** A length field. *)
Lemma wp_fread_num n z rest r {B} (k : Z * bytes -> ST rstate B) Q :
  rs_in r = le n z ++ rest -> (0 < n)%nat ->
  (forall r', rkeep r r' rest -> wp (k (1, le n z)) Q r') -> wp (x ← fread (Z.of_nat n); k x) Q r.
Proof. intros Hin Hn. apply (wp_fread _ _ rest); [done|apply zlen_le|lia]. Qed.

(** The line buffer is large enough for what is read into it. *)
Lemma wp_read_line s rest r {B} (k : Z * bytes -> ST rstate B) Q :
  rs_in r = s ++ rest -> arg_ok s ->
  (forall r', rkeep r r' rest -> wp (k ((if zlen s =? 0 then 0 else 1), s)) Q r') ->
  wp (_ ← fk_zline_alloc (zlen s); x ← fread_line (zlen s); k x) Q r.
Proof.
  intros Hin Hs%arg_len Hk. eapply wp_step; [reflexivity|]. cbv beta.
  set (r1 := RState _ _ _).
  assert (zlen s <= rs_line r1) as Hroom.
  { subst r1. cbn. destruct (rs_line r <? zlen s) eqn:E; [|lia]. rewrite i32_small by lia.
    destruct (fk_util_min_power_spec (zlen s) ltac:(lia)) as (p & Hp & -> & Hlt & _).
    unfold u64. pose proof (Z.pow_le_mono_r 2 p 30 ltac:(lia) ltac:(lia)).
    rewrite Z.mod_small by lia. lia. }
  assert (forall r', rkeep r1 r' rest -> rkeep r r' rest) as Hkeep by done.
  destruct (zlen s =? 0) eqn:E0.
  - apply Z.eqb_eq, zlen_0 in E0 as ->. eapply wp_step.
    + unfold fread_line. rewrite (proj2 (Z.ltb_ge _ _)) by done. reflexivity.
    + apply Hk. split; [done|]. by destruct (rs_svr r).
  - assert (wp (x ← fread (zlen s); k x) Q r1) as H.
    { apply (wp_fread (zlen s) s rest); [done|done|pose proof (zlen_nonneg s); lia|]. intros r' H. apply Hk, Hkeep, H. }
    unfold wp, mbind, ST_bind, fread_line in *. by rewrite (proj2 (Z.ltb_ge _ _)) by done.
Qed.

Lemma wp_rs_create_item r {B} (k : Z -> ST rstate B) Q :
  (forall i r', rkeep r r' (rs_in r) -> wp (k i) Q r') -> wp (i ← rs_create_item; k i) Q r.
Proof.
  intros Hk. unfold rs_create_item, wp, mbind, ST_bind. destruct (fk_item_create _) as [i m].
  apply Hk. by split.
Qed.

Lemma unle_len s : arg_ok s -> unle (le 8 (zlen s)) = zlen s.
Proof. intros Hs%arg_len. apply unle_le_small. change (256 ^ Z.of_nat 8) with (2 ^ 64). lia. Qed.

Lemma wp_restore_value s rest r {B} (k : option sitem -> ST rstate B) Q :
  rs_in r = r_str s ++ rest -> arg_ok s ->
  (forall i r', rkeep r r' rest -> wp (k (Some (SItem i s))) Q r') ->
  wp (x ← restore_value; k x) Q r.
Proof.
  intros Hin Hs Hk. pose proof (arg_len s Hs). unfold r_str in Hin. rewrite <- app_assoc in Hin.
  eapply (wp_seq _ _ (fun x r' => exists i, x = Some (SItem i s) /\ rkeep r r' rest));
    [|intros x r' (i & -> & H'); by apply Hk].
  unfold restore_value. change 8 with (Z.of_nat 8).
  apply (wp_fread_num 8 _ _ _ _ _ Hin); [lia|]. intros r1 H1. cbn [Z.eqb].
  rewrite unle_len by done. rewrite (proj2 (Z.ltb_ge _ _)) by done.
  apply (wp_read_line s rest); [apply H1|done|]. intros r2 H2.
  assert (((0 <? zlen s) && ((if zlen s =? 0 then 0 else 1) =? 0)) = false) as ->.
  { destruct (zlen s =? 0) eqn:E; cbn; [|apply andb_false_r]. rewrite andb_true_r. lia. }
  apply wp_rs_create_item. intros i r3 H3. apply wp_ret. exists i.
  unfold fk_str_create. rewrite ztake_all by lia. split; [done|].
  destruct H2 as [H2a H2b]. rewrite H2a in H3.
  eapply rkeep_trans; [exact H1|]. eapply rkeep_trans; [|exact H3]. split; [exact H2a|done].
Qed.

Lemma wp_restore_key s rest r {B} (k : option sitem -> ST rstate B) Q :
  rs_in r = r_str s ++ rest -> key_dumpable s ->
  (forall i r', rkeep r r' rest -> wp (k (Some (SItem i s))) Q r') ->
  wp (x ← restore_key; k x) Q r.
Proof.
  intros Hin [Hne Hs] Hk. pose proof (arg_len s Hs). unfold r_str in Hin. rewrite <- app_assoc in Hin.
  eapply (wp_seq _ _ (fun x r' => exists i, x = Some (SItem i s) /\ rkeep r r' rest));
    [|intros x r' (i & -> & H'); by apply Hk].
  unfold restore_key. change 8 with (Z.of_nat 8).
  apply (wp_fread_num 8 _ _ _ _ _ Hin); [lia|]. intros r1 H1. cbn [Z.eqb].
  rewrite unle_len by done. rewrite (proj2 (Z.ltb_ge _ _)) by done.
  apply (wp_read_line s rest); [apply H1|done|]. intros r2 H2.
  destruct (zlen s =? 0) eqn:E; [by apply Z.eqb_eq, zlen_0 in E|]. cbn [Z.eqb].
  apply wp_rs_create_item. intros i r3 H3. apply wp_ret. exists i.
  unfold fk_str_create. rewrite ztake_all by lia. split; [done|].
  destruct H2 as [H2a H2b]. rewrite H2a in H3.
  eapply rkeep_trans; [exact H1|]. eapply rkeep_trans; [|exact H3]. split; [exact H2a|done].
Qed.

(** A list. *)
Lemma restore_list_loop_ok l : forall fuel n i lst rest r,
  rs_in r = concat ((fun x => r_str (s_str x)) <$> l) ++ rest -> Forall (fun x => arg_ok (s_str x)) l ->
  n = i + zlen l -> (length l < fuel)%nat ->
  wp (restore_list_loop fuel n i lst) (fun o r' => exists lst', o = Some (lst ++ lst') /\
    s_str <$> lst' = s_str <$> l /\ rkeep r r' rest) r.
Proof.
  induction l as [|x l IH]; intros fuel n i lst rest r Hin Hok Hn Hf; destruct fuel as [|fuel];
    try (cbn in Hf; lia); cbn [restore_list_loop].
  - rewrite zlen_nil in Hn. rewrite (proj2 (Z.ltb_ge _ _)) by lia. apply wp_ret. exists [].
    rewrite app_nil_r. split_and!; [done|done|]. split; [done|by destruct (rs_svr r)].
  - rewrite zlen_cons in Hn. pose proof (zlen_nonneg l). rewrite (proj2 (Z.ltb_lt _ _)) by lia.
    apply Forall_cons in Hok as [Hx Hok]. cbn [fmap list_fmap concat] in Hin. rewrite <- app_assoc in Hin.
    eapply wp_restore_value; [exact Hin|done|]. intros j r1 H1.
    eapply wp_step; [reflexivity|]. cbv beta.
    eapply wp_mono; [apply (IH fuel n (i + 1)); [apply H1|done|lia|cbn in Hf; lia]|].
    intros o r2 (lst' & -> & E & H2). exists (SItem j (s_str x) :: lst').
    split_and!; [by rewrite <- app_assoc|cbn; by f_equal|]. eapply rkeep_trans; [exact H1|].
    destruct H2 as [Ha Hb]. split; [done|]. by rewrite Hb.
Qed.

(** ** Maps of element lists *)

Section maps.
Context {V A : Type} (f : V -> A).

Definition vkvs (l : list (sitem * V)) : list (bytes * A) := (fun kv => (s_str kv.1, f kv.2)) <$> l.
Definition vmap (l : list (sitem * V)) : gmap bytes A := list_to_map (vkvs l).
Definition vkeys (l : list (sitem * V)) : list bytes := (fun kv => s_str kv.1) <$> l.

Lemma vkvs_fst l : (vkvs l).*1 = vkeys l.
Proof. unfold vkvs, vkeys. rewrite <- list_fmap_compose. done. Qed.

Lemma fmap_dmap (d : fk_dict sitem V) : f <$> dmap s_str d = vmap (elems d).
Proof.
  unfold dmap, vmap, vkvs, kvs. rewrite <- list_to_map_fmap, <- list_fmap_compose. done.
Qed.

Lemma vmap_snoc l kv : s_str kv.1 ∉ vkeys l -> vmap (l ++ [kv]) = <[s_str kv.1 := f kv.2]> (vmap l).
Proof.
  intros Hn. unfold vmap, vkvs. rewrite fmap_app. cbn. apply list_to_map_snoc.
  change ((fun kv0 : sitem * V => (s_str kv0.1, f kv0.2)) <$> l) with (vkvs l). by rewrite vkvs_fst.
Qed.

Lemma vmap_None l k : k ∉ vkeys l -> vmap l !! k = None.
Proof. intros Hn. unfold vmap. apply not_elem_of_list_to_map_1. by rewrite vkvs_fst. Qed.

(** The next key of a list without duplicates is new. *)
Lemma vkeys_next p kv q :
  NoDup (vkeys (p ++ kv :: q)) -> (s_str kv.1 ∉ vkeys p) /\ NoDup (vkeys ((p ++ [kv]) ++ q)).
Proof.
  intros Hn. rewrite <- app_assoc. split; [|done].
  unfold vkeys in *. rewrite fmap_app in Hn. apply NoDup_app in Hn as (_ & Hn & _).
  intros Hin. apply (Hn _ Hin). cbn. apply list_elem_of_here.
Qed.
End maps.

Lemma restore_dict_loop_ok q : forall p fuel n i d rest r,
  rs_in r = concat ((fun kv => r_str (s_str kv.1) ++ r_str (s_str kv.2)) <$> q) ++ rest ->
  Forall (fun kv : sitem * sitem => key_dumpable (s_str kv.1) /\ arg_ok (s_str kv.2)) q ->
  NoDup (vkeys (p ++ q)) -> n = i + zlen q -> (length q < fuel)%nat ->
  ent_ok (EntDict d) -> hview d = vmap s_str p ->
  wp (restore_dict_loop fuel n i d) (fun o r' => exists d', o = Some d' /\
    ent_ok (EntDict d') /\ hview d' = vmap s_str (p ++ q) /\ rkeep r r' rest) r.
Proof.
  induction q as [|kv q IH]; intros p fuel n i d rest r Hin Hok Hnd Hn Hf Hd Hv;
    destruct fuel as [|fuel]; try (cbn in Hf; lia); cbn [restore_dict_loop].
  - rewrite zlen_nil in Hn. rewrite (proj2 (Z.ltb_ge _ _)) by lia. apply wp_ret. exists d.
    rewrite app_nil_r. split_and!; try done. split; [done|by destruct (rs_svr r)].
  - rewrite zlen_cons in Hn. pose proof (zlen_nonneg q). rewrite (proj2 (Z.ltb_lt _ _)) by lia.
    apply Forall_cons in Hok as [[Hk Hx] Hok]. cbn [fmap list_fmap concat] in Hin.
    rewrite <- !app_assoc in Hin. destruct (vkeys_next _ _ _ Hnd) as [Hnew Hnd'].
    eapply wp_restore_key; [exact Hin|done|]. intros j1 r1 H1.
    eapply wp_restore_value; [apply H1|done|]. intros j2 r2 H2.
    pose proof (rkeep_trans _ _ _ _ _ H1 H2) as H12. destruct Hd as [Hw He].
    pose proof (fk_dict_add_spec db_sdict_eop s_str key_ok d (SItem j1 (s_str kv.1))
      (SItem j2 (s_str kv.2)) (sv_items (rs_svr r2)) Hw (arg_ok_key _ _ (proj2 Hk))) as Hs.
    destruct (fk_dict_add db_sdict_eop d _ _ _) as [[rt d1] m] eqn:E. destruct Hs as [Hw1 Hs].
    assert (dmap s_str d !! s_str kv.1 = None) as Hnone.
    { pose proof (vmap_None s_str p _ Hnew) as Hm. rewrite <- Hv in Hm. unfold hview in Hm.
      rewrite lookup_fmap in Hm. by destruct (dmap s_str d !! s_str kv.1). }
    cbn [s_str] in Hs. rewrite Hnone in Hs. destruct Hs as (_ & Hm & _).
    eapply wp_step; [rewrite E; reflexivity|].
    eapply wp_mono; [apply (IH (p ++ [kv]) fuel n (i + 1) d1 rest)|].
    + apply H2.
    + done.
    + done.
    + lia.
    + cbn in Hf; lia.
    + split; [done|]. rewrite Hm. by apply map_Forall_insert_2.
    + rewrite vmap_snoc by done. unfold hview. rewrite Hm, fmap_insert. unfold hview in Hv. by rewrite Hv.
    + intros o r3 (d' & -> & Hd' & Hv' & H3). exists d'. split_and!; [done|done| |].
      * by rewrite Hv', <- app_assoc.
      * eapply rkeep_trans; [exact H12|]. destruct H3 as [Ha Hb]. split; [done|]. by rewrite Hb.
Qed.

(** Every length field takes eight bytes, so a file is longer than its lists. *)
Lemma length_r_str s : (1 <= length (r_str s))%nat.
Proof. unfold r_str. rewrite length_app. pose proof (zlen_le 8 (zlen s)) as H. unfold zlen in H at 1. lia. Qed.

Lemma length_concat_strs (l : list sitem) :
  (length l <= length (concat ((fun x => r_str (s_str x)) <$> l)))%nat.
Proof.
  induction l as [|x l IH]; [cbn; lia|].
  rewrite fmap_cons. cbn [concat length]. rewrite length_app. pose proof (length_r_str (s_str x)). lia.
Qed.

Lemma length_concat_pairs (l : list (sitem * sitem)) :
  (length l <= length (concat ((fun kv => r_str (s_str kv.1) ++ r_str (s_str kv.2)) <$> l)))%nat.
Proof.
  induction l as [|x l IH]; [cbn; lia|].
  rewrite fmap_cons. cbn [concat length]. rewrite !length_app. pose proof (length_r_str (s_str x.1)). lia.
Qed.

Lemma length_concat_elts (l : list (sitem * item)) : (length l <= length (concat (r_elt <$> l)))%nat.
Proof.
  induction l as [|x l IH]; [cbn; lia|].
  rewrite fmap_cons. cbn [concat length]. rewrite length_app. unfold r_elt at 1. rewrite !length_app.
  pose proof (length_r_str (s_str x.1)). lia.
Qed.

(** ** Elements and dictionaries *)

(** The dictionary a restore adds to. *)
Definition tget (isexp idx : Z) (s : fk_svr) : option (fk_dict sitem item) :=
  znth (if isexp =? 1 then sv_expdb s else sv_db s) idx.
Definition tput (isexp idx : Z) (d : fk_dict sitem item) (s : fk_svr) : fk_svr :=
  if isexp =? 1 then sv_set_expdb s (zupd (sv_expdb s) idx d)
  else sv_set_db s (zupd (sv_db s) idx d).

(** [r'] is [r] with [rest] left to read and the target replaced by [d]. *)
Definition radd (isexp idx : Z) (r r' : rstate) (rest : bytes) (d : fk_dict sitem item) : Prop :=
  rs_in r' = rest /\ exists m, rs_svr r' = sv_set_items (tput isexp idx d (rs_svr r)) m.

Lemma tput_items isexp idx d s m : tput isexp idx d (sv_set_items s m) = sv_set_items (tput isexp idx d s) m.
Proof. unfold tput. by destruct (isexp =? 1). Qed.

Lemma tget_items isexp idx s m : tget isexp idx (sv_set_items s m) = tget isexp idx s.
Proof. done. Qed.

Lemma tget_tput isexp idx d d0 s : tget isexp idx s = Some d0 -> tget isexp idx (tput isexp idx d s) = Some d.
Proof.
  unfold tget, tput. intros H. destruct (isexp =? 1) eqn:E; cbn; apply znth_zupd_eq;
    unfold znth, zlen in *; (destruct (idx <? 0) eqn:E2; [done|]; apply lookup_lt_Some in H; lia).
Qed.

Lemma tput_tput isexp idx d1 d2 s : tput isexp idx d2 (tput isexp idx d1 s) = tput isexp idx d2 s.
Proof.
  unfold tput. destruct (isexp =? 1); destruct s; cbn; unfold sv_set_expdb, sv_set_db; cbn; by rewrite zupd_zupd.
Qed.

(** What a dictionary holds after elements with the values of [p] were added. *)
Record holds (d : fk_dict sitem item) (p : list (sitem * item)) : Prop := {
  ho_wf : db_wf d;
  ho_ent : map_Forall (fun _ x => ent_ok (i_ent x)) (dmap s_str d);
  ho_map : dview d = vmap item_val p
}.

Lemma wp_rs_dict_add isexp idx i k x r d p kv rest {B} (kont : unit -> ST rstate B) Q :
  tget isexp idx (rs_svr r) = Some d -> holds d p -> s_str kv.1 = k -> k ∉ vkeys p -> arg_ok k ->
  ent_ok (i_ent x) -> item_val x = item_val kv.2 -> rs_in r = rest ->
  (forall r' d', radd isexp idx r r' rest d' -> holds d' (p ++ [kv]) -> wp (kont tt) Q r') ->
  wp (u ← rs_dict_add isexp idx (SItem i k) x; kont u) Q r.
Proof.
  intros Hd [Hw He Hm] Hkv Hnew Hk Hx Hval Hin Hkont.
  pose proof (fk_dict_add_spec db_dict_eop s_str key_ok d (SItem i k) x (sv_items (rs_svr r)) Hw
    (arg_ok_key _ _ Hk)) as Hs.
  destruct (fk_dict_add db_dict_eop d (SItem i k) x (sv_items (rs_svr r))) as [[rt d1] m] eqn:E.
  destruct Hs as [Hw1 Hs].
  assert (dmap s_str d !! k = None) as Hnone.
  { pose proof (vmap_None item_val p _ Hnew) as Hn. rewrite <- Hm, dview_lookup in Hn.
    by destruct (dmap s_str d !! k). }
  cbn [s_str] in Hs. rewrite Hnone in Hs. destruct Hs as (_ & Hdm & _).
  eapply wp_step; [unfold rs_dict_add; cbv zeta; unfold tget in Hd; rewrite Hd, E; reflexivity|].
  apply (Hkont _ d1).
  - split; [done|]. exists m. unfold tput. cbn. by destruct (isexp =? 1).
  - split; [done| |].
    + rewrite Hdm. by apply map_Forall_insert_2.
    + rewrite vmap_snoc by (rewrite Hkv; done). unfold dview. rewrite Hdm, fmap_insert.
      unfold dview in Hm. by rewrite Hm, Hval, Hkv.
Qed.

Lemma rkeep_radd isexp idx r r1 r2 rest1 rest2 d :
  rkeep r r1 rest1 -> radd isexp idx r1 r2 rest2 d -> radd isexp idx r r2 rest2 d.
Proof.
  intros [_ H1] [H2 [m H3]]. split; [done|]. exists m. rewrite H3, H1, tput_items. done.
Qed.

Lemma rkeep_tget isexp idx r r' rest : rkeep r r' rest -> tget isexp idx (rs_svr r') = tget isexp idx (rs_svr r).
Proof. intros [_ ->]. apply tget_items. Qed.

Section restore_elt.
Context (isexp idx : Z) (p : list (sitem * item)) (kv : sitem * item) (d : fk_dict sitem item).
Context (Hold : holds d p) (Hnew : s_str kv.1 ∉ vkeys p) (Hk : key_dumpable (s_str kv.1)).

(** What restoring the element must do. *)
Definition restored (r : rstate) (rest : bytes) : Z -> rstate -> Prop := fun rt r' =>
  rt = FK_SVR_OK /\ exists d', radd isexp idx r r' rest d' /\ holds d' (p ++ [kv]).

(** The last steps: the new item is added to the dictionary. *)
Lemma restore_add r0 rest i t r :
  tget isexp idx (rs_svr r0) = Some d -> rkeep r0 r rest -> ent_ok t -> ent_val t = item_val kv.2 ->
  wp (j ← rs_create_item; _ ← rs_dict_add isexp idx (SItem i (s_str kv.1)) (Item j t); mret FK_SVR_OK)
    (restored r0 rest) r.
Proof.
  intros Hd H1 Ht Hv. apply wp_rs_create_item. intros j r2 H2.
  rewrite (proj1 H1) in H2. pose proof (rkeep_trans _ _ _ _ _ H1 H2) as H12.
  eapply (wp_rs_dict_add isexp idx i _ _ r2 d p kv rest); try done.
  - by rewrite (rkeep_tget _ _ _ _ _ H12).
  - apply Hk.
  - apply H2.
  - intros r' d' Ha Hh. apply wp_ret. split; [done|]. exists d'. split; [|done].
    by eapply rkeep_radd.
Qed.

Lemma restore_str_ok r rest s :
  tget isexp idx (rs_svr r) = Some d -> i_ent kv.2 = EntStr s -> arg_ok s ->
  rs_in r = r_str (s_str kv.1) ++ r_ent (EntStr s) ++ rest ->
  wp (fk_kdb_restore_str_elt isexp idx) (restored r rest) r.
Proof.
  intros Hd He Hs Hin. unfold fk_kdb_restore_str_elt.
  eapply wp_restore_key; [exact Hin|done|]. intros i r1 H1.
  eapply wp_restore_value; [apply H1|done|]. intros j r2 H2.
  pose proof (rkeep_trans _ _ _ _ _ H1 H2) as H12.
  eapply (wp_rs_dict_add isexp idx i _ _ r2 d p kv rest); try done.
  - by rewrite (rkeep_tget _ _ _ _ _ H12).
  - apply Hk.
  - unfold item_val. by rewrite He.
  - apply H2.
  - intros r' d' Ha Hh. apply wp_ret. split; [done|]. exists d'. split; [|done].
    by eapply rkeep_radd.
Qed.

Lemma restore_num_ok r rest n :
  tget isexp idx (rs_svr r) = Some d -> i_ent kv.2 = EntNum n -> - 2 ^ 63 <= n < 2 ^ 63 ->
  rs_in r = r_str (s_str kv.1) ++ r_ent (EntNum n) ++ rest ->
  wp (fk_kdb_restore_num_elt isexp idx) (restored r rest) r.
Proof.
  intros Hd He Hn Hin. unfold fk_kdb_restore_num_elt.
  eapply wp_restore_key; [exact Hin|done|]. intros i r1 H1.
  pose proof (proj1 H1) as Hin1. cbn [r_ent] in Hin1. rewrite <- app_assoc in Hin1.
  change (fread 8) with (fread (Z.of_nat 8)).
  apply (wp_fread_num 8 _ _ _ _ _ Hin1); [lia|]. intros r2 H2. cbn [Z.eqb].
  change (unle (le 8 8)) with 8. cbn [Z.ltb Z.compare Pos.compare Pos.compare_cont FK_ARG_HIGHWAT].
  rewrite (proj2 (Z.ltb_ge _ _)) by (unfold FK_ARG_HIGHWAT; lia).
  change (8 <? 8) with false. cbv iota. change (fread 8) with (fread (Z.of_nat 8)).
  apply (wp_fread_num 8 n rest); [apply H2|lia|]. intros r3 H3.
  change (1 =? 0) with false. rewrite andb_false_r. change (8 =? 8) with true. cbv iota.
  eapply wp_step; [reflexivity|]. rewrite i64_unle_le by done.
  apply restore_add; [done| |done|unfold item_val; by rewrite He].
  eapply rkeep_trans; [exact H1|]. by eapply rkeep_trans.
Qed.

Lemma restore_list_ok r rest l :
  tget isexp idx (rs_svr r) = Some d -> i_ent kv.2 = EntList l -> ent_dumpable (EntList l) ->
  rs_in r = r_str (s_str kv.1) ++ r_ent (EntList l) ++ rest ->
  wp (fk_kdb_restore_list_elt isexp idx) (restored r rest) r.
Proof.
  intros Hd He [Hn Hl] Hin. unfold fk_kdb_restore_list_elt.
  eapply wp_restore_key; [exact Hin|done|]. intros i r1 H1.
  pose proof (proj1 H1) as Hin1. cbn [r_ent] in Hin1. rewrite <- app_assoc in Hin1.
  change (fread 8) with (fread (Z.of_nat 8)).
  apply (wp_fread_num 8 _ _ _ _ _ Hin1); [lia|]. intros r2 H2. cbn [Z.eqb].
  rewrite unle_le_small by (pose proof (zlen_nonneg l); change (256 ^ Z.of_nat 8) with (2 ^ 64); lia).
  eapply wp_step; [reflexivity|]. eapply wp_seq.
  { apply (restore_list_loop_ok l _ _ 0 [] rest); [apply H2|done|lia|].
    rewrite (proj1 H2), length_app. pose proof (length_concat_strs l). lia. }
  intros o r3 (lst' & -> & E & H3). cbn [app].
  apply restore_add; [done| | |].
  - eapply rkeep_trans; [exact H1|]. by eapply rkeep_trans.
  - cbn. clear -E Hl. revert l E Hl. induction lst' as [|x lst' IH]; intros [|y l] E Hl; try done.
    injection E as Exy E. apply Forall_cons in Hl as [? ?]. constructor; [by rewrite Exy|by eapply IH].
  - unfold item_val. rewrite He. cbn. by rewrite E.
Qed.

Lemma restore_dict_ok r rest h :
  tget isexp idx (rs_svr r) = Some d -> i_ent kv.2 = EntDict h -> ent_dumpable (EntDict h) ->
  rs_in r = r_str (s_str kv.1) ++ r_ent (EntDict h) ++ rest ->
  wp (fk_kdb_restore_dict_elt isexp idx) (restored r rest) r.
Proof.
  intros Hd He (Hw & Hn & Hl) Hin. unfold fk_kdb_restore_dict_elt.
  eapply wp_restore_key; [exact Hin|done|]. intros i r1 H1.
  pose proof (proj1 H1) as Hin1. cbn [r_ent] in Hin1. rewrite <- app_assoc in Hin1.
  change (fread 8) with (fread (Z.of_nat 8)).
  apply (wp_fread_num 8 _ _ _ _ _ Hin1); [lia|]. intros r2 H2. cbn [Z.eqb].
  rewrite unle_le_small by (pose proof (zlen_nonneg (elems h)); change (256 ^ Z.of_nat 8) with (2 ^ 64); lia).
  eapply wp_step; [reflexivity|]. eapply wp_seq.
  { apply (restore_dict_loop_ok (elems h) [] _ _ 0 _ rest); [apply H2|done| |lia| | |].
    - apply (dwf_nodup _ _ _ _ Hw).
    - rewrite (proj1 H2), length_app. pose proof (length_concat_pairs (elems h)). lia.
    - split; [apply fk_dict_init_wf|]. rewrite fk_dict_init_dmap. apply map_Forall_empty.
    - done. }
  intros o r3 (h' & -> & Hok & E & H3). cbn [app] in E.
  apply restore_add; [done| |done|].
  - eapply rkeep_trans; [exact H1|]. by eapply rkeep_trans.
  - unfold item_val. rewrite He. cbn. f_equal. rewrite E. unfold hview. by rewrite fmap_dmap.
Qed.
End restore_elt.

(** The body of a dictionary. *)
Lemma restore_loop_ok isexp idx q : forall p fuel n i d rest r,
  rs_in r = concat (r_elt <$> q) ++ rest ->
  Forall (fun kv => key_dumpable (s_str kv.1) /\ ent_dumpable (i_ent kv.2)) q ->
  NoDup (vkeys (p ++ q)) -> n = i + zlen q -> (length q < fuel)%nat ->
  tget isexp idx (rs_svr r) = Some d -> holds d p ->
  wp (restore_loop fuel isexp idx n i) (fun rt r' => rt = FK_SVR_OK /\
    exists d', radd isexp idx r r' rest d' /\ holds d' (p ++ q)) r.
Proof.
  induction q as [|kv q IH]; intros p fuel n i d rest r Hin Hok Hnd Hn Hf Hd Hh;
    destruct fuel as [|fuel]; try (cbn in Hf; lia); cbn [restore_loop].
  - rewrite zlen_nil in Hn. rewrite (proj2 (Z.ltb_ge _ _)) by lia. apply wp_ret. split; [done|].
    exists d. rewrite app_nil_r. split; [|done]. split; [done|].
    exists (sv_items (rs_svr r)). rewrite <- tput_items.
    unfold tput, tget in *. destruct (isexp =? 1) eqn:E; destruct (rs_svr r); cbn in *;
      unfold sv_set_items, sv_set_expdb, sv_set_db; cbn; f_equal; symmetry;
      unfold znth, zupd in *; (destruct (idx <? 0); [done|by apply list_insert_id]).
  - rewrite zlen_cons in Hn. pose proof (zlen_nonneg q). rewrite (proj2 (Z.ltb_lt _ _)) by lia.
    apply Forall_cons in Hok as [[Hk Ht] Hok]. destruct (vkeys_next _ _ _ Hnd) as [Hnew Hnd'].
    rewrite fmap_cons in Hin. cbn [concat] in Hin. unfold r_elt at 1 in Hin. rewrite <- !app_assoc in Hin.
    change (fread 4) with (fread (Z.of_nat 4)).
    apply (wp_fread_num 4 _ _ _ _ _ Hin); [lia|]. intros r1 H1. cbn [Z.eqb].
    rewrite unle_le_small by (unfold fk_item_type; destruct (i_ent kv.2); split; (vm_compute; congruence)).
    eapply (wp_seq _ _ (restored isexp idx p kv r1 (concat (r_elt <$> q) ++ rest))).
    { pose proof (rkeep_tget isexp idx _ _ _ H1) as Hd1. rewrite Hd in Hd1. pose proof (proj1 H1) as Hin1.
      unfold fk_item_type. destruct (i_ent kv.2) as [s|l|h| |z] eqn:Ee; try done.
      - eapply restore_str_ok; done.
      - eapply restore_list_ok; done.
      - eapply restore_dict_ok; done.
      - eapply restore_num_ok; done. }
    intros rt r2 [-> (d1 & H2 & Hh1)]. cbn [FK_SVR_OK FK_SVR_ERR Z.eqb].
    pose proof (rkeep_radd _ _ _ _ _ _ _ _ H1 H2) as H12.
    eapply wp_mono; [apply (IH (p ++ [kv]) fuel n (i + 1) d1 rest); try done|].
    + apply H12.
    + lia.
    + cbn in Hf. lia.
    + destruct H12 as [_ [m ->]]. rewrite tget_items. by eapply tget_tput.
    + intros rt r3 [-> (d' & H3 & Hh')]. split; [done|]. exists d'. rewrite <- app_assoc in Hh'.
      split; [|done]. destruct H12 as [_ [m2 E2]], H3 as [E3a [m3 E3]]. split; [done|]. exists m3.
      by rewrite E3, E2, tput_items, tput_tput.
Qed.

(** A whole dictionary, into an empty one. *)
Lemma restore_ok isexp idx d0 d rest r :
  rs_in r = r_dict idx isexp d0 ++ rest -> dict_dumpable d0 ->
  isexp = 0 \/ isexp = 1 -> 0 <= idx < sv_dbcnt (rs_svr r) -> sv_dbcnt (rs_svr r) < 2 ^ 31 ->
  tget isexp idx (rs_svr r) = Some d -> holds d [] ->
  wp fk_kdb_restore (fun rt r' => rt = FK_SVR_OK /\
    exists d', radd isexp idx r r' rest d' /\ holds d' (elems d0)) r.
Proof.
  intros Hin [Hw Hlen Hf] He Hidx Hcnt Hd Hh. unfold fk_kdb_restore. unfold r_dict in Hin.
  rewrite <- !app_assoc in Hin. change (fread 4) with (fread (Z.of_nat 4)).
  apply (wp_fread_num 4 _ _ _ _ _ Hin); [lia|]. intros r1 H1. cbn [Z.eqb].
  rewrite unle_le_small by (change (256 ^ Z.of_nat 4) with (2 ^ 32); lia).
  eapply wp_step; [reflexivity|]. cbv beta.
  assert (sv_dbcnt (rs_svr r1) = sv_dbcnt (rs_svr r)) as -> by (by rewrite (proj2 H1)).
  rewrite (proj2 (Z.leb_gt _ _)) by lia.
  apply (wp_fread_num 4 _ _ _ _ _ (proj1 H1)); [lia|]. intros r2 H2. cbv iota beta.
  assert (i32 (unle (le 4 isexp)) = isexp) as ->.
  { rewrite unle_le_small by (change (256 ^ Z.of_nat 4) with (2 ^ 32); lia). apply i32_small. lia. }
  change (fread 8) with (fread (Z.of_nat 8)).
  apply (wp_fread_num 8 _ _ _ _ _ (proj1 H2)); [lia|]. intros r3 H3. cbn [Z.eqb].
  rewrite unle_le_small by (pose proof (zlen_nonneg (elems d0)); change (256 ^ Z.of_nat 8) with (2 ^ 64); lia).
  eapply wp_step; [reflexivity|]. cbv beta.
  assert (rkeep r r3 (concat (r_elt <$> elems d0) ++ rest)) as H13.
  { eapply rkeep_trans; [exact H1|]. by eapply rkeep_trans. }
  eapply wp_mono; [apply (restore_loop_ok isexp idx (elems d0) [] _ _ 0 d rest)|].
  - apply H3.
  - done.
  - apply (dwf_nodup _ _ _ _ Hw).
  - lia.
  - rewrite (proj1 H3), length_app. pose proof (length_concat_elts (elems d0)). lia.
  - by rewrite (rkeep_tget _ _ _ _ _ H13).
  - done.
  - intros rt r4 [-> (d' & H4 & Hh')]. split; [done|]. exists d'. split; [|done].
    by eapply rkeep_radd.
Qed.

(** ** The whole file *)

(** The dump of the databases from [i] on. *)
Fixpoint r_dbs (n : nat) (s : fk_svr) (i : Z) : bytes :=
  match n with
  | O => []
  | S n' =>
      (match tget 0 i s with Some d => r_dict i 0 d | None => [] end) ++
      (match tget 1 i s with Some d => r_dict i 1 d | None => [] end) ++ r_dbs n' s (i + 1)
  end.

Definition r_file (s : fk_svr) : bytes := r_dbs (Z.to_nat (sv_dbcnt s)) s 0.

Record svr_dumpable (s : fk_svr) : Prop := {
  sd_inv : svr_inv s;
  sd_db : Forall dict_dumpable (sv_db s);
  sd_exp : Forall dict_dumpable (sv_expdb s)
}.

Lemma dumpable_target s isexp i :
  svr_dumpable s -> 0 <= i < sv_dbcnt s ->
  exists d, tget isexp i s = Some d /\ dict_dumpable d.
Proof.
  intros [[Hc L1 L2 _ _] H1 H2] Hi. unfold tget.
  destruct (isexp =? 1).
  - destruct (znth_is_Some (sv_expdb s) i) as [d Hd]; [lia|]. exists d. split; [done|]. exact (Forall_znth _ _ _ _ H2 Hd).
  - destruct (znth_is_Some (sv_db s) i) as [d Hd]; [lia|]. exists d. split; [done|]. exact (Forall_znth _ _ _ _ H1 Hd).
Qed.

Lemma save_loop_ok room s n : forall i,
  svr_dumpable s -> 0 <= i -> i + Z.of_nat n = sv_dbcnt s ->
  dumps room (save_loop room n s i) (r_dbs n s i).
Proof.
  induction n as [|n IH]; intros i Hs Hi Hn; cbn [save_loop r_dbs]; [apply dumps_ret|].
  destruct (dumpable_target s 0 i Hs ltac:(lia)) as (d & Hd & Hdd).
  destruct (dumpable_target s 1 i Hs ltac:(lia)) as (d' & Hd' & Hdd'). rewrite Hd, Hd'.
  apply dumps_seq; [by apply dump_ok|]. apply dumps_seq; [by apply dump_ok|].
  apply IH; [done|lia|lia].
Qed.

(** Only the databases and the items change. *)
Definition load_frame (s s' : fk_svr) : Prop := exists l e m, s' = sv_set_items (sv_set_expdb (sv_set_db s l) e) m.

Lemma load_frame_refl s : load_frame s s.
Proof. exists (sv_db s), (sv_expdb s), (sv_items s). by destruct s. Qed.
Lemma load_frame_trans s1 s2 s3 : load_frame s1 s2 -> load_frame s2 s3 -> load_frame s1 s3.
Proof. intros (l1 & e1 & m1 & ->) (l & e & m & ->). by exists l, e, m. Qed.
Lemma load_frame_put isexp idx d s m : load_frame s (sv_set_items (tput isexp idx d s) m).
Proof.
  unfold tput. destruct (isexp =? 1).
  - exists (sv_db s), (zupd (sv_expdb s) idx d), m. by destruct s.
  - exists (zupd (sv_db s) idx d), (sv_expdb s), m. by destruct s.
Qed.

(** The target dictionary of a server being loaded. *)
Definition loaded_to (s0 : fk_svr) (k : Z -> Z -> bool) (s : fk_svr) : Prop :=
  zlen (sv_db s) = sv_dbcnt s0 /\ zlen (sv_expdb s) = sv_dbcnt s0 /\ sv_dbcnt s = sv_dbcnt s0 /\
  forall isexp i, isexp = 0 \/ isexp = 1 -> 0 <= i < sv_dbcnt s0 -> exists d, tget isexp i s = Some d /\
    if k isexp i then exists d0, tget isexp i s0 = Some d0 /\ holds d (elems d0) else holds d [].

Lemma tget_tput_ne isexp idx e i d s :
  0 <= idx -> (isexp = 0 \/ isexp = 1) -> (e = 0 \/ e = 1) -> (e <> isexp \/ i <> idx) ->
  tget e i (tput isexp idx d s) = tget e i s.
Proof.
  intros Hidx [->| ->] [->| ->] Hne; unfold tget, tput; cbn; try done;
    (apply znth_zupd_ne; [done|]; by destruct Hne).
Qed.

Lemma load_step s0 k isexp idx d0 rest r :
  svr_dumpable s0 -> loaded_to s0 k (rs_svr r) -> (isexp = 0 \/ isexp = 1) -> 0 <= idx < sv_dbcnt s0 ->
  tget isexp idx s0 = Some d0 -> k isexp idx = false -> rs_in r = r_dict idx isexp d0 ++ rest ->
  wp fk_kdb_restore (fun rt r' => rt = FK_SVR_OK /\ rs_in r' = rest /\ load_frame (rs_svr r) (rs_svr r') /\
    loaded_to s0 (fun e i => k e i || ((e =? isexp) && (i =? idx))) (rs_svr r')) r.
Proof.
  intros Hs (L1 & L2 & Hc & Hk) He Hidx Hd0 Hki Hin.
  destruct (dumpable_target s0 isexp idx Hs Hidx) as (d0' & Hd0' & Hdd).
  rewrite Hd0 in Hd0'. injection Hd0' as <-. destruct (Hk isexp idx He Hidx) as (d & Hd & Hh).
  rewrite Hki in Hh. pose proof (si_dbcnt _ (sd_inv _ Hs)) as Hmax.
  eapply wp_mono; [apply (restore_ok isexp idx d0 d rest); try done; lia|].
  intros rt r' [-> (d' & [Hrest [m Hm]] & Hh')]. split_and!; [done|done|rewrite Hm; apply load_frame_put|].
  rewrite Hm. split_and!.
  - unfold tput. destruct (isexp =? 1); cbn; [done|by rewrite zlen_zupd].
  - unfold tput. destruct (isexp =? 1); cbn; [by rewrite zlen_zupd|done].
  - unfold tput. by destruct (isexp =? 1).
  - intros e i Hee Hi. rewrite tget_items.
    destruct (decide (e = isexp /\ i = idx)) as [[-> ->]|Hne].
    + exists d'. split; [by eapply tget_tput|]. rewrite !Z.eqb_refl, orb_true_r. by exists d0.
    + rewrite tget_tput_ne by (done || lia). destruct (Hk e i Hee Hi) as (d2 & Hd2 & H2).
      exists d2. split; [done|].
      assert ((e =? isexp) && (i =? idx) = false) as Hb.
      { apply andb_false_iff. destruct (decide (e = isexp)) as [->|]; [right|left]; apply Z.eqb_neq; [|done].
        intros ->. by apply Hne. }
      by rewrite Hb, orb_false_r.
Qed.

Lemma loaded_ext s0 k k' s :
  (forall e i, e = 0 \/ e = 1 -> 0 <= i < sv_dbcnt s0 -> k e i = k' e i) ->
  loaded_to s0 k s -> loaded_to s0 k' s.
Proof.
  intros Hk (L1 & L2 & Hc & H). split_and!; try done. intros e i He Hi. rewrite <- Hk by done. by apply H.
Qed.

Lemma r_dict_length idx isexp d : (1 <= length (r_dict idx isexp d))%nat.
Proof. unfold r_dict. rewrite !length_app. pose proof (zlen_le 4 idx) as H. unfold zlen in H. lia. Qed.

(** One turn of the loop of [fk_kdb_load]. *)
Lemma load_turn s0 k isexp idx d0 rest r f :
  svr_dumpable s0 -> loaded_to s0 k (rs_svr r) -> (isexp = 0 \/ isexp = 1) -> 0 <= idx < sv_dbcnt s0 ->
  tget isexp idx s0 = Some d0 -> k isexp idx = false -> rs_in r = r_dict idx isexp d0 ++ rest ->
  exists r', load_loop (S f) r = load_loop f r' /\ rs_in r' = rest /\ load_frame (rs_svr r) (rs_svr r') /\
    loaded_to s0 (fun e i => k e i || ((e =? isexp) && (i =? idx))) (rs_svr r').
Proof.
  intros Hs Hl He Hidx Hd Hk Hin.
  pose proof (load_step s0 k isexp idx d0 rest r Hs Hl He Hidx Hd Hk Hin) as Hw.
  apply wp_elim in Hw as (rt & r' & Hw & -> & Hrest & Hfr & Hl'). exists r'. split_and!; [|done..].
  cbn [load_loop]. rewrite Hin. pose proof (r_dict_length idx isexp d0).
  rewrite (proj2 (Z.eqb_neq _ _)) by (unfold zlen; rewrite length_app; lia). by rewrite Hw.
Qed.

Lemma load_loop_ok s0 n : forall f i r,
  svr_dumpable s0 -> 0 <= i -> i + Z.of_nat n = sv_dbcnt s0 ->
  loaded_to s0 (fun _ j => j <? i) (rs_svr r) -> rs_in r = r_dbs n s0 i ->
  (length (rs_in r) < f)%nat ->
  exists s, load_loop f r = Some (Loaded s) /\ load_frame (rs_svr r) s /\ loaded_to s0 (fun _ _ => true) s.
Proof.
  induction n as [|n IH]; intros f i r Hs Hi Hn Hl Hin Hf; cbn [r_dbs] in Hin.
  - destruct f as [|f]; [lia|]. cbn [load_loop]. rewrite Hin. exists (rs_svr r). split; [done|]. split; [apply load_frame_refl|].
    eapply loaded_ext; [|exact Hl]. cbn. intros e j _ Hj. apply Z.ltb_lt. lia.
  - destruct (dumpable_target s0 0 i Hs ltac:(lia)) as (d & Hd & _).
    destruct (dumpable_target s0 1 i Hs ltac:(lia)) as (d' & Hd' & _). rewrite Hd, Hd' in Hin.
    pose proof (r_dict_length i 0 d) as HL1. pose proof (r_dict_length i 1 d') as HL2.
    assert (length (rs_in r) = length (r_dict i 0 d) + (length (r_dict i 1 d') +
      length (r_dbs n s0 (i + 1))))%nat as Hlen by (by rewrite Hin, !length_app).
    destruct f as [|[|f]]; [lia|lia|].
    destruct (load_turn s0 _ 0 i d _ r (S f) Hs Hl ltac:(auto) ltac:(lia) Hd ltac:(apply Z.ltb_ge; lia) Hin)
      as (r1 & -> & Hin1 & Hf1 & Hl1).
    destruct (load_turn s0 _ 1 i d' _ r1 f Hs Hl1 ltac:(auto) ltac:(lia) Hd'
      ltac:(cbn; rewrite orb_false_r; apply Z.ltb_ge; lia) Hin1) as (r2 & -> & Hin2 & Hf2 & Hl2).
    destruct (IH f (i + 1) r2) as (s & E & Hf3 & Hl3); try done; [lia|lia| |rewrite Hin2; lia|
      by exists s; eauto using load_frame_trans].
    eapply loaded_ext; [|exact Hl2]. cbn. intros e j [->| ->] Hj; cbn; rewrite ?orb_false_r;
      destruct (j <? i) eqn:E1; destruct (j =? i) eqn:E2; cbn; symmetry; apply Z.ltb_lt || apply Z.ltb_ge; lia.
Qed.

(** ** Properties *)

(** A server that has just been started. *)
Record svr_fresh (s : fk_svr) (dbcnt : Z) : Prop := {
  sf_cnt : sv_dbcnt s = dbcnt;
  sf_db : sv_db s = replicate (Z.to_nat dbcnt) fk_dict_init;
  sf_exp : sv_expdb s = replicate (Z.to_nat dbcnt) fk_dict_init
}.

Lemma fresh_loaded s s0 : svr_dumpable s0 -> svr_fresh s (sv_dbcnt s0) -> loaded_to s0 (fun _ j => j <? 0) s.
Proof.
  intros Hs [Hc H1 H2]. pose proof (si_dbcnt _ (sd_inv _ Hs)) as Hmax.
  unfold loaded_to. rewrite H1, H2, Hc. split_and!; try (apply zlen_replicate; lia); [done|].
  intros e i He Hi. exists fk_dict_init. split.
  - unfold tget. rewrite H1, H2. destruct (e =? 1); unfold znth; rewrite (proj2 (Z.ltb_ge _ _)) by lia;
      apply lookup_replicate_2; lia.
  - rewrite (proj2 (Z.ltb_ge _ _)) by lia. split; [apply fk_dict_init_wf| |done].
    rewrite fk_dict_init_dmap. apply map_Forall_empty.
Qed.

Lemma item_num_val x y : item_val x = item_val y -> (exists n, i_ent y = EntNum n) -> item_num x = item_num y.
Proof. unfold item_val, item_num. intros H [n Hn]. rewrite Hn in *. destruct (i_ent x); try done. by injection H. Qed.

Lemma holds_view d d0 : db_wf d0 -> holds d (elems d0) -> dview d = dview d0.
Proof. intros Hw [_ _ Hm]. rewrite Hm. unfold dview. by rewrite fmap_dmap. Qed.

Lemma eview_of_dview d : eview d = (fun v => match v with VNum n => n | _ => 0 end) <$> dview d.
Proof.
  unfold eview, dview. rewrite <- map_fmap_compose. apply map_fmap_ext. intros k x _.
  unfold item_num, item_val, compose. by destruct (i_ent x).
Qed.

Lemma loaded_views s s0 :
  svr_dumpable s0 -> loaded_to s0 (fun _ _ => true) s ->
  dview <$> sv_db s = dview <$> sv_db s0 /\ eview <$> sv_expdb s = eview <$> sv_expdb s0.
Proof.
  intros Hs (L1 & L2 & Hc & Hk). destruct (sd_inv _ Hs) as [Hmax D1 D2 _ _]. split.
  - apply list_eq_znth; rewrite !zlen_map; [by rewrite L1, D1|]. intros i Hi. rewrite !znth_fmap.
    destruct (Hk 0 i) as (d & Hd & d0 & Hd0 & Hh); [auto|lia|]. unfold tget in Hd, Hd0. cbn in Hd, Hd0.
    rewrite Hd, Hd0. cbn. f_equal. apply holds_view; [|done].
    apply (Forall_znth _ _ _ _ (sd_db _ Hs) Hd0).
  - apply list_eq_znth; rewrite !zlen_map; [by rewrite L2, D2|]. intros i Hi. rewrite !znth_fmap.
    destruct (Hk 1 i) as (d & Hd & d0 & Hd0 & Hh); [auto|lia|]. unfold tget in Hd, Hd0. cbn in Hd, Hd0.
    rewrite Hd, Hd0. cbn. f_equal. rewrite !eview_of_dview. f_equal. apply holds_view; [|done].
    apply (Forall_znth _ _ _ _ (sd_exp _ Hs) Hd0).
Qed.

(** The dictionaries that were loaded keep the invariants. *)
Lemma holds_db d d0 : holds d (elems d0) -> db_inv d.
Proof. by intros []. Qed.

Lemma holds_exp d d0 : exp_inv d0 -> holds d (elems d0) -> exp_inv d.
Proof.
  intros [W N] H. pose proof (holds_view d d0 W H) as E. split; [apply H|]. intros k x Hx.
  assert (dview d !! k = Some (item_val x)) as Hv by (by rewrite dview_lookup, Hx).
  rewrite E, dview_lookup in Hv. destruct (dmap s_str d0 !! k) as [y|] eqn:Ey; [|done]. injection Hv as Hv.
  destruct (N k y Ey) as [n Hn]. unfold item_val in Hv. rewrite Hn in Hv. destruct (i_ent x); try done. by eexists.
Qed.

Lemma Forall_of_znth {A} (P : A -> Prop) l : (forall i, 0 <= i < zlen l -> exists x, znth l i = Some x /\ P x) -> Forall P l.
Proof.
  intros H. apply Forall_lookup. intros i x Hx. pose proof (lookup_lt_Some _ _ _ Hx).
  destruct (H (Z.of_nat i)) as (y & Hy & Hp); [unfold zlen; lia|]. unfold znth in Hy.
  rewrite (proj2 (Z.ltb_ge _ _)), Nat2Z.id, Hx in Hy by lia. by injection Hy as ->.
Qed.

Lemma loaded_inv s s0 : svr_dumpable s0 -> loaded_to s0 (fun _ _ => true) s -> svr_inv s.
Proof.
  intros Hs (L1 & L2 & Hc & Hk). pose proof (sd_inv _ Hs) as [Hmax D1 D2 _ D4]. split; rewrite ?Hc; try done.
  - apply Forall_of_znth. intros i Hi. destruct (Hk 0 i) as (d & Hd & d0 & _ & Hh); [auto|lia|].
    exists d. split; [exact Hd|by eapply holds_db].
  - apply Forall_of_znth. intros i Hi. destruct (Hk 1 i) as (d & Hd & d0 & Hd0 & Hh); [auto|lia|].
    exists d. split; [exact Hd|]. eapply holds_exp; [|exact Hh]. exact (Forall_znth _ _ _ _ D4 Hd0).
Qed.

(** A save replaces the file by what the disk took. *)
Lemma kdb_save_passes room s : svr_dumpable s -> passes room (zlen (r_file s)) ->
  fk_kdb_save room true true s = Some (FK_SVR_OK, sv_set_kdb s (Some (ztake (io_room room) (r_file s)))).
Proof.
  intros Hs Hroom. pose proof (si_dbcnt _ (sd_inv _ Hs)) as Hmax.
  pose proof (save_loop_ok room s (Z.to_nat (sv_dbcnt s)) 0 Hs ltac:(lia) ltac:(lia) []) as Hd.
  unfold fk_kdb_save. cbn [negb]. by rewrite Hd.
Qed.

(** A save that has room writes the dump, and a server that starts with it has the same
    contents. *)
Lemma kdb_save_ok room s : svr_dumpable s -> zlen (r_file s) <= io_room room ->
  fk_kdb_save room true true s = Some (FK_SVR_OK, sv_set_kdb s (Some (r_file s))).
Proof. intros Hs Hroom. rewrite kdb_save_passes by (done || by apply room_passes). by rewrite ztake_all. Qed.

Lemma kdb_load_ok s s0 : svr_dumpable s -> svr_fresh s0 (sv_dbcnt s) ->
  exists s1, fk_kdb_load (Some (r_file s)) s0 = Some (Loaded s1) /\ load_frame s0 s1 /\ svr_inv s1 /\
    dview <$> sv_db s1 = dview <$> sv_db s /\ eview <$> sv_expdb s1 = eview <$> sv_expdb s.
Proof.
  intros Hs Hf. pose proof (si_dbcnt _ (sd_inv _ Hs)) as Hmax.
  destruct (load_loop_ok s (Z.to_nat (sv_dbcnt s)) (S (length (r_file s))) 0
    (RState (r_file s) (fk_zline_create 4096) s0)) as (s1 & Hl & Hfr & Hl1); try done; try lia.
  { by apply fresh_loaded. } { cbn. lia. }
  exists s1. split_and!; [done|done|by eapply loaded_inv|by apply loaded_views..].
Qed.

(** A dump determines the data. *)
Lemma r_file_inj s1 s2 : svr_dumpable s1 -> svr_dumpable s2 -> sv_dbcnt s1 = sv_dbcnt s2 -> r_file s1 = r_file s2 ->
  dview <$> sv_db s1 = dview <$> sv_db s2 /\ eview <$> sv_expdb s1 = eview <$> sv_expdb s2.
Proof.
  intros H1 H2 Ed Ef. set (n := Z.to_nat (sv_dbcnt s1)).
  set (s0 := sv_set_expdb (sv_set_db s1 (replicate n fk_dict_init)) (replicate n fk_dict_init)).
  destruct (kdb_load_ok s1 s0 H1) as (s & E1 & _ & _ & V1 & W1); [done|].
  destruct (kdb_load_ok s2 s0 H2) as (s' & E2 & _ & _ & V2 & W2); [by rewrite <- Ed|].
  rewrite Ef, E2 in E1. injection E1 as ->. by rewrite <- V1, <- W1.
Qed.

(** C11. The dump and the restore of the database are inverse on every server whose data
    a dump can hold ([svr_dumpable]: no key and no field of a hash is empty or longer
    than an argument, no value is a skiplist, a number fits in 64 bits, and the length
    of a dictionary or list too): when the disk has room for the dump and [fopen] and
    [rename] succeed, [fk_kdb_save] succeeds and replaces the database file, and a
    server with the same number of databases that starts with that file does not exit
    and holds the same keys, values and expiry times in every database. (An empty key
    makes the dump fail, [save_empty_key_fails]; a disk that is full may cut it,
    [full_disk_cuts_dump].) *)
Theorem kdb_save_load room s s0 :
  svr_dumpable s -> zlen (r_file s) <= io_room room -> svr_fresh s0 (sv_dbcnt s) ->
  exists s' s1,
    fk_kdb_save room true true s = Some (FK_SVR_OK, s') /\
    fk_kdb_load (sv_kdb s') s0 = Some (Loaded s1) /\
    dview <$> sv_db s1 = dview <$> sv_db s /\ eview <$> sv_expdb s1 = eview <$> sv_expdb s.
Proof.
  intros Hs Hroom Hf. exists (sv_set_kdb s (Some (r_file s))).
  destruct (kdb_load_ok s s0 Hs Hf) as (s1 & Hl & _ & _ & H). exists s1. split; [by apply kdb_save_ok|]. by split.
Qed.

(** Whatever the disk does not take when the buffer of the stream is passed on at the end is
    lost: the dump is answered with OK, and the cut file replaces the one that was complete. *)
Theorem full_disk_cuts_dump room s : svr_dumpable s -> passes room (zlen (r_file s)) ->
  0 <= io_room room < zlen (r_file s) -> exists file,
  fk_kdb_save room true true s = Some (FK_SVR_OK, sv_set_kdb s (Some file)) /\ file `prefix_of` r_file s /\ file <> r_file s.
Proof.
  intros Hs Hp Hr. exists (ztake (io_room room) (r_file s)). split; [by apply kdb_save_passes|]. split.
  - eexists. symmetry. apply ztake_zdrop.
  - intros E%(f_equal zlen). rewrite zlen_ztake in E; lia.
Qed.

(** *** Which stores can be dumped *)

(** Keys and fields are not empty (and no longer than an argument), there is no skiplist,
    lengths and numbers fit. *)
Definition val_dumpable (v : val) : Prop :=
  match v with
  | VStr _ => True
  | VNum n => - 2 ^ 63 <= n < 2 ^ 63
  | VList l => zlen l < 2 ^ 64
  | VHash m => Z.of_nat (size m) < 2 ^ 64 /\ forall f, is_Some (m !! f) -> key_dumpable f
  | VSklist => False
  end.
Definition map_dumpable (m : gmap bytes val) : Prop :=
  Z.of_nat (size m) < 2 ^ 64 /\ map_Forall (fun k v => key_dumpable k /\ val_dumpable v) m.
Definition store_dumpable (a : astate) : Prop :=
  Forall map_dumpable (a_db a) /\ Forall (fun m => map_dumpable (VNum <$> m)) (a_exp a).

Lemma zlen_elems {V} (e : fk_elt_op item_mgr sitem V) (d : fk_dict sitem V) : dict_wf e s_str key_ok d -> zlen (elems d) = Z.of_nat (size (dmap s_str d)).
Proof.
  intros W. unfold Dict.dmap. rewrite map_size_list_to_map by (apply kvs_NoDup; apply W). unfold kvs, zlen. by rewrite length_fmap.
Qed.

Lemma ent_dumpable_val t : ent_ok t -> val_dumpable (ent_val t) -> ent_dumpable t.
Proof.
  destruct t as [s|l|d| |n]; cbn; [done| | |done|done].
  - intros H Hl. by rewrite zlen_map in Hl.
  - intros [W H] [Hs Hf]. unfold hview in *. rewrite map_size_fmap in Hs. split; [done|]. split; [by rewrite (zlen_elems _ _ W)|].
    apply Forall_forall. intros [k x] Hin. pose proof (dmap_elem _ _ _ d _ W Hin) as Hx. cbn in Hx.
    split; [|by eapply H]. apply Hf. exists (s_str x). rewrite lookup_fmap. exact (f_equal (fmap s_str) Hx).
Qed.

Lemma dict_dumpable_map d : db_inv d -> map_dumpable (dview d) -> dict_dumpable d.
Proof.
  intros [W E] [Hs Hm]. unfold dview in Hs. rewrite map_size_fmap in Hs. split; [done|by rewrite (zlen_elems _ _ W)|].
  apply Forall_forall. intros [k x] Hin. pose proof (dmap_elem _ _ _ d _ W Hin) as Hx. cbn in Hx.
  destruct (Hm (s_str k) (item_val x)) as [Hk Hv]; [by rewrite dview_lookup, Hx|]. split; [done|].
  apply ent_dumpable_val; [by eapply E|done].
Qed.

Lemma svr_dumpable_store s : svr_inv s -> Forall map_dumpable (dview <$> sv_db s) ->
  Forall (fun m => map_dumpable (VNum <$> m)) (eview <$> sv_expdb s) -> svr_dumpable s.
Proof.
  intros I H1 H2. pose proof I as [_ _ _ D E]. rewrite Forall_forall in D, E.
  split; [done|..].
  - apply Forall_forall. intros d Hd. apply dict_dumpable_map; [by apply D|].
    rewrite Forall_forall in H1. by apply H1, list_elem_of_fmap_2.
  - apply Forall_forall. intros d Hd. rewrite Forall_forall in H2. specialize (H2 _ (list_elem_of_fmap_2 eview _ _ Hd)).
    assert (dview d = VNum <$> eview d) as Ed.
    { unfold dview, eview. rewrite <- map_fmap_compose. apply map_fmap_ext. intros k x Hx.
      destruct (ei_num _ (E d Hd) k x Hx) as [n Hn]. unfold item_val, item_num, compose. by rewrite Hn. }
    apply dict_dumpable_map; [|by rewrite Ed]. destruct (E d Hd) as [W N]. split; [done|].
    intros k x Hx. destruct (N k x Hx) as [n ->]. done.
Qed.

(** *** Empty keys *)

Section empty_key.
Context (room : stdio).

Lemma dump_key_empty out : exists out', dump_key room [] out = Some (FK_SVR_ERR, out').
Proof.
  unfold dump_key, mbind, ST_bind, fwrite at 1. change (zlen (le 8 (zlen (@nil ascii))) =? 0) with false.
  cbv iota zeta. destruct (_ <=? io_room room); cbn; by eexists.
Qed.

Lemma dump_switch_empty t out r out' :
  (rt ← match t with
        | EntStr s => rt ← fk_kdb_dump_str_elt room [] s; mret (Some rt)
        | EntList lst => rt ← fk_kdb_dump_list_elt room [] lst; mret (Some rt)
        | EntDict dct => rt ← fk_kdb_dump_dict_elt room [] dct; mret (Some rt)
        | EntNum n => rt ← fk_kdb_dump_num_elt room [] n; mret (Some rt)
        | EntSklist => mret None
        end; mret rt : ST bytes (option Z)) out = Some (r, out') ->
  r = Some FK_SVR_ERR \/ t = EntSklist.
Proof.
  destruct (dump_key_empty out) as [o Ho]. unfold mbind, ST_bind.
  destruct t; try (by right); unfold fk_kdb_dump_str_elt, fk_kdb_dump_list_elt,
    fk_kdb_dump_dict_elt, fk_kdb_dump_num_elt, mbind, ST_bind; rewrite Ho; cbn;
    intros [= <- _]; by left.
Qed.

(** A dictionary with an empty key is not dumped. *)
Lemma dump_elts_empty l : forall rt out r out',
  [] ∈ vkeys l -> Forall (fun kv : sitem * item => i_ent kv.2 <> EntSklist) l ->
  dump_elts room rt l out = Some (r, out') -> r = FK_SVR_ERR.
Proof.
  induction l as [|kv l IH]; intros rt out r out' Hin Hf; [by apply not_elem_of_nil in Hin|].
  apply Forall_cons in Hf as [Hns Hf]. cbn [dump_elts].
  unfold mbind at 1, ST_bind at 1. destruct (fwrite room (le 4 _) out) as [[wz o1]|]; [|done].
  destruct (wz =? 0); [by intros [= <- _]|].
  unfold mbind at 1, ST_bind at 1.
  destruct (_ o1) as [[rt1 o2]|] eqn:E; [|done].
  unfold mbind at 1, ST_bind at 1. destruct rt1 as [rt1|]; cbn [st_lift]; [|done].
  destruct (rt1 =? FK_SVR_ERR) eqn:E1; [by intros [= <- _]|]. intros Hd.
  apply elem_of_cons in Hin as [Hk|Hin]; [|by eapply IH].
  pose proof (dump_switch_empty (i_ent kv.2) o1 (Some rt1) o2) as Hsw.
  destruct Hsw as [[= ->]|?]; [|done..].
  cbv zeta in E. rewrite <- Hk in E. unfold mbind at 1, ST_bind at 1.
  destruct (i_ent kv.2); try done; by rewrite E.
Qed.
End empty_key.

(** *** The dump always returns *)

Definition total {A} (m : ST bytes A) : Prop := forall out, exists a out', m out = Some (a, out').

Lemma total_bind {A B} (m : ST bytes A) (k : A -> ST bytes B) :
  total m -> (forall a, total (k a)) -> total (m ≫= k).
Proof. intros Hm Hk out. destruct (Hm out) as (a & o & E). unfold mbind, ST_bind. rewrite E. apply Hk. Qed.

Lemma total_ret {A} (a : A) : total (mret a).
Proof. intros out. by exists a, out. Qed.

Create HintDb total.

Section total.
Context (room : stdio).

Lemma total_fwrite b : total (fwrite room b).
Proof. intros out. unfold fwrite. repeat case_match; by eexists _, _. Qed.

Hint Resolve total_ret total_fwrite : total.
Ltac total :=
  repeat first [progress intros|apply total_bind|case_match|solve [eauto with total]].

Lemma total_key k : total (dump_key room k).
Proof. unfold dump_key. total. Qed.
Lemma total_value v : total (dump_value room v).
Proof. unfold dump_value. total. Qed.
Hint Resolve total_key total_value : total.

Lemma total_list l : total (dump_list_loop room l).
Proof. induction l; cbn [dump_list_loop]; total. Qed.
Lemma total_dict l : total (dump_dict_loop room l).
Proof. induction l; cbn [dump_dict_loop]; total. Qed.
Hint Resolve total_list total_dict : total.

Lemma total_elts l : forall rt,
  Forall (fun kv : sitem * item => i_ent kv.2 <> EntSklist) l -> total (dump_elts room rt l).
Proof.
  induction l as [|kv l IH]; intros rt Hl; cbn [dump_elts]; [total|].
  apply Forall_cons in Hl as [Hk Hl]. apply total_bind; [total|]. intros wz.
  destruct (wz =? 0); [total|].
  assert (forall m : ST bytes Z, total m ->
    total (rt ← (rt ← m; mret (Some rt)); rt' ← st_lift rt;
           if rt' =? FK_SVR_ERR then mret FK_SVR_ERR else dump_elts room rt l)) as Hm.
  { intros m Hm out. destruct (Hm out) as (r & o & E). unfold mbind, ST_bind. rewrite E.
    cbn [st_lift mret ST_ret]. destruct (r =? FK_SVR_ERR); [by eexists _, _|]. by apply IH. }
  cbv zeta. destruct (i_ent kv.2); try done; apply Hm;
    unfold fk_kdb_dump_str_elt, fk_kdb_dump_list_elt, fk_kdb_dump_dict_elt, fk_kdb_dump_num_elt; total.
Qed.

Lemma total_dump s i e d :
  tget e i s = Some d -> db_wf d -> Forall (fun kv : sitem * item => i_ent kv.2 <> EntSklist) (elems d) ->
  total (fk_kdb_dump room s i e).
Proof.
  intros Hd Hw Hns. unfold fk_kdb_dump. unfold tget in Hd. rewrite Hd. intros out.
  change ((st_lift (Some d) ≫= ?k) out) with (k d out). cbv beta.
  rewrite (fk_dict_elements_spec db_dict_eop s_str key_ok) by done. revert out.
  change (total (wz ← fwrite room (le 4 i); if wz =? 0 then mret FK_SVR_ERR else
    wz ← fwrite room (le 4 e); if wz =? 0 then mret FK_SVR_ERR else
    wz ← fwrite room (le 8 (fk_dict_len d)); if wz =? 0 then mret FK_SVR_ERR
    else dump_elts room None (elems d))).
  pose proof (total_elts (elems d) None Hns). total.
Qed.
End total.

(** A store that [fk_kdb_dump] handles without undefined behaviour. *)
Record no_sklist (s : fk_svr) : Prop := {
  ns_inv : svr_inv s;
  ns_db : Forall (fun d => map_Forall (fun _ v => v <> VSklist) (dview d)) (sv_db s)
}.

Lemma elems_no_sklist d :
  db_wf d -> map_Forall (fun _ v => v <> VSklist) (dview d) ->
  Forall (fun kv : sitem * item => i_ent kv.2 <> EntSklist) (elems d).
Proof.
  intros Hw Hn. apply Forall_forall. intros kv Hin E.
  pose proof (dmap_elem db_dict_eop s_str key_ok d kv Hw Hin) as Hd.
  apply (Hn (s_str kv.1) VSklist); [|done]. rewrite dview_lookup, Hd. cbn. unfold item_val. by rewrite E.
Qed.

Lemma target_no_sklist s e i :
  no_sklist s -> 0 <= i < sv_dbcnt s -> exists d, tget e i s = Some d /\ db_wf d /\
    Forall (fun kv : sitem * item => i_ent kv.2 <> EntSklist) (elems d).
Proof.
  intros [[Hc L1 L2 H1 H2] Hns] Hi. unfold tget. destruct (e =? 1).
  - destruct (znth_is_Some (sv_expdb s) i) as [d Hd]; [lia|]. exists d.
    destruct (Forall_znth _ _ _ _ H2 Hd) as [Hw Hn]. split_and!; [done|done|].
    apply elems_no_sklist; [done|]. intros k v Hv. rewrite dview_lookup, fmap_Some in Hv.
    destruct Hv as (x & Hx & ->). destruct (Hn k x Hx) as [n E]. unfold item_val. by rewrite E.
  - destruct (znth_is_Some (sv_db s) i) as [d Hd]; [lia|]. exists d.
    pose proof (Forall_znth _ _ _ _ H1 Hd) as [Hw _]. split_and!; [done|done|].
    apply elems_no_sklist; [done|]. exact (Forall_znth _ _ _ _ Hns Hd).
Qed.

Lemma total_save_loop room s n : forall i, no_sklist s -> 0 <= i -> i + Z.of_nat n = sv_dbcnt s ->
  total (save_loop room n s i).
Proof.
  induction n as [|n IH]; intros i Hs Hi Hn; cbn [save_loop]; [apply total_ret|].
  destruct (target_no_sklist s 0 i Hs ltac:(lia)) as (d & Hd & Hw & Hf).
  destruct (target_no_sklist s 1 i Hs ltac:(lia)) as (d' & Hd' & Hw' & Hf').
  apply total_bind; [by eapply total_dump|]. intros rt. destruct (rt =? FK_SVR_ERR); [apply total_ret|].
  apply total_bind; [by eapply total_dump|]. intros rt'. destruct (rt' =? FK_SVR_ERR); [apply total_ret|].
  apply IH; [done|lia|lia].
Qed.

Lemma save_loop_empty room s n j d : forall i out r out',
  no_sklist s -> 0 <= i <= j -> j < i + Z.of_nat n -> i + Z.of_nat n = sv_dbcnt s ->
  znth (sv_db s) j = Some d -> [] ∈ vkeys (elems d) ->
  save_loop room n s i out = Some (r, out') -> r = FK_SVR_ERR.
Proof.
  induction n as [|n IH]; intros i out r out' Hs Hi Hj Hn Hd Hin; [lia|]. cbn [save_loop].
  destruct (target_no_sklist s 0 i Hs ltac:(lia)) as (d0 & Hd0 & Hw & Hf).
  unfold mbind at 1, ST_bind at 1. destruct (fk_kdb_dump room s i 0 out) as [[rt o]|] eqn:E; [|done].
  destruct (rt =? FK_SVR_ERR) eqn:Ert; [by intros [= <- _]|]. destruct (decide (i = j)) as [->|Hne].
  - intros _. exfalso. assert (rt = FK_SVR_ERR) as ->; [|done]. revert E.
    unfold tget in Hd0. cbn in Hd0. rewrite Hd in Hd0. injection Hd0 as <-.
    unfold fk_kdb_dump. cbn [Z.eqb]. rewrite Hd.
    unfold mbind, ST_bind. cbn [st_lift].
    rewrite (fk_dict_elements_spec db_dict_eop s_str key_ok) by done.
    destruct (fwrite room (le 4 j) out) as [[wz o1]|]; [|done]. destruct (wz =? 0); [by intros [= <- _]|].
    destruct (fwrite room (le 4 0) o1) as [[wz2 o2]|]; [|done]. destruct (wz2 =? 0); [by intros [= <- _]|].
    destruct (fwrite room (le 8 _) o2) as [[wz3 o3]|]; [|done]. destruct (wz3 =? 0); [by intros [= <- _]|].
    by apply dump_elts_empty.
  - unfold mbind at 1, ST_bind at 1. destruct (fk_kdb_dump room s i 1 o) as [[rt' o']|]; [|done].
    destruct (rt' =? FK_SVR_ERR); [by intros [= <- _]|].
    intros H. apply (IH (i + 1) o' r out'); try done; lia.
Qed.

(** C36. A key of length 0 makes every dump fail, and SAVE hides it: the length of
    the block written for the key is 0, which [fk_kdb_dump_str_elt] and its
    siblings take for an error of [fwrite]; the database file stays as it was, and
    the client still gets [+OK]. *)
Theorem save_empty_key_fails room fopen_ok rename_ok w i v :
  world_ok w -> no_sklist (w_svr w) -> sv_save_pid (w_svr w) = -1 ->
  0 <= i < sv_dbcnt (w_svr w) -> adb (abs w) i !! [] = Some v ->
  fk_kdb_save room fopen_ok rename_ok (w_svr w) = Some (FK_SVR_ERR, w_svr w) /\
  wp (fk_cmd_save room fopen_ok rename_ok) (rsp_post w (status_rsp FK_RSP_OK)) w.
Proof.
  intros W Hns Hpid Hi Hv. set (s := w_svr w) in *.
  assert (fk_kdb_save room fopen_ok rename_ok s = Some (FK_SVR_ERR, s)) as Hsave.
  { unfold fk_kdb_save. destruct fopen_ok; cbn [negb]; [|done].
    destruct (db_lookup w W i Hi) as (d & Hd & [Hw _] & Ha). rewrite Ha in Hv.
    destruct (total_save_loop room s (Z.to_nat (sv_dbcnt s)) 0 Hns ltac:(lia) ltac:(lia) [])
      as (r & out & E). rewrite E.
    assert (r = FK_SVR_ERR) as ->; [|done].
    apply (save_loop_empty room s (Z.to_nat (sv_dbcnt s)) i d 0 [] r out); try done; try lia.
    destruct (decide ([] ∈ vkeys (elems d))) as [|Hno]; [done|].
    apply (vmap_None item_val) in Hno. unfold dview in Hv. rewrite fmap_dmap in Hv. congruence. }
  split; [done|]. unfold fk_cmd_save. eapply wp_step; [reflexivity|]. fold s.
  rewrite Hpid. cbn [Z.eqb Pos.eqb]. apply wp_bind.
  eapply wp_step; [rewrite Hsave; reflexivity|]. eapply wp_step; [reflexivity|]. apply wp_ret.
  cbn [snd fst FK_SVR_ERR FK_SVR_OK Z.eqb]. assert (w_set_svr w s = w) as -> by by destruct w.
  apply (wp_seq _ _ (rsp_post w (status_rsp FK_RSP_OK))); [by apply wp_status_const|].
  intros rt w2 Hp. apply wp_ret. pose proof Hp as (b & _ & Hb). by rewrite (answered_ret _ _ _ _ Hb).
Qed.

(** ** The theorems on an example server *)

(** The first database holds one string. *)
Definition ex_dict (k v : bytes) : fk_dict sitem item :=
  snd (fst (dict_replace (SItem 1 k) (Item 2 (EntStr v)) fk_dict_init fk_item_init)).
Definition ex_svr_with (k v : bytes) : fk_svr :=
  sv_set_db ex_svr [ex_dict k v; fk_dict_init].

Lemma ex_dict_inv k v : arg_ok k -> arg_ok v -> db_inv (ex_dict k v).
Proof.
  intros Hk Hv.
  pose proof (dict_replace_db 1 k (Item 2 (EntStr v)) fk_dict_init fk_item_init Hk Hv empty_db_inv) as H.
  unfold ex_dict. destruct (dict_replace _ _ _ _) as [[rt d] m]. apply H.
Qed.

Lemma ex_svr_with_inv k v : arg_ok k -> arg_ok v -> svr_inv (ex_svr_with k v).
Proof.
  intros Hk Hv. destruct ex_svr_inv as [? ? ? _ ?]. split; try done.
  constructor; [by apply ex_dict_inv|]. repeat constructor; apply empty_db_inv.
Qed.

Lemma empty_dumpable : dict_dumpable fk_dict_init.
Proof.
  assert (elems (fk_dict_init (K := sitem) (V := item)) = []) as E by reflexivity.
  split; [apply fk_dict_init_wf|by rewrite E|rewrite E; constructor].
Qed.

Lemma kdb_save_load_witness :
  svr_dumpable (ex_svr_with (lit "k") (lit "v")) /\ svr_fresh ex_svr 2 /\
  exists s' s1,
    fk_kdb_save (disk_of 4096) true true (ex_svr_with (lit "k") (lit "v")) = Some (FK_SVR_OK, s') /\
    fk_kdb_load (sv_kdb s') ex_svr = Some (Loaded s1) /\
    dview <$> sv_db s1 = dview <$> sv_db (ex_svr_with (lit "k") (lit "v")) /\
    eview <$> sv_expdb s1 = eview <$> sv_expdb (ex_svr_with (lit "k") (lit "v")).
Proof.
  assert (svr_dumpable (ex_svr_with (lit "k") (lit "v"))) as Hd.
  { pose proof (ex_svr_with_inv (lit "k") (lit "v") ltac:(vm_compute; congruence)
      ltac:(vm_compute; congruence)) as Hi.
    split; [exact Hi| |repeat constructor; apply empty_dumpable].
    constructor; [|repeat constructor; apply empty_dumpable].
    assert (elems (ex_dict (lit "k") (lit "v")) =
      [(SItem 1 (lit "k"), Item 2 (EntStr (lit "v")))]) as E by (vm_compute; reflexivity).
    split; [apply ex_dict_inv; vm_compute; congruence|by rewrite E|].
    rewrite E. apply Forall_singleton. split; [split; [done|]|]; vm_compute; congruence. }
  assert (svr_fresh ex_svr 2) as Hf by (split; reflexivity).
  split_and!; [exact Hd|exact Hf|].
  assert (zlen (r_file (ex_svr_with (lit "k") (lit "v"))) <= 4096) as Hr
    by (vm_compute; congruence).
  exact (kdb_save_load (disk_of 4096) (ex_svr_with (lit "k") (lit "v")) ex_svr Hd Hr Hf).
Defined.

(** The disk takes 50 of the 86 bytes, or none: the dump is answered with OK, and the
    next start exits, or has no data. *)
Example full_disk_next_start :
  let s := ex_svr_with (lit "k") (lit "v") in
  let next n := '(rt, s') ← fk_kdb_save (disk_of n) true true s; r ← fk_kdb_load (sv_kdb s') ex_svr;
    Some (rt, match r with Loaded s1 => Some (dview <$> sv_db s1) | LoadExit => None end) in
  zlen (r_file s) = 86 /\ next 50 = Some (FK_SVR_OK, None) /\ next 0 = Some (FK_SVR_OK, Some [∅; ∅]).
Proof. split_and!; vm_compute; reflexivity. Qed.

Lemma save_empty_key_fails_witness :
  let w := ex_with (ex_svr_with [] (lit "v")) [lit "SAVE"] in
  adb (abs w) 0 !! [] = Some (VStr (lit "v")) /\
  fk_kdb_save (disk_of 4096) true true (w_svr w) = Some (FK_SVR_ERR, w_svr w) /\
  wp (fk_cmd_save (disk_of 4096) true true) (rsp_post w (status_rsp FK_RSP_OK)) w.
Proof.
  set (w := ex_with (ex_svr_with [] (lit "v")) [lit "SAVE"]). cbv zeta.
  assert (adb (abs w) 0 !! [] = Some (VStr (lit "v"))) as H by (vm_compute; reflexivity).
  split; [exact H|].
  apply (save_empty_key_fails (disk_of 4096) true true w 0 (VStr (lit "v"))); [| |reflexivity|vm_compute; split; congruence|exact H].
  - apply ex_with_ok, ex_svr_with_inv; vm_compute; congruence.
  - pose proof (ex_svr_with_inv [] (lit "v") ltac:(vm_compute; congruence)
      ltac:(vm_compute; congruence)) as Hi.
    split; [exact Hi|]. repeat constructor; intros k x Hx E; subst x; revert k Hx.
    + intros k. unfold w, ex_with, ex_svr_with; cbn [w_svr sv_db sv_set_db].
      pose proof (dict_replace_db 1 [] (Item 2 (EntStr (lit "v"))) fk_dict_init fk_item_init
        ltac:(vm_compute; congruence) ltac:(vm_compute; congruence) empty_db_inv) as Hr.
      unfold ex_dict. destruct (dict_replace _ _ _ _) as [[rt d] m]. destruct Hr as (_ & Hv & _).
      cbn [fst snd]. rewrite Hv. intros [[_ Hx]|[_ Hx]]%lookup_insert_Some; [done|].
      unfold dview in Hx. by rewrite fk_dict_init_dmap, lookup_fmap, lookup_empty in Hx.
    + intros k Hx. unfold dview in Hx. by rewrite fk_dict_init_dmap, lookup_fmap, lookup_empty in Hx.
Defined.
