(* ===== verification/Blog.v ===== *)
(** Models [fk_blog_append] and [fk_blog_read_data] of src/src/fk_svr_blog.c: the
    binary log a server writes its commands to. *)
From S2P Require Import Prelude Util Buf Dict Item Conf Svr Req Parse Store.

(** ** The log file *)

(** [server.blog_buflen]. *)
Definition blog_buflen : Z := FK_ARG_HIGHWAT + FK_ARG_LEN_LINE_HIGHWAT.

(** [snprintf(blog_buf, blog_buflen, ...)] of [text], then [write(fd, blog_buf,
    plen)] with the length snprintf returns, which is that of the whole text: more
    than the buffer is read beyond its end. *)
Definition blog_write (text : bytes) : ST fk_svr unit := fun s =>
  let plen := zlen text in
  if blog_buflen <? plen then None
  else
    let cs := ztake plen (snprintf_block blog_buflen text) in
    let b := sv_blog s in
    Some (tt, sv_set_blog s (BlogFile (splice (bf_off b) cs (bf_data b)) (bf_off b + plen))).

Fixpoint blog_append_loop (n : nat) (i : Z) (v : fk_vtr sitem) : ST fk_svr unit :=
  match n with
  | O => mret tt
  | S n' =>
      match fk_vtr_get v i with
      | Some (Some a) =>
          _ ← blog_write ("$"%char :: dec (zlen (s_str a)) ++ CRLF ++ cstr (s_str a) ++ CRLF);
          blog_append_loop n' (i + 1) v
      | _ => fun _ => None
      end
  end.

Definition fk_blog_append : ST world unit := fun w =>
  let c := w_conn w in
  let m := _ ← blog_write ("*"%char :: fmt_d (c_arg_cnt c) ++ CRLF);
           blog_append_loop (Z.to_nat (c_arg_cnt c)) 0 (c_arg_vtr c) in
  match m (w_svr w) with
  | Some (_, s) => Some (tt, w_set_svr w s)
  | None => None
  end.

(** [read(fd, free_buf, free_len)] takes what is left of the file.  At the end of
    the file the answer is DONE, as it is for every short read. *)
Definition fk_blog_read_data : ST world Z := fun w =>
  let c := w_conn w in
  let b := c_rbuf c in
  let b := if 3 * Z.shiftr (blen b) 2 <? fk_buf_payload_len b then fk_buf_shift b else b in
  let b := if fk_buf_free_len b =? 0 then fk_buf_stretch b else b in
  if fk_buf_free_len b =? 0 then Some (FK_SVR_ERR, w_set_conn w (cn_rbuf c b))
  else
    let f := sv_blog (w_svr w) in
    let free_len := fk_buf_free_len b in
    let got := ztake free_len (zdrop (bf_off f) (bf_data f)) in
    let rlen := zlen got in
    let s := sv_set_blog (w_svr w) (BlogFile (bf_data f) (bf_off f + rlen)) in
    if rlen =? 0 then Some (FK_SVR_DONE, World s (cn_rbuf c b))
    else
      let b := fk_buf_high_inc (fk_buf_memcpy b got) rlen in
      Some (if rlen <? free_len then FK_SVR_DONE else FK_SVR_OK, World s (cn_rbuf c b)).

(** ** What an append writes *)

(** A text that fits is written as it is. *)
Lemma blog_write_ok text s :
  zlen text < blog_buflen -> bf_off (sv_blog s) = zlen (bf_data (sv_blog s)) ->
  blog_write text s = Some (tt, sv_set_blog s
    (BlogFile (bf_data (sv_blog s) ++ (Some <$> text)) (bf_off (sv_blog s) + zlen text))).
Proof.
  intros Hl Hoff. unfold blog_write. rewrite (proj2 (Z.ltb_ge _ _)) by lia.
  assert (ztake (zlen text) (snprintf_block blog_buflen text) = Some <$> text) as ->.
  { unfold snprintf_block. rewrite (ztake_all (blog_buflen - 1) text) by lia.
    change (map Some (text ++ [NUL])) with (Some <$> (text ++ [NUL])).
    rewrite fmap_app, <- app_assoc. apply ztake_app_l. by rewrite zlen_map. }
  do 2 f_equal. f_equal. f_equal. unfold splice. rewrite Hoff.
  rewrite ztake_all by lia. f_equal. rewrite zlen_map.
  unfold zdrop. rewrite drop_ge by (unfold zlen; lia). by rewrite app_nil_r.
Qed.

(** The state after the bytes [bs] went to the end of the log. *)
Definition logged (s : fk_svr) (bs : bytes) : fk_svr :=
  sv_set_blog s (BlogFile (bf_data (sv_blog s) ++ (Some <$> bs)) (bf_off (sv_blog s) + zlen bs)).

Lemma logged_app s a b : logged (logged s a) b = logged s (a ++ b).
Proof.
  unfold logged; cbn. rewrite fmap_app, app_assoc, zlen_app. do 2 f_equal. lia.
Qed.

Lemma logged_off s a : bf_off (sv_blog s) = zlen (bf_data (sv_blog s)) ->
  bf_off (sv_blog (logged s a)) = zlen (bf_data (sv_blog (logged s a))).
Proof. intros H. cbn. rewrite zlen_app, zlen_map. lia. Qed.

(** Arguments a log entry can hold: no NUL, and at most [blog_buflen] with the
    length line and the end of line. *)
Definition arg_loggable (a : bytes) : Prop := nul_free a /\ zlen a <= FK_ARG_HIGHWAT - 4.

Lemma encode_arg_short a : arg_loggable a -> zlen (Req.encode_arg a) < blog_buflen.
Proof.
  intros [_ Ha]. unfold Req.encode_arg, blog_buflen, FK_ARG_HIGHWAT, FK_ARG_LEN_LINE_HIGHWAT in *.
  pose proof (zlen_nonneg a). pose proof (dec_short 7 (zlen a) ltac:(lia) ltac:(lia)).
  rewrite zlen_cons, !zlen_app. change (zlen CRLF) with 2. lia.
Qed.

Lemma blog_append_loop_ok l : forall n i v s k,
  (forall j a, znth k j = Some a -> exists id, fk_vtr_get v j = Some (Some (SItem id a))) ->
  0 <= i -> zdrop i k = l -> n = length l -> Forall arg_loggable l ->
  bf_off (sv_blog s) = zlen (bf_data (sv_blog s)) ->
  blog_append_loop n i v s = Some (tt, logged s (concat (Req.encode_arg <$> l))).
Proof.
  induction l as [|a l IH]; intros n i v s k Hv Hi Hk -> Hok Hoff; cbn [length blog_append_loop].
  - cbn. unfold mret, ST_ret, logged. destruct s; cbn. rewrite app_nil_r, zlen_nil, Z.add_0_r.
    by destruct sv_blog.
  - apply Forall_cons in Hok as [Ha Hok]. destruct (zdrop_cons _ _ _ _ Hi Hk) as (Hn & Hk' & _).
    destruct (Hv i a Hn) as [id ->]. unfold mbind, ST_bind. cbn [s_str].
    rewrite cstr_nul_free by apply Ha.
    change ("$"%char :: dec (zlen a) ++ CRLF ++ a ++ CRLF) with (Req.encode_arg a).
    rewrite blog_write_ok by (by apply encode_arg_short || done).
    fold (logged s (Req.encode_arg a)).
    rewrite (IH (length l) (i + 1) v _ k); try done; [|lia|by apply logged_off].
    by rewrite logged_app.
Qed.

Lemma append_ok w l :
  args_ok (w_conn w) l -> Forall arg_loggable l ->
  bf_off (sv_blog (w_svr w)) = zlen (bf_data (sv_blog (w_svr w))) ->
  fk_blog_append w = Some (tt, w_set_svr w (logged (w_svr w) (Req.encode l))).
Proof.
  intros A Hok Hoff. unfold fk_blog_append. rewrite (ao_cnt _ _ A). unfold mbind, ST_bind.
  pose proof (zlen_nonneg l). pose proof (ao_max _ _ A) as Hmax. unfold FK_ARG_CNT_HIGHWAT in Hmax.
  assert (fmt_d (zlen l) = dec (zlen l)) as ->.
  { unfold fmt_d. by rewrite (proj2 (Z.ltb_ge _ _)) by lia. }
  pose proof (dec_short 3 (zlen l) ltac:(lia) ltac:(lia)).
  rewrite blog_write_ok; [|rewrite zlen_cons, zlen_app; change (zlen CRLF) with 2;
    unfold blog_buflen, FK_ARG_HIGHWAT, FK_ARG_LEN_LINE_HIGHWAT; lia|done].
  fold (logged (w_svr w) ("*"%char :: dec (zlen l) ++ CRLF)).
  rewrite (blog_append_loop_ok l _ 0 _ _ l); try done.
  - by rewrite logged_app, <- app_comm_cons, <- app_assoc.
  - apply A.
  - unfold zlen. lia.
  - by apply logged_off.
Qed.

(** An argument that is too long for the buffer of the log, which is as long as
    the longest argument and its length digits only. *)
Lemma append_overread w l i a :
  args_ok (w_conn w) l -> znth l i = Some a -> nul_free a -> FK_ARG_HIGHWAT - 3 < zlen a ->
  fk_blog_append w = None.
Proof.
  intros A Hi Hn Hl. unfold fk_blog_append. rewrite (ao_cnt _ _ A). unfold mbind, ST_bind.
  destruct (blog_write _ (w_svr w)) as [[[] s]|]; [|done].
  assert (forall k n j s, 0 <= j -> zdrop j l = k -> n = length k -> j <= i ->
    blog_append_loop n j (c_arg_vtr (w_conn w)) s = None) as Hloop.
  { intros k. induction k as [|b k IH]; intros n j s' Hj Hk -> Hji; cbn [length blog_append_loop].
    - apply zdrop_nil in Hk. exfalso. unfold znth, zlen in *. destruct (i <? 0) eqn:E; [done|].
      apply lookup_lt_Some in Hi. lia.
    - destruct (zdrop_cons _ _ _ _ Hj Hk) as (Hb & Hk' & _).
      destruct (ao_at _ _ A j b Hb) as [id ->]. unfold mbind, ST_bind. cbn [s_str].
      destruct (decide (j = i)) as [->|Hne].
      + assert (b = a) as -> by congruence. unfold blog_write. rewrite cstr_nul_free by done.
        pose proof (Forall_znth _ _ _ _ (ao_ok _ _ A) Hi) as Ha.
        unfold arg_ok, FK_ARG_HIGHWAT in *.
        assert (7 <= zlen (dec (zlen a))) as Hd.
        { destruct (decide (7 <= zlen (dec (zlen a)))) as [|Hs]; [done|exfalso].
          pose proof (dec_all_digits (zlen a) ltac:(lia)) as Had.
          pose proof (digits_val_bound _ Had 0 ltac:(lia)) as Hv.
          rewrite digits_val_dec in Hv by lia.
          pose proof (Z.pow_le_mono_r 10 (zlen (dec (zlen a))) 6 ltac:(lia) ltac:(lia)). lia. }
        rewrite (proj2 (Z.ltb_lt _ _)); [done|]. rewrite zlen_cons, !zlen_app.
        change (zlen CRLF) with 2. unfold blog_buflen, FK_ARG_HIGHWAT, FK_ARG_LEN_LINE_HIGHWAT. lia.
      + destruct (blog_write _ s') as [[[] s2]|]; [|done]. apply IH; [lia|done|done|lia]. }
  rewrite (Hloop l _ 0 s); try done.
  - unfold zlen. lia.
  - unfold znth in Hi. destruct (i <? 0) eqn:E; [done|lia].
Qed.

(** ** Properties *)

(** C14. A command is logged as a client would send it: the bytes appended to the
    log are the encoding of the arguments, so that the request parser accepts the
    log.  It holds for arguments without NUL that are at least 4 bytes shorter
    than the limit of an argument. *)
Theorem blog_append_encodes w l :
  args_ok (w_conn w) l -> Forall arg_loggable l ->
  bf_off (sv_blog (w_svr w)) = zlen (bf_data (sv_blog (w_svr w))) ->
  exists s, fk_blog_append w = Some (tt, w_set_svr w s) /\
    s = sv_set_blog (w_svr w) (sv_blog s) /\
    bf_data (sv_blog s) = bf_data (sv_blog (w_svr w)) ++ (Some <$> Req.encode l) /\
    bf_off (sv_blog s) = zlen (bf_data (sv_blog s)).
Proof.
  intros A Hl Hoff. exists (logged (w_svr w) (Req.encode l)).
  split_and!; [by apply append_ok|done|done|by apply logged_off].
Qed.

(** The buffer of [fk_blog_append] is too small: for an argument that a
    client may send (at most [FK_ARG_HIGHWAT] bytes) and that is longer than
    [FK_ARG_HIGHWAT - 3], the write of the log reads beyond the buffer. *)
Theorem blog_append_overread w l i a :
  args_ok (w_conn w) l -> znth l i = Some a -> nul_free a -> FK_ARG_HIGHWAT - 3 < zlen a ->
  fk_blog_append w = None.
Proof. apply append_overread. Qed.

Lemma blog_append_encodes_witness :
  let w := ex_req [lit "SET"; lit "k"; lit "v"] in
  exists s, fk_blog_append w = Some (tt, w_set_svr w s) /\ s = sv_set_blog (w_svr w) (sv_blog s) /\
    bf_data (sv_blog s) = [] ++ (Some <$> Req.encode [lit "SET"; lit "k"; lit "v"]) /\
    bf_off (sv_blog s) = zlen (bf_data (sv_blog s)).
Proof.
  refine (blog_append_encodes (ex_req [lit "SET"; lit "k"; lit "v"]) [lit "SET"; lit "k"; lit "v"] _ _ _).
  - apply ex_args_ok. reflexivity.
  - repeat constructor; try (apply nul_free_dec; reflexivity); vm_compute; congruence.
  - reflexivity.
Defined.

(** An argument of the greatest length. *)
Lemma longest_arg : exists a, nul_free a /\ zlen a = FK_ARG_HIGHWAT.
Proof.
  exists (replicate (Z.to_nat FK_ARG_HIGHWAT) "a"%char). split.
  - intros Hin. apply elem_of_replicate in Hin as [Hin _]. discriminate Hin.
  - apply zlen_replicate. unfold FK_ARG_HIGHWAT. lia.
Qed.

Lemma blog_append_overread_witness : exists a,
  args_ok (w_conn (ex_req [lit "DEL"; a])) [lit "DEL"; a] /\
  fk_blog_append (ex_req [lit "DEL"; a]) = None.
Proof.
  destruct longest_arg as (a & Hn & Hl). exists a.
  assert (args_ok (w_conn (ex_req [lit "DEL"; a])) [lit "DEL"; a]) as A.
  { apply ex_args_ok. cbn [forallb]. rewrite Hl. reflexivity. }
  split; [exact A|].
  apply (blog_append_overread (ex_req [lit "DEL"; a]) [lit "DEL"; a] 1 a);
    [exact A|reflexivity|exact Hn|]. rewrite Hl. unfold FK_ARG_HIGHWAT. lia.
Defined.
