(* ===== verification/Proto.v ===== *)
(** Models src/src/fk_svr_proto.c (the table of commands and its dictionary),
    [fk_conn_proc_cmd] of src/src/fk_svr_conn.c, and [fk_cmd_eval] and
    [fk_lua_conn_proc_cmd] of src/src/fk_svr_lua.c. *)
From S2P Require Import Prelude Util Buf Dict Item Conf Svr Req Parse Store.
From S2P Require Import CmdStr CmdHash CmdList CmdDb Kdb Blog.

Definition FK_PROTO_READ : Z := 1.
Definition FK_PROTO_WRITE : Z := 2.
Definition FK_PROTO_SCRIPT : Z := 3.

Record fk_proto := FkProto {
  p_name : bytes;
  p_type : Z;
  p_arg_cnt : Z;
  p_handler : ST world Z
}.

(** ** EVAL

    [run_script code keys argv] is what follows once the arguments are collected,
    [fk_lua_push_paras] and [fk_lua_run_script].  A script calls commands again, so
    the table of commands is defined for any [run_script] here. *)

Fixpoint get_args_loop (n : nat) (i : Z) : ST world (list bytes) :=
  match n with
  | O => mret []
  | S n' =>
      itm_arg ← fk_conn_get_arg i;
      rest ← get_args_loop n' (i + 1);
      mret (s_str itm_arg :: rest)
  end.

(** [fk_mem_calloc] of [n] pointers with an [int]: a negative number is a count
    that no memory has, and [fk_mem_panic] aborts the server. *)
Definition calloc_ptrs (n : Z) : ST world unit := fun w => if n <? 0 then None else Some (tt, w).

Section server.
Context (room : stdio) (fopen_ok rename_ok : bool).
Context (run_script : bytes -> list bytes -> list bytes -> ST world unit).

(** The addition [3 + nkey] wraps around. *)
Definition fk_cmd_eval : ST world Z :=
  itm_code ← fk_conn_get_arg 1;
  itm_nkey ← fk_conn_get_arg 2;
  if fk_str_is_nonminus (s_str itm_nkey) =? 0 then
    rt ← fk_conn_add_error_rsp FK_RSP_TYPE_ERR (zlen FK_RSP_TYPE_ERR);
    mret (ret_rsp rt)
  else
    let nkey := atoi (s_str itm_nkey) in
    cnt ← get_arg_cnt;
    if cnt <? i32 (3 + nkey) then
      rt ← fk_conn_add_error_rsp FK_RSP_ARGC_ERR (zlen FK_RSP_ARGC_ERR);
      mret (ret_rsp rt)
    else
      _ ← calloc_ptrs nkey;
      keys ← get_args_loop (Z.to_nat nkey) 3;
      let nargv := i32 (cnt - 1 - 2 - nkey) in
      _ ← calloc_ptrs nargv;
      argv ← get_args_loop (Z.to_nat nargv) (i32 (3 + nkey));
      _ ← run_script (s_str itm_code) keys argv;
      mret FK_SVR_OK.

(** ** The table *)

Definition protos : list fk_proto := [
  FkProto (lit "SET") FK_PROTO_WRITE 3 fk_cmd_set;
  FkProto (lit "SETNX") FK_PROTO_WRITE 3 fk_cmd_setnx;
  FkProto (lit "SETEX") FK_PROTO_WRITE 4 fk_cmd_setex;
  FkProto (lit "MSET") FK_PROTO_WRITE (-3) fk_cmd_mset;
  FkProto (lit "MGET") FK_PROTO_READ (-2) fk_cmd_mget;
  FkProto (lit "GET") FK_PROTO_READ 2 fk_cmd_get;
  FkProto (lit "DEL") FK_PROTO_WRITE (-2) fk_cmd_del;
  FkProto (lit "FLUSHDB") FK_PROTO_WRITE 1 fk_cmd_flushdb;
  FkProto (lit "EXISTS") FK_PROTO_READ 2 fk_cmd_exists;
  FkProto (lit "FLUSHALL") FK_PROTO_WRITE 1 fk_cmd_flushall;
  FkProto (lit "HSET") FK_PROTO_WRITE 4 fk_cmd_hset;
  FkProto (lit "HGET") FK_PROTO_READ 3 fk_cmd_hget;
  FkProto (lit "LPUSH") FK_PROTO_WRITE (-3) fk_cmd_lpush;
  FkProto (lit "RPUSH") FK_PROTO_WRITE (-3) fk_cmd_rpush;
  FkProto (lit "LPOP") FK_PROTO_WRITE 2 fk_cmd_lpop;
  FkProto (lit "RPOP") FK_PROTO_WRITE 2 fk_cmd_rpop;
  FkProto (lit "LLEN") FK_PROTO_READ 2 fk_cmd_llen;
  FkProto (lit "SAVE") FK_PROTO_READ 1 (fk_cmd_save room fopen_ok rename_ok);
  FkProto (lit "SELECT") FK_PROTO_WRITE 2 fk_cmd_select;
  FkProto (lit "EVAL") FK_PROTO_SCRIPT (-3) fk_cmd_eval;
  FkProto (lit "ZADD") FK_PROTO_WRITE (-4) fk_cmd_zadd
  ].

(** [proto_dict_eop]: keys and values are stored as they are. *)
Definition proto_dict_eop : fk_elt_op unit bytes fk_proto :=
  EltOp fk_str_hash fk_str_cmp None None None None.

Definition fk_proto_init : fk_dict bytes fk_proto :=
  fold_left (fun d p =>
    let key := fk_str_create (p_name p) (zlen (p_name p)) in
    let '(_, d, _) := fk_dict_add proto_dict_eop d key p tt in d)
    protos fk_dict_create.

Definition fk_proto_search (name : bytes) : option fk_proto :=
  fk_dict_get proto_dict_eop fk_proto_init name.

(** ** Processing a request *)

(** [fk_str_2upper(cmd)] changes the string item in place. *)
Definition upper_arg0 : ST world bytes := fun w =>
  let c := w_conn w in
  match fk_vtr_get (c_arg_vtr c) 0 with
  | Some (Some a) =>
      let name := fk_str_2upper (s_str a) in
      match fk_vtr_set (c_arg_vtr c) 0 (Some (SItem (s_id a) name)) with
      | Some v => Some (name, w_set_conn w (cn_arg_vtr c v))
      | None => None
      end
  | _ => None
  end.

Definition INVALID_PROTOCOL : bytes := lit "Invalid Protocol".
Definition WRONG_ARGC : bytes := lit "Wrong Argument Number".

Definition fk_conn_proc_cmd : ST world Z :=
  done ← st_gets (fun w => c_parse_done (w_conn w));
  if done =? 0 then mret FK_SVR_OK
  else
    cmd ← upper_arg0;
    match fk_proto_search cmd with
    | None =>
        _ ← fk_conn_free_args;
        rt ← fk_conn_add_error_rsp INVALID_PROTOCOL (zlen INVALID_PROTOCOL);
        mret (ret_rsp rt)
    | Some pto =>
        cnt ← get_arg_cnt;
        if ((p_arg_cnt pto <? 0) && (cnt <? - p_arg_cnt pto))
           || ((0 <=? p_arg_cnt pto) && negb (p_arg_cnt pto =? cnt)) then
          _ ← fk_conn_free_args;
          rt ← fk_conn_add_error_rsp WRONG_ARGC (zlen WRONG_ARGC);
          mret (ret_rsp rt)
        else
          rt ← p_handler pto;
          if rt =? FK_SVR_ERR then
            _ ← fk_conn_free_args;
            mret FK_SVR_ERR
          else
            log ← st_gets (fun w =>
                    (cf_blog_on (sv_setting (w_svr w)) =? 1) &&
                    negb (p_type pto =? FK_PROTO_READ) &&
                    (c_type (w_conn w) =? FK_CONN_REAL));
            _ ← (if (log : bool) then fk_blog_append else mret tt);
            _ ← fk_conn_free_args;
            mret FK_SVR_OK
    end.

(** The same steps for a command of a script; the answer of a reply function is
    not looked at. *)
Definition CMD_FAILED : bytes := lit "cmd handler failed".

Definition fk_lua_conn_proc_cmd : ST world Z :=
  cmd ← upper_arg0;
  match fk_proto_search cmd with
  | None =>
      _ ← fk_conn_free_args;
      _ ← fk_conn_add_error_rsp INVALID_PROTOCOL (zlen INVALID_PROTOCOL);
      mret 0
  | Some pto =>
      cnt ← get_arg_cnt;
      if ((p_arg_cnt pto <? 0) && (cnt <? - p_arg_cnt pto))
         || ((0 <? p_arg_cnt pto) && negb (p_arg_cnt pto =? cnt)) then
        _ ← fk_conn_free_args;
        _ ← fk_conn_add_error_rsp WRONG_ARGC (zlen WRONG_ARGC);
        mret 0
      else
        rt ← p_handler pto;
        if rt =? FK_SVR_ERR then
          _ ← fk_conn_free_args;
          _ ← fk_conn_add_error_rsp CMD_FAILED (zlen CMD_FAILED);
          mret 0
        else
          _ ← fk_conn_free_args;
          mret 0
  end.
End server.
