(* ===== verification/ProtoProps.v ===== *)
(** Properties of the command table and of [fk_conn_proc_cmd]: the dictionary finds
    what the table lists, and processing a request does what [exec] says. *)
From S2P Require Import Prelude Util Buf Dict Item Conf Svr Req Parse Store.
From S2P Require Import CmdStr CmdHash CmdList CmdDb Kdb KdbProps Blog Proto.

(** ** The table *)

#[export] Instance proto_dict_key : DictKey proto_dict_eop (fun s : bytes => s) str_ok.
Proof.
  split; cbn; intros.
  - by apply fk_str_cmp_eq0.
  - by subst.
  - apply fk_str_hash_range.
  - done.
  - done.
Qed.

Fixpoint find_proto (name : bytes) (l : list fk_proto) : option fk_proto :=
  match l with
  | [] => None
  | p :: l' => if bool_decide (p_name p = name) then Some p else find_proto name l'
  end.

Lemma find_proto_Some name l p : find_proto name l = Some p -> p ∈ l /\ p_name p = name.
Proof.
  induction l as [|q l IH]; cbn; [done|]. destruct (bool_decide _) eqn:E.
  - intros [= ->]. apply bool_decide_eq_true in E. split; [apply list_elem_of_here|done].
  - intros H. destruct (IH H). split; [by apply list_elem_of_further|done].
Qed.

Lemma find_proto_None name l : name ∉ p_name <$> l -> find_proto name l = None.
Proof.
  induction l as [|q l IH]; cbn; [done|]. rewrite not_elem_of_cons. intros [Hn Hl].
  rewrite bool_decide_eq_false_2 by congruence. by apply IH.
Qed.

Abbreviation pdm := (dmap (fun s : bytes => s)).
Abbreviation pwf := (dict_wf proto_dict_eop (fun s : bytes => s) str_ok).

Lemma proto_fold l : forall d,
  pwf d -> Forall (fun p => str_ok (p_name p)) l -> NoDup (p_name <$> l) ->
  (forall p, p ∈ l -> pdm d !! p_name p = None) ->
  let d' := fold_left (fun d p =>
      let key := fk_str_create (p_name p) (zlen (p_name p)) in
      let '(_, d, _) := fk_dict_add proto_dict_eop d key p tt in d) l d in
  pwf d' /\ forall n, pdm d' !! n = match find_proto n l with Some p => Some p | None => pdm d !! n end.
Proof.
  induction l as [|p l IH]; intros d Hw Hok Hnd Hnew; cbn [fold_left find_proto]; [done|].
  apply Forall_cons in Hok as [Hp Hok]. cbn in Hnd. apply NoDup_cons in Hnd as [Hn Hnd]. cbv zeta.
  assert (fk_str_create (p_name p) (zlen (p_name p)) = p_name p) as ->
    by (unfold fk_str_create; by rewrite ztake_all by lia).
  pose proof (fk_dict_add_spec proto_dict_eop (fun s : bytes => s) str_ok d (p_name p) p tt Hw Hp) as Ha.
  destruct (fk_dict_add _ _ _ _ _) as [[rt d1] u]. destruct Ha as [Hw1 Ha].
  rewrite (Hnew p (list_elem_of_here _ _)) in Ha. destruct Ha as (_ & Hm & _).
  destruct (IH d1 Hw1 Hok Hnd) as [Hw' Hl].
  { intros q Hq. rewrite Hm, lookup_insert_ne; [apply Hnew; by apply list_elem_of_further|].
    intros E. apply Hn. rewrite E. apply list_elem_of_fmap_2. done. }
  split; [done|]. intros n. rewrite Hl, Hm. destruct (bool_decide (p_name p = n)) eqn:E.
  - apply bool_decide_eq_true in E as <-. rewrite find_proto_None by done.
    by rewrite lookup_insert_eq.
  - apply bool_decide_eq_false in E. destruct (find_proto n l); [done|]. by rewrite lookup_insert_ne.
Qed.

Definition named (name : bytes) (s : string) : bool := bool_decide (name = lit s).

(** Evaluate the tests of a name of the table. *)
Ltac named_eval H :=
  repeat match type of H with
  | context [named (lit ?a) ?b] =>
      let v := eval vm_compute in (named (lit a) b) in change (named (lit a) b) with v in H
  end; cbv iota in H.
Ltac named_eval_goal :=
  repeat match goal with
  | |- context [named (lit ?a) ?b] =>
      let v := eval vm_compute in (named (lit a) b) in change (named (lit a) b) with v
  end; cbv iota.

(** Take a request of a fixed length apart. *)
Ltac fixed_arity l H :=
  destruct l as [|? [|? [|? [|? [|? l]]]]]; try done;
  try (rewrite ?zlen_cons, ?zlen_nil in *; lia).

Section server.
Context (room : stdio) (fopen_ok rename_ok : bool).
Context (run_script : bytes -> list bytes -> list bytes -> ST world unit).
Abbreviation protos := (protos room fopen_ok rename_ok run_script).
Abbreviation search := (fk_proto_search room fopen_ok rename_ok run_script).

Lemma search_find name : str_ok name -> search name = find_proto name protos.
Proof.
  intros Hn. destruct (proto_fold protos fk_dict_create) as [Hw Hl].
  - apply fk_dict_init_wf.
  - repeat (apply Forall_cons; split; [vm_compute; reflexivity|]). constructor.
  - refine (proj1 (bool_decide_eq_true _) _). vm_compute. reflexivity.
  - intros p _. by rewrite fk_dict_init_dmap.
  - unfold fk_proto_search. rewrite (fk_dict_get_spec proto_dict_eop (fun s : bytes => s) str_ok);
      [|exact Hw|done].
    unfold fk_proto_init. rewrite Hl. destruct (find_proto name protos); [done|].
    by rewrite fk_dict_init_dmap.
Qed.

(** ** What a command does *)

(** The reply and the store after the command [name] with the arguments [l] (its
    own name first).  SAVE, EVAL and ZADD are not described here. *)
Definition exec (now : nat -> Z) (dbcnt : Z) (name : bytes) (l : list bytes) (a : astate) :
    option (list cell * (Z -> astate -> Prop)) :=
  let ok a' := Some (status_rsp FK_RSP_OK, to a') in
  let both p := Some (fst p, to (snd p)) in
  match l with
  | [_] =>
      if named name "FLUSHDB" then ok (DbSpec.flushdb a)
      else if named name "FLUSHALL" then ok (DbSpec.flushall a)
      else None
  | [_; k] =>
      if named name "GET" then both (Spec.get now k a)
      else if named name "EXISTS" then
        Some (int_rsp (if decide (is_Some (cur_db a !! k)) then 1 else 0), to a)
      else if named name "LPOP" then
        Some ((ListSpec.pop 0 k a).1, to_ok (ListSpec.pop 0 k a).2 (fun a' => a' = a))
      else if named name "RPOP" then
        Some ((ListSpec.pop 1 k a).1, to_ok (ListSpec.pop 1 k a).2 (fun a' => a' = a))
      else if named name "LLEN" then Some (ListSpec.llen k a, to a)
      else if named name "SELECT" then
        if decide (0 <= atoi k < dbcnt) then ok (put_idx (atoi k) a)
        else Some (error_rsp FK_RSP_ERR, to a)
      else None
  | [_; k; v] =>
      if named name "SET" then ok (Spec.set k v a)
      else if named name "SETNX" then
        match cur_db a !! k with
        | Some _ => Some (int_rsp 0, to a)
        | None => Some (int_rsp 1, to (Spec.set k v a))
        end
      else if named name "HGET" then Some (HashSpec.hget k v a, to a)
      else None
  | [_; k; x; v] =>
      if named name "SETEX" then ok (Spec.setex now k v (atol x) a)
      else if named name "HSET" then both (HashSpec.hset k x v a)
      else None
  | _ => None
  end.

(** The commands with any number of arguments. *)
Definition exec_var (now : nat -> Z) (name : bytes) (l : list bytes) (a : astate) :
    option (list cell * (Z -> astate -> Prop)) :=
  match l with
  | [] => None
  | _ :: l =>
      if named name "MSET" then
        if Nat.even (length l) then Some (status_rsp FK_RSP_OK, to (Spec.mset l a))
        else Some (error_rsp FK_RSP_ARGC_ERR, to a)
      else if named name "MGET" then
        Some (mbulk_rsp (zlen l) ++ (Spec.mget now l a).1,
              to_ok (Spec.mget now l a).2 (Spec.mget_part now l a))
      else if named name "DEL" then Some (int_rsp (DbSpec.del l a).1, to (DbSpec.del l a).2)
      else
        match l with
        | [] => None
        | k :: vs =>
            if named name "LPUSH" then
              Some ((ListSpec.push 0 k vs a).1, to (ListSpec.push 0 k vs a).2)
            else if named name "RPUSH" then
              Some ((ListSpec.push 1 k vs a).1, to (ListSpec.push 1 k vs a).2)
            else None
        end
  end.

Definition exec_any (now : nat -> Z) (dbcnt : Z) (name : bytes) (l : list bytes) (a : astate) :=
  match exec_var now name l a with Some r => Some r | None => exec now dbcnt name l a end.

(** The handler of a command of the table meets the description. *)
Definition arity_ok (n cnt : Z) : Prop := (n < 0 -> - n <= cnt) /\ (0 <= n -> n = cnt).

Lemma handler_ok w l p s A :
  world_ok w -> args_ok (w_conn w) l -> p ∈ protos -> arity_ok (p_arg_cnt p) (zlen l) ->
  exec_any (fun n => fk_util_tv2millis (sv_clock (w_svr w) n)) (sv_dbcnt (w_svr w)) (p_name p) l (abs w)
    = Some (s, A) ->
  wp (p_handler p) (handled w A s) w.
Proof.
  intros W Ha Hp [Hneg Hpos] Hex. unfold exec_any, exec_var, exec in Hex.
  unfold Proto.protos in Hp.
  repeat (apply elem_of_cons in Hp as [->|Hp]); [..|by apply not_elem_of_nil in Hp];
    cbn [p_name p_handler p_arg_cnt] in *; named_eval Hex; rewrite ?zlen_cons in *;
    lazymatch goal with
    | |- wp fk_cmd_mset _ _ => destruct l as [|c l]; [done|]
    | |- wp fk_cmd_mget _ _ => destruct l as [|c l]; [done|]
    | |- wp fk_cmd_del _ _ => destruct l as [|c l]; [done|]
    | |- wp fk_cmd_lpush _ _ => destruct l as [|c [|k l]]; [done|done|]
    | |- wp fk_cmd_rpush _ _ => destruct l as [|c [|k l]]; [done|done|]
    | _ => fixed_arity l Hex
    end.
  - injection Hex as <- <-. by eapply set_ok.
  - pose proof (setnx_ok w W _ _ _ _ Ha eq_refl) as H.
    destruct (cur_db (abs w) !! _); by injection Hex as <- <-.
  - injection Hex as <- <-. by eapply setex_ok.
  - pose proof (mset_ok w W _ _ _ Ha eq_refl) as H. destruct (Nat.even (length l)); by injection Hex as <- <-.
  - injection Hex as <- <-. by eapply mget_ok.
  - injection Hex as <- <-. by eapply get_ok.
  - injection Hex as <- <-. by eapply del_ok.
  - injection Hex as <- <-. by eapply flushdb_ok.
  - injection Hex as <- <-. by eapply exists_ok.
  - injection Hex as <- <-. by eapply flushall_ok.
  - injection Hex as <- <-. by eapply hset_ok.
  - injection Hex as <- <-. by eapply hget_ok.
  - injection Hex as <- <-. by eapply push_ok.
  - injection Hex as <- <-. by eapply push_ok.
  - injection Hex as <- <-. by eapply pop_ok.
  - injection Hex as <- <-. by eapply pop_ok.
  - injection Hex as <- <-. by eapply llen_ok.
  - pose proof (select_ok w W _ _ _ Ha eq_refl) as H.
    destruct (decide _); by injection Hex as <- <-.
Qed.
End server.

(** ** Freeing the arguments *)

Lemma fk_vtr_get_bound {A} (v : fk_vtr A) i x : fk_vtr_get v i = Some x -> 0 <= i < fk_vtr_len v.
Proof.
  unfold fk_vtr_get, fk_vtr_len, znth, zlen. destruct (i <? 0) eqn:E; [done|].
  intros H%lookup_lt_Some. lia.
Qed.

Lemma free_args_loop_ok n : forall i v m,
  0 <= i -> i + Z.of_nat n <= fk_vtr_len v -> exists v' m', free_args_loop n i v m = Some (v', m').
Proof.
  induction n as [|n IH]; intros i v m Hi Hn; cbn [free_args_loop]; [by eexists _, _|].
  destruct (znth_is_Some (v_array v) i) as [o Ho]; [unfold fk_vtr_len in *; lia|].
  unfold fk_vtr_get. rewrite Ho. destruct o as [a|]; [|apply IH; lia].
  destruct (fk_vtr_set v i None) as [v1|] eqn:E.
  - destruct (fk_vtr_get_set _ _ _ _ E) as [_ Hl]. apply IH; [lia|]. rewrite Hl. lia.
  - exfalso. unfold fk_vtr_set in E. destruct (_ && _) eqn:E2; [done|]. bool_lia.
Qed.

(** The connection after [fk_conn_free_args]: it waits for the next request. *)
Definition idle_conn (c : fk_conn) (v : fk_vtr sitem) : fk_conn :=
  cn_arg_vtr (cn_arg_cnt (cn_parse_done (cn_arg_parsed (cn_cur_arglen c (-1)) 0) 0) 0) v.
Definition freed (w w' : world) : Prop :=
  exists v m, w' = World (sv_set_items (w_svr w) m) (idle_conn (w_conn w) v) /\
    v_init_len v = v_init_len (c_arg_vtr (w_conn w)).

Lemma free_args_loop_init n : forall i v m v' m',
  free_args_loop n i v m = Some (v', m') -> v_init_len v' = v_init_len v.
Proof.
  induction n as [|n IH]; intros i v m v' m'; cbn [free_args_loop]; [by intros [= -> _]|].
  destruct (fk_vtr_get v i) as [[a|]|]; [|by apply IH|done].
  unfold fk_vtr_set. destruct (_ && _); [|done]. intros H%IH. done.
Qed.

Lemma args_vtr_len c l : args_ok c l -> c_arg_cnt c <= fk_vtr_len (c_arg_vtr c).
Proof.
  intros A. rewrite (ao_cnt _ _ A). destruct (decide (zlen l <= 0)) as [Hl|Hl].
  - unfold fk_vtr_len. pose proof (zlen_nonneg (v_array (c_arg_vtr c))). lia.
  - destruct (znth_is_Some l (zlen l - 1)) as [a Ha]; [lia|].
    destruct (ao_at _ _ A _ _ Ha) as [id Hid]. apply fk_vtr_get_bound in Hid. lia.
Qed.

Lemma wp_free_args w l {B} (k : unit -> ST world B) Q :
  args_ok (w_conn w) l -> (forall w', freed w w' -> wp (k tt) Q w') ->
  wp (u ← fk_conn_free_args; k u) Q w.
Proof.
  intros A Hk. destruct (free_args_loop_ok (Z.to_nat (c_arg_cnt (w_conn w))) 0
    (c_arg_vtr (w_conn w)) (sv_items (w_svr w))) as (v & m & E); [lia| |].
  { pose proof (args_vtr_len _ _ A). rewrite (ao_cnt _ _ A) in *. pose proof (zlen_nonneg l). lia. }
  eapply wp_step; [unfold fk_conn_free_args; by rewrite E|]. apply Hk. exists (fk_vtr_shrink v), m.
  split; [done|]. apply free_args_loop_init in E. rewrite <- E. unfold fk_vtr_shrink. by case_match.
Qed.

Lemma freed_world_ok w w' : world_ok w -> freed w w' -> world_ok w'.
Proof. intros [[] ? ?] (v & m & -> & _). by split. Qed.

Lemma freed_abs w w' : freed w w' -> abs w' = abs w.
Proof. by intros (v & m & -> & _). Qed.

(** ** The name of the command *)

Lemma fk_str_2upper_len s : zlen (fk_str_2upper s) = zlen s.
Proof. apply zlen_map. Qed.

(** The request [name :: l] with its name in capitals. *)
Lemma upper_arg0_ok w name l : args_ok (w_conn w) (name :: l) ->
  exists v, let w' := w_set_conn w (cn_arg_vtr (w_conn w) v) in
    upper_arg0 w = Some (fk_str_2upper name, w') /\
    v_init_len v = v_init_len (c_arg_vtr (w_conn w)) /\ fk_vtr_len v = fk_vtr_len (c_arg_vtr (w_conn w)) /\
    args_ok (w_conn w') (fk_str_2upper name :: l).
Proof.
  intros A. destruct (ao_at _ _ A 0 name eq_refl) as [id Hid].
  destruct (fk_vtr_set (c_arg_vtr (w_conn w)) 0 (Some (SItem id (fk_str_2upper name)))) as [v|] eqn:E.
  - exists v. unfold upper_arg0. rewrite Hid. cbn [s_str s_id]. rewrite E.
    destruct (fk_vtr_get_set _ _ _ _ E) as [Hg Hl]. split; [done|]. split; [by eapply fk_vtr_set_init|]. split; [done|].
    destruct A as [Hat Hcnt Hok Hmax]. apply Forall_cons in Hok as [Hn Hok]. split.
    + intros i a Ha. destruct (decide (i = 0)) as [->|Hi].
      * injection Ha as <-. by exists id.
      * rewrite (fk_vtr_get_set_ne _ _ _ _ _ E) by done. apply Hat.
        destruct (decide (0 < i)); [by rewrite znth_cons in * by done|].
        unfold znth in *. by destruct (i <? 0) eqn:?; [|bool_lia].
    + cbn [w_conn w_set_conn c_arg_cnt cn_arg_vtr]. by rewrite Hcnt, !zlen_cons.
    + constructor; [|done]. unfold arg_ok in *. by rewrite fk_str_2upper_len.
    + by rewrite zlen_cons in *.
  - exfalso. apply fk_vtr_get_bound in Hid. unfold fk_vtr_set in E.
    destruct (_ && _) eqn:E2; [done|]. bool_lia.
Qed.

Lemma wp_upper_arg0 w name l {B} (k : bytes -> ST world B) Q :
  args_ok (w_conn w) (name :: l) ->
  (forall v, let w' := w_set_conn w (cn_arg_vtr (w_conn w) v) in
    v_init_len v = v_init_len (c_arg_vtr (w_conn w)) ->
    args_ok (w_conn w') (fk_str_2upper name :: l) -> wp (k (fk_str_2upper name)) Q w') ->
  wp (u ← upper_arg0; k u) Q w.
Proof.
  intros A Hk. destruct (upper_arg0_ok w name l A) as (v & E & Hi & _ & A').
  eapply wp_step; [exact E|]. by apply Hk.
Qed.

(** ** Processing a request *)

Section process.
Context (room : stdio) (fopen_ok rename_ok : bool).
Context (run_script : bytes -> list bytes -> list bytes -> ST world unit).
Abbreviation protos := (protos room fopen_ok rename_ok run_script).
Abbreviation exec_any := (exec_any).
Abbreviation proc_cmd := (fk_conn_proc_cmd room fopen_ok rename_ok run_script).

Definition wrong_arity (n cnt : Z) : bool :=
  ((n <? 0) && (cnt <? - n)) || ((0 <=? n) && negb (n =? cnt)).

(** The answer to the request [name :: l]: reply, store, and whether the request
    goes to the log. *)
Definition request (now : nat -> Z) (dbcnt : Z) (name : bytes) (l : list bytes) (a : astate) :
    option (list cell * (Z -> astate -> Prop) * bool) :=
  let cmd := fk_str_2upper name in
  match find_proto cmd protos with
  | None => Some (error_rsp INVALID_PROTOCOL, to a, false)
  | Some p =>
      if wrong_arity (p_arg_cnt p) (zlen (cmd :: l)) then Some (error_rsp WRONG_ARGC, to a, false)
      else
        match exec_any now dbcnt cmd (cmd :: l) a with
        | Some (s, A) => Some (s, A, negb (p_type p =? FK_PROTO_READ))
        | None => None
        end
  end.

(** The clock of the server in milliseconds. *)
Definition millis (w : world) (n : nat) : Z := fk_util_tv2millis (sv_clock (w_svr w) n).

(** The server logs, and the connection is not the one that replays the log. *)
Definition logging (w : world) : bool :=
  (cf_blog_on (sv_setting (w_svr w)) =? 1) && (c_type (w_conn w) =? FK_CONN_REAL).

Definition log_ready (w : world) (l : list bytes) : Prop :=
  Forall arg_loggable l /\ bf_off (sv_blog (w_svr w)) = zlen (bf_data (sv_blog (w_svr w))).

Record processed (w : world) (A : Z -> astate -> Prop) (s : list cell) (log : bytes)
    (rt : Z) (w' : world) : Prop := {
  pr_ok : world_ok w';
  pr_rsp : answered (c_wbuf (w_conn w)) (c_wbuf (w_conn w')) rt s;
  pr_abs : A rt (abs w');
  pr_conn : exists v, w_conn w' =
    idle_conn (cn_db_idx (cn_wbuf (w_conn w) (c_wbuf (w_conn w'))) (c_db_idx (w_conn w'))) v /\
    v_init_len v = v_init_len (c_arg_vtr (w_conn w));
  pr_svr : svr_frame (w_svr w) (sv_set_blog (w_svr w') (sv_blog (w_svr w)));
  pr_log : sv_blog (w_svr w') = sv_blog (logged (w_svr w) (if rt =? FK_SVR_OK then log else []))
  }.

Lemma logged_nil s : sv_blog (logged s []) = sv_blog s.
Proof. cbn. rewrite app_nil_r. change (zlen []) with 0. rewrite Z.add_0_r. by destruct (sv_blog s). Qed.

Lemma svr_frame_blog s s' : svr_frame s s' -> sv_blog s' = sv_blog s.
Proof. by intros ->. Qed.

(** An error reply after the arguments were freed. *)
Lemma wp_refuse_k w l msg (k : Z -> ST world Z) Q :
  world_ok w -> args_ok (w_conn w) l ->
  forallb (fun c => negb (Ascii.eqb c NUL)) msg && (zlen msg <=? 2 ^ 20) = true ->
  (forall rt w', ret_rsp rt = rt -> processed w (to (abs w)) (error_rsp msg) [] rt w' -> wp (k rt) Q w') ->
  wp (_ ← fk_conn_free_args; rt ← fk_conn_add_error_rsp msg (zlen msg); k rt) Q w.
Proof.
  intros W A Hm Hk. apply (wp_free_args _ _ _ _ A). intros w1 F.
  pose proof (freed_world_ok _ _ W F) as W1. pose proof (freed_abs _ _ F) as HA.
  destruct F as (v & m & -> & Hv). eapply wp_seq; [by apply wp_error_const|].
  intros rt w2 (b & -> & Hb). apply Hk; [by eapply answered_ret|].
  split; cbn [w_conn w_svr w_set_conn cn_wbuf c_wbuf].
  - apply world_ok_wbuf; [done|apply Hb].
  - exact Hb.
  - exact HA.
  - exists v. split; [by destruct w as [? []]|exact Hv].
  - destruct w as [[] ?]. done.
  - by destruct (rt =? FK_SVR_OK); rewrite logged_nil.
Qed.

(** The error replies of [fk_conn_proc_cmd]. *)
Lemma wp_refuse w l msg :
  world_ok w -> args_ok (w_conn w) l ->
  forallb (fun c => negb (Ascii.eqb c NUL)) msg && (zlen msg <=? 2 ^ 20) = true ->
  wp (_ ← fk_conn_free_args; rt ← fk_conn_add_error_rsp msg (zlen msg); mret (ret_rsp rt))
    (processed w (to (abs w)) (error_rsp msg) []) w.
Proof.
  intros W A Hm. apply (wp_refuse_k _ _ _ _ _ W A Hm). intros rt w' E H. apply wp_ret. by rewrite E.
Qed.

(** The handler's part: what it did is what remains when the arguments are gone. *)
Lemma handled_processed w v w1 w2 A s rt log :
  v_init_len v = v_init_len (c_arg_vtr (w_conn w)) ->
  handled (w_set_conn w (cn_arg_vtr (w_conn w) v)) A s rt w1 ->
  freed (w_set_svr w1 (logged (w_svr w1) (if rt =? FK_SVR_OK then log else []))) w2 ->
  processed w A s log rt w2.
Proof.
  intros Hv [O F C R HA] (v2 & m & -> & Hv2). cbn in R. pose proof (svr_frame_blog _ _ F) as Hbl. cbn in Hbl.
  split; cbn [w_conn w_svr w_set_conn w_set_svr idle_conn].
  - destruct O as [[] ? ?]. by split.
  - exact R.
  - exact HA.
  - exists v2. rewrite C. split; [by destruct (w_conn w)|]. cbn in Hv2. rewrite Hv2, C. exact Hv.
  - cbn in F. rewrite F. by destruct (w_svr w).
  - cbn. by rewrite Hbl.
Qed.

Lemma wp_log w l b {B} (k : unit -> ST world B) Q :
  args_ok (w_conn w) l -> (b = true -> log_ready w l) ->
  wp (k tt) Q (w_set_svr w (logged (w_svr w) (if b then Req.encode l else []))) ->
  wp (u ← (if b then fk_blog_append else mret tt); k u) Q w.
Proof.
  intros A Hl Hk. destruct b.
  - destruct (Hl eq_refl). eapply wp_step; [by apply append_ok|done].
  - eapply wp_step; [reflexivity|]. unfold logged in Hk. cbn in Hk. rewrite app_nil_r in Hk.
    destruct w as [[] ?]. cbn in *. rewrite Z.add_0_r in Hk. by destruct sv_blog.
Qed.

(** What is logged after a command that was carried out; after one that was not, nothing. *)
Lemma log_condition w A s rt w1 p : handled w A s rt w1 ->
  (cf_blog_on (sv_setting (w_svr w1)) =? 1) && negb (p_type p =? FK_PROTO_READ) && (c_type (w_conn w1) =? FK_CONN_REAL) =
  negb (p_type p =? FK_PROTO_READ) && logging w.
Proof.
  intros H. unfold logging. rewrite (hd_conn _ _ _ _ _ H), (hd_frame _ _ _ _ _ H). cbn.
  by destruct (_ =? 1), (negb _), (_ =? FK_CONN_REAL).
Qed.

Lemma logged_none s : logged s [] = s.
Proof. unfold logged. cbn. rewrite app_nil_r. change (zlen []) with 0. rewrite Z.add_0_r. destruct s; cbn. by destruct sv_blog. Qed.

Lemma proc_cmd_ok w name l s A b :
  world_ok w -> args_ok (w_conn w) (name :: l) -> c_parse_done (w_conn w) = 1 ->
  request (millis w) (sv_dbcnt (w_svr w)) name l (abs w) = Some (s, A, b) ->
  (b && logging w = true -> log_ready w (fk_str_2upper name :: l)) ->
  let log := if b && logging w then Req.encode (fk_str_2upper name :: l) else [] in
  wp proc_cmd (processed w A s log) w.
Proof.
  intros W Ha Hd Hreq Hlog log. unfold fk_conn_proc_cmd. eapply wp_step; [reflexivity|].
  rewrite Hd. cbn [Z.eqb]. apply (wp_upper_arg0 _ _ _ _ _ Ha). intros v w0 Hv0 Ha0.
  assert (world_ok w0) as W0 by (by destruct W as [[] ? ?]; split).
  unfold request in Hreq. set (cmd := fk_str_2upper name) in *.
  assert (str_ok cmd) as Hcmd.
  { pose proof (ao_ok _ _ Ha0) as Hok. apply Forall_cons in Hok as [Hok _].
    by apply (arg_ok_key 0 cmd) in Hok. }
  assert (forall s A log rt w', processed w0 A s log rt w' -> processed w A s log rt w') as Hw0.
  { intros ????? [? ? ? (v' & Hv' & Hi') ? ?]. split; try done. exists v'. split; [by rewrite Hv'|].
    by rewrite Hi'. }
  rewrite search_find by done. destruct (find_proto cmd protos) as [p|] eqn:Hp.
  2: { injection Hreq as <- <- <-. eapply wp_mono; [eapply (wp_refuse w0); [done|exact Ha0|done]|].
       apply Hw0. }
  apply find_proto_Some in Hp as [Hin Hname]. apply (wp_get_cnt _ _ _ _ Ha0).
  fold (wrong_arity (p_arg_cnt p) (zlen (cmd :: l))).
  destruct (wrong_arity _ _) eqn:Har.
  { injection Hreq as <- <- <-. eapply wp_mono; [eapply (wp_refuse w0); [done|exact Ha0|done]|].
    apply Hw0. }
  destruct (exec_any _ _ _ _ _) as [[s' A']|] eqn:Hex; [|done]. injection Hreq as <- <- <-.
  eapply wp_seq.
  { eapply handler_ok; [exact W0|exact Ha0|exact Hin| |rewrite Hname; exact Hex].
    unfold wrong_arity, arity_ok in *. split; intros; bool_lia. }
  intros rt w1 H. pose proof (handled_args _ _ _ _ _ _ H Ha0) as Ha1.
  destruct (handled_codes _ _ _ _ _ H) as [->| ->]; cbn [Z.eqb FK_SVR_OK FK_SVR_ERR Pos.eqb].
  - eapply wp_step; [reflexivity|].
    rewrite (log_condition _ _ _ _ _ p H).
    eapply (wp_log _ _ _ _ _ Ha1).
    { intros Hb. destruct (Hlog Hb) as [? ?]. split; [done|].
      by rewrite (svr_frame_blog _ _ (hd_frame _ _ _ _ _ H)). }
    eapply (wp_free_args _ (cmd :: l)); [exact Ha1|]. intros w2 F. apply wp_ret.
    eapply handled_processed; [exact Hv0|exact H|]. exact F.
  - eapply (wp_free_args _ _ _ _ Ha1). intros w2 F. apply wp_ret.
    eapply handled_processed; [exact Hv0|exact H|]. rewrite logged_none. by destruct w1.
Qed.
End process.

(** ** EVAL *)

Lemma get_args_loop_ok l w : args_ok (w_conn w) l -> forall n i,
  0 <= i -> i + Z.of_nat n <= zlen l ->
  get_args_loop n i w = Some (take n (zdrop i l), w).
Proof.
  intros A. induction n as [|n IH]; intros i Hi Hn; cbn [get_args_loop take]; [done|].
  destruct (znth_is_Some l i ltac:(lia)) as [a Ha].
  destruct (get_arg_ok w l A i a Ha) as (id & E & _).
  unfold mbind, ST_bind. rewrite E, IH by lia. unfold mret, ST_ret. cbn [s_str].
  destruct (zdrop i l) as [|b k] eqn:Ed; [apply zdrop_nil in Ed; lia|].
  destruct (zdrop_cons _ _ _ _ Hi Ed) as (Hb & Hk & _). rewrite Hk. rewrite Ha in Hb. by injection Hb as ->.
Qed.

Lemma get_args_loop_past w : forall n i, 0 <= i ->
  fk_vtr_len (c_arg_vtr (w_conn w)) < i + Z.of_nat n -> (0 < n)%nat ->
  get_args_loop n i w = None.
Proof.
  induction n as [|n IH]; intros i Hi Hn Hp; [lia|]. cbn [get_args_loop].
  unfold mbind, ST_bind, fk_conn_get_arg.
  destruct (fk_vtr_get (c_arg_vtr (w_conn w)) i) as [[a|]|] eqn:E; [|done|done].
  apply fk_vtr_get_bound in E. destruct n as [|n]; [lia|]. by rewrite IH by lia.
Qed.

Lemma i32_wrap_up z : 2 ^ 31 <= z < 2 ^ 31 + 2 ^ 32 -> i32 z = z - 2 ^ 32.
Proof.
  intros H. unfold i32. replace (z + 2 ^ 31) with (z - 2 ^ 31 + 1 * 2 ^ 32) by lia.
  rewrite Z.mod_add by lia. rewrite Z.mod_small; lia.
Qed.

Section eval.
Context (run_script : bytes -> list bytes -> list bytes -> ST world unit).

Lemma eval_ok w (c code n : bytes) rest :
  world_ok w -> args_ok (w_conn w) (c :: code :: n :: rest) ->
  fk_vtr_len (c_arg_vtr (w_conn w)) <= FK_ARG_CNT_HIGHWAT ->
  let nkey := atoi n in
  if fk_str_is_nonminus n =? 0 then
    wp (fk_cmd_eval run_script) (handled w (to (abs w)) (error_rsp FK_RSP_TYPE_ERR)) w
  else if (nkey <? 0) || (2 ^ 31 - 3 <=? nkey) then fk_cmd_eval run_script w = None
  else if zlen rest <? nkey then
    wp (fk_cmd_eval run_script) (handled w (to (abs w)) (error_rsp FK_RSP_ARGC_ERR)) w
  else fk_cmd_eval run_script w =
    match run_script code (ztake nkey rest) (zdrop nkey rest) w with
    | Some (_, w') => Some (FK_SVR_OK, w')
    | None => None
    end.
Proof.
  intros W A Hv nkey. set (l := c :: code :: n :: rest) in *.
  destruct (get_arg_ok w l A 1 code eq_refl) as (id1 & E1 & _).
  destruct (get_arg_ok w l A 2 n eq_refl) as (id2 & E2 & _).
  assert (zlen l = zlen rest + 3) as Hl by (unfold l; rewrite !zlen_cons; lia).
  pose proof (ao_max _ _ A) as Hmax. unfold FK_ARG_CNT_HIGHWAT in *. pose proof (zlen_nonneg rest).
  assert (- 2 ^ 31 <= nkey < 2 ^ 31) as Hk by (apply i32_range).
  destruct (fk_str_is_nonminus n =? 0) eqn:En.
  { unfold fk_cmd_eval. eapply wp_step; [exact E1|]. eapply wp_step; [exact E2|].
    cbn [s_str]. rewrite En. apply wp_reply_end; auto with fk. }
  destruct (_ || _) eqn:Eo.
  { unfold fk_cmd_eval, get_arg_cnt, st_gets, mbind, ST_bind. rewrite E1, E2. cbn [s_str].
    rewrite En. fold nkey. cbn beta iota. rewrite (ao_cnt _ _ A).
    assert ((zlen l <? i32 (3 + nkey)) = false) as ->.
    { apply Z.ltb_ge. apply orb_true_iff in Eo as [Eo|Eo].
      - rewrite i32_small by lia. lia.
      - rewrite i32_wrap_up by lia. lia. }
    unfold calloc_ptrs. destruct (nkey <? 0) eqn:E0; [done|].
    rewrite get_args_loop_past; [done|lia|lia|lia]. }
  apply orb_false_iff in Eo as [Eo1 Eo2]. destruct (zlen rest <? nkey) eqn:Ec.
  { unfold fk_cmd_eval. eapply wp_step; [exact E1|]. eapply wp_step; [exact E2|].
    cbn [s_str]. rewrite En. fold nkey. apply (wp_get_cnt l); [done|].
    rewrite i32_small, (proj2 (Z.ltb_lt _ _)) by lia. apply wp_reply_end; auto with fk. }
  unfold fk_cmd_eval, get_arg_cnt, st_gets, mbind, ST_bind. rewrite E1, E2. cbn [s_str].
  rewrite En. fold nkey. cbn beta iota. rewrite (ao_cnt _ _ A).
  rewrite i32_small, (proj2 (Z.ltb_ge _ _)) by lia. unfold calloc_ptrs.
  rewrite Eo1, (get_args_loop_ok l w A) by lia.
  rewrite i32_small, (proj2 (Z.ltb_ge _ _)) by lia.
  rewrite (get_args_loop_ok l w A) by lia.
  assert (take (Z.to_nat nkey) (zdrop 3 l) = ztake nkey rest) as -> by done.
  assert (take (Z.to_nat (zlen l - 1 - 2 - nkey)) (zdrop (3 + nkey) l) = zdrop nkey rest) as ->.
  { assert (zdrop (3 + nkey) l = zdrop nkey rest) as ->.
    { unfold zdrop. by replace (Z.to_nat (3 + nkey)) with (3 + Z.to_nat nkey)%nat by lia. }
    apply take_ge. unfold zdrop, zlen in *. rewrite length_drop. lia. }
  destruct (run_script _ _ _ w) as [[[] w']|]; done.
Qed.
(** C31. EVAL on every number of keys: a text that is no number is refused; a number of keys
    that is negative or near the end of [int] once converted (any text of
    digits is accepted) is undefined behaviour or aborts the server; a number
    larger than the arguments is refused; otherwise the script runs with
    exactly the arguments the number splits off as KEYS and the rest as ARGV. *)
Theorem eval_spec w (c code n : bytes) rest :
  world_ok w -> args_ok (w_conn w) (c :: code :: n :: rest) ->
  fk_vtr_len (c_arg_vtr (w_conn w)) <= FK_ARG_CNT_HIGHWAT ->
  let nkey := atoi n in
  if fk_str_is_nonminus n =? 0 then
    wp (fk_cmd_eval run_script) (handled w (to (abs w)) (error_rsp FK_RSP_TYPE_ERR)) w
  else if (nkey <? 0) || (2 ^ 31 - 3 <=? nkey) then fk_cmd_eval run_script w = None
  else if zlen rest <? nkey then
    wp (fk_cmd_eval run_script) (handled w (to (abs w)) (error_rsp FK_RSP_ARGC_ERR)) w
  else fk_cmd_eval run_script w =
    match run_script code (ztake nkey rest) (zdrop nkey rest) w with
    | Some (_, w') => Some (FK_SVR_OK, w')
    | None => None
    end.
Proof. apply eval_ok. Qed.
End eval.

(** ** Properties *)

Section answers.
Context (room : stdio) (fopen_ok rename_ok : bool).
Context (run_script : bytes -> list bytes -> list bytes -> ST world unit).

(** C4. Processing a parsed request: [fk_conn_proc_cmd] returns, answers what the
    command, in any case of its letters, is to answer ([request]: unknown names
    and wrong numbers of arguments included), leaves the store the command is
    to leave, frees the arguments so that the connection waits for the next
    request, and, when the server logs, the command changes the store and its
    handler succeeded, appends exactly the encoding of the request to the log.
    SAVE, EVAL and ZADD have theorems of their own. *)
Theorem proc_cmd_answers w name l s A b :
  world_ok w -> args_ok (w_conn w) (name :: l) -> c_parse_done (w_conn w) = 1 ->
  request room fopen_ok rename_ok run_script (millis w) (sv_dbcnt (w_svr w)) name l (abs w)
    = Some (s, A, b) ->
  (b && logging w = true -> log_ready w (fk_str_2upper name :: l)) ->
  exists rt w', fk_conn_proc_cmd room fopen_ok rename_ok run_script w = Some (rt, w') /\
    processed w A s (if b && logging w then Req.encode (fk_str_2upper name :: l) else []) rt w'.
Proof.
  intros W Ha Hd Hr Hl.
  exact (wp_elim _ _ _ (proc_cmd_ok room fopen_ok rename_ok run_script w name l s A b W Ha Hd Hr Hl)).
Qed.

(** The commands on values of one type: number of arguments, whether they change the
    store, and the type. *)
Definition typed_cmds : list (bytes * (Z * bool * (val -> bool))) :=
  let str v := match v with VStr _ => true | _ => false end in
  let list v := match v with VList _ => true | _ => false end in
  let hash v := match v with VHash _ => true | _ => false end in
  [(lit "GET", (2, false, str)); (lit "LPUSH", (-3, true, list)); (lit "RPUSH", (-3, true, list));
   (lit "LPOP", (2, true, list)); (lit "RPOP", (2, true, list)); (lit "LLEN", (2, false, list));
   (lit "HSET", (4, true, hash)); (lit "HGET", (3, false, hash))].

Lemma request_wrong_type now dbcnt name k l a n change has_type v :
  (fk_str_2upper name, (n, change, has_type)) ∈ typed_cmds -> wrong_arity n (zlen (name :: k :: l)) = false ->
  cur_db a !! k = Some v -> has_type v = false -> cur_exp a !! k = None ->
  exists A, request room fopen_ok rename_ok run_script now dbcnt name (k :: l) a = Some (error_rsp FK_RSP_TYPE_ERR, A, change) /\
    forall rt a', A rt a' -> a' = a.
Proof.
  intros Hin Har Hv Ht He. unfold request. rewrite zlen_cons in *.
  remember (fk_str_2upper name) as cmd eqn:Ec. clear Ec name. unfold typed_cmds in Hin.
  repeat (apply elem_of_cons in Hin as [[= -> -> -> ->]|Hin]); [..|by apply not_elem_of_nil in Hin];
    simpl; rewrite Har; unfold wrong_arity in Har; cbn [Z.ltb Z.leb Z.compare Z.opp andb orb] in Har; rewrite ?zlen_cons in Har;
    (destruct l as [|? [|? [|? l]]]; rewrite ?zlen_cons, ?zlen_nil in Har; try (pose proof (zlen_nonneg l); bool_lia));
    unfold exec_any, exec_var, exec, Spec.get, Spec.lookup, Spec.expire, HashSpec.hset, HashSpec.hget, ListSpec.push,
      ListSpec.pop, ListSpec.llen; simpl; rewrite ?He, ?Hv; destruct v; try done; (eexists; split; [reflexivity|]);
    unfold to, to_ok; intros rt a'; by repeat case_match.
Qed.

(** C35. A command on a value of another type does nothing: for every command that works
    on strings, lists or hashes, in any case of its letters, if the key holds a value of
    another type and has no expiry time, the reply is the type error, no database and no
    expiry time changes, and the connection waits for the next request.  (The log gets
    the command all the same if it is one that changes the store.) *)
Theorem wrong_type_refused w name k l n change has_type v :
  world_ok w -> args_ok (w_conn w) (name :: k :: l) -> c_parse_done (w_conn w) = 1 ->
  (fk_str_2upper name, (n, change, has_type)) ∈ typed_cmds -> wrong_arity n (zlen (name :: k :: l)) = false ->
  cur_db (abs w) !! k = Some v -> has_type v = false -> cur_exp (abs w) !! k = None ->
  (change && logging w = true -> log_ready w (fk_str_2upper name :: k :: l)) ->
  exists rt w', fk_conn_proc_cmd room fopen_ok rename_ok run_script w = Some (rt, w') /\
    processed w (to (abs w)) (error_rsp FK_RSP_TYPE_ERR)
      (if change && logging w then Req.encode (fk_str_2upper name :: k :: l) else []) rt w'.
Proof.
  intros W Ha Hd Hin Har Hv Ht He Hl.
  destruct (request_wrong_type (millis w) (sv_dbcnt (w_svr w)) name k l _ n change has_type v Hin Har Hv Ht He) as (A & Hr & HA).
  destruct (wp_elim _ _ _ (proc_cmd_ok room fopen_ok rename_ok run_script w name (k :: l) _ A change W Ha Hd Hr Hl))
    as (rt & w' & E & P). exists rt, w'. split; [exact E|]. destruct P. split; try done. unfold to. by eapply HA.
Qed.
End answers.

(** A server that logs its commands. *)
Definition ex_logging (l : list bytes) : world :=
  ex_with (FkSvr (set_blog_on (sv_setting ex_svr) 1) 1 (sv_db ex_svr) (sv_expdb ex_svr)
    fk_item_init (-1) (-1) 0 0 (BlogFile [] 0) None ex_clock 0 ex_lua_conn) l.

Lemma ex_logging_ok l : world_ok (ex_logging l).
Proof. apply ex_with_ok. destruct ex_svr_inv. by split. Qed.

Definition no_script (code : bytes) (keys argv : list bytes) : ST world unit := mret tt.

Lemma proc_cmd_answers_witness :
  let w := ex_logging [lit "set"; lit "k"; lit "v"] in
  exists rt w', fk_conn_proc_cmd (disk_of 0) true true no_script w = Some (rt, w') /\
    processed w (to (Spec.set (lit "k") (lit "v") (abs w))) (status_rsp FK_RSP_OK)
      (Req.encode [lit "SET"; lit "k"; lit "v"]) rt w'.
Proof.
  refine (proc_cmd_answers (disk_of 0) true true no_script (ex_logging [lit "set"; lit "k"; lit "v"])
    (lit "set") [lit "k"; lit "v"] (status_rsp FK_RSP_OK)
    (to (Spec.set (lit "k") (lit "v") (abs (ex_logging [lit "set"; lit "k"; lit "v"])))) true
    (ex_logging_ok _) _ eq_refl _ _).
  - apply ex_args_ok. reflexivity.
  - reflexivity.
  - intros _. split; [|reflexivity].
    repeat constructor; try (apply nul_free_dec; reflexivity); vm_compute; congruence.
Defined.

Lemma eval_spec_witness :
  let w := ex_req [lit "EVAL"; lit "return 1"; lit "1"; lit "k"; lit "a"] in
  world_ok w /\
  fk_cmd_eval (fun code keys argv w =>
    if bool_decide (keys = [lit "k"]) && bool_decide (argv = [lit "a"]) then Some (tt, w) else None) w
    = Some (FK_SVR_OK, w).
Proof.
  split; [apply ex_req_ok|].
  refine (eval_spec _ (ex_req [lit "EVAL"; lit "return 1"; lit "1"; lit "k"; lit "a"])
    (lit "EVAL") (lit "return 1") (lit "1") [lit "k"; lit "a"] (ex_req_ok _) _ _).
  - apply ex_args_ok. reflexivity.
  - vm_compute. congruence.
Defined.

(** A server in whose first database the key "k" holds a string. *)
Definition ex_string_svr : fk_svr :=
  match fk_cmd_set (ex_req [lit "SET"; lit "k"; lit "v"]) with Some (_, w) => w_svr w | None => ex_svr end.

Lemma ex_string_inv : svr_inv ex_string_svr.
Proof.
  pose proof (set_ok (ex_req [lit "SET"; lit "k"; lit "v"]) (ex_req_ok _) _ _ (lit "k") (lit "v") ltac:(by apply ex_args_ok) eq_refl) as H.
  apply wp_elim in H as (rt & w & E & H). unfold ex_string_svr. rewrite E. apply H.
Qed.

Lemma wrong_type_refused_witness :
  let w := ex_with ex_string_svr [lit "lpush"; lit "k"; lit "x"] in
  cur_db (abs w) !! lit "k" = Some (VStr (lit "v")) /\
  exists rt w', fk_conn_proc_cmd (disk_of 0) true true no_script w = Some (rt, w') /\
    processed w (to (abs w)) (error_rsp FK_RSP_TYPE_ERR) [] rt w'.
Proof.
  split; [vm_compute; reflexivity|].
  refine (wrong_type_refused (disk_of 0) true true no_script (ex_with ex_string_svr [lit "lpush"; lit "k"; lit "x"])
    (lit "lpush") (lit "k") [lit "x"] (-3) true _ (VStr (lit "v")) (ex_with_ok _ _ ex_string_inv) _ eq_refl _ _ _ _ _ _).
  - apply ex_args_ok. reflexivity.
  - apply list_elem_of_further, list_elem_of_here.
  - reflexivity.
  - vm_compute. reflexivity.
  - reflexivity.
  - vm_compute. reflexivity.
  - intros H. vm_compute in H. discriminate H.
Defined.
