(* ===== verification/Stream.v ===== *)
(** The stream of requests of a connection: the complete requests in the bytes that
    arrived, in order, and what is left for the next packet. *)
From S2P Require Import Prelude Util Svr Req.
Import Req.

(** ** Parsing as long as requests are complete *)

(** The loop around the parser in [fk_conn_read_cb] and [fk_blog_load]: the
    requests, whether the bytes were in order, and the state of the parser. *)
Fixpoint drain (fuel : nat) (q : Req.t) : list (list bytes) * Z * Req.t :=
  match fuel with
  | O => ([], FK_SVR_OK, q)
  | S f =>
      if zlen (pl q) <=? 0 then ([], FK_SVR_OK, q)
      else
        let '(rt, q') := parse q in
        if rt =? FK_SVR_ERR then ([], FK_SVR_ERR, q')
        else if rt =? FK_SVR_AGAIN then ([], FK_SVR_OK, q')
        else let '(l, rt, q2) := drain f (init (pl q')) in (args q' :: l, rt, q2)
  end.

Definition requests (q : Req.t) : list (list bytes) * Z * Req.t := drain (S (length (pl q))) q.
Arguments requests : simpl never.

(** ** What the parser returns is in range *)

Record req_wf (q : Req.t) : Prop := {
  rw_ok : req_ok q;
  rw_args : Forall arg_ok (args q)
}.

Lemma req_init_wf b : req_wf (init b).
Proof. split; [apply init_ok|constructor]. Qed.

Lemma feed_wf q m : req_wf q -> req_wf (feed q m).
Proof. intros [H ?]. split; [by apply feed_ok|done]. Qed.

#[export] Hint Resolve req_init_wf feed_wf : fk.

Lemma take_arg_args q q' :
  req_ok q -> cur q <> -1 -> Forall arg_ok (args q) -> take_arg q = (FK_SVR_OK, q') -> Forall arg_ok (args q').
Proof.
  intros Hq Hn Ha. pose proof (ro_cur q Hq). unfold take_arg.
  destruct (cur q + 2 <=? zlen (pl q)) eqn:E; [|done]. destruct (_ || _); [done|].
  intros [= <-]. cbn. apply Forall_app. split; [done|]. constructor; [|constructor].
  unfold arg_ok, fk_str_create. rewrite zlen_ztake by lia. lia.
Qed.

(** What a turn leaves. *)
Definition turn_post (q : Req.t) (r : Z * Req.t + Req.t) : Prop :=
  match r with
  | inl (rt, q') =>
      (rt = FK_SVR_OK -> Forall arg_ok (args q') /\ zlen (args q') = parsed q' /\
        parsed q' = parsed q /\ (length (pl q') < length (pl q))%nat) /\
      (rt = FK_SVR_AGAIN -> req_wf q' /\ parsed q' = parsed q)
  | inr q' => req_wf q' /\ parsed q' = parsed q
  end.

Lemma turn_wf q : req_wf q -> counted q -> turn_post q (turn q).
Proof.
  intros Hw Hc. pose proof Hw as [Hq Ha]. unfold turn.
  destruct (zlen (pl q) <=? 0); [done|].
  pose proof (take_len_ok q) as Hl. pose proof (take_len_code q) as Hcd.
  destruct (take_len q) as [rt q1] eqn:E1. cbn in Hcd.
  destruct Hcd as [->|[->| ->]]; cbn [FK_SVR_OK FK_SVR_ERR FK_SVR_AGAIN] in *.
  2: done.
  2: { unfold take_len in E1. destruct (cur q =? -1); [|done].
       destruct (arglen_line (pl q)); by simplify_eq. }
  destruct (Hl q1 Hq Hc eq_refl) as (Hq1 & Hc1 & Hn1 & Hz1 & Hp1 & Ha1).
  pose proof (take_arg_ok q1) as Ht. pose proof (take_arg_code q1) as Hcd.
  pose proof (take_arg_args q1) as Hf.
  destruct (take_arg q1) as [rt q2] eqn:E2. cbn in Hcd.
  destruct Hcd as [->|[->| ->]]; cbn [FK_SVR_OK FK_SVR_ERR FK_SVR_AGAIN] in *.
  2: done.
  2: { unfold take_arg in E2. destruct (_ <=? _); [by destruct (_ || _)|]. simplify_eq.
       split; [done|]. intros _. split; [split; [done|by rewrite Ha1]|done]. }
  destruct (Ht q2 Hq1 Hc1 Hn1 eq_refl) as (_ & Hp2 & _ & _ & Hl2 & Hok).
  specialize (Hf q2 Hq1 Hn1 ltac:(by rewrite Ha1) eq_refl).
  destruct (parsed q2 =? zlen (args q2)) eqn:E3; cbn.
  - split; [|done]. intros _. split_and!; [done|lia|congruence|]. unfold zlen in *. lia.
  - destruct Hok as [Hq2 _]; [lia|]. split; [by split|congruence].
Qed.

Lemma run_wf q : req_wf q -> counted q -> turn_post q (inl (run q)).
Proof.
  intros [Hq Ha] Hc. revert q Hq Hc Ha. apply (run_ind (fun q => Forall arg_ok (args q) -> _)).
  intros q Hq Hc IH Ha. rewrite run_unfold by done. pose proof (turn_wf q (Build_req_wf _ Hq Ha) Hc) as Ht.
  pose proof (turn_inr q) as Hi. destruct (turn q) as [r|q1]; [done|]. destruct Ht as [[Hq1 Ha1] Hp1].
  destruct (Hi q1 Hq Hc eq_refl) as (_ & _ & Hl). specialize (IH q1 eq_refl Ha1).
  unfold turn_post in *. destruct (run q1) as [rt q']. destruct IH as [IH1 IH2].
  split.
  - intros Hrt. destruct (IH1 Hrt) as (?&?&?&?). split_and!; [done|done|congruence|lia].
  - intros Hrt. destruct (IH2 Hrt) as [? ?]. split; [done|congruence].
Qed.

Lemma parse_wf q :
  req_wf q -> let '(rt, q') := parse q in
  (rt = FK_SVR_OK -> Forall arg_ok (args q') /\ 1 <= zlen (args q') <= FK_ARG_CNT_HIGHWAT /\
    (length (pl q') < length (pl q))%nat) /\
  (rt = FK_SVR_AGAIN -> req_wf q').
Proof.
  intros Hw. pose proof (rw_ok _ Hw) as Hq. destruct (decide (counted q)) as [Hc|Hc].
  { rewrite parse_counted by done. pose proof (run_wf q Hw Hc) as H. destruct (run q) as [rt q'].
    destruct H as [H1 H2]. split; [|by intros Hrt; apply H2]. intros Hrt. destruct (H1 Hrt) as (?&Hz&Hp&?).
    pose proof (ro_parsed q Hq). unfold counted in Hc. pose proof (zlen_nonneg (args q)).
    split_and!; try done; lia. }
  unfold parse. destruct (decide (pl q = [])) as [En|Hne].
  { assert (take_cnt q = (FK_SVR_OK, q)) as ->.
    { unfold take_cnt. rewrite En. cbn. by rewrite andb_false_r. }
    cbn [FK_SVR_OK Z.eqb negb loop]. rewrite En. cbn [zlen]. split; [done|done]. }
  pose proof (take_cnt_ok q) as Hok. unfold take_cnt in *.
  destruct ((parsed q =? 0) && (0 <? zlen (pl q))) eqn:Ez.
  2: { exfalso. destruct (Hok q Hq Hc Hne eq_refl). done. }
  destruct (argcnt_line (pl q)) as [| |n k] eqn:El; cbn [FK_SVR_OK FK_SVR_ERR FK_SVR_AGAIN Z.eqb negb].
  1,2: done.
  destruct (Hok _ Hq Hc Hne eq_refl) as [Hq1 Hc1]. set (q1 := Mk _ _ _ _) in *. fold (run q1).
  assert (req_wf q1) as Hw1 by (split; [done|apply Hw]).
  apply argcnt_line_Ok in El as [Hn Hk].
  pose proof (run_wf q1 Hw1 Hc1) as H. destruct (run q1) as [rt q']. destruct H as [H1 H2].
  split; [|by intros Hrt; apply H2]. intros Hrt. destruct (H1 Hrt) as (?&Hz&Hp&Hl). cbn in Hp.
  split_and!; [done|lia|lia|]. cbn in Hl. unfold zdrop in Hl. rewrite length_drop in Hl. lia.
Qed.

Lemma parse_code q :
  let '(rt, _) := parse q in rt = FK_SVR_OK \/ rt = FK_SVR_ERR \/ rt = FK_SVR_AGAIN.
Proof.
  assert (forall f q, (loop f q).1 = FK_SVR_OK \/ (loop f q).1 = FK_SVR_ERR \/ (loop f q).1 = FK_SVR_AGAIN) as Hl.
  { induction f as [|f IH]; intros q1; [auto|]. rewrite loop_S. pose proof (turn_code q1) as Ht.
    destruct (turn q1); [by apply Ht|apply IH]. }
  unfold parse, take_cnt. destruct (_ && _); [destruct (argcnt_line (pl q)) as [| |n k]|];
    cbn [FK_SVR_OK FK_SVR_ERR FK_SVR_AGAIN Z.eqb negb]; [auto|auto| |].
  - pose proof (Hl (S (length (pl q))) q) as _.
    pose proof (Hl (S (length (pl (Mk (zdrop k (pl q)) n (cur q) (args q))))) (Mk (zdrop k (pl q)) n (cur q) (args q))) as H.
    by destruct (loop _ _).
  - pose proof (Hl (S (length (pl q))) q) as H. by destruct (loop _ _).
Qed.

(** ** The stream of requests *)

Lemma drain_fuel f g q :
  req_wf q -> (length (pl q) < f)%nat -> (length (pl q) < g)%nat -> drain f q = drain g q.
Proof.
  revert g q. induction f as [|f IH]; intros g q Hq Hf Hg; [lia|]. destruct g as [|g]; [lia|].
  cbn [drain]. destruct (zlen (pl q) <=? 0); [done|].
  pose proof (parse_wf q Hq) as Hp. pose proof (parse_code q) as Hc. destruct (parse q) as [rt q'].
  destruct Hc as [->|[->| ->]]; [|done|done]. cbn [FK_SVR_OK FK_SVR_ERR FK_SVR_AGAIN Z.eqb].
  destruct Hp as [Hp _]. destruct (Hp eq_refl) as (_ & _ & Hl).
  rewrite (IH g (init (pl q'))) by (auto with fk || (cbn; lia)). done.
Qed.

Definition and_then (l : list (list bytes)) (r : list (list bytes) * Z * Req.t) :=
  let '(l2, rt, q) := r in (l ++ l2, rt, q).

Lemma and_then_app l1 l2 r : and_then l1 (and_then l2 r) = and_then (l1 ++ l2) r.
Proof. destruct r as [[l rt] q]. cbn. by rewrite app_assoc. Qed.

Lemma and_then_nil r : and_then [] r = r.
Proof. by destruct r as [[l rt] q]. Qed.

Lemma requests_unfold q :
  req_wf q -> requests q =
    if zlen (pl q) <=? 0 then ([], FK_SVR_OK, q)
    else match parse q with
         | (0, q') => and_then [args q'] (requests (init (pl q')))
         | (-1, q') => ([], FK_SVR_ERR, q')
         | (_, q') => ([], FK_SVR_OK, q')
         end.
Proof.
  intros Hq. unfold requests at 1. cbn [drain]. destruct (zlen (pl q) <=? 0); [done|].
  pose proof (parse_wf q Hq) as Hp. pose proof (parse_code q) as Hc. destruct (parse q) as [rt q'].
  destruct Hc as [->|[->| ->]]; [|done|done]. cbn [FK_SVR_OK FK_SVR_ERR FK_SVR_AGAIN Z.eqb].
  destruct Hp as [Hp _]. destruct (Hp eq_refl) as (_ & _ & Hl). unfold requests.
  rewrite (drain_fuel (length (pl q)) (S (length (pl (init (pl q'))))) (init (pl q'))) by (auto with fk || (cbn; lia)).
  by destruct (drain _ _) as [[l rt] q2].
Qed.

(** Induction over the requests of a stream. *)
Lemma requests_ind (P : Req.t -> Prop) :
  (forall q, req_wf q -> (forall q', parse q = (FK_SVR_OK, q') -> P (init (pl q'))) -> P q) ->
  forall q, req_wf q -> P q.
Proof.
  intros H q. remember (length (pl q)) as n eqn:En. revert q En.
  induction n as [n IH] using lt_wf_ind. intros q -> Hq. apply H; [done|].
  intros q' E. pose proof (parse_wf q Hq) as Hp. rewrite E in Hp. destruct Hp as [Hp _].
  destruct (Hp eq_refl) as (_ & _ & Hl). eapply IH; [|reflexivity|auto with fk]. done.
Qed.

(** Every request is one to four and so on arguments in range; the state left is
    that of a parser between two packets. *)
Lemma requests_wf q :
  req_wf q -> let '(l, rt, q') := requests q in
  Forall (fun r => Forall arg_ok r /\ 1 <= zlen r <= FK_ARG_CNT_HIGHWAT) l /\
  (rt = FK_SVR_OK \/ rt = FK_SVR_ERR) /\ (rt = FK_SVR_OK -> req_wf q').
Proof.
  revert q. apply (requests_ind (fun q => let '(l, rt, q') := requests q in _)). intros q Hq IH.
  rewrite requests_unfold by done. destruct (zlen (pl q) <=? 0); [split_and!; [constructor|by left|done]|].
  pose proof (parse_wf q Hq) as Hp. pose proof (parse_code q) as Hc. destruct (parse q) as [rt q'].
  destruct Hc as [->|[->| ->]]; cbn [FK_SVR_OK FK_SVR_ERR FK_SVR_AGAIN] in *.
  - specialize (IH q' eq_refl). destruct (requests (init (pl q'))) as [[l rt] q2]. cbn.
    destruct IH as (Hl & Hrt & Hw), Hp as [Hp _]. destruct (Hp eq_refl) as (? & ? & _).
    split_and!; [by constructor|done|done].
  - split_and!; [constructor|by right|done].
  - split_and!; [constructor|by left|]. intros _. by apply Hp.
Qed.

(** Bytes that arrive later: the requests of the whole are those of the first part
    and those the rest completes. *)
Lemma requests_feed q m :
  req_wf q -> let '(l, rt, q') := requests q in
  (rt = FK_SVR_OK -> requests (feed q m) = and_then l (requests (feed q' m))) /\
  (rt = FK_SVR_ERR -> exists q2, requests (feed q m) = (l, FK_SVR_ERR, q2)).
Proof.
  revert q. apply (requests_ind (fun q => let '(l, rt, q') := requests q in _)). intros q Hq IH.
  rewrite requests_unfold by done. destruct (zlen (pl q) <=? 0) eqn:E0.
  { split; [|done]. intros _. by rewrite and_then_nil. }
  assert ((zlen (pl (feed q m)) <=? 0) = false) as E0'.
  { cbn. rewrite zlen_app. pose proof (zlen_nonneg m). lia. }
  pose proof (requests_unfold (feed q m) (feed_wf q m Hq)) as Hu. rewrite E0' in Hu.
  pose proof (parse_feed q m (rw_ok _ Hq)) as Hf. pose proof (parse_feed q [] (rw_ok _ Hq)) as Hf0.
  pose proof (parse_wf q Hq) as Hp. destruct (parse q) as [rt q'] eqn:Eq.
  destruct Hf as [[-> Hf]|[(-> & q2 & Hf)|(-> & Hq' & Hf)]]; rewrite Hf in Hu;
    cbn [FK_SVR_OK FK_SVR_ERR FK_SVR_AGAIN] in *.
  - specialize (IH q' eq_refl). change (init (pl (feed q' m))) with (feed (init (pl q')) m) in Hu.
    destruct (requests (init (pl q'))) as [[l rt] q2]. cbn [and_then]. destruct IH as [IH1 IH2]. split.
    + intros Hrt. rewrite Hu, (IH1 Hrt), and_then_app. done.
    + intros Hrt. destruct (IH2 Hrt) as [q3 H3]. exists q3. by rewrite Hu, H3.
  - split; [done|]. intros _. by exists q2.
  - split; [|done]. intros _. assert (req_wf q') as Hw by by apply Hp. rewrite Hu.
    rewrite (requests_unfold (feed q' m)) by auto with fk.
    destruct Hf0 as [[? _]|[[? _]|(_ & _ & Hf0)]]; [done|done|]. rewrite !feed_nil, Eq in Hf0.
    destruct (zlen (pl (feed q' m)) <=? 0) eqn:Em.
    + cbn in Em. rewrite zlen_app in Em. pose proof (zlen_nonneg (pl q')). pose proof (zlen_nonneg m).
      assert (m = []) as -> by (apply zlen_0; lia). by rewrite !feed_nil, <- Hf0.
    + by rewrite and_then_nil.
Qed.

Lemma encode_pos r : 0 < zlen (encode r).
Proof.
  unfold encode. rewrite zlen_cons.
  pose proof (zlen_nonneg (dec (zlen r) ++ CRLF ++ concat (encode_arg <$> r))). lia.
Qed.

(** The requests clients send are the requests the server reads. *)
Lemma requests_encode ls m :
  Forall (fun r => Forall arg_ok r /\ 1 <= zlen r <= FK_ARG_CNT_HIGHWAT) ls ->
  requests (init (concat (encode <$> ls) ++ m)) = and_then ls (requests (init m)).
Proof.
  induction 1 as [|r ls [Ha Hl] _ IH]; [by rewrite and_then_nil|].
  cbn [fmap list_fmap concat]. rewrite <- app_assoc, requests_unfold by auto with fk.
  rewrite parse_encode_args by done. rewrite (proj2 (Z.leb_gt _ _)).
  - cbn [pl args]. rewrite IH. by rewrite and_then_app.
  - cbn [pl init]. rewrite zlen_app. pose proof (encode_pos r).
    pose proof (zlen_nonneg (concat (encode <$> ls) ++ m)). lia.
Qed.

(** A parser that has taken all complete requests. *)
Definition settled (q : Req.t) : Prop := requests q = ([], FK_SVR_OK, q).

Lemma requests_settled q l q' : req_wf q -> requests q = (l, FK_SVR_OK, q') -> settled q'.
Proof.
  intros Hq E. pose proof (requests_feed q [] Hq) as Hf. rewrite E in Hf. destruct Hf as [Hf _].
  specialize (Hf eq_refl). rewrite !feed_nil, E in Hf. unfold settled.
  destruct (requests q') as [[l2 rt] q2]. cbn in Hf. injection Hf as Hl -> ->.
  apply (f_equal length) in Hl. rewrite length_app in Hl. destruct l2; [done|cbn in Hl; lia].
Qed.

Lemma init_nil_settled : settled (init []).
Proof. reflexivity. Qed.

(** The requests alone. *)
Definition reqs (q : Req.t) : list (list bytes) := (requests q).1.1.

Lemma reqs_feed q m :
  req_wf q -> exists l, reqs (feed q m) = reqs q ++ l /\
    forall rs q', requests q = (rs, FK_SVR_OK, q') -> l = reqs (feed q' m).
Proof.
  intros Hq. pose proof (requests_feed q m Hq) as Hf. pose proof (requests_wf q Hq) as Hw.
  unfold reqs. destruct (requests q) as [[rs rt] q'] eqn:E. destruct Hf as [H1 H2], Hw as (_ & [->| ->] & _).
  - rewrite (H1 eq_refl). exists (requests (feed q' m)).1.1.
    destruct (requests (feed q' m)) as [[l2 rt2] q2] eqn:E2. cbn. split; [done|].
    intros ? ? [= <- <-]. by rewrite E2.
  - destruct (H2 eq_refl) as [q2 ->]. exists []. cbn. split; [by rewrite app_nil_r|done].
Qed.

(** The number of arguments a request under way announced is that of the request it
    becomes. *)
Lemma requests_counted q m l q2 :
  req_wf q -> counted q -> requests (feed q m) = (l, FK_SVR_OK, q2) ->
  (exists r l', l = r :: l' /\ zlen r = parsed q) \/ (l = [] /\ parsed q2 = parsed q).
Proof.
  intros Hq Hc. pose proof (feed_wf q m Hq) as Hf. rewrite requests_unfold by done.
  destruct (zlen (pl (feed q m)) <=? 0); [intros [= <- <-]; by right|].
  rewrite parse_counted by (apply Hf || done). pose proof (run_wf (feed q m) Hf Hc) as Hr.
  pose proof (parse_code (feed q m)) as Hcd. rewrite parse_counted in Hcd by (apply Hf || done).
  destruct (run (feed q m)) as [rt q']. destruct Hr as [H1 H2].
  destruct Hcd as [->|[->| ->]]; cbn [FK_SVR_OK FK_SVR_ERR FK_SVR_AGAIN].
  - destruct (requests (init (pl q'))) as [[l2 rt2] q3]. cbn. intros [= <- -> ->]. left.
    destruct (H1 eq_refl) as (_ & Hz & Hp & _). exists (args q'), l2. split; [done|]. by rewrite Hz, Hp.
  - done.
  - intros [= <- <-]. right. split; [done|]. by destruct (H2 eq_refl).
Qed.
