(* ===== verification/Serve.v ===== *)
(** Models the loop of [fk_conn_read_cb] (src/src/fk_svr_conn.c) and [fk_blog_load]
    (src/src/fk_svr_blog.c) that parses and processes every complete request in the
    read buffer, and shows that it serves the stream of requests in order. *)
From S2P Require Import Prelude Util Buf Dict Item Conf Svr Req Parse Store.
From S2P Require Import CmdStr CmdHash CmdList CmdDb Kdb KdbProps Blog Proto ProtoProps Stream.
Import Req.

Section server.
Context (room : stdio) (fopen_ok rename_ok : bool).
Context (run_script : bytes -> list bytes -> list bytes -> ST world unit).
Abbreviation protos := (protos room fopen_ok rename_ok run_script).
Abbreviation proc_cmd := (fk_conn_proc_cmd room fopen_ok rename_ok run_script).
Abbreviation request := (request room fopen_ok rename_ok run_script).

(** [while (fk_buf_payload_len(conn->rbuf) > 0)]: ERR when the connection is to be
    closed, OK when the loop ends otherwise. Every turn that goes on consumes
    bytes. *)
Fixpoint serve_loop (fuel : nat) : ST world Z :=
  match fuel with
  | O => fun _ => None
  | S f =>
      n ← st_gets (fun w => fk_buf_payload_len (c_rbuf (w_conn w)));
      if 0 <? n then
        rt ← fk_conn_parse_req;
        if rt =? FK_SVR_ERR then mret FK_SVR_ERR
        else if rt =? FK_SVR_AGAIN then mret FK_SVR_OK
        else
          rt ← proc_cmd;
          if rt =? FK_SVR_ERR then mret FK_SVR_ERR else serve_loop f
      else mret FK_SVR_OK
  end.

Definition serve : ST world Z := fun w =>
  serve_loop (S (Z.to_nat (fk_buf_payload_len (c_rbuf (w_conn w))))) w.

(** ** Requests the model describes *)

(** Every request but SAVE, EVAL and ZADD. *)
Definition described (r : list bytes) : bool :=
  match r with
  | [] => false
  | name :: _ => negb (bool_decide (fk_str_2upper name ∈ [lit "SAVE"; lit "EVAL"; lit "ZADD"]))
  end.

Lemma exec_described now dbcnt p l a :
  p ∈ protos -> p_name p ∉ [lit "SAVE"; lit "EVAL"; lit "ZADD"] ->
  wrong_arity (p_arg_cnt p) (zlen l) = false ->
  is_Some (exec_any now dbcnt (p_name p) l a).
Proof.
  intros Hp Hn Ha. unfold wrong_arity in Ha. apply orb_false_iff in Ha as [Hneg Hpos].
  unfold exec_any, exec_var, exec. unfold Proto.protos in Hp.
  repeat (apply elem_of_cons in Hp as [->|Hp]); [..|by apply not_elem_of_nil in Hp];
    cbn [p_name p_arg_cnt] in *;
    try (exfalso; apply Hn; repeat (apply list_elem_of_here || apply list_elem_of_further); fail);
    clear Hn; cbn [Z.ltb Z.leb Z.compare Z.opp andb negb] in *; named_eval_goal;
    (destruct l as [|? [|? [|? [|? [|? l]]]]]; try discriminate; try (by eexists);
     try (destruct (Nat.even _); by eexists); try (case_match; by eexists); try (rewrite ?zlen_cons, ?zlen_nil in *; pose proof (zlen_nonneg l); lia)).
Qed.

Lemma described_request now dbcnt name l a :
  described (name :: l) = true -> exists s A b, request now dbcnt name l a = Some (s, A, b).
Proof.
  intros H%negb_true_iff%bool_decide_eq_false. unfold ProtoProps.request.
  destruct (find_proto _ protos) as [p|] eqn:Hp; [|by eexists _, _, _].
  apply find_proto_Some in Hp as [Hin Hname].
  destruct (wrong_arity _ _) eqn:Har; [by eexists _, _, _|].
  destruct (exec_described now dbcnt p (fk_str_2upper name :: l) a Hin) as [[s A] E];
    [by rewrite Hname|done|].
  rewrite Hname in E. rewrite E. by eexists _, _, _.
Qed.

(** ** A session *)

(** A request as it goes to the log. *)
Definition entry (r : list bytes) : list bytes :=
  match r with [] => [] | name :: l => fk_str_2upper name :: l end.

(** The requests [rs] one after the other from the store [a]: [out] is the
    concatenation of the replies, [log] of the entries of the commands that change
    the store ([on]: the server logs), [a'] the store left.  A reply that does not
    fit ends the session. *)
Inductive session (on : bool) (now : nat -> Z) (dbcnt : Z) :
    list (list bytes) -> astate -> list cell -> bytes -> Z -> astate -> Prop :=
  | session_nil a : session on now dbcnt [] a [] [] FK_SVR_OK a
  | session_cons name l rs a s A b a1 out log rt a2 :
      request now dbcnt name l a = Some (s, A, b) -> A FK_SVR_OK a1 ->
      session on now dbcnt rs a1 out log rt a2 ->
      session on now dbcnt ((name :: l) :: rs) a (s ++ out)
        ((if b && on then encode (entry (name :: l)) else []) ++ log) rt a2
  | session_full name l rs a s A b a1 :
      request now dbcnt name l a = Some (s, A, b) -> A FK_SVR_ERR a1 ->
      session on now dbcnt ((name :: l) :: rs) a s [] FK_SVR_ERR a1.

(** What the log needs to hold the entries. *)
Definition log_fits (w : world) (rs : list (list bytes)) : Prop :=
  logging w = true ->
  Forall (fun r => Forall arg_loggable (entry r)) rs /\
  bf_off (sv_blog (w_svr w)) = zlen (bf_data (sv_blog (w_svr w))).

(** The arguments of the connection can be freed. *)
Definition args_room (c : fk_conn) : Prop := 0 <= c_arg_cnt c <= fk_vtr_len (c_arg_vtr c).

Lemma conn_req_room c q : conn_req c q -> args_room c.
Proof.
  intros H. unfold args_room. rewrite (cr_cnt _ _ H). split; [apply zlen_nonneg|].
  destruct (decide (zlen (args q) <= 0)) as [Hl|Hl].
  - unfold fk_vtr_len. pose proof (zlen_nonneg (v_array (c_arg_vtr c))). lia.
  - destruct (znth_is_Some (args q) (zlen (args q) - 1)) as [a Ha]; [lia|].
    destruct (cr_args _ _ H _ _ Ha) as [id Hid]. apply fk_vtr_get_bound in Hid. lia.
Qed.

(** What serving changes neither in the connection nor in the server. *)
Definition serve_frame (w w' : world) : Prop :=
  (c_fd (w_conn w'), c_type (w_conn w'), c_write_added (w_conn w')) =
  (c_fd (w_conn w), c_type (w_conn w), c_write_added (w_conn w)) /\
  svr_frame (w_svr w) (sv_set_blog (w_svr w') (sv_blog (w_svr w))).

Lemma serve_frame_refl w : serve_frame w w.
Proof. split; [done|]. unfold svr_frame. by destruct w as [[] ?]. Qed.

Lemma svr_frame_unblog s1 s2 b :
  svr_frame s1 (sv_set_blog s2 b) -> sv_set_blog s2 b = sv_set_blog s2 (sv_blog s1).
Proof. intros H. apply svr_frame_blog in H. cbn in H. by rewrite H. Qed.

Lemma serve_frame_trans w1 w2 w3 : serve_frame w1 w2 -> serve_frame w2 w3 -> serve_frame w1 w3.
Proof.
  intros [C1 S1] [C2 S2]. split; [congruence|].
  destruct w1 as [[] c1], w2 as [[] c2], w3 as [[] c3]. unfold_frame. congruence.
Qed.

Lemma serve_frame_logging w w' : serve_frame w w' -> logging w' = logging w.
Proof.
  intros [C S]. unfold logging. destruct w as [[] c], w' as [[] c']. unfold_frame. congruence.
Qed.

Lemma serve_frame_clock w w' : serve_frame w w' ->
  millis w' = millis w /\ sv_dbcnt (w_svr w') = sv_dbcnt (w_svr w).
Proof.
  intros [C S]. unfold millis, sv_dbcnt. destruct w as [[] c], w' as [[] c']. unfold_frame.
  injection S as -> -> -> -> -> -> -> -> ->. done.
Qed.

(** What serving the requests [rs] did; [q'] is the state of the parser after
    them, [st] its answer. *)
Record served (w : world) (rs : list (list bytes)) (st : Z) (q' : Req.t) (rt : Z) (w' : world) : Prop := {
  sd_ok : world_ok w';
  sd_frame : serve_frame w w';
  sd_room : args_room (w_conn w');
  sd_run : exists out log rt1,
    session (logging w) (millis w) (sv_dbcnt (w_svr w)) rs (abs w) out log rt1 (abs w') /\
    answered (c_wbuf (w_conn w)) (c_wbuf (w_conn w')) rt1 out /\
    sv_blog (w_svr w') = sv_blog (logged (w_svr w) log) /\
    rt = (if rt1 =? FK_SVR_OK then st else FK_SVR_ERR) /\
    (rt = FK_SVR_OK -> conn_req (w_conn w') q')
  }.

Lemma answered_refl b : wbuf_inv b -> answered b b FK_SVR_OK [].
Proof. intros H. split_and!; [done|done|done|]. left. by rewrite app_nil_r. Qed.

Lemma served_nil w w' st q' :
  world_ok w' -> serve_frame w w' -> abs w' = abs w -> c_wbuf (w_conn w') = c_wbuf (w_conn w) ->
  sv_blog (w_svr w') = sv_blog (w_svr w) -> conn_req (w_conn w') q' -> served w [] st q' st w'.
Proof.
  intros W F A B L R. split; [done|done|by eapply conn_req_room|].
  exists [], [], FK_SVR_OK. rewrite A. split_and!; [constructor| |by rewrite logged_nil|done|done].
  rewrite B. apply answered_refl. rewrite <- B. apply W.
Qed.

(** A request parsed and the rest of the session. *)
Lemma parse_frame_serve w w' : world_ok w -> parse_frame w w' ->
  world_ok w' /\ serve_frame w w' /\ abs w' = abs w /\ c_wbuf (w_conn w') = c_wbuf (w_conn w) /\
  sv_blog (w_svr w') = sv_blog (w_svr w).
Proof.
  intros [Ws Wi Wb] [(C1 & C2 & C3 & C4 & C5 & C6 & _) S _].
  destruct w as [s c], w' as [s' c']. cbn in *. split_and!.
  - split; cbn.
    + rewrite S. destruct Ws. by split.
    + rewrite C6, S. exact Wi.
    + by rewrite C4.
  - split; cbn; [congruence|]. rewrite S. by destruct s.
  - unfold abs. cbn. rewrite S, C6. done.
  - done.
  - by rewrite S.
Qed.

Lemma processed_serve w A s log rt w' : processed w A s log rt w' -> serve_frame w w'.
Proof.
  intros [_ _ _ (v & C & _) S _]. split; [|exact S]. rewrite C. done.
Qed.

Lemma processed_req w A s log rt w' c0 q :
  processed w A s log rt w' -> conn_req c0 q -> c_rbuf (w_conn w) = c_rbuf c0 ->
  conn_req (w_conn w') (init (pl q)).
Proof.
  intros [_ _ _ (v & C & _) _ _] H E. apply conn_idle_req. rewrite C.
  split; cbn; rewrite ?E; [apply H|apply H|done|done|done].
Qed.

Lemma parsed_args w w1 q q1 :
  world_ok w -> req_wf q -> parse q = (FK_SVR_OK, q1) -> conn_req (w_conn w1) q1 ->
  args_ok (w_conn w1) (args q1) /\ exists name l, args q1 = name :: l.
Proof.
  intros W Hq E H. pose proof (parse_wf q Hq) as Hp. rewrite E in Hp. destruct Hp as [Hp _].
  destruct (Hp eq_refl) as (Hok & [Hl Hm] & _). split.
  - split; [apply H|apply H|done|done].
  - destruct (args q1) as [|name l]; [done|]. by eexists _, _.
Qed.

(** One request: parsed, processed. *)
Lemma served_cons w w1 w2 name l rs st q' rt A s b c0 :
  parse_frame w w1 -> world_ok w -> conn_req (w_conn w1) c0 -> args c0 = name :: l ->
  request (millis w1) (sv_dbcnt (w_svr w1)) name l (abs w1) = Some (s, A, b) ->
  processed w1 A s (if b && logging w1 then encode (fk_str_2upper name :: l) else []) FK_SVR_OK w2 ->
  forall w3, served w2 rs st q' rt w3 -> served w ((name :: l) :: rs) st q' rt w3.
Proof.
  intros Pf W R Ea Hr P w3 [O F Ro (out & log & rt1 & Hs & Ha & Hb & Hrt & Hq)].
  destruct (parse_frame_serve w w1 W Pf) as (W1 & F1 & A1 & B1 & L1).
  pose proof (processed_serve _ _ _ _ _ _ P) as F2.
  pose proof (serve_frame_trans _ _ _ F1 F2) as F12.
  rewrite (serve_frame_logging _ _ F12) in Hs. destruct (serve_frame_clock _ _ F12) as [Hm Hd].
  rewrite Hm, Hd in Hs. rewrite (serve_frame_logging _ _ F1) in P.
  destruct (serve_frame_clock _ _ F1) as [Hm1 Hd1]. rewrite Hm1, Hd1, A1 in Hr.
  split; [done|by eapply serve_frame_trans|done|].
  set (e := if b && logging w then encode (entry (name :: l)) else []).
  exists (s ++ out), (e ++ log), rt1. split_and!; [| | |done|done].
  - econstructor; [exact Hr|apply P|exact Hs].
  - eapply answered_trans; [|exact Ha]. rewrite <- B1. apply P.
  - rewrite Hb. pose proof (pr_log _ _ _ _ _ _ P) as Hl. cbn [FK_SVR_OK Z.eqb] in Hl.
    change (encode (fk_str_2upper name :: l)) with (encode (entry (name :: l))) in Hl. fold e in Hl.
    rewrite <- logged_app. unfold logged at 1 3. cbn [sv_blog sv_set_blog]. rewrite Hl.
    unfold logged. cbn [sv_blog sv_set_blog]. by rewrite L1.
Qed.

Lemma served_full w w1 w2 name l rs st q' A s b log c0 :
  parse_frame w w1 -> world_ok w -> conn_req (w_conn w1) c0 -> args c0 = name :: l ->
  request (millis w1) (sv_dbcnt (w_svr w1)) name l (abs w1) = Some (s, A, b) ->
  processed w1 A s log FK_SVR_ERR w2 -> served w ((name :: l) :: rs) st q' FK_SVR_ERR w2.
Proof.
  intros Pf W R Ea Hr P. destruct (parse_frame_serve w w1 W Pf) as (W1 & F1 & A1 & B1 & L1).
  pose proof (processed_serve _ _ _ _ _ _ P) as F2.
  destruct (serve_frame_clock _ _ F1) as [Hm1 Hd1]. rewrite Hm1, Hd1, A1 in Hr.
  split; [apply P|by eapply serve_frame_trans| |].
  { destruct P as [_ _ _ (v & C & _) _ _]. unfold args_room. rewrite C. cbn.
    unfold fk_vtr_len. pose proof (zlen_nonneg (v_array v)). lia. }
  exists s, [], FK_SVR_ERR. split_and!; [|rewrite <- B1; apply P| |done|done].
  - econstructor; [exact Hr|apply P].
  - pose proof (pr_log _ _ _ _ _ _ P) as Hl. cbn [FK_SVR_OK FK_SVR_ERR Z.eqb] in Hl.
    rewrite Hl, !logged_nil. exact L1.
Qed.

Lemma log_fits_tail w w1 w2 r rs log :
  serve_frame w w1 -> sv_blog (w_svr w1) = sv_blog (w_svr w) -> log_fits w (r :: rs) ->
  serve_frame w w2 -> sv_blog (w_svr w2) = sv_blog (logged (w_svr w1) log) -> log_fits w2 rs.
Proof.
  intros F1 L1 H F2 L2 Hl. rewrite (serve_frame_logging _ _ F2) in Hl. destruct (H Hl) as [Hf Hoff].
  apply Forall_cons in Hf as [_ Hf]. split; [done|]. rewrite L2.
  apply logged_off. by rewrite L1.
Qed.

(** The block of the read buffer and the initial length of the vector stay. *)
Definition same_dims (w w' : world) : Prop :=
  (buf_dims (c_rbuf (w_conn w')), v_init_len (c_arg_vtr (w_conn w'))) =
  (buf_dims (c_rbuf (w_conn w)), v_init_len (c_arg_vtr (w_conn w))).

Lemma parse_frame_dims w w' : parse_frame w w' -> same_dims w w'.
Proof. intros [(_ & _ & _ & _ & _ & _ & C1 & C2) _ _]. unfold same_dims. by rewrite C1, C2. Qed.

Lemma processed_dims w A s log rt w' : processed w A s log rt w' -> same_dims w w'.
Proof. intros [_ _ _ (v & C & Hv) _ _]. unfold same_dims. rewrite C. cbn. by rewrite Hv. Qed.

Lemma serve_loop_ok f : forall w q,
  world_ok w -> conn_req (w_conn w) q -> req_wf q -> (length (pl q) < f)%nat ->
  let '(rs, st, q') := requests q in
  Forall (fun r => described r = true) rs -> log_fits w rs ->
  wp (serve_loop f) (fun rt w' => served w rs st q' rt w' /\ same_dims w w') w.
Proof.
  induction f as [|f IH]; intros w q W R Hq Hf; [lia|]. rewrite requests_unfold by done.
  pose proof (zlen_payload_bytes _ _ R) as Hn. destruct (zlen (pl q) <=? 0) eqn:E0.
  { intros _ _. cbn [serve_loop]. eapply wp_step; [reflexivity|]. cbn beta. rewrite Hn.
    rewrite (proj2 (Z.ltb_ge _ _)) by lia. apply wp_ret.
    split; [|done]. apply served_nil; (done || apply serve_frame_refl). }
  destruct (parse_req_unfold w q R (rw_ok _ Hq)) as (w1 & Hp & R1 & Pf & Hd).
  destruct (parse_frame_serve w w1 W Pf) as (W1 & F1 & A1 & B1 & L1).
  pose proof (parse_frame_dims _ _ Pf) as Dm.
  assert (forall Q, wp (rt ← fk_conn_parse_req;
        if rt =? FK_SVR_ERR then mret FK_SVR_ERR
        else if rt =? FK_SVR_AGAIN then mret FK_SVR_OK
        else rt ← proc_cmd; if rt =? FK_SVR_ERR then mret FK_SVR_ERR else serve_loop f) Q w ->
      wp (serve_loop (S f)) Q w) as Hgo.
  { intros Q HQ. cbn [serve_loop]. eapply wp_step; [reflexivity|]. cbn beta. rewrite Hn.
    rewrite (proj2 (Z.ltb_lt _ _)) by lia. exact HQ. }
  pose proof (parse_code q) as Hc. pose proof (parsed_args w w1 q) as Ha. pose proof (parse_wf q Hq) as Hpw.
  destruct (parse q) as [rt q1] eqn:Ep. cbn [fst snd] in *.
  destruct Hc as [->|[->| ->]]; cbn [FK_SVR_OK FK_SVR_ERR FK_SVR_AGAIN] in *.
  2,3: intros _ _; apply Hgo; eapply wp_step; [exact Hp|]; apply wp_ret; split; [by apply served_nil|exact Dm].
  destruct (Ha q1 W Hq eq_refl R1) as [Hargs (name & l & Ea)]. rewrite Ea in Hargs.
  destruct Hpw as [Hpw _]. destruct (Hpw eq_refl) as (_ & _ & Hlen).
  pose proof (IH) as IH'. destruct (requests (init (pl q1))) as [[rs st] q'] eqn:Er.
  cbn [and_then app]. rewrite Ea. intros Hdesc Hlog. apply Forall_cons in Hdesc as [Hd1 Hdesc].
  destruct (described_request (millis w1) (sv_dbcnt (w_svr w1)) name l (abs w1) Hd1) as (s & A & b & Hr).
  apply Hgo. eapply wp_step; [exact Hp|]. cbn [Z.eqb]. eapply wp_seq.
  { eapply proc_cmd_ok; [exact W1|exact Hargs|exact Hd|exact Hr|].
    intros Hb. rewrite (serve_frame_logging _ _ F1) in Hb. apply andb_true_iff in Hb as [_ Hb].
    destruct (Hlog Hb) as [Hf1 Hoff]. apply Forall_cons in Hf1 as [Hf1 _]. split; [exact Hf1|].
    by rewrite L1. }
  intros rt w2 P. assert (same_dims w w2) as Dm2
    by (unfold same_dims in *; by rewrite (processed_dims _ _ _ _ _ _ P)). destruct (answered_codes _ _ _ _ (pr_rsp _ _ _ _ _ _ P)) as [->| ->];
    cbn [FK_SVR_OK FK_SVR_ERR Z.eqb Pos.eqb].
  2: { apply wp_ret. split; [by eapply served_full|done]. }
  pose proof (serve_frame_trans _ _ _ F1 (processed_serve _ _ _ _ _ _ P)) as F12.
  specialize (IH w2 (init (pl q1)) (pr_ok _ _ _ _ _ _ P)). rewrite Er in IH.
  eapply wp_mono; [apply IH; [by eapply processed_req|auto with fk|cbn; lia|done|]|].
  - eapply log_fits_tail; [exact F1|exact L1|exact Hlog|exact F12|]. exact (pr_log _ _ _ _ _ _ P).
  - intros rt w3 [H3 D3]. split; [by eapply served_cons|]. unfold same_dims in *. by rewrite D3.
Qed.

Lemma serve_ok w q :
  world_ok w -> conn_req (w_conn w) q -> req_wf q ->
  let '(rs, st, q') := requests q in
  Forall (fun r => described r = true) rs -> log_fits w rs ->
  wp serve (fun rt w' => served w rs st q' rt w' /\ same_dims w w') w.
Proof.
  intros W R Hq. pose proof (serve_loop_ok (S (Z.to_nat (fk_buf_payload_len (c_rbuf (w_conn w))))) w q W R Hq) as H.
  apply H. rewrite (zlen_payload_bytes _ _ R). unfold zlen. lia.
Qed.

(** ** Sessions one after the other *)

Lemma session_app on now dbcnt rs1 a out1 log1 a1 rs2 out2 log2 rt a2 :
  session on now dbcnt rs1 a out1 log1 FK_SVR_OK a1 -> session on now dbcnt rs2 a1 out2 log2 rt a2 ->
  session on now dbcnt (rs1 ++ rs2) a (out1 ++ out2) (log1 ++ log2) rt a2.
Proof.
  remember FK_SVR_OK as ok eqn:Eok. intros H1. revert Eok. induction H1; intros Eok H2; [done| |done].
  cbn [app]. rewrite <- !app_assoc. econstructor; [done|done|by apply IHsession].
Qed.

Lemma session_cut on now dbcnt rs1 a out log a1 rs2 :
  session on now dbcnt rs1 a out log FK_SVR_ERR a1 ->
  session on now dbcnt (rs1 ++ rs2) a out log FK_SVR_ERR a1.
Proof.
  remember FK_SVR_ERR as err eqn:Eerr. intros H. revert Eerr. induction H; intros Eerr; [done| |].
  - cbn [app]. econstructor; [done|done|by apply IHsession].
  - by econstructor.
Qed.

Lemma session_codes on now dbcnt rs a out log rt a1 :
  session on now dbcnt rs a out log rt a1 -> rt = FK_SVR_OK \/ rt = FK_SVR_ERR.
Proof. induction 1; auto. Qed.

Lemma served_trans w1 rs1 q1 w2 rs2 st q2 rt w3 :
  served w1 rs1 FK_SVR_OK q1 FK_SVR_OK w2 -> served w2 rs2 st q2 rt w3 ->
  served w1 (rs1 ++ rs2) st q2 rt w3.
Proof.
  intros [O1 F1 Ro1 (out1 & log1 & rt1 & S1 & A1 & L1 & E1 & Q1)]
    [O2 F2 Ro2 (out2 & log2 & rt2 & S2 & A2 & L2 & E2 & Q2)].
  destruct (session_codes _ _ _ _ _ _ _ _ _ S1) as [->| ->]; [|done].
  rewrite (serve_frame_logging _ _ F1) in S2. destruct (serve_frame_clock _ _ F1) as [Hm Hd].
  rewrite Hm, Hd in S2.
  split; [done|by eapply serve_frame_trans|done|].
  exists (out1 ++ out2), (log1 ++ log2), rt2. split_and!; [by eapply session_app| | |done|done].
  - by eapply answered_trans.
  - rewrite L2, <- logged_app. unfold logged at 1 3. cbn [sv_blog sv_set_blog]. by rewrite L1.
Qed.

(** A session that ended the connection stays the same whatever would follow. *)
Lemma served_stop w rs1 st1 q1 w' rs2 st q2 :
  served w rs1 st1 q1 FK_SVR_ERR w' -> (st1 = FK_SVR_OK \/ rs2 = [] /\ st = FK_SVR_ERR) ->
  served w (rs1 ++ rs2) st q2 FK_SVR_ERR w'.
Proof.
  intros [O F Ro (out & log & rt1 & Hs & A & L & E & Q)] H. split; [done|done|done|].
  exists out, log, rt1. destruct (session_codes _ _ _ _ _ _ _ _ _ Hs) as [->| ->].
  - cbn in E. subst st1. destruct H as [?|[-> ->]]; [done|]. by rewrite app_nil_r.
  - split_and!; [by apply session_cut|done|done|done|done].
Qed.
End server.
