(* ===== verification/Effects.v ===== *)
(** What requests leave alone: only SETEX gives a key an expiry time, so that a session
    without SETEX can only lose expiry times, whichever databases its client selects. *)
From S2P Require Import Prelude Util Buf Dict Item Conf Svr Req Parse Store.
From S2P Require Import CmdStr CmdHash CmdList CmdDb CmdProps Kdb Blog Proto ProtoProps Stream Serve.
Import Req.

(** No key of [x] has an expiry time that it does not have in [a]. *)
Definition shrinks (a x : astate) : Prop := forall j, aexp x j ⊆ aexp a j.

#[export] Instance shrinks_preorder : PreOrder shrinks.
Proof. split; [by intros a j|]. intros a b c H1 H2 j. by transitivity (aexp b j). Qed.

(** No key of a database other than the first has an expiry time. *)
Definition lone (a : astate) : Prop := forall j, 1 <= j -> aexp a j = ∅.

Lemma shrinks_lone a x : shrinks a x -> lone a -> lone x.
Proof. intros H L j Hj. apply (anti_symm (⊆)); [|apply map_empty_subseteq]. by rewrite <- (L j Hj). Qed.

Lemma lone_one a : zlen (a_exp a) = 1 -> lone a.
Proof.
  intros Hl j Hj. unfold aexp, znth. rewrite (proj2 (Z.ltb_ge _ _)) by lia. rewrite lookup_ge_None_2; [done|]. unfold zlen in Hl. lia.
Qed.

(** Only the databases differ. *)
Lemma shrinks_db a x : a_exp x = a_exp a -> shrinks a x.
Proof. intros E j. unfold aexp. by rewrite E. Qed.

Lemma shrinks_put_exp m a : m ⊆ cur_exp a -> shrinks a (put_cur_exp m a).
Proof.
  intros Hm j. unfold cur_exp, aexp, put_cur_exp, put_exp in *. cbn. set (i := a_idx a) in *. clearbody i.
  unfold znth, zupd in *. destruct (i <? 0) eqn:Ei, (j <? 0) eqn:Ej; try done. destruct (decide (j = i)) as [->|Hne].
  - destruct (<[Z.to_nat i:=m]> (a_exp a) !! Z.to_nat i) as [m'|] eqn:Em; [|apply map_empty_subseteq].
    by apply list_lookup_insert_Some in Em as [(_ & <- & _)|[? _]].
  - by rewrite list_lookup_insert_ne by lia.
Qed.

#[export] Hint Extern 1 (shrinks _ _) => apply shrinks_db; reflexivity : fk.

(** ** Commands *)

Section commands.
Context (now : nat -> Z).

Lemma shrinks_expire k a : shrinks a (Spec.expire now k a).2.
Proof.
  unfold Spec.expire. destruct (cur_exp a !! k); [|done]. case_match; cbn [snd]; [|auto with fk].
  transitivity (put_cur (delete k (cur_db a)) (tick a)); [auto with fk|]. apply shrinks_put_exp, delete_subseteq.
Qed.

Lemma shrinks_lookup k a : shrinks a (Spec.lookup now k a).2.
Proof. unfold Spec.lookup. pose proof (shrinks_expire k a). by destruct (Spec.expire now k a). Qed.

Lemma shrinks_get k a : shrinks a (Spec.get now k a).2.
Proof. unfold Spec.get. pose proof (shrinks_lookup k a). by destruct (Spec.lookup now k a). Qed.

Lemma shrinks_mget ks : forall a, shrinks a (Spec.mget now ks a).2.
Proof.
  induction ks as [|k ks IH]; intros a; [done|]. cbn [Spec.mget]. pose proof (shrinks_lookup k a).
  destruct (Spec.lookup now k a) as [v a1]. specialize (IH a1). destruct (Spec.mget now ks a1). by transitivity a1.
Qed.

Lemma shrinks_mset l a : shrinks a (Spec.mset l a).
Proof.
  assert (forall n l, (length l <= n)%nat -> forall a, shrinks a (Spec.mset l a)) as H; [|by eapply H].
  clear l a. induction n as [|n IH]; intros [|k [|v l]] Hl a; cbn in *; try lia; try done.
  transitivity (Spec.set k v a); [auto with fk|]. apply IH. lia.
Qed.

Lemma shrinks_del ks : forall a, shrinks a (DbSpec.del ks a).2.
Proof.
  induction ks as [|k ks IH]; intros a; [done|]. cbn [DbSpec.del]. specialize (IH (put_cur (delete k (cur_db a)) a)).
  destruct (DbSpec.del ks _). cbn [snd] in *. transitivity (put_cur (delete k (cur_db a)) a); [auto with fk|done].
Qed.

Lemma shrinks_flushdb a : shrinks a (DbSpec.flushdb a).
Proof.
  unfold DbSpec.flushdb. transitivity (put_cur ∅ a); [auto with fk|]. apply shrinks_put_exp, map_empty_subseteq.
Qed.

Lemma shrinks_flushall a : shrinks a (DbSpec.flushall a).
Proof.
  intros j. unfold aexp, DbSpec.flushall. cbn [a_exp]. rewrite znth_fmap. destruct (znth (a_exp a) j); cbn; apply map_empty_subseteq.
Qed.

Lemma shrinks_hset k f v a : shrinks a (HashSpec.hset k f v a).2.
Proof. unfold HashSpec.hset. repeat case_match; auto with fk. Qed.

Lemma shrinks_push pos k vs a : shrinks a (ListSpec.push pos k vs a).2.
Proof. unfold ListSpec.push. repeat case_match; auto with fk. Qed.

Lemma shrinks_pop pos k a : shrinks a (ListSpec.pop pos k a).2.
Proof. unfold ListSpec.pop. repeat case_match; auto with fk. Qed.

#[local] Hint Resolve shrinks_get shrinks_mget shrinks_mset shrinks_del shrinks_flushdb shrinks_flushall shrinks_hset
  shrinks_push shrinks_pop : fk.

(** The reading of keys that removes the expired ones. *)
Lemma shrinks_expires ks : forall a, shrinks a (foldl (fun a k => (Spec.expire now k a).2) a ks).
Proof.
  induction ks as [|k ks IH]; intros a; [done|]. cbn. transitivity (Spec.expire now k a).2; [apply shrinks_expire|apply IH].
Qed.

(** What one command does, whether its reply fits or not. *)
Lemma exec_shrinks n name l a s A rt x : name <> lit "SETEX" ->
  exec_any now n name l a = Some (s, A) -> A rt x -> shrinks a x.
Proof.
  intros Hn Hex HA. unfold exec_any, exec_var, exec in Hex.
  assert (named name "SETEX" = false) as Hf by by apply bool_decide_eq_false.
  repeat case_match; simplify_eq; unfold to, to_ok in HA; repeat case_match; subst;
    try (destruct HA as (ks & _ & ->)); auto with fk.
Qed.
End commands.

(** ** Sessions *)

(** A request that gives a key an expiry time. *)
Definition sets_expiry (r : list bytes) : bool :=
  match r with [] => false | name :: _ => bool_decide (fk_str_2upper name = lit "SETEX") end.

Section sessions.
Context (room : stdio) (fopen_ok rename_ok : bool).
Context (run_script : bytes -> list bytes -> list bytes -> ST world unit).

Lemma request_shrinks now n name l a s A b rt x : sets_expiry (name :: l) = false ->
  request room fopen_ok rename_ok run_script now n name l a = Some (s, A, b) -> A rt x -> shrinks a x.
Proof.
  intros Hn%bool_decide_eq_false. unfold request. intros Hr HA. repeat case_match; simplify_eq; try (by rewrite HA).
  by eapply exec_shrinks.
Qed.

(** A session without SETEX. *)
Lemma session_shrinks on now n rs a out log rt x : Forall (fun r => sets_expiry r = false) rs ->
  session room fopen_ok rename_ok run_script on now n rs a out log rt x -> shrinks a x.
Proof.
  intros Hf H. induction H as [|name l rs a s A b a1 out log rt a2 Hr HA _ IH|]; [done|..]; apply Forall_cons in Hf as [Hf1 Hf].
  - transitivity a1; [by eapply request_shrinks|by apply IH].
  - by eapply request_shrinks.
Qed.
End sessions.
