(* ===== verification/Conn.v ===== *)
(** Models the transport of a connection (src/src/fk_svr_conn.c): receiving into the
    read buffer and the body of [fk_conn_read_cb].

    The socket is what the C library answers: [recv] gives the packets of
    [lk_in] one by one, at most as many bytes as it is asked for. *)
From S2P Require Import Prelude Util Buf Dict Item Conf Svr Req Parse Store.
From S2P Require Import CmdStr CmdHash CmdList CmdDb Kdb KdbProps Blog Proto ProtoProps Stream Serve.
Import Req.

(** ** The socket *)

Inductive packet := RecvData (l : bytes) | RecvClosed | RecvError.

Inductive recv_res := Received (l : bytes) | RecvNone | RecvFailed.

(** [recv(fd, buf, n, 0)] with [n > 0]: data, 0 when the peer has closed, an error,
    or EAGAIN when nothing is there. *)
Definition recv (n : Z) (q : list packet) : recv_res * list packet :=
  match q with
  | [] => (RecvNone, [])
  | RecvData l :: q' =>
      if zlen l <=? n then (Received l, q') else (Received (ztake n l), RecvData (zdrop n l) :: q')
  | RecvClosed :: _ => (Received [], q)
  | RecvError :: q' => (RecvFailed, q')
  end.

(** [send]: the number of bytes the kernel takes, EAGAIN, or another error. *)
Inductive send_ans := Sent (n : Z) | SendAgain | SendError.

Record link := Link {
  lk_w : world;
  lk_in : list packet;
  lk_time : Z
}.

Definition lk_set_w (k : link) (w : world) : link := Link w (lk_in k) (lk_time k).
Definition lk_set_in (k : link) (q : list packet) : link := Link (lk_w k) q (lk_time k).
Definition lk_rbuf (k : link) : fk_buf := c_rbuf (w_conn (lk_w k)).
Definition lk_set_rbuf (k : link) (b : fk_buf) : link :=
  lk_set_w k (w_set_conn (lk_w k) (cn_rbuf (w_conn (lk_w k)) b)).

(** ** Receiving *)

(** The room made before a read: move the payload to the front of a buffer that is
    more than three quarters full, then grow a buffer without room. *)
Definition recv_room (b : fk_buf) : fk_buf :=
  let b := if 3 * Z.shiftr (blen b) 2 <? fk_buf_payload_len b then fk_buf_shift b else b in
  if fk_buf_free_len b =? 0 then fk_buf_stretch b else b.

Definition fk_conn_recv_data : ST link Z := fun k =>
  let b := recv_room (lk_rbuf k) in
  let k := lk_set_rbuf k b in
  let free_len := fk_buf_free_len b in
  if free_len =? 0 then Some (FK_SVR_ERR, k)
  else
    match recv free_len (lk_in k) with
    | (Received l, q) =>
        let k := lk_set_in k q in
        if zlen l =? 0 then Some (FK_SVR_ERR, k)
        else
          let b := fk_buf_high_inc (fk_buf_memcpy b (Some <$> l)) (zlen l) in
          let w := w_set_conn (lk_w k) (cn_last_recv (cn_rbuf (w_conn (lk_w k)) b) (lk_time k)) in
          Some (if zlen l <? free_len then FK_SVR_DONE else FK_SVR_OK, lk_set_w k w)
    | (RecvNone, q) => Some (FK_SVR_AGAIN, lk_set_in k q)
    | (RecvFailed, q) => Some (FK_SVR_ERR, lk_set_in k q)
    end.

(** ** The body of [fk_conn_read_cb] *)

Section server.
Context (room : stdio) (fopen_ok rename_ok : bool).
Context (run_script : bytes -> list bytes -> list bytes -> ST world unit).
Abbreviation serve := (serve room fopen_ok rename_ok run_script).

(** A step on the server and the connection. *)
Definition on_world {A} (m : ST world A) : ST link A := fun k =>
  match m (lk_w k) with Some (a, w) => Some (a, lk_set_w k w) | None => None end.

(** [while (again == 1)]: ERR when the connection is to be closed, OK when the
    callback goes on to [fk_conn_send_rsp]. *)
Fixpoint read_loop (fuel : nat) : ST link Z :=
  match fuel with
  | O => fun _ => None
  | S f =>
      rt ← fk_conn_recv_data;
      if rt =? FK_SVR_ERR then mret FK_SVR_ERR
      else if rt =? FK_SVR_AGAIN then mret FK_SVR_OK
      else
        let again := negb (rt =? FK_SVR_DONE) in
        rt ← on_world serve;
        if rt =? FK_SVR_ERR then mret FK_SVR_ERR
        else if (again : bool) then read_loop f else mret FK_SVR_OK
  end.

(** Every turn that goes on took bytes from a packet. *)
Definition packet_size (p : packet) : nat :=
  match p with RecvData l => S (length l) | _ => 1 end.
Definition read_fuel (q : list packet) : nat := S (sum_list (packet_size <$> q)).

Definition read_all : ST link Z := fun k => read_loop (read_fuel (lk_in k)) k.
End server.

(** ** Room for a read *)

Lemma recv_room_spec b :
  buf_wf b -> 0 < blen b -> high b < highwat b ->
  buf_wf (recv_room b) /\ payload (recv_room b) = payload b /\ 0 < fk_buf_free_len (recv_room b) /\
  highwat (recv_room b) = highwat b /\ high (recv_room b) <= high b /\ 0 < blen (recv_room b) /\
  init_len (recv_room b) = init_len b.
Proof.
  intros H Hb Hh. unfold recv_room.
  set (b1 := if _ <? _ then fk_buf_shift b else b).
  assert (buf_wf b1 /\ payload b1 = payload b /\ highwat b1 = highwat b /\ high b1 <= high b /\
    blen b1 = blen b /\ init_len b1 = init_len b) as (H1 & P1 & W1 & L1 & B1 & I1).
  { unfold b1. destruct (_ <? _); [|by auto with lia].
    split_and!; [by apply shift_wf|by apply payload_shift| | | |];
      unfold fk_buf_shift; destruct (0 <? low b) eqn:E; cbn; buf_lia H || done. }
  clearbody b1. unfold fk_buf_free_len. destruct (blen b1 - high b1 =? 0) eqn:E.
  - pose proof (payload_stretch b1 H1). pose proof (stretch_wf b1 H1).
    unfold fk_buf_stretch in *. rewrite Z.shiftl_mul_pow2 in * by lia. change (2 ^ 1) with 2 in *.
    destruct (blen b1 <? highwat b1) eqn:E2; [|bool_lia].
    split_and!; cbn; auto; try congruence; lia.
  - split_and!; try done; [|lia]. buf_lia H1.
Qed.

(** ** Receiving and serving *)

(** The bytes the peer has sent. *)
Definition stream (q : list packet) : bytes :=
  concat ((fun p => match p with RecvData l => l | _ => [] end) <$> q).

(** A peer that sends data and neither closes nor fails. *)
Definition open_packet (p : packet) : Prop := match p with RecvData l => l <> [] | _ => False end.

(** A connection between two callbacks: its parser has taken all complete
    requests, and the read buffer has a block. *)
Record conn_live (w : world) (q : Req.t) : Prop := {
  cl_ok : world_ok w;
  cl_req : conn_req (w_conn w) q;
  cl_wf : req_wf q;
  cl_blen : 0 < blen (c_rbuf (w_conn w))
}.

(** Receiving changes the read buffer and the time of the last packet. *)
Lemma recv_world_ok w b t :
  world_ok w -> world_ok (w_set_conn w (cn_last_recv (cn_rbuf (w_conn w) b) t)).
Proof. intros []. by split. Qed.

Lemma set_rbuf_live w q q' b t :
  conn_live w q -> buf_wf b -> payload b = Some <$> pl q' -> 0 < blen b -> req_wf q' ->
  parsed q' = parsed q -> cur q' = cur q -> args q' = args q ->
  conn_live (w_set_conn w (cn_last_recv (cn_rbuf (w_conn w) b) t)) q'.
Proof.
  intros [O [] W _] Hb Hp Hl Hw E1 E2 E3. split; [by apply recv_world_ok| |done|done].
  split; cbn; rewrite ?E1, ?E2, ?E3; done.
Qed.

(** The bytes [m] arrive in the buffer [b], whose payload is that of the connection. *)
Lemma append_live w q b (m : bytes) t :
  conn_live w q -> buf_wf b -> payload b = Some <$> pl q -> 0 < blen b -> zlen m <= fk_buf_free_len b ->
  conn_live (w_set_conn w (cn_last_recv (cn_rbuf (w_conn w) (fk_buf_high_inc (fk_buf_memcpy b (Some <$> m)) (zlen m))) t)) (feed q m).
Proof.
  intros L W P B Hm. assert (zlen (Some <$> m) <= fk_buf_free_len b) as Hm' by by rewrite zlen_map.
  assert (fk_buf_high_inc (fk_buf_memcpy b (Some <$> m)) (zlen m) = fk_buf_append b (Some <$> m)) as ->
    by (unfold fk_buf_append; by rewrite zlen_map).
  apply (set_rbuf_live _ q); try done; [by apply append_wf| |apply feed_wf, L].
  rewrite payload_append by done. cbn. rewrite fmap_app. congruence.
Qed.

Lemma lk_set_rbuf_last k b :
  lk_w (lk_set_rbuf k b) =
  w_set_conn (lk_w k) (cn_last_recv (cn_rbuf (w_conn (lk_w k)) b) (c_last_recv (w_conn (lk_w k)))).
Proof. by destruct k as [[? []] ? ?]. Qed.

(** What [w'] and [w] share when only bytes came in. *)
Definition recv_frame (w w' : world) : Prop :=
  exists b t, w' = w_set_conn w (cn_last_recv (cn_rbuf (w_conn w) b) t).

Lemma recv_frame_refl w : recv_frame w w.
Proof. exists (c_rbuf (w_conn w)), (c_last_recv (w_conn w)). by destruct w as [? []]. Qed.

Lemma recv_frame_log w w' rs : recv_frame w w' -> log_fits w rs -> log_fits w' rs.
Proof. by intros (b & t & ->). Qed.

(** No read of the bytes sent reaches the limit of the read buffer. *)
Definition room_left (k : link) : Prop :=
  high (lk_rbuf k) + zlen (stream (lk_in k)) < highwat (lk_rbuf k).

Definition read_size (q : list packet) : nat := sum_list (packet_size <$> q).

Record recv_post (k : link) (q : Req.t) (rt : Z) (k' : link) (m : bytes) : Prop := {
  rp_in : stream (lk_in k) = m ++ stream (lk_in k');
  rp_live : conn_live (lk_w k') (feed q m);
  rp_frame : recv_frame (lk_w k) (lk_w k');
  rp_open : Forall open_packet (lk_in k');
  rp_room : room_left k';
  rp_code : rt = FK_SVR_AGAIN /\ lk_in k = [] /\ m = [] \/
    (rt = FK_SVR_DONE \/ rt = FK_SVR_OK) /\ m <> [] /\ (read_size (lk_in k') < read_size (lk_in k))%nat
}.

Lemma recv_open n p :
  0 < n -> Forall open_packet p -> p <> [] ->
  exists (m : bytes) (p' : list packet), recv n p = (Received m, p') /\ stream p = m ++ stream p' /\ m <> [] /\ zlen m <= n /\
    Forall open_packet p' /\ (read_size p' < read_size p)%nat.
Proof.
  intros Hn Ho Hne. destruct p as [|[l| |] p]; [done| |by inversion Ho..].
  apply Forall_cons in Ho as [Hl Ho]. cbn in Hl. cbn [recv]. destruct (zlen l <=? n) eqn:E.
  - exists l, p. split_and!; try done; [lia|]. unfold read_size. cbn. lia.
  - exists (ztake n l), (RecvData (zdrop n l) :: p).
    assert (zlen (ztake n l) = n) as Ht by (apply zlen_ztake; lia).
    assert (zlen (zdrop n l) = zlen l - n) as Hd by (apply zlen_zdrop; lia).
    split_and!; [done| | |lia| |].
    + unfold stream. cbn. by rewrite app_assoc, ztake_zdrop.
    + intros E2. rewrite E2, zlen_nil in Ht. lia.
    + constructor; [|done]. cbn. intros E2. rewrite E2, zlen_nil in Hd. lia.
    + unfold read_size. cbn. unfold zlen in Hd, E. lia.
Qed.

Lemma recv_data_ok k q :
  conn_live (lk_w k) q -> Forall open_packet (lk_in k) -> room_left k ->
  wp fk_conn_recv_data (fun rt k' => exists m, recv_post k q rt k' m) k.
Proof.
  intros L Ho Hr. pose proof (zlen_nonneg (stream (lk_in k))) as Hs.
  unfold room_left in Hr. pose proof (cr_wf _ _ (cl_req _ _ L)) as Hwf. pose proof (cl_blen _ _ L) as Hb.
  fold (lk_rbuf k) in Hwf, Hb.
  destruct (recv_room_spec (lk_rbuf k) Hwf Hb ltac:(lia)) as (W1 & P1 & F1 & H1 & G1 & B1 & _).
  unfold wp, fk_conn_recv_data. set (b := recv_room (lk_rbuf k)) in *. clearbody b.
  rewrite (proj2 (Z.eqb_neq (fk_buf_free_len b) 0)) by lia. cbn [lk_in lk_set_rbuf lk_set_w].
  pose proof (cr_pl _ _ (cl_req _ _ L)) as Hp. fold (lk_rbuf k) in Hp.
  destruct (decide (lk_in k = [])) as [Ein|Hne].
  { rewrite Ein. cbn [recv]. exists []. split; cbn [lk_in lk_set_in lk_w]; try done.
    - by rewrite Ein.
    - rewrite feed_nil. rewrite lk_set_rbuf_last.
      eapply set_rbuf_live; [exact L|done|congruence|done|apply L|done..].
    - exists b, (c_last_recv (w_conn (lk_w k))). by rewrite lk_set_rbuf_last.
    - change (high b + zlen (stream []) < highwat b). rewrite Ein in Hr. lia.
    - by left. }
  destruct (recv_open (fk_buf_free_len b) (lk_in k) F1 Ho Hne) as (m & p' & -> & Hst & Hm & Hl & Ho' & Hsz).
  assert (zlen m <> 0) as Hm0 by (intros E; by apply zlen_0 in E).
  rewrite (proj2 (Z.eqb_neq _ _) Hm0). exists m.
  set (b' := fk_buf_high_inc (fk_buf_memcpy b (Some <$> m)) (zlen m)).
  assert (high b' = high b + zlen m /\ highwat b' = highwat b) as (D2 & D3).
  { unfold b', fk_buf_high_inc. cbn. unfold fk_buf_free_len in Hl. rewrite (proj2 (Z.ltb_ge _ _)) by lia. done. }
  split; cbn [lk_in lk_set_in lk_set_w lk_w]; [done| |by exists b', (lk_time k)|done| |].
  - apply (append_live (lk_w k) q b m (lk_time k)); (done || congruence).
  - change (high b' + zlen (stream p') < highwat b'). rewrite D2, D3, H1. rewrite Hst, zlen_app in Hr. lia.
  - right. split_and!; [|done|done]. destruct (_ <? _); auto.
Qed.

Section read.
Context (room : stdio) (fopen_ok rename_ok : bool).
Context (run_script : bytes -> list bytes -> list bytes -> ST world unit).
Abbreviation served := (served room fopen_ok rename_ok run_script).
Abbreviation serve := (serve room fopen_ok rename_ok run_script).
Abbreviation read_loop := (read_loop room fopen_ok rename_ok run_script).

Lemma served_recv w w' rs st q rt w2 :
  recv_frame w w' -> served w' rs st q rt w2 -> served w rs st q rt w2.
Proof. intros (b & t & ->) [O F R H]. split; [exact O|exact F|exact R|exact H]. Qed.

(** What a read callback did before it sends: it took the bytes [m] from the
    socket and served the requests they complete. *)
Record read_post (k : link) (q : Req.t) (rt : Z) (k' : link) : Prop := {
  rd_open : Forall open_packet (lk_in k');
  rd_served : exists m rs st q', stream (lk_in k) = m ++ stream (lk_in k') /\
    (m = [] -> lk_in k = []) /\ requests (feed q m) = (rs, st, q') /\
    served (lk_w k) rs st q' rt (lk_w k') /\
    (rt = FK_SVR_OK -> conn_live (lk_w k') q' /\ settled q')
  }.

Lemma serve_link k q rs st q' :
  conn_live (lk_w k) q -> requests q = (rs, st, q') ->
  Forall (fun r => described r = true) rs -> log_fits (lk_w k) rs ->
  wp (on_world serve) (fun rt k' => served (lk_w k) rs st q' rt (lk_w k') /\
    same_dims (lk_w k) (lk_w k') /\ lk_in k' = lk_in k) k.
Proof.
  intros [O R W _] E Hd Hl.
  pose proof (serve_ok room fopen_ok rename_ok run_script (lk_w k) q O R W) as H. rewrite E in H.
  specialize (H Hd Hl). unfold wp, on_world in *. destruct (serve (lk_w k)) as [[rt w]|]; [|done].
  by destruct H.
Qed.

Lemma served_st w rs st q' rt w' :
  served w rs st q' rt w' -> rt = FK_SVR_OK -> st = FK_SVR_OK.
Proof. intros [_ _ _ (out & log & rt1 & _ & _ & _ & -> & _)]. by destruct (rt1 =? FK_SVR_OK). Qed.

Lemma served_codes w rs st q' rt w' :
  served w rs st q' rt w' -> st = FK_SVR_OK \/ st = FK_SVR_ERR -> rt = FK_SVR_OK \/ rt = FK_SVR_ERR.
Proof. intros [_ _ _ (out & log & rt1 & _ & _ & _ & -> & _)] H. destruct (rt1 =? FK_SVR_OK); auto. Qed.

Lemma served_live w rs st q' w' q :
  conn_live w q -> served w rs st q' FK_SVR_OK w' -> same_dims w w' -> req_wf q' -> conn_live w' q'.
Proof.
  intros [_ _ _ B] [O _ _ (? & ? & ? & _ & _ & _ & _ & R)] D W. split; [done|by apply R|done|].
  unfold same_dims, buf_dims in D. injection D as _ _ -> _. done.
Qed.

(** The log keeps its room while a session runs. *)
Lemma served_log_fits w rs1 st q' rt w' rs2 :
  served w rs1 st q' rt w' -> log_fits w (rs1 ++ rs2) -> log_fits w' rs2.
Proof.
  intros [_ F _ (out & log & rt1 & _ & _ & L & _)] H Hl. rewrite (serve_frame_logging _ _ F) in Hl.
  destruct (H Hl) as [Hf Hoff]. apply Forall_app in Hf as [_ Hf]. split; [done|]. rewrite L.
  by apply logged_off.
Qed.

(** A turn that took the bytes [m]: it served the requests they complete, and can go on
    or ends the loop. *)
Definition turn_post (k : link) (q : Req.t) (m rest : bytes) (rt : Z) (k' : link) : Prop := exists rs st q',
  requests (feed q m) = (rs, st, q') /\ served (lk_w k) rs st q' rt (lk_w k') /\
  (rt = FK_SVR_ERR \/ rt = FK_SVR_OK /\ st = FK_SVR_OK /\ conn_live (lk_w k') q' /\ settled q' /\
    Forall (fun r => described r = true) (reqs (feed q' rest)) /\ log_fits (lk_w k') (reqs (feed q' rest))).

Lemma read_turn k k1 q m :
  recv_frame (lk_w k) (lk_w k1) -> conn_live (lk_w k1) (feed q m) ->
  let rs := reqs (feed q (m ++ stream (lk_in k1))) in
  Forall (fun r => described r = true) rs -> log_fits (lk_w k) rs ->
  wp (on_world serve) (fun rt k' => lk_in k' = lk_in k1 /\ same_dims (lk_w k1) (lk_w k') /\
    turn_post k q m (stream (lk_in k1)) rt k') k1.
Proof.
  intros F L rs Hd Hl. subst rs. rewrite <- feed_feed in Hd, Hl.
  assert (req_wf (feed q m)) as Hwf by apply L.
  destruct (reqs_feed (feed q m) (stream (lk_in k1)) Hwf) as (rs2 & Ers & Hrs2). rewrite Ers in Hd, Hl.
  pose proof (requests_wf _ Hwf) as Hw. unfold reqs in Hd, Hl. destruct (requests (feed q m)) as [[rs1 st] q1] eqn:E1.
  cbn [fst] in Hd, Hl. destruct Hw as (_ & Hst & Hw). apply Forall_app in Hd as [Hd1 Hd2].
  pose proof (recv_frame_log _ _ _ F Hl) as Hl1.
  eapply wp_mono; [eapply serve_link; [exact L|exact E1|exact Hd1|]|].
  { intros H. destruct (Hl1 H) as [H1 H2]. by apply Forall_app in H1 as [H1 _]. }
  intros rt k2 (Sv & Dm & Ein). split; [done|]. split; [done|]. exists rs1, st, q1.
  split; [done|]. split; [by eapply served_recv|].
  destruct (served_codes _ _ _ _ _ _ Sv Hst) as [->| ->]; [|by left]. right.
  pose proof (served_st _ _ _ _ _ _ Sv eq_refl) as ->. specialize (Hrs2 rs1 q1 eq_refl). subst rs2.
  split_and!; [done|done|eapply served_live; [exact L|exact Sv|exact Dm|by apply Hw]|exact (requests_settled _ _ _ Hwf E1)|done|
    by eapply served_log_fits].
Qed.

(** A turn that goes on, and the rest of the loop. *)
Lemma turn_join k q m rest k1 k2 m2 rs3 st3 q3 rt3 q1 rs1 :
  req_wf (feed q m) -> stream (lk_in k) = m ++ rest -> rest = m2 ++ stream (lk_in k2) ->
  requests (feed q m) = (rs1, FK_SVR_OK, q1) -> served (lk_w k) rs1 FK_SVR_OK q1 FK_SVR_OK (lk_w k1) ->
  requests (feed q1 m2) = (rs3, st3, q3) -> served (lk_w k1) rs3 st3 q3 rt3 (lk_w k2) ->
  stream (lk_in k) = (m ++ m2) ++ stream (lk_in k2) /\ requests (feed q (m ++ m2)) = (rs1 ++ rs3, st3, q3) /\
  served (lk_w k) (rs1 ++ rs3) st3 q3 rt3 (lk_w k2).
Proof.
  intros Hwf Hin -> E1 S1 E3 S3. split; [by rewrite Hin, app_assoc|]. split; [|by eapply served_trans].
  rewrite <- feed_feed. pose proof (requests_feed (feed q m) m2 Hwf) as Hrf. rewrite E1 in Hrf.
  destruct Hrf as [Hrf _]. rewrite Hrf by done. by rewrite E3.
Qed.

Lemma read_loop_ok f : forall k q,
  conn_live (lk_w k) q -> settled q -> Forall open_packet (lk_in k) -> room_left k ->
  (read_size (lk_in k) < f)%nat ->
  let rs := reqs (feed q (stream (lk_in k))) in
  Forall (fun r => described r = true) rs -> log_fits (lk_w k) rs ->
  wp (read_loop f) (read_post k q) k.
Proof.
  induction f as [|f IH]; intros k q L Hset Ho Hr Hf rs Hd Hl; [lia|]. cbn [Conn.read_loop].
  eapply wp_seq; [by apply recv_data_ok|]. intros rt k1 (m & [Hin L1 F1 Ho1 Hr1 Hc]).
  destruct Hc as [(-> & Ein & ->)|(Hrt & Hm & Hsz)].
  { cbn. rewrite feed_nil in L1. split; [done|]. exists [], [], FK_SVR_OK, q. rewrite feed_nil.
    split_and!; try done.
    eapply served_recv; [exact F1|]. apply served_nil; (done || apply serve_frame_refl || apply L1). }
  assert ((rt =? FK_SVR_ERR) = false /\ (rt =? FK_SVR_AGAIN) = false) as [-> ->] by by destruct Hrt as [->| ->].
  unfold rs in Hd, Hl. rewrite Hin in Hd, Hl. pose proof (cl_wf _ _ L1) as Hwf.
  eapply wp_seq; [by apply (read_turn k)|]. intros rt1 k2 (Ein2 & Dm & rs1 & st & q1 & E1 & Sv & C).
  destruct (decide (rt1 = FK_SVR_OK /\ rt = FK_SVR_OK)) as [[-> ->]|Hstop].
  - destruct C as [C|(_ & -> & L2 & Hset2 & Hd2 & Hl2)]; [done|]. cbn.
    eapply wp_mono; [apply (IH k2 q1 L2 Hset2); rewrite ?Ein2; [done| |lia|done..]|].
    { unfold room_left, lk_rbuf, same_dims, buf_dims in *. injection Dm as -> _ _ ->. by rewrite Ein2. }
    intros rt2 k3 [Ho3 (m2 & rs3 & st3 & q3 & Hs3 & _ & E3 & Sv3 & L3)]. rewrite Ein2 in Hs3.
    split; [done|]. destruct (turn_join k q m _ k2 k3 m2 rs3 st3 q3 rt2 q1 rs1 Hwf Hin Hs3 E1 Sv E3 Sv3) as (H1 & H2 & H3).
    exists (m ++ m2), (rs1 ++ rs3), st3, q3. split_and!; try done. by intros [??]%app_eq_nil.
  - assert (read_post k q rt1 k2) as Hdone.
    { split; [by rewrite Ein2|]. exists m, rs1, st, q1. rewrite Ein2. split_and!; try done.
      intros ->. destruct C as [?|(_ & _ & ? & ? & _)]; done. }
    destruct C as [->|(-> & _)]; [exact Hdone|]. destruct Hrt as [->| ->]; [exact Hdone|by destruct Hstop].
Qed.
End read.

(** ** Any peer

    Whatever the peer sends or does, a read returns, and either the connection stays
    live or it is to be closed and can be. *)

Lemma recv_room_keeps b : buf_wf b -> 0 < blen b ->
  buf_wf (recv_room b) /\ payload (recv_room b) = payload b /\ 0 < blen (recv_room b).
Proof.
  intros H Hb. unfold recv_room. set (b1 := if _ <? _ then fk_buf_shift b else b).
  assert (buf_wf b1 /\ payload b1 = payload b /\ blen b1 = blen b) as (H1 & P1 & B1).
  { unfold b1. destruct (_ <? _); [|done]. split_and!; [by apply shift_wf|by apply payload_shift|].
    unfold fk_buf_shift. by destruct (0 <? low b). }
  clearbody b1. destruct (_ =? 0); [|by rewrite B1].
  split_and!; [by apply stretch_wf|by rewrite payload_stretch|].
  unfold fk_buf_stretch. destruct (_ <? _); cbn; rewrite ?Z.shiftl_mul_pow2; lia.
Qed.

(** The answers of [recv] and the stream. *)
Lemma recv_stream n p : 0 < n ->
  match recv n p with
  | (Received m, p') => stream p = m ++ stream p' /\ zlen m <= n /\ (m <> [] -> (read_size p' < read_size p)%nat)
  | (RecvNone, p') => p' = p
  | (RecvFailed, p') => stream p = stream p'
  end.
Proof.
  intros Hn. destruct p as [|[l| |] p]; cbn [recv]; [done| | |done].
  - destruct (zlen l <=? n) eqn:E; unfold read_size; cbn [stream fmap list_fmap concat].
    + split; [done|]. split; [lia|]. intros _. cbn. lia.
    + split; [unfold stream; cbn; by rewrite app_assoc, ztake_zdrop|]. split; [rewrite zlen_ztake; lia|]. intros _.
      assert (zlen (zdrop n l) = zlen l - n) as Hd by (apply zlen_zdrop; lia). cbn. unfold zlen in *. lia.
  - split; [done|]. split; [rewrite zlen_nil; lia|done].
Qed.

(** What one read leaves of a live connection. *)
Record recv_safe (k : link) (q : Req.t) (rt : Z) (k' : link) (m : bytes) : Prop := {
  ra_frame : recv_frame (lk_w k) (lk_w k');
  ra_stream : stream (lk_in k) = m ++ stream (lk_in k');
  ra_live : conn_live (lk_w k') (feed q m);
  ra_case : (rt = FK_SVR_ERR \/ rt = FK_SVR_AGAIN) /\ m = [] \/
     (rt = FK_SVR_DONE \/ rt = FK_SVR_OK) /\ m <> [] /\ (read_size (lk_in k') < read_size (lk_in k))%nat
}.

Lemma recv_data_safe k q : conn_live (lk_w k) q ->
  wp fk_conn_recv_data (fun rt k' => exists m, recv_safe k q rt k' m) k.
Proof.
  intros L. pose proof (cr_wf _ _ (cl_req _ _ L)) as Hwf. pose proof (cl_blen _ _ L) as Hb. fold (lk_rbuf k) in Hwf, Hb.
  destruct (recv_room_keeps (lk_rbuf k) Hwf Hb) as (W1 & P1 & B1).
  unfold wp, fk_conn_recv_data. set (b := recv_room (lk_rbuf k)) in *. clearbody b.
  pose proof (cr_pl _ _ (cl_req _ _ L)) as Hp. fold (lk_rbuf k) in Hp.
  assert (recv_frame (lk_w k) (lk_w (lk_set_rbuf k b))) as F
    by (exists b, (c_last_recv (w_conn (lk_w k))); by rewrite lk_set_rbuf_last).
  assert (conn_live (lk_w (lk_set_rbuf k b)) (feed q [])) as L0.
  { rewrite feed_nil, lk_set_rbuf_last. eapply set_rbuf_live; [exact L|done|congruence|done|apply L|done..]. }
  destruct (Z.eqb_spec (fk_buf_free_len b) 0) as [Hz|Hz]; [exists []; split; [exact F|done|exact L0|auto]|].
  assert (0 < fk_buf_free_len b) as Hfree by (unfold fk_buf_free_len in *; buf_lia W1).
  cbn [lk_in lk_set_rbuf lk_set_w]. pose proof (recv_stream (fk_buf_free_len b) (lk_in k) Hfree) as Hs.
  destruct (recv (fk_buf_free_len b) (lk_in k)) as [[m| |] p'].
  2: { subst p'. exists []. split; [exact F|done|exact L0|auto]. }
  2: { exists []. split; [exact F|exact Hs|exact L0|auto]. }
  destruct Hs as (Hst & Hl & Hsz). destruct (Z.eqb_spec (zlen m) 0) as [E|E].
  { assert (m = []) as -> by (destruct m; [done|rewrite zlen_cons in E; pose proof (zlen_nonneg m); lia]).
    exists []. split; [exact F|exact Hst|exact L0|auto]. }
  assert (m <> []) as Hm by (intros ->; by rewrite zlen_nil in E).
  exists m. split; cbn [lk_in lk_set_in lk_set_w lk_w]; [by eexists _, (lk_time k)|done| |].
  - apply (append_live (lk_w k) q b m (lk_time k)); (done || congruence).
  - right. split; [|split; [done|by apply Hsz]]. destruct (_ <? _); auto.
Qed.

Lemma recv_frame_serve w w' : recv_frame w w' -> serve_frame w w'.
Proof. intros (b & t & ->). split; [done|]. unfold svr_frame. by destruct w as [[] ?]. Qed.

Section any_peer.
Context (room : stdio) (fopen_ok rename_ok : bool).
Context (run_script : bytes -> list bytes -> list bytes -> ST world unit).
Abbreviation serve := (serve room fopen_ok rename_ok run_script).
Abbreviation served := (served room fopen_ok rename_ok run_script).
Abbreviation read_loop := (read_loop room fopen_ok rename_ok run_script).

(** What the loop of the read callback did: it took the bytes [m] and served the
    requests they complete, until one could not be answered ([rt'] is FK_SVR_ERR), or the
    peer failed. *)
Definition read_safe (k : link) (q : Req.t) (rt : Z) (k' : link) : Prop := exists m rs st q' rt',
  stream (lk_in k) = m ++ stream (lk_in k') /\ requests (feed q m) = (rs, st, q') /\
  served (lk_w k) rs st q' rt' (lk_w k') /\
  (rt = FK_SVR_ERR \/ rt = FK_SVR_OK /\ rt' = FK_SVR_OK /\ st = FK_SVR_OK /\ conn_live (lk_w k') q' /\ settled q').

(** No bytes were taken. *)
Lemma recv_nothing k q rt k' : settled q -> recv_frame (lk_w k) (lk_w k') ->
  stream (lk_in k) = stream (lk_in k') -> conn_live (lk_w k') q -> rt = FK_SVR_ERR \/ rt = FK_SVR_OK ->
  read_safe k q rt k'.
Proof.
  intros Hset F Hs L Hrt. exists [], [], FK_SVR_OK, q, FK_SVR_OK. rewrite feed_nil. split_and!; [done|done| |].
  - eapply served_recv; [exact F|]. apply served_nil; (done || apply serve_frame_refl || apply L).
  - destruct Hrt as [->| ->]; [by left|by right].
Qed.

Lemma read_loop_safe f : forall k q,
  conn_live (lk_w k) q -> settled q -> (read_size (lk_in k) < f)%nat ->
  let rs := reqs (feed q (stream (lk_in k))) in
  Forall (fun r => described r = true) rs -> log_fits (lk_w k) rs ->
  wp (read_loop f) (read_safe k q) k.
Proof.
  induction f as [|f IH]; intros k q L Hset Hf rs Hd Hl; [lia|]. cbn [Conn.read_loop].
  eapply wp_seq; [by apply recv_data_safe|]. intros rt k1 (m & [F1 Hin L1 Hc]).
  destruct Hc as [[Hrt ->]|(Hrt & Hm & Hsz)].
  { rewrite feed_nil in L1. destruct Hrt as [->| ->]; apply wp_ret; apply recv_nothing; auto. }
  assert ((rt =? FK_SVR_ERR) = false /\ (rt =? FK_SVR_AGAIN) = false) as [-> ->] by by destruct Hrt as [->| ->].
  unfold rs in Hd, Hl. rewrite Hin in Hd, Hl. pose proof (cl_wf _ _ L1) as Hwf.
  eapply wp_seq; [by apply (read_turn room fopen_ok rename_ok run_script k)|].
  intros rt1 k2 (Ein2 & Dm & rs1 & st & q1 & E1 & Sv & C).
  destruct (decide (rt1 = FK_SVR_OK /\ rt = FK_SVR_OK)) as [[-> ->]|Hstop].
  - destruct C as [C|(_ & -> & L2 & Hset2 & Hd2 & Hl2)]; [done|]. cbn.
    eapply wp_mono; [apply (IH k2 q1 L2 Hset2); rewrite ?Ein2; [lia|done..]|].
    intros rt2 k3 (m2 & rs3 & st3 & q3 & rt3 & Hs3 & E3 & Sv3 & C3). rewrite Ein2 in Hs3.
    destruct (turn_join room fopen_ok rename_ok run_script k q m _ k2 k3 m2 rs3 st3 q3 rt3 q1 rs1 Hwf Hin Hs3 E1 Sv E3 Sv3) as (H1 & H2 & H3).
    by exists (m ++ m2), (rs1 ++ rs3), st3, q3, rt3.
  - assert (read_safe k q rt1 k2) as Hdone.
    { exists m, rs1, st, q1, rt1. rewrite Ein2. split_and!; [done..|]. naive_solver. }
    destruct C as [->|(-> & _)]; [exact Hdone|]. destruct Hrt as [->| ->]; [exact Hdone|by destruct Hstop].
Qed.

Lemma read_all_safe k q :
  conn_live (lk_w k) q -> settled q ->
  let rs := reqs (feed q (stream (lk_in k))) in
  Forall (fun r => described r = true) rs -> log_fits (lk_w k) rs ->
  wp (read_all room fopen_ok rename_ok run_script) (read_safe k q) k.
Proof.
  intros L Hs rs Hd Hl. change (wp (read_loop (read_fuel (lk_in k))) (read_safe k q) k).
  apply read_loop_safe; try done. unfold read_fuel, read_size. lia.
Qed.
End any_peer.

(** ** Properties *)

(** C5. One run of the read callback on a live connection whose peer sends data and neither
    closes nor fails, when the commands are described (all but SAVE, EVAL and ZADD), the log, if
    there is one, can hold their arguments ([log_fits]) and the bytes do not reach the limit
    of the read buffer ([room_left]): whatever packets the
    bytes come in, it returns, takes a prefix of them from the socket (not the
    empty one if there are any), serves exactly the complete requests in what was
    left before and what it took, in order, with their replies one after the other
    in the write buffer, and leaves the connection ready for the next run or, when
    a request is malformed or the replies do not fit, to be closed. *)
Theorem read_serves_stream room fopen_ok rename_ok run_script k q :
  conn_live (lk_w k) q -> settled q -> Forall open_packet (lk_in k) -> room_left k ->
  let rs := reqs (feed q (stream (lk_in k))) in
  Forall (fun r => described r = true) rs -> log_fits (lk_w k) rs ->
  exists rt k', read_all room fopen_ok rename_ok run_script k = Some (rt, k') /\
    read_post room fopen_ok rename_ok run_script k q rt k'.
Proof.
  intros L Hs Ho Hr rs Hd Hl. apply wp_elim. unfold read_all, read_fuel.
  apply read_loop_ok; try done. unfold read_size. lia.
Qed.

(** A full read buffer at its limit is not compacted as long as at most three
    quarters of it are unread: the read fails, and the connection is closed,
    though [fk_buf_shift] would make room. *)
Theorem recv_data_at_highwat k :
  let b := lk_rbuf k in
  buf_wf b -> high b = blen b -> highwat b <= blen b -> 0 < low b ->
  fk_buf_payload_len b <= 3 * Z.shiftr (blen b) 2 ->
  fk_conn_recv_data k = Some (FK_SVR_ERR, k) /\ 0 < fk_buf_free_len (fk_buf_shift b).
Proof.
  intros b W Hh Hw Hl Hp. split.
  - unfold fk_conn_recv_data, recv_room. fold b. rewrite (proj2 (Z.ltb_ge _ _) Hp).
    unfold fk_buf_free_len. rewrite Hh, Z.sub_diag. cbn [Z.eqb]. unfold fk_buf_stretch.
    rewrite (proj2 (Z.ltb_ge _ _) Hw), Hh, Z.sub_diag. cbn [Z.eqb].
    unfold lk_set_rbuf, lk_set_w, b, lk_rbuf. by destruct k as [[? []] ? ?].
  - unfold fk_buf_shift, fk_buf_free_len. rewrite (proj2 (Z.ltb_lt _ _) Hl). cbn. lia.
Qed.

(** Three requests in two packets, cut in the middle of the second request. *)
Definition ex_pipeline : bytes :=
  encode [lit "SET"; lit "k"; lit "v"] ++ encode [lit "get"; lit "k"] ++ encode [lit "NOPE"].
Definition ex_link : link :=
  Link (ex_world []) [RecvData (ztake 40 ex_pipeline); RecvData (zdrop 40 ex_pipeline)] 7.

Lemma ex_world_live : conn_live (ex_world []) (init []).
Proof.
  pose proof ex_svr_inv as Hi. pose proof (si_dbcnt _ Hi). split.
  - split; [done|cbn; lia|]. split; [apply fk_buf_create_wf; unfold FK_BUF_INIT_LEN; lia| |];
      vm_compute; [split|]; congruence.
  - apply conn_idle_req, ex_conn_idle. vm_compute. congruence.
  - apply req_init_wf.
  - reflexivity.
Qed.

Lemma read_serves_stream_witness :
  reqs (feed (init []) (stream (lk_in ex_link))) =
    [[lit "SET"; lit "k"; lit "v"]; [lit "get"; lit "k"]; [lit "NOPE"]] /\
  exists rt k', read_all (disk_of 0) true true no_script ex_link = Some (rt, k') /\
    read_post (disk_of 0) true true no_script ex_link (init []) rt k'.
Proof.
  split; [vm_compute; reflexivity|].
  refine (read_serves_stream (disk_of 0) true true no_script ex_link (init []) ex_world_live
    init_nil_settled _ _ _ _).
  - repeat constructor; vm_compute; congruence.
  - vm_compute. reflexivity.
  - assert (reqs (feed (init []) (stream (lk_in ex_link))) =
      [[lit "SET"; lit "k"; lit "v"]; [lit "get"; lit "k"]; [lit "NOPE"]]) as -> by (vm_compute; reflexivity).
    repeat constructor.
  - intros H. vm_compute in H. discriminate H.
Defined.

(** A buffer of 16 bytes at its limit of 16, of which 8 are read. *)
Definition ex_full_buf : fk_buf := FkBuf 16 16 16 8 16 (replicate 16 (Some "x"%char)).
Definition ex_full_link : link := lk_set_rbuf ex_link ex_full_buf.

Lemma recv_data_at_highwat_witness :
  fk_conn_recv_data ex_full_link = Some (FK_SVR_ERR, ex_full_link) /\
  0 < fk_buf_free_len (fk_buf_shift (lk_rbuf ex_full_link)).
Proof.
  apply (recv_data_at_highwat ex_full_link).
  - split; vm_compute; congruence.
  - reflexivity.
  - vm_compute. congruence.
  - reflexivity.
  - vm_compute. congruence.
Defined.
