(* ===== verification/Load.v ===== *)
(** Models [fk_blog_init] and [fk_blog_load] of src/src/fk_svr_blog.c: the replay of
    the binary log when the server starts, which ends early when its replies fill the
    write buffer, and which does not know what connection sent a command. *)
From S2P Require Import Prelude Util Buf Dict Item Conf Svr Req Parse Store.
From S2P Require Import CmdStr CmdHash CmdList CmdDb Kdb KdbProps Blog Proto ProtoProps Stream Serve Conn.
Import Req.

(** ** Loading *)

(** [fk_conn_create(FK_CONN_FAKE_FD)]: a connection without socket and events;
    [now] is [time(NULL)]. *)
Definition fake_conn (max_wbuf now : Z) : fk_conn :=
  FkConn FK_CONN_FAKE_FD FK_CONN_FAKE 0 (fk_buf_create FK_BUF_INIT_LEN FK_BUF_HIGHWAT)
    (fk_buf_create FK_BUF_INIT_LEN max_wbuf) now (fk_vtr_create FK_VTR_INIT_LEN) 0 0 (-1) 0 0.

(** The open file is read from its start; [server.blog_conn] is the connection of
    the world. *)
Definition fk_blog_init (s : fk_svr) (file : bytes) (now : Z) : world :=
  World (sv_set_blog s (BlogFile (Some <$> file) 0)) (fake_conn (cf_max_wbuf (sv_setting s)) now).

Section server.
Context (room : stdio) (fopen_ok rename_ok : bool).
Context (run_script : bytes -> list bytes -> list bytes -> ST world unit).
Abbreviation serve := (serve room fopen_ok rename_ok run_script).

Definition shrink_conn (c : fk_conn) : fk_conn :=
  cn_arg_vtr (cn_rbuf c (fk_buf_shrink (c_rbuf c))) (fk_vtr_shrink (c_arg_vtr c)).

(** [while (again == 1)]; a turn that goes on read bytes. *)
Fixpoint blog_load_loop (fuel : nat) : ST world unit :=
  match fuel with
  | O => fun _ => None
  | S f =>
      rt ← fk_blog_read_data;
      if rt =? FK_SVR_ERR then mret tt
      else
        let again := negb (rt =? FK_SVR_DONE) in
        rt ← serve;
        if rt =? FK_SVR_ERR then mret tt
        else
          _ ← mod_conn shrink_conn;
          if (again : bool) then blog_load_loop f else mret tt
  end.

(** The bytes of the log that were not read. *)
Definition unread (w : world) : list cell := zdrop (bf_off (sv_blog (w_svr w))) (bf_data (sv_blog (w_svr w))).

Definition fk_blog_load : ST world unit := fun w => blog_load_loop (S (S (length (unread w)))) w.
End server.

(** ** Reading the log *)

(** The bytes [rest] are the unread part of the log, and reading them does not
    reach the limit of the read buffer. *)
Record log_at (w : world) (rest : bytes) : Prop := {
  la_off : 0 <= bf_off (sv_blog (w_svr w));
  la_rest : unread w = Some <$> rest;
  la_room : high (c_rbuf (w_conn w)) + zlen rest < highwat (c_rbuf (w_conn w))
}.

(** A read changes the read buffer and the offset of the file. *)
Definition read_frame (w w' : world) : Prop :=
  exists b f, w' = World (sv_set_blog (w_svr w) f) (cn_rbuf (w_conn w) b).

Lemma read_frame_live w w' q q' :
  conn_live w q -> read_frame w w' -> buf_wf (c_rbuf (w_conn w')) ->
  payload (c_rbuf (w_conn w')) = Some <$> pl q' -> 0 < blen (c_rbuf (w_conn w')) -> req_wf q' ->
  parsed q' = parsed q -> cur q' = cur q -> args q' = args q -> conn_live w' q'.
Proof.
  intros [[[]] [] W _] (b & f & ->) Hb Hp Hl Hw E1 E2 E3. cbn in *.
  split; [split; [by split|done|done]| |done|done].
  split; cbn; rewrite ?E1, ?E2, ?E3; done.
Qed.

Record log_read (w : world) (q : Req.t) (rest : bytes) (rt : Z) (w' : world) (m rest' : bytes) : Prop := {
  lr_rest : rest = m ++ rest';
  lr_at : log_at w' rest';
  lr_live : conn_live w' (feed q m);
  lr_frame : read_frame w w';
  lr_data : bf_data (sv_blog (w_svr w')) = bf_data (sv_blog (w_svr w)) /\
    init_len (c_rbuf (w_conn w')) = init_len (c_rbuf (w_conn w));
  lr_code : rt = FK_SVR_DONE /\ rest' = [] \/ rt = FK_SVR_OK /\ m <> []
}.

Lemma unread_step f n rest :
  0 <= bf_off f -> zdrop (bf_off f) (bf_data f) = Some <$> rest -> 0 <= n <= zlen rest ->
  zdrop (bf_off f + n) (bf_data f) = Some <$> zdrop n rest.
Proof.
  intros H0 H Hn. replace (bf_off f + n) with (n + bf_off f) by lia.
  rewrite <- zdrop_zdrop by lia. rewrite H. unfold zdrop. by rewrite fmap_drop.
Qed.

(** The first [n] bytes and the rest, which is empty if there are fewer than [n]. *)
Lemma chunk {A} (n : Z) (l : list A) : 0 <= n -> let m := ztake n l in
  zlen m <= n /\ zlen m <= zlen l /\ (zlen m < n -> zdrop (zlen m) l = []) /\ l = m ++ zdrop (zlen m) l.
Proof.
  intros Hn m. destruct (decide (zlen l <= n)) as [Hle|Hgt].
  - assert (m = l) as -> by (unfold m; by rewrite ztake_all by lia). split; [done|]. split; [done|].
    assert (zdrop (zlen l) l = []) as -> by (unfold zdrop, zlen; apply drop_ge; lia). by rewrite app_nil_r.
  - assert (zlen m = n) as -> by (unfold m; rewrite zlen_ztake; lia). split; [done|]. split; [lia|]. split; [lia|].
    unfold m. by rewrite ztake_zdrop.
Qed.

(** Received bytes in a buffer with room for them. *)
Lemma high_inc_dims b (m : bytes) : zlen m <= fk_buf_free_len b ->
  let b' := fk_buf_append b (Some <$> m) in
  blen b' = blen b /\ high b' = high b + zlen m /\ highwat b' = highwat b /\ init_len b' = init_len b.
Proof.
  intros Hm. unfold fk_buf_append, fk_buf_high_inc, fk_buf_free_len in *. cbn. rewrite zlen_map, (proj2 (Z.ltb_ge _ _)) by lia. done.
Qed.

Lemma blog_read_ok w q rest :
  conn_live w q -> log_at w rest ->
  wp fk_blog_read_data (fun rt w' => exists m rest', log_read w q rest rt w' m rest') w.
Proof.
  intros L [H0 Hr Hroom]. pose proof (zlen_nonneg rest) as Hz.
  pose proof (cr_wf _ _ (cl_req _ _ L)) as Hwf. pose proof (cr_pl _ _ (cl_req _ _ L)) as Hp.
  destruct (recv_room_spec (c_rbuf (w_conn w)) Hwf (cl_blen _ _ L) ltac:(lia))
    as (W1 & P1 & F1 & H1 & G1 & B1 & I1).
  unfold wp, fk_blog_read_data. fold (recv_room (c_rbuf (w_conn w))).
  set (b := recv_room (c_rbuf (w_conn w))) in *. clearbody b.
  rewrite (proj2 (Z.eqb_neq (fk_buf_free_len b) 0)) by lia.
  unfold unread in Hr. rewrite Hr.
  set (n := fk_buf_free_len b) in *. set (m := ztake n rest).
  assert (ztake n (Some <$> rest) = Some <$> m) as -> by (unfold m, ztake; by rewrite fmap_take).
  rewrite zlen_map. destruct (chunk n rest ltac:(lia)) as (Hmn & Hmr & Hend & Hrest). fold m in Hmn, Hmr, Hend, Hrest.
  pose proof (zlen_nonneg m) as Hm0.
  pose proof (unread_step (sv_blog (w_svr w)) (zlen m) rest H0 Hr ltac:(lia)) as Hnext.
  destruct (zlen m =? 0) eqn:Em.
  - apply Z.eqb_eq in Em. assert (m = []) as Enil by by apply zlen_0.
    exists [], rest. rewrite Em in Hend, Hnext. rewrite zdrop_0 in Hnext, Hend.
    split; [done| | | |by split|left; split; [done|]; apply Hend; lia].
    + split; cbn; [lia|rewrite Em; exact Hnext|]. lia.
    + rewrite feed_nil. eapply read_frame_live; [exact L|by eexists _, _|done|cbn; congruence|done|apply L|done..].
    + by eexists _, _.
  - set (b' := fk_buf_high_inc _ _).
    assert (b' = fk_buf_append b (Some <$> m)) as Eb by (unfold b', fk_buf_append; by rewrite zlen_map).
    assert (zlen (Some <$> m) <= fk_buf_free_len b) as Hl' by by rewrite zlen_map.
    destruct (high_inc_dims b m Hmn) as (D1 & D2 & D3 & D4). rewrite <- Eb in D1, D2, D3, D4.
    clearbody b'. exists m, (zdrop (zlen m) rest).
    split; [done| | | |split; [done|cbn; congruence]|].
    + split; cbn; [lia|exact Hnext|]. rewrite D2, D3, zlen_zdrop by lia. lia.
    + eapply read_frame_live; [exact L|by eexists _, _|..]; cbn [w_conn cn_rbuf c_rbuf]; try done.
      * rewrite Eb. by apply append_wf.
      * rewrite Eb, payload_append by done. cbn. rewrite fmap_app. congruence.
      * by rewrite D1.
      * apply feed_wf, L.
    + by eexists _, _.
    + destruct (zlen m <? n) eqn:E; [left; split; [done|apply Hend; lia]|right].
      split; [done|]. intros ->. by rewrite zlen_nil in Em.
Qed.

(** ** Replaying *)

Section replay.
Context (room : stdio) (fopen_ok rename_ok : bool).
Context (run_script : bytes -> list bytes -> list bytes -> ST world unit).
Abbreviation served := (served room fopen_ok rename_ok run_script).
Abbreviation session := (session room fopen_ok rename_ok run_script).
Abbreviation serve := (serve room fopen_ok rename_ok run_script).
Abbreviation blog_load_loop := (blog_load_loop room fopen_ok rename_ok run_script).

(** A session on a connection that does not log writes nothing. *)
Lemma session_off now dbcnt rs a out log rt a' :
  session false now dbcnt rs a out log rt a' -> log = [].
Proof. induction 1 as [|? ? ? ? ? ? b ? ? ? ? ? _ _ _ ->|]; try done. by destruct b. Qed.

(** What the replay of [rs] did, the offset of the log apart. *)
Record replayed (w : world) (rs : list (list bytes)) (q' : Req.t) (rt : Z) (w' : world) : Prop := {
  ry_ok : world_ok w';
  ry_frame : serve_frame w w';
  ry_run : exists out,
    session false (millis w) (sv_dbcnt (w_svr w)) rs (abs w) out [] rt (abs w') /\
    answered (c_wbuf (w_conn w)) (c_wbuf (w_conn w')) rt out /\
    bf_data (sv_blog (w_svr w')) = bf_data (sv_blog (w_svr w))
  }.

Lemma replayed_refl w q : world_ok w -> replayed w [] q FK_SVR_OK w.
Proof.
  intros W. split; [done|apply serve_frame_refl|]. exists []. split_and!; [constructor| |done].
  apply answered_refl, W.
Qed.

Lemma replayed_trans w1 rs1 q1 w2 rs2 q2 rt w3 :
  replayed w1 rs1 q1 FK_SVR_OK w2 -> replayed w2 rs2 q2 rt w3 -> replayed w1 (rs1 ++ rs2) q2 rt w3.
Proof.
  intros [O1 F1 (out1 & S1 & A1 & L1)] [O2 F2 (out2 & S2 & A2 & L2)].
  destruct (serve_frame_clock _ _ F1) as [Hm Hd]. rewrite Hm, Hd in S2.
  split; [done|by eapply serve_frame_trans|]. exists (out1 ++ out2).
  split_and!; [|by eapply answered_trans|congruence]. change ([] : bytes) with (@nil ascii ++ []).
  by eapply session_app.
Qed.

Lemma replayed_cut w rs1 q1 w' rs2 q2 :
  replayed w rs1 q1 FK_SVR_ERR w' -> replayed w (rs1 ++ rs2) q2 FK_SVR_ERR w'.
Proof.
  intros [O F (out & S & A & L)]. split; [done|done|]. exists out.
  split_and!; [by apply session_cut|done|done].
Qed.

Lemma replayed_served w rs q' rt w' :
  logging w = false -> served w rs FK_SVR_OK q' rt w' -> replayed w rs q' rt w'.
Proof.
  intros Hl [O F _ (out & log & rt1 & S & A & L & E & _)]. rewrite Hl in S.
  pose proof (session_off _ _ _ _ _ _ _ _ S) as ->.
  assert (rt = rt1) as -> by (destruct (session_codes _ _ _ _ _ _ _ _ _ _ _ _ _ S) as [->| ->]; done).
  split; [done|done|]. exists out. split_and!; [done|done|]. rewrite L, logged_nil. done.
Qed.

(** Reading and shrinking do not touch what a replay is about. *)
Lemma replayed_frame w1 w2 rs q rt w3 w4 :
  read_frame w1 w2 -> bf_data (sv_blog (w_svr w2)) = bf_data (sv_blog (w_svr w1)) ->
  replayed w2 rs q rt w3 ->
  w_svr w4 = w_svr w3 -> (exists b v, w_conn w4 = cn_arg_vtr (cn_rbuf (w_conn w3) b) v) ->
  replayed w1 rs q rt w4.
Proof.
  intros (b1 & f1 & ->) Hb [[O1 O2 O3] F R] Hs (b & v & Hc). destruct w3 as [s3 c3], w4 as [s4 c4].
  cbn in Hs, Hc. subst s4 c4. split.
  - by split.
  - destruct F as [F1 F2]. split; [exact F1|]. destruct w1 as [[] c1], s3. unfold_frame. injection F2 as -> -> -> -> -> -> -> -> ->. done.
  - destruct R as (out & S & A & L). exists out. split_and!; [exact S|exact A|etransitivity; [exact L|exact Hb]].
Qed.

(** *** The state between two reads *)

(** At most as many arguments are under way as the shrunk vector holds. *)
Record load_live (w : world) (q : Req.t) : Prop := {
  ll_live : conn_live w q;
  ll_settled : settled q;
  ll_init : v_init_len (c_arg_vtr (w_conn w)) = FK_VTR_INIT_LEN;
  ll_buf : 0 < init_len (c_rbuf (w_conn w));
  ll_off : logging w = false
  }.

Lemma shrink_blen b : 0 < blen b -> 0 < init_len b ->
  0 < blen (fk_buf_shrink b) /\ highwat (fk_buf_shrink b) = highwat b /\ init_len (fk_buf_shrink b) = init_len b.
Proof.
  intros H1 H2. unfold fk_buf_shrink, fk_buf_shift. destruct (_ && _); [|done].
  destruct (0 <? low b); done.
Qed.

Lemma shrink_high b : buf_wf b -> high (fk_buf_shrink b) <= high b.
Proof.
  intros H. unfold fk_buf_shrink, fk_buf_shift. destruct (_ && _); [|lia].
  destruct (0 <? low b) eqn:E; cbn; buf_lia H.
Qed.

Lemma shrink_conn_req c q :
  conn_req c q -> parsed q <= v_init_len (c_arg_vtr c) -> zlen (args q) <= parsed q ->
  conn_req (shrink_conn c) q.
Proof.
  intros R Hp Ha. destruct (fk_vtr_shrink_get (c_arg_vtr c) 0 (parsed q) Hp (cr_vtr _ _ R)) as [Hl _].
  destruct R as [W P Pa Cu Cn At Vt]. split; cbn; try done.
  - by apply shrink_wf.
  - by rewrite payload_shrink.
  - intros i a Hi. destruct (At i a Hi) as [id Hid]. exists id. rewrite <- Hid.
    destruct (fk_vtr_shrink_get (c_arg_vtr c) i (parsed q) Hp Vt) as [_ Hg]. apply Hg.
    unfold znth in Hi. destruct (i <? 0) eqn:E; [done|]. apply lookup_lt_Some in Hi. unfold zlen in Ha. lia.
Qed.

Lemma req_ok_args q : req_ok q -> zlen (args q) <= parsed q.
Proof. intros [_ _ [?|(? & -> & _)]]; [lia|]. rewrite zlen_nil. lia. Qed.

(** A turn that goes on leaves the connection live. *)
Lemma shrink_live w q rest :
  load_live w q -> log_at w rest -> parsed q <= FK_VTR_INIT_LEN ->
  let w' := w_set_conn w (shrink_conn (w_conn w)) in load_live w' q /\ log_at w' rest.
Proof.
  intros [L S I B O] [A1 A2 A3] Hp. pose proof (cr_wf _ _ (cl_req _ _ L)) as W.
  destruct (shrink_blen (c_rbuf (w_conn w)) (cl_blen _ _ L) B) as (B1 & H1 & I1).
  pose proof (shrink_high _ W). split.
  - split; [|done|cbn; by rewrite fk_vtr_shrink_init|cbn; lia|done].
    destruct L as [[] R Wq _]. split; [by split| |done|exact B1].
    apply shrink_conn_req; [done|lia|by apply req_ok_args, Wq].
  - split; [done|done|cbn; lia].
Qed.

(** The number of arguments under way is that of a request of the log. *)
Lemma few_under_way q1 rest rs q2 :
  req_wf q1 -> requests (feed q1 rest) = (rs, FK_SVR_OK, q2) ->
  Forall (fun r => zlen r <= FK_VTR_INIT_LEN) rs -> parsed q2 <= FK_VTR_INIT_LEN ->
  parsed q1 <= FK_VTR_INIT_LEN.
Proof.
  intros Hw E Hr H2. destruct (ro_args _ (rw_ok _ Hw)) as [Hc|(-> & _)]; [|unfold FK_VTR_INIT_LEN; lia].
  destruct (requests_counted q1 rest rs q2 Hw Hc E) as [(r & l & -> & <-)|[_ <-]]; [|done].
  by apply Forall_cons in Hr as [Hr _].
Qed.

Lemma serve_world w q rs q' :
  conn_live w q -> requests q = (rs, FK_SVR_OK, q') ->
  Forall (fun r => described r = true) rs -> logging w = false ->
  wp serve (fun rt w' => served w rs FK_SVR_OK q' rt w' /\ same_dims w w') w.
Proof.
  intros [O R W _] E Hd Hl.
  pose proof (serve_ok room fopen_ok rename_ok run_script w q O R W) as H. rewrite E in H.
  apply H; [done|]. intros H2. by rewrite Hl in H2.
Qed.

Lemma served_off w rs q' w' : served w rs FK_SVR_OK q' FK_SVR_OK w' -> logging w = false ->
  sv_blog (w_svr w') = sv_blog (w_svr w).
Proof.
  intros [_ _ _ (out & log & rt1 & S & _ & L & _)] Hl. rewrite Hl in S.
  pose proof (session_off _ _ _ _ _ _ _ _ S) as ->. by rewrite L, logged_nil.
Qed.

(** After a turn that served: the state the next one finds. *)
Lemma blog_load_turn w w1 w2 q m rest' rs1 q1 :
  load_live w q -> read_frame w w1 -> conn_live w1 (feed q m) -> log_at w1 rest' ->
  init_len (c_rbuf (w_conn w1)) = init_len (c_rbuf (w_conn w)) ->
  requests (feed q m) = (rs1, FK_SVR_OK, q1) -> parsed q1 <= FK_VTR_INIT_LEN ->
  served w1 rs1 FK_SVR_OK q1 FK_SVR_OK w2 -> same_dims w1 w2 ->
  let w3 := w_set_conn w2 (shrink_conn (w_conn w2)) in load_live w3 q1 /\ log_at w3 rest'.
Proof.
  intros LL Fr L1 [A1 A2 A3] Ei E Hp Sv Dm.
  assert (req_wf (feed q m)) as Hwf by apply L1.
  pose proof (requests_wf _ Hwf) as Hq. rewrite E in Hq. destruct Hq as (_ & _ & Hq).
  assert (logging w1 = false) as Hlog by (destruct Fr as (? & ? & ->); apply LL).
  pose proof (served_off _ _ _ _ Sv Hlog) as Hb.
  pose proof (served_live _ _ _ _ _ _ _ _ _ _ L1 Sv Dm (Hq eq_refl)) as L2.
  unfold same_dims, buf_dims in Dm. injection Dm as D1 D2 D3 D4 D5.
  apply shrink_live; [split|split|done].
  - done.
  - exact (requests_settled _ _ _ Hwf E).
  - rewrite D5. destruct Fr as (? & ? & ->). apply LL.
  - rewrite D2, Ei. apply LL.
  - rewrite (serve_frame_logging _ _ (sd_frame _ _ _ _ _ _ _ _ _ _ Sv)). done.
  - by rewrite Hb.
  - unfold unread. by rewrite Hb.
  - by rewrite D1, D4.
Qed.

Lemma blog_load_loop_ok f : forall w q rest rs q2,
  load_live w q -> log_at w rest -> (length rest < f)%nat ->
  requests (feed q rest) = (rs, FK_SVR_OK, q2) -> parsed q2 <= FK_VTR_INIT_LEN ->
  Forall (fun r => described r = true) rs -> Forall (fun r => zlen r <= FK_VTR_INIT_LEN) rs ->
  wp (blog_load_loop f) (fun _ w' => exists rt, replayed w rs q2 rt w' /\ (rt = FK_SVR_OK -> unread w' = [])) w.
Proof.
  induction f as [|f IH]; intros w q rest rs q2 LL A Hf E H2 Hd Hs; [lia|]. cbn [Load.blog_load_loop].
  eapply wp_seq; [by apply blog_read_ok; [apply LL|]|]. intros rt w1 (m & rest' & [-> A1 L1 Fr [Hdata Hinit] Hc]).
  rewrite <- feed_feed in E. assert (req_wf (feed q m)) as Hwf by apply L1.
  pose proof (requests_feed (feed q m) rest' Hwf) as Hrf. pose proof (requests_wf _ Hwf) as Hrw.
  destruct (requests (feed q m)) as [[rs1 st1] q1] eqn:E1.
  destruct Hrf as [Hok Herr], Hrw as (_ & [->| ->] & Hw1).
  2: { destruct (Herr eq_refl) as [? E3]. rewrite E3 in E. discriminate E. }
  specialize (Hok eq_refl). specialize (Hw1 eq_refl). clear Herr. rewrite Hok in E.
  destruct (requests (feed q1 rest')) as [[rs2 st2] q3] eqn:E3. cbn in E. injection E as <- -> ->.
  apply Forall_app in Hd as [Hd1 Hd2], Hs as [Hs1 Hs2].
  assert (rt <> FK_SVR_ERR) as Hn by (destruct Hc as [[-> _]|[-> _]]; done).
  rewrite (proj2 (Z.eqb_neq _ _) Hn).
  assert (logging w1 = false) as Hlog by (destruct Fr as (? & ? & ->); apply LL).
  eapply wp_seq; [by eapply serve_world|]. intros rt1 w2 [Sv Dm].
  pose proof (replayed_served _ _ _ _ _ Hlog Sv) as Ry.
  destruct (served_codes _ _ _ _ _ _ _ _ _ _ Sv ltac:(by left)) as [->| ->];
    cbn [FK_SVR_OK FK_SVR_ERR Z.eqb].
  2: { apply wp_ret. exists FK_SVR_ERR. split; [|done]. apply (replayed_cut _ _ q1).
       eapply replayed_frame; [exact Fr|exact Hdata|exact Ry|done|].
       exists (c_rbuf (w_conn w2)), (c_arg_vtr (w_conn w2)). by destruct (w_conn w2). }
  eapply wp_step; [reflexivity|]. cbn beta.
  pose proof (few_under_way _ _ _ _ Hw1 E3 Hs2 H2) as Hp1.
  set (w3 := w_set_conn w2 (shrink_conn (w_conn w2))).
  assert (replayed w rs1 q1 FK_SVR_OK w3) as Ry3.
  { eapply replayed_frame; [exact Fr|exact Hdata|exact Ry|done|]. by eexists _, _. }
  destruct (blog_load_turn w w1 w2 q m rest' rs1 q1 LL Fr L1 A1 Hinit E1 Hp1 Sv Dm) as [LL3 A3].
  destruct Hc as [[-> ->]|[-> Hm]]; cbn [FK_SVR_DONE FK_SVR_OK Z.eqb Pos.eqb negb].
  - apply wp_ret. exists FK_SVR_OK. rewrite feed_nil in E3.
    pose proof (ll_settled _ _ LL3) as Hset. unfold settled in Hset. rewrite Hset in E3.
    injection E3 as <- <-. rewrite app_nil_r. split; [done|]. intros _. apply A3.
  - eapply wp_mono.
    { eapply (IH w3 q1 rest' rs2 q2); try done.
      rewrite length_app in Hf. destruct m; [done|]. cbn in Hf. lia. }
    intros _ w4 (rt4 & H4 & U4). exists rt4. split; [by eapply replayed_trans|done].
Qed.
End replay.

(** ** Properties *)

Lemma fake_conn_live s file now :
  svr_inv s -> 0 <= cf_max_wbuf (sv_setting s) <= WBUF_HIGHWAT_MAX ->
  load_live (fk_blog_init s file now) (init []).
Proof.
  intros Hs Hm. pose proof (si_dbcnt _ Hs).
  assert (buf_wf (fk_buf_create FK_BUF_INIT_LEN FK_BUF_HIGHWAT)) as Hr
    by (apply fk_buf_create_wf; unfold FK_BUF_INIT_LEN; lia).
  split; [split| | | |].
  - split; [by destruct Hs; split|cbn; unfold sv_dbcnt in *; cbn; lia|].
    split; [apply fk_buf_create_wf; unfold FK_BUF_INIT_LEN; lia|done|].
    cbn. unfold RSP_MAX, FK_BUF_INIT_LEN. lia.
  - apply conn_idle_req. by split.
  - apply req_init_wf.
  - reflexivity.
  - apply init_nil_settled.
  - reflexivity.
  - reflexivity.
  - unfold logging. cbn. apply andb_false_r.
Qed.

Lemma init_log_at s file now :
  zlen file < FK_BUF_HIGHWAT -> log_at (fk_blog_init s file now) file.
Proof. intros H. split; cbn; [lia|done|]. unfold FK_BUF_HIGHWAT in *. lia. Qed.

Lemma blog_load_ok room fopen_ok rename_ok run_script s rs now :
  svr_inv s -> 0 <= cf_max_wbuf (sv_setting s) <= WBUF_HIGHWAT_MAX ->
  Forall (fun r => Forall arg_ok r /\ 1 <= zlen r <= FK_VTR_INIT_LEN /\ described r = true) rs ->
  let file := concat (encode <$> rs) in zlen file < FK_BUF_HIGHWAT -> let w := fk_blog_init s file now in
  wp (fk_blog_load room fopen_ok rename_ok run_script)
    (fun _ w' => exists rt, replayed room fopen_ok rename_ok run_script w rs (init []) rt w' /\
      (rt = FK_SVR_OK -> unread w' = [])) w.
Proof.
  intros Hs Hm Hrs file Hl w.
  assert (requests (feed (init []) file) = (rs, FK_SVR_OK, init [])) as E.
  { change (feed (init []) file) with (init file). pose proof (requests_encode rs []) as H.
    rewrite app_nil_r in H. unfold file. rewrite H.
    { change (requests (init [])) with (@nil (list bytes), FK_SVR_OK, init []). cbn. by rewrite app_nil_r. }
    eapply Forall_impl; [exact Hrs|]. intros r (? & ? & _). unfold FK_VTR_INIT_LEN, FK_ARG_CNT_HIGHWAT in *.
    split; [done|lia]. }
  unfold fk_blog_load. eapply blog_load_loop_ok; [by apply fake_conn_live|by apply init_log_at| |exact E|done| |].
  - unfold unread. cbn [w fk_blog_init w_svr sv_blog sv_set_blog bf_off bf_data]. rewrite zdrop_0, length_fmap. lia.
  - eapply Forall_impl; [exact Hrs|]. by intros r (_ & _ & ?).
  - eapply Forall_impl; [exact Hrs|]. intros r (_ & ? & _). lia.
Qed.

(** C15. The replay of the log: the requests of a log of complete, described requests of
    at most four arguments, shorter than the limit of the read buffer (4 MB), are
    executed in order, whatever their alignment to the reads, on the store the server
    starts with, without being logged again, until the replies, which nobody takes, fill
    the write buffer ([max_wbuf]): the replay ends there, with FK_SVR_ERR (see
    [blog_load_stops]); if they do not, all requests are executed and the log is read to
    its end. *)
Theorem blog_load_replays room fopen_ok rename_ok run_script s rs now :
  svr_inv s -> 0 <= cf_max_wbuf (sv_setting s) <= WBUF_HIGHWAT_MAX ->
  Forall (fun r => Forall arg_ok r /\ 1 <= zlen r <= FK_VTR_INIT_LEN /\ described r = true) rs ->
  let file := concat (encode <$> rs) in zlen file < FK_BUF_HIGHWAT ->
  let w := fk_blog_init s file now in
  exists w' rt out, fk_blog_load room fopen_ok rename_ok run_script w = Some (tt, w') /\
    session room fopen_ok rename_ok run_script false (millis w) (sv_dbcnt s) rs (abs w) out [] rt (abs w') /\
    answered (c_wbuf (w_conn w)) (c_wbuf (w_conn w')) rt out /\
    bf_data (sv_blog (w_svr w')) = Some <$> file /\
    (rt = FK_SVR_OK /\ unread w' = [] \/ rt = FK_SVR_ERR /\ cf_max_wbuf (sv_setting s) <= blen (c_wbuf (w_conn w'))).
Proof.
  intros Hs Hm Hrs file Hl w.
  pose proof (blog_load_ok room fopen_ok rename_ok run_script s rs now Hs Hm Hrs Hl) as H.
  apply wp_elim in H as ([] & w' & Hw & rt & [_ _ (out & S & A & L)] & U).
  exists w', rt, out. do 4 (split; [done|]). destruct A as (_ & Hh & _ & [[-> _]|(-> & _ & Hf)]); [left; auto|right].
  split; [done|]. rewrite Hh in Hf. exact Hf.
Qed.

(** An empty log is left alone. *)
Lemma blog_load_empty room fopen_ok rename_ok run_script s now :
  let w := fk_blog_init s [] now in
  fk_blog_load room fopen_ok rename_ok run_script w = Some (tt, w_set_conn w (shrink_conn (w_conn w))).
Proof.
  intros w.
  assert (fk_blog_read_data w = Some (FK_SVR_DONE, w)) as Hr by reflexivity.
  assert (serve room fopen_ok rename_ok run_script w = Some (FK_SVR_OK, w)) as Hs by reflexivity.
  unfold fk_blog_load. change (unread w) with (@nil cell). cbn [length blog_load_loop]. unfold mbind, ST_bind at 1.
  rewrite Hr. cbn [FK_SVR_DONE FK_SVR_ERR Z.eqb Pos.eqb negb]. unfold mbind, ST_bind at 1. by rewrite Hs.
Qed.

(** A server that keeps at most 32 bytes of replies. *)
Definition ex_small : fk_svr :=
  FkSvr (set_max_wbuf fk_conf_default 32) 0 (sv_db ex_svr) (sv_expdb ex_svr) fk_item_init (-1) (-1) 0 0
    (BlogFile [] 0) None (fun _ => Timeval 0 0) 0 ex_lua_conn.

(** Nobody takes the replies of the connection that replays the log: as soon as they
    fill its write buffer, the replay ends.  With a limit of 32 bytes (4096 by default)
    and a log of seven times SET a and then SET b, it ends at the seventh command, for
    whose reply there is no room: after the restart there is no b; and the log is left
    open where the last read ended, before its end, so that the next command that is
    logged overwrites what was not read. *)
Theorem blog_load_stops :
  let set k v := encode [lit "SET"; lit k; lit v] in
  let file := concat (replicate 7 (set "a" "1")%string) ++ concat (replicate 7 (set "b" "2")%string) in
  exists w, fk_blog_load (disk_of 0) true true no_script (fk_blog_init ex_small file 0) = Some (tt, w) /\
    adb (abs w) 0 !! lit "a" = Some (VStr (lit "1")) /\ adb (abs w) 0 !! lit "b" = None /\
    bf_data (sv_blog (w_svr w)) = Some <$> file /\ bf_off (sv_blog (w_svr w)) < zlen file.
Proof. eexists. split_and!; vm_compute; reflexivity. Qed.

(** *** Which database a logged command goes to *)

Section mixed.
Context (room : stdio) (fopen_ok rename_ok : bool).
Context (run_script : bytes -> list bytes -> list bytes -> ST world unit).
Abbreviation proc_cmd := (fk_conn_proc_cmd room fopen_ok rename_ok run_script).
Abbreviation request := (request room fopen_ok rename_ok run_script).
Abbreviation session := (session room fopen_ok rename_ok run_script).

Lemma request_select now dbcnt n a : 0 <= atoi n < dbcnt ->
  request now dbcnt (lit "SELECT") [n] a = Some (status_rsp FK_RSP_OK, to (put_idx (atoi n) a), true).
Proof. intros H. unfold ProtoProps.request, exec_any, exec. simpl. by destruct (decide _). Qed.

Lemma request_set now dbcnt k v a :
  request now dbcnt (lit "SET") [k; v] a = Some (status_rsp FK_RSP_OK, to (Spec.set k v a), true).
Proof. reflexivity. Qed.

(** What a SELECT and a SET of one connection do to a store. *)
Lemma session_select_set on now dbcnt n k v a out log a' : 0 <= atoi n < dbcnt ->
  session on now dbcnt [[lit "SELECT"; n]; [lit "SET"; k; v]] a out log FK_SVR_OK a' ->
  a' = Spec.set k v (put_idx (atoi n) a).
Proof.
  intros Hn H. inversion H as [|? ? ? ? ? ? ? ? ? ? ? ? Hr1 Ha1 H1|]; subst.
  rewrite request_select in Hr1 by done. injection Hr1 as <- <- <-. unfold to in Ha1. subst.
  inversion H1 as [|? ? ? ? ? ? ? ? ? ? ? ? Hr2 Ha2 H2|]; subst.
  rewrite request_set in Hr2. injection Hr2 as <- <- <-. unfold to in Ha2. subst. by inversion H2.
Qed.

Lemma adb_set_same k v a : 0 <= a_idx a < zlen (a_db a) -> adb (Spec.set k v a) (a_idx a) = <[k := VStr v]> (cur_db a).
Proof. intros Hi. unfold Spec.set, put_cur, adb, put_db; cbn. by rewrite znth_zupd_eq. Qed.

Lemma adb_set_other k v a i : 0 <= a_idx a -> i <> a_idx a -> adb (Spec.set k v a) i = adb a i.
Proof. intros Hi Hn. unfold Spec.set, put_cur, adb, put_db; cbn. by rewrite znth_zupd_ne. Qed.
End mixed.

(** A request that is to be processed on a connection of a client, on a server that logs. *)
Record pending (w : world) (l : list bytes) : Prop := {
  pe_ok : world_ok w;
  pe_args : args_ok (w_conn w) l;
  pe_done : c_parse_done (w_conn w) = 1;
  pe_logging : logging w = true;
  pe_loggable : Forall arg_loggable l
}.

(** What a command that answers did and logged. *)
Lemma pending_processed room fopen_ok rename_ok run_script w name l s A w' :
  pending w (name :: l) -> fk_str_2upper name = name ->
  bf_off (sv_blog (w_svr w)) = zlen (bf_data (sv_blog (w_svr w))) ->
  request room fopen_ok rename_ok run_script (millis w) (sv_dbcnt (w_svr w)) name l (abs w) = Some (s, A, true) ->
  fk_conn_proc_cmd room fopen_ok rename_ok run_script w = Some (FK_SVR_OK, w') ->
  A FK_SVR_OK (abs w') /\ bf_data (sv_blog (w_svr w')) = bf_data (sv_blog (w_svr w)) ++ (Some <$> encode (name :: l)) /\
  bf_off (sv_blog (w_svr w')) = zlen (bf_data (sv_blog (w_svr w'))) /\ sv_dbcnt (w_svr w') = sv_dbcnt (w_svr w).
Proof.
  intros [W Ha Hd Hl Hg] Hn Hoff Hr E.
  pose proof (proc_cmd_ok room fopen_ok rename_ok run_script w name l s A true W Ha Hd Hr) as H.
  rewrite Hl, Hn in H. cbn [andb] in H. destruct (wp_elim _ _ _ (H (fun _ => conj Hg Hoff))) as (rt & w1 & E1 & P).
  rewrite E in E1. injection E1 as <- <-. destruct P as [_ _ HA _ HF HL]. split; [exact HA|].
  cbn [FK_SVR_OK Z.eqb logged sv_set_blog sv_blog] in HL. rewrite HL. cbn [bf_data bf_off]. split; [done|]. split.
  - rewrite zlen_app, zlen_map, Hoff. done.
  - unfold svr_frame in HF. unfold sv_dbcnt. apply (f_equal sv_setting) in HF. cbn in HF. by rewrite HF.
Qed.

(** C38. The log does not say which connection sent a command: when, on a server that
    logs and whose log is empty, a first client selects a database [i] and a second one,
    which has selected another database [j], sets a key, each answered, then the key is
    in [j], and [i] is as it was; but a server that starts with the log (and the same
    number of databases) has the key in [i], and [j] is as it was there, unless its
    write buffer had no room for the two replies. *)
Theorem blog_mixes_databases room fopen_ok rename_ok run_script w1 w1' w2 w2' n k v :
  let proc := fk_conn_proc_cmd room fopen_ok rename_ok run_script in
  let i := atoi n in let j := c_db_idx (w_conn w2) in
  pending w1 [lit "SELECT"; n] -> 0 <= i < sv_dbcnt (w_svr w1) ->
  sv_blog (w_svr w1) = BlogFile [] 0 -> proc w1 = Some (FK_SVR_OK, w1') ->
  (exists m, w_svr w2 = sv_set_items (w_svr w1') m) ->
  pending w2 [lit "SET"; k; v] -> i <> j -> proc w2 = Some (FK_SVR_OK, w2') ->
  adb (abs w2') j = <[k := VStr v]> (adb (abs w1) j) /\ adb (abs w2') i = adb (abs w1) i /\
  exists file, bf_data (sv_blog (w_svr w2')) = Some <$> file /\ forall s now,
    svr_inv s -> sv_dbcnt s = sv_dbcnt (w_svr w1) -> 0 <= cf_max_wbuf (sv_setting s) <= WBUF_HIGHWAT_MAX ->
    zlen file < FK_BUF_HIGHWAT -> let w := fk_blog_init s file now in
    exists w', fk_blog_load room fopen_ok rename_ok run_script w = Some (tt, w') /\
      (cf_max_wbuf (sv_setting s) <= blen (c_wbuf (w_conn w')) \/
       adb (abs w') i = <[k := VStr v]> (adb (abs w) i) /\ adb (abs w') j = adb (abs w) j).
Proof.
  intros proc i j P1 Hi Hb1 E1 [m Hs2] P2 Hij E2.
  destruct (pending_processed room fopen_ok rename_ok run_script w1 (lit "SELECT") [n] _ _ w1' P1 eq_refl ltac:(by rewrite Hb1)
    (request_select room fopen_ok rename_ok run_script _ _ n _ Hi) E1) as (A1 & L1 & O1 & D1).
  assert (sv_blog (w_svr w2) = sv_blog (w_svr w1')) as Hb2 by by rewrite Hs2.
  destruct (pending_processed room fopen_ok rename_ok run_script w2 (lit "SET") [k; v] _ _ w2' P2 eq_refl ltac:(by rewrite Hb2)
    (request_set room fopen_ok rename_ok run_script _ _ k v _) E2) as (A2 & L2 & _ & _).
  unfold to in A1, A2. 
  assert (0 <= a_idx (abs w2) < zlen (a_db (abs w2))) as Hj.
  { destruct (pe_ok _ _ P2) as [[_ Hl _ _ _] Hj _]. cbn. rewrite zlen_map. unfold sv_dbcnt in *. lia. }
  assert (forall x, adb (abs w2) x = adb (abs w1) x) as Hadb.
  { intros x. unfold adb. change (a_db (abs w1)) with (a_db (put_idx (atoi n) (abs w1))). rewrite <- A1. cbn. by rewrite Hs2. }
  split; [|split].
  - rewrite A2, <- Hadb. by apply (adb_set_same k v (abs w2)).
  - rewrite A2, adb_set_other by (done || apply Hj). apply Hadb.
  - exists (concat (encode <$> [[lit "SELECT"; n]; [lit "SET"; k; v]])). split.
    { rewrite L2, Hb2, L1, Hb1. cbn [fmap list_fmap concat bf_data]. rewrite app_nil_r, fmap_app. done. }
    intros s now Hs Hd Hm Hlen w.
    set (rs := [[lit "SELECT"; n]; [lit "SET"; k; v]]) in *.
    assert (Forall (fun r => Forall arg_ok r /\ 1 <= zlen r <= FK_VTR_INIT_LEN /\ described r = true) rs) as Hrs.
    { apply Forall_cons. split; [split; [apply (pe_args _ _ P1)|by split]|].
      apply Forall_singleton. split; [apply (pe_args _ _ P2)|by split]. }
    pose proof (blog_load_ok room fopen_ok rename_ok run_script s rs now Hs Hm Hrs Hlen) as H.
    apply wp_elim in H as ([] & w' & E & rt & [_ _ (out & Hses & Hans & _)] & _).
    exists w'. split; [exact E|]. destruct Hans as (_ & Hh & _ & [[-> _]|(_ & _ & Hf)]); [right|left; by rewrite Hh in Hf].
    apply session_select_set in Hses; [|cbn [w fk_blog_init w_svr]; unfold sv_dbcnt in *; cbn; lia].
    assert (0 <= i < zlen (a_db (abs w))) as Hi'.
    { cbn. rewrite zlen_map. destruct Hs as [_ Hl _ _ _]. unfold sv_dbcnt in *. lia. }
    rewrite Hses. split; [exact (adb_set_same k v (put_idx i (abs w)) Hi')|].
    apply (adb_set_other k v (put_idx i (abs w)) j); [apply Hi|exact (not_eq_sym Hij)].
Qed.

Lemma blog_load_replays_witness :
  let rs := [[lit "SELECT"; lit "1"]; [lit "SETEX"; lit "k"; lit "10"; lit "v"]; [lit "DEL"; lit "x"]] in
  let w := fk_blog_init ex_svr (concat (encode <$> rs)) 0 in
  exists w' rt out, fk_blog_load (disk_of 0) true true no_script w = Some (tt, w') /\
    session (disk_of 0) true true no_script false (millis w) (sv_dbcnt ex_svr) rs (abs w) out [] rt (abs w') /\
    answered (c_wbuf (w_conn w)) (c_wbuf (w_conn w')) rt out /\
    bf_data (sv_blog (w_svr w')) = Some <$> concat (encode <$> rs) /\
    (rt = FK_SVR_OK /\ unread w' = [] \/ rt = FK_SVR_ERR /\ cf_max_wbuf (sv_setting ex_svr) <= blen (c_wbuf (w_conn w'))).
Proof.
  refine (blog_load_replays (disk_of 0) true true no_script ex_svr
    [[lit "SELECT"; lit "1"]; [lit "SETEX"; lit "k"; lit "10"; lit "v"]; [lit "DEL"; lit "x"]] 0
    ex_svr_inv _ _ _).
  - vm_compute. split; congruence.
  - repeat constructor; vm_compute; congruence.
  - vm_compute. reflexivity.
Defined.

(** The second client, in database 0. *)
Definition ex_selected : world :=
  match fk_conn_proc_cmd (disk_of 0) true true no_script (ex_logging [lit "SELECT"; lit "1"]) with Some (_, w) => w | None => ex_logging [] end.
Definition ex_other : world := ex_with (w_svr ex_selected) [lit "SET"; lit "k"; lit "v"].

Lemma ex_selected_ok : world_ok ex_selected.
Proof.
  assert (args_ok (w_conn (ex_logging [lit "SELECT"; lit "1"])) [lit "SELECT"; lit "1"]) as Ha by by apply ex_args_ok.
  assert (log_ready (ex_logging [lit "SELECT"; lit "1"]) [fk_str_2upper (lit "SELECT"); lit "1"]) as Hl.
  { split; [|reflexivity]. repeat constructor; try (apply nul_free_dec; reflexivity); vm_compute; congruence. }
  destruct (wp_elim _ _ _ (proc_cmd_ok (disk_of 0) true true no_script (ex_logging [lit "SELECT"; lit "1"]) (lit "SELECT") [lit "1"] _ _ true
    (ex_logging_ok _) Ha eq_refl (request_select (disk_of 0) true true no_script _ 2 (lit "1") _ ltac:(vm_compute; split; congruence)) (fun _ => Hl)))
    as (rt & w' & E & P). unfold ex_selected. rewrite E. apply P.
Qed.

Lemma blog_mixes_databases_witness :
  exists w2', fk_conn_proc_cmd (disk_of 0) true true no_script ex_other = Some (FK_SVR_OK, w2') /\
  adb (abs w2') 0 = <[lit "k" := VStr (lit "v")]> (adb (abs (ex_logging [lit "SELECT"; lit "1"])) 0) /\
  adb (abs w2') 1 = adb (abs (ex_logging [lit "SELECT"; lit "1"])) 1 /\
  exists file, bf_data (sv_blog (w_svr w2')) = Some <$> file /\ zlen file = 50 /\
    exists w', fk_blog_load (disk_of 0) true true no_script (fk_blog_init ex_svr file 0) = Some (tt, w') /\
      adb (abs w') 1 = {[lit "k" := VStr (lit "v")]} /\ adb (abs w') 0 = ∅.
Proof.
  destruct (fk_conn_proc_cmd (disk_of 0) true true no_script ex_other) as [[rt w2']|] eqn:E2; [|vm_compute in E2; discriminate E2].
  assert (rt = FK_SVR_OK) as -> by (vm_compute in E2; injection E2 as <- _; reflexivity). exists w2'. split; [reflexivity|].
  assert (forall l, forallb (fun a => forallb (fun c => negb (Ascii.eqb c NUL)) a && (zlen a <=? FK_ARG_HIGHWAT - 4)) l = true -> Forall arg_loggable l) as Hlog.
  { intros l Hl. apply Forall_forall. intros a Ha. rewrite forallb_forall in Hl. apply list_elem_of_In in Ha.
    specialize (Hl a Ha). apply andb_true_iff in Hl as [H1 H2]. split; [by apply nul_free_dec|lia]. }
  destruct (blog_mixes_databases (disk_of 0) true true no_script (ex_logging [lit "SELECT"; lit "1"]) ex_selected ex_other w2'
    (lit "1") (lit "k") (lit "v")) as (H1 & H2 & file & Hf & H3).
  - split; [apply ex_logging_ok|by apply ex_args_ok|reflexivity|reflexivity|by apply Hlog].
  - vm_compute. split; congruence.
  - reflexivity.
  - vm_compute. reflexivity.
  - exists (sv_items (w_svr ex_selected)). reflexivity.
  - split; [apply ex_with_ok, ex_selected_ok|by apply ex_args_ok|reflexivity|vm_compute; reflexivity|by apply Hlog].
  - vm_compute. congruence.
  - exact E2.
  - split; [exact H1|]. split; [exact H2|]. exists file. split; [exact Hf|].
    assert (file = encode [lit "SELECT"; lit "1"] ++ encode [lit "SET"; lit "k"; lit "v"]) as ->.
    { apply (inj (fmap Some)). rewrite <- Hf. vm_compute in E2. injection E2 as <-. vm_compute. reflexivity. }
    split; [vm_compute; reflexivity|].
    destruct (H3 ex_svr 0 ex_svr_inv eq_refl) as (w' & E & [Hw|[H4 H5]]); [vm_compute; split; congruence|vm_compute; reflexivity| |].
    + exfalso. vm_compute in E. injection E as <-. vm_compute in Hw. congruence.
    + exists w'. split; [exact E|].
      change (adb (abs w') 1) with (adb (abs w') (atoi (lit "1"))). change (adb (abs w') 0) with (adb (abs w') (c_db_idx (w_conn ex_other))).
      rewrite H4, H5. vm_compute. split; reflexivity.
Defined.
