(* ===== verification/LoadLong.v ===== *)
(** A command of more than four arguments in the log: [fk_blog_load]
    (src/src/fk_svr_blog.c) does not replay it. *)
From S2P Require Import Prelude Util Buf Dict Item Conf Svr Req Parse Store.
From S2P Require Import CmdStr CmdHash CmdList CmdDb Kdb KdbProps Blog Proto ProtoProps Stream Serve Conn Load.
Import Req.

(** ** A longer vector *)

(** The vector with room behind its end, where the parser would store the arguments
    it has no place for. *)
Definition pad (v : fk_vtr sitem) : fk_vtr sitem :=
  FkVtr (v_init_len v) (v_array v ++ replicate (Z.to_nat FK_ARG_CNT_HIGHWAT) None).
Definition pad_conn (c : fk_conn) : fk_conn := cn_arg_vtr c (pad (c_arg_vtr c)).
Definition padded (w : world) : world := w_set_conn w (pad_conn (w_conn w)).

Lemma pad_get v i : 0 <= i < fk_vtr_len v -> fk_vtr_get (pad v) i = fk_vtr_get v i.
Proof. intros H. by apply znth_app_l. Qed.

Lemma pad_behind v i : fk_vtr_len v <= i -> fk_vtr_get (pad v) i = Some None \/ fk_vtr_get (pad v) i = None.
Proof.
  intros H. pose proof (zlen_nonneg (v_array v)). unfold fk_vtr_get, fk_vtr_len in *. cbn [pad v_array].
  rewrite znth_app_r by lia. unfold znth. rewrite (proj2 (Z.ltb_ge _ _)) by lia.
  destruct (_ !! _) as [x|] eqn:E; [left|by right]. by apply lookup_replicate in E as [-> _].
Qed.

Lemma pad_set v i x v' : fk_vtr_set v i x = Some v' -> fk_vtr_set (pad v) i x = Some (pad v').
Proof.
  unfold fk_vtr_set, fk_vtr_len. destruct (_ && _) eqn:E; [|done]. intros [= <-]. cbn [pad v_array v_init_len].
  rewrite zlen_app. pose proof (zlen_nonneg (replicate (Z.to_nat FK_ARG_CNT_HIGHWAT) (@None sitem))).
  assert ((0 <=? i) && (i <? zlen (v_array v) + zlen (replicate (Z.to_nat FK_ARG_CNT_HIGHWAT) (@None sitem))) = true) as -> by bool_lia.
  unfold pad, zupd, zlen in *. cbn [v_array v_init_len]. destruct (i <? 0); [done|]. rewrite insert_app_l by bool_lia. done.
Qed.

(** What the parser does with a short vector, it does with a longer one too. *)
Lemma pad_args_loop f : forall w rt w',
  parse_args_loop f w = Some (rt, w') ->
  parse_args_loop f (padded w) = Some (rt, padded w') /\
  fk_vtr_len (c_arg_vtr (w_conn w')) = fk_vtr_len (c_arg_vtr (w_conn w)).
Proof.
  induction f as [|f IH]; intros w rt w'; [done|]. cbn [parse_args_loop].
  change (c_rbuf (w_conn (padded w))) with (c_rbuf (w_conn w)).
  change (c_cur_arglen (w_conn (padded w))) with (c_cur_arglen (w_conn w)).
  change (sv_items (w_svr (padded w))) with (sv_items (w_svr w)).
  destruct (_ <=? 0); [by intros [= <- <-]|].
  destruct (payload_bytes _) as [pl|]; [|done].
  set (hdr := if _ =? -1 then _ else inr (w_conn w)).
  set (hdr' := if _ =? -1 then _ else inr (w_conn (padded w))).
  assert (hdr' = match hdr with inl rt => inl rt | inr c => inr (pad_conn c) end /\
    (forall c, hdr = inr c -> c_arg_vtr c = c_arg_vtr (w_conn w))) as [-> Hv].
  { unfold hdr, hdr'. destruct (_ =? -1); [destruct (arglen_line pl)|]; split; try done; by intros c [= <-]. }
  destruct hdr as [rt1|c]; [by intros [= <- <-]|]. specialize (Hv c eq_refl).
  change (c_rbuf (pad_conn c)) with (c_rbuf c). change (c_cur_arglen (pad_conn c)) with (c_cur_arglen c).
  destruct (payload_bytes (c_rbuf c)) as [start|]; [|done].
  destruct (_ <=? _); [|intros [= <- <-]; split; [done|]; cbn; by rewrite Hv].
  destruct (_ || _); [intros [= <- <-]; split; [done|]; cbn; by rewrite Hv|].
  destruct (fk_item_create _) as [i m].
  destruct (fk_vtr_set (c_arg_vtr c) _ _) as [v|] eqn:E; [|done].
  change (c_arg_vtr (pad_conn c)) with (pad (c_arg_vtr c)). change (c_arg_cnt (pad_conn c)) with (c_arg_cnt c).
  rewrite (pad_set _ _ _ _ E). destruct (fk_vtr_get_set _ _ _ _ E) as [_ El]. rewrite Hv in El.
  cbn [c_arg_parsed c_arg_cnt low_inc cn_rbuf cn_cur_arglen cn_arg_cnt cn_arg_vtr pad_conn].
  destruct (_ =? _).
  - intros [= <- <-]. split; [done|]. done.
  - intros H. apply IH in H as [H1 H2]. split; [exact H1|]. rewrite H2. exact El.
Qed.

(** ** A request under way that does not fit *)

(** Between two turns of the replay: the vector has been shrunk to its first length, more
    arguments are to come than it holds, and the parser waits for bytes. *)
Record stalled (w : world) (q : Req.t) : Prop := {
  st_live : conn_live (padded w) q;
  st_count : FK_VTR_INIT_LEN < parsed q;
  st_len : fk_vtr_len (c_arg_vtr (w_conn w)) = FK_VTR_INIT_LEN;
  st_init : v_init_len (c_arg_vtr (w_conn w)) = FK_VTR_INIT_LEN;
  st_buf : 0 < init_len (c_rbuf (w_conn w));
  st_wait : (parse q).1 = FK_SVR_AGAIN
}.

Lemma under_way_counted q : req_wf q -> FK_VTR_INIT_LEN < parsed q -> counted q.
Proof. intros W H. unfold FK_VTR_INIT_LEN in H. destruct (ro_args _ (rw_ok _ W)) as [?|[? _]]; [done|lia]. Qed.

Lemma parse_under_way q : req_wf q -> FK_VTR_INIT_LEN < parsed q ->
  ((parse q).1 = FK_SVR_OK -> FK_VTR_INIT_LEN < zlen (args (parse q).2)) /\
  ((parse q).1 = FK_SVR_AGAIN -> req_wf (parse q).2 /\ parsed (parse q).2 = parsed q).
Proof.
  intros W H. pose proof (under_way_counted q W H) as Hc. rewrite parse_counted by (apply W || done).
  pose proof (run_wf q W Hc) as Hr. destruct (run q) as [rt q']. cbn in *. destruct Hr as [H1 H2]. split; [|exact H2].
  intros E. destruct (H1 E) as (_ & -> & -> & _). done.
Qed.

(** A parser that asked for more asks again when nothing came. *)
Lemma parse_waits q : req_wf q -> (parse q).1 = FK_SVR_AGAIN -> (parse (parse q).2).1 = FK_SVR_AGAIN.
Proof.
  intros W E. pose proof (parse_feed q [] (rw_ok _ W)) as H. rewrite feed_nil in H.
  destruct (parse q) as [rt q']. cbn in E. subst rt. rewrite feed_nil in H.
  cbn [snd]. destruct H as [[? _]|[[? _]|(_ & _ & <-)]]; done.
Qed.

(** The parser has no place for the fifth argument: it does not accept the request. *)
Lemma short_parse w q rt w' :
  conn_req (pad_conn (w_conn w)) q -> req_wf q -> FK_VTR_INIT_LEN < parsed q ->
  fk_vtr_len (c_arg_vtr (w_conn w)) = FK_VTR_INIT_LEN ->
  fk_conn_parse_req w = Some (rt, w') ->
  rt = (parse q).1 /\ rt <> FK_SVR_OK /\ conn_req (pad_conn (w_conn w')) (parse q).2 /\
  parse_frame (padded w) (padded w') /\ fk_vtr_len (c_arg_vtr (w_conn w')) = FK_VTR_INIT_LEN.
Proof.
  intros R W Hp Hl E. unfold fk_conn_parse_req in E. pose proof (cr_parsed _ _ R) as Hpar. cbn in Hpar.
  assert ((c_arg_parsed (w_conn w) =? 0) = false) as Hz by (unfold FK_VTR_INIT_LEN in *; apply Z.eqb_neq; lia).
  rewrite Hz in E. cbn [andb] in E. replace (w_set_conn w (w_conn w)) with w in E by by destruct w.
  apply pad_args_loop in E as [E El]. rewrite Hl in El.
  destruct (parse_req_unfold (padded w) q R (rw_ok _ W)) as (W1 & E1 & R1 & F1 & _).
  unfold fk_conn_parse_req in E1. change (c_arg_parsed (w_conn (padded w))) with (c_arg_parsed (w_conn w)) in E1.
  rewrite Hz in E1. cbn [andb] in E1. replace (w_set_conn (padded w) (w_conn (padded w))) with (padded w) in E1 by done.
  change (c_rbuf (w_conn (padded w))) with (c_rbuf (w_conn w)) in E1. rewrite E in E1. injection E1 as -> <-.
  split; [done|]. split; [|done]. intros Hok. destruct (parse_under_way q W Hp) as [Hn _]. specialize (Hn Hok).
  destruct (args (parse q).2 !! Z.to_nat FK_VTR_INIT_LEN) as [a|] eqn:Ea.
  2: { apply lookup_ge_None in Ea. unfold zlen, FK_VTR_INIT_LEN in *. lia. }
  destruct (cr_args _ _ R1 FK_VTR_INIT_LEN a Ea) as [id Hid].
  change (fk_vtr_get (pad (c_arg_vtr (w_conn w'))) FK_VTR_INIT_LEN = Some (Some (SItem id a))) in Hid.
  destruct (pad_behind (c_arg_vtr (w_conn w')) FK_VTR_INIT_LEN) as [Hb|Hb]; [lia|congruence..].
Qed.

(** Reading does not look at the vector. *)
Lemma read_padded w : match fk_blog_read_data w with
  | Some (rt, w1) => fk_blog_read_data (padded w) = Some (rt, padded w1) /\ c_arg_vtr (w_conn w1) = c_arg_vtr (w_conn w)
  | None => fk_blog_read_data (padded w) = None
  end.
Proof.
  unfold fk_blog_read_data. change (c_rbuf (w_conn (padded w))) with (c_rbuf (w_conn w)).
  change (w_svr (padded w)) with (w_svr w).
  destruct (_ =? 0); [done|]. destruct (_ =? 0); done.
Qed.

Section stalled.
Context (room : stdio) (fopen_ok rename_ok : bool).
Context (run_script : bytes -> list bytes -> list bytes -> ST world unit).
Abbreviation serve := (serve room fopen_ok rename_ok run_script).
Abbreviation blog_load_loop := (blog_load_loop room fopen_ok rename_ok run_script).

(** The first call of the parser decides when it has no result or asks for more. *)
Lemma serve_parse w : 0 < fk_buf_payload_len (c_rbuf (w_conn w)) ->
  match fk_conn_parse_req w with
  | Some (rt, w') => rt = FK_SVR_AGAIN -> serve w = Some (FK_SVR_OK, w')
  | None => serve w = None
  end.
Proof.
  intros H. unfold Serve.serve. cbn [serve_loop]. unfold mbind, ST_bind, st_gets. rewrite (proj2 (Z.ltb_lt _ _)) by done.
  destruct (fk_conn_parse_req w) as [[rt w']|]; [by intros ->|done].
Qed.

Lemma parse_frame_ok w w' : parse_frame w w' -> world_ok w -> world_ok w'.
Proof.
  intros [(_ & _ & _ & Hw & _ & Hd & _) Hs _] [S I B]. split.
  - rewrite Hs. destruct S. by split.
  - rewrite Hd, Hs. exact I.
  - by rewrite Hw.
Qed.

Lemma parse_frame_log_at w w' rest :
  w_svr w' = sv_set_items (w_svr w) (sv_items (w_svr w')) -> buf_dims (c_rbuf (w_conn w')) = buf_dims (c_rbuf (w_conn w)) ->
  log_at w rest -> log_at w' rest.
Proof.
  intros Hs Hd [A1 A2 A3]. unfold buf_dims in Hd. injection Hd as D1 _ _ D4.
  split; [by rewrite Hs|unfold unread; by rewrite Hs|by rewrite D1, D4].
Qed.

(** Shrinking at the end of a turn. *)
Lemma shrunk_stalled w q rest : let w' := w_set_conn w (shrink_conn (w_conn w)) in
  world_ok w -> req_wf q -> FK_VTR_INIT_LEN < parsed q -> (parse q).1 = FK_SVR_AGAIN -> log_at w rest ->
  conn_req (pad_conn (w_conn w')) q -> fk_vtr_len (c_arg_vtr (w_conn w')) = FK_VTR_INIT_LEN ->
  v_init_len (c_arg_vtr (w_conn w)) = FK_VTR_INIT_LEN -> buf_wf (c_rbuf (w_conn w)) ->
  0 < blen (c_rbuf (w_conn w)) -> 0 < init_len (c_rbuf (w_conn w)) -> stalled w' q /\ log_at w' rest.
Proof.
  intros w' [S I B] Wq Hp Hwait [A1 A2 A3] R Hl Hi Wb Hb Hb2.
  destruct (shrink_blen _ Hb Hb2) as (B3 & H3 & I3). pose proof (shrink_high _ Wb) as Hh. split; [split|split]; try done.
  - cbn. by rewrite fk_vtr_shrink_init.
  - cbn. lia.
  - cbn. lia.
Qed.

(** A turn that goes on leaves the request under way. *)
Lemma stalled_turn w w1 w2 q m rest' :
  stalled w q -> read_frame (padded w) (padded w1) -> c_arg_vtr (w_conn w1) = c_arg_vtr (w_conn w) ->
  conn_live (padded w1) (feed q m) -> log_at (padded w1) rest' ->
  init_len (c_rbuf (w_conn w1)) = init_len (c_rbuf (w_conn w)) ->
  fk_conn_parse_req w1 = Some (FK_SVR_AGAIN, w2) ->
  let w3 := w_set_conn w2 (shrink_conn (w_conn w2)) in
  stalled w3 (parse (feed q m)).2 /\ log_at w3 rest'.
Proof.
  intros S Fr Ev L1 A1 Ei E. pose proof (cl_wf _ _ L1) as W.
  destruct (short_parse w1 (feed q m) _ _ (cl_req _ _ L1) W (st_count _ _ S) ltac:(rewrite Ev; apply S) E)
    as (Hrt & _ & R2 & F2 & El).
  destruct (parse_under_way (feed q m) W (st_count _ _ S)) as [_ Hp]. destruct (Hp (eq_sym Hrt)) as [W2 Hp2].
  pose proof (parse_frame_ok _ _ F2 (cl_ok _ _ L1)) as [O1 O2 O3].
  destruct F2 as [(_ & _ & _ & _ & _ & _ & Hdim & Hin) Hs _].
  change (buf_dims (c_rbuf (w_conn w2)) = buf_dims (c_rbuf (w_conn w1))) in Hdim.
  change (w_svr w2 = sv_set_items (w_svr w1) (sv_items (w_svr w2))) in Hs.
  cbn in Hin. rewrite Ev, (st_init _ _ S) in Hin.
  assert (shrink_conn (w_conn w2) = cn_rbuf (w_conn w2) (fk_buf_shrink (c_rbuf (w_conn w2)))) as Hshr.
  { unfold shrink_conn, fk_vtr_shrink. rewrite Hin, El, Z.ltb_irrefl. by destruct (w_conn w2). }
  pose proof (parse_frame_log_at w1 w2 rest' Hs Hdim ltac:(by destruct A1)) as A2.
  unfold buf_dims in Hdim. injection Hdim as _ D2 D3 _.
  apply shrunk_stalled; try done; cbn [w_conn w_set_conn].
  - rewrite Hp2. apply S.
  - by apply parse_waits.
  - rewrite Hshr. destruct R2 as [R21 R22 R23 R24 R25 R26 R27]. split; try done; [by apply shrink_wf|].
    change (payload (fk_buf_shrink (c_rbuf (w_conn w2))) = Some <$> pl (parse (feed q m)).2). by rewrite payload_shrink.
  - rewrite Hshr. exact El.
  - exact (cr_wf _ _ R2).
  - rewrite D3. apply L1.
  - rewrite D2, Ei. apply S.
Qed.

(** The replay has no result. *)
Lemma stalled_loop f : forall w q rest,
  stalled w q -> log_at w rest -> (parse (feed q rest)).1 = FK_SVR_OK -> blog_load_loop f w = None.
Proof.
  induction f as [|f IH]; intros w q rest S A Hok; [done|]. cbn [Load.blog_load_loop]. unfold mbind, ST_bind at 1.
  assert (log_at (padded w) rest) as A' by by destruct A.
  destruct (wp_elim _ _ _ (blog_read_ok _ _ _ (st_live _ _ S) A')) as (rt & W1 & E & m & rest' & [-> A1 L1 Fr [_ Hinit] Hc]).
  pose proof (read_padded w) as Hr. destruct (fk_blog_read_data w) as [[rt1 w1]|]; [|done].
  destruct Hr as [Hr Hv]. rewrite E in Hr. injection Hr as <- ->.
  assert (rt <> FK_SVR_ERR) as Hn by (destruct Hc as [[-> _]|[-> _]]; done).
  rewrite (proj2 (Z.eqb_neq _ _) Hn). pose proof (cl_wf _ _ L1) as W.
  assert (m <> []) as Hm.
  { intros ->. destruct Hc as [[_ ->]|[_ ?]]; [|done]. rewrite feed_nil, (st_wait _ _ S) in Hok. done. }
  assert (0 < fk_buf_payload_len (c_rbuf (w_conn w1))) as Hpos.
  { pose proof (zlen_payload_bytes _ _ (cl_req _ _ L1)) as Hpl.
    change (fk_buf_payload_len (c_rbuf (w_conn w1)) = zlen (pl (feed q m))) in Hpl. rewrite Hpl. cbn. rewrite zlen_app.
    pose proof (zlen_nonneg (pl q)). destruct m; [done|]. rewrite zlen_cons. pose proof (zlen_nonneg m). lia. }
  pose proof (serve_parse w1 Hpos) as Hs. unfold mbind, ST_bind at 1.
  destruct (fk_conn_parse_req w1) as [[rt2 w2]|] eqn:Ep; [|by rewrite Hs].
  destruct (short_parse w1 (feed q m) _ _ (cl_req _ _ L1) W (st_count _ _ S) ltac:(rewrite Hv; apply S) Ep) as (-> & Hnok & _).
  rewrite <- feed_feed in Hok. pose proof (parse_feed (feed q m) rest' (rw_ok _ W)) as Hf.
  assert ((parse (feed q m)).1 = FK_SVR_AGAIN /\ (parse (feed (parse (feed q m)).2 rest')).1 = FK_SVR_OK) as [Hag Hok'].
  { destruct (parse (feed q m)) as [rt2 q2]. cbn in *.
    destruct Hf as [[? _]|[(_ & q3 & E3)|(-> & _ & E3)]]; [done|by rewrite E3 in Hok|by rewrite <- E3]. }
  rewrite Hag in Ep, Hs. rewrite (Hs eq_refl). cbn [FK_SVR_OK FK_SVR_ERR Z.eqb]. unfold mbind, ST_bind at 1. unfold mod_conn, st_mod.
  destruct Hc as [[_ ->]|[-> _]].
  { exfalso. rewrite feed_nil, parse_waits in Hok'; done. }
  cbn [FK_SVR_DONE FK_SVR_OK Z.eqb Pos.eqb negb].
  destruct (stalled_turn w w1 w2 q m rest' S Fr Hv L1 A1 Hinit Ep) as [S3 A3].
  exact (IH _ _ _ S3 A3 Hok').
Qed.

(** *** The first read *)

(** An argument that was read had at least six bytes. *)
Definition weight (q : Req.t) : Z := 6 * zlen (args q) + zlen (pl q) + (if cur q =? -1 then 0 else 4).

Lemma take_len_weight q : weight (take_len q).2 <= weight q.
Proof.
  unfold take_len. destruct (cur q =? -1) eqn:Ec; [|done]. destruct (arglen_line (pl q)) as [| |n k] eqn:El; [done..|].
  apply arglen_line_Ok in El as [Hn Hk]. unfold weight. cbn [snd args pl cur]. rewrite Ec, zlen_zdrop by lia.
  destruct (n =? -1); lia.
Qed.

Lemma take_arg_weight q : 0 <= cur q -> weight (take_arg q).2 <= weight q.
Proof.
  intros Hc. unfold take_arg. destruct (_ <=? _) eqn:E; [|done]. destruct (_ || _); [done|].
  unfold weight. cbn [snd args pl cur]. rewrite zlen_app, zlen_zdrop by lia. change (zlen [_]) with 1.
  rewrite (proj2 (Z.eqb_neq (cur q) (-1))) by lia. cbn [Z.eqb Pos.eqb]. lia.
Qed.

Lemma run_weight q : req_ok q -> counted q -> weight (run q).2 <= weight q.
Proof.
  revert q. apply (run_ind (fun q => weight (run q).2 <= weight q)). intros q Hq Hc IH. rewrite run_unfold by done.
  revert IH. unfold turn. destruct (zlen (pl q) <=? 0); [done|].
  pose proof (take_len_weight q) as H1. pose proof (take_len_ok q) as Hok.
  destruct (take_len q) as [[| |] q1]; cbn [snd] in H1; [|done..].
  destruct (Hok q1 Hq Hc eq_refl) as (Hq1 & _ & Hn1 & _). pose proof (ro_cur q1 Hq1).
  pose proof (take_arg_weight q1 ltac:(lia)) as H2.
  destruct (take_arg q1) as [[| |] q2]; cbn [snd] in H2; [|intros _; cbn [snd]; lia..].
  destruct (_ =? _); [intros _; cbn [snd]; lia|]. intros IH. specialize (IH q2 eq_refl). lia.
Qed.

End stalled.

Lemma encode_arg_length a : arg_ok a -> 6 <= zlen (encode_arg a).
Proof.
  unfold arg_ok, FK_ARG_HIGHWAT. intros Ha. unfold encode_arg. rewrite zlen_cons, !zlen_app. change (zlen CRLF) with 2. pose proof (zlen_nonneg a).
  pose proof (dec_length_pos (zlen a) ltac:(lia)). lia.
Qed.

Lemma encode_length r : Forall arg_ok r -> 6 * zlen r <= zlen (encode r).
Proof.
  intros Hr. assert (6 * zlen r <= zlen (concat (encode_arg <$> r))) as H.
  { induction Hr as [|a r Ha _ IH]; [done|]. rewrite fmap_cons. cbn [concat]. rewrite zlen_cons, zlen_app.
    pose proof (encode_arg_length a Ha). lia. }
  unfold encode. rewrite zlen_cons, !zlen_app. change (zlen CRLF) with 2. pose proof (zlen_nonneg (dec (zlen r))). lia.
Qed.

(** After the first 16 bytes of a request: its argument count was read, at most four
    arguments, and more bytes are needed. *)
Lemma parse_start r rest m rest' :
  FK_VTR_INIT_LEN < zlen r <= FK_ARG_CNT_HIGHWAT -> Forall arg_ok r -> encode r ++ rest = m ++ rest' ->
  zlen m = FK_BUF_INIT_LEN ->
  let q := (parse (init m)).2 in
  (parse (init m)).1 = FK_SVR_AGAIN /\ (parse (feed q rest')).1 = FK_SVR_OK /\
  parsed q = zlen r /\ zlen (args q) <= FK_VTR_INIT_LEN.
Proof.
  intros Hr Ha Hf Hm. unfold FK_VTR_INIT_LEN, FK_ARG_CNT_HIGHWAT, FK_BUF_INIT_LEN in *.
  pose proof (parse_encode_args r rest ltac:(unfold FK_ARG_CNT_HIGHWAT; lia) Ha) as Hall. rewrite Hf in Hall.
  change (init (m ++ rest')) with (feed (init m) rest') in Hall.
  assert ((parse (init m)).1 = FK_SVR_AGAIN /\ (parse (feed (parse (init m)).2 rest')).1 = FK_SVR_OK) as [Hag Hok].
  { pose proof (parse_feed (init m) rest' (init_ok m)) as H. pose proof (parse_sound m) as Hs.
    destruct (parse (init m)) as [rt q]. destruct H as [[-> H]|[(-> & q2 & H)|(-> & _ & H)]]; [exfalso| |].
    - destruct (Hs q eq_refl) as (Em & _ & Ho & _). rewrite Hall in H. injection H as _ _ _ ->.
      pose proof (encode_length (args q) Ho). rewrite Em, zlen_app in Hm. pose proof (zlen_nonneg (pl q)). lia.
    - rewrite Hall in H. done.
    - cbn. by rewrite <- H, Hall. }
  cbv zeta. split; [done|]. split; [done|].
  pose proof (dec_short 3 (zlen r) ltac:(lia) ltac:(lia)) as Hd. pose proof (dec_length_pos (zlen r) ltac:(lia)) as Hd1.
  assert (exists tl, m = "*"%char :: dec (zlen r) ++ CR :: LF :: tl /\ zlen tl <= 12) as (tl & Em & Htl).
  { set (h := ("*"%char :: dec (zlen r)) ++ CRLF). assert (zlen h = zlen (dec (zlen r)) + 3) as Hh.
    { unfold h. rewrite zlen_app, zlen_cons. change (zlen CRLF) with 2. lia. }
    assert (encode r = h ++ concat (encode_arg <$> r)) as Ee by (unfold h, encode; cbn; by rewrite <- app_assoc).
    exists (ztake (16 - zlen h) (concat (encode_arg <$> r) ++ rest)). split.
    - rewrite <- (ztake_app_l 16 m rest') at 1 by lia. rewrite <- Hf, Ee, <- app_assoc, ztake_app_ge by lia.
      unfold h, CRLF. cbn. by rewrite <- app_assoc.
    - unfold ztake, zlen in *. rewrite length_take. lia. }
  assert (take_cnt (init m) = (FK_SVR_OK, Mk tl (zlen r) (-1) [])) as Ht.
  { unfold take_cnt, init. cbn [parsed pl Z.eqb andb cur args]. rewrite (proj2 (Z.ltb_lt _ _)) by lia.
    rewrite Em, argcnt_line_encode by (unfold FK_ARG_CNT_HIGHWAT; lia). by rewrite zdrop_header. }
  set (q0 := Mk tl (zlen r) (-1) []) in *.
  assert (parse (init m) = run q0) as Ep by (unfold parse; by rewrite Ht). rewrite Ep in *.
  assert (req_ok q0) as Hq0 by (split; cbn; rewrite ?zlen_nil; unfold_lims; lia).
  assert (counted q0) as Hc0 by (unfold counted; cbn; rewrite zlen_nil; lia).
  split.
  - assert (req_wf q0) as W by by split. pose proof (run_wf q0 W Hc0) as H. destruct (run q0) as [rt q]. cbn in Hag, H.
    destruct H as [_ H]. by destruct (H Hag).
  - pose proof (run_weight q0 Hq0 Hc0) as Hw. change (weight q0) with (0 + zlen tl + 0) in Hw. unfold weight in Hw.
    pose proof (zlen_nonneg (pl (run q0).2)). destruct (cur (run q0).2 =? -1); lia.
Qed.

(** What the first read does. *)
Lemma first_read s file now : FK_BUF_INIT_LEN <= zlen file -> zlen file < FK_BUF_HIGHWAT ->
  0 <= cf_max_wbuf (sv_setting s) <= WBUF_HIGHWAT_MAX -> svr_inv s ->
  exists w1 rest', let m := ztake FK_BUF_INIT_LEN file in
  fk_blog_read_data (fk_blog_init s file now) = Some (FK_SVR_OK, w1) /\ file = m ++ rest' /\ zlen m = FK_BUF_INIT_LEN /\
  conn_live w1 (init m) /\ log_at w1 rest' /\ 0 < init_len (c_rbuf (w_conn w1)) /\
  v_init_len (c_arg_vtr (w_conn w1)) = FK_VTR_INIT_LEN.
Proof.
  intros Hl Hh Hm Hs. set (m := ztake FK_BUF_INIT_LEN file).
  assert (zlen m = FK_BUF_INIT_LEN) as Ez by (apply zlen_ztake; unfold FK_BUF_INIT_LEN in *; lia).
  destruct (wp_elim _ _ _ (blog_read_ok _ _ file (ll_live _ _ (fake_conn_live s file now Hs Hm)) (init_log_at s file now Hh)))
    as (rt & w1 & E & m' & rest' & [Ef A1 L1 (b & f & ->) [Hd Hi] _]).
  assert (fk_blog_read_data (fk_blog_init s file now) =
    let b := fk_buf_create FK_BUF_INIT_LEN FK_BUF_HIGHWAT in let got := ztake FK_BUF_INIT_LEN (Some <$> file) in
    let s' := sv_set_blog s (BlogFile (Some <$> file) (0 + zlen got)) in
    if zlen got =? 0 then Some (FK_SVR_DONE, World s' (fake_conn (cf_max_wbuf (sv_setting s)) now))
    else Some (if zlen got <? FK_BUF_INIT_LEN then FK_SVR_DONE else FK_SVR_OK,
      World s' (cn_rbuf (fake_conn (cf_max_wbuf (sv_setting s)) now) (fk_buf_high_inc (fk_buf_memcpy b got) (zlen got))))) as E2 by reflexivity.
  assert (ztake FK_BUF_INIT_LEN (Some <$> file) = Some <$> m) as Em by (unfold m, ztake; by rewrite fmap_take).
  cbv zeta in E2. rewrite Em, zlen_map, Ez, E in E2. cbn [FK_BUF_INIT_LEN Z.eqb Z.ltb Z.compare Pos.compare Pos.compare_cont] in E2.
  injection E2 as Ert Ew _. change (0 + 16) with FK_BUF_INIT_LEN in Ew.
  assert (rest' = zdrop FK_BUF_INIT_LEN file) as Er.
  { destruct A1 as [_ A1 _]. unfold unread in A1. rewrite Ew in A1. cbn in A1. apply (inj (fmap Some)).
    rewrite <- A1. unfold zdrop. by rewrite fmap_drop. }
  assert (m' = m) as ->.
  { apply (app_inv_tail rest'). rewrite <- Ef, Er. unfold m. by rewrite ztake_zdrop. }
  eexists _, rest'. cbv zeta. rewrite E, Ert.
  split; [done|]. split; [done|]. split; [done|]. split; [exact L1|]. split; [exact A1|]. split; [by rewrite Hi|done].
Qed.

(** The vector is shrunk while the request is under way. *)
Lemma shrunk_short c q :
  conn_req c q -> req_wf q -> FK_VTR_INIT_LEN < parsed q -> zlen (args q) <= FK_VTR_INIT_LEN ->
  v_init_len (c_arg_vtr c) = FK_VTR_INIT_LEN ->
  conn_req (pad_conn (shrink_conn c)) q /\ fk_vtr_len (c_arg_vtr (shrink_conn c)) = FK_VTR_INIT_LEN.
Proof.
  intros [W P Pa Cu Cn At Vt] Wq Hp Ha Hi. pose proof (ro_parsed _ (rw_ok _ Wq)) as Hmax.
  assert (fk_vtr_len (c_arg_vtr (shrink_conn c)) = FK_VTR_INIT_LEN) as Hl.
  { cbn. unfold fk_vtr_shrink. rewrite Hi, (proj2 (Z.ltb_lt _ _)) by lia. unfold fk_vtr_len in *. cbn.
    apply zlen_ztake. unfold FK_VTR_INIT_LEN in *. lia. }
  split; [|exact Hl]. split; cbn [c_rbuf pad_conn shrink_conn cn_arg_vtr cn_rbuf c_arg_vtr c_arg_parsed c_cur_arglen c_arg_cnt]; try done.
  - by apply shrink_wf.
  - by rewrite payload_shrink.
  - intros i a E. destruct (At i a E) as [id Hid]. exists id.
    assert (0 <= i < FK_VTR_INIT_LEN) as Hr.
    { unfold znth in E. destruct (i <? 0) eqn:E0; [done|]. apply lookup_lt_Some in E. unfold zlen in Ha. lia. }
    rewrite pad_get by (cbn in Hl; lia). rewrite <- Hid. apply (fk_vtr_shrink_get _ i FK_VTR_INIT_LEN); lia.
  - unfold fk_vtr_len, pad. cbn [v_array]. rewrite zlen_app, zlen_replicate by (unfold FK_ARG_CNT_HIGHWAT; lia).
    pose proof (zlen_nonneg (v_array (fk_vtr_shrink (c_arg_vtr c)))). lia.
Qed.

(** ** Property *)

(** C37. A log whose first command has more than four arguments, as a client may send
    and [fk_blog_append] writes it (MSET of two keys is enough), is not replayed,
    whatever follows it and however long its arguments are (the log being shorter than
    the limit of the read buffer, 4 MB): the first read takes 16 bytes, so that the
    request is still under way when the argument vector is shrunk to its first length
    between two reads, and storing the fifth argument is beyond its end. No number of
    turns of the loop gives a result. *)
Theorem blog_load_long_request room fopen_ok rename_ok run_script s r rest now :
  svr_inv s -> 0 <= cf_max_wbuf (sv_setting s) <= WBUF_HIGHWAT_MAX ->
  FK_VTR_INIT_LEN < zlen r <= FK_ARG_CNT_HIGHWAT -> Forall arg_ok r ->
  let file := encode r ++ rest in zlen file < FK_BUF_HIGHWAT ->
  forall fuel, blog_load_loop room fopen_ok rename_ok run_script fuel (fk_blog_init s file now) = None.
Proof.
  intros Hs Hm Hr Ha file Hl fuel. destruct fuel as [|f]; [done|].
  assert (FK_BUF_INIT_LEN <= zlen file) as Hlen.
  { unfold file. rewrite zlen_app. pose proof (encode_length r Ha). pose proof (zlen_nonneg rest).
    unfold FK_VTR_INIT_LEN, FK_BUF_INIT_LEN in *. lia. }
  destruct (first_read s file now Hlen Hl Hm Hs) as (w1 & rest' & E & Ef & Ez & L1 & A1 & I1 & V1).
  set (m := ztake FK_BUF_INIT_LEN file) in *.
  destruct (parse_start r rest m rest' Hr Ha Ef Ez) as (Hag & Hok & Hp & Hn).
  destruct (parse_req_unfold w1 (init m) (cl_req _ _ L1) (init_ok m)) as (w2 & E2 & R2 & F2 & _).
  pose proof (parse_wf _ (cl_wf _ _ L1)) as W2. pose proof (parse_waits _ (cl_wf _ _ L1) Hag) as Hwait.
  destruct (parse (init m)) as [rt q]. cbn [fst snd] in *. subst rt. destruct W2 as [_ W2]. specialize (W2 eq_refl).
  cbn [blog_load_loop]. unfold mbind, ST_bind at 1. rewrite E. cbn [FK_SVR_OK FK_SVR_ERR FK_SVR_DONE Z.eqb Pos.eqb negb].
  unfold mbind, ST_bind at 1.
  assert (0 < fk_buf_payload_len (c_rbuf (w_conn w1))) as Hpos.
  { rewrite (zlen_payload_bytes _ _ (cl_req _ _ L1)). cbn. rewrite Ez. done. }
  pose proof (serve_parse room fopen_ok rename_ok run_script w1 Hpos) as Hserve. rewrite E2 in Hserve. rewrite (Hserve eq_refl).
  cbn [FK_SVR_OK FK_SVR_ERR Z.eqb]. unfold mbind, ST_bind at 1, mod_conn, st_mod.
  pose proof (parse_frame_ok _ _ F2 (cl_ok _ _ L1)) as O2. destruct F2 as [(_ & _ & _ & _ & _ & _ & Hdim & Hin) Hsv _].
  pose proof (parse_frame_log_at w1 w2 rest' Hsv Hdim A1) as A2. rewrite V1 in Hin.
  destruct (shrunk_short (w_conn w2) q R2 W2 ltac:(lia) Hn Hin) as [R3 L3]. unfold buf_dims in Hdim. injection Hdim as _ D2 D3 _.
  destruct (shrunk_stalled w2 q rest' O2 W2 ltac:(lia) Hwait A2 R3 L3 Hin (cr_wf _ _ R2)) as [S3 A3];
    [rewrite D3; apply L1|by rewrite D2|]. by apply (stalled_loop room fopen_ok rename_ok run_script f _ q rest').
Qed.

(** MSET of two keys, as it is logged, and a GET behind it. *)
Lemma blog_load_long_request_witness :
  let r := [lit "MSET"; lit "a"; lit "1"; lit "b"; lit "2"] in let file := encode r ++ encode [lit "GET"; lit "a"] in
  (exists w, fk_conn_proc_cmd (disk_of 0) true true no_script (ex_logging r) = Some (FK_SVR_OK, w) /\
    bf_data (sv_blog (w_svr w)) = Some <$> encode r) /\
  forall fuel, blog_load_loop (disk_of 0) true true no_script fuel (fk_blog_init ex_svr file 0) = None.
Proof.
  intros r file. split; [eexists; split; vm_compute; reflexivity|].
  refine (blog_load_long_request (disk_of 0) true true no_script ex_svr r (encode [lit "GET"; lit "a"]) 0 ex_svr_inv _ _ _ _).
  - vm_compute. split; congruence.
  - vm_compute. split; congruence.
  - repeat constructor; vm_compute; congruence.
  - vm_compute. reflexivity.
Defined.
