(* ===== verification/Replay.v ===== *)
(** What the log restores: the entries that serving wrote to the log, replayed on the data
    that the server started with, give the data it had, as long as no key has an expiry
    time and only the first database is used. *)
From S2P Require Import Prelude Util Buf Dict Item Conf Svr Req Parse Store.
From S2P Require Import CmdStr CmdHash CmdList CmdDb CmdProps Kdb KdbProps Blog Proto ProtoProps Stream Serve Conn Load.
Import Req.

(** Everything in a store but how often the clock was looked at. *)
Definition data (a : astate) : list (gmap bytes val) * list (gmap bytes Z) * Z := (a_db a, a_exp a, a_idx a).

(** The first database is selected, and no key has an expiry time. *)
Definition quiet (a : astate) : Prop := Forall (eq ∅) (a_exp a) /\ a_idx a = 0.

(** No key gets an expiry time, and with several databases none is selected. *)
Definition plain_name (dbcnt : Z) (name : bytes) : Prop := name <> lit "SETEX" /\ (dbcnt <> 1 -> name <> lit "SELECT").

Lemma data_inj d e i t a : data a = data (AState d e i t) -> a = AState d e i (a_ticks a).
Proof. destruct a. by intros [= -> -> ->]. Qed.

Lemma quiet_data a a' : data a' = data a -> quiet a -> quiet a'.
Proof. destruct a, a'. unfold quiet. cbn. by intros [= -> -> ->]. Qed.

Lemma quiet_exp a : quiet a -> cur_exp a = ∅.
Proof.
  intros [Q _]. unfold cur_exp, aexp, znth. destruct (_ <? _); [done|]. destruct (a_exp a !! _) as [m|] eqn:E; [|done].
  symmetry. exact (proj1 (Forall_lookup _ _) Q _ _ E).
Qed.

Section quiet.
Context (now : nat -> Z).

Lemma quiet_lookup k a : quiet a -> Spec.lookup now k a = (cur_db a !! k, a).
Proof. intros Q. unfold Spec.lookup, Spec.expire. by rewrite quiet_exp, lookup_empty. Qed.

Lemma quiet_get k a : quiet a -> Spec.get now k a = (value_rsp (cur_db a !! k), a).
Proof. intros Q. unfold Spec.get. by rewrite quiet_lookup. Qed.

Lemma quiet_mget ks a : quiet a -> (Spec.mget now ks a).2 = a.
Proof.
  intros Q. induction ks as [|k ks IH]; [done|]. cbn [Spec.mget]. rewrite quiet_lookup by done.
  destruct (Spec.mget now ks a). exact IH.
Qed.
End quiet.

Lemma mget_now now now' ks a a' : quiet a -> data a' = data a -> (Spec.mget now' ks a').1 = (Spec.mget now ks a).1.
Proof.
  intros Q E. pose proof (quiet_data _ _ E Q) as Q'. induction ks as [|k ks IH]; [done|]. cbn [Spec.mget].
  rewrite !quiet_lookup by done. destruct (Spec.mget now ks a), (Spec.mget now' ks a'). cbn in *. rewrite IH.
  destruct a, a'. cbn in E. by injection E as -> -> ->.
Qed.

Lemma quiet_put m a : quiet a -> quiet (put_cur m a).
Proof. by destruct a. Qed.
Lemma data_put m a a' : data a' = data a -> data (put_cur m a') = data (put_cur m a).
Proof. destruct a, a'. cbn. by intros [= -> -> ->]. Qed.
Lemma data_cur a a' : data a' = data a -> cur_db a' = cur_db a.
Proof. destruct a, a'. cbn. by intros [= -> -> ->]. Qed.

(** The commands that change the store change equal data equally. *)
Definition steady (f : astate -> astate) : Prop :=
  forall a a', quiet a -> data a' = data a -> quiet (f a) /\ data (f a') = data (f a).

Lemma steady_id : steady (fun a => a).
Proof. done. Qed.
Lemma steady_put (g : gmap bytes val -> gmap bytes val) : steady (fun a => put_cur (g (cur_db a)) a).
Proof. intros a a' Q E. split; [by apply quiet_put|]. rewrite (data_cur _ _ E). by apply data_put. Qed.
Lemma steady_comp f g : steady f -> steady g -> steady (fun a => g (f a)).
Proof. intros Hf Hg a a' Q E. destruct (Hf a a' Q E) as [Q1 E1]. by apply Hg. Qed.

Lemma steady_set k v : steady (Spec.set k v).
Proof. apply (steady_put (insert k (VStr v))). Qed.
Lemma steady_mset l : steady (Spec.mset l).
Proof.
  assert (forall n l, (length l <= n)%nat -> steady (Spec.mset l)) as H; [|by eapply H].
  clear l. induction n as [|n IH]; intros [|k [|v l]] Hl; cbn in *; try lia; try apply steady_id.
  apply (steady_comp (Spec.set k v) (Spec.mset l)); [apply steady_set|apply IH; lia].
Qed.
Lemma steady_del l : steady (fun a => (DbSpec.del l a).2).
Proof.
  induction l as [|k l IH]; [apply steady_id|]. cbn [DbSpec.del]. intros a a' Q E.
  destruct (steady_comp _ _ (steady_put (delete k)) IH a a' Q E) as [Q1 E1]. revert Q1 E1.
  by destruct (DbSpec.del l (put_cur (delete k (cur_db a)) a)), (DbSpec.del l (put_cur (delete k (cur_db a')) a')).
Qed.
Lemma del_reply l a a' : data a' = data a -> (DbSpec.del l a').1 = (DbSpec.del l a).1.
Proof.
  revert a a'. induction l as [|k l IH]; intros a a' E; [done|]. cbn [DbSpec.del].
  specialize (IH _ _ (data_put (delete k (cur_db a)) _ _ E)). rewrite (data_cur _ _ E).
  destruct (DbSpec.del l (put_cur (delete k (cur_db a)) a)), (DbSpec.del l (put_cur (delete k (cur_db a)) a')).
  cbn in *. by rewrite IH.
Qed.
Lemma steady_flushdb : steady DbSpec.flushdb.
Proof.
  intros a a' [Q1 Q2] E. split; [|destruct a, a'; cbn in *; by injection E as -> -> ->].
  split; [|done]. destruct a. cbn in *. subst. by apply Forall_insert.
Qed.
Lemma steady_flushall : steady DbSpec.flushall.
Proof.
  intros a a' [Q1 Q2] E. split; [|destruct a, a'; cbn in *; by injection E as -> -> ->].
  split; [|done]. destruct a. cbn in *. by apply Forall_fmap, Forall_true.
Qed.

(** What a command does when it succeeds, at the same data at two times: the same reply,
    the same data, and nothing if it only reads. *)
Definition same_run (r r' : option (list cell * (Z -> astate -> Prop))) (a : astate) (reads : bool) : Prop :=
  match r, r' with
  | Some (s, A), Some (s', A') => s' = s /\ exists a1 a1',
      (forall x, A FK_SVR_OK x -> x = a1) /\ (forall x, A' FK_SVR_OK x -> x = a1') /\
      quiet a1 /\ data a1' = data a1 /\ (reads = true -> a1 = a)
  | None, None => True
  | _, _ => False
  end.

Lemma same_run_pure s s' a a' b : quiet a -> data a' = data a -> s' = s -> same_run (Some (s, to a)) (Some (s', to a')) a b.
Proof. intros Q E ->. split; [done|]. by exists a, a'. Qed.

Lemma same_run_steady f s s' a a' : quiet a -> data a' = data a -> steady f -> s' = s ->
  same_run (Some (s, to (f a))) (Some (s', to (f a'))) a false.
Proof. intros Q E Hf ->. destruct (Hf a a' Q E). split; [done|]. by exists (f a), (f a'). Qed.

(** The commands that look at one key. *)
Ltac steady_cur := intros a a' Q E; pose proof (data_cur _ _ E) as Ec;
  unfold HashSpec.hset, ListSpec.push, ListSpec.pop; rewrite Ec; repeat case_match; cbn [fst snd];
  (split; [by try apply quiet_put|by try apply data_put]).
Lemma steady_hset k f v : steady (fun a => (HashSpec.hset k f v a).2).
Proof. steady_cur. Qed.
Lemma steady_push pos k vs : steady (fun a => (ListSpec.push pos k vs a).2).
Proof. steady_cur. Qed.
Lemma steady_pop pos k : steady (fun a => (ListSpec.pop pos k a).2).
Proof. steady_cur. Qed.

Lemma pop_run pos k a a' : quiet a -> data a' = data a ->
  let r x := Some ((ListSpec.pop pos k x).1, to_ok (ListSpec.pop pos k x).2 (fun y => y = x)) in
  same_run (r a) (r a') a false.
Proof.
  intros Q E r. destruct (steady_pop pos k a a' Q E). split.
  - unfold ListSpec.pop. rewrite (data_cur _ _ E). by repeat case_match.
  - by exists (ListSpec.pop pos k a).2, (ListSpec.pop pos k a').2.
Qed.

Section run.
Context (room : stdio) (fopen_ok rename_ok : bool).
Context (run_script : bytes -> list bytes -> list bytes -> ST world unit).
Abbreviation protos := (protos room fopen_ok rename_ok run_script).
Abbreviation request := (request room fopen_ok rename_ok run_script).
Abbreviation session := (session room fopen_ok rename_ok run_script).
Context (dbcnt : Z).

Lemma exec_run now now' p l a a' :
  p ∈ protos -> plain_name dbcnt (p_name p) -> quiet a -> data a' = data a ->
  same_run (exec_any now dbcnt (p_name p) l a) (exec_any now' dbcnt (p_name p) l a') a (p_type p =? FK_PROTO_READ).
Proof.
  intros Hp [Hn Hsel] Q E. destruct l as [|c l]; [done|]. unfold exec_any, exec_var, exec. pose proof (quiet_data _ _ E Q) as Q'.
  pose proof (data_cur _ _ E) as Ec. unfold Proto.protos in Hp.
  repeat (apply elem_of_cons in Hp as [->|Hp]); [..|by apply not_elem_of_nil in Hp];
    cbn [p_name p_type] in *; try done; clear Hn; named_eval_goal;
    lazymatch goal with
    | |- context [Spec.mset] => destruct (Nat.even (length l));
        [apply (same_run_steady (Spec.mset l))|apply same_run_pure]; auto using steady_mset
    | |- context [Spec.mget] => idtac
    | |- context [DbSpec.del] =>
        apply (same_run_steady (fun a => (DbSpec.del l a).2)); auto using steady_del; by rewrite (del_reply l _ _ E)
    | |- context [ListSpec.push ?pos] => destruct l as [|k l]; [done|];
        apply (same_run_steady (fun a => (ListSpec.push pos k l a).2)); auto using steady_push;
        unfold ListSpec.push; rewrite Ec; by repeat case_match
    | |- _ => destruct l as [|k [|v [|x [|y l]]]]; try done
    end.
  - by apply (same_run_steady (Spec.set k v)); [..|apply steady_set|].
  - rewrite Ec. destruct (cur_db a !! k); [by apply same_run_pure|].
    by apply (same_run_steady (Spec.set k v)); [..|apply steady_set|].
  - split; [by rewrite (mget_now now now' l a a')|]. exists a, a'. unfold to_ok.
    by rewrite (quiet_mget now l a Q), (quiet_mget now' l a' Q').
  - rewrite !quiet_get by done. cbn [fst snd]. apply same_run_pure; [done..|by rewrite Ec].
  - by apply (same_run_steady DbSpec.flushdb); [..|apply steady_flushdb|].
  - apply same_run_pure; [done..|by rewrite Ec].
  - by apply (same_run_steady DbSpec.flushall); [..|apply steady_flushall|].
  - apply (same_run_steady (fun a => (HashSpec.hset k v x a).2)); auto using steady_hset.
    unfold HashSpec.hset. rewrite Ec. by repeat case_match.
  - apply same_run_pure; [done..|unfold HashSpec.hget; by rewrite Ec].
  - by apply pop_run.
  - by apply pop_run.
  - apply same_run_pure; [done..|unfold ListSpec.llen; by rewrite Ec].
  - destruct (decide (dbcnt = 1)) as [E1|Hd]; [|by destruct (Hsel Hd)].
    destruct (decide _) as [Hk|]; [|by apply same_run_pure]. replace (atoi k) with 0 by lia.
    apply (same_run_steady (put_idx 0)); [done..| |done]. intros b b' [Qb _] Eb. destruct b, b'. cbn in *.
    by injection Eb as -> -> ->.
Qed.

Lemma request_run now now' name l a a' s A b :
  plain_name dbcnt (fk_str_2upper name) -> quiet a -> data a' = data a -> request now dbcnt name l a = Some (s, A, b) ->
  exists A' a1 a1', request now' dbcnt name l a' = Some (s, A', b) /\
    (forall x, A FK_SVR_OK x -> x = a1) /\ (forall x, A' FK_SVR_OK x -> x = a1') /\
    quiet a1 /\ data a1' = data a1 /\ (b = false -> a1 = a).
Proof.
  intros Hn Q E. unfold ProtoProps.request. destruct (find_proto _ protos) as [p|] eqn:Hp.
  2: { intros [= <- <- <-]. by exists (to a'), a, a'. }
  destruct (wrong_arity _ _); [intros [= <- <- <-]; by exists (to a'), a, a'|].
  apply find_proto_Some in Hp as [Hin Hname]. rewrite <- Hname in *.
  pose proof (exec_run now now' p (p_name p :: l) a a' Hin Hn Q E) as H.
  destruct (exec_any now _ _ _ _) as [[s1 A1]|], (exec_any now' _ _ _ _) as [[s2 A2]|]; try done.
  destruct H as (-> & a1 & a1' & H1 & H2 & H3 & H4 & H5). intros [= <- <- <-]. exists A2, a1, a1'.
  split_and!; try done. intros Hb. apply H5. by destruct (p_type p =? FK_PROTO_READ).
Qed.

Lemma request_upper now name l a : request now dbcnt (fk_str_2upper name) l a = request now dbcnt name l a.
Proof. unfold ProtoProps.request. by rewrite fk_str_2upper_idem. Qed.

(** What a session wrote to the log, replayed on the data it began with. *)
Lemma session_entries now rs a out log a1 :
  session true now dbcnt rs a out log FK_SVR_OK a1 -> quiet a ->
  Forall (fun r => plain_name dbcnt (fk_str_2upper (hd [] r))) rs ->
  quiet a1 /\ exists rs', log = concat (encode <$> rs') /\ (forall r, r ∈ rs' -> exists r0, r0 ∈ rs /\ r = entry r0) /\
    forall now' a' out' log' a2, data a' = data a -> session false now' dbcnt rs' a' out' log' FK_SVR_OK a2 -> data a2 = data a1.
Proof.
  intros H. remember FK_SVR_OK as ok eqn:Hok. induction H as [a|name l rs a s A b a1 out log rt a2 Hr HA H IH|]; [| |done].
  - intros Q _. split; [done|]. exists []. split_and!; [done|by intros r Hr%elem_of_nil|].
    intros now' a' out' log' a2 E Hs. by inversion Hs; subst.
  - intros Q Hf. apply Forall_cons in Hf as [Hn Hf]. cbn [hd] in Hn.
    destruct (request_run now now name l a a s A b Hn Q eq_refl Hr) as (_ & b1 & _ & _ & H1 & _ & Q1 & _ & Hb).
    apply H1 in HA as Ea. subst b1. destruct (IH Hok Q1 Hf) as (Q2 & rs' & -> & Hin & Hrun).
    split; [done|]. destruct b; cbn [andb].
    + exists (entry (name :: l) :: rs'). split_and!; [done| |].
      * intros r [->|Hr']%elem_of_cons; [by exists (name :: l); split; [left|]|].
        destruct (Hin r Hr') as (r0 & ? & ->). by exists r0; split; [right|].
      * intros now' a' out' log' a3 E Hs. cbn [entry] in Hs. inversion Hs; subst; [|done].
        match goal with H : request _ _ _ _ _ = Some _ |- _ => rewrite request_upper in H; rename H into Hr2 end.
        destruct (request_run now now' name l a a' s A true Hn Q E Hr) as (A' & c1 & c1' & Hr' & C1 & C2 & _ & E1 & _).
        rewrite Hr2 in Hr'. injection Hr' as -> -> ->. eapply Hrun; [|done].
        match goal with H : A' FK_SVR_OK _ |- _ => apply C2 in H; subst end. apply C1 in HA as <-. done.
    + exists rs'. split_and!; [done| |].
      * intros r Hr'. destruct (Hin r Hr') as (r0 & ? & ->). by exists r0; split; [right|].
      * rewrite (Hb eq_refl) in Hrun. exact Hrun.
Qed.
End run.
