(* ===== verification/Heap.v ===== *)
(** Models src/src/fk_heap.c: the binary min-heap of the timers.  A leaf is a pointer;
    its field [idx], through which it is found in the tree, lives in [hp_idx].
    Index 0 of the tree is not used. *)
From S2P Require Import Prelude Util.

Definition FK_HEAP_INIT_SIZE : Z := 64.

(** ** The heap *)

Record fk_heap := Heap {
  hp_size : Z;
  hp_last : Z;
  hp_tree : list (option Z);
  hp_idx : gmap Z Z
}.

Definition hp_set_tree (h : fk_heap) (t : list (option Z)) : fk_heap :=
  Heap (hp_size h) (hp_last h) t (hp_idx h).
Definition hp_set_last (h : fk_heap) (n : Z) : fk_heap :=
  Heap (hp_size h) n (hp_tree h) (hp_idx h).
Definition hp_set_idx (h : fk_heap) (m : gmap Z Z) : fk_heap :=
  Heap (hp_size h) (hp_last h) (hp_tree h) m.

(** [leaf->idx]; [fk_tmev_create] sets it to 0. *)
Definition leaf_idx (h : fk_heap) (leaf : Z) : Z := default 0 (hp_idx h !! leaf).
Definition set_leaf_idx (h : fk_heap) (leaf i : Z) : fk_heap :=
  hp_set_idx h (<[leaf := i]> (hp_idx h)).

(** [hp->tree[i]], a NULL entry or an index outside the block excluded. *)
Definition tree_at (h : fk_heap) (i : Z) : option Z :=
  match znth (hp_tree h) i with Some (Some a) => Some a | _ => None end.

(** [hp->tree[i] = leaf; hp->tree[i]->idx = i] *)
Definition place (h : fk_heap) (i leaf : Z) : fk_heap :=
  set_leaf_idx (hp_set_tree h (zupd (hp_tree h) i (Some leaf))) leaf i.

Definition fk_heap_init : fk_heap :=
  Heap FK_HEAP_INIT_SIZE 0 (replicate (Z.to_nat FK_HEAP_INIT_SIZE) None) ∅.

Definition fk_heap_stretch (h : fk_heap) : fk_heap :=
  Heap (Z.shiftl (hp_size h) 1) (hp_last h)
    (hp_tree h ++ replicate (Z.to_nat (hp_size h)) None) (hp_idx h).

Definition fk_heap_root (h : fk_heap) : option Z :=
  if hp_last h =? 0 then None else tree_at h 1.

Section ops.
(** [hp->lop->leaf_cmp]: dereferences both leaves. *)
Context (leaf_cmp : Z -> Z -> option Z).

(** [while ((i >> 1) > 0)] of [fk_heap_push]; [i] is halved in every turn. *)
Fixpoint push_loop_up (fuel : nat) (i : Z) (h : fk_heap) : option fk_heap :=
  match fuel with
  | O => None
  | S f =>
      if 0 <? Z.shiftr i 1 then
        match tree_at h i, tree_at h (Z.shiftr i 1) with
        | Some leaf, Some tmp =>
            match leaf_cmp leaf tmp with
            | Some cmp =>
                if cmp <? 0
                then push_loop_up f (Z.shiftr i 1) (place (place h (Z.shiftr i 1) leaf) i tmp)
                else Some h
            | None => None
            end
        | _, _ => None
        end
      else Some h
  end.

Definition fk_heap_push (h : fk_heap) (leaf : Z) : option fk_heap :=
  let h := if hp_last h =? hp_size h - 1 then fk_heap_stretch h else h in
  let h := hp_set_last h (hp_last h + 1) in
  let h := place h (hp_last h) leaf in
  push_loop_up (S (Z.to_nat (hp_last h))) (hp_last h) h.

(** The smaller of the children of [i] and its index. *)
Definition min_child (h : fk_heap) (i : Z) : option (Z * Z) :=
  match tree_at h (Z.shiftl i 1) with
  | None => None
  | Some l =>
      if Z.shiftl i 1 + 1 <=? hp_last h then
        match tree_at h (Z.shiftl i 1 + 1) with
        | None => None
        | Some r =>
            match leaf_cmp l r with
            | Some cmp =>
                Some (if 0 <? cmp then (r, Z.shiftl i 1 + 1) else (l, Z.shiftl i 1))
            | None => None
            end
        end
      else Some (l, Z.shiftl i 1)
  end.

(** [while ((i << 1) <= hp->last)] of [fk_heap_remove]; [i] at least doubles. *)
Fixpoint remove_loop_down (fuel : nat) (i : Z) (h : fk_heap) : option fk_heap :=
  match fuel with
  | O => None
  | S f =>
      if Z.shiftl i 1 <=? hp_last h then
        match tree_at h i, min_child h i with
        | Some parent, Some (min, j) =>
            match leaf_cmp parent min with
            | Some cmp =>
                if 0 <? cmp then remove_loop_down f j (place (place h i min) j parent) else Some h
            | None => None
            end
        | _, _ => None
        end
      else Some h
  end.

Definition fk_heap_remove (h : fk_heap) (leaf : Z) : option fk_heap :=
  let idx := leaf_idx h leaf in
  if (idx <? 1) || (hp_last h <? idx) then Some h
  else
    match tree_at h (hp_last h) with
    | None => None
    | Some x =>
        let h := place h idx x in
        let h := hp_set_tree h (zupd (hp_tree h) (hp_last h) None) in
        let h := hp_set_last h (hp_last h - 1) in
        let h := set_leaf_idx h leaf 0 in
        remove_loop_down (S (Z.to_nat (hp_last h))) idx h
    end.

Definition fk_heap_pop (h : fk_heap) : option (option Z * fk_heap) :=
  if hp_last h <? 1 then Some (None, h)
  else
    match tree_at h 1 with
    | None => None
    | Some root =>
        match fk_heap_remove h root with Some h => Some (Some root, h) | None => None end
    end.
End ops.

(** ** The structure of the heap *)

(** The leaves [ls] are exactly those at the indices 1 to [last], each with its
    index in its field; a leaf outside has index 0. *)
Record heap_wf (ls : gset Z) (h : fk_heap) : Prop := {
  hw_size : zlen (hp_tree h) = hp_size h;
  hw_last : 0 <= hp_last h < hp_size h;
  hw_at : forall i, 1 <= i <= hp_last h -> exists a, tree_at h i = Some a /\ leaf_idx h a = i;
  hw_idx : forall a, a ∈ ls <-> leaf_idx h a <> 0;
  hw_in : forall a, a ∈ ls -> 1 <= leaf_idx h a <= hp_last h /\ tree_at h (leaf_idx h a) = Some a
}.

Lemma tree_at_range h i a : tree_at h i = Some a -> 0 <= i < zlen (hp_tree h).
Proof.
  unfold tree_at, znth, zlen. destruct (i <? 0) eqn:E; [done|].
  destruct (hp_tree h !! Z.to_nat i) eqn:El; [|done]. intros _. apply lookup_lt_Some in El. lia.
Qed.

Lemma leaf_idx_set h a i b :
  leaf_idx (set_leaf_idx h a i) b = if decide (b = a) then i else leaf_idx h b.
Proof.
  unfold leaf_idx, set_leaf_idx. cbn. destruct (decide (b = a)) as [->|H].
  - by rewrite lookup_insert_eq.
  - by rewrite lookup_insert_ne by done.
Qed.

Lemma tree_at_place h i a j :
  0 <= i < zlen (hp_tree h) -> tree_at (place h i a) j = if decide (j = i) then Some a else tree_at h j.
Proof.
  intros Hi. unfold tree_at, place, set_leaf_idx, hp_set_idx. cbn. destruct (decide (j = i)) as [->|H].
  - by rewrite znth_zupd_eq.
  - by rewrite znth_zupd_ne by (done || lia).
Qed.

Lemma leaf_idx_place h i a b :
  leaf_idx (place h i a) b = if decide (b = a) then i else leaf_idx h b.
Proof. unfold place. by rewrite leaf_idx_set. Qed.

Lemma zlen_tree_place h i a : zlen (hp_tree (place h i a)) = zlen (hp_tree h).
Proof. unfold place. cbn. apply zlen_zupd. Qed.

(** In a well-formed heap an index determines its leaf. *)
Lemma wf_at_in ls h i a :
  heap_wf ls h -> 1 <= i <= hp_last h -> tree_at h i = Some a -> a ∈ ls /\ leaf_idx h a = i.
Proof.
  intros W Hi Ha. destruct (hw_at _ _ W i Hi) as (b & Hb & Hib). rewrite Ha in Hb. injection Hb as <-.
  split; [|done]. apply (hw_idx _ _ W). lia.
Qed.

(** Exchanging two leaves keeps the structure. *)
Definition swap (h : fk_heap) (i j : Z) (a b : Z) : fk_heap := place (place h i b) j a.

Lemma swap_at h i j a b k :
  0 <= i < zlen (hp_tree h) -> 0 <= j < zlen (hp_tree h) -> i <> j ->
  tree_at (swap h i j a b) k =
    if decide (k = j) then Some a else if decide (k = i) then Some b else tree_at h k.
Proof.
  intros Hi Hj Hn. unfold swap. rewrite tree_at_place by by rewrite zlen_tree_place.
  destruct (decide (k = j)); [done|]. by rewrite tree_at_place.
Qed.

Lemma swap_idx h i j a b c :
  leaf_idx (swap h i j a b) c =
    if decide (c = a) then j else if decide (c = b) then i else leaf_idx h c.
Proof. unfold swap. rewrite !leaf_idx_place. by destruct (decide (c = a)). Qed.

Lemma swap_wf ls h i j a b :
  heap_wf ls h -> 1 <= i <= hp_last h -> 1 <= j <= hp_last h -> i <> j ->
  tree_at h i = Some a -> tree_at h j = Some b -> heap_wf ls (swap h i j a b).
Proof.
  intros W Hi Hj Hn Ha Hb. pose proof (tree_at_range _ _ _ Ha). pose proof (tree_at_range _ _ _ Hb).
  destruct (wf_at_in _ _ _ _ W Hi Ha) as [Hal Hai]. destruct (wf_at_in _ _ _ _ W Hj Hb) as [Hbl Hbi].
  split.
  - unfold swap. rewrite !zlen_tree_place. apply W.
  - apply W.
  - intros k Hk. change (hp_last (swap h i j a b)) with (hp_last h) in Hk.
    rewrite swap_at by done. destruct (decide (k = j)) as [->|Hkj].
    { exists a. split; [done|]. rewrite swap_idx. by destruct (decide (a = a)). }
    destruct (decide (k = i)) as [->|Hki].
    { exists b. split; [done|]. rewrite swap_idx. destruct (decide (b = a)) as [->|]; [lia|].
      by destruct (decide (b = b)). }
    destruct (hw_at _ _ W k Hk) as (c & Hc & Hci). exists c. split; [done|]. rewrite swap_idx.
    destruct (decide (c = a)) as [->|]; [lia|]. destruct (decide (c = b)) as [->|]; [lia|done].
  - intros c. rewrite swap_idx. destruct (decide (c = a)) as [->|]; [split; [lia|done]|].
    destruct (decide (c = b)) as [->|]; [split; [lia|done]|apply W].
  - intros c Hc. change (hp_last (swap h i j a b)) with (hp_last h). rewrite swap_idx.
    destruct (hw_in _ _ W c Hc) as [Hr Hat].
    destruct (decide (c = a)) as [->|]; [split; [lia|]; rewrite swap_at by done; by destruct (decide (j = j))|].
    destruct (decide (c = b)) as [->|].
    + split; [lia|]. rewrite swap_at by done. destruct (decide (i = j)); [done|]. by destruct (decide (i = i)).
    + split; [lia|]. rewrite swap_at by done. destruct (decide _) as [E|]; [rewrite E in Hat; congruence|].
      destruct (decide _) as [E|]; [rewrite E in Hat; congruence|done].
Qed.

(** ** The order of the heap *)

(** [leaf_cmp] compares the leaves of [ls] by [rank]. *)
Definition compares (leaf_cmp : Z -> Z -> option Z) (rank : Z -> Z) (ls : gset Z) : Prop :=
  forall a b, a ∈ ls -> b ∈ ls -> exists c, leaf_cmp a b = Some c /\
    (c < 0 <-> rank a < rank b) /\ (0 < c <-> rank b < rank a).

Ltac half_lia := Z.div_mod_to_equations; lia.

Section order.
Context (leaf_cmp : Z -> Z -> option Z) (rank : Z -> Z).
Implicit Types (h : fk_heap) (ls : gset Z).

(** The rank of the leaf at an index. *)
Definition rank_at h (i : Z) : Z := match tree_at h i with Some a => rank a | None => 0 end.

(** No leaf is smaller than its parent, the exception [e] aside. *)
Definition ordered_but (e : Z) h : Prop :=
  forall j, 2 <= j <= hp_last h -> j <> e -> rank_at h (Z.shiftr j 1) <= rank_at h j.
Definition ordered h : Prop := ordered_but 0 h.

(** What holds while a leaf moves up to [i]: its children are not smaller than its
    parent. *)
Definition going_up (i : Z) h : Prop :=
  ordered_but i h /\
  forall j, 2 <= j <= hp_last h -> Z.shiftr j 1 = i -> 2 <= i -> rank_at h (Z.shiftr i 1) <= rank_at h j.

(** What holds while a leaf moves down to [i]; [e] is where it started. *)
Definition going_down (e i : Z) h : Prop :=
  (forall j, 2 <= j <= hp_last h -> j <> e -> Z.shiftr j 1 <> i -> rank_at h (Z.shiftr j 1) <= rank_at h j) /\
  forall j, 2 <= j <= hp_last h -> Z.shiftr j 1 = i -> 2 <= i -> i <> e ->
    rank_at h (Z.shiftr i 1) <= rank_at h j.

Lemma rank_at_Some h i a : tree_at h i = Some a -> rank_at h i = rank a.
Proof. unfold rank_at. by intros ->. Qed.

Lemma rank_at_swap h i j a b k :
  0 <= i < zlen (hp_tree h) -> 0 <= j < zlen (hp_tree h) -> i <> j ->
  rank_at (swap h i j a b) k =
    if decide (k = j) then rank a else if decide (k = i) then rank b else rank_at h k.
Proof.
  intros Hi Hj Hn. unfold rank_at. rewrite swap_at by done.
  destruct (decide (k = j)); [done|]. by destruct (decide (k = i)).
Qed.

Lemma shiftr1 j : Z.shiftr j 1 = j / 2.
Proof. by rewrite Z.shiftr_div_pow2 by lia. Qed.
Lemma shiftl1 j : Z.shiftl j 1 = 2 * j.
Proof. rewrite Z.shiftl_mul_pow2 by lia. change (2 ^ 1) with 2. lia. Qed.


(** Decide which indices of an exchange are equal. *)
Ltac swap_cases := repeat case_decide; subst;
  repeat match goal with
  | H : ?a / 2 = ?b / 2 |- _ => rewrite H in *; clear H
  end; try lia; try (exfalso; half_lia).

Lemma up_step h ls i a p :
  heap_wf ls h -> 2 <= i <= hp_last h -> tree_at h i = Some a -> tree_at h (i / 2) = Some p ->
  rank a < rank p -> going_up i h -> going_up (i / 2) (swap h (i / 2) i p a).
Proof.
  intros W Hi Ha Hp Hlt [H1 H2]. unfold going_up, ordered_but in *.
  change (hp_last (swap h (i / 2) i p a)) with (hp_last h).
  pose proof (tree_at_range _ _ _ Ha). pose proof (tree_at_range _ _ _ Hp).
  pose proof (rank_at_Some _ _ _ Ha) as Ra. pose proof (rank_at_Some _ _ _ Hp) as Rp.
  assert (i / 2 <> i) as Hne by half_lia.
  pose proof (rank_at_swap h (i / 2) i p a) as Hs. rewrite shiftr1 in *.
  split; intros j Hj; rewrite shiftr1 in *.
  - intros Hn. specialize (H1 j Hj). specialize (H2 j Hj). rewrite shiftr1 in *.
    rewrite !Hs by done. swap_cases.
  - intros Hji Hi2. pose proof (H1 j Hj) as H1j. pose proof (H1 (i / 2) ltac:(half_lia) Hne) as H1p.
    rewrite shiftr1 in *. rewrite Hji in H1j. rewrite !Hs by done. swap_cases.
Qed.

Lemma up_done h i :
  going_up i h -> i / 2 = 0 \/ rank_at h (i / 2) <= rank_at h i -> ordered h.
Proof.
  intros [H1 _] Hi j Hj _. destruct (decide (j = i)) as [->|Hn]; [|by apply H1].
  rewrite shiftr1. destruct Hi; [half_lia|done].
Qed.

Lemma push_loop_up_ok f : forall ls h i,
  heap_wf ls h -> compares leaf_cmp rank ls -> going_up i h -> 1 <= i <= hp_last h -> i < Z.of_nat f ->
  exists h', push_loop_up leaf_cmp f i h = Some h' /\ heap_wf ls h' /\ ordered h' /\
    hp_last h' = hp_last h /\ hp_size h' = hp_size h.
Proof.
  induction f as [|f IH]; intros ls h i W C G Hi Hf; [lia|]. cbn [push_loop_up]. rewrite shiftr1.
  destruct (0 <? i / 2) eqn:E.
  2: { exists h. split_and!; try done. apply (up_done h i); [done|]. left. half_lia. }
  destruct (hw_at _ _ W i Hi) as (a & Ha & _). rewrite Ha.
  assert (1 <= i / 2 <= hp_last h) as Hh by half_lia.
  destruct (hw_at _ _ W (i / 2) Hh) as (p & Hp & _). rewrite Hp.
  destruct (wf_at_in _ _ _ _ W Hi Ha) as [Hal _]. destruct (wf_at_in _ _ _ _ W Hh Hp) as [Hpl _].
  destruct (C a p Hal Hpl) as (c & -> & Hc & _). destruct (c <? 0) eqn:Ec.
  - change (place (place h (i / 2) a) i p) with (swap h (i / 2) i p a).
    destruct (IH ls (swap h (i / 2) i p a) (i / 2)) as (h' & -> & W' & O' & L' & S').
    + apply swap_wf; try done. half_lia.
    + done.
    + eapply up_step; try done; half_lia.
    + done.
    + half_lia.
    + by exists h'.
  - exists h. split_and!; try done. apply (up_done h i); [done|]. right.
    rewrite (rank_at_Some _ _ _ Ha), (rank_at_Some _ _ _ Hp). lia.
Qed.

(** The child chosen is not larger than the other one. *)
Lemma min_child_ok ls h i :
  heap_wf ls h -> compares leaf_cmp rank ls -> 1 <= i -> 2 * i <= hp_last h ->
  exists m j, min_child leaf_cmp h i = Some (m, j) /\ tree_at h j = Some m /\ j / 2 = i /\
    1 <= j <= hp_last h /\
    forall k, 2 <= k <= hp_last h -> k / 2 = i -> rank m <= rank_at h k.
Proof.
  intros W C Hi Hl. unfold min_child. rewrite shiftl1.
  destruct (hw_at _ _ W (2 * i) ltac:(lia)) as (l & Hml & _). rewrite Hml.
  pose proof (rank_at_Some _ _ _ Hml) as Rl.
  assert (forall k, k / 2 = i -> k = 2 * i \/ k = 2 * i + 1) as Hk by (intros; half_lia).
  destruct (2 * i + 1 <=? hp_last h) eqn:E.
  - destruct (hw_at _ _ W (2 * i + 1) ltac:(lia)) as (r & Hmr & _). rewrite Hmr.
    pose proof (rank_at_Some _ _ _ Hmr) as Rr.
    destruct (wf_at_in _ _ (2 * i) _ W ltac:(lia) Hml) as [Hll _].
    destruct (wf_at_in _ _ (2 * i + 1) _ W ltac:(lia) Hmr) as [Hrl _].
    destruct (C l r Hll Hrl) as (c & -> & _ & Hc). destruct (0 <? c) eqn:Ec; eexists _, _;
      (split; [reflexivity|]); split_and!; try done; try half_lia;
      intros k _ [->| ->]%Hk; lia.
  - eexists _, _. split; [reflexivity|]. split_and!; try done; try half_lia.
    intros k Hk2 [->| ->]%Hk; lia.
Qed.

Lemma down_done e i h :
  going_down e i h -> 1 <= i ->
  (forall k, 2 <= k <= hp_last h -> k / 2 = i -> rank_at h i <= rank_at h k) -> ordered_but e h.
Proof.
  intros [H1 _] Hi H j Hj He. rewrite shiftr1.
  destruct (decide (j / 2 = i)) as [E|E]; [rewrite E; by apply H|].
  specialize (H1 j Hj He). rewrite shiftr1 in H1. by apply H1.
Qed.

Lemma down_step e h ls i j x m :
  heap_wf ls h -> 1 <= e <= i -> i <= hp_last h -> 1 <= j <= hp_last h -> j / 2 = i ->
  tree_at h i = Some x -> tree_at h j = Some m ->
  (forall k, 2 <= k <= hp_last h -> k / 2 = i -> rank m <= rank_at h k) -> rank m < rank x ->
  going_down e i h -> going_down e j (swap h i j x m).
Proof.
  intros W He Hi Hj Hji Hx Hm Hmin Hlt [H1 H2]. unfold going_down in *.
  change (hp_last (swap h i j x m)) with (hp_last h).
  pose proof (tree_at_range _ _ _ Hx). pose proof (tree_at_range _ _ _ Hm).
  pose proof (rank_at_Some _ _ _ Hm) as Rm. assert (i <> j) as Hne by half_lia.
  pose proof (rank_at_swap h i j x m) as Hs.
  split; intros k Hk; rewrite !shiftr1 in *.
  - intros Hke Hkj. specialize (H1 k Hk Hke). specialize (Hmin k Hk). rewrite !shiftr1 in *.
    rewrite !Hs by done. destruct (decide (k = i)) as [->|Hki].
    + specialize (H2 j ltac:(half_lia)). rewrite !shiftr1 in *.
      repeat case_decide; try (exfalso; half_lia). rewrite <- Rm. apply H2; lia || done.
    + destruct (decide (k / 2 = i)) as [E|E]; [rewrite E in *|]; repeat case_decide; try lia; subst; lia.
  - intros Hkj Hj2 Hje. rewrite !Hs by done. assert (k <> i /\ k <> j) as [? ?] by (split; half_lia).
    specialize (H1 k Hk ltac:(half_lia)). rewrite !shiftr1, Hkj in *. rewrite Hji.
    repeat case_decide; try done. rewrite <- Rm. apply H1. done.
Qed.

Lemma remove_loop_down_ok f : forall ls h e i,
  heap_wf ls h -> compares leaf_cmp rank ls -> going_down e i h -> 1 <= e <= i -> i <= hp_last h ->
  hp_last h - i < Z.of_nat f ->
  exists h', remove_loop_down leaf_cmp f i h = Some h' /\ heap_wf ls h' /\ ordered_but e h' /\
    hp_last h' = hp_last h /\ hp_size h' = hp_size h.
Proof.
  induction f as [|f IH]; intros ls h e i W C G He Hi Hf; [lia|]. cbn [remove_loop_down].
  rewrite shiftl1. destruct (2 * i <=? hp_last h) eqn:E.
  2: { exists h. split_and!; try done. apply (down_done e i); [done|lia|]. intros k Hk Hki. half_lia. }
  destruct (hw_at _ _ W i ltac:(lia)) as (x & Hx & _). rewrite Hx.
  destruct (min_child_ok ls h i W C ltac:(lia) ltac:(lia)) as (m & j & -> & Hm & Hji & Hj & Hmin).
  destruct (wf_at_in _ _ i _ W ltac:(lia) Hx) as [Hxl _]. destruct (wf_at_in _ _ _ _ W Hj Hm) as [Hml _].
  destruct (C x m Hxl Hml) as (c & -> & _ & Hc). destruct (0 <? c) eqn:Ec.
  - change (place (place h i m) j x) with (swap h i j x m).
    destruct (IH ls (swap h i j x m) e j) as (h' & -> & W' & O' & L' & S').
    + apply swap_wf; try done; [lia|half_lia].
    + done.
    + eapply down_step; try done; lia.
    + half_lia.
    + cbn. lia.
    + change (hp_last (swap h i j x m)) with (hp_last h). half_lia.
    + by exists h'.
  - exists h. split_and!; try done. apply (down_done e i); [done|lia|]. intros k Hk Hki.
    rewrite (rank_at_Some _ _ _ Hx). specialize (Hmin k Hk Hki). lia.
Qed.

(** *** Push *)

Lemma heap_stretch_wf ls h : heap_wf ls h -> heap_wf ls (fk_heap_stretch h).
Proof.
  intros W. pose proof (hw_size _ _ W). pose proof (hw_last _ _ W).
  assert (forall i, i < hp_size h -> tree_at (fk_heap_stretch h) i = tree_at h i) as Ht.
  { intros i Hi. unfold tree_at, fk_heap_stretch. cbn. destruct (i <? 0) eqn:E; [unfold znth; by rewrite E|].
    rewrite znth_app_l by lia. done. }
  split; cbn [fk_heap_stretch hp_size hp_last hp_tree].
  - rewrite zlen_app, zlen_replicate, shiftl1 by lia. lia.
  - rewrite shiftl1. lia.
  - intros i Hi. rewrite Ht by lia. by apply W.
  - apply W.
  - intros a Ha. destruct (hw_in _ _ W a Ha) as [Hr Hat]. split; [exact Hr|].
    change (leaf_idx (fk_heap_stretch h) a) with (leaf_idx h a). by rewrite Ht by lia.
Qed.

Lemma stretch_rank ls h i : heap_wf ls h -> i <= hp_last h ->
  rank_at (fk_heap_stretch h) i = rank_at h i.
Proof.
  intros W Hi. unfold rank_at, tree_at, fk_heap_stretch. cbn. pose proof (hw_size _ _ W).
  pose proof (hw_last _ _ W). destruct (i <? 0) eqn:E; [unfold znth; by rewrite E|].
  by rewrite znth_app_l by lia.
Qed.

(** The new leaf behind the last one. *)
Lemma append_leaf_wf ls h leaf :
  heap_wf ls h -> leaf ∉ ls -> hp_last h < hp_size h - 1 ->
  let h1 := hp_set_last h (hp_last h + 1) in
  let h2 := place h1 (hp_last h1) leaf in
  heap_wf ({[leaf]} ∪ ls) h2 /\ (ordered h -> going_up (hp_last h1) h2).
Proof.
  intros W Hn Hs h1 h2. pose proof (hw_size _ _ W). pose proof (hw_last _ _ W).
  assert (forall i, tree_at h2 i = if decide (i = hp_last h + 1) then Some leaf else tree_at h i) as Ht.
  { intros i. unfold h2. rewrite tree_at_place; [done|]. cbn. lia. }
  assert (forall a, leaf_idx h2 a = if decide (a = leaf) then hp_last h + 1 else leaf_idx h a) as Hx.
  { intros a. unfold h2. by rewrite leaf_idx_place. }
  split; [split|].
  - unfold h2. rewrite zlen_tree_place. apply W.
  - cbn. lia.
  - intros i Hi. change (hp_last h2) with (hp_last h + 1) in Hi. rewrite Ht.
    destruct (decide (i = hp_last h + 1)) as [->|].
    + exists leaf. split; [done|]. rewrite Hx. by destruct (decide (leaf = leaf)).
    + destruct (hw_at _ _ W i ltac:(lia)) as (a & Ha & Hi'). exists a. split; [done|]. rewrite Hx.
      destruct (decide (a = leaf)) as [->|]; [|done]. exfalso. apply Hn. apply (hw_idx _ _ W). lia.
  - intros a. rewrite Hx, elem_of_union, elem_of_singleton.
    destruct (decide (a = leaf)) as [->|Ha]; [split; [lia|by left]|].
    rewrite <- (hw_idx _ _ W a). tauto.
  - intros a. change (hp_last h2) with (hp_last h + 1). rewrite Hx, elem_of_union, elem_of_singleton, Ht.
    destruct (decide (a = leaf)) as [->|Ha]; [intros _; split; [lia|]; by case_decide|].
    intros [?|Hal]; [done|]. destruct (hw_in _ _ W a Hal) as [Hr Hat]. split; [lia|].
    case_decide; [lia|done].
  - intros O. change (hp_last h1) with (hp_last h + 1). split; intros j Hj;
      change (hp_last h2) with (hp_last h + 1) in Hj; rewrite shiftr1.
    + intros Hne. unfold rank_at. rewrite !Ht. repeat case_decide; try half_lia.
      specialize (O j ltac:(lia) ltac:(lia)). by rewrite shiftr1 in O.
    + intros E. half_lia.
Qed.

Lemma heap_push_ok ls h leaf :
  heap_wf ls h -> ordered h -> leaf ∉ ls -> compares leaf_cmp rank ({[leaf]} ∪ ls) ->
  exists h', fk_heap_push leaf_cmp h leaf = Some h' /\ heap_wf ({[leaf]} ∪ ls) h' /\ ordered h' /\
    hp_last h' = hp_last h + 1.
Proof.
  intros W O Hn C. unfold fk_heap_push. set (h0 := if hp_last h =? hp_size h - 1 then fk_heap_stretch h else h).
  assert (heap_wf ls h0 /\ ordered h0 /\ hp_last h0 = hp_last h /\ hp_last h0 < hp_size h0 - 1)
    as (W0 & O0 & L0 & S0).
  { pose proof (hw_last _ _ W). unfold h0. destruct (_ =? _) eqn:E; [|split_and!; (done || lia)].
    split_and!; [by apply heap_stretch_wf| |done|cbn; rewrite shiftl1; lia].
    intros j Hj Hj0. specialize (O j Hj Hj0). cbn in Hj.
    rewrite !(stretch_rank ls) by (done || (rewrite ?shiftr1; half_lia)). done. }
  clearbody h0. destruct (append_leaf_wf ls h0 leaf W0 Hn S0) as [W2 G2]. specialize (G2 O0).
  pose proof (hw_last _ _ W0).
  destruct (push_loop_up_ok (S (Z.to_nat (hp_last h0 + 1))) _ _ _ W2 C G2) as (h' & E & W' & O' & L' & _);
    [cbn; lia|cbn; lia|]. exists h'. split_and!; [exact E|done|done|]. rewrite L'. cbn. lia.
Qed.

(** *** Remove and pop *)

(** The last leaf takes the place of the removed one. *)
Lemma fill_gap_wf ls h leaf x :
  heap_wf ls h -> leaf ∈ ls -> tree_at h (hp_last h) = Some x ->
  let h1 := place h (leaf_idx h leaf) x in
  let h2 := hp_set_last (hp_set_tree h1 (zupd (hp_tree h1) (hp_last h1) None)) (hp_last h1 - 1) in
  let h3 := set_leaf_idx h2 leaf 0 in
  heap_wf (ls ∖ {[leaf]}) h3 /\
  forall i, 1 <= i <= hp_last h - 1 ->
    rank_at h3 i = if decide (i = leaf_idx h leaf) then rank x else rank_at h i.
Proof.
  intros W Hl Hx h1 h2 h3. destruct (hw_in _ _ W leaf Hl) as [Hidx Hat]. set (idx := leaf_idx h leaf) in *.
  pose proof (hw_size _ _ W). pose proof (hw_last _ _ W).
  destruct (wf_at_in ls h (hp_last h) x W ltac:(lia) Hx) as [Hxl Hxi].
  assert (forall i, i <> hp_last h -> tree_at h3 i = if decide (i = idx) then Some x else tree_at h i) as Ht.
  { intros i Hi. unfold h3, h2, set_leaf_idx, tree_at. cbn [hp_set_idx hp_tree hp_set_last hp_set_tree].
    rewrite znth_zupd_ne; [|cbn; lia|done].
    fold (tree_at h1 i). unfold h1. rewrite tree_at_place by lia. done. }
  assert (forall a, leaf_idx h3 a = if decide (a = leaf) then 0 else if decide (a = x) then idx else leaf_idx h a) as Hi3.
  { intros a. unfold h3. rewrite leaf_idx_set. change (leaf_idx h2 a) with (leaf_idx h1 a).
    unfold h1. by rewrite leaf_idx_place. }
  split; [split|].
  - cbn. rewrite !zlen_zupd. done.
  - cbn. lia.
  - intros i Hi. change (hp_last h3) with (hp_last h - 1) in Hi. rewrite Ht by lia.
    destruct (decide (i = idx)) as [->|Hne].
    + exists x. split; [done|]. rewrite Hi3. destruct (decide (x = leaf)) as [->|]; [unfold idx in *; lia|].
      by destruct (decide (x = x)).
    + destruct (hw_at _ _ W i ltac:(lia)) as (a & Ha & Hai). exists a. split; [done|]. rewrite Hi3.
      destruct (decide (a = leaf)) as [->|]; [unfold idx in *; lia|].
      destruct (decide (a = x)) as [->|]; [lia|done].
  - intros a. rewrite Hi3, elem_of_difference, elem_of_singleton. pose proof (hw_idx _ _ W a) as Ha.
    destruct (decide (a = leaf)) as [->|]; [split; [by intros []|lia]|].
    destruct (decide (a = x)) as [->|]; [split; [lia|by split]|tauto].
  - intros a. change (hp_last h3) with (hp_last h - 1). rewrite Hi3, elem_of_difference, elem_of_singleton.
    intros [Ha Hne]. destruct (decide (a = leaf)) as [->|]; [done|].
    destruct (hw_in _ _ W a Ha) as [Har Haat]. destruct (decide (a = x)) as [->|Hax].
    + assert (idx <> hp_last h) by (intros E; rewrite <- E in Hx; congruence).
      split; [lia|]. rewrite Ht by lia. by destruct (decide (idx = idx)).
    + assert (leaf_idx h a <> hp_last h) by (intros E; rewrite E in Haat; congruence).
      assert (leaf_idx h a <> idx) by (intros E; rewrite E in Haat; congruence).
      split; [lia|]. rewrite Ht by lia. by destruct (decide (leaf_idx h a = idx)).
  - intros i Hi. unfold rank_at. rewrite Ht by lia. by destruct (decide (i = idx)).
Qed.

(** Removing keeps every leaf not smaller than its parent except, possibly, the one
    that now is where the removed leaf was. *)
Lemma heap_remove_ok ls h leaf :
  heap_wf ls h -> ordered h -> compares leaf_cmp rank ls -> leaf ∈ ls ->
  exists h', fk_heap_remove leaf_cmp h leaf = Some h' /\ heap_wf (ls ∖ {[leaf]}) h' /\
    ordered_but (leaf_idx h leaf) h' /\ hp_last h' = hp_last h - 1.
Proof.
  intros W O C Hl. destruct (hw_in _ _ W leaf Hl) as [Hidx Hat]. unfold fk_heap_remove.
  set (idx := leaf_idx h leaf) in *.
  assert ((idx <? 1) || (hp_last h <? idx) = false) as -> by (apply orb_false_iff; lia).
  destruct (hw_at _ _ W (hp_last h) ltac:(lia)) as (x & Hx & _). rewrite Hx.
  destruct (fill_gap_wf ls h leaf x W Hl Hx) as [W3 R3]. cbv zeta in W3, R3. fold idx in W3, R3.
  set (h3 := set_leaf_idx _ leaf 0) in *. change (hp_last (place h idx x)) with (hp_last h) in *.
  assert (hp_last h3 = hp_last h - 1) as L3 by done.
  assert (compares leaf_cmp rank (ls ∖ {[leaf]})) as C3 by (intros a b Ha Hb; apply C; set_solver).
  assert (forall j, 2 <= j <= hp_last h - 1 -> j <> idx -> j / 2 <> idx -> rank_at h3 (j / 2) <= rank_at h3 j) as Hkeep.
  { intros j Hj Hn1 Hn2. rewrite !R3 by half_lia. repeat case_decide; try done.
    specialize (O j ltac:(lia) ltac:(lia)). by rewrite shiftr1 in O. }
  destruct (decide (idx <= hp_last h - 1)) as [Hlt|Hge].
  - destruct (remove_loop_down_ok (S (Z.to_nat (hp_last h3))) _ _ idx idx W3 C3) as (h' & E & W' & O' & L' & _);
      [|lia|lia|lia|exists h'; split_and!; (done || lia)].
    split; intros j Hj; rewrite !shiftr1; rewrite L3 in Hj; [by apply Hkeep|lia].
  - exists h3. cbn [remove_loop_down]. rewrite shiftl1, L3.
    rewrite (proj2 (Z.leb_gt _ _)) by lia. split_and!; [done|done| |done].
    intros j Hj Hn. rewrite shiftr1. rewrite L3 in Hj. apply Hkeep; [done|done|half_lia].
Qed.

(** The root is the smallest leaf. *)
Lemma root_min ls h a r :
  heap_wf ls h -> ordered h -> tree_at h 1 = Some r -> a ∈ ls -> rank r <= rank a.
Proof.
  intros W O Hr Ha. destruct (hw_in _ _ W a Ha) as [Hi Hat].
  assert (forall n, 1 <= n <= hp_last h -> rank r <= rank_at h n) as H.
  { intros n. induction n as [n IH] using (well_founded_induction (Z.lt_wf 0)). intros Hn.
    destruct (decide (n = 1)) as [->|Hne]; [by rewrite (rank_at_Some _ _ _ Hr)|].
    etransitivity; [apply (IH (n / 2)); half_lia|]. specialize (O n ltac:(lia) ltac:(lia)).
    by rewrite shiftr1 in O. }
  rewrite <- (rank_at_Some _ _ _ Hat). by apply H.
Qed.

Lemma heap_pop_ok ls h :
  heap_wf ls h -> ordered h -> compares leaf_cmp rank ls ->
  exists o h', fk_heap_pop leaf_cmp h = Some (o, h') /\ o = fk_heap_root h /\ ordered h' /\
    match o with
    | None => ls = ∅ /\ h' = h
    | Some r => r ∈ ls /\ (forall a, a ∈ ls -> rank r <= rank a) /\ heap_wf (ls ∖ {[r]}) h'
    end.
Proof.
  intros W O C. unfold fk_heap_pop, fk_heap_root. pose proof (hw_last _ _ W).
  destruct (hp_last h <? 1) eqn:E.
  { assert (hp_last h = 0) as -> by lia. exists None, h. split_and!; try done.
    apply set_eq. intros a. split; [|set_solver]. intros Ha. destruct (hw_in _ _ W a Ha). lia. }
  rewrite (proj2 (Z.eqb_neq _ _)) by lia.
  destruct (hw_at _ _ W 1 ltac:(lia)) as (r & Hr & Hri). rewrite Hr.
  destruct (wf_at_in ls h 1 r W ltac:(lia) Hr) as [Hrl _].
  destruct (heap_remove_ok ls h r W O C Hrl) as (h' & -> & W' & O' & _). exists (Some r), h'.
  split_and!; try done.
  - intros j Hj _. apply O'; [done|]. rewrite Hri. lia.
  - intros a Ha. exact (root_min ls h a r W O Hr Ha).
Qed.
End order.

(** ** Without the order *)

(** Whatever a total comparison answers, no operation leaves the tree and each leaf
    knows where it is. *)
Section unordered.
Context (leaf_cmp : Z -> Z -> option Z).
Implicit Types (h : fk_heap) (ls : gset Z).

Definition total_on ls : Prop := forall a b, a ∈ ls -> b ∈ ls -> is_Some (leaf_cmp a b).

Lemma push_loop_up_wf f : forall ls h i,
  heap_wf ls h -> total_on ls -> 1 <= i <= hp_last h -> i < Z.of_nat f ->
  exists h', push_loop_up leaf_cmp f i h = Some h' /\ heap_wf ls h' /\ hp_last h' = hp_last h.
Proof.
  induction f as [|f IH]; intros ls h i W C Hi Hf; [lia|]. cbn [push_loop_up]. rewrite shiftr1.
  destruct (0 <? i / 2) eqn:E; [|by exists h].
  destruct (hw_at _ _ W i Hi) as (a & Ha & _). rewrite Ha.
  assert (1 <= i / 2 <= hp_last h) as Hh by half_lia.
  destruct (hw_at _ _ W (i / 2) Hh) as (p & Hp & _). rewrite Hp.
  destruct (wf_at_in _ _ _ _ W Hi Ha) as [Hal _]. destruct (wf_at_in _ _ _ _ W Hh Hp) as [Hpl _].
  destruct (C a p Hal Hpl) as [c ->]. destruct (c <? 0); [|by exists h].
  change (place (place h (i / 2) a) i p) with (swap h (i / 2) i p a).
  destruct (IH ls (swap h (i / 2) i p a) (i / 2)) as (h' & -> & W' & L'); [|done|done|half_lia|by exists h'].
  apply swap_wf; try done. half_lia.
Qed.

Lemma min_child_wf ls h i :
  heap_wf ls h -> total_on ls -> 1 <= i -> 2 * i <= hp_last h ->
  exists m j, min_child leaf_cmp h i = Some (m, j) /\ tree_at h j = Some m /\ j / 2 = i /\ 1 <= j <= hp_last h.
Proof.
  intros W C Hi Hl. unfold min_child. rewrite shiftl1.
  destruct (hw_at _ _ W (2 * i) ltac:(lia)) as (l & Hml & _). rewrite Hml.
  destruct (2 * i + 1 <=? hp_last h) eqn:E.
  - destruct (hw_at _ _ W (2 * i + 1) ltac:(lia)) as (r & Hmr & _). rewrite Hmr.
    destruct (wf_at_in _ _ (2 * i) _ W ltac:(lia) Hml) as [Hll _].
    destruct (wf_at_in _ _ (2 * i + 1) _ W ltac:(lia) Hmr) as [Hrl _].
    destruct (C l r Hll Hrl) as [c ->]. destruct (0 <? c); eexists _, _;
      (split; [reflexivity|]); split_and!; try done; half_lia.
  - eexists _, _. split; [reflexivity|]. split_and!; try done; half_lia.
Qed.

Lemma remove_loop_down_wf f : forall ls h i,
  heap_wf ls h -> total_on ls -> 1 <= i -> i <= hp_last h -> hp_last h - i < Z.of_nat f ->
  exists h', remove_loop_down leaf_cmp f i h = Some h' /\ heap_wf ls h' /\ hp_last h' = hp_last h.
Proof.
  induction f as [|f IH]; intros ls h i W C He Hi Hf; [lia|]. cbn [remove_loop_down].
  rewrite shiftl1. destruct (2 * i <=? hp_last h) eqn:E; [|by exists h].
  destruct (hw_at _ _ W i ltac:(lia)) as (x & Hx & _). rewrite Hx.
  destruct (min_child_wf ls h i W C ltac:(lia) ltac:(lia)) as (m & j & -> & Hm & Hji & Hj).
  destruct (wf_at_in _ _ i _ W ltac:(lia) Hx) as [Hxl _]. destruct (wf_at_in _ _ _ _ W Hj Hm) as [Hml _].
  destruct (C x m Hxl Hml) as [c ->]. destruct (0 <? c); [|by exists h].
  change (place (place h i m) j x) with (swap h i j x m).
  destruct (IH ls (swap h i j x m) j) as (h' & -> & W' & L'); [|done|lia|cbn; lia|cbn; half_lia|by exists h'].
  apply swap_wf; try done; half_lia.
Qed.

Lemma heap_push_wf ls h leaf :
  heap_wf ls h -> leaf ∉ ls -> total_on ({[leaf]} ∪ ls) ->
  exists h', fk_heap_push leaf_cmp h leaf = Some h' /\ heap_wf ({[leaf]} ∪ ls) h' /\ hp_last h' = hp_last h + 1.
Proof.
  intros W Hn C. unfold fk_heap_push. set (h0 := if hp_last h =? hp_size h - 1 then fk_heap_stretch h else h).
  assert (heap_wf ls h0 /\ hp_last h0 = hp_last h /\ hp_last h0 < hp_size h0 - 1) as (W0 & L0 & S0).
  { pose proof (hw_last _ _ W). unfold h0. destruct (_ =? _) eqn:E; [|split_and!; (done || lia)].
    split_and!; [by apply heap_stretch_wf|done|cbn; rewrite shiftl1; lia]. }
  clearbody h0. destruct (append_leaf_wf leaf_cmp (fun _ => 0) ls h0 leaf W0 Hn S0) as [W2 _]. pose proof (hw_last _ _ W0).
  destruct (push_loop_up_wf (S (Z.to_nat (hp_last h0 + 1))) _ _ (hp_last h0 + 1) W2 C) as (h' & E & W' & L');
    [cbn; lia|lia|]. exists h'. split_and!; [exact E|done|]. rewrite L'. cbn. lia.
Qed.

Lemma heap_remove_wf ls h leaf :
  heap_wf ls h -> total_on ls -> leaf ∈ ls ->
  exists h', fk_heap_remove leaf_cmp h leaf = Some h' /\ heap_wf (ls ∖ {[leaf]}) h' /\ hp_last h' = hp_last h - 1.
Proof.
  intros W C Hl. destruct (hw_in _ _ W leaf Hl) as [Hidx Hat]. unfold fk_heap_remove.
  set (idx := leaf_idx h leaf) in *.
  assert ((idx <? 1) || (hp_last h <? idx) = false) as -> by (apply orb_false_iff; lia).
  destruct (hw_at _ _ W (hp_last h) ltac:(lia)) as (x & Hx & _). rewrite Hx.
  destruct (fill_gap_wf leaf_cmp (fun _ => 0) ls h leaf x W Hl Hx) as [W3 _]. cbv zeta in W3. fold idx in W3.
  set (h3 := set_leaf_idx _ leaf 0) in *. change (hp_last (place h idx x)) with (hp_last h) in *.
  assert (hp_last h3 = hp_last h - 1) as L3 by done.
  assert (total_on (ls ∖ {[leaf]})) as C3 by (intros a b Ha Hb; apply C; set_solver).
  destruct (decide (idx <= hp_last h - 1)) as [Hlt|Hge].
  - destruct (remove_loop_down_wf (S (Z.to_nat (hp_last h3))) _ _ idx W3 C3) as (h' & E & W' & L');
      [lia|lia|lia|exists h'; split_and!; (done || lia)].
  - exists h3. cbn [remove_loop_down]. rewrite shiftl1, L3.
    by rewrite (proj2 (Z.leb_gt _ _)) by lia.
Qed.

Lemma heap_root_wf ls h :
  heap_wf ls h -> match fk_heap_root h with Some r => r ∈ ls | None => ls = ∅ end.
Proof.
  intros W. unfold fk_heap_root. pose proof (hw_last _ _ W). destruct (hp_last h =? 0) eqn:E.
  - apply set_eq. intros a. split; [|set_solver]. intros Ha. destruct (hw_in _ _ W a Ha). lia.
  - destruct (hw_at _ _ W 1 ltac:(lia)) as (r & Hr & Hri). rewrite Hr.
    by destruct (wf_at_in ls h 1 r W ltac:(lia) Hr).
Qed.

Lemma heap_pop_wf ls h r :
  heap_wf ls h -> total_on ls -> fk_heap_root h = Some r ->
  exists h', fk_heap_pop leaf_cmp h = Some (Some r, h') /\ heap_wf (ls ∖ {[r]}) h' /\ hp_last h' = hp_last h - 1.
Proof.
  intros W C Hr. pose proof (heap_root_wf ls h W) as Hl. rewrite Hr in Hl.
  destruct (heap_remove_wf ls h r W C Hl) as (h' & E & W' & L'). exists h'. split; [|done].
  unfold fk_heap_pop. unfold fk_heap_root in Hr. pose proof (hw_last _ _ W).
  destruct (hp_last h =? 0) eqn:E0; [done|]. rewrite (proj2 (Z.ltb_ge _ _)) by lia. by rewrite Hr, E.
Qed.
End unordered.

(** ** Properties *)

Inductive heap_op := HPush (leaf : Z) | HPop | HRemove (leaf : Z).

(** The operations one after the other; the answers of the pops. *)
Fixpoint heap_run (leaf_cmp : Z -> Z -> option Z) (ops : list heap_op) (h : fk_heap) :
    option (list (option Z) * fk_heap) :=
  match ops with
  | [] => Some ([], h)
  | HPush leaf :: ops =>
      match fk_heap_push leaf_cmp h leaf with Some h => heap_run leaf_cmp ops h | None => None end
  | HRemove leaf :: ops =>
      match fk_heap_remove leaf_cmp h leaf with Some h => heap_run leaf_cmp ops h | None => None end
  | HPop :: ops =>
      match fk_heap_pop leaf_cmp h with
      | Some (o, h) =>
          match heap_run leaf_cmp ops h with Some (l, h) => Some (o :: l, h) | None => None end
      | None => None
      end
  end.

(** A priority queue: the leaves inside with their ranks. *)
Definition rank_of (q : gmap Z Z) (leaf : Z) : Z := default 0 (q !! leaf).

(** The heap next to the queue. A leaf gets its rank when it is pushed, and may be
    pushed again with another one when it is not inside, as the timers are that cycle;
    each call compares by the ranks of that moment. *)
Inductive pq_step : fk_heap * gmap Z Z -> fk_heap * gmap Z Z -> Prop :=
  | pq_push leaf_cmp leaf w h q h' : q !! leaf = None ->
      compares leaf_cmp (rank_of (<[leaf := w]> q)) (dom (<[leaf := w]> q)) ->
      fk_heap_push leaf_cmp h leaf = Some h' -> pq_step (h, q) (h', <[leaf := w]> q)
  | pq_pop_none leaf_cmp h q h' : compares leaf_cmp (rank_of q) (dom q) ->
      fk_heap_pop leaf_cmp h = Some (None, h') -> pq_step (h, q) (h', q)
  | pq_pop leaf_cmp h q r h' : compares leaf_cmp (rank_of q) (dom q) ->
      fk_heap_pop leaf_cmp h = Some (Some r, h') -> pq_step (h, q) (h', delete r q).

(** Only the ranks of the leaves inside matter. *)
Lemma ordered_ext rank1 rank2 ls h : heap_wf ls h -> (forall a, a ∈ ls -> rank1 a = rank2 a) ->
  ordered rank1 h -> ordered rank2 h.
Proof.
  intros W E O j Hj Hj0. specialize (O j Hj Hj0).
  assert (forall i, 1 <= i <= hp_last h -> rank_at rank2 h i = rank_at rank1 h i) as Hr.
  { intros i Hi. unfold rank_at. destruct (tree_at h i) as [a|] eqn:Ea; [|done].
    symmetry. by apply E, (wf_at_in ls h i a). }
  rewrite !Hr by (rewrite ?shiftr1; half_lia). exact O.
Qed.

Definition pq_inv (s : fk_heap * gmap Z Z) : Prop := heap_wf (dom s.2) s.1 /\ ordered (rank_of s.2) s.1.

Lemma rank_of_insert q leaf w a : q !! leaf = None -> a ∈ dom q -> rank_of q a = rank_of (<[leaf := w]> q) a.
Proof. intros Hq Ha%elem_of_dom. unfold rank_of. rewrite lookup_insert_ne; [done|]. intros <-. rewrite Hq in Ha. by destruct Ha. Qed.

Lemma rank_of_delete (q : gmap Z Z) r a : a ∈ dom q ∖ {[r]} -> rank_of q a = rank_of (delete r q) a.
Proof. intros Ha. unfold rank_of. rewrite lookup_delete_ne; [done|]. set_solver. Qed.

Lemma pq_push_ok leaf_cmp leaf w h q : pq_inv (h, q) -> q !! leaf = None ->
  compares leaf_cmp (rank_of (<[leaf := w]> q)) (dom (<[leaf := w]> q)) ->
  exists h', fk_heap_push leaf_cmp h leaf = Some h' /\ pq_inv (h', <[leaf := w]> q).
Proof.
  intros [W O] Hq C. unfold pq_inv in *. cbn [fst snd] in *. rewrite dom_insert_L in *.
  destruct (heap_push_ok leaf_cmp (rank_of (<[leaf := w]> q)) (dom q) h leaf W) as (h' & E & W' & O' & _); [|by apply not_elem_of_dom|done|by exists h'].
  eapply ordered_ext; [exact W| |exact O]. intros a. by apply rank_of_insert.
Qed.

Lemma pq_pop_ok leaf_cmp h q : pq_inv (h, q) -> compares leaf_cmp (rank_of q) (dom q) ->
  exists o h', fk_heap_pop leaf_cmp h = Some (o, h') /\ o = fk_heap_root h /\
    match o with
    | None => q = ∅ /\ pq_inv (h', q)
    | Some r => (exists w, q !! r = Some w /\ forall a w', q !! a = Some w' -> w <= w') /\ pq_inv (h', delete r q)
    end.
Proof.
  intros [W O] C. unfold pq_inv in *. cbn [fst snd] in *.
  destruct (heap_pop_ok leaf_cmp (rank_of q) (dom q) h W O C) as ([r|] & h' & E & Er & O' & H).
  - destruct H as (Hr & Hmin & W'). exists (Some r), h'. do 2 (split; [done|]). split.
    + apply elem_of_dom in Hr as [w Hw]. exists w. split; [done|]. intros a w' Ha. specialize (Hmin a (elem_of_dom_2 _ _ _ Ha)).
      unfold rank_of in Hmin. by rewrite Hw, Ha in Hmin.
    + rewrite dom_delete_L. split; [done|]. eapply ordered_ext; [exact W'| |exact O']. intros a. by apply rank_of_delete.
  - destruct H as [Hd ->]. exists None, h. do 2 (split; [done|]). split; [by apply dom_empty_inv_L|done].
Qed.

Lemma heap_init_wf : heap_wf ∅ fk_heap_init.
Proof.
  split; [reflexivity|split; reflexivity || (vm_compute; congruence)|cbn; lia| |set_solver].
  intros a. split; [set_solver|]. unfold leaf_idx. cbn. rewrite lookup_empty. done.
Qed.

Lemma pq_reached s : rtc pq_step (fk_heap_init, ∅) s -> pq_inv s.
Proof.
  apply (rtc_ind_r (fun s => pq_inv s)).
  - split; [cbn; rewrite dom_empty_L; apply heap_init_wf|]. intros j Hj. cbn in Hj. lia.
  - intros s1 s2 _ H I. destruct H as [cmp leaf w h q h' Hq C E|cmp h q h' C E|cmp h q r h' C E].
    + destruct (pq_push_ok cmp leaf w h q I Hq C) as (h2 & E2 & I2). congruence.
    + destruct (pq_pop_ok cmp h q I C) as (o & h2 & E2 & _ & I2). rewrite E in E2. injection E2 as <- <-. apply I2.
    + destruct (pq_pop_ok cmp h q I C) as (o & h2 & E2 & _ & I2). rewrite E in E2. injection E2 as <- <-. apply I2.
Qed.

(** C16. The heap of the timers is a priority queue: after any sequence of pushes and
    pops from the empty heap, each push of a leaf that is not inside, first or again and
    with the rank it has then, its leaves are exactly those of the queue, and every such
    push and every pop succeeds (no NULL entry is dereferenced, no index is outside the
    tree, however often it grows); a pop answers the root, a leaf of least rank in the
    queue, or NULL when the queue is empty. ([fk_heap_remove] of another leaf than the
    root is not part of this: see [heap_remove_breaks_order].) *)
Theorem heap_is_priority_queue h q : rtc pq_step (fk_heap_init, ∅) (h, q) ->
  heap_wf (dom q) h /\
  (forall leaf_cmp leaf w, q !! leaf = None -> compares leaf_cmp (rank_of (<[leaf := w]> q)) (dom (<[leaf := w]> q)) ->
    exists h', fk_heap_push leaf_cmp h leaf = Some h') /\
  (forall leaf_cmp, compares leaf_cmp (rank_of q) (dom q) ->
    exists o h', fk_heap_pop leaf_cmp h = Some (o, h') /\ o = fk_heap_root h /\
      match o with
      | None => q = ∅
      | Some r => exists w, q !! r = Some w /\ forall a w', q !! a = Some w' -> w <= w'
      end).
Proof.
  intros Hr%pq_reached. split; [apply Hr|]. split.
  - intros cmp leaf w Hq C. destruct (pq_push_ok cmp leaf w h q Hr Hq C) as (h' & E & _). by exists h'.
  - intros cmp C. destruct (pq_pop_ok cmp h q Hr C) as (o & h' & E & Er & H). exists o, h'. do 2 (split; [done|]). by destruct o, H.
Qed.

(** Removing a leaf from the middle keeps every leaf findable by its index,
    but its gap is filled with the last leaf, which then only moves down: the heap
    may lose its order.  Here the leaf 3 is popped after the leaf 10. *)
Theorem heap_remove_breaks_order :
  let cmp a b := Some (a - b) in
  exists h, heap_run cmp ([HPush 1; HPush 10; HPush 2; HPush 11; HPush 12; HPush 20; HPush 3] ++
      [HRemove 11; HPop; HPop; HPop; HPop; HPop; HPop; HPop]) fk_heap_init =
    Some ([Some 1; Some 2; Some 10; Some 3; Some 12; Some 20; None], h).
Proof. eexists. vm_compute. reflexivity. Qed.

(** The comparison of ranks. *)
Definition rank_cmp (q : gmap Z Z) (a b : Z) : option Z := Some (rank_of q a - rank_of q b).

Lemma rank_cmp_compares q ls : compares (rank_cmp q) (rank_of q) ls.
Proof. intros a b _ _. exists (rank_of q a - rank_of q b). split; [done|]. lia. Qed.

(** A leaf that is popped is pushed again, with a rank that makes it the last. *)
Lemma heap_is_priority_queue_witness : exists h q, rtc pq_step (fk_heap_init, ∅) (h, q) /\ q = {[7 := 50; 3 := 90]} /\
  exists o h', fk_heap_pop (rank_cmp q) h = Some (o, h') /\ o = Some 7.
Proof.
  eassert (rtc pq_step (fk_heap_init, ∅) (_, _)) as Hr.
  { eapply rtc_l; [eapply (pq_push (rank_cmp {[7 := 50]}) 7 50);
      [vm_compute; reflexivity|exact (rank_cmp_compares _ _)|vm_compute; reflexivity]|].
    eapply rtc_l; [eapply (pq_push (rank_cmp {[3 := 20; 7 := 50]}) 3 20);
      [vm_compute; reflexivity|exact (rank_cmp_compares _ _)|vm_compute; reflexivity]|].
    eapply rtc_l; [eapply (pq_pop (rank_cmp {[3 := 20; 7 := 50]}));
      [exact (rank_cmp_compares _ _)|vm_compute; reflexivity]|].
    eapply rtc_l; [eapply (pq_push (rank_cmp {[3 := 90; 7 := 50]}) 3 90);
      [vm_compute; reflexivity|exact (rank_cmp_compares _ _)|vm_compute; reflexivity]|].
    apply rtc_refl. }
  eexists _, _. split; [exact Hr|]. split; [vm_compute; reflexivity|].
  destruct (heap_is_priority_queue _ _ Hr) as (_ & _ & Hp).
  destruct (Hp _ (rank_cmp_compares _ _)) as (o & h' & E & Eo & _).
  exists o, h'. split; [exact E|]. rewrite Eo. vm_compute. reflexivity.
Defined.
