(* ===== verification/RawList.v ===== *)
(** Models the linked lists of src/src/fk_list.h and fk_list.c on the nodes in
    memory, and shows that they are the sequences the other files of the
    development take them for.

    A pointer to a node is its address, NULL is [None]; a store maps the addresses
    of the nodes to their fields, and an access through NULL or to a node that is
    not there has no result.  A list has fewer nodes than there are addresses, so
    [len] does not wrap. *)
From stdpp Require Import sorting.
From S2P Require Import Prelude.

Record fk_node := Node { nd_prev : option Z; nd_next : option Z; nd_data : Z }.

Abbreviation store := (gmap Z fk_node).

Record fk_rawlist := RawList { rl_head : option Z; rl_tail : option Z; rl_len : Z }.

Definition set_prev (x : Z) (p : option Z) (m : store) : option store :=
  n ← m !! x; Some (<[x := Node p (nd_next n) (nd_data n)]> m).
Definition set_next (x : Z) (q : option Z) (m : store) : option store :=
  n ← m !! x; Some (<[x := Node (nd_prev n) q (nd_data n)]> m).
Definition set_data (x : Z) (d : Z) (m : store) : option store :=
  n ← m !! x; Some (<[x := Node (nd_prev n) (nd_next n) d]> m).

(** [lst->head->prev = nd] and the like: the pointer must not be NULL. *)
Definition deref {A} (x : option Z) (f : Z -> option A) : option A := x ≫= f.

(** ** The macros *)

Definition fk_rawlist_init : fk_rawlist := RawList None None 0.

Definition fk_rawlist_insert_head (lst : fk_rawlist) (nd : Z) (m : store) : option (fk_rawlist * store) :=
  if rl_len lst =? 0 then
    m ← set_next nd None m; m ← set_prev nd None m;
    Some (RawList (Some nd) (Some nd) (rl_len lst + 1), m)
  else
    m ← set_prev nd None m; m ← set_next nd (rl_head lst) m;
    m ← deref (rl_head lst) (fun h => set_prev h (Some nd) m);
    Some (RawList (Some nd) (rl_tail lst) (rl_len lst + 1), m).

Definition fk_rawlist_insert_tail (lst : fk_rawlist) (nd : Z) (m : store) : option (fk_rawlist * store) :=
  if rl_len lst =? 0 then
    m ← set_next nd None m; m ← set_prev nd None m;
    Some (RawList (Some nd) (Some nd) (rl_len lst + 1), m)
  else
    m ← set_prev nd (rl_tail lst) m; m ← set_next nd None m;
    m ← deref (rl_tail lst) (fun t => set_next t (Some nd) m);
    Some (RawList (rl_head lst) (Some nd) (rl_len lst + 1), m).

Definition fk_rawlist_remove_anyone (lst : fk_rawlist) (nd : Z) (m : store) : option (fk_rawlist * store) :=
  n ← m !! nd;
  '(hd, m) ← match nd_prev n with
             | Some p => m ← set_next p (nd_next n) m; Some (rl_head lst, m)
             | None => Some (nd_next n, m)
             end;
  n ← m !! nd;
  '(tl, m) ← match nd_next n with
             | Some q => m ← set_prev q (nd_prev n) m; Some (rl_tail lst, m)
             | None => Some (nd_prev n, m)
             end;
  m ← set_prev nd None m; m ← set_next nd None m;
  Some (RawList hd tl (rl_len lst - 1), m).

(** ** The functions of fk_list.c *)

(** The callbacks work on the data the pointers of type [void *] lead to. *)
Record fk_node_op (S : Type) := NodeOp {
  data_copy : option (Z -> S -> Z * S);
  data_free : option (Z -> S -> S);
  data_cmp : option (Z -> Z -> S -> Z)
}.
Arguments NodeOp {S} _ _ _.
Arguments data_copy {S} _.
Arguments data_free {S} _.
Arguments data_cmp {S} _.

Definition FK_LIST_ITER_H2T : Z := 1.
Definition FK_LIST_ITER_T2H : Z := 0.

Record fk_list_iter := ListIter { it_cur : option Z; it_next : option Z; it_dir : Z }.

Definition fk_list_iter_begin (dir : Z) : fk_list_iter := ListIter None None dir.

Definition fk_list_iter_next (lst : fk_rawlist) (m : store) (it : fk_list_iter) : option fk_list_iter :=
  let cur :=
    match it_cur it with
    | None =>
        if it_dir it =? FK_LIST_ITER_H2T then rl_head lst
        else if it_dir it =? FK_LIST_ITER_T2H then rl_tail lst
        else None
    | Some _ => it_next it
    end in
  match cur with
  | None => Some (ListIter None (it_next it) (it_dir it))
  | Some c =>
      n ← m !! c;
      Some (ListIter cur
        (if it_dir it =? FK_LIST_ITER_H2T then nd_next n
         else if it_dir it =? FK_LIST_ITER_T2H then nd_prev n
         else it_next it) (it_dir it))
  end.

(** The usual loop over an iterator: the nodes up to the first NULL. *)
Fixpoint iter_nodes (fuel : nat) (lst : fk_rawlist) (m : store) (it : fk_list_iter) : option (list Z) :=
  match fuel with
  | O => None
  | S f =>
      it ← fk_list_iter_next lst m it;
      match it_cur it with
      | None => Some []
      | Some c => l ← iter_nodes f lst m it; Some (c :: l)
      end
  end.

(** The scan of [fk_list_insert_sorted_only] from both ends: the node found and
    whether the new node goes before it ([pos == 0]) or behind it. *)
Fixpoint sorted_scan (fuel : nat) (cmp : Z -> Z -> Z) (v : Z) (low high : option Z) (m : store) :
    option (option Z * bool) :=
  match fuel with
  | O => None
  | S f =>
      match low with
      | None => Some (None, true)
      | Some lo =>
          nl ← m !! lo;
          if 0 <=? cmp (nd_data nl) v then Some (Some lo, true)
          else
            hi ← high;
            nh ← m !! hi;
            if cmp (nd_data nh) v <=? 0 then Some (Some hi, false)
            else sorted_scan f cmp v (nd_next nl) (nd_prev nh) m
      end
  end.

Definition fk_list_insert_sorted_only (cmp : Z -> Z -> Z) (lst : fk_rawlist) (nd : Z) (m : store) :
    option (fk_rawlist * store) :=
  if rl_len lst =? 0 then
    m ← set_prev nd None m; m ← set_next nd None m;
    Some (RawList (Some nd) (Some nd) (rl_len lst + 1), m)
  else
    n ← m !! nd;
    '(at_node, before) ← sorted_scan (S (size m)) cmp (nd_data n) (rl_head lst) (rl_tail lst) m;
    x ← at_node;
    if (before : bool) then
      '(hd, m) ← (if bool_decide (Some x = rl_head lst)
                  then m ← set_prev nd None m; Some (Some nd, m)
                  else
                    nx ← m !! x;
                    m ← deref (nd_prev nx) (fun p => set_next p (Some nd) m);
                    m ← set_prev nd (nd_prev nx) m; Some (rl_head lst, m));
      m ← set_prev x (Some nd) m; m ← set_next nd (Some x) m;
      Some (RawList hd (rl_tail lst) (rl_len lst + 1), m)
    else
      '(tl, m) ← (if bool_decide (Some x = rl_tail lst)
                  then m ← set_next nd None m; Some (Some nd, m)
                  else
                    nx ← m !! x;
                    m ← deref (nd_next nx) (fun q => set_prev q (Some nd) m);
                    m ← set_next nd (nd_next nx) m; Some (rl_tail lst, m));
      m ← set_prev nd (Some x) m; m ← set_next x (Some nd) m;
      Some (RawList (rl_head lst) tl (rl_len lst + 1), m).

Section list.
Context {S : Type}.
Implicit Types (nop : fk_node_op S) (lst : fk_rawlist) (m : store) (s : S).

(** [fk_mem_alloc] gives memory that is not in use; the fields are written before
    they are read. *)
Definition fk_node_create (m : store) : Z * store :=
  let nd := fresh (dom m) in (nd, <[nd := Node None None 0]> m).

Definition fk_node_data_set nop (nd v : Z) m s : option (store * S) :=
  let '(v, s) := match data_copy nop with Some f => f v s | None => (v, s) end in
  m ← set_data nd v m; Some (m, s).

Definition fk_node_data_free nop (nd : Z) m s : option (store * S) :=
  n ← m !! nd;
  let s := match data_free nop with Some f => f (nd_data n) s | None => s end in
  m ← set_data nd 0 m; Some (m, s).

Definition fk_list_insert_head nop lst (v : Z) m s : option (fk_rawlist * store * S) :=
  let '(nd, m) := fk_node_create m in
  '(m, s) ← fk_node_data_set nop nd v m s;
  '(lst, m) ← fk_rawlist_insert_head lst nd m; Some (lst, m, s).

Definition fk_list_insert_tail nop lst (v : Z) m s : option (fk_rawlist * store * S) :=
  let '(nd, m) := fk_node_create m in
  '(m, s) ← fk_node_data_set nop nd v m s;
  '(lst, m) ← fk_rawlist_insert_tail lst nd m; Some (lst, m, s).

Definition fk_list_sorted_insert nop lst (v : Z) m s : option (fk_rawlist * store * S) :=
  let '(nd, m) := fk_node_create m in
  '(m, s) ← fk_node_data_set nop nd v m s;
  cmp ← data_cmp nop;
  '(lst, m) ← fk_list_insert_sorted_only (fun a b => cmp a b s) lst nd m; Some (lst, m, s).

Definition fk_list_remove_anyone nop lst (nd : Z) m s : option (fk_rawlist * store * S) :=
  '(lst, m) ← fk_rawlist_remove_anyone lst nd m;
  '(m, s) ← fk_node_data_free nop nd m s;
  Some (lst, delete nd m, s).

(** Without a callback the addresses are compared, as an [int]. *)
Definition node_cmp nop (a b : Z) s : Z :=
  match data_cmp nop with Some f => f a b s | None => i32 (a - b) end.

Fixpoint search_loop (fuel : nat) nop (nd : option Z) (key : Z) m s : option (option Z) :=
  match fuel with
  | O => None
  | Datatypes.S f =>
      match nd with
      | None => Some None
      | Some x =>
          n ← m !! x;
          if node_cmp nop (nd_data n) key s =? 0 then Some (Some x)
          else search_loop f nop (nd_next n) key m s
      end
  end.

Definition fk_list_search nop lst (key : Z) m s : option (option Z) :=
  search_loop (Datatypes.S (size m)) nop (rl_head lst) key m s.

Fixpoint clear_loop (fuel : nat) nop lst m s : option (fk_rawlist * store * S) :=
  match fuel with
  | O => None
  | Datatypes.S f =>
      match rl_head lst with
      | None => Some (lst, m, s)
      | Some nd => '(lst, m, s) ← fk_list_remove_anyone nop lst nd m s; clear_loop f nop lst m s
      end
  end.

Definition fk_list_clear nop lst m s : option (fk_rawlist * store * S) :=
  clear_loop (Datatypes.S (size m)) nop lst m s.

Definition fk_list_empty nop lst m s : option (fk_rawlist * store * S) :=
  '(_, m, s) ← fk_list_clear nop lst m s; Some (fk_rawlist_init, m, s).
End list.

(** ** The nodes of a list *)

Definition hd_or (l : list Z) (q : option Z) : option Z := match l with x :: _ => Some x | [] => q end.
Fixpoint last_or (l : list Z) (p : option Z) : option Z :=
  match l with [] => p | x :: l' => last_or l' (Some x) end.

(** The nodes [l] are linked in this order, between [p] and [q]. *)
Fixpoint chain (m : store) (p : option Z) (l : list Z) (q : option Z) : Prop :=
  match l with
  | [] => True
  | x :: l' => (exists d, m !! x = Some (Node p (hd_or l' q) d)) /\ chain m (Some x) l' q
  end.

(** [lst] is the sequence [l] of nodes. *)
Record linked (m : store) (lst : fk_rawlist) (l : list Z) : Prop := {
  lk_head : rl_head lst = hd_or l None;
  lk_tail : rl_tail lst = last_or l None;
  lk_len : rl_len lst = zlen l;
  lk_nodup : NoDup l;
  lk_chain : chain m None l None
}.

(** [m'] differs from [m] in the links of the nodes [l] only. *)
Definition relinks (l : list Z) (m m' : store) : Prop :=
  (forall x, x ∉ l -> m' !! x = m !! x) /\ (forall x, nd_data <$> m' !! x = nd_data <$> m !! x).

Lemma relinks_refl l m : relinks l m m.
Proof. done. Qed.

Lemma relinks_trans l m1 m2 m3 : relinks l m1 m2 -> relinks l m2 m3 -> relinks l m1 m3.
Proof. intros [A B] [C E]. split; [intros x Hx; by rewrite C, A|intros x; by rewrite E, B]. Qed.

Lemma relinks_mono l l' m m' : relinks l m m' -> (forall x, x ∈ l -> x ∈ l') -> relinks l' m m'.
Proof. intros [A B] H. split; [intros x Hx; apply A; intros Hx'; by apply Hx, H|done]. Qed.

Lemma relinks_four l l1 l2 l3 l4 m m1 m2 m3 m4 : relinks l1 m m1 -> relinks l2 m1 m2 -> relinks l3 m2 m3 -> relinks l4 m3 m4 ->
  (forall x, x ∈ l1 ++ l2 ++ l3 ++ l4 -> x ∈ l) -> relinks l m m4.
Proof.
  intros R1 R2 R3 R4 H. eapply relinks_trans; [eapply relinks_mono; [exact R1|]|].
  { intros x Hx. apply H. set_solver. }
  eapply relinks_trans; [eapply relinks_mono; [exact R2|]|].
  { intros x Hx. apply H. set_solver. }
  eapply relinks_trans; [eapply relinks_mono; [exact R3|]|eapply relinks_mono; [exact R4|]]; intros x Hx; apply H; set_solver.
Qed.

Lemma set_prev_ok x p m n : m !! x = Some n ->
  exists m', set_prev x p m = Some m' /\ relinks [x] m m' /\ m' !! x = Some (Node p (nd_next n) (nd_data n)).
Proof.
  intros H. unfold set_prev. rewrite H. cbn. eexists. split; [done|]. split; [|by rewrite lookup_insert_eq].
  split; intros y; [intros Hy%not_elem_of_cons; rewrite lookup_insert_ne; naive_solver|].
  destruct (decide (y = x)) as [->|Hy]; [by rewrite lookup_insert_eq, H|by rewrite lookup_insert_ne].
Qed.

Lemma set_next_ok x q m n : m !! x = Some n ->
  exists m', set_next x q m = Some m' /\ relinks [x] m m' /\ m' !! x = Some (Node (nd_prev n) q (nd_data n)).
Proof.
  intros H. unfold set_next. rewrite H. cbn. eexists. split; [done|]. split; [|by rewrite lookup_insert_eq].
  split; intros y; [intros Hy%not_elem_of_cons; rewrite lookup_insert_ne; naive_solver|].
  destruct (decide (y = x)) as [->|Hy]; [by rewrite lookup_insert_eq, H|by rewrite lookup_insert_ne].
Qed.

Lemma chain_frame m m' p l q : (forall x, x ∈ l -> m' !! x = m !! x) -> chain m p l q -> chain m' p l q.
Proof.
  revert p. induction l as [|x l IH]; intros p H; [done|]. intros [E C]. split; [by rewrite H by left|].
  apply IH; [|done]. intros y Hy. apply H. by right.
Qed.

Lemma hd_or_app l1 l2 q : hd_or (l1 ++ l2) q = hd_or l1 (hd_or l2 q).
Proof. by destruct l1. Qed.
Lemma last_or_app l1 l2 p : last_or (l1 ++ l2) p = last_or l2 (last_or l1 p).
Proof. revert p. induction l1 as [|x l1 IH]; intros p; [done|]. apply IH. Qed.

Lemma chain_app m p l1 l2 q :
  chain m p (l1 ++ l2) q <-> chain m p l1 (hd_or l2 q) /\ chain m (last_or l1 p) l2 q.
Proof.
  revert p. induction l1 as [|x l1 IH]; intros p; cbn [app chain last_or]; [tauto|].
  rewrite IH, hd_or_app. tauto.
Qed.

(** The two ends of a chain can be linked anew. *)
Lemma chain_set_last m p l y q q' :
  NoDup (l ++ [y]) -> chain m p (l ++ [y]) q ->
  exists m', set_next y q' m = Some m' /\ relinks [y] m m' /\ chain m' p (l ++ [y]) q'.
Proof.
  intros Hn [C [[d Hy] _]]%chain_app. destruct (set_next_ok y q' m _ Hy) as (m' & E & R & Hy').
  exists m'. split; [done|]. split; [done|]. apply NoDup_app in Hn as (_ & Hn & _).
  apply chain_app. split; [|split; [by eexists|done]].
  eapply chain_frame; [|exact C]. intros x Hx. apply R. intros ->%list_elem_of_singleton. by apply (Hn y Hx); left.
Qed.

Lemma chain_set_first m p p' y l q :
  NoDup (y :: l) -> chain m p (y :: l) q ->
  exists m', set_prev y p' m = Some m' /\ relinks [y] m m' /\ chain m' p' (y :: l) q.
Proof.
  intros [Hn _]%NoDup_cons [[d Hy] C]. destruct (set_prev_ok y p' m _ Hy) as (m' & E & R & Hy').
  exists m'. split; [done|]. split; [done|]. split; [by eexists|].
  eapply chain_frame; [|exact C]. intros x Hx. apply R. by intros ->%list_elem_of_singleton.
Qed.

Lemma chain_link_next m l q q' : NoDup l -> chain m None l q ->
  exists m', match last_or l None with Some p => set_next p q' m | None => Some m end = Some m' /\
    relinks l m m' /\ chain m' None l q'.
Proof.
  destruct l as [|y l _] using rev_ind; intros Hn C; [by eexists|].
  rewrite last_or_app. cbn. destruct (chain_set_last _ _ _ _ _ q' Hn C) as (m' & E & R & C').
  exists m'. split; [done|]. split; [|done]. eapply relinks_mono; [exact R|].
  intros x ->%list_elem_of_singleton. apply elem_of_app. right. by left.
Qed.

Lemma chain_link_prev m p p' l : NoDup l -> chain m p l None ->
  exists m', match hd_or l None with Some y => set_prev y p' m | None => Some m end = Some m' /\
    relinks l m m' /\ chain m' p' l None.
Proof.
  destruct l as [|y l]; intros Hn C; [by eexists|].
  cbn. destruct (chain_set_first _ _ p' _ _ _ Hn C) as (m' & E & R & C').
  exists m'. split; [done|]. split; [|done]. eapply relinks_mono; [exact R|].
  intros x ->%list_elem_of_singleton. by left.
Qed.

Lemma last_or_Some l p : l <> [] -> exists y, last_or l p = Some y /\ forall p', last_or l p' = Some y.
Proof. destruct l as [|y l _] using rev_ind; [done|]. intros _. exists y. split; intros; by rewrite last_or_app. Qed.

Lemma linked_nil m lst : linked m lst [] -> lst = fk_rawlist_init.
Proof. intros [H1 H2 H3 _ _]. destruct lst. cbn in *. by subst. Qed.

(** A node that is there and not in the list, with what linking it needs. *)
Record loose (m : store) (l : list Z) (x : Z) : Prop := {
  lo_in : is_Some (m !! x);
  lo_notin : x ∉ l
}.

Lemma relinks_lookup l m m' x : relinks l m m' -> x ∉ l -> m' !! x = m !! x.
Proof. intros [H _]. apply H. Qed.

Lemma chain_relinks l' m m' p l q : relinks l' m m' -> (forall x, x ∈ l -> x ∉ l') -> chain m p l q -> chain m' p l q.
Proof. intros [H _] Hd. apply chain_frame. intros x Hx. by apply H, Hd. Qed.

(** [x] between the chains [l1] and [l2], all in [m]. *)
Lemma linked_join m hd tl l1 x l2 d :
  NoDup (l1 ++ x :: l2) -> chain m None l1 (Some x) ->
  m !! x = Some (Node (last_or l1 None) (hd_or l2 None) d) -> chain m (Some x) l2 None ->
  hd = hd_or (l1 ++ x :: l2) None -> tl = last_or (l1 ++ x :: l2) None ->
  linked m (RawList hd tl (zlen (l1 ++ l2) + 1)) (l1 ++ x :: l2).
Proof.
  intros Hn C1 Hx C2 -> ->. split; cbn; [done|done| |done|].
  - rewrite !zlen_app, zlen_cons. lia.
  - apply chain_app. split; [done|]. split; [by eexists|done].
Qed.

Lemma linked_drop m hd tl l1 x l2 :
  NoDup (l1 ++ x :: l2) -> chain m None l1 (hd_or l2 None) -> chain m (last_or l1 None) l2 None ->
  hd = hd_or (l1 ++ l2) None -> tl = last_or (l1 ++ l2) None ->
  linked m (RawList hd tl (zlen (l1 ++ x :: l2) - 1)) (l1 ++ l2).
Proof.
  intros Hn C1 C2 -> ->. split; cbn; [done|done| | |].
  - rewrite !zlen_app, zlen_cons. lia.
  - apply NoDup_app in Hn as (H1 & H2 & [H3 H4]%NoDup_cons). apply NoDup_app. split; [done|].
    split; [|done]. intros y Hy Hy2. apply (H2 y Hy). by right.
  - apply chain_app. done.
Qed.

Lemma insert_head_ok m lst l x : linked m lst l -> loose m l x ->
  exists lst' m', fk_rawlist_insert_head lst x m = Some (lst', m') /\ linked m' lst' (x :: l) /\
    relinks (x :: l) m m'.
Proof.
  intros L [[n Hn] Hx]. unfold fk_rawlist_insert_head. rewrite (lk_len _ _ _ L).
  destruct (Z.eqb_spec (zlen l) 0) as [Hl|Hl].
  - apply zlen_0 in Hl as ->.
    destruct (set_next_ok x None m n Hn) as (m1 & -> & R1 & E1). cbn.
    destruct (set_prev_ok x None m1 _ E1) as (m2 & -> & R2 & E2). cbn.
    eexists _, m2. split; [done|]. split; [|by eapply relinks_trans].
    apply (linked_join m2 _ _ [] x [] (nd_data n)); try done. apply NoDup_singleton.
  - destruct (set_prev_ok x None m n Hn) as (m1 & -> & R1 & E1). cbn.
    destruct (set_next_ok x (rl_head lst) m1 _ E1) as (m2 & -> & R2 & E2). cbn in *.
    pose proof (relinks_trans _ _ _ _ R1 R2) as R12. destruct L as [Eh Et El Nd C]. rewrite Eh in *.
    destruct (chain_link_prev m2 None (Some x) l Nd) as (m3 & E3 & R3 & C3).
    { eapply chain_relinks; [exact R12| |exact C]. by intros y Hy ->%list_elem_of_singleton. }
    destruct l as [|y l]; [done|]. cbn in E3 |- *. unfold deref. cbn. rewrite E3. cbn. eexists _, m3. split; [done|]. split.
    + apply (linked_join m3 _ _ [] x (y :: l) (nd_data n)); try done; [by apply NoDup_cons|].
      by rewrite (relinks_lookup _ _ _ x R3).
    + eapply relinks_trans; [eapply relinks_mono; [exact R12|set_solver]|eapply relinks_mono; [exact R3|set_solver]].
Qed.

Lemma insert_tail_ok m lst l x : linked m lst l -> loose m l x ->
  exists lst' m', fk_rawlist_insert_tail lst x m = Some (lst', m') /\ linked m' lst' (l ++ [x]) /\
    relinks (x :: l) m m'.
Proof.
  intros L [[n Hn] Hx]. unfold fk_rawlist_insert_tail. rewrite (lk_len _ _ _ L).
  assert (Hnd : NoDup (l ++ [x])).
  { apply NoDup_app. split; [apply L|]. split; [|apply NoDup_singleton]. by intros y Hy ->%list_elem_of_singleton. }
  destruct (Z.eqb_spec (zlen l) 0) as [Hl|Hl].
  - apply zlen_0 in Hl as ->.
    destruct (set_next_ok x None m n Hn) as (m1 & -> & R1 & E1). cbn.
    destruct (set_prev_ok x None m1 _ E1) as (m2 & -> & R2 & E2). cbn.
    eexists _, m2. split; [done|]. split; [|by eapply relinks_trans].
    by apply (linked_join m2 _ _ [] x [] (nd_data n)).
  - destruct (set_prev_ok x (rl_tail lst) m n Hn) as (m1 & -> & R1 & E1). cbn.
    destruct (set_next_ok x None m1 _ E1) as (m2 & -> & R2 & E2). cbn in *.
    pose proof (relinks_trans _ _ _ _ R1 R2) as R12. destruct L as [Eh Et El Nd C]. rewrite Et in *.
    destruct (chain_link_next m2 l None (Some x) Nd) as (m3 & E3 & R3 & C3).
    { eapply chain_relinks; [exact R12| |exact C]. by intros y Hy ->%list_elem_of_singleton. }
    destruct (last_or_Some l None) as (y & Ey & Ey'); [by intros ->|]. rewrite Ey in *. unfold deref. cbn. rewrite E3. cbn.
    eexists _, m3. split; [done|]. split.
    + rewrite <- (app_nil_r l) at 1. apply (linked_join m3 _ _ l x [] (nd_data n)); try done.
      * rewrite (relinks_lookup _ _ _ x R3) by done. by rewrite Ey.
      * rewrite Eh. destruct l; [done|done].
      * by rewrite last_or_app.
    + eapply relinks_trans; [eapply relinks_mono; [exact R12|set_solver]|eapply relinks_mono; [exact R3|set_solver]].
Qed.

Lemma remove_anyone_ok m lst l1 x l2 : linked m lst (l1 ++ x :: l2) ->
  exists lst' m', fk_rawlist_remove_anyone lst x m = Some (lst', m') /\ linked m' lst' (l1 ++ l2) /\
    relinks (l1 ++ x :: l2) m m' /\ exists d, m' !! x = Some (Node None None d).
Proof.
  intros [Eh Et El Nd [C1 [[d Hx] C2]]%chain_app]. unfold fk_rawlist_remove_anyone. rewrite Hx. cbn.
  pose proof Nd as (N1 & N12 & [Nx N2]%NoDup_cons)%NoDup_app.
  assert (x ∉ l1) as Nx1 by (intros H; apply (N12 x H); by left).
  destruct (chain_link_next m l1 _ (hd_or l2 None) N1 C1) as (m1 & E1 & R1 & C1').
  replace (match last_or l1 None with Some p => m0 ← set_next p (hd_or l2 None) m; Some (rl_head lst, m0)
           | None => Some (hd_or l2 None, m) end) with (Some (hd_or (l1 ++ l2) None, m1)).
  2: { destruct l1 as [|y l1]; [cbn in *; by simplify_eq|].
       destruct (last_or_Some (y :: l1) None) as (z & Ez & _); [done|]. rewrite Ez in *. by rewrite E1, Eh. }
  cbn. assert (m1 !! x = m !! x) as Hx1 by by apply (relinks_lookup _ _ _ _ R1). rewrite Hx1, Hx. cbn.
  assert (chain m1 (Some x) l2 None) as C2'.
  { eapply chain_relinks; [exact R1| |exact C2]. intros y Hy Hy1. apply (N12 y Hy1). by right. }
  destruct (chain_link_prev m1 _ (last_or l1 None) l2 N2 C2') as (m2 & E2 & R2 & C2'').
  replace (match hd_or l2 None with Some q => m0 ← set_prev q (last_or l1 None) m1; Some (rl_tail lst, m0)
           | None => Some (last_or l1 None, m1) end) with (Some (last_or (l1 ++ l2) None, m2)).
  2: { destruct l2 as [|y l2]; cbn in E2 |- *; [rewrite app_nil_r; by simplify_eq|]. rewrite E2, Et, !last_or_app. done. }
  cbn. assert (m2 !! x = m1 !! x) as Hx2 by by apply (relinks_lookup _ _ _ _ R2).
  rewrite Hx1, Hx in Hx2. destruct (set_prev_ok x None m2 _ Hx2) as (m3 & -> & R3 & E3). cbn in E3 |- *.
  destruct (set_next_ok x None m3 _ E3) as (m4 & -> & R4 & E4). cbn in E4 |- *. rewrite El.
  pose proof (relinks_trans _ _ _ _ R3 R4) as R34.
  eexists _, m4. split; [done|]. split; [|split; [|by eexists]].
  - apply linked_drop; try done.
    + eapply chain_relinks; [exact R34|by intros y Hy ->%list_elem_of_singleton|].
      eapply chain_relinks; [exact R2| |exact C1']. intros y Hy Hy2. apply (N12 y Hy). by right.
    + eapply chain_relinks; [exact R34|by intros y Hy ->%list_elem_of_singleton|done].
  - eapply relinks_trans; [eapply relinks_mono; [exact R1|set_solver]|].
    eapply relinks_trans; eapply relinks_mono; [exact R2|set_solver|exact R34|set_solver].
Qed.

(** ** Traversal *)

Lemma iter_nodes_some f lst m it it' c : fk_list_iter_next lst m it = Some it' -> it_cur it' = Some c ->
  iter_nodes (S f) lst m it = (l ← iter_nodes f lst m it'; Some (c :: l)).
Proof. intros E C. cbn. rewrite E. cbn. by rewrite C. Qed.

Lemma iter_nodes_none f lst m it it' : fk_list_iter_next lst m it = Some it' -> it_cur it' = None ->
  iter_nodes (S f) lst m it = Some [].
Proof. intros E C. cbn. rewrite E. cbn. by rewrite C. Qed.

(** The iterator on the node [x], which is followed by [l]. *)
Lemma iter_forward m lst p x l : chain m p (x :: l) None ->
  iter_nodes (S (length l)) lst m (ListIter (Some x) (hd_or l None) FK_LIST_ITER_H2T) = Some l.
Proof.
  revert p x. induction l as [|y l IH]; intros p x C; [by eapply iter_nodes_none|].
  destruct C as [_ C]. pose proof C as [[d Hy] _]. cbn [hd_or length].
  rewrite (iter_nodes_some _ _ _ _ (ListIter (Some y) (hd_or l None) FK_LIST_ITER_H2T) y); [|by cbn; rewrite Hy|done].
  by rewrite (IH (Some x) y).
Qed.

Lemma iter_backward m lst q x l : chain m None (l ++ [x]) q ->
  iter_nodes (S (length l)) lst m (ListIter (Some x) (last_or l None) FK_LIST_ITER_T2H) = Some (reverse l).
Proof.
  revert q x. induction l as [|y l IH] using rev_ind; intros q x C; [by eapply iter_nodes_none|].
  apply chain_app in C as [C _]. pose proof C as [_ [[d Hy] _]]%chain_app.
  rewrite last_or_app, length_app, Nat.add_1_r. cbn [last_or].
  rewrite (iter_nodes_some _ _ _ _ (ListIter (Some y) (last_or l None) FK_LIST_ITER_T2H) y); [|by cbn; rewrite Hy|done].
  rewrite (IH _ y C). by rewrite reverse_app.
Qed.

(** Both directions of [fk_list_iter_next] give the nodes. *)
Lemma iter_linked m lst l : linked m lst l ->
  iter_nodes (S (length l)) lst m (fk_list_iter_begin FK_LIST_ITER_H2T) = Some l /\
  iter_nodes (S (length l)) lst m (fk_list_iter_begin FK_LIST_ITER_T2H) = Some (reverse l).
Proof.
  intros [Eh Et _ Nd C]. split.
  - destruct l as [|x l]; [eapply iter_nodes_none; [unfold fk_list_iter_next; cbn; by rewrite Eh|done]|]. pose proof C as [[d Hx] _].
    rewrite (iter_nodes_some _ _ _ _ (ListIter (Some x) (hd_or l None) FK_LIST_ITER_H2T) x); [|by unfold fk_list_iter_next; cbn; rewrite Eh; cbn; rewrite Hx|done]. cbn [length].
    by rewrite (iter_forward m lst None x l C).
  - destruct l as [|x l _] using rev_ind; [eapply iter_nodes_none; [unfold fk_list_iter_next; cbn; by rewrite Et|done]|].
    rewrite last_or_app in Et. cbn in Et. pose proof C as [_ [[d Hx] _]]%chain_app. rewrite length_app, Nat.add_1_r.
    rewrite (iter_nodes_some _ _ _ _ (ListIter (Some x) (last_or l None) FK_LIST_ITER_T2H) x); [|by unfold fk_list_iter_next; cbn; rewrite Et; cbn; rewrite Hx|done].
    rewrite (iter_backward m lst None x l C). by rewrite reverse_app.
Qed.

(** ** Several lists over the same nodes *)

Inductive rl_op := InsertHead (i : nat) (x : Z) | InsertTail (i : nat) (x : Z) | RemoveNode (i : nat) (x : Z).

Definition rl_do (op : rl_op) (st : list fk_rawlist * store) : option (list fk_rawlist * store) :=
  let '(rs, m) := st in
  let update i f := lst ← rs !! i; '(lst, m) ← f lst; Some (<[i := lst]> rs, m) in
  match op with
  | InsertHead i x => update i (fun lst => fk_rawlist_insert_head lst x m)
  | InsertTail i x => update i (fun lst => fk_rawlist_insert_tail lst x m)
  | RemoveNode i x => update i (fun lst => fk_rawlist_remove_anyone lst x m)
  end.

Fixpoint rl_run (ops : list rl_op) (st : list fk_rawlist * store) : option (list fk_rawlist * store) :=
  match ops with [] => Some st | op :: ops' => st ← rl_do op st; rl_run ops' st end.

(** What the operations are meant to do to the sequences: a node inserted is in no
    list, a node removed is in the list named. *)
Definition seq_do (nodes : gset Z) (op : rl_op) (ls : list (list Z)) : option (list (list Z)) :=
  let free x := bool_decide (x ∈ nodes /\ Forall (fun l => x ∉ l) ls) in
  match op with
  | InsertHead i x => l ← ls !! i; if free x then Some (<[i := x :: l]> ls) else None
  | InsertTail i x => l ← ls !! i; if free x then Some (<[i := l ++ [x]]> ls) else None
  | RemoveNode i x => l ← ls !! i; l' ← list_drop x l; Some (<[i := l']> ls)
  end.

Fixpoint seq_run (nodes : gset Z) (ops : list rl_op) (ls : list (list Z)) : option (list (list Z)) :=
  match ops with [] => Some ls | op :: ops' => ls ← seq_do nodes op ls; seq_run nodes ops' ls end.

Record stored (m : store) (rs : list fk_rawlist) (ls : list (list Z)) : Prop := {
  st_linked : Forall2 (linked m) rs ls;
  st_disjoint : forall i j l l' x, ls !! i = Some l -> ls !! j = Some l' -> x ∈ l -> x ∈ l' -> i = j
}.

Lemma linked_relinks k m m' lst l : relinks k m m' -> (forall x, x ∈ l -> x ∉ k) -> linked m lst l -> linked m' lst l.
Proof. intros R Hk []. split; try done. by eapply chain_relinks. Qed.

Lemma stored_update m m' rs ls i lst' l l' k :
  stored m rs ls -> ls !! i = Some l -> linked m' lst' l' -> relinks k m m' ->
  (forall x, x ∈ k \/ x ∈ l' -> x ∈ l \/ Forall (fun l => x ∉ l) ls) ->
  stored m' (<[i := lst']> rs) (<[i := l']> ls).
Proof.
  intros [F D] Hi L R Hk. split.
  - apply Forall2_same_length_lookup. split; [by rewrite !length_insert, (Forall2_length _ _ _ F)|].
    intros j r s [(<- & <- & Hr)|[Hne Hr]]%list_lookup_insert_Some [(E & <- & Hs)|[Hne' Hs]]%list_lookup_insert_Some; try done.
    eapply linked_relinks; [exact R| |exact (Forall2_lookup_lr _ _ _ _ _ _ F Hr Hs)].
    intros x Hx Hxk. destruct (Hk x) as [H|H]; [by left| |].
    + by apply Hne, (D i j l s x).
    + exact (Forall_lookup_1 _ _ _ _ H Hs Hx).
  - intros j1 j2 s1 s2 x [(<- & <- & H1)|[N1 H1]]%list_lookup_insert_Some [(E & <- & H2)|[N2 H2]]%list_lookup_insert_Some Hx1 Hx2; try done.
    + exfalso. destruct (Hk x) as [H|H]; [by right|by apply N2, (D i j2 l s2 x)|].
      exact (Forall_lookup_1 _ _ _ _ H H2 Hx2).
    + exfalso. destruct (Hk x) as [H|H]; [by right|by apply N1, (D i j1 l s1 x)|].
      exact (Forall_lookup_1 _ _ _ _ H H1 Hx1).
    + by eapply D.
Qed.

Lemma relinks_dom k m m' : relinks k m m' -> dom m' =@{gset Z} dom m.
Proof.
  intros [_ H]. apply leibniz_equiv_iff, set_equiv. intros x. rewrite !elem_of_dom. specialize (H x).
  by destruct (m !! x), (m' !! x).
Qed.

Lemma rl_do_ok op m rs ls ls' : stored m rs ls -> seq_do (dom m) op ls = Some ls' ->
  exists rs' m', rl_do op (rs, m) = Some (rs', m') /\ stored m' rs' ls' /\
    dom m' =@{gset Z} dom m /\ forall x, nd_data <$> m' !! x = nd_data <$> m !! x.
Proof.
  intros Hs E. destruct op as [i x|i x|i x]; cbn [seq_do rl_do] in E |- *; apply bind_Some in E as (l & Hl & E);
    destruct (Forall2_lookup_r _ _ _ _ _ (st_linked _ _ _ Hs) Hl) as (lst & Hr & L); rewrite Hr; cbn.
  - case_bool_decide as Hc; simplify_eq. destruct Hc as [Hx%elem_of_dom Hf].
    destruct (insert_head_ok m lst l x L) as (lst' & m' & -> & L' & R); [split; [done|by eapply Forall_lookup_1 in Hf]|].
    eexists _, m'. split; [done|]. split; [|split; [by eapply relinks_dom|apply R]].
    eapply stored_update; [done|done|done|done|]. intros y [Hy|Hy]; apply elem_of_cons in Hy as [->|]; tauto.
  - case_bool_decide as Hc; simplify_eq. destruct Hc as [Hx%elem_of_dom Hf].
    destruct (insert_tail_ok m lst l x L) as (lst' & m' & -> & L' & R); [split; [done|by eapply Forall_lookup_1 in Hf]|].
    eexists _, m'. split; [done|]. split; [|split; [by eapply relinks_dom|apply R]].
    eapply stored_update; [done|done|done|done|]. intros y [Hy|Hy]; [apply elem_of_cons in Hy as [->|]; tauto|].
    apply elem_of_app in Hy as [|Hy%list_elem_of_singleton]; subst; tauto.
  - apply bind_Some in E as (l' & E & [= <-]).
    destruct (list_drop_split x l l' (lk_nodup _ _ _ L) E) as (l1 & l2 & -> & ->).
    destruct (remove_anyone_ok m lst l1 x l2 L) as (lst' & m' & -> & L' & R & _).
    eexists _, m'. split; [done|]. split; [|split; [by eapply relinks_dom|apply R]].
    eapply stored_update; [done|done|done|done|]. intros y [Hy|Hy]; left; set_solver.
Qed.

Lemma rl_run_ok ops : forall m rs ls ls', stored m rs ls -> seq_run (dom m) ops ls = Some ls' ->
  exists rs' m', rl_run ops (rs, m) = Some (rs', m') /\ stored m' rs' ls' /\
    forall x, nd_data <$> m' !! x = nd_data <$> m !! x.
Proof.
  induction ops as [|op ops IH]; intros m rs ls ls' Hs E; cbn [seq_run rl_run] in *; [simplify_eq; by eexists _, _|].
  apply bind_Some in E as (ls1 & E1 & E). destruct (rl_do_ok op m rs ls ls1 Hs E1) as (rs1 & m1 & -> & S1 & D1 & Hd1).
  rewrite <- D1 in E. destruct (IH m1 rs1 ls1 ls' S1 E) as (rs' & m' & E' & S' & Hd'). eexists _, _.
  split; [done|]. split; [done|]. intros x. by rewrite Hd', Hd1.
Qed.

Lemma empty_linked m : linked m fk_rawlist_init [].
Proof. split; try done. constructor. Qed.

Lemma empty_stored m n : stored m (replicate n fk_rawlist_init) (replicate n []).
Proof.
  split; [|by intros i j l l' x [-> _]%lookup_replicate _ Hx%elem_of_nil].
  apply Forall2_replicate, empty_linked.
Qed.

(** ** Sorted insertion *)

Definition data_at (m : store) (x : Z) : Z := default 0 (nd_data <$> m !! x).
Definition datas (m : store) (l : list Z) : list Z := data_at m <$> l.

Section sorted.
Context (cmp : Z -> Z -> Z) (rank : Z -> Z).
Hypothesis cmp_ge : forall a b, 0 <= cmp a b <-> rank b <= rank a.
Hypothesis cmp_le : forall a b, cmp a b <= 0 <-> rank a <= rank b.

(** Where the scan stops: before a node that is not below [v] with all in front of
    it below, or behind one that is not above with all behind it above. *)
Definition scanned (m : store) (l : list Z) (v : Z) (r : option Z * bool) : Prop :=
  exists l1 x l2, l = l1 ++ x :: l2 /\ r.1 = Some x /\
    if (r.2 : bool) then v <= rank (data_at m x) /\ Forall (fun y => rank (data_at m y) < v) l1
    else rank (data_at m x) <= v /\ Forall (fun y => v < rank (data_at m y)) l2.

Lemma scan_ok (m : store) (l : list Z) (v : Z) f : forall la lb ha hb,
  chain m None l None -> l = la ++ lb -> l = ha ++ hb -> Forall (fun y => rank (data_at m y) < rank v) la ->
  Forall (fun y => rank v < rank (data_at m y)) hb -> lb <> [] \/ hb <> [] -> (length lb < f)%nat ->
  exists r, sorted_scan f cmp v (hd_or lb None) (last_or ha None) m = Some r /\ scanned m l (rank v) r.
Proof.
  induction f as [|f IH]; intros la lb ha hb C El Eh Fa Fb Hne Hf; [lia|].
  cbn [sorted_scan]. destruct lb as [|lo lb]; cbn [hd_or].
  - exfalso. destruct Hne as [|Hne]; [done|]. destruct hb as [|y hb]; [done|]. rewrite app_nil_r in El. subst la.
    rewrite Eh in Fa. apply Forall_app in Fa as [_ [Fa _]%Forall_cons]. apply Forall_cons in Fb as [Fb _]. lia.
  - pose proof C as C'. rewrite El in C'. apply chain_app in C' as [_ [[dl Hlo] _]]. rewrite Hlo. cbn [mbind option_bind nd_data nd_next].
    assert (rank (data_at m lo) = rank dl) as Kl by (unfold data_at; by rewrite Hlo).
    destruct (Z.leb_spec 0 (cmp dl v)) as [Hc|Hc].
    { eexists. split; [done|]. exists la, lo, lb. repeat split; try done. cbn. rewrite Kl. by apply cmp_ge. }
    assert (rank dl < rank v) as Hlt by (pose proof (cmp_ge dl v); lia).
    destruct ha as [|hi ha _] using rev_ind.
    { exfalso. cbn in Eh. subst hb. rewrite El in Fb. apply Forall_app in Fb as [_ [Fb _]%Forall_cons]. lia. }
    rewrite last_or_app. cbn [last_or mbind option_bind].
    pose proof C as C'. rewrite Eh, <- app_assoc in C'. apply chain_app in C' as [_ [[dh Hhi] _]].
    rewrite Hhi. cbn [mbind option_bind nd_data nd_prev].
    assert (rank (data_at m hi) = rank dh) as Kh by (unfold data_at; by rewrite Hhi).
    destruct (Z.leb_spec (cmp dh v) 0) as [Hc'|Hc'].
    { eexists. split; [done|]. exists ha, hi, hb. rewrite Eh, <- app_assoc. repeat split; try done. cbn. rewrite Kh. by apply cmp_le. }
    assert (rank v < rank dh) as Hgt by (pose proof (cmp_le dh v); lia).
    apply (IH (la ++ [lo]) lb ha (hi :: hb)); try done.
    + by rewrite <- app_assoc.
    + by rewrite Eh, <- app_assoc.
    + apply Forall_app. split; [done|]. apply Forall_singleton. lia.
    + apply Forall_cons. split; [lia|done].
    + by right.
    + cbn in Hf. lia.
Qed.

Lemma hd_or_head l1 x l2 : NoDup (l1 ++ x :: l2) -> Some x = hd_or (l1 ++ x :: l2) None <-> l1 = [].
Proof.
  intros Nd. split; [|by intros ->]. destruct l1 as [|y l1]; [done|]. cbn. intros [= ->].
  apply NoDup_cons in Nd as [Nd _]. exfalso. apply Nd, elem_of_app. right. by left.
Qed.

Lemma last_or_last l1 x l2 : NoDup (l1 ++ x :: l2) -> Some x = last_or (l1 ++ x :: l2) None <-> l2 = [].
Proof.
  intros Nd. split; [|by intros ->; rewrite last_or_app]. destruct l2 as [|y l2 _] using rev_ind; [done|].
  rewrite last_or_app. cbn. rewrite last_or_app. cbn. intros [= ->]. exfalso.
  apply NoDup_app in Nd as (_ & _ & [Nd _]%NoDup_cons). apply Nd, elem_of_app. right. by left.
Qed.

Lemma between_NoDup (l1 : list Z) x l2 : NoDup (l1 ++ l2) -> x ∉ l1 ++ l2 -> NoDup (l1 ++ x :: l2).
Proof.
  intros Nd Hx. apply (NoDup_Permutation_proper _ (x :: l1 ++ l2)); [|by apply NoDup_cons].
  symmetry. apply Permutation_middle.
Qed.

(** Linking a loose node between [l1] and [l2], in any order of the assignments. *)
Lemma link_between m lst l1 l2 nd d : linked m lst (l1 ++ l2) -> nd ∉ l1 ++ l2 ->
  forall m', relinks (nd :: l1 ++ l2) m m' -> chain m' None l1 (Some nd) -> chain m' (Some nd) l2 None ->
  m' !! nd = Some (Node (last_or l1 None) (hd_or l2 None) d) ->
  linked m' (RawList (hd_or (l1 ++ nd :: l2) None) (last_or (l1 ++ nd :: l2) None) (rl_len lst + 1)) (l1 ++ nd :: l2).
Proof.
  intros L Hx m' _ C1 C2 H. rewrite (lk_len _ _ _ L).
  apply (linked_join m' _ _ l1 nd l2 d); try done. apply between_NoDup; [apply L|done].
Qed.

Lemma insert_before_ok m lst l1 x l2 nd : linked m lst (l1 ++ x :: l2) -> loose m (l1 ++ x :: l2) nd ->
  exists lst' m',
    ('(hd, m) ← (if bool_decide (Some x = rl_head lst)
                 then m ← set_prev nd None m; Some (Some nd, m)
                 else
                   nx ← m !! x;
                   m ← deref (nd_prev nx) (fun p => set_next p (Some nd) m);
                   m ← set_prev nd (nd_prev nx) m; Some (rl_head lst, m));
     m ← set_prev x (Some nd) m; m ← set_next nd (Some x) m;
     Some (RawList hd (rl_tail lst) (rl_len lst + 1), m)) = Some (lst', m') /\
    linked m' lst' (l1 ++ nd :: x :: l2) /\ relinks (nd :: l1 ++ x :: l2) m m'.
Proof.
  intros L [[n Hn] Hx]. pose proof L as [Eh Et El Nd C].
  pose proof C as [C1 C2]%chain_app. pose proof C2 as [[d Hd] _]. cbn in C1.
  pose proof Nd as (N1 & N12 & N2)%NoDup_app. apply not_elem_of_app in Hx as Hx'. destruct Hx' as [Hx1 Hx2].
  destruct (chain_link_next m l1 _ (Some nd) N1 C1) as (m1 & E1 & R1 & C1').
  assert (m1 !! nd = Some n) as Hn1 by by rewrite (relinks_lookup _ _ _ _ R1).
  destruct (set_prev_ok nd (last_or l1 None) m1 n Hn1) as (m2 & E2 & R2 & Hn2).
  match goal with |- context [?a ≫= _] => replace a with (Some (hd_or (l1 ++ nd :: x :: l2) None, m2)) end.
  2: { rewrite Eh. case_bool_decide as Hb.
       - apply hd_or_head in Hb as ->; [|done]. cbn in *. simplify_eq. by rewrite E2.
       - rewrite Hd. cbn. destruct l1 as [|y l1]; [done|].
         destruct (last_or_Some (y :: l1) None) as (z & Ez & _); [done|]. rewrite Ez in *. unfold deref. cbn.
         rewrite E1. cbn. by rewrite E2. }
  cbn [mbind option_bind].
  assert (chain m2 (last_or l1 None) (x :: l2) None) as C2'.
  { eapply chain_relinks; [exact R2|by intros y Hy ->%list_elem_of_singleton|].
    eapply chain_relinks; [exact R1| |exact C2]. intros y Hy Hy1. by apply (N12 y Hy1). }
  destruct (chain_set_first m2 _ (Some nd) x l2 None N2 C2') as (m3 & -> & R3 & C3). cbn [mbind option_bind].
  assert (m3 !! nd = Some (Node (last_or l1 None) (nd_next n) (nd_data n))) as Hn3.
  { rewrite (relinks_lookup _ _ _ _ R3); [done|]. intros ->%list_elem_of_singleton. apply Hx2. by left. }
  destruct (set_next_ok nd (Some x) m3 _ Hn3) as (m4 & -> & R4 & Hn4). cbn [mbind option_bind].
  assert (relinks (nd :: l1 ++ x :: l2) m m4) as R
    by (apply (relinks_four _ _ _ _ _ m m1 m2 m3 m4 R1 R2 R3 R4); set_solver).
  eexists _, m4. split; [done|]. split; [|done].
  replace (rl_tail lst) with (last_or (l1 ++ nd :: x :: l2) None) by (rewrite Et, !last_or_app; done).
  eapply (link_between m lst l1 (x :: l2)); try done.
  - eapply chain_relinks; [exact R4|by intros y Hy ->%list_elem_of_singleton|].
    eapply chain_relinks; [exact R3| |].
    + intros y Hy ->%list_elem_of_singleton. apply (N12 x Hy). by left.
    + eapply chain_relinks; [exact R2|by intros y Hy ->%list_elem_of_singleton|done].
  - eapply chain_relinks; [exact R4|by intros y Hy ->%list_elem_of_singleton|done].
Qed.

Lemma insert_behind_ok m lst l1 x l2 nd : linked m lst (l1 ++ x :: l2) -> loose m (l1 ++ x :: l2) nd ->
  exists lst' m',
    ('(tl, m) ← (if bool_decide (Some x = rl_tail lst)
                 then m ← set_next nd None m; Some (Some nd, m)
                 else
                   nx ← m !! x;
                   m ← deref (nd_next nx) (fun q => set_prev q (Some nd) m);
                   m ← set_next nd (nd_next nx) m; Some (rl_tail lst, m));
     m ← set_prev nd (Some x) m; m ← set_next x (Some nd) m;
     Some (RawList (rl_head lst) tl (rl_len lst + 1), m)) = Some (lst', m') /\
    linked m' lst' (l1 ++ x :: nd :: l2) /\ relinks (nd :: l1 ++ x :: l2) m m'.
Proof.
  intros L [[n Hn] Hx]. pose proof L as [Eh Et El Nd C].
  pose proof C as [C1 [[d Hd] C2]]%chain_app. cbn in C1.
  pose proof Nd as (N1 & N12 & [Nx N2]%NoDup_cons)%NoDup_app. apply not_elem_of_app in Hx as Hx'.
  destruct Hx' as [Hx1 [Hx0 Hx2]%not_elem_of_cons].
  destruct (chain_link_prev m _ (Some nd) l2 N2 C2) as (m1 & E1 & R1 & C2').
  assert (m1 !! nd = Some n) as Hn1 by by rewrite (relinks_lookup _ _ _ _ R1).
  destruct (set_next_ok nd (hd_or l2 None) m1 n Hn1) as (m2 & E2 & R2 & Hn2).
  match goal with |- context [?a ≫= _] => replace a with (Some (last_or (l1 ++ x :: nd :: l2) None, m2)) end.
  2: { rewrite Et. case_bool_decide as Hb.
       - apply last_or_last in Hb as ->; [|done]. cbn in *. rewrite last_or_app. cbn. simplify_eq. by rewrite E2.
       - rewrite Hd. cbn. destruct l2 as [|y l2]; [rewrite last_or_app in Hb; done|]. unfold deref. cbn in E1, E2 |- *.
         rewrite E1. cbn. rewrite E2. cbn. by rewrite !last_or_app. }
  cbn [mbind option_bind].
  destruct (set_prev_ok nd (Some x) m2 _ Hn2) as (m3 & -> & R3 & Hn3). cbn [mbind option_bind].
  assert (chain m3 None (l1 ++ [x]) (hd_or l2 None)) as C1'.
  { eapply chain_relinks; [exact R3|by intros y Hy ->%list_elem_of_singleton; set_solver|].
    eapply chain_relinks; [exact R2|by intros y Hy ->%list_elem_of_singleton; set_solver|].
    eapply chain_relinks; [exact R1| |]; [|apply chain_app; split; [done|split; [by eexists|done]]].
    intros y [Hy|Hy%list_elem_of_singleton]%elem_of_app Hy2; [apply (N12 y Hy); by right|by subst]. }
  assert (NoDup (l1 ++ [x])) as N1x.
  { apply NoDup_app. split; [done|]. split; [|apply NoDup_singleton].
    intros y Hy ->%list_elem_of_singleton. apply (N12 x Hy). by left. }
  destruct (chain_set_last _ _ _ _ _ (Some nd) N1x C1') as (m4 & -> & R4 & C4).
  cbn [mbind option_bind].
  assert (relinks (nd :: l1 ++ x :: l2) m m4) as R
    by (apply (relinks_four _ _ _ _ _ m m1 m2 m3 m4 R1 R2 R3 R4); set_solver).
  eexists _, m4. split; [done|]. split; [|done].
  assert (E : l1 ++ x :: nd :: l2 = (l1 ++ [x]) ++ nd :: l2) by by rewrite <- app_assoc.
  assert (E' : l1 ++ x :: l2 = (l1 ++ [x]) ++ l2) by by rewrite <- app_assoc.
  replace (rl_head lst) with (hd_or (l1 ++ x :: nd :: l2) None) by (rewrite Eh, !hd_or_app; done).
  rewrite E. rewrite E' in R, L, Hx. eapply (link_between m lst (l1 ++ [x]) l2); try done.
  - eapply chain_relinks; [exact R4|by intros y Hy ->%list_elem_of_singleton|].
    eapply chain_relinks; [exact R3|by intros y Hy ->%list_elem_of_singleton|].
    eapply chain_relinks; [exact R2|by intros y Hy ->%list_elem_of_singleton|done].
  - rewrite (relinks_lookup _ _ _ _ R4) by (by intros ->%list_elem_of_singleton). rewrite Hn3, last_or_app. done.
Qed.

Lemma sorted_between (l1 l2 : list Z) x : StronglySorted Z.le (l1 ++ l2) ->
  Forall (fun y => y <= x) l1 -> Forall (fun y => x <= y) l2 -> StronglySorted Z.le (l1 ++ x :: l2).
Proof.
  intros (H & S1 & S2)%StronglySorted_app F1 F2. apply StronglySorted_app. split; [|split; [done|by constructor]].
  rewrite Forall_forall in F1. intros a b Ha [->|Hb]%elem_of_cons; [by apply F1|by apply H].
Qed.

Lemma sorted_bounds (l1 l2 : list Z) x : StronglySorted Z.le (l1 ++ x :: l2) ->
  Forall (fun y => y <= x) l1 /\ Forall (fun y => x <= y) l2.
Proof.
  intros (H & _ & S)%StronglySorted_app. split; [|by apply StronglySorted_cons in S as [? _]].
  apply Forall_forall. intros y Hy. apply H; [done|by left].
Qed.

(** The order of the data a list is sorted by. *)
Definition ranked (m : store) (l : list Z) : list Z := rank <$> datas m l.

Lemma ranked_app m l1 l2 : ranked m (l1 ++ l2) = ranked m l1 ++ ranked m l2.
Proof. unfold ranked, datas. by rewrite !fmap_app. Qed.

Lemma Forall_ranked (m : store) (l : list Z) (P : Z -> Prop) :
  Forall P (ranked m l) <-> Forall (fun y => P (rank (data_at m y))) l.
Proof. unfold ranked, datas. by rewrite !Forall_fmap. Qed.

Lemma insert_sorted_ok m lst l nd : linked m lst l -> loose m l nd -> (length l <= size m)%nat ->
  exists l1 l2 lst' m', fk_list_insert_sorted_only cmp lst nd m = Some (lst', m') /\
    l = l1 ++ l2 /\ linked m' lst' (l1 ++ nd :: l2) /\ relinks (nd :: l) m m' /\
    (StronglySorted Z.le (ranked m l) -> StronglySorted Z.le (ranked m (l1 ++ nd :: l2))).
Proof.
  intros L Lo Hs. unfold fk_list_insert_sorted_only. rewrite (lk_len _ _ _ L).
  destruct (Z.eqb_spec (zlen l) 0) as [Hl|Hl].
  - apply zlen_0 in Hl as ->. destruct Lo as [[n Hn] _].
    destruct (set_prev_ok nd None m n Hn) as (m1 & -> & R1 & E1). cbn [mbind option_bind].
    destruct (set_next_ok nd None m1 _ E1) as (m2 & -> & R2 & E2). cbn [mbind option_bind].
    eexists [], [], _, m2. split; [done|]. split; [done|]. split; [|split; [by eapply relinks_trans|]].
    + apply (linked_join m2 _ _ [] nd [] (nd_data n)); try done. apply NoDup_singleton.
    + intros _. repeat constructor.
  - destruct (lo_in _ _ _ Lo) as [n Hn]. rewrite Hn. cbn [mbind option_bind].
    rewrite (lk_head _ _ _ L), (lk_tail _ _ _ L).
    destruct (scan_ok m l (nd_data n) (S (size m)) [] l l []) as (r & E & Hr); try done;
      [apply L|by rewrite app_nil_r|left; by intros ->|lia|].
    rewrite E. clear E. destruct r as [at_node before], Hr as (l1 & x & l2 & -> & Hx & Hr). cbn in Hx. subst at_node.
    assert (rank (nd_data n) = rank (data_at m nd)) as Kn by (unfold data_at; by rewrite Hn). rewrite Kn in Hr.
    cbn [snd] in Hr. cbn [mbind option_bind].
    rewrite <- (lk_head _ _ _ L), <- (lk_tail _ _ _ L), <- (lk_len _ _ _ L).
    destruct before; destruct Hr as [Hv Hf].
    + destruct (insert_before_ok m lst l1 x l2 nd L Lo) as (lst' & m' & E & L' & R).
      exists l1, (x :: l2), lst', m'. split; [exact E|]. split; [done|]. split; [done|]. split; [done|].
      rewrite !ranked_app. intros Ss. cbn. destruct (sorted_bounds _ _ _ Ss) as [_ Hb].
      apply sorted_between; [done| |constructor; [done|]].
      * apply Forall_ranked. eapply Forall_impl; [exact Hf|]. cbn. lia.
      * eapply Forall_impl; [exact Hb|]. cbn. lia.
    + destruct (insert_behind_ok m lst l1 x l2 nd L Lo) as (lst' & m' & E & L' & R).
      exists (l1 ++ [x]), l2, lst', m'. rewrite <- !app_assoc. split; [exact E|]. split; [done|]. split; [done|]. split; [done|].
      replace (l1 ++ [x] ++ nd :: l2) with ((l1 ++ [x]) ++ nd :: l2) by by rewrite <- app_assoc.
      replace (l1 ++ x :: l2) with ((l1 ++ [x]) ++ l2) by by rewrite <- app_assoc.
      rewrite !ranked_app. intros Ss. cbn in Ss |- *.
      assert (StronglySorted Z.le (ranked m l1 ++ rank (data_at m x) :: ranked m l2)) as Ss' by by rewrite <- app_assoc in Ss.
      destruct (sorted_bounds _ _ _ Ss') as [Hb _]. apply sorted_between; [done| |].
      * apply Forall_app. split; [|by apply Forall_singleton]. eapply Forall_impl; [exact Hb|]. cbn. lia.
      * apply Forall_ranked. eapply Forall_impl; [exact Hf|]. cbn. lia.
Qed.
End sorted.

(** ** The functions on lists of data *)

(** The nodes that are not in [l] are as they were. *)
Definition keeps (l : list Z) (m m' : store) : Prop := forall x, is_Some (m !! x) -> x ∉ l -> m' !! x = m !! x.

Lemma linked_in m lst l x : linked m lst l -> x ∈ l -> is_Some (m !! x).
Proof.
  intros [_ _ _ _ C] (l1 & l2 & ->)%list_elem_of_split. apply chain_app in C as [_ [[d Hx] _]]. by eexists.
Qed.

Lemma linked_size m lst l : linked m lst l -> (length l <= size m)%nat.
Proof.
  intros L. rewrite <- (size_list_to_set (C := gset Z) l) by apply L. rewrite <- (size_dom (D := gset Z)).
  apply subseteq_size. intros x Hx%elem_of_list_to_set. apply elem_of_dom. by eapply linked_in.
Qed.

Lemma relinks_datas k m m' l : relinks k m m' -> datas m' l = datas m l.
Proof. intros [_ H]. apply list_fmap_ext. intros i x _. unfold data_at. by rewrite H. Qed.

Lemma relinks_keeps k l m m' : relinks k m m' -> (forall x, is_Some (m !! x) -> x ∈ k -> x ∈ l) -> keeps l m m'.
Proof. intros [H _] Hk x Hx Hl. apply H. intros Hx'. by apply Hl, Hk. Qed.

Section funs.
Context {S : Type} (nop : fk_node_op S).
Implicit Types (s : S).

Definition copied (v : Z) s : Z * S := match data_copy nop with Some f => f v s | None => (v, s) end.
Definition freed_data (v : Z) s : S := match data_free nop with Some f => f v s | None => s end.

(** A node is allocated and filled. *)
Lemma create_ok (m : store) lst l v s : linked m lst l ->
  exists nd m1, fk_node_create m = (nd, m1) /\
    exists m2, fk_node_data_set nop nd v m1 s = Some (m2, (copied v s).2) /\
    linked m2 lst l /\ loose m2 l nd /\ nd ∉ l /\ m !! nd = None /\ keeps [] m m2 /\
    datas m2 [nd] = [(copied v s).1] /\ datas m2 l = datas m l.
Proof.
  intros L. unfold fk_node_create. eexists _, _. split; [done|]. set (nd := fresh (dom m)).
  assert (m !! nd = None) as Hn by (apply not_elem_of_dom, is_fresh).
  assert (nd ∉ l) as Hl by (intros H; destruct (linked_in _ _ _ _ L H); congruence).
  clearbody nd. unfold fk_node_data_set, copied.
  destruct (match data_copy nop with Some f => f v s | None => (v, s) end) as [v' s'].
  unfold set_data. rewrite lookup_insert_eq. cbn [mbind option_bind nd_prev nd_next].
  rewrite insert_insert_eq. eexists. split; [done|].
  set (m2 := <[nd := Node None None v']> m).
  assert (forall x, x <> nd -> m2 !! x = m !! x) as Hk by (intros x Hx; by apply lookup_insert_ne).
  assert (m2 !! nd = Some (Node None None v')) as Hv by apply lookup_insert_eq. clearbody m2.
  split.
  { destruct L as [? ? ? ? C]. split; try done. eapply chain_frame; [|exact C]. intros x Hx. apply Hk. by intros ->. }
  split; [split; [by rewrite Hv|done]|]. split; [done|]. split; [done|]. split.
  { intros x [n Hx] _. apply Hk. intros ->. congruence. }
  split; [unfold datas, data_at; cbn; by rewrite Hv|]. apply list_fmap_ext.
  intros i x Hx%list_elem_of_lookup_2. unfold data_at. rewrite Hk; [done|by intros ->].
Qed.

Lemma search_ok (m : store) k s l : forall p f, chain m p l None -> (length l < f)%nat ->
  search_loop f nop (hd_or l None) k m s =
    Some (snd <$> list_find (fun x => node_cmp nop (data_at m x) k s = 0) l).
Proof.
  induction l as [|x l IH]; intros p [|f] C Hf; cbn [length] in Hf; try lia; [done|].
  destruct C as [[d Hx] C]. cbn [search_loop hd_or list_find]. rewrite Hx. cbn [mbind option_bind nd_data nd_next].
  assert (data_at m x = d) as -> by (unfold data_at; by rewrite Hx).
  destruct (Z.eqb_spec (node_cmp nop d k s) 0) as [E|E].
  - by rewrite decide_True.
  - rewrite decide_False by done. rewrite (IH (Some x) f C) by lia. by destruct (list_find _ l) as [[i y]|].
Qed.

Lemma clear_ok l : forall (m : store) lst s f, linked m lst l -> (length l < f)%nat ->
  exists m', clear_loop f nop lst m s = Some (fk_rawlist_init, m', foldl (fun s v => freed_data v s) s (datas m l)) /\
    (forall x, x ∉ l -> m' !! x = m !! x) /\ forall x, x ∈ l -> m' !! x = None.
Proof.
  induction l as [|x l IH]; intros m lst s [|f] L Hf; cbn [length] in Hf; try lia; cbn [clear_loop].
  - rewrite (lk_head _ _ _ L). cbn. rewrite (linked_nil _ _ L). eexists. split; [done|]. split; [done|]. by intros x Hx%elem_of_nil.
  - rewrite (lk_head _ _ _ L). cbn [hd_or].
    destruct (remove_anyone_ok m lst [] x l L) as (lst' & m1 & E & L1 & R & d & Hx). cbn [app] in *.
    unfold fk_list_remove_anyone. rewrite E. cbn [mbind option_bind].
    unfold fk_node_data_free, set_data. rewrite Hx. cbn [mbind option_bind nd_data nd_prev nd_next].
    rewrite delete_insert_eq.
    pose proof (lk_nodup _ _ _ L) as [Nx Nl]%NoDup_cons.
    assert (linked (delete x m1) lst' l) as L2.
    { destruct L1 as [? ? ? ? C]. split; try done. eapply chain_frame; [|exact C].
      intros y Hy. apply lookup_delete_ne. by intros ->. }
    destruct (IH _ _ (freed_data d s) f L2) as (m' & E' & K & D); [lia|].
    exists m'. split; [|split].
    + unfold freed_data in E' |- *. rewrite E'. cbn [datas fmap list_fmap foldl].
      assert (data_at m x = d) as -> by (destruct R as [_ Hd]; unfold data_at; by rewrite <- (Hd x), Hx).
      do 2 f_equal. f_equal. apply list_fmap_ext. intros i y Hy%list_elem_of_lookup_2. unfold data_at.
      rewrite lookup_delete_ne by (by intros ->). destruct R as [_ Hd]. by rewrite Hd.
    + intros y Hy. apply not_elem_of_cons in Hy as Hy'. destruct Hy' as [Hyx Hyl].
      rewrite K, lookup_delete_ne by done. by apply (relinks_lookup _ _ _ _ R).
    + intros y [->|Hy]%elem_of_cons; [|by apply D]. rewrite K by done. apply lookup_delete_eq.
Qed.

(** [v] was put between [l1] and [l2], in a node of its own. *)
Definition inserted (m : store) (l1 l2 : list Z) (v : Z) s (r : option (fk_rawlist * store * S)) : Prop :=
  exists lst' m' nd, r = Some (lst', m', (copied v s).2) /\ m !! nd = None /\ linked m' lst' (l1 ++ nd :: l2) /\
    datas m' (l1 ++ nd :: l2) = datas m l1 ++ (copied v s).1 :: datas m l2 /\ keeps (l1 ++ l2) m m'.

Lemma datas_app m l1 l2 : datas m (l1 ++ l2) = datas m l1 ++ datas m l2.
Proof. apply fmap_app. Qed.

(** Linking the new node in after its creation. *)
Lemma inserted_intro (m m2 m' : store) lst' l1 l2 nd v s k :
  m !! nd = None -> keeps [] m m2 -> datas m2 [nd] = [(copied v s).1] -> datas m2 (l1 ++ l2) = datas m (l1 ++ l2) ->
  linked m' lst' (l1 ++ nd :: l2) -> relinks k m2 m' -> (forall x, x ∈ k -> x = nd \/ x ∈ l1 ++ l2) ->
  inserted m l1 l2 v s (Some (lst', m', (copied v s).2)).
Proof.
  intros Hn K Dn Dl L R Hk. exists lst', m', nd. split; [done|]. split; [done|]. split; [done|]. split.
  - rewrite (relinks_datas _ _ _ _ R). change (nd :: l2) with ([nd] ++ l2). rewrite !datas_app in *.
    rewrite Dn. apply app_inj_1 in Dl as [-> ->]; [done|by unfold datas; rewrite !length_fmap].
  - intros x Hx Hxl. rewrite (relinks_lookup _ _ _ _ R); [by apply K; [|apply not_elem_of_nil]|].
    intros [->|]%Hk; [|done]. destruct Hx. congruence.
Qed.

Lemma list_insert_head_ok (m : store) lst l v s : linked m lst l ->
  inserted m [] l v s (fk_list_insert_head nop lst v m s).
Proof.
  intros L. destruct (create_ok m lst l v s L) as (nd & m1 & E1 & m2 & E2 & L2 & Lo & Hnd & Hn & K & Dn & Dl).
  unfold fk_list_insert_head. rewrite E1, E2. cbn [mbind option_bind].
  destruct (insert_head_ok m2 lst l nd L2 Lo) as (lst' & m' & -> & L' & R). cbn [mbind option_bind].
  eapply inserted_intro; try done. by intros x ?%elem_of_cons.
Qed.

Lemma list_insert_tail_ok (m : store) lst l v s : linked m lst l ->
  inserted m l [] v s (fk_list_insert_tail nop lst v m s).
Proof.
  intros L. destruct (create_ok m lst l v s L) as (nd & m1 & E1 & m2 & E2 & L2 & Lo & Hnd & Hn & K & Dn & Dl).
  unfold fk_list_insert_tail. rewrite E1, E2. cbn [mbind option_bind].
  destruct (insert_tail_ok m2 lst l nd L2 Lo) as (lst' & m' & -> & L' & R). cbn [mbind option_bind].
  eapply inserted_intro; rewrite ?app_nil_r; try done. by intros x ?%elem_of_cons.
Qed.

Lemma list_sorted_insert_ok (m : store) lst l v s cmp rank : linked m lst l -> data_cmp nop = Some cmp ->
  (forall a b s, 0 <= cmp a b s <-> rank b <= rank a) -> (forall a b s, cmp a b s <= 0 <-> rank a <= rank b) ->
  StronglySorted Z.le (rank <$> datas m l) ->
  exists l1 l2, l = l1 ++ l2 /\ inserted m l1 l2 v s (fk_list_sorted_insert nop lst v m s) /\
    StronglySorted Z.le (rank <$> (datas m l1 ++ (copied v s).1 :: datas m l2)).
Proof.
  intros L Hc Hge Hle Hs.
  destruct (create_ok m lst l v s L) as (nd & m1 & E1 & m2 & E2 & L2 & Lo & Hnd & Hn & K & Dn & Dl).
  unfold fk_list_sorted_insert. rewrite E1, E2, Hc. cbn [mbind option_bind].
  destruct (insert_sorted_ok (fun a b => cmp a b (copied v s).2) rank) with (m := m2) (lst := lst) (l := l) (nd := nd)
    as (l1 & l2 & lst' & m' & -> & -> & L' & R & Ss); try done; [by eapply linked_size|]. cbn [mbind option_bind].
  exists l1, l2. split; [done|]. split; [eapply inserted_intro; try done; by intros x ?%elem_of_cons|].
  unfold ranked in Ss. rewrite Dl in Ss. specialize (Ss Hs). change (nd :: l2) with ([nd] ++ l2) in Ss.
  rewrite !datas_app in *. rewrite Dn in Ss. apply app_inj_1 in Dl as [D1 D2]; [|by unfold datas; rewrite !length_fmap].
  by rewrite D1, D2 in Ss.
Qed.
End funs.

(** ** Properties *)

(** C25. Any number of lists over the nodes of a store, from empty lists on: a
    sequence of insertions (of nodes in no list) and removals (of nodes of the list
    named) follows no NULL or dangling pointer, and makes of each list exactly the
    sequence meant, with its length, which the iterator gives forwards and
    backwards; the data of the nodes does not change. *)
Theorem rawlist_refines_sequences ops (m : store) n ls :
  seq_run (dom m) ops (replicate n []) = Some ls ->
  exists rs m', rl_run ops (replicate n fk_rawlist_init, m) = Some (rs, m') /\
    Forall2 (fun lst l => rl_len lst = zlen l /\
      iter_nodes (S (length l)) lst m' (fk_list_iter_begin FK_LIST_ITER_H2T) = Some l /\
      iter_nodes (S (length l)) lst m' (fk_list_iter_begin FK_LIST_ITER_T2H) = Some (reverse l)) rs ls /\
    forall x, nd_data <$> m' !! x = nd_data <$> m !! x.
Proof.
  intros E. destruct (rl_run_ok ops m _ _ ls (empty_stored m n) E) as (rs & m' & E' & [F _] & D).
  exists rs, m'. split; [done|]. split; [|done]. eapply Forall2_impl; [exact F|].
  intros lst l L. split; [apply L|by apply iter_linked].
Qed.

(** The functions on a list of data: insertion at either end adds the copy of
    the value there; insertion into a list sorted by the comparison, which scans
    from both ends, keeps it sorted; the search gives the first node that compares
    equal, or NULL; emptying frees the data in order and leaves none of the nodes. *)
Theorem list_functions {S : Type} (nop : fk_node_op S) (m : store) lst l v (s : S) :
  linked m lst l ->
  inserted nop m [] l v s (fk_list_insert_head nop lst v m s) /\
  inserted nop m l [] v s (fk_list_insert_tail nop lst v m s) /\
  (forall cmp rank, data_cmp nop = Some cmp ->
    (forall a b s, 0 <= cmp a b s <-> rank b <= rank a) -> (forall a b s, cmp a b s <= 0 <-> rank a <= rank b) ->
    StronglySorted Z.le (rank <$> datas m l) ->
    exists l1 l2, l = l1 ++ l2 /\ inserted nop m l1 l2 v s (fk_list_sorted_insert nop lst v m s) /\
      StronglySorted Z.le (rank <$> (datas m l1 ++ (copied nop v s).1 :: datas m l2))) /\
  fk_list_search nop lst v m s = Some (snd <$> list_find (fun x => node_cmp nop (data_at m x) v s = 0) l) /\
  (exists m', fk_list_empty nop lst m s = Some (fk_rawlist_init, m', foldl (fun s v => freed_data nop v s) s (datas m l)) /\
    forall x, m' !! x = if decide (x ∈ l) then None else m !! x).
Proof.
  intros L. pose proof (linked_size _ _ _ L) as Hl.
  split; [by apply list_insert_head_ok|]. split; [by apply list_insert_tail_ok|].
  split; [intros; by eapply list_sorted_insert_ok|]. split.
  - unfold fk_list_search. rewrite (lk_head _ _ _ L). eapply search_ok; [apply L|lia].
  - destruct (clear_ok nop l m lst s (Datatypes.S (size m)) L) as (m' & E & K & D); [lia|].
    exists m'. unfold fk_list_empty, fk_list_clear. rewrite E. split; [done|].
    intros x. case_decide; [by apply D|by apply K].
Qed.

(** ** Instances *)

Definition ex_nodes : store := <[1 := Node None None 10]> (<[2 := Node None None 20]> {[3 := Node None None 30]}).

Definition ex_ops : list rl_op :=
  [InsertHead 0 1; InsertHead 0 2; InsertTail 0 3; RemoveNode 0 1; InsertTail 1 1; RemoveNode 0 3; InsertHead 1 3].

Lemma rawlist_refines_sequences_witness :
  seq_run (dom ex_nodes) ex_ops [[]; []] = Some [[2]; [3; 1]] /\
  exists rs m', rl_run ex_ops (replicate 2 fk_rawlist_init, ex_nodes) = Some (rs, m') /\
    Forall2 (fun lst l => rl_len lst = zlen l /\
      iter_nodes (S (length l)) lst m' (fk_list_iter_begin FK_LIST_ITER_H2T) = Some l /\
      iter_nodes (S (length l)) lst m' (fk_list_iter_begin FK_LIST_ITER_T2H) = Some (reverse l)) rs [[2]; [3; 1]] /\
    forall x, nd_data <$> m' !! x = nd_data <$> ex_nodes !! x.
Proof.
  assert (seq_run (dom ex_nodes) ex_ops [[]; []] = Some [[2]; [3; 1]]) as H by (vm_compute; reflexivity).
  split; [exact H|]. exact (rawlist_refines_sequences ex_ops ex_nodes 2 [[2]; [3; 1]] H).
Defined.

(** Numbers, copied with their double, compared by size. *)
Definition ex_nop : fk_node_op (list Z) :=
  NodeOp (Some (fun v s => (2 * v, s))) (Some (fun v s => v :: s)) (Some (fun a b _ => a - b)).

Lemma list_functions_witness :
  linked (<[1 := Node None (Some 2) 10]> {[2 := Node (Some 1) None 30]}) (RawList (Some 1) (Some 2) 2) [1; 2] /\
  fk_list_search ex_nop (RawList (Some 1) (Some 2) 2) 30
    (<[1 := Node None (Some 2) 10]> {[2 := Node (Some 1) None 30]}) [] = Some (Some 2).
Proof.
  assert (linked (<[1 := Node None (Some 2) 10]> {[2 := Node (Some 1) None 30]}) (RawList (Some 1) (Some 2) 2) [1; 2]) as L.
  { split; try (vm_compute; reflexivity).
    - refine (proj1 (bool_decide_eq_true _) _). vm_compute. reflexivity.
    - split; [exists 10; vm_compute; reflexivity|]. split; [exists 30; vm_compute; reflexivity|exact I]. }
  split; [exact L|].
  destruct (list_functions ex_nop _ _ _ 30 [] L) as (_ & _ & _ & H & _). rewrite H. vm_compute. reflexivity.
Defined.
