(* ===== verification/Cache.v ===== *)
(** Models the cache of list nodes, src/src/fk_cache.c: a stack of cleared nodes, whose
    nodes it hands out before it asks for memory. *)
From S2P Require Import Prelude RawList.

(** The list of free nodes and the memory of the nodes. *)
Abbreviation cache := (fk_rawlist * store)%type.

Definition fk_cache_init (m : store) : cache := (fk_rawlist_init, m).

Definition fk_cache_get_free_node : ST cache Z := fun '(free_nodes, m) =>
  if 0 <? rl_len free_nodes then
    nd ← rl_head free_nodes;
    '(free_nodes, m) ← fk_rawlist_remove_anyone free_nodes nd m;
    Some (nd, (free_nodes, m))
  else
    let '(nd, m) := fk_node_create m in
    m ← set_prev nd None m; m ← set_next nd None m; m ← set_data nd 0 m;
    Some (nd, (free_nodes, m)).

Definition fk_cache_put_free_node (nd : Z) : ST cache unit := fun '(free_nodes, m) =>
  m ← set_prev nd None m; m ← set_next nd None m; m ← set_data nd 0 m;
  '(free_nodes, m) ← fk_rawlist_insert_head free_nodes nd m;
  Some (tt, (free_nodes, m)).

(** ** Properties *)

(** A cache that holds the nodes [l], without data. *)
Definition cached (c : cache) (l : list Z) : Prop := linked c.2 c.1 l /\ datas c.2 l = (fun _ => 0) <$> l.

(** The three assignments to a node. *)
Lemma clear_node (m : store) nd n : m !! nd = Some n ->
  (m ← set_prev nd None m; m ← set_next nd None m; set_data nd 0 m) = Some (<[nd := Node None None 0]> m).
Proof.
  intros Hn. unfold set_prev, set_next, set_data. rewrite Hn. cbn. rewrite lookup_insert_eq. cbn.
  rewrite insert_insert_eq, lookup_insert_eq. cbn. by rewrite insert_insert_eq.
Qed.

Lemma assignments {A} (m : store) nd n (k : store -> option A) : m !! nd = Some n ->
  (m ← set_prev nd None m; m ← set_next nd None m; m ← set_data nd 0 m; k m) = k (<[nd := Node None None 0]> m).
Proof.
  intros Hn. pose proof (clear_node m nd n Hn) as E. destruct (set_prev nd None m) as [m1|]; [|done]. cbn in *.
  destruct (set_next nd None m1) as [m2|]; [|done]. cbn in *. by rewrite E.
Qed.

(** Clearing a node that is not cached changes nothing of the cache. *)
Lemma cached_clear lst (m : store) l nd : cached (lst, m) l -> nd ∉ l -> cached (lst, <[nd := Node None None 0]> m) l.
Proof.
  intros [[H1 H2 H3 H4 H5] Hd] Hn. cbn [fst snd] in *.
  assert (forall x, x ∈ l -> <[nd := Node None None 0]> m !! x = m !! x) as Hx by (intros x Hx; apply lookup_insert_ne; by intros ->).
  split; [split; try done; by eapply chain_frame|]. cbn [fst snd]. rewrite <- Hd. apply list_fmap_ext.
  intros i x Hi%list_elem_of_lookup_2. unfold data_at. by rewrite Hx.
Qed.

(** A node that is handed out is cleared and no longer cached: the last one that was put,
    or a new one if there is none. *)
Lemma get_free_node_ok c l : cached c l ->
  exists nd c' l', fk_cache_get_free_node c = Some (nd, c') /\ cached c' l' /\ c'.2 !! nd = Some (Node None None 0) /\ (nd ∉ l') /\
    (l = nd :: l' \/ l = [] /\ l' = [] /\ c.2 !! nd = None).
Proof.
  destruct c as [lst m]. intros [L Hd]. cbn [fst snd] in *. unfold fk_cache_get_free_node. rewrite (lk_len _ _ _ L).
  destruct l as [|nd l].
  - cbn [zlen length Z.of_nat]. change (0 <? 0) with false. unfold fk_node_create. cbv beta iota zeta.
    pose proof (is_fresh (dom m)) as Hf. rewrite not_elem_of_dom in Hf. set (nd := fresh (dom m)) in *. clearbody nd.
    rewrite (assignments _ nd (Node None None 0)) by apply lookup_insert_eq. rewrite insert_insert_eq.
    eexists _, _, []. split; [reflexivity|]. split; [apply cached_clear; [done|by intros ?%elem_of_nil]|].
    split; [apply lookup_insert_eq|]. split; [by intros ?%elem_of_nil|]. by right.
  - rewrite (lk_head _ _ _ L), zlen_cons. pose proof (zlen_nonneg l). rewrite (proj2 (Z.ltb_lt _ _)) by lia. cbn [hd_or mbind option_bind].
    destruct (remove_anyone_ok m lst [] nd l L) as (lst' & m' & -> & L' & R & d & Hnd). cbn [mbind option_bind].
    pose proof (relinks_datas _ _ _ (nd :: l) R) as Hd'. rewrite Hd in Hd'. cbn in Hd'. injection Hd' as H0 Hd'.
    exists nd, (lst', m'), l. split; [reflexivity|]. split; [by split|]. split; [|split; [|by left]].
    + unfold data_at in H0. rewrite Hnd in H0. cbn in H0. cbn. by rewrite Hnd, H0.
    + pose proof (lk_nodup _ _ _ L) as N. by apply NoDup_cons in N as [? _].
Qed.

Lemma put_free_node_ok c l nd : cached c l -> loose c.2 l nd ->
  exists c', fk_cache_put_free_node nd c = Some (tt, c') /\ cached c' (nd :: l).
Proof.
  destruct c as [lst m]. intros C [[n Hn] Hl]. cbn [fst snd] in *. unfold fk_cache_put_free_node. rewrite (assignments m nd n) by done.
  destruct (cached_clear lst m l nd C Hl) as [L Hd]. cbn [fst snd] in *. set (m' := <[nd := _]> m) in *.
  assert (m' !! nd = Some (Node None None 0)) as Hm by apply lookup_insert_eq.
  destruct (insert_head_ok m' lst l nd L) as (lst2 & m2 & -> & L2 & R); [by split|]. cbn [mbind option_bind].
  eexists. split; [reflexivity|]. split; [done|]. cbn [snd]. rewrite (relinks_datas _ _ _ _ R).
  unfold datas in *. cbn. rewrite Hd. unfold data_at. by rewrite Hm.
Qed.

(** What is put is handed out next, cleared. *)
Theorem put_then_get c l nd : cached c l -> loose c.2 l nd ->
  exists c1 c2, fk_cache_put_free_node nd c = Some (tt, c1) /\ fk_cache_get_free_node c1 = Some (nd, c2) /\
    cached c2 l /\ c2.2 !! nd = Some (Node None None 0).
Proof.
  intros C L. destruct (put_free_node_ok c l nd C L) as (c1 & E1 & C1).
  destruct (get_free_node_ok c1 (nd :: l) C1) as (x & c2 & l' & E2 & C2 & Hx & _ & [[= <- <-]|[? _]]); [|done].
  by exists c1, c2.
Qed.
