(* ===== verification/Ev.v ===== *)
(** Models the event manager, src/src/fk_ev.c and fk_ev.h: I/O events and timers as
    state machines, kept in the arrays [read_ev] and [write_ev], the heap of the
    timers and the lists of activated, expired and old events.

    An event is its address; [ev_ioevs] and [ev_tmevs] hold the fields of the events
    that are allocated, and an access to another has no result.  The lists are the
    sequences of [RawList]: [fk_rawlist_remove_anyone] of an event that is not in the
    list named has no result ([list_drop]).  The field [idx] of a timer is in the heap.  The cells of the two arrays
    that were never written are [None]: reading one has no result.  The callbacks
    and the backend that waits for events are parameters; [ev_user] is what the
    callbacks work on. *)
From S2P Require Import Prelude Util Heap.

Definition FK_EV_OK : Z := 0.
Definition FK_EV_ERR : Z := -1.
Definition FK_IOEV_READ : Z := 1.
Definition FK_IOEV_WRITE : Z := 2.
Definition FK_TMEV_CYCLE : Z := 1.
Definition FK_TMEV_ONCE : Z := 2.

Definition FK_IOEV_INIT : Z := 0.
Definition FK_IOEV_PENDING : Z := 1.
Definition FK_IOEV_ACTIVATED : Z := 2.

Definition FK_TMEV_INIT : Z := 0.
Definition FK_TMEV_PENDING : Z := 1.
Definition FK_TMEV_EXPIRED : Z := 2.
Definition FK_TMEV_OLD : Z := 3.

(** [io_cb] and [tm_cb] stand for the callback and its argument. *)
Record fk_ioev := Ioev { io_fd : Z; io_type : Z; io_activated : Z; io_cb : Z }.
Record fk_tmev := Tmev { tm_type : Z; tm_expired : Z; tm_interval : Z; tm_when : timeval; tm_cb : Z }.

Definition fk_ioev_set_stat (e : fk_ioev) (s : Z) : fk_ioev := Ioev (io_fd e) (io_type e) s (io_cb e).
Definition fk_tmev_set_stat (t : fk_tmev) (s : Z) : fk_tmev :=
  Tmev (tm_type t) s (tm_interval t) (tm_when t) (tm_cb t).
Definition tm_set_when (t : fk_tmev) (w : timeval) : fk_tmev :=
  Tmev (tm_type t) (tm_expired t) (tm_interval t) w (tm_cb t).

(** ** Backends *)

(** [fk_mpxop_t]: the operations of a backend with state [X]; the system call of the
    dispatch gives an answer in [A].  Dispatching gives the calls of
    [fk_ev_activate_ioev]. *)
Class Mpx (X A : Type) := {
  iompx_add : X -> Z -> Z -> option (Z * X);
  iompx_remove : X -> Z -> Z -> option (Z * X);
  iompx_dispatch : X -> option timeval -> A -> option (Z * list (Z * Z) * X)
}.

(** ** The event manager *)

Record fk_evmgr (X U : Type) := Evmgr {
  ev_stop : bool;
  ev_max_files : Z;
  ev_ioev_cnt : Z;
  ev_tmev_cnt : Z;
  ev_timer_heap : fk_heap;
  ev_act_ioev : list Z;
  ev_exp_tmev : list Z;
  ev_old_tmev : list Z;
  ev_read_ev : list (option (option Z));
  ev_write_ev : list (option (option Z));
  ev_iompx : X;
  ev_ioevs : gmap Z fk_ioev;
  ev_tmevs : gmap Z fk_tmev;
  ev_user : U
}.
Arguments Evmgr {X U} _ _ _ _ _ _ _ _ _ _ _ _ _ _.
Arguments ev_stop {X U} _.
Arguments ev_max_files {X U} _.
Arguments ev_ioev_cnt {X U} _.
Arguments ev_tmev_cnt {X U} _.
Arguments ev_timer_heap {X U} _.
Arguments ev_act_ioev {X U} _.
Arguments ev_exp_tmev {X U} _.
Arguments ev_old_tmev {X U} _.
Arguments ev_read_ev {X U} _.
Arguments ev_write_ev {X U} _.
Arguments ev_iompx {X U} _.
Arguments ev_ioevs {X U} _.
Arguments ev_tmevs {X U} _.
Arguments ev_user {X U} _.

Section ev.
Context {X A U : Type} `{!Mpx X A}.
Abbreviation mgr := (fk_evmgr X U).
Implicit Types (s : mgr).

(** Assignments to the fields. *)
Definition set_ioev s (id : Z) (e : fk_ioev) : mgr :=
  Evmgr (ev_stop s) (ev_max_files s) (ev_ioev_cnt s) (ev_tmev_cnt s) (ev_timer_heap s) (ev_act_ioev s)
    (ev_exp_tmev s) (ev_old_tmev s) (ev_read_ev s) (ev_write_ev s) (ev_iompx s) (<[id := e]> (ev_ioevs s))
    (ev_tmevs s) (ev_user s).
Definition set_tmev s (id : Z) (t : fk_tmev) : mgr :=
  Evmgr (ev_stop s) (ev_max_files s) (ev_ioev_cnt s) (ev_tmev_cnt s) (ev_timer_heap s) (ev_act_ioev s)
    (ev_exp_tmev s) (ev_old_tmev s) (ev_read_ev s) (ev_write_ev s) (ev_iompx s) (ev_ioevs s)
    (<[id := t]> (ev_tmevs s)) (ev_user s).
Definition set_iompx s (x : X) : mgr :=
  Evmgr (ev_stop s) (ev_max_files s) (ev_ioev_cnt s) (ev_tmev_cnt s) (ev_timer_heap s) (ev_act_ioev s)
    (ev_exp_tmev s) (ev_old_tmev s) (ev_read_ev s) (ev_write_ev s) x (ev_ioevs s) (ev_tmevs s) (ev_user s).
Definition set_io_cnt s (n : Z) : mgr :=
  Evmgr (ev_stop s) (ev_max_files s) n (ev_tmev_cnt s) (ev_timer_heap s) (ev_act_ioev s)
    (ev_exp_tmev s) (ev_old_tmev s) (ev_read_ev s) (ev_write_ev s) (ev_iompx s) (ev_ioevs s) (ev_tmevs s) (ev_user s).
Definition set_tm_cnt s (n : Z) : mgr :=
  Evmgr (ev_stop s) (ev_max_files s) (ev_ioev_cnt s) n (ev_timer_heap s) (ev_act_ioev s)
    (ev_exp_tmev s) (ev_old_tmev s) (ev_read_ev s) (ev_write_ev s) (ev_iompx s) (ev_ioevs s) (ev_tmevs s) (ev_user s).
Definition set_heap s (h : fk_heap) : mgr :=
  Evmgr (ev_stop s) (ev_max_files s) (ev_ioev_cnt s) (ev_tmev_cnt s) h (ev_act_ioev s)
    (ev_exp_tmev s) (ev_old_tmev s) (ev_read_ev s) (ev_write_ev s) (ev_iompx s) (ev_ioevs s) (ev_tmevs s) (ev_user s).
Definition set_act s (l : list Z) : mgr :=
  Evmgr (ev_stop s) (ev_max_files s) (ev_ioev_cnt s) (ev_tmev_cnt s) (ev_timer_heap s) l
    (ev_exp_tmev s) (ev_old_tmev s) (ev_read_ev s) (ev_write_ev s) (ev_iompx s) (ev_ioevs s) (ev_tmevs s) (ev_user s).
Definition set_exp s (l : list Z) : mgr :=
  Evmgr (ev_stop s) (ev_max_files s) (ev_ioev_cnt s) (ev_tmev_cnt s) (ev_timer_heap s) (ev_act_ioev s)
    l (ev_old_tmev s) (ev_read_ev s) (ev_write_ev s) (ev_iompx s) (ev_ioevs s) (ev_tmevs s) (ev_user s).
Definition set_old s (l : list Z) : mgr :=
  Evmgr (ev_stop s) (ev_max_files s) (ev_ioev_cnt s) (ev_tmev_cnt s) (ev_timer_heap s) (ev_act_ioev s)
    (ev_exp_tmev s) l (ev_read_ev s) (ev_write_ev s) (ev_iompx s) (ev_ioevs s) (ev_tmevs s) (ev_user s).
Definition set_slots s (r w : list (option (option Z))) : mgr :=
  Evmgr (ev_stop s) (ev_max_files s) (ev_ioev_cnt s) (ev_tmev_cnt s) (ev_timer_heap s) (ev_act_ioev s)
    (ev_exp_tmev s) (ev_old_tmev s) r w (ev_iompx s) (ev_ioevs s) (ev_tmevs s) (ev_user s).
Definition set_user s (u : U) : mgr :=
  Evmgr (ev_stop s) (ev_max_files s) (ev_ioev_cnt s) (ev_tmev_cnt s) (ev_timer_heap s) (ev_act_ioev s)
    (ev_exp_tmev s) (ev_old_tmev s) (ev_read_ev s) (ev_write_ev s) (ev_iompx s) (ev_ioevs s) (ev_tmevs s) u.
Definition set_events s (io : gmap Z fk_ioev) (tm : gmap Z fk_tmev) : mgr :=
  Evmgr (ev_stop s) (ev_max_files s) (ev_ioev_cnt s) (ev_tmev_cnt s) (ev_timer_heap s) (ev_act_ioev s)
    (ev_exp_tmev s) (ev_old_tmev s) (ev_read_ev s) (ev_write_ev s) (ev_iompx s) io tm (ev_user s).

Definition get_ioev (id : Z) : ST mgr fk_ioev := fun s =>
  match ev_ioevs s !! id with Some e => Some (e, s) | None => None end.
Definition get_tmev (id : Z) : ST mgr fk_tmev := fun s =>
  match ev_tmevs s !! id with Some t => Some (t, s) | None => None end.

Definition ioev_stat (id st : Z) : ST mgr unit := e ← get_ioev id; st_mod (fun s => set_ioev s id (fk_ioev_set_stat e st)).
Definition tmev_stat (id st : Z) : ST mgr unit := t ← get_tmev id; st_mod (fun s => set_tmev s id (fk_tmev_set_stat t st)).

(** [a[fd] = v] for an array of pointers. *)
Definition slot_set (l : list (option (option Z))) (fd : Z) (v : option Z) : option (list (option (option Z))) :=
  if (0 <=? fd) && (fd <? zlen l) then Some (zupd l fd (Some v)) else None.

(** [if (type & FK_IOEV_READ) read_ev[fd] = v; if (type & FK_IOEV_WRITE) write_ev[fd] = v]. *)
Definition set_ev_slots (fd type : Z) (v : option Z) : ST mgr unit := fun s =>
  match (if Z.land type FK_IOEV_READ =? 0 then Some (ev_read_ev s) else slot_set (ev_read_ev s) fd v),
        (if Z.land type FK_IOEV_WRITE =? 0 then Some (ev_write_ev s) else slot_set (ev_write_ev s) fd v) with
  | Some r, Some w => Some (tt, set_slots s r w)
  | _, _ => None
  end.

Definition fk_ev_stop : ST mgr unit := st_mod (fun s =>
  Evmgr true (ev_max_files s) (ev_ioev_cnt s) (ev_tmev_cnt s) (ev_timer_heap s) (ev_act_ioev s)
    (ev_exp_tmev s) (ev_old_tmev s) (ev_read_ev s) (ev_write_ev s) (ev_iompx s) (ev_ioevs s) (ev_tmevs s) (ev_user s)).

(** ** I/O events *)

(** [mem1], [mem2]: what the two allocated arrays hold. *)
Definition fk_ev_init (max_files : Z) (mem1 mem2 : list (option (option Z))) (x : X) (u : U) : mgr :=
  Evmgr false max_files 0 0 fk_heap_init [] [] [] mem1 mem2 x ∅ ∅ u.

Definition fk_ioev_create (id fd type cb : Z) : ST mgr unit := st_mod (fun s =>
  set_ioev s id (Ioev fd type FK_IOEV_INIT cb)).
Definition fk_ioev_destroy (id : Z) : ST mgr unit := st_mod (fun s =>
  set_events s (delete id (ev_ioevs s)) (ev_tmevs s)).

Definition fk_ev_add_ioev (id : Z) : ST mgr Z :=
  e ← get_ioev id;
  if negb (io_activated e =? FK_IOEV_INIT) then mret FK_EV_ERR
  else
    s ← st_get;
    '(rt, x) ← st_lift (iompx_add (ev_iompx s) (io_fd e) (io_type e));
    _ ← st_mod (fun s => set_iompx s x);
    if rt =? FK_EV_ERR then mret FK_EV_ERR
    else
      _ ← set_ev_slots (io_fd e) (io_type e) (Some id);
      _ ← ioev_stat id FK_IOEV_PENDING;
      _ ← st_mod (fun s => set_io_cnt s (ev_ioev_cnt s + 1));
      mret FK_EV_OK.

(** [fk_rawlist_remove_anyone(evmgr.act_ioev, ioev)] and the like. *)
Definition drop_act (id : Z) : ST mgr unit :=
  s ← st_get; l ← st_lift (list_drop id (ev_act_ioev s)); st_mod (fun s => set_act s l).
Definition drop_exp (id : Z) : ST mgr unit :=
  s ← st_get; l ← st_lift (list_drop id (ev_exp_tmev s)); st_mod (fun s => set_exp s l).
Definition drop_old (id : Z) : ST mgr unit :=
  s ← st_get; l ← st_lift (list_drop id (ev_old_tmev s)); st_mod (fun s => set_old s l).

Definition fk_ev_remove_ioev (id : Z) : ST mgr Z :=
  e ← get_ioev id;
  if io_activated e =? FK_IOEV_INIT then mret FK_EV_ERR
  else
    s ← st_get;
    '(rt, x) ← st_lift (iompx_remove (ev_iompx s) (io_fd e) (io_type e));
    _ ← st_mod (fun s => set_iompx s x);
    if rt =? FK_EV_ERR then mret FK_EV_ERR
    else
      _ ← (if io_activated e =? FK_IOEV_ACTIVATED then drop_act id else mret tt);
      _ ← ioev_stat id FK_IOEV_INIT;
      _ ← set_ev_slots (io_fd e) (io_type e) None;
      _ ← st_mod (fun s => set_io_cnt s (ev_ioev_cnt s - 1));
      mret FK_EV_OK.

(** The event in a cell, if any, goes to the list of activated events. *)
Definition activate (slot : list (option (option Z))) (fd : Z) : ST mgr unit :=
  v ← st_lift (mjoin (znth slot fd));
  match v with
  | None => mret tt
  | Some id =>
      e ← get_ioev id;
      if io_activated e =? FK_IOEV_PENDING then
        _ ← st_mod (fun s => set_act s (id :: ev_act_ioev s));
        ioev_stat id FK_IOEV_ACTIVATED
      else mret tt
  end.

Definition fk_ev_activate_ioev (fd type : Z) : ST mgr unit :=
  _ ← (if Z.land type FK_IOEV_READ =? 0 then mret tt else s ← st_get; activate (ev_read_ev s) fd);
  if Z.land type FK_IOEV_WRITE =? 0 then mret tt else s ← st_get; activate (ev_write_ev s) fd.

(** ** Timers *)

(** [fk_tmev_cmp] through the fields of two allocated timers. *)
Definition fk_tmev_cmp (tms : gmap Z fk_tmev) (a b : Z) : option Z :=
  t1 ← tms !! a; t2 ← tms !! b; Some (fk_util_tmval_cmp (tm_when t1) (tm_when t2)).

Definition fk_tmev_create (id interval type cb : Z) (now : timeval) : ST mgr unit := st_mod (fun s =>
  set_heap (set_tmev s id (Tmev type FK_TMEV_INIT interval (fk_util_cal_expire now interval) cb))
    (set_leaf_idx (ev_timer_heap s) id 0)).
Definition fk_tmev_destroy (id : Z) : ST mgr unit := st_mod (fun s =>
  set_events s (ev_ioevs s) (delete id (ev_tmevs s))).

(** A step on the heap of the timers. *)
Definition on_heap (f : (Z -> Z -> option Z) -> fk_heap -> option fk_heap) : ST mgr unit := fun s =>
  match f (fk_tmev_cmp (ev_tmevs s)) (ev_timer_heap s) with
  | Some h => Some (tt, set_heap s h)
  | None => None
  end.

Definition fk_ev_add_tmev (id : Z) : ST mgr Z :=
  t ← get_tmev id;
  if negb (tm_expired t =? FK_TMEV_INIT) then mret FK_EV_ERR
  else
    _ ← on_heap (fun cmp h => fk_heap_push cmp h id);
    _ ← tmev_stat id FK_TMEV_PENDING;
    _ ← st_mod (fun s => set_tm_cnt s (ev_tmev_cnt s + 1));
    mret FK_EV_OK.

Definition fk_ev_remove_tmev (id : Z) : ST mgr Z :=
  t ← get_tmev id;
  if tm_expired t =? FK_TMEV_INIT then mret FK_EV_ERR
  else
    _ ← (if tm_expired t =? FK_TMEV_PENDING then on_heap (fun cmp h => fk_heap_remove cmp h id) else mret tt);
    _ ← (if tm_expired t =? FK_TMEV_EXPIRED then drop_exp id else mret tt);
    _ ← (if tm_expired t =? FK_TMEV_OLD then drop_old id else mret tt);
    _ ← tmev_stat id FK_TMEV_INIT;
    _ ← st_mod (fun s => set_tm_cnt s (ev_tmev_cnt s - 1));
    mret FK_EV_OK.

Definition fk_ev_get_nearest_tmev (s : mgr) : option Z := fk_heap_root (ev_timer_heap s).

(** [while (root != NULL)]: every turn takes a timer from the heap. *)
Fixpoint update_pending_loop (fuel : nat) (now : timeval) : ST mgr unit :=
  match fuel with
  | O => fun _ => None
  | S f =>
      s ← st_get;
      match fk_heap_root (ev_timer_heap s) with
      | None => mret tt
      | Some id =>
          t ← get_tmev id;
          if 0 <=? fk_util_tmval_cmp now (tm_when t) then
            _ ← on_heap (fun cmp h => snd <$> fk_heap_pop cmp h);
            _ ← st_mod (fun s => set_exp s (id :: ev_exp_tmev s));
            _ ← tmev_stat id FK_TMEV_EXPIRED;
            update_pending_loop f now
          else mret tt
      end
  end.

Definition fk_ev_update_pending_tmev (now : timeval) : ST mgr unit := fun s =>
  update_pending_loop (S (Z.to_nat (hp_last (ev_timer_heap s)))) now s.
End ev.

(** ** Dispatching *)

Section dispatch.
Context {X A U : Type} `{!Mpx X A}.
Abbreviation mgr := (fk_evmgr X U).
(** The callbacks, on the descriptor and the type of the event or the interval and
    the type of the timer, and the clock. *)
Context (iocb : Z -> Z -> Z -> ST mgr unit) (tmcb : Z -> Z -> Z -> ST mgr Z).
Context (fk_util_get_time : ST mgr timeval).

(** [while (ioev != NULL)]: every turn takes an event from the list. *)
Fixpoint proc_activated_loop (fuel : nat) : ST mgr unit :=
  match fuel with
  | O => fun _ => None
  | S f =>
      s ← st_get;
      match ev_act_ioev s with
      | [] => mret tt
      | id :: _ =>
          e ← get_ioev id;
          _ ← drop_act id;
          _ ← ioev_stat id FK_IOEV_PENDING;
          _ ← iocb (io_cb e) (io_fd e) (io_type e);
          proc_activated_loop f
      end
  end.

Definition fk_ev_proc_activated_ioev : ST mgr unit := fun s =>
  proc_activated_loop (S (length (ev_act_ioev s))) s.

(** [while (tmev != NULL)] *)
Fixpoint proc_expired_loop (fuel : nat) : ST mgr unit :=
  match fuel with
  | O => fun _ => None
  | S f =>
      s ← st_get;
      match ev_exp_tmev s with
      | [] => mret tt
      | id :: _ =>
          t ← get_tmev id;
          _ ← drop_exp id;
          _ ← st_mod (fun s => set_old s (id :: ev_old_tmev s));
          _ ← tmev_stat id FK_TMEV_OLD;
          rt ← tmcb (tm_cb t) (tm_interval t) (tm_type t);
          _ ← (if (rt =? 0) && (tm_type t =? FK_TMEV_CYCLE) then
                 _ ← drop_old id;
                 now ← fk_util_get_time;
                 t' ← get_tmev id;
                 _ ← st_mod (fun s => set_tmev s id (tm_set_when t' (fk_util_cal_expire now (tm_interval t))));
                 _ ← on_heap (fun cmp h => fk_heap_push cmp h id);
                 tmev_stat id FK_TMEV_PENDING
               else mret tt);
          proc_expired_loop f
      end
  end.

Definition fk_ev_proc_expired_tmev : ST mgr unit := fun s =>
  proc_expired_loop (S (length (ev_exp_tmev s))) s.

(** The calls of [fk_ev_activate_ioev] a backend makes. *)
Fixpoint activate_all (l : list (Z * Z)) : ST mgr unit :=
  match l with
  | [] => mret tt
  | (fd, type) :: l' => _ ← fk_ev_activate_ioev fd type; activate_all l'
  end.

(** How long the backend may wait: up to the nearest timer, or without end. *)
Definition wait_time (now : timeval) (t : fk_tmev) : timeval :=
  let timeout := fk_util_tmval_sub (tm_when t) now in
  if fk_util_tv2millis timeout <? 0 then Timeval 0 0 else timeout.

(** [ans] is the answer of the system call. *)
Definition fk_ev_dispatch (ans : A) : ST mgr Z :=
  s ← st_get;
  pto ← (match fk_ev_get_nearest_tmev s with
         | Some id => t ← get_tmev id; now ← fk_util_get_time; mret (Some (wait_time now t))
         | None => mret None
         end);
  s ← st_get;
  '(rt, acts, x) ← st_lift (iompx_dispatch (ev_iompx s) pto ans);
  _ ← st_mod (fun s => set_iompx s x);
  _ ← activate_all acts;
  if rt =? FK_EV_ERR then mret FK_EV_ERR
  else
    now ← fk_util_get_time;
    _ ← fk_ev_update_pending_tmev now;
    _ ← fk_ev_proc_activated_ioev;
    _ ← fk_ev_proc_expired_tmev;
    mret FK_EV_OK.

(** [while (!evmgr.stop)], for as long as the kernel answers. *)
Fixpoint fk_ev_cycle (answers : list A) : ST mgr unit :=
  s ← st_get;
  if ev_stop s then mret tt
  else match answers with
       | [] => mret tt
       | ans :: answers' => _ ← fk_ev_dispatch ans; fk_ev_cycle answers'
       end.
End dispatch.

(** ** What a backend promises *)

(** [watch x fd]: the types watched on [fd].  Types are added and removed one by
    one, as the server does.  A backend that [refuses] a type that is watched already says
    so; of any other one nothing is known then.  A dispatch names only descriptors that
    are watched. *)
Class MpxLaws (X A : Type) `{!Mpx X A} := {
  mpx_ok : Z -> X -> Prop;
  watch : X -> Z -> Z;
  refuses : X -> bool;
  add_law n x fd type : mpx_ok n x -> 0 <= fd < n -> type = FK_IOEV_READ \/ type = FK_IOEV_WRITE ->
    refuses x = true \/ Z.land (watch x fd) type = 0 ->
    exists rt x', iompx_add x fd type = Some (rt, x') /\ mpx_ok n x' /\
      ((rt = FK_EV_OK /\ Z.land (watch x fd) type = 0 /\
        forall fd', watch x' fd' = if bool_decide (fd' = fd) then Z.lor (watch x fd) type else watch x fd') \/
       (rt = FK_EV_ERR /\ forall fd', watch x' fd' = watch x fd'));
  remove_law n x fd type : mpx_ok n x -> 0 <= fd < n -> type = FK_IOEV_READ \/ type = FK_IOEV_WRITE ->
    exists rt x', iompx_remove x fd type = Some (rt, x') /\ mpx_ok n x' /\
      ((rt = FK_EV_OK /\ Z.land (watch x fd) type = type /\
        forall fd', watch x' fd' = if bool_decide (fd' = fd) then Z.land (watch x fd) (Z.lnot type) else watch x fd') \/
       (rt = FK_EV_ERR /\ forall fd', watch x' fd' = watch x fd'));
  (** What the kernel answers, and when the call is defined. *)
  answers : Z -> X -> option timeval -> A -> Prop;
  dispatch_law n x pto ans : mpx_ok n x -> answers n x pto ans ->
    exists rt acts x', iompx_dispatch x pto ans = Some (rt, acts, x') /\ mpx_ok n x' /\
      (forall fd, watch x' fd = watch x fd) /\ Forall (fun fdt => 0 <= fdt.1 < n) acts
}.
