(* ===== verification/EvProps.v ===== *)
(** The invariant of the event manager: every event is in exactly the places its
    state says, and the backend watches exactly the descriptors in the arrays.  It
    is kept by every call of the interface, by callbacks made of such calls, and by
    a dispatch, which returns. *)
From S2P Require Import Prelude Util Heap Ev.

(** The next steps of a program whose first state is known. *)
Ltac st_run := unfold mbind, ST_bind, mret, ST_ret, st_get, st_mod, st_lift; cbv beta iota.

(** The fields of a state after assignments. *)
Ltac ev_cbn := cbn [ev_stop ev_max_files ev_ioev_cnt ev_tmev_cnt ev_timer_heap ev_act_ioev ev_exp_tmev ev_old_tmev
  ev_read_ev ev_write_ev ev_iompx ev_ioevs ev_tmevs ev_user set_ioev set_tmev set_iompx set_io_cnt set_tm_cnt
  set_heap set_act set_exp set_old set_slots set_user set_events].

(** ** Counting the elements of a map *)

Section count.
Context {A : Type} (P : A -> bool).
Implicit Types (m : gmap Z A).

Definition count_if m : Z := Z.of_nat (size (filter (fun p => P p.2 = true) m)).

Lemma count_insert_new m i x : m !! i = None -> count_if (<[i := x]> m) = count_if m + Z.b2z (P x).
Proof.
  intros Hi. unfold count_if. destruct (P x) eqn:E.
  - rewrite map_filter_insert_True by done.
    rewrite map_size_insert_None; [cbn; lia|]. apply map_lookup_filter_None. by left.
  - rewrite map_filter_insert_False by (cbn; congruence). rewrite delete_id by done. cbn. lia.
Qed.

Lemma count_delete m i x : m !! i = Some x -> count_if (delete i m) = count_if m - Z.b2z (P x).
Proof.
  intros Hi. rewrite <- (insert_delete_id m i x Hi) at 2.
  rewrite count_insert_new by apply lookup_delete_eq. lia.
Qed.

Lemma count_insert m i x y : m !! i = Some x ->
  count_if (<[i := y]> m) = count_if m - Z.b2z (P x) + Z.b2z (P y).
Proof.
  intros Hi. rewrite <- insert_delete_eq, count_insert_new by apply lookup_delete_eq.
  by rewrite (count_delete m i x).
Qed.

Lemma count_empty : count_if ∅ = 0.
Proof. unfold count_if. by rewrite map_filter_empty, map_size_empty. Qed.
End count.

(** ** Types of events *)

Definition single (t : Z) : Prop := t = FK_IOEV_READ \/ t = FK_IOEV_WRITE.

Lemma land_lor_single w t t' : single t -> single t' -> Z.land (Z.lor w t) t' = 0 <-> t' <> t /\ Z.land w t' = 0.
Proof.
  intros [->| ->] [->| ->]; rewrite Z.land_lor_distr_l, Z.lor_eq_0_iff; cbn; unfold FK_IOEV_READ, FK_IOEV_WRITE; naive_solver lia.
Qed.

Lemma land_lnot_single w t t' : single t -> single t' ->
  Z.land (Z.land w (Z.lnot t)) t' = 0 <-> t' = t \/ Z.land w t' = 0.
Proof.
  intros [->| ->] [->| ->]; rewrite <- Z.land_assoc; unfold FK_IOEV_READ, FK_IOEV_WRITE;
    [change (Z.land (Z.lnot 1) 1) with 0|change (Z.land (Z.lnot 1) 2) with 2|
     change (Z.land (Z.lnot 2) 1) with 1|change (Z.land (Z.lnot 2) 2) with 0];
    rewrite ?Z.land_0_r; naive_solver lia.
Qed.

Lemma single_bits t : single t ->
  (t = FK_IOEV_READ /\ (Z.land t FK_IOEV_READ =? 0) = false /\ (Z.land t FK_IOEV_WRITE =? 0) = true) \/
  (t = FK_IOEV_WRITE /\ (Z.land t FK_IOEV_READ =? 0) = true /\ (Z.land t FK_IOEV_WRITE =? 0) = false).
Proof. intros [->| ->]; [by left|by right]. Qed.

(** ** I/O events *)

Abbreviation slots := (list (option (option Z))).

(** What the cell of a type and descriptor holds; nothing if it was never written. *)
Definition slot (rd wr : slots) (t fd : Z) : option (option Z) :=
  mjoin (znth (if t =? FK_IOEV_READ then rd else wr) fd).

(** A cell that holds an event; one that was never written holds none. *)
Definition occupied (rd wr : slots) (t fd : Z) : bool :=
  match slot rd wr t fd with Some (Some _) => true | _ => false end.

Lemma occupied_slot rd wr t fd id : slot rd wr t fd = Some (Some id) -> occupied rd wr t fd = true.
Proof. unfold occupied. by intros ->. Qed.

Lemma occupied_some rd wr t fd : occupied rd wr t fd = true -> exists id, slot rd wr t fd = Some (Some id).
Proof. unfold occupied. repeat case_match; intros; try done. by eexists. Qed.

(** An array before the first event: each cell is NULL or was never written, as
    [malloc] leaves it. *)
Definition unwritten (n : Z) (mem : slots) : Prop := zlen mem = n /\ forall v, v ∈ mem -> v = None \/ v = Some None.

Definition active (e : fk_ioev) : bool := negb (io_activated e =? FK_IOEV_INIT).

Section inv.
Context {X A U : Type} `{!Mpx X A, !MpxLaws X A}.
Implicit Types (rd wr : slots) (ios : gmap Z fk_ioev) (act : list Z).

Record io_inv (n : Z) rd wr (x : X) ios act (cnt : Z) : Prop := {
  ii_mpx : mpx_ok n x;
  ii_rd : zlen rd = n;
  ii_wr : zlen wr = n;
  ii_ev : forall id e, ios !! id = Some e -> 0 <= io_fd e < n /\ single (io_type e) /\
    (io_activated e = FK_IOEV_INIT \/ io_activated e = FK_IOEV_PENDING \/ io_activated e = FK_IOEV_ACTIVATED) /\
    (io_activated e <> FK_IOEV_INIT -> slot rd wr (io_type e) (io_fd e) = Some (Some id));
  ii_slot : forall t fd id, single t -> slot rd wr t fd = Some (Some id) ->
    exists e, ios !! id = Some e /\ io_fd e = fd /\ io_type e = t /\ io_activated e <> FK_IOEV_INIT;
  ii_watch : forall t fd, single t -> 0 <= fd < n -> Z.land (watch x fd) t = 0 <-> occupied rd wr t fd = false;
  ii_nodup : NoDup act;
  ii_act : forall id, id ∈ act <-> exists e, ios !! id = Some e /\ io_activated e = FK_IOEV_ACTIVATED;
  ii_cnt : cnt = count_if active ios
}.

(** The events of a descriptor and type that were added and not removed. *)
Definition event_added ios (fd t : Z) : Prop :=
  exists id e, ios !! id = Some e /\ io_fd e = fd /\ io_type e = t /\ io_activated e <> FK_IOEV_INIT.

(** What is watched is what was added. *)
Lemma watched_added n rd wr x ios act cnt fd t : io_inv n rd wr x ios act cnt -> single t ->
  (Z.land (watch x fd) t <> 0 -> 0 <= fd < n) -> Z.land (watch x fd) t <> 0 <-> event_added ios fd t.
Proof.
  intros I Ht Hr. split.
  - intros Hm. specialize (Hr Hm). destruct (occupied rd wr t fd) eqn:Hv.
    + apply occupied_some in Hv as [id Hv].
      destruct (ii_slot _ _ _ _ _ _ _ I t fd id Ht Hv) as (e & He). by exists id, e.
    + exfalso. apply Hm. by apply (ii_watch _ _ _ _ _ _ _ I t fd Ht Hr).
  - intros (id & e & He & <- & <- & Hst) Hz.
    destruct (ii_ev _ _ _ _ _ _ _ I id e He) as (Hfd & _ & _ & Hsl). specialize (Hsl Hst).
    apply (ii_watch _ _ _ _ _ _ _ I _ _ Ht Hfd) in Hz. apply occupied_slot in Hsl. congruence.
Qed.

(** Writing the cell of a type. *)
Definition slots_upd rd wr (t fd : Z) (v : option Z) : slots * slots :=
  if t =? FK_IOEV_READ then (zupd rd fd (Some v), wr) else (rd, zupd wr fd (Some v)).

Lemma slot_upd rd wr t fd v t' fd' : single t -> single t' -> 0 <= fd < zlen rd -> zlen wr = zlen rd ->
  slot (slots_upd rd wr t fd v).1 (slots_upd rd wr t fd v).2 t' fd' =
    if bool_decide (t' = t /\ fd' = fd) then Some v else slot rd wr t' fd'.
Proof.
  intros Ht Ht' Hfd Hw. unfold slot, slots_upd.
  destruct Ht as [->| ->], Ht' as [->| ->]; cbn [Z.eqb Pos.eqb FK_IOEV_READ FK_IOEV_WRITE fst snd]; try by rewrite bool_decide_eq_false_2 by naive_solver.
  - destruct (decide (fd' = fd)) as [->|Hn].
    + by rewrite bool_decide_eq_true_2, znth_zupd_eq by (done || lia).
    + by rewrite bool_decide_eq_false_2, znth_zupd_ne by (naive_solver || lia).
  - destruct (decide (fd' = fd)) as [->|Hn].
    + by rewrite bool_decide_eq_true_2, znth_zupd_eq by (done || lia).
    + by rewrite bool_decide_eq_false_2, znth_zupd_ne by (naive_solver || lia).
Qed.

Lemma slots_upd_len rd wr t fd v :
  zlen (slots_upd rd wr t fd v).1 = zlen rd /\ zlen (slots_upd rd wr t fd v).2 = zlen wr.
Proof. unfold slots_upd. case_match; cbn; by rewrite zlen_zupd. Qed.

(** The backend may only have kept what it watches. *)
Lemma io_inv_mpx n rd wr x x' ios act cnt : io_inv n rd wr x ios act cnt -> mpx_ok n x' ->
  (forall fd, watch x' fd = watch x fd) -> io_inv n rd wr x' ios act cnt.
Proof. intros [] Hx Hw. split; try done. intros t fd Ht Hfd. rewrite Hw. eauto. Qed.

(** An event of a new state: in the cell and in the list as its state says. *)
Lemma io_inv_set n rd wr rd' wr' x x' ios act act' cnt id e e' :
  io_inv n rd wr x ios act cnt -> ios !! id = Some e -> mpx_ok n x' ->
  io_fd e' = io_fd e -> io_type e' = io_type e ->
  (io_activated e' = FK_IOEV_INIT \/ io_activated e' = FK_IOEV_PENDING \/ io_activated e' = FK_IOEV_ACTIVATED) ->
  zlen rd' = n -> zlen wr' = n ->
  (forall t fd, single t -> slot rd' wr' t fd =
    if bool_decide (t = io_type e /\ fd = io_fd e)
    then Some (if io_activated e' =? FK_IOEV_INIT then None else Some id) else slot rd wr t fd) ->
  (forall t fd, single t -> 0 <= fd < n -> Z.land (watch x' fd) t = 0 <->
    if bool_decide (t = io_type e /\ fd = io_fd e) then io_activated e' = FK_IOEV_INIT else Z.land (watch x fd) t = 0) ->
  (occupied rd wr (io_type e) (io_fd e) = false \/ slot rd wr (io_type e) (io_fd e) = Some (Some id)) ->
  NoDup act' -> (forall i, i ∈ act' <-> if bool_decide (i = id) then io_activated e' = FK_IOEV_ACTIVATED else i ∈ act) ->
  io_inv n rd' wr' x' (<[id := e']> ios) act' (cnt - Z.b2z (active e) + Z.b2z (active e')).
Proof.
  intros [] He Hx Efd Ety Est Lr Lw Hs Hw Hold Hn Ha.
  destruct (ii_ev0 id e He) as (Hfd & Hty & _ & _).
  split; try done.
  - intros i y [[<- <-]|[Hne Hy]]%lookup_insert_Some.
    + rewrite Efd, Ety. split; [done|]. split; [done|]. split; [done|]. intros Hst.
      rewrite Hs by done. rewrite bool_decide_eq_true_2 by done. by rewrite (proj2 (Z.eqb_neq _ _)).
    + destruct (ii_ev0 i y Hy) as (Hfd' & Hty' & Hst' & Hsl'). split; [done|]. split; [done|]. split; [done|].
      intros Hst. rewrite Hs by done. case_bool_decide as Hb; [|by apply Hsl'].
      exfalso. destruct Hb as [E1 E2]. specialize (Hsl' Hst). rewrite E1, E2 in Hsl'.
      destruct Hold as [Hold|Hold]; [apply occupied_slot in Hsl'; congruence|naive_solver].
  - intros t fd i Ht. rewrite Hs by done. case_bool_decide as Hb.
    + destruct Hb as [-> ->]. destruct (Z.eqb_spec (io_activated e') FK_IOEV_INIT); [done|]. intros [= <-].
      exists e'. by rewrite lookup_insert_eq.
    + intros Hsl. destruct (ii_slot0 t fd i Ht Hsl) as (y & Hy & E1 & E2 & E3). exists y.
      rewrite lookup_insert_ne; [done|]. intros <-. simplify_eq. by apply Hb.
  - intros t fd Ht Hfd'. unfold occupied. rewrite Hw, Hs by done. case_bool_decide; [|by apply ii_watch0].
    destruct (Z.eqb_spec (io_activated e') FK_IOEV_INIT); naive_solver.
  - intros i. rewrite Ha. case_bool_decide as Hb.
    + subst i. rewrite lookup_insert_eq. naive_solver.
    + rewrite ii_act0, lookup_insert_ne by done. done.
  - rewrite (count_insert active ios id e e' He). lia.
Qed.

(** ** Timers *)

Implicit Types (tms : gmap Z fk_tmev) (h : fk_heap).

Definition added (t : fk_tmev) : bool := negb (tm_expired t =? FK_TMEV_INIT).

Record tm_inv h tms (exp old : list Z) (cnt : Z) : Prop := {
  ti_heap : exists ls, heap_wf ls h /\
    forall id, id ∈ ls <-> exists t, tms !! id = Some t /\ tm_expired t = FK_TMEV_PENDING;
  ti_stat : forall id t, tms !! id = Some t -> tm_expired t = FK_TMEV_INIT \/ tm_expired t = FK_TMEV_PENDING \/
    tm_expired t = FK_TMEV_EXPIRED \/ tm_expired t = FK_TMEV_OLD;
  ti_exp : NoDup exp /\ forall id, id ∈ exp <-> exists t, tms !! id = Some t /\ tm_expired t = FK_TMEV_EXPIRED;
  ti_old : NoDup old /\ forall id, id ∈ old <-> exists t, tms !! id = Some t /\ tm_expired t = FK_TMEV_OLD;
  ti_cnt : cnt = count_if added tms
}.

(** The timers of a state, after one of them got another. *)
Lemma stat_set tms id t t' st i : tms !! id = Some t ->
  (exists y, <[id := t']> tms !! i = Some y /\ tm_expired y = st) <->
  if bool_decide (i = id) then tm_expired t' = st else exists y, tms !! i = Some y /\ tm_expired y = st.
Proof.
  intros Ht. case_bool_decide as Hb.
  - subst i. rewrite lookup_insert_eq. naive_solver.
  - by rewrite lookup_insert_ne.
Qed.

Lemma tm_inv_set h h' tms exp exp' old old' cnt id t t' :
  tm_inv h tms exp old cnt -> tms !! id = Some t ->
  (tm_expired t' = FK_TMEV_INIT \/ tm_expired t' = FK_TMEV_PENDING \/ tm_expired t' = FK_TMEV_EXPIRED \/ tm_expired t' = FK_TMEV_OLD) ->
  (exists ls, heap_wf ls h' /\ forall i, i ∈ ls <->
    if bool_decide (i = id) then tm_expired t' = FK_TMEV_PENDING else exists y, tms !! i = Some y /\ tm_expired y = FK_TMEV_PENDING) ->
  NoDup exp' -> (forall i, i ∈ exp' <-> if bool_decide (i = id) then tm_expired t' = FK_TMEV_EXPIRED else i ∈ exp) ->
  NoDup old' -> (forall i, i ∈ old' <-> if bool_decide (i = id) then tm_expired t' = FK_TMEV_OLD else i ∈ old) ->
  tm_inv h' (<[id := t']> tms) exp' old' (cnt - Z.b2z (added t) + Z.b2z (added t')).
Proof.
  intros [_ S [_ E] [_ O] C] Ht Hst (ls & W & L) Ne He No Ho. split.
  - exists ls. split; [done|]. intros i. by rewrite (stat_set tms id t t' _ i Ht), L.
  - intros i y [[<- <-]|[Hne Hy]]%lookup_insert_Some; [done|by eapply S].
  - split; [done|]. intros i. rewrite He, (stat_set tms id t t' _ i Ht). case_bool_decide; [done|apply E].
  - split; [done|]. intros i. rewrite Ho, (stat_set tms id t t' _ i Ht). case_bool_decide; [done|apply O].
  - rewrite (count_insert added tms id t t' Ht). lia.
Qed.

(** The timers of the heap can be compared. *)
Lemma tmev_cmp_total tms (ls : gset Z) : (forall id, id ∈ ls -> is_Some (tms !! id)) -> total_on (fk_tmev_cmp tms) ls.
Proof.
  intros H a b Ha Hb. unfold fk_tmev_cmp. destruct (H a Ha) as [t1 ->], (H b Hb) as [t2 ->]. by eexists.
Qed.

(** ** The state *)

Abbreviation mgr := (fk_evmgr X U).
Implicit Types (s : mgr).

Record ev_inv s : Prop := {
  ei_io : io_inv (ev_max_files s) (ev_read_ev s) (ev_write_ev s) (ev_iompx s) (ev_ioevs s) (ev_act_ioev s) (ev_ioev_cnt s);
  ei_tm : tm_inv (ev_timer_heap s) (ev_tmevs s) (ev_exp_tmev s) (ev_old_tmev s) (ev_tmev_cnt s)
}.

(** What the users of the manager see: it may move an event between its lists, but not
    change it, add it or remove it. *)
Record ev_view := View {
  v_user : U;
  v_max : Z;
  v_ios : gmap Z (Z * Z * Z * bool);
  v_tms : gmap Z (Z * Z * Z * bool)
}.

Definition io_view (e : fk_ioev) : Z * Z * Z * bool := (io_fd e, io_type e, io_cb e, active e).
Definition tm_view (t : fk_tmev) : Z * Z * Z * bool := (tm_type t, tm_interval t, tm_cb t, added t).
Definition view s : ev_view := View (ev_user s) (ev_max_files s) (io_view <$> ev_ioevs s) (tm_view <$> ev_tmevs s).

Lemma view_set_ioev s id e e' : ev_ioevs s !! id = Some e -> io_view e' = io_view e -> view (set_ioev s id e') = view s.
Proof.
  intros He E. unfold view. ev_cbn. rewrite fmap_insert, E, insert_id; [done|]. by rewrite lookup_fmap, He.
Qed.

Lemma view_set_tmev s id t t' : ev_tmevs s !! id = Some t -> tm_view t' = tm_view t -> view (set_tmev s id t') = view s.
Proof.
  intros He E. unfold view. ev_cbn. rewrite fmap_insert, E, insert_id; [done|]. by rewrite lookup_fmap, He.
Qed.

(** A cell that was written; none is unwritten again. *)
Definition written s (t fd : Z) : Prop := is_Some (slot (ev_read_ev s) (ev_write_ev s) t fd).
Definition keeps_cells s s' : Prop :=
  ev_max_files s' = ev_max_files s /\ forall t fd, written s t fd -> written s' t fd.

Lemma keeps_same s s' : ev_max_files s' = ev_max_files s ->
  ev_read_ev s' = ev_read_ev s -> ev_write_ev s' = ev_write_ev s -> keeps_cells s s'.
Proof. intros E0 E1 E2. split; [done|]. intros t fd. unfold written. by rewrite E1, E2. Qed.

Lemma keeps_refl s : keeps_cells s s.
Proof. by split. Qed.

Lemma keeps_trans s1 s2 s3 : keeps_cells s1 s2 -> keeps_cells s2 s3 -> keeps_cells s1 s3.
Proof. intros [E1 H1] [E2 H2]. split; [congruence|auto]. Qed.

(** What a call does to the lists the dispatch goes through and to the arrays: it only
    takes from the lists, and only writes to the arrays. *)
Definition shrinks s s' : Prop :=
  (length (ev_act_ioev s') <= length (ev_act_ioev s))%nat /\ (length (ev_exp_tmev s') <= length (ev_exp_tmev s))%nat /\
  keeps_cells s s'.

Lemma shrinks_refl s s' : ev_act_ioev s' = ev_act_ioev s -> ev_exp_tmev s' = ev_exp_tmev s -> keeps_cells s s' -> shrinks s s'.
Proof. intros E1 E2 K. unfold shrinks. by rewrite E1, E2. Qed.

Lemma shrinks_same s s' : ev_act_ioev s' = ev_act_ioev s -> ev_exp_tmev s' = ev_exp_tmev s ->
  ev_max_files s' = ev_max_files s -> ev_read_ev s' = ev_read_ev s -> ev_write_ev s' = ev_write_ev s -> shrinks s s'.
Proof. intros. apply shrinks_refl; [done|done|by apply keeps_same]. Qed.

Lemma shrinks_trans s1 s2 s3 : shrinks s1 s2 -> shrinks s2 s3 -> shrinks s1 s3.
Proof. intros (? & ? & ?) (? & ? & ?). split; [lia|]. split; [lia|by eapply keeps_trans]. Qed.

(** ** The calls on I/O events *)

Lemma ioev_stat_ok s id st e : ev_ioevs s !! id = Some e ->
  ioev_stat id st s = Some (tt, set_ioev s id (fk_ioev_set_stat e st)).
Proof. intros He. unfold ioev_stat, get_ioev. st_run. by rewrite He. Qed.

Lemma tmev_stat_ok s id st t : ev_tmevs s !! id = Some t ->
  tmev_stat id st s = Some (tt, set_tmev s id (fk_tmev_set_stat t st)).
Proof. intros He. unfold tmev_stat, get_tmev. st_run. by rewrite He. Qed.

Lemma set_ev_slots_ok s fd t v : single t -> 0 <= fd < zlen (ev_read_ev s) -> zlen (ev_write_ev s) = zlen (ev_read_ev s) ->
  set_ev_slots fd t v s = Some (tt, set_slots s (slots_upd (ev_read_ev s) (ev_write_ev s) t fd v).1
    (slots_upd (ev_read_ev s) (ev_write_ev s) t fd v).2).
Proof.
  intros Ht Hfd Hw. unfold set_ev_slots, slots_upd, slot_set. rewrite Hw.
  assert ((0 <=? fd) && (fd <? zlen (ev_read_ev s)) = true) as -> by (apply andb_true_intro; lia).
  by destruct Ht as [->| ->].
Qed.

Lemma slots_upd_keeps n rd wr x ios act cnt t fd v : io_inv n rd wr x ios act cnt -> 0 <= fd < n ->
  forall t' fd', is_Some (slot rd wr t' fd') -> is_Some (slot (slots_upd rd wr t fd v).1 (slots_upd rd wr t fd v).2 t' fd').
Proof.
  intros [] Hfd t' fd' [y Hy]. unfold slot, slots_upd in *.
  destruct (Z.eqb_spec t FK_IOEV_READ), (Z.eqb_spec t' FK_IOEV_READ); cbn [fst snd]; try by eexists.
  - destruct (decide (fd' = fd)) as [->|]; [rewrite znth_zupd_eq by lia; by eexists|].
    rewrite znth_zupd_ne by lia. by eexists.
  - destruct (decide (fd' = fd)) as [->|]; [rewrite znth_zupd_eq by lia; by eexists|].
    rewrite znth_zupd_ne by lia. by eexists.
Qed.

(** An event may be added again, or when another one is added for its descriptor and type,
    only over a backend that refuses that. *)
Definition may_add s (e : fk_ioev) : Prop :=
  refuses (ev_iompx s) = true \/ io_activated e <> FK_IOEV_INIT \/
  occupied (ev_read_ev s) (ev_write_ev s) (io_type e) (io_fd e) = false.

Lemma add_ioev_ok s id e : ev_inv s -> ev_ioevs s !! id = Some e -> may_add s e ->
  exists rt s', fk_ev_add_ioev id s = Some (rt, s') /\ ev_inv s' /\ shrinks s s'.
Proof.
  intros [I T] He Hmay. pose proof (ii_ev _ _ _ _ _ _ _ I id e He) as (Hfd & Hty & Hst & _).
  unfold fk_ev_add_ioev, get_ioev. st_run. rewrite He.
  destruct (Z.eqb_spec (io_activated e) FK_IOEV_INIT) as [Ei|Ei]; cbn [negb]; [|eexists _, _; split; [done|]; split; [by split|by apply shrinks_same]].
  st_run.
  assert (refuses (ev_iompx s) = true \/ Z.land (watch (ev_iompx s) (io_fd e)) (io_type e) = 0) as Hfree.
  { destruct Hmay as [H|[H|H]]; [by left|done|right]. by apply (ii_watch _ _ _ _ _ _ _ I). }
  destruct (add_law _ _ _ _ (ii_mpx _ _ _ _ _ _ _ I) Hfd Hty Hfree) as (rt & x & -> & Hx & [(-> & Hz & Hw)|[-> Hw]]); st_run.
  2: { eexists _, _. split; [done|]. split; [|by apply shrinks_same]. split; [by eapply io_inv_mpx|done]. }
  change (FK_EV_OK =? FK_EV_ERR) with false. cbv beta iota.
  rewrite (set_ev_slots_ok (set_iompx s x) (io_fd e) (io_type e) (Some id)) by
    (done || (ev_cbn; rewrite ?(ii_rd _ _ _ _ _ _ _ I), ?(ii_wr _ _ _ _ _ _ _ I); done)).
  cbv beta iota. rewrite (ioev_stat_ok _ id _ e) by done. cbv beta iota.
  eexists _, _. split; [reflexivity|].
  split; [|apply shrinks_refl; [done|done|split; [done|]; by intros t fd; eapply slots_upd_keeps]]. split; [|exact T].
  assert (occupied (ev_read_ev s) (ev_write_ev s) (io_type e) (io_fd e) = false) as Hs by by apply (ii_watch _ _ _ _ _ _ _ I).
  set (e' := fk_ioev_set_stat e FK_IOEV_PENDING).
  ev_cbn. replace (ev_ioev_cnt s + 1) with (ev_ioev_cnt s - Z.b2z (active e) + Z.b2z (active e'))
    by (unfold active; rewrite Ei; cbn; lia).
  pose proof (slots_upd_len (ev_read_ev s) (ev_write_ev s) (io_type e) (io_fd e) (Some id)) as [L1 L2].
  eapply (io_inv_set _ _ _ _ _ _ _ _ _ (ev_act_ioev s) _ id e e' I He); try done.
  - by right; left.
  - cbn. rewrite L1. apply I.
  - cbn. rewrite L2. apply I.
  - intros t fd Ht. cbn. rewrite slot_upd by (done || (rewrite (ii_rd _ _ _ _ _ _ _ I), ?(ii_wr _ _ _ _ _ _ _ I); done)). done.
  - intros t fd Ht Hf. cbn. rewrite Hw. destruct (decide (fd = io_fd e)) as [->|Hne].
    + rewrite bool_decide_eq_true_2 by done. rewrite land_lor_single by done.
      case_bool_decide as Hb; [destruct Hb as [-> _]; naive_solver|]. naive_solver.
    + rewrite bool_decide_eq_false_2 by done. by rewrite bool_decide_eq_false_2 by naive_solver.
  - by left.
  - apply I.
  - intros i. cbn. case_bool_decide as Hb; [|done]. subst i. rewrite (ii_act _ _ _ _ _ _ _ I id).
    split; [|done]. intros (y & Hy & Ey). simplify_eq. rewrite Ei in Ey. done.
Qed.

(** The activated list without an event that may be in it. *)
Lemma act_without s id e : ev_inv s -> ev_ioevs s !! id = Some e ->
  exists act', (forall s1, ev_act_ioev s1 = ev_act_ioev s ->
      (if io_activated e =? FK_IOEV_ACTIVATED then drop_act id else mret tt) s1 = Some (tt, set_act s1 act')) /\
    NoDup act' /\ (forall i, i ∈ act' <-> i <> id /\ i ∈ ev_act_ioev s) /\
    (length act' <= length (ev_act_ioev s))%nat.
Proof.
  intros [I _] He. destruct (Z.eqb_spec (io_activated e) FK_IOEV_ACTIVATED) as [Ea|Ea].
  - destruct (list_drop_ok id (ev_act_ioev s)) as (l & E & N & Hl & Len); [apply I|apply (ii_act _ _ _ _ _ _ _ I); by exists e|].
    exists l. split_and!; try done; [|lia]. intros s1 E1. unfold drop_act. st_run. by rewrite E1, E.
  - exists (ev_act_ioev s). split_and!; try done; [|apply I|].
    { intros s1 <-. by destruct s1. }
    intros i. split; [|by intros [_ ?]]. intros Hi. split; [|done].
    intros ->. apply (ii_act _ _ _ _ _ _ _ I) in Hi as (y & Hy & Ey). by simplify_eq.
Qed.

Lemma remove_ioev_ok s id e : ev_inv s -> ev_ioevs s !! id = Some e ->
  exists rt s', fk_ev_remove_ioev id s = Some (rt, s') /\ ev_inv s' /\ shrinks s s'.
Proof.
  intros [I T] He. pose proof (ii_ev _ _ _ _ _ _ _ I id e He) as (Hfd & Hty & Hst & Hsl).
  unfold fk_ev_remove_ioev, get_ioev. st_run. rewrite He.
  destruct (Z.eqb_spec (io_activated e) FK_IOEV_INIT) as [Ei|Ei]; [eexists _, _; split; [done|]; split; [by split|by apply shrinks_same]|].
  specialize (Hsl Ei). st_run.
  destruct (remove_law _ _ _ _ (ii_mpx _ _ _ _ _ _ _ I) Hfd Hty) as (rt & x & -> & Hx & [(-> & Hz & Hw)|[-> Hw]]); st_run.
  2: { eexists _, _. split; [done|]. split; [|by apply shrinks_same]. split; [by eapply io_inv_mpx|done]. }
  change (FK_EV_OK =? FK_EV_ERR) with false. cbv beta iota.
  destruct (act_without s id e (Build_ev_inv s I T) He) as (act' & Ea & Nd & Hact & Len).
  rewrite Ea by done.
  cbv beta iota. rewrite (ioev_stat_ok _ id _ e) by done. cbv beta iota.
  set (e' := fk_ioev_set_stat e FK_IOEV_INIT). set (s2 := set_ioev _ id e').
  rewrite (set_ev_slots_ok s2 (io_fd e) (io_type e) None) by
    (done || (unfold s2; ev_cbn; rewrite ?(ii_rd _ _ _ _ _ _ _ I), ?(ii_wr _ _ _ _ _ _ _ I); done)).
  st_run.
  eexists _, _. split; [reflexivity|]. split; [|split; [exact Len|split; [done|split; [done|]; by intros t fd; eapply slots_upd_keeps]]].
  split; [|exact T]. unfold s2.
  ev_cbn. replace (ev_ioev_cnt s - 1) with (ev_ioev_cnt s - Z.b2z (active e) + Z.b2z (active e'))
    by (unfold active; rewrite (proj2 (Z.eqb_neq _ _) Ei); cbn; lia).
  pose proof (slots_upd_len (ev_read_ev s) (ev_write_ev s) (io_type e) (io_fd e) None) as [L1 L2].
  eapply (io_inv_set _ _ _ _ _ _ _ _ _ act' _ id e e' I He); try done.
  - by left.
  - cbn. rewrite L1. apply I.
  - cbn. rewrite L2. apply I.
  - intros t fd Ht. cbn. rewrite slot_upd by (done || (rewrite (ii_rd _ _ _ _ _ _ _ I), ?(ii_wr _ _ _ _ _ _ _ I); done)). done.
  - intros t fd Ht Hf. cbn. rewrite Hw. destruct (decide (fd = io_fd e)) as [->|Hne].
    + rewrite bool_decide_eq_true_2 by done. rewrite land_lnot_single by done.
      case_bool_decide as Hb; [destruct Hb as [-> _]; naive_solver|]. naive_solver.
    + rewrite bool_decide_eq_false_2 by done. by rewrite bool_decide_eq_false_2 by naive_solver.
  - by right.
  - intros i. cbn. rewrite Hact. case_bool_decide; naive_solver.
Qed.

(** An event in a cell is put on the list once. *)
Lemma activate_ok s t fd : ev_inv s -> written s t fd -> single t ->
  exists s', activate (if t =? FK_IOEV_READ then ev_read_ev s else ev_write_ev s) fd s = Some (tt, s') /\ ev_inv s' /\
    view s' = view s /\ ev_read_ev s' = ev_read_ev s /\ ev_write_ev s' = ev_write_ev s.
Proof.
  intros [I T] [v Hv] Ht. unfold activate.
  st_run. unfold slot in Hv. rewrite Hv.
  destruct v as [id|]; [|eexists; split; [done|]; by split].
  destruct (ii_slot _ _ _ _ _ _ _ I t fd id Ht Hv) as (e & He & Efd & Ety & Hne).
  unfold get_ioev. st_run. rewrite He.
  destruct (Z.eqb_spec (io_activated e) FK_IOEV_PENDING) as [Ep|Ep].
  2: { eexists. split; [done|]. by split. }
  cbv beta iota. rewrite (ioev_stat_ok _ id _ e) by done. cbv beta iota.
  eexists. split; [reflexivity|]. split; [|split; [|done]; apply (view_set_ioev (set_act s (id :: ev_act_ioev s)) id e); [done|by unfold io_view, active; rewrite Ep]].
  split; [|exact T].
  set (e' := fk_ioev_set_stat e FK_IOEV_ACTIVATED).
  ev_cbn. replace (ev_ioev_cnt s) with (ev_ioev_cnt s - Z.b2z (active e) + Z.b2z (active e'))
    by (unfold active; rewrite Ep; cbn; lia).
  eapply (io_inv_set _ _ _ _ _ _ _ _ _ (id :: ev_act_ioev s) _ id e e' I He); try done; try apply I.
  - by right; right.
  - intros t' fd' _. case_bool_decide as Hb; [|done]. destruct Hb as [-> ->]. by rewrite Ety, Efd.
  - intros t' fd' Ht' Hfd'. case_bool_decide as Hb; [|done]. destruct Hb as [-> ->].
    destruct (ii_ev _ _ _ _ _ _ _ I id e He) as (Hfd & _).
    rewrite (ii_watch _ _ _ _ _ _ _ I) by done. rewrite Ety, Efd. unfold occupied, slot. rewrite Hv. done.
  - right. by rewrite Ety, Efd.
  - constructor; [|apply I]. intros Hi. apply (ii_act _ _ _ _ _ _ _ I) in Hi as (y & Hy & Ey). simplify_eq. by rewrite Ep in Ey.
  - intros i. rewrite elem_of_cons. case_bool_decide; naive_solver.
Qed.

Lemma create_ioev_ok s id fd type cb : ev_inv s -> ev_ioevs s !! id = None -> 0 <= fd < ev_max_files s -> single type ->
  ev_inv (set_ioev s id (Ioev fd type FK_IOEV_INIT cb)).
Proof.
  intros [[] T] Hid Hfd Ht. split; [|exact T]. ev_cbn. split; try done.
  - intros i e [[<- <-]|[Hne He]]%lookup_insert_Some; [|by apply ii_ev0]. cbn. split; [done|]. split; [done|]. split; [by left|by intros []].
  - intros t' fd' i Ht' Hsl. destruct (ii_slot0 t' fd' i Ht' Hsl) as (e & He & R). exists e.
    rewrite lookup_insert_ne; [done|]. intros ->. congruence.
  - intros i. rewrite ii_act0. split; intros (e & He & Ee); exists e.
    + rewrite lookup_insert_ne; [done|]. intros ->. congruence.
    + apply lookup_insert_Some in He as [[<- <-]|[Hne He]]; [done|done].
  - rewrite count_insert_new by done. cbn. lia.
Qed.

Lemma destroy_ioev_ok s id e : ev_inv s -> ev_ioevs s !! id = Some e -> io_activated e = FK_IOEV_INIT ->
  ev_inv (set_events s (delete id (ev_ioevs s)) (ev_tmevs s)).
Proof.
  intros [[] T] He Hst. split; [|exact T]. ev_cbn. split; try done.
  - intros i y [Hne Hy]%lookup_delete_Some. by apply ii_ev0.
  - intros t' fd' i Ht' Hsl. destruct (ii_slot0 t' fd' i Ht' Hsl) as (y & Hy & E1 & E2 & Hn). exists y.
    rewrite lookup_delete_ne; [done|]. intros ->. congruence.
  - intros i. rewrite ii_act0. split; intros (y & Hy & Ey); exists y.
    + rewrite lookup_delete_ne; [done|]. intros ->. rewrite He in Hy. injection Hy as <-. by rewrite Hst in Ey.
    + by apply lookup_delete_Some in Hy as [_ ?].
  - rewrite (count_delete active _ id e He). assert (active e = false) as -> by (unfold active; by rewrite Hst). cbn. lia.
Qed.

(** ** The calls on timers *)

Lemma create_tmev_ok s id iv type cb now : ev_inv s -> ev_tmevs s !! id = None ->
  exists s', fk_tmev_create id iv type cb now s = Some (tt, s') /\ ev_inv s' /\ shrinks s s'.
Proof.
  intros [I [(ls & W & L) S [Ne E] [No O] C]] Hid.
  assert (id ∉ ls) as Hls by (intros (t & Ht & _)%L; congruence).
  eexists. split; [reflexivity|]. split; [|by apply shrinks_same]. split; [exact I|]. ev_cbn.
  assert (forall st i, st <> FK_TMEV_INIT -> (exists t, <[id := Tmev type FK_TMEV_INIT iv (fk_util_cal_expire now iv) cb]> (ev_tmevs s) !! i = Some t /\ tm_expired t = st) <->
    exists t, ev_tmevs s !! i = Some t /\ tm_expired t = st) as Hx.
  { intros st i Hst. destruct (decide (i = id)) as [->|Hn]; [rewrite lookup_insert_eq, Hid|by rewrite lookup_insert_ne].
    split; [|by intros (? & ? & _)]. intros (t & [= <-] & Et). cbn in Et. by destruct Hst. }
  split.
  - exists ls. split; [|intros i; by rewrite (Hx FK_TMEV_PENDING i ltac:(done)), L].
    split; try apply W.
    + intros i Hi. destruct (hw_at _ _ W i Hi) as (a & Ha & Hai). exists a. split; [done|].
      rewrite leaf_idx_set. case_decide as Hd; [|done]. subst a.
      exfalso. apply Hls. by destruct (wf_at_in _ _ _ _ W Hi Ha).
    + intros a. rewrite leaf_idx_set. case_decide as Hd; [|apply W]. subst a. split; [done|by intros []].
    + intros a Ha. rewrite leaf_idx_set. case_decide as Hd; [by subst|by apply (hw_in _ _ W)].
  - intros i t [[<- <-]|[Hne Ht]]%lookup_insert_Some; [by left|by eapply S].
  - split; [done|]. intros i. by rewrite (Hx FK_TMEV_EXPIRED i ltac:(done)), E.
  - split; [done|]. intros i. by rewrite (Hx FK_TMEV_OLD i ltac:(done)), O.
  - rewrite count_insert_new by done. cbn. lia.
Qed.

Lemma destroy_tmev_ok s id t : ev_inv s -> ev_tmevs s !! id = Some t -> tm_expired t = FK_TMEV_INIT ->
  ev_inv (set_events s (ev_ioevs s) (delete id (ev_tmevs s))).
Proof.
  intros [I [(ls & W & L) S [Ne E] [No O] C]] Ht Hst. split; [exact I|]. ev_cbn.
  assert (forall st i, st <> FK_TMEV_INIT -> (exists y, delete id (ev_tmevs s) !! i = Some y /\ tm_expired y = st) <->
    exists y, ev_tmevs s !! i = Some y /\ tm_expired y = st) as Hx.
  { intros st i Hn. destruct (decide (i = id)) as [->|Hne]; [rewrite lookup_delete_eq|by rewrite lookup_delete_ne].
    split; [by intros (? & ? & _)|]. intros (y & Hy & Ey). rewrite Ht in Hy. injection Hy as <-. congruence. }
  split.
  - exists ls. split; [done|]. intros i. by rewrite (Hx FK_TMEV_PENDING i ltac:(done)), L.
  - intros i y [_ Hy]%lookup_delete_Some. by eapply S.
  - split; [done|]. intros i. by rewrite (Hx FK_TMEV_EXPIRED i ltac:(done)), E.
  - split; [done|]. intros i. by rewrite (Hx FK_TMEV_OLD i ltac:(done)), O.
  - rewrite (count_delete added _ id t Ht). assert (added t = false) as -> by (unfold added; by rewrite Hst). cbn. lia.
Qed.

(** The heap and the timers that are compared in it. *)
Lemma push_timer tms h ls id : heap_wf ls h -> (forall i, i ∈ ls -> is_Some (tms !! i)) -> id ∉ ls -> is_Some (tms !! id) ->
  exists h', fk_heap_push (fk_tmev_cmp tms) h id = Some h' /\ heap_wf ({[id]} ∪ ls) h'.
Proof.
  intros W Hl Hn Hi. destruct (heap_push_wf (fk_tmev_cmp tms) ls h id W Hn) as (h' & E & W' & _); [|by exists h'].
  apply tmev_cmp_total. intros i [->%elem_of_singleton|Hx]%elem_of_union; [done|by apply Hl].
Qed.

Lemma add_tmev_ok s id t : ev_inv s -> ev_tmevs s !! id = Some t ->
  exists rt s', fk_ev_add_tmev id s = Some (rt, s') /\ ev_inv s' /\ shrinks s s'.
Proof.
  intros [I T] Ht. unfold fk_ev_add_tmev, get_tmev. st_run. rewrite Ht.
  destruct (Z.eqb_spec (tm_expired t) FK_TMEV_INIT) as [Ei|Ei]; cbn [negb].
  2: { eexists _, _. split; [done|]. split; [by split|by apply shrinks_same]. }
  pose proof T as [(ls & W & L) S [Ne E] [No O] C]. unfold on_heap.
  assert (forall i, i ∈ ls -> is_Some (ev_tmevs s !! i)) as Hls by (intros i (y & Hy & _)%L; by eexists).
  assert (id ∉ ls) as Hn by (intros (y & Hy & Ey)%L; simplify_eq; by rewrite Ei in Ey).
  destruct (push_timer (ev_tmevs s) (ev_timer_heap s) ls id W Hls Hn) as (h' & -> & W'); [by eexists|].
  cbv beta iota. rewrite (tmev_stat_ok _ id _ t) by done. cbv beta iota.
  eexists _, _. split; [reflexivity|]. split; [|by apply shrinks_same]. split; [exact I|]. ev_cbn.
  set (t' := fk_tmev_set_stat t FK_TMEV_PENDING).
  replace (ev_tmev_cnt s + 1) with (ev_tmev_cnt s - Z.b2z (added t) + Z.b2z (added t'))
    by (unfold added; rewrite Ei; cbn; lia).
  eapply (tm_inv_set _ h' _ _ _ _ _ _ id t t' T Ht); try done.
  - by right; left.
  - exists ({[id]} ∪ ls). split; [done|]. intros i. rewrite elem_of_union, elem_of_singleton, L. case_bool_decide; naive_solver.
  - intros i. case_bool_decide as Hb; [|done]. subst i. rewrite E. split; [|done]. intros (y & Hy & Ey). simplify_eq. by rewrite Ei in Ey.
  - intros i. case_bool_decide as Hb; [|done]. subst i. rewrite O. split; [|done]. intros (y & Hy & Ey). simplify_eq. by rewrite Ei in Ey.
Qed.

(** Taking a timer from the place its state says. *)
Lemma drop_exp_ok s id t : ev_inv s -> ev_tmevs s !! id = Some t ->
  exists exp', (forall s1, ev_exp_tmev s1 = ev_exp_tmev s ->
      (if tm_expired t =? FK_TMEV_EXPIRED then drop_exp id else mret tt) s1 = Some (tt, set_exp s1 exp')) /\
    NoDup exp' /\ (forall i, i ∈ exp' <-> i <> id /\ i ∈ ev_exp_tmev s) /\
    (length exp' <= length (ev_exp_tmev s))%nat.
Proof.
  intros [_ [_ _ [Ne E] _ _]] Ht. destruct (Z.eqb_spec (tm_expired t) FK_TMEV_EXPIRED) as [Ea|Ea].
  - destruct (list_drop_ok id (ev_exp_tmev s)) as (l & El & N & Hl & Len); [done|apply E; by exists t|].
    exists l. split_and!; try done; [|lia]. intros s1 E1. unfold drop_exp. st_run. by rewrite E1, El.
  - exists (ev_exp_tmev s). split_and!; try done; [intros s1 <-; by destruct s1|].
    intros i. split; [|by intros [_ ?]]. intros Hi. split; [|done].
    intros ->. apply E in Hi as (y & Hy & Ey). by simplify_eq.
Qed.

Lemma drop_old_ok s id t : ev_inv s -> ev_tmevs s !! id = Some t ->
  exists old', (forall s1, ev_old_tmev s1 = ev_old_tmev s ->
      (if tm_expired t =? FK_TMEV_OLD then drop_old id else mret tt) s1 = Some (tt, set_old s1 old')) /\
    NoDup old' /\ (forall i, i ∈ old' <-> i <> id /\ i ∈ ev_old_tmev s).
Proof.
  intros [_ [_ _ _ [No O] _]] Ht. destruct (Z.eqb_spec (tm_expired t) FK_TMEV_OLD) as [Ea|Ea].
  - destruct (list_drop_ok id (ev_old_tmev s)) as (l & El & N & Hl & Len); [done|apply O; by exists t|].
    exists l. split_and!; try done. intros s1 E1. unfold drop_old. st_run. by rewrite E1, El.
  - exists (ev_old_tmev s). split_and!; try done; [intros s1 <-; by destruct s1|].
    intros i. split; [|by intros [_ ?]]. intros Hi. split; [|done].
    intros ->. apply O in Hi as (y & Hy & Ey). by simplify_eq.
Qed.

Lemma drop_heap_ok s id t : ev_inv s -> ev_tmevs s !! id = Some t ->
  exists h', (if tm_expired t =? FK_TMEV_PENDING then on_heap (fun cmp h => fk_heap_remove cmp h id) else mret tt) s
      = Some (tt, set_heap s h') /\
    exists ls, heap_wf ls h' /\ forall i, i ∈ ls <-> i <> id /\ exists y, ev_tmevs s !! i = Some y /\ tm_expired y = FK_TMEV_PENDING.
Proof.
  intros [_ [(ls & W & L) _ _ _ _]] Ht. destruct (Z.eqb_spec (tm_expired t) FK_TMEV_PENDING) as [Ea|Ea].
  - unfold on_heap.
    destruct (heap_remove_wf (fk_tmev_cmp (ev_tmevs s)) ls (ev_timer_heap s) id W) as (h' & -> & W' & _).
    + apply tmev_cmp_total. intros i (y & Hy & _)%L. by eexists.
    + apply L. by exists t.
    + exists h'. split; [done|]. exists (ls ∖ {[id]}). split; [done|]. intros i.
      rewrite elem_of_difference, elem_of_singleton, L. tauto.
  - exists (ev_timer_heap s). split; [by destruct s|]. exists ls. split; [done|]. intros i. rewrite L. split; [|by intros [_ ?]].
    intros Hi. split; [|done]. intros ->. destruct Hi as (y & Hy & Ey). by simplify_eq.
Qed.

Lemma remove_tmev_ok s id t : ev_inv s -> ev_tmevs s !! id = Some t ->
  exists rt s', fk_ev_remove_tmev id s = Some (rt, s') /\ ev_inv s' /\ shrinks s s'.
Proof.
  intros Hs Ht. pose proof Hs as [I T]. unfold fk_ev_remove_tmev, get_tmev. st_run. rewrite Ht.
  destruct (Z.eqb_spec (tm_expired t) FK_TMEV_INIT) as [Ei|Ei].
  { eexists _, _. split; [done|]. split; [done|by apply shrinks_same]. }
  destruct (drop_heap_ok s id t Hs Ht) as (h' & Eh & Hh).
  destruct (drop_exp_ok s id t Hs Ht) as (exp' & Ee & Ne & He & Len).
  destruct (drop_old_ok s id t Hs Ht) as (old' & Eo & No & Ho).
  unfold mret, ST_ret in Eh, Ee, Eo. rewrite Eh. rewrite Ee by done. rewrite Eo by done.
  cbv beta iota. rewrite (tmev_stat_ok _ id _ t) by done. cbv beta iota.
  eexists _, _. split; [reflexivity|]. split; [|split; [done|by split; [exact Len|apply keeps_same]]]. split; [exact I|]. ev_cbn.
  set (t' := fk_tmev_set_stat t FK_TMEV_INIT).
  replace (ev_tmev_cnt s - 1) with (ev_tmev_cnt s - Z.b2z (added t) + Z.b2z (added t'))
    by (unfold added; rewrite (proj2 (Z.eqb_neq _ _) Ei); cbn; lia).
  eapply (tm_inv_set _ h' _ _ _ _ _ _ id t t' T Ht); try done.
  - by left.
  - destruct Hh as (ls & W & L). exists ls. split; [done|]. intros i. rewrite L. case_bool_decide; naive_solver.
  - intros i. rewrite He. case_bool_decide; naive_solver.
  - intros i. rewrite Ho. case_bool_decide; naive_solver.
Qed.
End inv.
#[export] Hint Resolve keeps_refl : core.
Arguments ev_view : clear implicits.
Arguments View {U} _ _ _ _.

(** ** The interface as a transition system *)

Inductive ev_call (U : Type) :=
  | CallNewIo (id fd type cb : Z) | CallAddIo (id : Z) | CallRemoveIo (id : Z) | CallFreeIo (id : Z)
  | CallNewTm (id interval type cb : Z) (now : timeval) | CallAddTm (id : Z) | CallRemoveTm (id : Z) | CallFreeTm (id : Z)
  | CallStop | CallUser (u : U).
Arguments CallNewIo {U} _ _ _ _.
Arguments CallAddIo {U} _.
Arguments CallRemoveIo {U} _.
Arguments CallFreeIo {U} _.
Arguments CallNewTm {U} _ _ _ _ _.
Arguments CallAddTm {U} _.
Arguments CallRemoveTm {U} _.
Arguments CallFreeTm {U} _.
Arguments CallStop {U}.
Arguments CallUser {U} _.

Section steps.
Context {X A U : Type} `{!Mpx X A, !MpxLaws X A}.
Abbreviation mgr := (fk_evmgr X U).
Implicit Types (s : mgr) (c : ev_call U).

Definition void (m : ST mgr unit) : ST mgr Z := _ ← m; mret 0.

Definition run_call c : ST mgr Z :=
  match c with
  | CallNewIo id fd type cb => void (fk_ioev_create id fd type cb)
  | CallAddIo id => fk_ev_add_ioev id
  | CallRemoveIo id => fk_ev_remove_ioev id
  | CallFreeIo id => void (fk_ioev_destroy id)
  | CallNewTm id iv type cb now => void (fk_tmev_create id iv type cb now)
  | CallAddTm id => fk_ev_add_tmev id
  | CallRemoveTm id => fk_ev_remove_tmev id
  | CallFreeTm id => void (fk_tmev_destroy id)
  | CallStop => void fk_ev_stop
  | CallUser u => void (st_mod (fun s => set_user s u))
  end.

(** What a caller has to see to: an event is at an address of its own, it is not
    used after it was freed, and it is freed only when it is not added; see [may_add]. *)
Definition legal c s : Prop :=
  match c with
  | CallNewIo id fd type _ => ev_ioevs s !! id = None /\ 0 <= fd < ev_max_files s /\ single type
  | CallAddIo id => exists e, ev_ioevs s !! id = Some e /\ may_add s e
  | CallRemoveIo id => is_Some (ev_ioevs s !! id)
  | CallFreeIo id => exists e, ev_ioevs s !! id = Some e /\ io_activated e = FK_IOEV_INIT
  | CallNewTm id _ _ _ _ => ev_tmevs s !! id = None
  | CallAddTm id | CallRemoveTm id => is_Some (ev_tmevs s !! id)
  | CallFreeTm id => exists t, ev_tmevs s !! id = Some t /\ tm_expired t = FK_TMEV_INIT
  | CallStop | CallUser _ => True
  end.

Definition call_step s s' : Prop := exists c rt, legal c s /\ run_call c s = Some (rt, s').

(** What a callback may do. *)
Definition calls : mgr -> mgr -> Prop := rtc call_step.

(** Running calls that are checked to be legal. *)
Definition legalb c s : bool :=
  match c with
  | CallNewIo id fd type _ =>
      bool_decide (ev_ioevs s !! id = None) && (0 <=? fd) && (fd <? ev_max_files s) &&
      ((type =? FK_IOEV_READ) || (type =? FK_IOEV_WRITE))
  | CallAddIo id =>
      match ev_ioevs s !! id with
      | Some e => refuses (ev_iompx s) || negb (io_activated e =? FK_IOEV_INIT) ||
          negb (occupied (ev_read_ev s) (ev_write_ev s) (io_type e) (io_fd e))
      | None => false
      end
  | CallRemoveIo id => match ev_ioevs s !! id with Some _ => true | None => false end
  | CallFreeIo id => match ev_ioevs s !! id with Some e => io_activated e =? FK_IOEV_INIT | None => false end
  | CallNewTm id _ _ _ _ => match ev_tmevs s !! id with Some _ => false | None => true end
  | CallAddTm id | CallRemoveTm id => match ev_tmevs s !! id with Some _ => true | None => false end
  | CallFreeTm id => match ev_tmevs s !! id with Some t => tm_expired t =? FK_TMEV_INIT | None => false end
  | CallStop | CallUser _ => true
  end.

Lemma legalb_ok c s : legalb c s = true -> legal c s.
Proof.
  destruct c as [id fd type cb|id|id|id|id iv type cb now|id|id|id| |u]; cbn [legalb legal]; intros H; try done; try (by case_match);
    try (case_match; [|done]; eexists; split; [done|lia]).
  2: { destruct (ev_ioevs s !! id) as [e|]; [|done]. exists e. split; [done|].
    apply orb_true_iff in H as [[H|H]%orb_true_iff|H%negb_true_iff]; [by left|right; left; lia|by right; right]. }
  apply andb_true_iff in H as [[[H1%bool_decide_eq_true H2]%andb_true_iff H3]%andb_true_iff H4].
  split; [done|]. split; [lia|]. apply orb_true_iff in H4 as [H4|H4]; [left|right]; lia.
Qed.

Fixpoint checked_calls (l : list (ev_call U)) s : option mgr :=
  match l with
  | [] => Some s
  | c :: l' => if legalb c s then match run_call c s with Some (_, s') => checked_calls l' s' | None => None end else None
  end.

Lemma checked_calls_ok l : forall s s', checked_calls l s = Some s' -> calls s s'.
Proof.
  induction l as [|c l IH]; cbn; intros s s' H; [injection H as <-; apply rtc_refl|].
  destruct (legalb c s) eqn:El; [|done]. destruct (run_call c s) as [[rt s1]|] eqn:E; [|done].
  eapply rtc_l; [|by apply IH]. exists c, rt. by split; [apply legalb_ok|].
Qed.

Lemma call_ok c s : ev_inv s -> legal c s ->
  exists rt s', run_call c s = Some (rt, s') /\ ev_inv s' /\ shrinks s s'.
Proof.
  intros Hs. destruct c as [id fd type cb|id|id|id|id iv type cb now|id|id|id| |u]; cbn [legal run_call]; intros Hl.
  - destruct Hl as (Hid & Hfd & Ht). eexists _, _. split; [reflexivity|].
    split; [by apply create_ioev_ok|by apply shrinks_same].
  - destruct Hl as (e & He & Hm). by eapply add_ioev_ok.
  - destruct Hl as [e He]. by eapply remove_ioev_ok.
  - destruct Hl as (e & He & Hst). eexists _, _. split; [reflexivity|].
    split; [by eapply destroy_ioev_ok|by apply shrinks_same].
  - destruct (create_tmev_ok s id iv type cb now Hs Hl) as (s' & E & R). exists 0, s'. split; [|done].
    unfold void. st_run. by rewrite E.
  - destruct Hl as [t Ht]. by eapply add_tmev_ok.
  - destruct Hl as [t Ht]. by eapply remove_tmev_ok.
  - destruct Hl as (t & Ht & Hst). eexists _, _. split; [reflexivity|].
    split; [by eapply destroy_tmev_ok|by apply shrinks_same].
  - eexists _, _. split; [reflexivity|]. split; [|by apply shrinks_same]. by destruct Hs.
  - eexists _, _. split; [reflexivity|]. split; [|by apply shrinks_same]. by destruct Hs.
Qed.

Lemma calls_ok s s' : ev_inv s -> calls s s' -> ev_inv s' /\ shrinks s s'.
Proof.
  intros Hs H. induction H as [s|s s1 s' (c & rt & Hl & E) H IH]; [split; [done|by apply shrinks_same]|].
  destruct (call_ok c s Hs Hl) as (rt' & s2 & E' & H2 & R). rewrite E in E'. injection E' as <- <-.
  destruct (IH H2) as [H' R']. split; [done|by eapply shrinks_trans].
Qed.

(** ** The loops of a dispatch *)

Lemma update_pending_loop_ok f now : forall s, ev_inv s -> (Z.to_nat (hp_last (ev_timer_heap s)) < f)%nat ->
  exists s', update_pending_loop f now s = Some (tt, s') /\ ev_inv s' /\ view s' = view s /\
    ev_read_ev s' = ev_read_ev s /\ ev_write_ev s' = ev_write_ev s.
Proof.
  induction f as [|f IH]; intros s Hs Hf; [lia|]. pose proof Hs as [I T]. cbn [update_pending_loop]. st_run.
  pose proof T as [(ls & W & L) S [Ne E] [No O] C]. pose proof (heap_root_wf ls _ W) as Hr.
  destruct (fk_heap_root (ev_timer_heap s)) as [id|] eqn:Er; [|by exists s].
  apply L in Hr as (t & Ht & Hst). unfold get_tmev. rewrite Ht.
  destruct (0 <=? fk_util_tmval_cmp now (tm_when t)); [|by exists s].
  unfold on_heap.
  destruct (heap_pop_wf (fk_tmev_cmp (ev_tmevs s)) ls (ev_timer_heap s) id W) as (h' & Ep & W' & Hlast); [|done|].
  { apply tmev_cmp_total. intros i (y & Hy & _)%L. by eexists. }
  rewrite Ep. cbn [fmap option_fmap option_map snd]. cbv beta iota.
  rewrite (tmev_stat_ok _ id _ t) by done. cbv beta iota.
  set (s1 := set_tmev _ id _).
  assert (view s1 = view s) as V1 by (apply (view_set_tmev (set_exp (set_heap s h') (id :: ev_exp_tmev s)) id t); [done|by unfold tm_view, added; rewrite Hst]).
  destruct (IH s1) as (s' & Es & H' & Ha & R).
  - split; [exact I|]. unfold s1. ev_cbn. set (t' := fk_tmev_set_stat t FK_TMEV_EXPIRED).
    replace (ev_tmev_cnt s) with (ev_tmev_cnt s - Z.b2z (added t) + Z.b2z (added t'))
      by (unfold added; rewrite Hst; cbn; lia).
    eapply (tm_inv_set _ h' _ _ _ _ _ _ id t t' T Ht); try done.
    + by right; right; left.
    + exists (ls ∖ {[id]}). split; [done|]. intros i. rewrite elem_of_difference, elem_of_singleton, L. case_bool_decide; naive_solver.
    + constructor; [|done]. intros (y & Hy & Ey)%E. simplify_eq. by rewrite Hst in Ey.
    + intros i. rewrite elem_of_cons. case_bool_decide; naive_solver.
    + intros i. case_bool_decide as Hb; [|done]. subst i. rewrite O. split; [|done]. intros (y & Hy & Ey). simplify_eq. by rewrite Hst in Ey.
  - assert (hp_last (ev_timer_heap s) <> 0) by (intros E0; unfold fk_heap_root in Er; by rewrite E0 in Er).
    unfold s1. ev_cbn. pose proof (hw_last _ _ W). lia.
  - exists s'. split; [exact Es|]. split; [done|]. split; [by rewrite Ha|exact R].
Qed.

Lemma unwritten_free n m1 m2 t fd : unwritten n m1 -> unwritten n m2 -> occupied m1 m2 t fd = false.
Proof.
  intros [_ F1] [_ F2]. unfold occupied, slot.
  destruct (znth (if t =? FK_IOEV_READ then m1 else m2) fd) as [v|] eqn:E; [|done].
  unfold znth in E. destruct (fd <? 0); [done|]. apply list_elem_of_lookup_2 in E.
  assert (v = None \/ v = Some None) as [-> | ->] by (destruct (t =? FK_IOEV_READ); auto); done.
Qed.

(** The arrays may hold anything but events before the first one is added: the cells
    that [malloc] left, or NULL. *)
Lemma ev_init_inv n m1 m2 x (u : U) : unwritten n m1 -> unwritten n m2 -> mpx_ok n x -> (forall fd, watch x fd = 0) ->
  ev_inv (fk_ev_init n m1 m2 x u).
Proof.
  intros F1 F2 Hx Hw. pose proof (fun t fd => unwritten_free n m1 m2 t fd F1 F2) as Hm.
  split; unfold fk_ev_init; ev_cbn.
  - split; try done; [apply F1|apply F2|..].
    + intros t fd id Ht Hs%occupied_slot. by rewrite Hm in Hs.
    + intros t fd Ht Hfd. by rewrite Hw, Hm, Z.land_0_l.
    + constructor.
    + intros id. split; [by intros ?%elem_of_nil|by intros (? & ? & _)].
  - split.
    + exists ∅. split; [apply heap_init_wf|]. intros id. split; [set_solver|by intros (? & ? & _)].
    + done.
    + split; [constructor|]. intros id. split; [by intros ?%elem_of_nil|by intros (? & ? & _)].
    + split; [constructor|]. intros id. split; [by intros ?%elem_of_nil|by intros (? & ? & _)].
    + by rewrite count_empty.
Qed.
Context (iocb : Z -> Z -> Z -> ST mgr unit) (tmcb : Z -> Z -> Z -> ST mgr Z) (get_time : ST mgr timeval).

(** An invariant of the users, on what they see.  Callbacks keep it, return and are made
    of legal calls; the callback of a timer that answers 0 has not removed it. *)
Context (J : ev_view U -> Prop).
Hypothesis iocb_ok : forall id e s, ev_inv s -> J (view s) -> ev_ioevs s !! id = Some e -> io_activated e = FK_IOEV_PENDING ->
  exists s', iocb (io_cb e) (io_fd e) (io_type e) s = Some (tt, s') /\ calls s s' /\ J (view s').
Hypothesis tmcb_ok : forall id t s, ev_inv s -> J (view s) -> ev_tmevs s !! id = Some t -> tm_expired t = FK_TMEV_OLD ->
  exists rt s', tmcb (tm_cb t) (tm_interval t) (tm_type t) s = Some (rt, s') /\ calls s s' /\ J (view s') /\
    (rt = 0 -> exists t', ev_tmevs s' !! id = Some t' /\ tm_expired t' = FK_TMEV_OLD).
Hypothesis time_ok : forall s, J (view s) -> exists t u, get_time s = Some (t, set_user s u) /\ J (view (set_user s u)).

Lemma proc_activated_loop_ok f : forall s, ev_inv s -> J (view s) -> (length (ev_act_ioev s) < f)%nat ->
  exists s', proc_activated_loop iocb f s = Some (tt, s') /\ ev_inv s' /\ ev_act_ioev s' = [] /\ J (view s') /\ keeps_cells s s'.
Proof.
  induction f as [|f IH]; intros s Hs HJ Hf; [lia|]. pose proof Hs as [I T]. cbn [proc_activated_loop]. st_run.
  destruct (ev_act_ioev s) as [|id l] eqn:El; [by exists s|].
  rewrite <- El in I, Hf. assert (id ∈ ev_act_ioev s) as Ha by (rewrite El; by left).
  destruct (proj1 (ii_act _ _ _ _ _ _ _ I id) Ha) as (e & He & Ee). unfold get_ioev. rewrite He.
  destruct (list_drop_ok id (ev_act_ioev s)) as (l' & Ed & Nd & Hl' & Len); [apply I|done|].
  unfold drop_act. st_run. rewrite Ed. cbv beta iota. rewrite (ioev_stat_ok _ id _ e) by done. cbv beta iota.
  set (s1 := set_ioev _ id _).
  assert (ev_inv s1) as H1.
  { split; [|exact T]. unfold s1. ev_cbn. set (e' := fk_ioev_set_stat e FK_IOEV_PENDING).
    destruct (ii_ev _ _ _ _ _ _ _ I id e He) as (Hfd & Hty & _ & Hsl).
    specialize (Hsl ltac:(by rewrite Ee)).
    replace (ev_ioev_cnt s) with (ev_ioev_cnt s - Z.b2z (active e) + Z.b2z (active e'))
      by (unfold active; rewrite Ee; cbn; lia).
    eapply (io_inv_set _ _ _ _ _ _ _ _ _ l' _ id e e' I He); try done; try apply I.
    - by right; left.
    - intros t' fd' _. case_bool_decide as Hb; [|done]. by destruct Hb as [-> ->].
    - intros t' fd' Ht' Hfd'. case_bool_decide as Hb; [|done]. destruct Hb as [-> ->].
      rewrite (ii_watch _ _ _ _ _ _ _ I) by done. unfold occupied. by rewrite Hsl.
    - by right.
    - intros i. rewrite Hl'. case_bool_decide; naive_solver. }
  assert (J (view s1)) as J1.
  { unfold s1. rewrite (view_set_ioev _ id e); [exact HJ|done|by unfold io_view, active; rewrite Ee]. }
  destruct (iocb_ok id (fk_ioev_set_stat e FK_IOEV_PENDING) s1 H1 J1) as (s2 & E2 & C2 & J2); [apply lookup_insert_eq|done|].
  cbn in E2. rewrite E2. destruct (calls_ok s1 s2 H1 C2) as (H2 & R2 & _ & K2).
  destruct (IH s2 H2 J2) as (s' & E' & I' & A' & J' & K'); [cbn in R2; lia|].
  exists s'. do 4 (split; [done|]). apply (keeps_trans _ s2); [exact K2|exact K'].
Qed.

(** An expired timer goes to the list of old ones before its callback is called. *)
Lemma expired_to_old s id t : ev_inv s -> ev_tmevs s !! id = Some t -> tm_expired t = FK_TMEV_EXPIRED ->
  exists l', list_drop id (ev_exp_tmev s) = Some l' /\ length (ev_exp_tmev s) = S (length l') /\
    ev_inv (set_tmev (set_old (set_exp s l') (id :: ev_old_tmev s)) id (fk_tmev_set_stat t FK_TMEV_OLD)).
Proof.
  intros [I T] Ht Et. pose proof T as [(ls & W & L) S [Ne E] [No O] C].
  destruct (list_drop_ok id (ev_exp_tmev s)) as (l' & Ed & Nd & Hl' & Len); [done|apply E; by exists t|].
  exists l'. split; [done|]. split; [done|]. split; [exact I|]. ev_cbn. set (t' := fk_tmev_set_stat t FK_TMEV_OLD).
  replace (ev_tmev_cnt s) with (ev_tmev_cnt s - Z.b2z (added t) + Z.b2z (added t')) by (unfold added; rewrite Et; cbn; lia).
  eapply (tm_inv_set _ _ _ _ l' _ _ _ id t t' T Ht); try done.
  - by right; right; right.
  - exists ls. split; [done|]. intros i. rewrite L. case_bool_decide as Hb; [|done]. subst i. split; [|done].
    intros (y & Hy & Ey). simplify_eq. by rewrite Et in Ey.
  - intros i. rewrite Hl'. case_bool_decide; naive_solver.
  - constructor; [|done]. intros (y & Hy & Ey)%O. simplify_eq. by rewrite Et in Ey.
  - intros i. rewrite elem_of_cons. case_bool_decide; naive_solver.
Qed.

(** An old timer that cycles goes back to the heap with a new time. *)
Lemma old_to_pending s id t w old' : ev_inv s -> ev_tmevs s !! id = Some t -> tm_expired t = FK_TMEV_OLD ->
  NoDup old' -> (forall i, i ∈ old' <-> i <> id /\ i ∈ ev_old_tmev s) ->
  let tms := <[id := tm_set_when t w]> (ev_tmevs s) in
  exists h', fk_heap_push (fk_tmev_cmp tms) (ev_timer_heap s) id = Some h' /\
    forall u, ev_inv (set_tmev (set_heap (set_tmev (set_user (set_old s old') u) id (tm_set_when t w)) h') id
      (fk_tmev_set_stat (tm_set_when t w) FK_TMEV_PENDING)).
Proof.
  intros [I T] Ht Et No' Ho' tms. pose proof T as [(ls & W & L) S [Ne E] [No O] C].
  destruct (push_timer tms (ev_timer_heap s) ls id W) as (h' & E' & W').
  { intros i (y & Hy & _)%L. unfold tms. destruct (decide (i = id)) as [->|]; [by rewrite lookup_insert_eq|by rewrite lookup_insert_ne]. }
  { intros (y & Hy & Ey)%L. simplify_eq. by rewrite Et in Ey. }
  { unfold tms. by rewrite lookup_insert_eq. }
  exists h'. split; [done|]. intros u. split; [exact I|]. ev_cbn. rewrite insert_insert_eq.
  set (t' := fk_tmev_set_stat _ FK_TMEV_PENDING).
  replace (ev_tmev_cnt s) with (ev_tmev_cnt s - Z.b2z (added t) + Z.b2z (added t')) by (unfold added; rewrite Et; cbn; lia).
  eapply (tm_inv_set _ h' _ _ _ _ _ _ id t t' T Ht); try done.
  - by right; left.
  - exists ({[id]} ∪ ls). split; [done|]. intros i. rewrite elem_of_union, elem_of_singleton, L. case_bool_decide; naive_solver.
  - intros i. case_bool_decide as Hb; [|done]. subst i. rewrite E. split; [|done]. intros (y & Hy & Ey). simplify_eq. by rewrite Et in Ey.
  - intros i. rewrite Ho'. case_bool_decide; naive_solver.
Qed.

Lemma proc_expired_loop_ok f : forall s, ev_inv s -> J (view s) -> (length (ev_exp_tmev s) < f)%nat -> ev_act_ioev s = [] ->
  exists s', proc_expired_loop tmcb get_time f s = Some (tt, s') /\ ev_inv s' /\ ev_exp_tmev s' = [] /\ ev_act_ioev s' = [] /\ J (view s') /\ keeps_cells s s'.
Proof.
  induction f as [|f IH]; intros s Hs HJ Hf Hact; [lia|]. cbn [proc_expired_loop]. st_run.
  destruct (ev_exp_tmev s) as [|id l] eqn:El; [by exists s|]. rewrite <- El in Hf. pose proof Hs as [I [_ _ [_ E] _ _]].
  destruct (proj1 (E id)) as (t & Ht & Et); [rewrite El; by left|]. unfold get_tmev at 1. rewrite Ht.
  destruct (expired_to_old s id t Hs Ht Et) as (l' & Ed & Len & H1).
  unfold drop_exp at 1. st_run. rewrite Ed. cbv beta iota. rewrite (tmev_stat_ok _ id _ t) by done. cbv beta iota.
  set (s1 := set_tmev _ id _). change (ev_inv s1) in H1.
  assert (J (view s1)) as J1.
  { unfold s1. rewrite (view_set_tmev _ id t); [exact HJ|done|by unfold tm_view, added; rewrite Et]. }
  destruct (tmcb_ok id (fk_tmev_set_stat t FK_TMEV_OLD) s1 H1 J1) as (rt & s2 & E2 & C2 & J2 & Hold); [apply lookup_insert_eq|done|].
  cbn in E2. rewrite E2. destruct (calls_ok s1 s2 H1 C2) as (H2 & A2 & R2 & K2). change (keeps_cells s s2) in K2.
  assert (ev_act_ioev s2 = []) as Ha2 by (apply nil_length_inv; unfold s1 in A2; ev_cbn; cbn in A2; rewrite Hact in A2; cbn in A2; lia).
  assert (length (ev_exp_tmev s2) < f)%nat as Hf2 by (cbn in R2; lia).
  destruct ((rt =? 0) && (tm_type t =? FK_TMEV_CYCLE)) eqn:Ec; [|destruct (IH s2 H2 J2 Hf2 Ha2) as (s' & E' & ? & ? & ? & ? & K'); exists s'; do 5 (split; [done|]); exact (keeps_trans _ _ _ K2 K')].
  apply andb_true_iff in Ec as [Ec%Z.eqb_eq _]. destruct (Hold Ec) as (t2 & Ht2 & Et2).
  destruct (drop_old_ok s2 id t2 H2 Ht2) as (old' & Eo & No' & Ho').
  specialize (Eo s2 eq_refl). rewrite Et2 in Eo. change (FK_TMEV_OLD =? FK_TMEV_OLD) with true in Eo. cbv iota in Eo.
  rewrite Eo. destruct (time_ok (set_old s2 old') J2) as (now & u & -> & J3). cbv beta iota.
  unfold get_tmev. ev_cbn. rewrite Ht2. cbv beta iota.
  set (t3 := tm_set_when t2 _). unfold on_heap. ev_cbn. set (tms := <[id := t3]> (ev_tmevs s2)).
  destruct (old_to_pending s2 id t2 (tm_when t3) old' H2 Ht2 Et2 No' Ho') as (h' & Eh & H3).
  change (fk_heap_push (fk_tmev_cmp tms) (ev_timer_heap s2) id = Some h') in Eh.
  rewrite Eh. cbv beta iota. rewrite (tmev_stat_ok _ id _ t3) by (ev_cbn; apply lookup_insert_eq). cbv beta iota.
  destruct (IH _ (H3 u)) as (s' & E' & ? & ? & ? & ? & K'); [|exact Hf2|exact Ha2|exists s'; do 5 (split; [done|]); exact (keeps_trans _ _ _ K2 K')].
  rewrite (view_set_tmev _ id t3); [|ev_cbn; apply lookup_insert_eq|by unfold tm_view, added; cbn; rewrite Et2].
  change (J (view (set_tmev (set_user (set_old s2 old') u) id t3))). by rewrite (view_set_tmev _ id t2).
Qed.

(** One half of [fk_ev_activate_ioev]. *)
Lemma view_max s s' : view s' = view s -> ev_max_files s' = ev_max_files s.
Proof. by intros [= _ ? _ _]. Qed.

Lemma activate_half s (b : bool) t fd : ev_inv s -> (b = false -> written s t fd) -> single t ->
  exists s1, (if b then mret tt else s ← st_get; activate (if t =? FK_IOEV_READ then ev_read_ev s else ev_write_ev s) fd) s
      = Some (tt, s1) /\ ev_inv s1 /\ view s1 = view s /\ ev_read_ev s1 = ev_read_ev s /\ ev_write_ev s1 = ev_write_ev s.
Proof.
  intros Hs Hfd Ht. destruct b; [by exists s|]. specialize (Hfd eq_refl).
  destruct (activate_ok s t fd Hs Hfd Ht) as (s1 & E1 & H1 & Es). exists s1. split; [exact E1|]. by split.
Qed.

(** Activating the types of an answer reads their cells. *)
Definition reads s (fdt : Z * Z) : Prop := forall t, single t -> Z.land fdt.2 t <> 0 -> written s t fdt.1.

Lemma activate_one_ok fd t s : ev_inv s -> reads s (fd, t) ->
  exists s', fk_ev_activate_ioev fd t s = Some (tt, s') /\ ev_inv s' /\ view s' = view s /\
    ev_read_ev s' = ev_read_ev s /\ ev_write_ev s' = ev_write_ev s.
Proof.
  intros Hs Hf.
  destruct (activate_half s (Z.land t FK_IOEV_READ =? 0) FK_IOEV_READ fd Hs) as (s1 & E1 & H1 & V1 & R1 & W1);
    [intros ?%Z.eqb_neq; apply (Hf FK_IOEV_READ); [by left|done]|by left|].
  destruct (activate_half s1 (Z.land t FK_IOEV_WRITE =? 0) FK_IOEV_WRITE fd H1) as (s2 & E2 & H2 & V2 & R2 & W2);
    [|by right|].
  { intros ?%Z.eqb_neq. unfold written. rewrite R1, W1. apply (Hf FK_IOEV_WRITE); [by right|done]. }
  exists s2. split; [|by rewrite V2, R2, W2]. unfold fk_ev_activate_ioev.
  change (FK_IOEV_READ =? FK_IOEV_READ) with true in E1. change (FK_IOEV_WRITE =? FK_IOEV_READ) with false in E2.
  unfold mbind at 1, ST_bind at 1. rewrite E1. exact E2.
Qed.

Lemma activate_all_ok acts : forall s, ev_inv s -> Forall (reads s) acts ->
  exists s', activate_all acts s = Some (tt, s') /\ ev_inv s' /\ view s' = view s /\
    ev_read_ev s' = ev_read_ev s /\ ev_write_ev s' = ev_write_ev s.
Proof.
  induction acts as [|[fd t] acts IH]; intros s Hs Hf; [by exists s|]. apply Forall_cons in Hf as [Hfd Hf].
  destruct (activate_one_ok fd t s Hs Hfd) as (s1 & E1 & H1 & V1 & R1 & W1).
  destruct (IH s1 H1) as (s' & E' & H' & V' & R' & W').
  { eapply Forall_impl; [exact Hf|]. intros a Ha u Hu Hl. unfold written. rewrite R1, W1. by apply Ha. }
  exists s'. split; [|by rewrite V', R', W']. cbn [activate_all]. unfold mbind at 1, ST_bind at 1. by rewrite E1.
Qed.

(** What was read had been written. *)
Lemma activate_reads l fd s s' : activate l fd s = Some (tt, s') -> is_Some (mjoin (znth l fd)).
Proof. unfold activate. st_run. destruct (mjoin (znth l fd)); [by eexists|done]. Qed.

Lemma activate_arrays l fd s s' : activate l fd s = Some (tt, s') ->
  ev_read_ev s' = ev_read_ev s /\ ev_write_ev s' = ev_write_ev s.
Proof.
  unfold activate, ioev_stat, get_ioev, st_mod. st_run. intros E.
  repeat (case_match; simplify_eq; try done).
Qed.

Lemma activate_one_reads fd t s s' : fk_ev_activate_ioev fd t s = Some (tt, s') ->
  reads s (fd, t) /\ ev_read_ev s' = ev_read_ev s /\ ev_write_ev s' = ev_write_ev s.
Proof.
  unfold fk_ev_activate_ioev. intros E. unfold mbind at 1, ST_bind at 1 in E.
  set (m := if Z.land t FK_IOEV_READ =? 0 then _ else _) in E.
  destruct (m s) as [[[] s1]|] eqn:E1; [|done]. subst m.
  assert (ev_read_ev s1 = ev_read_ev s /\ ev_write_ev s1 = ev_write_ev s /\
    (Z.land t FK_IOEV_READ <> 0 -> is_Some (mjoin (znth (ev_read_ev s) fd)))) as (R1 & W1 & H1).
  { destruct (Z.eqb_spec (Z.land t FK_IOEV_READ) 0); [by injection E1 as <-|].
    change (activate (ev_read_ev s) fd s = Some (tt, s1)) in E1.
    destruct (activate_arrays _ _ _ _ E1). split; [done|]. split; [done|]. intros _. by eapply activate_reads. }
  assert (ev_read_ev s' = ev_read_ev s /\ ev_write_ev s' = ev_write_ev s /\
    (Z.land t FK_IOEV_WRITE <> 0 -> is_Some (mjoin (znth (ev_write_ev s) fd)))) as (R2 & W2 & H2).
  { destruct (Z.eqb_spec (Z.land t FK_IOEV_WRITE) 0); [by injection E as <-|].
    change (activate (ev_write_ev s1) fd s1 = Some (tt, s')) in E.
    destruct (activate_arrays _ _ _ _ E) as [-> ->]. split; [done|]. split; [done|]. intros _. rewrite <- W1. by eapply activate_reads. }
  split; [|done]. intros u [-> | ->] Hu; [exact (H1 Hu)|exact (H2 Hu)].
Qed.

Lemma activate_all_reads acts : forall s s', activate_all acts s = Some (tt, s') -> Forall (reads s) acts.
Proof.
  induction acts as [|[fd t] acts IH]; intros s s' E; [constructor|]. cbn [activate_all] in E.
  unfold mbind at 1, ST_bind at 1 in E. destruct (fk_ev_activate_ioev fd t s) as [[[] s1]|] eqn:E1; [|done].
  apply activate_one_reads in E1 as (H1 & R1 & W1). constructor; [exact H1|].
  eapply Forall_impl; [exact (IH s1 s' E)|]. intros a Ha u Hu Hl. specialize (Ha u Hu Hl).
  unfold written in *. by rewrite R1, W1 in Ha.
Qed.

(** The answers the kernel may give in a state: with a timer there is a time limit. *)
Definition answered s (ans : A) : Prop :=
  forall pto, (pto = None <-> fk_ev_get_nearest_tmev s = None) -> answers (ev_max_files s) (ev_iompx s) pto ans.

(** The answers that make the code read no cell of the arrays that was never written. *)
Definition wrote s (ans : A) : Prop := forall pto rt acts x, (pto = None <-> fk_ev_get_nearest_tmev s = None) ->
  iompx_dispatch (ev_iompx s) pto ans = Some (rt, acts, x) -> Forall (reads s) acts.

(** None is read that was never written if all are written. *)
Definition all_written s : Prop := forall t fd, 0 <= fd < ev_max_files s -> written s t fd.

Lemma all_written_wrote s ans : ev_inv s -> answered s ans -> all_written s -> wrote s ans.
Proof.
  intros [I _] Ha Hw pto rt acts x Hp E.
  destruct (dispatch_law _ _ pto ans (ii_mpx _ _ _ _ _ _ _ I) (Ha pto Hp)) as (? & ? & ? & E' & _ & _ & Hacts).
  rewrite E in E'. injection E' as <- <- <-. eapply Forall_impl; [exact Hacts|]. intros a Hf u _ _. by apply Hw.
Qed.

(** An answer that names only types that are watched. *)
Definition reports_watched (x : X) (ans : A) : Prop := forall pto rt acts x', iompx_dispatch x pto ans = Some (rt, acts, x') ->
  Forall (fun fdt => forall t, single t -> Z.land fdt.2 t <> 0 -> Z.land (watch x fdt.1) t <> 0) acts.

(** The cells of the added events were written. *)
Lemma reports_wrote s ans : ev_inv s -> answered s ans -> reports_watched (ev_iompx s) ans -> wrote s ans.
Proof.
  intros [I _] Ha Hr pto rt acts x Hp E. specialize (Hr pto rt acts x E).
  destruct (dispatch_law _ _ pto ans (ii_mpx _ _ _ _ _ _ _ I) (Ha pto Hp)) as (? & ? & ? & E' & _ & _ & Hacts).
  rewrite E in E'. injection E' as <- <- <-. apply Forall_forall. intros a Hin u Hu Hl.
  rewrite Forall_forall in Hr, Hacts. specialize (Hr a Hin u Hu Hl). specialize (Hacts a Hin).
  destruct (occupied (ev_read_ev s) (ev_write_ev s) u a.1) eqn:Eo.
  - apply occupied_some in Eo as [id Eo]. by exists (Some id).
  - by apply (ii_watch _ _ _ _ _ _ _ I u a.1 Hu Hacts) in Eo.
Qed.

Lemma dispatch_rest s : ev_inv s -> J (view s) -> forall now,
  exists s', (_ ← fk_ev_update_pending_tmev now; _ ← fk_ev_proc_activated_ioev iocb;
              _ ← fk_ev_proc_expired_tmev tmcb get_time; mret FK_EV_OK) s = Some (FK_EV_OK, s') /\
    ev_inv s' /\ J (view s') /\ ev_act_ioev s' = [] /\ ev_exp_tmev s' = [] /\ keeps_cells s s'.
Proof.
  intros Hs HJ now. st_run. unfold fk_ev_update_pending_tmev.
  destruct (update_pending_loop_ok (S (Z.to_nat (hp_last (ev_timer_heap s)))) now s Hs) as (s1 & -> & H1 & V1 & R1 & W1); [lia|].
  rewrite <- V1 in HJ.
  cbv beta iota. unfold fk_ev_proc_activated_ioev.
  destruct (proc_activated_loop_ok (S (length (ev_act_ioev s1))) s1 H1 HJ) as (s2 & -> & H2 & A2 & J2 & K2); [lia|].
  cbv beta iota. unfold fk_ev_proc_expired_tmev.
  destruct (proc_expired_loop_ok (S (length (ev_exp_tmev s2))) s2 H2 J2) as (s3 & -> & H3 & E3 & A3 & J3 & K3); [lia|done|].
  cbv beta iota. exists s3. do 5 (split; [done|]). eapply keeps_trans; [by apply (keeps_same s s1); [apply view_max|..]|by eapply keeps_trans].
Qed.

(** The wait is limited exactly if there is a timer. *)
Lemma dispatch_wait s : ev_inv s -> J (view s) ->
  exists pto u, (match fk_ev_get_nearest_tmev s with
                 | Some id => t ← get_tmev id; now ← get_time; mret (Some (wait_time now t))
                 | None => mret None
                 end) s = Some (pto, set_user s u) /\ (pto = None <-> fk_ev_get_nearest_tmev s = None) /\ J (view (set_user s u)).
Proof.
  intros [_ [(ls & W & L) _ _ _ _]] HJ. pose proof (heap_root_wf ls _ W) as Hr. unfold fk_ev_get_nearest_tmev.
  destruct (fk_heap_root (ev_timer_heap s)) as [id|]; [|exists None, (ev_user s); by destruct s].
  apply L in Hr as (t & Ht & _). unfold get_tmev. st_run. rewrite Ht. cbv beta iota.
  destruct (time_ok s HJ) as (now & u & -> & Ju). by eexists _, u.
Qed.

(** A dispatch from the answer of the backend on. *)
Lemma dispatch_unfold s ans pto u rt acts x :
  (match fk_ev_get_nearest_tmev s with
   | Some id => t ← get_tmev id; now ← get_time; mret (Some (wait_time now t))
   | None => mret None
   end) s = Some (pto, set_user s u) ->
  iompx_dispatch (ev_iompx s) pto ans = Some (rt, acts, x) ->
  fk_ev_dispatch iocb tmcb get_time ans s = (_ ← activate_all acts;
    if rt =? FK_EV_ERR then mret FK_EV_ERR
    else now ← get_time; _ ← fk_ev_update_pending_tmev now; _ ← fk_ev_proc_activated_ioev iocb;
         _ ← fk_ev_proc_expired_tmev tmcb get_time; mret FK_EV_OK) (set_iompx (set_user s u) x).
Proof.
  intros Ew E. unfold fk_ev_dispatch.
  unfold mbind at 1, ST_bind at 1, st_get at 1. unfold mbind at 1, ST_bind at 1. rewrite Ew.
  unfold mbind at 1, ST_bind at 1, st_get at 1. unfold mbind at 1, ST_bind at 1, st_lift at 1. ev_cbn. rewrite E.
  reflexivity.
Qed.

(** A dispatch that reads only cells that were written returns; and one that returns
    read no other. *)
Lemma dispatch_ok s ans : ev_inv s -> J (view s) -> answered s ans ->
  wrote s ans \/ is_Some (fk_ev_dispatch iocb tmcb get_time ans s) ->
  exists rt s', fk_ev_dispatch iocb tmcb get_time ans s = Some (rt, s') /\ ev_inv s' /\ J (view s') /\
    (rt = FK_EV_OK -> ev_act_ioev s' = [] /\ ev_exp_tmev s' = []) /\ keeps_cells s s'.
Proof.
  intros Hs HJ Ha. destruct (dispatch_wait s Hs HJ) as (pto & u & Ew & Hp & Ju). pose proof Hs as [I T].
  destruct (dispatch_law _ _ pto ans (ii_mpx _ _ _ _ _ _ _ I) (Ha pto Hp)) as (rt & acts & x & E & Hx & Hw & _).
  rewrite (dispatch_unfold s ans pto u rt acts x Ew E). set (s1 := set_iompx (set_user s u) x).
  assert (ev_inv s1) as H1 by (split; [by eapply io_inv_mpx|done]).
  intros Hr. unfold mbind at 1, ST_bind at 1. assert (Forall (reads s1) acts) as Hacts.
  { destruct Hr as [Hr|[y Hr]]; [exact (Hr pto rt acts x Hp E)|]. unfold mbind at 1, ST_bind at 1 in Hr.
    destruct (activate_all acts s1) as [[[] s2]|] eqn:E2; [by eapply activate_all_reads|done]. }
  clear Hr. destruct (activate_all_ok acts s1 H1 Hacts) as (s2 & -> & H2 & V2 & R2 & W2).
  assert (J (view s2)) as J2 by by rewrite V2. destruct (Z.eqb_spec rt FK_EV_ERR) as [Er|Er].
  - eexists _, s2. split; [done|]. split; [done|]. split; [done|]. split; [done|by apply keeps_same; [rewrite (view_max _ _ V2)|..]].
  - unfold mbind at 1, ST_bind at 1. destruct (time_ok s2 J2) as (now & u2 & -> & J3).
    assert (ev_inv (set_user s2 u2)) as H3 by by destruct H2.
    destruct (dispatch_rest _ H3 J3 now) as (s' & E' & H' & J' & A' & E'' & K'). exists FK_EV_OK, s'.
    do 3 (split; [done|]). split; [done|]. eapply keeps_trans; [|exact K']. by apply keeps_same; [exact (view_max _ _ V2)|..].
Qed.

(** A step of the program: a call from outside the callbacks, or a dispatch. *)
Inductive ev_step : mgr -> mgr -> Prop :=
  | step_call s s' : call_step s s' -> ev_step s s'
  | step_dispatch s s' ans rt : answered s ans -> fk_ev_dispatch iocb tmcb get_time ans s = Some (rt, s') -> ev_step s s'.

Lemma calls_steps s s' : calls s s' -> rtc ev_step s s'.
Proof. apply rtc_subrel. intros. by apply step_call. Qed.

Hypothesis calls_J : forall s s', call_step s s' -> J (view s) -> J (view s').

Lemma step_ok s s' : ev_inv s -> J (view s) -> ev_step s s' -> ev_inv s' /\ J (view s') /\ keeps_cells s s'.
Proof.
  intros Hs HJ H. destruct H as [s0 s1 H|s0 s1 ans rt Ha E].
  - destruct (calls_ok s0 s1 Hs) as (H1 & _ & _ & K); [by apply rtc_once|]. split; [done|]. split; [by eapply calls_J|done].
  - destruct (dispatch_ok s0 ans Hs HJ Ha) as (rt' & s2 & E' & H' & J' & _ & K); [right; by eexists|].
    rewrite E in E'. by injection E' as <- <-.
Qed.

Lemma steps_ok s s' : ev_inv s -> J (view s) -> rtc ev_step s s' -> ev_inv s' /\ J (view s') /\ keeps_cells s s'.
Proof.
  intros Hs HJ H. induction H as [|s s1 s' H1 H IH]; [done|].
  destruct (step_ok s s1 Hs HJ H1) as (H' & J' & K). destruct (IH H' J') as (H2 & J2 & K2).
  split; [done|]. split; [done|by eapply keeps_trans].
Qed.
End steps.

(** Callbacks that keep no invariant of their own. *)
Section plain.
Context {X A U : Type} `{!Mpx X A, !MpxLaws X A}.
Abbreviation mgr := (fk_evmgr X U).
Context (iocb : Z -> Z -> Z -> ST mgr unit) (tmcb : Z -> Z -> Z -> ST mgr Z) (get_time : ST mgr timeval).
Hypothesis iocb_ok : forall id e (s : mgr), ev_inv s -> ev_ioevs s !! id = Some e -> io_activated e = FK_IOEV_PENDING ->
  exists s', iocb (io_cb e) (io_fd e) (io_type e) s = Some (tt, s') /\ calls s s'.
Hypothesis tmcb_ok : forall id t (s : mgr), ev_inv s -> ev_tmevs s !! id = Some t -> tm_expired t = FK_TMEV_OLD ->
  exists rt s', tmcb (tm_cb t) (tm_interval t) (tm_type t) s = Some (rt, s') /\ calls s s' /\
    (rt = 0 -> exists t', ev_tmevs s' !! id = Some t' /\ tm_expired t' = FK_TMEV_OLD).
Hypothesis time_ok : forall s, exists t u, get_time s = Some (t, set_user s u).

Lemma plain_io id e (s : mgr) : ev_inv s -> True -> ev_ioevs s !! id = Some e -> io_activated e = FK_IOEV_PENDING ->
  exists s', iocb (io_cb e) (io_fd e) (io_type e) s = Some (tt, s') /\ calls s s' /\ True.
Proof. intros Hs _ He Hp. destruct (iocb_ok id e s Hs He Hp) as (s' & ? & ?). by exists s'. Qed.

Lemma plain_tm id t (s : mgr) : ev_inv s -> True -> ev_tmevs s !! id = Some t -> tm_expired t = FK_TMEV_OLD ->
  exists rt s', tmcb (tm_cb t) (tm_interval t) (tm_type t) s = Some (rt, s') /\ calls s s' /\ True /\
    (rt = 0 -> exists t', ev_tmevs s' !! id = Some t' /\ tm_expired t' = FK_TMEV_OLD).
Proof. intros Hs _ He Hp. destruct (tmcb_ok id t s Hs He Hp) as (rt & s' & ? & ? & ?). by exists rt, s'. Qed.

Lemma plain_time (s : mgr) : True -> exists t u, get_time s = Some (t, set_user s u) /\ True.
Proof. intros _. destruct (time_ok s) as (t & u & ?). by exists t, u. Qed.

Lemma plain_steps s s' : ev_inv s -> rtc (ev_step iocb tmcb get_time) s s' -> ev_inv s' /\ keeps_cells s s'.
Proof.
  intros Hs H. by destruct (steps_ok iocb tmcb get_time (fun _ => True) plain_io plain_tm plain_time ltac:(done) s s') as (? & _ & ?).
Qed.

Lemma plain_dispatch s ans : ev_inv s -> answered s ans -> wrote s ans ->
  exists rt s', fk_ev_dispatch iocb tmcb get_time ans s = Some (rt, s') /\
    (rt = FK_EV_OK -> ev_act_ioev s' = [] /\ ev_exp_tmev s' = []).
Proof.
  intros Hs Ha Hw. destruct (dispatch_ok iocb tmcb get_time (fun _ => True) plain_io plain_tm plain_time s ans Hs I Ha (or_introl Hw))
    as (rt & s' & ? & _ & _ & ? & _). by exists rt, s'.
Qed.
End plain.

(** ** Properties *)

(** Arrays as [malloc] leaves them, and zeroed ones, where every cell is NULL. *)
Definition malloced (n : Z) : slots := replicate (Z.to_nat n) None.
Definition zeroed (n : Z) : slots := replicate (Z.to_nat n) (Some None).

Lemma malloced_unwritten n : 0 <= n -> unwritten n (malloced n).
Proof. intros Hn. split; [unfold malloced; rewrite zlen_replicate; lia|]. intros v [-> _]%elem_of_replicate. by left. Qed.

Lemma zeroed_unwritten n : 0 <= n -> unwritten n (zeroed n).
Proof. intros Hn. split; [unfold zeroed; rewrite zlen_replicate; lia|]. intros v [-> _]%elem_of_replicate. by right. Qed.

Lemma zeroed_written {X A U : Type} `{!Mpx X A} n x (u : U) (s : fk_evmgr X U) :
  keeps_cells (fk_ev_init n (zeroed n) (zeroed n) x u) s -> all_written s.
Proof.
  intros [E K] t fd Hfd. apply K. unfold written, slot, zeroed. cbn in *. rewrite E in Hfd.
  assert (znth (replicate (Z.to_nat n) (Some (@None Z))) fd = Some (Some None)) as Hz.
  { unfold znth. rewrite (proj2 (Z.ltb_ge _ _)) by lia. apply lookup_replicate_2. lia. }
  case_match; rewrite Hz; by eexists.
Qed.

(** C9. Nothing the event manager does is undefined: from the initial state, with
    [read_ev] and [write_ev] as [malloc] leaves them, after any sequence of legal calls
    and dispatches over a backend that keeps its promises, with callbacks that return
    and are themselves made of legal calls (so that they add, remove and free any
    events, their own and others that are activated or expired), every event is in
    exactly the places its state says and the backend watches exactly the added events;
    every legal call returns; and every dispatch whose answer makes it read no cell of
    the two arrays that was never written returns, with no activated or expired event
    left when it succeeds. If the two arrays are zeroed at the start, no answer does
    that: then every dispatch returns. *)
Theorem ev_never_stuck {X A U : Type} `{!Mpx X A, !MpxLaws X A}
    (iocb : Z -> Z -> Z -> ST (fk_evmgr X U) unit) (tmcb : Z -> Z -> Z -> ST (fk_evmgr X U) Z) get_time n m1 m2 x (u : U) s :
  (forall id e s, ev_inv s -> ev_ioevs s !! id = Some e -> io_activated e = FK_IOEV_PENDING ->
    exists s', iocb (io_cb e) (io_fd e) (io_type e) s = Some (tt, s') /\ calls s s') ->
  (forall id t s, ev_inv s -> ev_tmevs s !! id = Some t -> tm_expired t = FK_TMEV_OLD ->
    exists rt s', tmcb (tm_cb t) (tm_interval t) (tm_type t) s = Some (rt, s') /\ calls s s' /\
      (rt = 0 -> exists t', ev_tmevs s' !! id = Some t' /\ tm_expired t' = FK_TMEV_OLD)) ->
  (forall s, exists t u, get_time s = Some (t, set_user s u)) ->
  unwritten n m1 -> unwritten n m2 -> mpx_ok n x -> (forall fd, watch x fd = 0) ->
  rtc (ev_step iocb tmcb get_time) (fk_ev_init n m1 m2 x u) s ->
  ev_inv s /\
  (forall c, legal c s -> exists rt s', run_call c s = Some (rt, s')) /\
  (forall ans, answered s ans -> wrote s ans -> exists rt s', fk_ev_dispatch iocb tmcb get_time ans s = Some (rt, s') /\
    (rt = FK_EV_OK -> ev_act_ioev s' = [] /\ ev_exp_tmev s' = [])) /\
  (m1 = zeroed n -> m2 = zeroed n -> forall ans, answered s ans -> wrote s ans).
Proof.
  intros Hi Ht Hg F1 F2 Hx Hw Hr.
  destruct (plain_steps iocb tmcb get_time Hi Ht Hg _ s (ev_init_inv n m1 m2 x u F1 F2 Hx Hw) Hr) as [Hs K].
  split; [done|]. split; [|split].
  - intros c Hc. destruct (call_ok c s Hs Hc) as (rt & s' & E & _). by exists rt, s'.
  - intros ans Ha Hwr. exact (plain_dispatch iocb tmcb get_time Hi Ht Hg s ans Hs Ha Hwr).
  - intros -> -> ans Ha. apply all_written_wrote; [done|done|].
    by eapply zeroed_written.
Qed.
