(* ===== verification/EvView.v ===== *)
(** The event manager as its users see it: two maps from events to whether they are
    added ([ev_view]).

    [does m v Q]: from any consistent state that is seen as [v], the program [m] returns,
    is made of legal calls, and its result and what is seen then satisfy [Q].  The
    lemmas [does_*] are the rules of the calls; adding and removing need a backend that
    does not refuse ([MpxReliable]). *)
From S2P Require Import Prelude Util Heap Ev EvProps.

(** A backend that accepts every type that is not watched and gives up every type that
    is. *)
Class MpxReliable (X A : Type) `{!Mpx X A, !MpxLaws X A} := {
  add_reliable n x fd type : mpx_ok n x -> 0 <= fd < n -> single type -> Z.land (watch x fd) type = 0 ->
    exists x', iompx_add x fd type = Some (FK_EV_OK, x');
  remove_reliable n x fd type : mpx_ok n x -> 0 <= fd < n -> single type -> Z.land (watch x fd) type <> 0 ->
    exists x', iompx_remove x fd type = Some (FK_EV_OK, x')
}.

Section view.
Context {X A U : Type} `{!Mpx X A, !MpxLaws X A, !MpxReliable X A}.
Abbreviation mgr := (fk_evmgr X U).
Implicit Types (s : mgr) (v : ev_view U).

Definition v_set_user v (u : U) : ev_view U := View u (v_max v) (v_ios v) (v_tms v).
Definition v_set_ios v (m : gmap Z (Z * Z * Z * bool)) : ev_view U := View (v_user v) (v_max v) m (v_tms v).
Definition v_set_tms v (m : gmap Z (Z * Z * Z * bool)) : ev_view U := View (v_user v) (v_max v) (v_ios v) m.

Lemma v_io_lookup s id fd ty cb b : v_ios (view s) !! id = Some (fd, ty, cb, b) ->
  exists e, ev_ioevs s !! id = Some e /\ io_fd e = fd /\ io_type e = ty /\ io_cb e = cb /\ active e = b.
Proof. unfold view. cbn. rewrite lookup_fmap. intros (e & He & [= -> -> -> ->])%fmap_Some. by exists e. Qed.

Lemma v_tm_lookup s id ty iv cb b : v_tms (view s) !! id = Some (ty, iv, cb, b) ->
  exists t, ev_tmevs s !! id = Some t /\ tm_type t = ty /\ tm_interval t = iv /\ tm_cb t = cb /\ added t = b.
Proof. unfold view. cbn. rewrite lookup_fmap. intros (t & Ht & [= -> -> -> ->])%fmap_Some. by exists t. Qed.

Lemma active_false e : active e = false -> io_activated e = FK_IOEV_INIT.
Proof. unfold active. intros H%negb_false_iff. lia. Qed.
Lemma active_true e : active e = true -> io_activated e <> FK_IOEV_INIT.
Proof. unfold active. intros H%negb_true_iff. lia. Qed.
Lemma added_false t : added t = false -> tm_expired t = FK_TMEV_INIT.
Proof. unfold added. intros H%negb_false_iff. lia. Qed.
Lemma added_true t : added t = true -> tm_expired t <> FK_TMEV_INIT.
Proof. unfold added. intros H%negb_true_iff. lia. Qed.

(** ** What a call changes in what is seen *)

Lemma set_ev_slots_view s fd ty o s' : set_ev_slots fd ty o s = Some (tt, s') -> view s' = view s /\ ev_ioevs s' = ev_ioevs s.
Proof. unfold set_ev_slots. repeat case_match; intros; by simplify_eq. Qed.

Lemma ioev_stat_view s id st e s' : ev_ioevs s !! id = Some e -> ioev_stat id st s = Some (tt, s') ->
  view s' = v_set_ios (view s) (<[id := (io_fd e, io_type e, io_cb e, negb (st =? FK_IOEV_INIT))]> (v_ios (view s))).
Proof. intros He. rewrite (ioev_stat_ok _ _ _ e He). intros [= <-]. unfold view. ev_cbn. by rewrite fmap_insert. Qed.

Lemma add_io_view s id e x rt s' : ev_ioevs s !! id = Some e -> io_activated e = FK_IOEV_INIT ->
  iompx_add (ev_iompx s) (io_fd e) (io_type e) = Some (FK_EV_OK, x) -> fk_ev_add_ioev id s = Some (rt, s') ->
  rt = FK_EV_OK /\ view s' = v_set_ios (view s) (<[id := (io_fd e, io_type e, io_cb e, true)]> (v_ios (view s))).
Proof.
  intros He Hst Ha. unfold fk_ev_add_ioev, get_ioev. st_run. rewrite He, Hst.
  change (negb (FK_IOEV_INIT =? FK_IOEV_INIT)) with false. cbv beta iota. rewrite Ha. cbv beta iota. change (FK_EV_OK =? FK_EV_ERR) with false. cbv beta iota.
  destruct (set_ev_slots _ _ _ _) as [[[] s1]|] eqn:E1; [|done]. apply set_ev_slots_view in E1 as [V1 E1].
  destruct (ioev_stat _ _ _) as [[[] s2]|] eqn:E2; [|done]. intros [= <- <-]. split; [done|].
  apply (ioev_stat_view _ _ _ e) in E2; [|by rewrite E1]. change (view (set_io_cnt s2 _)) with (view s2).
  rewrite E2, V1. done.
Qed.

Lemma remove_io_view s id e x rt s' : ev_ioevs s !! id = Some e -> io_activated e <> FK_IOEV_INIT ->
  iompx_remove (ev_iompx s) (io_fd e) (io_type e) = Some (FK_EV_OK, x) -> fk_ev_remove_ioev id s = Some (rt, s') ->
  rt = FK_EV_OK /\ view s' = v_set_ios (view s) (<[id := (io_fd e, io_type e, io_cb e, false)]> (v_ios (view s))).
Proof.
  intros He Hst Ha. unfold fk_ev_remove_ioev, get_ioev. st_run. rewrite He.
  rewrite (proj2 (Z.eqb_neq _ _) Hst). cbv beta iota. rewrite Ha. cbv beta iota. change (FK_EV_OK =? FK_EV_ERR) with false. cbv beta iota.
  destruct ((if _ : bool then drop_act id else _) _) as [[[] s0]|] eqn:E0; [|done].
  assert (view s0 = view s /\ ev_ioevs s0 = ev_ioevs s) as [V0 I0].
  { revert E0. unfold drop_act. st_run. repeat case_match; intros; by simplify_eq. }
  destruct (ioev_stat _ _ _) as [[[] s2]|] eqn:E2; [|done].
  destruct (set_ev_slots _ _ _ _) as [[[] s1]|] eqn:E1; [|done]. apply set_ev_slots_view in E1 as [V1 E1].
  intros [= <- <-]. split; [done|].
  apply (ioev_stat_view _ _ _ e) in E2; [|by rewrite I0]. change (view (set_io_cnt s1 _)) with (view s1).
  by rewrite V1, E2, V0.
Qed.

Lemma tmev_stat_view s id st t s' : ev_tmevs s !! id = Some t -> tmev_stat id st s = Some (tt, s') ->
  view s' = v_set_tms (view s) (<[id := (tm_type t, tm_interval t, tm_cb t, negb (st =? FK_TMEV_INIT))]> (v_tms (view s))).
Proof. intros He. rewrite (tmev_stat_ok _ _ _ t He). intros [= <-]. unfold view. ev_cbn. by rewrite fmap_insert. Qed.

Lemma on_heap_view s f s' : on_heap f s = Some (tt, s') -> view s' = view s /\ ev_tmevs s' = ev_tmevs s.
Proof. unfold on_heap. case_match; intros; by simplify_eq. Qed.

Lemma add_tm_view s id t rt s' : ev_tmevs s !! id = Some t -> tm_expired t = FK_TMEV_INIT -> fk_ev_add_tmev id s = Some (rt, s') ->
  rt = FK_EV_OK /\ view s' = v_set_tms (view s) (<[id := (tm_type t, tm_interval t, tm_cb t, true)]> (v_tms (view s))).
Proof.
  intros Ht Hst. unfold fk_ev_add_tmev, get_tmev. st_run. rewrite Ht, Hst.
  change (negb (FK_TMEV_INIT =? FK_TMEV_INIT)) with false. cbv beta iota.
  destruct (on_heap _ _) as [[[] s1]|] eqn:E1; [|done]. apply on_heap_view in E1 as [V1 T1].
  destruct (tmev_stat _ _ _) as [[[] s2]|] eqn:E2; [|done]. intros [= <- <-]. split; [done|].
  apply (tmev_stat_view _ _ _ t) in E2; [|by rewrite T1]. change (view (set_tm_cnt s2 _)) with (view s2). by rewrite E2, V1.
Qed.

Lemma remove_tm_view s id t rt s' : ev_tmevs s !! id = Some t -> tm_expired t <> FK_TMEV_INIT -> fk_ev_remove_tmev id s = Some (rt, s') ->
  rt = FK_EV_OK /\ view s' = v_set_tms (view s) (<[id := (tm_type t, tm_interval t, tm_cb t, false)]> (v_tms (view s))).
Proof.
  intros Ht Hst. unfold fk_ev_remove_tmev, get_tmev. st_run. rewrite Ht, (proj2 (Z.eqb_neq _ _) Hst).
  destruct ((if _ : bool then on_heap _ else _) _) as [[[] s1]|] eqn:E1; [|done].
  assert (view s1 = view s /\ ev_tmevs s1 = ev_tmevs s) as [V1 T1].
  { destruct (_ =? FK_TMEV_PENDING); [by eapply on_heap_view|by simplify_eq]. }
  destruct ((if _ : bool then drop_exp id else _) _) as [[[] s2]|] eqn:E2; [|done].
  assert (view s2 = view s1 /\ ev_tmevs s2 = ev_tmevs s1) as [V2 T2].
  { revert E2. unfold drop_exp. st_run. repeat case_match; intros; by simplify_eq. }
  destruct ((if _ : bool then drop_old id else _) _) as [[[] s3]|] eqn:E3; [|done].
  assert (view s3 = view s2 /\ ev_tmevs s3 = ev_tmevs s2) as [V3 T3].
  { revert E3. unfold drop_old. st_run. repeat case_match; intros; by simplify_eq. }
  destruct (tmev_stat _ _ _) as [[[] s4]|] eqn:E4; [|done]. intros [= <- <-]. split; [done|].
  apply (tmev_stat_view _ _ _ t) in E4; [|by rewrite T3, T2, T1]. change (view (set_tm_cnt s4 _)) with (view s4).
  by rewrite E4, V3, V2, V1.
Qed.
(** ** Programs *)

Definition does {B} (m : ST mgr B) v (Q : B -> ev_view U -> Prop) : Prop :=
  forall s, ev_inv s -> view s = v -> exists b s', m s = Some (b, s') /\ calls s s' /\ Q b (view s').

Lemma does_ret {B} (b : B) v Q : Q b v -> does (mret b) v Q.
Proof. intros H s _ <-. exists b, s. split; [done|]. split; [apply rtc_refl|done]. Qed.

Lemma does_mono {B} (m : ST mgr B) v (R Q : B -> ev_view U -> Prop) :
  does m v R -> (forall b v', R b v' -> Q b v') -> does m v Q.
Proof. intros Hm H s Hs Hv. destruct (Hm s Hs Hv) as (b & s' & ? & ? & ?). exists b, s'. auto. Qed.

Lemma does_bind {B C} (m : ST mgr B) (k : B -> ST mgr C) v Q :
  does m v (fun b v' => does (k b) v' Q) -> does (m ≫= k) v Q.
Proof.
  intros Hm s Hs Hv. destruct (Hm s Hs Hv) as (b & s1 & E1 & C1 & K).
  destruct (K s1) as (c & s2 & E2 & C2 & HQ); [by apply (calls_ok s s1 Hs)|done|].
  exists c, s2. unfold mbind, ST_bind. rewrite E1. split; [done|]. split; [by etrans|done].
Qed.

Lemma does_seq {B C} (m : ST mgr B) (k : B -> ST mgr C) v R Q :
  does m v R -> (forall b v', R b v' -> does (k b) v' Q) -> does (m ≫= k) v Q.
Proof. intros Hm Hk. apply does_bind. eapply does_mono; [exact Hm|exact Hk]. Qed.

(** A call of the interface. *)
Lemma does_call (c : ev_call U) v Q :
  (forall s, ev_inv s -> view s = v -> legal c s) ->
  (forall s rt s', ev_inv s -> view s = v -> run_call c s = Some (rt, s') -> Q rt (view s')) ->
  does (run_call c) v Q.
Proof.
  intros Hl HQ s Hs Hv. destruct (call_ok c s Hs (Hl s Hs Hv)) as (rt & s' & E & _ & _).
  exists rt, s'. split; [done|]. split; [|by eapply HQ]. apply rtc_once. exists c, rt. split; [by apply Hl|done].
Qed.

Lemma does_void (m : ST mgr unit) v (Q : unit -> ev_view U -> Prop) :
  does (void m) v (fun _ v' => Q tt v') -> does m v Q.
Proof.
  intros H s Hs Hv. destruct (H s Hs Hv) as (b & s' & E & C & HQ). exists tt, s'. split; [|done].
  unfold void in E. revert E. st_run. destruct (m s) as [[[] s1]|]; [|done]. by intros [= <- <-].
Qed.

(** Reading and writing what the callbacks work on. *)
Lemma does_gets {B C} (f : U -> B) (k : B -> ST mgr C) v Q :
  does (k (f (v_user v))) v Q -> does (x ← st_gets (fun s => f (ev_user s)); k x) v Q.
Proof. intros H s Hs <-. destruct (H s Hs eq_refl) as (c & s' & E & R). by exists c, s'. Qed.

Lemma does_user (f : U -> U) v (Q : unit -> ev_view U -> Prop) :
  Q tt (v_set_user v (f (v_user v))) -> does (st_mod (fun s => set_user s (f (ev_user s)))) v Q.
Proof.
  intros H s Hs <-. exists tt, (set_user s (f (ev_user s))). split; [done|]. split; [|done].
  apply rtc_once. by exists (CallUser (f (ev_user s))), 0.
Qed.

Lemma does_lift {B C} (o : option B) b (k : B -> ST mgr C) v Q :
  o = Some b -> does (k b) v Q -> does (x ← st_lift o; k x) v Q.
Proof. intros -> H s Hs Hv. destruct (H s Hs Hv) as (c & s' & E & R). by exists c, s'. Qed.

Lemma does_stop v (Q : unit -> ev_view U -> Prop) : Q tt v -> does fk_ev_stop v Q.
Proof. intros H. apply does_void, (does_call CallStop); [done|]. intros s rt s' _ <-. cbn. st_run. by intros [= <- <-]. Qed.

(** *** I/O events *)

Lemma does_new_io id fd ty cb v (Q : unit -> ev_view U -> Prop) :
  v_ios v !! id = None -> 0 <= fd < v_max v -> single ty ->
  Q tt (v_set_ios v (<[id := (fd, ty, cb, false)]> (v_ios v))) -> does (fk_ioev_create id fd ty cb) v Q.
Proof.
  intros Hid Hfd Ht HQ. apply does_void, (does_call (CallNewIo id fd ty cb)).
  - intros s Hs <-. split; [|by split]. revert Hid. cbn. rewrite lookup_fmap. by destruct (ev_ioevs s !! id).
  - intros s rt s' _ <-. cbn. st_run. intros [= <- <-]. unfold view. ev_cbn. by rewrite fmap_insert.
Qed.

Lemma does_free_io id fd ty cb v (Q : unit -> ev_view U -> Prop) :
  v_ios v !! id = Some (fd, ty, cb, false) ->
  Q tt (v_set_ios v (delete id (v_ios v))) -> does (fk_ioev_destroy id) v Q.
Proof.
  intros Hid HQ. apply does_void, (does_call (CallFreeIo id)).
  - intros s Hs <-. apply v_io_lookup in Hid as (e & He & _ & _ & _ & Ha). exists e. split; [done|by apply active_false].
  - intros s rt s' _ <-. cbn. st_run. intros [= <- <-]. unfold view. ev_cbn. by rewrite fmap_delete.
Qed.

(** Nothing else is added for the descriptor and the type: its cell is free. *)
Lemma free_slot s id fd ty cb : ev_inv s -> v_ios (view s) !! id = Some (fd, ty, cb, false) ->
  (forall id' cb', v_ios (view s) !! id' <> Some (fd, ty, cb', true)) ->
  exists e, ev_ioevs s !! id = Some e /\ io_fd e = fd /\ io_type e = ty /\ io_cb e = cb /\ io_activated e = FK_IOEV_INIT /\
    occupied (ev_read_ev s) (ev_write_ev s) (io_type e) (io_fd e) = false.
Proof.
  intros [I T] Hid Hno. apply v_io_lookup in Hid as (e & He & <- & <- & <- & Ha%active_false). exists e. do 5 (split; [done|]).
  destruct (ii_ev _ _ _ _ _ _ _ I id e He) as (Hfd & Hty & _).
  apply not_true_iff_false. intros [id' Hv]%occupied_some.
  destruct (ii_slot _ _ _ _ _ _ _ I _ _ _ Hty Hv) as (e' & He' & E1 & E2 & E3).
  apply (Hno id' (io_cb e')). cbn. rewrite lookup_fmap, He'. cbn. unfold io_view. rewrite E1, E2. do 2 f_equal.
  unfold active. by rewrite (proj2 (Z.eqb_neq _ _) E3).
Qed.

Lemma does_add_io id fd ty cb v (Q : Z -> ev_view U -> Prop) :
  v_ios v !! id = Some (fd, ty, cb, false) ->
  (forall id' cb', v_ios v !! id' <> Some (fd, ty, cb', true)) ->
  Q FK_EV_OK (v_set_ios v (<[id := (fd, ty, cb, true)]> (v_ios v))) -> does (fk_ev_add_ioev id) v Q.
Proof.
  intros Hid Hno HQ. apply (does_call (CallAddIo id)).
  - intros s Hs <-. destruct (free_slot s id fd ty cb Hs Hid Hno) as (e & He & _ & _ & _ & _ & Hs'). exists e. split; [done|]. by right; right.
  - intros s rt s' Hs <- E. destruct (free_slot s id fd ty cb Hs Hid Hno) as (e & He & <- & <- & <- & Ha & Hsl). destruct Hs as [I T].
    destruct (ii_ev _ _ _ _ _ _ _ I id e He) as (Hfd & Hty & _).
    apply (ii_watch _ _ _ _ _ _ _ I _ _ Hty Hfd) in Hsl.
    destruct (add_reliable _ _ _ _ (ii_mpx _ _ _ _ _ _ _ I) Hfd Hty Hsl) as [x Hx].
    by destruct (add_io_view s id e x rt s' He Ha Hx E) as [-> ->].
Qed.

Lemma does_remove_io id fd ty cb v (Q : Z -> ev_view U -> Prop) :
  v_ios v !! id = Some (fd, ty, cb, true) ->
  Q FK_EV_OK (v_set_ios v (<[id := (fd, ty, cb, false)]> (v_ios v))) -> does (fk_ev_remove_ioev id) v Q.
Proof.
  intros Hid HQ. apply (does_call (CallRemoveIo id)).
  - intros s Hs <-. apply v_io_lookup in Hid as (e & He & _). by exists e.
  - intros s rt s' [I T] <- E. apply v_io_lookup in Hid as (e & He & <- & <- & <- & Ha%active_true).
    destruct (ii_ev _ _ _ _ _ _ _ I id e He) as (Hfd & Hty & _ & Hsl). specialize (Hsl Ha).
    assert (Z.land (watch (ev_iompx s) (io_fd e)) (io_type e) <> 0) as Hw
      by (intros Hw; apply (ii_watch _ _ _ _ _ _ _ I _ _ Hty Hfd) in Hw; apply occupied_slot in Hsl; congruence).
    destruct (remove_reliable _ _ _ _ (ii_mpx _ _ _ _ _ _ _ I) Hfd Hty Hw) as [x Hx].
    by destruct (remove_io_view s id e x rt s' He Ha Hx E) as [-> ->].
Qed.

(** *** Timers *)

Lemma does_new_tm id iv ty cb now v (Q : unit -> ev_view U -> Prop) :
  v_tms v !! id = None ->
  Q tt (v_set_tms v (<[id := (ty, iv, cb, false)]> (v_tms v))) -> does (fk_tmev_create id iv ty cb now) v Q.
Proof.
  intros Hid HQ. apply does_void, (does_call (CallNewTm id iv ty cb now)).
  - intros s Hs <-. revert Hid. cbn. rewrite lookup_fmap. by destruct (ev_tmevs s !! id).
  - intros s rt s' _ <-. cbn. st_run. intros [= <- <-]. unfold view. ev_cbn. by rewrite fmap_insert.
Qed.

Lemma does_free_tm id iv ty cb v (Q : unit -> ev_view U -> Prop) :
  v_tms v !! id = Some (ty, iv, cb, false) ->
  Q tt (v_set_tms v (delete id (v_tms v))) -> does (fk_tmev_destroy id) v Q.
Proof.
  intros Hid HQ. apply does_void, (does_call (CallFreeTm id)).
  - intros s Hs <-. apply v_tm_lookup in Hid as (t & Ht & _ & _ & _ & Ha). exists t. split; [done|by apply added_false].
  - intros s rt s' _ <-. cbn. st_run. intros [= <- <-]. unfold view. ev_cbn. by rewrite fmap_delete.
Qed.

Lemma does_add_tm id iv ty cb v (Q : Z -> ev_view U -> Prop) :
  v_tms v !! id = Some (ty, iv, cb, false) ->
  Q FK_EV_OK (v_set_tms v (<[id := (ty, iv, cb, true)]> (v_tms v))) -> does (fk_ev_add_tmev id) v Q.
Proof.
  intros Hid HQ. apply (does_call (CallAddTm id)).
  - intros s Hs <-. apply v_tm_lookup in Hid as (t & Ht & _). by exists t.
  - intros s rt s' _ <- E. apply v_tm_lookup in Hid as (t & Ht & <- & <- & <- & Ha%added_false).
    by destruct (add_tm_view s id t rt s' Ht Ha E) as [-> ->].
Qed.

Lemma does_remove_tm id iv ty cb v (Q : Z -> ev_view U -> Prop) :
  v_tms v !! id = Some (ty, iv, cb, true) ->
  Q FK_EV_OK (v_set_tms v (<[id := (ty, iv, cb, false)]> (v_tms v))) -> does (fk_ev_remove_tmev id) v Q.
Proof.
  intros Hid HQ. apply (does_call (CallRemoveTm id)).
  - intros s Hs <-. apply v_tm_lookup in Hid as (t & Ht & _). by exists t.
  - intros s rt s' _ <- E. apply v_tm_lookup in Hid as (t & Ht & <- & <- & <- & Ha%added_true).
    by destruct (remove_tm_view s id t rt s' Ht Ha E) as [-> ->].
Qed.
End view.
