(* ===== verification/Select.v ===== *)
(** Models the backend of the event manager over [select], src/src/fk_ev_select.c,
    and shows that it keeps the promises of [MpxLaws]. *)
From S2P Require Import Prelude Util Heap Ev EvProps EvView.

Definition FD_SETSIZE : Z := 1024.

(** An [fd_set] is the set of its bits.  The two work sets are assigned before every
    call of [select], which leaves the ready descriptors in them: they are part of
    its answer. *)
Record fk_select := Select {
  sl_saved_rset : gset Z;
  sl_saved_wset : gset Z;
  sl_max_fd : Z;
  sl_fd_map : list Z
}.

(** The number of bits set in the two work sets and the sets, or an error, which may
    be [EINTR]. *)
Inductive select_ans := SelectReady (total : Z) (rset wset : gset Z) | SelectError (eintr : bool).

Definition fk_select_create (max_files : Z) : option fk_select :=
  if FD_SETSIZE <? max_files then None
  else Some (Select ∅ ∅ (-1) (replicate (Z.to_nat max_files) 0)).

(** The macros on [fd_set] and the array [fd_map] are defined on these descriptors. *)
Definition fd_valid (x : fk_select) (fd : Z) : bool :=
  (0 <=? fd) && (fd <? FD_SETSIZE) && (fd <? zlen (sl_fd_map x)).

Definition set_rset (x : fk_select) (l : gset Z) : fk_select :=
  Select l (sl_saved_wset x) (sl_max_fd x) (sl_fd_map x).
Definition set_wset (x : fk_select) (l : gset Z) : fk_select :=
  Select (sl_saved_rset x) l (sl_max_fd x) (sl_fd_map x).
Definition set_max_fd (x : fk_select) (fd : Z) : fk_select :=
  Select (sl_saved_rset x) (sl_saved_wset x) fd (sl_fd_map x).
Definition set_fd_map (x : fk_select) (fd v : Z) : fk_select :=
  Select (sl_saved_rset x) (sl_saved_wset x) (sl_max_fd x) (zupd (sl_fd_map x) fd v).

Definition fk_select_add (x : fk_select) (fd type : Z) : option (Z * fk_select) :=
  if negb (fd_valid x fd) then None
  else
    let rd := negb (Z.land type FK_IOEV_READ =? 0) in
    let wr := negb (Z.land type FK_IOEV_WRITE =? 0) in
    if rd && bool_decide (fd ∈ sl_saved_rset x) then Some (FK_EV_ERR, x)
    else
      let x := if rd then set_rset x ({[fd]} ∪ sl_saved_rset x) else x in
      if wr && bool_decide (fd ∈ sl_saved_wset x) then Some (FK_EV_ERR, x)
      else
        let x := if wr then set_wset x ({[fd]} ∪ sl_saved_wset x) else x in
        let x := if rd || wr
                 then set_fd_map (if sl_max_fd x <? fd then set_max_fd x fd else x) fd 1
                 else x in
        Some (FK_EV_OK, x).

(** The highest descriptor from [fd] down whose mark is 1. *)
Fixpoint search_max_fd (n : nat) (map : list Z) : Z :=
  match n with
  | O => -1
  | S n' => if bool_decide (znth map (Z.of_nat n') = Some 1) then Z.of_nat n' else search_max_fd n' map
  end.

Definition fk_select_remove (x : fk_select) (fd type : Z) : option (Z * fk_select) :=
  if negb (fd_valid x fd) then None
  else
    let rd := negb (Z.land type FK_IOEV_READ =? 0) in
    let wr := negb (Z.land type FK_IOEV_WRITE =? 0) in
    if rd && negb (bool_decide (fd ∈ sl_saved_rset x)) then Some (FK_EV_ERR, x)
    else
      let x := if rd then set_rset x (sl_saved_rset x ∖ {[fd]}) else x in
      if wr && negb (bool_decide (fd ∈ sl_saved_wset x)) then Some (FK_EV_ERR, x)
      else
        let x := if wr then set_wset x (sl_saved_wset x ∖ {[fd]}) else x in
        let x := if rd && wr then set_fd_map x fd 0 else x in
        let x := if (fd =? sl_max_fd x) && bool_decide (znth (sl_fd_map x) fd = Some 0)
                 then set_max_fd x (search_max_fd (S (Z.to_nat fd)) (sl_fd_map x)) else x in
        Some (FK_EV_OK, x).

(** The loop over the descriptors from [fd] on, [n] of them: the calls of
    [fk_ev_activate_ioev], up to the last ready one. *)
Fixpoint select_calls (n : nat) (fd ready_cnt ready_total : Z) (r w : gset Z) : list (Z * Z) :=
  match n with
  | O => []
  | S n' =>
      let rd := bool_decide (fd ∈ r) in
      let wr := bool_decide (fd ∈ w) in
      let cnt := ready_cnt + Z.b2z rd + Z.b2z wr in
      (fd, Z.lor (if rd then FK_IOEV_READ else 0) (if wr then FK_IOEV_WRITE else 0)) ::
      if cnt =? ready_total then [] else select_calls n' (fd + 1) cnt ready_total r w
  end.

(** [timeout] is dereferenced. *)
Definition fk_select_dispatch (x : fk_select) (timeout : option timeval) (ans : select_ans) :
    option (Z * list (Z * Z) * fk_select) :=
  match timeout with
  | None => None
  | Some _ =>
      match ans with
      | SelectError eintr => Some (if eintr then FK_EV_OK else FK_EV_ERR, [], x)
      | SelectReady total r w =>
          if total =? 0 then Some (FK_EV_OK, [], x)
          else Some (FK_EV_OK, select_calls (Z.to_nat (sl_max_fd x + 1)) 0 0 total r w, x)
      end
  end.

#[export] Instance select_mpx : Mpx fk_select select_ans := {
  iompx_add := fk_select_add;
  iompx_remove := fk_select_remove;
  iompx_dispatch := fk_select_dispatch
}.

(** ** The promises *)

Definition select_watch (x : fk_select) (fd : Z) : Z :=
  Z.lor (if bool_decide (fd ∈ sl_saved_rset x) then FK_IOEV_READ else 0)
        (if bool_decide (fd ∈ sl_saved_wset x) then FK_IOEV_WRITE else 0).

(** Every descriptor watched is marked and not above [max_fd], so that the loop of
    the dispatch reaches it. *)
Record select_inv (n : Z) (x : fk_select) : Prop := {
  so_n : n <= FD_SETSIZE;
  so_map : zlen (sl_fd_map x) = n;
  so_max : sl_max_fd x < n;
  so_in : forall fd, fd ∈ sl_saved_rset x \/ fd ∈ sl_saved_wset x -> 0 <= fd <= sl_max_fd x /\ znth (sl_fd_map x) fd = Some 1
}.

Lemma select_create_ok n : 0 <= n <= FD_SETSIZE ->
  exists x, fk_select_create n = Some x /\ select_inv n x /\ forall fd, select_watch x fd = 0.
Proof.
  intros Hn. unfold fk_select_create. rewrite (proj2 (Z.ltb_ge _ _)) by lia. eexists. split; [done|].
  split; [|done]. split; cbn; [lia|rewrite zlen_replicate; lia|lia|set_solver].
Qed.

Lemma fd_valid_ok n x fd : select_inv n x -> 0 <= fd < n -> fd_valid x fd = true.
Proof. intros [Hn Hm _ _] Hfd. unfold fd_valid. rewrite Hm. unfold FD_SETSIZE in *. repeat (apply andb_true_intro; split); lia. Qed.

(** What is watched depends on the two sets only. *)
Lemma watch_marked (c : bool) x m fd v f :
  select_watch (set_fd_map (if c then set_max_fd x m else x) fd v) f = select_watch x f.
Proof. by destruct c. Qed.

Lemma in_union_ne (f fd : Z) (l : gset Z) : f <> fd -> f ∈ {[fd]} ∪ l <-> f ∈ l.
Proof. set_solver. Qed.
Lemma in_diff_ne (f fd : Z) (l : gset Z) : f <> fd -> f ∈ l ∖ {[fd]} <-> f ∈ l.
Proof. set_solver. Qed.
Lemma in_union_eq (fd : Z) (l : gset Z) : fd ∈ {[fd]} ∪ l.
Proof. set_solver. Qed.
Lemma in_diff_eq (fd : Z) (l : gset Z) : fd ∉ l ∖ {[fd]}.
Proof. set_solver. Qed.

Lemma watch_add_r x fd f : fd ∉ sl_saved_rset x -> select_watch (set_rset x ({[fd]} ∪ sl_saved_rset x)) f =
  if bool_decide (f = fd) then Z.lor (select_watch x fd) FK_IOEV_READ else select_watch x f.
Proof.
  intros Hf. unfold select_watch. cbn [set_rset sl_saved_rset sl_saved_wset].
  destruct (decide (f = fd)) as [->|Hne].
  - rewrite (bool_decide_eq_true_2 _ (in_union_eq fd _)), (bool_decide_eq_true_2 (fd = fd)) by done.
    rewrite (bool_decide_eq_false_2 _ Hf). by destruct (bool_decide _).
  - rewrite (bool_decide_eq_false_2 (f = fd)) by done. by rewrite (bool_decide_ext _ _ (in_union_ne f fd _ Hne)).
Qed.

Lemma watch_add_w x fd f : fd ∉ sl_saved_wset x -> select_watch (set_wset x ({[fd]} ∪ sl_saved_wset x)) f =
  if bool_decide (f = fd) then Z.lor (select_watch x fd) FK_IOEV_WRITE else select_watch x f.
Proof.
  intros Hf. unfold select_watch. cbn [set_wset sl_saved_rset sl_saved_wset].
  destruct (decide (f = fd)) as [->|Hne].
  - rewrite (bool_decide_eq_true_2 _ (in_union_eq fd _)), (bool_decide_eq_true_2 (fd = fd)) by done.
    rewrite (bool_decide_eq_false_2 _ Hf). by destruct (bool_decide _).
  - rewrite (bool_decide_eq_false_2 (f = fd)) by done. by rewrite (bool_decide_ext _ _ (in_union_ne f fd _ Hne)).
Qed.

Lemma watch_del_r x fd f : select_watch (set_rset x (sl_saved_rset x ∖ {[fd]})) f =
  if bool_decide (f = fd) then Z.land (select_watch x fd) (Z.lnot FK_IOEV_READ) else select_watch x f.
Proof.
  unfold select_watch. cbn [set_rset sl_saved_rset sl_saved_wset]. destruct (decide (f = fd)) as [->|Hne].
  - rewrite (bool_decide_eq_false_2 _ (in_diff_eq fd _)), (bool_decide_eq_true_2 (fd = fd)) by done.
    by destruct (bool_decide _), (bool_decide _).
  - rewrite (bool_decide_eq_false_2 (f = fd)) by done. by rewrite (bool_decide_ext _ _ (in_diff_ne f fd _ Hne)).
Qed.

Lemma watch_del_w x fd f : select_watch (set_wset x (sl_saved_wset x ∖ {[fd]})) f =
  if bool_decide (f = fd) then Z.land (select_watch x fd) (Z.lnot FK_IOEV_WRITE) else select_watch x f.
Proof.
  unfold select_watch. cbn [set_wset sl_saved_rset sl_saved_wset]. destruct (decide (f = fd)) as [->|Hne].
  - rewrite (bool_decide_eq_false_2 _ (in_diff_eq fd _)), (bool_decide_eq_true_2 (fd = fd)) by done.
    by destruct (bool_decide _), (bool_decide _).
  - rewrite (bool_decide_eq_false_2 (f = fd)) by done. by rewrite (bool_decide_ext _ _ (in_diff_ne f fd _ Hne)).
Qed.

Lemma watch_in x fd : (fd ∈ sl_saved_rset x <-> Z.land (select_watch x fd) FK_IOEV_READ = FK_IOEV_READ) /\
  (fd ∈ sl_saved_wset x <-> Z.land (select_watch x fd) FK_IOEV_WRITE = FK_IOEV_WRITE) /\
  (fd ∉ sl_saved_rset x <-> Z.land (select_watch x fd) FK_IOEV_READ = 0) /\
  (fd ∉ sl_saved_wset x <-> Z.land (select_watch x fd) FK_IOEV_WRITE = 0).
Proof. unfold select_watch. by destruct (decide (fd ∈ sl_saved_rset x)), (decide (fd ∈ sl_saved_wset x)); rewrite !bool_decide_decide; repeat case_decide. Qed.

(** Marking a descriptor that joins one of the sets. *)
Lemma mark_ok n x x' fd : select_inv n x -> 0 <= fd < n -> sl_max_fd x' = sl_max_fd x -> sl_fd_map x' = sl_fd_map x ->
  (forall f, f ∈ sl_saved_rset x' \/ f ∈ sl_saved_wset x' -> f = fd \/ f ∈ sl_saved_rset x \/ f ∈ sl_saved_wset x) ->
  select_inv n (set_fd_map (if sl_max_fd x' <? fd then set_max_fd x' fd else x') fd 1).
Proof.
  intros [Hn Hm Hx Hi] Hfd E1 E2 H. rewrite E1. split; cbn; [done| | |].
  - rewrite zlen_zupd. case_match; cbn; by rewrite E2.
  - destruct (Z.ltb_spec (sl_max_fd x) fd); cbn; [lia|by rewrite E1].
  - intros f Hf. assert (f = fd \/ f ∈ sl_saved_rset x \/ f ∈ sl_saved_wset x) as [->|Hold] by (apply H; by case_match).
    + destruct (Z.ltb_spec (sl_max_fd x) fd); cbn; rewrite ?E1, ?E2; (split; [lia|apply znth_zupd_eq; lia]).
    + destruct (Hi f Hold). destruct (decide (f = fd)) as [->|Hne];
        destruct (Z.ltb_spec (sl_max_fd x) fd); cbn; rewrite ?E1, ?E2; (split; [lia|]);
        [apply znth_zupd_eq; lia|apply znth_zupd_eq; lia|by rewrite znth_zupd_ne by lia|by rewrite znth_zupd_ne by lia].
Qed.

Lemma select_add_law n x fd type : select_inv n x -> 0 <= fd < n -> single type ->
  exists rt x', fk_select_add x fd type = Some (rt, x') /\ select_inv n x' /\
    ((rt = FK_EV_OK /\ Z.land (select_watch x fd) type = 0 /\
      forall fd', select_watch x' fd' = if bool_decide (fd' = fd) then Z.lor (select_watch x fd) type else select_watch x fd') \/
     (rt = FK_EV_ERR /\ forall fd', select_watch x' fd' = select_watch x fd')).
Proof.
  intros Ho Hfd Ht. unfold fk_select_add. rewrite (fd_valid_ok n) by done.
  destruct (watch_in x fd) as (_ & _ & Wr & Ww).
  destruct (single_bits type Ht) as [(-> & -> & ->)|(-> & -> & ->)]; cbn [negb andb orb].
  - case_bool_decide as E; [eexists _, _; split; [done|]; split; [done|by right]|].
    eexists _, _. split; [done|]. split; [apply (mark_ok n x); try done; cbn; set_solver|]. left.
    split; [done|]. split; [by apply Wr|]. intros f. rewrite watch_marked. by apply watch_add_r.
  - case_bool_decide as E; [eexists _, _; split; [done|]; split; [done|by right]|].
    eexists _, _. split; [done|]. split; [apply (mark_ok n x); try done; cbn; set_solver|]. left.
    split; [done|]. split; [by apply Ww|]. intros f. rewrite watch_marked. by apply watch_add_w.
Qed.

Lemma select_remove_law n x fd type : select_inv n x -> 0 <= fd < n -> single type ->
  exists rt x', fk_select_remove x fd type = Some (rt, x') /\ select_inv n x' /\
    ((rt = FK_EV_OK /\ Z.land (select_watch x fd) type = type /\
      forall fd', select_watch x' fd' = if bool_decide (fd' = fd) then Z.land (select_watch x fd) (Z.lnot type) else select_watch x fd') \/
     (rt = FK_EV_ERR /\ forall fd', select_watch x' fd' = select_watch x fd')).
Proof.
  intros Ho Hfd Ht. unfold fk_select_remove. rewrite (fd_valid_ok n) by done.
  destruct (watch_in x fd) as (Wr & Ww & _ & _). pose proof Ho as [Hn Hm Hx Hi].
  destruct (single_bits type Ht) as [(-> & -> & ->)|(-> & -> & ->)]; cbn [negb andb orb].
  - case_bool_decide as E; cbn [negb]; [|eexists _, _; split; [done|]; split; [done|by right]].
    destruct (Hi fd (or_introl E)) as [Hle Hz]. cbn [set_rset sl_max_fd sl_fd_map sl_saved_rset].
    rewrite (bool_decide_eq_false_2 (znth _ _ = Some 0)) by (rewrite Hz; done). rewrite andb_false_r.
    eexists _, _. split; [done|]. split.
    + split; cbn; try done. intros f Hf. apply Hi. set_solver.
    + left. split; [done|]. split; [by apply Wr|]. intros f. apply watch_del_r.
  - case_bool_decide as E; cbn [negb]; [|eexists _, _; split; [done|]; split; [done|by right]].
    destruct (Hi fd (or_intror E)) as [Hle Hz]. cbn [set_wset sl_max_fd sl_fd_map sl_saved_wset].
    rewrite (bool_decide_eq_false_2 (znth _ _ = Some 0)) by (rewrite Hz; done). rewrite andb_false_r.
    eexists _, _. split; [done|]. split.
    + split; cbn; try done. intros f Hf. apply Hi. set_solver.
    + left. split; [done|]. split; [by apply Ww|]. intros f. apply watch_del_w.
Qed.

Lemma select_calls_range n : forall fd cnt total r w, Forall (fun p => fd <= p.1 < fd + Z.of_nat n) (select_calls n fd cnt total r w).
Proof.
  induction n as [|n IH]; intros fd cnt total r w; cbn [select_calls]; [constructor|]. constructor; [cbn; lia|].
  case_match; [constructor|]. eapply Forall_impl; [apply IH|]. cbn. lia.
Qed.

Lemma select_dispatch_law n x (pto : option timeval) (ans : select_ans) : select_inv n x -> pto <> None ->
  exists rt acts x', fk_select_dispatch x pto ans = Some (rt, acts, x') /\ select_inv n x' /\
    (forall fd, select_watch x' fd = select_watch x fd) /\ Forall (fun fdt => 0 <= fdt.1 < n) acts.
Proof.
  intros Ho Hp. pose proof Ho as [Hn Hm Hx Hi]. unfold fk_select_dispatch. destruct pto as [tv|]; [|done].
  destruct ans as [total r w|eintr]; [|by eexists _, _, _].
  destruct (total =? 0); [by eexists _, _, _|].
  eexists _, _, _. split; [done|]. split; [done|]. split; [done|].
  eapply Forall_impl; [apply select_calls_range|]. cbn. lia.
Qed.

#[export] Instance select_laws : MpxLaws fk_select select_ans := {
  mpx_ok := select_inv;
  watch := select_watch;
  refuses _ := true;
  add_law n x fd type Ho Hfd Ht _ := select_add_law n x fd type Ho Hfd Ht;
  remove_law := select_remove_law;
  answers _ _ pto _ := pto <> None;
  dispatch_law := select_dispatch_law
}.

(** [select] only takes descriptors from the sets it is given: then it names none that is
    not watched. *)
Lemma select_calls_in n : forall fd cnt total r w, Forall (fun p =>
  (Z.land p.2 FK_IOEV_READ <> 0 -> p.1 ∈ r) /\ (Z.land p.2 FK_IOEV_WRITE <> 0 -> p.1 ∈ w)) (select_calls n fd cnt total r w).
Proof.
  induction n as [|n IH]; intros fd cnt total r w; cbn [select_calls]; [constructor|]. constructor.
  - cbn [fst snd]. do 2 case_bool_decide; cbn; done.
  - case_match; [constructor|apply IH].
Qed.

Lemma select_reports x total r w : r ⊆ sl_saved_rset x -> w ⊆ sl_saved_wset x -> reports_watched x (SelectReady total r w).
Proof.
  intros Hr Hw [tv|] rt acts x' E; [|done]. cbn in E. destruct (total =? 0); [injection E as _ <- _; constructor|].
  injection E as _ <- _. eapply Forall_impl; [apply select_calls_in|]. intros [fd ty] [H1 H2] t Ht Hl. cbn [fst snd] in *.
  destruct (watch_in x fd) as (W1 & W2 & _). destruct Ht as [-> | ->]; cbn [watch select_laws].
  - rewrite (proj1 W1 (Hr _ (H1 Hl))). done.
  - rewrite (proj1 W2 (Hw _ (H2 Hl))). done.
Qed.

Lemma select_add_reliable n x fd type : select_inv n x -> 0 <= fd < n -> single type -> Z.land (select_watch x fd) type = 0 ->
  exists x', fk_select_add x fd type = Some (FK_EV_OK, x').
Proof.
  intros Ho Hfd Ht Hw. destruct (watch_in x fd) as (_ & _ & Wr & Ww). unfold fk_select_add. rewrite (fd_valid_ok n) by done.
  destruct (single_bits type Ht) as [(-> & -> & ->)|(-> & -> & ->)]; cbn [negb andb orb];
    rewrite bool_decide_eq_false_2 by (by apply Wr || by apply Ww); by eexists.
Qed.

Lemma select_remove_reliable n x fd type : select_inv n x -> 0 <= fd < n -> single type -> Z.land (select_watch x fd) type <> 0 ->
  exists x', fk_select_remove x fd type = Some (FK_EV_OK, x').
Proof.
  intros Ho Hfd Ht Hw. destruct (watch_in x fd) as (_ & _ & Wr & Ww). unfold fk_select_remove. rewrite (fd_valid_ok n) by done.
  destruct (single_bits type Ht) as [(-> & -> & ->)|(-> & -> & ->)]; cbn [negb andb orb].
  - rewrite bool_decide_eq_true_2; [by eexists|]. destruct (decide (fd ∈ sl_saved_rset x)) as [|Hn]; [done|]. by apply Wr in Hn.
  - rewrite bool_decide_eq_true_2; [by eexists|]. destruct (decide (fd ∈ sl_saved_wset x)) as [|Hn]; [done|]. by apply Ww in Hn.
Qed.

#[export] Instance select_reliable : MpxReliable fk_select select_ans := {
  add_reliable := select_add_reliable;
  remove_reliable := select_remove_reliable
}.

(** ** An event loop over select *)

Section example.
Abbreviation mgr := (fk_evmgr fk_select unit).

(** The callback of an event removes the event [cb], that of a timer keeps it. *)
Definition ex_iocb (cb fd type : Z) : ST mgr unit := fun s =>
  match ev_ioevs s !! cb with
  | Some _ => (_ ← fk_ev_remove_ioev cb; mret tt) s
  | None => Some (tt, s)
  end.
Definition ex_tmcb (cb interval type : Z) : ST mgr Z := mret 0.
Definition ex_time : ST mgr timeval := mret (Timeval 100 0).

Definition ex_select : fk_select := Select ∅ ∅ (-1) (replicate 8 0).
Definition ex_init : mgr := fk_ev_init 8 (malloced 8) (malloced 8) ex_select tt.

(** An event on the descriptor 3 and a timer are added. *)
Definition ex_calls : list (ev_call unit) :=
  [CallNewIo 7 3 FK_IOEV_READ 7; CallAddIo 7; CallNewTm 9 1000 FK_TMEV_CYCLE 9 (Timeval 50 0); CallAddTm 9].
Definition ex_added : mgr := default ex_init (checked_calls ex_calls ex_init).

Lemma ex_iocb_ok id e s : ev_inv s -> ev_ioevs s !! id = Some e -> io_activated e = FK_IOEV_PENDING ->
  exists s', ex_iocb (io_cb e) (io_fd e) (io_type e) s = Some (tt, s') /\ calls s s'.
Proof.
  intros Hs _ _. unfold ex_iocb. destruct (ev_ioevs s !! io_cb e) as [e'|] eqn:E; [|exists s; split; [done|apply rtc_refl]].
  destruct (remove_ioev_ok s (io_cb e) e' Hs E) as (rt & s' & Er & _). exists s'. split.
  - unfold mbind, ST_bind. by rewrite Er.
  - apply rtc_once. exists (CallRemoveIo (io_cb e)), rt. split; [by eexists|exact Er].
Qed.

Lemma ex_tmcb_ok id t s : ev_inv s -> ev_tmevs s !! id = Some t -> tm_expired t = FK_TMEV_OLD ->
  exists rt s', ex_tmcb (tm_cb t) (tm_interval t) (tm_type t) s = Some (rt, s') /\ calls s s' /\
    (rt = 0 -> exists t', ev_tmevs s' !! id = Some t' /\ tm_expired t' = FK_TMEV_OLD).
Proof. intros _ Ht Hst. exists 0, s. split; [done|]. split; [apply rtc_refl|]. by exists t. Qed.

Lemma ex_time_ok s : exists t u, ex_time s = Some (t, set_user s u).
Proof. exists (Timeval 100 0), tt. destruct s as [? ? ? ? ? ? ? ? ? ? ? ? ? []]. done. Qed.

Lemma ev_never_stuck_witness : ev_act_ioev ex_added = [] /\
  exists rt s', fk_ev_dispatch ex_iocb ex_tmcb ex_time (SelectReady 1 {[3]} ∅) ex_added = Some (rt, s') /\
    (rt = FK_EV_OK -> ev_act_ioev s' = [] /\ ev_exp_tmev s' = []).
Proof.
  split; [vm_compute; reflexivity|].
  destruct (select_create_ok 8) as (x & Ex & Hx & Hw); [unfold FD_SETSIZE; lia|].
  assert (x = ex_select) as -> by (vm_compute in Ex; injection Ex as <-; reflexivity).
  assert (checked_calls ex_calls ex_init = Some ex_added) as H by (vm_compute; reflexivity).
  assert (fk_ev_get_nearest_tmev ex_added = Some 9) as Hn by (vm_compute; reflexivity).
  pose proof (calls_steps ex_iocb ex_tmcb ex_time ex_init ex_added (checked_calls_ok _ _ _ H)) as Hr.
  assert (unwritten 8 (malloced 8)) as F by by apply malloced_unwritten.
  destruct (ev_never_stuck ex_iocb ex_tmcb ex_time 8 _ _ ex_select tt ex_added ex_iocb_ok ex_tmcb_ok ex_time_ok
    F F Hx Hw Hr) as (Hs & _ & Hd & _).
  assert (answered ex_added (SelectReady 1 {[3]} ∅)) as Ha.
  { intros pto Hp Hpto. apply Hp in Hpto. rewrite Hn in Hpto. discriminate Hpto. }
  apply Hd; [exact Ha|]. apply reports_wrote; [exact Hs|exact Ha|]. apply select_reports; [|set_solver].
  assert (sl_saved_rset (ev_iompx ex_added) = {[3]}) as -> by (vm_compute; reflexivity). done.
Defined.
End example.
