(* ===== verification/Epoll.v ===== *)
(** Models the backend of the event manager over [epoll], src/src/fk_ev_epoll.c: the
    kernel is told exactly what the events of the manager ask for, and the arrays of
    the manager are read where they were never written when a connection hangs up.

    The kernel is a parameter: [epoll_ctl] gives 0 or -1 and the new state of the
    kernel, whose interest list is [interest]. *)
From S2P Require Import Prelude Util Heap Ev EvProps EvView.

Definition EPOLL_CTL_ADD : Z := 1.
Definition EPOLL_CTL_DEL : Z := 2.
Definition EPOLL_CTL_MOD : Z := 3.
Definition EPOLLIN : Z := 1.
Definition EPOLLOUT : Z := 4.
Definition EPOLLERR : Z := 8.
Definition EPOLLHUP : Z := 16.

(** What [epoll_wait] answers: descriptors and events, or an error, which may be
    [EINTR]. *)
Inductive epoll_ans := EpollEvents (l : list (Z * Z)) | EpollError (eintr : bool).

Record fk_epoll (K : Type) := Epoll { ep_max_evs : Z; ep_efd : K; ep_emask : list Z }.
Arguments Epoll {K} _ _ _.
Arguments ep_max_evs {K} _.
Arguments ep_efd {K} _.
Arguments ep_emask {K} _.

(** The mask of [epoll] for types of events. *)
Definition epoll_bits (type : Z) : Z :=
  Z.lor (if Z.land type FK_IOEV_READ =? 0 then 0 else EPOLLIN)
        (if Z.land type FK_IOEV_WRITE =? 0 then 0 else EPOLLOUT).

Section epoll.
Context {K : Type} (epoll_ctl : K -> Z -> Z -> Z -> Z * K).
Implicit Types (x : fk_epoll K).

(** [emask] is allocated with the size of a pointer per descriptor. *)
Definition fk_epoll_create (efd : K) (max_files : Z) : fk_epoll K :=
  Epoll max_files efd (replicate (Z.to_nat (8 * max_files)) 0).

Definition fk_epoll_add x (fd type : Z) : option (Z * fk_epoll K) :=
  otp ← znth (ep_emask x) fd;
  if negb (Z.land type otp =? 0) then Some (FK_EV_ERR, x)
  else
    let oev := epoll_bits otp in
    let nev := epoll_bits type in
    let op := if oev =? 0 then EPOLL_CTL_ADD else EPOLL_CTL_MOD in
    let '(rt, k) := epoll_ctl (ep_efd x) op fd (Z.lor oev nev) in
    if rt <? 0 then Some (FK_EV_ERR, Epoll (ep_max_evs x) k (ep_emask x))
    else Some (FK_EV_OK, Epoll (ep_max_evs x) k (zupd (ep_emask x) fd (Z.lor otp type mod 256))).

Definition fk_epoll_remove x (fd type : Z) : option (Z * fk_epoll K) :=
  otp ← znth (ep_emask x) fd;
  if Z.land type otp =? 0 then Some (FK_EV_ERR, x)
  else
    let oev := epoll_bits otp in
    let nev := epoll_bits type in
    let op := if oev =? nev then EPOLL_CTL_DEL else EPOLL_CTL_MOD in
    let '(rt, k) := epoll_ctl (ep_efd x) op fd (Z.land oev (Z.lnot nev)) in
    if rt <? 0 then Some (FK_EV_ERR, Epoll (ep_max_evs x) k (ep_emask x))
    else Some (FK_EV_OK, Epoll (ep_max_evs x) k (zupd (ep_emask x) fd (Z.land otp (Z.lnot type) mod 256))).

(** The type of the event that [epoll] reports. *)
Definition epoll_type (events : Z) : Z :=
  Z.lor (if Z.land events (Z.lor EPOLLIN (Z.lor EPOLLHUP EPOLLERR)) =? 0 then 0 else FK_IOEV_READ)
        (if Z.land events (Z.lor EPOLLOUT (Z.lor EPOLLHUP EPOLLERR)) =? 0 then 0 else FK_IOEV_WRITE).

(** The time limit only goes to [epoll_wait]. *)
Definition fk_epoll_dispatch x (timeout : option timeval) (ans : epoll_ans) :
    option (Z * list (Z * Z) * fk_epoll K) :=
  match ans with
  | EpollError eintr => Some (if eintr then FK_EV_OK else FK_EV_ERR, [], x)
  | EpollEvents l => Some (FK_EV_OK, (fun '(fd, events) => (fd, epoll_type events)) <$> l, x)
  end.

Definition epoll_mpx : Mpx (fk_epoll K) epoll_ans :=
  Build_Mpx _ _ fk_epoll_add fk_epoll_remove fk_epoll_dispatch.

(** ** The promises *)

(** What the code relies on: [epoll_ctl] fails and changes nothing, or registers,
    changes or removes the descriptor, when it is not yet, or already, there. *)
Context (interest : K -> Z -> option Z).
Definition ctl_spec : Prop := forall k op fd ev,
  (op = EPOLL_CTL_ADD /\ interest k fd = None) \/
  ((op = EPOLL_CTL_MOD \/ op = EPOLL_CTL_DEL) /\ is_Some (interest k fd)) ->
  let '(rt, k') := epoll_ctl k op fd ev in
  (rt < 0 /\ forall f, interest k' f = interest k f) \/
  (0 <= rt /\ forall f, interest k' f =
    if bool_decide (f = fd) then if op =? EPOLL_CTL_DEL then None else Some ev else interest k f).
Hypothesis ctl_ok : ctl_spec.

Definition epoll_mask x (fd : Z) : Z := default 0 (znth (ep_emask x) fd).

(** The interest of the kernel in a descriptor of this mask. *)
Definition kernel_mask (m : Z) : option Z := if m =? 0 then None else Some (epoll_bits m).

Record epoll_ok (n : Z) x : Prop := {
  po_len : n <= zlen (ep_emask x);
  po_range : forall fd, 0 <= epoll_mask x fd < 4;
  po_kernel : forall fd, interest (ep_efd x) fd = kernel_mask (epoll_mask x fd);
  po_out : forall fd, epoll_mask x fd <> 0 -> 0 <= fd < n
}.

Lemma epoll_create_ok n k : 0 <= n -> (forall fd, interest k fd = None) ->
  epoll_ok n (fk_epoll_create k n) /\ forall fd, epoll_mask (fk_epoll_create k n) fd = 0.
Proof.
  intros Hn Hk. assert (forall fd, epoll_mask (fk_epoll_create k n) fd = 0) as Hm.
  { intros fd. unfold epoll_mask, fk_epoll_create, znth. cbn [ep_emask]. case_match; [done|].
    destruct (replicate _ 0 !! _) eqn:E; [|done]. by apply lookup_replicate in E as [-> _]. }
  split; [|done]. split.
  - cbn [ep_emask fk_epoll_create]. rewrite zlen_replicate by lia. lia.
  - intros fd. rewrite Hm. lia.
  - intros fd. by rewrite Hm, Hk.
  - intros fd. by rewrite Hm.
Qed.

(** The masks there are. *)
Lemma mask_cases m : 0 <= m < 4 -> m = 0 \/ m = 1 \/ m = 2 \/ m = 3.
Proof. lia. Qed.

Ltac mask_cases Hm Ht :=
  destruct (mask_cases _ Hm) as [E|[E|[E|E]]], Ht as [->| ->]; rewrite E in *.

Lemma mask_upd x k fd v n : 0 <= fd < n -> n <= zlen (ep_emask x) ->
  forall f, epoll_mask (Epoll (ep_max_evs x) k (zupd (ep_emask x) fd v)) f = if bool_decide (f = fd) then v else epoll_mask x f.
Proof.
  intros Hfd Hn f. unfold epoll_mask. cbn [ep_emask]. destruct (decide (f = fd)) as [->|Hne].
  - by rewrite bool_decide_eq_true_2, znth_zupd_eq by (done || lia).
  - by rewrite bool_decide_eq_false_2, znth_zupd_ne by (done || lia).
Qed.

Lemma emask_at n x fd : epoll_ok n x -> 0 <= fd < n -> znth (ep_emask x) fd = Some (epoll_mask x fd).
Proof.
  intros [Hl _ _ _] Hfd. destruct (znth_is_Some (ep_emask x) fd) as [m Hm]; [lia|]. unfold epoll_mask. by rewrite Hm.
Qed.

(** The state after the kernel accepted a new mask [m] for [fd]. *)
Lemma epoll_accepted n x k fd m : epoll_ok n x -> 0 <= fd < n -> 0 <= m < 4 ->
  (forall f, interest k f = if bool_decide (f = fd) then kernel_mask m else interest (ep_efd x) f) ->
  epoll_ok n (Epoll (ep_max_evs x) k (zupd (ep_emask x) fd m)).
Proof.
  intros [Hl Hr Hk Ho] Hfd Hm Hi. pose proof (mask_upd x k fd m n Hfd Hl) as Hu. split.
  - cbn. by rewrite zlen_zupd.
  - intros f. rewrite Hu. by case_bool_decide.
  - intros f. cbn [ep_efd]. rewrite Hi, Hu, Hk. by case_bool_decide.
  - intros f. rewrite Hu. case_bool_decide; [by subst|apply Ho].
Qed.

Lemma epoll_refused n x k : epoll_ok n x -> (forall f, interest k f = interest (ep_efd x) f) ->
  epoll_ok n (Epoll (ep_max_evs x) k (ep_emask x)).
Proof. intros [Hl Hr Hk Ho] Hi. split; try done. intros f. cbn [ep_efd]. rewrite Hi. apply Hk. Qed.

Lemma epoll_add_law n x fd type : epoll_ok n x -> 0 <= fd < n -> single type ->
  exists rt x', fk_epoll_add x fd type = Some (rt, x') /\ epoll_ok n x' /\
    ((rt = FK_EV_OK /\ Z.land (epoll_mask x fd) type = 0 /\
      forall fd', epoll_mask x' fd' = if bool_decide (fd' = fd) then Z.lor (epoll_mask x fd) type else epoll_mask x fd') \/
     (rt = FK_EV_ERR /\ forall fd', epoll_mask x' fd' = epoll_mask x fd')).
Proof.
  intros Ho Hfd Ht. pose proof (po_range _ _ Ho fd) as Hr. unfold fk_epoll_add.
  rewrite (emask_at n x fd Ho Hfd). cbn [mbind option_bind].
  destruct (Z.eqb_spec (Z.land type (epoll_mask x fd)) 0) as [Ez|Ez]; cbn [negb]; [|eexists _, _; split; [done|]; split; [done|by right]].
  rewrite Z.land_comm in Ez.
  set (op := if epoll_bits (epoll_mask x fd) =? 0 then EPOLL_CTL_ADD else EPOLL_CTL_MOD).
  set (ev := Z.lor (epoll_bits (epoll_mask x fd)) (epoll_bits type)).
  assert (0 <= Z.lor (epoll_mask x fd) type < 4 /\ kernel_mask (Z.lor (epoll_mask x fd) type) = Some ev /\
    Z.lor (epoll_mask x fd) type mod 256 = Z.lor (epoll_mask x fd) type) as (Hm & Hk & Hmod)
    .
  { unfold ev; clear ev op. mask_cases Hr Ht. all: try (by vm_compute in Ez). all: split_and!; done. }
  pose proof (ctl_ok (ep_efd x) op fd ev) as Hc. destruct (epoll_ctl (ep_efd x) op fd ev) as [rt k].
  assert ((op =? EPOLL_CTL_DEL) = false) as Hop by (unfold op; by destruct (_ =? 0)). rewrite Hop in Hc.
  destruct Hc as [[Hrt Hi]|[Hrt Hi]].
  - rewrite (po_kernel _ _ Ho). unfold op. mask_cases Hr Ht; cbn; try (by left); right; (split; [by left|by eexists]).
  - rewrite (proj2 (Z.ltb_lt _ _)) by lia. eexists _, _. split; [done|]. split; [by apply epoll_refused|by right].
  - rewrite (proj2 (Z.ltb_ge _ _)) by lia. rewrite Hmod. eexists _, _. split; [done|].
    split; [apply epoll_accepted; [done|done|done|by rewrite Hk]|]. left. split; [done|]. split; [done|].
    intros f. by rewrite (mask_upd x k fd _ n Hfd (po_len _ _ Ho)).
Qed.

Lemma epoll_remove_law n x fd type : epoll_ok n x -> 0 <= fd < n -> single type ->
  exists rt x', fk_epoll_remove x fd type = Some (rt, x') /\ epoll_ok n x' /\
    ((rt = FK_EV_OK /\ Z.land (epoll_mask x fd) type = type /\
      forall fd', epoll_mask x' fd' = if bool_decide (fd' = fd) then Z.land (epoll_mask x fd) (Z.lnot type) else epoll_mask x fd') \/
     (rt = FK_EV_ERR /\ forall fd', epoll_mask x' fd' = epoll_mask x fd')).
Proof.
  intros Ho Hfd Ht. pose proof (po_range _ _ Ho fd) as Hr. unfold fk_epoll_remove.
  rewrite (emask_at n x fd Ho Hfd). cbn [mbind option_bind].
  destruct (Z.eqb_spec (Z.land type (epoll_mask x fd)) 0) as [Ez|Ez]; [eexists _, _; split; [done|]; split; [done|by right]|].
  set (op := if epoll_bits (epoll_mask x fd) =? epoll_bits type then EPOLL_CTL_DEL else EPOLL_CTL_MOD).
  set (ev := Z.land (epoll_bits (epoll_mask x fd)) (Z.lnot (epoll_bits type))).
  set (m := Z.land (epoll_mask x fd) (Z.lnot type)).
  assert (0 <= m < 4 /\ kernel_mask m = (if op =? EPOLL_CTL_DEL then None else Some ev) /\ m mod 256 = m /\
    Z.land (epoll_mask x fd) type = type) as (Hm & Hk & Hmod & Hz).
  { unfold m, op, ev. clear m op ev. mask_cases Hr Ht; try (by destruct Ez); split_and!; done. }
  pose proof (ctl_ok (ep_efd x) op fd ev) as Hc. destruct (epoll_ctl (ep_efd x) op fd ev) as [rt k].
  destruct Hc as [[Hrt Hi]|[Hrt Hi]].
  - rewrite (po_kernel _ _ Ho). right. split.
    + unfold op. destruct (_ =? _); [by right|by left].
    + unfold kernel_mask. rewrite (proj2 (Z.eqb_neq _ _)); [by eexists|]. intros E0. rewrite E0, Z.land_0_l in Hz. by destruct Ht as [->| ->].
  - rewrite (proj2 (Z.ltb_lt _ _)) by lia. eexists _, _. split; [done|]. split; [by apply epoll_refused|by right].
  - rewrite (proj2 (Z.ltb_ge _ _)) by lia. rewrite Hmod. eexists _, _. split; [done|].
    split; [apply epoll_accepted; [done|done|done|by rewrite Hk]|]. left. split; [done|]. split; [done|].
    intros f. by rewrite (mask_upd x k fd _ n Hfd (po_len _ _ Ho)).
Qed.

(** [epoll_wait] reports descriptors of the interest list. *)
Definition epoll_answers (n : Z) x (pto : option timeval) (ans : epoll_ans) : Prop :=
  match ans with
  | EpollEvents l => Forall (fun p => is_Some (interest (ep_efd x) p.1)) l
  | EpollError _ => True
  end.

Lemma epoll_dispatch_law n x (pto : option timeval) (ans : epoll_ans) : epoll_ok n x -> epoll_answers n x pto ans ->
  exists rt acts x', fk_epoll_dispatch x pto ans = Some (rt, acts, x') /\ epoll_ok n x' /\
    (forall fd, epoll_mask x' fd = epoll_mask x fd) /\ Forall (fun fdt => 0 <= fdt.1 < n) acts.
Proof.
  intros Ho Ha. destruct ans as [l|eintr]; eexists _, _, x; (split; [done|]); split; try done. split; [done|].
  apply Forall_fmap. eapply Forall_impl; [exact Ha|]. intros [fd ev] [m Hm]. cbn in *. apply (po_out _ _ Ho).
  rewrite (po_kernel _ _ Ho) in Hm. intros E. by rewrite E in Hm.
Qed.

Definition epoll_laws : @MpxLaws (fk_epoll K) epoll_ans epoll_mpx :=
  @Build_MpxLaws _ _ epoll_mpx epoll_ok epoll_mask (fun _ => true) (fun n x fd type Ho Hfd Ht _ => epoll_add_law n x fd type Ho Hfd Ht)
    epoll_remove_law epoll_answers epoll_dispatch_law.

Lemma land_part ev m b : Z.land ev m = ev -> Z.land ev b = Z.land ev (Z.land m b).
Proof. intros H. by rewrite Z.land_assoc, H. Qed.

(** Without hang-ups and errors [epoll_wait] reports only what it was asked for. *)
Lemma epoll_reports n x l : epoll_ok n x ->
  Forall (fun p => exists m, interest (ep_efd x) p.1 = Some m /\ Z.land p.2 (Z.lor EPOLLHUP EPOLLERR) = 0 /\ Z.land p.2 m = p.2) l ->
  @reports_watched _ _ epoll_mpx epoll_laws x (EpollEvents l).
Proof.
  intros Ho Ha pto rt acts x' [= _ <- _]. apply Forall_fmap. eapply Forall_impl; [exact Ha|].
  intros [fd ev] (m & Hm & Hh & Hl) t Ht. cbn [compose fst snd] in *. change (watch x fd) with (epoll_mask x fd).
  rewrite (po_kernel _ _ Ho) in Hm. pose proof (po_range _ _ Ho fd) as Hr. revert Hm Hl.
  assert (forall b, Z.land ev (Z.lor b (Z.lor EPOLLHUP EPOLLERR)) = Z.land ev b) as Hb.
  { intros b. by rewrite Z.land_lor_distr_r, Hh, Z.lor_0_r. }
  unfold epoll_type. rewrite !Hb. clear Hb Hh Ho Ha.
  mask_cases Hr Ht; cbn; intros [= <-] Hl; try done; pose proof (fun b => land_part ev _ b Hl) as Hb;
    rewrite (Hb EPOLLIN), (Hb EPOLLOUT); cbn; rewrite ?Z.land_0_r; cbn; case_match; done.
Qed.

(** When [epoll_ctl] refuses no call that makes sense (there is memory for the interest
    list, and the descriptors are open). *)
Definition ctl_accepts : Prop := forall k op fd ev,
  (op = EPOLL_CTL_ADD /\ interest k fd = None) \/
  ((op = EPOLL_CTL_MOD \/ op = EPOLL_CTL_DEL) /\ is_Some (interest k fd)) -> 0 <= (epoll_ctl k op fd ev).1.
Hypothesis accepts : ctl_accepts.

Lemma epoll_add_reliable n x fd type : epoll_ok n x -> 0 <= fd < n -> single type -> Z.land (epoll_mask x fd) type = 0 ->
  exists x', fk_epoll_add x fd type = Some (FK_EV_OK, x').
Proof.
  intros Ho Hfd Ht Hz. unfold fk_epoll_add. rewrite (emask_at n x fd Ho Hfd). cbn [mbind option_bind].
  rewrite (proj2 (Z.eqb_eq _ _)) by (by rewrite Z.land_comm). cbn [negb]. cbv zeta.
  set (op := if epoll_bits (epoll_mask x fd) =? 0 then EPOLL_CTL_ADD else EPOLL_CTL_MOD).
  set (ev := Z.lor _ (epoll_bits type)). pose proof (accepts (ep_efd x) op fd ev) as Hc.
  destruct (epoll_ctl _ op fd ev) as [rt k]. rewrite (proj2 (Z.ltb_ge _ _)); [by eexists|]. apply Hc.
  rewrite (po_kernel _ _ Ho). pose proof (po_range _ _ Ho fd) as Hr. unfold op. clear Hc op ev.
  mask_cases Hr Ht; cbn; try (by left); right; (split; [by left|by eexists]).
Qed.

Lemma epoll_remove_reliable n x fd type : epoll_ok n x -> 0 <= fd < n -> single type -> Z.land (epoll_mask x fd) type <> 0 ->
  exists x', fk_epoll_remove x fd type = Some (FK_EV_OK, x').
Proof.
  intros Ho Hfd Ht Hz. unfold fk_epoll_remove. rewrite (emask_at n x fd Ho Hfd). cbn [mbind option_bind].
  rewrite (proj2 (Z.eqb_neq _ _)) by (by rewrite Z.land_comm). cbv zeta.
  set (op := if epoll_bits (epoll_mask x fd) =? epoll_bits type then EPOLL_CTL_DEL else EPOLL_CTL_MOD).
  set (ev := Z.land _ (Z.lnot _)). pose proof (accepts (ep_efd x) op fd ev) as Hc.
  destruct (epoll_ctl _ op fd ev) as [rt k]. rewrite (proj2 (Z.ltb_ge _ _)); [by eexists|]. apply Hc. right.
  rewrite (po_kernel _ _ Ho). split; [unfold op; destruct (_ =? _); auto|].
  unfold kernel_mask. rewrite (proj2 (Z.eqb_neq _ _)); [by eexists|]. intros E0. by rewrite E0, Z.land_0_l in Hz.
Qed.

Definition epoll_reliable : @MpxReliable (fk_epoll K) epoll_ans epoll_mpx epoll_laws :=
  @Build_MpxReliable _ _ epoll_mpx epoll_laws epoll_add_reliable epoll_remove_reliable.
End epoll.

(** ** Properties *)

Section manager.
Context {K U : Type} (epoll_ctl : K -> Z -> Z -> Z -> Z * K) (interest : K -> Z -> option Z).
Hypothesis ctl_ok : ctl_spec epoll_ctl interest.
#[local] Instance mpx : Mpx (fk_epoll K) epoll_ans := epoll_mpx epoll_ctl.
#[local] Instance laws : MpxLaws (fk_epoll K) epoll_ans := epoll_laws epoll_ctl interest ctl_ok.
Implicit Types (s : fk_evmgr (fk_epoll K) U).

Lemma added_interest s fd : ev_inv s ->
  exists m, interest (ep_efd (ev_iompx s)) fd = kernel_mask m /\ 0 <= m < 4 /\
    forall t, single t -> Z.land m t <> 0 <-> event_added (ev_ioevs s) fd t.
Proof.
  intros [I _]. pose proof (ii_mpx _ _ _ _ _ _ _ I) as Ho. exists (epoll_mask (ev_iompx s) fd).
  split; [apply (po_kernel _ _ _ Ho)|]. split; [apply (po_range _ _ _ Ho)|]. intros t Ht. apply (watched_added _ _ _ _ _ _ _ _ _ I); [done|].
  intros Hm. apply (po_out _ _ _ Ho). intros E. unfold watch in Hm. cbn in Hm. by rewrite E in Hm.
Qed.
End manager.

(** C10. Over [epoll], whatever the arrays of events hold at the start (as [malloc]
    leaves them, or zeroed), after any sequence of calls and dispatches, also when some
    calls of [epoll_ctl] fail, the kernel watches a descriptor for reading exactly if an
    event for reading on it is added, for writing likewise, and no descriptor otherwise:
    [emask] chooses between adding, changing and deleting rightly. *)
Theorem epoll_watches_events {K U : Type} (epoll_ctl : K -> Z -> Z -> Z -> Z * K) (interest : K -> Z -> option Z)
    (ctl_ok : ctl_spec epoll_ctl interest) iocb tmcb get_time k n m1 m2 (u : U) s fd :
  let M := epoll_mpx epoll_ctl in
  let L := epoll_laws epoll_ctl interest ctl_ok in
  (forall id e s, ev_inv s -> ev_ioevs s !! id = Some e -> io_activated e = FK_IOEV_PENDING ->
    exists s', iocb (io_cb e) (io_fd e) (io_type e) s = Some (tt, s') /\ calls s s') ->
  (forall id t s, ev_inv s -> ev_tmevs s !! id = Some t -> tm_expired t = FK_TMEV_OLD ->
    exists rt s', tmcb (tm_cb t) (tm_interval t) (tm_type t) s = Some (rt, s') /\ calls s s' /\
      (rt = 0 -> exists t', ev_tmevs s' !! id = Some t' /\ tm_expired t' = FK_TMEV_OLD)) ->
  (forall s, exists t u, get_time s = Some (t, set_user s u)) ->
  unwritten n m1 -> unwritten n m2 -> (forall fd, interest k fd = None) ->
  rtc (ev_step iocb tmcb get_time) (fk_ev_init n m1 m2 (fk_epoll_create k n) u) s ->
  exists m, interest (ep_efd (ev_iompx s)) fd = kernel_mask m /\ 0 <= m < 4 /\
    forall t, single t -> Z.land m t <> 0 <-> event_added (ev_ioevs s) fd t.
Proof.
  intros M L Hi Ht Hg F1 F2 Hk Hr.
  destruct (epoll_create_ok interest n k) as [Hx Hw]; [destruct F1 as [<- _]; apply zlen_nonneg|done|].
  apply (added_interest epoll_ctl interest ctl_ok).
  eapply (plain_steps iocb tmcb get_time Hi Ht Hg); [|exact Hr].
  by apply ev_init_inv.
Qed.

(** The arrays [read_ev] and [write_ev] are not initialised.  When a descriptor
    that only ever had an event for reading hangs up, [epoll] reports it for writing
    too, and the dispatch reads a cell of [write_ev] that was never written. *)
Theorem epoll_hup_reads_uninitialised {K U : Type} (epoll_ctl : K -> Z -> Z -> Z -> Z * K)
    (iocb : Z -> Z -> Z -> ST (fk_evmgr (fk_epoll K) U) unit) tmcb get_time k n id fd cb (u : U) :
  let M := epoll_mpx epoll_ctl in
  let mem := malloced n in
  0 <= fd < n -> (epoll_ctl k EPOLL_CTL_ADD fd EPOLLIN).1 = 0 ->
  exists s, (_ ← fk_ioev_create id fd FK_IOEV_READ cb; fk_ev_add_ioev id)
      (fk_ev_init n mem mem (fk_epoll_create k n) u) = Some (FK_EV_OK, s) /\
    fk_ev_dispatch iocb tmcb get_time (EpollEvents [(fd, EPOLLHUP)]) s = None.
Proof.
  intros M mem Hfd Hctl.
  assert (forall m j (a : Z), 0 <= j < m -> znth (replicate (Z.to_nat m) a) j = Some a) as Hz.
  { intros m j a Hj. unfold znth. rewrite (proj2 (Z.ltb_ge _ _)) by lia. apply lookup_replicate_2. lia. }
  assert (znth mem fd = Some None) as Hmem.
  { unfold znth, mem, malloced. rewrite (proj2 (Z.ltb_ge _ _)) by lia. apply lookup_replicate_2. lia. }
  assert (zlen mem = n) as Hl by (apply malloced_unwritten; lia). clearbody mem.
  unfold fk_ev_add_ioev, get_ioev, fk_ioev_create, fk_ev_init. st_run. ev_cbn. rewrite lookup_insert_eq.
  cbv beta iota. cbn [io_activated io_fd io_type]. change (FK_IOEV_INIT =? FK_IOEV_INIT) with true. cbn [negb].
  cbn [iompx_add M epoll_mpx]. unfold fk_epoll_add. ev_cbn. cbn [ep_emask ep_efd ep_max_evs fk_epoll_create]. rewrite Hz by lia.
  cbn [mbind option_bind]. rewrite Z.land_0_r. change (0 =? 0) with true. cbn [negb].
  change (Z.lor (epoll_bits 0) (epoll_bits FK_IOEV_READ)) with EPOLLIN.
  change (epoll_bits 0 =? 0) with true. cbv beta iota zeta.
  destruct (epoll_ctl k EPOLL_CTL_ADD fd EPOLLIN) as [rt k']. cbn in Hctl. subst rt.
  change (0 <? 0) with false. change (FK_EV_OK =? FK_EV_ERR) with false. cbv beta iota.
  unfold set_ev_slots, slot_set. change (Z.land FK_IOEV_READ FK_IOEV_READ =? 0) with false.
  change (Z.land FK_IOEV_READ FK_IOEV_WRITE =? 0) with true.
  change (FK_EV_OK =? FK_EV_ERR) with false. cbv beta iota. ev_cbn. rewrite Hl.
  assert ((0 <=? fd) && (fd <? n) = true) as -> by (apply andb_true_intro; lia). cbv beta iota.
  erewrite ioev_stat_ok by (ev_cbn; apply lookup_insert_eq). cbv beta iota.
  eexists. split; [reflexivity|]. unfold fk_ev_dispatch, fk_ev_get_nearest_tmev. st_run. ev_cbn.
  change (fk_heap_root fk_heap_init) with (@None Z). cbv beta iota. ev_cbn.
  cbn [iompx_dispatch M epoll_mpx fk_epoll_dispatch fmap list_fmap]. cbv beta iota.
  unfold activate_all, fk_ev_activate_ioev, activate, get_ioev. st_run.
  change (Z.land (epoll_type EPOLLHUP) FK_IOEV_READ =? 0) with false.
  change (Z.land (epoll_type EPOLLHUP) FK_IOEV_WRITE =? 0) with false. cbv beta iota. ev_cbn.
  rewrite znth_zupd_eq by lia. cbn [mjoin option_join]. cbv beta iota. ev_cbn.
  rewrite insert_insert_eq, lookup_insert_eq. cbv beta iota. cbn [io_activated fk_ioev_set_stat].
  change (FK_IOEV_PENDING =? FK_IOEV_PENDING) with true. cbv beta iota.
  erewrite ioev_stat_ok by (ev_cbn; apply lookup_insert_eq). cbv beta iota. ev_cbn. by rewrite Hmem.
Qed.

(** ** Instances *)

(** A kernel that is its interest list. *)
Definition ex_ctl (k : gmap Z Z) (op fd ev : Z) : Z * gmap Z Z :=
  match k !! fd with
  | None => if op =? EPOLL_CTL_ADD then (0, <[fd := ev]> k) else (-1, k)
  | Some _ =>
      if op =? EPOLL_CTL_ADD then (-1, k)
      else if op =? EPOLL_CTL_DEL then (0, delete fd k) else (0, <[fd := ev]> k)
  end.
Definition ex_interest (k : gmap Z Z) (fd : Z) : option Z := k !! fd.

Lemma ex_ctl_ok : ctl_spec ex_ctl ex_interest.
Proof.
  intros k op fd ev H. unfold ex_ctl, ex_interest in *. destruct H as [[-> ->]|[Hop [m Hm]]].
  - right. split; [done|]. intros f. case_bool_decide as Hf; [subst; by rewrite lookup_insert_eq|by rewrite lookup_insert_ne].
  - rewrite Hm. destruct Hop as [->| ->]; right; (split; [done|]); intros f; case_bool_decide as Hf; cbn; try subst f.
    + by rewrite lookup_insert_eq.
    + by rewrite lookup_insert_ne.
    + by rewrite lookup_delete_eq.
    + by rewrite lookup_delete_ne.
Qed.

Section example.
#[local] Instance ex_mpx : Mpx (fk_epoll (gmap Z Z)) epoll_ans := epoll_mpx ex_ctl.
#[local] Instance ex_laws : MpxLaws (fk_epoll (gmap Z Z)) epoll_ans := epoll_laws ex_ctl ex_interest ex_ctl_ok.
Abbreviation mgr := (fk_evmgr (fk_epoll (gmap Z Z)) unit).

Definition ex_iocb (cb fd type : Z) : ST mgr unit := mret tt.
Definition ex_tmcb (cb interval type : Z) : ST mgr Z := mret (-1).
Definition ex_time : ST mgr timeval := mret (Timeval 0 0).
Definition ex_init : mgr :=
  fk_ev_init 8 (malloced 8) (malloced 8) (fk_epoll_create ∅ 8) tt.
Definition ex_calls : list (ev_call unit) :=
  [CallNewIo 7 3 FK_IOEV_READ 7; CallAddIo 7; CallNewIo 8 3 FK_IOEV_WRITE 8; CallAddIo 8; CallRemoveIo 7].
Definition ex_state : mgr := default ex_init (checked_calls ex_calls ex_init).

Lemma epoll_time_ok (s : mgr) : exists t u, ex_time s = Some (t, set_user s u).
Proof. exists (Timeval 0 0), tt. by destruct s as [? ? ? ? ? ? ? ? ? ? ? ? ? []]. Qed.

Lemma epoll_watches_events_witness : ex_interest (ep_efd (ev_iompx ex_state)) 3 = Some EPOLLOUT /\
  exists m, ex_interest (ep_efd (ev_iompx ex_state)) 3 = kernel_mask m /\ 0 <= m < 4 /\
    forall t, single t -> Z.land m t <> 0 <-> event_added (ev_ioevs ex_state) 3 t.
Proof.
  split; [vm_compute; reflexivity|].
  assert (checked_calls ex_calls ex_init = Some ex_state) as H by (vm_compute; reflexivity).
  pose proof (calls_steps ex_iocb ex_tmcb ex_time ex_init ex_state (checked_calls_ok _ _ _ H)) as Hr.
  refine (epoll_watches_events ex_ctl ex_interest ex_ctl_ok ex_iocb ex_tmcb ex_time ∅ 8 _ _ tt ex_state 3 _ _ epoll_time_ok _ _ _ Hr).
  - intros id e s _ _ _. exists s. split; [reflexivity|apply rtc_refl].
  - intros id t s _ Ht Hst. exists (-1), s. split; [reflexivity|]. split; [apply rtc_refl|discriminate].
  - apply malloced_unwritten. discriminate.
  - apply malloced_unwritten. discriminate.
  - intros fd. reflexivity.
Defined.

Lemma epoll_hup_reads_uninitialised_witness : exists s : mgr,
  (_ ← fk_ioev_create 7 3 FK_IOEV_READ 0; fk_ev_add_ioev 7)
    (fk_ev_init 8 (malloced 8) (malloced 8) (fk_epoll_create ∅ 8) tt) = Some (FK_EV_OK, s) /\
  fk_ev_dispatch ex_iocb ex_tmcb ex_time (EpollEvents [(3, EPOLLHUP)]) s = None.
Proof.
  apply (epoll_hup_reads_uninitialised ex_ctl ex_iocb ex_tmcb ex_time ∅ 8 7 3 0 tt); [lia|reflexivity].
Defined.
End example.
