(* ===== verification/Poll.v ===== *)
(** Models the backend of the event manager over [poll], src/src/fk_ev_poll.c.  A
    descriptor is removed by moving the last entry of the array into its place, but
    [fd2idx] is not changed: this backend does not keep the promises of [MpxLaws]. *)
From S2P Require Import Prelude Util Heap Ev EvProps.

Definition POLLIN : Z := 1.
Definition POLLOUT : Z := 4.
Definition POLLERR : Z := 8.
Definition POLLHUP : Z := 16.

Record pollfd := Pollfd { pf_fd : Z; pf_events : Z; pf_revents : Z }.

Record fk_poll := Poll { pl_evlist : list pollfd; pl_last : Z; pl_fd2idx : list Z }.

Definition fk_poll_create (max_files : Z) : fk_poll :=
  Poll (replicate (Z.to_nat max_files) (Pollfd (-1) 0 0)) 0 (replicate (Z.to_nat max_files) (-1)).

Definition poll_bits (type : Z) : Z :=
  Z.lor (if Z.land type FK_IOEV_READ =? 0 then 0 else POLLIN)
        (if Z.land type FK_IOEV_WRITE =? 0 then 0 else POLLOUT).

Definition fk_poll_add (x : fk_poll) (fd type : Z) : option (Z * fk_poll) :=
  i ← znth (pl_fd2idx x) fd;
  let idx := if i =? -1 then pl_last x else i in
  pfd ← znth (pl_evlist x) idx;
  let oev := pf_events pfd in
  let nev := poll_bits type in
  if negb (Z.land oev nev =? 0) then Some (FK_EV_ERR, x)
  else
    let evlist := zupd (pl_evlist x) idx (Pollfd fd (Z.lor oev nev) (pf_revents pfd)) in
    let fd2idx := zupd (pl_fd2idx x) fd idx in
    let last := if idx =? pl_last x then pl_last x + 1 else pl_last x in
    Some (FK_EV_OK, Poll evlist last fd2idx).

Definition fk_poll_remove (x : fk_poll) (fd type : Z) : option (Z * fk_poll) :=
  idx ← znth (pl_fd2idx x) fd;
  pfd ← znth (pl_evlist x) idx;
  let oev := pf_events pfd in
  let nev := poll_bits type in
  if negb (Z.land nev (Z.lnot oev) =? 0) then Some (FK_EV_ERR, x)
  else
    let pfd := Pollfd (pf_fd pfd) (Z.land oev (Z.lnot nev)) (pf_revents pfd) in
    let evlist := zupd (pl_evlist x) idx pfd in
    if pf_events pfd =? 0 then
      tail ← znth evlist (pl_last x - 1);
      let evlist := zupd evlist idx tail in
      Some (FK_EV_OK, Poll (zupd evlist (pl_last x - 1) (Pollfd (-1) 0 0)) (pl_last x - 1) (pl_fd2idx x))
    else Some (FK_EV_OK, Poll evlist (pl_last x) (pl_fd2idx x)).

(** The type of the event that [poll] reports. *)
Definition poll_type (revents : Z) : Z :=
  Z.lor (if Z.land revents (Z.lor POLLIN (Z.lor POLLHUP POLLERR)) =? 0 then 0 else FK_IOEV_READ)
        (if Z.land revents (Z.lor POLLOUT (Z.lor POLLHUP POLLERR)) =? 0 then 0 else FK_IOEV_WRITE).

(** The answer of [poll]: the number of entries with [revents] and the [revents] of
    the first [last] entries, or an error. *)
Inductive poll_ans := PollReady (nfds : Z) (revents : list Z) | PollError.

(** The loop over the entries from [i] on, [n] of them: the calls of
    [fk_ev_activate_ioev], and the entries with [revents] reset. *)
Fixpoint poll_calls (n : nat) (i cnt nfds : Z) (evlist : list pollfd) : list (Z * Z) * list pollfd :=
  match n with
  | O => ([], evlist)
  | S n' =>
      match znth evlist i with
      | None => ([], evlist)
      | Some pfd =>
          let type := poll_type (pf_revents pfd) in
          if type =? 0 then poll_calls n' (i + 1) cnt nfds evlist
          else
            let evlist := zupd evlist i (Pollfd (pf_fd pfd) (pf_events pfd) 0) in
            if cnt + 1 =? nfds then ([(pf_fd pfd, type)], evlist)
            else
              let '(acts, evlist) := poll_calls n' (i + 1) (cnt + 1) nfds evlist in
              ((pf_fd pfd, type) :: acts, evlist)
      end
  end.

(** The kernel writes [revents]. *)
Definition set_revents (evlist : list pollfd) (revents : list Z) : list pollfd :=
  zip_with (fun p r => Pollfd (pf_fd p) (pf_events p) r) (take (length revents) evlist) revents ++
  drop (length revents) evlist.

Definition fk_poll_dispatch (x : fk_poll) (timeout : option timeval) (ans : poll_ans) :
    option (Z * list (Z * Z) * fk_poll) :=
  match ans with
  | PollError => Some (FK_EV_ERR, [], x)
  | PollReady nfds revents =>
      let evlist := set_revents (pl_evlist x) revents in
      if nfds =? 0 then Some (FK_EV_OK, [], Poll evlist (pl_last x) (pl_fd2idx x))
      else
        let '(acts, evlist) := poll_calls (Z.to_nat (pl_last x)) 0 0 nfds evlist in
        Some (FK_EV_OK, acts, Poll evlist (pl_last x) (pl_fd2idx x))
  end.

#[export] Instance poll_mpx : Mpx fk_poll poll_ans := {
  iompx_add := fk_poll_add;
  iompx_remove := fk_poll_remove;
  iompx_dispatch := fk_poll_dispatch
}.

(** ** Properties *)

Lemma znth_fill {A} n j (a : A) : 0 <= j < n -> znth (replicate (Z.to_nat n) a) j = Some a.
Proof. intros Hj. unfold znth. rewrite (proj2 (Z.ltb_ge _ _)) by lia. apply lookup_replicate_2. lia. Qed.

(** The array after two descriptors were added and the first one removed. *)
Lemma poll_moved n a b : 0 <= a < n -> 0 <= b < n -> a <> b ->
  exists x1 x2 x3, fk_poll_add (fk_poll_create n) a FK_IOEV_READ = Some (FK_EV_OK, x1) /\
    fk_poll_add x1 b FK_IOEV_READ = Some (FK_EV_OK, x2) /\ fk_poll_remove x2 a FK_IOEV_READ = Some (FK_EV_OK, x3) /\
    pl_last x3 = 1 /\ znth (pl_evlist x3) 0 = Some (Pollfd b POLLIN 0) /\ znth (pl_evlist x3) 1 = Some (Pollfd (-1) 0 0) /\
    znth (pl_fd2idx x3) a = Some 0 /\ znth (pl_fd2idx x3) b = Some 1.
Proof.
  intros Ha Hb Hne. set (l0 := replicate (Z.to_nat n) (Pollfd (-1) 0 0)). set (d0 := replicate (Z.to_nat n) (-1)).
  assert (zlen l0 = n /\ zlen d0 = n) as [Ll Ld] by (unfold l0, d0; rewrite !zlen_replicate; lia).
  set (l1 := zupd l0 0 (Pollfd a POLLIN 0)). set (d1 := zupd d0 a 0).
  set (l2 := zupd l1 1 (Pollfd b POLLIN 0)). set (d2 := zupd d1 b 1).
  set (l3 := zupd (zupd (zupd l2 0 (Pollfd a 0 0)) 0 (Pollfd b POLLIN 0)) 1 (Pollfd (-1) 0 0)).
  assert (zlen l1 = n /\ zlen l2 = n /\ zlen d1 = n) as (L1 & L2 & D1) by (unfold l2, l1, d1; rewrite !zlen_zupd; done).
  assert (znth d1 b = Some (-1)) as Hd1 by (unfold d1; rewrite znth_zupd_ne by lia; by apply znth_fill).
  assert (znth d2 a = Some 0) as Hd2 by (unfold d2; rewrite znth_zupd_ne by lia; apply znth_zupd_eq; lia).
  assert (znth l1 1 = Some (Pollfd (-1) 0 0)) as Hl1 by (unfold l1; rewrite znth_zupd_ne by lia; apply znth_fill; lia).
  assert (znth l2 0 = Some (Pollfd a POLLIN 0)) as Hl2 by (unfold l2; rewrite znth_zupd_ne by lia; apply znth_zupd_eq; lia).
  assert (znth (zupd l2 0 (Pollfd a 0 0)) 1 = Some (Pollfd b POLLIN 0)) as Hl2'
    by (rewrite znth_zupd_ne by lia; unfold l2; apply znth_zupd_eq; lia).
  exists (Poll l1 1 d1), (Poll l2 2 d2), (Poll l3 1 d2). split_and!.
  - unfold fk_poll_add, fk_poll_create. cbn [pl_fd2idx pl_last pl_evlist]. rewrite (znth_fill n a) by done. cbn [mbind option_bind].
    change (-1 =? -1) with true. cbv iota. by rewrite (znth_fill n 0) by lia.
  - unfold fk_poll_add. cbn [pl_fd2idx pl_last pl_evlist]. rewrite Hd1. cbn [mbind option_bind].
    change (-1 =? -1) with true. cbv iota. by rewrite Hl1.
  - unfold fk_poll_remove. cbn [pl_fd2idx pl_last pl_evlist]. rewrite Hd2. cbn [mbind option_bind]. rewrite Hl2.
    cbn [mbind option_bind pf_events pf_fd pf_revents].
    change (Z.land (poll_bits FK_IOEV_READ) (Z.lnot POLLIN) =? 0) with true.
    change (Z.land POLLIN (Z.lnot (poll_bits FK_IOEV_READ))) with 0. change (0 =? 0) with true.
    change (2 - 1) with 1. cbn [negb]. by rewrite Hl2'.
  - done.
  - cbn [pl_evlist]. unfold l3. rewrite znth_zupd_ne by lia. apply znth_zupd_eq. rewrite zlen_zupd. lia.
  - cbn [pl_evlist]. unfold l3. apply znth_zupd_eq. rewrite !zlen_zupd. lia.
  - done.
  - cbn [pl_fd2idx]. unfold d2. apply znth_zupd_eq. lia.
Qed.

(** Over [poll], after two descriptors are added and the first one is removed, the
    entry of the second one has moved but not its index: watching the first
    descriptor again fails (the next client, which gets this descriptor, is never
    served), the second one cannot be removed any more, and it stays watched. *)
Theorem poll_remove_breaks_index n a b : 0 <= a < n -> 0 <= b < n -> a <> b ->
  exists x1 x2 x3, fk_poll_add (fk_poll_create n) a FK_IOEV_READ = Some (FK_EV_OK, x1) /\
    fk_poll_add x1 b FK_IOEV_READ = Some (FK_EV_OK, x2) /\ fk_poll_remove x2 a FK_IOEV_READ = Some (FK_EV_OK, x3) /\
    fk_poll_add x3 a FK_IOEV_READ = Some (FK_EV_ERR, x3) /\
    fk_poll_remove x3 b FK_IOEV_READ = Some (FK_EV_ERR, x3) /\
    exists x4, fk_poll_dispatch x3 None (PollReady 1 [POLLIN]) = Some (FK_EV_OK, [(b, FK_IOEV_READ)], x4).
Proof.
  intros Ha Hb Hne. destruct (poll_moved n a b Ha Hb Hne) as (x1 & x2 & x3 & E1 & E2 & E3 & Hl & H0 & H1 & Hda & Hdb).
  exists x1, x2, x3. split; [done|]. split; [done|]. split; [done|]. split; [|split].
  - unfold fk_poll_add. rewrite Hda. cbn [mbind option_bind]. change (0 =? -1) with false. cbv iota. by rewrite H0.
  - unfold fk_poll_remove. rewrite Hdb. cbn [mbind option_bind]. by rewrite H1.
  - unfold fk_poll_dispatch. rewrite Hl. change (1 =? 0) with false. cbv iota.
    destruct (pl_evlist x3) as [|p l]; [done|]. cbn in H0. injection H0 as ->. cbn. by eexists.
Qed.

Lemma poll_remove_breaks_index_witness :
  exists x1 x2 x3, fk_poll_add (fk_poll_create 8) 4 FK_IOEV_READ = Some (FK_EV_OK, x1) /\
    fk_poll_add x1 5 FK_IOEV_READ = Some (FK_EV_OK, x2) /\ fk_poll_remove x2 4 FK_IOEV_READ = Some (FK_EV_OK, x3) /\
    fk_poll_add x3 4 FK_IOEV_READ = Some (FK_EV_ERR, x3) /\
    fk_poll_remove x3 5 FK_IOEV_READ = Some (FK_EV_ERR, x3) /\
    exists x4, fk_poll_dispatch x3 None (PollReady 1 [POLLIN]) = Some (FK_EV_OK, [(5, FK_IOEV_READ)], x4).
Proof. apply (poll_remove_breaks_index 8 4 5); lia. Defined.
