(* ===== verification/Kqueue.v ===== *)
(** Models the backend of the event manager over [kqueue], src/src/fk_ev_kqueue.c.  The
    kernel keeps the filters, and this backend no record of its own.  It keeps the
    promises of [MpxLaws], but is the one backend that does not refuse ([refuses]) a second
    event for a descriptor and a type, although the code says so; the manager then loses
    the first one.

    The kernel is a parameter: [kevent] with one change gives 0 or -1 and the new state of
    the kernel, whose filters are [filtered]. *)
From S2P Require Import Prelude Util Heap Ev EvProps EvView.

Definition EVFILT_READ : Z := -1.
Definition EVFILT_WRITE : Z := -2.
Definition EV_ADD : Z := 1.
Definition EV_DELETE : Z := 2.
Definition EV_ENABLE : Z := 4.

(** What [kevent] answers when it waits: identifiers and filters, or an error, which may
    be [EINTR]. *)
Inductive kqueue_ans := KqueueEvents (l : list (Z * Z)) | KqueueError (eintr : bool).

Record fk_kqueue (K : Type) := Kqueue { kq_kfd : K; kq_max_evs : Z }.
Arguments Kqueue {K} _ _.
Arguments kq_kfd {K} _.
Arguments kq_max_evs {K} _.

Section kqueue.
Context {K : Type} (kevent : K -> Z -> Z -> Z -> Z * K).
Implicit Types (x : fk_kqueue K).

Definition fk_kqueue_create (kfd : K) (max_files : Z) : fk_kqueue K := Kqueue kfd (i32 (Z.shiftl max_files 1)).

(** One change of a filter. *)
Definition kqueue_change x (fd filter flags : Z) : Z * fk_kqueue K :=
  let '(rt, k) := kevent (kq_kfd x) fd filter flags in
  (if rt <? 0 then FK_EV_ERR else FK_EV_OK, Kqueue k (kq_max_evs x)).

(** The changes of a call: for reading, then for writing, until one fails. *)
Definition kqueue_changes x (fd type flags : Z) : Z * fk_kqueue K :=
  let '(rt, x) := if Z.land type FK_IOEV_READ =? 0 then (FK_EV_OK, x) else kqueue_change x fd EVFILT_READ flags in
  if rt =? FK_EV_ERR then (FK_EV_ERR, x)
  else if Z.land type FK_IOEV_WRITE =? 0 then (FK_EV_OK, x) else kqueue_change x fd EVFILT_WRITE flags.

Definition fk_kqueue_add x (fd type : Z) : option (Z * fk_kqueue K) :=
  Some (kqueue_changes x fd type (Z.lor EV_ADD EV_ENABLE)).

Definition fk_kqueue_remove x (fd type : Z) : option (Z * fk_kqueue K) :=
  Some (kqueue_changes x fd type EV_DELETE).

(** The calls of [fk_ev_activate_ioev].  [type] keeps its value when the filter is
    another one, and has none before the first event. *)
Fixpoint kqueue_calls (type : option Z) (l : list (Z * Z)) : option (list (Z * Z)) :=
  match l with
  | [] => Some []
  | (fd, filter) :: l =>
      let type := if filter =? EVFILT_READ then Some FK_IOEV_READ else type in
      let type := if filter =? EVFILT_WRITE then Some FK_IOEV_WRITE else type in
      t ← type;
      acts ← kqueue_calls type l;
      Some ((fd, t) :: acts)
  end.

(** The time limit only goes to [kevent]. *)
Definition fk_kqueue_dispatch x (timeout : option timeval) (ans : kqueue_ans) :
    option (Z * list (Z * Z) * fk_kqueue K) :=
  match ans with
  | KqueueError eintr => Some (if eintr then FK_EV_OK else FK_EV_ERR, [], x)
  | KqueueEvents l =>
      acts ← kqueue_calls None l;
      Some (FK_EV_OK, acts, x)
  end.

Definition kqueue_mpx : Mpx (fk_kqueue K) kqueue_ans :=
  Build_Mpx _ _ fk_kqueue_add fk_kqueue_remove fk_kqueue_dispatch.

(** ** The promises that it keeps *)

(** What the code relies on: adding a filter that is there is no error, deleting one
    that is not is one, and a call that fails changes nothing. *)
Context (filtered : K -> Z -> Z -> bool).
Definition kevent_spec : Prop := forall k fd filter flags, flags = Z.lor EV_ADD EV_ENABLE \/ flags = EV_DELETE ->
  let '(rt, k') := kevent k fd filter flags in
  (rt < 0 /\ forall f g, filtered k' f g = filtered k f g) \/
  (0 <= rt /\ (flags = EV_DELETE -> filtered k fd filter = true) /\
   forall f g, filtered k' f g = if bool_decide (f = fd /\ g = filter) then negb (flags =? EV_DELETE) else filtered k f g).
Hypothesis kevent_ok : kevent_spec.

Definition kqueue_watch x (fd : Z) : Z :=
  Z.lor (if filtered (kq_kfd x) fd EVFILT_READ then FK_IOEV_READ else 0)
        (if filtered (kq_kfd x) fd EVFILT_WRITE then FK_IOEV_WRITE else 0).

Definition filter_of (type : Z) : Z := if type =? FK_IOEV_READ then EVFILT_READ else EVFILT_WRITE.

Lemma kqueue_changes_single x fd type flags : single type ->
  kqueue_changes x fd type flags = kqueue_change x fd (filter_of type) flags.
Proof.
  intros [->| ->]; unfold kqueue_changes; cbn [Z.land FK_IOEV_READ FK_IOEV_WRITE]; cbn.
  - unfold kqueue_change. destruct (kevent _ _ _ _) as [rt k]. by destruct (rt <? 0).
  - unfold kqueue_change. by destruct (kevent _ _ _ _) as [rt k].
Qed.

(** A change fails and leaves the filters, or sets one of them. *)
Lemma kqueue_change_ok x fd type flags : single type -> flags = Z.lor EV_ADD EV_ENABLE \/ flags = EV_DELETE ->
  exists rt x', kqueue_changes x fd type flags = (rt, x') /\
    ((rt = FK_EV_ERR /\ forall f, kqueue_watch x' f = kqueue_watch x f) \/
     (rt = FK_EV_OK /\ (flags = EV_DELETE -> Z.land (kqueue_watch x fd) type = type) /\
      forall f, kqueue_watch x' f =
        if bool_decide (f = fd)
        then if flags =? EV_DELETE then Z.land (kqueue_watch x fd) (Z.lnot type) else Z.lor (kqueue_watch x fd) type
        else kqueue_watch x f)).
Proof.
  intros Ht Hf. rewrite kqueue_changes_single by done. unfold kqueue_change.
  pose proof (kevent_ok (kq_kfd x) fd (filter_of type) flags Hf) as Hk.
  destruct (kevent _ fd _ flags) as [rt k]. eexists _, _. split; [done|].
  destruct Hk as [[Hrt Hi]|(Hrt & Hd & Hi)].
  - left. rewrite (proj2 (Z.ltb_lt _ _)) by lia. split; [done|]. intros f. unfold kqueue_watch. cbn. by rewrite !Hi.
  - right. rewrite (proj2 (Z.ltb_ge _ _)) by lia. split; [done|]. unfold kqueue_watch. cbn [kq_kfd]. split.
    + intros E. specialize (Hd E). destruct Ht as [->| ->]; cbn in Hd; rewrite Hd; by case_match.
    + intros f. rewrite !Hi. clear Hi Hd. destruct (decide (f = fd)) as [->|Hne].
      * rewrite (bool_decide_eq_true_2 (fd = fd)) by done.
        assert (forall g, bool_decide (fd = fd /\ g = filter_of type) = (g =? filter_of type)) as Eg.
        { intros g. destruct (Z.eqb_spec g (filter_of type)); [by apply bool_decide_eq_true_2|apply bool_decide_eq_false_2; naive_solver]. }
        rewrite !Eg.
        destruct (filtered (kq_kfd x) fd EVFILT_READ), (filtered (kq_kfd x) fd EVFILT_WRITE), Ht as [->| ->], Hf as [->| ->]; done.
      * rewrite (bool_decide_eq_false_2 (f = fd)) by done.
        assert (forall g, bool_decide (f = fd /\ g = filter_of type) = false) as Eg by (intros g; apply bool_decide_eq_false_2; naive_solver).
        by rewrite !Eg.
Qed.

(** The descriptors below [n] only. *)
Definition kqueue_ok (n : Z) x : Prop := forall fd, kqueue_watch x fd <> 0 -> 0 <= fd < n.

Lemma kqueue_create_ok n k : (forall fd f, filtered k fd f = false) ->
  kqueue_ok n (fk_kqueue_create k n) /\ forall fd, kqueue_watch (fk_kqueue_create k n) fd = 0.
Proof.
  intros Hk. assert (forall fd, kqueue_watch (fk_kqueue_create k n) fd = 0) as Hw by (intros fd; unfold kqueue_watch; cbn; by rewrite !Hk).
  split; [|done]. intros fd H. by rewrite Hw in H.
Qed.

Lemma kqueue_ok_change n x x' fd v : kqueue_ok n x -> 0 <= fd < n ->
  (forall f, kqueue_watch x' f = if bool_decide (f = fd) then v else kqueue_watch x f) -> kqueue_ok n x'.
Proof. intros Ho Hfd Hw f. rewrite Hw. case_bool_decide; [by subst|apply Ho]. Qed.

(** The law on adding, for a type that is not watched. *)
Lemma kqueue_add_fresh n x fd type : kqueue_ok n x -> 0 <= fd < n -> single type -> Z.land (kqueue_watch x fd) type = 0 ->
  exists rt x', fk_kqueue_add x fd type = Some (rt, x') /\ kqueue_ok n x' /\
    ((rt = FK_EV_OK /\ Z.land (kqueue_watch x fd) type = 0 /\
      forall fd', kqueue_watch x' fd' = if bool_decide (fd' = fd) then Z.lor (kqueue_watch x fd) type else kqueue_watch x fd') \/
     (rt = FK_EV_ERR /\ forall fd', kqueue_watch x' fd' = kqueue_watch x fd')).
Proof.
  intros Ho Hfd Ht Hz. unfold fk_kqueue_add.
  destruct (kqueue_change_ok x fd type _ Ht (or_introl eq_refl)) as (rt & x' & -> & [[-> Hw]|(-> & _ & Hw)]);
    eexists _, x'; (split; [done|]).
  - split; [|by right]. intros f. rewrite Hw. apply Ho.
  - split; [by eapply kqueue_ok_change|by left].
Qed.

Lemma kqueue_remove_law n x fd type : kqueue_ok n x -> 0 <= fd < n -> single type ->
  exists rt x', fk_kqueue_remove x fd type = Some (rt, x') /\ kqueue_ok n x' /\
    ((rt = FK_EV_OK /\ Z.land (kqueue_watch x fd) type = type /\
      forall fd', kqueue_watch x' fd' = if bool_decide (fd' = fd) then Z.land (kqueue_watch x fd) (Z.lnot type) else kqueue_watch x fd') \/
     (rt = FK_EV_ERR /\ forall fd', kqueue_watch x' fd' = kqueue_watch x fd')).
Proof.
  intros Ho Hfd Ht. unfold fk_kqueue_remove.
  destruct (kqueue_change_ok x fd type _ Ht (or_intror eq_refl)) as (rt & x' & -> & [[-> Hw]|(-> & Hd & Hw)]);
    eexists _, x'; (split; [done|]).
  - split; [|by right]. intros f. rewrite Hw. apply Ho.
  - split; [by eapply kqueue_ok_change|left]. split; [done|]. split; [by apply Hd|done].
Qed.

(** [kevent] reports filters that are set. *)
Definition kqueue_answers x (ans : kqueue_ans) : Prop :=
  match ans with
  | KqueueEvents l => Forall (fun p => (p.2 = EVFILT_READ \/ p.2 = EVFILT_WRITE) /\ filtered (kq_kfd x) p.1 p.2 = true) l
  | KqueueError _ => True
  end.

Lemma kqueue_dispatch_law n x pto ans : kqueue_ok n x -> kqueue_answers x ans ->
  exists rt acts, fk_kqueue_dispatch x pto ans = Some (rt, acts, x) /\
    Forall (fun fdt => 0 <= fdt.1 < n /\ Z.land (kqueue_watch x fdt.1) fdt.2 = fdt.2) acts.
Proof.
  intros Ho Ha. destruct ans as [l|eintr]; [|by eexists _, []]. cbn [fk_kqueue_dispatch kqueue_answers] in *.
  assert (forall t, exists acts, kqueue_calls t l = Some acts /\
    Forall (fun fdt => 0 <= fdt.1 < n /\ Z.land (kqueue_watch x fdt.1) fdt.2 = fdt.2) acts) as H.
  { induction l as [|[fd g] l IH]; [by exists []|]. apply Forall_cons in Ha as [[Hg Hs] Ha]. intros t. cbn in Hg, Hs.
    assert (Z.land (kqueue_watch x fd) (if g =? EVFILT_READ then FK_IOEV_READ else FK_IOEV_WRITE) =
      if g =? EVFILT_READ then FK_IOEV_READ else FK_IOEV_WRITE) as Hl.
    { unfold kqueue_watch. destruct Hg as [->| ->]; rewrite Hs; by case_match. }
    assert (0 <= fd < n) as Hfd by (apply Ho; intros E; rewrite E in Hl; by destruct (g =? EVFILT_READ)).
    cbn [kqueue_calls]. destruct Hg as [->| ->]; cbn in *.
    - destruct (IH Ha (Some FK_IOEV_READ)) as (acts & -> & Hf). eexists. split; [done|]. by constructor.
    - destruct (IH Ha (Some FK_IOEV_WRITE)) as (acts & -> & Hf). eexists. split; [done|]. by constructor. }
  destruct (H None) as (acts & -> & Hf). by eexists _, acts.
Qed.
End kqueue.

(** ** The instances *)

Section laws.
Context {K : Type} (kevent : K -> Z -> Z -> Z -> Z * K) (filtered : K -> Z -> Z -> bool).
Hypothesis kevent_ok : kevent_spec kevent filtered.
Implicit Types (x : fk_kqueue K).

Definition kqueue_laws : @MpxLaws (fk_kqueue K) kqueue_ans (kqueue_mpx kevent).
Proof.
  refine (@Build_MpxLaws _ _ (kqueue_mpx kevent) (kqueue_ok filtered) (kqueue_watch filtered) (fun _ => false) _
    (kqueue_remove_law kevent filtered kevent_ok) (fun _ x _ => kqueue_answers filtered x) _).
  - intros n x fd type Ho Hfd Ht [|Hz]; [done|]. by apply (kqueue_add_fresh kevent filtered kevent_ok).
  - intros n x pto ans Ho Ha. destruct (kqueue_dispatch_law filtered n x pto ans Ho Ha) as (rt & acts & E & F).
    exists rt, acts, x. split; [exact E|]. split; [done|]. split; [done|]. eapply Forall_impl; [exact F|]. by intros p [Hp _].
Defined.

(** [kevent] names no filter that is not set. *)
Lemma kqueue_reports n x ans : kqueue_ok filtered n x -> kqueue_answers filtered x ans ->
  @reports_watched _ _ (kqueue_mpx kevent) kqueue_laws x ans.
Proof.
  intros Ho Ha pto rt acts x' E. destruct (kqueue_dispatch_law filtered n x pto ans Ho Ha) as (rt' & acts' & E' & F).
  cbn in E. rewrite E in E'. injection E' as <- <- _. eapply Forall_impl; [exact F|]. intros p [_ Hp] t Ht Hl. cbn.
  rewrite <- Hp in Hl. intros Hz. apply Hl. by rewrite <- Z.land_assoc, (Z.land_comm p.2), Z.land_assoc, Hz, Z.land_0_l.
Qed.

(** [kevent] refuses no change that makes sense. *)
Definition kevent_accepts : Prop :=
  forall k fd filter, 0 <= (kevent k fd filter (Z.lor EV_ADD EV_ENABLE)).1 /\
    (filtered k fd filter = true -> 0 <= (kevent k fd filter EV_DELETE).1).
Hypothesis accepts : kevent_accepts.

Lemma kqueue_add_accepted x fd type : single type -> exists x', fk_kqueue_add kevent x fd type = Some (FK_EV_OK, x') /\
  forall f, kqueue_watch filtered x' f = if bool_decide (f = fd) then Z.lor (kqueue_watch filtered x fd) type else kqueue_watch filtered x f.
Proof.
  intros Ht. unfold fk_kqueue_add. pose proof (kqueue_changes_single kevent x fd type (Z.lor EV_ADD EV_ENABLE) Ht) as Es.
  destruct (kqueue_change_ok kevent filtered kevent_ok x fd type _ Ht (or_introl eq_refl)) as (rt & x' & E & H).
  rewrite E. exists x'. rewrite Es in E. unfold kqueue_change in E.
  destruct (accepts (kq_kfd x) fd (filter_of type)) as [Ha _]. destruct (kevent _ _ _ _) as [r k]. cbn in Ha.
  rewrite (proj2 (Z.ltb_ge _ _)) in E by lia. injection E as <- <-. destruct H as [[? _]|(_ & _ & Hw)]; [done|]. by split.
Qed.

Lemma kqueue_remove_accepted x fd type : single type -> Z.land (kqueue_watch filtered x fd) type = type ->
  exists x', fk_kqueue_remove kevent x fd type = Some (FK_EV_OK, x') /\
  forall f, kqueue_watch filtered x' f =
    if bool_decide (f = fd) then Z.land (kqueue_watch filtered x fd) (Z.lnot type) else kqueue_watch filtered x f.
Proof.
  intros Ht Hl. unfold fk_kqueue_remove. pose proof (kqueue_changes_single kevent x fd type EV_DELETE Ht) as Es.
  destruct (kqueue_change_ok kevent filtered kevent_ok x fd type _ Ht (or_intror eq_refl)) as (rt & x' & E & H).
  rewrite E. exists x'. rewrite Es in E. unfold kqueue_change in E.
  destruct (accepts (kq_kfd x) fd (filter_of type)) as [_ Ha].
  assert (filtered (kq_kfd x) fd (filter_of type) = true) as Hf.
  { unfold kqueue_watch in Hl. destruct Ht as [->| ->], (filtered (kq_kfd x) fd EVFILT_READ) eqn:E1,
      (filtered (kq_kfd x) fd EVFILT_WRITE) eqn:E2; done. }
  specialize (Ha Hf). destruct (kevent _ _ _ _) as [r k]. cbn in Ha.
  rewrite (proj2 (Z.ltb_ge _ _)) in E by lia. injection E as <- <-. destruct H as [[? _]|(_ & _ & Hw)]; [done|]. by split.
Qed.

Lemma kqueue_land_type x fd type : single type -> Z.land (kqueue_watch filtered x fd) type <> 0 ->
  Z.land (kqueue_watch filtered x fd) type = type.
Proof. unfold kqueue_watch. intros [->| ->]; by repeat case_match. Qed.

Definition kqueue_reliable : @MpxReliable (fk_kqueue K) kqueue_ans (kqueue_mpx kevent) kqueue_laws.
Proof.
  refine (@Build_MpxReliable _ _ (kqueue_mpx kevent) kqueue_laws _ _).
  - intros n x fd type _ _ Ht _. destruct (kqueue_add_accepted x fd type Ht) as (x' & E & _). by exists x'.
  - intros n x fd type _ _ Ht Hw. destruct (kqueue_remove_accepted x fd type Ht) as (x' & E & _); [by apply kqueue_land_type|by exists x'].
Defined.
End laws.

(** ** What it does not refuse *)

(** The calls of the manager that show it: two events for one descriptor and type are
    added, and the second one is removed. *)
Definition add_twice {X A U} `{!Mpx X A} (a b fd type cb : Z) : ST (fk_evmgr X U) (Z * Z * Z) :=
  fk_ioev_create a fd type cb;;
  r1 ← fk_ev_add_ioev a;
  fk_ioev_create b fd type cb;;
  r2 ← fk_ev_add_ioev b;
  r3 ← fk_ev_remove_ioev b;
  mret (r1, r2, r3).

Section manager.
Context {X A U : Type} `{!Mpx X A}.
Implicit Types (s : fk_evmgr X U).

Lemma create_ioev_step s id fd type cb : fk_ioev_create id fd type cb s = Some (tt, set_ioev s id (Ioev fd type FK_IOEV_INIT cb)).
Proof. done. Qed.

(** What the manager does when the backend accepts. *)
Lemma add_read_step s id fd cb x : ev_ioevs s !! id = Some (Ioev fd FK_IOEV_READ FK_IOEV_INIT cb) ->
  iompx_add (ev_iompx s) fd FK_IOEV_READ = Some (FK_EV_OK, x) -> 0 <= fd < zlen (ev_read_ev s) ->
  fk_ev_add_ioev id s = Some (FK_EV_OK, set_io_cnt (set_ioev (set_slots (set_iompx s x) (zupd (ev_read_ev s) fd (Some (Some id)))
    (ev_write_ev s)) id (Ioev fd FK_IOEV_READ FK_IOEV_PENDING cb)) (ev_ioev_cnt s + 1)).
Proof.
  intros He Hx Hfd. unfold fk_ev_add_ioev, get_ioev. st_run. rewrite He. cbn [io_activated io_fd io_type].
  change (negb (FK_IOEV_INIT =? FK_IOEV_INIT)) with false. cbv beta iota. rewrite Hx. cbv beta iota.
  change (FK_EV_OK =? FK_EV_ERR) with false. cbv beta iota. unfold set_ev_slots, slot_set.
  change (Z.land FK_IOEV_READ FK_IOEV_READ =? 0) with false. change (Z.land FK_IOEV_READ FK_IOEV_WRITE =? 0) with true. ev_cbn.
  assert ((0 <=? fd) && (fd <? zlen (ev_read_ev s)) = true) as -> by (apply andb_true_intro; lia). cbv beta iota.
  by erewrite ioev_stat_ok by (ev_cbn; exact He).
Qed.

Lemma remove_read_step s id fd cb x : ev_ioevs s !! id = Some (Ioev fd FK_IOEV_READ FK_IOEV_PENDING cb) ->
  iompx_remove (ev_iompx s) fd FK_IOEV_READ = Some (FK_EV_OK, x) -> 0 <= fd < zlen (ev_read_ev s) ->
  fk_ev_remove_ioev id s = Some (FK_EV_OK, set_io_cnt (set_slots (set_ioev (set_iompx s x) id (Ioev fd FK_IOEV_READ FK_IOEV_INIT cb))
    (zupd (ev_read_ev s) fd (Some None)) (ev_write_ev s)) (ev_ioev_cnt s - 1)).
Proof.
  intros He Hx Hfd. unfold fk_ev_remove_ioev, get_ioev. st_run. rewrite He. cbn [io_activated io_fd io_type].
  change (FK_IOEV_PENDING =? FK_IOEV_INIT) with false. change (FK_IOEV_PENDING =? FK_IOEV_ACTIVATED) with false. cbv beta iota.
  rewrite Hx. cbv beta iota. change (FK_EV_OK =? FK_EV_ERR) with false. cbv beta iota.
  erewrite ioev_stat_ok by (ev_cbn; exact He). cbv beta iota. unfold set_ev_slots, slot_set.
  change (Z.land FK_IOEV_READ FK_IOEV_READ =? 0) with false. change (Z.land FK_IOEV_READ FK_IOEV_WRITE =? 0) with true. ev_cbn.
  by assert ((0 <=? fd) && (fd <? zlen (ev_read_ev s)) = true) as -> by (apply andb_true_intro; lia).
Qed.

(** A backend that accepts both events and the removal leaves the first event added, in
    no cell of the manager. *)
Lemma add_twice_accepted s a b fd cb x1 x2 x3 : a <> b -> 0 <= fd < zlen (ev_read_ev s) ->
  iompx_add (ev_iompx s) fd FK_IOEV_READ = Some (FK_EV_OK, x1) -> iompx_add x1 fd FK_IOEV_READ = Some (FK_EV_OK, x2) ->
  iompx_remove x2 fd FK_IOEV_READ = Some (FK_EV_OK, x3) ->
  exists s', add_twice a b fd FK_IOEV_READ cb s = Some ((FK_EV_OK, FK_EV_OK, FK_EV_OK), s') /\ ev_iompx s' = x3 /\
    ev_ioevs s' !! a = Some (Ioev fd FK_IOEV_READ FK_IOEV_PENDING cb) /\ znth (ev_read_ev s') fd = Some (Some None).
Proof.
  intros Hne Hfd E1 E2 E3. unfold add_twice. st_run. rewrite create_ioev_step. cbv beta iota.
  erewrite (add_read_step _ a fd cb x1) by (ev_cbn; first [apply lookup_insert_eq | done]). cbv beta iota.
  rewrite create_ioev_step. cbv beta iota.
  erewrite (add_read_step _ b fd cb x2) by (ev_cbn; first [apply lookup_insert_eq | done | rewrite ?zlen_zupd; lia]). cbv beta iota.
  erewrite (remove_read_step _ b fd cb x3) by (ev_cbn; first [apply lookup_insert_eq | done | rewrite ?zlen_zupd; lia]). cbv beta iota.
  eexists. split; [reflexivity|]. ev_cbn. split; [done|]. split.
  - by rewrite !(lookup_insert_ne _ b a), lookup_insert_eq by done.
  - apply znth_zupd_eq. rewrite !zlen_zupd. lia.
Qed.
End manager.

Section accepts.
Context {K : Type} (kevent : K -> Z -> Z -> Z -> Z * K) (filtered : K -> Z -> Z -> bool).
Hypothesis kevent_ok : kevent_spec kevent filtered.
Hypothesis accepts : kevent_accepts kevent filtered.
Implicit Types (x : fk_kqueue K).

(** Two events for reading on one descriptor are both accepted; when the second one is
    removed, the first one is still added for the manager, which has it in no cell, and
    the kernel does not watch the descriptor: its callback is never called. *)
Theorem kqueue_loses_event {U} a b fd cb n mem (u : U) k : a <> b -> 0 <= fd < n -> zlen mem = n ->
  (forall fd f, filtered k fd f = false) ->
  let M := kqueue_mpx kevent in
  exists s, add_twice a b fd FK_IOEV_READ cb (fk_ev_init n mem mem (fk_kqueue_create k n) u) = Some ((FK_EV_OK, FK_EV_OK, FK_EV_OK), s) /\
    ev_ioevs s !! a = Some (Ioev fd FK_IOEV_READ FK_IOEV_PENDING cb) /\ znth (ev_read_ev s) fd = Some (Some None) /\
    kqueue_watch filtered (ev_iompx s) fd = 0.
Proof.
  intros Hne Hfd Hl Hk M. destruct (kqueue_create_ok filtered n k Hk) as [_ H0]. assert (single FK_IOEV_READ) as Ht by by left.
  destruct (kqueue_add_accepted kevent filtered kevent_ok accepts (fk_kqueue_create k n) fd FK_IOEV_READ Ht) as (x1 & E1 & H1).
  destruct (kqueue_add_accepted kevent filtered kevent_ok accepts x1 fd FK_IOEV_READ Ht) as (x2 & E2 & H2).
  assert (kqueue_watch filtered x2 fd = FK_IOEV_READ) as Hw.
  { rewrite H2, H1, H0. by rewrite bool_decide_eq_true_2. }
  destruct (kqueue_remove_accepted kevent filtered kevent_ok accepts x2 fd FK_IOEV_READ Ht) as (x3 & E3 & H3); [by rewrite Hw|].
  destruct (add_twice_accepted (fk_ev_init n mem mem (fk_kqueue_create k n) u) a b fd cb x1 x2 x3 Hne) as (s & E & Hx & Ha & Hc);
    [cbn; lia|done|done|done|].
  exists s. split; [exact E|]. split; [done|]. split; [done|]. rewrite Hx, H3, Hw. by rewrite bool_decide_eq_true_2.
Qed.
End accepts.

(** ** Instances *)

(** A kernel that is its set of filters. *)
Definition ex_kevent (k : gset (Z * Z)) (fd filter flags : Z) : Z * gset (Z * Z) :=
  if Z.land flags EV_ADD =? 0 then
    if bool_decide ((fd, filter) ∈ k) then (0, k ∖ {[(fd, filter)]}) else (-1, k)
  else (0, {[(fd, filter)]} ∪ k).
Definition ex_filtered (k : gset (Z * Z)) (fd filter : Z) : bool := bool_decide ((fd, filter) ∈ k).

Lemma ex_kevent_ok : kevent_spec ex_kevent ex_filtered.
Proof.
  intros k fd filter flags [->| ->]; unfold ex_kevent, ex_filtered; cbn.
  - right. split; [done|]. split; [done|]. intros f g. destruct (decide (f = fd /\ g = filter)) as [[-> ->]|H1].
    + rewrite !bool_decide_eq_true_2 by set_solver. done.
    + rewrite (bool_decide_eq_false_2 _ H1). apply bool_decide_ext. set_solver.
  - case_bool_decide as Hin; [right|left; done]. split; [done|]. split; [done|]. intros f g.
    destruct (decide (f = fd /\ g = filter)) as [[-> ->]|H1].
    + rewrite (bool_decide_eq_true_2 (fd = fd /\ _)) by done. apply bool_decide_eq_false_2. set_solver.
    + rewrite (bool_decide_eq_false_2 _ H1). apply bool_decide_ext. set_solver.
Qed.

Lemma ex_kevent_accepts : kevent_accepts ex_kevent ex_filtered.
Proof. intros k fd filter. unfold ex_kevent, ex_filtered. split; [done|]. intros H. cbn. by rewrite H. Qed.

Lemma kqueue_loses_event_witness : let M := kqueue_mpx ex_kevent in
  exists s : fk_evmgr (fk_kqueue (gset (Z * Z))) unit,
    add_twice 7 8 3 FK_IOEV_READ 0 (fk_ev_init 8 (replicate 8 (Some None)) (replicate 8 (Some None)) (fk_kqueue_create ∅ 8) tt) =
      Some ((FK_EV_OK, FK_EV_OK, FK_EV_OK), s) /\
    ev_ioevs s !! 7 = Some (Ioev 3 FK_IOEV_READ FK_IOEV_PENDING 0) /\ znth (ev_read_ev s) 3 = Some (Some None) /\
    kqueue_watch ex_filtered (ev_iompx s) 3 = 0.
Proof.
  refine (kqueue_loses_event ex_kevent ex_filtered ex_kevent_ok ex_kevent_accepts 7 8 3 0 8 (replicate 8 (Some None)) tt ∅ _ _ eq_refl _);
    [lia|lia|reflexivity].
Defined.
