(* ===== verification/Lua.v ===== *)
(** Models src/src/fk_svr_lua.c, the bridge between the commands and the Lua library:
    [redis.pcall], which runs a command on the connection [server.lua_conn] and turns
    its reply into a Lua value, and the run of a script, whose first result is turned
    into the reply of EVAL.

    The Lua library is not modelled.  [lua_load] gives what a text compiles to: an
    error message, or a program, which is a tree of its calls of [redis.pcall] and
    ends with its results or an error.  It keeps nothing between two runs but what
    the server keeps. *)
From S2P Require Import Prelude Util Buf Dict Item Conf Svr Req Parse Store.
From S2P Require Import CmdStr CmdHash CmdList CmdDb Kdb KdbProps Blog Proto ProtoProps.

(** ** Lua values *)

(** [lua_Number], with the conversions from and to [int] and to text. *)
Class LuaNumber (N : Type) := {
  num_of_int : Z -> N;
  num_to_int : N -> Z;
  num_to_str : N -> bytes
}.

Class LuaNumberLaws (N : Type) `{!LuaNumber N} := {
  num_of_to n : - 2 ^ 31 <= n < 2 ^ 31 -> num_to_int (num_of_int n) = n
}.

(** A table: its values at string keys and at the indices from 1 to [lua_objlen]. *)
Inductive lua_value (N : Type) :=
  | LuaNil | LuaBool (b : bool) | LuaNum (n : N) | LuaStr (s : bytes)
  | LuaTable (fields : list (bytes * lua_value N)) (elems : list (lua_value N)) | LuaOther.
Arguments LuaNil {N}.
Arguments LuaBool {N} _.
Arguments LuaNum {N} _.
Arguments LuaStr {N} _.
Arguments LuaTable {N} _ _.
Arguments LuaOther {N}.

Inductive script (N : Type) :=
  | Return (vs : list (lua_value N))
  | Raise (err : lua_value N)
  | PCall (args : list (lua_value N)) (k : lua_value N -> script N).
Arguments Return {N} _.
Arguments Raise {N} _.
Arguments PCall {N} _ _.

(** ** Reading the reply in the write buffer

    Reading a byte outside the block, or one nobody wrote, is undefined: [None]. *)

Definition cells_from (b : fk_buf) (p : Z) : list cell := zdrop p (bdata b).

Definition byte_at (b : fk_buf) (p : Z) : option ascii :=
  match znth (bdata b) p with Some (Some c) => Some c | _ => None end.

(** The text [atoi] looks at: blanks, a sign, digits, and one more byte. *)
Fixpoint digit_cells (l : list cell) : option bytes :=
  match l with
  | Some c :: l' => if is_digit c then cons c <$> digit_cells l' else Some []
  | _ => None
  end.
Definition sign_cells (l : list cell) : option bytes :=
  match l with
  | Some c :: l' =>
      if Ascii.eqb c "-"%char || Ascii.eqb c "+"%char then cons c <$> digit_cells l' else digit_cells l
  | _ => None
  end.
Fixpoint num_cells (l : list cell) : option bytes :=
  match l with
  | Some c :: l' => if is_space c then num_cells l' else sign_cells l
  | _ => None
  end.
Definition atoi_at (b : fk_buf) (p : Z) : option Z := atoi <$> num_cells (cells_from b p).

(** [memchr(s, '\n', n)]; every caller computes with the result: no NULL. *)
Fixpoint find_lf (n : nat) (l : list cell) : option Z :=
  match n, l with
  | S n', Some c :: l' => if Ascii.eqb c LF then Some 0 else Z.succ <$> find_lf n' l'
  | _, _ => None
  end.
Definition lf_from (b : fk_buf) (p : Z) : option Z :=
  Z.add p <$> find_lf (Z.to_nat (fk_buf_payload_len b)) (cells_from b p).

(** [lua_pushlstring(L, p, n)] copies [n] bytes; [n] is a [size_t]. *)
Definition read_bytes (b : fk_buf) (p n : Z) : option bytes :=
  if (n <? 0) || (zlen (cells_from b p) <? n) then None
  else mapM (M := option) id (ztake n (cells_from b p)).

Section values.
Context {N : Type} `{!LuaNumber N}.
Abbreviation value := (lua_value N).
Implicit Types (v : value) (b : fk_buf).

(** [lua_isstring] and [lua_tolstring]: a number is a string, too. *)
Definition lua_tostr v : option bytes :=
  match v with LuaStr s => Some s | LuaNum n => Some (num_to_str n) | _ => None end.

(** The table [{ok = s}] or [{err = s}] of a line; the whole payload is consumed. *)
Definition parse_line (key : bytes) b : option (value * fk_buf) :=
  s ← read_bytes b (low b + 1) (fk_buf_payload_len b - 1 - 2);
  Some (LuaTable [(key, LuaStr s)] [], fk_buf_low_inc b (fk_buf_payload_len b)).

Definition fk_lua_parse_status b : option (value * fk_buf) := parse_line (lit "ok") b.
Definition fk_lua_parse_error b : option (value * fk_buf) := parse_line (lit "err") b.

(** These leave the reply in the buffer. *)
Definition fk_lua_parse_integer b : option (value * fk_buf) :=
  n ← atoi_at b (low b + 1);
  Some (LuaNum (num_of_int n), b).

Definition fk_lua_parse_bulk b : option (value * fk_buf) :=
  e ← lf_from b (low b);
  blen ← atoi_at b (low b + 1);
  if blen =? -1 then Some (LuaBool false, b)
  else s ← read_bytes b (e + 1) blen; Some (LuaStr s, b).

(** [lua_rawseti(L, -2, i)] on a table that is filled from index 1 on. *)
Definition rawseti (l : list value) (i : Z) v : option (list value) :=
  if i =? zlen l + 1 then Some (l ++ [v]) else None.

(** The loop from [i] on, [n] turns; [e] is the end of the last element read. *)
Fixpoint parse_mbulk_loop (n : nat) b (i e : Z) (l : list value) : option (list value) :=
  match n with
  | O => Some l
  | S n' =>
      let s := e + 1 in
      c ← byte_at b s;
      if Ascii.eqb c "$"%char then
        e ← lf_from b (s + 1);
        blen ← atoi_at b (s + 1);
        v ← (if blen =? -1 then Some (LuaBool false) else LuaStr <$> read_bytes b (e + 1) blen);
        l ← rawseti l (i + 1) v;
        parse_mbulk_loop n' b (i + 1) (e + (blen + 2)) l
      else if Ascii.eqb c ":"%char then
        e ← lf_from b (s + 1);
        n ← atoi_at b (s + 1);
        l ← rawseti l (i + 1) (LuaNum (num_of_int n));
        parse_mbulk_loop n' b (i + 1) e l
      else parse_mbulk_loop n' b (i + 1) e l
  end.

Definition fk_lua_parse_mbulk b : option (value * fk_buf) :=
  e ← lf_from b (low b);
  mbulk ← atoi_at b (low b + 1);
  l ← parse_mbulk_loop (Z.to_nat mbulk) b 0 e [];
  Some (LuaTable [] l, b).

(** The switch on the first byte; without a case [rt] is not initialised. *)
Definition parse_reply b : option (value * fk_buf) :=
  c ← byte_at b (low b);
  if Ascii.eqb c "+"%char then fk_lua_parse_status b
  else if Ascii.eqb c "-"%char then fk_lua_parse_error b
  else if Ascii.eqb c ":"%char then fk_lua_parse_integer b
  else if Ascii.eqb c "*"%char then fk_lua_parse_mbulk b
  else if Ascii.eqb c "$"%char then fk_lua_parse_bulk b
  else None.

(** ** [redis.pcall] *)

(** The arguments are added behind those the connection has; [false] when one is no
    string. *)
Fixpoint push_args (args : list value) : ST world bool :=
  match args with
  | [] => mret true
  | a :: args' =>
      match lua_tostr a with
      | None => mret false
      | Some s =>
          id ← item_create;
          c ← st_gets w_conn;
          v ← st_lift (fk_vtr_set (c_arg_vtr c) (c_arg_cnt c) (Some (SItem id (fk_str_create s (zlen s)))));
          _ ← on_items (fk_item_inc_ref id);
          _ ← mod_conn (fun c => cn_arg_cnt (cn_arg_vtr c v) (c_arg_cnt c + 1));
          push_args args'
      end
  end.

Definition PCALL_ERR : bytes := lit "the argument of pcall should be string".

(** The first two steps: the arguments, and the command, for which [proc] is
    [fk_lua_conn_proc_cmd].  [w_conn] is the connection of the scripts. *)
Definition pcall_command (proc : ST world Z) (args : list value) : ST world bool :=
  _ ← mod_conn (fun c =>
        cn_arg_vtr (cn_arg_parsed c (zlen args)) (fk_vtr_stretch (c_arg_vtr c) (zlen args)));
  ok ← push_args args;
  if (ok : bool) then
    _ ← mod_conn (fun c => cn_parse_done c 1);
    _ ← proc;
    mret true
  else mret false.

(** The third step: the reply. *)
Definition pcall_reply : ST world value :=
  b ← st_gets (fun w => c_wbuf (w_conn w));
  '(v, b) ← st_lift (parse_reply b);
  _ ← mod_conn (fun c => cn_wbuf c b);
  mret v.

Definition fk_lua_pcall (proc : ST world Z) (args : list value) : ST world value :=
  ok ← pcall_command proc args;
  if (ok : bool) then pcall_reply else mret (LuaStr PCALL_ERR).

(** ** Running a script *)

(** The connection that a script's commands run on: [server.lua_conn], which for an
    EVAL inside a script is the connection at hand. *)
Definition on_lua {A} (self : bool) (m : ST world A) : ST world A := fun w =>
  if self then m w
  else
    match m (World (w_svr w) (sv_lua_conn (w_svr w))) with
    | Some (a, w') => Some (a, World (sv_set_lua_conn (w_svr w') (w_conn w')) (w_conn w))
    | None => None
    end.

Fixpoint run_calls (self : bool) (proc : ST world Z) (sc : script N) : ST world (value + list value) :=
  match sc with
  | Return vs => mret (inr vs)
  | Raise err => mret (inl err)
  | PCall args k => v ← on_lua self (fk_lua_pcall proc args); run_calls self proc (k v)
  end.

Definition bulk_string (s : bytes) : ST world unit :=
  _ ← fk_conn_add_bulk_rsp (i32 (zlen s));
  _ ← fk_conn_add_content_rsp s (zlen s);
  mret tt.

(** The elements of a table that is a result. *)
Fixpoint reply_elems (l : list value) : ST world unit :=
  match l with
  | [] => mret tt
  | v :: l' =>
      _ ← match v with
          | LuaStr s => bulk_string s
          | LuaNum n => _ ← fk_conn_add_int_rsp (i32 (num_to_int n)); mret tt
          | _ => mret tt
          end;
      reply_elems l'
  end.

(** The reply for the results: only the first one counts. *)
Definition reply_results (vs : list value) : ST world unit :=
  match vs with
  | [] | LuaNil :: _ => _ ← fk_conn_add_bulk_rsp FK_RSP_NIL; mret tt
  | LuaNum n :: _ => _ ← fk_conn_add_int_rsp (i32 (num_to_int n)); mret tt
  | LuaStr s :: _ => bulk_string s
  | LuaTable _ l :: _ => _ ← fk_conn_add_mbulk_rsp (i32 (zlen l)); reply_elems l
  | LuaBool _ :: _ | LuaOther :: _ => mret tt
  end.

(** The error message is dereferenced. *)
Definition reply_error (err : value) : ST world unit := s ← st_lift (lua_tostr err); bulk_string s.

Section run.
Context (lua_load : bytes -> list bytes -> list bytes -> bytes + script N).

(** [keys] and [argv] are pushed by [fk_lua_push_paras] as C strings, and the code is
    one. *)
Definition fk_lua_push_paras (paras : list bytes) : list bytes := cstr <$> paras.

Definition fk_lua_run_script (self : bool) (proc : ST world Z) (code : bytes) (keys argv : list bytes) : ST world unit :=
  match lua_load (cstr code) (fk_lua_push_paras keys) (fk_lua_push_paras argv) with
  | inl err => bulk_string err
  | inr sc =>
      idx ← get_db_idx;
      _ ← on_lua self (mod_conn (fun c => cn_db_idx c idx));
      r ← run_calls self proc sc;
      match r with inl err => reply_error err | inr vs => reply_results vs end
  end.

Context (room : stdio) (fopen_ok rename_ok : bool).

(** A command of a script may be an EVAL again; [depth] bounds how deep, as the stack
    of the Lua library does. *)
Fixpoint run_script (depth : nat) (self : bool) (code : bytes) (keys argv : list bytes) : ST world unit :=
  match depth with
  | O => fun _ => None
  | S d =>
      fk_lua_run_script self (fk_lua_conn_proc_cmd room fopen_ok rename_ok (run_script d true)) code keys argv
  end.

(** EVAL of a client. *)
Definition eval (depth : nat) : ST world Z := fk_cmd_eval (run_script depth false).
End run.
End values.
