(* ===== verification/LuaProps.v ===== *)
(** Properties of the bridge to Lua: what [redis.pcall] makes of each kind of reply,
    what it leaves in the write buffer, and what EVAL answers for a script that
    returns the result of one command. *)
From S2P Require Import Prelude Util Buf Dict Item Conf Svr Req Parse Store.
From S2P Require Import CmdStr CmdHash CmdList CmdDb Kdb KdbProps Blog Proto ProtoProps Lua.

(** ** Reading numbers and lines from cells *)

Lemma digit_cells_fmt ds c l :
  all_digits ds -> is_digit c = false -> digit_cells ((Some <$> ds) ++ Some c :: l) = Some ds.
Proof.
  intros H Hc. induction ds as [|d ds IH]; cbn; [by rewrite Hc|].
  apply Forall_cons in H as [-> H]. by rewrite (IH H).
Qed.

Lemma fmt_d_pos n : 0 <= n -> fmt_d n = dec n.
Proof. intros H. unfold fmt_d. by rewrite (proj2 (Z.ltb_ge _ _)) by lia. Qed.

Lemma fmt_d_neg n : n < 0 -> fmt_d n = "-"%char :: dec (- n).
Proof. intros H. unfold fmt_d. by rewrite (proj2 (Z.ltb_lt _ _)) by lia. Qed.

Lemma digit_no_space c : is_digit c = true -> is_space c = false.
Proof. unfold is_digit, is_space. intros H. bool_lia. Qed.

Lemma digit_no_sign c : is_digit c = true -> Ascii.eqb c "-"%char || Ascii.eqb c "+"%char = false.
Proof.
  intros H. apply orb_false_iff. split; apply Ascii.eqb_neq; intros ->; vm_compute in H; discriminate.
Qed.

Lemma num_cells_dec n c l : 0 <= n < 10 ^ 20 -> is_digit c = false ->
  num_cells ((Some <$> dec n) ++ Some c :: l) = Some (dec n).
Proof.
  intros Hn Hc. pose proof (dec_all_digits n Hn) as Hd. pose proof (dec_length_pos n Hn) as Hl.
  destruct (dec n) as [|d ds]; [done|]. apply Forall_cons in Hd as [Hd Hds]. cbn [app fmap list_fmap num_cells].
  rewrite digit_no_space by done. unfold sign_cells. rewrite digit_no_sign by done.
  cbn [digit_cells]. rewrite Hd. by rewrite (digit_cells_fmt ds c l Hds Hc).
Qed.

Lemma num_cells_fmt n c l : - 2 ^ 31 <= n < 2 ^ 31 -> is_digit c = false ->
  num_cells ((Some <$> fmt_d n) ++ Some c :: l) = Some (fmt_d n).
Proof.
  intros Hn Hc. destruct (decide (n < 0)) as [H|H].
  - rewrite fmt_d_neg by done. cbn [app fmap list_fmap num_cells]. cbn [is_space sign_cells].
    change (is_space "-"%char) with false. cbv iota. unfold sign_cells.
    change (Ascii.eqb "-"%char "-"%char) with true. cbn [orb].
    by rewrite (digit_cells_fmt (dec (- n)) c l) by (done || apply dec_all_digits; lia).
  - rewrite fmt_d_pos by lia. apply num_cells_dec; [lia|done].
Qed.

Lemma atoi_fmt_d n : - 2 ^ 31 <= n < 2 ^ 31 -> atoi (fmt_d n) = n.
Proof.
  intros Hn. destruct (decide (n < 0)) as [H|H].
  - rewrite fmt_d_neg by done. unfold atoi, strtol. cbn [skip_space].
    change (is_space "-"%char) with false. cbv iota. change (Ascii.eqb "-"%char "-"%char) with true. cbv iota zeta.
    rewrite digits_val_dec by lia. rewrite Z.min_r, Z.max_r by lia. rewrite Z.opp_involutive. by apply i32_small.
  - rewrite fmt_d_pos by lia. rewrite <- (app_nil_r (dec n)). apply atoi_dec; [unfold INT_MAX; lia|done].
Qed.

Lemma find_lf_line n (s : bytes) l : LF ∉ s -> (length s < n)%nat ->
  find_lf n ((Some <$> s) ++ Some LF :: l) = Some (zlen s).
Proof.
  revert n. induction s as [|c s IH]; intros n Hs Hn; destruct n as [|n]; try (cbn in Hn; lia); cbn.
  { done. }
  apply not_elem_of_cons in Hs as [Hc Hs]. rewrite ascii_eqb_false by done.
  rewrite IH by (done || cbn in Hn; lia). cbn. by rewrite zlen_cons, Z.add_1_l.
Qed.

Lemma digits_notin ds c : all_digits ds -> is_digit c = false -> c ∉ ds.
Proof. intros H Hc Hin. unfold all_digits in H. rewrite Forall_forall in H. apply H in Hin. congruence. Qed.

Lemma fmt_d_notin n c : - 2 ^ 31 <= n < 2 ^ 31 -> is_digit c = false -> c <> "-"%char -> c ∉ fmt_d n.
Proof.
  intros Hn Hc Hm. destruct (decide (n < 0)) as [H|H].
  - rewrite fmt_d_neg by done. rewrite not_elem_of_cons. split; [done|].
    apply digits_notin; [|done]. apply dec_all_digits. lia.
  - rewrite fmt_d_pos by lia. apply digits_notin; [|done]. apply dec_all_digits. lia.
Qed.

Lemma mapM_cells (s : bytes) : mapM (M := option) id (Some <$> s) = Some s.
Proof. induction s as [|c s IH]; [done|]. cbn. by rewrite IH. Qed.

(** ** Pointers into the write buffer *)

Lemma cells_from_app b p (s : list cell) l : 0 <= p -> cells_from b p = s ++ l -> cells_from b (p + zlen s) = l.
Proof.
  intros Hp E. unfold cells_from in *. rewrite Z.add_comm, <- zdrop_zdrop by (done || apply zlen_nonneg).
  rewrite E. by apply zdrop_app_l.
Qed.

Lemma byte_at_cell b p c l : 0 <= p -> cells_from b p = Some c :: l -> byte_at b p = Some c.
Proof.
  intros Hp E. unfold byte_at, cells_from in *. destruct (zdrop_cons _ _ _ _ Hp E) as (-> & _). done.
Qed.

Lemma atoi_at_fmt b p n c l : - 2 ^ 31 <= n < 2 ^ 31 -> is_digit c = false ->
  cells_from b p = (Some <$> fmt_d n) ++ Some c :: l -> atoi_at b p = Some n.
Proof. intros Hn Hc E. unfold atoi_at. rewrite E, num_cells_fmt by done. cbn. by rewrite atoi_fmt_d. Qed.

(** The end of the line [s]. *)
Lemma lf_from_line b p (s : bytes) l : LF ∉ s -> zlen s < fk_buf_payload_len b ->
  cells_from b p = (Some <$> s) ++ Some LF :: l -> lf_from b p = Some (p + zlen s).
Proof. intros Hs Hn E. unfold lf_from. rewrite E, find_lf_line; [done|done|]. unfold zlen in Hn. lia. Qed.

Lemma read_bytes_ok b p (s : bytes) l : cells_from b p = (Some <$> s) ++ l -> read_bytes b p (zlen s) = Some s.
Proof.
  intros E. unfold read_bytes. pose proof (zlen_nonneg s) as Hs. pose proof (zlen_nonneg l). rewrite E, zlen_app, zlen_map.
  rewrite (proj2 (Z.ltb_ge (zlen s) 0)), (proj2 (Z.ltb_ge _ (zlen s))) by lia. cbn [orb].
  rewrite ztake_app_l by (by rewrite zlen_map). apply mapM_cells.
Qed.

(** A line of a character and a number: ":7", "$3", "*2". *)
Record header_at b (p : Z) (ch : ascii) (n : Z) (l : list cell) : Prop := {
  hdr_byte : byte_at b p = Some ch;
  hdr_num : atoi_at b (p + 1) = Some n;
  hdr_lf : lf_from b p = Some (p + zlen (fmt_d n) + 2);
  hdr_lf1 : lf_from b (p + 1) = Some (p + zlen (fmt_d n) + 2);
  hdr_rest : cells_from b (p + zlen (fmt_d n) + 3) = l
}.

Lemma header_ok b p ch n l :
  0 <= p -> - 2 ^ 31 <= n < 2 ^ 31 -> ch <> LF -> zlen (fmt_d n) + 3 <= fk_buf_payload_len b ->
  cells_from b p = (Some <$> (ch :: fmt_d n ++ CRLF)) ++ l -> header_at b p ch n l.
Proof.
  intros Hp Hn Hch Hlen E.
  assert (CR ∉ fmt_d n /\ LF ∉ fmt_d n) as [_ Hlf] by (split; by apply fmt_d_notin).
  assert (cells_from b (p + 1) = (Some <$> (fmt_d n ++ CRLF)) ++ l) as E1
    by (apply (cells_from_app b p [Some ch]); [done|exact E]).
  assert (LF ∉ fmt_d n ++ [CR]) as Hline by (rewrite not_elem_of_app, list_elem_of_singleton; split; done).
  split.
  - eapply byte_at_cell; [done|exact E].
  - eapply (atoi_at_fmt b (p + 1) n CR (Some LF :: l)); [done|done|]. rewrite E1, fmap_app, <- app_assoc. done.
  - rewrite (lf_from_line b p (ch :: fmt_d n ++ [CR]) l).
    + rewrite zlen_cons, zlen_app. change (zlen [CR]) with 1. f_equal. lia.
    + rewrite not_elem_of_cons. done.
    + rewrite zlen_cons, zlen_app. change (zlen [CR]) with 1. lia.
    + rewrite E. unfold CRLF. rewrite !fmap_cons, !fmap_app. cbn. by rewrite <- !app_assoc.
  - rewrite (lf_from_line b (p + 1) (fmt_d n ++ [CR]) l).
    + rewrite zlen_app. change (zlen [CR]) with 1. f_equal. lia.
    + done.
    + rewrite zlen_app. change (zlen [CR]) with 1. lia.
    + rewrite E1. unfold CRLF. rewrite !fmap_app. cbn. by rewrite <- !app_assoc.
  - replace (p + zlen (fmt_d n) + 3) with (p + zlen (Some <$> (ch :: fmt_d n ++ CRLF))).
    + by apply cells_from_app.
    + rewrite zlen_map, zlen_cons, zlen_app. change (zlen CRLF) with 2. lia.
Qed.

(** ** Replies *)

Inductive reply :=
  | RStatus (s : bytes) | RError (s : bytes) | RInt (n : Z)
  | RBulk (o : option bytes) | RMulti (l : list (option bytes)).

Definition bulk_cells (o : option bytes) : list cell :=
  match o with
  | None => bulk_rsp FK_RSP_NIL
  | Some s => bulk_rsp (zlen s) ++ (Some <$> (s ++ CRLF))
  end.

Definition reply_cells (r : reply) : list cell :=
  match r with
  | RStatus s => status_rsp s
  | RError s => error_rsp s
  | RInt n => int_rsp n
  | RBulk o => bulk_cells o
  | RMulti l => mbulk_rsp (zlen l) ++ concat (bulk_cells <$> l)
  end.

Definition bulk_ok (o : option bytes) : Prop := match o with Some s => arg_ok s | None => True end.

Definition reply_ok (r : reply) : Prop :=
  match r with
  | RStatus _ | RError _ => True
  | RInt n => - 2 ^ 31 <= n < 2 ^ 31
  | RBulk o => bulk_ok o
  | RMulti l => Forall bulk_ok l /\ zlen l < 2 ^ 31
  end.

(** A reply of one line, which is read to its end. *)
Definition is_line (r : reply) : bool := match r with RStatus _ | RError _ => true | _ => false end.

Section replies.
Context {N : Type} `{!LuaNumber N}.
Abbreviation value := (lua_value N).

Definition bulk_value (o : option bytes) : value :=
  match o with Some s => LuaStr s | None => LuaBool false end.

(** Nothing behind the first nil is read: the pointer ends up within the next
    element. *)
Fixpoint multi_values (l : list (option bytes)) : list value :=
  match l with
  | [] => []
  | Some s :: l' => LuaStr s :: multi_values l'
  | None :: _ => [LuaBool false]
  end.

Definition reply_value (r : reply) : value :=
  match r with
  | RStatus s => LuaTable [(lit "ok", LuaStr s)] []
  | RError s => LuaTable [(lit "err", LuaStr s)] []
  | RInt n => LuaNum (num_of_int n)
  | RBulk o => bulk_value o
  | RMulti l => LuaTable [] (multi_values l)
  end.

(** The two bytes a header and a text of [n] bytes take more than the text. *)
Lemma bulk_len_int s : arg_ok s -> - 2 ^ 31 <= zlen s < 2 ^ 31.
Proof. unfold arg_ok, FK_ARG_HIGHWAT. pose proof (zlen_nonneg s). lia. Qed.

(** A turn within an element that starts with neither ['$'] nor [':'] does nothing,
    and so do all the rest. *)
Lemma mbulk_loop_stuck n : forall b i e (acc : list value) c,
  byte_at b (e + 1) = Some c -> c <> "$"%char -> c <> ":"%char ->
  parse_mbulk_loop n b i e acc = Some acc.
Proof.
  induction n as [|n IH]; intros b i e acc c Hc H1 H2; [done|]. cbn [parse_mbulk_loop]. rewrite Hc.
  cbn [mbind option_bind]. rewrite !ascii_eqb_false by done. by apply (IH b (i + 1) e acc c).
Qed.

Lemma fmt_d_head n : - 2 ^ 31 <= n < 2 ^ 31 -> exists c s, fmt_d n = c :: s /\ c <> "$"%char /\ c <> ":"%char.
Proof.
  intros Hn. destruct (fmt_d n) as [|c s] eqn:E.
  - exfalso. destruct (decide (n < 0)) as [H|H].
    + by rewrite fmt_d_neg in E.
    + rewrite fmt_d_pos in E by lia. pose proof (dec_length_pos n ltac:(lia)) as Hl. rewrite E in Hl. done.
  - exists c, s. split; [done|].
    assert ("$"%char ∉ fmt_d n /\ ":"%char ∉ fmt_d n) as [H1 H2] by (split; by apply fmt_d_notin).
    rewrite E, not_elem_of_cons in H1, H2. naive_solver.
Qed.

(** The second byte of an element. *)
Lemma bulk_second o (l : list (option bytes)) rest : Forall bulk_ok (o :: l) ->
  exists c k, concat (bulk_cells <$> (o :: l)) ++ rest = Some "$"%char :: Some c :: k /\ c <> "$"%char /\ c <> ":"%char.
Proof.
  intros Hok. apply Forall_cons in Hok as [Ho _]. cbn [fmap list_fmap concat].
  set (n := match o with Some s => zlen s | None => FK_RSP_NIL end).
  assert (- 2 ^ 31 <= n < 2 ^ 31) as Hn by (destruct o as [s|]; [by apply bulk_len_int|done]).
  destruct (fmt_d_head n Hn) as (c & s & Ec & Hc). destruct o as [t|]; cbn [bulk_cells]; unfold bulk_rsp, bulk_text.
  - fold n. rewrite Ec. by eexists c, _.
  - change FK_RSP_NIL with n. rewrite Ec. by eexists c, _.
Qed.

Lemma mbulk_loop_ok l : forall b i e acc rest,
  -1 <= e -> zlen acc = i -> Forall bulk_ok l -> zlen (concat (bulk_cells <$> l)) <= fk_buf_payload_len b ->
  cells_from b (e + 1) = concat (bulk_cells <$> l) ++ rest ->
  parse_mbulk_loop (length l) b i e acc = Some (acc ++ multi_values l).
Proof.
  induction l as [|o l IH]; intros b i e acc rest He Hi Hok Hlen E; [by rewrite app_nil_r|].
  apply Forall_cons in Hok as [Ho Hok]. cbn [fmap list_fmap concat] in *. rewrite zlen_app in Hlen.
  pose proof (zlen_nonneg (concat (bulk_cells <$> l))) as Hl0. rewrite <- app_assoc in E.
  cbn [length parse_mbulk_loop multi_values]. destruct o as [s|]; cbn [bulk_cells] in *.
  - pose proof (bulk_len_int s Ho) as Hs. rewrite zlen_app in Hlen. rewrite <- app_assoc in E.
    unfold bulk_rsp, bulk_text in *. rewrite !zlen_map, zlen_cons, !zlen_app in Hlen. change (zlen CRLF) with 2 in Hlen.
    pose proof (zlen_nonneg s). pose proof (zlen_nonneg (fmt_d (zlen s))).
    apply header_ok in E as [H1 H2 H3 H4 H5]; [|lia|done|done|lia].
    rewrite H1. cbn [mbind option_bind]. change (Ascii.eqb "$" "$") with true. cbv iota.
    rewrite H4, H2. cbn [mbind option_bind]. rewrite (proj2 (Z.eqb_neq _ _)) by lia.
    replace (e + 1 + zlen (fmt_d (zlen s)) + 2 + 1) with (e + 1 + zlen (fmt_d (zlen s)) + 3) by lia.
    rewrite (read_bytes_ok b _ s ((Some <$> CRLF) ++ concat (bulk_cells <$> l) ++ rest))
      by (rewrite H5, fmap_app, <- app_assoc; done).
    cbn [mbind option_bind fmap option_fmap option_map]. unfold rawseti. rewrite Hi, (proj2 (Z.eqb_eq _ _) eq_refl).
    cbn [mbind option_bind]. rewrite (IH b (i + 1) _ (acc ++ [LuaStr s]) rest).
    + by rewrite <- app_assoc.
    + lia.
    + rewrite zlen_app, Hi. done.
    + done.
    + lia.
    + assert (0 <= e + 1 + zlen (fmt_d (zlen s)) + 3) as Hp by lia.
      pose proof (cells_from_app b _ (Some <$> (s ++ CRLF)) (concat (bulk_cells <$> l) ++ rest) Hp H5) as Hc.
      rewrite zlen_map, zlen_app in Hc. change (zlen CRLF) with 2 in Hc. rewrite <- Hc. f_equal. lia.
  - unfold bulk_rsp, bulk_text in *. rewrite zlen_map, zlen_cons, zlen_app in Hlen.
    change (zlen CRLF) with 2 in Hlen. change (zlen (fmt_d FK_RSP_NIL)) with 2 in Hlen.
    apply header_ok in E as [H1 H2 H3 H4 H5]; [|lia|done|done|change (zlen (fmt_d FK_RSP_NIL)) with 2; lia].
    rewrite H1. cbn [mbind option_bind]. change (Ascii.eqb "$" "$") with true. cbv iota.
    rewrite H4, H2. cbn [mbind option_bind]. change (FK_RSP_NIL =? -1) with true. cbv iota. cbn [mbind option_bind].
    unfold rawseti. rewrite Hi, (proj2 (Z.eqb_eq _ _) eq_refl). cbn [mbind option_bind].
    change (zlen (fmt_d FK_RSP_NIL)) with 2 in *. destruct l as [|o l]; [done|].
    destruct (bulk_second o l rest) as (c & k & En & Hc1 & Hc2); [done|]. rewrite En in H5.
    apply (mbulk_loop_stuck _ _ _ _ _ c); [|done|done].
    eapply byte_at_cell; [unfold FK_RSP_NIL; lia|].
    assert (0 <= e + 1 + 2 + 3) as Hp by lia.
    rewrite <- (cells_from_app b _ [Some "$"%char] (Some c :: k) Hp H5).
    f_equal. change (zlen [Some "$"%char]) with 1. unfold FK_RSP_NIL. lia.
Qed.
End replies.

(** ** Every kind of reply *)

(** Consuming the whole payload. *)
Lemma drain_ok b : wbuf_inv b ->
  wbuf_inv (fk_buf_low_inc b (fk_buf_payload_len b)) /\ payload (fk_buf_low_inc b (fk_buf_payload_len b)) = [].
Proof.
  intros [W H1 H2]. pose proof (wf_low_high _ W) as Hl. unfold fk_buf_payload_len in *.
  split; [split; [apply low_inc_wf; [done|lia]|done..]|].
  rewrite payload_low_inc by (done || (unfold fk_buf_payload_len; lia)).
  apply zlen_0. rewrite zlen_zdrop; rewrite zlen_payload by done; unfold fk_buf_payload_len; lia.
Qed.

Lemma cells_from_low b : cells_from b (low b) = payload b ++ zdrop (fk_buf_payload_len b) (cells_from b (low b)).
Proof. unfold payload, cells_from, fk_buf_payload_len. by rewrite ztake_zdrop. Qed.

Section parse.
Context {N : Type} `{!LuaNumber N}.

(** What stays in the buffer: a reply of more than a line is not consumed. *)
Definition after_reply (r : reply) b : fk_buf :=
  if is_line r then fk_buf_low_inc b (fk_buf_payload_len b) else b.

Lemma parse_line_ok key b ch (s : bytes) :
  buf_wf b -> payload b = Some <$> (ch :: s ++ CRLF) ->
  parse_line key b = Some (LuaTable [(key, LuaStr s)] [], fk_buf_low_inc b (fk_buf_payload_len b)) :> option (lua_value N * _).
Proof.
  intros W Hp. pose proof (zlen_payload b W) as Hl. rewrite Hp, zlen_map, zlen_cons, zlen_app in Hl.
  change (zlen CRLF) with 2 in Hl. pose proof (wf_low _ W) as H0. pose proof (cells_from_low b) as E. rewrite Hp in E.
  set (tail := zdrop _ _) in E.
  assert (cells_from b (low b + 1) = (Some <$> s) ++ (Some <$> CRLF) ++ tail) as E1.
  { apply (cells_from_app b (low b) [Some ch]); [done|]. rewrite E, fmap_cons, fmap_app. cbn. by rewrite <- app_assoc. }
  unfold parse_line. replace (fk_buf_payload_len b - 1 - 2) with (zlen s) by lia.
  by rewrite (read_bytes_ok _ _ _ _ E1).
Qed.

Lemma parse_reply_ok r b rest :
  buf_wf b -> reply_ok r -> payload b = reply_cells r ++ rest -> (is_line r = true -> rest = []) ->
  parse_reply b = Some (reply_value r, after_reply r b) :> option (lua_value N * _).
Proof.
  intros W Hr Hp Hline. pose proof (zlen_payload b W) as Hl. pose proof (wf_low _ W) as H0.
  pose proof (cells_from_low b) as E. rewrite Hp, <- app_assoc in E. unfold parse_reply, after_reply.
  destruct r as [s|s|n|o|l]; cbn [is_line reply_cells reply_value] in *.
  - rewrite (byte_at_cell _ _ _ _ H0 E). cbn [mbind option_bind]. change (Ascii.eqb "+" "+") with true.
    rewrite Hline, app_nil_r in Hp by done. by apply (parse_line_ok _ _ "+").
  - rewrite (byte_at_cell _ _ _ _ H0 E). cbn [mbind option_bind]. change (Ascii.eqb "-" "+") with false.
    change (Ascii.eqb "-" "-") with true. rewrite Hline, app_nil_r in Hp by done. by apply (parse_line_ok _ _ "-").
  - rewrite Hp, zlen_app in Hl. unfold int_rsp, int_text in *. rewrite zlen_map, zlen_cons, zlen_app in Hl.
    change (zlen CRLF) with 2 in Hl. pose proof (zlen_nonneg rest) as Hr0.
    apply header_ok in E as [H1 H2 _ _ _]; [|lia|done|done|lia]. rewrite H1. cbn [mbind option_bind].
    cbn [Ascii.eqb Bool.eqb andb]. unfold fk_lua_parse_integer. by rewrite H2.
  - rewrite Hp, zlen_app in Hl. pose proof (zlen_nonneg rest) as Hr0.
    destruct o as [s|]; cbn [bulk_cells bulk_value] in *; unfold bulk_rsp, bulk_text in *.
    + rewrite zlen_app, !zlen_map, zlen_cons, !zlen_app in Hl. change (zlen CRLF) with 2 in Hl.
      pose proof (bulk_len_int s Hr) as Hs. pose proof (zlen_nonneg s) as Hs0. pose proof (zlen_nonneg (fmt_d (zlen s))) as Hd0.
      rewrite <- app_assoc in E.
      apply header_ok in E as [H1 H2 H3 _ H5]; [|lia|done|done|lia]. rewrite H1. cbn [mbind option_bind].
      cbn [Ascii.eqb Bool.eqb andb]. unfold fk_lua_parse_bulk. rewrite H3, H2. cbn [mbind option_bind].
      rewrite (proj2 (Z.eqb_neq _ _)) by lia. rewrite fmap_app, <- app_assoc in H5.
      replace (low b + zlen (fmt_d (zlen s)) + 2 + 1) with (low b + zlen (fmt_d (zlen s)) + 3) by lia.
      by rewrite (read_bytes_ok _ _ _ _ H5).
    + change (zlen (Some <$> "$"%char :: fmt_d FK_RSP_NIL ++ CRLF)) with 5 in Hl.
      apply header_ok in E as [H1 H2 H3 _ _]; [|lia|done|done|change (zlen (fmt_d FK_RSP_NIL)) with 2; lia].
      rewrite H1. cbn [mbind option_bind]. cbn [Ascii.eqb Bool.eqb andb]. unfold fk_lua_parse_bulk.
      by rewrite H3, H2.
  - destruct Hr as [Hb Hn]. rewrite Hp, !zlen_app in Hl. pose proof (zlen_nonneg rest) as Hr0. pose proof (zlen_nonneg l) as Hl0.
    pose proof (zlen_nonneg (concat (bulk_cells <$> l))) as Hc0.
    unfold mbulk_rsp, mbulk_text in *. rewrite zlen_map, zlen_cons, zlen_app in Hl. change (zlen CRLF) with 2 in Hl.
    pose proof (zlen_nonneg (fmt_d (zlen l))) as Hd0. rewrite <- app_assoc in E.
    apply header_ok in E as [H1 H2 H3 _ H5]; [|lia|lia|done|lia]. rewrite H1. cbn [mbind option_bind].
    cbn [Ascii.eqb Bool.eqb andb]. unfold fk_lua_parse_mbulk. rewrite H3, H2. cbn [mbind option_bind].
    replace (Z.to_nat (zlen l)) with (length l) by (unfold zlen; lia).
    rewrite (mbulk_loop_ok l b 0 _ [] (rest ++ zdrop (fk_buf_payload_len b) (cells_from b (low b)))); [done|lia|done|done|lia|].
    replace (low b + zlen (fmt_d (zlen l)) + 2 + 1) with (low b + zlen (fmt_d (zlen l)) + 3) by lia.
    by rewrite H5.
Qed.
End parse.

(** ** The arguments of a call *)

Section call.
Context {N : Type} `{!LuaNumber N}.
Abbreviation value := (lua_value N).

(** Only the items of the server and the arguments of the connection change. *)
Definition args_frame (w w' : world) : Prop :=
  exists m v n, w' = World (sv_set_items (w_svr w) m) (cn_arg_cnt (cn_arg_vtr (w_conn w) v) n) /\
    v_init_len v = v_init_len (c_arg_vtr (w_conn w)).

Lemma args_frame_trans w1 w2 w3 : args_frame w1 w2 -> args_frame w2 w3 -> args_frame w1 w3.
Proof.
  intros (m1 & v1 & n1 & -> & H1) (m2 & v2 & n2 & -> & H2). exists m2, v2, n2. split; [done|]. by rewrite H2.
Qed.

Lemma push_args_ok (args : list value) : forall strs w l,
  Forall2 (fun a s => lua_tostr a = Some s) args strs ->
  args_at (c_arg_vtr (w_conn w)) l -> c_arg_cnt (w_conn w) = zlen l ->
  zlen l + zlen strs <= fk_vtr_len (c_arg_vtr (w_conn w)) ->
  exists w', push_args args w = Some (true, w') /\ args_frame w w' /\
    args_at (c_arg_vtr (w_conn w')) (l ++ strs) /\ c_arg_cnt (w_conn w') = zlen (l ++ strs).
Proof.
  induction args as [|a args IH]; intros strs w l Hs Hat Hcnt Hlen.
  { apply Forall2_nil_inv_l in Hs as ->. rewrite app_nil_r. exists w. split; [done|]. split; [|done].
    exists (sv_items (w_svr w)), (c_arg_vtr (w_conn w)), (c_arg_cnt (w_conn w)). by destruct w as [[] []]. }
  apply Forall2_cons_inv_l in Hs as (s & strs' & Ha & Hs & ->). rewrite zlen_cons in Hlen.
  cbn [push_args]. rewrite Ha. unfold mbind, ST_bind, item_create. destruct (fk_item_create _) as [id m].
  unfold st_gets, st_lift. cbn [w_conn w_set_svr].
  pose proof (zlen_nonneg strs') as H0. pose proof (zlen_nonneg l) as H1.
  destruct (fk_vtr_set (c_arg_vtr (w_conn w)) (c_arg_cnt (w_conn w)) (Some (SItem id (fk_str_create s (zlen s))))) as [v|] eqn:E.
  2: { exfalso. unfold fk_vtr_set in E. destruct (_ && _) eqn:Eb; [done|]. bool_lia. }
  pose proof (fk_vtr_set_init _ _ _ _ E) as Hv. destruct (fk_vtr_get_set _ _ _ _ E) as [_ Hl].
  rewrite Hcnt in E. unfold fk_str_create in E. rewrite ztake_all in E by lia. apply (args_at_snoc _ _ _ _ _ Hat) in E.
  set (w1 := World (sv_set_items (sv_set_items (w_svr w) m) (fk_item_inc_ref id m))
    (cn_arg_cnt (cn_arg_vtr (w_conn w) v) (c_arg_cnt (w_conn w) + 1))).
  destruct (IH strs' w1 (l ++ [s]) Hs E) as (w' & E' & F & Hat' & Hcnt').
  - cbn [w1 w_conn c_arg_cnt cn_arg_cnt cn_arg_vtr]. rewrite Hcnt, zlen_app. done.
  - cbn [w1 w_conn c_arg_vtr cn_arg_cnt cn_arg_vtr]. rewrite Hl, zlen_app. change (zlen [s]) with 1. lia.
  - exists w'. split; [exact E'|]. split; [|by rewrite <- app_assoc in *].
    eapply args_frame_trans; [|exact F]. by eexists _, v, _.
Qed.

(** A vector without room. *)
Lemma push_args_over (args : list value) : forall strs w,
  Forall2 (fun a s => lua_tostr a = Some s) args strs -> 0 <= c_arg_cnt (w_conn w) ->
  c_arg_cnt (w_conn w) <= fk_vtr_len (c_arg_vtr (w_conn w)) < c_arg_cnt (w_conn w) + zlen args -> push_args args w = None.
Proof.
  induction args as [|a args IH]; intros strs w Hs H0 H; [rewrite zlen_nil in H; lia|].
  apply Forall2_cons_inv_l in Hs as (s & strs' & Ha & Hs & _). rewrite zlen_cons in H.
  cbn [push_args]. rewrite Ha. unfold mbind, ST_bind, item_create. destruct (fk_item_create _) as [id m].
  unfold st_gets, st_lift. cbn [w_conn w_set_svr].
  destruct (fk_vtr_set _ _ _) as [v|] eqn:E; [|done]. destruct (fk_vtr_get_set _ _ _ _ E) as [Hg Hl].
  apply fk_vtr_get_bound in Hg. apply (IH strs'); [done|cbn; lia|]. cbn. lia.
Qed.
End call.

(** ** A command on the connection of the scripts *)

(** The write buffer is at its limit: replies may be cut. *)
Definition wbuf_full (w : world) : Prop := highwat (c_wbuf (w_conn w)) <= blen (c_wbuf (w_conn w)).

Section command.
Context (room : stdio) (fopen_ok rename_ok : bool).
Context (run_script : bytes -> list bytes -> list bytes -> ST world unit).
Abbreviation request := (request room fopen_ok rename_ok run_script).
Abbreviation lua_proc := (fk_lua_conn_proc_cmd room fopen_ok rename_ok run_script).

(** The command was carried out, or its reply did not fit. *)
Definition commanded (w : world) (A : Z -> astate -> Prop) (s : list cell) (w' : world) : Prop :=
  processed w A s [] FK_SVR_OK w' \/ wbuf_full w'.

Lemma answered_full b b' s : answered b b' FK_SVR_ERR s -> highwat b' <= blen b'.
Proof. intros (_ & _ & _ & [[? _]|(_ & _ & H)]); done. Qed.

Lemma processed_commanded w A s rt w' : processed w A s [] rt w' -> commanded w A s w'.
Proof.
  intros P. destruct (answered_codes _ _ _ _ (pr_rsp _ _ _ _ _ _ P)) as [->| ->]; [by left|].
  right. apply (answered_full _ _ _ (pr_rsp _ _ _ _ _ _ P)).
Qed.

Lemma arg_cnt_nonzero p : p ∈ protos room fopen_ok rename_ok run_script -> p_arg_cnt p <> 0.
Proof.
  unfold protos. intros Hp. repeat (apply elem_of_cons in Hp as [->|Hp]); [done..|]. by apply not_elem_of_nil in Hp.
Qed.

Lemma lua_arity p cnt : p ∈ protos room fopen_ok rename_ok run_script ->
  ((p_arg_cnt p <? 0) && (cnt <? - p_arg_cnt p)) || ((0 <? p_arg_cnt p) && negb (p_arg_cnt p =? cnt)) =
  wrong_arity (p_arg_cnt p) cnt.
Proof.
  intros Hp%arg_cnt_nonzero. unfold wrong_arity. f_equal. f_equal. apply eq_true_iff_eq. rewrite Z.ltb_lt, Z.leb_le. lia.
Qed.

Lemma lua_proc_ok w name l s A b :
  world_ok w -> args_ok (w_conn w) (name :: l) ->
  request (millis w) (sv_dbcnt (w_svr w)) name l (abs w) = Some (s, A, b) ->
  wp lua_proc (fun _ w' => commanded w A s w') w.
Proof.
  intros W Ha Hreq. unfold fk_lua_conn_proc_cmd. apply (wp_upper_arg0 _ _ _ _ _ Ha). intros v w0 Hv0 Ha0.
  assert (world_ok w0) as W0 by (by destruct W as [[] ? ?]; split).
  unfold ProtoProps.request in Hreq. set (cmd := fk_str_2upper name) in *.
  assert (str_ok cmd) as Hcmd.
  { pose proof (ao_ok _ _ Ha0) as Hok. apply Forall_cons in Hok as [Hok _]. by apply (arg_ok_key 0 cmd) in Hok. }
  assert (forall s A w', commanded w0 A s w' -> commanded w A s w') as Hw0.
  { intros ??? [[? ? ? (v' & Hv' & Hi') ? ?]|Hf]; [left|by right]. split; try done. exists v'. split; [by rewrite Hv'|].
    by rewrite Hi'. }
  rewrite search_find by done. destruct (find_proto cmd (protos room fopen_ok rename_ok run_script)) as [p|] eqn:Hp.
  2: { injection Hreq as <- <- <-. eapply (wp_refuse_k w0); [exact W0|exact Ha0|done|]. intros rt w' _ P. apply wp_ret.
       apply Hw0. by eapply processed_commanded. }
  apply find_proto_Some in Hp as [Hin Hname]. apply (wp_get_cnt _ _ _ _ Ha0). rewrite lua_arity by done.
  destruct (wrong_arity _ _) eqn:Har.
  { injection Hreq as <- <- <-. eapply (wp_refuse_k w0); [exact W0|exact Ha0|done|]. intros rt w' _ P. apply wp_ret.
    apply Hw0. by eapply processed_commanded. }
  destruct (exec_any _ _ _ _ _) as [[s' A']|] eqn:Hex; [|done]. injection Hreq as <- <- <-.
  eapply wp_seq.
  { eapply (handler_ok room fopen_ok rename_ok run_script); [exact W0|exact Ha0|exact Hin| |rewrite Hname; exact Hex].
    unfold wrong_arity, arity_ok in *. split; intros; bool_lia. }
  intros rt w1 H. pose proof (handled_args _ _ _ _ _ _ H Ha0) as Ha1.
  destruct (handled_codes _ _ _ _ _ H) as [->| ->]; cbn [Z.eqb FK_SVR_OK FK_SVR_ERR Pos.eqb].
  - eapply (wp_free_args _ (cmd :: l)); [exact Ha1|]. intros w2 F. apply wp_ret. left.
    eapply (handled_processed w v w1 w2 A' s' FK_SVR_OK []); [exact Hv0|exact H|].
    destruct F as (v2 & m & -> & Hv2). exists v2, m. split; [|exact Hv2]. cbn.
    unfold logged. cbn. rewrite app_nil_r. change (zlen []) with 0. rewrite Z.add_0_r.
    destruct (w_svr w1); cbn. by destruct sv_blog.
  - assert (world_ok w1) as W1 by apply H. eapply (wp_refuse_k w1); [exact W1|exact Ha1|done|].
    intros rt w' _ P. apply wp_ret. right. pose proof (answered_full _ _ _ (hd_rsp _ _ _ _ _ H)) as Hf.
    destruct (pr_rsp _ _ _ _ _ _ P) as (_ & Hh & Hb & _). unfold wbuf_full. lia.
Qed.
End command.

(** ** A call *)

Section pcall.
Context {N : Type} `{!LuaNumber N}.
Context (room : stdio) (fopen_ok rename_ok : bool).
Context (run_script : bytes -> list bytes -> list bytes -> ST world unit).
Abbreviation value := (lua_value N).
Abbreviation request := (request room fopen_ok rename_ok run_script).
Abbreviation lua_proc := (fk_lua_conn_proc_cmd room fopen_ok rename_ok run_script).

(** The connection of the scripts between two calls. *)
Record lua_idle (w : world) : Prop := {
  li_ok : world_ok w;
  li_cnt : c_arg_cnt (w_conn w) = 0
}.

(** The arguments of a call, as the command sees them. *)
Record call_args (args : list value) (l : list bytes) : Prop := {
  ca_str : Forall2 (fun a s => lua_tostr a = Some s) args l;
  ca_ok : Forall arg_ok l;
  ca_max : zlen l <= FK_ARG_CNT_HIGHWAT
}.

(** What a call did: the store it left, and the unread replies [u]. *)
Record called (w : world) (A : Z -> astate -> Prop) (u : list cell) (w' : world) : Prop := {
  cd_idle : lua_idle w';
  cd_reply : payload (c_wbuf (w_conn w')) = u;
  cd_store : A FK_SVR_OK (abs w');
  cd_svr : svr_frame (w_svr w) (w_svr w')
}.

Lemma processed_called w w1 A s w' :
  svr_frame (w_svr w) (w_svr w1) -> c_wbuf (w_conn w1) = c_wbuf (w_conn w) ->
  processed w1 A s [] FK_SVR_OK w' -> called w A (payload (c_wbuf (w_conn w)) ++ s) w'.
Proof.
  intros F B [O R HA (v & C & _) S L]. rewrite logged_nil in L. rewrite B in R. split.
  - split; [done|]. rewrite C. done.
  - destruct R as (_ & _ & _ & [[_ ->]|[? _]]); done.
  - done.
  - eapply svr_frame_trans; [exact F|]. rewrite <- L in S. by destruct (w_svr w').
Qed.

Lemma pcall_command_ok w args name l s A b :
  lua_idle w -> call_args args (name :: l) ->
  request (millis w) (sv_dbcnt (w_svr w)) name l (abs w) = Some (s, A, b) ->
  exists w1, pcall_command lua_proc args w = Some (true, w1) /\
    (called w A (payload (c_wbuf (w_conn w)) ++ s) w1 \/ wbuf_full w1).
Proof.
  intros [W Hcnt] [Hstr Hok Hmax] Hreq. unfold pcall_command, mbind, ST_bind, mod_conn, st_mod.
  set (w1 := w_set_conn w _). pose proof (Forall2_length _ _ _ Hstr) as Hlen.
  destruct (push_args_ok args (name :: l) w1 [] Hstr) as (w2 & -> & (m & v & n & -> & _) & Hat & Hc).
  - intros i x Hx. unfold znth in Hx. by destruct (i <? 0).
  - done.
  - cbn [w1 w_conn w_set_conn c_arg_vtr cn_arg_vtr]. unfold fk_vtr_stretch. fold (zlen args).
    assert (zlen args = zlen (name :: l)) as Ez by (unfold zlen; by rewrite Hlen).
    rewrite zlen_nil, <- Ez. destruct (_ <? _) eqn:E; unfold fk_vtr_len in *; cbn [v_array].
    + rewrite zlen_app, zlen_replicate by bool_lia. bool_lia.
    + bool_lia.
  - cbn [app] in *. set (w3 := w_set_conn _ _).
    assert (world_ok w3) as W3 by (destruct W as [[] ? ?]; by split).
    assert (args_ok (w_conn w3) (name :: l)) as A3 by by split.
    pose proof (lua_proc_ok room fopen_ok rename_ok run_script w3 name l s A b W3 A3 Hreq) as H.
    apply wp_elim in H as (rt & w' & -> & H). exists w'. split; [done|].
    destruct H as [P|Hf]; [left|by right]. apply (processed_called w w3); [|done|exact P].
    by destruct w as [[] ?].
Qed.

(** The reply read is the first one that is unread. *)
Lemma pcall_ok w args name l s A b r rest :
  lua_idle w -> call_args args (name :: l) ->
  request (millis w) (sv_dbcnt (w_svr w)) name l (abs w) = Some (s, A, b) ->
  payload (c_wbuf (w_conn w)) ++ s = reply_cells r ++ rest -> reply_ok r -> (is_line r = true -> rest = []) ->
  exists w1, pcall_command lua_proc args w = Some (true, w1) /\ (wbuf_full w1 \/
    exists w2, fk_lua_pcall lua_proc args w = Some (reply_value r, w2) /\
      called w A (if is_line r then [] else payload (c_wbuf (w_conn w)) ++ s) w2).
Proof.
  intros I Ha Hreq Hp Hr Hl. destruct (pcall_command_ok w args name l s A b I Ha Hreq) as (w1 & E & H).
  exists w1. split; [done|]. destruct H as [[[W1 C1] P1 A1 S1]|Hf]; [right|by left].
  pose proof W1 as [_ _ [B1 _ _]]. unfold fk_lua_pcall, pcall_reply, mbind, ST_bind. rewrite E.
  unfold st_gets, st_lift. rewrite Hp in P1. rewrite (parse_reply_ok r (c_wbuf (w_conn w1)) rest) by done.
  eexists. split; [reflexivity|].
  assert (wbuf_inv (after_reply r (c_wbuf (w_conn w1))) /\ payload (after_reply r (c_wbuf (w_conn w1))) =
    if is_line r then [] else payload (c_wbuf (w_conn w)) ++ s) as [Hb Hu].
  { pose proof W1 as [_ _ Wb]. unfold after_reply. destruct (is_line r); [by apply drain_ok|by rewrite P1, Hp]. }
  split; [split| | |]; try done. by apply world_ok_wbuf.
Qed.
End pcall.

(** ** The reply of a script *)

(** Only the write buffer of the connection changes; [t] is added to it, unless it is
    at its limit. *)
Definition says (t : list cell) (w w' : world) : Prop :=
  exists b, w' = w_set_conn w (cn_wbuf (w_conn w) b) /\ wbuf_inv b /\
    highwat b = highwat (c_wbuf (w_conn w)) /\ blen (c_wbuf (w_conn w)) <= blen b /\
    (payload b = payload (c_wbuf (w_conn w)) ++ t \/ highwat b <= blen b).

Lemma says_rsp t w rt w' : rsp_post w t rt w' -> says t w w'.
Proof.
  intros (b & -> & W & Hh & Hb & H). exists b. split_and!; try done.
  destruct H as [[_ H]|(_ & _ & H)]; [by left|by right].
Qed.

Lemma says_refl w : wbuf_inv (c_wbuf (w_conn w)) -> says [] w w.
Proof.
  intros H. exists (c_wbuf (w_conn w)). split_and!; try done; [by destruct w as [? []]|].
  left. by rewrite app_nil_r.
Qed.

Lemma says_trans t1 t2 w1 w2 w3 : says t1 w1 w2 -> says t2 w2 w3 -> says (t1 ++ t2) w1 w3.
Proof.
  intros (b1 & -> & W1 & H1 & L1 & C1) (b2 & -> & W2 & H2 & L2 & C2). cbn in *. exists b2.
  split_and!; [done|done|congruence|lia|]. destruct C2 as [C2|C2]; [|by right].
  destruct C1 as [C1|C1]; [left; by rewrite C2, C1, app_assoc|right; lia].
Qed.

Lemma says_inv t w w' : says t w w' -> wbuf_inv (c_wbuf (w_conn w')).
Proof. by intros (b & -> & H & _). Qed.

(** A reply whose answer is not looked at. *)
Lemma wp_say {B} (m : ST world Z) t (k : Z -> ST world B) (Q : B -> world -> Prop) w :
  wp m (rsp_post w t) w -> (forall rt w', says t w w' -> wp (k rt) Q w') -> wp (rt ← m; k rt) Q w.
Proof. intros Hm Hk. eapply wp_seq; [exact Hm|]. intros rt w' H. apply Hk. by eapply says_rsp. Qed.

Section script.
Context {N : Type} `{!LuaNumber N, !LuaNumberLaws N}.
Abbreviation value := (lua_value N).

Definition string_rsp (s : bytes) : list cell := bulk_rsp (zlen s) ++ content_rsp s.

Lemma bulk_string_ok s w : wbuf_inv (c_wbuf (w_conn w)) -> arg_ok s ->
  wp (bulk_string s) (fun _ w' => says (string_rsp s) w w') w.
Proof.
  intros W Hs. pose proof (bulk_len_int s Hs) as Hz. unfold bulk_string. rewrite i32_small by done.
  eapply wp_say; [by apply wp_bulk|]. intros _ w1 H1.
  eapply wp_say; [apply wp_content; [by eapply says_inv|exact Hs]|]. intros _ w2 H2. apply wp_ret.
  by eapply says_trans.
Qed.

(** The strings up to the first nil. *)
Fixpoint strings (l : list (option bytes)) : list bytes :=
  match l with Some s :: l' => s :: strings l' | _ => [] end.

Lemma reply_elems_ok l : forall w, wbuf_inv (c_wbuf (w_conn w)) -> Forall bulk_ok l ->
  wp (reply_elems (multi_values l : list value)) (fun _ w' => says (concat (string_rsp <$> strings l)) w w') w.
Proof.
  induction l as [|[s|] l IH]; intros w W Hl; cbn [multi_values reply_elems strings fmap list_fmap concat].
  - apply wp_ret. by apply says_refl.
  - apply Forall_cons in Hl as [Hs Hl]. eapply wp_seq; [by apply bulk_string_ok|]. intros ? w1 H1.
    eapply wp_mono; [apply IH; [exact (says_inv _ _ _ H1)|done]|]. intros ? w2 H2. exact (says_trans _ _ _ _ _ H1 H2).
  - apply wp_ret. by apply says_refl.
Qed.

(** What the client gets for the result of a command. *)
Definition script_reply (r : reply) : list cell :=
  match r with
  | RStatus _ | RError _ => mbulk_rsp 0
  | RInt n => int_rsp n
  | RBulk None => []
  | RBulk (Some s) => string_rsp s
  | RMulti l => mbulk_rsp (zlen (multi_values l : list value)) ++ concat (string_rsp <$> strings l)
  end.

Lemma zlen_multi l : 0 <= zlen (multi_values l : list value) <= zlen l.
Proof.
  unfold zlen in *. induction l as [|[s|] l IH]; cbn [multi_values length]; lia.
Qed.

Lemma reply_results_ok r w : wbuf_inv (c_wbuf (w_conn w)) -> reply_ok r ->
  wp (reply_results [reply_value r : value]) (fun _ w' => says (script_reply r) w w') w.
Proof.
  intros W Hr. destruct r as [s|s|n|[s|]|l]; cbn [reply_value bulk_value reply_results script_reply reply_elems].
  - eapply wp_say; [by apply wp_mbulk|]. intros ? w1 H1. by apply wp_ret.
  - eapply wp_say; [by apply wp_mbulk|]. intros ? w1 H1. by apply wp_ret.
  - rewrite num_of_to by done. rewrite i32_small by done.
    eapply wp_say; [by apply wp_int|]. intros ? w1 H1. by apply wp_ret.
  - by apply bulk_string_ok.
  - apply wp_ret. by apply says_refl.
  - destruct Hr as [Hl Hn]. pose proof (zlen_multi l) as Hm. rewrite i32_small by lia.
    eapply wp_say; [apply wp_mbulk; [done|lia]|]. intros ? w1 H1.
    eapply wp_mono; [apply reply_elems_ok; [exact (says_inv _ _ _ H1)|done]|]. intros ? w2 H2. exact (says_trans _ _ _ _ _ H1 H2).
Qed.
End script.

(** ** Properties *)

(** The connection of the scripts when EVAL of the connection at hand starts. *)
Definition lua_world (w : world) : world :=
  let c := cn_db_idx (sv_lua_conn (w_svr w)) (c_db_idx (w_conn w)) in World (sv_set_lua_conn (w_svr w) c) c.

Section claims.
Context {N : Type} `{!LuaNumber N, !LuaNumberLaws N}.
Context (room : stdio) (fopen_ok rename_ok : bool).
Abbreviation value := (lua_value N).

(** C32. A call of [redis.pcall] with strings, when no reply is unread, carries out the
    command the strings name and gives Lua the image of its reply: a table for a
    status or an error, a number, a string, [false] for nil, and for a multi bulk
    reply the table of its elements up to the first nil.  Only a status or an error
    is consumed; any other reply stays in the write buffer. *)
Theorem pcall_answers run_script w (args : list value) name l A b r :
  lua_idle w -> call_args args (name :: l) -> payload (c_wbuf (w_conn w)) = [] -> reply_ok r ->
  request room fopen_ok rename_ok run_script (millis w) (sv_dbcnt (w_svr w)) name l (abs w) = Some (reply_cells r, A, b) ->
  let proc := fk_lua_conn_proc_cmd room fopen_ok rename_ok run_script in
  exists w1, pcall_command proc args w = Some (true, w1) /\ (wbuf_full w1 \/
    exists w2, fk_lua_pcall proc args w = Some (reply_value r, w2) /\
      called w A (if is_line r then [] else reply_cells r) w2).
Proof.
  intros I Ha Hp Hr Hreq proc.
  pose proof (pcall_ok room fopen_ok rename_ok run_script w args name l _ A b r [] I Ha Hreq) as H.
  rewrite Hp, app_nil_r in H. by apply H.
Qed.

(** A call of [redis.pcall] after one whose reply was a number, a bulk or a multi
    bulk carries out its command, but gives Lua the earlier reply again: a script
    that reads two keys gets the value of the first one twice. *)
Theorem pcall_reads_first_reply run_script w (args : list value) name l s A b r :
  lua_idle w -> call_args args (name :: l) ->
  payload (c_wbuf (w_conn w)) = reply_cells r -> is_line r = false -> reply_ok r ->
  request room fopen_ok rename_ok run_script (millis w) (sv_dbcnt (w_svr w)) name l (abs w) = Some (s, A, b) ->
  let proc := fk_lua_conn_proc_cmd room fopen_ok rename_ok run_script in
  exists w1, pcall_command proc args w = Some (true, w1) /\ (wbuf_full w1 \/
    exists w2, fk_lua_pcall proc args w = Some (reply_value r, w2) /\ called w A (reply_cells r ++ s) w2).
Proof.
  intros I Ha Hp Hl Hr Hreq proc.
  pose proof (pcall_ok room fopen_ok rename_ok run_script w args name l s A b r s I Ha Hreq) as H.
  rewrite Hp, Hl in H. by apply H.
Qed.

Context (lua_load : bytes -> list bytes -> list bytes -> bytes + script N).

Lemma run_one_call run_script w (args : list value) name l A b r code keys argv :
  let proc := fk_lua_conn_proc_cmd room fopen_ok rename_ok run_script in
  world_ok w -> lua_idle (lua_world w) -> payload (c_wbuf (sv_lua_conn (w_svr w))) = [] ->
  call_args args (name :: l) -> reply_ok r ->
  lua_load (cstr code) (fk_lua_push_paras keys) (fk_lua_push_paras argv) = inr (PCall args (fun v => Return [v])) ->
  request room fopen_ok rename_ok run_script (millis w) (sv_dbcnt (w_svr w)) name l (abs w) = Some (reply_cells r, A, b) ->
  exists w1, pcall_command proc args (lua_world w) = Some (true, w1) /\ (wbuf_full w1 \/
    exists w2 w', fk_lua_run_script lua_load false proc code keys argv w = Some (tt, w') /\
      called (lua_world w) A (if is_line r then [] else reply_cells r) w2 /\
      says (script_reply (N:=N) r) (World (sv_set_lua_conn (w_svr w2) (w_conn w2)) (w_conn w)) w').
Proof.
  intros proc W I Hp Ha Hr Hl Hreq.
  assert (payload (c_wbuf (w_conn (lua_world w))) = []) as Hp0 by done.
  destruct (pcall_ok room fopen_ok rename_ok run_script (lua_world w) args name l _ A b r [] I Ha Hreq) as (w1 & E & H);
    [by rewrite Hp0, app_nil_r|done|done|].
  exists w1. split; [exact E|]. destruct H as [Hf|(w2 & E2 & C)]; [by left|right]. rewrite Hp0 in C.
  set (w3 := World (sv_set_lua_conn (w_svr w2) (w_conn w2)) (w_conn w)).
  assert (wbuf_inv (c_wbuf (w_conn w3))) as W3 by apply W.
  pose proof (reply_results_ok (N:=N) r w3 W3 Hr) as H3.
  apply wp_elim in H3 as ([] & w' & E3 & H3). exists w2, w'. split; [|done].
  unfold fk_lua_run_script. rewrite Hl. unfold get_db_idx, st_gets, on_lua, mod_conn, st_mod, mbind, ST_bind.
  cbn [run_calls w_svr w_conn w_set_conn]. unfold mbind, ST_bind, on_lua.
  change (World _ (sv_lua_conn _)) with (lua_world w). fold proc in E2. rewrite E2. exact E3.
Qed.

(** C33. EVAL of a script that returns the result of one command, on a connection of
    scripts without unread replies: the command is carried out on the database the
    client has selected, the client's own selection stays, and the client gets a
    number or a string as the command would have sent it, but an empty multi bulk
    for a status or an error, nothing at all for nil (it waits in vain), and for a
    multi bulk with nil a header that counts one element more than follow. *)
Theorem eval_returns_call depth w c code n rest (args : list value) name l A b r :
  let nkey := atoi n in
  let run_script := run_script lua_load room fopen_ok rename_ok depth true in
  let proc := fk_lua_conn_proc_cmd room fopen_ok rename_ok run_script in
  world_ok w -> args_ok (w_conn w) (c :: code :: n :: rest) ->
  fk_vtr_len (c_arg_vtr (w_conn w)) <= FK_ARG_CNT_HIGHWAT ->
  fk_str_is_nonminus n <> 0 -> 0 <= nkey <= zlen rest ->
  lua_idle (lua_world w) -> payload (c_wbuf (sv_lua_conn (w_svr w))) = [] ->
  lua_load (cstr code) (cstr <$> ztake nkey rest) (cstr <$> zdrop nkey rest) = inr (PCall args (fun v => Return [v])) ->
  call_args args (name :: l) -> reply_ok r ->
  request room fopen_ok rename_ok run_script (millis w) (sv_dbcnt (w_svr w)) name l (abs w) = Some (reply_cells r, A, b) ->
  exists w1, pcall_command proc args (lua_world w) = Some (true, w1) /\ (wbuf_full w1 \/
    exists w', eval lua_load room fopen_ok rename_ok (S depth) w = Some (FK_SVR_OK, w') /\
      (exists a, A FK_SVR_OK a /\ abs w' = put_idx (c_db_idx (w_conn w)) a) /\
      exists wb, w_conn w' = cn_wbuf (w_conn w) wb /\
        (payload wb = payload (c_wbuf (w_conn w)) ++ script_reply (N:=N) r \/ highwat wb <= blen wb)).
Proof.
  intros nkey rs proc W Ha Hv Hn Hk I Hp Hl Hargs Hr Hreq.
  destruct (run_one_call rs w args name l A b r code (ztake nkey rest) (zdrop nkey rest) W I Hp Hargs Hr Hl Hreq)
    as (w1 & E1 & H). exists w1. split; [exact E1|]. destruct H as [Hf|(w2 & w' & E & C & Hs)]; [by left|right].
  exists w'. pose proof (eval_ok (Lua.run_script lua_load room fopen_ok rename_ok (S depth) false) w c code n rest W Ha Hv) as He.
  cbv zeta in He. fold nkey in He. rewrite (proj2 (Z.eqb_neq _ _) Hn) in He. pose proof (ao_max _ _ Ha) as Hm. unfold FK_ARG_CNT_HIGHWAT in Hm.
  rewrite !zlen_cons in Hm. rewrite (proj2 (orb_false_iff _ _)) in He by (split; [apply Z.ltb_ge|apply Z.leb_gt]; lia).
  rewrite (proj2 (Z.ltb_ge _ _)) in He by lia. split; [|split].
  - unfold eval. rewrite He. cbn [Lua.run_script]. fold rs. by rewrite E.
  - destruct C as [_ _ C _]. exists (abs w2). split; [exact C|]. by destruct Hs as (wb & -> & _).
  - destruct Hs as (wb & -> & _ & _ & _ & Hs). by exists wb.
Qed.

(** A command of at least two strings, called by the script of an EVAL that a script
    itself has called: its arguments are stored behind those of the EVAL, which are
    still in the vector, and beyond the end of the vector. *)
Theorem nested_eval_overruns depth w c code n (args : list value) k strs :
  world_ok w -> args_ok (w_conn w) [c; code; n] -> fk_vtr_len (c_arg_vtr (w_conn w)) = FK_VTR_INIT_LEN ->
  fk_str_2upper c = lit "EVAL" -> fk_str_is_nonminus n <> 0 -> atoi n = 0 ->
  lua_load (cstr code) [] [] = inr (PCall args k) ->
  Forall2 (fun a s => lua_tostr a = Some s) args strs -> 2 <= zlen args ->
  fk_lua_conn_proc_cmd room fopen_ok rename_ok (run_script lua_load room fopen_ok rename_ok (S depth) true) w = None.
Proof.
  intros W Ha Hv Hc Hn Hk Hl Hstr Hlen. set (rs := run_script _ _ _ _ _ _).
  destruct (upper_arg0_ok w c [code; n] Ha) as (v & E & _ & Ev & Ha1). rewrite Hc in E, Ha1.
  set (w1 := w_set_conn w (cn_arg_vtr (w_conn w) v)) in *. unfold fk_lua_conn_proc_cmd, mbind, ST_bind. rewrite E.
  rewrite search_find by (vm_compute; reflexivity).
  change (find_proto (lit "EVAL") (protos room fopen_ok rename_ok rs)) with
    (Some (FkProto (lit "EVAL") FK_PROTO_SCRIPT (-3) (fk_cmd_eval rs))). cbv beta iota.
  unfold get_arg_cnt, st_gets. rewrite (ao_cnt _ _ Ha1). change (zlen [lit "EVAL"; code; n]) with 3. cbn [p_arg_cnt p_handler].
  change ((-3 <? 0) && (3 <? - -3) || (0 <? -3) && negb (-3 =? 3)) with false. cbv beta iota.
  assert (world_ok w1) as W1 by (by destruct W as [[] ? ?]; split).
  assert (fk_vtr_len (c_arg_vtr (w_conn w1)) = FK_VTR_INIT_LEN) as Hv1 by (cbn; by rewrite Ev).
  pose proof (ao_cnt _ _ Ha1) as Hcnt. change (zlen [lit "EVAL"; code; n]) with 3 in Hcnt.
  assert (fk_vtr_len (c_arg_vtr (w_conn w1)) <= FK_ARG_CNT_HIGHWAT) as Hv2 by (rewrite Hv1; done).
  pose proof (eval_ok rs w1 (lit "EVAL") code n [] W1 Ha1 Hv2) as He. cbv zeta in He.
  rewrite (proj2 (Z.eqb_neq _ _) Hn), Hk in He. cbn [Z.ltb Z.leb Z.compare Z.pow Z.sub orb] in He. rewrite He. clearbody w1.
  change (rs code (ztake 0 []) (zdrop 0 []) w1) with (rs code [] [] w1). assert (rs code [] [] w1 = None) as ->; [|done].
  unfold rs. cbn [Lua.run_script]. unfold fk_lua_run_script, fk_lua_push_paras. cbn [fmap list_fmap].
  rewrite Hl. unfold get_db_idx, st_gets, on_lua, mod_conn, st_mod, mbind, ST_bind. cbn [run_calls w_svr w_conn w_set_conn].
  unfold mbind, ST_bind, on_lua, fk_lua_pcall, pcall_command, mbind, ST_bind, mod_conn, st_mod. cbn [w_svr w_conn w_set_conn].
  erewrite push_args_over; [done|exact Hstr| |]; cbn [w_conn w_set_conn c_arg_cnt c_arg_vtr cn_arg_vtr cn_arg_parsed cn_db_idx]; rewrite Hcnt; [done|].
  unfold fk_vtr_stretch. unfold fk_vtr_len, FK_VTR_INIT_LEN in *.
  destruct (zlen (v_array (c_arg_vtr (w_conn w1))) <? zlen args) eqn:Eb; cbn [v_array]; rewrite ?zlen_app, ?zlen_replicate; bool_lia.
Qed.
End claims.

(** ** Instances: numbers are integers *)

#[local] Instance z_number : LuaNumber Z := { num_of_int := id; num_to_int := id; num_to_str := fmt_d }.
#[local] Instance z_number_laws : LuaNumberLaws Z.
Proof. split. done. Qed.

Definition ex_lua (unread : list cell) : world :=
  World ex_svr (cn_wbuf ex_lua_conn (fk_buf_append (fk_buf_create 16 4096) unread)).

Lemma ex_lua_idle unread : zlen unread <= 16 -> lua_idle (ex_lua unread).
Proof.
  intros H. pose proof ex_svr_inv as Hi. pose proof (si_dbcnt _ Hi). split; [|done].
  split; [done|cbn; lia|]. split; cbn [ex_lua w_conn c_wbuf cn_wbuf].
  - apply append_wf; [apply fk_buf_create_wf; lia|]. change (fk_buf_free_len (fk_buf_create 16 4096)) with 16. lia.
  - change (0 <= 4096 <= WBUF_HIGHWAT_MAX). unfold WBUF_HIGHWAT_MAX. lia.
  - change (16 <= 2 * (4096 + RSP_MAX)). unfold RSP_MAX. lia.
Qed.

Definition str (s : string) : lua_value Z := LuaStr (lit s).

Lemma ex_call_args l : forallb (fun a => zlen a <=? FK_ARG_HIGHWAT) l && (zlen l <=? FK_ARG_CNT_HIGHWAT) = true ->
  call_args (LuaStr <$> l : list (lua_value Z)) l.
Proof.
  intros [H1 H2]%andb_true_iff. split; [| |lia].
  - induction l as [|s l IH]; [constructor|]. constructor; [done|]. apply IH; [|rewrite zlen_cons in H2; bool_lia].
    cbn in H1. by apply andb_true_iff in H1 as [_ ?].
  - apply Forall_forall. intros a Ha. rewrite forallb_forall in H1. apply list_elem_of_In, H1 in Ha. unfold arg_ok. lia.
Qed.

Lemma pcall_answers_witness :
  let proc := fk_lua_conn_proc_cmd (disk_of 0) true true no_script in
  let args := [str "SET"; str "k"; str "v"] in
  exists w1, pcall_command proc args (ex_lua []) = Some (true, w1) /\ (wbuf_full w1 \/
    exists w2, fk_lua_pcall proc args (ex_lua []) = Some (LuaTable [(lit "ok", LuaStr (lit "OK"))] [], w2) /\
      called (ex_lua []) (to (Spec.set (lit "k") (lit "v") (abs (ex_lua [])))) [] w2).
Proof.
  refine (pcall_answers (disk_of 0) true true no_script (ex_lua []) [str "SET"; str "k"; str "v"] (lit "SET") [lit "k"; lit "v"]
    (to (Spec.set (lit "k") (lit "v") (abs (ex_lua [])))) true (RStatus (lit "OK")) (ex_lua_idle _ _) _ _ I _).
  - vm_compute. congruence.
  - by apply (ex_call_args [lit "SET"; lit "k"; lit "v"]).
  - vm_compute. reflexivity.
  - reflexivity.
Defined.

Lemma pcall_reads_first_reply_witness :
  let proc := fk_lua_conn_proc_cmd (disk_of 0) true true no_script in
  let args := [str "EXISTS"; str "k"] in let w := ex_lua (reply_cells (RInt 7)) in
  exists w1, pcall_command proc args w = Some (true, w1) /\ (wbuf_full w1 \/
    exists w2, fk_lua_pcall proc args w = Some (LuaNum 7, w2) /\
      called w (to (abs w)) (reply_cells (RInt 7) ++ int_rsp 0) w2).
Proof.
  refine (pcall_reads_first_reply (disk_of 0) true true no_script (ex_lua (reply_cells (RInt 7))) [str "EXISTS"; str "k"] (lit "EXISTS") [lit "k"]
    (int_rsp 0) (to (abs (ex_lua (reply_cells (RInt 7))))) false (RInt 7) (ex_lua_idle _ _) _ _ eq_refl _ _).
  - vm_compute. congruence.
  - by apply (ex_call_args [lit "EXISTS"; lit "k"]).
  - vm_compute. reflexivity.
  - vm_compute. split; congruence.
  - reflexivity.
Defined.

(** [return redis.pcall('GET', KEYS[1])] *)
Definition ex_load (code : bytes) (keys argv : list bytes) : bytes + script Z :=
  inr (PCall [str "GET"; LuaStr (default [] (head keys))] (fun v => Return [v])).
Definition ex_eval : world := ex_req [lit "EVAL"; lit "x"; lit "1"; lit "k"].

Lemma eval_returns_call_witness :
  let run_script := run_script ex_load (disk_of 0) true true 1 true in
  let proc := fk_lua_conn_proc_cmd (disk_of 0) true true run_script in
  exists w1, pcall_command proc [str "GET"; str "k"] (lua_world ex_eval) = Some (true, w1) /\ (wbuf_full w1 \/
    exists w', eval ex_load (disk_of 0) true true 2 ex_eval = Some (FK_SVR_OK, w') /\
      (exists a, a = snd (Spec.get (millis ex_eval) (lit "k") (abs ex_eval)) /\ abs w' = put_idx 0 a) /\
      exists wb, w_conn w' = cn_wbuf (w_conn ex_eval) wb /\
        (payload wb = payload (c_wbuf (w_conn ex_eval)) ++ [] \/ highwat wb <= blen wb)).
Proof.
  refine (eval_returns_call (disk_of 0) true true ex_load 1 ex_eval (lit "EVAL") (lit "x") (lit "1") [lit "k"]
    [str "GET"; str "k"] (lit "GET") [lit "k"] (to (snd (Spec.get (millis ex_eval) (lit "k") (abs ex_eval)))) false (RBulk None)
    (ex_req_ok _) _ _ _ _ _ _ _ _ I _).
  - apply ex_args_ok. reflexivity.
  - vm_compute. congruence.
  - vm_compute. congruence.
  - vm_compute. split; congruence.
  - apply (ex_lua_idle []). vm_compute. congruence.
  - vm_compute. reflexivity.
  - reflexivity.
  - by apply (ex_call_args [lit "GET"; lit "k"]).
  - reflexivity.
Defined.

Lemma nested_eval_overruns_witness :
  let w := ex_req [lit "eval"; lit "x"; lit "0"] in
  let w := w_set_conn w (cn_arg_vtr (w_conn w) (fk_vtr_stretch (c_arg_vtr (w_conn w)) 4)) in
  fk_lua_conn_proc_cmd (disk_of 0) true true (run_script ex_load (disk_of 0) true true 3 true) w = None.
Proof.
  refine (nested_eval_overruns (disk_of 0) true true ex_load 2 (w_set_conn (ex_req [lit "eval"; lit "x"; lit "0"])
      (cn_arg_vtr (w_conn (ex_req [lit "eval"; lit "x"; lit "0"]))
        (fk_vtr_stretch (c_arg_vtr (w_conn (ex_req [lit "eval"; lit "x"; lit "0"]))) 4)))
    (lit "eval") (lit "x") (lit "0") [str "GET"; LuaStr []] (fun v => Return [v]) [lit "GET"; []] _ _ _ _ _ _ _ _ _).
  - destruct (ex_req_ok [lit "eval"; lit "x"; lit "0"]). by split.
  - split; [|done| |done].
    + intros i a Ha. exists 0. unfold znth in Ha. destruct (i <? 0) eqn:Ei; [done|].
      assert (i = 0 \/ i = 1 \/ i = 2) as [->|[->| ->]] by (apply lookup_lt_Some in Ha; cbn in Ha; bool_lia);
        injection Ha as <-; vm_compute; reflexivity.
    + repeat constructor; vm_compute; congruence.
  - reflexivity.
  - vm_compute. reflexivity.
  - vm_compute. congruence.
  - vm_compute. reflexivity.
  - reflexivity.
  - repeat constructor.
  - vm_compute. congruence.
Defined.
