(* ===== verification/Cron.v ===== *)
(** Models the periodic work of the server (src/src/fk_svr.c) that needs no event: the
    removal of expired keys, waiting for the child processes of the background save and
    of the log rewrite, and starting them (src/src/fk_svr_kdb.c, fk_svr_blog.c).

    What [rand], [waitpid] and [fork] answer are arguments. *)
From S2P Require Import Prelude Util Buf Dict Item Conf Svr Req Parse Store.
From S2P Require Import CmdStr CmdHash CmdList CmdDb CmdProps Kdb KdbProps Effects.

(** ** Removing expired keys *)

Section clear.
Context (rand : nat -> Z).

(** [for (i = 0; i < try_times; i++)]: [n] tries, [k] calls of [rand] before. *)
Fixpoint clear_tries (n : nat) (idx : Z) (k : nat) : ST world unit :=
  match n with
  | O => mret tt
  | S n' =>
      expdb ← st_gets (fun w => znth (sv_expdb (w_svr w)) idx);
      expdb ← st_lift expdb;
      elt ← st_lift (fk_dict_random expdb (rand k));
      elt ← st_lift elt;
      _ ← fk_handle_expired_key idx elt.1;
      clear_tries n' idx (S k)
  end.

(** [(int)(0.2 * len)] of an [int]: the product of the double next to 0.2, which is
    above it, by less than what rounding could carry to the next integer. *)
Definition try_times (len : Z) : Z := Z.quot len 5.

(** [for (i = 0; i < server.dbcnt; i++)]; the loop inside has the same counter, and
    leaves [try_times] in it. *)
Fixpoint expdb_loop (fuel : nat) (i : Z) (k : nat) : ST world Z :=
  match fuel with
  | O => fun _ => None
  | S f =>
      dbcnt ← st_gets (fun w => sv_dbcnt (w_svr w));
      if i <? dbcnt then
        expdb ← st_gets (fun w => znth (sv_expdb (w_svr w)) i);
        expdb ← st_lift expdb;
        let len := i32 (fk_dict_len expdb) in
        if len =? 0 then expdb_loop f (i + 1) k
        else
          let n := Z.to_nat (try_times len) in
          _ ← clear_tries n i k;
          expdb_loop f (Z.of_nat n + 1) (k + n)
      else mret FK_SVR_OK
  end.

Definition fk_svr_clear_timeout_keys (fuel : nat) : ST world Z := expdb_loop fuel 0 0.
End clear.

Definition fk_svr_sync_with_master : ST world Z := mret FK_SVR_OK.

(** It only prints the lengths of the lists of items. *)
Definition fk_item_gc : ST world unit := mret tt.

(** ** Child processes *)

(** [waitpid(pid, &st, WNOHANG)]: 0, the error ECHILD, another error, or [pid] and
    whether it exited with EXIT_SUCCESS. *)
Inductive child := ChildRuns | ChildNone | ChildFailed | ChildEnded (success : bool).

(** The two blocks of [fk_svr_timer_cb]; [None] is [exit(EXIT_FAILURE)]. *)
Definition wait_save (ans : child) (now : Z) (s : fk_svr) : option fk_svr :=
  if sv_save_pid s =? -1 then Some s
  else match ans with
       | ChildFailed => None
       | ChildEnded true => Some (sv_set_last_save (sv_set_pids s (-1) (sv_rewrite_pid s)) now)
       | _ => Some s
       end.

Definition wait_rewrite (ans : child) (s : fk_svr) : option fk_svr :=
  if sv_rewrite_pid s =? -1 then Some s
  else match ans with
       | ChildFailed => None
       | ChildEnded true => Some (sv_set_pids s (sv_save_pid s) (-1))
       | _ => Some s
       end.

(** A [fork] answers -1, the child's pid to the parent, and 0 to the child, which ends
    with a status. *)
Inductive forked := Parent (s : fk_svr) | Child (status : Z) (s : fk_svr).

Definition EXIT_SUCCESS : Z := 0.
Definition EXIT_FAILURE : Z := 1.

Definition fk_kdb_bgsave (room : stdio) (fopen_ok rename_ok : bool) (pid : Z) (s : fk_svr) : option forked :=
  if negb (sv_save_pid s =? -1) then Some (Parent s)
  else if pid <? 0 then Some (Parent s)
  else if 0 <? pid then Some (Parent (sv_set_pids s pid (sv_rewrite_pid s)))
  else
    '(rt, s) ← fk_kdb_save room fopen_ok rename_ok s;
    Some (Child (if rt =? FK_SVR_ERR then EXIT_FAILURE else EXIT_SUCCESS) s).

(** It sleeps for six seconds. *)
Definition fk_blog_rewrite : Z := FK_SVR_OK.

Definition fk_blog_bgrewrite (pid : Z) (s : fk_svr) : forked :=
  if negb (sv_rewrite_pid s =? -1) then Parent s
  else if pid =? 0 then Child (if fk_blog_rewrite =? FK_SVR_ERR then EXIT_FAILURE else EXIT_SUCCESS) s
  else if pid =? -1 then Parent s
  else Parent (sv_set_pids s (sv_save_pid s) pid).

(** ** What the removal of expired keys does *)

(** The reading of keys that removes those that have expired, one after the other. *)
Definition expires (now : nat -> Z) (ks : list bytes) (a : astate) : astate :=
  foldl (fun a k => (Spec.expire now k a).2) a ks.

Lemma expire_state now k a : astate_ok a ->
  let a' := (Spec.expire now k a).2 in
  astate_ok a' /\ a_idx a' = a_idx a /\ (cur_exp a' = cur_exp a \/ cur_exp a' = delete k (cur_exp a)).
Proof.
  intros Ha. unfold Spec.expire. destruct (cur_exp a !! k); [|by auto]. destruct (_ <? _); cbn [snd].
  - split; [auto with fk|]. split; [done|]. right. store_simpl. done.
  - split; [done|]. split; [done|by left].
Qed.

(** Removing a key takes at most one. *)
Lemma expire_size now k a : astate_ok a ->
  (size (cur_exp a) <= S (size (cur_exp (Spec.expire now k a).2)))%nat /\
  forall k', is_Some (cur_exp (Spec.expire now k a).2 !! k') -> is_Some (cur_exp a !! k').
Proof.
  intros Ha. destruct (expire_state now k a Ha) as (_ & _ & [->| ->]); [by auto|]. split.
  - destruct (cur_exp a !! k) eqn:E; [rewrite map_size_delete_Some by (by eexists)|rewrite map_size_delete_None by done]; lia.
  - intros k' [x Hx]. exists x. by apply lookup_delete_Some in Hx as [_ ?].
Qed.

Lemma exp_used d : exp_inv d -> d_used d = Z.of_nat (size (eview d)).
Proof.
  intros [W _]. rewrite (dwf_used _ _ _ _ W). unfold eview. rewrite map_size_fmap. unfold Dict.dmap.
  rewrite map_size_list_to_map by (apply kvs_NoDup; apply W). unfold kvs, zlen. by rewrite length_fmap.
Qed.

(** A random element is there and is a key that has an expiry time. *)
Lemma random_key d r : exp_inv d -> 0 < d_used d -> 0 <= r ->
  exists id k x, fk_dict_random d r = Some (Some (SItem id k, x)) /\ str_ok k /\ is_Some (eview d !! k).
Proof.
  intros [W _] Hu Hr. destruct (fk_dict_random_spec db_dict_eop s_str key_ok d r W Hu Hr) as ([[id k] x] & E & Hin).
  exists id, k, x. split; [done|]. split; [apply (elem_of_elems db_dict_eop s_str key_ok d _ W Hin)|].
  rewrite eview_lookup, fmap_is_Some. exists x. exact (dmap_elem db_dict_eop s_str key_ok d _ W Hin).
Qed.

Section clear_props.
Context (rand : nat -> Z) (rand_ok : forall n, 0 <= rand n).
Context (w : world).
Abbreviation now := (fun n => fk_util_tv2millis (sv_clock (w_svr w) n)).

(** The dictionary of expiry times of the selected database. *)
Lemma cur_expdb w1 a1 : db_step w w1 a1 -> let idx := c_db_idx (w_conn w) in
  exists d, znth (sv_expdb (w_svr w1)) idx = Some d /\ exp_inv d /\ cur_exp a1 = eview d.
Proof.
  intros [O C F <-] idx. destruct (expdb_lookup w1 O idx) as (d & Hd & Hi & Ha).
  { unfold idx. rewrite <- C. apply O. }
  exists d. split; [done|]. split; [done|]. unfold cur_exp. by rewrite <- Ha; cbn; rewrite C.
Qed.

Lemma clear_tries_ok n : forall k w1 a1,
  db_step w w1 a1 -> (n <= size (cur_exp a1))%nat ->
  wp (clear_tries rand n (c_db_idx (w_conn w)) k) (fun _ w2 => exists ks, length ks = n /\
    Forall (fun k => is_Some (cur_exp a1 !! k)) ks /\ db_step w w2 (expires now ks a1)) w1.
Proof.
  induction n as [|n IH]; intros k w1 a1 H1 Hn.
  { apply wp_ret. exists []. split; [done|]. split; [constructor|done]. }
  cbn [clear_tries]. destruct (cur_expdb w1 a1 H1) as (d & Hd & Hi & Ha).
  eapply wp_step; [reflexivity|]. cbn beta. rewrite Hd. eapply wp_step; [reflexivity|].
  pose proof (exp_used d Hi) as Hu. rewrite <- Ha in Hu.
  destruct (random_key d (rand k) Hi ltac:(lia) (rand_ok k)) as (id & key & x & -> & Hk & Hin).
  eapply wp_step; [reflexivity|]. eapply wp_step; [reflexivity|]. cbn [fst].
  eapply wp_seq; [by apply (expire_ok w w1 a1 key id)|]. intros rt w2 [H2 _].
  assert (astate_ok a1) as Hok by (rewrite <- (ds_abs _ _ _ H1); apply abs_ok, H1).
  destruct (expire_size now key a1 Hok) as [Hs Hsub].
  eapply wp_mono; [apply (IH (S k) w2 _ H2); lia|]. intros _ w3 (ks & Hl & Hks & H3).
  exists (key :: ks). split; [cbn; lia|]. split; [|exact H3]. constructor; [by rewrite Ha|].
  eapply Forall_impl; [exact Hks|]. intros k'. apply Hsub.
Qed.
End clear_props.

(** Behind the first database nothing is left to do. *)
Lemma expdb_loop_rest rand w w1 a1 : db_step w w1 a1 -> lone a1 ->
  forall fuel i k, 1 <= i -> Z.max 0 (sv_dbcnt (w_svr w) - i) < Z.of_nat fuel -> expdb_loop rand fuel i k w1 = Some (FK_SVR_OK, w1).
Proof.
  intros H1 L. induction fuel as [|fuel IH]; intros i k Hi Hf; [lia|].
  cbn [expdb_loop]. unfold mbind, ST_bind, st_gets. rewrite (svr_frame_dbcnt _ _ (ds_frame _ _ _ H1)).
  destruct (Z.ltb_spec i (sv_dbcnt (w_svr w))) as [Hlt|]; [|done].
  destruct (expdb_lookup w1 (ds_ok _ _ _ H1) i) as (d & Hd & He & Ha).
  { rewrite (svr_frame_dbcnt _ _ (ds_frame _ _ _ H1)). lia. }
  rewrite Hd. cbn [st_lift]. unfold fk_dict_len. rewrite (exp_used d He), <- Ha, (ds_abs _ _ _ H1), (L i Hi), map_size_empty. cbn.
  apply IH; lia.
Qed.

(** When only keys of the first database expire, the loop returns. *)
Lemma clear_lone rand w fuel :
  (forall n, 0 <= rand n) -> world_ok w -> c_db_idx (w_conn w) = 0 -> lone (abs w) -> sv_dbcnt (w_svr w) < Z.of_nat fuel ->
  let m := cur_exp (abs w) in
  wp (fk_svr_clear_timeout_keys rand fuel) (fun rt w' => rt = FK_SVR_OK /\ exists ks,
    length ks = Z.to_nat (try_times (i32 (Z.of_nat (size m)))) /\ Forall (fun k => is_Some (m !! k)) ks /\
    db_step w w' (expires (fun n => fk_util_tv2millis (sv_clock (w_svr w) n)) ks (abs w))) w.
Proof.
  intros Hr W H0 L Hf m. pose proof (si_dbcnt _ (wo_svr _ W)) as Hd. destruct fuel as [|fuel]; [lia|].
  destruct (cur_expdb w w (abs w) (db_step_refl _ W)) as (d & Hz & Hi & Ha). rewrite H0 in Hz.
  pose proof (exp_used d Hi) as Hu. rewrite <- Ha in Hu. fold m in Hu.
  unfold fk_svr_clear_timeout_keys. cbn [expdb_loop].
  eapply wp_step; [reflexivity|]. cbn beta. rewrite (proj2 (Z.ltb_lt _ _)) by lia.
  eapply wp_step; [reflexivity|]. cbn beta. rewrite Hz. eapply wp_step; [reflexivity|]. cbv zeta.
  unfold fk_dict_len. rewrite Hu. set (n := size m). set (len := i32 (Z.of_nat n)).
  destruct (Z.eqb_spec len 0) as [E|E].
  - eapply wp_eq; [apply (expdb_loop_rest rand w w (abs w)); [by apply db_step_refl|done|lia..]|].
    split; [done|]. exists []. rewrite E. split; [done|]. split; [constructor|by apply db_step_refl].
  - assert (Z.to_nat (try_times len) <= n)%nat as Hle.
    { unfold try_times. pose proof (i32_le (Z.of_nat n) ltac:(lia)) as Hl. fold len in Hl.
      destruct (decide (len < 0)) as [Hneg|Hpos]; [pose proof (Z.quot_opp_l len 5 ltac:(lia)); pose proof (Z.quot_pos (- len) 5 ltac:(lia) ltac:(lia)); lia|].
      rewrite Z.quot_div_nonneg by lia. pose proof (Z.div_le_upper_bound len 5 len ltac:(lia) ltac:(lia)). lia. }
    eapply wp_seq.
    { rewrite <- H0. apply (clear_tries_ok rand Hr w (Z.to_nat (try_times len)) 0%nat w (abs w)); [by apply db_step_refl|done]. }
    intros [] w1 (ks & Hl & Hks & H1). eapply wp_eq; [apply (expdb_loop_rest rand w w1 _ H1); [|lia..]|].
    { eapply shrinks_lone, L. apply shrinks_expires. }
    split; [done|]. by exists ks.
Qed.

(** C22. When only keys of the first database have expiry times (as with one database),
    the removal of expired keys returns after one turn for each database: it looks at a
    fifth of the keys that have an expiry time, chosen by [rand], and does to each what
    reading it does: the key is removed if its time has passed. *)
Theorem clear_timeout_keys_expires rand w fuel :
  (forall n, 0 <= rand n) -> world_ok w -> c_db_idx (w_conn w) = 0 -> lone (abs w) -> sv_dbcnt (w_svr w) < Z.of_nat fuel ->
  let m := cur_exp (abs w) in
  Z.of_nat (size m) < 2 ^ 31 ->
  exists w' ks, fk_svr_clear_timeout_keys rand fuel w = Some (FK_SVR_OK, w') /\
    length ks = (size m / 5)%nat /\ Forall (fun k => is_Some (m !! k)) ks /\
    db_step w w' (expires (fun n => fk_util_tv2millis (sv_clock (w_svr w) n)) ks (abs w)).
Proof.
  intros Hr W H0 L Hf m Hm. pose proof (clear_lone rand w fuel Hr W H0 L Hf) as H. cbv zeta in H. fold m in H.
  apply wp_elim in H as (rt & w' & E & -> & ks & Hl & H). exists w', ks. split; [done|]. split; [|done].
  rewrite Hl, i32_small by lia. unfold try_times. rewrite Z.quot_div_nonneg by lia.
  by rewrite <- (Nat2Z.id (size m / 5)), Nat2Z.inj_div.
Qed.

(** The lengths of the dictionaries of expiry times: those before [j] take no try, and
    those between the first and [j] are empty. *)
Record few_expiring (s : fk_svr) (j : Z) : Prop := {
  fe_range : 1 <= j < sv_dbcnt s;
  fe_first : exists d, znth (sv_expdb s) 0 = Some d /\ 0 <= fk_dict_len d < 5;
  fe_between : forall i, 1 <= i < j -> exists d, znth (sv_expdb s) i = Some d /\ fk_dict_len d = 0;
  fe_last : exists d, znth (sv_expdb s) j = Some d /\ 1 <= fk_dict_len d < 5
}.

Lemma few_tries len : 0 <= len < 5 -> try_times len = 0.
Proof. intros H. unfold try_times. by apply Z.quot_small. Qed.

Lemma expdb_loop_stuck rand s c j fuel : few_expiring s j ->
  forall i k, 0 <= i <= j -> expdb_loop rand fuel i k (World s c) = None.
Proof.
  intros [Hj Hf Hb Hl]. induction fuel as [|f IH]; intros i k Hi; [done|].
  cbn [expdb_loop]. unfold mbind, ST_bind, st_gets, st_lift. cbn [w_svr].
  rewrite (proj2 (Z.ltb_lt _ _)) by lia. cbv beta iota. cbn [w_svr].
  assert (exists d, znth (sv_expdb s) i = Some d /\ 0 <= fk_dict_len d < 5 /\ (fk_dict_len d = 0 -> i < j)) as (d & -> & Hd & H0).
  { destruct (decide (i = 0)) as [->|]; [|destruct (decide (i = j)) as [->|]].
    - destruct Hf as (d & ? & ?). exists d. split; [done|]. split; [done|]. lia.
    - destruct Hl as (d & ? & ?). exists d. split; [done|]. split; lia.
    - destruct (Hb i ltac:(lia)) as (d & ? & E). exists d. split; [done|]. rewrite E. lia. }
  rewrite i32_small by lia. destruct (Z.eqb_spec (fk_dict_len d) 0) as [E|E]; [apply IH; lia|].
  rewrite few_tries by done. cbn. apply IH. lia.
Qed.

(** C39. The inner loop of the removal of expired keys has the counter of the outer one:
    when the first database has fewer than five keys with an expiry time, a later one
    [j] has one to four, and those between have none ([few_expiring]: one SETEX after a
    SELECT is enough), no key is tried, the counter is set back to 0 at [j] and the loop
    never ends: no number of turns is enough, whatever the clock says. (A database with
    five keys or more leaves the counter at its number of tries: whether the loop ends
    then depends on the lengths.) *)
Theorem clear_timeout_keys_hangs rand w j :
  few_expiring (w_svr w) j -> forall fuel, fk_svr_clear_timeout_keys rand fuel w = None.
Proof. intros H fuel. destruct w as [s c]. apply (expdb_loop_stuck rand s c j); [done|]. destruct H. cbn in *. lia. Qed.

(** ** Instances *)

(** A dictionary of expiry times in which the keys [l] expire at the time 0. *)
Definition ex_expdb (l : list bytes) : fk_dict sitem item :=
  foldr (fun k d => snd (fst (dict_replace (SItem 1 k) (Item 2 (EntNum 0)) d fk_item_init))) fk_dict_init l.

Lemma ex_expdb_inv l : Forall arg_ok l -> exp_inv (ex_expdb l).
Proof.
  induction 1 as [|k l Hk _ IH]; [apply empty_exp_inv|]. cbn [ex_expdb foldr].
  pose proof (dict_replace_exp 1 k (Item 2 (EntNum 0)) (ex_expdb l) fk_item_init 0 Hk eq_refl IH) as H.
  unfold ex_expdb in *. destruct (dict_replace _ _ _ _) as [[rt d] m]. apply H.
Qed.

Definition ex_keys : list bytes := [lit "a"; lit "b"; lit "c"; lit "d"; lit "e"].

(** Two databases, the first with five keys that have expired, and the clock at 100 seconds. *)
Definition ex_lone : fk_svr :=
  FkSvr (set_dbcnt fk_conf_default 2) 1 [fk_dict_init; fk_dict_init] [ex_expdb ex_keys; fk_dict_init] fk_item_init (-1) (-1) 0 0
    (BlogFile [] 0) None (fun _ => Timeval 100 0) 0 ex_lua_conn.

Lemma ex_lone_ok : world_ok (ex_with ex_lone []).
Proof.
  apply ex_with_ok. split; [vm_compute; split; congruence|done|done|by repeat constructor; apply empty_db_inv|].
  constructor; [|by repeat constructor; apply empty_exp_inv]. apply ex_expdb_inv. repeat constructor; vm_compute; congruence.
Qed.

Lemma ex_lone_lone : lone (abs (ex_with ex_lone [])).
Proof.
  intros j Hj. destruct (decide (j = 1)) as [->|]; [vm_compute; reflexivity|].
  unfold aexp, znth. rewrite (proj2 (Z.ltb_ge _ _)) by lia. rewrite lookup_ge_None_2; [done|]. cbn. lia.
Qed.

Lemma clear_timeout_keys_expires_witness :
  size (cur_exp (abs (ex_with ex_lone []))) = 5%nat /\
  exists w' ks, fk_svr_clear_timeout_keys (fun _ => 3) 3 (ex_with ex_lone []) = Some (FK_SVR_OK, w') /\
    length ks = 1%nat /\ Forall (fun k => is_Some (cur_exp (abs (ex_with ex_lone [])) !! k)) ks /\
    db_step (ex_with ex_lone []) w' (expires (fun _ => 100000) ks (abs (ex_with ex_lone []))).
Proof.
  split; [vm_compute; reflexivity|].
  assert (size (cur_exp (abs (ex_with ex_lone []))) = 5%nat) as E by (vm_compute; reflexivity).
  assert ((5 / 5)%nat = 1%nat) as E5 by reflexivity.
  pose proof (clear_timeout_keys_expires (fun _ => 3) (ex_with ex_lone []) 3 ltac:(intros; lia) ex_lone_ok
    eq_refl ex_lone_lone eq_refl) as H. cbv zeta in H. rewrite E, E5 in H. apply H. reflexivity.
Defined.

(** SETEX of a key in the second of two databases. *)
Definition ex_second : world :=
  let w := ex_req [lit "SETEX"; lit "k"; lit "10"; lit "v"] in
  let w := w_set_conn w (cn_db_idx (w_conn w) 1) in
  match fk_cmd_setex w with Some (_, w') => w' | None => w end.

Lemma clear_timeout_keys_hangs_witness :
  aexp (abs ex_second) 1 !! lit "k" <> None /\ forall fuel, fk_svr_clear_timeout_keys (fun _ => 0) fuel ex_second = None.
Proof.
  split; [vm_compute; congruence|]. apply (clear_timeout_keys_hangs (fun _ => 0) ex_second 1). split.
  - vm_compute. split; congruence.
  - eexists. split; [vm_compute; reflexivity|]. vm_compute. split; congruence.
  - intros i Hi. lia.
  - eexists. split; [vm_compute; reflexivity|]. vm_compute. split; congruence.
Defined.
