(* ===== verification/Life.v ===== *)
(** Models the life of connections over the event manager: [fk_conn_create],
    [fk_conn_destroy], the callbacks of a connection and [fk_conn_send_rsp]
    (src/src/fk_svr_conn.c), accepting connections, the timer of the server and its
    signal handler (src/src/fk_svr.c).

    [app] is what the callbacks work on: the server, the connections by their addresses,
    the table of connections, and what the kernel keeps.  Addresses are never used
    again, so that an access through a freed one has no result.  The answers of the
    kernel are a record [os]: the n-th question is answered by its n-th answer. *)
From S2P Require Import Prelude Util Buf Dict Item Conf Svr Req Parse Store.
From S2P Require Import CmdStr CmdHash CmdList CmdDb Kdb KdbProps Blog Proto ProtoProps Stream Serve Conn.
From S2P Require Import Heap Ev Cron.

(** A connection with its events, the bytes in its socket and the bytes it has sent. *)
Record conn_obj := ConnObj {
  co_conn : fk_conn;
  co_read_ev : option Z;
  co_write_ev : option Z;
  co_timer : option Z;
  co_in : list packet;
  co_reads : nat;
  co_out : list cell
}.

(** [ap_tab] is [server.conns_tab]; [ap_open] are the open descriptors of the process. *)
Record app := App {
  ap_svr : fk_svr;
  ap_conns : gmap Z conn_obj;
  ap_tab : list (option (option Z));
  ap_sigint : Z;
  ap_sigterm : Z;
  ap_open : gset Z;
  ap_next : Z;
  ap_calls : nat
}.

Definition ap_set_svr (a : app) (s : fk_svr) : app :=
  App s (ap_conns a) (ap_tab a) (ap_sigint a) (ap_sigterm a) (ap_open a) (ap_next a) (ap_calls a).
Definition ap_set_conns (a : app) (m : gmap Z conn_obj) : app :=
  App (ap_svr a) m (ap_tab a) (ap_sigint a) (ap_sigterm a) (ap_open a) (ap_next a) (ap_calls a).
Definition ap_set_tab (a : app) (l : list (option (option Z))) : app :=
  App (ap_svr a) (ap_conns a) l (ap_sigint a) (ap_sigterm a) (ap_open a) (ap_next a) (ap_calls a).
Definition ap_set_sig (a : app) (int term : Z) : app :=
  App (ap_svr a) (ap_conns a) (ap_tab a) int term (ap_open a) (ap_next a) (ap_calls a).
Definition ap_set_open (a : app) (l : gset Z) : app :=
  App (ap_svr a) (ap_conns a) (ap_tab a) (ap_sigint a) (ap_sigterm a) l (ap_next a) (ap_calls a).
Definition ap_set_next (a : app) (n : Z) : app :=
  App (ap_svr a) (ap_conns a) (ap_tab a) (ap_sigint a) (ap_sigterm a) (ap_open a) n (ap_calls a).
Definition ap_set_calls (a : app) (n : nat) : app :=
  App (ap_svr a) (ap_conns a) (ap_tab a) (ap_sigint a) (ap_sigterm a) (ap_open a) (ap_next a) n.

(** ** The kernel *)

(** What one turn of the loop of [accept] finds, before EAGAIN. *)
Inductive arrival := Arrives | AcceptIntr | AcceptFails.

Record os := Os {
  os_time : nat -> Z;
  os_new_fd : gset Z -> Z;
  os_arrivals : nat -> list arrival;
  os_packets : Z -> nat -> list packet;
  os_send : nat -> list send_ans;
  os_rand : nat -> nat -> Z;
  os_wait : nat -> child;
  os_fork : nat -> Z
}.

Inductive send_res := SentBytes (n : Z) (q : list send_ans) | SentNone | SendFailed.

(** [send(fd, buf, n, 0)]: the kernel takes at most [n] bytes. *)
Definition send (n : Z) (q : list send_ans) : send_res :=
  match q with
  | [] | SendAgain :: _ => SentNone
  | SendError :: _ => SendFailed
  | Sent m :: q' => SentBytes (Z.max 0 (Z.min m n)) q'
  end.

(** ** Callbacks and their arguments, as numbers *)

Definition LISTEN_CB : Z := 0.
Definition READ_CB (c : Z) : Z := 2 * c.
Definition WRITE_CB (c : Z) : Z := 2 * c + 1.
Definition SVR_TIMER_CB : Z := 0.
Definition CONN_TIMER_CB (c : Z) : Z := c.

Section life.
Context {X A : Type} `{!Mpx X A}.
Abbreviation mgr := (fk_evmgr X app).
Context (os : os).
Context (room : stdio) (fopen_ok rename_ok : bool) (clear_fuel : nat).
Context (run_script : bytes -> list bytes -> list bytes -> ST world unit).

Definition get_app : ST mgr app := st_gets ev_user.
Definition mod_app (f : app -> app) : ST mgr unit := st_mod (fun s => set_user s (f (ev_user s))).
Definition mod_server (f : fk_svr -> fk_svr) : ST mgr unit := mod_app (fun a => ap_set_svr a (f (ap_svr a))).

(** The number of the next question to the kernel, and the next address. *)
Definition ask : ST mgr nat :=
  a ← get_app; _ ← mod_app (fun a => ap_set_calls a (S (ap_calls a))); mret (ap_calls a).
Definition new_addr : ST mgr Z :=
  a ← get_app; _ ← mod_app (fun a => ap_set_next a (ap_next a + 1)); mret (ap_next a).

(** The connection at an address. *)
Definition get_conn (c : Z) : ST mgr conn_obj := a ← get_app; st_lift (ap_conns a !! c).
Definition put_conn (c : Z) (o : conn_obj) : ST mgr unit :=
  mod_app (fun a => ap_set_conns a (<[c := o]> (ap_conns a))).
Definition co_set_conn (o : conn_obj) (c : fk_conn) : conn_obj :=
  ConnObj c (co_read_ev o) (co_write_ev o) (co_timer o) (co_in o) (co_reads o) (co_out o).

(** A step on the server and one connection. *)
Definition on_conn {B} (c : Z) (m : ST world B) : ST mgr B :=
  a ← get_app;
  o ← get_conn c;
  '(x, w) ← st_lift (m (World (ap_svr a) (co_conn o)));
  _ ← mod_server (fun _ => w_svr w);
  _ ← put_conn c (co_set_conn o (w_conn w));
  mret x.

(** A step on the server alone. *)
Definition on_svr {B} (m : ST world B) : ST mgr B :=
  a ← get_app;
  '(x, w) ← st_lift (m (World (ap_svr a) (sv_lua_conn (ap_svr a))));
  _ ← mod_server (fun _ => w_svr w);
  mret x.

Definition get_time : ST mgr timeval := on_svr fk_util_get_time.

(** ** Connections *)

Definition new_conn (fd max_wbuf now : Z) : fk_conn :=
  FkConn fd (if fd =? FK_CONN_FAKE_FD then FK_CONN_FAKE else FK_CONN_REAL) 0
    (fk_buf_create FK_BUF_INIT_LEN FK_BUF_HIGHWAT) (fk_buf_create FK_BUF_INIT_LEN max_wbuf) now
    (fk_vtr_create FK_VTR_INIT_LEN) 0 0 (-1) 0 0.

Definition fk_conn_create (fd : Z) : ST mgr Z :=
  c ← new_addr;
  '(r, w, t) ← (if fd =? FK_CONN_FAKE_FD then mret (None, None, None)
    else
      r ← new_addr;
      _ ← fk_ioev_create r fd FK_IOEV_READ (READ_CB c);
      _ ← fk_ev_add_ioev r;
      w ← new_addr;
      _ ← fk_ioev_create w fd FK_IOEV_WRITE (WRITE_CB c);
      t ← new_addr;
      now ← get_time;
      _ ← fk_tmev_create t 5000 FK_TMEV_CYCLE (CONN_TIMER_CB c) now;
      _ ← fk_ev_add_tmev t;
      mret (Some r, Some w, Some t));
  n ← ask;
  a ← get_app;
  _ ← put_conn c (ConnObj (new_conn fd (cf_max_wbuf (sv_setting (ap_svr a))) (os_time os n)) r w t [] 0 []);
  mret c.

(** The first part of [fk_conn_destroy]: the events of the connection. *)
Definition destroy_events (o : conn_obj) : ST mgr unit :=
  r ← st_lift (co_read_ev o);
  _ ← fk_ev_remove_ioev r;
  _ ← fk_ioev_destroy r;
  w ← st_lift (co_write_ev o);
  _ ← (if c_write_added (co_conn o) =? 1 then _ ← fk_ev_remove_ioev w; mret tt else mret tt);
  _ ← fk_ioev_destroy w;
  t ← st_lift (co_timer o);
  _ ← fk_ev_remove_tmev t;
  fk_tmev_destroy t.

Definition fk_conn_destroy (c : Z) : ST mgr unit :=
  o ← get_conn c;
  let fd := c_fd (co_conn o) in
  _ ← (if fd =? FK_CONN_FAKE_FD then mret tt else destroy_events o);
  _ ← on_conn c fk_conn_free_args;
  _ ← (if fd =? FK_CONN_FAKE_FD then mret tt else mod_app (fun a => ap_set_open a (ap_open a ∖ {[fd]})));
  mod_app (fun a => ap_set_conns a (delete c (ap_conns a))).

(** [server.conns_tab[fd] = v]. *)
Definition set_tab (fd : Z) (v : option Z) : ST mgr unit :=
  a ← get_app;
  l ← st_lift (slot_set (ap_tab a) fd v);
  mod_app (fun a => ap_set_tab a l).

Definition fk_svr_add_conn (fd : Z) : ST mgr unit :=
  c ← fk_conn_create fd;
  o ← get_conn c;
  _ ← set_tab (c_fd (co_conn o)) (Some c);
  mod_server (fun s => sv_set_conn_cnt s (sv_conn_cnt s + 1)).

Definition fk_svr_remove_conn (c : Z) : ST mgr unit :=
  o ← get_conn c;
  _ ← set_tab (c_fd (co_conn o)) None;
  _ ← mod_server (fun s => sv_set_conn_cnt s (sv_conn_cnt s - 1));
  fk_conn_destroy c.

Definition fk_conn_send_rsp (c : Z) : ST mgr Z :=
  _ ← on_conn c (mod_conn (fun n => cn_rbuf n (fk_buf_shrink (c_rbuf n))));
  o ← get_conn c;
  _ ← (if (0 <? fk_buf_payload_len (c_wbuf (co_conn o))) && (c_write_added (co_conn o) =? 0) then
         w ← st_lift (co_write_ev o);
         _ ← fk_ev_add_ioev w;
         on_conn c (mod_conn (fun n => cn_write_added n 1))
       else mret tt);
  mret FK_SVR_OK.

(** The loop of the callback, on what is in the socket now. *)
Definition read_conn (c : Z) : ST mgr Z :=
  n ← ask;
  a ← get_app;
  o ← get_conn c;
  let q := co_in o ++ os_packets os c (co_reads o) in
  '(rt, k) ← st_lift (read_all room fopen_ok rename_ok run_script
    (Link (World (ap_svr a) (co_conn o)) q (os_time os n)));
  _ ← mod_server (fun _ => w_svr (lk_w k));
  _ ← put_conn c (ConnObj (w_conn (lk_w k)) (co_read_ev o) (co_write_ev o) (co_timer o) (lk_in k)
         (S (co_reads o)) (co_out o));
  mret rt.

Definition fk_conn_read_cb (c : Z) : ST mgr unit :=
  rt ← read_conn c;
  if rt =? FK_SVR_ERR then fk_svr_remove_conn c
  else
    rt ← fk_conn_send_rsp c;
    if rt =? FK_SVR_ERR then fk_svr_remove_conn c else mret tt.

(** [while (fk_buf_payload_len(conn->wbuf) > 0)]; [false] when the connection was
    removed. *)
Fixpoint write_loop (fuel : nat) (c : Z) (q : list send_ans) : ST mgr bool :=
  match fuel with
  | O => fun _ => None
  | S f =>
      o ← get_conn c;
      let b := c_wbuf (co_conn o) in
      let plen := fk_buf_payload_len b in
      if 0 <? plen then
        match send plen q with
        | SendFailed => _ ← fk_svr_remove_conn c; mret false
        | SentNone => mret true
        | SentBytes n q' =>
            _ ← put_conn c (ConnObj (cn_wbuf (co_conn o) (fk_buf_low_inc b n)) (co_read_ev o) (co_write_ev o)
                  (co_timer o) (co_in o) (co_reads o) (co_out o ++ ztake n (payload b)));
            write_loop f c q'
        end
      else mret true
  end.

Definition fk_conn_write_cb (c : Z) : ST mgr unit :=
  n ← ask;
  let q := os_send os n in
  open ← write_loop (S (length q)) c q;
  if (open : bool) then
    _ ← on_conn c (mod_conn (fun n => cn_wbuf n (fk_buf_shrink (c_wbuf n))));
    o ← get_conn c;
    if fk_buf_payload_len (c_wbuf (co_conn o)) =? 0 then
      w ← st_lift (co_write_ev o);
      _ ← fk_ev_remove_ioev w;
      on_conn c (mod_conn (fun n => cn_write_added n 0))
    else mret tt
  else mret tt.

Definition fk_conn_timer_cb (c : Z) : ST mgr Z :=
  n ← ask;
  a ← get_app;
  o ← get_conn c;
  if cf_timeout (sv_setting (ap_svr a)) <? os_time os n - c_last_recv (co_conn o) then
    _ ← fk_svr_remove_conn c; mret (-1)
  else mret 0.

(** ** The server *)

(** [while (1)]: the turns before EAGAIN.  An error without a case of its own goes on
    with the descriptor -1. *)
Fixpoint listen_loop (l : list arrival) : ST mgr unit :=
  match l with
  | [] => mret tt
  | AcceptIntr :: l' => listen_loop l'
  | x :: l' =>
      a ← get_app;
      fd ← (match x with
            | Arrives =>
                let fd := os_new_fd os (ap_open a) in
                _ ← mod_app (fun a => ap_set_open a ({[fd]} ∪ ap_open a));
                mret fd
            | _ => mret (-1)
            end);
      if sv_conn_cnt (ap_svr a) =? cf_max_conns (sv_setting (ap_svr a)) then
        _ ← mod_app (fun a => ap_set_open a (ap_open a ∖ {[fd]}));
        listen_loop l'
      else
        _ ← fk_svr_add_conn fd;
        listen_loop l'
  end.

Definition fk_svr_listen_cb : ST mgr unit := n ← ask; listen_loop (os_arrivals os n).

(** A step on the record of the server that may end the process: no result then. *)
Definition lift_svr (f : fk_svr -> option fk_svr) : ST mgr unit :=
  a ← get_app; s ← st_lift (f (ap_svr a)); mod_server (fun _ => s).

(** The parent goes on, the child of a [fork] ends. *)
Definition parent (r : option forked) : option fk_svr :=
  match r with Some (Parent s) => Some s | _ => None end.

Definition fk_svr_timer_cb : ST mgr Z :=
  _ ← mod_server (fun s => sv_set_timer_cnt s (u64 (sv_timer_cnt s + 1)));
  n ← ask;
  _ ← lift_svr (wait_save (os_wait os n) (os_time os n));
  n ← ask;
  _ ← lift_svr (wait_rewrite (os_wait os n));
  a ← get_app;
  if (ap_sigint a =? 1) || (ap_sigterm a =? 1) then _ ← fk_ev_stop; mret 0
  else
    n ← ask;
    _ ← (if cf_dump (sv_setting (ap_svr a)) =? 1
         then lift_svr (fun s => parent (fk_kdb_bgsave room fopen_ok rename_ok (os_fork os n) s)) else mret tt);
    n ← ask;
    _ ← (if cf_blog_on (sv_setting (ap_svr a)) =? 1
         then lift_svr (fun s => parent (Some (fk_blog_bgrewrite (os_fork os n) s))) else mret tt);
    _ ← on_svr fk_svr_sync_with_master;
    n ← ask;
    _ ← on_svr (fk_svr_clear_timeout_keys (os_rand os n) clear_fuel);
    _ ← on_svr fk_item_gc;
    mret 0.

(** The second timer, which the server has if FK_DEBUG is defined. *)
Definition fk_svr_timer_cb2 (svr_timer2 : Z) : ST mgr Z :=
  _ ← fk_ev_remove_tmev svr_timer2;
  mret (-1).

(** ** The callbacks by their numbers *)

Definition io_callback (cb fd type : Z) : ST mgr unit :=
  if cb =? LISTEN_CB then fk_svr_listen_cb
  else if Z.even cb then fk_conn_read_cb (cb / 2) else fk_conn_write_cb (cb / 2).

Definition tm_callback (cb interval type : Z) : ST mgr Z :=
  if cb =? SVR_TIMER_CB then fk_svr_timer_cb else fk_conn_timer_cb cb.

Definition SIGINT : Z := 2.
Definition SIGTERM : Z := 15.

Definition fk_svr_signal_exit_handler (sig : Z) : ST mgr unit := mod_app (fun a =>
  if sig =? SIGINT then ap_set_sig a 1 (ap_sigterm a)
  else if sig =? SIGTERM then ap_set_sig a (ap_sigint a) 1
  else a).
End life.
