(* ===== verification/LifeProps.v ===== *)
(** Properties of the life of connections: whatever clients connect, send and close, and
    in whatever order the event manager calls back, no callback uses a connection that
    was freed, the table of connections and the events agree with the connections, and
    the callbacks return.  What the store, the log and the connections hold is told by a
    history: what the server executed since its start, from the data it found. *)
From S2P Require Import Prelude Util Buf Dict Item Conf Svr Req Parse Store.
From S2P Require Import CmdStr CmdHash CmdList CmdDb CmdProps Kdb KdbProps Blog Proto ProtoProps Stream Serve Effects Conn.
From S2P Require Import Heap Ev EvProps EvView Select Cron Life.
Import Req.

(** ** What the kernel promises *)

(** A new descriptor is the lowest that is not open; [accept] fails only with EINTR and
    EAGAIN, [waitpid] only with ECHILD; a [fork] does not tell the parent 0. *)
Record os_ok (o : os) : Prop := {
  ok_fd open : 0 <= os_new_fd o open /\ (os_new_fd o open ∉ open) /\ forall i, 0 <= i < os_new_fd o open -> i ∈ open;
  ok_arrivals n : AcceptFails ∉ os_arrivals o n;
  ok_wait n : os_wait o n <> ChildFailed;
  ok_fork n : os_fork o n <> 0;
  ok_rand n k : 0 <= os_rand o n k
}.

(** The lowest descriptor is at most the number of open ones. *)
Lemma new_fd_le o open : os_ok o -> os_new_fd o open <= Z.of_nat (size open).
Proof.
  intros K. destruct (ok_fd o K open) as (H0 & _ & Hl). set (fd := os_new_fd o open) in *.
  assert (list_to_set (seqZ 0 fd) ⊆ open) as Hs.
  { intros i Hi. apply elem_of_list_to_set, elem_of_seqZ in Hi. apply Hl. lia. }
  apply subseteq_size in Hs. rewrite size_list_to_set, length_seqZ in Hs by apply NoDup_seqZ. lia.
Qed.

(** The bytes a peer has sent before the [n]-th read. *)
Definition sent_by (o : os) (c : Z) (n : nat) : bytes :=
  concat ((fun i => stream (os_packets o c i)) <$> seq 0 n).

Lemma sent_by_S o c n : sent_by o c (S n) = sent_by o c n ++ stream (os_packets o c n).
Proof. unfold sent_by. rewrite seq_S, fmap_app, concat_app. cbn. by rewrite app_nil_r. Qed.

Lemma stream_app p q : stream (p ++ q) = stream p ++ stream q.
Proof. unfold stream. by rewrite fmap_app, concat_app. Qed.

(** No client sends SAVE, EVAL or ZADD, nor, if the server logs, an argument that the log
    does not hold, nor, if there are several databases, SETEX (the removal of expired
    keys may then never end: [clear_timeout_keys_hangs]). *)
Record request_ok (c : fk_conf) (r : list bytes) : Prop := {
  ro_described : described r = true;
  ro_loggable : cf_blog_on c = 1 -> Forall arg_loggable (entry r);
  ro_expiry : cf_dbcnt c <> 1 -> sets_expiry r = false
}.
Definition calm (o : os) (c : fk_conf) : Prop := forall id n, Forall (request_ok c) (reqs (feed (init []) (sent_by o id n))).

(** Only the log and the number of databases matter. *)
Lemma calm_ext o c c' : cf_blog_on c' = cf_blog_on c -> cf_dbcnt c' = cf_dbcnt c -> calm o c -> calm o c'.
Proof.
  intros E1 E2 H id n. eapply Forall_impl; [apply (H id n)|]. intros r []. split; rewrite ?E1, ?E2; done.
Qed.

(** Such requests give no key of another database than the first an expiry time. *)
Lemma session_lone room fopen_ok rename_ok run_script on now n rs a out log rt x c : Forall (request_ok c) rs ->
  session room fopen_ok rename_ok run_script on now n rs a out log rt x -> lone a -> zlen (a_exp x) = cf_dbcnt c -> lone x.
Proof.
  intros Hf Hs L Hl. destruct (decide (cf_dbcnt c = 1)) as [E|Hne]; [apply lone_one; by rewrite Hl|].
  eapply shrinks_lone, L. eapply session_shrinks, Hs. eapply Forall_impl; [exact Hf|]. intros r Hr. by apply Hr.
Qed.

(** ** The server between two callbacks *)

(** What the clients share; each adds the database that it has selected. *)
Definition store (s : fk_svr) : astate :=
  AState (dview <$> sv_db s) (eview <$> sv_expdb s) 0 (sv_ticks s).

Lemma abs_store w : abs w = put_idx (c_db_idx (w_conn w)) (store (w_svr w)).
Proof. done. Qed.

Record svr_good (s : fk_svr) : Prop := {
  sg_inv : svr_inv s;
  sg_lua : world_ok (World s (sv_lua_conn s));
  sg_lua_idx : c_db_idx (sv_lua_conn s) = 0;
  sg_lone : lone (store s);
  sg_wbuf : 0 <= cf_max_wbuf (sv_setting s) <= WBUF_HIGHWAT_MAX
}.

(** What no callback of a connection changes in the server. *)
Definition svr_same (s s' : fk_svr) : Prop :=
  sv_setting s' = sv_setting s /\ sv_lua_conn s' = sv_lua_conn s /\ sv_conn_cnt s' = sv_conn_cnt s /\ sv_clock s' = sv_clock s.

Lemma svr_good_same s s' : svr_good s -> svr_inv s' -> sv_setting s' = sv_setting s -> sv_lua_conn s' = sv_lua_conn s ->
  lone (store s') -> svr_good s'.
Proof.
  intros [I [_ W2 W3] X _ M] I' E1 E2 L. cbn in W2, W3.
  assert (sv_dbcnt s' = sv_dbcnt s) as Ed by (unfold sv_dbcnt; by rewrite E1).
  split; rewrite ?E1, ?E2, ?Ed; try done. split; cbn; rewrite ?Ed; done.
Qed.

Lemma frame_same s s' : svr_frame s s' -> sv_setting s' = sv_setting s /\ sv_lua_conn s' = sv_lua_conn s /\
  sv_conn_cnt s' = sv_conn_cnt s /\ sv_clock s' = sv_clock s.
Proof.
  unfold svr_frame. intros S. split_and!; [by apply (f_equal sv_setting) in S|by apply (f_equal sv_lua_conn) in S|
    by apply (f_equal sv_conn_cnt) in S|by apply (f_equal sv_clock) in S].
Qed.

Lemma serve_frame_same w w' : serve_frame w w' -> svr_same (w_svr w) (w_svr w') /\ c_fd (w_conn w') = c_fd (w_conn w) /\
  c_type (w_conn w') = c_type (w_conn w) /\ c_write_added (w_conn w') = c_write_added (w_conn w).
Proof.
  intros [C S]. injection C as -> -> ->. split; [|done].
  exact (frame_same _ _ S).
Qed.

(** A live connection on a server with other data. *)
Lemma live_svr s s' c q : conn_live (World s c) q -> svr_inv s' -> sv_dbcnt s' = sv_dbcnt s -> conn_live (World s' c) q.
Proof. intros [[? ? ?] ? ? ?] I E. split; try done. split; cbn in *; [done|by rewrite E|done]. Qed.

Lemma new_wbuf fd m now : 0 <= m <= WBUF_HIGHWAT_MAX -> wbuf_inv (c_wbuf (new_conn fd m now)).
Proof.
  intros H. split; [apply fk_buf_create_wf; unfold FK_BUF_INIT_LEN; lia|done|]. cbn. unfold RSP_MAX, FK_BUF_INIT_LEN. lia.
Qed.

(** A new connection can be served. *)
Lemma new_conn_live s fd now : svr_good s -> conn_live (World s (new_conn fd (cf_max_wbuf (sv_setting s)) now)) (init []).
Proof.
  intros G. pose proof (si_dbcnt _ (sg_inv _ G)). pose proof (sg_wbuf _ G).
  assert (buf_wf (fk_buf_create FK_BUF_INIT_LEN FK_BUF_HIGHWAT)) as Hr
    by (apply fk_buf_create_wf; unfold FK_BUF_INIT_LEN; lia).
  split.
  - split; [apply G|cbn; lia|by apply new_wbuf].
  - apply conn_idle_req. by split.
  - apply req_init_wf.
  - reflexivity.
Qed.

(** ** The history of the server *)

(** The requests of one connection that are executed together, their replies, whether
    these fitted the write buffer, and the database that is then selected; the removal
    of expired keys; a look at the clock. *)
Inductive happening :=
  | Served (c : Z) (rs : list (list bytes)) (out : list cell) (rt idx : Z)
  | Expired (ks : list bytes)
  | Ticked.

Definition requests_of (c : Z) (h : list happening) : list (list bytes) :=
  concat ((fun e => match e with Served c' rs _ _ _ => if c' =? c then rs else [] | _ => [] end) <$> h).
Definition replies_of (c : Z) (h : list happening) : list cell :=
  concat ((fun e => match e with Served c' _ out _ _ => if c' =? c then out else [] | _ => [] end) <$> h).
(** Whether the replies fitted, for each time. *)
Definition codes_of (c : Z) (h : list happening) : list Z :=
  concat ((fun e => match e with Served c' _ _ rt _ => if c' =? c then [rt] else [] | _ => [] end) <$> h).

(** The database that it has selected. *)
Definition selects (c : Z) (i : Z) (e : happening) : Z :=
  match e with Served c' _ _ _ i' => if c' =? c then i' else i | _ => i end.
Definition selected (c : Z) (h : list happening) : Z := foldl (selects c) 0 h.

Lemma selected_snoc c h e : selected c (h ++ [e]) = selects c (selected c h) e.
Proof. unfold selected. by rewrite foldl_app. Qed.
Lemma codes_of_snoc c h e : codes_of c (h ++ [e]) =
  codes_of c h ++ match e with Served c' _ _ rt _ => if c' =? c then [rt] else [] | _ => [] end.
Proof. unfold codes_of. by rewrite fmap_app, concat_app; cbn; rewrite app_nil_r. Qed.
Lemma requests_of_snoc c h e : requests_of c (h ++ [e]) =
  requests_of c h ++ match e with Served c' rs _ _ _ => if c' =? c then rs else [] | _ => [] end.
Proof. unfold requests_of. by rewrite fmap_app, concat_app; cbn; rewrite app_nil_r. Qed.
Lemma replies_of_snoc c h e : replies_of c (h ++ [e]) =
  replies_of c h ++ match e with Served c' _ out _ _ => if c' =? c then out else [] | _ => [] end.
Proof. unfold replies_of. by rewrite fmap_app, concat_app; cbn; rewrite app_nil_r. Qed.

(** The happenings [h], one after the other from the contents of [first], leave the store
    [a]; [log] is what they wrote to the log.  A connection is served in the database that
    its own requests have selected. *)
Inductive history (room : stdio) (fopen_ok rename_ok : bool)
    (run_script : bytes -> list bytes -> list bytes -> ST world unit) (on : bool) (dbcnt : Z) (now : nat -> Z) (first : astate) :
    list happening -> astate -> bytes -> Prop :=
  | history_start t : history room fopen_ok rename_ok run_script on dbcnt now first [] (AState (a_db first) (a_exp first) 0 t) []
  | history_served h a log c rs out log' rt a' :
      history room fopen_ok rename_ok run_script on dbcnt now first h a log ->
      session room fopen_ok rename_ok run_script on now dbcnt rs (put_idx (selected c h) a) out log' rt a' ->
      history room fopen_ok rename_ok run_script on dbcnt now first (h ++ [Served c rs out rt (a_idx a')]) (put_idx 0 a') (log ++ log')
  | history_expired h a log ks :
      history room fopen_ok rename_ok run_script on dbcnt now first h a log ->
      history room fopen_ok rename_ok run_script on dbcnt now first (h ++ [Expired ks]) (expires now ks a) log
  | history_ticked h a log :
      history room fopen_ok rename_ok run_script on dbcnt now first h a log ->
      history room fopen_ok rename_ok run_script on dbcnt now first (h ++ [Ticked]) (tick a) log.

(** The log file holds [log]. *)
Definition log_holds (on : bool) (s : fk_svr) (log : bytes) : Prop :=
  on = true -> bf_data (sv_blog s) = Some <$> log /\ bf_off (sv_blog s) = zlen log.

Lemma log_holds_app on s s' log log' : log_holds on s log -> sv_blog s' = sv_blog (logged s log') -> log_holds on s' (log ++ log').
Proof.
  intros H E Hon. destruct (H Hon) as [H1 H2]. rewrite E. cbn. by rewrite H1, H2, fmap_app, zlen_app.
Qed.

(** The store, the clock and the log are the same. *)
Definition same_data (s s' : fk_svr) : Prop := store s' = store s /\ sv_clock s' = sv_clock s /\ sv_blog s' = sv_blog s.

(** What is not sent yet follows what was sent. *)
Definition replies (x : conn_obj) : list cell := co_out x ++ payload (c_wbuf (co_conn x)).

(** Between two callbacks; in a callback of a connection; and when a connection is
    about to be removed. *)
Inductive mode := AtRest | Busy (c : Z) | Doomed (c : Z).

Definition concerns (c : Z) (d : mode) : Prop :=
  match d with AtRest => True | Busy c' | Doomed c' => c' = c end.

(** Neither the descriptor nor the events. *)
Definition same_handles (x x' : conn_obj) : Prop :=
  c_fd (co_conn x') = c_fd (co_conn x) /\ c_type (co_conn x') = c_type (co_conn x) /\ co_read_ev x' = co_read_ev x /\
  co_write_ev x' = co_write_ev x /\ co_timer x' = co_timer x.

Section invariant.
Context (o : os) (room : stdio) (fopen_ok rename_ok : bool).
Context (run_script : bytes -> list bytes -> list bytes -> ST world unit).

(** The setting, and the contents of the store at the start. *)
Context (conf : fk_conf) (first : astate).
Abbreviation on := (cf_blog_on conf =? 1).
Abbreviation dbcnt := (cf_dbcnt conf).

(** The listening descriptor and its event, the timer of the server, and the number of
    descriptors that are no connections. *)
Context (lfd lev stm base : Z).

(** *** The connections and the kernel *)

(** The table of connections, and the open descriptors; [n] is the length of the table. *)
Record tables_ok (a : app) (n : Z) : Prop := {
  to_cnt : sv_conn_cnt (ap_svr a) = Z.of_nat (size (ap_conns a));
  to_max : sv_conn_cnt (ap_svr a) <= cf_max_conns (sv_setting (ap_svr a));
  to_files : n = cf_max_conns (sv_setting (ap_svr a)) + 17;
  to_len : zlen (ap_tab a) = n;
  to_tab : forall fd c, znth (ap_tab a) fd = Some (Some (Some c)) <-> exists x, ap_conns a !! c = Some x /\ c_fd (co_conn x) = fd;
  to_fd : forall c x, ap_conns a !! c = Some x ->
    0 <= c_fd (co_conn x) < n /\ c_fd (co_conn x) ∈ ap_open a /\ c_fd (co_conn x) <> lfd;
  to_listen : lfd ∈ ap_open a;
  to_open : Z.of_nat (size (ap_open a)) = base + Z.of_nat (size (ap_conns a)) /\ base <= 16
}.

Lemma tables_ext a a' n : tables_ok a n -> ap_conns a' = ap_conns a -> ap_tab a' = ap_tab a -> ap_open a' = ap_open a ->
  sv_setting (ap_svr a') = sv_setting (ap_svr a) -> sv_conn_cnt (ap_svr a') = sv_conn_cnt (ap_svr a) -> tables_ok a' n.
Proof. intros [] E1 E2 E3 E4 E5. by split; rewrite ?E1, ?E2, ?E3, ?E4, ?E5. Qed.

Lemma tables_fd a n c x c' x' : tables_ok a n -> ap_conns a !! c = Some x -> ap_conns a !! c' = Some x' ->
  c_fd (co_conn x') = c_fd (co_conn x) -> c' = c.
Proof.
  intros T Hx Hx' E. pose proof (proj2 (to_tab _ _ T (c_fd (co_conn x)) c) ltac:(by exists x)) as H1.
  pose proof (proj2 (to_tab _ _ T (c_fd (co_conn x)) c') ltac:(by exists x')) as H2. congruence.
Qed.

Lemma tables_update a n c x x' s : tables_ok a n -> ap_conns a !! c = Some x -> c_fd (co_conn x') = c_fd (co_conn x) ->
  sv_setting s = sv_setting (ap_svr a) -> sv_conn_cnt s = sv_conn_cnt (ap_svr a) ->
  tables_ok (ap_set_conns (ap_set_svr a s) (<[c := x']> (ap_conns a))) n.
Proof.
  intros [] Hx Efd E1 E2.
  assert (forall c' y, <[c := x']> (ap_conns a) !! c' = Some y -> exists y', ap_conns a !! c' = Some y' /\
    c_fd (co_conn y') = c_fd (co_conn y)) as Hin.
  { intros c' y [[<- <-]|[_ Hy]]%lookup_insert_Some; by eexists. }
  split; cbn; rewrite ?E1, ?E2; try done.
  - by rewrite map_size_insert_Some by (by eexists).
  - intros fd c'. rewrite to_tab0. split; intros (y & Hy & <-).
    + destruct (decide (c' = c)) as [->|Hne]; [|exists y; by rewrite lookup_insert_ne].
      exists x'. rewrite lookup_insert_eq. by simplify_eq.
    + destruct (Hin c' y Hy) as (y' & Hy' & <-). by exists y'.
  - intros c' y Hy. destruct (Hin c' y Hy) as (y' & Hy' & <-). by apply (to_fd0 c').
  - by rewrite map_size_insert_Some by (by eexists).
Qed.

(** Connection [c] is closed. *)
Lemma tables_removed a n c x s : tables_ok a n -> ap_conns a !! c = Some x ->
  sv_setting s = sv_setting (ap_svr a) -> sv_conn_cnt s = sv_conn_cnt (ap_svr a) - 1 -> let fd := c_fd (co_conn x) in
  tables_ok (App s (delete c (ap_conns a)) (zupd (ap_tab a) fd (Some None)) (ap_sigint a) (ap_sigterm a) (ap_open a ∖ {[fd]})
    (ap_next a) (ap_calls a)) n.
Proof.
  intros T Hx E1 E2 fd. pose proof T as []. destruct (to_fd0 c x Hx) as (Hf & Ho & Hl). fold fd in Hf, Ho, Hl.
  assert (forall c' y, delete c (ap_conns a) !! c' = Some y -> ap_conns a !! c' = Some y /\ c_fd (co_conn y) <> fd) as Hdel.
  { intros c' y [Hne Hy]%lookup_delete_Some. split; [done|]. intros E. by destruct (tables_fd a n c x c' y T Hx Hy E). }
  assert (size (ap_conns a) = S (size (delete c (ap_conns a)))) as Hsz.
  { rewrite map_size_delete_Some by by eexists. assert (size (ap_conns a) <> 0%nat); [|lia].
    intros E%map_size_empty_inv. by rewrite E, lookup_empty in Hx. }
  split; cbn; rewrite ?E1, ?E2, ?zlen_zupd; try done; try lia.
  - intros f c'. destruct (decide (f = fd)) as [->|Hne].
    + rewrite znth_zupd_eq by lia. split; [done|]. intros (y & Hy & E). by destruct (Hdel c' y Hy).
    + rewrite znth_zupd_ne by (done || lia). rewrite to_tab0. split; intros (y & Hy & E); exists y; (split; [|done]).
      * rewrite lookup_delete_ne; [done|]. intros <-. by simplify_eq.
      * by apply Hdel.
  - intros c' y Hy. destruct (Hdel c' y Hy) as (Hy' & Hne). destruct (to_fd0 c' y Hy') as (? & ? & ?). set_solver.
  - set_solver.
  - rewrite size_difference by set_solver. rewrite size_singleton.
    assert (size (ap_open a) <> 0%nat); [|lia]. intros E%size_empty_inv. set_solver.
Qed.

(** A new connection for the descriptor [fd]. *)
Lemma tables_added a n c x s next calls : tables_ok a n -> ap_conns a !! c = None -> let fd := c_fd (co_conn x) in
  fd ∉ ap_open a -> 0 <= fd <= Z.of_nat (size (ap_open a)) -> sv_conn_cnt (ap_svr a) <> cf_max_conns (sv_setting (ap_svr a)) ->
  sv_setting s = sv_setting (ap_svr a) -> sv_conn_cnt s = sv_conn_cnt (ap_svr a) + 1 ->
  tables_ok (App s (<[c := x]> (ap_conns a)) (zupd (ap_tab a) fd (Some (Some c))) (ap_sigint a) (ap_sigterm a) ({[fd]} ∪ ap_open a)
    next calls) n.
Proof.
  intros [] Hc fd Hfd Hfd' Hmax E1 E2. destruct to_open0 as [Ho Hb].
  assert (forall c' y, ap_conns a !! c' = Some y -> c' <> c /\ c_fd (co_conn y) <> fd) as Hold.
  { intros c' y Hy. split; [congruence|]. intros E. destruct (to_fd0 c' y Hy) as (_ & H & _). by rewrite E in H. }
  assert (size (<[c := x]> (ap_conns a)) = S (size (ap_conns a))) as Hsz by by rewrite map_size_insert_None.
  split; cbn; rewrite ?zlen_zupd, ?Hsz; rewrite ?E1, ?E2; try done; try lia.
  - intros f c'. destruct (decide (f = fd)) as [->|Hne].
    + rewrite znth_zupd_eq by lia. split.
      * intros [= <-]. exists x. by rewrite lookup_insert_eq.
      * intros (y & [[<- _]|[_ Hy]]%lookup_insert_Some & E); [done|]. by destruct (Hold c' y Hy).
    + rewrite znth_zupd_ne by (done || lia). rewrite to_tab0. split; intros (y & Hy & E); exists y; (split; [|done]).
      * rewrite lookup_insert_ne; [done|]. intros <-. by destruct (Hold c y Hy).
      * apply lookup_insert_Some in Hy as [[_ <-]|[_ Hy]]; [by subst|done].
  - intros c' y [[_ <-]|[_ Hy]]%lookup_insert_Some.
    + fold fd. split; [lia|]. split; [set_solver|]. by intros ->.
    + destruct (to_fd0 c' y Hy) as (? & ? & ?). set_solver.
  - set_solver.
  - rewrite size_union by set_solver. rewrite size_singleton. lia.
Qed.

(** *** The connections and the event manager *)

(** The events of the connection [x] at the address [c]. *)
Record conn_inv (ios tms : gmap Z (Z * Z * Z * bool)) (c : Z) (x : conn_obj) : Prop := {
  ci_addr : 0 < c;
  ci_type : c_type (co_conn x) = FK_CONN_REAL;
  ci_added : c_write_added (co_conn x) = 0 \/ c_write_added (co_conn x) = 1;
  ci_read : exists r, co_read_ev x = Some r /\ ios !! r = Some (c_fd (co_conn x), FK_IOEV_READ, READ_CB c, true);
  ci_write : exists w, co_write_ev x = Some w /\
    ios !! w = Some (c_fd (co_conn x), FK_IOEV_WRITE, WRITE_CB c, c_write_added (co_conn x) =? 1);
  ci_timer : exists t, co_timer x = Some t /\ tms !! t = Some (FK_TMEV_CYCLE, 5000, CONN_TIMER_CB c, true)
}.

(** All events are those of the connections, the listening event and the timer of the
    server. *)
Record events_ok (conns : gmap Z conn_obj) (next : Z) (ios tms : gmap Z (Z * Z * Z * bool)) : Prop := {
  eo_conn : forall c x, conns !! c = Some x -> conn_inv ios tms c x;
  eo_listen : ios !! lev = Some (lfd, FK_IOEV_READ, LISTEN_CB, true);
  eo_timer : tms !! stm = Some (FK_TMEV_CYCLE, 3000, SVR_TIMER_CB, true);
  eo_io : forall id, is_Some (ios !! id) -> id = lev \/
    exists c x, conns !! c = Some x /\ (co_read_ev x = Some id \/ co_write_ev x = Some id);
  eo_tm : forall id, is_Some (tms !! id) -> id = stm \/ exists c x, conns !! c = Some x /\ co_timer x = Some id;
  eo_next : 0 < next /\ forall id, next <= id -> ios !! id = None /\ tms !! id = None /\ conns !! id = None
}.

(** The events of different connections are different. *)
Lemma other_events ios tms c x c' x' : conn_inv ios tms c x -> conn_inv ios tms c' x' -> c' <> c ->
  (forall e, co_read_ev x = Some e \/ co_write_ev x = Some e -> co_read_ev x' <> Some e /\ co_write_ev x' <> Some e) /\
  (forall t, co_timer x = Some t -> co_timer x' <> Some t).
Proof.
  intros [_ _ _ (r1 & R1 & I1) (w1 & W1 & J1) (t1 & T1 & K1)] [_ _ _ (r2 & R2 & I2) (w2 & W2 & J2) (t2 & T2 & K2)] Hne.
  unfold WRITE_CB, READ_CB, CONN_TIMER_CB, FK_IOEV_READ, FK_IOEV_WRITE in *. rewrite R1, W1, T1, R2, W2, T2. split.
  - intros e [[= ->]|[= ->]]; split; intros [= ->]; simplify_eq; lia.
  - intros t [= ->] [= ->]. simplify_eq.
Qed.

(** The listening event is of no connection. *)
Lemma other_listen ios tms c x e : conn_inv ios tms c x -> ios !! lev = Some (lfd, FK_IOEV_READ, LISTEN_CB, true) ->
  co_read_ev x = Some e \/ co_write_ev x = Some e -> lev <> e.
Proof.
  intros [Hc _ _ (r & R & I) (w & W & J) _] Hl He <-. unfold READ_CB, LISTEN_CB, FK_IOEV_READ, FK_IOEV_WRITE in *.
  destruct He; simplify_eq; lia.
Qed.

(** Events that are added, changed or removed elsewhere do not matter. *)
Lemma conn_inv_frame ios tms ios' tms' c x : conn_inv ios tms c x ->
  (forall e, co_read_ev x = Some e \/ co_write_ev x = Some e -> ios' !! e = ios !! e) ->
  (forall t, co_timer x = Some t -> tms' !! t = tms !! t) -> conn_inv ios' tms' c x.
Proof.
  intros [? ? ? (r & R & I) (w & W & J) (t & T & K)] H1 H2. split; try done.
  - exists r. split; [done|]. by rewrite H1 by by left.
  - exists w. split; [done|]. by rewrite H1 by by right.
  - exists t. split; [done|]. by rewrite H2.
Qed.

(** The write event of connection [c] is added or not. *)
Lemma events_update conns next ios tms c x x' w (b : bool) : events_ok conns next ios tms -> conns !! c = Some x ->
  same_handles x x' -> c_write_added (co_conn x') = Z.b2z b -> co_write_ev x = Some w ->
  events_ok (<[c := x']> conns) next (<[w := (c_fd (co_conn x), FK_IOEV_WRITE, WRITE_CB c, b)]> ios) tms.
Proof.
  intros [] Hx (Efd & Ety & Er & Ew & Et) Eb Hw. pose proof (eo_conn0 c x Hx) as Cx.
  pose proof (other_listen _ _ _ _ w Cx eo_listen0 ltac:(by right)) as Hlw.
  pose proof Cx as [Ca Cty _ (r & Hr & Hrio) (w' & Hw' & Hwio) (t & Ht & Htm)]. rewrite Hw in Hw'. injection Hw' as <-.
  assert (r <> w) as Hrw by (intros ->; unfold FK_IOEV_READ, FK_IOEV_WRITE in *; simplify_eq).
  assert (forall c' y, conns !! c' = Some y -> exists y', <[c := x']> conns !! c' = Some y' /\ co_read_ev y' = co_read_ev y /\
    co_write_ev y' = co_write_ev y /\ co_timer y' = co_timer y) as Hin.
  { intros c' y Hy. destruct (decide (c' = c)) as [->|]; [exists x'; rewrite lookup_insert_eq; by simplify_eq|].
    exists y. by rewrite lookup_insert_ne. }
  split; try done.
  - intros c' y [[<- <-]|[Hne Hy]]%lookup_insert_Some.
    + split; rewrite ?Efd, ?Ety, ?Eb, ?Er, ?Ew, ?Et; [done|done|destruct b; auto| | |by exists t].
      * exists r. split; [done|]. by rewrite lookup_insert_ne.
      * exists w. split; [done|]. rewrite lookup_insert_eq. by destruct b.
    + destruct (other_events _ _ _ _ c' y Cx (eo_conn0 c' y Hy) ltac:(done)) as [D _].
      eapply conn_inv_frame; [by apply (eo_conn0 c' y)| |done]. intros e He. destruct (D w) as [D1 D2]; [by right|].
      rewrite lookup_insert_ne; [done|]. intros <-. by destruct He.
  - by rewrite lookup_insert_ne.
  - intros id Hid. assert (is_Some (ios !! id)) as Hid'.
    { destruct (decide (id = w)) as [->|]; [by eexists|by rewrite lookup_insert_ne in Hid]. }
    destruct (eo_io0 id Hid') as [->|(c' & y & Hy & Hi)]; [by left|]. right.
    destruct (Hin c' y Hy) as (y' & Hy' & E1 & E2 & _). exists c', y'. by rewrite E1, E2.
  - intros id Hid. destruct (eo_tm0 id Hid) as [->|(c' & y & Hy & Hi)]; [by left|]. right.
    destruct (Hin c' y Hy) as (y' & Hy' & _ & _ & E3). exists c', y'. by rewrite E3.
  - destruct eo_next0 as [Hp Hn]. split; [done|]. intros id Hid. destruct (Hn id Hid) as (N1 & N2 & N3).
    assert (id <> w) by congruence. assert (id <> c) by congruence. by rewrite !lookup_insert_ne.
Qed.

(** The events of connection [c] are removed with it. *)
Lemma events_removed conns next ios tms c x r w t : events_ok conns next ios tms -> conns !! c = Some x ->
  co_read_ev x = Some r -> co_write_ev x = Some w -> co_timer x = Some t ->
  events_ok (delete c conns) next (delete w (delete r ios)) (delete t tms).
Proof.
  intros [] Hx Er Ew Et. pose proof (eo_conn0 c x Hx) as Cx.
  pose proof (other_listen _ _ _ _ r Cx eo_listen0 ltac:(by left)) as N1.
  pose proof (other_listen _ _ _ _ w Cx eo_listen0 ltac:(by right)) as N2.
  pose proof Cx as [Ca _ _ _ _ (t' & Ht & Hti)]. simplify_eq.
  assert (stm <> t) as N3 by (intros <-; unfold CONN_TIMER_CB, SVR_TIMER_CB in *; simplify_eq).
  split.
  - intros c' y [Hne Hy]%lookup_delete_Some. destruct (other_events _ _ _ _ c' y Cx (eo_conn0 c' y Hy) ltac:(done)) as [D1 D2].
    eapply conn_inv_frame; [by apply (eo_conn0 c' y)|intros e He|intros e He].
    + destruct (D1 r) as [A1 A2]; [by left|]. destruct (D1 w) as [B1 B2]; [by right|].
      rewrite !lookup_delete_ne; [done|..]; intros <-; by destruct He.
    + rewrite lookup_delete_ne; [done|]. intros <-. by apply (D2 t).
  - by rewrite !lookup_delete_ne.
  - by rewrite lookup_delete_ne.
  - intros id [y Hy]. apply lookup_delete_Some in Hy as [M1 Hy]. apply lookup_delete_Some in Hy as [M2 Hy].
    destruct (eo_io0 id ltac:(by eexists)) as [->|(c' & z & Hz & Hi)]; [by left|]. right.
    exists c', z. split; [|done]. rewrite lookup_delete_ne; [done|]. intros <-. simplify_eq. destruct Hi; congruence.
  - intros id [y Hy]. apply lookup_delete_Some in Hy as [M1 Hy].
    destruct (eo_tm0 id ltac:(by eexists)) as [->|(c' & z & Hz & Hi)]; [by left|]. right.
    exists c', z. split; [|done]. rewrite lookup_delete_ne; [done|]. intros <-. congruence.
  - destruct eo_next0 as [Hp Hn]. split; [done|]. intros id Hid. destruct (Hn id Hid) as (M1 & M2 & M3).
    by rewrite !lookup_delete_None; auto.
Qed.

(** A connection at the address [n] with events at the next addresses. *)
Lemma events_added conns n ios tms x : events_ok conns n ios tms ->
  c_type (co_conn x) = FK_CONN_REAL -> c_write_added (co_conn x) = 0 ->
  co_read_ev x = Some (n + 1) -> co_write_ev x = Some (n + 2) -> co_timer x = Some (n + 3) -> let fd := c_fd (co_conn x) in
  events_ok (<[n := x]> conns) (n + 4)
    (<[n + 2 := (fd, FK_IOEV_WRITE, WRITE_CB n, false)]> (<[n + 1 := (fd, FK_IOEV_READ, READ_CB n, true)]> ios))
    (<[n + 3 := (FK_TMEV_CYCLE, 5000, CONN_TIMER_CB n, true)]> tms).
Proof.
  intros [] Ety Eb Er Ew Et fd. destruct eo_next0 as [Hp Hn].
  assert (forall id y, ios !! id = Some y -> id < n) as Bi.
  { intros id y Hy. destruct (Z.lt_ge_cases id n); [done|]. destruct (Hn id) as (N & _); [done|]. by rewrite N in Hy. }
  assert (forall id y, tms !! id = Some y -> id < n) as Bt.
  { intros id y Hy. destruct (Z.lt_ge_cases id n); [done|]. destruct (Hn id) as (_ & N & _); [done|]. by rewrite N in Hy. }
  assert (conns !! n = None) as Hnew by (apply Hn; lia).
  split.
  - intros c y [[<- <-]|[_ Hy]]%lookup_insert_Some.
    + split; rewrite ?Eb; [done|done|by left|exists (n + 1)|exists (n + 2)|exists (n + 3)]; (split; [done|]).
      * by rewrite lookup_insert_ne, lookup_insert_eq by lia.
      * by rewrite lookup_insert_eq.
      * by rewrite lookup_insert_eq.
    + pose proof (eo_conn0 c y Hy) as Cy. pose proof Cy as [_ _ _ (r & R & I) (w & W & J) (t & T & K)].
      pose proof (Bi r _ I). pose proof (Bi w _ J). pose proof (Bt t _ K).
      eapply conn_inv_frame; [exact Cy|intros e [He|He]|intros e He]; simplify_eq; by rewrite !lookup_insert_ne by lia.
  - pose proof (Bi lev _ eo_listen0). by rewrite !lookup_insert_ne by lia.
  - pose proof (Bt stm _ eo_timer0). by rewrite lookup_insert_ne by lia.
  - intros id [y [[<- _]|[_ Hy]]%lookup_insert_Some]; [right; exists n, x; rewrite lookup_insert_eq; auto|].
    apply lookup_insert_Some in Hy as [[<- _]|[_ Hy]]; [right; exists n, x; rewrite lookup_insert_eq; auto|].
    destruct (eo_io0 id ltac:(by eexists)) as [->|(c & z & Hz & Hi)]; [by left|]. right.
    exists c, z. split; [|done]. rewrite lookup_insert_ne; [done|]. congruence.
  - intros id [y [[<- _]|[_ Hy]]%lookup_insert_Some]; [right; exists n, x; rewrite lookup_insert_eq; auto|].
    destruct (eo_tm0 id ltac:(by eexists)) as [->|(c & z & Hz & Hi)]; [by left|]. right.
    exists c, z. split; [|done]. rewrite lookup_insert_ne; [done|]. congruence.
  - split; [lia|]. intros id Hid. destruct (Hn id ltac:(lia)) as (M1 & M2 & M3). by rewrite !lookup_insert_ne by lia.
Qed.

(** *** What was served *)

(** It has parsed a part of what its peer sent, the requests of it were executed, their
    replies all fitted and are sent or in the buffer, its database is the one that they
    selected, and it can be served on. *)
Definition serving (h : list happening) (s : fk_svr) (c : Z) (x : conn_obj) : Prop := exists m q,
  sent_by o c (co_reads x) = m ++ stream (co_in x) /\
  requests (feed (init []) m) = (requests_of c h, FK_SVR_OK, q) /\ replies x = replies_of c h /\
  Forall (eq FK_SVR_OK) (codes_of c h) /\ c_db_idx (co_conn x) = selected c h /\ conn_live (World s (co_conn x)) q.

(** Between callbacks, the write event of a connection is added if it has replies. *)
Definition resting (h : list happening) (s : fk_svr) (c : Z) (x : conn_obj) : Prop :=
  serving h s c x /\ (c_write_added (co_conn x) = 0 -> payload (c_wbuf (co_conn x)) = []).

(** All connections rest but perhaps one. *)
Definition served_on (h : list happening) (d : mode) (s : fk_svr) (c : Z) (x : conn_obj) : Prop :=
  match d with
  | AtRest => resting h s c x
  | Busy c' => if c' =? c then serving h s c x else resting h s c x
  | Doomed c' => if c' =? c then args_room (co_conn x) else resting h s c x
  end.

(** The store is what the history left; only what was sent was executed; and nothing
    was for a connection that is not there yet. *)
Record hist_ok (h : list happening) (a : app) : Prop := {
  ho_run : exists log, history room fopen_ok rename_ok run_script on dbcnt (fun n => fk_util_tv2millis (sv_clock (ap_svr a) n)) first
    h (store (ap_svr a)) log /\ log_holds on (ap_svr a) log;
  ho_sent : forall c, exists n, requests_of c h `prefix_of` reqs (feed (init []) (sent_by o c n));
  ho_new : forall c, ap_next a <= c -> requests_of c h = [] /\ replies_of c h = [] /\ codes_of c h = [] /\ selected c h = 0
}.

Record life_inv (h : list happening) (d : mode) (v : ev_view app) : Prop := {
  li_hist : hist_ok h (v_user v);
  li_svr : svr_good (ap_svr (v_user v));
  li_conf : sv_setting (ap_svr (v_user v)) = conf;
  li_tables : tables_ok (v_user v) (v_max v);
  li_events : events_ok (ap_conns (v_user v)) (ap_next (v_user v)) (v_ios v) (v_tms v);
  li_served : forall c x, ap_conns (v_user v) !! c = Some x -> served_on h d (ap_svr (v_user v)) c x
}.

Lemma life_conn_inv h d v c x : life_inv h d v -> ap_conns (v_user v) !! c = Some x -> conn_inv (v_ios v) (v_tms v) c x.
Proof. intros L. apply L. Qed.

Lemma serving_room h s c x : serving h s c x -> args_room (co_conn x).
Proof. intros (m & q & _ & _ & _ & _ & _ & L). exact (conn_req_room _ _ (cl_req _ _ L)). Qed.

Lemma served_on_room h d s c x : served_on h d s c x -> args_room (co_conn x).
Proof.
  pose proof (serving_room h s c x) as Hr. unfold served_on, resting. destruct d; [|case_match..]; naive_solver.
Qed.

(** The modes differ only for one connection. *)
Lemma served_on_other h d d' s c c' x : concerns c d -> concerns c d' -> c' <> c -> served_on h d s c' x -> served_on h d' s c' x.
Proof.
  intros H H' Hne. unfold concerns, served_on in *.
  destruct d, d'; subst; rewrite ?(proj2 (Z.eqb_neq _ _) (not_eq_sym Hne)); done.
Qed.

(** Nothing happened for the connection [c]. *)
Definition apart (c : Z) (h h' : list happening) : Prop :=
  requests_of c h' = requests_of c h /\ replies_of c h' = replies_of c h /\ codes_of c h' = codes_of c h /\ selected c h' = selected c h.

Lemma apart_refl c h : apart c h h.
Proof. done. Qed.
Lemma apart_other c h e : match e with Served c' _ _ _ _ => c' <> c | _ => True end -> apart c h (h ++ [e]).
Proof.
  intros H. unfold apart. rewrite requests_of_snoc, replies_of_snoc, codes_of_snoc, selected_snoc.
  destruct e as [c' rs out rt i| |]; cbn [selects]; [rewrite (proj2 (Z.eqb_neq _ _) H)|..]; by rewrite !app_nil_r.
Qed.

Lemma serving_svr h h' s s' c x : serving h s c x -> svr_inv s' -> sv_dbcnt s' = sv_dbcnt s -> apart c h h' -> serving h' s' c x.
Proof.
  intros (m & q & E & R & O & C & X & L) I Ed (A1 & A2 & A3 & A4). exists m, q.
  rewrite A1, A2, A3, A4. do 5 (split; [done|]). by eapply live_svr.
Qed.

Lemma served_on_svr h h' d s s' c x : served_on h d s c x -> svr_inv s' -> sv_dbcnt s' = sv_dbcnt s -> apart c h h' ->
  served_on h' d s' c x.
Proof.
  intros H I Ed A. pose proof (serving_svr h h' s s' c x) as Hs. unfold served_on, resting in *.
  destruct d; [|case_match..]; naive_solver.
Qed.

Lemma hist_same h a a' : hist_ok h a -> same_data (ap_svr a) (ap_svr a') -> ap_next a <= ap_next a' -> hist_ok h a'.
Proof.
  intros [(log & R & W) S N] (E1 & E2 & E3) Hn. split; [|done|intros c Hc; apply N; lia].
  exists log. rewrite E1, E2. split; [done|]. unfold log_holds. by rewrite E3.
Qed.

Lemma hist_other h a a' e : hist_ok h a -> sv_clock (ap_svr a') = sv_clock (ap_svr a) -> sv_blog (ap_svr a') = sv_blog (ap_svr a) ->
  ap_next a <= ap_next a' -> match e with Served _ _ _ _ _ => False | _ => True end ->
  (forall log, let run := history room fopen_ok rename_ok run_script on dbcnt (fun n => fk_util_tv2millis (sv_clock (ap_svr a) n)) first in
    run h (store (ap_svr a)) log -> run (h ++ [e]) (store (ap_svr a')) log) ->
  hist_ok (h ++ [e]) a'.
Proof.
  intros [(log & R & W) S N] E1 E2 Hn He H. assert (forall c, apart c h (h ++ [e])) as Ha by (intros c; apply apart_other; by destruct e).
  split.
  - exists log. rewrite E1. split; [by apply H|]. unfold log_holds. by rewrite E2.
  - intros c. by destruct (Ha c) as [-> _].
  - intros c Hc. destruct (Ha c) as (-> & -> & -> & ->). apply N. lia.
Qed.

Lemma hist_tick h a a' : hist_ok h a -> store (ap_svr a') = tick (store (ap_svr a)) -> sv_clock (ap_svr a') = sv_clock (ap_svr a) ->
  sv_blog (ap_svr a') = sv_blog (ap_svr a) -> ap_next a <= ap_next a' -> hist_ok (h ++ [Ticked]) a'.
Proof. intros H E1 E2 E3 Hn. apply (hist_other h a); try done. intros log run. rewrite E1. by constructor. Qed.

Lemma life_busy h c v : life_inv h AtRest v -> life_inv h (Busy c) v.
Proof.
  intros []. split; try done. intros c' x Hx. specialize (li_served0 c' x Hx). cbn in *. case_match; [apply li_served0|done].
Qed.

Lemma life_doomed h c v : life_inv h (Busy c) v -> life_inv h (Doomed c) v.
Proof.
  intros []. split; try done. intros c' x Hx. specialize (li_served0 c' x Hx). cbn in *. case_match; [|done].
  by eapply serving_room.
Qed.

(** Nothing of this depends on the counter of questions nor on the flags of signals. *)
Lemma life_calls h d v n : life_inv h d v -> life_inv h d (v_set_user v (ap_set_calls (v_user v) n)).
Proof. intros []. split; try done; [by apply (hist_same h (v_user v))|by apply (tables_ext (v_user v))]. Qed.

Lemma life_sig h d v int term : life_inv h d v -> life_inv h d (v_set_user v (ap_set_sig (v_user v) int term)).
Proof. intros []. split; try done; [by apply (hist_same h (v_user v))|by apply (tables_ext (v_user v))]. Qed.

Lemma life_svr h h' d v s : life_inv h d v -> svr_good s -> sv_setting s = sv_setting (ap_svr (v_user v)) ->
  sv_conn_cnt s = sv_conn_cnt (ap_svr (v_user v)) -> hist_ok h' (ap_set_svr (v_user v) s) -> (forall c, apart c h h') ->
  life_inv h' d (v_set_user v (ap_set_svr (v_user v) s)).
Proof.
  intros [] G E1 E2 Hh Ha. split; cbn; rewrite ?E1; try done; [by apply (tables_ext (v_user v))|].
  intros c x Hx. eapply served_on_svr; [by apply (li_served0 c x)|apply G| |apply Ha]. unfold sv_dbcnt. by rewrite E1.
Qed.

(** Connection [c] and the server after a step: its descriptor and its events are the
    same, its write event is added or not. *)
Lemma life_update h h' d d' v c x s x' w (b : bool) :
  life_inv h d v -> ap_conns (v_user v) !! c = Some x -> concerns c d -> concerns c d' ->
  svr_good s -> sv_setting s = sv_setting (ap_svr (v_user v)) -> sv_conn_cnt s = sv_conn_cnt (ap_svr (v_user v)) ->
  same_handles x x' -> c_write_added (co_conn x') = Z.b2z b -> co_write_ev x = Some w -> served_on h' d' s c x' ->
  hist_ok h' (ap_set_svr (v_user v) s) -> (forall c', c' <> c -> apart c' h h') ->
  life_inv h' d' (View (ap_set_conns (ap_set_svr (v_user v) s) (<[c := x']> (ap_conns (v_user v)))) (v_max v)
    (<[w := (c_fd (co_conn x), FK_IOEV_WRITE, WRITE_CB c, b)]> (v_ios v)) (v_tms v)).
Proof.
  intros [] Hx Hd Hd' G E1 E2 Eh Eb Hw Hs Hh Ha. split; cbn; rewrite ?E1; try done.
  - by apply (hist_same _ _ _ Hh).
  - apply (tables_update _ _ c x); try done. apply Eh.
  - by apply events_update.
  - intros c' y [[<- <-]|[Hne Hy]]%lookup_insert_Some; [done|].
    eapply served_on_svr; [|apply G|by unfold sv_dbcnt; rewrite E1|by apply Ha].
    apply (served_on_other _ d d' _ c); [done..|]. by apply li_served0.
Qed.

(** Connection [c] is gone, with its events. *)
Definition v_removed (v : ev_view app) (c : Z) (s : fk_svr) (fd r w t : Z) : ev_view app :=
  let a := v_user v in
  View (App s (delete c (ap_conns a)) (zupd (ap_tab a) fd (Some None)) (ap_sigint a) (ap_sigterm a) (ap_open a ∖ {[fd]})
      (ap_next a) (ap_calls a))
    (v_max v) (delete w (delete r (v_ios v))) (delete t (v_tms v)).

Lemma life_removed h v c x s r w t :
  life_inv h (Doomed c) v -> ap_conns (v_user v) !! c = Some x ->
  svr_good s -> sv_setting s = sv_setting (ap_svr (v_user v)) -> sv_conn_cnt s = sv_conn_cnt (ap_svr (v_user v)) - 1 ->
  same_data (ap_svr (v_user v)) s ->
  co_read_ev x = Some r -> co_write_ev x = Some w -> co_timer x = Some t ->
  life_inv h AtRest (v_removed v c s (c_fd (co_conn x)) r w t).
Proof.
  intros [] Hx G E1 E2 E3 Er Ew Et. split; cbn; rewrite ?E1; try done.
  - by apply (hist_same h (v_user v)).
  - by apply (tables_removed _ _ c x).
  - by apply (events_removed _ _ _ _ c x).
  - intros c' y [Hne Hy]%lookup_delete_Some. change (served_on h AtRest s c' y).
    eapply served_on_svr; [|apply G|by unfold sv_dbcnt; rewrite E1|done].
    apply (served_on_other h (Doomed c) AtRest _ c); [done..|]. by apply li_served0.
Qed.

(** A new connection at the address [c], for the descriptor [fd]. *)
Definition v_added (v : ev_view app) (c r w t fd now : Z) (s : fk_svr) (next : Z) (calls : nat) : ev_view app :=
  let a := v_user v in
  let x := ConnObj (new_conn fd (cf_max_wbuf (sv_setting s)) now) (Some r) (Some w) (Some t) [] 0 [] in
  View (App s (<[c := x]> (ap_conns a)) (zupd (ap_tab a) fd (Some (Some c))) (ap_sigint a) (ap_sigterm a) ({[fd]} ∪ ap_open a)
      next calls)
    (v_max v) (<[w := (fd, FK_IOEV_WRITE, WRITE_CB c, false)]> (<[r := (fd, FK_IOEV_READ, READ_CB c, true)]> (v_ios v)))
    (<[t := (FK_TMEV_CYCLE, 5000, CONN_TIMER_CB c, true)]> (v_tms v)).

Lemma life_added h v fd now s calls :
  life_inv h AtRest v -> let n := ap_next (v_user v) in
  fd ∉ ap_open (v_user v) -> 0 <= fd <= Z.of_nat (size (ap_open (v_user v))) ->
  sv_conn_cnt (ap_svr (v_user v)) <> cf_max_conns (sv_setting (ap_svr (v_user v))) ->
  svr_good s -> sv_setting s = sv_setting (ap_svr (v_user v)) -> sv_conn_cnt s = sv_conn_cnt (ap_svr (v_user v)) + 1 ->
  store s = tick (store (ap_svr (v_user v))) -> sv_clock s = sv_clock (ap_svr (v_user v)) -> sv_blog s = sv_blog (ap_svr (v_user v)) ->
  life_inv (h ++ [Ticked]) AtRest (v_added v n (n + 1) (n + 2) (n + 3) fd now s (n + 4) calls).
Proof.
  intros L n Hfd Hfd' Hmax G E1 E2 E3 E4 E5. destruct L. destruct (eo_next _ _ _ _ li_events0) as [_ Hn].
  destruct (Hn n ltac:(lia)) as (_ & _ & F). split; cbn; try done.
  - apply (hist_tick h (v_user v)); try done. cbn. lia.
  - by rewrite E1.
  - by apply (tables_added _ _ n (ConnObj (new_conn fd (cf_max_wbuf (sv_setting s)) now) _ _ _ _ _ _)).
  - apply (events_added _ n _ _ (ConnObj (new_conn fd (cf_max_wbuf (sv_setting s)) now) _ _ _ _ _ _)); try done.
    cbn. by rewrite (proj2 (Z.eqb_neq _ _)) by (unfold FK_CONN_FAKE_FD; lia).
  - intros c y [[<- <-]|[Hne Hy]]%lookup_insert_Some.
    + destruct (apart_other n h Ticked I) as (A1 & A2 & A3 & A4). destruct (ho_new _ _ li_hist0 n) as (B1 & B2 & B3 & B4); [done|].
      split; [|done]. exists [], (init []). rewrite A1, A2, A3, A4, B1, B2, B3, B4. split_and!; [done..|]. by apply new_conn_live.
    + change (served_on (h ++ [Ticked]) AtRest s c y).
      eapply served_on_svr; [by apply (li_served0 c y)|apply G|by unfold sv_dbcnt; rewrite E1|by apply apart_other].
Qed.
End invariant.

Arguments li_hist {o room fopen_ok rename_ok run_script conf first lfd lev stm base h d v} _.
Arguments li_svr {o room fopen_ok rename_ok run_script conf first lfd lev stm base h d v} _.
Arguments li_conf {o room fopen_ok rename_ok run_script conf first lfd lev stm base h d v} _.
Arguments li_tables {o room fopen_ok rename_ok run_script conf first lfd lev stm base h d v} _.
Arguments li_events {o room fopen_ok rename_ok run_script conf first lfd lev stm base h d v} _.
Arguments li_served {o room fopen_ok rename_ok run_script conf first lfd lev stm base h d v} _ _ _ _.
Arguments life_conn_inv {o room fopen_ok rename_ok run_script conf first lfd lev stm base h d v c x} _ _.
Arguments life_busy {o room fopen_ok rename_ok run_script conf first lfd lev stm base h} c {v} _.
Arguments life_doomed {o room fopen_ok rename_ok run_script conf first lfd lev stm base h c v} _.
Arguments life_calls {o room fopen_ok rename_ok run_script conf first lfd lev stm base h d v} n _.
Arguments life_sig {o room fopen_ok rename_ok run_script conf first lfd lev stm base h d v} int term _.
Arguments hist_same {o room fopen_ok rename_ok run_script conf first h} a {a'} _ _ _.
Arguments to_cnt {lfd base a n} _.
Arguments to_max {lfd base a n} _.
Arguments to_files {lfd base a n} _.
Arguments to_len {lfd base a n} _.
Arguments to_tab {lfd base a n} _ _ _.
Arguments to_fd {lfd base a n} _ {c x} _.
Arguments to_listen {lfd base a n} _.
Arguments to_open {lfd base a n} _.
Arguments tables_fd {lfd base a n c x c' x'} _ _ _ _.
Arguments eo_listen {lfd lev stm conns next ios tms} _.
Arguments eo_timer {lfd lev stm conns next ios tms} _.
Arguments eo_io {lfd lev stm conns next ios tms} _ _ _.
Arguments eo_tm {lfd lev stm conns next ios tms} _ _ _.
Arguments eo_next {lfd lev stm conns next ios tms} _.
