(* ===== verification/LifeSafe.v ===== *)
(** The callbacks keep the invariant of [LifeProps]: rules for the steps of [Life], and
    for each operation what it does to what is seen of the event manager. *)
From S2P Require Import Prelude Util Buf Dict Item Conf Svr Req Parse Store.
From S2P Require Import CmdStr CmdHash CmdList CmdDb CmdProps Kdb KdbProps Blog Proto ProtoProps Stream Serve Effects Conn.
From S2P Require Import Heap Ev EvProps EvView Select Cron Life LifeProps.
Import Req.

Section rules.
Context {X A : Type} `{!Mpx X A, !MpxLaws X A, !MpxReliable X A}.
Abbreviation mgr := (fk_evmgr X app).
Implicit Types (v : ev_view app).

Lemma does_tail {B} (m : ST mgr B) v Q : does (b ← m; mret b) v Q -> does m v Q.
Proof.
  intros H s Hs Hv. destruct (H s Hs Hv) as (b & s' & E & R). exists b, s'. split; [|done].
  revert E. unfold mbind, ST_bind. by destruct (m s) as [[]|].
Qed.

Lemma does_get_app {B} (k : app -> ST mgr B) v Q : does (k (v_user v)) v Q -> does (a ← get_app; k a) v Q.
Proof. apply (does_gets (fun a => a)). Qed.

Lemma does_mod_app f {B} (k : unit -> ST mgr B) v Q :
  does (k tt) (v_set_user v (f (v_user v))) Q -> does (u ← mod_app f; k u) v Q.
Proof. intros H. apply does_bind. by apply does_user. Qed.

Lemma does_get_conn c x {B} (k : conn_obj -> ST mgr B) v Q :
  ap_conns (v_user v) !! c = Some x -> does (k x) v Q -> does (o ← get_conn c; k o) v Q.
Proof.
  intros Hx H. apply does_bind. unfold get_conn. apply does_get_app. apply does_tail, (does_lift _ x); [done|].
  by apply does_ret.
Qed.

Lemma does_put_conn c x {B} (k : unit -> ST mgr B) v Q :
  does (k tt) (v_set_user v (ap_set_conns (v_user v) (<[c := x]> (ap_conns (v_user v))))) Q ->
  does (u ← put_conn c x; k u) v Q.
Proof. exact (does_mod_app (fun a => ap_set_conns a (<[c := x]> (ap_conns a))) k v Q). Qed.

Lemma does_ask {B} (k : nat -> ST mgr B) v Q :
  does (k (ap_calls (v_user v))) (v_set_user v (ap_set_calls (v_user v) (S (ap_calls (v_user v))))) Q ->
  does (n ← ask; k n) v Q.
Proof. intros H. apply does_bind. apply does_get_app, does_mod_app, does_ret, H. Qed.

Lemma does_new_addr {B} (k : Z -> ST mgr B) v Q :
  does (k (ap_next (v_user v))) (v_set_user v (ap_set_next (v_user v) (ap_next (v_user v) + 1))) Q ->
  does (n ← new_addr; k n) v Q.
Proof. intros H. apply does_bind. apply does_get_app, does_mod_app, does_ret, H. Qed.

(** The server and one connection changed. *)
Definition v_upd v (c : Z) (s : fk_svr) (x : conn_obj) : ev_view app :=
  v_set_user v (ap_set_conns (ap_set_svr (v_user v) s) (<[c := x]> (ap_conns (v_user v)))).

Lemma does_on_conn {B C} c x (m : ST world B) (k : B -> ST mgr C) v Q :
  ap_conns (v_user v) !! c = Some x ->
  wp m (fun b w => does (k b) (v_upd v c (w_svr w) (co_set_conn x (w_conn w))) Q) (World (ap_svr (v_user v)) (co_conn x)) ->
  does (b ← on_conn c m; k b) v Q.
Proof.
  intros Hx H. apply wp_elim in H as (b & w & E & H). apply does_bind. unfold on_conn.
  apply does_get_app. apply (does_get_conn c x); [done|]. apply (does_lift _ (b, w)); [done|].
  apply does_mod_app, does_put_conn, does_ret. exact H.
Qed.

Lemma does_on_svr {B C} (m : ST world B) (k : B -> ST mgr C) v Q :
  let s := ap_svr (v_user v) in
  wp m (fun b w => does (k b) (v_set_user v (ap_set_svr (v_user v) (w_svr w))) Q) (World s (sv_lua_conn s)) ->
  does (b ← on_svr m; k b) v Q.
Proof.
  intros s H. apply wp_elim in H as (b & w & E & H). apply does_bind. unfold on_svr.
  apply does_get_app. apply (does_lift _ (b, w)); [done|]. apply does_mod_app, does_ret, H.
Qed.

Lemma does_set_tab fd o {B} (k : unit -> ST mgr B) v Q :
  0 <= fd < zlen (ap_tab (v_user v)) ->
  does (k tt) (v_set_user v (ap_set_tab (v_user v) (zupd (ap_tab (v_user v)) fd (Some o)))) Q ->
  does (u ← set_tab fd o; k u) v Q.
Proof.
  intros Hfd H. apply does_bind. apply does_get_app. eapply does_lift; [|apply does_tail, does_mod_app, does_ret, H].
  unfold slot_set. by rewrite (proj2 (andb_true_iff _ _)) by (split; lia).
Qed.
End rules.

(** ** The operations of a connection *)

Section safe.
Context {X A : Type} `{!Mpx X A, !MpxLaws X A, !MpxReliable X A}.
Context (o : os) (room : stdio) (fopen_ok rename_ok : bool).
Context (run_script : bytes -> list bytes -> list bytes -> ST world unit).
Context (conf : fk_conf) (first : astate) (lfd lev stm base : Z).
Abbreviation mgr := (fk_evmgr X app).
Abbreviation on := (cf_blog_on conf =? 1).
Abbreviation dbcnt := (cf_dbcnt conf).
Abbreviation inv h d v := (life_inv o room fopen_ok rename_ok run_script conf first lfd lev stm base h d v).
Implicit Types (v : ev_view app).

(** Freeing the arguments on the server and the connection. *)
Lemma free_args_safe w : args_room (w_conn w) ->
  wp fk_conn_free_args (fun _ w' => freed w w') w.
Proof.
  intros [H1 H2]. destruct (free_args_loop_ok (Z.to_nat (c_arg_cnt (w_conn w))) 0
    (c_arg_vtr (w_conn w)) (sv_items (w_svr w))) as (v & m & E); [lia..|].
  unfold wp, fk_conn_free_args. rewrite E. exists (fk_vtr_shrink v), m. split; [done|].
  apply free_args_loop_init in E. rewrite <- E. unfold fk_vtr_shrink. by case_match.
Qed.

Lemma svr_good_items s m : svr_good s -> svr_good (sv_set_items s m).
Proof. intros G. apply (svr_good_same s); [done| |done..|apply G]. destruct (sg_inv _ G). by split. Qed.
Lemma svr_good_cnt s n : svr_good s -> svr_good (sv_set_conn_cnt s n).
Proof. intros G. apply (svr_good_same s); [done| |done..|apply G]. destruct (sg_inv _ G). by split. Qed.
Lemma svr_good_ticks s n : svr_good s -> svr_good (sv_set_ticks s n).
Proof. intros G. apply (svr_good_same s); [done| |done..|apply G]. destruct (sg_inv _ G). by split. Qed.

(** The events of the connection [x] are removed and freed. *)
Definition v_freed v (r w t : Z) : ev_view app :=
  View (v_user v) (v_max v) (delete w (delete r (v_ios v))) (delete t (v_tms v)).

Lemma destroy_events_does x fd cb1 cb2 cb3 ty iv r w t v {B} (k : unit -> ST mgr B) Q :
  co_read_ev x = Some r -> co_write_ev x = Some w -> co_timer x = Some t -> r <> w ->
  (c_write_added (co_conn x) = 0 \/ c_write_added (co_conn x) = 1) ->
  v_ios v !! r = Some (fd, FK_IOEV_READ, cb1, true) ->
  v_ios v !! w = Some (fd, FK_IOEV_WRITE, cb2, c_write_added (co_conn x) =? 1) ->
  v_tms v !! t = Some (ty, iv, cb3, true) ->
  does (k tt) (v_freed v r w t) Q -> does (u ← destroy_events x; k u) v Q.
Proof.
  intros Er Ew Et Hrw Ha Hr Hw Ht H. apply does_bind. unfold destroy_events. rewrite Er, Ew, Et. apply (does_lift _ r); [done|].
  apply does_bind. eapply does_remove_io; [exact Hr|]. apply does_bind. eapply does_free_io; [apply lookup_insert_eq|].
  cbn. rewrite delete_insert_eq. apply (does_lift _ w); [done|].
  assert (delete r (v_ios v) !! w = Some (fd, FK_IOEV_WRITE, cb2, c_write_added (co_conn x) =? 1)) as Hw'
    by by rewrite lookup_delete_ne.
  apply does_bind. eapply does_mono with (R := fun _ v' => v' = v_set_ios v (<[w := (fd, FK_IOEV_WRITE, cb2, false)]> (delete r (v_ios v)))).
  { destruct Ha as [E|E]; rewrite E in *; cbn [Z.eqb Pos.eqb].
    - apply does_ret. unfold v_set_ios. cbn. by rewrite (insert_id (delete r (v_ios v))).
    - apply does_bind. eapply does_remove_io; [exact Hw'|]. by apply does_ret. }
  intros _ v' ->. apply does_bind. eapply does_free_io; [apply lookup_insert_eq|]. cbn. rewrite delete_insert_eq.
  apply (does_lift _ t); [done|]. apply does_bind. eapply does_remove_tm; [exact Ht|].
  eapply does_free_tm; [apply lookup_insert_eq|]. cbn. by rewrite delete_insert_eq.
Qed.

(** The connection [c] is not used any more: its table entry is cleared, its events are
    removed and freed, and its descriptor is closed. *)
Lemma remove_conn_does h c x v {B} (k : unit -> ST mgr B) Q :
  inv h (Doomed c) v -> ap_conns (v_user v) !! c = Some x ->
  (forall v', inv h AtRest v' -> ap_conns (v_user v') !! c = None -> does (k tt) v' Q) ->
  does (u ← fk_svr_remove_conn c; k u) v Q.
Proof.
  intros L Hx HQ. pose proof (life_conn_inv L Hx) as Cx.
  destruct (to_fd (li_tables L) Hx) as (Hf & _). pose proof (to_len (li_tables L)) as Ht.
  pose proof Cx as [Ca _ Hadd (r & Er & Hr) (w & Ew & Hw) (t & Et & Htm)].
  assert (r <> w) as Hrw by (intros ->; unfold FK_IOEV_READ, FK_IOEV_WRITE in *; simplify_eq).
  apply does_bind. unfold fk_svr_remove_conn. apply (does_get_conn c x); [done|].
  apply does_set_tab; [by rewrite Ht|]. apply does_mod_app. unfold fk_conn_destroy.
  apply (does_get_conn c x); [done|]. cbv zeta.
  assert ((c_fd (co_conn x) =? FK_CONN_FAKE_FD) = false) as -> by (unfold FK_CONN_FAKE_FD; lia).
  eapply destroy_events_does; [done..|].
  assert (args_room (co_conn x)) as Hroom by by eapply served_on_room, (li_served L).
  apply (does_on_conn c x); [done|]. eapply wp_mono; [by apply free_args_safe|]. intros [] w' (vt & m & -> & _).
  apply does_mod_app. apply does_tail, does_mod_app, does_ret.
  match goal with |- does _ ?v' _ => assert (v' = v_removed v c (sv_set_items (sv_set_conn_cnt (ap_svr (v_user v))
    (sv_conn_cnt (ap_svr (v_user v)) - 1)) m) (c_fd (co_conn x)) r w t) as -> end.
  { unfold v_removed. cbn. by rewrite delete_insert_eq. }
  apply HQ; [|apply lookup_delete_eq].
  apply life_removed; try done. apply svr_good_items, svr_good_cnt, L.
Qed.

(** No event is for a descriptor that is not open. *)
Lemma fd_unwatched h d v fd id ty cb b : inv h d v -> fd ∉ ap_open (v_user v) -> v_ios v !! id <> Some (fd, ty, cb, b).
Proof.
  intros L Hfd Hid. destruct (eo_io (li_events L) id ltac:(by eexists)) as [->|(c & x & Hx & Hi)].
  - pose proof (eo_listen (li_events L)) as H. pose proof (to_listen (li_tables L)). by simplify_eq.
  - destruct (to_fd (li_tables L) Hx) as (_ & Ho & _).
    destruct (life_conn_inv L Hx) as [_ _ _ (r & Er & Hr) (w & Ew & Hw) _]. destruct Hi; simplify_eq; done.
Qed.

(** A descriptor that was not open becomes a connection. *)
Lemma add_conn_does h fd v {B} (k : unit -> ST mgr B) Q :
  inv h AtRest v -> fd ∉ ap_open (v_user v) -> 0 <= fd <= Z.of_nat (size (ap_open (v_user v))) ->
  sv_conn_cnt (ap_svr (v_user v)) <> cf_max_conns (sv_setting (ap_svr (v_user v))) ->
  (forall v', inv (h ++ [Ticked]) AtRest v' -> does (k tt) v' Q) ->
  does (u ← fk_svr_add_conn o fd; k u) (v_set_user v (ap_set_open (v_user v) ({[fd]} ∪ ap_open (v_user v)))) Q.
Proof.
  intros L Hfd Hr Hm HQ. pose proof (eo_next (li_events L)) as [Hp Hn]. set (n := ap_next (v_user v)) in *.
  pose proof (to_open (li_tables L)) as [Ho Hb]. pose proof (to_cnt (li_tables L)) as Hc.
  pose proof (to_max (li_tables L)). pose proof (to_files (li_tables L)). pose proof (to_len (li_tables L)) as Ht.
  assert (0 <= fd < v_max v) as Hfd' by lia.
  apply does_bind. unfold fk_svr_add_conn. apply does_bind. unfold fk_conn_create. apply does_new_addr. cbn.
  assert ((fd =? FK_CONN_FAKE_FD) = false) as -> by (unfold FK_CONN_FAKE_FD; lia).
  apply does_bind. apply does_new_addr. cbn. apply does_bind.
  eapply does_new_io; [cbn; apply Hn; lia|done|by left|]. cbn.
  apply does_bind. eapply does_add_io; [apply lookup_insert_eq| |].
  { intros id' cb'. cbn. rewrite lookup_insert_Some. intros [[_ ?]|[_ ?]]; [done|].
    by eapply (fd_unwatched h AtRest v fd). }
  cbn. rewrite insert_insert_eq. apply does_new_addr. cbn. apply does_bind.
  eapply does_new_io; [cbn; rewrite lookup_insert_ne by lia; apply Hn; lia|done|by right|]. cbn.
  apply does_new_addr. cbn. unfold get_time. apply does_on_svr. eapply wp_eq; [done|]. cbn.
  apply does_bind. eapply does_new_tm; [cbn; apply Hn; lia|]. cbn.
  apply does_bind. eapply does_add_tm; [apply lookup_insert_eq|]. cbn. rewrite insert_insert_eq.
  apply does_ret. apply does_ask. cbn. apply does_get_app, does_put_conn, does_ret. cbn.
  eapply does_get_conn; [apply lookup_insert_eq|]. cbn. apply does_set_tab; [cbn; by rewrite Ht|]. cbn.
  apply does_tail, does_mod_app, does_ret. cbn.
  apply HQ. fold n. replace (n + 1 + 1) with (n + 2) by lia. replace (n + 2 + 1) with (n + 3) by lia.
  replace (n + 3 + 1) with (n + 4) by lia.
  refine (life_added o room fopen_ok rename_ok run_script conf first lfd lev stm base h v fd (os_time o (ap_calls (v_user v))) (sv_set_conn_cnt _ _) _ L Hfd Hr Hm _ _ _ _ _ _);
    [|done..].
  apply svr_good_cnt, svr_good_ticks, L.
Qed.

(** [m] keeps the invariant. *)
Abbreviation keeps m := (forall h v, inv h AtRest v -> does m v (fun _ v' => exists h', inv h' AtRest v')).

Lemma close_new v fd : fd ∉ ap_open (v_user v) ->
  v_set_user v (ap_set_open (v_user v) (({[fd]} ∪ ap_open (v_user v)) ∖ {[fd]})) = v.
Proof.
  intros H. replace (({[fd]} ∪ ap_open (v_user v)) ∖ {[fd]}) with (ap_open (v_user v)) by set_solver.
  by destruct v as [[] ? ? ?].
Qed.

Lemma listen_loop_keeps l : os_ok o -> AcceptFails ∉ l -> keeps (listen_loop o l).
Proof.
  intros K. induction l as [|x l IH]; intros Hl h v L; [by apply does_ret; exists h|].
  apply not_elem_of_cons in Hl as [Hx Hl]. specialize (IH Hl). destruct x; cbn [listen_loop]; [|by apply (IH h)|done].
  apply does_get_app. set (fd := os_new_fd o (ap_open (v_user v))).
  assert ((fd ∉ ap_open (v_user v)) /\ 0 <= fd <= Z.of_nat (size (ap_open (v_user v)))) as [H1 H2].
  { destruct (ok_fd o K (ap_open (v_user v))) as (? & ? & _). split; [done|]. split; [done|by apply new_fd_le]. }
  apply does_bind. apply does_mod_app, does_ret. fold fd.
  destruct (Z.eqb_spec (sv_conn_cnt (ap_svr (v_user v))) (cf_max_conns (sv_setting (ap_svr (v_user v))))) as [E|E].
  - apply does_mod_app. cbn. fold fd. match goal with |- does ?m _ ?Q => change (does m (v_set_user v (ap_set_open (v_user v)
      (({[fd]} ∪ ap_open (v_user v)) ∖ {[fd]}))) Q) end.
    rewrite close_new by done. by apply (IH h).
  - apply (add_conn_does h); [done..|]. intros v' L'. by apply (IH (h ++ [Ticked])).
Qed.

Lemma listen_cb_keeps : os_ok o -> keeps (fk_svr_listen_cb o).
Proof.
  intros K h v L. apply does_ask. apply (listen_loop_keeps _ K (ok_arrivals o K _) h). exact (life_calls _ L).
Qed.

(** ** Reading *)

(** A step of one connection that leaves its events alone. *)
Lemma life_conn h h' d d' v c x s x' :
  inv h d v -> ap_conns (v_user v) !! c = Some x -> concerns c d -> concerns c d' ->
  svr_good s -> sv_setting s = sv_setting (ap_svr (v_user v)) -> sv_conn_cnt s = sv_conn_cnt (ap_svr (v_user v)) ->
  same_handles x x' -> c_write_added (co_conn x') = c_write_added (co_conn x) -> served_on o h' d' s c x' ->
  hist_ok o room fopen_ok rename_ok run_script conf first h' (ap_set_svr (v_user v) s) -> (forall c', c' <> c -> apart c' h h') ->
  inv h' d' (v_upd v c s x').
Proof.
  intros L Hx Hd Hd' G E1 E2 Eh Ea Hs Hh Hap. destruct (life_conn_inv L Hx) as [_ _ Ha _ (w & Hw & Hio) _].
  pose proof (life_update o room fopen_ok rename_ok run_script conf first lfd lev stm base h h' d d' v c x s x' w
    (c_write_added (co_conn x) =? 1) L Hx Hd Hd' G E1 E2 Eh) as H.
  rewrite (insert_id (v_ios v) w) in H by exact Hio. apply H; [|done..]. rewrite Ea. by destruct Ha as [->| ->].
Qed.

(** The server is not touched. *)
Lemma life_same_svr h d d' v c x x' :
  inv h d v -> ap_conns (v_user v) !! c = Some x -> concerns c d -> concerns c d' ->
  same_handles x x' -> c_write_added (co_conn x') = c_write_added (co_conn x) -> served_on o h d' (ap_svr (v_user v)) c x' ->
  inv h d' (v_upd v c (ap_svr (v_user v)) x').
Proof.
  intros L Hx Hd Hd' Eh Ea Hs. apply (life_conn h h d d' v c x); try done; [apply L|].
  by apply (hist_same (v_user v)); [apply L|..].
Qed.

(** The callback is over and the connection rests. *)
Lemma life_rest h v c x : inv h (Busy c) v -> ap_conns (v_user v) !! c = Some x ->
  (c_write_added (co_conn x) = 0 -> payload (c_wbuf (co_conn x)) = []) -> inv h AtRest v.
Proof.
  intros [] Hx Hp. split; try done. intros c' y Hy. specialize (li_served c' y Hy). cbn in *.
  destruct (Z.eqb_spec c c') as [<-|]; [|done]. simplify_eq. by split.
Qed.

Lemma served_busy h v c x : inv h (Busy c) v -> ap_conns (v_user v) !! c = Some x -> serving o h (ap_svr (v_user v)) c x.
Proof. intros L Hx. pose proof (li_served L c x Hx) as S. cbn in S. by rewrite Z.eqb_refl in S. Qed.

Abbreviation read_conn := (read_conn o room fopen_ok rename_ok run_script).

(** What a read left of a connection. *)
Definition co_after (x : conn_obj) (k : link) : conn_obj :=
  ConnObj (w_conn (lk_w k)) (co_read_ev x) (co_write_ev x) (co_timer x) (lk_in k) (S (co_reads x)) (co_out x).

(** What a connection has read is executed, whatever came. *)
Record read_done (h : list happening) (s : fk_svr) (c : Z) (x : conn_obj) (rs : list (list bytes)) (out : list cell)
    (rt1 rt : Z) (k : link) : Prop := {
  rn_frame : serve_frame (World s (co_conn x)) (lk_w k);
  rn_inv : svr_inv (w_svr (lk_w k));
  rn_room : args_room (w_conn (lk_w k));
  rn_run : exists log, session room fopen_ok rename_ok run_script on (fun n => fk_util_tv2millis (sv_clock s n)) dbcnt rs
    (put_idx (selected c h) (store s)) out log rt1 (abs (lk_w k)) /\ sv_blog (w_svr (lk_w k)) = sv_blog (logged s log);
  rn_lone : lone (store (w_svr (lk_w k)));
  rn_sent : requests_of c h ++ rs `prefix_of` reqs (feed (init []) (sent_by o c (S (co_reads x))));
  rn_case : rt = FK_SVR_ERR \/ rt = FK_SVR_OK /\ serving o (h ++ [Served c rs out rt1 (c_db_idx (w_conn (lk_w k)))]) (w_svr (lk_w k)) c (co_after x k)
}.

Lemma serving_read h s c x now : calm o conf -> svr_good s -> sv_setting s = conf ->
  c_type (co_conn x) = FK_CONN_REAL -> (on = true -> bf_off (sv_blog s) = zlen (bf_data (sv_blog s))) -> serving o h s c x ->
  wp (read_all room fopen_ok rename_ok run_script) (fun rt k => exists rs out rt1, read_done h s c x rs out rt1 rt k)
    (Link (World s (co_conn x)) (co_in x ++ os_packets o c (co_reads x)) now).
Proof.
  intros Hcalm G Hon Hty Hoff (m & q & Hm & Hrs & Hout & Hcd & Hsel & L). set (rs := requests_of c h) in *.
  assert (logging (World s (co_conn x)) = on) as Hlog by (unfold logging; cbn; by rewrite Hon, Hty, andb_true_r).
  assert (req_wf (feed (init []) m)) as Hwf by auto with fk.
  assert (sent_by o c (S (co_reads x)) = m ++ stream (co_in x ++ os_packets o c (co_reads x))) as Hsent
    by by rewrite sent_by_S, Hm, stream_app, app_assoc.
  set (p := co_in x ++ _) in *. clearbody p. destruct (reqs_feed _ (stream p) Hwf) as (l & El & Hl).
  rewrite (Hl _ _ Hrs) in El. unfold reqs at 2 in El. rewrite Hrs in El. cbn [fst] in El. rewrite feed_feed, <- Hsent in El.
  assert (Forall (request_ok conf) (reqs (feed q (stream p)))) as Hok.
  { specialize (Hcalm c (S (co_reads x))). rewrite El in Hcalm. by apply Forall_app in Hcalm as [_ Hcalm]. }
  eapply wp_mono.
  - apply (read_all_safe room fopen_ok rename_ok run_script (Link (World s (co_conn x)) p now) q); cbn [lk_w lk_in].
    + done.
    + by eapply requests_settled.
    + eapply Forall_impl; [exact Hok|]. by intros r [? _ _].
    + intros Hl1. rewrite Hlog in Hl1. split; [|by apply Hoff]. eapply Forall_impl; [exact Hok|]. intros r [_ H _]. apply H. lia.
  - intros rt k (m' & rs' & st & q' & rt' & Hs & Hr & [O F R (out & log & rt1 & Hses & Hans & Hb & Ert & _)] & C).
    cbn [lk_w lk_in] in *. assert (rs' `prefix_of` reqs (feed q (stream p))) as Hpre.
    { rewrite Hs. destruct (reqs_feed (feed q m') (stream (lk_in k))) as (l2 & El2 & _); [apply feed_wf, L|].
      rewrite <- feed_feed, El2. unfold reqs at 1. rewrite Hr. by exists l2. }
    destruct (serve_frame_same _ _ F) as ((E1 & _) & _).
    rewrite (abs_store (World s (co_conn x))) in Hses. cbn [w_svr w_conn] in E1, Hses. rewrite Hlog, Hsel in Hses.
    unfold sv_dbcnt in Hses. rewrite Hon in Hses.
    exists rs', out, rt1. split; [done|apply O|done|by exists log| | |].
    + change (lone (abs (lk_w k))). eapply session_lone; [|exact Hses|exact (sg_lone _ G)|].
      * destruct Hpre as [l3 E3]. rewrite E3 in Hok. by apply Forall_app in Hok as [Hok _].
      * cbn. unfold zlen. rewrite length_fmap. fold (zlen (sv_expdb (w_svr (lk_w k)))). rewrite (si_exp_len _ (wo_svr _ O)). unfold sv_dbcnt. by rewrite E1, Hon.
    + rewrite El. by apply prefix_app.
    + destruct C as [->|(-> & -> & -> & L' & _)]; [by left|]. right. split; [done|].
      exists (m ++ m'), q'. rewrite requests_of_snoc, replies_of_snoc, codes_of_snoc, selected_snoc. cbn [selects]. rewrite Z.eqb_refl. cbn [co_after co_in co_reads co_conn].
      destruct (rt1 =? FK_SVR_OK) eqn:E; [|done]. apply Z.eqb_eq in E as ->.
      split_and!; [by rewrite Hsent, Hs, app_assoc| | |apply Forall_app; by repeat constructor|done|by destruct (lk_w k)].
      * rewrite <- feed_feed. pose proof (requests_feed _ m' Hwf) as H. rewrite Hrs in H. destruct H as [H _].
        rewrite H by done. by rewrite Hr.
      * destruct Hans as (_ & _ & _ & [[_ Hp]|[? _]]); [|done]. cbn in Hp.
        unfold replies in *. cbn. by rewrite Hp, app_assoc, Hout.
Qed.

Lemma read_conn_does h c x v {B} (k : Z -> ST mgr B) Q : calm o conf ->
  inv h AtRest v -> ap_conns (v_user v) !! c = Some x ->
  (forall h' rt v' x', ap_conns (v_user v') !! c = Some x' ->
    rt = FK_SVR_ERR /\ inv h' (Doomed c) v' \/ rt = FK_SVR_OK /\ inv h' (Busy c) v' -> does (k rt) v' Q) ->
  does (rt ← read_conn c; k rt) v Q.
Proof.
  intros Hcalm L Hx HQ. apply does_bind. apply does_ask. set (n := ap_calls (v_user v)).
  apply (life_calls (S n)) in L. fold n. set (v1 := v_set_user v _) in *.
  assert (ap_conns (v_user v1) !! c = Some x) as Hx1 by done. clearbody v1 n. clear Hx v.
  pose proof (li_served L c x Hx1) as Sx. pose proof (life_conn_inv L Hx1) as Cx. pose proof (li_svr L) as G.
  apply does_get_app. apply (does_get_conn c x); [done|].
  pose proof (li_hist L) as [(lg & H1 & Hw) H2 H3].
  pose proof (serving_read h (ap_svr (v_user v1)) c x (os_time o n) Hcalm G (li_conf L) (ci_type _ _ _ _ Cx)) as H.
  specialize (H ltac:(intros Hon; destruct (Hw Hon) as [-> ->]; by rewrite zlen_map) (proj1 Sx)).
  apply wp_elim in H as (rt & kk & E & rs & out & rt1 & [F I R (log & Hses & Hb) Hln Hsent C]). cbv zeta. apply (does_lift _ (rt, kk)); [exact E|].
  destruct (serve_frame_same _ _ F) as ((E1 & E2 & E3 & E6) & E4 & E7 & E5). cbn in E1, E2, E3, E4, E5, E6, E7. clear E.
  change (ConnObj _ _ _ _ _ _ _) with (co_after x kk).
  apply does_mod_app, does_put_conn, does_ret.
  apply (HQ (h ++ [Served c rs out rt1 (c_db_idx (w_conn (lk_w kk)))]) rt (v_upd v1 c (w_svr (lk_w kk)) (co_after x kk)) (co_after x kk)); [apply lookup_insert_eq|].
  assert (svr_good (w_svr (lk_w kk))) as G' by by apply (svr_good_same _ _ G).
  assert (hist_ok o room fopen_ok rename_ok run_script conf first (h ++ [Served c rs out rt1 (c_db_idx (w_conn (lk_w kk)))]) (ap_set_svr (v_user v1) (w_svr (lk_w kk)))) as Hh.
  { split.
    - exists (lg ++ log). cbn. rewrite E6. split; [by eapply (history_served _ _ _ _ _ _ _ _ _ _ _ _ _ _ _ _ (abs (lk_w kk)))|]. by apply (log_holds_app _ (ap_svr (v_user v1))).
    - intros c'. rewrite requests_of_snoc. destruct (Z.eqb_spec c c') as [<-|Hne]; [by exists (S (co_reads x))|]. by rewrite app_nil_r.
    - intros c' Hc'. rewrite requests_of_snoc, replies_of_snoc, codes_of_snoc, selected_snoc. cbn [selects]. destruct (Z.eqb_spec c c') as [<-|Hne]; [|rewrite !app_nil_r; by apply H3].
      destruct (eo_next (li_events L)) as [_ Hn]. destruct (Hn c Hc') as (_ & _ & N). congruence. }
  assert (forall c', c' <> c -> apart c' h (h ++ [Served c rs out rt1 (c_db_idx (w_conn (lk_w kk)))])) as Hap by (intros c' Hne; by apply apart_other).
  destruct C as [->|[-> Hs]]; [left|right]; (split; [done|]); apply (life_conn h _ AtRest _ v1 c x); try done.
  - cbn. by rewrite Z.eqb_refl.
  - cbn. by rewrite Z.eqb_refl.
Qed.

(** *** The reply *)

(** A buffer without payload. *)
Lemma payload_none b : fk_buf_payload_len b <= 0 -> payload b = [].
Proof. unfold fk_buf_payload_len, payload, ztake. intros H. by rewrite Z2Nat.nonpos by done. Qed.

Lemma shrink_block b : buf_wf b -> 0 < blen b -> 0 < blen (fk_buf_shrink b).
Proof.
  intros W H. unfold fk_buf_shrink, fk_buf_payload_len. destruct (_ && _) eqn:E; [|done].
  apply andb_true_iff in E as [_ E%Z.ltb_lt]. cbn. unfold fk_buf_shift. case_match; cbn; buf_lia W.
Qed.

Lemma serving_shrink h s c x : serving o h s c x ->
  serving o h s c (co_set_conn x (cn_rbuf (co_conn x) (fk_buf_shrink (c_rbuf (co_conn x))))).
Proof.
  intros (m & q & Hm & Hr & Ho & C & Xs & L). exists m, q. do 5 (split; [done|]).
  destruct L as [[I D W] [C1 C2 C3 C4 C5 C6 C7] R B]. cbn in *. split; [by split| |done|by apply shrink_block].
  split; cbn; try done; [by apply shrink_wf|by rewrite payload_shrink].
Qed.

(** Only the write event of a connection is for its descriptor and writing. *)
Lemma write_alone h d v c x id cb : inv h d v -> ap_conns (v_user v) !! c = Some x -> c_write_added (co_conn x) = 0 ->
  v_ios v !! id <> Some (c_fd (co_conn x), FK_IOEV_WRITE, cb, true).
Proof.
  intros L Hx E Hid. destruct (eo_io (li_events L) id ltac:(by eexists)) as [->|(c' & y & Hy & Hi)].
  - pose proof (eo_listen (li_events L)) as H. unfold FK_IOEV_READ, FK_IOEV_WRITE in *. simplify_eq.
  - destruct (life_conn_inv L Hy) as [_ _ _ (r & Er & Hr) (w & Ew & Hw) _].
    destruct Hi as [Hi|Hi]; [unfold FK_IOEV_READ, FK_IOEV_WRITE in *; simplify_eq|]. simplify_eq.
    assert (c' = c) as -> by by eapply (tables_fd (li_tables L) Hx Hy). simplify_eq. by rewrite E in *.
Qed.

(** The write event of connection [c] is added or removed. *)
Lemma life_write h v c x w (b : bool) : inv h (Busy c) v -> ap_conns (v_user v) !! c = Some x -> co_write_ev x = Some w ->
  (b = false -> payload (c_wbuf (co_conn x)) = []) ->
  inv h AtRest (v_upd (v_set_ios v (<[w := (c_fd (co_conn x), FK_IOEV_WRITE, WRITE_CB c, b)]> (v_ios v))) c (ap_svr (v_user v))
    (co_set_conn x (cn_write_added (co_conn x) (Z.b2z b)))).
Proof.
  intros L Hx Hw Hp. pose proof (served_busy h _ c x L Hx) as Sx.
  apply (life_update o room fopen_ok rename_ok run_script conf first lfd lev stm base h h (Busy c) AtRest v c x (ap_svr (v_user v)) _ w b L Hx); try done;
    [apply L| |by apply (hist_same (v_user v)); [apply L|..]].
  split; [|by destruct b; [|intros _; apply Hp]]. destruct Sx as (m & q & Hm & Hr & Ho & C & Xs & Lv). exists m, q.
  do 5 (split; [done|]). destruct Lv as [[] [] ? ?]. by split.
Qed.

Lemma send_rsp_does h c x v {B} (k : Z -> ST mgr B) Q :
  inv h (Busy c) v -> ap_conns (v_user v) !! c = Some x ->
  (forall v', inv h AtRest v' -> does (k FK_SVR_OK) v' Q) ->
  does (rt ← fk_conn_send_rsp c; k rt) v Q.
Proof.
  intros L Hx HQ. apply does_bind. unfold fk_conn_send_rsp. apply (does_on_conn c x); [done|]. eapply wp_eq; [reflexivity|].
  cbn [w_svr w_conn w_set_conn]. set (x1 := co_set_conn x _). pose proof (served_busy h v c x L Hx) as Sx.
  assert (inv h (Busy c) (v_upd v c (ap_svr (v_user v)) x1)) as L1.
  { apply (life_same_svr h (Busy c) (Busy c) v c x); try done. cbn. rewrite Z.eqb_refl. by apply serving_shrink. }
  assert (ap_conns (v_user (v_upd v c (ap_svr (v_user v)) x1)) !! c = Some x1) as Hx1 by apply lookup_insert_eq.
  set (v1 := v_upd _ _ _ _) in *. clearbody v1 x1. clear L Hx Sx x v.
  apply (does_get_conn c x1); [done|].
  assert ((c_write_added (co_conn x1) = 0 -> payload (c_wbuf (co_conn x1)) = []) ->
    does (_ ← mret tt; mret FK_SVR_OK) v1 (fun rt v' => does (k rt) v' Q)) as Hrest.
  { intros Hp. apply does_bind, does_ret, does_ret, HQ. by apply (life_rest h v1 c x1). }
  destruct (Z.ltb_spec 0 (fk_buf_payload_len (c_wbuf (co_conn x1)))) as [Hp|Hp]; [|apply Hrest; intros _; by apply payload_none].
  destruct (Z.eqb_spec (c_write_added (co_conn x1)) 0) as [E|E]; [|by apply Hrest].
  destruct (life_conn_inv L1 Hx1) as [_ _ _ _ (w & Ew & Hw) _]. rewrite Ew, E in *. cbn [andb].
  apply does_bind. apply (does_lift _ w); [done|]. apply does_bind.
  eapply does_add_io; [exact Hw|by intros; eapply write_alone|].
  apply does_tail, (does_on_conn c x1); [done|]. eapply wp_eq; [reflexivity|]. apply does_ret, does_ret, HQ.
  by apply (life_write h v1 c x1 w true L1 Hx1 Ew).
Qed.

Lemma read_cb_keeps h c x v : calm o conf -> inv h AtRest v -> ap_conns (v_user v) !! c = Some x ->
  does (fk_conn_read_cb o room fopen_ok rename_ok run_script c) v (fun _ v' => exists h', inv h' AtRest v').
Proof.
  intros Hcalm L Hx. unfold fk_conn_read_cb. apply (read_conn_does h c x); [done..|].
  intros h' rt v' x' Hx' [[-> L']|[-> L']]; cbn [FK_SVR_ERR FK_SVR_OK Z.eqb].
  - apply does_tail, (remove_conn_does h' c x'); [done..|]. intros v2 L2 _. apply does_ret. by exists h'.
  - apply (send_rsp_does h' c x'); [done..|]. intros v2 L2. apply does_ret. by exists h'.
Qed.

(** ** Writing *)

(** Changing the write buffer to one that is as good. *)
Lemma serving_wbuf h s c x b out : serving o h s c x -> wbuf_inv b -> out ++ payload b = replies x ->
  serving o h s c (ConnObj (cn_wbuf (co_conn x) b) (co_read_ev x) (co_write_ev x) (co_timer x) (co_in x) (co_reads x) out).
Proof.
  intros (m & q & Hm & Hr & Ho & C & Xs & L) Hb E. exists m, q. split; [done|]. split; [done|]. split; [by rewrite <- Ho|]. do 2 (split; [done|]).
  destruct L as [[I D W] [C1 C2 C3 C4 C5 C6 C7] R B]. by split.
Qed.

Lemma serving_wbuf_inv h s c x : serving o h s c x -> wbuf_inv (c_wbuf (co_conn x)).
Proof. intros (m & q & _ & _ & _ & _ & _ & L). apply L. Qed.

Lemma life_wbuf h v c x b out : inv h (Busy c) v -> ap_conns (v_user v) !! c = Some x -> wbuf_inv b -> out ++ payload b = replies x ->
  inv h (Busy c) (v_upd v c (ap_svr (v_user v))
    (ConnObj (cn_wbuf (co_conn x) b) (co_read_ev x) (co_write_ev x) (co_timer x) (co_in x) (co_reads x) out)).
Proof.
  intros L Hx Hb E. pose proof (served_busy h v c x L Hx) as Sx.
  apply (life_same_svr h (Busy c) (Busy c) v c x); try done. cbn. rewrite Z.eqb_refl. by apply serving_wbuf.
Qed.

Lemma wbuf_low_inc b n : wbuf_inv b -> 0 <= n <= fk_buf_payload_len b -> wbuf_inv (fk_buf_low_inc b n).
Proof. intros [W H1 H2] Hn. split; [apply low_inc_wf; [done|lia]|by unfold fk_buf_low_inc; case_match..]. Qed.

Lemma wbuf_shrink b : wbuf_inv b -> wbuf_inv (fk_buf_shrink b).
Proof.
  intros [W H1 H2]. pose proof (shrink_wf b W). unfold fk_buf_shrink in *. destruct (_ && _) eqn:E; [|by split].
  apply andb_true_iff in E as [E%Z.leb_le _]. unfold fk_buf_shift in *. destruct (_ <? _); split; cbn in *; try done; lia.
Qed.

(** What the first [send] takes of [n] bytes. *)
Definition taken (q : list send_ans) (n : Z) : Z :=
  match send n q with SentBytes m _ => m | _ => 0 end.

(** [x'] is [x] after some more was sent, at least what the first [send] took. *)
Definition sent_more (q : list send_ans) (x x' : conn_obj) : Prop :=
  replies x' = replies x /\
  co_out x ++ ztake (taken q (fk_buf_payload_len (c_wbuf (co_conn x)))) (payload (c_wbuf (co_conn x))) `prefix_of` co_out x'.

Lemma sent_nothing q x : taken q (fk_buf_payload_len (c_wbuf (co_conn x))) = 0 \/ payload (c_wbuf (co_conn x)) = [] ->
  sent_more q x x.
Proof.
  intros H. split; [done|]. assert (ztake (taken q (fk_buf_payload_len (c_wbuf (co_conn x)))) (payload (c_wbuf (co_conn x))) = []) as ->.
  { destruct H as [->| ->]; unfold ztake; [done|by rewrite take_nil]. }
  by rewrite app_nil_r.
Qed.

Lemma write_loop_does h c q : forall f v x, (length q < f)%nat ->
  inv h (Busy c) v -> ap_conns (v_user v) !! c = Some x ->
  does (write_loop f c q) v (fun b v' =>
    if b then inv h (Busy c) v' /\ exists x', ap_conns (v_user v') !! c = Some x' /\ sent_more q x x' /\
      c_write_added (co_conn x') = c_write_added (co_conn x)
    else inv h AtRest v' /\ ap_conns (v_user v') !! c = None /\ SendError ∈ q).
Proof.
  induction q as [|a q IH]; intros [|f] v x Hf L Hx; try (cbn in Hf; lia); cbn [write_loop]; apply (does_get_conn c x); try done; cbv zeta;
    set (b := c_wbuf (co_conn x)); destruct (Z.ltb_spec 0 (fk_buf_payload_len b)) as [Hp|Hp];
    try (apply does_ret; split; [done|exists x; split; [done|]; split; [|done]; apply sent_nothing; auto using payload_none]).
  destruct a as [m| |]; cbn [send]; [|apply does_ret; split; [done|]; exists x; split; [done|]; split; [by apply sent_nothing; left|done]|].
  - set (n := Z.max 0 (Z.min m _)). assert (0 <= n <= fk_buf_payload_len b) as Hn by lia.
    pose proof (served_busy h _ c x L Hx) as Sx. pose proof (serving_wbuf_inv _ _ _ _ Sx) as Hb. fold b in Hb.
    set (x1 := ConnObj _ _ _ _ _ _ _).
    assert (replies x1 = replies x) as Hr.
    { unfold replies, x1. cbn. fold b. rewrite payload_low_inc by (done || apply Hb). by rewrite <- app_assoc, ztake_zdrop. }
    apply does_put_conn. eapply does_mono; [apply (IH f _ x1)|].
    + cbn in Hf. lia.
    + apply (life_wbuf h v c x); [done..|by apply wbuf_low_inc|exact Hr].
    + apply lookup_insert_eq.
    + intros [] v'; [|intros (L' & Hn' & He); split; [done|]; split; [done|by right]]. intros (L' & x' & Hx' & [E1 E3] & E2). split; [done|]. exists x'. split; [done|]. split; [|done].
      split; [congruence|]. etrans; [|exact E3]. change (co_out x1 `prefix_of` co_out x1 ++ ztake (taken q (fk_buf_payload_len (c_wbuf (co_conn x1)))) (payload (c_wbuf (co_conn x1)))).
      by apply prefix_app_r.
  - apply does_bind, does_tail, (remove_conn_does h c x); [by apply life_doomed|done|]. intros v' L' Hn. apply does_ret. apply does_ret.
    split; [done|]. split; [done|by left].
Qed.

Lemma shrink_replies x : wbuf_inv (c_wbuf (co_conn x)) ->
  replies (co_set_conn x (cn_wbuf (co_conn x) (fk_buf_shrink (c_wbuf (co_conn x))))) = replies x.
Proof. intros [W _ _]. unfold replies. cbn. by rewrite payload_shrink. Qed.

(** After the callback the connection is gone, or its write event is there exactly if
    something is left to send. *)
Lemma write_cb_does h c x v : inv h AtRest v -> ap_conns (v_user v) !! c = Some x -> c_write_added (co_conn x) = 1 ->
  does (fk_conn_write_cb o c) v (fun _ v' => inv h AtRest v' /\
    (ap_conns (v_user v') !! c = None /\ SendError ∈ os_send o (ap_calls (v_user v)) \/ exists x', ap_conns (v_user v') !! c = Some x' /\
      sent_more (os_send o (ap_calls (v_user v))) x x' /\
      c_write_added (co_conn x') = if fk_buf_payload_len (c_wbuf (co_conn x')) =? 0 then 0 else 1)).
Proof.
  intros L Hx Ha. unfold fk_conn_write_cb. apply does_ask. apply (life_calls (S (ap_calls (v_user v)))) in L.
  eapply does_seq; [apply (write_loop_does h c _ _ _ x); [lia|apply life_busy, L|exact Hx]|].
  intros [] v1; cycle 1; [intros [L1 H1]; apply does_ret; split; [exact L1|by left]|].
  intros (L1 & x1 & Hx1 & [Hr Ho] & Ha1). rewrite Ha in Ha1. clear L Hx Ha.
  pose proof (served_busy h _ c x1 L1 Hx1) as Sx. pose proof (serving_wbuf_inv _ _ _ _ Sx) as Hb.
  apply (does_on_conn c x1); [done|]. eapply wp_eq; [reflexivity|]. cbn [w_svr w_conn w_set_conn].
  pose proof (shrink_replies x1 Hb) as Hr2. pose proof (life_wbuf h v1 c x1 _ (co_out x1) L1 Hx1 (wbuf_shrink _ Hb) Hr2) as L2.
  set (x2 := co_set_conn x1 _) in *. change (inv h (Busy c) (v_upd v1 c (ap_svr (v_user v1)) x2)) in L2.
  assert (wbuf_inv (c_wbuf (co_conn x2))) as Hb2 by by apply wbuf_shrink.
  assert (ap_conns (v_user (v_upd v1 c (ap_svr (v_user v1)) x2)) !! c = Some x2) as Hx2 by apply lookup_insert_eq.
  assert (c_write_added (co_conn x2) = 1) as Ha2 by done. change (co_out x1) with (co_out x2) in Ho. set (v2 := v_upd _ _ _ _) in *. clearbody v2 x2.
  rewrite Hr in Hr2. pose proof (conj Hr2 Ho) as Hm. clear v1 L1 Hr Hx1 Sx Hb Ha1 x1. apply (does_get_conn c x2); [done|].
  destruct (fk_buf_payload_len (c_wbuf (co_conn x2)) =? 0) eqn:E.
  - destruct (life_conn_inv L2 Hx2) as [_ _ _ _ (w & Ew & Hw) _]. rewrite Ew, Ha2 in *.
    apply (does_lift _ w); [done|]. apply does_bind. eapply does_remove_io; [exact Hw|].
    apply does_tail, (does_on_conn c x2); [done|]. eapply wp_eq; [reflexivity|]. apply does_ret.
    split; [apply (life_write h v2 c x2 w false L2 Hx2 Ew); intros _; apply payload_none; lia|]. right. eexists. split; [apply lookup_insert_eq|].
    split; [exact Hm|]. cbn. by rewrite E.
  - apply does_ret. split; [apply (life_rest h v2 c x2); [done..|congruence]|]. right. exists x2. by rewrite E.
Qed.

(** ** The timer of a connection *)

Lemma conn_timer_does h c x v : inv h AtRest v -> ap_conns (v_user v) !! c = Some x ->
  let idle := cf_timeout (sv_setting (ap_svr (v_user v))) <? os_time o (ap_calls (v_user v)) - c_last_recv (co_conn x) in
  does (fk_conn_timer_cb o c) v (fun rt v' => inv h AtRest v' /\
    if idle then rt = -1 /\ ap_conns (v_user v') !! c = None
    else rt = 0 /\ v' = v_set_user v (ap_set_calls (v_user v) (S (ap_calls (v_user v))))).
Proof.
  intros L Hx idle. unfold fk_conn_timer_cb. apply does_ask. apply (life_calls (S (ap_calls (v_user v)))) in L.
  apply does_get_app. apply (does_get_conn c x); [done|]. cbn [v_user v_set_user ap_svr ap_set_calls]. fold idle.
  destruct idle; [|by apply does_ret].
  apply (remove_conn_does h c x); [by apply life_doomed, life_busy|done|]. intros v' L' Hn. by apply does_ret.
Qed.

(** ** The timer of the server *)

Context (clear_fuel : nat) (Hfuel : cf_dbcnt conf < Z.of_nat clear_fuel) (K : os_ok o).

(** A step on the server that the connections do not notice, and what happens to the
    store. *)
Record svr_next (s s' : fk_svr) : Prop := {
  sn_good : svr_good s';
  sn_setting : sv_setting s' = sv_setting s;
  sn_cnt : sv_conn_cnt s' = sv_conn_cnt s;
  sn_clock : sv_clock s' = sv_clock s;
  sn_blog : sv_blog s' = sv_blog s;
  sn_store : store s' = store s \/ store s' = tick (store s) \/
    exists ks, store s' = expires (fun n => fk_util_tv2millis (sv_clock s n)) ks (store s)
}.

Lemma svr_next_intro s s' : svr_good s -> svr_inv s' -> svr_same s s' -> same_data s s' -> svr_next s s'.
Proof. intros G I (E1 & E2 & E3 & E4) (E & _ & Eb). split; try done; [apply (svr_good_same s); [done..|rewrite E; apply G]|by left]. Qed.

Lemma svr_next_refl s : svr_good s -> svr_next s s.
Proof. intros G. split; try done. by left. Qed.

Abbreviation live v := (exists h, inv h AtRest v).

Lemma live_next v s' : live v -> svr_next (ap_svr (v_user v)) s' -> live (v_set_user v (ap_set_svr (v_user v) s')).
Proof.
  intros [h L] [G E1 E2 E3 Eb E4]. pose proof (li_hist L) as Hh. destruct E4 as [E4|E4].
  - exists h. apply (life_svr o room fopen_ok rename_ok run_script conf first lfd lev stm base h h); try done.
    by apply (hist_same (v_user v)).
  - assert (exists e, match e with Served _ _ _ _ _ => False | _ => True end /\
      forall log, let run := history room fopen_ok rename_ok run_script on dbcnt (fun n => fk_util_tv2millis (sv_clock (ap_svr (v_user v)) n)) first in
        run h (store (ap_svr (v_user v))) log -> run (h ++ [e]) (store s') log) as (e & He & Hs).
    { destruct E4 as [->|[ks ->]]; [exists Ticked|exists (Expired ks)]; (split; [done|by constructor]). }
    exists (h ++ [e]). apply (life_svr o room fopen_ok rename_ok run_script conf first lfd lev stm base h (h ++ [e])); try done.
    + by apply (hist_other o room fopen_ok rename_ok run_script conf first h (v_user v)).
    + intros c. apply apart_other. by destruct e.
Qed.

Lemma live_calls v n : live v -> live (v_set_user v (ap_set_calls (v_user v) n)).
Proof. intros [h L]. exists h. exact (life_calls n L). Qed.

Lemma live_svr_good v : live v -> svr_good (ap_svr (v_user v)).
Proof. intros [h L]. apply L. Qed.

(** Rules for programs that only ask the kernel and work on the server. *)
Lemma inv_ask v {B} (k : nat -> ST mgr B) Q :
  live v -> (forall n v', live v' -> does (k n) v' Q) -> does (n ← ask; k n) v Q.
Proof. intros L HQ. apply does_ask, HQ. by apply live_calls. Qed.

Lemma inv_mod_server f v {B} (k : unit -> ST mgr B) Q :
  live v -> (forall s, svr_good s -> svr_next s (f s)) ->
  (forall v', live v' -> does (k tt) v' Q) -> does (u ← mod_server f; k u) v Q.
Proof. intros L Hf HQ. apply does_mod_app, HQ. apply live_next; [done|]. by apply Hf, live_svr_good. Qed.

Lemma inv_lift_svr f v {B} (k : unit -> ST mgr B) Q :
  live v -> (forall s, svr_good s -> exists s', f s = Some s' /\ svr_next s s') ->
  (forall v', live v' -> does (k tt) v' Q) -> does (u ← lift_svr f; k u) v Q.
Proof.
  intros L Hf HQ. destruct (Hf _ (live_svr_good _ L)) as (s' & E & N).
  apply does_bind. apply does_get_app. apply (does_lift _ s'); [done|].
  apply does_tail, does_mod_app, does_ret, HQ. by apply live_next.
Qed.

Lemma inv_on_svr {B C} (m : ST world B) v (k : B -> ST mgr C) Q :
  live v -> (forall s, svr_good s -> sv_setting s = conf -> wp m (fun _ w => svr_next s (w_svr w)) (World s (sv_lua_conn s))) ->
  (forall b v', live v' -> does (k b) v' Q) -> does (b ← on_svr m; k b) v Q.
Proof.
  intros L Hf HQ. apply does_on_svr. eapply wp_mono; [apply Hf; [apply (live_svr_good _ L)|by destruct L as [h L]; apply L]|]. intros b w N. apply HQ. by apply live_next.
Qed.

Lemma wait_save_next ans now s : svr_good s -> ans <> ChildFailed ->
  exists s', wait_save ans now s = Some s' /\ svr_next s s'.
Proof.
  intros G Ha. unfold wait_save. destruct (_ =? _); [exists s; split; [done|by apply svr_next_refl]|]. destruct ans as [| | |[]]; try done; eexists; (split; [done|]); try by apply svr_next_refl.
  apply svr_next_intro; [done| |done..]. by destruct (sg_inv _ G).
Qed.

Lemma wait_rewrite_next ans s : svr_good s -> ans <> ChildFailed ->
  exists s', wait_rewrite ans s = Some s' /\ svr_next s s'.
Proof.
  intros G Ha. unfold wait_rewrite. destruct (_ =? _); [exists s; split; [done|by apply svr_next_refl]|]. destruct ans as [| | |[]]; try done; eexists; (split; [done|]); try by apply svr_next_refl.
  apply svr_next_intro; [done| |done..]. by destruct (sg_inv _ G).
Qed.

Lemma bgsave_next pid s : svr_good s -> pid <> 0 ->
  exists s', parent (fk_kdb_bgsave room fopen_ok rename_ok pid s) = Some s' /\ svr_next s s'.
Proof.
  intros G Hp. unfold fk_kdb_bgsave. destruct (negb _); [exists s; split; [done|by apply svr_next_refl]|].
  destruct (Z.ltb_spec pid 0); [exists s; split; [done|by apply svr_next_refl]|].
  rewrite (proj2 (Z.ltb_lt 0 pid)) by lia. eexists. split; [done|]. apply svr_next_intro; [done| |done..]. by destruct (sg_inv _ G).
Qed.

Lemma bgrewrite_next pid s : svr_good s -> pid <> 0 ->
  exists s', parent (Some (fk_blog_bgrewrite pid s)) = Some s' /\ svr_next s s'.
Proof.
  intros G Hp. unfold fk_blog_bgrewrite. destruct (negb _); [exists s; split; [done|by apply svr_next_refl]|].
  rewrite (proj2 (Z.eqb_neq _ _) Hp). destruct (_ =? _); [exists s; split; [done|by apply svr_next_refl]|].
  eexists. split; [done|]. apply svr_next_intro; [done| |done..]. by destruct (sg_inv _ G).
Qed.

Lemma clear_next n s : svr_good s -> sv_setting s = conf ->
  wp (fk_svr_clear_timeout_keys (os_rand o n) clear_fuel) (fun _ w => svr_next s (w_svr w)) (World s (sv_lua_conn s)).
Proof.
  intros G E. eapply wp_mono; [apply clear_lone; [apply K|apply G|apply G|exact (sg_lone _ G)|cbn; unfold sv_dbcnt; by rewrite E]|].
  intros rt w' (_ & ks & _ & _ & D). destruct (frame_same _ _ (ds_frame _ _ _ D)) as (E1 & E2 & E3 & E4). cbn in E1, E2, E3, E4.
  pose proof (ds_abs _ _ _ D) as Ha. rewrite !abs_store, (ds_conn _ _ _ D) in Ha. cbn [w_conn] in Ha. rewrite (sg_lua_idx _ G) in Ha.
  split; try done; [apply (svr_good_same s); [done|apply D|done..|]|exact (svr_frame_blog _ _ (ds_frame _ _ _ D))|].
  - change (store (w_svr w')) with (put_idx 0 (store (w_svr w'))). rewrite Ha. eapply shrinks_lone; [apply shrinks_expires|apply G].
  - right. right. exists ks. exact Ha.
Qed.

Lemma svr_timer_does v : live v ->
  does (fk_svr_timer_cb o room fopen_ok rename_ok clear_fuel) v (fun _ v' => live v').
Proof.
  intros L. unfold fk_svr_timer_cb.
  apply inv_mod_server; [done| |clear v L; intros v L].
  { intros s G. apply svr_next_intro; [done| |done..]. by destruct (sg_inv _ G). }
  apply inv_ask; [done|clear v L; intros n v L].
  apply inv_lift_svr; [done|intros s G; apply wait_save_next; [done|apply K]|clear v n L; intros v L].
  apply inv_ask; [done|clear v L; intros n v L].
  apply inv_lift_svr; [done|intros s G; apply wait_rewrite_next; [done|apply K]|clear v n L; intros v L].
  apply does_get_app. destruct (_ || _); [apply does_bind, does_stop, does_ret, L|].
  set (dump := cf_dump _ =? 1). set (log := cf_blog_on _ =? 1). clearbody dump log. apply inv_ask; [done|clear v L; intros n v L].
  apply does_bind. eapply does_mono with (R := fun _ v' => live v').
  { destruct dump; [|by apply does_ret]. apply does_tail, inv_lift_svr; [done| |intros v' L'; by apply does_ret].
    intros s G. apply bgsave_next; [done|apply K]. }
  clear v n L. intros _ v L. apply inv_ask; [done|clear v L; intros n v L].
  apply does_bind. eapply does_mono with (R := fun _ v' => live v').
  { destruct log; [|by apply does_ret]. apply does_tail, inv_lift_svr; [done| |intros v' L'; by apply does_ret].
    intros s G. apply bgrewrite_next; [done|apply K]. }
  clear v n L. intros _ v L.
  apply inv_on_svr; [done|intros s G _; by apply svr_next_refl|clear v L; intros _ v L]. apply inv_ask; [done|clear v L; intros n v L].
  apply inv_on_svr; [done|by intros s G; apply clear_next|clear v L; intros _ v L].
  apply inv_on_svr; [done|intros s G _; by apply svr_next_refl|clear v L; intros _ v L]. by apply does_ret.
Qed.

(** ** The callbacks *)

Abbreviation iocb := (io_callback o room fopen_ok rename_ok run_script).
Abbreviation tmcb := (tm_callback o room fopen_ok rename_ok clear_fuel).

Lemma iocb_safe (Hcalm : calm o conf) id e (s : mgr) : ev_inv s -> live (view s) -> ev_ioevs s !! id = Some e ->
  io_activated e = FK_IOEV_PENDING ->
  exists s', iocb (io_cb e) (io_fd e) (io_type e) s = Some (tt, s') /\ calls s s' /\ live (view s').
Proof.
  intros Hs [h L] He Ea.
  assert (v_ios (view s) !! id = Some (io_fd e, io_type e, io_cb e, true)) as Hv
    by (cbn; rewrite lookup_fmap, He; cbn; unfold io_view, active; by rewrite Ea).
  assert (does (iocb (io_cb e) (io_fd e) (io_type e)) (view s) (fun _ v' => live v')) as H.
  { unfold io_callback. destruct (eo_io (li_events L) id ltac:(by eexists)) as [->|(c & x & Hx & Hi)].
    - pose proof (eo_listen (li_events L)) as H. rewrite Hv in H. injection H as _ _ -> . cbn. by apply (listen_cb_keeps K h).
    - destruct (life_conn_inv L Hx) as [Hc _ Ha (r & Er & Hr) (w & Ew & Hw) _]. unfold READ_CB, WRITE_CB, LISTEN_CB in *.
      destruct Hi as [Hi|Hi]; [rewrite Er in Hi|rewrite Ew in Hi]; injection Hi as ->.
      + rewrite Hv in Hr. injection Hr as _ _ ->. rewrite (proj2 (Z.eqb_neq _ _)) by lia.
        rewrite Z.even_mul, (Z.mul_comm 2 c), Z.div_mul by lia. by apply (read_cb_keeps h c x).
      + rewrite Hv in Hw. injection Hw as _ _ -> Hb. rewrite (proj2 (Z.eqb_neq _ _)) by lia.
        rewrite (Z.add_comm _ 1), Z.even_add_mul_2, (Z.mul_comm 2 c), Z.div_add by lia. change (1 `div` 2) with 0. cbn [Z.even Z.add].
        eapply does_mono; [apply (write_cb_does h c x); [done..|]|intros ? ? [? _]; by exists h].
        symmetry in Hb. by apply Z.eqb_eq in Hb. }
  destruct (H s Hs eq_refl) as ([] & s' & E & C & L'). by exists s'.
Qed.

(** *** Programs that leave the timers alone *)

Definition same_tms {B} (m : ST mgr B) : Prop := forall s b s', m s = Some (b, s') -> ev_tmevs s' = ev_tmevs s.

Lemma same_ret {B} (b : B) : same_tms (mret b).
Proof. by intros s c s' [= _ <-]. Qed.
Lemma same_bind {B C} (m : ST mgr B) (k : B -> ST mgr C) : same_tms m -> (forall b, same_tms (k b)) -> same_tms (m ≫= k).
Proof.
  intros Hm Hk s c s'. unfold mbind, ST_bind. destruct (m s) as [[b s1]|] eqn:E; [|done]. intros H%Hk. by rewrite H, (Hm _ _ _ E).
Qed.
Lemma same_lift {B} (x : option B) : same_tms (st_lift x).
Proof. intros s b s'. unfold st_lift. destruct x; [|done]. by intros [= _ <-]. Qed.
Lemma same_app : same_tms get_app.
Proof. by intros s b s' [= _ <-]. Qed.
Lemma same_mod f : same_tms (mod_app f).
Proof. by intros s b s' [= _ <-]. Qed.
Lemma same_stop : same_tms fk_ev_stop.
Proof. by intros s b s' [= _ <-]. Qed.
Ltac same_tms_tac := repeat first
  [ apply same_ret | apply same_lift | apply same_app | apply same_mod | apply same_stop
  | apply same_bind; [|intros ?] | case_match ].
Lemma same_ask : same_tms ask.
Proof. unfold ask. same_tms_tac. Qed.
Lemma same_on_svr {B} (m : ST world B) : same_tms (on_svr m).
Proof. unfold on_svr. same_tms_tac. Qed.
Lemma same_lift_svr f : same_tms (lift_svr f).
Proof. unfold lift_svr. same_tms_tac. Qed.

Lemma svr_timer_tms : same_tms (fk_svr_timer_cb o room fopen_ok rename_ok clear_fuel).
Proof. unfold fk_svr_timer_cb. repeat first [apply same_ask | apply same_on_svr | apply same_lift_svr | progress same_tms_tac]. Qed.

(** The timer of a connection that goes on is not touched. *)
Lemma conn_timer_tms c s s' : fk_conn_timer_cb o c s = Some (0, s') -> ev_tmevs s' = ev_tmevs s.
Proof.
  unfold fk_conn_timer_cb, get_conn, ask, get_app, mod_app, st_gets. st_run. repeat case_match; try done; intros; by simplify_eq.
Qed.

Lemma tmcb_safe id t (s : mgr) : ev_inv s -> live (view s) -> ev_tmevs s !! id = Some t -> tm_expired t = FK_TMEV_OLD ->
  exists rt s', tmcb (tm_cb t) (tm_interval t) (tm_type t) s = Some (rt, s') /\ calls s s' /\ live (view s') /\
    (rt = 0 -> exists t', ev_tmevs s' !! id = Some t' /\ tm_expired t' = FK_TMEV_OLD).
Proof.
  intros Hs Hlive Ht Et. pose proof Hlive as [h L].
  assert (v_tms (view s) !! id = Some (tm_type t, tm_interval t, tm_cb t, true)) as Hv
    by (cbn; rewrite lookup_fmap, Ht; cbn; unfold tm_view, added; by rewrite Et).
  assert (forall s' : mgr, ev_tmevs s' = ev_tmevs s -> exists t', ev_tmevs s' !! id = Some t' /\ tm_expired t' = FK_TMEV_OLD) as Hsame
    by (intros s' ->; by exists t).
  unfold tm_callback. destruct (eo_tm (li_events L) id ltac:(by eexists)) as [->|(c & x & Hx & Hi)].
  - pose proof (eo_timer (li_events L)) as H. rewrite Hv in H. injection H as _ _ ->. cbn [SVR_TIMER_CB Z.eqb].
    destruct (svr_timer_does _ Hlive s Hs eq_refl) as (rt & s' & E & C & L'). exists rt, s'. split_and!; [done..|].
    intros _. by apply Hsame, (svr_timer_tms _ rt).
  - destruct (life_conn_inv L Hx) as [Hc _ _ _ _ (t' & Et' & Ht')]. rewrite Et' in Hi. injection Hi as ->.
    rewrite Hv in Ht'. injection Ht' as _ _ ->. unfold CONN_TIMER_CB, SVR_TIMER_CB. rewrite (proj2 (Z.eqb_neq _ _)) by lia.
    destruct (conn_timer_does h c x _ L Hx s Hs eq_refl) as (rt & s' & E & C & L' & _). exists rt, s'. split_and!; [done|done|by exists h|].
    intros ->. by eapply Hsame, conn_timer_tms.
Qed.

Lemma get_time_safe (s : mgr) : live (view s) ->
  exists t u, get_time s = Some (t, set_user s u) /\ live (view (set_user s u)).
Proof.
  intros L. eexists _, _. split; [reflexivity|]. apply (live_next (view s)); [done|].
  split; try done; [apply svr_good_ticks, (live_svr_good _ L)|right; by left].
Qed.
End safe.
