(* ===== verification/Main.v ===== *)
(** Models the start and the end of the server: [fk_svr_init] and [fk_svr_exit]
    (src/src/fk_svr.c), and the main program (src/src/freekick.c).

    Becoming a daemon, the working directory, the process file and the seed of [rand] are
    effects on the operating system alone and are left out. *)
From S2P Require Import Prelude Util Buf Dict Item Conf Svr Req Parse Store.
From S2P Require Import CmdStr CmdHash CmdList CmdDb CmdProps Kdb KdbProps Blog Proto ProtoProps Stream Serve Effects Conn Load.
From S2P Require Import Heap Ev EvProps EvView Select Cron Life LifeProps LifeSafe.

(** ** The limit of open files *)

Record rlimit := Rlimit { rlim_cur : Z; rlim_max : Z }.

(** [l] is what [getrlimit] answers, [set_ok] whether [setrlimit] succeeds; no result is
    [exit(EXIT_FAILURE)]. *)
Definition fk_setrlimit (l : option rlimit) (set_ok : bool) (euid : Z) (c : fk_conf) : option (fk_conf * rlimit) :=
  let max_files := u64 (i32 (fk_util_conns_to_files (cf_max_conns c))) in
  match l with
  | None => None
  | Some l =>
      if rlim_max l <? max_files then
        if euid =? 0 then if set_ok then Some (c, Rlimit max_files max_files) else None
        else
          if set_ok then
            Some (set_max_conns c (i32 (fk_util_files_to_conns (rlim_max l))), Rlimit (rlim_max l) (rlim_max l))
          else None
      else Some (c, l)
  end.

(** ** The server *)

(** What the server finds when it starts: whether it can listen and open the log, and
    the files. *)
Record disk := Disk {
  dk_listen : bool;
  dk_blog_open : bool;
  dk_blog : bytes;
  dk_db : option bytes
}.

(** The record [server] before [fk_svr_init]: zeros, and the setting; [db] is the file
    [setting.db_file]. *)
Definition server_zero (c : fk_conf) (items : item_mgr) (clock : nat -> timeval) (db : option bytes) : fk_svr :=
  FkSvr c 0 [] [] items 0 0 0 0 (BlogFile [] 0) db clock 0
    (FkConn 0 0 0 (FkBuf 0 0 0 0 0 []) (FkBuf 0 0 0 0 0 []) 0 (FkVtr 0 []) 0 0 0 0 0).

Section init.
Context {X A : Type} `{!Mpx X A}.
Abbreviation mgr := (fk_evmgr X app).
Context (o : os) (room : stdio) (fopen_ok rename_ok : bool).
Context (run_script : bytes -> list bytes -> list bytes -> ST world unit).
Context (d : disk).

(** [exit(EXIT_FAILURE)] has no result. *)
Definition assert_ok (b : bool) : ST mgr unit := st_lift (if b then Some tt else None).

(** The first part of [fk_svr_init]: the fields, the listening socket, the timer. *)
Definition svr_fields : ST mgr unit :=
  _ ← ask;
  n ← ask;
  _ ← mod_server (fun s => sv_set_timer_cnt (sv_set_conn_cnt
        (sv_set_last_save (sv_set_pids s (-1) (-1)) (os_time o n)) 0) 0);
  mod_app (fun a => ap_set_tab a (replicate
    (Z.to_nat (fk_util_conns_to_files (cf_max_conns (sv_setting (ap_svr a))))) None)).

Definition svr_listen : ST mgr unit :=
  _ ← assert_ok (dk_listen d);
  a ← get_app;
  let fd := os_new_fd o (ap_open a) in
  _ ← mod_app (fun a => ap_set_open a ({[fd]} ∪ ap_open a));
  e ← new_addr;
  _ ← fk_ioev_create e fd FK_IOEV_READ LISTEN_CB;
  _ ← fk_ev_add_ioev e;
  t ← new_addr;
  now ← get_time;
  _ ← fk_tmev_create t 3000 FK_TMEV_CYCLE SVR_TIMER_CB now;
  _ ← fk_ev_add_tmev t;
  mret tt.

Definition svr_dbs : ST mgr unit := mod_server (fun s =>
  let n := Z.to_nat (sv_dbcnt s) in sv_set_expdb (sv_set_db s (replicate n fk_dict_init)) (replicate n fk_dict_init)).

Definition fk_lua_init : ST mgr unit :=
  n ← ask;
  mod_server (fun s => sv_set_lua_conn s (new_conn FK_CONN_FAKE_FD (cf_max_wbuf (sv_setting s)) (os_time o n))).

(** Opening the log creates it, so that it can be accessed afterwards. *)
Definition svr_blog : ST mgr bool :=
  a ← get_app;
  if cf_blog_on (sv_setting (ap_svr a)) =? 1 then
    _ ← assert_ok (dk_blog_open d);
    n ← ask;
    '(_, w) ← st_lift (fk_blog_load room fopen_ok rename_ok run_script
      (fk_blog_init (ap_svr a) (dk_blog d) (os_time o n)));
    _ ← mod_server (fun _ => w_svr w);
    mret true
  else mret false.

Definition svr_kdb (blog_loaded : bool) : ST mgr unit :=
  a ← get_app;
  if (cf_dump (sv_setting (ap_svr a)) =? 1) && negb blog_loaded then
    r ← st_lift (fk_kdb_load (dk_db d) (ap_svr a));
    match r with
    | Loaded s => mod_server (fun _ => s)
    | LoadExit => assert_ok false
    end
  else mret tt.

Definition fk_svr_init : ST mgr unit :=
  _ ← svr_fields;
  _ ← svr_listen;
  _ ← svr_dbs;
  _ ← fk_lua_init;
  blog_loaded ← svr_blog;
  svr_kdb blog_loaded.

(** [None] is undefined behaviour; else the status of the process.  Whatever [waitpid]
    answers for the child processes, nothing depends on it. *)
Definition fk_svr_exit (s : fk_svr) : option (Z * fk_svr) :=
  if negb (cf_dump (sv_setting s) =? 1) then Some (EXIT_SUCCESS, s)
  else
    '(rt, s) ← fk_kdb_save room fopen_ok rename_ok s;
    Some (if rt =? FK_SVR_ERR then EXIT_FAILURE else EXIT_SUCCESS, s).
End init.

(** The whole program: the configuration file, the limit of open files, the event
    manager over tables as [malloc] leaves them, the start of the server, the loop for
    as many answers of the multiplexer as there are, the end. *)
Section program.
Context {X A : Type} `{!Mpx X A}.
Abbreviation mgr := (fk_evmgr X app).
Context (o : os) (room : stdio) (fopen_ok rename_ok : bool) (clear_fuel : nat).
Context (run_script : bytes -> list bytes -> list bytes -> ST world unit).
Context (d : disk) (clock : nat -> timeval) (open : gset Z) (next : Z) (x : X).

Definition first_app (c : fk_conf) : app := App (server_zero c fk_item_init clock (dk_db d)) ∅ [] 0 0 open next 0.

Definition first_mgr (c : fk_conf) : mgr :=
  let n := fk_util_conns_to_files (cf_max_conns c) in
  fk_ev_init n (malloced n) (malloced n) x (first_app c).

Definition server_start (c : fk_conf) : option (unit * mgr) :=
  fk_svr_init o room fopen_ok rename_ok run_script d (first_mgr c).

Definition server_cycle (answers : list A) : ST mgr unit :=
  fk_ev_cycle (io_callback o room fopen_ok rename_ok run_script) (tm_callback o room fopen_ok rename_ok clear_fuel) get_time answers.

Definition main (conf : option (list bytes)) (l : option rlimit) (set_ok : bool) (euid : Z) (answers : list A) :
    option (Z * fk_svr) :=
  c ← fk_conf_init conf;
  c ← c;
  '(c, _) ← fk_setrlimit l set_ok euid c;
  '(_, s) ← server_start c;
  '(_, s) ← server_cycle answers s;
  fk_svr_exit room fopen_ok rename_ok (ap_svr (ev_user s)).
End program.

(** ** The server starts in its invariant *)

(** A server with as many databases, whose dump can be loaded; only keys of its first
    database have expiry times. *)
Record source_ok (c : fk_conf) (s : fk_svr) : Prop := {
  so_dumpable : svr_dumpable s;
  so_dbcnt : sv_dbcnt s = cf_dbcnt c;
  so_lone : lone (store s)
}.

Lemma source_ext c c' s : cf_dbcnt c' = cf_dbcnt c -> source_ok c s -> source_ok c' s.
Proof. intros E []. split; [done|congruence|done]. Qed.

Section start.
Context {X A : Type} `{!Mpx X A, !MpxLaws X A, !MpxReliable X A}.
Abbreviation mgr := (fk_evmgr X app).
Context (o : os) (room : stdio) (fopen_ok rename_ok : bool).
Context (run_script : bytes -> list bytes -> list bytes -> ST world unit).
Context (d : disk) (clock : nat -> timeval) (open : gset Z) (next : Z) (x : X).

(** The server can listen and open its log. *)
Record setting_ok (c : fk_conf) : Prop := {
  st_dbcnt : 1 <= cf_dbcnt c < 2 ^ 31;
  st_conns : 0 <= cf_max_conns c;
  st_wbuf : 0 <= cf_max_wbuf c <= WBUF_HIGHWAT_MAX;
  st_blog_open : cf_blog_on c = 1 -> dk_blog_open d = true;
  st_listen : dk_listen d = true;
  st_open : (size open <= 15)%nat;
  st_next : 0 < next
}.

(** A log that is empty if the server logs, else no dump or one that a server has saved. *)
Record start_ok (c : fk_conf) : Prop := {
  st_setting :> setting_ok c;
  st_blog : cf_blog_on c = 1 -> dk_blog d = [];
  st_db : dk_db d = None \/ exists s, source_ok c s /\ dk_db d = Some (r_file s)
}.

(** What is in the store after the start. *)
Definition loads (c : fk_conf) (a : astate) : Prop :=
  match (if (cf_dump c =? 1) && negb (cf_blog_on c =? 1) then dk_db d else None) with
  | None => a_db a = replicate (Z.to_nat (cf_dbcnt c)) ∅ /\ a_exp a = replicate (Z.to_nat (cf_dbcnt c)) ∅
  | Some file => exists s, source_ok c s /\ file = r_file s /\ a_db a = dview <$> sv_db s /\ a_exp a = eview <$> sv_expdb s
  end.

(** The server at the end of [fk_svr_init]. *)
Record started (c : fk_conf) (s : fk_svr) : Prop := {
  sd_good : svr_good s;
  sd_setting : sv_setting s = c;
  sd_cnt : sv_conn_cnt s = 0;
  sd_loads : loads c (store s);
  sd_log : log_holds (cf_blog_on c =? 1) s []
}.

(** What is seen after the start. *)
Definition v_start (c : fk_conf) (s : fk_svr) (calls : nat) : ev_view app :=
  let n := fk_util_conns_to_files (cf_max_conns c) in
  let fd := os_new_fd o open in
  View (App s ∅ (replicate (Z.to_nat n) None) 0 0 ({[fd]} ∪ open) (next + 2) calls) n
    {[next := (fd, FK_IOEV_READ, LISTEN_CB, true)]} {[next + 1 := (FK_TMEV_CYCLE, 3000, SVR_TIMER_CB, true)]}.

Lemma life_start c s calls : os_ok o -> setting_ok c -> started c s ->
  life_inv o room fopen_ok rename_ok run_script c (store s) (os_new_fd o open) next (next + 1)
    (Z.of_nat (size open) + 1) [] AtRest (v_start c s calls).
Proof.
  intros K [] [G E1 E2 _ Hl]. destruct (ok_fd o K open) as (F1 & F2 & _).
  split; cbn; rewrite ?E1; try done.
  - split; [|intros id; exists 0%nat; apply prefix_nil|done]. exists []. split; [|done]. cbn. unfold store at 2. constructor.
  - split; cbn; rewrite ?E1, ?E2; try done; try lia.
    + unfold fk_util_conns_to_files. lia.
    + rewrite zlen_replicate; unfold fk_util_conns_to_files; lia.
    + intros fd id. split; [|by intros (y & Hy & _)]. unfold znth. case_match; [done|]. by intros [? _]%lookup_replicate_1.
    + set_solver.
    + rewrite size_union by set_solver. rewrite size_singleton, map_size_empty. lia.
  - split; [done|apply lookup_insert_eq|apply lookup_insert_eq| | |].
    + intros id [y Hy]. apply lookup_singleton_Some in Hy as [<- _]. by left.
    + intros id [y Hy]. apply lookup_singleton_Some in Hy as [<- _]. by left.
    + split; [lia|]. intros id Hid. by rewrite !lookup_singleton_ne by lia.
Qed.

Lemma start_good s : svr_inv s -> lone (store s) -> 0 <= cf_max_wbuf (sv_setting s) <= WBUF_HIGHWAT_MAX ->
  (exists now, sv_lua_conn s = new_conn FK_CONN_FAKE_FD (cf_max_wbuf (sv_setting s)) now) -> svr_good s.
Proof.
  intros I Hd Hw [now El]. pose proof (si_dbcnt _ I). split; rewrite ?El; try done. split; [done|cbn; lia|]. by apply new_wbuf.
Qed.

(** The server when the databases are empty and the connection of the scripts is there. *)
Record emptied (c : fk_conf) (s : fk_svr) : Prop := {
  em_setting : sv_setting s = c;
  em_cnt : sv_conn_cnt s = 0;
  em_db : sv_db s = replicate (Z.to_nat (cf_dbcnt c)) fk_dict_init;
  em_exp : sv_expdb s = replicate (Z.to_nat (cf_dbcnt c)) fk_dict_init;
  em_lua : exists now, sv_lua_conn s = new_conn FK_CONN_FAKE_FD (cf_max_wbuf c) now
}.

(** The contents of empty databases. *)
Lemma emptied_store c s : emptied c s ->
  a_db (store s) = replicate (Z.to_nat (cf_dbcnt c)) ∅ /\ a_exp (store s) = replicate (Z.to_nat (cf_dbcnt c)) ∅.
Proof. intros [_ _ E1 E2 _]. cbn [store a_db a_exp]. by rewrite E1, E2, !fmap_replicate. Qed.

Lemma emptied_lone c s : emptied c s -> lone (store s).
Proof.
  intros E j _. destruct (emptied_store c s E) as [_ Hx]. unfold aexp. rewrite Hx. destruct (znth (replicate _ _) j) eqn:Ej; [|done].
  unfold znth in Ej. case_match; [done|]. by apply lookup_replicate_1 in Ej as [-> _].
Qed.

Lemma emptied_inv c s : setting_ok c -> emptied c s -> svr_inv s.
Proof.
  intros S []. pose proof (st_dbcnt _ S). assert (sv_dbcnt s = cf_dbcnt c) as Ed by (unfold sv_dbcnt; by rewrite em_setting0).
  split; rewrite ?Ed, ?em_db0, ?em_exp0; [done|apply zlen_replicate; lia..| |];
    apply Forall_replicate; [apply empty_db_inv|apply empty_exp_inv].
Qed.

Lemma emptied_good c s : setting_ok c -> emptied c s -> svr_good s.
Proof.
  intros S E. pose proof (emptied_inv c s S E). pose proof (emptied_lone c s E). destruct E as [E1 E2 E3 E4 E5].
  apply start_good; rewrite ?E1; try done. apply S.
Qed.

(** Nothing is loaded. *)
Lemma emptied_started c s : setting_ok c -> emptied c s ->
  (cf_dump c =? 1) && negb (cf_blog_on c =? 1) = false \/ dk_db d = None -> log_holds (cf_blog_on c =? 1) s [] -> started c s.
Proof.
  intros S E Hn Hl. pose proof (emptied_good c s S E). pose proof (emptied_store c s E) as Hst. destruct E as [E1 E2 _ _ _].
  split; [done..| |done]. unfold loads. destruct Hn as [->| ->]; [done|by destruct (_ && _)].
Qed.

(** A dump is loaded. *)
Lemma loaded_started c s s0 s1 : setting_ok c -> emptied c s -> cf_dump c = 1 -> cf_blog_on c <> 1 ->
  source_ok c s0 -> dk_db d = Some (r_file s0) -> load_frame s s1 -> svr_inv s1 ->
  dview <$> sv_db s1 = dview <$> sv_db s0 -> eview <$> sv_expdb s1 = eview <$> sv_expdb s0 -> started c s1.
Proof.
  intros S [E1 E2 E3 E4 E5] Ed Hb Hs Hf (l & e & m & ->) I V1 V2. split; [|done|done| |].
  - apply start_good; [done|..]; cbn; rewrite ?E1; try done; [|apply S].
    intros j Hj. unfold aexp, store. cbn [a_exp]. rewrite V2. by apply (so_lone _ _ Hs).
  - unfold loads. rewrite Ed, (proj2 (Z.eqb_neq _ _) Hb). cbn. rewrite Hf. by exists s0.
  - by rewrite (proj2 (Z.eqb_neq _ _) Hb).
Qed.

(** The log, if there is one, is opened. *)
Lemma svr_blog_does c v {B} (k : bool -> ST mgr B) Q : start_ok c -> emptied c (ap_svr (v_user v)) ->
  (forall s n, let on := cf_blog_on c =? 1 in emptied c s -> log_holds on s [] ->
    does (k on) (v_set_user v (ap_set_calls (ap_set_svr (v_user v) s) n)) Q) ->
  does (b ← svr_blog o room fopen_ok rename_ok run_script d; k b) v Q.
Proof.
  intros S E HQ. apply does_bind. unfold svr_blog. apply does_get_app. rewrite (em_setting _ _ E).
  destruct (cf_blog_on c =? 1) eqn:Hb.
  - rewrite (st_blog_open _ S), (st_blog _ S) by lia. apply (does_lift _ tt); [done|]. apply does_ask.
    eapply does_lift; [apply blog_load_empty|]. apply does_mod_app, does_ret. cbn [w_svr w_set_conn fk_blog_init].
    apply (HQ _ (Datatypes.S (ap_calls (v_user v)))); [by destruct E|done].
  - apply does_ret. specialize (HQ (ap_svr (v_user v)) (ap_calls (v_user v)) E). cbv zeta in HQ.
    replace (v_set_user v _) with v in HQ; [by apply HQ|]. by destruct v as [[] ? ? ?].
Qed.

(** Up to the log. *)
Lemma svr_init_opens c v Q : os_ok o -> setting_ok c ->
  v = view (first_mgr d clock open next x c) ->
  (forall s calls, emptied c s -> does (b ← svr_blog o room fopen_ok rename_ok run_script d; svr_kdb d b) (v_start c s calls) Q) ->
  does (fk_svr_init o room fopen_ok rename_ok run_script d) v Q.
Proof.
  intros K S -> HQ. destruct (ok_fd o K open) as (F1 & F2 & _). pose proof (new_fd_le o open K). pose proof (st_conns _ S). pose proof (st_open _ S).
  pose proof (st_next _ S).
  assert (0 <= os_new_fd o open < fk_util_conns_to_files (cf_max_conns c)) as Hfd by (unfold fk_util_conns_to_files; lia).
  unfold fk_svr_init, first_mgr, view. cbn. rewrite !fmap_empty. apply does_bind. unfold svr_fields. apply does_ask, does_ask, does_mod_app, does_tail, does_mod_app, does_ret. cbn.
  apply does_bind. unfold svr_listen. rewrite (st_listen _ S). apply (does_lift _ tt); [done|]. apply does_get_app. cbn. cbv zeta.
  apply does_mod_app. cbn. apply does_new_addr. cbn. apply does_bind. eapply does_new_io; [done|done|by left|]. cbn.
  apply does_bind. eapply does_add_io; [apply lookup_insert_eq| |].
  { intros id cb. cbn. rewrite lookup_insert_Some, lookup_empty. by intros [[_ ?]|[_ ?]]. }
  cbn. rewrite insert_insert_eq. apply does_new_addr. cbn. unfold get_time. apply does_on_svr. eapply wp_eq; [done|]. cbn.
  apply does_bind. eapply does_new_tm; [done|]. cbn. apply does_bind. eapply does_add_tm; [apply lookup_insert_eq|]. cbn.
  rewrite insert_insert_eq. apply does_ret. unfold svr_dbs. apply does_mod_app. cbn. apply does_bind. unfold fk_lua_init. apply does_ask. cbn.
  apply does_tail, does_mod_app, does_ret. cbn. set (s0 := sv_set_lua_conn _ _).
  replace (next + 1 + 1) with (next + 2) by lia.
  match goal with |- does _ ?v' _ => change v' with (v_start c s0 3) end.
  assert (emptied c s0) as E0.
  { split; try done; cbn; unfold sv_dbcnt; cbn; by eexists. }
  by apply HQ.
Qed.

Lemma svr_init_does c v : os_ok o -> start_ok c ->
  v = view (first_mgr d clock open next x c) ->
  does (fk_svr_init o room fopen_ok rename_ok run_script d) v
    (fun _ v' => exists s calls, v' = v_start c s calls /\ started c s).
Proof.
  intros K S Hv. apply (svr_init_opens c); [done|apply S|done|]. clear v Hv. intros s0 calls E0.
  apply (svr_blog_does c); [done|exact E0|]. intros s n on E Hl. subst on.
  change (v_set_user _ _) with (v_start c s n). clear E0 s0.
  unfold svr_kdb. apply does_get_app. cbn [v_start v_user ap_svr]. rewrite (em_setting _ _ E).
  destruct (_ && _) eqn:Hd; [|apply does_ret; exists s, n; split; [done|]; apply (emptied_started c s S E); auto].
  apply andb_true_iff in Hd as [Hd1%Z.eqb_eq Hd2%negb_true_iff%Z.eqb_neq].
  destruct (st_db _ S) as [Hn|(s1 & Hs1 & Hf)].
  - rewrite Hn. apply (does_lift _ (Loaded s)); [done|]. apply does_tail, does_mod_app, does_ret. exists s, n.
    split; [done|]. apply (emptied_started c s S E); auto.
  - rewrite Hf. destruct (kdb_load_ok s1 s (so_dumpable _ _ Hs1)) as (s2 & El & Fr & I & V1 & V2).
    { rewrite (so_dbcnt _ _ Hs1). destruct E. split; [|done|done]. unfold sv_dbcnt. by rewrite em_setting0. }
    apply (does_lift _ (Loaded s2)); [done|]. apply does_tail, does_mod_app, does_ret. exists s2, n.
    split; [done|]. by apply (loaded_started c s s1 s2 S E).
Qed.

Lemma start_does c : os_ok o -> start_ok c ->
  mpx_ok (fk_util_conns_to_files (cf_max_conns c)) x -> (forall fd, watch x fd = 0) ->
  exists s0 s calls, server_start o room fopen_ok rename_ok run_script d clock open next x c = Some (tt, s0) /\ ev_inv s0 /\
    view s0 = v_start c s calls /\ started c s.
Proof.
  intros K S Hm Hw. pose proof (st_conns _ S).
  assert (ev_inv (first_mgr d clock open next x c)) as I0.
  { apply ev_init_inv; [apply malloced_unwritten; unfold fk_util_conns_to_files; lia..|done|done]. }
  destruct (svr_init_does c _ K S eq_refl _ I0 eq_refl) as ([] & s0 & E & C & s & calls & V & G).
  exists s0, s, calls. split; [exact E|]. split; [by eapply calls_ok|done].
Qed.
End start.
