(* ===== verification/Server.v ===== *)
(** The server as a whole: its runs, from the start, over any answers of the kernel and
    any signals, and what holds of every state it reaches. *)
From S2P Require Import Prelude Util Buf Dict Item Conf Svr Req Parse Store.
From S2P Require Import CmdStr CmdHash CmdList CmdDb CmdProps Kdb KdbProps Blog Proto ProtoProps Stream Serve Effects Conn Load.
From S2P Require Import Heap Ev EvProps EvView Select Cron Life LifeProps LifeSafe Main.
Import Req.

Section server.
Context {X A : Type} `{!Mpx X A, !MpxLaws X A, !MpxReliable X A}.
Context (o : os) (room : stdio) (fopen_ok rename_ok : bool) (clear_fuel : nat).
Context (run_script : bytes -> list bytes -> list bytes -> ST world unit).
Context (d : disk) (clock : nat -> timeval) (open : gset Z) (next : Z) (x : X) (c : fk_conf).
Abbreviation mgr := (fk_evmgr X app).
Abbreviation iocb := (io_callback o room fopen_ok rename_ok run_script).
Abbreviation tmcb := (tm_callback o room fopen_ok rename_ok clear_fuel).
Abbreviation dispatch := (fk_ev_dispatch iocb tmcb get_time).
Implicit Types (s : mgr).

(** What the theorems assume of the kernel, of the clients, of the setting, and of the
    state of the backend at the start. *)
Record server_ok : Prop := {
  so_os : os_ok o;
  so_calm : calm o c;
  so_fuel : cf_dbcnt c < Z.of_nat clear_fuel;
  so_start : start_ok d open next c;
  so_mpx : mpx_ok (fk_util_conns_to_files (cf_max_conns c)) x;
  so_watch : forall fd, watch x fd = 0
}.

(** A turn of the main loop, or a signal between two turns. *)
Inductive server_step s s' : Prop :=
  | step_turn ans rt : answered s ans -> dispatch ans s = Some (rt, s') -> server_step s s'
  | step_signal sig : fk_svr_signal_exit_handler sig s = Some (tt, s') -> server_step s s'.

Definition reached s : Prop := exists s0,
  server_start o room fopen_ok rename_ok run_script d clock open next x c = Some (tt, s0) /\ rtc server_step s0 s.

Abbreviation on := (cf_blog_on c =? 1).
Abbreviation inv first h v := (life_inv o room fopen_ok rename_ok run_script c first (os_new_fd o open) next (next + 1)
  (Z.of_nat (size open) + 1) h AtRest v).

(** Between two turns: what was loaded, and what happened since. *)
Definition alive (v : ev_view app) : Prop := exists first, loads d c first /\ exists h, inv first h v.

Lemma start_reaches : server_ok -> exists s0,
  server_start o room fopen_ok rename_ok run_script d clock open next x c = Some (tt, s0) /\ ev_inv s0 /\ alive (view s0).
Proof.
  intros [K Hc Hf S Hm Hw].
  destruct (start_does o room fopen_ok rename_ok run_script d clock open next x c K S Hm Hw) as (s0 & s & calls & E & I & V & G).
  exists s0. split; [exact E|]. split; [exact I|]. exists (store s). split; [apply G|]. exists [].
  rewrite V. by apply (life_start o room fopen_ok rename_ok run_script d clock open next c s calls K S G).
Qed.

Lemma turn_safe s ans : server_ok -> ev_inv s -> alive (view s) -> answered s ans ->
  wrote s ans \/ is_Some (dispatch ans s) ->
  exists rt s', dispatch ans s = Some (rt, s') /\ ev_inv s' /\ alive (view s') /\
    (rt = FK_EV_OK -> ev_act_ioev s' = [] /\ ev_exp_tmev s' = []).
Proof.
  intros [K Hc Hf S Hm Hw] I (first & Hl & L) Ha Hr.
  destruct (dispatch_ok iocb tmcb get_time (fun v => exists h, inv first h v)) with s ans as (rt & s' & E & I' & L' & F & _); try done.
  - intros id e s1. by eapply iocb_safe.
  - intros id t s1. by eapply tmcb_safe.
  - intros s1. by eapply get_time_safe.
  - exists rt, s'. split; [done|]. split; [done|]. split; [by exists first|done].
Qed.

Lemma signal_safe s sig s' : ev_inv s -> alive (view s) -> fk_svr_signal_exit_handler sig s = Some (tt, s') ->
  ev_inv s' /\ alive (view s').
Proof.
  unfold fk_svr_signal_exit_handler, mod_app, st_mod. intros I (first & Hl & h & L) [= <-]. split; [by destruct I|].
  exists first. split; [done|]. exists h. destruct (sig =? SIGINT); [exact (life_sig 1 _ L)|].
  destruct (sig =? SIGTERM); [exact (life_sig _ 1 L)|exact L].
Qed.

Lemma reached_inv s : server_ok -> reached s -> ev_inv s /\ alive (view s).
Proof.
  intros Hok (s0 & E & R). destruct (start_reaches Hok) as (s1 & E1 & I & L). rewrite E in E1. injection E1 as <-. clear E.
  induction R as [|s0 s1 s [ans rt Ha E|sig E] R IH]; [done|..]; apply IH.
  - destruct (turn_safe _ _ Hok I L Ha (or_intror (mk_is_Some _ _ E))) as (? & ? & E' & ? & ? & ?). rewrite E in E'. by injection E' as -> ->.
  - destruct (turn_safe _ _ Hok I L Ha (or_intror (mk_is_Some _ _ E))) as (? & ? & E' & ? & ? & ?). rewrite E in E'. by injection E' as -> ->.
  - by eapply signal_safe.
  - by eapply signal_safe.
Qed.

(** ** Properties *)

(** C6. The server executes one sequence of requests: in every state it reaches there is
    a history [h] of executions, removals of expired keys and looks at the clock that
    leads from what was loaded at the start to the store of the server, and whose write
    commands are what the log file holds, if there is one, such that for every client
    only what it sent was executed, in its order; and for every client that is connected
    exactly the complete requests in what was received from it were executed, and what
    was sent to it followed by what is in its write buffer are exactly their replies,
    and the database it has selected is the one that its own requests selected. This
    holds under [server_ok] (see the header of the development: [accept] fails only with
    EINTR or EAGAIN, and the clients send no EVAL, SAVE or ZADD), whatever clients
    connect, send and close, in whatever pieces the bytes arrive and leave, and in
    whatever order the kernel reports them. *)
Theorem server_serialises s : server_ok -> reached s -> let a := ev_user s in exists first h log,
  loads d c first /\
  history room fopen_ok rename_ok run_script on (cf_dbcnt c) (fun n => fk_util_tv2millis (sv_clock (ap_svr a) n)) first h (store (ap_svr a)) log /\
  log_holds on (ap_svr a) log /\
  (forall id, exists n, requests_of id h `prefix_of` reqs (feed (init []) (sent_by o id n))) /\
  (forall id co, ap_conns a !! id = Some co -> exists m q,
    sent_by o id (co_reads co) = m ++ stream (co_in co) /\
    requests (feed (init []) m) = (requests_of id h, FK_SVR_OK, q) /\
    co_out co ++ payload (c_wbuf (co_conn co)) = replies_of id h /\ c_db_idx (co_conn co) = selected id h).
Proof.
  intros Hok Hr a. destruct (reached_inv s Hok Hr) as (_ & first & Hl & h & L).
  destruct (li_hist L) as [(log & H1 & H3) H2 _]. exists first, h, log. do 4 (split; [done|]).
  intros id co Hx. destruct (li_served L id co Hx) as [(m & q & E1 & E2 & E3 & _ & E4 & _) _].
  by exists m, q.
Qed.

(** C7. Under [server_ok] (the kernel keeps the promises of [os_ok], so that [accept]
    fails only with EINTR or EAGAIN; the clients are [calm]; the setting and the files
    of the start are as [start_ok] says; the fuel of the expiry pass exceeds the number
    of databases) the server starts, and in every state it reaches there are at most
    [max_conns] connections, the table of connections holds exactly the connections,
    each under its descriptor, and a turn of the main loop returns, with all reported
    events handled, for every answer of the backend that makes the code read no cell of
    [read_ev] or [write_ev] that was never written ([wrote]); an answer that names only
    types that are watched is such an answer. [fk_ev_init] leaves the two arrays as
    [malloc] gives them: without [wrote] the turn is undefined, and over [epoll] a
    hang-up on a descriptor that never had an event for writing is an answer without it
    ([Epoll.epoll_hup_reads_uninitialised]). *)
Theorem server_never_stuck : server_ok ->
  (exists s0, reached s0) /\ forall s, reached s -> let a := ev_user s in
    sv_conn_cnt (ap_svr a) = Z.of_nat (size (ap_conns a)) /\
    sv_conn_cnt (ap_svr a) <= cf_max_conns (sv_setting (ap_svr a)) /\
    (forall fd id, znth (ap_tab a) fd = Some (Some (Some id)) <-> exists co, ap_conns a !! id = Some co /\ c_fd (co_conn co) = fd) /\
    forall ans, answered s ans ->
      (wrote s ans -> exists rt s', dispatch ans s = Some (rt, s') /\ reached s' /\
        (rt = FK_EV_OK -> ev_act_ioev s' = [] /\ ev_exp_tmev s' = [])) /\
      (reports_watched (ev_iompx s) ans -> wrote s ans).
Proof.
  intros Hok. split.
  { destruct (start_reaches Hok) as (s0 & E & _). exists s0, s0. split; [exact E|apply rtc_refl]. }
  intros s Hr a. destruct (reached_inv s Hok Hr) as [I Hal].
  pose proof Hal as (first & Hl & h & L). split; [exact (to_cnt (li_tables L))|]. split; [exact (to_max (li_tables L))|].
  split; [exact (to_tab (li_tables L))|]. intros ans Ha. split; [|by apply reports_wrote]. intros Hwr.
  destruct (turn_safe s ans Hok I Hal Ha (or_introl Hwr)) as (rt & s' & E & _ & _ & F). exists rt, s'.
  split; [exact E|]. split; [|exact F]. destruct Hr as (s0 & E0 & R). exists s0. split; [exact E0|].
  eapply rtc_r; [exact R|by econstructor].
Qed.

(** C18. No reply is forgotten: between two turns, the backend watches every connection
    for reading, and a connection whose replies are not all sent also for writing, with
    the callback that sends them. *)
Theorem replies_are_watched s id co : server_ok -> reached s -> ap_conns (ev_user s) !! id = Some co ->
  let fd := c_fd (co_conn co) in
  Z.land (watch (ev_iompx s) fd) FK_IOEV_READ <> 0 /\
  (payload (c_wbuf (co_conn co)) <> [] -> Z.land (watch (ev_iompx s) fd) FK_IOEV_WRITE <> 0 /\
    exists w e, co_write_ev co = Some w /\ ev_ioevs s !! w = Some e /\ io_fd e = fd /\ io_cb e = WRITE_CB id).
Proof.
  intros Hok Hr Hx fd. destruct (reached_inv s Hok Hr) as ([I T] & first & _ & h & L). destruct (li_served L id co Hx) as [_ Hp].
  destruct (life_conn_inv L Hx) as [_ _ Ha (r & _ & Hri) (w & Hw & Hwi) _]. fold fd in Hri, Hwi.
  assert (forall i ty cb, single ty -> v_ios (view s) !! i = Some (fd, ty, cb, true) -> Z.land (watch (ev_iompx s) fd) ty <> 0) as Hwatch.
  { intros i ty cb Hty (e & He & E1 & E2 & _ & Hact)%v_io_lookup. destruct (ii_ev _ _ _ _ _ _ _ I i e He) as (Hfd & Hs & _ & Hsl).
    rewrite E1, E2 in *. intros E. apply (ii_watch _ _ _ _ _ _ _ I ty fd Hty Hfd) in E. rewrite (occupied_slot _ _ _ _ i) in E; [done|]. by apply Hsl, active_true. }
  split; [eapply Hwatch; [by left|exact Hri]|]. intros Hne. destruct Ha as [Ha|Ha]; [by specialize (Hp Ha)|]. rewrite Ha in Hwi.
  split; [eapply Hwatch; [by right|exact Hwi]|]. apply v_io_lookup in Hwi as (e & He & E1 & _ & E3 & _). by exists w, e.
Qed.

(** C19. The write callback sends what it can: it returns; the connection is gone only
    after an error of [send]; else what was sent followed by what is left are the same
    replies as before, at least what the first [send] took was sent, and the write event
    stays exactly if something is left. *)
Theorem write_cb_sends s id co : server_ok -> reached s -> ap_conns (ev_user s) !! id = Some co ->
  c_write_added (co_conn co) = 1 ->
  let q := os_send o (ap_calls (ev_user s)) in
  exists s', fk_conn_write_cb o id s = Some (tt, s') /\
    (ap_conns (ev_user s') !! id = None /\ SendError ∈ q \/ exists co', ap_conns (ev_user s') !! id = Some co' /\
      sent_more q co co' /\
      c_write_added (co_conn co') = if fk_buf_payload_len (c_wbuf (co_conn co')) =? 0 then 0 else 1).
Proof.
  intros Hok Hr Hx Ha q. destruct (reached_inv s Hok Hr) as (I & first & _ & h & L).
  destruct (write_cb_does o room fopen_ok rename_ok run_script _ _ _ _ _ _ h id co (view s) L Hx Ha s I eq_refl) as ([] & s' & E & _ & _ & H).
  by exists s'.
Qed.

(** C20. A client that was silent for longer than the time limit is disconnected by its
    timer, which does not start again; any other client is not touched. *)
Theorem idle_client_is_closed s id co : server_ok -> reached s -> ap_conns (ev_user s) !! id = Some co ->
  let a := ev_user s in
  let idle := cf_timeout (sv_setting (ap_svr a)) <? os_time o (ap_calls a) - c_last_recv (co_conn co) in
  exists s', fk_conn_timer_cb o id s = Some (if idle then -1 else 0, s') /\
    if idle then ap_conns (ev_user s') !! id = None /\ znth (ap_tab (ev_user s')) (c_fd (co_conn co)) <> Some (Some (Some id))
    else ev_user s' = ap_set_calls a (S (ap_calls a)).
Proof.
  intros Hok Hr Hx a idle. destruct (reached_inv s Hok Hr) as (I & first & _ & h & L).
  destruct (conn_timer_does o room fopen_ok rename_ok run_script _ _ _ _ _ _ h id co (view s) L Hx s I eq_refl) as (rt & s' & E & _ & L' & H).
  exists s'. subst idle a. cbn in H. case_match.
  - destruct H as [-> Hn]. split; [exact E|]. split; [exact Hn|]. intros Ht.
    apply (to_tab (li_tables L')) in Ht as (y & Hy & _). cbn in Hy. congruence.
  - destruct H as [-> Hv]. split; [exact E|]. exact (f_equal v_user Hv).
Qed.
End server.

Lemma add_conn_negative {X A : Type} `{!Mpx X A} o (s : fk_evmgr X app) : fk_svr_add_conn o (-1) s = None.
Proof.
  unfold fk_svr_add_conn, fk_conn_create, put_conn, get_conn, set_tab, new_addr, ask, get_app, mod_app, st_gets.
  change (-1 =? FK_CONN_FAKE_FD) with true. st_run. ev_cbn. cbn [ap_conns ap_set_conns ap_set_calls ap_next ap_set_next].
  rewrite lookup_insert_eq. reflexivity.
Qed.

(** C40. An error of [accept] that has no case of its own (too many open files, for
    example) is taken for a connection with the descriptor -1: unless the server is full,
    its entry is written before the start of the table of connections. *)
Theorem accept_error_undefined {X A : Type} `{!Mpx X A} o l (s : fk_evmgr X app) :
  sv_conn_cnt (ap_svr (ev_user s)) <> cf_max_conns (sv_setting (ap_svr (ev_user s))) ->
  os_arrivals o (ap_calls (ev_user s)) = AcceptFails :: l -> fk_svr_listen_cb o s = None.
Proof.
  intros Hn Hl. unfold fk_svr_listen_cb, ask, get_app, mod_app, st_gets. st_run. rewrite Hl. cbn [listen_loop]. unfold get_app, st_gets. st_run. ev_cbn.
  cbn [ap_svr ap_set_calls]. rewrite (proj2 (Z.eqb_neq _ _) Hn). by rewrite add_conn_negative.
Qed.

(** The rounds of the timer of the server that concern the background save: the answer of
    [waitpid], the time, the answer of [fork]. *)
Fixpoint save_rounds (room : stdio) (fopen_ok rename_ok : bool) (l : list (child * Z * Z)) (s : fk_svr) : option fk_svr :=
  match l with
  | [] => Some s
  | (ans, now, pid) :: l' =>
      s ← wait_save ans now s;
      s ← parent (fk_kdb_bgsave room fopen_ok rename_ok pid s);
      save_rounds room fopen_ok rename_ok l' s
  end.

Lemma save_rounds_stuck room fopen_ok rename_ok l s : sv_save_pid s <> -1 ->
  Forall (fun r => r.1.1 <> ChildFailed /\ r.1.1 <> ChildEnded true) l ->
  save_rounds room fopen_ok rename_ok l s = Some s.
Proof.
  intros Hp. induction 1 as [|[[ans now] pid] l [H1 H2] _ IH]; [done|]. cbn [save_rounds].
  pose proof (proj2 (Z.eqb_neq _ _) Hp) as E. cbn [fst] in *.
  destruct ans as [| | |[]]; try done; unfold wait_save, fk_kdb_bgsave; rewrite E; cbn; rewrite E; exact IH.
Qed.

(** A child of the background save that fails is waited for, but its pid is kept:
    afterwards [waitpid] only knows no such child, no round ever forks again, and the
    databases are not saved any more until the server ends. *)
Theorem failed_save_is_final room fopen_ok rename_ok s now pid l :
  sv_save_pid s <> -1 -> Forall (fun r => r.1.1 = ChildNone) l ->
  save_rounds room fopen_ok rename_ok ((ChildEnded false, now, pid) :: l) s = Some s.
Proof.
  intros Hp Hl. apply save_rounds_stuck; [done|]. constructor; [done|]. eapply Forall_impl; [exact Hl|]. by intros r ->.
Qed.

(** ** A run over select *)

(** The lowest descriptor that is not open, from [i] on. *)
Fixpoint lowest (n : nat) (i : Z) (open : gset Z) : Z :=
  match n with
  | O => i
  | S n' => if bool_decide (i ∈ open) then lowest n' (i + 1) open else i
  end.

Lemma lowest_spec n : forall i open, let r := lowest n i open in
  i <= r /\ (forall j, i <= j < r -> j ∈ open) /\ (r ∉ open \/ r = i + Z.of_nat n).
Proof.
  induction n as [|n IH]; intros i open; cbn [lowest].
  - split; [lia|]. split; [lia|]. right. lia.
  - case_bool_decide as Hi; [|split; [lia|]; split; [lia|by left]].
    destruct (IH (i + 1) open) as (H1 & H2 & H3). split; [lia|]. split.
    + intros j Hj. destruct (decide (j = i)) as [->|]; [done|apply H2; lia].
    + destruct H3 as [?| ->]; [by left|right; lia].
Qed.

Lemma lowest_free open : let r := lowest (S (size open)) 0 open in
  0 <= r /\ (r ∉ open) /\ forall i, 0 <= i < r -> i ∈ open.
Proof.
  destruct (lowest_spec (S (size open)) 0 open) as (H1 & H2 & H3). split; [done|]. split; [|done].
  destruct H3 as [?|E]; [done|]. rewrite E in *. exfalso.
  assert (list_to_set (seqZ 0 (0 + Z.of_nat (S (size open)))) ⊆ open) as Hs.
  { intros i Hi. apply elem_of_list_to_set, elem_of_seqZ in Hi. apply H2. lia. }
  apply subseteq_size in Hs. rewrite size_list_to_set, length_seqZ in Hs by apply NoDup_seqZ. lia.
Qed.

(** One client connects in the first turn; its address is 3.  It sends two requests in
    two pieces. *)
Definition ex_bytes : bytes := encode [lit "SET"; lit "k"; lit "v"] ++ encode [lit "GET"; lit "k"].
Definition ex_os : os := Os (fun n => 100 + Z.of_nat n) (fun open => lowest (S (size open)) 0 open)
  (fun n => if bool_decide (n <= 4)%nat then [AcceptIntr; Arrives] else [])
  (fun id n => if (id =? 3) && bool_decide (n = 0%nat) then [RecvData (ztake 30 ex_bytes)]
               else if (id =? 3) && bool_decide (n = 1%nat) then [RecvData (zdrop 30 ex_bytes)] else [])
  (fun _ => [Sent 3; Sent 100]) (fun _ _ => 0) (fun _ => ChildNone) (fun _ => 99).

Lemma ex_os_ok : os_ok ex_os.
Proof.
  split; try done.
  - intros open. apply lowest_free.
  - intros n. cbn. case_bool_decide; [|by apply not_elem_of_nil]. by rewrite !elem_of_cons, elem_of_nil; intros [?|[?|?]].
Qed.

Lemma ex_sent n : sent_by ex_os 3 (S (S n)) = ex_bytes.
Proof.
  induction n as [|n IH]; [vm_compute; reflexivity|]. rewrite sent_by_S, IH. cbn. by rewrite app_nil_r.
Qed.

Lemma ex_requests c : request_ok c [lit "SET"; lit "k"; lit "v"] /\ request_ok c [lit "GET"; lit "k"].
Proof.
  assert (forall l, bool_decide (Forall (fun a => nul_free a /\ zlen a <= 100) l) = true -> Forall arg_loggable l) as H.
  { intros l Hl%bool_decide_eq_true. eapply Forall_impl; [exact Hl|]. intros a [Hn Ha]. split; [done|].
    unfold FK_ARG_HIGHWAT. lia. }
  split; (split; [reflexivity|intros _; apply H; vm_compute; reflexivity|reflexivity]).
Qed.

Lemma ex_silent id n : id <> 3 -> sent_by ex_os id n = [].
Proof.
  intros Hne. induction n as [|n IH]; [done|]. rewrite sent_by_S, IH. cbn. by rewrite (proj2 (Z.eqb_neq _ _) Hne).
Qed.

(** Only the client 3 sends, and only these two requests. *)
Lemma ex_reqs id n : reqs (feed (init []) (sent_by ex_os id n)) `prefix_of` [[lit "SET"; lit "k"; lit "v"]; [lit "GET"; lit "k"]].
Proof.
  destruct (Z.eqb_spec id 3) as [->|Hne]; [|rewrite ex_silent by done; apply prefix_nil].
  destruct n as [|[|n]]; [apply prefix_nil|exists [[lit "GET"; lit "k"]]; vm_compute; reflexivity|].
  rewrite ex_sent. exists []. vm_compute. reflexivity.
Qed.

Lemma ex_all (P : list bytes -> Prop) : P [lit "SET"; lit "k"; lit "v"] -> P [lit "GET"; lit "k"] ->
  forall id n, Forall P (reqs (feed (init []) (sent_by ex_os id n))).
Proof.
  intros H1 H2 id n. destruct (ex_reqs id n) as [l E]. assert (Forall P (reqs (feed (init []) (sent_by ex_os id n)) ++ l)) as H
    by (rewrite <- E; by repeat constructor). by apply Forall_app in H as [H _].
Qed.

Lemma ex_calm c : calm ex_os c.
Proof. intros id n. apply ex_all; apply ex_requests. Qed.

(** Two settings: with a log, and with dumps of two databases. *)
Definition ex_log_conf : fk_conf := set_blog_on (set_max_conns fk_conf_default 3) 1.
Definition ex_dump_conf : fk_conf := set_dbcnt (set_dump (set_max_conns fk_conf_default 3) 1) 2.

Section example.
Abbreviation mgr := (fk_evmgr fk_select app).
Context (c : fk_conf).
Definition ex_disk : disk := Disk true true [] None.
Definition ex_watch : fk_select := Select ∅ ∅ (-1) (replicate 20 0).
Definition ex_open : gset Z := {[0; 1; 2]}.
Definition ex_no_script : bytes -> list bytes -> list bytes -> ST world unit := fun _ _ _ => mret tt.
Definition ex_dispatch : select_ans -> ST mgr Z :=
  fk_ev_dispatch (io_callback ex_os (disk_of 4096) true true ex_no_script) (tm_callback ex_os (disk_of 4096) true true 3) get_time.
Definition ex_reached : mgr -> Prop := reached ex_os (disk_of 4096) true true 3 ex_no_script ex_disk ex_clock ex_open 1 ex_watch c.

Definition ex_begin : mgr := match server_start ex_os (disk_of 4096) true true ex_no_script ex_disk ex_clock ex_open 1 ex_watch c with
  | Some (_, s) => s
  | None => first_mgr ex_disk ex_clock ex_open 1 ex_watch c
  end.
Definition ex_turn (ans : select_ans) (s : mgr) : mgr := match ex_dispatch ans s with Some (_, s') => s' | None => s end.

(** The client is accepted; sends twice; is sent the replies in two pieces. *)
Definition ex_accepted : mgr := ex_turn (SelectReady 1 {[3]} ∅) ex_begin.
Definition ex_request : mgr := ex_turn (SelectReady 1 {[4]} ∅) ex_accepted.
Definition ex_answered : mgr := ex_turn (SelectReady 2 {[4]} {[4]}) ex_request.
Definition ex_finished : mgr := ex_turn (SelectReady 1 ∅ {[4]}) ex_answered.

Definition ex_co (s : mgr) : conn_obj := match ap_conns (ev_user s) !! 3 with
  | Some co => co
  | None => ConnObj (new_conn 0 0 0) None None None [] 0 []
  end.

End example.

(** What follows holds for both settings. *)
Section example_runs.
Context (c : fk_conf) (Hc : c = ex_log_conf \/ c = ex_dump_conf).
Ltac both := destruct Hc as [E|E]; rewrite E; clear; vm_compute.

Lemma ex_server_ok : server_ok ex_os 3 ex_disk ex_open 1 ex_watch c.
Proof.
  split; [exact ex_os_ok|apply ex_calm|by both| | |done].
  - split; [split; try done; [by both..|vm_compute; lia]|done|by left].
  - destruct (select_create_ok 20) as (x & Ex & Hx & Hw); [unfold FD_SETSIZE; lia|].
    assert (x = ex_watch) as -> by (vm_compute in Ex; injection Ex as <-; reflexivity).
    assert (fk_util_conns_to_files (cf_max_conns c) = 20) as -> by by both. exact Hx.
Qed.

Lemma ex_reached_begin : ex_reached c (ex_begin c).
Proof. exists (ex_begin c). split; [both; reflexivity|apply rtc_refl]. Qed.

Lemma ex_reached_turn s ans : ex_reached c s -> fk_ev_get_nearest_tmev s <> None -> ex_reached c (ex_turn ans s).
Proof.
  intros Hr Hn. assert (answered s ans) as Ha by (intros pto Hp Hpto; by apply Hp in Hpto).
  unfold ex_turn, ex_dispatch. destruct (fk_ev_dispatch _ _ _ ans s) as [[rt s']|] eqn:E; [|exact Hr].
  destruct Hr as (s0 & E0 & R). exists s0. split; [exact E0|]. eapply rtc_r; [exact R|by econstructor].
Qed.

Lemma ex_reached_all : ex_reached c (ex_request c) /\ ex_reached c (ex_answered c) /\ ex_reached c (ex_finished c).
Proof.
  assert (ex_reached c (ex_accepted c)) as H1 by (apply ex_reached_turn; [exact ex_reached_begin|both; congruence]).
  assert (ex_reached c (ex_request c)) as H2 by (apply ex_reached_turn; [exact H1|both; congruence]).
  assert (ex_reached c (ex_answered c)) as H3 by (apply ex_reached_turn; [exact H2|both; congruence]).
  split; [exact H2|]. split; [exact H3|]. apply ex_reached_turn; [exact H3|both; congruence].
Qed.

(** The run does what it should: both replies are sent, and nothing is left to watch for. *)
Example ex_run : co_out (ex_co (ex_finished c)) = Some <$> (lit "+OK" ++ CRLF ++ lit "$1" ++ CRLF ++ lit "v" ++ CRLF) /\
  c_write_added (co_conn (ex_co (ex_answered c))) = 1 /\ c_write_added (co_conn (ex_co (ex_finished c))) = 0.
Proof. split_and!; both; reflexivity. Qed.

End example_runs.

(** Two clients and two databases: each works in the one that it has selected itself. *)
Definition ex_pair : os := Os (os_time ex_os) (os_new_fd ex_os) (fun n => if bool_decide (n <= 4)%nat then [Arrives; Arrives] else [])
  (fun id n => if negb (bool_decide (n = 0%nat)) then [] else
     if id =? 3 then [RecvData (encode [lit "SELECT"; lit "1"] ++ encode [lit "SET"; lit "k"; lit "v"] ++ encode [lit "GET"; lit "k"])]
     else if id =? 7 then [RecvData (encode [lit "SET"; lit "k"; lit "w"] ++ encode [lit "GET"; lit "k"])] else [])
  (fun _ => [Sent 100]) (os_rand ex_os) (os_wait ex_os) (os_fork ex_os).

Definition ex_pair_run : option (fk_evmgr fk_select app) :=
  '(_, s) ← server_start ex_pair (disk_of 4096) true true ex_no_script ex_disk ex_clock ex_open 1 ex_watch ex_dump_conf;
  '(_, s) ← server_cycle ex_pair (disk_of 4096) true true 3 ex_no_script [SelectReady 1 {[3]} ∅; SelectReady 2 {[4; 5]} ∅; SelectReady 2 ∅ {[4; 5]}] s;
  Some s.

Example ex_pair_does : (fun s => (a_db (store (ap_svr (ev_user s))), (fun id => co_out <$> (ap_conns (ev_user s) !! id)) <$> [3; 7])) <$> ex_pair_run =
  Some ([{[lit "k" := VStr (lit "w")]}; {[lit "k" := VStr (lit "v")]}],
    [Some (Some <$> (lit "+OK" ++ CRLF ++ lit "+OK" ++ CRLF ++ lit "$1" ++ CRLF ++ lit "v" ++ CRLF));
     Some (Some <$> (lit "+OK" ++ CRLF ++ lit "$1" ++ CRLF ++ lit "w" ++ CRLF))]).
Proof. vm_compute. reflexivity. Qed.

Lemma ex_co_lookup s : is_Some (ap_conns (ev_user s) !! 3) -> ap_conns (ev_user s) !! 3 = Some (ex_co s).
Proof. unfold ex_co. by intros [co ->]. Qed.

Lemma ex_connected : is_Some (ap_conns (ev_user (ex_answered ex_log_conf)) !! 3).
Proof. vm_compute. by eexists. Qed.

Lemma ex_run_ok : server_ok ex_os 3 ex_disk ex_open 1 ex_watch ex_log_conf.
Proof. exact (ex_server_ok ex_log_conf (or_introl eq_refl)). Qed.
Lemma ex_log_reached : ex_reached ex_log_conf (ex_answered ex_log_conf) /\ ex_reached ex_log_conf (ex_finished ex_log_conf).
Proof. exact (proj2 (ex_reached_all ex_log_conf (or_introl eq_refl))). Qed.

Lemma server_serialises_witness : co_out (ex_co (ex_finished ex_log_conf)) = Some <$> (lit "+OK" ++ CRLF ++ lit "$1" ++ CRLF ++ lit "v" ++ CRLF) /\
  bf_data (sv_blog (ap_svr (ev_user (ex_finished ex_log_conf)))) = Some <$> encode [lit "SET"; lit "k"; lit "v"] /\
  exists first h log, loads ex_disk ex_log_conf first /\
    history (disk_of 4096) true true ex_no_script true 1 (fun n => fk_util_tv2millis (sv_clock (ap_svr (ev_user (ex_finished ex_log_conf))) n)) first h (store (ap_svr (ev_user (ex_finished ex_log_conf)))) log /\
    log_holds true (ap_svr (ev_user (ex_finished ex_log_conf))) log /\
    (forall id, exists n, requests_of id h `prefix_of` reqs (feed (init []) (sent_by ex_os id n))) /\
    (forall id co, ap_conns (ev_user (ex_finished ex_log_conf)) !! id = Some co -> exists m q,
      sent_by ex_os id (co_reads co) = m ++ stream (co_in co) /\
      requests (feed (init []) m) = (requests_of id h, FK_SVR_OK, q) /\
      co_out co ++ payload (c_wbuf (co_conn co)) = replies_of id h /\ c_db_idx (co_conn co) = selected id h).
Proof.
  split; [vm_compute; reflexivity|]. split; [vm_compute; reflexivity|].
  exact (server_serialises ex_os (disk_of 4096) true true 3 ex_no_script ex_disk ex_clock ex_open 1 ex_watch ex_log_conf (ex_finished ex_log_conf)
    ex_run_ok (proj2 ex_log_reached)).
Defined.

Lemma ex_watched : 4 ∈ sl_saved_wset (ev_iompx (ex_answered ex_log_conf)).
Proof. refine (bool_decide_eq_true_1 (4 ∈ sl_saved_wset (ev_iompx (ex_answered ex_log_conf))) _). vm_compute. reflexivity. Qed.

Lemma server_never_stuck_witness : ex_reached ex_log_conf (ex_answered ex_log_conf) /\ exists rt s', ex_dispatch (SelectReady 1 ∅ {[4]}) (ex_answered ex_log_conf) = Some (rt, s').
Proof.
  split; [exact (proj1 ex_log_reached)|].
  destruct (server_never_stuck ex_os (disk_of 4096) true true 3 ex_no_script ex_disk ex_clock ex_open 1 ex_watch ex_log_conf ex_run_ok) as [_ H].
  destruct (H (ex_answered ex_log_conf) (proj1 ex_log_reached)) as (_ & _ & _ & Ht).
  destruct (Ht (SelectReady 1 ∅ {[4]})) as [H1 H2].
  2: { destruct H1 as (rt & s' & E & _); [|exists rt, s'; exact E]. apply H2, select_reports; [apply empty_subseteq|].
    apply singleton_subseteq_l. exact ex_watched. }
  assert (fk_ev_get_nearest_tmev (ex_answered ex_log_conf) <> None) as Hn by (vm_compute; congruence). intros pto Hp Hpto. exact (Hn (proj1 Hp Hpto)).
Defined.

Lemma replies_are_watched_witness : payload (c_wbuf (co_conn (ex_co (ex_answered ex_log_conf)))) <> [] /\
  Z.land (watch (ev_iompx (ex_answered ex_log_conf)) (c_fd (co_conn (ex_co (ex_answered ex_log_conf))))) FK_IOEV_WRITE <> 0.
Proof.
  assert (payload (c_wbuf (co_conn (ex_co (ex_answered ex_log_conf)))) <> []) as Hp by (vm_compute; congruence). split; [exact Hp|].
  destruct (replies_are_watched ex_os (disk_of 4096) true true 3 ex_no_script ex_disk ex_clock ex_open 1 ex_watch ex_log_conf (ex_answered ex_log_conf) 3
    (ex_co (ex_answered ex_log_conf)) ex_run_ok (proj1 ex_log_reached) (ex_co_lookup _ ex_connected)) as [_ H].
  exact (proj1 (H Hp)).
Defined.

Lemma write_cb_sends_witness : exists s', fk_conn_write_cb ex_os 3 (ex_answered ex_log_conf) = Some (tt, s') /\
  (ap_conns (ev_user s') !! 3 = None /\ SendError ∈ [Sent 3; Sent 100] \/ exists co', ap_conns (ev_user s') !! 3 = Some co' /\
    sent_more [Sent 3; Sent 100] (ex_co (ex_answered ex_log_conf)) co' /\
    c_write_added (co_conn co') = if fk_buf_payload_len (c_wbuf (co_conn co')) =? 0 then 0 else 1).
Proof.
  refine (write_cb_sends ex_os (disk_of 4096) true true 3 ex_no_script ex_disk ex_clock ex_open 1 ex_watch ex_log_conf (ex_answered ex_log_conf) 3
    (ex_co (ex_answered ex_log_conf)) ex_run_ok (proj1 ex_log_reached) (ex_co_lookup _ ex_connected) _).
  vm_compute. reflexivity.
Defined.

Lemma idle_client_is_closed_witness : exists s',
  fk_conn_timer_cb ex_os 3 (ex_answered ex_log_conf) = Some (0, s') /\ ev_user s' = ap_set_calls (ev_user (ex_answered ex_log_conf)) (S (ap_calls (ev_user (ex_answered ex_log_conf)))).
Proof.
  pose proof (idle_client_is_closed ex_os (disk_of 4096) true true 3 ex_no_script ex_disk ex_clock ex_open 1 ex_watch ex_log_conf (ex_answered ex_log_conf) 3
    (ex_co (ex_answered ex_log_conf)) ex_run_ok (proj1 ex_log_reached) (ex_co_lookup _ ex_connected)) as H. cbv zeta in H.
  assert ((cf_timeout (sv_setting (ap_svr (ev_user (ex_answered ex_log_conf)))) <?
    os_time ex_os (ap_calls (ev_user (ex_answered ex_log_conf))) - c_last_recv (co_conn (ex_co (ex_answered ex_log_conf)))) = false) as E by (vm_compute; reflexivity).
  rewrite E in H. exact H.
Defined.

(** After the start, [accept] fails at the next question to the kernel. *)
Definition ex_failing : os := Os (os_time ex_os) (os_new_fd ex_os) (fun n => if bool_decide (n = 4%nat) then [AcceptFails] else [])
  (os_packets ex_os) (os_send ex_os) (os_rand ex_os) (os_wait ex_os) (os_fork ex_os).

Lemma accept_error_undefined_witness : ap_calls (ev_user (ex_begin ex_log_conf)) = 4%nat /\ fk_svr_listen_cb ex_failing (ex_begin ex_log_conf) = None.
Proof.
  split; [vm_compute; reflexivity|]. apply (accept_error_undefined ex_failing [] (ex_begin ex_log_conf)); [vm_compute; congruence|vm_compute; reflexivity].
Defined.

(** A server whose child with the pid 99 saves the databases. *)
Definition ex_saving : fk_svr := sv_set_pids ex_svr 99 (-1).

Lemma failed_save_is_final_witness :
  save_rounds (disk_of 4096) true true [(ChildEnded false, 5, 1); (ChildNone, 8, 100); (ChildNone, 11, 101)] ex_saving = Some ex_saving.
Proof.
  apply (failed_save_is_final (disk_of 4096) true true ex_saving 5 1 [(ChildNone, 8, 100); (ChildNone, 11, 101)]); [discriminate|by repeat constructor].
Defined.
