(* ===== verification/Stop.v ===== *)
(** The end of the server and the next start: a signal ends the main loop, and a server
    that dumps its databases at the end finds them again. *)
From S2P Require Import Prelude Util Buf Dict Item Conf Svr Req Parse Store.
From S2P Require Import CmdStr CmdHash CmdList CmdDb CmdProps Kdb KdbProps Blog Proto ProtoProps Stream Serve Effects Conn Load.
From S2P Require Import Heap Ev EvProps EvView Select Cron Life LifeProps LifeSafe Main Server.
Import Req.

(** ** Nothing takes a stop back *)

Lemma bind_inv {T B C} (m : ST T B) (k : B -> ST T C) s r s' : (m ≫= k) s = Some (r, s') ->
  exists b s1, m s = Some (b, s1) /\ k b s1 = Some (r, s').
Proof. unfold mbind, ST_bind. destruct (m s) as [[b s1]|]; [|done]. by exists b, s1. Qed.

Section stays.
Context {X A : Type} `{!Mpx X A}.
Abbreviation mgr := (fk_evmgr X app).
Implicit Types (s : mgr).

Definition stays {B} (m : ST mgr B) : Prop := forall s b s', m s = Some (b, s') -> ev_stop s = true -> ev_stop s' = true.

Lemma stays_ret {B} (b : B) : stays (mret b).
Proof. by intros s c s' [= _ <-]. Qed.
Lemma stays_bind {B C} (m : ST mgr B) (k : B -> ST mgr C) : stays m -> (forall b, stays (k b)) -> stays (m ≫= k).
Proof.
  intros Hm Hk s c s'. unfold mbind, ST_bind. destruct (m s) as [[b s1]|] eqn:E; [|done].
  intros H Hs. eapply Hk; [exact H|]. by eapply Hm.
Qed.
Lemma stays_lift {B} (x : option B) : stays (st_lift x).
Proof. intros s b s'. unfold st_lift. destruct x; [|done]. by intros [= _ <-]. Qed.
Lemma stays_get : stays st_get.
Proof. by intros s b s' [= _ <-]. Qed.
Lemma stays_mod f : (forall s, ev_stop s = true -> ev_stop (f s) = true) -> stays (st_mod f).
Proof. intros H s b s' [= _ <-]. apply H. Qed.
Lemma stays_app : stays get_app.
Proof. by intros s b s' [= _ <-]. Qed.
Lemma stays_mod_app f : stays (mod_app f).
Proof. by intros s b s' [= _ <-]. Qed.
Lemma stays_get_ioev id : stays (get_ioev id).
Proof. intros s b s'. unfold get_ioev. case_match; [|done]. by intros [= _ <-]. Qed.
Lemma stays_get_tmev id : stays (get_tmev id).
Proof. intros s b s'. unfold get_tmev. case_match; [|done]. by intros [= _ <-]. Qed.
Lemma stays_slots fd type v : stays (set_ev_slots fd type v).
Proof. intros s b s'. unfold set_ev_slots. repeat case_match; try done. all: by intros [= _ <-]. Qed.
Lemma stays_on_heap f : stays (on_heap f).
Proof. intros s b s'. unfold on_heap. case_match; [|done]. by intros [= _ <-]. Qed.

Create HintDb stays.
#[local] Hint Resolve stays_ret stays_lift stays_get stays_app stays_mod_app stays_get_ioev stays_get_tmev
  stays_slots stays_on_heap : stays.
Ltac stays_tac := repeat first
  [ progress eauto 2 with stays | apply stays_bind; [|intros ?] | apply stays_mod; by intros | case_match ].

Lemma stays_remove_ioev id : stays (fk_ev_remove_ioev id).
Proof. unfold fk_ev_remove_ioev, drop_act, ioev_stat. stays_tac. Qed.
Lemma stays_remove_tmev id : stays (fk_ev_remove_tmev id).
Proof. unfold fk_ev_remove_tmev, drop_exp, drop_old, tmev_stat. stays_tac. Qed.
Lemma stays_ask : stays ask.
Proof. unfold ask. stays_tac. Qed.
Lemma stays_on_svr {B} (m : ST world B) : stays (on_svr m).
Proof. unfold on_svr. stays_tac. Qed.
Lemma stays_lift_svr f : stays (lift_svr f).
Proof. unfold lift_svr. stays_tac. Qed.
Lemma stays_get_conn c : stays (get_conn c).
Proof. unfold get_conn. stays_tac. Qed.
#[local] Hint Resolve stays_remove_ioev stays_remove_tmev stays_ask stays_on_svr stays_lift_svr stays_get_conn : stays.
Lemma stays_on_conn {B} c (m : ST world B) : stays (on_conn c m).
Proof. unfold on_conn, put_conn. stays_tac. Qed.
#[local] Hint Resolve stays_on_conn : stays.
Lemma stays_destroy_events x : stays (destroy_events x).
Proof. unfold destroy_events, fk_ioev_destroy, fk_tmev_destroy. stays_tac. Qed.
#[local] Hint Resolve stays_destroy_events : stays.
Lemma stays_remove_conn c : stays (fk_svr_remove_conn c).
Proof. unfold fk_svr_remove_conn, set_tab, mod_server, fk_conn_destroy. stays_tac. Qed.
#[local] Hint Resolve stays_remove_conn : stays.

Context (o : os) (room : stdio) (fopen_ok rename_ok : bool) (clear_fuel : nat).
Abbreviation tmcb := (tm_callback o room fopen_ok rename_ok clear_fuel).

Lemma stays_tmcb cb iv ty : stays (tmcb cb iv ty).
Proof.
  unfold tm_callback, fk_svr_timer_cb, fk_conn_timer_cb, mod_server. stays_tac.
Qed.

(** What follows the callback of a timer. *)
Lemma stays_again id iv (b : bool) : stays (if b then
  _ ← drop_old id;
  now ← get_time;
  t' ← get_tmev id;
  _ ← st_mod (fun s => set_tmev s id (tm_set_when t' (fk_util_cal_expire now iv)));
  _ ← on_heap (fun cmp h => fk_heap_push cmp h id);
  tmev_stat id FK_TMEV_PENDING else mret tt).
Proof. unfold drop_old, get_time, tmev_stat. stays_tac. Qed.

Lemma stays_proc_expired f : stays (proc_expired_loop tmcb get_time f).
Proof.
  induction f as [|f IH]; [by intros s b s'|]. cbn [proc_expired_loop].
  apply stays_bind; [apply stays_get|]. intros s. case_match; [apply stays_ret|].
  unfold drop_exp, tmev_stat. repeat first [apply stays_tmcb | apply stays_again | apply IH | progress stays_tac].
Qed.
End stays.

Section stop.
Context {X A : Type} `{!Mpx X A, !MpxLaws X A, !MpxReliable X A}.
Context (o : os) (room : stdio) (fopen_ok rename_ok : bool) (clear_fuel : nat).
Context (run_script : bytes -> list bytes -> list bytes -> ST world unit).
Context (d : disk) (clock : nat -> timeval) (open : gset Z) (next : Z) (x : X) (c : fk_conf).
Abbreviation mgr := (fk_evmgr X app).
Abbreviation tmcb := (tm_callback o room fopen_ok rename_ok clear_fuel).
Abbreviation cycle := (server_cycle o room fopen_ok rename_ok clear_fuel run_script).
Abbreviation live := (alive o room fopen_ok rename_ok run_script d open next c).
Implicit Types (s : mgr).

(** A signal to end has come. *)
Definition signalled (a : app) : Prop := ap_sigint a = 1 \/ ap_sigterm a = 1.

Lemma signal_flag sig s s' : sig = SIGINT \/ sig = SIGTERM -> fk_svr_signal_exit_handler sig s = Some (tt, s') ->
  signalled (ev_user s').
Proof. intros [-> | ->] [= <-]; [by left|by right]. Qed.

Lemma cycle_stopped s answers : ev_stop s = true -> cycle answers s = Some (tt, s).
Proof. intros H. unfold server_cycle. destruct answers; cbn [fk_ev_cycle]; unfold mbind, ST_bind, st_get; by rewrite H. Qed.

(** After a signal the callback of the timer of the server only looks after the children. *)
Lemma svr_timer_stops s rt s' : signalled (ev_user s) ->
  tmcb SVR_TIMER_CB 3000 FK_TMEV_CYCLE s = Some (rt, s') -> ev_stop s' = true.
Proof.
  intros Hs. unfold tm_callback, fk_svr_timer_cb. rewrite Z.eqb_refl.
  intros (? & s1 & [= _ <-] & H)%bind_inv.
  apply bind_inv in H as (n & s2 & [= _ <-] & H). apply bind_inv in H as ([] & s3 & E3 & H).
  apply bind_inv in H as (n2 & s4 & [= _ <-] & H). apply bind_inv in H as ([] & s5 & E5 & H).
  assert (forall f (s s' : mgr) u, signalled (ev_user s) -> lift_svr f s = Some (u, s') -> signalled (ev_user s')) as Hlift.
  { intros f s0 s0' u Hs0. unfold lift_svr, get_app, mod_app, st_gets. st_run. destruct (f _); [|done]. by intros [= _ <-]. }
  assert (signalled (ev_user s3)) as G3 by (eapply Hlift; [|exact E3]; exact Hs).
  assert (signalled (ev_user s5)) as G5 by (eapply Hlift; [|exact E5]; exact G3).
  apply bind_inv in H as (a & s6 & [= <- <-] & H).
  assert ((ap_sigint (ev_user s5) =? 1) || (ap_sigterm (ev_user s5) =? 1) = true) as E
    by (destruct G5 as [-> | ->]; [done|apply orb_true_r]).
  rewrite E in H. apply bind_inv in H as (? & s7 & [= _ <-] & [= _ <-]). done.
Qed.

(** When the loop over the expired timers comes to that of the server. *)
Lemma expired_stops f s s' l : live (view s) -> signalled (ev_user s) -> ev_exp_tmev s = next + 1 :: l ->
  proc_expired_loop tmcb get_time (S f) s = Some (tt, s') -> ev_stop s' = true.
Proof.
  intros (first & _ & h & L) Hs El. cbn [proc_expired_loop]. intros H.
  apply bind_inv in H as (? & ? & [= <- <-] & H). rewrite El in H.
  pose proof (eo_timer (li_events L)) as Ht. apply v_tm_lookup in Ht as (t & Ht & Ety & Eiv & Ecb & _).
  apply bind_inv in H as (t' & s1 & E1 & H). unfold get_tmev in E1. rewrite Ht in E1. injection E1 as <- <-.
  rewrite Ety, Eiv, Ecb in H. clear L Ht.
  apply bind_inv in H as ([] & s1 & E1 & H). assert (ev_user s1 = ev_user s) as U1.
  { revert E1. unfold drop_exp. st_run. destruct (list_drop _ _); [|done]. by intros [= <-]. }
  apply bind_inv in H as (? & s2 & [= _ <-] & H). apply bind_inv in H as ([] & s3 & E3 & H).
  assert (ev_user s3 = ev_user s1) as U3.
  { apply bind_inv in E3 as (t2 & s4 & E4 & [= <-]). revert E4. unfold get_tmev. case_match; [|done]. by intros [= _ <-]. }
  apply bind_inv in H as (rt & s4 & E4 & H). apply svr_timer_stops in E4; [|by rewrite U3, U1].
  apply bind_inv in H as ([] & s5 & E5 & H). apply (stays_again (next + 1) _ _ _ _ _ E5) in E4.
  by apply (stays_proc_expired _ _ _ _ _ _ _ _ _ H).
Qed.

(** C21. A signal to end (SIGINT or SIGTERM) ends the server: when the turn of the main
    loop comes to the timer of the server, which is always there, the timers that have
    expired with it are still served, the loop then ends whatever the kernel would
    answer, and the store, the connections and the log are still those of a history of
    the server. *)
Theorem signal_stops s sig s1 l : server_ok o clear_fuel d open next x c -> ev_inv s -> live (view s) ->
  sig = SIGINT \/ sig = SIGTERM -> fk_svr_signal_exit_handler sig s = Some (tt, s1) ->
  ev_act_ioev s = [] -> ev_exp_tmev s = next + 1 :: l ->
  exists s2, fk_ev_proc_expired_tmev tmcb get_time s1 = Some (tt, s2) /\
    ev_inv s2 /\ live (view s2) /\ ev_stop s2 = true /\ forall answers, cycle answers s2 = Some (tt, s2).
Proof.
  intros Hok I L Hsig E Ha El.
  destruct (signal_safe o room fopen_ok rename_ok run_script d open next c s sig s1 I L E) as [I1 (first & Hl & L1)].
  pose proof (signal_flag _ _ _ Hsig E) as Hs. injection E as <-. set (s1 := set_user s _) in *.
  unfold fk_ev_proc_expired_tmev. change (ev_exp_tmev s1) with (ev_exp_tmev s).
  destruct (proc_expired_loop_ok tmcb get_time (fun v => exists h, life_inv o room fopen_ok rename_ok run_script c first (os_new_fd o open)
    next (next + 1) (Z.of_nat (size open) + 1) h AtRest v)) with (S (length (ev_exp_tmev s))) s1 as (s2 & E2 & I2 & _ & _ & L2 & _); try done.
  - intros id t s2. eapply tmcb_safe; apply Hok.
  - intros s2. by eapply get_time_safe.
  - change (ev_exp_tmev s1) with (ev_exp_tmev s). lia.
  - assert (ev_stop s2 = true) as H by (eapply (expired_stops _ s1); [by exists first|exact Hs|exact El|exact E2]).
    exists s2. split; [exact E2|]. split; [exact I2|]. split; [by exists first|]. split; [exact H|].
    intros answers. by apply cycle_stopped.
Qed.

(** ** The next start *)

(** The dump of a server that can be dumped is the only thing that changes at the end. *)
Lemma exit_saves (s : fk_svr) : cf_dump (sv_setting s) = 1 -> svr_dumpable s -> zlen (r_file s) <= io_room room ->
  fk_svr_exit room true true s = Some (EXIT_SUCCESS, sv_set_kdb s (Some (r_file s))).
Proof. intros Hd Hs Hr. unfold fk_svr_exit. rewrite Hd, kdb_save_ok by done. done. Qed.

(** C12. A restart restores the data: when a server that dumps and does not log ends
    with data that a dump can hold ([store_dumpable]: no empty key or field, no
    skiplist, numbers and lengths in 64 bits) and that fit on the disk, it exits with
    success, and the next server that starts with the same setting and the file it left
    holds the same keys, values and expiry times. *)
Theorem restart_restores s o' clock' : server_ok o clear_fuel d open next x c ->
  reached o room fopen_ok rename_ok clear_fuel run_script d clock open next x c s ->
  cf_dump c = 1 -> cf_blog_on c <> 1 -> let sv := ap_svr (ev_user s) in
  store_dumpable (store sv) -> zlen (r_file sv) <= io_room room -> os_ok o' ->
  exists sv', fk_svr_exit room true true sv = Some (EXIT_SUCCESS, sv') /\
  exists s0, server_start o' room fopen_ok rename_ok run_script (Disk (dk_listen d) (dk_blog_open d) (dk_blog d) (sv_kdb sv'))
      clock' open next x c = Some (tt, s0) /\
    a_db (store (ap_svr (ev_user s0))) = a_db (store sv) /\ a_exp (store (ap_svr (ev_user s0))) = a_exp (store sv).
Proof.
  intros Hok Hr Hd Hb sv [S1 S2] Hroom K'.
  destruct (reached_inv o room fopen_ok rename_ok clear_fuel run_script d clock open next x c s Hok Hr) as (_ & first & _ & h & L).
  pose proof (li_svr L) as G. change (ap_svr (v_user (view s))) with sv in G.
  assert (sv_setting sv = c) as Ec by exact (li_conf L).
  pose proof (svr_dumpable_store sv (sg_inv _ G) S1 S2) as Hs. exists (sv_set_kdb sv (Some (r_file sv))).
  split; [apply exit_saves; [by rewrite Ec|done|done]|]. set (d' := Disk _ _ _ _).
  assert (start_ok d' open next c) as S'.
  { destruct (so_start _ _ _ _ _ _ _ Hok) as [[] Hbl _]. split; [by split|exact Hbl|]. right. exists sv. split; [|done].
    split; [exact Hs|unfold sv_dbcnt; by rewrite Ec|apply G]. }
  destruct (start_does o' room fopen_ok rename_ok run_script d' clock' open next x c K' S') as (s0 & s' & n & E & _ & V & St);
    [apply Hok|apply Hok|].
  exists s0. split; [exact E|]. assert (ap_svr (ev_user s0) = s') as ->.
  { change (ev_user s0) with (v_user (view s0)). by rewrite V. }
  pose proof (sd_loads _ _ _ St) as Hl. unfold loads in Hl. rewrite Hd, (proj2 (Z.eqb_neq _ _) Hb) in Hl. cbn in Hl.
  destruct Hl as (s1 & [Hs1 Ec1 _] & Ef & E1 & E2).
  unfold store. cbn [a_db a_exp]. rewrite E1, E2. apply r_file_inj; [done..| |done].
  rewrite Ec1. unfold sv_dbcnt. by rewrite Ec.
Qed.
End stop.

(** ** Instances *)

(** The server of the run of [Server] when its timer has expired, and nothing is to read
    or to write. *)
Definition ex_late : fk_evmgr fk_select app :=
  match fk_ev_update_pending_tmev (Timeval 1100 0) (ex_begin ex_log_conf) with
  | Some (_, s) => s
  | None => ex_begin ex_log_conf
  end.

Lemma ex_late_inv : ev_inv ex_late /\
  alive ex_os (disk_of 4096) true true ex_no_script ex_disk ex_open 1 ex_log_conf (view ex_late).
Proof.
  destruct (reached_inv ex_os (disk_of 4096) true true 3 ex_no_script ex_disk ex_clock ex_open 1 ex_watch ex_log_conf (ex_begin ex_log_conf)
    ex_run_ok (ex_reached_begin ex_log_conf (or_introl eq_refl))) as [I L].
  unfold ex_late, fk_ev_update_pending_tmev.
  destruct (update_pending_loop_ok (S (Z.to_nat (hp_last (ev_timer_heap (ex_begin ex_log_conf))))) (Timeval 1100 0)
    (ex_begin ex_log_conf) I) as (s & -> & I' & V & _); [lia|].
  split; [exact I'|]. rewrite V. exact L.
Qed.

Definition ex_signalled : fk_evmgr fk_select app := set_user ex_late (ap_set_sig (ev_user ex_late) 0 1).

Lemma signal_stops_witness : ev_stop ex_signalled = false /\ exists s2,
  fk_ev_proc_expired_tmev (tm_callback ex_os (disk_of 4096) true true 3) get_time ex_signalled = Some (tt, s2) /\ ev_stop s2 = true.
Proof.
  split; [vm_compute; reflexivity|].
  destruct (signal_stops ex_os (disk_of 4096) true true 3 ex_no_script ex_disk ex_open 1 ex_watch ex_log_conf ex_late SIGTERM ex_signalled []
    ex_run_ok (proj1 ex_late_inv) (proj2 ex_late_inv) (or_intror eq_refl)) as (s2 & E & _ & _ & H & _);
    [vm_compute; reflexivity|vm_compute; reflexivity|vm_compute; reflexivity|].
  exists s2. split; [exact E|exact H].
Defined.

(** The store after the run: the client has set the key "k". *)
Lemma ex_store : let a := store (ap_svr (ev_user (ex_finished ex_dump_conf))) in
  a_db a = [{[lit "k" := VStr (lit "v")]}; ∅] /\ a_exp a = [∅; ∅].
Proof. split; vm_compute; reflexivity. Qed.

Lemma ex_store_dumpable : store_dumpable (store (ap_svr (ev_user (ex_finished ex_dump_conf)))).
Proof.
  destruct ex_store as [E1 E2]. unfold store_dumpable. rewrite E1, E2.
  split; (constructor; [|constructor; [|constructor]]); (split; [vm_compute; reflexivity|]); rewrite ?fmap_empty; try apply map_Forall_empty.
  apply map_Forall_singleton. split; [split; vm_compute; congruence|exact I].
Qed.

Lemma restart_restores_witness : let sv := ap_svr (ev_user (ex_finished ex_dump_conf)) in
  exists sv', fk_svr_exit (disk_of 4096) true true sv = Some (EXIT_SUCCESS, sv') /\
  exists s0, server_start ex_os (disk_of 4096) true true ex_no_script (Disk true true [] (sv_kdb sv')) ex_clock ex_open 1 ex_watch ex_dump_conf = Some (tt, s0) /\
    a_db (store (ap_svr (ev_user s0))) = [{[lit "k" := VStr (lit "v")]}; ∅].
Proof.
  destruct (restart_restores ex_os (disk_of 4096) true true 3 ex_no_script ex_disk ex_clock ex_open 1 ex_watch ex_dump_conf (ex_finished ex_dump_conf)
    ex_os ex_clock (ex_server_ok ex_dump_conf (or_intror eq_refl)) (proj2 (proj2 (ex_reached_all ex_dump_conf (or_intror eq_refl)))))
    as (sv' & E & s0 & E0 & H & _); [vm_compute; reflexivity|vm_compute; congruence|exact ex_store_dumpable|
      vm_compute; congruence|exact ex_os_ok|].
  exists sv'. split; [exact E|]. exists s0. split; [exact E0|]. rewrite H. exact (proj1 ex_store).
Defined.
