(* ===== verification/Recover.v ===== *)
(** The next start of a server that logs: what its log restores. *)
From S2P Require Import Prelude Util Buf Dict Item Conf Svr Req Parse Store.
From S2P Require Import CmdStr CmdHash CmdList CmdDb CmdProps Kdb KdbProps Blog Proto ProtoProps Stream Serve Effects Conn Load Replay.
From S2P Require Import Heap Ev EvProps EvView Select Cron Life LifeProps LifeSafe Main Server.
Import Req.

(** ** The log of a history *)

(** The replies fitted; no key got an expiry time; only the first database was used; and
    no command has more arguments than the replay can take. *)
Definition plain_request (dbcnt : Z) (r : list bytes) : Prop :=
  plain_name dbcnt (fk_str_2upper (hd [] r)) /\ zlen r <= FK_VTR_INIT_LEN.
Definition plain (dbcnt : Z) (e : happening) : Prop :=
  match e with Served _ rs _ rt _ => rt = FK_SVR_OK /\ Forall (plain_request dbcnt) rs | _ => True end.

Lemma requests_of_served h c rs out rt i r : Served c rs out rt i ∈ h -> r ∈ rs -> r ∈ requests_of c h.
Proof.
  induction h as [|e h IH]; [by intros ?%elem_of_nil|]. intros [<-|Hin]%elem_of_cons Hr; cbn [requests_of fmap list_fmap concat].
  - rewrite Z.eqb_refl. by apply elem_of_app; left.
  - apply elem_of_app. right. by apply IH.
Qed.

Lemma codes_of_served h c rs out rt i : Served c rs out rt i ∈ h -> rt ∈ codes_of c h.
Proof.
  induction h as [|e h IH]; [by intros ?%elem_of_nil|]. intros [<-|Hin]%elem_of_cons; cbn [codes_of fmap list_fmap concat].
  - rewrite Z.eqb_refl. by left.
  - apply elem_of_app. right. by apply IH.
Qed.

Lemma expires_quiet now ks a : quiet a -> expires now ks a = a.
Proof.
  intros Q. unfold expires. induction ks as [|k ks IH]; [done|]. cbn [foldl]. unfold Spec.expire at 2.
  by rewrite (quiet_exp a Q), lookup_empty.
Qed.

Lemma put_idx_quiet a : quiet a -> put_idx 0 a = a.
Proof. destruct a. intros [_ E]. cbn in *. by subst. Qed.

Section recover.
Context (room : stdio) (fopen_ok rename_ok : bool).
Context (run_script : bytes -> list bytes -> list bytes -> ST world unit).
Abbreviation session := (session room fopen_ok rename_ok run_script).
Abbreviation history := (history room fopen_ok rename_ok run_script).

Lemma session_app_inv on now n rs1 rs2 a out log a2 : session on now n (rs1 ++ rs2) a out log FK_SVR_OK a2 ->
  exists o1 l1 b o2 l2, session on now n rs1 a o1 l1 FK_SVR_OK b /\ session on now n rs2 b o2 l2 FK_SVR_OK a2.
Proof.
  revert a out log. induction rs1 as [|r rs1 IH]; intros a out log H; [eexists _, _, a, _, _; split; [constructor|exact H]|].
  cbn in H. inversion H as [|name l rs ? s A b a1 out' log' ? ? Hr HA Hs|]; subst.
  destruct (IH _ _ _ Hs) as (o1 & l1 & b' & o2 & l2 & H1 & H2). eexists _, _, b', o2, l2. split; [by econstructor|done].
Qed.

Context (dbcnt : Z).

(** Replaying what the history logged gives the data the history led to. *)
Lemma history_entries now first h a log : history true dbcnt now first h a log -> Forall (eq ∅) (a_exp first) -> Forall (plain dbcnt) h ->
  quiet a /\ (forall c, selected c h = 0) /\ exists rs, log = concat (encode <$> rs) /\
    (forall r, r ∈ rs -> exists c r0, r0 ∈ requests_of c h /\ plain_request dbcnt r0 /\ r = entry r0) /\
    forall now' a' out log' a2, data a' = (a_db first, a_exp first, 0) -> session false now' dbcnt rs a' out log' FK_SVR_OK a2 -> data a2 = data a.
Proof.
  intros H Q. induction H as [t|h a log c rs out log' rt a' H IH Hs|h a log ks H IH|h a log H IH]; intros Hp.
  - split; [done|]. split; [done|]. exists []. split_and!; [done|by intros r Hr%elem_of_nil|].
    intros now' a' out log' a2 E Hs. inversion Hs; subst. by rewrite E.
  - apply Forall_app in Hp as [Hp [[-> Hr] _]%Forall_cons]. destruct (IH Hp) as (Qa & Hsel & rs1 & El & Hin & Hrun).
    rewrite Hsel, put_idx_quiet in Hs by done.
    destruct (session_entries _ _ _ _ dbcnt _ _ _ _ _ _ Hs Qa) as (Qa' & rs2 & El2 & Hin2 & Hrun2).
    { eapply Forall_impl; [exact Hr|]. by intros r []. }
    rewrite put_idx_quiet, (proj2 Qa') by done. split; [done|]. split.
    { intros c'. rewrite selected_snoc, Hsel. cbn. by destruct (_ =? _). }
    exists (rs1 ++ rs2). split; [by rewrite fmap_app, concat_app, El, El2|]. split.
    + intros r [Hr1|Hr2]%elem_of_app.
      * destruct (Hin r Hr1) as (c1 & r0 & Hr0 & ?). exists c1, r0. split; [|done].
        rewrite requests_of_snoc. by apply elem_of_app; left.
      * destruct (Hin2 r Hr2) as (r0 & Hr0 & ->). exists c, r0. split; [|split; [|done]].
        -- rewrite requests_of_snoc, Z.eqb_refl. by apply elem_of_app; right.
        -- rewrite Forall_forall in Hr. by apply Hr.
    + intros now' b out2 log2 a2 E H12. destruct (session_app_inv _ _ _ _ _ _ _ _ _ H12) as (o1 & l1 & b1 & o2 & l2 & S1 & S2).
      eapply Hrun2; [|exact S2]. by eapply Hrun.
  - apply Forall_app in Hp as [Hp _]. destruct (IH Hp) as (Qa & Hsel & rs & El & Hin & Hrun).
    rewrite expires_quiet by done. split; [done|]. split; [intros c; rewrite selected_snoc; apply Hsel|]. exists rs. split; [done|]. split; [|done].
    intros r Hr. destruct (Hin r Hr) as (c & r0 & Hr0 & ?). exists c, r0. split; [|done].
    rewrite requests_of_snoc. by apply elem_of_app; left.
  - apply Forall_app in Hp as [Hp _]. destruct (IH Hp) as (Qa & Hsel & rs & El & Hin & Hrun).
    split; [done|]. split; [intros c; rewrite selected_snoc; apply Hsel|]. exists rs. split; [done|]. split; [|done].
    intros r Hr. destruct (Hin r Hr) as (c & r0 & Hr0 & ?). exists c, r0. split; [|done].
    rewrite requests_of_snoc. by apply elem_of_app; left.
Qed.

(** Serving no request is no failure. *)
Lemma history_nothing on now first h a log c out rt i :
  history on dbcnt now first h a log -> Served c [] out rt i ∈ h -> rt = FK_SVR_OK.
Proof.
  induction 1 as [t|h a log c' rs out' log' rt' a' H IH Hs|h a log ks H IH|h a log H IH];
    [by intros ?%elem_of_nil|..]; (intros [Hin|Hin]%elem_of_app; [by apply IH|]);
    apply list_elem_of_singleton in Hin; [|done..].
  injection Hin as -> <- -> -> ->. by inversion Hs.
Qed.
End recover.

(** The entry of a request that can be logged can be replayed. *)
Lemma entry_ok c r : request_ok c r -> cf_blog_on c = 1 -> zlen r <= FK_VTR_INIT_LEN ->
  Forall arg_ok (entry r) /\ 1 <= zlen (entry r) <= FK_VTR_INIT_LEN /\ described (entry r) = true.
Proof.
  intros [Hd Ha _] Hon Hl. destruct r as [|name l]; [done|]. cbn [entry described] in *. split.
  - eapply Forall_impl; [exact (Ha Hon)|]. intros a [_ H]. unfold arg_ok, FK_ARG_HIGHWAT in *. lia.
  - rewrite !zlen_cons in *. pose proof (zlen_nonneg l). split; [lia|]. by rewrite fk_str_2upper_idem.
Qed.

(** ** Properties *)

Section restart.
Context {X A : Type} `{!Mpx X A, !MpxLaws X A, !MpxReliable X A}.
Context (o : os) (room : stdio) (fopen_ok rename_ok : bool) (clear_fuel : nat).
Context (run_script : bytes -> list bytes -> list bytes -> ST world unit).
Context (d : disk) (clock : nat -> timeval) (open : gset Z) (next : Z) (x : X) (c : fk_conf).
Abbreviation mgr := (fk_evmgr X app).
Abbreviation load := (fk_blog_load room fopen_ok rename_ok run_script).
Implicit Types (s : mgr).

(** A server that starts with a log. *)
Lemma start_replays o' d' clock' (P : unit -> world -> Prop) : os_ok o' -> setting_ok d' open next c ->
  mpx_ok (fk_util_conns_to_files (cf_max_conns c)) x -> (forall fd, watch x fd = 0) -> cf_blog_on c = 1 ->
  (forall sv now, emptied c sv -> wp load P (fk_blog_init sv (dk_blog d') now)) ->
  exists w0 w s0, load w0 = Some (tt, w) /\ P tt w /\
    server_start o' room fopen_ok rename_ok run_script d' clock' open next x c = Some (tt, s0) /\ ap_svr (ev_user s0) = w_svr w.
Proof.
  intros K S Hm Hw Hb HP. pose proof (st_conns _ _ _ _ S).
  assert (ev_inv (first_mgr d' clock' open next x c)) as I0.
  { apply ev_init_inv; [apply malloced_unwritten; unfold fk_util_conns_to_files; lia..|done|done]. }
  destruct (svr_init_opens o' room fopen_ok rename_ok run_script d' clock' open next x c _
    (fun _ v => exists w0 w, load w0 = Some (tt, w) /\ P tt w /\ ap_svr (v_user v) = w_svr w) K S eq_refl)
    with (first_mgr d' clock' open next x c) as ([] & s0 & E & _ & w0 & w & El & Hp & Es); [|done|done|by exists w0, w, s0].
  intros sv n Ev. apply does_bind. unfold svr_blog. apply does_get_app. cbn [v_start v_user ap_svr]. rewrite (em_setting _ _ Ev), Hb.
  cbn [Z.eqb Pos.eqb]. rewrite (st_blog_open _ _ _ _ S Hb). apply (does_lift _ tt); [done|]. apply does_ask.
  destruct (wp_elim _ _ _ (HP sv (os_time o' n) Ev)) as ([] & w & El & Hp). eapply does_lift; [exact El|].
  apply does_mod_app, does_ret. unfold svr_kdb. apply does_get_app. rewrite andb_false_r. apply does_ret.
  by exists (fk_blog_init sv (dk_blog d') (os_time o' n)), w.
Qed.

(** Nobody has left and everybody sends plain requests: the history is plain. *)
Lemma history_plain s h now first a log : server_ok o clear_fuel d open next x c ->
  (forall id n, Forall (plain_request (cf_dbcnt c)) (reqs (feed (init []) (sent_by o id n)))) ->
  (forall id n, id < ap_next (ev_user s) -> sent_by o id n <> [] -> is_Some (ap_conns (ev_user s) !! id)) ->
  history room fopen_ok rename_ok run_script true (cf_dbcnt c) now first h a log ->
  hist_ok o room fopen_ok rename_ok run_script c first h (ev_user s) ->
  (forall id co, ap_conns (ev_user s) !! id = Some co -> Forall (eq FK_SVR_OK) (codes_of id h)) ->
  Forall (plain (cf_dbcnt c)) h.
Proof.
  intros Hok Hr Hs Hh [_ Hsent Hnew] Hcodes. apply Forall_forall. intros [id rs out rt i| |] Hin; [|done..].
  assert (Forall (plain_request (cf_dbcnt c)) rs) as Hrs.
  { apply Forall_forall. intros r Hrr. pose proof (requests_of_served h id rs out rt i r Hin Hrr) as Hq.
    destruct (Hsent id) as [n [l El]]. specialize (Hr id n). rewrite Forall_forall in Hr. apply Hr. rewrite El.
    by apply elem_of_app; left. }
  split; [|done]. pose proof (codes_of_served h id rs out rt i Hin) as Hc.
  destruct (decide (ap_next (ev_user s) <= id)) as [Hn|Hn].
  { destruct (Hnew id Hn) as (_ & _ & E & _). rewrite E in Hc. by apply elem_of_nil in Hc. }
  destruct (Hsent id) as [n Hp]. destruct (decide (sent_by o id n = [])) as [E|E].
  - destruct rs as [|r rs]; [by eapply history_nothing|].
    pose proof (requests_of_served h id (r :: rs) out rt i r Hin ltac:(by left)) as Hq.
    rewrite E in Hp. change (reqs (feed (init []) [])) with (@nil (list bytes)) in Hp.
    apply prefix_nil_inv in Hp. rewrite Hp in Hq. by apply elem_of_nil in Hq.
  - destruct (Hs id n ltac:(lia) E) as [co Hco]. specialize (Hcodes id co Hco). rewrite Forall_forall in Hcodes.
    symmetry. by apply Hcodes.
Qed.

(** C13. A restart replays the log: if all clients that have sent something are still
    connected and all requests are plain (at most four arguments, no SETEX, and no
    SELECT if there are several databases) and the log is shorter than the limit of the
    read buffer (4 MB), the next server that starts with the same setting and the log of
    this one, whatever dump there is, holds the same keys and values, unless the write
    buffer of the replay, which nobody empties, has reached its limit. *)
Theorem log_restores s log o' clock' db :
  server_ok o clear_fuel d open next x c ->
  reached o room fopen_ok rename_ok clear_fuel run_script d clock open next x c s -> cf_blog_on c = 1 ->
  (forall id n, Forall (plain_request (cf_dbcnt c)) (reqs (feed (init []) (sent_by o id n)))) ->
  (forall id n, id < ap_next (ev_user s) -> sent_by o id n <> [] -> is_Some (ap_conns (ev_user s) !! id)) ->
  let sv := ap_svr (ev_user s) in
  bf_data (sv_blog sv) = Some <$> log -> zlen log < FK_BUF_HIGHWAT -> os_ok o' ->
  exists w0 w s0, load w0 = Some (tt, w) /\
    server_start o' room fopen_ok rename_ok run_script (Disk (dk_listen d) (dk_blog_open d) log db) clock' open next x c = Some (tt, s0) /\
    ap_svr (ev_user s0) = w_svr w /\
    (cf_max_wbuf c <= blen (c_wbuf (w_conn w)) \/
     a_db (store (ap_svr (ev_user s0))) = a_db (store sv) /\ a_exp (store (ap_svr (ev_user s0))) = a_exp (store sv)).
Proof.
  intros Hok Hr Hb Hplain Hstay sv Hlog Hl K'.
  destruct (reached_inv o room fopen_ok rename_ok clear_fuel run_script d clock open next x c s Hok Hr) as (_ & first & Hld & h & L).
  pose proof (li_hist L) as Hh. pose proof Hh as [(lg & Hrun & Hhold) Hsent _].
  unfold loads in Hld. rewrite Hb in *. cbn [Z.eqb Pos.eqb negb] in *. rewrite andb_false_r in Hld. destruct Hld as [Hd He].
  destruct (Hhold eq_refl) as [Hfile _]. change (ap_svr (v_user (view s))) with sv in *. rewrite Hlog in Hfile.
  apply (inj (fmap Some)) in Hfile as <-.
  assert (Forall (eq ∅) (a_exp first)) as Hq by (rewrite He; by apply Forall_replicate).
  assert (Forall (plain (cf_dbcnt c)) h) as Hp.
  { eapply history_plain; try done. intros id co Hx. by destruct (li_served L id co Hx) as [(m & q & _ & _ & _ & Hc & _) _]. }
  destruct (history_entries room fopen_ok rename_ok run_script _ _ first h _ log Hrun Hq Hp) as (_ & _ & rs & -> & Hin & Hrep).
  assert (setting_ok (Disk (dk_listen d) (dk_blog_open d) (concat (encode <$> rs)) db) open next c) as S
    by (destruct (so_start _ _ _ _ _ _ _ Hok) as [[] _ _]; by split).
  assert (Forall (fun r => Forall arg_ok r /\ 1 <= zlen r <= FK_VTR_INIT_LEN /\ described r = true) rs) as Hrs.
  { apply Forall_forall. intros r Hrr. destruct (Hin r Hrr) as (id & r0 & Hr0 & [_ Hlen] & ->). destruct (Hsent id) as [n Hpre].
    apply (entry_ok c); [|done..]. pose proof (so_calm _ _ _ _ _ _ _ Hok id n) as Hcalm.
    rewrite Forall_forall in Hcalm. apply Hcalm. destruct Hpre as [l El]. rewrite El. by apply elem_of_app; left. }
  destruct (start_replays o' _ clock' (fun _ w => cf_max_wbuf c <= blen (c_wbuf (w_conn w)) \/ data (abs w) = data (store sv)) K' S)
    as (w0 & w & s0 & El & Hw & E0 & Es); [apply Hok|apply Hok|done| |].
  - intros sv0 now Ev. eapply wp_mono.
    { apply blog_load_ok; [by eapply emptied_inv|rewrite (em_setting _ _ Ev); apply S|exact Hrs|exact Hl]. }
    intros _ w (rt & [_ _ (out & Hses & Hans & _)] & _).
    destruct Hans as (_ & Hhw & _ & [[-> _]|(_ & _ & Hfull)]); [right|left].
    + eapply Hrep; [|replace (cf_dbcnt c) with (sv_dbcnt (w_svr (fk_blog_init sv0 (concat (encode <$> rs)) now))); [exact Hses|]].
      * unfold data. cbn. by rewrite (em_db _ _ Ev), (em_exp _ _ Ev), Hd, He, !fmap_replicate.
      * unfold sv_dbcnt. cbn. by rewrite (em_setting _ _ Ev).
    + rewrite Hhw in Hfull. cbn in Hfull. by rewrite (em_setting _ _ Ev) in Hfull.
  - exists w0, w, s0. split; [exact El|]. split; [exact E0|]. split; [exact Es|]. destruct Hw as [Hw|Hw]; [by left|right].
    rewrite Es. by injection Hw.
Qed.
End restart.

Lemma ex_plain : plain_request 1 [lit "SET"; lit "k"; lit "v"] /\ plain_request 1 [lit "GET"; lit "k"].
Proof. by repeat split. Qed.

Lemma ex_still_connected : is_Some (ap_conns (ev_user (ex_finished ex_log_conf)) !! 3).
Proof. vm_compute. by eexists. Qed.

(** The run of [Server] that logs, and a start with its log and no dump. *)
Lemma log_restores_witness : let sv := ap_svr (ev_user (ex_finished ex_log_conf)) in
  bf_data (sv_blog sv) = Some <$> encode [lit "SET"; lit "k"; lit "v"] /\
  exists w0 w s0, fk_blog_load (disk_of 4096) true true ex_no_script w0 = Some (tt, w) /\
    server_start ex_os (disk_of 4096) true true ex_no_script (Disk true true (encode [lit "SET"; lit "k"; lit "v"]) None) ex_clock ex_open 1
      ex_watch ex_log_conf = Some (tt, s0) /\ ap_svr (ev_user s0) = w_svr w /\
    (cf_max_wbuf ex_log_conf <= blen (c_wbuf (w_conn w)) \/
     a_db (store (ap_svr (ev_user s0))) = a_db (store sv) /\ a_exp (store (ap_svr (ev_user s0))) = a_exp (store sv)).
Proof.
  assert (bf_data (sv_blog (ap_svr (ev_user (ex_finished ex_log_conf)))) = Some <$> encode [lit "SET"; lit "k"; lit "v"]) as E
    by (vm_compute; reflexivity).
  split; [exact E|].
  refine (log_restores ex_os (disk_of 4096) true true 3 ex_no_script ex_disk ex_clock ex_open 1 ex_watch ex_log_conf (ex_finished ex_log_conf)
    (encode [lit "SET"; lit "k"; lit "v"]) ex_os ex_clock None ex_run_ok (proj2 ex_log_reached) eq_refl _ _ E _ ex_os_ok).
  - apply ex_all; apply ex_plain.
  - intros id n _ Hs. destruct (Z.eq_dec id 3) as [->|Hne]; [exact ex_still_connected|].
    exfalso. exact (Hs (ex_silent id n Hne)).
  - vm_compute. reflexivity.
Defined.
