(* ===== verification/Linux.v ===== *)
(** The server over [epoll], the backend that the Makefile chooses on Linux: what the
    theorems of [Server] and [Stop] then assume of the kernel, and a run. *)
From S2P Require Import Prelude Util Buf Dict Item Conf Svr Req Parse Store.
From S2P Require Import CmdStr CmdHash CmdList CmdDb CmdProps Kdb KdbProps Blog Proto ProtoProps Stream Serve Effects Conn Load.
From S2P Require Import Heap Ev EvProps EvView Select Epoll Cron Life LifeProps LifeSafe Main Server.
Import Req.

Section linux.
Context {K : Type} (epoll_ctl : K -> Z -> Z -> Z -> Z * K) (interest : K -> Z -> option Z).
Hypothesis ctl_ok : ctl_spec epoll_ctl interest.
Hypothesis accepts : ctl_accepts epoll_ctl interest.
#[local] Instance linux_mpx : Mpx (fk_epoll K) epoll_ans := epoll_mpx epoll_ctl.
#[local] Instance linux_laws : MpxLaws (fk_epoll K) epoll_ans := epoll_laws epoll_ctl interest ctl_ok.
#[local] Instance linux_reliable : MpxReliable (fk_epoll K) epoll_ans := epoll_reliable epoll_ctl interest ctl_ok accepts.

(** A new epoll instance watches nothing. *)
Lemma linux_server_ok o clear_fuel d open next c k :
  os_ok o -> calm o c -> cf_dbcnt c < Z.of_nat clear_fuel -> start_ok d open next c ->
  (forall fd, interest k fd = None) ->
  server_ok o clear_fuel d open next (fk_epoll_create k (fk_util_conns_to_files (cf_max_conns c))) c.
Proof.
  intros Ho Hc Hf S Hk. pose proof (st_conns _ _ _ _ S).
  destruct (epoll_create_ok interest (fk_util_conns_to_files (cf_max_conns c)) k) as [Hx Hw];
    [unfold fk_util_conns_to_files; lia|exact Hk|]. by split.
Qed.
End linux.

(** ** The run of [Server] again *)

Lemma ex_ctl_accepts : ctl_accepts ex_ctl ex_interest.
Proof.
  intros k op fd ev H. unfold ex_ctl, ex_interest in *. destruct H as [[-> ->]|[Hop [m ->]]]; [done|].
  by destruct Hop as [->| ->].
Qed.

Section example.
#[local] Instance ex_linux : Mpx (fk_epoll (gmap Z Z)) epoll_ans := epoll_mpx ex_ctl.
Abbreviation mgr := (fk_evmgr (fk_epoll (gmap Z Z)) app).

(** The client is accepted; sends twice; is sent the replies in two pieces. *)
Definition linux_run : option mgr :=
  '(_, s) ← server_start ex_os (disk_of 4096) true true ex_no_script ex_disk ex_clock ex_open 1 (fk_epoll_create ∅ 20) ex_log_conf;
  '(_, s) ← server_cycle ex_os (disk_of 4096) true true 3 ex_no_script [EpollEvents [(3, EPOLLIN)]; EpollEvents [(4, EPOLLIN)];
    EpollEvents [(4, Z.lor EPOLLIN EPOLLOUT)]; EpollEvents [(4, EPOLLOUT)]] s;
  Some s.

Example linux_run_does :
  (fun s : mgr => (co_out <$> (ap_conns (ev_user s) !! 3), ep_efd (ev_iompx s))) <$> linux_run =
  Some (Some (Some <$> (lit "+OK" ++ CRLF ++ lit "$1" ++ CRLF ++ lit "v" ++ CRLF)), {[3 := EPOLLIN; 4 := EPOLLIN]}).
Proof. vm_compute. reflexivity. Qed.
End example.
