(* ===== verification/Bsd.v ===== *)
(** The event manager and the server over [kqueue], the backend on BSD: what the kernel
    watches, what the theorems of [Server] and [Stop] then assume of the kernel, and a run. *)
From S2P Require Import Prelude Util Buf Dict Item Conf Svr Req Parse Store.
From S2P Require Import CmdStr CmdHash CmdList CmdDb CmdProps Kdb KdbProps Blog Proto ProtoProps Stream Serve Effects Conn Load.
From S2P Require Import Heap Ev EvProps EvView Select Kqueue Cron Life LifeProps LifeSafe Main Server.
Import Req.

Section bsd.
Context {K : Type} (kevent : K -> Z -> Z -> Z -> Z * K) (filtered : K -> Z -> Z -> bool).
Hypothesis kevent_ok : kevent_spec kevent filtered.
#[local] Instance bsd_mpx : Mpx (fk_kqueue K) kqueue_ans := kqueue_mpx kevent.
#[local] Instance bsd_laws : MpxLaws (fk_kqueue K) kqueue_ans := kqueue_laws kevent filtered kevent_ok.

(** A consistent manager over [kqueue]: the filters of the kernel are its added events. *)
Lemma added_filtered {U} (s : fk_evmgr (fk_kqueue K) U) fd t : ev_inv s -> single t ->
  filtered (kq_kfd (ev_iompx s)) fd (filter_of t) = true <-> event_added (ev_ioevs s) fd t.
Proof.
  intros [I _] Ht. rewrite <- (watched_added _ _ _ _ _ _ _ _ _ I Ht).
  - cbn [watch bsd_laws kqueue_laws]. unfold kqueue_watch, filter_of. destruct Ht as [->| ->]; cbn [Z.eqb Pos.eqb FK_IOEV_READ FK_IOEV_WRITE];
      destruct (filtered _ fd EVFILT_READ), (filtered _ fd EVFILT_WRITE); done.
  - intros Hm. apply (ii_mpx _ _ _ _ _ _ _ I). intros E. cbn in Hm. by rewrite E in Hm.
Qed.

Section server.
Hypothesis accepts : kevent_accepts kevent filtered.
#[local] Instance bsd_reliable : MpxReliable (fk_kqueue K) kqueue_ans := kqueue_reliable kevent filtered kevent_ok accepts.

(** A new kqueue has no filters. *)
Lemma bsd_server_ok o clear_fuel d open next c k :
  os_ok o -> calm o c -> cf_dbcnt c < Z.of_nat clear_fuel -> start_ok d open next c ->
  (forall fd f, filtered k fd f = false) ->
  server_ok o clear_fuel d open next (fk_kqueue_create k (fk_util_conns_to_files (cf_max_conns c))) c.
Proof.
  intros Ho Hc Hf S Hk. destruct (kqueue_create_ok filtered (fk_util_conns_to_files (cf_max_conns c)) k Hk) as [Hx Hw]. by split.
Qed.
End server.
End bsd.

(** Over [kqueue], after any legal calls and dispatches and also when some calls of
    [kevent] fail, the kernel has a filter for a descriptor and a type exactly if an event
    of this type for it is added. *)
Theorem kqueue_watches_events {K U : Type} (kevent : K -> Z -> Z -> Z -> Z * K) (filtered : K -> Z -> Z -> bool)
    (kevent_ok : kevent_spec kevent filtered) iocb tmcb get_time k n m1 m2 (u : U) s fd t :
  let M := kqueue_mpx kevent in
  let L := kqueue_laws kevent filtered kevent_ok in
  (forall id e s, ev_inv s -> ev_ioevs s !! id = Some e -> io_activated e = FK_IOEV_PENDING ->
    exists s', iocb (io_cb e) (io_fd e) (io_type e) s = Some (tt, s') /\ calls s s') ->
  (forall id t s, ev_inv s -> ev_tmevs s !! id = Some t -> tm_expired t = FK_TMEV_OLD ->
    exists rt s', tmcb (tm_cb t) (tm_interval t) (tm_type t) s = Some (rt, s') /\ calls s s' /\
      (rt = 0 -> exists t', ev_tmevs s' !! id = Some t' /\ tm_expired t' = FK_TMEV_OLD)) ->
  (forall s, exists t u, get_time s = Some (t, set_user s u)) ->
  unwritten n m1 -> unwritten n m2 -> (forall fd f, filtered k fd f = false) ->
  rtc (ev_step iocb tmcb get_time) (fk_ev_init n m1 m2 (fk_kqueue_create k n) u) s ->
  single t -> filtered (kq_kfd (ev_iompx s)) fd (filter_of t) = true <-> event_added (ev_ioevs s) fd t.
Proof.
  intros M L Hi Ht Hg F1 F2 Hk Hr Hs. destruct (kqueue_create_ok filtered n k Hk) as [Hx Hw].
  apply (added_filtered kevent filtered kevent_ok); [|done].
  eapply (plain_steps iocb tmcb get_time Hi Ht Hg); [|exact Hr].
  by apply ev_init_inv.
Qed.

(** ** The run of [Server] again *)

Section example.
#[local] Instance ex_bsd : Mpx (fk_kqueue (gset (Z * Z))) kqueue_ans := kqueue_mpx ex_kevent.
Abbreviation mgr := (fk_evmgr (fk_kqueue (gset (Z * Z))) app).

(** The client is accepted; sends twice; is sent the replies in two pieces. *)
Definition bsd_run : option mgr :=
  '(_, s) ← server_start ex_os (disk_of 4096) true true ex_no_script ex_disk ex_clock ex_open 1 (fk_kqueue_create ∅ 20) ex_log_conf;
  '(_, s) ← server_cycle ex_os (disk_of 4096) true true 3 ex_no_script [KqueueEvents [(3, EVFILT_READ)]; KqueueEvents [(4, EVFILT_READ)];
    KqueueEvents [(4, EVFILT_READ); (4, EVFILT_WRITE)]; KqueueEvents [(4, EVFILT_WRITE)]] s;
  Some s.

Example bsd_run_does :
  (fun s : mgr => (co_out <$> (ap_conns (ev_user s) !! 3), kq_kfd (ev_iompx s))) <$> bsd_run =
  Some (Some (Some <$> (lit "+OK" ++ CRLF ++ lit "$1" ++ CRLF ++ lit "v" ++ CRLF)), {[(3, EVFILT_READ); (4, EVFILT_READ)]}).
Proof. vm_compute. reflexivity. Qed.

Lemma ex_bsd_ok : let L := kqueue_laws ex_kevent ex_filtered ex_kevent_ok in
  let R := kqueue_reliable ex_kevent ex_filtered ex_kevent_ok ex_kevent_accepts in
  start_ok ex_disk ex_open 1 ex_log_conf -> server_ok ex_os 3 ex_disk ex_open 1 (fk_kqueue_create ∅ 20) ex_log_conf.
Proof.
  intros L R S. exact (bsd_server_ok ex_kevent ex_filtered ex_kevent_ok ex_os 3 ex_disk ex_open 1 ex_log_conf ∅
    ex_os_ok (ex_calm _) eq_refl S (fun _ _ => eq_refl)).
Qed.
End example.
