(* ===== verification/Proc.v ===== *)
(** The process as freekick.c, fk_log.c and fk_sock.c see it: its descriptors, the regular
    files, its session, what it wrote, and a monad of programs that may end the process.

    What the kernel and the C library answer is a record [kernel]: the n-th question is
    answered by its n-th answer.  What they do when a call succeeds is written out after
    POSIX. *)
From S2P Require Import Prelude Util Conf Main Server.

(** ** Descriptors *)

(** What a descriptor refers to: a file it had at the start, a file by its absolute path,
    or a socket. *)
Inductive ofile := Inherited (n : Z) | File (path : bytes) | Sock (id : nat).

(** [sk_flags] is true when O_NONBLOCK is set. *)
Record sock := Socket {
  sk_nonblock : bool;
  sk_reuseaddr : bool;
  sk_keepalive : bool;
  sk_linger : option (Z * Z);
  sk_bound : option (Z * Z);
  sk_backlog : option Z
}.

Definition new_sock : sock := Socket false false false None None None.

#[export] Instance ofile_eq_dec : EqDecision ofile.
Proof. solve_decision. Defined.

(** ** The process *)

(** [logger] of fk_log.c; the file is a descriptor, NULL is [None]. *)
Record fk_log_t := FkLog { log_level : Z; log_file : option Z }.

(** Its process, process group and session, and whether it has a controlling terminal. *)
Record ids := Ids { pid : Z; pgid : Z; sid : Z; tty : bool }.

(** [p_shown] is what was written to the files the process had at the start; [p_out] the
    buffer of [stdout]; [p_handlers] the handlers with the signals that wait while they run. *)
Record proc := Proc {
  p_ids : ids;
  p_fds : gmap Z ofile;
  p_files : gmap bytes bytes;
  p_socks : list sock;
  p_shown : list (Z * bytes);
  p_out : bytes;
  p_umask : Z;
  p_cwd : bytes;
  p_handlers : gmap Z Z;
  p_nofile : rlimit;
  p_seed : option Z;
  p_log : fk_log_t;
  p_setting : fk_conf;
  p_calls : nat
}.

Definition p_set_ids (p : proc) (x : ids) : proc :=
  Proc x (p_fds p) (p_files p) (p_socks p) (p_shown p) (p_out p) (p_umask p) (p_cwd p) (p_handlers p) (p_nofile p) (p_seed p) (p_log p) (p_setting p) (p_calls p).
Definition p_set_fds (p : proc) (x : gmap Z ofile) : proc :=
  Proc (p_ids p) x (p_files p) (p_socks p) (p_shown p) (p_out p) (p_umask p) (p_cwd p) (p_handlers p) (p_nofile p) (p_seed p) (p_log p) (p_setting p) (p_calls p).
Definition p_set_files (p : proc) (x : gmap bytes bytes) : proc :=
  Proc (p_ids p) (p_fds p) x (p_socks p) (p_shown p) (p_out p) (p_umask p) (p_cwd p) (p_handlers p) (p_nofile p) (p_seed p) (p_log p) (p_setting p) (p_calls p).
Definition p_set_socks (p : proc) (x : list sock) : proc :=
  Proc (p_ids p) (p_fds p) (p_files p) x (p_shown p) (p_out p) (p_umask p) (p_cwd p) (p_handlers p) (p_nofile p) (p_seed p) (p_log p) (p_setting p) (p_calls p).
Definition p_set_shown (p : proc) (x : list (Z * bytes)) : proc :=
  Proc (p_ids p) (p_fds p) (p_files p) (p_socks p) x (p_out p) (p_umask p) (p_cwd p) (p_handlers p) (p_nofile p) (p_seed p) (p_log p) (p_setting p) (p_calls p).
Definition p_set_out (p : proc) (x : bytes) : proc :=
  Proc (p_ids p) (p_fds p) (p_files p) (p_socks p) (p_shown p) x (p_umask p) (p_cwd p) (p_handlers p) (p_nofile p) (p_seed p) (p_log p) (p_setting p) (p_calls p).
Definition p_set_umask (p : proc) (x : Z) : proc :=
  Proc (p_ids p) (p_fds p) (p_files p) (p_socks p) (p_shown p) (p_out p) x (p_cwd p) (p_handlers p) (p_nofile p) (p_seed p) (p_log p) (p_setting p) (p_calls p).
Definition p_set_cwd (p : proc) (x : bytes) : proc :=
  Proc (p_ids p) (p_fds p) (p_files p) (p_socks p) (p_shown p) (p_out p) (p_umask p) x (p_handlers p) (p_nofile p) (p_seed p) (p_log p) (p_setting p) (p_calls p).
Definition p_set_handlers (p : proc) (x : gmap Z Z) : proc :=
  Proc (p_ids p) (p_fds p) (p_files p) (p_socks p) (p_shown p) (p_out p) (p_umask p) (p_cwd p) x (p_nofile p) (p_seed p) (p_log p) (p_setting p) (p_calls p).
Definition p_set_nofile (p : proc) (x : rlimit) : proc :=
  Proc (p_ids p) (p_fds p) (p_files p) (p_socks p) (p_shown p) (p_out p) (p_umask p) (p_cwd p) (p_handlers p) x (p_seed p) (p_log p) (p_setting p) (p_calls p).
Definition p_set_seed (p : proc) (x : option Z) : proc :=
  Proc (p_ids p) (p_fds p) (p_files p) (p_socks p) (p_shown p) (p_out p) (p_umask p) (p_cwd p) (p_handlers p) (p_nofile p) x (p_log p) (p_setting p) (p_calls p).
Definition p_set_log (p : proc) (x : fk_log_t) : proc :=
  Proc (p_ids p) (p_fds p) (p_files p) (p_socks p) (p_shown p) (p_out p) (p_umask p) (p_cwd p) (p_handlers p) (p_nofile p) (p_seed p) x (p_setting p) (p_calls p).
Definition p_set_setting (p : proc) (x : fk_conf) : proc :=
  Proc (p_ids p) (p_fds p) (p_files p) (p_socks p) (p_shown p) (p_out p) (p_umask p) (p_cwd p) (p_handlers p) (p_nofile p) (p_seed p) (p_log p) x (p_calls p).
Definition p_set_calls (p : proc) (x : nat) : proc :=
  Proc (p_ids p) (p_fds p) (p_files p) (p_socks p) (p_shown p) (p_out p) (p_umask p) (p_cwd p) (p_handlers p) (p_nofile p) (p_seed p) (p_log p) (p_setting p) x.

(** ** Programs *)

(** [exit], [_exit] and [abort]. *)
Inductive ending := ByExit (code : Z) | ByUnderscoreExit (code : Z) | ByAbort.

(** [Undef] is undefined behaviour. *)
Inductive pres (A : Type) : Type :=
  | Go (x : A) (p : proc)
  | Ends (e : ending) (p : proc)
  | Undef.
Arguments Go {A} x p.
Arguments Ends {A} e p.
Arguments Undef {A}.

Definition PR (A : Type) : Type := proc -> pres A.

#[export] Instance PR_ret : MRet PR := fun A x p => Go x p.
#[export] Instance PR_bind : MBind PR := fun A B k m p =>
  match m p with Go x p' => k x p' | Ends e p' => Ends e p' | Undef => Undef end.

Definition pr_get : PR proc := fun p => Go p p.
Definition pr_mod (f : proc -> proc) : PR unit := fun p => Go tt (f p).
Definition pr_lift {A} (o : option A) : PR A := fun p => match o with Some x => Go x p | None => Undef end.

(** What a program does from a process on: it goes on with [Q], ends with [E], or is
    undefined and then [U] holds. *)
Definition pwp {A} (m : PR A) (Q : A -> proc -> Prop) (E : ending -> proc -> Prop) (U : Prop) (p : proc) : Prop :=
  match m p with Go x p' => Q x p' | Ends e p' => E e p' | Undef => U end.

Lemma pwp_bind {A B} (m : PR A) (f : A -> PR B) Q E U p :
  pwp m (fun x => pwp (f x) Q E U) E U p -> pwp (m ≫= f) Q E U p.
Proof. unfold pwp, mbind, PR_bind. by destruct (m p). Qed.

Lemma pwp_mono {A} (m : PR A) (Q Q' : A -> proc -> Prop) E U p :
  pwp m Q E U p -> (forall x p', Q x p' -> Q' x p') -> pwp m Q' E U p.
Proof. unfold pwp. destruct (m p); auto. Qed.

Lemma pwp_weaken {A} (m : PR A) (Q Q' : A -> proc -> Prop) E (U U' : Prop) p :
  pwp m Q E U p -> (U -> U') -> (forall x p', Q x p' -> Q' x p') -> pwp m Q' E U' p.
Proof. unfold pwp. destruct (m p); auto. Qed.

Lemma pwp_go {A} (m : PR A) Q E U p x p' : m p = Go x p' -> pwp m Q E U p -> Q x p'.
Proof. unfold pwp. by intros ->. Qed.

Lemma pwp_bind_ret {A} (m : PR A) Q E U p : pwp (x ← m; mret x) Q E U p -> pwp m Q E U p.
Proof. unfold pwp, mbind, PR_bind. by destruct (m p). Qed.

Lemma pr_bind_go {A B} (m : PR A) (f : A -> PR B) p x p' : m p = Go x p' -> (m ≫= f) p = f x p'.
Proof. unfold mbind, PR_bind. by intros ->. Qed.

Lemma pr_lift_go {A B} (o : option A) (f : A -> PR B) p x : o = Some x -> (pr_lift o ≫= f) p = f x p.
Proof. by intros ->. Qed.

(** ** The kernel *)

(** [fork] returns in both processes; the model follows one of them. *)
Inductive fork_ans := ForkFails | InParent (child : Z) | InChild (pid : Z).

(** [struct tm]. *)
Record tm := Tm { tm_sec : Z; tm_min : Z; tm_hour : Z; tm_mday : Z; tm_mon : Z; tm_year : Z }.

(** [k_ok n]: whether the n-th call succeeds, if it may fail for other reasons than its
    arguments; [k_err n] is the text of its error; [k_line]: [stdout] is a terminal. *)
Record kernel := Kernel {
  k_fork : nat -> fork_ans;
  k_ok : nat -> bool;
  k_err : nat -> bytes;
  k_time : nat -> Z;
  k_localtime : Z -> option tm;
  k_limit : option rlimit;
  k_euid : Z;
  k_inet_addr : bytes -> Z;
  k_line : bool
}.

Section kernel.
Context (k : kernel).

(** The number of the next question. *)
Definition question : PR nat := fun p => Go (p_calls p) (p_set_calls p (S (p_calls p))).
Definition succeeds : PR bool := n ← question; mret (k_ok k n).
Definition strerror : PR bytes := p ← pr_get; mret (k_err k (p_calls p)).
Definition time : PR Z := n ← question; mret (k_time k n).

Definition DEV_NULL : bytes := lit "/dev/null".

(** What a path means in a working directory. *)
Definition resolve (cwd path : bytes) : bytes :=
  match path with
  | c :: _ => if Ascii.eqb c "/"%char then path else cwd ++ "/"%char :: path
  | [] => cwd
  end.

(** [write(fd, s, n)], all of it; the errors are ignored by the standard library's streams. *)
Definition write_fd (fd : Z) (s : bytes) (p : proc) : proc :=
  match p_fds p !! fd with
  | Some (Inherited n) => p_set_shown p (p_shown p ++ [(n, s)])
  | Some (File path) =>
      if bool_decide (path = DEV_NULL) then p
      else p_set_files p (alter (fun old => old ++ s) path (p_files p))
  | _ => p
  end.

Definition STDIN_FILENO : Z := 0.
Definition STDOUT_FILENO : Z := 1.
Definition STDERR_FILENO : Z := 2.

Definition flush_out (p : proc) : proc :=
  match p_out p with [] => p | s => write_fd STDOUT_FILENO s (p_set_out p []) end.

(** [fprintf(stdout, s)] of a text that ends in a newline. *)
Definition print_out (s : bytes) : PR unit :=
  pr_mod (fun p => let p' := p_set_out p (p_out p ++ s) in if k_line k then flush_out p' else p').
Definition print_err (s : bytes) : PR unit := pr_mod (write_fd STDERR_FILENO s).
Definition fflush_stdout : PR unit := pr_mod flush_out.

(** [exit] writes what is in the buffers, [_exit] and [abort] do not. *)
Definition exit {A} (code : Z) : PR A := fun p => Ends (ByExit code) (flush_out p).
Definition exit_ {A} (code : Z) : PR A := fun p => Ends (ByUnderscoreExit code) p.
Definition abort {A} : PR A := fun p => Ends ByAbort p.

(** A new descriptor is the lowest that is free. *)
Definition new_fd (p : proc) : Z := lowest (S (size (dom (p_fds p)))) 0 (dom (p_fds p)).
Definition new_file (f : ofile) : PR Z := p ← pr_get;
  _ ← pr_mod (fun p => p_set_fds p (<[new_fd p := f]> (p_fds p)));
  mret (new_fd p).

(** [open("/dev/null", O_RDWR)], which needs no file to be made. *)
Definition open_null : PR Z := ok ← succeeds; if (ok : bool) then new_file (File DEV_NULL) else mret (-1).

(** [fopen]: with "a+" a file that is there stays, with "w+" it is emptied; NULL is [None]. *)
Definition fopen (path : bytes) (keep : bool) : PR (option Z) :=
  ok ← succeeds;
  if (ok : bool) then
    p ← pr_get;
    let path := resolve (p_cwd p) path in
    _ ← pr_mod (fun p => p_set_files p (<[path := if keep then default [] (p_files p !! path) else []]> (p_files p)));
    fd ← new_file (File path);
    mret (Some fd)
  else mret None.

Definition close (fd : Z) : PR Z :=
  ok ← succeeds;
  p ← pr_get;
  match p_fds p !! fd with
  | Some _ => _ ← pr_mod (fun p => p_set_fds p (delete fd (p_fds p))); mret (if (ok : bool) then 0 else -1)
  | None => mret (-1)
  end.

Definition dup2 (old new : Z) : PR Z :=
  ok ← succeeds;
  p ← pr_get;
  match p_fds p !! old with
  | Some f => if (ok : bool) then _ ← pr_mod (fun p => p_set_fds p (<[new := f]> (p_fds p))); mret new else mret (-1)
  | None => mret (-1)
  end.

(** [remove] of a path. *)
Definition remove (path : bytes) : PR unit :=
  ok ← succeeds;
  if (ok : bool) then pr_mod (fun p => p_set_files p (delete (resolve (p_cwd p) path) (p_files p))) else mret tt.

Definition chdir (path : bytes) : PR Z :=
  ok ← succeeds;
  if (ok : bool) then _ ← pr_mod (fun p => p_set_cwd p (resolve (p_cwd p) path)); mret 0 else mret (-1).

(** The child has a copy of everything, its own number, and the group and session of its
    parent. *)
Definition fork : PR Z :=
  n ← question;
  match k_fork k n with
  | ForkFails => mret (-1)
  | InParent child => mret child
  | InChild id =>
      _ ← pr_mod (fun p => p_set_ids p (Ids id (pgid (p_ids p)) (sid (p_ids p)) (tty (p_ids p))));
      mret 0
  end.

(** Fails only for the leader of a process group. *)
Definition setsid : PR Z :=
  p ← pr_get;
  let i := pid (p_ids p) in
  if i =? pgid (p_ids p) then mret (-1)
  else _ ← pr_mod (fun p => p_set_ids p (Ids i i i false)); mret i.

Definition umask (m : Z) : PR unit := pr_mod (fun p => p_set_umask p m).

(** [sigaction] of a catchable signal with a handler that runs with the signals [mask]
    blocked; handler and mask are a number. *)
Definition sigaction (sig handler : Z) : PR Z :=
  ok ← succeeds;
  if (ok : bool) then _ ← pr_mod (fun p => p_set_handlers p (<[sig := handler]> (p_handlers p))); mret 0 else mret (-1).
End kernel.

(** ** Rules *)

Section rules.
Context (k : kernel) {B : Type} (Q : B -> proc -> Prop) (E : ending -> proc -> Prop) (U : Prop).
Abbreviation run m p := (pwp m Q E U p).
Definition p_tick (p : proc) : proc := p_set_calls p (S (p_calls p)).

Lemma pwp_ret (x : B) p : Q x p -> run (mret x) p.
Proof. done. Qed.

Lemma pwp_get (f : proc -> PR B) p : run (f p) p -> run (x ← pr_get; f x) p.
Proof. done. Qed.

Lemma pwp_mod (f : PR B) g p : run f (g p) -> run (_ ← pr_mod g; f) p.
Proof. done. Qed.

Lemma pwp_succeeds (f : bool -> PR B) p : run (f (k_ok k (p_calls p))) (p_tick p) -> run (b ← succeeds k; f b) p.
Proof. done. Qed.

Lemma pwp_time (f : Z -> PR B) p : run (f (k_time k (p_calls p))) (p_tick p) -> run (t ← time k; f t) p.
Proof. done. Qed.

Lemma pwp_dup2 old new o (f : Z -> PR B) p : p_fds p !! old = Some o -> new <> -1 ->
  (k_ok k (p_calls p) = false -> run (f (-1)) (p_tick p)) ->
  run (f new) (p_set_fds (p_tick p) (<[new := o]> (p_fds p))) -> run (r ← dup2 k old new; f r) p.
Proof.
  intros Ho Hn HF HT. apply pwp_bind. unfold dup2. apply pwp_bind. unfold pwp at 1. cbn.
  unfold pwp, mbind, PR_bind, pr_get, mret, PR_ret, pr_mod. cbn.
  change (succeeds k p) with (Go (k_ok k (p_calls p)) (p_tick p)). cbn. rewrite Ho. destruct (k_ok k (p_calls p)); [exact HT|by apply HF].
Qed.
End rules.

(** A new descriptor is free, and all below are taken. *)
Lemma new_fd_spec p : 0 <= new_fd p /\ p_fds p !! new_fd p = None /\ forall i, 0 <= i < new_fd p -> is_Some (p_fds p !! i).
Proof.
  destruct (lowest_free (dom (p_fds p))) as (H1 & H2 & H3). split; [done|]. split; [by apply not_elem_of_dom|].
  intros i Hi. by apply elem_of_dom, H3.
Qed.

(** Only what was written, and the number of questions, differ. *)
Record writes (p p' : proc) : Prop := {
  wr_ids : p_ids p' = p_ids p;
  wr_fds : p_fds p' = p_fds p;
  wr_socks : p_socks p' = p_socks p;
  wr_umask : p_umask p' = p_umask p;
  wr_cwd : p_cwd p' = p_cwd p;
  wr_handlers : p_handlers p' = p_handlers p;
  wr_nofile : p_nofile p' = p_nofile p;
  wr_seed : p_seed p' = p_seed p;
  wr_log : p_log p' = p_log p;
  wr_setting : p_setting p' = p_setting p
}.

#[export] Instance writes_preorder : PreOrder writes.
Proof. split; [by split|]. intros p q r [] []. split; congruence. Qed.

Lemma writes_tick p : writes p (p_tick p).
Proof. by split. Qed.

Lemma writes_fd fd s p : writes p (write_fd fd s p).
Proof. unfold write_fd. repeat case_match; by split. Qed.

Lemma writes_flush p : writes p (flush_out p).
Proof. unfold flush_out. case_match; [done|]. etrans; [|apply writes_fd]. by split. Qed.
