(* ===== verification/Log.v ===== *)
(** Models the log file (src/src/fk_log.c), with [fk_util_backtrace] and the assertion of
    src/src/fk_util.c, which write to it.

    A format is the string of the source with the list of its arguments; the conversions
    are those the program uses.  [fk_log_debug] is empty unless FK_DEBUG is defined, as it
    is not in this development. *)
From S2P Require Import Prelude Util Conf Main Server Proc.

(** ** Formats *)

Inductive farg := FStr (s : bytes) | FInt (n : Z) | FLong (n : Z).

(** [%.2d]: at least two digits. *)
Definition pad2 (n : Z) : bytes :=
  let d := dec (Z.abs n) in
  (if n <? 0 then ["-"%char] else []) ++ (if zlen d <? 2 then "0"%char :: d else d).

Definition conv_int (f : Z -> bytes) (a : farg) : option bytes :=
  match a with FInt n => Some (f n) | _ => None end.
Definition conv_long (f : Z -> bytes) (a : farg) : option bytes :=
  match a with FLong n => Some (f n) | _ => None end.
Definition conv_str (a : farg) : option bytes :=
  match a with FStr s => Some (cstr s) | _ => None end.

Definition conversions : list (bytes * (farg -> option bytes)) := [
  (lit "s", conv_str);
  (lit "d", conv_int (fun n => fmt_d (i32 n)));
  (lit ".2d", conv_int (fun n => pad2 (i32 n)));
  (lit "u", conv_int (fun n => dec (u32 n)));
  (lit "ld", conv_long (fun n => fmt_d (i64 n)));
  (lit "lu", conv_long (fun n => dec (u64 n)));
  (lit "llu", conv_long (fun n => dec (u64 n)));
  (lit "zu", conv_long (fun n => dec (u64 n)))].

Fixpoint find_conv (l : list (bytes * (farg -> option bytes))) (f : bytes) : option (nat * (farg -> option bytes)) :=
  match l with
  | [] => None
  | (spec, conv) :: l' => if bool_decide (spec `prefix_of` f) then Some (length spec, conv) else find_conv l' f
  end.

(** The text of a format; [skip] characters are a conversion that was read.  An argument
    that is missing or of another type is undefined behaviour. *)
Fixpoint vformat (skip : nat) (fmt : bytes) (args : list farg) : option bytes :=
  match fmt with
  | [] => Some []
  | c :: fmt' =>
      match skip with
      | S n => vformat n fmt' args
      | O =>
          if Ascii.eqb c "%"%char then
            match find_conv conversions fmt', args with
            | Some (n, conv), a :: args' =>
                s ← conv a;
                rest ← vformat n fmt' args';
                Some (s ++ rest)
            | _, _ => None
            end
          else rest ← vformat 0 fmt' args; Some (c :: rest)
      end
  end.

(** ** The functions of fk_log.c *)

Definition FK_LOG_BUFF_SIZE : Z := 1024.

(** [logger] at the start. *)
Definition logger : fk_log_t := FkLog FK_LOG_DEBUG None.

Definition fk_log_loggable (level : Z) (p : proc) : bool := level <=? log_level (p_log p).

(** With no case for the level the name is not initialised. *)
Definition level_name (level : Z) : option bytes :=
  if level =? FK_LOG_ERROR then Some (lit "ERROR")
  else if level =? FK_LOG_WARN then Some (lit "WARN")
  else if level =? FK_LOG_INFO then Some (lit "INFO")
  else if level =? FK_LOG_DEBUG then Some (lit "DEBUG")
  else None.

Section log.
Context (k : kernel).

Definition fk_log_init (log_path : bytes) (level : Z) : PR unit :=
  fp ← fopen k log_path true;
  match fp with
  | None => _ ← print_out k (lit "null file" ++ [LF]); exit 1
  | Some fd => pr_mod (fun p => p_set_log p (FkLog level (Some fd)))
  end.

(** [fprintf] and [fflush] on [stdout] or the file. *)
Definition print_flush (file : option Z) (s : bytes) : PR unit := pr_mod (fun p =>
  match file with
  | None => flush_out (p_set_out p (p_out p ++ s))
  | Some fd => write_fd fd s p
  end).

Definition LINE_FMT : bytes := lit "[%d-%.2d-%.2d %.2d:%.2d:%.2d]<%s>%s".

Definition fk_log_output (level : Z) (data : bytes) : PR unit :=
  name ← pr_lift (level_name level);
  now ← time k;
  match k_localtime k now with
  | None => mret tt
  | Some t =>
      line ← pr_lift (vformat 0 LINE_FMT [FInt (tm_year t + 1900); FInt (tm_mon t + 1); FInt (tm_mday t);
        FInt (tm_hour t); FInt (tm_min t); FInt (tm_sec t); FStr name; FStr data]);
      p ← pr_get;
      print_flush (log_file (p_log p)) line
  end.

(** [vsnprintf] cuts the text. *)
Definition fk_log_exec (level : Z) (fmt : bytes) (args : list farg) : PR unit :=
  text ← pr_lift (vformat 0 fmt args);
  fk_log_output level (ztake (FK_LOG_BUFF_SIZE - 1) text).

Definition fk_log_error (fmt : bytes) (args : list farg) : PR unit :=
  p ← pr_get; if fk_log_loggable FK_LOG_ERROR p then fk_log_exec FK_LOG_ERROR fmt args else mret tt.
Definition fk_log_warn (fmt : bytes) (args : list farg) : PR unit :=
  p ← pr_get; if fk_log_loggable FK_LOG_WARN p then fk_log_exec FK_LOG_WARN fmt args else mret tt.
Definition fk_log_info (fmt : bytes) (args : list farg) : PR unit :=
  p ← pr_get; if fk_log_loggable FK_LOG_INFO p then fk_log_exec FK_LOG_INFO fmt args else mret tt.
Definition fk_log_debugx (fmt : bytes) (args : list farg) : PR unit :=
  p ← pr_get; if fk_log_loggable FK_LOG_DEBUG p then fk_log_exec FK_LOG_DEBUG fmt args else mret tt.

(** The function to call for a level. *)
Definition fk_log (level : Z) (fmt : bytes) (args : list farg) : PR unit :=
  if level =? FK_LOG_ERROR then fk_log_error fmt args
  else if level =? FK_LOG_WARN then fk_log_warn fmt args
  else if level =? FK_LOG_INFO then fk_log_info fmt args
  else fk_log_debugx fmt args.

(** ** Backtraces *)

(** The loop of [fk_util_backtrace], from [i] on; the names of the frames are what
    [backtrace_symbols] answers, [None] its NULL. *)
Fixpoint backtrace_loop (i : Z) (symbols : list bytes) : PR unit :=
  match symbols with
  | [] => mret tt
  | s :: rest => _ ← fk_log_error (lit "[%d] %s" ++ [LF]) [FInt i; FStr s]; backtrace_loop (i + 1) rest
  end.

Definition fk_util_backtrace (level : Z) (symbols : option (list bytes)) : PR unit :=
  match symbols with
  | None => mret tt
  | Some l => backtrace_loop level (zdrop level l)
  end.

(** [fk_util_assert] when FK_DEBUG is defined. *)
Definition fk_util_assert (exp : bool) (symbols : option (list bytes)) : PR unit :=
  if exp then mret tt else _ ← fk_util_backtrace 1 symbols; abort.
End log.

(** ** What the log file holds *)

Definition line_head (t : tm) (name : bytes) : bytes :=
  lit "[" ++ fmt_d (i32 (tm_year t + 1900)) ++ lit "-" ++ pad2 (i32 (tm_mon t + 1)) ++ lit "-" ++ pad2 (i32 (tm_mday t)) ++
  lit " " ++ pad2 (i32 (tm_hour t)) ++ lit ":" ++ pad2 (i32 (tm_min t)) ++ lit ":" ++ pad2 (i32 (tm_sec t)) ++
  lit "]<" ++ cstr name ++ lit ">".

Lemma line_format t name data :
  vformat 0 LINE_FMT [FInt (tm_year t + 1900); FInt (tm_mon t + 1); FInt (tm_mday t);
    FInt (tm_hour t); FInt (tm_min t); FInt (tm_sec t); FStr name; FStr data] = Some (line_head t name ++ cstr data).
Proof.
  unfold line_head. rewrite <- (app_nil_r (cstr data)) at 1. rewrite <- !app_assoc.
  lazy -[fmt_d pad2 i32 cstr Z.add app]. cbn [app]. reflexivity.
Qed.

#[local] Arguments vformat : simpl never.

(** A call with a format that fits its arguments only writes. *)
Lemma log_writes k level fmt args p : 0 <= level <= 3 -> is_Some (vformat 0 fmt args) ->
  exists p', fk_log k level fmt args p = Go tt p' /\ writes p p'.
Proof.
  intros Hl [text Hf].
  assert (exists p', fk_log_exec k level fmt args p = Go tt p' /\ writes p p') as HE.
  { unfold fk_log_exec. rewrite (pr_lift_go _ _ _ _ Hf). unfold fk_log_output.
    assert (exists name, level_name level = Some name) as [name En].
    { assert (level = 0 \/ level = 1 \/ level = 2 \/ level = 3) as [->|[->|[->| ->]]] by lia; by eexists. }
    rewrite (pr_lift_go _ _ _ _ En). erewrite pr_bind_go by reflexivity. destruct (k_localtime k _) as [t|].
    - destruct (vformat 0 LINE_FMT _) as [line|] eqn:Ef; [|by rewrite line_format in Ef].
      rewrite (pr_lift_go _ _ _ _ eq_refl). erewrite pr_bind_go by reflexivity. eexists. split; [reflexivity|].
      etrans; [apply writes_tick|]. destruct (log_file _); [apply writes_fd|].
      etrans; [|apply writes_flush]. by split.
    - eexists. split; [reflexivity|]. apply writes_tick. }
  unfold fk_log, fk_log_error, fk_log_warn, fk_log_info, fk_log_debugx, pr_get, mbind, PR_bind, FK_LOG_ERROR, FK_LOG_WARN, FK_LOG_INFO, FK_LOG_DEBUG.
  assert (level = 0 \/ level = 1 \/ level = 2 \/ level = 3) as [->|[->|[->| ->]]] by lia;
    cbn [Z.eqb Pos.eqb]; case_match; (exact HE || by exists p).
Qed.

Section logged.
Context (k : kernel).

(** One line, when the n-th question asks for the time. *)
Definition log_line (n : nat) (level : Z) (text : bytes) : bytes :=
  match k_localtime k (k_time k n) with
  | None => []
  | Some t => line_head t (default [] (level_name level)) ++ cstr (ztake (FK_LOG_BUFF_SIZE - 1) text)
  end.

(** The lines of texts with their levels, and the number of questions. *)
Fixpoint logged (limit : Z) (n : nat) (l : list (Z * bytes)) : bytes :=
  match l with
  | [] => []
  | (level, text) :: l' => if level <=? limit then log_line n level text ++ logged limit (S n) l' else logged limit n l'
  end.
Definition asked (limit : Z) (l : list (Z * bytes)) : nat := length (filter (fun c => c.1 <= limit) l).

Fixpoint log_all (l : list (Z * bytes * list farg)) : PR unit :=
  match l with
  | [] => mret tt
  | (level, fmt, args) :: l' => _ ← fk_log k level fmt args; log_all l'
  end.

(** The log is open on a file that holds [old]. *)
Record log_open (p : proc) (path old : bytes) : Prop := {
  lo_file : exists fd, log_file (p_log p) = Some fd /\ p_fds p !! fd = Some (File path);
  lo_real : path <> DEV_NULL;
  lo_old : p_files p !! path = Some old
}.

Definition p_logged (p : proc) (path new : bytes) (n : nat) : proc :=
  p_set_calls (p_set_files p (<[path := new]> (p_files p))) n.

(** A call appends its line, or does nothing. *)
Lemma fk_log_does level fmt args text p path old : 0 <= level <= 3 -> vformat 0 fmt args = Some text -> log_open p path old ->
  fk_log k level fmt args p = Go tt
    (if level <=? log_level (p_log p) then p_logged p path (old ++ log_line (p_calls p) level text) (S (p_calls p)) else p).
Proof.
  intros Hl Hf [(fd & E1 & E2) Hr Ho].
  assert (fk_log_exec k level fmt args p = Go tt (p_logged p path (old ++ log_line (p_calls p) level text) (S (p_calls p)))) as HE.
  { assert (exists name, level_name level = Some name) as [name En].
    { assert (level = 0 \/ level = 1 \/ level = 2 \/ level = 3) as [->|[->|[->| ->]]] by lia; by eexists. }
    unfold fk_log_exec. rewrite (pr_lift_go _ _ _ _ Hf). unfold fk_log_output. rewrite (pr_lift_go _ _ _ _ En).
    erewrite pr_bind_go by reflexivity. cbv beta. unfold log_line. destruct (k_localtime k _) as [t|].
    - rewrite (pr_lift_go _ _ _ _ (line_format _ _ _)). erewrite pr_bind_go by reflexivity. cbn [p_log p_set_calls].
      rewrite E1, En. unfold print_flush, pr_mod, write_fd. cbn [p_fds p_set_calls]. rewrite E2.
      rewrite bool_decide_false by done. change (p_files (p_set_calls _ _)) with (p_files p). unfold p_logged.
      replace (alter _ path (p_files p)) with (<[path := old ++ line_head t name ++ cstr (ztake (FK_LOG_BUFF_SIZE - 1) text)]> (p_files p)); [done|].
      apply map_eq. intros q. destruct (decide (q = path)) as [->|Hq]; [by rewrite lookup_alter_eq, Ho, lookup_insert_eq|].
      by rewrite lookup_alter_ne, lookup_insert_ne by done.
    - rewrite app_nil_r. unfold p_logged. by rewrite insert_id. }
  unfold fk_log, fk_log_error, fk_log_warn, fk_log_info, fk_log_debugx, fk_log_loggable, pr_get, mbind, PR_bind, FK_LOG_ERROR, FK_LOG_WARN, FK_LOG_INFO, FK_LOG_DEBUG.
  assert (level = 0 \/ level = 1 \/ level = 2 \/ level = 3) as [->|[->|[->| ->]]] by lia; cbn [Z.eqb Pos.eqb]; by case_match.
Qed.

(** C30. The log file holds, after what it held before, one line for each call whose level
    is within the limit of the setting, in the order of the calls: the time, the level
    and the text, cut to 1023 bytes. Nothing else in the process changes. *)
Theorem log_keeps_lines calls texts p path old : log_open p path old ->
  Forall2 (fun c t => c.1.1 = t.1 /\ 0 <= t.1 <= 3 /\ vformat 0 c.1.2 c.2 = Some t.2) calls texts ->
  let limit := log_level (p_log p) in
  log_all calls p = Go tt (p_logged p path (old ++ logged limit (p_calls p) texts) (p_calls p + asked limit texts)).
Proof.
  intros H Hc. revert p old H. induction Hc as [|[[level fmt] args] [l text] calls texts (E & Hl & Hf) _ IH]; intros p old H limit.
  - cbn. rewrite app_nil_r, Nat.add_0_r. unfold p_logged. rewrite insert_id by apply H. by destruct p.
  - cbn in E, Hl, Hf. subst l. cbn [log_all]. unfold mbind, PR_bind. rewrite (fk_log_does _ _ _ text _ path old) by done. fold limit.
    unfold asked. rewrite filter_cons. cbn [logged fst]. destruct (Z.leb_spec level limit) as [Hle|Hgt].
    + rewrite decide_True by done. rewrite (IH _ (old ++ log_line (p_calls p) level text)).
      * unfold p_logged. cbn. rewrite insert_insert_eq, <- app_assoc. do 2 f_equal. unfold asked, limit. lia.
      * destruct H as [H1 H2 H3]. split; [done..|]. cbn. apply lookup_insert_eq.
    + rewrite decide_False by lia. by apply IH.
Qed.
End logged.

(** ** Examples *)

Definition ex_tm : tm := Tm 5 4 3 2 0 126.
Definition ex_kernel : kernel := Kernel (fun n => InChild (101 + Z.of_nat n)) (fun _ => true) (fun _ => lit "error")
  (fun n => Z.of_nat n) (fun _ => Some ex_tm) (Some (Rlimit 1024 4096)) 1000 (fun _ => 0) true.
Definition ex_std : gmap Z ofile := {[0 := Inherited 0; 1 := Inherited 1; 2 := Inherited 2]}.
Definition ex_proc : proc :=
  Proc (Ids 100 100 90 true) ex_std ∅ [] [] [] 18 (lit "/root") ∅ (Rlimit 0 0) None logger fk_conf_default 0.
Definition ex_logging : proc :=
  p_set_log (p_set_fds (p_set_files ex_proc {[lit "/tmp/l" := lit "old" ++ [LF]]}) (<[3 := File (lit "/tmp/l")]> ex_std)) (FkLog 2 (Some 3)).

Definition ex_line (level : Z) (text : bytes) : bytes := log_line ex_kernel 0 level text.

Example ex_line_is : ex_line 1 (lit "hello") = lit "[2026-01-02 03:04:05]<WARN>hello".
Proof. vm_compute. reflexivity. Qed.

Definition ex_logs : list (Z * bytes * list farg) :=
  [(1, lit "fd %d: %s", [FInt 7; FStr (lit "gone")]); (3, lit "unseen", []); (0, lit "n = %lu", [FLong (-1)])].
Definition ex_texts : list (Z * bytes) := [(1, lit "fd 7: gone"); (3, lit "unseen"); (0, lit "n = 18446744073709551615")].

Lemma log_keeps_lines_witness : exists p, log_all ex_kernel ex_logs ex_logging = Go tt p.
Proof.
  refine (ex_intro _ _ (log_keeps_lines ex_kernel ex_logs ex_texts ex_logging (lit "/tmp/l") (lit "old" ++ [LF]) _ _)).
  - split; [exists 3; split; vm_compute; reflexivity|discriminate|vm_compute; reflexivity].
  - repeat constructor; try (vm_compute; reflexivity); vm_compute; discriminate.
Defined.

(** A text that is cut loses the end of its line: the next line goes on from it. *)
Example cut_line_joins : exists p, log_all ex_kernel [(0, lit "%s" ++ [LF], [FStr (replicate 1023 "x"%char)]); (0, lit "next" ++ [LF], [])] ex_logging = Go tt p /\
  p_files p !! lit "/tmp/l" = Some (lit "old" ++ [LF] ++ lit "[2026-01-02 03:04:05]<ERROR>" ++ replicate 1023 "x"%char ++
    lit "[2026-01-02 03:04:05]<ERROR>next" ++ [LF]).
Proof. eexists. split; vm_compute; reflexivity. Qed.
