(* ===== verification/Boot.v ===== *)
(** Models the socket calls (src/src/fk_sock.c) and the main program with what it does to
    its process (src/src/freekick.c): becoming a daemon, the working directory, the limit
    of open files, the log, the process file, the signal handlers, and the end. *)
From S2P Require Import Prelude Util Buf Dict Item Conf Svr Req Parse Store Kdb KdbProps Blog Cron Life LifeProps.
From S2P Require Import Ev EvProps EvView Epoll Main Server Linux Proc Log.

(** ** Sockets *)

Definition FK_SOCK_OK : Z := 0.
Definition FK_SOCK_ERR : Z := -1.

(** The bytes of a 16-bit number in the other order. *)
Definition htons (port : Z) : Z := (port mod 256) * 256 + (port / 256) mod 256.

Section sock.
Context (k : kernel).

(** A call that changes the socket of a descriptor, and fails on anything else. *)
Definition sock_call (fd : Z) (f : sock -> sock) : PR Z :=
  ok ← succeeds k;
  p ← pr_get;
  match p_fds p !! fd with
  | Some (Sock i) =>
      if (ok : bool) then _ ← pr_mod (fun p => p_set_socks p (alter f i (p_socks p))); mret 0 else mret (-1)
  | _ => mret (-1)
  end.

Definition socket : PR Z :=
  ok ← succeeds k;
  p ← pr_get;
  if (ok : bool) then
    fd ← new_file (Sock (length (p_socks p)));
    _ ← pr_mod (fun p => p_set_socks p (p_socks p ++ [new_sock]));
    mret fd
  else mret (-1).

Definition fk_sock_set_nonblocking (fd : Z) : PR Z :=
  rt ← sock_call fd (fun s => Socket true (sk_reuseaddr s) (sk_keepalive s) (sk_linger s) (sk_bound s) (sk_backlog s));
  mret (if rt <? 0 then FK_SOCK_ERR else FK_SOCK_OK).

Definition fk_sock_set_keepalive (fd : Z) : PR Z :=
  rt ← sock_call fd (fun s => Socket (sk_nonblock s) (sk_reuseaddr s) true (sk_linger s) (sk_bound s) (sk_backlog s));
  mret (if rt <? 0 then FK_SOCK_ERR else FK_SOCK_OK).

Definition fk_sock_set_reuseaddr (fd : Z) : PR Z :=
  rt ← sock_call fd (fun s => Socket (sk_nonblock s) true (sk_keepalive s) (sk_linger s) (sk_bound s) (sk_backlog s));
  mret (if rt <? 0 then FK_SOCK_ERR else FK_SOCK_OK).

Definition fk_sock_set_linger (fd : Z) : PR Z :=
  rt ← sock_call fd (fun s => Socket (sk_nonblock s) (sk_reuseaddr s) (sk_keepalive s) (Some (0, 0)) (sk_bound s) (sk_backlog s));
  mret (if rt <? 0 then FK_SOCK_ERR else FK_SOCK_OK).

Definition bind_sock (fd addr port : Z) : PR Z :=
  sock_call fd (fun s => Socket (sk_nonblock s) (sk_reuseaddr s) (sk_keepalive s) (sk_linger s) (Some (addr, port)) (sk_backlog s)).
Definition listen_sock (fd n : Z) : PR Z :=
  sock_call fd (fun s => Socket (sk_nonblock s) (sk_reuseaddr s) (sk_keepalive s) (sk_linger s) (sk_bound s) (Some n)).

Definition fk_sock_create_tcp_listen (addr : bytes) (port : Z) : PR Z :=
  listen_sock_fd ← socket;
  if listen_sock_fd =? -1 then mret FK_SOCK_ERR
  else
    rt ← fk_sock_set_nonblocking listen_sock_fd;
    if rt =? FK_SOCK_ERR then mret FK_SOCK_ERR
    else
      rt ← fk_sock_set_reuseaddr listen_sock_fd;
      if rt =? FK_SOCK_ERR then mret FK_SOCK_ERR
      else
        rt ← bind_sock listen_sock_fd (k_inet_addr k addr) (htons port);
        if rt <? 0 then mret FK_SOCK_ERR
        else
          rt ← listen_sock listen_sock_fd 5;
          if rt <? 0 then mret FK_SOCK_ERR else mret listen_sock_fd.
End sock.

(** ** The main program *)

(** [fk_signal_exit_handler], with all signals blocked while it runs, as a number. *)
Definition EXIT_HANDLER : Z := 1.
Definition fk_signal_exit_handler {X A : Type} `{!Mpx X A} (sig : Z) : ST (fk_evmgr X app) unit := fk_svr_signal_exit_handler sig.

Section main.
Context (k : kernel).

(** Logs an error with the text of [errno], and exits. *)
Definition log_exit (what : string) : PR unit :=
  e ← strerror k;
  _ ← fk_log_error k (lit what ++ lit ": %s" ++ [LF]) [FStr e];
  exit EXIT_FAILURE.

Definition redirect (fd std : Z) : PR unit :=
  rt ← dup2 k fd std;
  if rt =? -1 then log_exit "dup2" else mret tt.

Definition fk_daemonize : PR unit :=
  p ← pr_get;
  if cf_daemon (p_setting p) =? 0 then mret tt
  else
    child ← fork k;
    _ ← (if child =? -1 then log_exit "fork"
         else if child =? 0 then mret tt
         else _ ← fk_log_info k (lit "parent exit, to run as a daemon" ++ [LF]) []; exit_ EXIT_SUCCESS);
    session ← setsid;
    _ ← (if session =? -1 then log_exit "setsid" else mret tt);
    child ← fork k;
    _ ← (if child =? -1 then log_exit "fork" else if child =? 0 then mret tt else exit_ EXIT_SUCCESS);
    _ ← umask 0;
    fd ← open_null k;
    _ ← (if fd =? -1 then log_exit "open /dev/null" else mret tt);
    _ ← redirect fd STDIN_FILENO;
    _ ← redirect fd STDOUT_FILENO;
    _ ← redirect fd STDERR_FILENO;
    if STDERR_FILENO <? fd then
      rt ← close k fd;
      if rt =? -1 then log_exit "close" else mret tt
    else mret tt.

Definition fk_create_pidfile : PR unit :=
  p ← pr_get;
  if cf_daemon (p_setting p) =? 0 then mret tt
  else
    pid_file ← fopen k (cf_pid_path (p_setting p)) false;
    fd ← pr_lift pid_file;
    p ← pr_get;
    _ ← pr_mod (write_fd fd (fmt_d (pid (p_ids p)) ++ [LF]));
    _ ← close k fd;
    mret tt.

Definition fk_remove_pidfile : PR unit :=
  p ← pr_get;
  if cf_daemon (p_setting p) =? 0 then mret tt else remove k (cf_pid_path (p_setting p)).

(** [fk_setrlimit] with its effects; [Main.fk_setrlimit] is what it computes. *)
Definition set_limit : PR unit :=
  p ← pr_get;
  let c := p_setting p in
  let max_files := u64 (i32 (fk_util_conns_to_files (cf_max_conns c))) in
  match k_limit k with
  | None => log_exit "getrlimit"
  | Some l =>
      _ ← fk_log_info k (lit "original file number limit: rlim_cur = %lu, rlim_max = %lu" ++ [LF]) [FLong (rlim_cur l); FLong (rlim_max l)];
      if rlim_max l <? max_files then
        ok ← succeeds k;
        if k_euid k =? 0 then
          if (ok : bool) then
            _ ← pr_mod (fun p => p_set_nofile p (Rlimit max_files max_files));
            fk_log_info k (lit "new file number limit: rlim_cur = %llu, rlim_max = %llu" ++ [LF]) [FLong max_files; FLong max_files]
          else log_exit "setrlimit"
        else
          if (ok : bool) then
            let conns := i32 (fk_util_files_to_conns (rlim_max l)) in
            _ ← pr_mod (fun p => p_set_setting (p_set_nofile p (Rlimit (rlim_max l) (rlim_max l))) (set_max_conns c conns));
            fk_log_info k (lit "change the setting.max_conns according the current file number limit: %u" ++ [LF]) [FInt conns]
          else log_exit "setrlimit"
      else pr_mod (fun p => p_set_nofile p l)
  end.

Definition fk_set_seed : PR unit := t ← time k; pr_mod (fun p => p_set_seed p (Some (u32 t))).

Definition fk_set_pwd : PR unit :=
  p ← pr_get;
  rt ← chdir k (cf_dir (p_setting p));
  if rt <? 0 then log_exit "chdir failed"
  else fk_log_info k (lit "change working diretory to %s" ++ [LF]) [FStr (cf_dir (p_setting p))].

Definition fk_signal_register : PR unit :=
  rt ← sigaction k SIGINT EXIT_HANDLER;
  _ ← (if rt <? 0 then log_exit "sigaction for SIGINT failed" else mret tt);
  rt ← sigaction k SIGTERM EXIT_HANDLER;
  if rt <? 0 then log_exit "sigaction for SIGTERM failed" else mret tt.

(** [fk_conf_init]: a path that cannot be opened is [Some None], else its lines; the file
    is closed again. *)
Definition load_conf (conf : option (option (list bytes))) : PR unit :=
  let parse lines :=
    match fk_conf_init lines with
    | None => fun _ => Undef
    | Some None => _ ← print_out k (lit "parsing config failed" ++ [LF]); exit EXIT_FAILURE
    | Some (Some c) => pr_mod (fun p => p_set_setting p c)
    end in
  match conf with
  | Some None =>
      _ ← print_out k (lit "failed to open config file" ++ [LF]);
      _ ← print_out k (lit "parsing config failed" ++ [LF]);
      exit EXIT_FAILURE
  | Some (Some lines) => parse (Some lines)
  | None => parse None
  end.

(** [fk_main_init] up to the signal handlers; what follows only changes the memory of the
    process and is the start of the server in [Main]. *)
Definition fk_boot (conf : option (option (list bytes))) : PR unit :=
  _ ← fk_set_seed;
  _ ← load_conf conf;
  _ ← fk_daemonize;
  _ ← fk_set_pwd;
  _ ← set_limit;
  p ← pr_get;
  _ ← fk_log_init k (cf_log_path (p_setting p)) (cf_log_level (p_setting p));
  _ ← fk_create_pidfile;
  fk_signal_register.

(** [main]: [serve c open] is the server with the setting [c] in a process with the open
    descriptors [open], from its start to the end of [fk_svr_exit]. *)
Definition freekick (serve : fk_conf -> gset Z -> option (Z * fk_svr)) (argc : Z) (conf : option (option (list bytes))) : PR Z :=
  _ ← (if 2 <? argc then
         _ ← print_err (lit "illegal argument!!!" ++ [LF]);
         _ ← print_err (lit "usage:" ++ [LF]);
         _ ← print_err ("009"%char :: lit "freekick [/path/freekick.conf]" ++ [LF]);
         exit EXIT_FAILURE
       else mret tt);
  let conf := if argc =? 2 then conf else None in
  _ ← (match conf with
       | None => print_out k (lit "no config file specified, using the default setting" ++ [LF])
       | Some _ => mret tt
       end);
  _ ← fk_boot conf;
  p ← pr_get;
  '(rt, _) ← pr_lift (serve (p_setting p) (dom (p_fds p)));
  _ ← (if rt =? EXIT_SUCCESS then mret tt else exit EXIT_FAILURE);
  _ ← fk_remove_pidfile;
  mret 0.
End main.

(** The server of [Main]: everything after the start of the process. *)
Definition run_server {X A : Type} `{!Mpx X A} o room fopen_ok rename_ok clear_fuel run_script d clock next (x : fk_conf -> X)
    (answers : list A) (c : fk_conf) (open : gset Z) : option (Z * fk_svr) :=
  '(_, s) ← server_start o room fopen_ok rename_ok run_script d clock open next (x c) c;
  '(_, s) ← server_cycle o room fopen_ok rename_ok clear_fuel run_script answers s;
  fk_svr_exit room fopen_ok rename_ok (ap_svr (ev_user s)).

(** ** Rules *)

Lemma vformat_plain s rest args : "%"%char ∉ s -> vformat 0 (s ++ rest) args = (s ++.) <$> vformat 0 rest args.
Proof.
  induction s as [|c s IH]; intros H; [cbn [Datatypes.app]; by destruct (vformat 0 rest args)|]. apply not_elem_of_cons in H as [Hc Hs].
  cbn. rewrite ascii_eqb_false by done. rewrite IH by done. by destruct (vformat 0 rest args).
Qed.

Abbreviation plain what := (existsb (Ascii.eqb "%"%char) (lit what) = false).

Lemma plain_not s : existsb (Ascii.eqb "%"%char) s = false -> "%"%char ∉ s.
Proof.
  intros H Hin. apply not_true_iff_false in H. apply H, existsb_exists. exists "%"%char.
  split; [by apply list_elem_of_In|apply ascii_eqb_refl].
Qed.

(** Ends that no other behaviour of the start has: an error, or the parent of a daemon. *)
Definition start_ends (e : ending) (_ : proc) : Prop := e = ByExit EXIT_FAILURE \/ e = ByUnderscoreExit EXIT_SUCCESS.

(** The processes that [fork] makes have numbers of their own. *)
Record forks_ok (k : kernel) (p : proc) : Prop := {
  fo_parent : forall n c, k_fork k n = InParent c -> 0 < c;
  fo_child : forall n i, k_fork k n = InChild i -> i <> pid (p_ids p) /\ i <> pgid (p_ids p) /\ i <> sid (p_ids p);
  fo_distinct : forall n m i j, n <> m -> k_fork k n = InChild i -> k_fork k m = InChild j -> i <> j
}.

Section boot.
Context (k : kernel).
#[local] Arguments vformat : simpl never.
#[local] Arguments pwp : simpl never.
#[local] Arguments new_fd : simpl never.
#[local] Arguments DEV_NULL : simpl never.

Section rules.
Context {B : Type} (Q : B -> proc -> Prop) (U : Prop).
Abbreviation run m p := (pwp m Q start_ends U p).

Lemma pwp_log_exit what p : plain what -> pwp (log_exit k what) (fun _ _ => False) start_ends U p.
Proof.
  intros Hw. unfold log_exit, strerror. apply pwp_bind, pwp_get. cbv beta. unfold pwp at 1. cbn.
  destruct (log_writes k 0 (lit what ++ lit ": %s" ++ [LF]) [FStr (k_err k (p_calls p))] p) as (p' & E & _); [lia| |].
  { rewrite vformat_plain by by apply plain_not. eexists. reflexivity. }
  unfold pwp. erewrite pr_bind_go by exact E. by left.
Qed.

Lemma pwp_fail what (f : unit -> PR B) p : plain what -> run (x ← log_exit k what; f x) p.
Proof. intros Hw. apply pwp_bind. eapply pwp_mono; [by apply pwp_log_exit|done]. Qed.

(** [if (failed) { ...; exit(EXIT_FAILURE); }]. *)
Lemma pwp_check (b : bool) what (f : unit -> PR B) p : plain what ->
  (b = false -> run (f tt) p) -> run (x ← (if b then log_exit k what else mret tt); f x) p.
Proof.
  intros Hw H. apply pwp_bind. destruct b; [|by apply H].
  eapply pwp_mono; [by apply pwp_log_exit|done].
Qed.

Lemma pwp_log level fmt args (f : unit -> PR B) p : 0 <= level <= 3 -> is_Some (vformat 0 fmt args) ->
  (forall p', writes p p' -> run (f tt) p') -> run (x ← fk_log k level fmt args; f x) p.
Proof.
  intros Hl Hf H. destruct (log_writes k level fmt args p Hl Hf) as (p' & E & W). unfold pwp.
  erewrite pr_bind_go by exact E. by apply H.
Qed.

Lemma pwp_setsid (f : Z -> PR B) p : let i := pid (p_ids p) in i <> pgid (p_ids p) ->
  run (f i) (p_set_ids p (Ids i i i false)) -> run (x ← setsid; f x) p.
Proof.
  intros i Hi H. apply pwp_bind. unfold setsid. apply pwp_get. cbv zeta. fold i. rewrite (proj2 (Z.eqb_neq _ _) Hi). exact H.
Qed.

Lemma pwp_fork (f : Z -> PR B) p :
  run (f (-1)) (p_tick p) -> (forall c, k_fork k (p_calls p) = InParent c -> run (f c) (p_tick p)) ->
  (forall i, k_fork k (p_calls p) = InChild i ->
    run (f 0) (p_set_ids (p_tick p) (Ids i (pgid (p_ids p)) (sid (p_ids p)) (tty (p_ids p))))) ->
  run (x ← fork k; f x) p.
Proof.
  intros H1 H2 H3. unfold fork. apply pwp_bind. unfold pwp at 1. unfold mbind at 1, PR_bind at 1. cbn.
  destruct (k_fork k (p_calls p)) as [|c|i]; [exact H1|by apply H2|by apply H3].
Qed.
End rules.

(** ** Daemons *)

Definition std_null : gmap Z ofile := <[2 := File DEV_NULL]> (<[1 := File DEV_NULL]> {[0 := File DEV_NULL]}).

(** The process after [fk_daemonize]: number [i], in a session [s] that it does not lead. *)
Definition daemon_of (p : proc) (i s : Z) (n : nat) : proc :=
  p_set_calls (p_set_umask (p_set_fds (p_set_ids p (Ids i s s false)) (std_null ∪ p_fds p)) 0) n.

Lemma std_null_union (m : gmap Z ofile) : std_null ∪ m = <[2 := File DEV_NULL]> (<[1 := File DEV_NULL]> (<[0 := File DEV_NULL]> m)).
Proof. unfold std_null. by rewrite <- !insert_union_l, <- insert_union_singleton_l. Qed.

Lemma open_null_go {B} Q E U (f : Z -> PR B) p : pwp (f (-1)) Q E U (p_tick p) ->
  pwp (f (new_fd p)) Q E U (p_set_fds (p_tick p) (<[new_fd p := File DEV_NULL]> (p_fds p))) -> pwp (x ← open_null k; f x) Q E U p.
Proof.
  intros H1 H2. apply pwp_bind. unfold open_null. apply pwp_succeeds. by destruct (k_ok k (p_calls p)).
Qed.

Lemma pwp_redirect {B} Q U fd std (f : unit -> PR B) p : p_fds p !! fd = Some (File DEV_NULL) -> std <> -1 ->
  pwp (f tt) Q start_ends U (p_set_fds (p_tick p) (<[std := File DEV_NULL]> (p_fds p))) -> pwp (x ← redirect k fd std; f x) Q start_ends U p.
Proof.
  intros Hfd Hs H. apply pwp_bind. unfold redirect. eapply pwp_dup2; [exact Hfd|done|..].
  - intros _. cbn. eapply pwp_mono; [by apply pwp_log_exit|done].
  - rewrite (proj2 (Z.eqb_neq _ _) Hs). exact H.
Qed.

Lemma pwp_close {B} Q E U fd (f : Z -> PR B) p : is_Some (p_fds p !! fd) ->
  (forall rt, pwp (f rt) Q E U (p_set_fds (p_tick p) (delete fd (p_fds p)))) -> pwp (x ← close k fd; f x) Q E U p.
Proof.
  intros [o Ho] H. apply pwp_bind. unfold close. apply pwp_succeeds, pwp_get. cbn. rewrite Ho. apply pwp_mod. apply H.
Qed.

Lemma lookup_insert_same (m : gmap Z ofile) i j o : m !! i = Some o -> <[j := o]> m !! i = Some o.
Proof. intros H. destruct (decide (i = j)) as [->|]; by simplify_map_eq. Qed.

(** What is opened for [/dev/null] and redirected leaves nothing open. *)
Lemma redirected (m : gmap Z ofile) fd : m !! fd = None -> 0 <= fd ->
  let m' := <[2 := File DEV_NULL]> (<[1 := File DEV_NULL]> (<[0 := File DEV_NULL]> (<[fd := File DEV_NULL]> m))) in
  (if 2 <? fd then delete fd m' else m') = std_null ∪ m.
Proof.
  intros Hfd H0. cbv zeta. rewrite std_null_union. destruct (Z.ltb_spec 2 fd).
  - rewrite !delete_insert_ne, delete_insert_id by (lia || done). done.
  - assert (fd = 0 \/ fd = 1 \/ fd = 2) as [->|[->| ->]] by lia; apply map_eq; intros j;
      (destruct (decide (j = 0)); [subst; by simplify_map_eq|]);
      (destruct (decide (j = 1)); [subst; by simplify_map_eq|]);
      (destruct (decide (j = 2)); [subst; by simplify_map_eq|]); by simplify_map_eq.
Qed.

Lemma daemonize_does p : forks_ok k p ->
  pwp (fk_daemonize k) (fun _ p' => if cf_daemon (p_setting p) =? 0 then p' = p else
    exists i s n, p' = daemon_of p i s n /\ i <> s /\ i <> pid (p_ids p) /\ s <> sid (p_ids p)) start_ends False p.
Proof.
  intros [F1 F2 F3]. unfold fk_daemonize. apply pwp_get. destruct (_ =? 0) eqn:Ed; [done|].
  apply pwp_fork; cbn [Z.eqb Pos.eqb Z.opp]; [by apply pwp_fail|..].
  { intros c Hc%F1. rewrite !(proj2 (Z.eqb_neq _ _)) by lia. apply pwp_bind.
    change (fk_log_info k) with (fk_log k FK_LOG_INFO). apply pwp_log; [by unfold FK_LOG_INFO|by eexists; reflexivity|].
    intros p' _. by right. }
  intros s Hs. destruct (F2 _ _ Hs) as (N1 & N2 & N3). cbn [Z.eqb]. apply pwp_bind, pwp_ret.
  apply pwp_setsid; [done|]. apply pwp_check; [done|]. intros _. cbn [p_ids p_set_ids p_tick p_set_calls pid].
  apply pwp_fork; cbn [Z.eqb Pos.eqb Z.opp]; [by apply pwp_fail|..].
  { intros c Hc%F1. rewrite !(proj2 (Z.eqb_neq _ _)) by lia. by right. }
  intros i Hi. cbn [p_calls p_set_ids p_tick p_set_calls] in Hi. pose proof (F3 _ _ _ _ (Nat.neq_succ_diag_l _) Hi Hs) as N4. destruct (F2 _ _ Hi) as (N5 & _ & _).
  apply pwp_bind, pwp_ret. unfold umask. apply pwp_mod. cbn [p_ids p_set_ids p_tick p_set_calls pid pgid sid tty].
  match goal with |- pwp _ _ _ _ ?q => set (p1 := q) end.
  apply open_null_go; [by apply pwp_fail|]. destruct (new_fd_spec p1) as (H0 & Hn & _). set (fd := new_fd p1) in *. clearbody fd.
  apply pwp_check; [done|]. intros _.
  apply pwp_redirect; [apply lookup_insert_eq|done|].
  apply pwp_redirect; [apply lookup_insert_same, lookup_insert_eq|done|].
  apply pwp_redirect; [do 2 apply lookup_insert_same; apply lookup_insert_eq|done|].
  unfold STDERR_FILENO. pose proof (redirected (p_fds p1) fd Hn H0) as HR. destruct (2 <? fd) eqn:E2.
  - apply pwp_close; [eexists; do 3 apply lookup_insert_same; apply lookup_insert_eq|]. intros rt.
    destruct (rt =? -1); [eapply pwp_mono; [by apply pwp_log_exit|done]|]. apply pwp_ret.
    exists i, s. eexists. split; [|done]. unfold daemon_of. cbn. cbn in HR. rewrite <- HR. reflexivity.
  - apply pwp_ret. exists i, s. eexists. split; [|done]. unfold daemon_of. cbn. cbn in HR. rewrite <- HR. reflexivity.
Qed.

(** ** Listening *)

Lemma pwp_sock_call {B} Q E U fd i g (f : Z -> PR B) p : p_fds p !! fd = Some (Sock i) ->
  pwp (f (if k_ok k (p_calls p) then 0 else -1)) Q E U
    (if k_ok k (p_calls p) then p_set_socks (p_tick p) (alter g i (p_socks p)) else p_tick p) ->
  pwp (x ← sock_call k fd g; f x) Q E U p.
Proof.
  intros Hfd H. apply pwp_bind. unfold sock_call. apply pwp_succeeds, pwp_get. cbn [p_tick p_set_calls p_fds]. rewrite Hfd.
  destruct (k_ok k (p_calls p)); [by apply pwp_mod, pwp_ret|by apply pwp_ret].
Qed.

Lemma alter_last {A} (g : A -> A) l x : alter g (length l) (l ++ [x]) = l ++ [g x].
Proof. rewrite <- (Nat.add_0_r (length l)). by rewrite alter_app_r. Qed.

(** The n-th to the (n + m)-th call succeed. *)
Definition all_ok (n m : nat) : bool := forallb (k_ok k) (seq n m).

Definition listening (p : proc) (addr : bytes) (port : Z) : proc :=
  p_set_calls (p_set_socks (p_set_fds p (<[new_fd p := Sock (length (p_socks p))]> (p_fds p)))
    (p_socks p ++ [Socket true true false None (Some (k_inet_addr k addr, htons port)) (Some 5)])) (p_calls p + 5).

(** [fk_sock_create_tcp_listen] gives the lowest free descriptor, of a socket that
    does not block, may take an address in use, is bound to the address with the port in
    network order and listens, if all five calls succeed; else it gives the error, and
    the socket stays open unless it was the first call that failed. *)
Theorem tcp_listen_spec addr port p : let fd := new_fd p in
  pwp (fk_sock_create_tcp_listen k addr port)
    (fun rt p' => if all_ok (p_calls p) 5 then rt = fd /\ p' = listening p addr port
      else rt = FK_SOCK_ERR /\ p_fds p' = if k_ok k (p_calls p) then <[fd := Sock (length (p_socks p))]> (p_fds p) else p_fds p)
    (fun _ _ => False) False p.
Proof.
  intros fd. destruct (new_fd_spec p) as (H0 & _). fold fd in H0. unfold all_ok. cbn [seq forallb].
  unfold fk_sock_create_tcp_listen. apply pwp_bind. unfold socket. apply pwp_succeeds, pwp_get.
  destruct (k_ok k (p_calls p)) eqn:E0; [|by split].
  apply pwp_bind. unfold new_file. apply pwp_get, pwp_mod, pwp_ret, pwp_mod, pwp_ret. change (new_fd (p_tick p)) with fd.
  rewrite (proj2 (Z.eqb_neq _ _)) by lia. unfold fk_sock_set_nonblocking, fk_sock_set_reuseaddr, bind_sock, listen_sock.
  apply pwp_bind. eapply pwp_sock_call; [apply lookup_insert_eq|]. cbn. destruct (k_ok k (S (p_calls p))) eqn:E1; [|by split].
  apply pwp_ret. cbn. apply pwp_bind. eapply pwp_sock_call; [apply lookup_insert_eq|]. cbn. destruct (k_ok k (S (S (p_calls p)))) eqn:E2; [|by split].
  apply pwp_ret. cbn. eapply pwp_sock_call; [apply lookup_insert_eq|]. cbn. destruct (k_ok k (S (S (S (p_calls p))))) eqn:E3; [|by split].
  eapply pwp_sock_call; [apply lookup_insert_eq|]. cbn. destruct (k_ok k (S (S (S (S (p_calls p)))))) eqn:E4; [|by split].
  apply pwp_ret. split; [done|]. unfold listening, new_sock. rewrite !alter_last. cbn.
  replace (p_calls p + 5)%nat with (S (S (S (S (S (p_calls p)))))) by lia. done.
Qed.

(** ** The start *)

Lemma pwp_fopen {B} Q E U path (keep : bool) (f : option Z -> PR B) p : let q := resolve (p_cwd p) path in
  (k_ok k (p_calls p) = false -> pwp (f None) Q E U (p_tick p)) ->
  pwp (f (Some (new_fd p))) Q E U
    (p_set_fds (p_set_files (p_tick p) (<[q := if keep then default [] (p_files p !! q) else []]> (p_files p))) (<[new_fd p := File q]> (p_fds p))) ->
  pwp (x ← fopen k path keep; f x) Q E U p.
Proof.
  intros q H1 H2. apply pwp_bind. unfold fopen. apply pwp_succeeds.
  destruct (k_ok k (p_calls p)); [|by apply pwp_ret, H1]. apply pwp_get, pwp_mod, pwp_bind. unfold new_file.
  apply pwp_get, pwp_mod, pwp_ret, pwp_ret. exact H2.
Qed.

(** The limit of [Main.fk_setrlimit] is set. *)
Lemma set_limit_computes p : pwp (set_limit k) (fun _ p' => exists ok,
    fk_setrlimit (k_limit k) ok (k_euid k) (p_setting p) = Some (p_setting p', p_nofile p') /\
    writes (p_set_setting (p_set_nofile p (p_nofile p')) (p_setting p')) p') start_ends False p.
Proof.
  unfold set_limit. apply pwp_get. unfold fk_setrlimit. destruct (k_limit k) as [l|]; [|by eapply pwp_mono; [apply pwp_log_exit|]].
  change (fk_log_info k) with (fk_log k FK_LOG_INFO). apply pwp_log; [by unfold FK_LOG_INFO|by eexists; reflexivity|]. intros p1 [].
  destruct (rlim_max l <? _); [|exists true; cbn; split; [congruence|by split]].
  apply pwp_succeeds. destruct (k_euid k =? 0), (k_ok k (p_calls p1)); try (by eapply pwp_mono; [apply pwp_log_exit|]); apply pwp_mod;
    apply pwp_bind_ret; (apply pwp_log; [by unfold FK_LOG_INFO|by eexists; reflexivity|]);
    intros p2 []; apply pwp_ret; exists true; cbn in *; split; (congruence || by split; cbn; congruence).
Qed.

Lemma writes_frame p p' : writes p p' -> exists files shown out n,
  p' = Proc (p_ids p) (p_fds p) files (p_socks p) shown out (p_umask p) (p_cwd p) (p_handlers p) (p_nofile p) (p_seed p) (p_log p) (p_setting p) n.
Proof. destruct p'. intros []; cbn in *; subst. by repeat eexists. Qed.

(** What the configuration is. *)
Definition conf_gives (conf : option (option (list bytes))) (c : fk_conf) : Prop :=
  match conf with
  | None => fk_conf_init None = Some (Some c)
  | Some None => False
  | Some (Some lines) => fk_conf_init (Some lines) = Some (Some c)
  end.

(** The process [p'] in which the server starts; [c] is the configuration. *)
Record ready (c : fk_conf) (p p' : proc) : Prop := {
  rd_limit : exists ok, fk_setrlimit (k_limit k) ok (k_euid k) c = Some (p_setting p', p_nofile p');
  rd_ids : if cf_daemon c =? 0 then p_ids p' = p_ids p else
    exists i s, p_ids p' = Ids i s s false /\ i <> s /\ i <> pid (p_ids p) /\ s <> sid (p_ids p);
  rd_fds : let m := if cf_daemon c =? 0 then p_fds p else std_null ∪ p_fds p in
    exists fd, m !! fd = None /\ p_fds p' = <[fd := File (resolve (p_cwd p') (cf_log_path c))]> m /\
      p_log p' = FkLog (cf_log_level c) (Some fd);
  rd_cwd : p_cwd p' = resolve (p_cwd p) (cf_dir c);
  rd_pid : cf_daemon c <> 0 -> let path := resolve (p_cwd p') (cf_pid_path c) in path <> DEV_NULL ->
    p_files p' !! path = Some (fmt_d (pid (p_ids p')) ++ [LF]);
  rd_handlers : p_handlers p' = <[SIGTERM := EXIT_HANDLER]> (<[SIGINT := EXIT_HANDLER]> (p_handlers p));
  rd_socks : p_socks p' = p_socks p
}.

(** The process after [fk_daemonize], in both cases. *)
Record moved (c : fk_conf) (p p' : proc) : Prop := {
  mv_ids : if cf_daemon c =? 0 then p_ids p' = p_ids p else
    exists i s, p_ids p' = Ids i s s false /\ i <> s /\ i <> pid (p_ids p) /\ s <> sid (p_ids p);
  mv_fds : p_fds p' = if cf_daemon c =? 0 then p_fds p else std_null ∪ p_fds p;
  mv_cwd : p_cwd p' = p_cwd p;
  mv_handlers : p_handlers p' = p_handlers p;
  mv_socks : p_socks p' = p_socks p;
  mv_setting : p_setting p' = c
}.

Lemma daemonize_moves p : forks_ok k p -> pwp (fk_daemonize k) (fun _ p' => moved (p_setting p) p p') start_ends False p.
Proof.
  intros H. eapply pwp_mono; [by apply daemonize_does|]. intros [] p' Hp. cbv beta in Hp. destruct (cf_daemon (p_setting p) =? 0) eqn:Ed.
  - subst p'. split; by rewrite ?Ed.
  - destruct Hp as (i & s & n & -> & N). split; rewrite ?Ed; try done. by exists i, s.
Qed.

Lemma limit_keeps l ok euid c c' r : fk_setrlimit l ok euid c = Some (c', r) -> cf_daemon c' = cf_daemon c /\
  cf_log_path c' = cf_log_path c /\ cf_pid_path c' = cf_pid_path c /\ cf_log_level c' = cf_log_level c.
Proof. unfold fk_setrlimit. intros H. repeat case_match; by simplify_eq. Qed.

Lemma pwp_pidfile {B} Q (U : Prop) (f : unit -> PR B) p :
  (cf_daemon (p_setting p) <> 0 -> k_ok k (p_calls p) = false -> U) ->
  (forall p', writes p p' -> (cf_daemon (p_setting p) <> 0 -> let path := resolve (p_cwd p) (cf_pid_path (p_setting p)) in
     path <> DEV_NULL -> p_files p' !! path = Some (fmt_d (pid (p_ids p)) ++ [LF])) -> pwp (f tt) Q start_ends U p') ->
  pwp (x ← fk_create_pidfile k; f x) Q start_ends U p.
Proof.
  intros HU H. apply pwp_bind. unfold fk_create_pidfile. apply pwp_get. destruct (Z.eqb_spec (cf_daemon (p_setting p)) 0) as [E|Hd].
  - by apply pwp_ret, H.
  - apply pwp_fopen; [by apply HU|]. set (path := resolve _ _). destruct (new_fd_spec p) as (_ & Hn & _). set (fd := new_fd p) in *. clearbody fd.
    apply (pwp_bind (pr_lift _)). unfold pwp at 1. cbn. apply pwp_get, pwp_mod. unfold write_fd. cbn. rewrite lookup_insert_eq.
    apply pwp_close; [case_bool_decide; eexists; apply lookup_insert_eq|]. intros rt. apply pwp_ret, H.
    + case_bool_decide; split; try done; cbn; by apply delete_insert_id.
    + intros _. cbv zeta. fold path. intros Hp. rewrite bool_decide_false by done. cbn. by rewrite lookup_alter_eq, lookup_insert_eq.
Qed.

Lemma pwp_sigaction {B} Q U sig h what (f : unit -> PR B) p : plain what ->
  pwp (f tt) Q start_ends U (p_set_handlers (p_tick p) (<[sig := h]> (p_handlers p))) ->
  pwp (rt ← sigaction k sig h; x ← (if rt <? 0 then log_exit k what else mret tt); f x) Q start_ends U p.
Proof.
  intros Hw H. apply pwp_bind. unfold sigaction. apply pwp_succeeds. destruct (k_ok k (p_calls p)).
  - apply pwp_mod, pwp_ret. apply pwp_check; [done|]. by intros _.
  - apply pwp_ret. apply pwp_check; [done|discriminate].
Qed.

(** The end of [fk_boot]. *)
Lemma signal_register_does p : pwp (fk_signal_register k) (fun _ p' => exists n,
    p' = p_set_calls (p_set_handlers p (<[SIGTERM := EXIT_HANDLER]> (<[SIGINT := EXIT_HANDLER]> (p_handlers p)))) n) start_ends False p.
Proof.
  unfold fk_signal_register. apply pwp_sigaction; [done|]. apply pwp_bind.
  unfold sigaction. apply pwp_succeeds. destruct (k_ok k _); cbn; [apply pwp_mod, pwp_ret; cbn; by eexists|].
  apply pwp_ret. cbn. eapply pwp_mono; [by apply pwp_log_exit|done].
Qed.

Lemma set_pwd_does {B} Q U (f : unit -> PR B) p :
  (forall p', writes (p_set_cwd p (resolve (p_cwd p) (cf_dir (p_setting p)))) p' -> pwp (f tt) Q start_ends U p') ->
  pwp (x ← fk_set_pwd k; f x) Q start_ends U p.
Proof.
  intros H. apply pwp_bind. unfold fk_set_pwd. apply pwp_get, pwp_bind. unfold chdir. apply pwp_succeeds. destruct (k_ok k _).
  - apply pwp_mod, pwp_ret. cbn. change (fk_log_info k) with (fk_log k FK_LOG_INFO). apply pwp_bind_ret.
    apply pwp_log; [by unfold FK_LOG_INFO|by eexists; reflexivity|]. intros p' W. apply pwp_ret, H. etrans; [|exact W]. by split.
  - apply pwp_ret. cbn. eapply pwp_mono; [by apply pwp_log_exit|done].
Qed.

Lemma log_init_does {B} Q U path level (f : unit -> PR B) p : let q := resolve (p_cwd p) path in
  pwp (f tt) Q start_ends U (p_set_log (p_set_fds (p_set_files (p_tick p) (<[q := default [] (p_files p !! q)]> (p_files p)))
    (<[new_fd p := File q]> (p_fds p))) (FkLog level (Some (new_fd p)))) ->
  pwp (x ← fk_log_init k path level; f x) Q start_ends U p.
Proof.
  intros q H. apply pwp_bind. unfold fk_log_init. apply pwp_fopen.
  - intros _. unfold print_out. apply pwp_mod. by left.
  - apply pwp_mod. exact H.
Qed.

Lemma load_conf_does {B} Q U conf c (f : unit -> PR B) p : conf_gives conf c ->
  pwp (f tt) Q start_ends U (p_set_setting p c) -> pwp (x ← load_conf k conf; f x) Q start_ends U p.
Proof.
  intros Hc H. apply pwp_bind. unfold load_conf. destruct conf as [[lines|]|]; [|done|]; cbn [conf_gives] in Hc; by rewrite Hc; apply pwp_mod.
Qed.

Lemma boot_does conf c p : conf_gives conf c -> forks_ok k p ->
  pwp (fk_boot k conf) (fun _ p' => ready c p p') start_ends (cf_daemon c <> 0 /\ exists n, k_ok k n = false) p.
Proof.
  intros Hc Hf. unfold fk_boot. apply pwp_bind. unfold fk_set_seed. apply pwp_time, pwp_mod. cbv beta.
  eapply load_conf_does; [exact Hc|]. match goal with |- pwp _ _ _ _ ?q => set (p0 := q) end.
  assert (forks_ok k p0) as Hf0 by by destruct Hf.
  apply pwp_bind. eapply pwp_weaken; [by apply daemonize_moves|done|]. intros [] p1 [M1 M2 M3 M4 M5 M6].
  change (p_setting p0) with c in *. apply set_pwd_does. intros p2 W2. rewrite M6 in W2.
  apply pwp_bind. eapply pwp_weaken; [apply set_limit_computes|done|]. intros [] p3 (ok & HL & W3).
  rewrite (wr_setting _ _ W2) in HL. cbn in HL. rewrite M6 in HL. destruct (limit_keeps _ _ _ _ _ _ HL) as (L1 & L2 & L3 & L4).
  apply pwp_get, log_init_does, pwp_pidfile; cbn [p_setting p_set_log p_set_fds p_set_files p_tick p_set_calls].
  { rewrite L1. eauto. }
  intros p4 W4 Hp. eapply pwp_weaken; [apply signal_register_does|done|]. intros [] p5 [n ->].
  destruct W2, W3, W4. cbn in *. destruct (new_fd_spec p3) as (_ & Hn & _).
  split; cbn; try congruence; rewrite ?wr_ids2, ?wr_ids1, ?wr_ids0; try done.
  - exists ok. by rewrite wr_setting1, wr_nofile1.
  - by rewrite wr_ids.
  - exists (new_fd p3). rewrite <- M2, <- wr_fds, <- wr_fds0. split; [done|]. rewrite wr_fds1, wr_log1, wr_cwd1. by rewrite L2, L4.
  - intros Hd Hn'. rewrite wr_cwd1, <- L3 in *. rewrite Hp; [by rewrite wr_ids0|by rewrite L1|done].
Qed.

(** ** The whole program *)

(** [fk_setrlimit] lowers the number of connections to what the limit allows, and changes
    nothing else in the setting. *)
Lemma limit_conns l ok euid c c' r : fk_setrlimit (Some l) ok euid c = Some (c', r) -> 17 <= rlim_max l ->
  0 <= cf_max_conns c < 2 ^ 31 - 17 ->
  0 <= cf_max_conns c' <= cf_max_conns c /\ c' = set_max_conns c (cf_max_conns c') /\
  fk_util_conns_to_files (cf_max_conns c') <= rlim_max r.
Proof.
  intros H Hl Hc. unfold fk_setrlimit in H. assert (set_max_conns c (cf_max_conns c) = c) as Ec by by destruct c.
  unfold fk_util_conns_to_files, fk_util_files_to_conns in *. rewrite i32_small in H by lia.
  unfold u64 in H. rewrite Z.mod_small in H by lia. cbn [option_map] in H.
  destruct (Z.ltb_spec (rlim_max l) (cf_max_conns c + 1 + 16)).
  - destruct (euid =? 0), ok; simplify_eq; cbn; [by split; [lia|]; split; [|lia]|].
    rewrite i32_small by lia. split; [lia|]. split; [done|lia].
  - simplify_eq. split; [lia|]. by split.
Qed.

Lemma size_union_le (a b : gset Z) : (size (a ∪ b) <= size a + size b)%nat.
Proof. rewrite size_union_alt. pose proof (subseteq_size (b ∖ a) b ltac:(set_solver)). lia. Qed.

(** The descriptors with which the server starts. *)
Lemma ready_size c p p' : ready c p p' -> (size (dom (p_fds p')) <= size (dom (p_fds p)) + 4)%nat.
Proof.
  intros R. destruct (rd_fds _ _ _ R) as (fd & _ & -> & _). rewrite dom_insert_L.
  assert (size (dom std_null) = 3)%nat as E by reflexivity.
  destruct (cf_daemon c =? 0); rewrite ?dom_union_L.
  - pose proof (size_union_le {[fd]} (dom (p_fds p))). rewrite size_singleton in *. lia.
  - pose proof (size_union_le {[fd]} (dom std_null ∪ dom (p_fds p))). pose proof (size_union_le (dom std_null) (dom (p_fds p))).
    rewrite size_singleton in *. lia.
Qed.

Lemma ready_writes c p q p' : writes p q -> ready c q p' -> ready c p p'.
Proof. intros [] []. split; congruence || (rewrite ?wr_ids, ?wr_fds in *; done). Qed.

Lemma writes_print s p : exists q, print_out k s p = Go tt q /\ writes p q.
Proof.
  eexists. split; [reflexivity|]. cbv zeta. case_match; [etrans; [|apply writes_flush]|]; by split.
Qed.

(** C28. A daemon is detached: [fk_daemonize] does nothing in the foreground; else it
    returns in a process with a new number, in a new session that it does not lead and
    that has no terminal, whose descriptors 0, 1 and 2 are [/dev/null] and all others what
    they were, also if some of the three were closed; the file mode mask is 0 and nothing
    else has changed. The two other processes end with success, and whenever a call fails
    the process ends with failure. *)
Theorem daemonize_detaches p : forks_ok k p ->
  pwp (fk_daemonize k) (fun _ p' => if cf_daemon (p_setting p) =? 0 then p' = p else
    exists i s n, p' = daemon_of p i s n /\ i <> s /\ i <> pid (p_ids p) /\ s <> sid (p_ids p)) start_ends False p.
Proof. apply daemonize_does. Qed.

(** The process after the end of the server. *)
Definition pidfile_removed (p : proc) : proc :=
  if cf_daemon (p_setting p) =? 0 then p
  else if k_ok k (p_calls p) then p_set_files (p_tick p) (delete (resolve (p_cwd p) (cf_pid_path (p_setting p))) (p_files p))
  else p_tick p.

(** C27. The whole program, from [main] to its end, with a server that is any function of
    the setting and of the open descriptors: it returns 0 exactly when the process was
    made ready and the server ended with success, and then the process file is removed;
    when the server ends with a failure the process does too, and its file stays. It is
    undefined only if the server is or the process file of a daemon cannot be opened. *)
Theorem freekick_runs serve argc conf c p : argc <= 2 -> conf_gives (if argc =? 2 then conf else None) c -> forks_ok k p ->
  pwp (freekick k serve argc conf)
    (fun rt p' => rt = 0 /\ exists p1 sv, ready c p p1 /\ serve (p_setting p1) (dom (p_fds p1)) = Some (EXIT_SUCCESS, sv) /\ p' = pidfile_removed p1)
    (fun e p' => start_ends e p' \/ exists p1 rt sv, ready c p p1 /\ serve (p_setting p1) (dom (p_fds p1)) = Some (rt, sv) /\ rt <> EXIT_SUCCESS /\
      e = ByExit EXIT_FAILURE /\ p' = flush_out p1)
    ((cf_daemon c <> 0 /\ exists n, k_ok k n = false) \/ exists p1, ready c p p1 /\ serve (p_setting p1) (dom (p_fds p1)) = None) p.
Proof.
  intros Ha Hc Hf. unfold freekick. rewrite (proj2 (Z.ltb_ge 2 argc)) by lia. set (conf' := if argc =? 2 then conf else None) in *.
  apply pwp_bind, pwp_ret.
  assert (exists q, (match conf' with None => print_out k (lit "no config file specified, using the default setting" ++ [LF]) | Some _ => mret tt end) p = Go tt q
    /\ writes p q) as (q & Eq & W) by (destruct conf'; [by exists p|apply writes_print]).
  assert (forks_ok k q) as Hq by (destruct Hf; split; by rewrite ?(wr_ids _ _ W)).
  unfold pwp. erewrite pr_bind_go by exact Eq. pose proof (boot_does conf' c q Hc Hq) as HB. unfold pwp in HB.
  unfold mbind at 1, PR_bind at 1. destruct (fk_boot k conf' q) as [[] p1|e p1|]; [|by left..].
  apply (ready_writes _ _ _ _ W) in HB. unfold fk_remove_pidfile, remove, succeeds, question, mbind, PR_bind, pr_get, pr_lift, mret, PR_ret, pr_mod.
  destruct (serve (p_setting p1) (dom (p_fds p1))) as [[rt sv]|] eqn:Es; [|right; by exists p1].
  unfold EXIT_SUCCESS. destruct (Z.eqb_spec rt 0) as [->|Hr]; [|right; by exists p1, rt, sv].
  assert (forall p', p' = pidfile_removed p1 -> 0 = 0 /\ exists p1 sv, ready c p p1 /\ serve (p_setting p1) (dom (p_fds p1)) = Some (0, sv) /\ p' = pidfile_removed p1)
    as HQ by (intros p' ->; split; [done|]; by exists p1, sv).
  unfold pidfile_removed in HQ at 1. destruct (cf_daemon (p_setting p1) =? 0); [by apply HQ|]. destruct (k_ok k (p_calls p1)); by apply HQ.
Qed.
End boot.

(** ** From the start of the program to the server *)

Section serve.
Context {X A : Type} `{!Mpx X A, !MpxLaws X A, !MpxReliable X A}.
Context (k : kernel) (o : os) (room : stdio) (fopen_ok rename_ok : bool) (clear_fuel : nat).
Context (run_script : bytes -> list bytes -> list bytes -> ST world unit).
Context (d : disk) (clock : nat -> timeval) (next : Z) (x : fk_conf -> X).

(** A configuration with which a server can start on this machine: [server_ok] without
    the conditions on what [fk_boot] has prepared. *)
Record conf_ok (c : fk_conf) : Prop := {
  co_os : os_ok o;
  co_calm : calm o c;
  co_fuel : cf_dbcnt c < Z.of_nat clear_fuel;
  co_dbcnt : 1 <= cf_dbcnt c < 2 ^ 31;
  co_conns : 0 <= cf_max_conns c < 2 ^ 31 - 17;
  co_wbuf : 0 <= cf_max_wbuf c <= WBUF_HIGHWAT_MAX;
  co_blog : cf_blog_on c = 1 -> dk_blog_open d = true /\ dk_blog d = [];
  co_listen : dk_listen d = true;
  co_db : dk_db d = None \/ exists s, source_ok c s /\ dk_db d = Some (r_file s);
  co_next : 0 < next;
  co_limit : forall l, k_limit k = Some l -> 17 <= rlim_max l;
  co_mpx : forall n, 0 <= n -> mpx_ok (fk_util_conns_to_files n) (x (set_max_conns c n)) /\ forall fd, watch (x (set_max_conns c n)) fd = 0
}.

Lemma ready_server_ok c p p' : conf_ok c -> (size (dom (p_fds p)) <= 11)%nat -> ready k c p p' ->
  server_ok o clear_fuel d (dom (p_fds p')) next (x (p_setting p')) (p_setting p').
Proof.
  intros [] Hs R. pose proof (ready_size k c p p' R) as Hn. destruct (rd_limit _ _ _ _ R) as [ok HL].
  destruct (k_limit k) as [l|]; [|done]. destruct (limit_conns _ _ _ _ _ _ HL (co_limit0 l eq_refl) co_conns0) as (H1 & H2 & _).
  destruct (co_mpx0 (cf_max_conns (p_setting p')) ltac:(lia)) as [M1 M2]. rewrite <- H2 in M1, M2.
  assert (cf_blog_on (p_setting p') = cf_blog_on c) as Eb by by rewrite H2.
  assert (cf_dbcnt (p_setting p') = cf_dbcnt c) as Ed by by rewrite H2.
  assert (cf_max_wbuf (p_setting p') = cf_max_wbuf c) as Ew by by rewrite H2.
  split; rewrite ?Ed; try done; [by eapply calm_ext|]. split; [split|..]; rewrite ?Eb, ?Ed, ?Ew; try done; try lia; try apply co_blog0.
  destruct co_db0 as [?|(s & Hs' & ?)]; [by left|right]. exists s. split; [|done]. by eapply source_ext.
Qed.

(** C8. From the start of the program to the server: with a configuration that is valid
    on this machine and at most 11 open descriptors, the program ends with an error, or as
    the parent of a daemon, or (if the process file of a daemon can be opened) it becomes a
    process as its setting says, with the log file open, in its directory, with its
    signals handled and its number in the process file, and there the server starts in a
    state of which the theorems about the whole server hold. *)
Theorem boot_serves conf c p : conf_gives conf c -> forks_ok k p -> conf_ok c -> (size (dom (p_fds p)) <= 11)%nat ->
  pwp (fk_boot k conf) (fun _ p' => let c' := p_setting p' in let open := dom (p_fds p') in
      ready k c p p' /\ server_ok o clear_fuel d open next (x c') c' /\
      exists s0, server_start o room fopen_ok rename_ok run_script d clock open next (x c') c' = Some (tt, s0) /\ ev_inv s0 /\
        alive o room fopen_ok rename_ok run_script d open next c' (view s0))
    start_ends (cf_daemon c <> 0 /\ exists n, k_ok k n = false) p.
Proof.
  intros Hc Hf Hok Hs. eapply pwp_weaken; [by apply boot_does|done|]. intros [] p' R.
  pose proof (ready_server_ok c p p' Hok Hs R) as S. split; [exact R|]. split; [exact S|].
  apply (start_reaches o room fopen_ok rename_ok clear_fuel run_script d clock _ next _ _ S).
Qed.
End serve.

(** ** Examples *)

Definition ex_conf_lines : list bytes := (fun s => s ++ [LF]) <$>
  [lit "daemon"; lit "maxconn 3"; lit "dir /srv"; lit "pidpath fk.pid"; lit "logpath fk.log"; lit "dump"].
Definition ex_conf : fk_conf := default fk_conf_default (default None (fk_conf_init (Some ex_conf_lines))).

Lemma ex_conf_given : conf_gives (Some (Some ex_conf_lines)) ex_conf.
Proof. vm_compute. reflexivity. Qed.

Lemma ex_forks_ok : forks_ok ex_kernel ex_proc.
Proof. split; cbn; [done| |]; intros; simplify_eq; lia. Qed.

Definition ex_daemon : proc := match fk_boot ex_kernel (Some (Some ex_conf_lines)) ex_proc with Go _ p => p | _ => ex_proc end.

(** What was logged before the log file was open went to [/dev/null]. *)
Example ex_daemon_is :
  p_files ex_daemon !! lit "/srv/fk.pid" = Some (lit "103" ++ [LF]) /\ p_files ex_daemon !! lit "/srv/fk.log" = Some [] /\
  p_fds ex_daemon = <[3 := File (lit "/srv/fk.log")]> std_null /\ p_shown ex_daemon = [] /\ p_ids ex_daemon = Ids 103 102 102 false.
Proof. vm_compute. done. Qed.

(** When the directory of a daemon cannot be entered (its ninth question), nobody is told. *)
Definition ex_no_dir : kernel := Kernel (k_fork ex_kernel) (fun n => negb (n =? 8)%nat) (k_err ex_kernel) (k_time ex_kernel) (k_localtime ex_kernel)
  (k_limit ex_kernel) (k_euid ex_kernel) (k_inet_addr ex_kernel) (k_line ex_kernel).

Example daemon_error_unseen : exists p, fk_boot ex_no_dir (Some (Some ex_conf_lines)) ex_proc = Ends (ByExit EXIT_FAILURE) p /\
  p_cwd p = p_cwd ex_proc /\ p_shown p = [] /\ p_files p = ∅ /\ p_out p = [].
Proof. eexists. split; [vm_compute; reflexivity|done]. Qed.

(** The same in the foreground is shown. *)
Example foreground_error_seen : exists p, fk_boot (Kernel (k_fork ex_kernel) (fun _ => false) (k_err ex_kernel) (k_time ex_kernel) (k_localtime ex_kernel)
    None 0 (k_inet_addr ex_kernel) true) None ex_proc = Ends (ByExit EXIT_FAILURE) p /\
  p_shown p = [(1, lit "[2026-01-02 03:04:05]<ERROR>chdir failed: error" ++ [LF])].
Proof. eexists. split; vm_compute; reflexivity. Qed.

(** The port in network order is twice swapped the port. *)
Lemma htons_twice port : 0 <= port < 2 ^ 16 -> htons (htons port) = port.
Proof.
  intros H. unfold htons. pose proof (Z.mod_pos_bound port 256 eq_refl). pose proof (Z.mod_pos_bound (port / 256) 256 eq_refl).
  rewrite Z.div_add_l, (Z.div_small ((port / 256) mod 256)), Z.add_0_r, Z.mod_mod by lia.
  rewrite (Z.add_comm ((port mod 256) * 256)), Z.mod_add, Z.mod_mod by lia.
  rewrite (Z.mod_small (port / 256)); [pose proof (Z.div_mod port 256 ltac:(lia)); lia|].
  split; [apply Z.div_pos; lia|apply Z.div_lt_upper_bound; lia].
Qed.

Definition ex_foreground : proc := p_set_setting ex_proc ex_conf.

Lemma ex_daemonize_goes : exists p', fk_daemonize ex_kernel ex_foreground = Go tt p'.
Proof. eexists. vm_compute. reflexivity. Qed.

Lemma ex_foreground_forks : forks_ok ex_kernel ex_foreground.
Proof. destruct ex_forks_ok as [F1 F2 F3]. split; [exact F1|exact F2|exact F3]. Qed.

Lemma daemonize_detaches_witness : exists p', fk_daemonize ex_kernel ex_foreground = Go tt p' /\
  if cf_daemon (p_setting ex_foreground) =? 0 then p' = ex_foreground
  else exists i s n, p' = daemon_of ex_foreground i s n /\ i <> s /\ i <> pid (p_ids ex_foreground) /\ s <> sid (p_ids ex_foreground).
Proof.
  destruct ex_daemonize_goes as [p' E]. exists p'. split; [exact E|].
  exact (pwp_go _ _ _ _ _ _ _ E (daemonize_detaches ex_kernel ex_foreground ex_foreground_forks)).
Defined.

Lemma ex_arg_given : conf_gives (if 2 =? 2 then Some (Some ex_conf_lines) else None) ex_conf.
Proof. exact ex_conf_given. Qed.

Definition ex_serve (_ : fk_conf) (_ : gset Z) : option (Z * fk_svr) := Some (EXIT_SUCCESS, ex_svr).

Lemma ex_run_goes : exists p', freekick ex_kernel ex_serve 2 (Some (Some ex_conf_lines)) ex_proc = Go 0 p'.
Proof. eexists. vm_compute. reflexivity. Qed.

Lemma freekick_runs_witness : exists p', freekick ex_kernel ex_serve 2 (Some (Some ex_conf_lines)) ex_proc = Go 0 p' /\
  exists p1 sv, ready ex_kernel ex_conf ex_proc p1 /\ ex_serve (p_setting p1) (dom (p_fds p1)) = Some (EXIT_SUCCESS, sv) /\ p' = pidfile_removed ex_kernel p1.
Proof.
  destruct ex_run_goes as [p' E]. exists p'. split; [exact E|].
  exact (proj2 (pwp_go _ _ _ _ _ _ _ E
    (freekick_runs ex_kernel ex_serve 2 (Some (Some ex_conf_lines)) ex_conf ex_proc (Z.le_refl 2) ex_arg_given ex_forks_ok))).
Defined.

#[local] Instance ex_boot_mpx : Mpx (fk_epoll (gmap Z Z)) epoll_ans := epoll_mpx ex_ctl.
#[local] Instance ex_boot_laws : MpxLaws (fk_epoll (gmap Z Z)) epoll_ans := epoll_laws ex_ctl ex_interest ex_ctl_ok.
#[local] Instance ex_boot_reliable : MpxReliable (fk_epoll (gmap Z Z)) epoll_ans := epoll_reliable ex_ctl ex_interest ex_ctl_ok ex_ctl_accepts.
Definition ex_backend (c : fk_conf) : fk_epoll (gmap Z Z) := fk_epoll_create ∅ (fk_util_conns_to_files (cf_max_conns c)).

Lemma ex_conf_ok : conf_ok ex_kernel ex_os 3 ex_disk 1 ex_backend ex_conf.
Proof.
  split.
  - exact ex_os_ok.
  - apply ex_calm.
  - vm_compute. reflexivity.
  - vm_compute. split; [discriminate|reflexivity].
  - vm_compute. split; [discriminate|reflexivity].
  - vm_compute. split; discriminate.
  - intros _. split; reflexivity.
  - reflexivity.
  - left. reflexivity.
  - lia.
  - intros l [= <-]. cbn. lia.
  - intros n Hn. apply (epoll_create_ok ex_interest); [unfold fk_util_conns_to_files; cbn; lia|done].
Qed.

Lemma ex_boot_goes : exists p', fk_boot ex_kernel (Some (Some ex_conf_lines)) ex_proc = Go tt p'.
Proof. eexists. vm_compute. reflexivity. Qed.

Lemma ex_proc_size : (size (dom (p_fds ex_proc)) <= 11)%nat.
Proof. vm_compute. lia. Qed.

Lemma boot_serves_witness : exists p', fk_boot ex_kernel (Some (Some ex_conf_lines)) ex_proc = Go tt p' /\
  server_ok ex_os 3 ex_disk (dom (p_fds p')) 1 (ex_backend (p_setting p')) (p_setting p').
Proof.
  destruct ex_boot_goes as [p' E]. exists p'. split; [exact E|].
  exact (proj1 (proj2 (pwp_go _ _ _ _ _ _ _ E
    (boot_serves ex_kernel ex_os (disk_of 4096) true true 3 ex_no_script ex_disk ex_clock 1 ex_backend (Some (Some ex_conf_lines)) ex_conf ex_proc
      ex_conf_given ex_forks_ok ex_conf_ok ex_proc_size)))).
Defined.
